(* ===== verification/_CoqProject ===== *)
-Q . S2P
Prelude.v
Const.v
ConstApp.v
Utils.v
Checksum.v
ProtoTypes.v
Dec.v
DecodePpp.v
DecodeNet.v
DecodeEth.v
DecodeSafe.v
DecodeQinq.v
Enc.v
EncodeApp.v
EncodePpp.v
EncodeEth.v
RoundTrip.v
PppRoundTrip.v
StreamPacket.v
Txq.v
Timer.v
TimerOrder.v
TimerWalk.v
TimerLost.v
Tcp.v
BgpMessage.v
BgpSession.v
BgpReceive.v
BgpFraming.v
BgpTx.v
BgpOpen.v
BgpStream.v
BgpSafe.v
ConstStream.v
ConstNet.v
Stream.v
StreamLoss.v
StreamBuild.v
StreamFrame.v
StreamSend.v
StreamRx.v
StreamEnd.v
StreamNet.v
IoStream.v
IoRate.v
IoExact.v
IoSetup.v
IoUpdate.v
Lag.v
LagSelect.v
LagRun.v
LagErrors.v
Session.v
SessionDhcp.v
SessionIgmp.v
SessionAccess.v
SessionTx.v
SessionSys.v
SessionIgmpCtrl.v
SessionInit.v
SessionCount.v
SessionKeeps.v
SessionRxKeeps.v
SessionTxKeeps.v
SessionExact.v
SessionErrors.v
Fragment.v
FragmentOrder.v
SessionIgmpJoin.v
L2tpAvp.v
L2tp.v
L2tpOrder.v
L2tpRound.v
L2tpHidden.v
L2tpErrors.v
