(* ===== verification/Prelude.v ===== *)
(** Verification of the core of BNG Blaster.

    BNG Blaster (src/code) tests broadband network gateways: it emulates thousands of
    PPPoE and IPoE subscribers, a core network with routing protocols, and traffic
    between them whose packets carry sequence numbers and timestamps.  One main thread
    runs everything from timers (common/src/timer.c): a timer of each interface takes
    received packets out of the kernel, [decode_ethernet] (bbl_protocols.c) turns them
    into header structures, and the handlers of the interface (bbl_access.c,
    bbl_network.c) hand them to sessions, clients and streams; another one sends what
    sessions and clients have queued, written by [encode_ethernet].  Optional I/O
    threads exchange packets with the main thread over rings (bbl_txq.c).  BGP, LDP and
    HTTP run on TCP contexts (bbl_tcp.c) over the lwIP stack.

    * How the code is modelled

    A C integer is a [Z] with the wrap-around of its type written out.  A pointer into
    a packet is the suffix of the packet that starts there, [None] being NULL; a
    pointer to a structure is its address in a store or its index in a table.  Code
    that returns errors gives a sum type, and an access outside of a buffer, through
    NULL or through a dangling link is an outcome of its own: [Fault] of Dec.v and
    Session.v, [WFault] of Enc.v, [None] elsewhere; a failed [assert] is [Assert].
    Constants have the values of the headers on a little-endian LP64 host.  Every
    definition is executable and the examples and witnesses evaluate it.

    * Files

    - Prelude.v: integers, lists, tactics and hints the other files share; Const.v,
      ConstApp.v, ConstStream.v and ConstNet.v: the constants of the headers.
    - Utils.v, Checksum.v: common/src/utils.c and checksum.c, and the Internet checksums
      of bbl_protocols.c.
    - ProtoTypes.v: the structures of bbl_protocols.h.  Dec.v is the monad of the
      decoders, DecodePpp.v, DecodeNet.v and DecodeEth.v are the decoders; Enc.v,
      EncodeApp.v, EncodePpp.v and EncodeEth.v the encoders (bbl_protocols.c).
      DecodeSafe.v and DecodeQinq.v are about the decoders, RoundTrip.v, PppRoundTrip.v
      and StreamPacket.v about encoders and decoders together.
    - Txq.v: bbl_txq.c, as an object and as two threads that share it.
    - Timer.v, TimerOrder.v, TimerWalk.v: common/src/timer.c.  TimerLost.v is about timers
      that are deleted and added again.
    - Tcp.v: bbl_tcp.c over the interface [Lwip] of the stack; BgpMessage.v,
      BgpSession.v, BgpReceive.v: bgp_message.c, bgp_session.c, bgp_receive.c with the
      handlers of bgp.c and bgp_ctrl.c.  BgpFraming.v, BgpTx.v, BgpOpen.v, BgpStream.v
      and BgpSafe.v are about them.
    - Stream.v, StreamBuild.v, StreamSend.v, StreamRx.v: bbl_stream.c, bbl_rx.c and the
      parts of bbl_stats.c and io/ that streams use.  StreamLoss.v, StreamFrame.v,
      StreamEnd.v and StreamNet.v are about them.
    - IoStream.v: io/io_stream.c and the choice of the next stream in bbl_stream.c.
      IoRate.v, IoExact.v and IoSetup.v are about the rate that results, IoUpdate.v about
      rates that are set again.
    - Lag.v: bbl_lag.c with the LACP packets of bbl_tx.c; LagSelect.v, LagRun.v and
      LagErrors.v are about it.
    - Session.v: the subscriber session of bbl_session.h and its state changes, reset
      and clearing (bbl_session.c).  SessionDhcp.v: bbl_dhcp.c and bbl_dhcpv6.c.
      SessionIgmp.v: bbl_igmp.c and the IGMP parts of bbl_access.c and bbl_tx.c.
      SessionAccess.v: the receive path of bbl_access.c.  SessionTx.v: the session
      packets and timeouts of bbl_tx.c.  SessionSys.v: all sessions, the control job of
      bbl.c, the commands, and the dispatch of packets and timers.  SessionInit.v:
      [bbl_sessions_init].  SessionCount.v, SessionKeeps.v, SessionRxKeeps.v,
      SessionTxKeeps.v, SessionExact.v and SessionErrors.v are about them.
      SessionIgmpCtrl.v: the IGMP commands of the control socket (bbl_igmp.c), with
      SessionIgmpJoin.v about them.
    - Fragment.v: bbl_fragment.c, with FragmentOrder.v about it.
    - L2tpAvp.v: bbl_l2tp_avp.c; L2tp.v: bbl_l2tp.c.  L2tpOrder.v is about received
      messages, L2tpRound.v about what is written, L2tpHidden.v about hidden attributes
      of the first message, and L2tpErrors.v has examples of failures.

    * What is proved

    - Sessions: the counters that throttle the start of sessions and end the program
      are exact for PPPoE sessions in every run of the events the program expects
      ([session_counters_exact]); the sessions created at the start are those
      configured, and packets for their addresses reach them
      ([sessions_init_correct]); SessionErrors.v has the events that break the
      counters, and the inputs that overrun buffers.
    - Groups and fragments: a group that is joined is reported as often as the session's
      robustness says, when no other group is waiting ([igmp_join_reported]); the fragments
      of a unicast packet are reassembled in whatever order they arrive
      ([fragments_any_order]).
    - Streams: the counters of a stream are those of a reference definition on the
      received sequence numbers ([stream_loss_exact]), the packets built for UDP
      unicast streams fit into their buffers ([stream_build_frame]), and from end to end over a network that
      drops packets the program reports exactly the loss ([stream_end_to_end]).  The
      streams of an I/O handle never exceed their rate ([stream_rate_bounded]) and keep
      it when the transmit jobs run often enough ([stream_rate_configured]).
    - Link aggregation: in every run of LAGs with LACP the active links are the first
      eligible ones, and each stream is on the link that its flow selects
      ([lag_selection]).
    - Packets: no packet makes the decoders leave the packet or the scratchpad except
      in five decoders that miss a length check ([decode_ethernet_memory_safe]); what
      the encoders write the decoders read back; checksums verify.
    - Rings and timers: the ring implements a bounded FIFO, also between two threads
      outside of one window ([txq_refines_fifo], [spsc_fifo]); timer calls keep the
      buckets sorted ([timer_calls_invariant]), and a walk terminates and calls what is
      due ([timer_walk_terminates], [timer_walk_fires_due]), for callbacks that keep the
      conditions stated there.
    - BGP: a received stream of messages that are accepted is handled the same however it is cut into segments
      ([bgp_stream_equivalence]), what is sent is the concatenation of the messages
      ([bgp_tx_stream]), and no sequence of events follows NULL or leaves a buffer
      ([bgp_never_faults]).
    - L2TP: control messages are delivered once and in order ([l2tp_exactly_once]), and
      the attributes of an SCCRP are read back when the scratchpad has room for them
      ([l2tp_sccrp_roundtrip]).
    - Failures that the code has are theorems as well, over all states and inputs of the
      kind that shows them: the ring between two threads loses what it holds
      ([spsc_wrap_race]), a deleted timer cannot be added again ([timer_delete_add_lost]),
      streams whose rate is set again are lost ([update_pps_loses_streams]), a session is
      stopped before it was started ([stop_idle_session]), a hidden attribute comes before
      the secret is known ([l2tp_hidden_sccrq]), groups are joined and not reported
      ([igmp_join_iter_unsent]).  Some more are examples, computed on one input.

    * Bounds, fuel and assumptions

    - Loops that consume a packet have the number of its bytes as fuel; a decoder that
      uses more ([Endless]) is a fault, and the safety theorem shows that this happens
      in the LACP decoder only.  The recursion of [decode_ethernet] counts UDP headers,
      each of which takes bytes from the packet.
    - [timer_walk] has fuel for the timers and the timers their callbacks add;
      [timer_walk_terminates] gives an amount that is enough.  The loop over the OPEN
      parameters ends within 113 rounds for messages of up to 255 bytes and does not end
      at all for some longer ones.  The files of raw updates of BGP have at most
      2^32 - 4096 bytes.
    - [init_loop] has one round of fuel more than the configured sessions, which is
      proved to be enough, as that of [iter_turns] is in [igmp_join_iter_unsent];
      [reject_options] has as many as the buffer has bytes.  [avp_loop] has one round for
      each byte, and an attribute has at least six; [tx_loop] has two for each queued
      message, as each can add one StopCCN; [free_id] has one for each identifier, and
      the search of the code does not end either when all are in use.
    - A transmit job ([job] of IoExact.v) has the burst limit of the interface as its
      bound, and [stream_rate_configured] says which limit is enough.
    - Allocation succeeds.  The clock, [rand], MD5 and the answers of the transmit queue
      to sessions are functions given to the model, as are lwIP ([Lwip], with its
      documented behaviour in [LwipSpec]), the callbacks of timers, and what the device
      under test does to the headers of a packet ([forward]).
    - Rates ([double]) are rational numbers.  Log messages and times that are only
      displayed are left out.

    * Not modelled

    - The other clients: ICMP and HTTP clients, the rest of the ARP client, legal
      interception, and the receive path of network and A10NSP interfaces.  IS-IS, OSPF and LDP, but for the LDP data base that
      streams look up.
    - Set-up from the JSON configuration, the control socket with its JSON answers,
      reports, the interactive mode, logging and pcap files.
    - The system calls of the I/O back ends and of tun interfaces.
    - Vendored code (lwIP, the HTTP parser) and the LSP generator, a separate tool. *)

From Stdlib Require Export ZArith Lia.
From stdpp Require Export base list numbers option.
Open Scope Z_scope.

(** * Machine integers

    A C integer of width w is a [Z]; arithmetic that can leave the range is
    followed by the wrap-around of its type. *)

Definition u8 (x : Z) : Z := x mod 2 ^ 8.
Definition u16 (x : Z) : Z := x mod 2 ^ 16.
Definition u32 (x : Z) : Z := x mod 2 ^ 32.
Definition u64 (x : Z) : Z := x mod 2 ^ 64.

Lemma u8_small x : 0 <= x < 256 -> u8 x = x.
Proof. intros H. apply Z.mod_small. lia. Qed.
Lemma u16_small x : 0 <= x < 65536 -> u16 x = x.
Proof. intros H. apply Z.mod_small. lia. Qed.
Lemma u32_small x : 0 <= x < 4294967296 -> u32 x = x.
Proof. intros H. apply Z.mod_small. lia. Qed.
Lemma u64_small x : 0 <= x < 18446744073709551616 -> u64 x = x.
Proof. intros H. apply Z.mod_small. lia. Qed.

Lemma u8_range x : 0 <= u8 x < 256.
Proof. unfold u8. apply Z.mod_pos_bound. lia. Qed.
Lemma u16_range x : 0 <= u16 x < 65536.
Proof. unfold u16. apply Z.mod_pos_bound. lia. Qed.
Lemma u32_range x : 0 <= u32 x < 4294967296.
Proof. unfold u32. apply Z.mod_pos_bound. lia. Qed.
Lemma u64_range x : 0 <= u64 x < 18446744073709551616.
Proof. unfold u64. apply Z.mod_pos_bound. lia. Qed.

Lemma u8_le x : 0 <= x -> u8 x <= x.
Proof. intros. apply Z.mod_le; lia. Qed.
Lemma u16_le x : 0 <= x -> u16 x <= x.
Proof. intros. apply Z.mod_le; lia. Qed.

Lemma u16_add x y : u16 (u16 x + y) = u16 (x + y).
Proof. unfold u16. by rewrite Zplus_mod_idemp_l. Qed.
Lemma u16_sub x y : u16 (u16 x - u16 y) = u16 (x - y).
Proof. unfold u16. by rewrite Zminus_mod_idemp_l, Zminus_mod_idemp_r. Qed.

Lemma u64_mod m x : (m | 2 ^ 64) -> u64 x mod m = x mod m.
Proof. intros Hd. unfold u64. by apply Z.mod_mod_divide. Qed.

(** [case_if] splits on the boolean tests of the goal and turns each of them
    into the arithmetic fact it decides. *)
Ltac bool_to_prop :=
  repeat match goal with
  | H : (_ && _)%bool = true |- _ => apply andb_true_iff in H as [? ?]
  | H : (_ || _)%bool = false |- _ => apply orb_false_iff in H as [? ?]
  | H : (_ || _)%bool = true |- _ =>
      apply orb_true_iff in H; rewrite ?orb_true_iff, ?Z.ltb_lt, ?Z.leb_le, ?Z.eqb_eq in H
  | H : (_ && _)%bool = false |- _ =>
      apply andb_false_iff in H; rewrite ?andb_false_iff, ?Z.ltb_ge, ?Z.leb_gt, ?Z.eqb_neq in H
  | H : negb _ = true |- _ => apply negb_true_iff in H
  | H : negb _ = false |- _ => apply negb_false_iff in H
  | H : (_ <? _) = true |- _ => apply Z.ltb_lt in H
  | H : (_ <? _) = false |- _ => apply Z.ltb_ge in H
  | H : (_ <=? _) = true |- _ => apply Z.leb_le in H
  | H : (_ <=? _) = false |- _ => apply Z.leb_gt in H
  | H : (_ =? _) = true |- _ => apply Z.eqb_eq in H
  | H : (_ =? _) = false |- _ => apply Z.eqb_neq in H
  | H : (_ >? _) = true |- _ => rewrite Z.gtb_ltb in H
  | H : (_ >? _) = false |- _ => rewrite Z.gtb_ltb in H
  | H : (_ >=? _) = true |- _ => rewrite Z.geb_leb in H
  | H : (_ >=? _) = false |- _ => rewrite Z.geb_leb in H
  end.

Ltac case_if :=
  match goal with
  | |- context [if ?b then _ else _] =>
      lazymatch type of b with
      | bool => let E := fresh "E" in destruct b eqn:E; bool_to_prop
      end
  end.

(** [const_go] replaces the named numbers of the goal by their values. *)
Ltac const_go :=
  repeat match goal with
  | |- context [?c] =>
      is_const c; lazymatch type of c with Z => let v := eval red in c in change c with v end
  end.

(** * Bytes

    A buffer is a list of bytes, each a [Z] below 256. *)

Definition bytes (bs : list Z) : Prop := Forall (fun b => 0 <= b < 256) bs.

Lemma bytes_nil : bytes [].
Proof. constructor. Qed.
Lemma bytes_cons b bs : bytes (b :: bs) <-> 0 <= b < 256 /\ bytes bs.
Proof. apply Forall_cons_iff. Qed.
Lemma bytes_app b1 b2 : bytes (b1 ++ b2) <-> bytes b1 /\ bytes b2.
Proof. apply Forall_app. Qed.
Lemma bytes_drop n bs : bytes bs -> bytes (drop n bs).
Proof. apply Forall_drop. Qed.
Lemma bytes_take n bs : bytes bs -> bytes (take n bs).
Proof. apply Forall_take. Qed.
Lemma bytes_replicate n b : 0 <= b < 256 -> bytes (replicate n b).
Proof. intros. by apply Forall_replicate. Qed.

Create HintDb bbl.
Create Rewrite HintDb bbl_len.
#[export] Hint Resolve bytes_nil bytes_drop bytes_take bytes_replicate : bbl.
#[export] Hint Resolve u8_range u16_range u32_range u64_range : bbl.

(** Big-endian and little-endian numbers as byte lists. *)

Fixpoint be_split (n : nat) (v : Z) : list Z :=
  match n with
  | O => []
  | S m => (v / 256 ^ Z.of_nat m) mod 256 :: be_split m v
  end.

Fixpoint le_split (n : nat) (v : Z) : list Z :=
  match n with
  | O => []
  | S m => v mod 256 :: le_split m (v / 256)
  end.

Definition be_combine (bs : list Z) : Z := foldl (fun v b => v * 256 + b) 0 bs.

Fixpoint le_combine (bs : list Z) : Z :=
  match bs with
  | [] => 0
  | b :: bs' => b + 256 * le_combine bs'
  end.

Lemma be_split_length n v : length (be_split n v) = n.
Proof. induction n; simpl; auto. Qed.
Lemma le_split_length n v : length (le_split n v) = n.
Proof. revert v; induction n; simpl; auto. Qed.
#[export] Hint Rewrite be_split_length le_split_length : bbl_len.

Lemma be_split_bytes n v : bytes (be_split n v).
Proof. induction n; simpl; constructor; auto. apply Z.mod_pos_bound. lia. Qed.
Lemma le_split_bytes n v : bytes (le_split n v).
Proof.
  revert v; induction n as [|n IH]; intros v; simpl; constructor; [|apply IH].
  apply Z.mod_pos_bound. lia.
Qed.
#[export] Hint Resolve be_split_bytes le_split_bytes : bbl.

Lemma pow256_pos n : 0 < 256 ^ Z.of_nat n.
Proof. apply Z.pow_pos_nonneg; lia. Qed.

Lemma foldl_be_shift bs acc :
  foldl (fun v b => v * 256 + b) acc bs = acc * 256 ^ Z.of_nat (length bs) + be_combine bs.
Proof.
  unfold be_combine. revert acc. induction bs as [|b bs IH]; intros acc; cbn [foldl length]; [simpl; lia|].
  rewrite (IH (acc * 256 + b)), (IH (0 * 256 + b)).
  rewrite Nat2Z.inj_succ, Z.pow_succ_r by lia. lia.
Qed.

Lemma be_combine_cons b bs :
  be_combine (b :: bs) = b * 256 ^ Z.of_nat (length bs) + be_combine bs.
Proof. unfold be_combine at 1. simpl. rewrite foldl_be_shift. lia. Qed.

Lemma be_combine_app b1 b2 :
  be_combine (b1 ++ b2) = be_combine b1 * 256 ^ Z.of_nat (length b2) + be_combine b2.
Proof. unfold be_combine at 1. rewrite foldl_app. apply foldl_be_shift. Qed.

Lemma be_combine_split n v : be_combine (be_split n v) = v mod 256 ^ Z.of_nat n.
Proof.
  induction n as [|n IH]; [simpl; by rewrite Z.mod_1_r|].
  cbn [be_split]. rewrite be_combine_cons, IH, be_split_length.
  rewrite Nat2Z.inj_succ, Z.pow_succ_r by lia.
  rewrite (Z.mul_comm 256), Z.rem_mul_r by (pose proof (pow256_pos n); lia). lia.
Qed.

Lemma be_combine_bound bs : bytes bs -> 0 <= be_combine bs < 256 ^ Z.of_nat (length bs).
Proof.
  induction 1 as [|b bs Hb _ IH]; [vm_compute; split; [discriminate|reflexivity]|].
  rewrite be_combine_cons. cbn [length]. rewrite Nat2Z.inj_succ, Z.pow_succ_r by lia. nia.
Qed.

Lemma be_split_add n m b v : (n <= m)%nat ->
  be_split n (b * 256 ^ Z.of_nat m + v) = be_split n v.
Proof.
  induction n as [|n IHn]; intros Hm; [done|]. cbn [be_split].
  rewrite IHn by lia. f_equal.
  replace (Z.of_nat m) with (Z.of_nat (m - S n) + (1 + Z.of_nat n)) by lia.
  rewrite !Z.pow_add_r by lia.
  replace (b * (256 ^ Z.of_nat (m - S n) * (256 ^ 1 * 256 ^ Z.of_nat n)) + v)
    with ((b * 256 ^ Z.of_nat (m - S n) * 256) * 256 ^ Z.of_nat n + v) by lia.
  pose proof (pow256_pos n). rewrite Z.div_add_l by lia.
  by rewrite Z.add_comm, Z.mod_add by lia.
Qed.

Lemma be_split_combine bs : bytes bs -> be_split (length bs) (be_combine bs) = bs.
Proof.
  induction 1 as [|b bs Hb Hbs IH]; [done|]. cbn [length be_split].
  pose proof (be_combine_bound bs Hbs). pose proof (pow256_pos (length bs)).
  rewrite be_combine_cons, be_split_add, IH by lia. f_equal.
  rewrite Z.div_add_l, (Z.div_small (be_combine bs)) by lia.
  rewrite Z.add_0_r. by apply Z.mod_small.
Qed.

Lemma le_combine_split n v : le_combine (le_split n v) = v mod 256 ^ Z.of_nat n.
Proof.
  revert v; induction n as [|n IH]; intros v; [simpl; by rewrite Z.mod_1_r|].
  cbn [le_split le_combine]. rewrite IH, Nat2Z.inj_succ, Z.pow_succ_r by lia.
  rewrite Z.rem_mul_r by (pose proof (pow256_pos n); lia). lia.
Qed.

Lemma le_combine_bound bs : bytes bs -> 0 <= le_combine bs < 256 ^ Z.of_nat (length bs).
Proof.
  induction 1 as [|b bs Hb _ IH]; [vm_compute; split; [discriminate|reflexivity]|].
  cbn [length le_combine]. rewrite Nat2Z.inj_succ, Z.pow_succ_r by lia. nia.
Qed.

Lemma le_split_combine bs : bytes bs -> le_split (length bs) (le_combine bs) = bs.
Proof.
  induction 1 as [|b bs Hb Hbs IH]; [done|]. cbn [length le_split le_combine].
  rewrite (Z.mul_comm 256), Z.mod_add, Z.div_add by lia.
  rewrite Z.mod_small, (Z.div_small b) by lia. by rewrite Z.add_0_l, IH.
Qed.

(** * Lists *)

Lemma drop_drop_Z {A} (l : list A) (n m : nat) : drop m (drop n l) = drop (n + m) l.
Proof. apply drop_drop. Qed.

Lemma take_app_exact {A} (l k : list A) n : n = length l -> take n (l ++ k) = l.
Proof. intros ->. apply take_app_length. Qed.
Lemma drop_app_exact {A} (l k : list A) n : n = length l -> drop n (l ++ k) = k.
Proof. intros ->. apply drop_app_length. Qed.
Lemma alter_middle {A} (f : A -> A) l1 b l2 : alter f (length l1) (l1 ++ b :: l2) = l1 ++ f b :: l2.
Proof. rewrite <- (Nat.add_0_r (length l1)). by rewrite alter_app_r. Qed.

(** A property of bytes is decided by the 256 cases. *)
Lemma byte_cases (P : Z -> bool) :
  forallb P (map Z.of_nat (seq 0 256)) = true -> forall v, 0 <= v < 256 -> P v = true.
Proof.
  intros H v Hv. rewrite forallb_forall in H. apply H, in_map_iff.
  exists (Z.to_nat v). split; [lia|]. apply in_seq. lia.
Qed.

(** * Reflexive transitive closure of a step relation *)

Section Closure.
Context {A : Type} (R : A -> A -> Prop).

Inductive steps : A -> A -> Prop :=
| steps_refl a : steps a a
| steps_cons a b c : R a b -> steps b c -> steps a c.

Lemma steps_trans a b c : steps a b -> steps b c -> steps a c.
Proof. induction 1; eauto using steps. Qed.

(** Rule induction for invariants: what holds initially and is preserved by
    every step holds in every reachable state. *)
Lemma steps_invariant (I : A -> Prop) a b :
  (forall x y, I x -> R x y -> I y) -> I a -> steps a b -> I b.
Proof. intros HR Ha Hs. induction Hs; eauto. Qed.
End Closure.
