(* ===== verification/Const.v ===== *)
(** The constants of the C headers that the protocol code uses, under their C
    names: bbl_protocols.h, common.h, isis_def.h, ospf_def.h, ldp_def.h and
    bbl_def.h, and the sizes of the structures on the LP64 targets the program
    is built for.  Constants whose value a header gives for both byte orders
    are those of a little-endian host. *)
From Stdlib Require Import ZArith.
Open Scope Z_scope.

Definition BROADBAND_FORUM : Z := 3561.
Definition BBL_MAGIC_NUMBER : Z := 0x5274427269636b21.
Definition BBL_UDP_PORT : Z := 65056.
Definition BBL_HEADER_LEN : Z := 48.
Definition BBL_MIN_LEN : Z := 90.
Definition BBL_TYPE_UNICAST : Z := 1.
Definition BBL_TYPE_MULTICAST : Z := 2.
Definition BROADBAND_FORUM_VENDOR_ID : Z := 3561.
Definition ETH_TYPE_VLAN : Z := 0x8100.
Definition ETH_TYPE_QINQ : Z := 0x88A8.
Definition ETH_TYPE_PPPOE_DISCOVERY : Z := 0x8863.
Definition ETH_TYPE_PPPOE_SESSION : Z := 0x8864.
Definition ETH_TYPE_ARP : Z := 0x0806.
Definition ETH_TYPE_IPV4 : Z := 0x0800.
Definition ETH_TYPE_IPV6 : Z := 0x86dd.
Definition ETH_TYPE_CFM : Z := 0x8902.
Definition ETH_TYPE_MPLS : Z := 0x8847.
Definition ETH_TYPE_LACP : Z := 0x8809.
Definition SLOW_PROTOCOLS_LACP : Z := 0x01.
Definition LACP_TLV_TERMINATOR : Z := 0x00.
Definition LACP_TLV_ACTOR_INFORMATION : Z := 0x01.
Definition LACP_TLV_PARTNER_INFORMATION : Z := 0x02.
Definition LACP_TLV_COLLECTOR_INFORMATION : Z := 0x03.
Definition NB_ETH_TYPE_VLAN : Z := 0x0081.
Definition NB_ETH_TYPE_QINQ : Z := 0xA888.
Definition NB_ETH_TYPE_IPV4 : Z := 0x0008.
Definition NB_ETH_TYPE_IPV6 : Z := 0xdd86.
Definition NB_ETH_TYPE_MPLS : Z := 0x4788.
Definition BBL_ETH_VLAN_ID_MAX : Z := 4095.
Definition ETH_IEEE_802_3_MAX_LEN : Z := 1500.
Definition LLC_HDR_LEN : Z := 3.
Definition OUI_LEN : Z := 3.
Definition IPV4_DF : Z := 0x4000.
Definition IPV6_HDR_LEN : Z := 40.
Definition PPPOE_TAG_SERVICE_NAME : Z := 0x0101.
Definition PPPOE_TAG_HOST_UNIQ : Z := 0x0103.
Definition PPPOE_TAG_AC_COOKIE : Z := 0x0104.
Definition PPPOE_TAG_VENDOR : Z := 0x0105.
Definition PPPOE_TAG_MAX_PAYLOAD : Z := 0x0120.
Definition PPPOE_PADT : Z := 0xa7.
Definition PROTOCOL_LCP : Z := 0xc021.
Definition PROTOCOL_IPCP : Z := 0x8021.
Definition PROTOCOL_IP6CP : Z := 0x8057.
Definition PROTOCOL_IPV4 : Z := 0x0021.
Definition PROTOCOL_IPV6 : Z := 0x0057.
Definition PROTOCOL_PAP : Z := 0xc023.
Definition PROTOCOL_CHAP : Z := 0xc223.
Definition PROTOCOL_IPV4_ICMP : Z := 0x01.
Definition PROTOCOL_IPV4_IGMP : Z := 0x02.
Definition PROTOCOL_IPV4_TCP : Z := 0x06.
Definition PROTOCOL_IPV4_UDP : Z := 0x11.
Definition PROTOCOL_IPV4_OSPF : Z := 0x59.
Definition PPP_CODE_VENDOR_SPECIFIC : Z := 0.
Definition PPP_CODE_CONF_REQUEST : Z := 1.
Definition PPP_CODE_CONF_ACK : Z := 2.
Definition PPP_CODE_CONF_NAK : Z := 3.
Definition PPP_CODE_CONF_REJECT : Z := 4.
Definition PPP_CODE_PROT_REJECT : Z := 8.
Definition PPP_CODE_ECHO_REQUEST : Z := 9.
Definition PPP_CODE_ECHO_REPLY : Z := 10.
Definition PPP_MAX_OPTIONS : Z := 8.
Definition PAP_CODE_REQUEST : Z := 1.
Definition CHAP_CODE_CHALLENGE : Z := 1.
Definition PPP_LCP_OPTION_MRU : Z := 1.
Definition PPP_LCP_OPTION_AUTH : Z := 3.
Definition PPP_LCP_OPTION_MAGIC : Z := 5.
Definition PPP_IPCP_OPTION_ADDRESS : Z := 3.
Definition PPP_IPCP_OPTION_DNS1 : Z := 129.
Definition PPP_IPCP_OPTION_DNS2 : Z := 131.
Definition PPP_IP6CP_OPTION_IDENTIFIER : Z := 1.
Definition IGMP_VERSION_1 : Z := 1.
Definition IGMP_VERSION_2 : Z := 2.
Definition IGMP_VERSION_3 : Z := 3.
Definition IGMP_TYPE_QUERY : Z := 0x11.
Definition IGMP_TYPE_REPORT_V1 : Z := 0x12.
Definition IGMP_TYPE_REPORT_V2 : Z := 0x16.
Definition IGMP_TYPE_REPORT_V3 : Z := 0x22.
Definition IGMP_TYPE_LEAVE : Z := 0x17.
Definition IGMP_MAX_SOURCES : Z := 3.
Definition IGMP_MAX_GROUPS : Z := 12.
Definition UDP_PROTOCOL_DHCPV6 : Z := 1.
Definition UDP_PROTOCOL_BBL : Z := 2.
Definition UDP_PROTOCOL_L2TP : Z := 3.
Definition UDP_PROTOCOL_QMX_LI : Z := 4.
Definition UDP_PROTOCOL_DHCP : Z := 5.
Definition UDP_PROTOCOL_LDP : Z := 6.
Definition IPV6_NEXT_HEADER_TCP : Z := 6.
Definition IPV6_NEXT_HEADER_UDP : Z := 17.
Definition IPV6_NEXT_HEADER_ICMPV6 : Z := 58.
Definition IPV6_NEXT_HEADER_OSPF : Z := 89.
Definition ICMPV6_OPTION_DEST_LINK_LAYER : Z := 2.
Definition ICMPV6_OPTION_PREFIX : Z := 3.
Definition ICMPV6_OPTION_DNS : Z := 25.
Definition DHCP_UDP_CLIENT : Z := 68.
Definition DHCP_UDP_SERVER : Z := 67.
Definition DHCP_RELAY_AGENT_VENDOR_SUBOPT : Z := 9.
Definition DHCPV6_TYPE_MASK : Z := 0x00ffffff.
Definition DHCPV6_UDP_CLIENT : Z := 546.
Definition DHCPV6_UDP_SERVER : Z := 547.
Definition L2TP_UDP_PORT : Z := 1701.
Definition L2TP_HDR_VERSION_MASK : Z := 0x0f.
Definition L2TP_HDR_CTRL_BIT_MASK : Z := 0x80.
Definition L2TP_HDR_LEN_BIT_MASK : Z := 0x40.
Definition L2TP_HDR_SEQ_BIT_MASK : Z := 0x08.
Definition L2TP_HDR_OFFSET_BIT_MASK : Z := 0x02.
Definition L2TP_HDR_PRIORITY_BIT_MASK : Z := 0x01.
Definition QMX_LI_UDP_PORT : Z := 49152.
Definition CFM_TYPE_CCM : Z := 1.
Definition CMF_MD_NAME_FORMAT_NONE : Z := 1.
Definition TCP_HDR_LEN_MIN : Z := 20.
Definition UDP_HDR_LEN : Z := 8.
Definition IPV6_ICMPV6_ROUTER_SOLICITATION : Z := 133.
Definition IPV6_ICMPV6_ROUTER_ADVERTISEMENT : Z := 134.
Definition IPV6_ICMPV6_NEIGHBOR_SOLICITATION : Z := 135.
Definition IPV6_ICMPV6_NEIGHBOR_ADVERTISEMENT : Z := 136.
Definition DHCPV6_MESSAGE_RELAY_FORW : Z := 12.
Definition DHCPV6_MESSAGE_RELAY_REPL : Z := 13.
Definition L2TP_MESSAGE_ZLB : Z := 32767.
Definition DHCPV6_OPTION_CLIENTID : Z := 1.
Definition DHCPV6_OPTION_SERVERID : Z := 2.
Definition DHCPV6_OPTION_IA_NA : Z := 3.
Definition DHCPV6_OPTION_IAADDR : Z := 5.
Definition DHCPV6_OPTION_ORO : Z := 6.
Definition DHCPV6_OPTION_ELAPSED_TIME : Z := 8.
Definition DHCPV6_OPTION_RELAY_MSG : Z := 9.
Definition DHCPV6_OPTION_STATUS_CODE : Z := 13.
Definition DHCPV6_OPTION_RAPID_COMMIT : Z := 14.
Definition DHCPV6_OPTION_VENDOR_OPTS : Z := 17.
Definition DHCPV6_OPTION_INTERFACE_ID : Z := 18.
Definition DHCPV6_OPTION_DNS_SERVERS : Z := 23.
Definition DHCPV6_OPTION_IA_PD : Z := 25.
Definition DHCPV6_OPTION_IAPREFIX : Z := 26.
Definition DHCPV6_OPTION_REMOTE_ID : Z := 37.
Definition DHCP_OPTION_PAD : Z := 0.
Definition DHCP_OPTION_SUBNET_MASK : Z := 1.
Definition DHCP_OPTION_ROUTER : Z := 3.
Definition DHCP_OPTION_DNS_SERVER : Z := 6.
Definition DHCP_OPTION_HOST_NAME : Z := 12.
Definition DHCP_OPTION_DOMAIN_NAME : Z := 15.
Definition DHCP_OPTION_INTERFACE_MTU : Z := 26.
Definition DHCP_OPTION_REQUESTED_IP_ADDRESS : Z := 50.
Definition DHCP_OPTION_IP_ADDRESS_LEASE_TIME : Z := 51.
Definition DHCP_OPTION_DHCP_MESSAGE_TYPE : Z := 53.
Definition DHCP_OPTION_SERVER_IDENTIFIER : Z := 54.
Definition DHCP_OPTION_PARAM_REQUEST_LIST : Z := 55.
Definition DHCP_OPTION_RENEWAL_TIME_VALUE : Z := 58.
Definition DHCP_OPTION_REBINDING_TIME_VALUE : Z := 59.
Definition DHCP_OPTION_VENDOR_CLASS_IDENTIFIER : Z := 60.
Definition DHCP_OPTION_CLIENT_IDENTIFIER : Z := 61.
Definition DHCP_OPTION_RELAY_AGENT_INFORMATION : Z := 82.
Definition DHCP_OPTION_END : Z := 255.
Definition ACCESS_LINE_ACI : Z := 0x01.
Definition ACCESS_LINE_ARI : Z := 0x02.
Definition ACCESS_LINE_AGG_ACC_CIRCUIT_ID_ASCII : Z := 0x03.
Definition ACCESS_LINE_ACT_UP : Z := 0x81.
Definition ACCESS_LINE_ACT_DOWN : Z := 0x82.
Definition ACCESS_LINE_MIN_UP : Z := 0x83.
Definition ACCESS_LINE_MIN_DOWN : Z := 0x84.
Definition ACCESS_LINE_ATT_UP : Z := 0x85.
Definition ACCESS_LINE_ATT_DOWN : Z := 0x86.
Definition ACCESS_LINE_MAX_UP : Z := 0x87.
Definition ACCESS_LINE_MAX_DOWN : Z := 0x88.
Definition ACCESS_LINE_MIN_UP_LOW : Z := 0x89.
Definition ACCESS_LINE_MIN_DOWN_LOW : Z := 0x8a.
Definition ACCESS_LINE_MAX_INTERL_DELAY_UP : Z := 0x8b.
Definition ACCESS_LINE_ACT_INTERL_DELAY_UP : Z := 0x8c.
Definition ACCESS_LINE_MAX_INTERL_DELAY_DOWN : Z := 0x8d.
Definition ACCESS_LINE_ACT_INTERL_DELAY_DOWN : Z := 0x8e.
Definition ACCESS_LINE_DATA_LINK_ENCAPS : Z := 0x90.
Definition ACCESS_LINE_DSL_TYPE : Z := 0x91.
Definition ACCESS_LINE_PON_TYPE : Z := 0x97.
Definition ACCESS_LINE_ETR_UP : Z := 0x9b.
Definition ACCESS_LINE_ETR_DOWN : Z := 0x9c.
Definition ACCESS_LINE_ATTETR_UP : Z := 0x9d.
Definition ACCESS_LINE_ATTETR_DOWN : Z := 0x9e.
Definition ACCESS_LINE_GDR_UP : Z := 0x9f.
Definition ACCESS_LINE_GDR_DOWN : Z := 0xa0.
Definition ACCESS_LINE_ATTGDR_UP : Z := 0xa1.
Definition ACCESS_LINE_ATTGDR_DOWN : Z := 0xa2.
Definition ACCESS_LINE_ONT_ONU_AVG_DOWN : Z := 0xb0.
Definition ACCESS_LINE_ONT_ONU_PEAK_DOWN : Z := 0xb1.
Definition ACCESS_LINE_ONT_ONU_MAX_UP : Z := 0xb2.
Definition ACCESS_LINE_ONT_ONU_ASS_UP : Z := 0xb3.
Definition ACCESS_LINE_PON_MAX_UP : Z := 0xb4.
Definition ACCESS_LINE_PON_MAX_DOWN : Z := 0xb5.
Definition ACCESS_LINE_PON_TYPE_LIHAWI_00 : Z := 0x92.
Definition ACCESS_LINE_ONT_ONU_AVG_DOWN_LIHAWI_00 : Z := 0x93.
Definition ACCESS_LINE_ONT_ONU_PEAK_DOWN_LIHAWI_00 : Z := 0x94.
Definition ACCESS_LINE_ONT_ONU_MAX_UP_LIHAWI_00 : Z := 0x95.
Definition ACCESS_LINE_ONT_ONU_ASS_UP_LIHAWI_00 : Z := 0x96.
Definition ACCESS_LINE_PON_MAX_UP_LIHAWI_00 : Z := 0x97.
Definition ACCESS_LINE_PON_MAX_DOWN_LIHAWI_00 : Z := 0x98.
Definition DRAFT_LIHAWI_00 : Z := 0.
Definition ETH_ADDR_LEN : Z := 6.
Definition IPV6_ADDR_LEN : Z := 16.
Definition ISIS_PROTOCOL_IDENTIFIER : Z := 0x83.
Definition ISIS_HDR_LEN_COMMON : Z := 8.
Definition OSPF_PDU_LEN_MIN : Z := 16.
Definition LDP_PORT : Z := 646.
Definition LDP_MESSAGE_TYPE_HELLO : Z := 0x0100.
Definition LDP_TLV_TYPE_MASK : Z := 0x3FFF.
Definition LDP_TLV_TYPE_COMMON_HELLO_PARAMETERS : Z := 0x0400.
Definition LDP_TLV_TYPE_IPV4_TRANSPORT_ADDRESS : Z := 0x0401.
Definition LDP_TLV_TYPE_IPV6_TRANSPORT_ADDRESS : Z := 0x0403.
Definition LDP_TLV_TYPE_DUAL_STACK_CAPABILITY : Z := 0x0701.
Definition LDP_TLV_LEN_MIN : Z := 4.
Definition SCRATCHPAD_LEN : Z := 4096.

(** ** Structure sizes *)

Definition sizeof_bbl_lacp : Z := 48.
Definition sizeof_bbl_icmp : Z := 24.
Definition sizeof_bbl_icmpv6 : Z := 72.
Definition sizeof_bbl_igmp : Z := 304.
Definition sizeof_bbl_dhcpv6 : Z := 208.
Definition sizeof_access_line : Z := 48.
Definition sizeof_bbl_dhcp : Z := 128.
Definition sizeof_bbl_bbl : Z := 64.
Definition sizeof_bbl_qmx_li : Z := 40.
Definition sizeof_bbl_ldp_hello : Z := 32.
Definition sizeof_bbl_udp : Z := 24.
Definition sizeof_bbl_tcp : Z := 16.
Definition sizeof_bbl_ospf : Z := 24.
Definition sizeof_bbl_isis : Z := 24.
Definition sizeof_bbl_ipv6 : Z := 56.
Definition sizeof_bbl_ipv4 : Z := 56.
Definition sizeof_bbl_pap : Z := 56.
Definition sizeof_bbl_chap : Z := 56.
Definition sizeof_bbl_ip6cp : Z := 40.
Definition sizeof_bbl_ipcp : Z := 40.
Definition sizeof_bbl_lcp : Z := 136.
Definition sizeof_bbl_l2tp : Z := 48.
Definition sizeof_bbl_pppoe_discovery : Z := 80.
Definition sizeof_bbl_pppoe_session : Z := 16.
Definition sizeof_bbl_arp : Z := 40.
Definition sizeof_bbl_ethernet_header : Z := 80.
Definition sizeof_bbl_mpls : Z := 16.
Definition sizeof_dhcp_header : Z := 236.
Definition sizeof_ipv6_prefix : Z := 17.
