(* ===== verification/ConstApp.v ===== *)
(** The constants of the C headers that only the components above the packet
    code use, under their C names. *)
From Stdlib Require Import ZArith.
Open Scope Z_scope.

Definition BBL_TXQ_BUFFER_LEN : Z := 4074.
Definition MSEC : Z := 1000000.
Definition BGP_MIN_MESSAGE_SIZE : Z := 19.
Definition BGP_MAX_MESSAGE_SIZE : Z := 4096.
Definition BGP_BUF_SIZE : Z := 256 * 1024.
Definition BGP_MSG_OPEN : Z := 1.
Definition BGP_MSG_UPDATE : Z := 2.
Definition BGP_MSG_NOTIFICATION : Z := 3.
Definition BGP_MSG_KEEPALIVE : Z := 4.
Definition BGP_CAPABILITY : Z := 2.
Definition BGP_CAPABILITY_4_BYTE_AS : Z := 65.
Definition BGP_IPV4_UC : Z := 0x00000001.
Definition BGP_IPv6_UC : Z := 0x00000002.
Definition BGP_IPv4_MC : Z := 0x00000004.
Definition BGP_IPv6_MC : Z := 0x00000008.
Definition BGP_IPv4_LU : Z := 0x00000010.
Definition BGP_IPv6_LU : Z := 0x00000020.
Definition BGP_IPv4_VPN_UC : Z := 0x00000040.
Definition BGP_IPv6_VPN_UC : Z := 0x00000080.
Definition BGP_IPv4_VPN_MC : Z := 0x00000100.
Definition BGP_IPv6_VPN_MC : Z := 0x00000200.
Definition BGP_IPv4_FLOW : Z := 0x00000400.
Definition BGP_IPv6_FLOW : Z := 0x00000800.
Definition BGP_EVPN : Z := 0x00001000.
