(* ===== verification/Utils.v ===== *)
(** Model of the helper library [code/common/src/utils.c]: big- and
    little-endian integers in byte buffers, the bounded write buffer
    [io_buffer_t], ISO prefixes, IPv4 masks, multicast MAC addresses,
    substring replacement and MAC comparison. *)
From S2P Require Import Prelude.

(** * Integers in byte buffers

    A pointer argument is the list of bytes that starts at it; [None] stands
    for an access behind the end of that memory. *)
Module BeUint.

(** [value <<= 8; value = value | *(data+idx)] over the first bytes. *)
Fixpoint read_be_loop (n : nat) (value : Z) (data : list Z) : option Z :=
  match n with
  | O => Some value
  | S n' =>
      match data with
      | [] => None
      | b :: data' => read_be_loop n' (Z.lor (u64 (Z.shiftl value 8)) b) data'
      end
  end.

Definition read_be_uint (data : list Z) (length : Z) : option Z :=
  if (length =? 0) || (8 <? length) then Some 0
  else read_be_loop (Z.to_nat length) 0 data.

(** [data[i] = v], [None] when [i] is behind the end of the buffer. *)
Definition store (data : list Z) (i : nat) (v : Z) : option (list Z) :=
  if decide (i < length data)%nat then Some (<[i := v]> data) else None.

(** [for(idx = 0; idx < length; idx++)
       { data[length - idx - 1] = value & 0xff; value >>= 8; }] *)
Fixpoint write_be_loop (n len idx : nat) (value : Z) (data : list Z) : option (list Z) :=
  match n with
  | O => Some data
  | S n' =>
      data' ← store data (len - idx - 1)%nat (Z.land value 0xff);
      write_be_loop n' len (S idx) (Z.shiftr value 8) data'
  end.

Definition write_be_uint (data : list Z) (length value : Z) : option (bool * list Z) :=
  if (length =? 0) || (8 <? length) then Some (false, data)
  else
    data' ← write_be_loop (Z.to_nat length) (Z.to_nat length) 0 value data;
    Some (true, data').

Definition inc_be_uint (data : list Z) (length : Z) : option (bool * list Z) :=
  v ← read_be_uint data length;
  write_be_uint data length (u64 (v + 1)).

(** [for(idx = 0; idx < length; idx++) { data[idx] = value & 0xff; value >>= 8; }] *)
Fixpoint write_le_loop (n idx : nat) (value : Z) (data : list Z) : option (list Z) :=
  match n with
  | O => Some data
  | S n' =>
      data' ← store data idx (Z.land value 0xff);
      write_le_loop n' (S idx) (Z.shiftr value 8) data'
  end.

Definition write_le_uint (data : list Z) (length value : Z) : option (bool * list Z) :=
  if (length =? 0) || (8 <? length) then Some (false, data)
  else
    data' ← write_le_loop (Z.to_nat length) 0 value data;
    Some (true, data').

(** ** Lemmas *)

Lemma land_ff v : Z.land v 0xff = v mod 256.
Proof. change 0xff with (Z.ones 8). by rewrite Z.land_ones by lia. Qed.

Lemma shiftr8 v : Z.shiftr v 8 = v / 256.
Proof. by rewrite Z.shiftr_div_pow2 by lia. Qed.

Lemma be_split_snoc n v : be_split (S n) v = be_split n (v / 256) ++ [v mod 256].
Proof.
  induction n as [|n IH]; [simpl; by rewrite Z.div_1_r|].
  change (be_split (S (S n)) v) with ((v / 256 ^ Z.of_nat (S n)) mod 256 :: be_split (S n) v).
  rewrite IH. cbn [be_split]. rewrite <- app_comm_cons. f_equal.
  rewrite Z.div_div by (pose proof (pow256_pos n); lia).
  by rewrite Nat2Z.inj_succ, Z.pow_succ_r by lia.
Qed.

Lemma store_ok data i v : (i < length data)%nat -> store data i v = Some (<[i := v]> data).
Proof. intros H. unfold store. by rewrite decide_True. Qed.

Lemma write_be_loop_spec m idx len v pre suf :
  (m + idx = len)%nat -> length pre = m ->
  write_be_loop m len idx v (pre ++ suf) = Some (be_split m v ++ suf).
Proof.
  revert idx v pre suf. induction m as [|m IH]; intros idx v pre suf Hl Hp.
  { by destruct pre. }
  destruct (exists_last (l := pre)) as (pre' & x & ->); [by destruct pre|].
  rewrite length_app in Hp; simpl in Hp.
  cbn [write_be_loop]. rewrite store_ok by (rewrite !length_app; simpl; lia). cbn [mbind option_bind].
  replace (<[(len - idx - 1)%nat := Z.land v 0xff]> ((pre' ++ [x]) ++ suf))
    with (pre' ++ (Z.land v 0xff :: suf)).
  2:{ rewrite <- app_assoc. rewrite insert_app_r_alt by lia.
      by replace (len - idx - 1 - length pre')%nat with 0%nat by lia. }
  rewrite IH by lia. rewrite be_split_snoc, <- app_assoc.
  by rewrite land_ff, shiftr8.
Qed.

Lemma write_be_uint_spec data n v :
  1 <= n <= 8 -> n <= Z.of_nat (length data) ->
  write_be_uint data n v = Some (true, be_split (Z.to_nat n) v ++ drop (Z.to_nat n) data).
Proof.
  intros Hn Hl. unfold write_be_uint.
  replace ((n =? 0) || (8 <? n)) with false by lia.
  rewrite <- (take_drop (Z.to_nat n) data) at 1.
  rewrite write_be_loop_spec; [done | lia | rewrite length_take; lia].
Qed.

Lemma write_le_loop_spec m v pre mid suf :
  length mid = m ->
  write_le_loop m (length pre) v (pre ++ mid ++ suf) = Some (pre ++ le_split m v ++ suf).
Proof.
  revert v pre mid. induction m as [|m IH]; intros v pre mid Hm.
  { by destruct mid. }
  destruct mid as [|x mid]; [done|]. simpl in Hm.
  cbn [write_le_loop]. rewrite store_ok by (rewrite !length_app; simpl; lia). cbn [mbind option_bind].
  rewrite insert_app_r_alt by lia. rewrite Nat.sub_diag. simpl.
  specialize (IH (Z.shiftr v 8) (pre ++ [Z.land v 0xff]) mid ltac:(lia)).
  rewrite length_app in IH. cbn [length] in IH. rewrite Nat.add_1_r, <- !app_assoc in IH.
  simpl in IH. rewrite IH. by rewrite land_ff, shiftr8.
Qed.

Lemma write_le_uint_spec data n v :
  1 <= n <= 8 -> n <= Z.of_nat (length data) ->
  write_le_uint data n v = Some (true, le_split (Z.to_nat n) v ++ drop (Z.to_nat n) data).
Proof.
  intros Hn Hl. unfold write_le_uint.
  replace ((n =? 0) || (8 <? n)) with false by lia.
  rewrite <- (take_drop (Z.to_nat n) data) at 1.
  pose proof (write_le_loop_spec (Z.to_nat n) v [] (take (Z.to_nat n) data)
                (drop (Z.to_nat n) data)) as H.
  simpl in H. rewrite H; [done | rewrite length_take; lia].
Qed.

Lemma lor_shift8 v b : 0 <= b < 256 -> Z.lor (Z.shiftl v 8) b = v * 256 + b.
Proof.
  intros Hb. rewrite Z.shiftl_mul_pow2 by lia.
  symmetry. apply Z.add_nocarry_lor. apply Z.bits_inj'. intros i Hi. rewrite Z.land_spec, Z.bits_0.
  destruct (Z.ltb_spec i 8).
  - by rewrite Z.mul_pow2_bits_low by lia.
  - rewrite (Z.bits_above_log2 b i), andb_false_r; [done | lia |].
    destruct (decide (b = 0)) as [->|]; [simpl; lia|].
    assert (Z.log2 b < 8) by (apply Z.log2_lt_pow2; lia). lia.
Qed.

Lemma read_be_loop_spec n v data :
  bytes data -> (n <= length data)%nat -> 0 <= v ->
  v * 256 ^ Z.of_nat n + 256 ^ Z.of_nat n <= 2 ^ 64 ->
  read_be_loop n v data = Some (v * 256 ^ Z.of_nat n + be_combine (take n data)).
Proof.
  revert v data. induction n as [|n IH]; intros v data Hb Hn Hv Hbound.
  { simpl. unfold be_combine. simpl. f_equal. lia. }
  destruct data as [|b data]; [simpl in Hn; lia|]. apply bytes_cons in Hb as [Hb Hbs].
  rewrite Nat2Z.inj_succ, Z.pow_succ_r in * by lia. pose proof (pow256_pos n).
  cbn [read_be_loop]. rewrite Z.shiftl_mul_pow2 by lia.
  rewrite u64_small by (change (2 ^ 8) with 256; nia).
  rewrite <- Z.shiftl_mul_pow2 by lia. rewrite lor_shift8 by lia.
  rewrite IH; [| done | simpl in Hn; lia | lia | nia].
  cbn [take]. rewrite be_combine_cons, length_take.
  replace (Z.of_nat (n `min` length data)) with (Z.of_nat n) by (simpl in Hn; lia).
  f_equal. lia.
Qed.

Lemma pow256_le_u64 n : 0 <= n <= 8 -> 256 ^ n <= 2 ^ 64.
Proof. intros. change (2 ^ 64) with (256 ^ 8). apply Z.pow_le_mono_r; lia. Qed.

Lemma read_be_uint_spec data n :
  bytes data -> 1 <= n <= 8 -> n <= Z.of_nat (length data) ->
  read_be_uint data n = Some (be_combine (take (Z.to_nat n) data)).
Proof.
  intros Hb Hn Hl. unfold read_be_uint.
  replace ((n =? 0) || (8 <? n)) with false by lia.
  pose proof (pow256_le_u64 n).
  rewrite read_be_loop_spec; [done | done | lia | lia |].
  rewrite Z2Nat.id by lia. lia.
Qed.

(** A big-endian integer of 1 to 8 bytes written with [write_be_uint] is
    read back by [read_be_uint] as the value modulo 256^length, and the bytes
    behind the integer are untouched. *)
Theorem be_uint_roundtrip (data : list Z) (n v : Z) :
  bytes data -> 1 <= n <= 8 -> n <= Z.of_nat (length data) ->
  exists data', write_be_uint data n v = Some (true, data') /\
    read_be_uint data' n = Some (v mod 256 ^ n) /\
    length data' = length data /\
    drop (Z.to_nat n) data' = drop (Z.to_nat n) data.
Proof.
  intros Hb Hn Hl. eexists. split; [by apply write_be_uint_spec|].
  rewrite read_be_uint_spec; [| apply bytes_app; eauto with bbl | lia |].
  2:{ rewrite length_app, length_drop, be_split_length. lia. }
  rewrite take_app_exact, drop_app_exact by by rewrite be_split_length.
  rewrite be_combine_split, Z2Nat.id, length_app, length_drop, be_split_length by lia.
  repeat split; lia.
Qed.

Lemma be_uint_roundtrip_witness :
  exists data', write_be_uint [9; 9; 9; 7] 3 70000 = Some (true, data') /\
    read_be_uint data' 3 = Some (70000 mod 256 ^ 3) /\
    length data' = 4%nat /\ drop 3 data' = [7].
Proof.
  apply (be_uint_roundtrip [9; 9; 9; 7] 3 70000); [repeat constructor; lia | lia | simpl; lia].
Defined.

(** [inc_be_uint] adds one to the big-endian integer in the buffer, wrapping
    to zero after the largest value of its length. *)
Theorem inc_be_uint_correct (data : list Z) (n : Z) :
  bytes data -> 1 <= n <= 8 -> n <= Z.of_nat (length data) ->
  exists data', inc_be_uint data n = Some (true, data') /\
    be_combine (take (Z.to_nat n) data')
      = (be_combine (take (Z.to_nat n) data) + 1) mod 256 ^ n /\
    drop (Z.to_nat n) data' = drop (Z.to_nat n) data.
Proof.
  intros Hb Hn Hl. eexists. unfold inc_be_uint. rewrite read_be_uint_spec by done.
  cbn [mbind option_bind]. split; [by apply write_be_uint_spec|].
  rewrite take_app_exact, drop_app_exact by by rewrite be_split_length.
  rewrite be_combine_split, Z2Nat.id by lia. split; [|done]. apply u64_mod.
  change (2 ^ 64) with (256 ^ 8). exists (256 ^ (8 - n)). rewrite <- Z.pow_add_r by lia.
  f_equal. lia.
Qed.

Lemma inc_be_uint_correct_witness :
  exists data', inc_be_uint [255; 255] 2 = Some (true, data') /\
    be_combine (take 2 data') = (be_combine (take 2 [255; 255]) + 1) mod 256 ^ 2 /\
    drop 2 data' = [].
Proof.
  apply (inc_be_uint_correct [255; 255] 2); [repeat constructor; lia | lia | simpl; lia].
Defined.

End BeUint.

(** * The bounded write buffer [io_buffer_t] *)
Module IoBuffer.
Import BeUint.

Record io_buffer := mk_io_buffer {
  io_data : list Z;
  io_start_idx : Z;
  io_idx : Z;
  io_size : Z
}.

(** Replace the memory behind [buffer->data + buffer->idx] and advance the cursor. *)
Definition with_tail (b : io_buffer) (tail : list Z) (idx : Z) : io_buffer :=
  mk_io_buffer (take (Z.to_nat (io_idx b)) (io_data b) ++ tail) (io_start_idx b) idx (io_size b).

Definition push_be_uint (b : io_buffer) (length value : Z) : option (bool * io_buffer) :=
  if io_size b <? u64 (io_idx b + length) then Some (false, b)
  else
    '(_, tail) ← write_be_uint (drop (Z.to_nat (io_idx b)) (io_data b)) length value;
    Some (true, with_tail b tail (u32 (io_idx b + length))).

Definition push_data (b : io_buffer) (data : list Z) (length : Z) : option (bool * io_buffer) :=
  if io_size b <? u64 (io_idx b + length) then Some (false, b)
  else
    let dst := drop (Z.to_nat (io_idx b)) (io_data b) in
    if (Z.of_nat (List.length dst) <? length) || (Z.of_nat (List.length data) <? length)
    then None
    else
      Some (true, with_tail b (take (Z.to_nat length) data ++ drop (Z.to_nat length) dst)
                            (u32 (io_idx b + length))).

(** Here [length] is a [uint32_t], so the sum of the overrun test is 32 bits wide. *)
Definition push_le_uint (b : io_buffer) (length value : Z) : option (bool * io_buffer) :=
  if io_size b <? u32 (io_idx b + length) then Some (false, b)
  else
    '(_, tail) ← write_le_uint (drop (Z.to_nat (io_idx b)) (io_data b)) length value;
    Some (true, with_tail b tail (u32 (io_idx b + length))).

(** The buffer's memory has [size] bytes and the cursor is inside it. *)
Definition io_wf (b : io_buffer) : Prop :=
  bytes (io_data b) /\ Z.of_nat (length (io_data b)) = io_size b /\
  0 <= io_idx b <= io_size b /\ io_size b < 2 ^ 32.

(** The bytes written so far. *)
Definition io_written (b : io_buffer) : list Z := take (Z.to_nat (io_idx b)) (io_data b).

Lemma with_tail_spec b bs :
  io_wf b -> bytes bs -> io_idx b + Z.of_nat (length bs) <= io_size b ->
  let b' := with_tail b (bs ++ drop (length bs) (drop (Z.to_nat (io_idx b)) (io_data b)))
              (u32 (io_idx b + Z.of_nat (length bs))) in
  io_wf b' /\ io_written b' = io_written b ++ bs /\ io_size b' = io_size b.
Proof.
  intros (Hb & Hl & Hi & Hs) Hbs Hroom b'. subst b'. unfold io_wf, io_written. simpl.
  rewrite u32_small by lia. repeat split; try lia.
  - rewrite !bytes_app. repeat split; auto with bbl.
  - rewrite !length_app, !length_drop, length_take. lia.
  - rewrite app_assoc, take_app_exact; [done|].
    rewrite length_app, length_take. lia.
Qed.

(** The three push operations behave alike: the data is appended when it fits
    and nothing changes otherwise. *)
Definition push_ok (b : io_buffer) (bs : list Z) (r : option (bool * io_buffer)) : Prop :=
  if decide (io_idx b + Z.of_nat (length bs) <= io_size b)
  then exists b', r = Some (true, b') /\ io_wf b' /\
         io_written b' = io_written b ++ bs /\ io_size b' = io_size b
  else r = Some (false, b).

Lemma push_be_uint_ok b n v :
  io_wf b -> 1 <= n <= 8 -> push_ok b (be_split (Z.to_nat n) v) (push_be_uint b n v).
Proof.
  intros Hwf Hn. pose proof Hwf as (Hb & Hl & Hi & Hs). unfold push_ok, push_be_uint.
  rewrite be_split_length, Z2Nat.id by lia. rewrite u64_small by lia.
  case_decide; [replace (io_size b <? _) with false by lia|by replace (io_size b <? _) with true by lia].
  rewrite write_be_uint_spec by (rewrite ?length_drop; lia). cbn [mbind option_bind].
  eexists; split; [done|].
  pose proof (with_tail_spec b (be_split (Z.to_nat n) v) Hwf) as W.
  rewrite be_split_length, Z2Nat.id in W by lia. apply W; [eauto with bbl | lia].
Qed.

Lemma push_le_uint_ok b n v :
  io_wf b -> 1 <= n <= 8 -> io_idx b + n < 2 ^ 32 -> push_ok b (le_split (Z.to_nat n) v) (push_le_uint b n v).
Proof.
  intros Hwf Hn Hw. pose proof Hwf as (Hb & Hl & Hi & Hs). unfold push_ok, push_le_uint.
  rewrite le_split_length, Z2Nat.id by lia. rewrite u32_small by lia.
  case_decide; [replace (io_size b <? _) with false by lia|by replace (io_size b <? _) with true by lia].
  rewrite write_le_uint_spec by (rewrite ?length_drop; lia). cbn [mbind option_bind].
  eexists; split; [done|].
  pose proof (with_tail_spec b (le_split (Z.to_nat n) v) Hwf) as W.
  rewrite le_split_length, Z2Nat.id, u32_small in W by lia. apply W; [eauto with bbl | lia].
Qed.

Lemma push_data_ok b data :
  io_wf b -> bytes data -> Z.of_nat (length data) < 2 ^ 32 -> push_ok b data (push_data b data (Z.of_nat (length data))).
Proof.
  intros Hwf Hd Hdl. pose proof Hwf as (Hb & Hl & Hi & Hs). unfold push_ok, push_data. rewrite u64_small by lia.
  case_decide; [replace (io_size b <? _) with false by lia|by replace (io_size b <? _) with true by lia].
  cbv zeta. rewrite length_drop, Nat2Z.id.
  case_if; [lia|]. eexists; split; [done|]. rewrite firstn_all. by apply with_tail_spec.
Qed.

(** Pushing an integer of 1 to 8 bytes or a block of data into a well-formed
    write buffer never writes outside its memory: when the bytes fit they are
    appended and the buffer stays well formed, otherwise the push fails and
    leaves the buffer unchanged. *)
Theorem push_bounded (b : io_buffer) (n v : Z) (data : list Z) :
  io_wf b -> bytes data -> 1 <= n <= 8 -> Z.of_nat (length data) < 2 ^ 32 ->
  push_ok b (be_split (Z.to_nat n) v) (push_be_uint b n v) /\
  (io_idx b + n < 2 ^ 32 -> push_ok b (le_split (Z.to_nat n) v) (push_le_uint b n v)) /\
  push_ok b data (push_data b data (Z.of_nat (length data))).
Proof. intros. split_and!; [by apply push_be_uint_ok|by apply push_le_uint_ok|by apply push_data_ok]. Qed.

Definition demo_buffer : io_buffer := mk_io_buffer [0; 0; 0; 0] 0 1 4.

Lemma push_bounded_witness :
  push_ok demo_buffer (be_split 2 258) (push_be_uint demo_buffer 2 258) /\
  (1 + 2 < 2 ^ 32 -> push_ok demo_buffer (le_split 2 258) (push_le_uint demo_buffer 2 258)) /\
  push_ok demo_buffer [1; 2; 3; 4] (push_data demo_buffer [1; 2; 3; 4] 4).
Proof.
  apply (push_bounded demo_buffer 2 258 [1; 2; 3; 4]); [|repeat constructor; lia|lia|simpl; lia].
  split; [repeat constructor; lia|]. simpl. lia.
Defined.

End IoBuffer.

(** * ISO prefixes

    A C string is the list of its character codes without the final NUL. *)
Module Iso.

Definition ISO_ADDR_LEN : nat := 20.
Definition ISO_STR_LEN : Z := 64.

Record iso_prefix := mk_iso { iso_len : Z; iso_address : list Z }.

Definition slash : Z := 47.
Definition dot : Z := 46.

(** [hextable[d]]: '0'..'9' are 48..57 and 'a'..'f' are 97..102. *)
Definition hextable (d : Z) : Z := if d <? 10 then 48 + d else 87 + d.

(** ["%u"] of a [uint8_t]. *)
Definition fmt_u8 (n : Z) : list Z :=
  (if 100 <=? n then [48 + n / 100] else []) ++
  (if 10 <=? n then [48 + (n / 10) mod 10] else []) ++ [48 + n mod 10].

(** The loop over the bytes of the prefix; [i] is the index of the first one. *)
Fixpoint format_iso_loop (address : list Z) (i prefix_len : Z) : list Z :=
  match address with
  | [] => []
  | b :: rest =>
      if i <? prefix_len then
        [hextable (Z.shiftr b 4); hextable (Z.land b 0xf)] ++
        (if (Z.land i 1 =? 0) && (i + 1 <? prefix_len) then [dot] else []) ++
        format_iso_loop rest (i + 1) prefix_len
      else []
  end.

Definition format_iso_prefix (iso : iso_prefix) : list Z :=
  if Z.of_nat ISO_ADDR_LEN * 8 <? iso_len iso then []
  else format_iso_loop (iso_address iso) 0 ((iso_len iso + 7) / 8) ++ [slash] ++ fmt_u8 (iso_len iso).

(** [strtok_r(s, "/", &save)]: the delimiters skipped before the token, the
    token, and the string [save] points to afterwards. *)
Fixpoint span_not_slash (s : list Z) : list Z * list Z :=
  match s with
  | [] => ([], [])
  | c :: s' => if c =? slash then ([], s')
               else let '(t, r) := span_not_slash s' in (c :: t, r)
  end.

Fixpoint strtok_slash (s : list Z) : option (list Z * list Z * list Z) :=
  match s with
  | [] => None
  | c :: s' =>
      if c =? slash then
        match strtok_slash s' with
        | Some (d, t, r) => Some (c :: d, t, r)
        | None => None
        end
      else let '(t, r) := span_not_slash s in Some ([], t, r)
  end.

(** [atoi] on a token: white space, an optional sign, decimal digits. *)
Fixpoint atoi_digits (acc : Z) (s : list Z) : Z :=
  match s with
  | c :: s' => if (48 <=? c) && (c <=? 57) then atoi_digits (acc * 10 + (c - 48)) s' else acc
  | [] => acc
  end.

Fixpoint atoi (s : list Z) : Z :=
  match s with
  | c :: s' =>
      if (c =? 32) || ((9 <=? c) && (c <=? 13)) then atoi s'
      else if c =? 45 then - atoi_digits 0 s'
      else if c =? 43 then atoi_digits 0 s'
      else atoi_digits 0 s
  | [] => 0
  end.

Record scan_state := mk_scan {
  sc_address : list Z;
  sc_val : Z;
  sc_digit : Z;
  sc_prefix_idx : nat
}.

(** [val = (val << 4) | d; digit++] on [uint16_t] variables. *)
Definition scan_nibble (d : Z) (st : scan_state) : scan_state :=
  mk_scan (sc_address st) (u16 (Z.lor (Z.shiftl (sc_val st) 4) d)) (u16 (sc_digit st + 1))
          (sc_prefix_idx st).

Definition in_range (lo c hi : Z) : bool := (lo <=? c) && (c <=? hi).

(** One round of the character loop; [None] is the [return false] inside it. *)
Definition scan_char (c : Z) (st : scan_state) : option scan_state :=
  let st := if in_range 48 c 57 then scan_nibble (c - 48) st else st in
  let st := if in_range 97 c 102 then scan_nibble (c - 97) st else st in
  let st := if in_range 65 c 70 then scan_nibble (c - 65) st else st in
  if decide (ISO_ADDR_LEN <= sc_prefix_idx st)%nat then None
  else if sc_digit st =? 2 then
    Some (mk_scan (<[sc_prefix_idx st := Z.land (sc_val st) 0xff]> (sc_address st))
                  (sc_val st) 0 (S (sc_prefix_idx st)))
  else Some st.

Fixpoint scan_chars (s : list Z) (st : scan_state) : option scan_state :=
  match s with
  | [] => Some st
  | c :: s' => st' ← scan_char c st; scan_chars s' st'
  end.

Definition scan_init : scan_state := mk_scan (replicate ISO_ADDR_LEN 0) 0 0 0.

(** The string [s] ends behind the first token when its length is taken. *)
Definition scan_iso_prefix (str : list Z) : option iso_prefix :=
  '(delims, tok, save) ← strtok_slash str;
  st ← scan_chars (delims ++ tok) scan_init;
  Some (mk_iso (match strtok_slash save with
                | Some (_, tok2, _) => u8 (atoi tok2)
                | None => 0
                end) (sc_address st)).

(** ** Round trip *)

(** Both nibbles of a byte are decimal digits. *)
Definition decimal_byte (b : Z) : Prop :=
  0 <= b < 256 /\ Z.shiftr b 4 < 10 /\ Z.land b 0xf < 10.

(** A prefix as the program builds them: 20 address bytes, zero behind the
    prefix, at most 160 bits. *)
Definition iso_wf (iso : iso_prefix) : Prop :=
  0 <= iso_len iso <= 160 /\ bytes (iso_address iso) /\ length (iso_address iso) = 20%nat /\
  drop (Z.to_nat ((iso_len iso + 7) / 8)) (iso_address iso)
    = replicate (20 - Z.to_nat ((iso_len iso + 7) / 8)) 0.

Lemma byte_nibbles b : 0 <= b < 256 ->
  0 <= Z.shiftr b 4 < 16 /\ 0 <= Z.land b 0xf < 16 /\
  Z.lor (Z.shiftl (Z.shiftr b 4) 4) (Z.land b 0xf) = b.
Proof.
  intros Hb. change 0xf with (Z.ones 4).
  rewrite Z.land_ones, Z.shiftr_div_pow2 by lia. change (2 ^ 4) with 16.
  assert (Hd : b = 16 * (b / 16) + b mod 16) by (apply Z.div_mod; lia).
  assert (0 <= b mod 16 < 16) by (apply Z.mod_pos_bound; lia).
  assert (0 <= b / 16 < 16) by (split; [apply Z.div_pos | apply Z.div_lt_upper_bound]; lia).
  repeat split; try lia.
  rewrite Z.shiftl_mul_pow2 by lia. rewrite <- Z.add_nocarry_lor; [lia|].
  apply Z.bits_inj'. intros i Hi. rewrite Z.land_spec, Z.bits_0.
  destruct (Z.ltb_spec i 4); [by rewrite Z.mul_pow2_bits_low by lia|].
  change 16 with (2 ^ 4). rewrite Z.mod_pow2_bits_high by lia. apply andb_false_r.
Qed.

Lemma scan_char_digit d st :
  0 <= d < 10 -> (sc_prefix_idx st < 20)%nat ->
  scan_char (hextable d) st =
    (let st' := scan_nibble d st in
     if sc_digit st' =? 2 then
       Some (mk_scan (<[sc_prefix_idx st := Z.land (sc_val st') 0xff]> (sc_address st))
                     (sc_val st') 0 (S (sc_prefix_idx st)))
     else Some st').
Proof.
  intros Hd Hp. unfold scan_char, hextable, in_range.
  replace (d <? 10) with true by lia.
  replace ((48 <=? 48 + d) && (48 + d <=? 57)) with true by lia.
  replace ((97 <=? 48 + d) && (48 + d <=? 102)) with false by lia.
  replace ((65 <=? 48 + d) && (48 + d <=? 70)) with false by lia.
  replace (48 + d - 48) with d by lia.
  rewrite decide_False by (simpl; unfold ISO_ADDR_LEN; lia). done.
Qed.

Lemma nibbles_val v b : 0 <= b < 256 ->
  Z.land (u16 (Z.lor (Z.shiftl (u16 (Z.lor (Z.shiftl v 4) (Z.shiftr b 4))) 4) (Z.land b 0xf))) 0xff = b.
Proof.
  intros Hb. unfold u16. rewrite <- !Z.land_ones by lia. change 0xff with (Z.ones 8).
  destruct (byte_nibbles b Hb) as (Hh & Hl & Hb').
  rewrite <- Hb' at 3. apply Z.bits_inj'. intros i Hi.
  rewrite !Z.land_spec, !Z.lor_spec. rewrite Z.testbit_ones_nonneg by lia.
  assert (Hlow : forall j, 4 <= j -> Z.testbit (Z.land b 0xf) j = false).
  { intros j Hj. rewrite Z.land_spec. change 0xf with (Z.ones 4).
    rewrite (Z.testbit_ones_nonneg 4 j) by lia. replace (j <? 4) with false by lia. apply andb_false_r. }
  assert (Hhigh : forall j, 4 <= j -> Z.testbit (Z.shiftr b 4) j = false).
  { intros j Hj. rewrite Z.shiftr_spec by lia. rewrite <- (Z.mod_small b (2 ^ 8)) by lia.
    apply Z.mod_pow2_bits_high. lia. }
  rewrite Z.testbit_ones_nonneg by lia.
  rewrite !(Z.shiftl_spec _ 4 i) by lia.
  destruct (Z.ltb_spec i 8).
  - replace (i <? 16) with true by lia. rewrite !andb_true_r. f_equal.
    destruct (Z.ltb_spec i 4); [by rewrite !(Z.testbit_neg_r _ (i - 4)) by lia|].
    rewrite !Z.land_spec, Z.lor_spec, Z.testbit_ones_nonneg by lia.
    replace (i - 4 <? 16) with true by lia.
    rewrite Z.shiftl_spec by lia. rewrite (Z.testbit_neg_r v) by lia.
    by rewrite andb_true_r.
  - rewrite andb_false_r, Hhigh, (Hlow i) by lia. done.
Qed.

Lemma scan_byte b addr v p :
  decimal_byte b -> (p < 20)%nat ->
  exists v', forall rest,
    scan_chars ([hextable (Z.shiftr b 4); hextable (Z.land b 0xf)] ++ rest) (mk_scan addr v 0 p)
    = scan_chars rest (mk_scan (<[p := b]> addr) v' 0 (S p)).
Proof.
  intros (Hb & Hh & Hl) Hp. destruct (byte_nibbles b Hb) as (Hh' & Hl' & _).
  eexists. intros rest. cbn [app scan_chars].
  rewrite scan_char_digit by (simpl; lia). cbv zeta.
  change (sc_digit (scan_nibble (Z.shiftr b 4) (mk_scan addr v 0 p)) =? 2) with false.
  cbn [mbind option_bind]. rewrite scan_char_digit by (simpl; lia).
  cbv zeta. unfold scan_nibble; cbn [sc_address sc_val sc_digit sc_prefix_idx].
  change (u16 (u16 (0 + 1) + 1) =? 2) with true. cbn [mbind option_bind].
  by rewrite nibbles_val.
Qed.

Lemma scan_dot rest addr v p : (p < 20)%nat ->
  scan_chars (dot :: rest) (mk_scan addr v 0 p) = scan_chars rest (mk_scan addr v 0 p).
Proof.
  intros Hp. cbn [scan_chars]. unfold scan_char, in_range, dot.
  cbn [Z.leb Z.compare andb sc_prefix_idx Pos.compare Pos.compare_cont].
  by rewrite decide_False by (unfold ISO_ADDR_LEN; simpl; lia).
Qed.

Lemma scan_format_loop bs p n suffix v :
  Forall decimal_byte (take (n - p) bs) -> (p + length bs = 20)%nat -> (p <= n <= 20)%nat ->
  forall addr, length addr = 20%nat ->
  exists v', scan_chars (format_iso_loop bs (Z.of_nat p) (Z.of_nat n) ++ suffix) (mk_scan addr v 0 p)
    = scan_chars suffix (mk_scan (take p addr ++ take (n - p) bs ++ drop n addr) v' 0 n).
Proof.
  revert p v. induction bs as [|b bs IH]; intros p v Hd Hl Hp addr Ha.
  { simpl in Hl. exists v. assert (p = 20%nat /\ n = 20%nat) as [-> ->] by lia.
    cbn [format_iso_loop app]. rewrite take_ge, take_nil, drop_ge by lia. by rewrite !app_nil_r. }
  cbn [format_iso_loop]. destruct (Z.ltb_spec (Z.of_nat p) (Z.of_nat n)).
  2:{ assert (n = p) as -> by lia. exists v.
      by rewrite Nat.sub_diag, take_0, !app_nil_l, take_drop. }
  replace (n - p)%nat with (S (n - S p)) in Hd |- * by lia. cbn [take] in Hd |- *.
  apply Forall_cons_iff in Hd as [Hb Hd]. simpl in Hl.
  destruct (scan_byte b addr v p Hb ltac:(lia)) as [v1 H1].
  destruct (IH (S p) v1 Hd ltac:(lia) ltac:(lia) (<[p := b]> addr) ltac:(by rewrite length_insert))
    as [v2 H2].
  replace (Z.of_nat p + 1) with (Z.of_nat (S p)) by lia.
  exists v2. rewrite <- !app_assoc. rewrite H1.
  replace (take p addr ++ (b :: take (n - S p) bs) ++ drop n addr)
    with (take (S p) (<[p := b]> addr) ++ take (n - S p) bs ++ drop n (<[p := b]> addr)).
  2:{ rewrite drop_insert_lt by lia. rewrite (take_S_r _ _ b) by (apply list_lookup_insert_eq; lia).
      by rewrite take_insert_ge, <- app_assoc by lia. }
  rewrite <- H2. case_if; [|done]. apply scan_dot. lia.
Qed.

Lemma span_format s rest : slash ∉ s -> span_not_slash (s ++ slash :: rest) = (s, rest).
Proof.
  induction s as [|c s IH]; intros Hs; cbn; [done|].
  apply not_elem_of_cons in Hs as [Hc Hs]. replace (c =? slash) with false by lia.
  by rewrite IH.
Qed.

Lemma format_loop_no_slash bs i n : bytes bs -> slash ∉ format_iso_loop bs i n.
Proof.
  unfold slash. intros Hb. revert i. induction Hb as [|b bs Hb Hbs IH]; intros i; cbn [format_iso_loop].
  { apply not_elem_of_nil. }
  destruct (byte_nibbles b Hb) as (Hh & Hl & _).
  case_if; [|apply not_elem_of_nil]. cbn [app].
  assert (Hx : forall d, 0 <= d < 16 -> hextable d <> 47).
  { intros d Hd. unfold hextable. case_if; lia. }
  rewrite !not_elem_of_cons. split; [by apply not_eq_sym, Hx|]. split; [by apply not_eq_sym, Hx|].
  case_if; cbn [app]; [|apply IH]. rewrite not_elem_of_cons. split; [done|apply IH].
Qed.

Lemma scan_len_u8 n : 0 <= n <= 160 ->
  match strtok_slash (fmt_u8 n) with Some (_, t, _) => u8 (atoi t) | None => 0 end = n.
Proof.
  intros Hn.
  assert (Hall : forallb (fun k : nat =>
      match strtok_slash (fmt_u8 (Z.of_nat k)) with
      | Some (_, t, _) => u8 (atoi t) | None => 0 end =? Z.of_nat k) (seq 0 161) = true)
    by (vm_compute; reflexivity).
  rewrite forallb_forall in Hall. specialize (Hall (Z.to_nat n)).
  rewrite Z2Nat.id in Hall by lia. apply Z.eqb_eq, Hall, in_seq. lia.
Qed.

Lemma strtok_format s rest : slash ∉ s -> s <> [] ->
  strtok_slash (s ++ [slash] ++ rest) = Some ([], s, rest).
Proof.
  intros Hs Hne. destruct s as [|c s]; [done|]. cbn.
  apply not_elem_of_cons in Hs as [Hc Hs]. replace (c =? slash) with false by lia.
  by rewrite span_format.
Qed.

(** Scanning the text of an ISO prefix whose address nibbles are decimal
    digits gives the prefix back: same length, same address. *)
Theorem iso_prefix_roundtrip (iso : iso_prefix) :
  iso_wf iso ->
  Forall decimal_byte (take (Z.to_nat ((iso_len iso + 7) / 8)) (iso_address iso)) ->
  scan_iso_prefix (format_iso_prefix iso) = Some iso.
Proof.
  destruct iso as [len addr]. intros (Hlen & Hb & Ha & Hz) Hd. cbn [iso_len iso_address] in *.
  unfold format_iso_prefix, scan_iso_prefix. cbn [iso_len iso_address].
  change (Z.of_nat ISO_ADDR_LEN * 8) with 160. replace (160 <? len) with false by lia.
  set (n := Z.to_nat ((len + 7) / 8)) in *.
  assert (Hn : Z.of_nat n = (len + 7) / 8) by (unfold n; rewrite Z2Nat.id; [done|apply Z.div_pos; lia]).
  assert (Hn20 : (n <= 20)%nat).
  { enough ((len + 7) / 8 < 21) by lia. apply Z.div_lt_upper_bound; lia. }
  rewrite <- Hn.
  destruct (scan_format_loop addr 0 n [] 0) with (addr := replicate 20 0) as [v' Hscan];
    [by rewrite Nat.sub_0_r | lia | lia | done |].
  rewrite app_nil_r, Nat.sub_0_r, drop_replicate in Hscan. rewrite <- Hz in Hscan.
  rewrite take_0, app_nil_l, take_drop in Hscan. cbn [scan_chars] in Hscan.
  destruct (decide (n = 0%nat)) as [->|Hn0].
  { assert (len = 0) as -> by (assert (len < 1) by (apply Z.nle_gt; intros ?;
      assert (1 <= (len + 7) / 8) by (apply Z.div_le_lower_bound; lia); lia); lia).
    rewrite drop_0 in Hz. rewrite Hz.
    destruct addr as [|? addr]; [done|]. reflexivity. }
  rewrite strtok_format.
  - cbn [mbind option_bind app]. unfold scan_init, ISO_ADDR_LEN.
    change (Z.of_nat 0) with 0 in Hscan. rewrite Hscan. cbn [mbind option_bind sc_address]. by rewrite scan_len_u8.
  - by apply format_loop_no_slash.
  - destruct addr; [done|]. cbn. by replace (0 <? Z.of_nat n) with true by lia.
Qed.

Definition demo_iso : iso_prefix := mk_iso 24 ([73; 73; 2] ++ replicate 17 0).

Lemma iso_prefix_roundtrip_witness : scan_iso_prefix (format_iso_prefix demo_iso) = Some demo_iso.
Proof.
  apply (iso_prefix_roundtrip demo_iso).
  - split; [simpl; lia|]. split; [repeat constructor; lia|]. split; reflexivity.
  - repeat constructor; vm_compute; congruence.
Defined.

(** The scanner decodes the hexadecimal letters a-f as 0-5: a one-byte
    prefix survives printing and scanning exactly when neither of its nibbles
    is a letter. *)
Theorem iso_hex_letters_lost (b : Z) :
  0 <= b < 256 ->
  scan_iso_prefix (format_iso_prefix (mk_iso 8 (b :: replicate 19 0)))
    = Some (mk_iso 8 (b :: replicate 19 0))
  <-> Z.shiftr b 4 < 10 /\ Z.land b 0xf < 10.
Proof.
  intros Hb.
  assert (Hall : forallb (fun k : nat => let b := Z.of_nat k in
      Bool.eqb
        match scan_iso_prefix (format_iso_prefix (mk_iso 8 (b :: replicate 19 0))) with
        | Some (mk_iso 8 (b' :: rest)) => (b' =? b) && bool_decide (rest = replicate 19 0)
        | _ => false
        end ((Z.shiftr b 4 <? 10) && (Z.land b 0xf <? 10))) (seq 0 256) = true)
    by (vm_compute; reflexivity).
  rewrite forallb_forall in Hall. specialize (Hall (Z.to_nat b) ltac:(apply in_seq; lia)).
  rewrite Z2Nat.id in Hall by lia. cbv zeta in Hall. apply Bool.eqb_prop in Hall.
  rewrite <- !Z.ltb_lt, <- andb_true_iff, <- Hall. split.
  - intros ->. rewrite Z.eqb_refl. by rewrite bool_decide_true.
  - destruct (scan_iso_prefix _) as [[l a]|]; [|done].
    destruct l as [|[[[[]|[]|]|[[]|[]|]|]|[[[]|[]|]|[[]|[]|]|]|]|]; try done.
    all: destruct a as [|b' a]; try done.
    intros H. apply andb_true_iff in H as [H1 H2]. apply Z.eqb_eq in H1 as ->.
    by apply bool_decide_eq_true in H2 as ->.
Qed.

Lemma iso_hex_letters_lost_witness :
  scan_iso_prefix (format_iso_prefix (mk_iso 8 (0x4a :: replicate 19 0)))
    = Some (mk_iso 8 (0x4a :: replicate 19 0))
  <-> Z.shiftr 0x4a 4 < 10 /\ Z.land 0x4a 0xf < 10.
Proof. apply (iso_hex_letters_lost 0x4a). lia. Defined.

End Iso.

(** * IPv4 masks

    An IPv4 address in network byte order is held in a [uint32_t] of the
    little-endian host, so [be32toh] and [htobe32] reverse its bytes. *)
Module Ipv4.

Definition bswap32 (x : Z) : Z := be_combine (le_split 4 x).

Record ipv4_prefix := mk_prefix { pfx_len : Z; pfx_address : Z }.

(** [while(m & 0x80000000) { l++; m <<= 1; }] *)
Fixpoint mask_loop (fuel : nat) (l m : Z) : option (Z * Z) :=
  match fuel with
  | O => None
  | S f => if Z.land m 0x80000000 =? 0 then Some (l, m)
           else mask_loop f (u8 (l + 1)) (u32 (Z.shiftl m 1))
  end.

Definition ipv4_mask_to_len (mask : Z) : option Z :=
  '(l, m) ← mask_loop 33 0 (bswap32 mask);
  Some (if m =? 0 then l else 0).

(** The [int] expression is evaluated modulo 2^32. *)
Definition ipv4_len_to_mask (len : Z) : Z :=
  if 32 <=? len then 0xffffffff
  else if len =? 0 then 0
  else bswap32 (u32 (Z.lnot (Z.shiftl 1 (32 - len) - 1))).

Definition ipv4_addr_in_network (address : Z) (network : ipv4_prefix) : bool :=
  let mask := ipv4_len_to_mask (pfx_len network) in
  Z.land address mask =? Z.land (pfx_address network) mask.

(** ** Lemmas *)

Lemma bswap32_range x : 0 <= bswap32 x < 2 ^ 32.
Proof.
  unfold bswap32. pose proof (be_combine_bound (le_split 4 x) (le_split_bytes 4 x)) as H.
  rewrite le_split_length in H. exact H.
Qed.

(** The byte swap permutes the bits: bit 8j+k moves to bit 8(3-j)+k. *)
Lemma bswap32_eq x :
  bswap32 x = (x mod 256) * 2 ^ 24 + (x / 256 mod 256) * 2 ^ 16
            + (x / 65536 mod 256) * 2 ^ 8 + x / 16777216 mod 256.
Proof.
  unfold bswap32. cbn [le_split]. rewrite !be_combine_cons. cbn [length].
  rewrite !Z.div_div by lia. unfold be_combine; cbn [foldl].
  change (256 ^ Z.of_nat 3) with (2 ^ 24). change (256 ^ Z.of_nat 2) with (2 ^ 16).
  change (256 ^ Z.of_nat 1) with (2 ^ 8). change (256 ^ Z.of_nat 0) with 1. 
  change (256 * 256 * 256) with 16777216. change (256 * 256) with 65536. lia.
Qed.

Lemma bswap32_involutive x : 0 <= x < 2 ^ 32 -> bswap32 (bswap32 x) = x.
Proof.
  intros Hx. unfold bswap32 at 1. unfold bswap32.
  assert (Hr : le_split 4 (be_combine (le_split 4 x)) = rev (le_split 4 x)).
  { assert (Hrev : forall bs, length bs = 4%nat -> be_combine bs = le_combine (rev bs)).
    { intros [|a [|b [|c [|d [|]]]]] H; try discriminate H.
      rewrite !be_combine_cons. unfold be_combine. cbn. lia. }
    rewrite Hrev by apply le_split_length.
    replace 4%nat with (length (rev (le_split 4 x))) at 1 by (rewrite length_rev; apply le_split_length).
    apply le_split_combine. apply Forall_rev, le_split_bytes. }
  rewrite Hr.
  assert (Hrev : forall bs, length bs = 4%nat -> be_combine (rev bs) = le_combine bs).
  { intros [|a [|b [|c [|d [|]]]]] H; try discriminate H. cbn [rev app].
    rewrite !be_combine_cons. unfold be_combine. cbn. lia. }
  rewrite Hrev by apply le_split_length. rewrite le_combine_split.
  apply Z.mod_small. exact Hx.
Qed.

Lemma testbit_byte_add y s r i : 0 <= s -> 0 <= r < 2 ^ s -> 0 <= i ->
  Z.testbit ((y mod 256) * 2 ^ s + r) i
  = if i <? s then Z.testbit r i else (i <? s + 8) && Z.testbit y (i - s).
Proof.
  intros Hs Hr Hi. destruct (Z.ltb_spec i s).
  - rewrite <- (Z.mod_pow2_bits_low _ s) by lia.
    by rewrite Z.add_comm, Z.mod_add, Z.mod_small by (try apply Z.pow_nonzero; lia).
  - replace i with (i - s + s) at 1 by lia. rewrite <- Z.div_pow2_bits by lia.
    rewrite Z.div_add_l, (Z.div_small r), Z.add_0_r by (try apply Z.pow_nonzero; lia).
    change 256 with (2 ^ 8). destruct (Z.ltb_spec i (s + 8)); simpl.
    + by rewrite Z.mod_pow2_bits_low by lia.
    + by rewrite Z.mod_pow2_bits_high by lia.
Qed.

Lemma bswap32_testbit x i : 0 <= i < 32 ->
  Z.testbit (bswap32 x) i = Z.testbit x (8 * (3 - i / 8) + i mod 8).
Proof.
  intros Hi. rewrite bswap32_eq, <- !Z.add_assoc.
  assert (Hd : i = 8 * (i / 8) + i mod 8) by (apply Z.div_mod; lia).
  pose proof (Z.mod_pos_bound i 8 ltac:(lia)).
  assert (Hb : forall y, 0 <= y mod 256 < 256) by (intros; apply Z.mod_pos_bound; lia).
  pose proof (Hb x). pose proof (Hb (x / 256)).
  pose proof (Hb (x / 65536)). pose proof (Hb (x / 16777216)).
  rewrite !testbit_byte_add by lia. replace (i <? 24 + 8) with true by lia.
  assert (Hs : forall k j, 0 <= k -> 0 <= j -> Z.testbit (x / 2 ^ k) j = Z.testbit x (j + k))
    by (intros; by rewrite Z.div_pow2_bits by lia).
  case_if; [case_if; [case_if|]|].
  - change 256 with (2 ^ 8) at 1. rewrite Z.mod_pow2_bits_low by lia.
    change 16777216 with (2 ^ 24). rewrite Hs by lia. f_equal. lia.
  - replace (i <? 8 + 8) with true by lia. change 65536 with (2 ^ 16). simpl andb.
    rewrite Hs by lia. f_equal. lia.
  - replace (i <? 16 + 8) with true by lia. change 256 with (2 ^ 8). simpl andb.
    rewrite Hs by lia. f_equal. lia.
  - simpl andb. f_equal. lia.
Qed.

Lemma testbit_above x n i : 0 <= x < 2 ^ n -> 0 <= n <= i -> Z.testbit x i = false.
Proof. intros Hx Hn. rewrite <- (Z.mod_small x (2 ^ n)) by lia. apply Z.mod_pow2_bits_high. lia. Qed.

Lemma bswap32_land x y : bswap32 (Z.land x y) = Z.land (bswap32 x) (bswap32 y).
Proof.
  apply Z.bits_inj'. intros i Hi. rewrite Z.land_spec.
  destruct (Z.ltb_spec i 32).
  - by rewrite !bswap32_testbit, Z.land_spec by lia.
  - by rewrite !(testbit_above _ 32) by (try apply bswap32_range; lia).
Qed.

(** The network mask of length [len] as a host-order number. *)
Lemma len_to_mask_eq len : 0 <= len <= 32 ->
  ipv4_len_to_mask len = bswap32 (2 ^ 32 - 2 ^ (32 - len)).
Proof.
  intros Hl.
  assert (Hall : forallb (fun k : nat =>
     ipv4_len_to_mask (Z.of_nat k) =? bswap32 (2 ^ 32 - 2 ^ (32 - Z.of_nat k))) (seq 0 33) = true)
    by (vm_compute; reflexivity).
  rewrite forallb_forall in Hall. specialize (Hall (Z.to_nat len) ltac:(apply in_seq; lia)).
  rewrite Z2Nat.id in Hall by lia. by apply Z.eqb_eq.
Qed.

Lemma land_msb m : 0 <= m < 2 ^ 32 -> (Z.land m 0x80000000 =? 0) = (m <? 2 ^ 31).
Proof.
  intros Hm.
  assert (Hb : Z.testbit m 31 = negb (m <? 2 ^ 31)).
  { apply Bool.eq_true_iff_eq. rewrite negb_true_iff, Z.ltb_ge, Z.testbit_true by lia.
    assert (m / 2 ^ 31 = 0 \/ m / 2 ^ 31 = 1).
    { assert (0 <= m / 2 ^ 31 < 2); [|lia]. split; [apply Z.div_pos; lia|].
      apply Z.div_lt_upper_bound; lia. }
    pose proof (Z.div_mod m (2 ^ 31) ltac:(lia)). pose proof (Z.mod_pos_bound m (2 ^ 31) ltac:(lia)).
    split; intros Hq; [destruct H as [H|H]; rewrite H in Hq; [discriminate Hq|lia]|].
    destruct H as [H|H]; [lia|]. by rewrite H. }
  change 0x80000000 with (2 ^ 31). destruct (m <? 2 ^ 31); cbn [negb] in Hb.
  - apply Z.eqb_eq, Z.bits_inj'. intros i Hi. rewrite Z.land_spec, Z.bits_0, Z.pow2_bits_eqb by lia.
    destruct (Z.eqb_spec 31 i); [subst; by rewrite Hb | apply andb_false_r].
  - apply Z.eqb_neq. intros H0. assert (Z.testbit (Z.land m (2 ^ 31)) 31 = true) as Ht.
    { by rewrite Z.land_spec, Hb, Z.pow2_bits_true by lia. }
    by rewrite H0, Z.bits_0 in Ht.
Qed.

(** Loop invariant of [ipv4_mask_to_len]: the [l] top bits of the mask are set
    and [r] is what is left below them, shifted to the top in [m]. *)
Lemma mask_loop_spec k : forall l r, (Z.of_nat k + l = 32) -> 0 <= l -> 0 <= r < 2 ^ (32 - l) ->
  exists l' r', mask_loop (S k) l (r * 2 ^ l) = Some (l', r' * 2 ^ l') /\ l <= l' <= 32 /\
    0 <= r' < 2 ^ (32 - l') /\
    (2 ^ l - 1) * 2 ^ (32 - l) + r = (2 ^ l' - 1) * 2 ^ (32 - l') + r'.
Proof.
  induction k as [|k IH]; intros l r Hk Hl Hr.
  { assert (l = 32) as -> by lia. assert (r = 0) as -> by (simpl in Hr; lia).
    exists 32, 0. simpl. repeat split; lia. }
  assert (Hp : 2 ^ (32 - l) = 2 * 2 ^ (31 - l))
    by (rewrite <- Z.pow_succ_r by lia; f_equal; lia).
  assert (Hq : 2 ^ 32 = 2 ^ (32 - l) * 2 ^ l) by (rewrite <- Z.pow_add_r by lia; f_equal; lia).
  assert (Hq' : 2 ^ 31 = 2 ^ (31 - l) * 2 ^ l) by (rewrite <- Z.pow_add_r by lia; f_equal; lia).
  assert (0 < 2 ^ l) by (apply Z.pow_pos_nonneg; lia).
  assert (Hs : 2 ^ (l + 1) = 2 * 2 ^ l) by (rewrite Z.add_1_r, Z.pow_succ_r by lia; lia).
  change (mask_loop (S (S k)) l (r * 2 ^ l)) with
    (if Z.land (r * 2 ^ l) 0x80000000 =? 0 then Some (l, r * 2 ^ l)
     else mask_loop (S k) (u8 (l + 1)) (u32 (Z.shiftl (r * 2 ^ l) 1))).
  rewrite land_msb by nia. destruct (Z.ltb_spec (r * 2 ^ l) (2 ^ 31)).
  { exists l, r. repeat split; lia. }
  assert (Hr2 : 2 ^ (31 - l) <= r) by nia.
  destruct (IH (l + 1) (r - 2 ^ (31 - l))) as (l' & r' & He & Hl' & Hr' & Hm); [lia | lia | |].
  { replace (32 - (l + 1)) with (31 - l) by lia. lia. }
  exists l', r'. rewrite u8_small by lia. rewrite Z.shiftl_mul_pow2 by lia.
  replace (u32 (r * 2 ^ l * 2 ^ 1)) with ((r - 2 ^ (31 - l)) * 2 ^ (l + 1)).
  2:{ unfold u32. apply (Z.mod_unique _ _ 1); [left; nia|]. rewrite Hs. nia. }
  rewrite He. repeat split; try lia. rewrite <- Hm.
  replace (32 - (l + 1)) with (31 - l) by lia. rewrite Hs, Hp. nia.
Qed.

(** [ipv4_mask_to_len] terminates on every 32-bit mask and inverts
    [ipv4_len_to_mask]: it returns the prefix length of every contiguous mask
    and 0 for the empty mask and for masks that are not contiguous. *)
Theorem ipv4_mask_len_inverse (mask : Z) :
  0 <= mask < 2 ^ 32 ->
  exists len, ipv4_mask_to_len mask = Some len /\ 0 <= len <= 32 /\
    (0 < len -> ipv4_len_to_mask len = mask) /\
    (forall k, 0 <= k <= 32 -> ipv4_len_to_mask k = mask -> len = k).
Proof.
  intros Hm. unfold ipv4_mask_to_len.
  destruct (mask_loop_spec 32 0 (bswap32 mask)) as (l & r & He & Hl & Hr & Hb);
    [lia | lia | apply bswap32_range |].
  rewrite Z.mul_1_r in He. rewrite He. cbn [mbind option_bind].
  assert (Hpow : forall n, 0 <= n -> 0 < 2 ^ n) by (intros; apply Z.pow_pos_nonneg; lia).
  pose proof (Hpow l ltac:(lia)). rewrite Z.mul_0_l, Z.add_0_l in Hb.
  assert (Hq : 2 ^ 32 = 2 ^ (32 - l) * 2 ^ l) by (rewrite <- Z.pow_add_r by lia; f_equal; lia).
  assert (Hz : (r * 2 ^ l =? 0) = (r =? 0)) by (apply Bool.eq_true_iff_eq; rewrite !Z.eqb_eq; nia).
  rewrite Hz. eexists. split; [done|].
  assert (Hmask : r = 0 -> ipv4_len_to_mask l = mask).
  { intros ->. rewrite len_to_mask_eq by lia. rewrite <- (bswap32_involutive mask) by done.
    f_equal. rewrite Hb. nia. }
  split; [case_if; lia|]. split; [case_if; [auto|lia]|].
  intros k Hk <-. revert He Hb Hz Hmask Hr. rewrite len_to_mask_eq, bswap32_involutive by
    (pose proof (Hpow (32 - k) ltac:(lia)); assert (2 ^ (32 - k) <= 2 ^ 32) by (apply Z.pow_le_mono_r; lia); lia).
  intros He Hb Hz Hmask Hr. clear Hmask.
  assert (Hall : forallb (fun k : nat => match mask_loop 33 0 (2 ^ 32 - 2 ^ (32 - Z.of_nat k)) with
      Some (l, m) => (l =? Z.of_nat k) && (m =? 0) | None => false end) (seq 0 33) = true)
    by (vm_compute; reflexivity).
  rewrite forallb_forall in Hall. specialize (Hall (Z.to_nat k) ltac:(apply in_seq; lia)).
  rewrite Z2Nat.id, He in Hall by lia. bool_to_prop. case_if; [done|nia].
Qed.

Lemma ipv4_mask_len_inverse_witness :
  exists len, ipv4_mask_to_len 0x00ffffff = Some len /\ 0 <= len <= 32 /\
    (0 < len -> ipv4_len_to_mask len = 0x00ffffff) /\
    (forall k, 0 <= k <= 32 -> ipv4_len_to_mask k = 0x00ffffff -> len = k).
Proof. apply (ipv4_mask_len_inverse 0x00ffffff). lia. Defined.

Lemma land_prefix_mask x len : 0 <= x < 2 ^ 32 -> 0 <= len <= 32 ->
  Z.land x (2 ^ 32 - 2 ^ (32 - len)) = (x / 2 ^ (32 - len)) * 2 ^ (32 - len).
Proof.
  intros Hx Hl. assert (Hm : 2 ^ 32 - 2 ^ (32 - len) = Z.ones len * 2 ^ (32 - len)).
  { rewrite Z.ones_equiv. assert (2 ^ 32 = 2 ^ len * 2 ^ (32 - len))
      by (rewrite <- Z.pow_add_r by lia; f_equal; lia). lia. }
  rewrite Hm. apply Z.bits_inj'. intros i Hi.
  rewrite Z.land_spec, !Z.mul_pow2_bits by lia.
  destruct (Z.ltb_spec i (32 - len)).
  { rewrite !(Z.testbit_neg_r _ (i - (32 - len))) by lia. apply andb_false_r. }
  rewrite Z.div_pow2_bits by lia. replace (i - (32 - len) + (32 - len)) with i by lia.
  rewrite Z.testbit_ones_nonneg by lia. destruct (Z.ltb_spec i 32).
  - replace (i - (32 - len) <? len) with true by lia. apply andb_true_r.
  - by rewrite (testbit_above x 32) by lia.
Qed.

(** [ipv4_addr_in_network] decides whether the address and the network
    agree on the first [len] bits of their network-order value. *)
Theorem ipv4_addr_in_network_spec (address : Z) (network : ipv4_prefix) :
  0 <= address < 2 ^ 32 -> 0 <= pfx_address network < 2 ^ 32 -> 0 <= pfx_len network <= 32 ->
  ipv4_addr_in_network address network = true <->
  bswap32 address / 2 ^ (32 - pfx_len network)
    = bswap32 (pfx_address network) / 2 ^ (32 - pfx_len network).
Proof.
  destruct network as [len net]; cbn [pfx_len pfx_address]. intros Ha Hn Hl.
  unfold ipv4_addr_in_network; cbn [pfx_len pfx_address]. rewrite len_to_mask_eq by lia.
  set (m := 2 ^ 32 - 2 ^ (32 - len)). rewrite Z.eqb_eq.
  assert (Hpow : 0 < 2 ^ (32 - len) <= 2 ^ 32)
    by (split; [apply Z.pow_pos_nonneg; lia | apply Z.pow_le_mono_r; lia]).
  assert (Hsw : forall x, 0 <= x < 2 ^ 32 ->
    bswap32 (Z.land x (bswap32 m)) = bswap32 x / 2 ^ (32 - len) * 2 ^ (32 - len)).
  { intros x Hx. rewrite bswap32_land, bswap32_involutive by (unfold m; lia).
    apply land_prefix_mask; [apply bswap32_range | lia]. }
  split; intros H.
  - apply (Z.mul_cancel_r _ _ (2 ^ (32 - len))); [lia|]. by rewrite <- !Hsw, H by lia.
  - assert (Hr : forall x, 0 <= x < 2 ^ 32 -> 0 <= Z.land x (bswap32 m) < 2 ^ 32).
    { intros x Hx. pose proof (bswap32_range m) as Hbm. split; [apply Z.land_nonneg; lia|].
      destruct (Z.eqb_spec (Z.land x (bswap32 m)) 0) as [->|Hz]; [lia|].
      assert (0 <= Z.land x (bswap32 m)) by (apply Z.land_nonneg; lia).
      apply Z.log2_lt_pow2; [lia|]. eapply Z.le_lt_trans; [apply Z.log2_land; lia|].
      destruct (Z.eqb_spec x 0) as [->|]; [by rewrite Z.land_0_l in Hz|].
      assert (Z.log2 x < 32) by (apply Z.log2_lt_pow2; lia). lia. }
    rewrite <- (bswap32_involutive (Z.land address _)), <- (bswap32_involutive (Z.land net _))
      by auto. by rewrite !Hsw, H by lia.
Qed.

Lemma ipv4_addr_in_network_spec_witness :
  ipv4_addr_in_network 0x0201000a (mk_prefix 8 0x0000000a) = true <->
  bswap32 0x0201000a / 2 ^ (32 - 8) = bswap32 0x0000000a / 2 ^ (32 - 8).
Proof. apply (ipv4_addr_in_network_spec 0x0201000a (mk_prefix 8 0x0000000a)); simpl; lia. Defined.

End Ipv4.

(** * Substring replacement *)
Module Subst.

Definition SUB_STR_LEN : Z := 256.

(** [strstr]: the offset of the first occurrence. *)
Fixpoint strstr (hay needle : list Z) : option nat :=
  if decide (take (length needle) hay = needle) then Some 0%nat
  else match hay with
       | [] => None
       | _ :: hay' => S <$> strstr hay' needle
       end.

(** The [while] loop; [result] is what was copied to the static buffer so far
    and [result_len] the length the full result would have. *)
Fixpoint replace_loop (fuel : nat) (old new cur result : list Z) (result_len : Z)
    : option (list Z) :=
  match fuel with
  | O => None
  | S f =>
      match cur with
      | [] => Some result
      | _ =>
          match strstr cur old with
          | Some c =>
              let result_len := result_len + Z.of_nat c + Z.of_nat (length new) in
              let result := if result_len <? SUB_STR_LEN then result ++ take c cur ++ new
                            else result in
              replace_loop f old new (drop (c + length old) cur) result result_len
          | None =>
              let result_len := result_len + Z.of_nat (length cur) in
              Some (if result_len <? SUB_STR_LEN then result ++ cur else result)
          end
      end
  end.

Definition replace_substring (source old new : list Z) : option (list Z) :=
  replace_loop (S (length source)) old new source [] 0.

(** Specification: replace the occurrences from left to right. *)
Inductive replaced (old new : list Z) : list Z -> list Z -> Prop :=
| replaced_none src : strstr src old = None -> replaced old new src src
| replaced_some src c out :
    strstr src old = Some c ->
    replaced old new (drop (c + length old) src) out ->
    replaced old new src (take c src ++ new ++ out).

Lemma strstr_some hay needle c : strstr hay needle = Some c ->
  take (length needle) (drop c hay) = needle /\ (c <= length hay)%nat.
Proof.
  revert c. induction hay as [|x hay IH]; intros c; cbn [strstr].
  - case_decide; [intros [= <-]; simpl; auto with lia | done].
  - case_decide; [intros [= <-]; split; [done | simpl; lia]|].
    destruct (strstr hay needle) as [c'|]; [|done]. intros [= <-].
    destruct (IH c' eq_refl). split; [done | simpl; lia].
Qed.

Lemma strstr_cons_some cur old c : old <> [] -> strstr cur old = Some c ->
  (length (drop (c + length old) cur) < length cur)%nat.
Proof.
  intros Ho Hs. apply strstr_some in Hs as [Ht Hc]. rewrite length_drop.
  destruct old as [|o old]; [done|].
  assert (0 < length cur)%nat; [|simpl; lia].
  destruct cur as [|x cur]; [|simpl; lia]. by rewrite drop_nil in Ht.
Qed.

Lemma replace_loop_spec old new fuel cur result rlen :
  old <> [] -> (length cur < fuel)%nat -> Z.of_nat (length result) <= rlen ->
  Z.of_nat (length result) < SUB_STR_LEN ->
  exists out r, replaced old new cur out /\
    replace_loop fuel old new cur result rlen = Some r /\
    Z.of_nat (length r) < SUB_STR_LEN /\
    (rlen = Z.of_nat (length result) ->
     rlen + Z.of_nat (length out) < SUB_STR_LEN -> r = result ++ out).
Proof.
  intros Ho. revert cur result rlen.
  induction fuel as [|f IH]; intros cur result rlen Hf Hr Hb; [lia|].
  destruct cur as [|x cur].
  { exists [], result. split; [constructor; by destruct old|]. rewrite app_nil_r. auto. }
  cbn [replace_loop]. remember (x :: cur) as s eqn:Hs. clear Hs x cur.
  destruct (strstr s old) as [c|] eqn:Hstr.
  - pose proof (strstr_cons_some _ _ _ Ho Hstr). pose proof (strstr_some _ _ _ Hstr) as [_ Hc].
    destruct (IH (drop (c + length old) s)
      (if rlen + Z.of_nat c + Z.of_nat (length new) <? SUB_STR_LEN
       then result ++ take c s ++ new else result)
      (rlen + Z.of_nat c + Z.of_nat (length new))) as (out & r & H1 & H2 & H3 & H4).
    + lia.
    + case_if; rewrite ?length_app, ?length_take; lia.
    + case_if; rewrite ?length_app, ?length_take; lia.
    + exists (take c s ++ new ++ out), r. split; [by econstructor|]. split; [done|].
      split; [done|]. intros Hl Hfit. rewrite !length_app, length_take in Hfit.
      rewrite H4; rewrite ?length_app, ?length_take.
      * replace (_ <? _) with true by lia. by rewrite <- !app_assoc.
      * replace (_ <? _) with true by lia. rewrite !length_app, length_take. lia.
      * lia.
  - exists s. eexists. split; [by constructor|]. split; [done|].
    case_if; rewrite ?length_app; split; try lia; auto.
Qed.

(** For a non-empty pattern [replace_substring] terminates with the source
    in which every occurrence is replaced from left to right, provided the
    result fits the static buffer, and it never writes more than the buffer
    holds (with its NUL). *)
Theorem replace_substring_correct (source old new : list Z) :
  old <> [] ->
  exists out r, replaced old new source out /\ replace_substring source old new = Some r /\
    Z.of_nat (length r) < SUB_STR_LEN /\
    (Z.of_nat (length out) < SUB_STR_LEN -> r = out).
Proof.
  intros Ho. destruct (replace_loop_spec old new (S (length source)) source [] 0 Ho)
    as (out & r & H1 & H2 & H3 & H4); [lia | simpl; lia | done |].
  exists out, r. repeat split; auto.
Qed.

Lemma replace_substring_correct_witness :
  exists out r, replaced [123] [120; 121] [97; 123; 98] out /\
    replace_substring [97; 123; 98] [123] [120; 121] = Some r /\
    Z.of_nat (length r) < SUB_STR_LEN /\
    (Z.of_nat (length out) < SUB_STR_LEN -> r = out).
Proof. apply (replace_substring_correct [97; 123; 98] [123] [120; 121]). discriminate. Defined.

(** With an empty pattern and a non-empty source the loop never ends: the
    cursor does not move, whatever the number of rounds. *)
Theorem replace_empty_pattern_diverges (fuel : nat) (source new : list Z) :
  source <> [] -> forall result rlen, replace_loop fuel [] new source result rlen = None.
Proof.
  intros Hs. induction fuel as [|f IH]; intros result rlen; [done|].
  destruct source as [|x s]; [done|]. cbn. apply IH.
Qed.

Lemma replace_empty_pattern_diverges_witness :
  replace_loop 100 [] [120] [97] [] 0 = None.
Proof. apply (replace_empty_pattern_diverges 100 [97] [120]). discriminate. Defined.

End Subst.

(** * MAC and IPv6 addresses *)
Module Addr.

(** A pointer is the memory behind it; a load outside of it is [None]. *)
Definition load (mem : list Z) (off n : nat) : option (list Z) :=
  if decide (off + n <= length mem)%nat then Some (take n (drop off mem)) else None.

(** [mac] is a 6-byte array, [ipv4] an address in network byte order. *)
Definition ipv4_multicast_mac (ipv4 : Z) : list Z :=
  match le_split 4 ipv4 with
  | [_; b1; b2; b3] => [0x01; 0x00; 0x5e; Z.land b1 0x7f; b2; b3]
  | _ => []
  end.

Definition ipv6_multicast_mac (ipv6 : list Z) : option (list Z) :=
  a ← load ipv6 12 4; Some ([0x33; 0x33] ++ a).

Definition ipv6_addr_not_zero (addr : list Z) : option bool :=
  lo ← load addr 0 8; hi ← load addr 8 8;
  Some (negb (le_combine lo =? 0) || negb (le_combine hi =? 0)).

(** [(ipv6addr_t * )prefix+1] steps over a whole 16-byte address. *)
Definition ipv6_prefix_not_zero (prefix : list Z) : option bool :=
  l ← load prefix 0 1;
  if 0 <? le_combine l then ipv6_addr_not_zero (drop 16 prefix) else Some false.

(** The comparison loop over the six bytes. *)
Fixpoint compare_mac_loop (mac1 mac2 : list Z) : Z :=
  match mac1, mac2 with
  | b1 :: m1, b2 :: m2 =>
      if b2 <? b1 then 1 else if b1 <? b2 then -1 else compare_mac_loop m1 m2
  | _, _ => 0
  end.

Definition compare_mac_addresses (mac1 mac2 : list Z) : Z :=
  compare_mac_loop (take 6 mac1) (take 6 mac2).

Lemma compare_mac_loop_spec m1 m2 : bytes m1 -> bytes m2 -> length m1 = length m2 ->
  compare_mac_loop m1 m2 = Z.sgn (be_combine m1 - be_combine m2).
Proof.
  intros H1. revert m2. induction H1 as [|b1 m1 Hb1 Hm1 IH]; intros m2 H2 Hl.
  { by destruct m2. }
  destruct m2 as [|b2 m2]; [done|]. apply bytes_cons in H2 as [Hb2 Hm2]. simpl in Hl.
  cbn [compare_mac_loop]. rewrite !be_combine_cons.
  pose proof (be_combine_bound m1 Hm1). pose proof (be_combine_bound m2 Hm2) as B2.
  injection Hl as Hl. rewrite <- Hl in B2 |- *. pose proof (pow256_pos (length m1)).
  repeat case_if; [symmetry; apply Z.sgn_pos; nia | symmetry; apply Z.sgn_neg; nia |].
  assert (b1 = b2) as -> by lia. rewrite (IH m2) by auto. f_equal. lia.
Qed.

(** [compare_mac_addresses] orders MAC addresses as 48-bit big-endian
    numbers. *)
Theorem compare_mac_order (mac1 mac2 : list Z) :
  bytes mac1 -> bytes mac2 -> (6 <= length mac1)%nat -> (6 <= length mac2)%nat ->
  compare_mac_addresses mac1 mac2 = Z.sgn (be_combine (take 6 mac1) - be_combine (take 6 mac2)).
Proof.
  intros H1 H2 L1 L2. apply compare_mac_loop_spec; auto with bbl.
  rewrite !length_take. lia.
Qed.

Lemma compare_mac_order_witness :
  compare_mac_addresses [0; 1; 2; 3; 4; 5] [0; 1; 2; 9; 0; 0]
  = Z.sgn (be_combine [0; 1; 2; 3; 4; 5] - be_combine [0; 1; 2; 9; 0; 0]).
Proof.
  apply (compare_mac_order [0; 1; 2; 3; 4; 5] [0; 1; 2; 9; 0; 0]); repeat constructor; lia.
Defined.

(** [ipv6_prefix_not_zero] never looks at the address of the prefix except
    its last byte: on a prefix structure of 17 bytes with a non-zero length it
    reads behind the structure, and with more memory behind it the answer does
    not depend on the first 15 address bytes. *)
Theorem ipv6_prefix_not_zero_reads_behind (len : Z) (addr addr' rest : list Z) (last : Z) :
  0 < len -> length addr = 15%nat -> length addr' = 15%nat ->
  ipv6_prefix_not_zero (len :: addr ++ [last]) = None /\
  ipv6_prefix_not_zero (len :: addr ++ last :: rest) = ipv6_prefix_not_zero (len :: addr' ++ last :: rest).
Proof.
  intros Hl Ha Ha'. unfold ipv6_prefix_not_zero, load.
  rewrite !decide_True by (simpl; lia). cbn [drop take le_combine mbind option_bind].
  rewrite Z.mul_0_r, Z.add_0_r. replace (0 <? len) with true by lia.
  rewrite !drop_app_exact by done. split; [|done].
  unfold ipv6_addr_not_zero, load. by rewrite decide_False by (simpl; lia).
Qed.

Lemma ipv6_prefix_not_zero_reads_behind_witness :
  ipv6_prefix_not_zero (64 :: replicate 15 0 ++ [1]) = None /\
  ipv6_prefix_not_zero (64 :: replicate 15 0 ++ 1 :: replicate 15 0)
  = ipv6_prefix_not_zero (64 :: replicate 15 9 ++ 1 :: replicate 15 0).
Proof.
  apply (ipv6_prefix_not_zero_reads_behind 64 (replicate 15 0) (replicate 15 9) (replicate 15 0) 1);
    [lia | done | done].
Defined.

End Addr.
