(* ===== verification/Checksum.v ===== *)
(** Model of the checksum code: the OSI Fletcher checksum of
    [code/common/src/checksum.c] (used for IS-IS LSPs and OSPF LSAs) and the
    Internet checksum family at the top of [code/bngblaster/src/bbl_protocols.c]. *)
From S2P Require Import Prelude.
From S2P Require Import Const.

(** * Fletcher checksum *)
Module Fletcher.

(** An [int64_t] result. *)
Definition s64 (x : Z) : Z := (x + 2 ^ 63) mod 2 ^ 64 - 2 ^ 63.

Lemma s64_small x : - 2 ^ 63 <= x < 2 ^ 63 -> s64 x = x.
Proof. intros H. unfold s64. rewrite Z.mod_small; lia. Qed.

(** ** validate_fletcher_checksum *)

Fixpoint validate_loop (n : nat) (c0 c1 : Z) (p : list Z) : option (Z * Z) :=
  match n with
  | O => Some (c0, c1)
  | S n' =>
      match p with
      | [] => None
      | b :: p' => let c0 := u64 (c0 + b) in validate_loop n' c0 (u64 (c1 + c0)) p'
      end
  end.

Definition validate_fletcher_checksum (pptr : list Z) (length : nat) : option Z :=
  '(c0, c1) ← validate_loop length 0 0 pptr;
  let c0 := c0 mod 255 in
  let c1 := c1 mod 255 in
  Some (u16 (Z.lor (Z.shiftl c1 8) c0)).

(** ** calculate_fletcher_checksum *)

(** [c0 += *pptr++; c1 += c0;] on [int64_t] accumulators, [n] times. *)
Fixpoint acc (n : nat) (st : Z * Z * list Z) : option (Z * Z * list Z) :=
  match n with
  | O => Some st
  | S n' =>
      match st with
      | (_, _, []) => None
      | (c0, c1, b :: p) => let c0 := s64 (c0 + b) in acc n' (c0, s64 (c1 + c0), p)
      end
  end.

(** [while(tlen >= 10) { ten times acc; tlen -= 10; }] *)
Fixpoint unrolled_loop (fuel : nat) (tlen : Z) (st : Z * Z * list Z)
    : option (Z * (Z * Z * list Z)) :=
  match fuel with
  | O => None
  | S f => if 10 <=? tlen then st' ← acc 10 st; unrolled_loop f (tlen - 10) st'
           else Some (tlen, st)
  end.

(** [while(--tlen >= 0) { acc }] *)
Fixpoint remainder_loop (fuel : nat) (tlen : Z) (st : Z * Z * list Z) : option (Z * Z * list Z) :=
  match fuel with
  | O => None
  | S f => let tlen := tlen - 1 in
           if 0 <=? tlen then st' ← acc 1 st; remainder_loop f tlen st' else Some st
  end.

Definition zero2 (buf : list Z) (off : nat) : option (list Z) :=
  if decide (off + 1 < length buf)%nat then Some (<[(off + 1)%nat := 0]> (<[off := 0]> buf)) else None.

(** The buffer with the checksum field reset, and the checksum. *)
Definition calculate_fletcher_checksum (pptr : list Z) (checksum_offset length : nat)
    : option (list Z * Z) :=
  buf ← zero2 pptr checksum_offset;
  '(tlen, st) ← unrolled_loop (S length) (Z.of_nat length) (0, 0, buf);
  '(c0, c1, _) ← remainder_loop (S length) tlen st;
  let c0 := Z.rem c0 255 in
  let c1 := Z.rem (s64 (c1 - s64 (u32 (Z.of_nat length - Z.of_nat checksum_offset) * c0))) 255 in
  let c1 := if c1 <=? 0 then c1 + 255 else c1 in
  let c0 := 255 - c1 - c0 in
  let c0 := if c0 <=? 0 then c0 + 255 else c0 in
  Some (buf, u16 (Z.lor (Z.shiftl c0 8) c1)).

(** ** The two sums, as the standard defines them *)

Fixpoint sum0 (p : list Z) : Z :=
  match p with [] => 0 | b :: p' => b + sum0 p' end.
(** Each byte counts with its distance from the end. *)
Fixpoint sum1 (p : list Z) : Z :=
  match p with [] => 0 | b :: p' => Z.of_nat (length p) * b + sum1 p' end.

Lemma sum0_bound p : bytes p -> 0 <= sum0 p <= 255 * Z.of_nat (length p).
Proof. induction 1; cbn [sum0 length]; lia. Qed.

Lemma sum1_bound p : bytes p -> 0 <= sum1 p <= 255 * Z.of_nat (length p) * Z.of_nat (length p).
Proof. induction 1; cbn [sum1 length]; [simpl; lia|]. rewrite Nat2Z.inj_succ. nia. Qed.

Lemma sum0_app p q : sum0 (p ++ q) = sum0 p + sum0 q.
Proof. induction p; cbn [sum0 app]; lia. Qed.

Lemma sum1_app p q : sum1 (p ++ q) = sum1 p + Z.of_nat (length q) * sum0 p + sum1 q.
Proof. induction p; cbn [sum1 sum0 app]; [lia|]. cbn [length]. rewrite length_app. lia. Qed.

(** Running both accumulators over [p] from [c0] and [c1]. *)
Definition run0 (c0 : Z) (p : list Z) : Z := c0 + sum0 p.
Definition run1 (c0 c1 : Z) (p : list Z) : Z := c1 + Z.of_nat (length p) * c0 + sum1 p.

Definition in_s64 (c0 c1 : Z) (p : list Z) : Prop :=
  0 <= c0 /\ 0 <= c1 /\ bytes p /\ run0 c0 p < 2 ^ 31 /\ run1 c0 c1 p < 2 ^ 62.

Lemma in_s64_step c0 c1 b p : in_s64 c0 c1 (b :: p) ->
  s64 (c0 + b) = c0 + b /\ s64 (c1 + s64 (c0 + b)) = c1 + (c0 + b) /\
  in_s64 (c0 + b) (c1 + (c0 + b)) p.
Proof.
  unfold in_s64, run0, run1. intros (H0 & H1 & Hb & Hr0 & Hr1). apply bytes_cons in Hb as [Hb Hp].
  pose proof (sum0_bound p Hp). pose proof (sum1_bound p Hp).
  cbn [sum0 sum1 length] in *. rewrite Nat2Z.inj_succ in *.
  rewrite (s64_small (c0 + b)) by nia. rewrite s64_small by nia.
  repeat split; try done; nia.
Qed.

Lemma acc_spec n c0 c1 p q : length p = n -> in_s64 c0 c1 p ->
  acc n (c0, c1, p ++ q) = Some (run0 c0 p, run1 c0 c1 p, q).
Proof.
  revert c0 c1 p. induction n as [|n IH]; intros c0 c1 p Hl Hs.
  { destruct p; [|done]. unfold run0, run1. cbn. f_equal. f_equal. f_equal; lia. }
  destruct p as [|b p]; [done|]. destruct (in_s64_step _ _ _ _ Hs) as (E0 & E1 & Hs').
  cbn [acc app]. rewrite E1, E0. injection Hl as Hl. rewrite IH by auto.
  unfold run0, run1. cbn [sum0 sum1 length]. do 3 f_equal; lia.
Qed.

Lemma in_s64_app c0 c1 p q : in_s64 c0 c1 (p ++ q) ->
  in_s64 c0 c1 p /\ in_s64 (run0 c0 p) (run1 c0 c1 p) q /\
  run0 (run0 c0 p) q = run0 c0 (p ++ q) /\ run1 (run0 c0 p) (run1 c0 c1 p) q = run1 c0 c1 (p ++ q).
Proof.
  unfold in_s64, run0, run1. rewrite bytes_app, sum0_app, sum1_app, length_app, Nat2Z.inj_add.
  intros (H0 & H1 & [Hp Hq] & Hr0 & Hr1).
  pose proof (sum0_bound p Hp). pose proof (sum1_bound p Hp).
  pose proof (sum0_bound q Hq). pose proof (sum1_bound q Hq).
  repeat split; try done; nia.
Qed.

Lemma unrolled_loop_spec fuel p q c0 c1 :
  (length p < fuel)%nat -> in_s64 c0 c1 p ->
  exists p1 p2, p = p1 ++ p2 /\ (length p2 < 10)%nat /\
    unrolled_loop fuel (Z.of_nat (length p)) (c0, c1, p ++ q)
    = Some (Z.of_nat (length p2), (run0 c0 p1, run1 c0 c1 p1, p2 ++ q)).
Proof.
  revert p c0 c1. induction fuel as [|f IH]; intros p c0 c1 Hf Hs; [lia|].
  cbn [unrolled_loop]. destruct (Z.leb_spec 10 (Z.of_nat (length p))).
  - assert (Hsplit : p = take 10 p ++ drop 10 p) by (by rewrite take_drop).
    assert (Hl10 : length (take 10 p) = 10%nat) by (rewrite length_take; lia).
    rewrite Hsplit in Hs. destruct (in_s64_app _ _ _ _ Hs) as (Ha & Hb & E0 & E1).
    replace (p ++ q) with (take 10 p ++ drop 10 p ++ q) by (by rewrite app_assoc, take_drop).
    rewrite acc_spec by auto. cbn [mbind option_bind].
    destruct (IH (drop 10 p) (run0 c0 (take 10 p)) (run1 c0 c1 (take 10 p)))
      as (p1 & p2 & Hp & Hl2 & He); [rewrite length_drop; lia | done |].
    exists (take 10 p ++ p1), p2. split; [by rewrite <- app_assoc, <- Hp|]. split; [done|].
    replace (Z.of_nat (length p) - 10) with (Z.of_nat (length (drop 10 p)))
      by (rewrite length_drop; lia).
    rewrite He. rewrite Hp, app_assoc in Hs. apply in_s64_app in Hs as [Hs _].
    destruct (in_s64_app _ _ _ _ Hs) as (_ & _ & -> & ->). done.
  - exists [], p. split; [done|]. split; [lia|]. unfold run0, run1; cbn. do 4 f_equal; lia.
Qed.

Lemma remainder_loop_spec fuel p q c0 c1 :
  (length p < fuel)%nat -> in_s64 c0 c1 p ->
  remainder_loop fuel (Z.of_nat (length p)) (c0, c1, p ++ q)
  = Some (run0 c0 p, run1 c0 c1 p, q).
Proof.
  revert p c0 c1. induction fuel as [|f IH]; intros p c0 c1 Hf Hs; [lia|].
  cbn [remainder_loop]. destruct p as [|b p].
  { cbn. unfold run0, run1. cbn. do 3 f_equal; lia. }
  cbv zeta. case_if; [|exfalso; rewrite length_cons in *; lia].
  destruct (in_s64_app c0 c1 [b] p Hs) as (Ha & Hb & E0 & E1).
  change ((b :: p) ++ q) with ([b] ++ p ++ q). rewrite acc_spec by auto. cbn [mbind option_bind].
  replace (Z.of_nat (length (b :: p)) - 1) with (Z.of_nat (length p)) by (rewrite length_cons; lia).
  rewrite IH by (auto; rewrite length_cons in Hf; lia). by rewrite E0, E1.
Qed.

Lemma validate_loop_spec p q c0 c1 : in_s64 c0 c1 p ->
  validate_loop (length p) c0 c1 (p ++ q) = Some (run0 c0 p, run1 c0 c1 p).
Proof.
  revert c0 c1. induction p as [|b p IH]; intros c0 c1 Hs.
  { unfold run0, run1. cbn. do 2 f_equal; lia. }
  destruct (in_s64_step _ _ _ _ Hs) as (_ & _ & Hs'). pose proof Hs as (H0 & H1 & Hb & Hr0 & Hr1).
  apply bytes_cons in Hb as [Hb Hp]. pose proof (sum0_bound p Hp). pose proof (sum1_bound p Hp).
  unfold run0, run1 in Hr0, Hr1. cbn [sum0 sum1 length] in *. rewrite Nat2Z.inj_succ in *.
  cbn [validate_loop app]. cbv zeta.
  rewrite (u64_small (c0 + b)) by nia. rewrite u64_small by nia. rewrite IH by done.
  unfold run0, run1. cbn [sum0 sum1 length]. rewrite Nat2Z.inj_succ. do 2 f_equal; lia.
Qed.

(** Any region of less than 65536 bytes is summed without overflow. *)
Lemma in_s64_region p : bytes p -> Z.of_nat (length p) < 65536 -> in_s64 0 0 p.
Proof.
  intros Hp Hl. pose proof (sum0_bound p Hp). pose proof (sum1_bound p Hp).
  unfold in_s64, run0, run1. repeat split; try done; nia.
Qed.

(** The sums the unrolled loop and its remainder compute. *)
Lemma calculate_sums p q : bytes p -> Z.of_nat (length p) < 65536 ->
  ('(tlen, st) ← unrolled_loop (S (length p)) (Z.of_nat (length p)) (0, 0, p ++ q);
   remainder_loop (S (length p)) tlen st) = Some (sum0 p, sum1 p, q).
Proof.
  intros Hp Hl. pose proof (in_s64_region p Hp Hl) as Hs.
  destruct (unrolled_loop_spec (S (length p)) p q 0 0) as (p1 & p2 & Hpp & Hl2 & ->); [lia | done |].
  cbn [mbind option_bind]. rewrite Hpp in Hs. destruct (in_s64_app _ _ _ _ Hs) as (_ & Hs2 & E0 & E1).
  rewrite remainder_loop_spec; [| rewrite Hpp, length_app; lia | done].
  rewrite E0, E1, <- Hpp. unfold run0, run1. do 3 f_equal; lia.
Qed.

Lemma zero2_spec pptr off : (off + 1 < length pptr)%nat ->
  zero2 pptr off = Some (take off pptr ++ [0; 0] ++ drop (off + 2) pptr).
Proof.
  intros H. unfold zero2. rewrite decide_True by done. f_equal.
  rewrite <- (take_drop off pptr) at 1.
  destruct (drop off pptr) as [|a [|b r]] eqn:E;
    try (apply (f_equal length) in E; rewrite length_drop in E; cbn [length] in E; lia).
  assert (Hr : drop (off + 2) pptr = r) by (rewrite <- drop_drop, E; done).
  rewrite Hr. assert (Hl : length (take off pptr) = off) by (rewrite length_take; lia).
  rewrite (insert_app_r_alt _ _ off) by lia. rewrite Hl, Nat.sub_diag.
  rewrite insert_app_r_alt by lia. rewrite Hl. by replace (off + 1 - off)%nat with 1%nat by lia.
Qed.

(** The two check bytes, from the sums of the data with a zero field. *)
Definition check_y (s0 s1 dist : Z) : Z :=
  let c1 := Z.rem (s1 - dist * Z.rem s0 255) 255 in if c1 <=? 0 then c1 + 255 else c1.
Definition check_x (s0 y : Z) : Z :=
  let c0 := 255 - y - Z.rem s0 255 in if c0 <=? 0 then c0 + 255 else c0.

Lemma check_bytes s0 s1 dist : 0 <= s0 -> 0 <= s1 ->
  let y := check_y s0 s1 dist in let x := check_x s0 y in
  1 <= y <= 255 /\ 1 <= x <= 255 /\
  (s0 + x + y) mod 255 = 0 /\ (s1 + dist * x + (dist - 1) * y) mod 255 = 0.
Proof.
  intros H0 H1. cbv zeta.
  assert (Hy : 1 <= check_y s0 s1 dist <= 255 /\
               (check_y s0 s1 dist - (s1 - dist * s0)) mod 255 = 0).
  { unfold check_y. pose proof (Z.rem_bound_abs (s1 - dist * Z.rem s0 255) 255 ltac:(lia)) as Hr.
    set (r := Z.rem (s1 - dist * Z.rem s0 255) 255) in *.
    assert (Hq : exists q, s1 - dist * Z.rem s0 255 = 255 * q + r)
      by (exists (Z.quot (s1 - dist * Z.rem s0 255) 255); apply Z.quot_rem').
    assert (Hq0 : exists q0, s0 = 255 * q0 + Z.rem s0 255)
      by (exists (Z.quot s0 255); apply Z.quot_rem').
    destruct Hq as [q Hq], Hq0 as [q0 Hq0]. clearbody r.
    cbv zeta. destruct (Z.leb_spec r 0); (split; [lia|]).
    - apply Z.mod_divide; [lia|]. exists (dist * q0 - q + 1). lia.
    - apply Z.mod_divide; [lia|]. exists (dist * q0 - q). lia. }
  destruct Hy as [Hy Hy']. set (y := check_y s0 s1 dist) in *. clearbody y.
  assert (Hx : 1 <= check_x s0 y <= 255 /\ (s0 + check_x s0 y + y) mod 255 = 0).
  { unfold check_x. pose proof (Z.rem_bound_pos s0 255 H0 ltac:(lia)).
    assert (Hq0 : exists q0, s0 = 255 * q0 + Z.rem s0 255)
      by (exists (Z.quot s0 255); apply Z.quot_rem').
    destruct Hq0 as [q0 Hq0]. cbv zeta.
    destruct (Z.leb_spec (255 - y - Z.rem s0 255) 0); (split; [lia|]).
    - apply Z.mod_divide; [lia|]. exists (q0 + 2). lia.
    - apply Z.mod_divide; [lia|]. exists (q0 + 1). lia. }
  destruct Hx as [Hx Hx']. set (x := check_x s0 y) in *. clearbody x.
  repeat split; try lia.
  apply Z.mod_divide in Hy' as [a Ha]; [|lia]. apply Z.mod_divide in Hx' as [b Hb]; [|lia].
  apply Z.mod_divide; [lia|]. exists (dist * b - a). nia.
Qed.

Lemma combine16 x y : 0 <= x < 256 -> 0 <= y < 256 ->
  u16 (Z.lor (Z.shiftl x 8) y) = x * 256 + y.
Proof.
  intros Hx Hy. rewrite Z.shiftl_mul_pow2 by lia. rewrite <- Z.add_nocarry_lor.
  - rewrite u16_small; lia.
  - apply Z.bits_inj'. intros i Hi. rewrite Z.land_spec, Z.bits_0.
    destruct (Z.ltb_spec i 8); [by rewrite Z.mul_pow2_bits_low by lia|].
    rewrite <- (Z.mod_small y (2 ^ 8)), Z.mod_pow2_bits_high by lia. apply andb_false_r.
Qed.

Lemma be_split2 x y : 0 <= x < 256 -> 0 <= y < 256 -> be_split 2 (x * 256 + y) = [x; y].
Proof.
  intros Hx Hy. rewrite <- (be_split_combine [x; y]) by (repeat constructor; lia).
  reflexivity.
Qed.

(** What the function returns, over the two sums of the summed region. *)
Lemma calculate_spec pre suf rest o1 o2 :
  let p := pre ++ [0; 0] ++ suf in
  bytes (pre ++ [o1; o2] ++ suf) -> Z.of_nat (length p) < 65536 ->
  let dist := Z.of_nat (length suf) + 2 in
  let y := check_y (sum0 p) (sum1 p) dist in let x := check_x (sum0 p) y in
  calculate_fletcher_checksum ((pre ++ [o1; o2] ++ suf) ++ rest) (length pre) (length p)
  = Some (p ++ rest, x * 256 + y).
Proof.
  intros p Hb Hl dist y x. unfold calculate_fletcher_checksum.
  assert (Hp : bytes p).
  { unfold p. rewrite !bytes_app in *. destruct Hb as (? & _ & ?).
    repeat split; auto; repeat constructor; lia. }
  rewrite zero2_spec by (rewrite !length_app; simpl; lia). cbn [mbind option_bind].
  rewrite <- !app_assoc. rewrite take_app_exact by done.
  replace (drop (length pre + 2) (pre ++ [o1; o2] ++ suf ++ rest)) with (suf ++ rest)
    by (rewrite app_assoc, drop_app_exact; [done | by rewrite length_app]).
  replace (pre ++ [0; 0] ++ suf ++ rest) with (p ++ rest) by (unfold p; by rewrite <- !app_assoc).
  pose proof (calculate_sums p rest Hp Hl) as Hs.
  destruct (unrolled_loop (S (length p)) (Z.of_nat (length p)) (0, 0, p ++ rest)) as [[tlen st]|] eqn:E;
    cbn [mbind option_bind] in Hs |- *; [|discriminate Hs]. rewrite Hs. cbn [mbind option_bind].
  assert (Hd : Z.of_nat (length p) - Z.of_nat (length pre) = dist)
    by (unfold p, dist; rewrite !length_app; simpl; lia).
  assert (Hdl : 0 <= dist < 65536) by (unfold dist, p in *; rewrite !length_app in Hl; simpl in Hl; lia).
  rewrite Hd, u32_small by lia.
  pose proof (sum0_bound p Hp). pose proof (sum1_bound p Hp).
  pose proof (Z.rem_bound_pos (sum0 p) 255 ltac:(lia) ltac:(lia)).
  rewrite (s64_small (dist * _)) by nia. rewrite s64_small by nia.
  pose proof (check_bytes (sum0 p) (sum1 p) dist ltac:(lia) ltac:(lia)) as (Hy & Hx & _).
  cbv zeta. fold (check_y (sum0 p) (sum1 p) dist). fold y. fold (check_x (sum0 p) y). fold x.
  by rewrite combine16 by (unfold x, y; lia).
Qed.

(** C11. A PDU whose checksum field is filled with the value
    [calculate_fletcher_checksum] returns (in network byte order) is accepted by
    [validate_fletcher_checksum], for every field offset inside the PDU and
    every PDU of less than 65536 bytes; the calculation changes nothing but the
    checksum field. *)
Theorem fletcher_checksum_valid (pptr : list Z) (off len : nat) :
  bytes pptr -> (off + 1 < len)%nat -> (len <= length pptr)%nat -> Z.of_nat len < 65536 ->
  exists v, calculate_fletcher_checksum pptr off len
              = Some (take off pptr ++ [0; 0] ++ drop (off + 2) pptr, v) /\
    validate_fletcher_checksum (take off pptr ++ be_split 2 v ++ drop (off + 2) pptr) len = Some 0.
Proof.
  intros Hb Ho Hl H16.
  set (pre := take off pptr). set (suf := take (len - off - 2) (drop (off + 2) pptr)).
  set (rest := drop len pptr).
  assert (Hpre : length pre = off) by (unfold pre; rewrite length_take; lia).
  assert (Hsuf : length suf = (len - off - 2)%nat)
    by (unfold suf; rewrite length_take, length_drop; lia).
  assert (Hdrop : drop (off + 2) pptr = suf ++ rest).
  { unfold suf, rest. rewrite <- (take_drop (len - off - 2) (drop (off + 2) pptr)) at 1.
    f_equal. rewrite drop_drop. f_equal. lia. }
  assert (Hmid : exists o1 o2, drop off pptr = o1 :: o2 :: drop (off + 2) pptr).
  { destruct (drop off pptr) as [|o1 [|o2 r]] eqn:E;
      try (apply (f_equal length) in E; rewrite length_drop in E; cbn [length] in E; lia).
    exists o1, o2. by rewrite <- drop_drop, E. }
  destruct Hmid as (o1 & o2 & Hmid).
  assert (Hpptr : pptr = (pre ++ [o1; o2] ++ suf) ++ rest).
  { rewrite <- (take_drop off pptr) at 1. rewrite Hmid, Hdrop. unfold pre. by rewrite <- !app_assoc. }
  assert (Hpb : bytes (pre ++ [o1; o2] ++ suf)) by (rewrite Hpptr, bytes_app in Hb; apply Hb).
  rewrite Hdrop. set (p := pre ++ [0; 0] ++ suf).
  assert (Hlp : length p = len) by (unfold p; rewrite !length_app; simpl; lia).
  pose proof (calculate_spec pre suf rest o1 o2 Hpb) as Hc. cbv zeta in Hc. fold p in Hc.
  rewrite Hlp, Hpre, <- Hpptr in Hc. specialize (Hc H16).
  set (dist := Z.of_nat (length suf) + 2) in *.
  set (y := check_y (sum0 p) (sum1 p) dist) in *. set (x := check_x (sum0 p) y) in *.
  exists (x * 256 + y). rewrite Hc. unfold p at 1. rewrite <- !app_assoc. split; [done|].
  assert (Hpp : bytes p).
  { unfold p. rewrite !bytes_app in Hpb |- *. destruct Hpb as (? & _ & ?).
    repeat split; auto; repeat constructor; lia. }
  pose proof (sum0_bound p Hpp). pose proof (sum1_bound p Hpp).
  destruct (check_bytes (sum0 p) (sum1 p) dist ltac:(lia) ltac:(lia)) as (Hy & Hx & E0 & E1).
  fold y in Hy, Hx, E0, E1. fold x in Hx, E0, E1.
  rewrite be_split2 by lia. set (p' := pre ++ [x; y] ++ suf).
  replace (pre ++ [x; y] ++ suf ++ rest) with (p' ++ rest) by (unfold p'; by rewrite <- !app_assoc).
  assert (Hlp' : length p' = len) by (unfold p'; rewrite !length_app; simpl; lia).
  assert (Hbp' : bytes p').
  { unfold p'. rewrite !bytes_app in Hpb |- *. destruct Hpb as (? & _ & ?).
    repeat split; auto; repeat constructor; lia. }
  unfold validate_fletcher_checksum. rewrite <- Hlp', validate_loop_spec
    by (apply in_s64_region; [done | lia]).
  cbn [mbind option_bind]. unfold run0, run1. rewrite Z.mul_0_r, !Z.add_0_l.
  assert (S0 : sum0 p' = sum0 p + x + y)
    by (unfold p', p; rewrite !sum0_app; cbn [sum0]; lia).
  assert (S1 : sum1 p' = sum1 p + dist * x + (dist - 1) * y)
    by (unfold p', p, dist; rewrite !sum1_app, !length_app; cbn [sum0 sum1 length]; lia).
  by rewrite S0, S1, E0, E1.
Qed.

Lemma fletcher_checksum_valid_witness :
  exists v, calculate_fletcher_checksum [1; 2; 3; 4; 5; 6] 2 6
              = Some (take 2 [1; 2; 3; 4; 5; 6] ++ [0; 0] ++ drop (2 + 2) [1; 2; 3; 4; 5; 6], v) /\
    validate_fletcher_checksum
      (take 2 [1; 2; 3; 4; 5; 6] ++ be_split 2 v ++ drop (2 + 2) [1; 2; 3; 4; 5; 6]) 6 = Some 0.
Proof.
  apply (fletcher_checksum_valid [1; 2; 3; 4; 5; 6] 2 6); [repeat constructor; lia | lia | simpl; lia | lia].
Defined.

End Fletcher.

(** * Internet checksum *)
Module Inet.


(** [htobe16] on the little-endian host. *)
Definition htobe16 (x : Z) : Z := le_combine (be_split 2 x).

(** [while(len > 1) { result += *cur++; len -= 2; }]: [n] is the number of rounds. *)
Fixpoint checksum_words (n : nat) (cur : list Z) (result : Z) : option (Z * list Z) :=
  match n with
  | O => Some (result, cur)
  | S n' =>
      match cur with
      | a :: b :: cur' => checksum_words n' cur' (u32 (result + le_combine [a; b]))
      | _ => None
      end
  end.

Definition _checksum (buf : list Z) (len : Z) : option Z :=
  let words := if 1 <? len then len / 2 else 0 in
  '(result, cur) ← checksum_words (Z.to_nat words) buf 0;
  let len := len - 2 * words in
  if len =? 0 then Some result
  else match cur with
       | a :: _ => Some (u32 (result + a))
       | [] => None
       end.

(** [while(sum >> 16) sum = (sum & 0xffff) + (sum >> 16)] on a [uint32_t]. *)
Fixpoint fold_loop (fuel : nat) (sum : Z) : option Z :=
  match fuel with
  | O => None
  | S f => if Z.shiftr sum 16 =? 0 then Some sum
           else fold_loop f (u32 (Z.land sum 0xffff + Z.shiftr sum 16))
  end.

Definition _fold (sum : Z) : option Z := fold_loop 3 sum.

(** [~x] truncated to the [uint16_t] return type. *)
Definition not16 (x : Z) : Z := u16 (Z.lnot x).

Definition bbl_checksum (buf : list Z) (len : Z) : option Z :=
  s ← _checksum buf len; f ← _fold s; Some (not16 f).

(** Sum of a pseudo header and the parts of the upper-layer packet. *)
Definition pseudo_sum (proto : Z) (src dst : list Z) (len : Z) (parts : list (list Z * Z)) : option Z :=
  s1 ← _checksum src (Z.of_nat (length src));
  s2 ← _checksum dst (Z.of_nat (length dst));
  foldl (fun acc part => a ← acc; s ← _checksum (part.1) (part.2); Some (u32 (a + s)))
        (Some (u32 (htobe16 proto + htobe16 len + s1 + s2))) parts.

Definition bbl_ipv4_udp_checksum (src dst : Z) (udp : list Z) (udp_len : Z) : option Z :=
  s ← pseudo_sum PROTOCOL_IPV4_UDP (le_split 4 src) (le_split 4 dst) udp_len
        [(udp, 6); (drop 8 udp, udp_len - 8)];
  f ← _fold s; Some (not16 f).

Definition bbl_ipv4_tcp_checksum (src dst : Z) (tcp : list Z) (tcp_len : Z) : option Z :=
  s ← pseudo_sum PROTOCOL_IPV4_TCP (le_split 4 src) (le_split 4 dst) tcp_len [(tcp, tcp_len)];
  f ← _fold s; Some (not16 f).

Definition bbl_ipv6_udp_checksum (src dst udp : list Z) (udp_len : Z) : option Z :=
  s ← pseudo_sum IPV6_NEXT_HEADER_UDP src dst udp_len [(udp, 6); (drop 8 udp, udp_len - 8)];
  f ← _fold s; Some (not16 f).

Definition bbl_ipv6_tcp_checksum (src dst tcp : list Z) (tcp_len : Z) : option Z :=
  s ← pseudo_sum IPV6_NEXT_HEADER_TCP src dst tcp_len [(tcp, tcp_len)];
  f ← _fold s; Some (not16 f).

Definition bbl_ipv6_icmpv6_checksum (src dst icmp : list Z) (icmp_len : Z) : option Z :=
  s ← pseudo_sum IPV6_NEXT_HEADER_ICMPV6 src dst icmp_len [(icmp, 2); (drop 4 icmp, icmp_len - 4)];
  f ← _fold s; Some (not16 f).

Definition bbl_ipv6_ospf_checksum (src dst ospf : list Z) (ospf_len : Z) : option Z :=
  s ← pseudo_sum IPV6_NEXT_HEADER_OSPF src dst ospf_len [(ospf, ospf_len)];
  f ← _fold s; Some (not16 f).

(** ** The exact sum of a byte string read as little-endian 16-bit words *)

Fixpoint wsum (bs : list Z) : Z :=
  match bs with
  | a :: b :: rest => a + 256 * b + wsum rest
  | [a] => a
  | [] => 0
  end.

Lemma wsum_bound n : forall bs, (length bs <= n)%nat -> bytes bs ->
  0 <= wsum bs <= 65535 * (Z.of_nat (length bs) + 1).
Proof.
  induction n as [|n IH]; intros bs Hn Hb; [destruct bs; simpl in *; lia|].
  destruct bs as [|a [|b bs]]; [simpl; lia| |].
  - apply bytes_cons in Hb as [Ha _]. cbn [wsum length]. lia.
  - apply bytes_cons in Hb as [Ha Hb]. apply bytes_cons in Hb as [Hb Hbs].
    specialize (IH bs ltac:(simpl in Hn; lia) Hbs). cbn [wsum length]. lia.
Qed.

Lemma wsum_app n : forall p q, length p = (2 * n)%nat -> wsum (p ++ q) = wsum p + wsum q.
Proof.
  induction n as [|n IH]; intros p q Hp; [by destruct p|].
  destruct p as [|a [|b p]]; simpl in Hp; try lia.
  cbn [app wsum]. rewrite IH by lia. lia.
Qed.

Lemma checksum_words_spec n : forall p q r, length p = (2 * n)%nat -> bytes p -> 0 <= r ->
  r + wsum p < 2 ^ 32 -> checksum_words n (p ++ q) r = Some (r + wsum p, q).
Proof.
  induction n as [|n IH]; intros p q r Hp Hb Hr Hs.
  { destruct p; [|done]. cbn. by rewrite Z.add_0_r. }
  destruct p as [|a [|b p]]; simpl in Hp; try lia.
  apply bytes_cons in Hb as [Ha Hb]. apply bytes_cons in Hb as [Hb Hbs].
  pose proof (wsum_bound (length p) p ltac:(lia) Hbs). cbn [wsum] in Hs.
  cbn [app checksum_words le_combine wsum]. rewrite u32_small by lia.
  rewrite IH by (try lia; auto). do 2 f_equal. lia.
Qed.

Lemma checksum_spec p q : bytes p -> Z.of_nat (length p) < 65536 ->
  _checksum (p ++ q) (Z.of_nat (length p)) = Some (wsum p).
Proof.
  intros Hb Hl. unfold _checksum.
  set (len := Z.of_nat (length p)) in *. set (w := if 1 <? len then len / 2 else 0).
  assert (Hw : 0 <= w /\ 0 <= len - 2 * w <= 1).
  { unfold w. case_if; pose proof (Z.div_mod len 2 ltac:(lia));
      pose proof (Z.mod_pos_bound len 2 ltac:(lia)); lia. }
  pose proof (wsum_bound (length p) p ltac:(lia) Hb) as Hbound.
  assert (Hsplit : p = take (2 * Z.to_nat w) p ++ drop (2 * Z.to_nat w) p) by (by rewrite take_drop).
  assert (Hlt : length (take (2 * Z.to_nat w) p) = (2 * Z.to_nat w)%nat) by (rewrite length_take; lia).
  assert (Hws : wsum p = wsum (take (2 * Z.to_nat w) p) + wsum (drop (2 * Z.to_nat w) p))
    by (rewrite Hsplit at 1; by apply (wsum_app (Z.to_nat w))).
  pose proof (wsum_bound _ (drop (2 * Z.to_nat w) p) (le_n _) (bytes_drop _ _ Hb)) as Hbd.
  replace (p ++ q) with (take (2 * Z.to_nat w) p ++ drop (2 * Z.to_nat w) p ++ q)
    by (by rewrite app_assoc, take_drop).
  rewrite checksum_words_spec by (auto with bbl; lia). cbn [mbind option_bind]. rewrite Z.add_0_l.
  destruct (drop (2 * Z.to_nat w) p) as [|a [|b r]] eqn:E; apply (f_equal length) in E;
    rewrite length_drop in E; cbn [length] in E; try lia; cbn [app wsum] in *.
  - replace (len - 2 * w =? 0) with true by lia. f_equal. lia.
  - replace (len - 2 * w =? 0) with false by lia. rewrite u32_small by lia. f_equal. lia.
Qed.

Lemma checksum_spec_full p : bytes p -> Z.of_nat (length p) < 65536 ->
  _checksum p (Z.of_nat (length p)) = Some (wsum p).
Proof. intros Hb Hl. rewrite <-(app_nil_r p) at 1. by apply checksum_spec. Qed.

(** ** Folding *)

Lemma fold_step f s : 0 <= s < 2 ^ 32 ->
  fold_loop (S f) s = if s / 65536 =? 0 then Some s else fold_loop f (s mod 65536 + s / 65536).
Proof.
  intros Hs. cbn [fold_loop]. change 0xffff with (Z.ones 16).
  rewrite Z.land_ones, Z.shiftr_div_pow2 by lia. change (2 ^ 16) with 65536.
  pose proof (Z.mod_pos_bound s 65536 ltac:(lia)).
  assert (0 <= s / 65536 < 65536) by (split; [apply Z.div_pos | apply Z.div_lt_upper_bound]; lia).
  by rewrite u32_small by lia.
Qed.

Lemma fold_round x : 0 <= x < 2 ^ 32 ->
  let y := x mod 65536 + x / 65536 in 0 <= y < 2 ^ 32 /\ (y = 0 <-> x = 0) /\
    x = y + 65535 * (x / 65536) /\ 0 <= x / 65536 < 65536 /\ 0 <= x mod 65536 < 65536.
Proof.
  intros Hx y. unfold y. pose proof (Z.div_mod x 65536 ltac:(lia)).
  pose proof (Z.mod_pos_bound x 65536 ltac:(lia)).
  assert (0 <= x / 65536 < 65536) by (split; [apply Z.div_pos | apply Z.div_lt_upper_bound]; lia).
  lia.
Qed.

(** The ones'-complement reduction of a 32-bit sum: the representative of the
    sum modulo 65535 in 1..65535, or 0 for the sum 0. *)
Lemma fold_spec s : 0 <= s < 2 ^ 32 ->
  exists f, _fold s = Some f /\ 0 <= f <= 65535 /\ (f = 0 <-> s = 0) /\
    exists k, s = f + 65535 * k /\ 0 <= k.
Proof.
  intros Hs. unfold _fold. rewrite fold_step by done.
  destruct (fold_round s Hs) as (H1 & H2 & H3 & H4 & H5). cbv zeta in *.
  case_if; [exists s; split; [done|]; split; [lia|]; split; [done|]; exists 0; lia|].
  set (t := s mod 65536 + s / 65536) in *. rewrite fold_step by done.
  destruct (fold_round t H1) as (G1 & G2 & G3 & G4 & G5). cbv zeta in *.
  case_if; [exists t; split; [done|]; split; [lia|]; split; [done|]; exists (s / 65536); lia|].
  set (w := t mod 65536 + t / 65536) in *. rewrite fold_step by done.
  assert (Ht1 : t / 65536 = 1) by (unfold t in *; lia).
  assert (Hw : w / 65536 = 0) by (apply Z.div_small; lia).
  rewrite Hw. exists w. split; [done|]. split; [lia|].
  split; [lia|]. exists (s / 65536 + t / 65536). lia.
Qed.

Lemma not16_spec f : 0 <= f <= 65535 -> not16 f = 65535 - f.
Proof.
  intros Hf. unfold not16, u16, Z.lnot. change (2 ^ 16) with 65536.
  symmetry. apply (Z.mod_unique _ _ (-1)); [left|]; lia.
Qed.

(** Adding the complement of the folded sum makes the total fold to all ones. *)
Lemma fold_complete s c :
  0 <= s -> s + 65535 < 2 ^ 32 -> (f ← _fold s; Some (not16 f)) = Some c ->
  0 <= c <= 65535 /\ _fold (s + c) = Some 65535.
Proof.
  intros Hs Hb H. destruct (fold_spec s) as (f & E & Hf & Hz & k & Hk & Hk0); [lia|].
  rewrite E in H. cbn [mbind option_bind] in H. injection H as <-.
  rewrite not16_spec by lia. split; [lia|].
  destruct (fold_spec (s + (65535 - f))) as (g & E' & Hg & Hgz & k' & Hk' & Hk0'); [lia|].
  rewrite E'. f_equal. assert (g <> 0) by (rewrite Hgz; lia). nia.
Qed.

(** ** The checksums make their packets verify *)

Lemma htobe16_range x : 0 <= htobe16 x < 65536.
Proof.
  unfold htobe16. pose proof (le_combine_bound (be_split 2 x) (be_split_bytes 2 x)) as H.
  rewrite be_split_length in H. exact H.
Qed.

Lemma wsum_le_split2 c q : 0 <= c < 65536 -> wsum (le_split 2 c ++ q) = c + wsum q.
Proof.
  intros Hc. cbn [le_split app wsum]. pose proof (Z.div_mod c 256 ltac:(lia)).
  rewrite (Z.mod_small (c / 256)); [lia|].
  split; [apply Z.div_pos | apply Z.div_lt_upper_bound]; lia.
Qed.

(** The sum of a packet with the 16-bit field [c] at an even offset. *)
Lemma checksum_with_field pre post n c q :
  length pre = (2 * n)%nat -> bytes pre -> bytes post -> 0 <= c < 65536 ->
  Z.of_nat (length pre + 2 + length post) < 65536 ->
  _checksum ((pre ++ le_split 2 c ++ post) ++ q) (Z.of_nat (length pre + 2 + length post))
    = Some (wsum pre + wsum post + c).
Proof.
  intros Hp Hb Hb' Hc Hl. set (p := pre ++ le_split 2 c ++ post).
  assert (Hpb : bytes p) by (unfold p; rewrite !bytes_app; auto with bbl).
  assert (Hlen : length p = (length pre + 2 + length post)%nat)
    by (unfold p; rewrite !length_app, le_split_length; lia).
  rewrite <-Hlen, checksum_spec by (done || lia). f_equal.
  unfold p. rewrite (wsum_app n), wsum_le_split2 by done. lia.
Qed.

(** C12. [bbl_checksum] is complete: storing the checksum of a packet whose
    16-bit checksum field (at an even offset) is zero makes the checksum of the
    whole packet zero, which is how a receiver of the IPv4, ICMP, IGMP and OSPF
    headers verifies them. *)
Theorem bbl_checksum_verifies pre post n :
  length pre = (2 * n)%nat -> bytes pre -> bytes post ->
  Z.of_nat (length pre + 2 + length post) < 65536 ->
  let len := Z.of_nat (length pre + 2 + length post) in
  exists c, bbl_checksum (pre ++ [0; 0] ++ post) len = Some c /\ 0 <= c < 65536 /\
    bbl_checksum (pre ++ le_split 2 c ++ post) len = Some 0.
Proof.
  intros Hp Hb Hb' Hl len. unfold bbl_checksum.
  pose proof (checksum_with_field pre post n 0 [] Hp Hb Hb' ltac:(lia) Hl) as H0.
  rewrite app_nil_r, Z.add_0_r in H0. change (le_split 2 0) with [0; 0] in H0.
  pose proof (wsum_bound _ pre (le_n _) Hb). pose proof (wsum_bound _ post (le_n _) Hb').
  unfold len. rewrite H0. cbn [mbind option_bind].
  destruct (fold_spec (wsum pre + wsum post)) as (f & Ef & Hf & _); [lia|].
  rewrite Ef. cbn [mbind option_bind]. exists (not16 f). split; [done|].
  destruct (fold_complete (wsum pre + wsum post) (not16 f)) as [Hc Hfc]; [lia|lia|by rewrite Ef|].
  split; [lia|].
  pose proof (checksum_with_field pre post n (not16 f) [] Hp Hb Hb' ltac:(lia) Hl) as Hck.
  rewrite app_nil_r in Hck. rewrite Hck. cbn [mbind option_bind]. by rewrite Hfc.
Qed.

(** The witness computes the checksum of a concrete IPv4 header. *)
Lemma bbl_checksum_verifies_witness :
  let pre := [69;0;0;28;0;0;64;0;64;17] in let post := [10;0;0;1;10;0;0;2] in
  exists c, bbl_checksum (pre ++ [0; 0] ++ post) 20 = Some c /\ 0 <= c < 65536 /\
    bbl_checksum (pre ++ le_split 2 c ++ post) 20 = Some 0.
Proof.
  apply (bbl_checksum_verifies [69;0;0;28;0;0;64;0;64;17] [10;0;0;1;10;0;0;2] 5);
    [done| | |simpl; lia]; repeat constructor; lia.
Defined.

Lemma pseudo_sum_one proto src dst len p s :
  bytes src -> bytes dst -> (length src <= 16)%nat -> (length dst <= 16)%nat ->
  _checksum p len = Some s -> 0 <= s < 2 ^ 31 + 2 ^ 30 ->
  pseudo_sum proto src dst len [(p, len)] =
    Some (htobe16 proto + htobe16 len + wsum src + wsum dst + s).
Proof.
  intros Hs Hd Hls Hld Hp Hr. unfold pseudo_sum.
  rewrite !checksum_spec_full by (done || lia). cbn [mbind option_bind foldl fst snd]. rewrite Hp.
  cbn [mbind option_bind].
  pose proof (wsum_bound _ src (le_n _) Hs). pose proof (wsum_bound _ dst (le_n _) Hd).
  pose proof (htobe16_range proto). pose proof (htobe16_range len).
  rewrite (u32_small (htobe16 proto + htobe16 len + wsum src + wsum dst)), u32_small by lia. done.
Qed.

Lemma pseudo_sum_two proto src dst len p1 l1 p2 l2 s1 s2 :
  bytes src -> bytes dst -> (length src <= 16)%nat -> (length dst <= 16)%nat ->
  _checksum p1 l1 = Some s1 -> _checksum p2 l2 = Some s2 -> 0 <= s1 -> 0 <= s2 ->
  s1 + s2 < 2 ^ 31 + 2 ^ 30 ->
  pseudo_sum proto src dst len [(p1, l1); (p2, l2)] =
    Some (htobe16 proto + htobe16 len + wsum src + wsum dst + (s1 + s2)).
Proof.
  intros Hs Hd Hls Hld Hp1 Hp2 H1 H2 Hr. unfold pseudo_sum.
  rewrite !checksum_spec_full by (done || lia). cbn [mbind option_bind foldl fst snd]. rewrite Hp1.
  cbn [mbind option_bind]. rewrite Hp2. cbn [mbind option_bind].
  pose proof (wsum_bound _ src (le_n _) Hs). pose proof (wsum_bound _ dst (le_n _) Hd).
  pose proof (htobe16_range proto). pose proof (htobe16_range len).
  rewrite (u32_small (htobe16 proto + htobe16 len + wsum src + wsum dst)), (u32_small (_ + s1)), u32_small by lia. f_equal. lia.
Qed.

(** A checksum computed over the parts around its own field, with a pseudo
    header, makes the sum over the pseudo header and the whole packet fold to
    all ones once it is stored. *)
Lemma pseudo_checksum_verifies proto src dst pre post n x q :
  bytes src -> bytes dst -> (length src <= 16)%nat -> (length dst <= 16)%nat ->
  length pre = (2 * n)%nat -> bytes pre -> bytes post ->
  Z.of_nat (length pre + 2 + length post) < 32768 -> length x = 2%nat ->
  let len := Z.of_nat (length pre + 2 + length post) in
  let parts := pre ++ x ++ post ++ q in
  exists c,
    (s ← pseudo_sum proto src dst len
           [(parts, Z.of_nat (length pre)); (drop (length pre + 2) parts, len - Z.of_nat (length pre + 2))];
     f ← _fold s; Some (not16 f)) = Some c /\ 0 <= c < 65536 /\
    (s ← pseudo_sum proto src dst len [(pre ++ le_split 2 c ++ post ++ q, len)]; _fold s) = Some 65535.
Proof.
  intros Hs Hd Hls Hld Hp Hb Hb' Hl Hx len parts.
  pose proof (wsum_bound _ pre (le_n _) Hb). pose proof (wsum_bound _ post (le_n _) Hb').
  pose proof (wsum_bound _ src (le_n _) Hs). pose proof (wsum_bound _ dst (le_n _) Hd).
  pose proof (htobe16_range proto). pose proof (htobe16_range len).
  assert (Ed : drop (length pre + 2) parts = post ++ q).
  { unfold parts. rewrite app_assoc. apply drop_app_exact. rewrite length_app. lia. }
  replace (len - Z.of_nat (length pre + 2)) with (Z.of_nat (length post)) by (unfold len; lia).
  rewrite Ed. erewrite pseudo_sum_two;
    [ |done..|apply checksum_spec; [done|lia]|apply checksum_spec; [done|lia]|lia|lia|lia].
  cbn [mbind option_bind]. set (S := htobe16 proto + _ + _ + _ + _).
  assert (HS : 0 <= S /\ S + 65535 < 2 ^ 32) by (unfold S; lia).
  destruct (fold_spec S) as (f & Ef & Hf & _); [lia|].
  rewrite Ef. cbn [mbind option_bind]. exists (not16 f). split; [done|].
  destruct (fold_complete S (not16 f)) as [Hc Hfc]; [lia|lia|by rewrite Ef|].
  split; [lia|].
  pose proof (checksum_with_field pre post n (not16 f) q Hp Hb Hb' ltac:(lia) ltac:(lia)) as Hck.
  rewrite <-!app_assoc in Hck. erewrite pseudo_sum_one; [|done..|exact Hck|lia].
  cbn [mbind option_bind]. rewrite <-Hfc. f_equal. unfold S. lia.
Qed.

(** C32. The UDP checksum of an IPv6 datagram, computed around the checksum
    field, verifies at the receiver: whatever was in the field before, storing
    the result makes the sum over pseudo header and datagram fold to 0xffff. *)
Theorem bbl_ipv6_udp_checksum_verifies src dst ports x payload rest :
  bytes src -> bytes dst -> length src = 16%nat -> length dst = 16%nat ->
  bytes ports -> length ports = 6%nat -> length x = 2%nat -> bytes payload ->
  Z.of_nat (length payload) < 32000 ->
  let len := 8 + Z.of_nat (length payload) in
  exists c, bbl_ipv6_udp_checksum src dst (ports ++ x ++ payload ++ rest) len = Some c /\
    0 <= c < 65536 /\
    (s ← pseudo_sum IPV6_NEXT_HEADER_UDP src dst len [(ports ++ le_split 2 c ++ payload ++ rest, len)];
     _fold s) = Some 65535.
Proof.
  intros Hs Hd Hls Hld Hb Hl Hx Hb' Hp len. unfold bbl_ipv6_udp_checksum.
  pose proof (pseudo_checksum_verifies IPV6_NEXT_HEADER_UDP src dst ports payload 3 x rest) as H.
  rewrite Hl in H. cbv zeta in H.
  replace (Z.of_nat (6 + 2 + length payload)) with len in H by (unfold len; lia).
  apply H; auto; lia.
Qed.

(** The witness: a DHCPv6-sized datagram of four payload bytes. *)
Lemma bbl_ipv6_udp_checksum_verifies_witness :
  let src := [254;128] ++ replicate 13 0 ++ [1] in let dst := [255;2] ++ replicate 13 0 ++ [2] in
  exists c, bbl_ipv6_udp_checksum src dst ([2;34;2;35;0;12] ++ [9;9] ++ [1;2;3;255] ++ []) 12 = Some c /\
    0 <= c < 65536 /\
    (s ← pseudo_sum IPV6_NEXT_HEADER_UDP src dst 12
           [([2;34;2;35;0;12] ++ le_split 2 c ++ [1;2;3;255] ++ [], 12)]; _fold s) = Some 65535.
Proof.
  apply (bbl_ipv6_udp_checksum_verifies
    ([254;128] ++ replicate 13 0 ++ [1]) ([255;2] ++ replicate 13 0 ++ [2])
    [2;34;2;35;0;12] [9;9] [1;2;3;255] []); try done; simpl; repeat constructor; lia.
Defined.

End Inet.
