(* ===== verification/ProtoTypes.v ===== *)
(** The header structures of bbl_protocols.h.

    Every C struct that the protocol decoders fill and the encoders read is a
    [Record] whose fields carry the C field names prefixed by the struct's
    variable name ([lcp->mru] is [lcp_mru]).  A pointer into a packet is the
    suffix of the packet that starts there, [None] being NULL; a field the
    decoder may leave unwritten in the scratchpad is an [option] or has the
    value [h_uninit].  The untyped [void *next] pointers are values of the
    inductive type [hdr], one constructor per header the code stores there. *)
From S2P Require Import Prelude.

Local Set Warnings "-register-all".

(** [protocol_error_t] *)
Inductive protocol_error :=
| PROTOCOL_SUCCESS
| SEND_ERROR
| DECODE_ERROR
| ENCODE_ERROR
| UNKNOWN_PROTOCOL
| WRONG_PROTOCOL_STATE
| IGNORED
| EMPTY
| FULL
| STREAM_WAIT.

#[export] Instance protocol_error_eq_dec : EqDecision protocol_error.
Proof. solve_decision. Defined.

(** A pointer to packet bytes. *)
Definition ptr : Type := option (list Z).

(** [bbl_access_line_profile_s] of bbl_access_line.h, without the list link. *)
Record access_line_profile := mk_access_line_profile {
  alp_pon_access_line_version : Z;
  alp_min_up : Z;
  alp_min_down : Z;
  alp_att_up : Z;
  alp_att_down : Z;
  alp_max_up : Z;
  alp_max_down : Z;
  alp_min_up_low : Z;
  alp_min_down_low : Z;
  alp_max_interl_delay_up : Z;
  alp_act_interl_delay_up : Z;
  alp_max_interl_delay_down : Z;
  alp_act_interl_delay_down : Z;
  alp_data_link_encaps : Z;
  alp_dsl_type : Z;
  alp_pon_type : Z;
  alp_etr_up : Z;
  alp_etr_down : Z;
  alp_attetr_up : Z;
  alp_attetr_down : Z;
  alp_gdr_up : Z;
  alp_gdr_down : Z;
  alp_attgdr_up : Z;
  alp_attgdr_down : Z;
  alp_ont_onu_avg_down : Z;
  alp_ont_onu_peak_down : Z;
  alp_ont_onu_max_up : Z;
  alp_ont_onu_ass_up : Z;
  alp_pon_max_up : Z;
  alp_pon_max_down : Z
}.

(** [access_line_s]; the strings are NUL-terminated. *)
Record access_line := mk_access_line {
  al_at : Z;          (* offset of the structure in the scratchpad *)
  al_aci : ptr;
  al_ari : ptr;
  al_aaci : ptr;
  al_up : Z;
  al_down : Z;
  al_dsl_type : Z;
  al_profile : option access_line_profile
}.

Record bbl_mpls := mk_mpls { mpls_label : Z; mpls_exp : Z; mpls_ttl : Z }.

Record bbl_isis := mk_isis { isis_type : Z; isis_pdu : list Z; isis_pdu_len : Z }.

Record bbl_ospf := mk_ospf {
  ospf_version : Z; ospf_type : Z; ospf_pdu : list Z; ospf_pdu_len : Z
}.

Record bbl_ldp_hello := mk_ldp_hello {
  ldp_lsr_id : Z;
  ldp_label_space_id : Z;
  ldp_hold_time : Z;
  ldp_msg_id : Z;
  ldp_ipv4_transport_address : Z;
  ldp_ipv6_transport_address : ptr;
  ldp_dual_stack_capability : Z
}.

(** [decode_bbl] does not clear the structure: which fields it writes depends
    on the type, the others stay indeterminate ([None]). *)
Record bbl_bbl := mk_bbl {
  bbl_padding : option Z;
  bbl_type : Z;
  bbl_sub_type : Z;
  bbl_direction : Z;
  bbl_tos : Z;
  bbl_session_id : Z;
  bbl_ifindex : option Z;
  bbl_outer_vlan_id : option Z;
  bbl_inner_vlan_id : option Z;
  bbl_mc_source : option Z;
  bbl_mc_group : option Z;
  bbl_flow_id : Z;
  bbl_flow_seq : Z;
  bbl_tv_sec : Z;
  bbl_tv_nsec : Z
}.

(** A pointer variable that may also be indeterminate. *)
Inductive pointer (A : Type) := p_null | p_uninit | p_to (a : A).
Arguments p_null {A}.
Arguments p_uninit {A}.
Arguments p_to {A}.

Record bbl_ethernet_header (H : Type) := mk_eth {
  eth_length : Z;
  eth_type : Z;
  eth_vlan_outer : Z;
  eth_vlan_inner : Z;
  eth_vlan_three : Z;
  eth_vlan_outer_priority : Z;
  eth_vlan_inner_priority : Z;
  eth_tos : Z;
  eth_ttl : Z;
  eth_lwip : bool;
  eth_qinq : bool;
  eth_dst : ptr;
  eth_src : ptr;
  eth_bbl : pointer bbl_bbl;
  eth_mpls : list bbl_mpls;   (* the chain of [mpls->next] pointers *)
  eth_next : H;
  eth_raw_len : Z
}.
Arguments mk_eth {H}.
Arguments eth_length {H}.
Arguments eth_type {H}.
Arguments eth_vlan_outer {H}.
Arguments eth_vlan_inner {H}.
Arguments eth_vlan_three {H}.
Arguments eth_vlan_outer_priority {H}.
Arguments eth_vlan_inner_priority {H}.
Arguments eth_tos {H}.
Arguments eth_ttl {H}.
Arguments eth_lwip {H}.
Arguments eth_qinq {H}.
Arguments eth_dst {H}.
Arguments eth_src {H}.
Arguments eth_bbl {H}.
Arguments eth_mpls {H}.
Arguments eth_next {H}.
Arguments eth_raw_len {H}.

Record bbl_pppoe_discovery := mk_pppoe_discovery {
  pd_code : Z;
  pd_session_id : Z;
  pd_service_name : ptr;
  pd_service_name_len : Z;
  pd_ac_name : ptr;
  pd_ac_name_len : Z;
  pd_ac_cookie : ptr;
  pd_ac_cookie_len : Z;
  pd_host_uniq : ptr;
  pd_host_uniq_len : Z;
  pd_max_payload : Z;
  pd_access_line : option access_line
}.

Record bbl_pppoe_session (H : Type) := mk_pppoe_session {
  ps_session_id : Z;
  ps_protocol : Z;
  ps_raw_len : Z;
  ps_lwip : bool;
  ps_next : H
}.
Arguments mk_pppoe_session {H}.
Arguments ps_session_id {H}.
Arguments ps_protocol {H}.
Arguments ps_raw_len {H}.
Arguments ps_lwip {H}.
Arguments ps_next {H}.

Record bbl_lcp := mk_lcp {
  lcp_code : Z;
  lcp_identifier : Z;
  lcp_options : ptr;
  lcp_options_len : Z;
  lcp_mru : Z;
  lcp_auth : Z;
  lcp_protocol : Z;
  lcp_magic : Z;
  lcp_vendor_oui : list Z;
  lcp_vendor_kind : Z;
  lcp_vendor_value : ptr;
  lcp_vendor_value_len : Z;
  lcp_start : ptr;
  lcp_len : Z;
  lcp_padding : Z;
  lcp_option : list (list Z);   (* option[0..PPP_MAX_OPTIONS), the non-NULL prefix *)
  lcp_unknown_options : bool
}.

Record bbl_ipcp := mk_ipcp {
  ipcp_code : Z;
  ipcp_identifier : Z;
  ipcp_options : ptr;
  ipcp_options_len : Z;
  ipcp_address : Z;
  ipcp_dns1 : Z;
  ipcp_dns2 : Z;
  ipcp_option_address : bool;
  ipcp_option_dns1 : bool;
  ipcp_option_dns2 : bool;
  ipcp_unknown_options : bool
}.

Record bbl_ip6cp := mk_ip6cp {
  ip6cp_code : Z;
  ip6cp_identifier : Z;
  ip6cp_options : ptr;
  ip6cp_options_len : Z;
  ip6cp_ipv6_identifier : Z;
  ip6cp_unknown_options : bool
}.

Record bbl_pap := mk_pap {
  pap_code : Z;
  pap_identifier : Z;
  pap_username : ptr;
  pap_username_len : Z;
  pap_password : ptr;
  pap_password_len : Z;
  pap_reply_message : ptr;
  pap_reply_message_len : Z
}.

Record bbl_chap := mk_chap {
  chap_code : Z;
  chap_identifier : Z;
  chap_name : ptr;
  chap_name_len : Z;
  chap_challenge : ptr;
  chap_challenge_len : Z;
  chap_reply_message : ptr;
  chap_reply_message_len : Z
}.

Record bbl_ipv4 (H : Type) := mk_ipv4 {
  ipv4_src : Z;
  ipv4_dst : Z;
  ipv4_tos : Z;
  ipv4_ttl : Z;
  ipv4_protocol : Z;
  ipv4_router_alert_option : bool;
  ipv4_id : Z;
  ipv4_offset : Z;
  ipv4_len : Z;
  ipv4_hdr : list Z;
  ipv4_next : H;
  ipv4_payload : ptr;
  ipv4_payload_len : Z
}.
Arguments mk_ipv4 {H}.
Arguments ipv4_src {H}.
Arguments ipv4_dst {H}.
Arguments ipv4_tos {H}.
Arguments ipv4_ttl {H}.
Arguments ipv4_protocol {H}.
Arguments ipv4_router_alert_option {H}.
Arguments ipv4_id {H}.
Arguments ipv4_offset {H}.
Arguments ipv4_len {H}.
Arguments ipv4_hdr {H}.
Arguments ipv4_next {H}.
Arguments ipv4_payload {H}.
Arguments ipv4_payload_len {H}.

Record bbl_ipv6 (H : Type) := mk_ipv6 {
  ipv6_src : list Z;
  ipv6_dst : list Z;
  ipv6_tos : Z;
  ipv6_ttl : Z;
  ipv6_protocol : Z;
  ipv6_len : Z;
  ipv6_hdr : list Z;
  ipv6_next : H;
  ipv6_payload : ptr;
  ipv6_payload_len : Z
}.
Arguments mk_ipv6 {H}.
Arguments ipv6_src {H}.
Arguments ipv6_dst {H}.
Arguments ipv6_tos {H}.
Arguments ipv6_ttl {H}.
Arguments ipv6_protocol {H}.
Arguments ipv6_len {H}.
Arguments ipv6_hdr {H}.
Arguments ipv6_next {H}.
Arguments ipv6_payload {H}.
Arguments ipv6_payload_len {H}.

Record bbl_udp (H : Type) := mk_udp {
  udp_src : Z;
  udp_dst : Z;
  udp_payload_len : Z;
  udp_protocol : option Z;   (* [None] while the decoder has not written it *)
  udp_next : H
}.
Arguments mk_udp {H}.
Arguments udp_src {H}.
Arguments udp_dst {H}.
Arguments udp_payload_len {H}.
Arguments udp_protocol {H}.
Arguments udp_next {H}.

Record bbl_tcp := mk_tcp { tcp_src : Z; tcp_dst : Z; tcp_len : Z; tcp_hdr : ptr }.

Record bbl_igmp_group_record := mk_igmp_group_record {
  igr_type : Z; igr_group : Z; igr_sources : Z; igr_source : list Z
}.

Record bbl_igmp := mk_igmp {
  igmp_version : Z;
  igmp_type : Z;
  igmp_robustness : Z;
  igmp_group : Z;
  igmp_source : Z;
  igmp_group_records : Z;
  igmp_group_record : list bbl_igmp_group_record
}.

Record bbl_icmp := mk_icmp {
  icmp_type : Z; icmp_code : Z; icmp_data : ptr; icmp_data_len : Z
}.

Record bbl_arp := mk_arp {
  arp_code : Z;
  arp_sender : ptr;
  arp_sender_ip : Z;
  arp_target : ptr;
  arp_target_ip : Z
}.

Record bbl_icmpv6 := mk_icmpv6 {
  icmpv6_type : Z;
  icmpv6_code : Z;
  icmpv6_flags : Z;
  icmpv6_prefix_len : Z;
  icmpv6_prefix_address : list Z;
  icmpv6_mac : ptr;
  icmpv6_data : ptr;
  icmpv6_data_len : Z;
  icmpv6_dns1 : ptr;
  icmpv6_dns2 : ptr;
  icmpv6_dst_mac : ptr
}.

Record bbl_dhcpv6 (H : Type) := mk_dhcpv6 {
  dhcpv6_type : Z;
  dhcpv6_hops : Z;
  dhcpv6_elapsed : Z;
  dhcpv6_xid : Z;
  dhcpv6_interface_id : ptr;
  dhcpv6_interface_id_len : Z;
  dhcpv6_client_duid : ptr;
  dhcpv6_client_duid_len : Z;
  dhcpv6_server_duid : ptr;
  dhcpv6_server_duid_len : Z;
  dhcpv6_dns1 : ptr;
  dhcpv6_dns2 : ptr;
  dhcpv6_rapid : bool;
  dhcpv6_oro : bool;
  dhcpv6_ia_na_option : ptr;
  dhcpv6_ia_na_option_len : Z;
  dhcpv6_ia_na_iaid : Z;
  dhcpv6_ia_na_status_code : Z;
  dhcpv6_ia_na_address : ptr;
  dhcpv6_ia_na_t1 : Z;
  dhcpv6_ia_na_t2 : Z;
  dhcpv6_ia_na_preferred_lifetime : Z;
  dhcpv6_ia_na_valid_lifetime : Z;
  dhcpv6_ia_pd_option : ptr;
  dhcpv6_ia_pd_option_len : Z;
  dhcpv6_ia_pd_iaid : Z;
  dhcpv6_ia_pd_status_code : Z;
  dhcpv6_ia_pd_prefix : ptr;
  dhcpv6_ia_pd_t1 : Z;
  dhcpv6_ia_pd_t2 : Z;
  dhcpv6_ia_pd_preferred_lifetime : Z;
  dhcpv6_ia_pd_valid_lifetime : Z;
  dhcpv6_access_line : option access_line;
  dhcpv6_link_address : ptr;
  dhcpv6_peer_address : ptr;
  dhcpv6_relay_message : H
}.
Arguments mk_dhcpv6 {H}.
Arguments dhcpv6_type {H}.
Arguments dhcpv6_hops {H}.
Arguments dhcpv6_elapsed {H}.
Arguments dhcpv6_xid {H}.
Arguments dhcpv6_interface_id {H}.
Arguments dhcpv6_interface_id_len {H}.
Arguments dhcpv6_client_duid {H}.
Arguments dhcpv6_client_duid_len {H}.
Arguments dhcpv6_server_duid {H}.
Arguments dhcpv6_server_duid_len {H}.
Arguments dhcpv6_dns1 {H}.
Arguments dhcpv6_dns2 {H}.
Arguments dhcpv6_rapid {H}.
Arguments dhcpv6_oro {H}.
Arguments dhcpv6_ia_na_option {H}.
Arguments dhcpv6_ia_na_option_len {H}.
Arguments dhcpv6_ia_na_iaid {H}.
Arguments dhcpv6_ia_na_status_code {H}.
Arguments dhcpv6_ia_na_address {H}.
Arguments dhcpv6_ia_na_t1 {H}.
Arguments dhcpv6_ia_na_t2 {H}.
Arguments dhcpv6_ia_na_preferred_lifetime {H}.
Arguments dhcpv6_ia_na_valid_lifetime {H}.
Arguments dhcpv6_ia_pd_option {H}.
Arguments dhcpv6_ia_pd_option_len {H}.
Arguments dhcpv6_ia_pd_iaid {H}.
Arguments dhcpv6_ia_pd_status_code {H}.
Arguments dhcpv6_ia_pd_prefix {H}.
Arguments dhcpv6_ia_pd_t1 {H}.
Arguments dhcpv6_ia_pd_t2 {H}.
Arguments dhcpv6_ia_pd_preferred_lifetime {H}.
Arguments dhcpv6_ia_pd_valid_lifetime {H}.
Arguments dhcpv6_access_line {H}.
Arguments dhcpv6_link_address {H}.
Arguments dhcpv6_peer_address {H}.
Arguments dhcpv6_relay_message {H}.

(** The 236 bytes of the BOOTP header are kept as the bytes they are. *)
Record bbl_dhcp := mk_dhcp {
  dhcp_header : ptr;
  dhcp_type : Z;
  dhcp_server_identifier : Z;
  dhcp_lease_time : Z;
  dhcp_address : Z;
  dhcp_netmask : Z;
  dhcp_dns1 : Z;
  dhcp_dns2 : Z;
  dhcp_router : Z;
  dhcp_mtu : Z;
  dhcp_t1 : Z;
  dhcp_t2 : Z;
  dhcp_host_name : ptr;
  dhcp_host_name_len : Z;
  dhcp_domain_name : ptr;
  dhcp_domain_name_len : Z;
  dhcp_parameter_request_list : bool;
  dhcp_option_server_identifier : bool;
  dhcp_option_lease_time : bool;
  dhcp_option_address : bool;
  dhcp_option_netmask : bool;
  dhcp_option_dns1 : bool;
  dhcp_option_dns2 : bool;
  dhcp_option_router : bool;
  dhcp_option_mtu : bool;
  dhcp_option_host_name : bool;
  dhcp_option_domain_name : bool;
  dhcp_option_t1 : bool;
  dhcp_option_t2 : bool;
  dhcp_access_line : option access_line;
  dhcp_vendor_class_id : ptr;
  dhcp_client_identifier : ptr;
  dhcp_client_identifier_len : Z
}.

Record bbl_l2tp (H : Type) := mk_l2tp {
  l2tp_with_length : bool;
  l2tp_with_sequence : bool;
  l2tp_with_offset : bool;
  l2tp_with_priority : bool;
  l2tp_type : Z;
  l2tp_length : Z;
  l2tp_tunnel_id : Z;
  l2tp_session_id : Z;
  l2tp_ns : Z;
  l2tp_nr : Z;
  l2tp_offset : Z;
  l2tp_protocol : Z;
  l2tp_next : H;
  l2tp_payload : ptr;
  l2tp_payload_len : Z
}.
Arguments mk_l2tp {H}.
Arguments l2tp_with_length {H}.
Arguments l2tp_with_sequence {H}.
Arguments l2tp_with_offset {H}.
Arguments l2tp_with_priority {H}.
Arguments l2tp_type {H}.
Arguments l2tp_length {H}.
Arguments l2tp_tunnel_id {H}.
Arguments l2tp_session_id {H}.
Arguments l2tp_ns {H}.
Arguments l2tp_nr {H}.
Arguments l2tp_offset {H}.
Arguments l2tp_protocol {H}.
Arguments l2tp_next {H}.
Arguments l2tp_payload {H}.
Arguments l2tp_payload_len {H}.

Record bbl_qmx_li (H : Type) := mk_qmx_li {
  qmx_li_header : Z;
  qmx_li_liid : Z;
  qmx_li_direction : Z;
  qmx_li_packet_type : Z;
  qmx_li_sub_packet_type : Z;
  qmx_li_next : H;
  qmx_li_payload : list Z;
  qmx_li_payload_len : Z
}.
Arguments mk_qmx_li {H}.
Arguments qmx_li_header {H}.
Arguments qmx_li_liid {H}.
Arguments qmx_li_direction {H}.
Arguments qmx_li_packet_type {H}.
Arguments qmx_li_sub_packet_type {H}.
Arguments qmx_li_next {H}.
Arguments qmx_li_payload {H}.
Arguments qmx_li_payload_len {H}.

Record bbl_cfm := mk_cfm {
  cfm_type : Z;
  cfm_seq : Z;
  cfm_rdi : bool;
  cfm_md_level : Z;
  cfm_md_name_format : Z;
  cfm_md_name_len : Z;
  cfm_md_name : list Z;
  cfm_ma_id : Z;
  cfm_ma_name_format : Z;
  cfm_ma_name_len : Z;
  cfm_ma_name : list Z
}.

Record bbl_lacp := mk_lacp {
  lacp_actor_system_id : ptr;
  lacp_actor_system_priority : Z;
  lacp_actor_key : Z;
  lacp_actor_port_priority : Z;
  lacp_actor_port_id : Z;
  lacp_actor_state : Z;
  lacp_partner_system_id : ptr;
  lacp_partner_system_priority : Z;
  lacp_partner_key : Z;
  lacp_partner_port_priority : Z;
  lacp_partner_port_id : Z;
  lacp_partner_state : Z
}.

(** What a [void *next] can point to; [h_raw] is a raw packet body, [h_pbuf] the
    payloads of an lwIP buffer chain. *)
Inductive hdr :=
| h_null
| h_uninit
| h_raw (b : list Z)
| h_pbuf (chain : list (list Z))
| h_arp (a : bbl_arp)
| h_lacp (l : bbl_lacp)
| h_cfm (c : bbl_cfm)
| h_isis (i : bbl_isis)
| h_ospf (o : bbl_ospf)
| h_pppoe_discovery (p : bbl_pppoe_discovery)
| h_pppoe_session (p : bbl_pppoe_session hdr)
| h_lcp (l : bbl_lcp)
| h_ipcp (i : bbl_ipcp)
| h_ip6cp (i : bbl_ip6cp)
| h_pap (p : bbl_pap)
| h_chap (c : bbl_chap)
| h_ipv4 (i : bbl_ipv4 hdr)
| h_ipv6 (i : bbl_ipv6 hdr)
| h_udp (u : bbl_udp hdr)
| h_tcp (t : bbl_tcp)
| h_icmp (i : bbl_icmp)
| h_icmpv6 (i : bbl_icmpv6)
| h_igmp (i : bbl_igmp)
| h_dhcp (d : bbl_dhcp)
| h_dhcpv6 (d : bbl_dhcpv6 hdr)
| h_bbl (b : bbl_bbl)
| h_l2tp (l : bbl_l2tp hdr)
| h_qmx_li (q : bbl_qmx_li hdr)
| h_ldp_hello (l : bbl_ldp_hello)
| h_eth (e : bbl_ethernet_header hdr).

Abbreviation ethernet := (bbl_ethernet_header hdr).
Abbreviation pppoe_session := (bbl_pppoe_session hdr).
Abbreviation ipv4_t := (bbl_ipv4 hdr).
Abbreviation ipv6_t := (bbl_ipv6 hdr).
Abbreviation udp_t := (bbl_udp hdr).
Abbreviation dhcpv6_t := (bbl_dhcpv6 hdr).
Abbreviation l2tp_t := (bbl_l2tp hdr).
Abbreviation qmx_li_t := (bbl_qmx_li hdr).

(** How deep headers are nested. *)
Fixpoint nesting (h : hdr) : nat :=
  match h with
  | h_pppoe_session p => S (nesting (ps_next p))
  | h_ipv4 i => S (nesting (ipv4_next i))
  | h_ipv6 i => S (nesting (ipv6_next i))
  | h_udp u => S (nesting (udp_next u))
  | h_l2tp l => S (nesting (l2tp_next l))
  | h_qmx_li q => S (nesting (qmx_li_next q))
  | h_dhcpv6 d => S (nesting (dhcpv6_relay_message d))
  | h_eth e => S (nesting (eth_next e))
  | _ => O
  end.

(** ** Structures after [memset(.., 0, ..)] *)

Definition access_line0 (at_ : Z) : access_line := mk_access_line at_ None None None 0 0 0 None.
Definition ldp_hello0 : bbl_ldp_hello := mk_ldp_hello 0 0 0 0 0 None 0.
Definition eth0 : ethernet :=
  mk_eth 0 0 0 0 0 0 0 0 0 false false None None p_null [] h_null 0.
Definition pppoe_discovery0 : bbl_pppoe_discovery := mk_pppoe_discovery 0 0 None 0 None 0 None 0 None 0 0 None.
Definition lcp0 : bbl_lcp := mk_lcp 0 0 None 0 0 0 0 0 [0; 0; 0] 0 None 0 None 0 0 [] false.
Definition ipcp0 : bbl_ipcp := mk_ipcp 0 0 None 0 0 0 0 false false false false.
Definition ip6cp0 : bbl_ip6cp := mk_ip6cp 0 0 None 0 0 false.
Definition pap0 : bbl_pap := mk_pap 0 0 None 0 None 0 None 0.
Definition chap0 : bbl_chap := mk_chap 0 0 None 0 None 0 None 0.
Definition igmp0 : bbl_igmp := mk_igmp 0 0 0 0 0 0 [].
Definition icmpv6_0 : bbl_icmpv6 := mk_icmpv6 0 0 0 0 (replicate 16 0) None None 0 None None None.
Definition dhcpv6_0 : dhcpv6_t :=
  mk_dhcpv6 0 0 0 0 None 0 None 0 None 0 None None false false None 0 0 0 None 0 0 0 0
    None 0 0 0 None 0 0 0 0 None None None h_null.
Definition dhcp0 : bbl_dhcp :=
  mk_dhcp None 0 0 0 0 0 0 0 0 0 0 0 None 0 None 0 false false false false false false false
    false false false false false false None None None 0.
Definition l2tp0 : l2tp_t := mk_l2tp false false false false 0 0 0 0 0 0 0 0 h_null None 0.
Definition lacp0 : bbl_lacp := mk_lacp None 0 0 0 0 0 None 0 0 0 0 0.
