(* ===== verification/Dec.v ===== *)
(** The machine on which the packet decoders of bbl_protocols.c run.

    A decoder reads a packet through the cursor [buf]/[len], carves its
    structures out of the scratchpad [sp]/[sp_len] and may write to the ethernet
    header of the packet.  [dm] is the state and error monad of such code: a
    computation ends with a value, with an early [return] of an error code, or
    with a fault, i.e. with an access outside of the packet or the scratchpad
    (or, for [Endless], with a loop that consumed more rounds than the packet
    has bytes).  A fault carries the decoder it occurred in.

    The second half is a weakest-precondition calculus for the absence of
    faults. *)
From coqutil Require Export Datatypes.RecordSetters.
Export DoubleBraceUpdate.
From S2P Require Import Prelude.
From S2P Require Import ProtoTypes.

(** The decoders, as the place a fault is attributed to. *)
Inductive site :=
| F_lacp | F_icmp | F_icmpv6 | F_igmp | F_dhcpv6_ia_na | F_dhcpv6_ia_pd | F_dhcpv6
| F_dhcp_agent | F_dhcp | F_bbl | F_qmx_li | F_ldp_hello | F_udp | F_tcp | F_ospf
| F_ipv6 | F_ipv4 | F_ppp_pap | F_ppp_chap | F_ppp_ip6cp | F_ppp_ipcp | F_ppp_lcp
| F_l2tp | F_pppoe_vendor | F_pppoe_discovery | F_pppoe_session | F_arp | F_isis
| F_ethernet.

#[export] Instance site_eq_dec : EqDecision site.
Proof. solve_decision. Defined.

Inductive fault :=
| OobRead      (* a read behind the end of the packet *)
| OobWrite     (* a write behind the end of the scratchpad *)
| Overlap      (* a write over a structure that is still in use *)
| Endless.     (* a loop that does not consume the packet *)

#[export] Instance fault_eq_dec : EqDecision fault.
Proof. solve_decision. Defined.

Record dec := mk_dec {
  d_buf : list Z;      (* the packet from the cursor on *)
  d_len : Z;           (* uint16_t len *)
  d_sp : Z;            (* offset of sp in the scratchpad *)
  d_sp_len : Z;        (* uint16_t sp_len *)
  d_sp_end : Z;        (* size of the scratchpad *)
  d_eth : ethernet     (* *eth *)
}.

Inductive outcome (A : Type) :=
| Ok (a : A) (d : dec)
| Err (e : protocol_error) (d : dec)
| Fault (s : option site) (f : fault).
Arguments Ok {A}.
Arguments Err {A}.
Arguments Fault {A}.

Definition dm (A : Type) : Type := dec -> outcome A.

#[export] Instance dm_ret : MRet dm := fun A a d => Ok a d.
#[export] Instance dm_bind : MBind dm := fun A B k m d =>
  match m d with
  | Ok a d' => k a d'
  | Err e d' => Err e d'
  | Fault s f => Fault s f
  end.

(** ** Primitives *)

Definition get {A} (f : dec -> A) : dm A := fun d => Ok (f d) d.
Definition len : dm Z := get d_len.
Definition sp_len : dm Z := get d_sp_len.
Definition cur : dm (list Z) := get d_buf.

(** Early [return e]. *)
Definition fail {A} (e : protocol_error) : dm A := fun d => Err e d.
Definition fail_if (b : bool) (e : protocol_error) : dm unit :=
  if b then fail e else mret tt.

(** [n] bytes at [buf + o]. *)
Definition ld (o n : nat) : dm (list Z) := fun d =>
  if (o + n <=? length (d_buf d))%nat then Ok (take n (drop o (d_buf d))) d
  else Fault None OobRead.

Definition ld8 (o : nat) : dm Z := bs ← ld o 1; mret (le_combine bs).
Definition ld_le (o n : nat) : dm Z := bs ← ld o n; mret (le_combine bs).
Definition ld_be (o n : nat) : dm Z := bs ← ld o n; mret (be_combine bs).

(** The pointer [buf + o]. *)
Definition ptr_at (o : nat) : dm (list Z) := b ← cur; mret (drop o b).

(** [BUMP_BUFFER(buf, len, n)] *)
Definition bump (n : Z) : dm unit := fun d =>
  Ok tt (d {{ d_buf := drop (Z.to_nat n) (d_buf d) ; d_len := u16 (d_len d - n) }}).

Definition set_len (n : Z) : dm unit := fun d => Ok tt (d {{ d_len := n }}).

(** [x = (T* )sp; BUMP_BUFFER(sp, sp_len, sizeof(T))], with the structure written. *)
Definition alloc (size : Z) : dm Z := fun d =>
  if d_sp d + size <=? d_sp_end d then
    Ok (d_sp d) (d {{ d_sp := d_sp d + size ; d_sp_len := u16 (d_sp_len d - size) }})
  else Fault None OobWrite.

(** [memcpy(sp, buf, n); sp += n; *sp = 0; sp++; sp_len -= n + 1]: the string
    written.  [live] is the offset of an access line in use, if any. *)
Definition copy_string (n : Z) (live : option Z) : dm (list Z) := fun d =>
  if Z.of_nat (length (d_buf d)) <? n then Fault None OobRead
  else if d_sp_end d <? d_sp d + n + 1 then Fault None OobWrite
  else if match live with
          | Some a => (d_sp d <? a + 48) && (a <? d_sp d + n + 1)
          | None => false
          end then Fault None Overlap
  else Ok (take (Z.to_nat n) (d_buf d) ++ [0])
          (d {{ d_sp := d_sp d + n + 1 ; d_sp_len := u16 (d_sp_len d - (n + 1)) }}).

Definition on_eth (f : ethernet -> ethernet) : dm unit := fun d => Ok tt (d {{ d_eth ::= f }}).

(** The end of a decoder: [*_x = x; return e]. *)
Definition publish {A} (e : protocol_error) (x : A) : dm (protocol_error * A) := mret (e, x).

(** A call: the callee works on copies of the cursor and of the scratchpad
    pointer and may write to [*eth]; the result is its return code and what it
    stored through its output parameter ([None]: nothing). *)
Definition call {A} (m : dm (protocol_error * A)) : dm (protocol_error * option A) := fun d =>
  match m d with
  | Ok (e, a) d' => Ok (e, Some a) (d {{ d_eth := d_eth d' }})
  | Err e d' => Ok (e, None) (d {{ d_eth := d_eth d' }})
  | Fault s f => Fault s f
  end.

(** A call with another cursor. *)
Definition call_on {A} (buf : list Z) (n : Z) (m : dm (protocol_error * A))
  : dm (protocol_error * option A) := fun d =>
  match m (d {{ d_buf := buf ; d_len := n }}) with
  | Ok (e, a) d' => Ok (e, Some a) (d {{ d_eth := d_eth d' }})
  | Err e d' => Ok (e, None) (d {{ d_eth := d_eth d' }})
  | Fault s f => Fault s f
  end.

(** Attribution of faults. *)
Definition fn {A} (s : site) (m : dm A) : dm A := fun d =>
  match m d with
  | Fault None f => Fault (Some s) f
  | r => r
  end.

(** [while(cond) body].  Rounds that read from the cursor and move it can not be
    more than the bytes of the packet behind it. *)
Fixpoint loop {T} (fuel : nat) (cond : T -> dec -> bool) (body : T -> dm T) (s : T) : dm T := fun d =>
  match fuel with
  | O => Fault None Endless
  | S fuel' => if cond s d then (body s ≫= loop fuel' cond body) d else Ok s d
  end.

Definition while {T} (cond : T -> dec -> bool) (body : T -> dm T) (s : T) : dm T := fun d =>
  loop (S (length (d_buf d))) cond body s d.

(** The pointer a callee stored, or the old one. *)
Definition stored {A} (f : A -> hdr) (old : hdr) (o : option A) : hdr :=
  match o with
  | Some a => f a
  | None => old
  end.

Lemma bump_0 d : 0 <= d_len d < 65536 -> bump 0 d = Ok tt d.
Proof.
  destruct d as [b l]. cbn [d_len]. intros H. unfold bump. cbn.
  unfold constant. by rewrite Z.sub_0_r, u16_small.
Qed.

(** ** Absence of faults *)

(** The cursor and the scratchpad are as the callers promise. *)
Definition wf (d : dec) : Prop :=
  (0 <= d_len d <= Z.of_nat (length (d_buf d)) /\ d_len d < 65536) /\ bytes (d_buf d) /\
  (0 <= d_sp_len d < 65536 /\ d_sp d + d_sp_len d <= d_sp_end d).

(** [safe ok f0 m Q d]: run on [d] inside of the function [f0], [m] has no
    fault but those [ok] admits, and ends with [Q] if it does not return early. *)
Definition safe (ok : site -> fault -> Prop) (f0 : site) {A} (m : dm A) (Q : A -> dec -> Prop) (d : dec) : Prop :=
  match m d with
  | Ok a d' => Q a d'
  | Err _ _ => True
  | Fault (Some s) f => ok s f
  | Fault None f => ok f0 f
  end.

Section Safe.
Context (ok : site -> fault -> Prop) (f0 : site).

Lemma safe_mono {A} (m : dm A) (Q Q' : A -> dec -> Prop) d :
  (forall a d', Q a d' -> Q' a d') -> safe ok f0 m Q d -> safe ok f0 m Q' d.
Proof. unfold safe. intros HQ. destruct (m d) as [a d'| |[s|] f]; auto. Qed.

Lemma safe_ret {A} (a : A) Q d : Q a d -> safe ok f0 (mret a) Q d.
Proof. done. Qed.

Lemma safe_bind {A B} (m : dm A) (k : A -> dm B) Q d :
  safe ok f0 m (fun a d' => safe ok f0 (k a) Q d') d -> safe ok f0 (m ≫= k) Q d.
Proof. unfold safe, mbind, dm_bind. by destruct (m d) as [a d'| |[s|] f]. Qed.

Lemma safe_fail {A} e Q d : safe ok f0 (@fail A e) Q d.
Proof. done. Qed.

Lemma safe_fail_if (b : bool) e (Q : unit -> dec -> Prop) d :
  (b = false -> Q tt d) -> safe ok f0 (fail_if b e) Q d.
Proof. destruct b; simpl; [done|]. intros H. by apply H. Qed.

Lemma safe_get {A} (f : dec -> A) (Q : A -> dec -> Prop) d : Q (f d) d -> safe ok f0 (get f) Q d.
Proof. done. Qed.

Lemma safe_ld o n (Q : list Z -> dec -> Prop) d :
  wf d -> Z.of_nat (o + n) <= d_len d ->
  (forall bs, length bs = n -> bytes bs -> Q bs d) -> safe ok f0 (ld o n) Q d.
Proof.
  intros (Hl & Hb & _) Ho HQ. unfold safe, ld.
  destruct (o + n <=? length (d_buf d))%nat eqn:E; [|apply Nat.leb_gt in E; lia].
  apply Nat.leb_le in E. apply HQ; [rewrite length_take, length_drop; lia|auto with bbl].
Qed.

Lemma safe_ld8 o (Q : Z -> dec -> Prop) d :
  wf d -> Z.of_nat o < d_len d -> (forall v, 0 <= v < 256 -> Q v d) -> safe ok f0 (ld8 o) Q d.
Proof.
  intros Hw Ho HQ. apply safe_bind, safe_ld; [done|lia|]. intros bs Hl Hb. apply HQ.
  pose proof (le_combine_bound bs Hb) as H. by rewrite Hl in H.
Qed.

Lemma safe_ld_le o n (Q : Z -> dec -> Prop) d :
  wf d -> Z.of_nat (o + n) <= d_len d ->
  (forall v, 0 <= v < 256 ^ Z.of_nat n -> Q v d) -> safe ok f0 (ld_le o n) Q d.
Proof.
  intros Hw Ho HQ. apply safe_bind, safe_ld; [done|lia|]. intros bs Hl Hb. apply HQ.
  rewrite <-Hl. by apply le_combine_bound.
Qed.

Lemma safe_ld_be o n (Q : Z -> dec -> Prop) d :
  wf d -> Z.of_nat (o + n) <= d_len d ->
  (forall v, 0 <= v < 256 ^ Z.of_nat n -> Q v d) -> safe ok f0 (ld_be o n) Q d.
Proof.
  intros Hw Ho HQ. apply safe_bind, safe_ld; [done|lia|]. intros bs Hl Hb. apply HQ.
  rewrite <-Hl. by apply be_combine_bound.
Qed.

Lemma safe_ptr_at o (Q : list Z -> dec -> Prop) d :
  (forall b, Q b d) -> safe ok f0 (ptr_at o) Q d.
Proof. intros HQ. apply HQ. Qed.

Lemma safe_bump n (Q : unit -> dec -> Prop) d :
  wf d -> 0 <= n <= d_len d ->
  (forall d', wf d' -> d_len d' = d_len d - n -> d_sp d' = d_sp d -> d_sp_len d' = d_sp_len d ->
     Q tt d') -> safe ok f0 (bump n) Q d.
Proof.
  intros (Hl & Hb & Hs) Hn HQ. unfold safe, bump.
  apply HQ; cbn; unfold constant; rewrite ?u16_small by lia; try done.
  split; [cbn; unfold constant; rewrite length_drop, ?u16_small by lia; lia|].
  split; [apply bytes_drop, Hb|exact Hs].
Qed.

Lemma safe_set_len n (Q : unit -> dec -> Prop) d :
  wf d -> 0 <= n <= d_len d ->
  (forall d', wf d' -> d_len d' = n -> d_sp d' = d_sp d -> d_sp_len d' = d_sp_len d -> Q tt d') ->
  safe ok f0 (set_len n) Q d.
Proof.
  destruct d. intros (Hl & Hb & Hs) Hn HQ. cbn in *. apply HQ; try done.
  split; [cbn; unfold constant; lia|]. by split.
Qed.

Lemma safe_alloc size (Q : Z -> dec -> Prop) d :
  wf d -> 0 <= size <= d_sp_len d ->
  (forall d', wf d' -> d_len d' = d_len d -> d_sp d' = d_sp d + size ->
     d_sp_len d' = d_sp_len d - size -> Q (d_sp d) d') ->
  safe ok f0 (alloc size) Q d.
Proof.
  destruct d. intros (Hl & Hb & Hs) Hn HQ. cbn in Hl, Hb, Hs, Hn, HQ.
  unfold safe, alloc. cbn [d_sp d_sp_end d_sp_len]. case_if; [|lia].
  apply HQ; cbn; unfold constant; rewrite ?u16_small by lia; try done.
  split; [exact Hl|]. split; [exact Hb|]. cbn. unfold constant. rewrite ?u16_small by lia; lia.
Qed.

(** A string goes behind the access line it belongs to. *)
Lemma safe_copy_string n a (Q : list Z -> dec -> Prop) d :
  wf d -> 0 <= n <= d_len d -> n < d_sp_len d -> a + 48 <= d_sp d ->
  (forall b d', wf d' -> d_len d' = d_len d -> d_sp d <= d_sp d' -> Q b d') ->
  safe ok f0 (copy_string n (Some a)) Q d.
Proof.
  destruct d. intros (Hl & Hb & Hs) Hn Hn' Ha HQ. cbn in Hl, Hb, Hs, Hn, Hn', Ha, HQ.
  unfold safe, copy_string. cbn [d_sp d_sp_end d_sp_len d_buf].
  case_if; [lia|]. case_if; [lia|]. case_if; [lia|].
  apply HQ; cbn; unfold constant; rewrite ?u16_small by lia; try done; [|lia].
  split; [exact Hl|]. split; [exact Hb|]. cbn. unfold constant. rewrite ?u16_small by lia; lia.
Qed.

Lemma safe_on_eth f (Q : unit -> dec -> Prop) d :
  wf d ->
  (forall d', wf d' -> d_len d' = d_len d -> d_sp d' = d_sp d -> d_sp_len d' = d_sp_len d -> Q tt d') ->
  safe ok f0 (on_eth f) Q d.
Proof. intros Hw HQ. by apply HQ. Qed.

Lemma safe_publish {A} e (x : A) (Q : protocol_error * A -> dec -> Prop) d :
  Q (e, x) d -> safe ok f0 (publish e x) Q d.
Proof. done. Qed.

(** Calls: what the callee stores satisfies [P]. *)
Lemma safe_call_on {A} (P : A -> Prop) (m : dm (protocol_error * A)) buf n (Q : _ -> dec -> Prop) d :
  wf d ->
  safe ok f0 m (fun r _ => P r.2) (d {{ d_buf := buf ; d_len := n }}) ->
  (forall e o d', match o with Some a => P a | None => True end -> wf d' -> d_len d' = d_len d ->
     d_buf d' = d_buf d -> d_sp d' = d_sp d -> d_sp_len d' = d_sp_len d -> Q (e, o) d') ->
  safe ok f0 (call_on buf n m) Q d.
Proof.
  destruct d. intros Hw Hm HQ. unfold safe, call_on in *.
  destruct (m _) as [[e a] d'|e d'|[s|] f]; try done; by apply HQ.
Qed.

(** A callee that is only asked to be free of faults. *)
Lemma safe_call {A} (m : dm (protocol_error * A)) (Q : _ -> dec -> Prop) d :
  wf d -> safe ok f0 m (fun _ _ => True) d ->
  (forall r d', wf d' -> d_len d' = d_len d -> d_sp d' = d_sp d -> d_sp_len d' = d_sp_len d -> Q r d') ->
  safe ok f0 (call m) Q d.
Proof.
  intros Hw Hm HQ. unfold safe, call in *.
  destruct (m _) as [[e a] d'|e d'|[s|] f]; try done; by apply HQ.
Qed.

Lemma safe_fn {A} s (m : dm A) Q d : safe ok s m Q d -> safe ok f0 (fn s m) Q d.
Proof. unfold safe, fn. by destruct (m d) as [a d'| |[s'|] f]. Qed.

(** Loops, with a measure the rounds decrease. *)
Lemma safe_loop {T} (Inv : T -> dec -> Prop) (mu : dec -> nat) (cond : T -> dec -> bool) body
    (Q : T -> dec -> Prop) fuel :
  forall s d, Inv s d -> (mu d < fuel)%nat ->
  (forall s d, Inv s d -> cond s d = true ->
     safe ok f0 (body s) (fun s' d' => Inv s' d' /\ (mu d' < mu d)%nat) d) ->
  (forall s d, Inv s d -> cond s d = false -> Q s d) ->
  safe ok f0 (loop fuel cond body s) Q d.
Proof.
  induction fuel as [|fuel IH]; intros s d HI Hf Hb HQ; [lia|].
  unfold safe. cbn [loop]. destruct (cond s d) eqn:E; [|by apply HQ].
  change (safe ok f0 (body s ≫= loop fuel cond body) Q d).
  apply safe_bind. eapply safe_mono; [|by apply Hb].
  intros s' d' [HI' Hl]. apply IH; auto. lia.
Qed.

(** A [while] loop whose rounds keep the invariant and consume the packet. *)
Lemma safe_while {T} (Inv : T -> dec -> Prop) (cond : T -> dec -> bool) body (Q : T -> dec -> Prop) s d :
  Inv s d -> (forall s d, Inv s d -> wf d) ->
  (forall s d, Inv s d -> cond s d = true ->
     safe ok f0 (body s) (fun s' d' => Inv s' d' /\ d_len d' < d_len d) d) ->
  (forall s d, Inv s d -> cond s d = false -> Q s d) ->
  safe ok f0 (while cond body s) Q d.
Proof.
  intros HI Hw Hb HQ. unfold safe, while. apply (safe_loop Inv (fun d => Z.to_nat (d_len d))); auto.
  - pose proof (Hw _ _ HI) as [[? ?] _]. lia.
  - intros s1 d1 H1 Hc. eapply safe_mono; [|by apply Hb].
    intros s' d' [HI' Hl]. split; [done|]. pose proof (Hw _ _ HI') as [[? ?] _]. lia.
Qed.

(** ** Code that trusts lengths of the packet

    Without the promise on [len] only the kinds of faults can be bounded. *)

Definition sp_ok (d : dec) : Prop := bytes (d_buf d) /\ 0 <= d_sp_len d < 65536 /\ d_sp d + d_sp_len d <= d_sp_end d.

Lemma wf_sp_ok d : wf d -> sp_ok d.
Proof. intros (_ & Hb & Hs). split; [done|lia]. Qed.

Lemma sp_ok_bytes d : sp_ok d -> bytes (d_buf d).
Proof. by intros [? _]. Qed.

Lemma any_ld8 o (Q : Z -> dec -> Prop) d :
  ok f0 OobRead -> bytes (d_buf d) ->
  (forall v, 0 <= v < 256 -> (o < length (d_buf d))%nat -> Q v d) -> safe ok f0 (ld8 o) Q d.
Proof.
  intros Hok Hb HQ. unfold safe, ld8, ld, mbind, dm_bind.
  destruct (o + 1 <=? length (d_buf d))%nat eqn:E; [|done]. apply Nat.leb_le in E.
  apply HQ; [|lia]. set (bs := take 1 _).
  assert (Hbs : bytes bs) by (unfold bs; auto with bbl).
  assert (Hl : length bs = 1%nat) by (unfold bs; rewrite length_take, length_drop; lia).
  pose proof (le_combine_bound bs Hbs) as H. by rewrite Hl in H.
Qed.

Lemma any_ld_be o n (Q : Z -> dec -> Prop) d :
  ok f0 OobRead -> bytes (d_buf d) ->
  (forall v, 0 <= v < 256 ^ Z.of_nat n -> (o + n <= length (d_buf d))%nat -> Q v d) ->
  safe ok f0 (ld_be o n) Q d.
Proof.
  intros Hok Hb HQ. unfold safe, ld_be, ld, mbind, dm_bind.
  destruct (o + n <=? length (d_buf d))%nat eqn:E; [|done]. apply Nat.leb_le in E.
  apply HQ; [|lia]. set (bs := take n _).
  assert (Hbs : bytes bs) by (unfold bs; auto with bbl).
  assert (Hl : length bs = n%nat) by (unfold bs; rewrite length_take, length_drop; lia).
  pose proof (be_combine_bound bs Hbs) as H. by rewrite Hl in H.
Qed.

Lemma any_ld_le o n (Q : Z -> dec -> Prop) d :
  ok f0 OobRead -> (forall v, Q v d) -> safe ok f0 (ld_le o n) Q d.
Proof.
  intros Hok HQ. unfold safe, ld_le, ld, mbind, dm_bind.
  destruct (o + n <=? length (d_buf d))%nat; [apply HQ|done].
Qed.

Lemma any_bump n (Q : unit -> dec -> Prop) d :
  0 <= n ->
  (forall d', (bytes (d_buf d) -> bytes (d_buf d')) -> (sp_ok d -> sp_ok d') ->
     Z.of_nat (length (d_buf d')) <= Z.max 0 (Z.of_nat (length (d_buf d)) - n) ->
     d_sp d' = d_sp d -> d_sp_len d' = d_sp_len d -> Q tt d') ->
  safe ok f0 (bump n) Q d.
Proof.
  destruct d. intros Hn HQ. cbn in *. apply HQ; cbn; unfold constant; auto with bbl.
  - intros [Hb Hs]. split; cbn; unfold constant; auto with bbl.
  - rewrite length_drop. lia.
Qed.

Lemma sure_alloc n (Q : Z -> dec -> Prop) d :
  sp_ok d -> 0 <= n <= d_sp_len d ->
  (forall d', sp_ok d' -> d_buf d' = d_buf d -> d_sp d' = d_sp d + n -> Q (d_sp d) d') ->
  safe ok f0 (alloc n) Q d.
Proof.
  destruct d. intros [Hb Hs] Hn HQ. cbn in Hb, Hs, Hn, HQ. unfold safe, alloc.
  cbn [d_sp d_sp_end d_sp_len]. case_if; [|lia]. apply HQ; try done.
  split; [done|]. cbn. unfold constant. rewrite u16_small by lia. lia.
Qed.

(** An unchecked allocation, and a copy behind it. *)
Lemma any_alloc n (Q : Z -> dec -> Prop) d :
  ok f0 OobWrite -> (forall d', d_buf d' = d_buf d -> Q (d_sp d) d') -> safe ok f0 (alloc n) Q d.
Proof. destruct d. intros Hok HQ. unfold safe, alloc. case_if; [by apply HQ|done]. Qed.

Lemma wild_copy_string n live (Q : list Z -> dec -> Prop) d :
  ok f0 OobRead -> ok f0 OobWrite -> ok f0 Overlap ->
  (forall b d', d_buf d' = d_buf d -> Q b d') -> safe ok f0 (copy_string n live) Q d.
Proof.
  destruct d. intros H1 H2 H3 HQ. unfold safe, copy_string. case_if; [done|]. case_if; [done|].
  case_if; [done|]. by apply HQ.
Qed.

Lemma any_set_len n (Q : unit -> dec -> Prop) d :
  sp_ok d ->
  (forall d', sp_ok d' -> length (d_buf d') = length (d_buf d) -> d_sp d' = d_sp d ->
     d_sp_len d' = d_sp_len d -> Q tt d') ->
  safe ok f0 (set_len n) Q d.
Proof. destruct d. intros [Hb Hs] HQ. apply HQ; try done. Qed.

Lemma any_copy_string n a (Q : list Z -> dec -> Prop) d :
  ok f0 OobRead -> sp_ok d -> 0 <= n -> n < d_sp_len d -> a + 48 <= d_sp d ->
  (forall b d', sp_ok d' -> d_buf d' = d_buf d -> d_sp d <= d_sp d' -> Q b d') ->
  safe ok f0 (copy_string n (Some a)) Q d.
Proof.
  destruct d. intros Hok [Hb Hs] Hn Hn' Ha HQ. cbn in Hb, Hs, Hn', Ha, HQ.
  unfold safe, copy_string. cbn [d_sp d_sp_end d_sp_len d_buf].
  case_if; [done|]. case_if; [lia|]. case_if; [lia|].
  apply HQ; cbn; unfold constant; try done; [|lia].
  split; [done|]. cbn. unfold constant. rewrite u16_small by lia. lia.
Qed.

(** A loop that moves the cursor ends. *)
Lemma any_while {T} (Inv : T -> dec -> Prop) (cond : T -> dec -> bool) body (Q : T -> dec -> Prop) s d :
  Inv s d ->
  (forall s d, Inv s d -> cond s d = true ->
     safe ok f0 (body s) (fun s' d' => Inv s' d' /\ (length (d_buf d') < length (d_buf d))%nat) d) ->
  (forall s d, Inv s d -> Q s d) ->
  safe ok f0 (while cond body s) Q d.
Proof.
  intros HI Hb HQ. unfold safe, while.
  apply (safe_loop Inv (fun d => length (d_buf d))); auto.
Qed.

(** A loop that may stay in place. *)
Lemma wild_while {T} (Inv : T -> dec -> Prop) (cond : T -> dec -> bool) body (Q : T -> dec -> Prop) s d :
  ok f0 Endless -> Inv s d ->
  (forall s d, Inv s d -> cond s d = true -> safe ok f0 (body s) Inv d) ->
  (forall s d, Inv s d -> Q s d) ->
  safe ok f0 (while cond body s) Q d.
Proof.
  intros Hok HI Hb HQ. unfold safe, while. generalize (S (length (d_buf d))). intros fuel.
  change (safe ok f0 (loop fuel cond body s) Q d). revert s d HI.
  induction fuel as [|fuel IH]; intros s d HI; [exact Hok|].
  unfold safe. cbn [loop]. destruct (cond s d) eqn:E; [|by apply HQ].
  change (safe ok f0 (body s ≫= loop fuel cond body) Q d).
  apply safe_bind. eapply safe_mono; [|by apply Hb]. auto.
Qed.
End Safe.

(** ** Automation

    [safe_step] applies the rule of the next primitive and leaves its side
    conditions to [lia]; [safe_go] runs through straight-line code, splitting on
    its conditionals. *)

Lemma wf_facts d : wf d -> 0 <= d_len d < 65536 /\ 0 <= d_sp_len d < 65536.
Proof. intros (? & _ & ?). lia. Qed.

Ltac range_facts :=
  repeat match goal with
  | |- context [u8 ?x] => lazymatch goal with H : 0 <= u8 x < 256 |- _ => fail | _ => pose proof (u8_range x) end
  | |- context [u16 ?x] => lazymatch goal with H : 0 <= u16 x < 65536 |- _ => fail | _ => pose proof (u16_range x) end
  end.

Ltac safe_side := first [assumption | lia | range_facts; lia | cbn; lia | idtac].

Ltac safe_step :=
  lazymatch goal with
  | |- safe _ _ (fn _ _) _ _ => apply safe_fn
  | |- safe _ _ (mret _) _ _ => apply safe_ret
  | |- safe _ _ (publish _ _) _ _ => apply safe_publish
  | |- safe _ _ (_ ≫= _) _ _ => apply safe_bind
  | |- safe _ _ (fail _) _ _ => apply safe_fail
  | |- safe _ _ (fail_if _ _) _ _ => apply safe_fail_if; intros ?; bool_to_prop
  | |- safe _ _ len _ _ => apply safe_get
  | |- safe _ _ sp_len _ _ => apply safe_get
  | |- safe _ _ cur _ _ => apply safe_get
  | |- safe _ _ (get _) _ _ => apply safe_get
  | |- safe _ _ (ld8 _) _ _ => apply safe_ld8; [safe_side|safe_side|intros ? ?]
  | |- safe _ _ (ld_le _ _) _ _ => apply safe_ld_le; [safe_side|safe_side|intros ? ?]
  | |- safe _ _ (ld_be _ _) _ _ => apply safe_ld_be; [safe_side|safe_side|intros ? ?]
  | |- safe _ _ (ld _ _) _ _ => apply safe_ld; [safe_side|safe_side|intros ? ? ?]
  | |- safe _ _ (ptr_at _) _ _ => apply safe_ptr_at; intros ?
  | |- safe _ _ (bump _) _ _ => apply safe_bump; [safe_side|safe_side|intros ? ? ? ? ?]
  | |- safe _ _ (set_len _) _ _ => apply safe_set_len; [safe_side|safe_side|intros ? ? ? ? ?]
  | |- safe _ _ (alloc _) _ _ => apply safe_alloc; [safe_side|safe_side|intros ? ? ? ? ?]
  | |- safe _ _ (on_eth _) _ _ => apply safe_on_eth; [safe_side|intros ? ? ? ? ?]
  | |- safe _ _ (if ?b then _ else _) _ _ => destruct b eqn:?; bool_to_prop
  | |- safe _ _ (let _ := _ in _) _ _ => cbv zeta
  | |- safe _ _ (match ?p with pair _ _ => _ end) _ _ => destruct p
  end.

Ltac safe_go := cbv beta iota zeta; repeat (safe_step; cbv beta iota zeta); try exact I.
