(* ===== verification/DecodePpp.v ===== *)
(** The decoders of bbl_protocols.c for the link layer and for PPP: ARP, IS-IS,
    LACP, PAP, CHAP, IP6CP, IPCP, LCP and the PPPoE discovery tags.  Each
    definition is one C function; [fail_if c e] is [if(c) return e]. *)
From S2P Require Import Prelude.
From S2P Require Import Const.
From S2P Require Import ProtoTypes.
From S2P Require Import Dec.

Definition decode_arp : dm (protocol_error * bbl_arp) := fn F_arp (
  n ← len; spl ← sp_len;
  fail_if ((n <? 28) || (spl <? sizeof_bbl_arp)) DECODE_ERROR;;
  alloc sizeof_bbl_arp;;
  bump 6;;
  code ← ld_be 0 2; bump 2;;
  sender ← cur; bump ETH_ADDR_LEN;;
  sender_ip ← ld_le 0 4; bump 4;;
  target ← cur; bump ETH_ADDR_LEN;;
  target_ip ← ld_le 0 4; bump 4;;
  publish PROTOCOL_SUCCESS (mk_arp code (Some sender) sender_ip (Some target) target_ip)).

Definition decode_isis : dm (protocol_error * bbl_isis) := fn F_isis (
  n ← len; spl ← sp_len;
  fail_if ((n <? ISIS_HDR_LEN_COMMON) || (spl <? sizeof_bbl_isis)) DECODE_ERROR;;
  alloc sizeof_bbl_isis;;
  pdu ← cur;
  hdr_len ← ld8 1;
  fail_if (n <? hdr_len) DECODE_ERROR;;
  t ← ld8 4;
  publish PROTOCOL_SUCCESS (mk_isis (Z.land t 0x1f) pdu n)).

(** ** LACP *)

Definition lacp_tlv (tlv_type tlv_len : Z) (lacp : bbl_lacp) : dm bbl_lacp :=
  if tlv_type =? LACP_TLV_TERMINATOR then set_len 0;; mret lacp
  else if tlv_type =? LACP_TLV_ACTOR_INFORMATION then
    fail_if (negb (tlv_len =? 20)) DECODE_ERROR;;
    prio ← ld_be 2 2; id ← ptr_at 4; key ← ld_be 10 2;
    port_prio ← ld_be 12 2; port ← ld_be 14 2; state ← ld8 16;
    mret (lacp {{ lacp_actor_system_priority := prio ; lacp_actor_system_id := Some id ;
                  lacp_actor_key := key ; lacp_actor_port_priority := port_prio ;
                  lacp_actor_port_id := port ; lacp_actor_state := state }})
  else if tlv_type =? LACP_TLV_PARTNER_INFORMATION then
    fail_if (negb (tlv_len =? 20)) DECODE_ERROR;;
    prio ← ld_be 2 2; id ← ptr_at 4; key ← ld_be 10 2;
    port_prio ← ld_be 12 2; port ← ld_be 14 2; state ← ld8 16;
    mret (lacp {{ lacp_partner_system_priority := prio ; lacp_partner_system_id := Some id ;
                  lacp_partner_key := key ; lacp_partner_port_priority := port_prio ;
                  lacp_partner_port_id := port ; lacp_partner_state := state }})
  else mret lacp.

(** One round of the TLV loop. *)
Definition lacp_round (lacp : bbl_lacp) : dm bbl_lacp :=
  tlv_type ← ld8 0;
  tlv_len ← ld8 1;
  n ← len;
  fail_if (n <? tlv_len) DECODE_ERROR;;
  lacp ← lacp_tlv tlv_type tlv_len lacp;
  bump tlv_len;;
  mret lacp.

Definition decode_lacp : dm (protocol_error * bbl_lacp) := fn F_lacp (
  n ← len;
  (if n =? 0 then mret tt
   else t ← ld8 0; fail_if (negb (t =? SLOW_PROTOCOLS_LACP)) UNKNOWN_PROTOCOL);;
  bump 1;;
  n ← len; spl ← sp_len;
  fail_if ((n <? 109) || (spl <? sizeof_bbl_lacp)) DECODE_ERROR;;
  alloc sizeof_bbl_lacp;;
  version ← ld8 0;
  fail_if (negb (version =? 1)) DECODE_ERROR;;
  bump 1;;
  lacp ← while (fun _ d => 2 <=? d_len d) lacp_round lacp0;
  publish PROTOCOL_SUCCESS lacp).

(** ** PAP and CHAP *)

Definition decode_ppp_pap : dm (protocol_error * bbl_pap) := fn F_ppp_pap (
  n ← len; spl ← sp_len;
  fail_if ((n <? 4) || (spl <? sizeof_bbl_pap)) DECODE_ERROR;;
  alloc sizeof_bbl_pap;;
  code ← ld8 0; identifier ← ld8 1; pap_len ← ld_be 2 2;
  let pap := pap0 {{ pap_code := code ; pap_identifier := identifier }} in
  if code =? PAP_CODE_REQUEST then
    fail_if ((pap_len <? 6) || (n <? pap_len)) DECODE_ERROR;;
    bump 4;;
    ulen ← ld8 0; bump 1;;
    n ← len; fail_if (n <=? ulen) DECODE_ERROR;;
    user ← cur; bump ulen;;
    plen ← ld8 0; bump 1;;
    n ← len; fail_if (n <? plen) DECODE_ERROR;;
    pass ← cur; bump plen;;
    publish PROTOCOL_SUCCESS
      (pap {{ pap_username := Some user ; pap_username_len := ulen ;
              pap_password := Some pass ; pap_password_len := plen }})
  else
    fail_if ((pap_len <? 5) || (n <? pap_len)) DECODE_ERROR;;
    bump 4;;
    rlen ← ld8 0; bump 1;;
    if rlen =? 0 then publish PROTOCOL_SUCCESS pap
    else
      n ← len; fail_if (n <? rlen) DECODE_ERROR;;
      msg ← cur; bump rlen;;
      publish PROTOCOL_SUCCESS (pap {{ pap_reply_message := Some msg ; pap_reply_message_len := rlen }})).

Definition decode_ppp_chap : dm (protocol_error * bbl_chap) := fn F_ppp_chap (
  n ← len; spl ← sp_len;
  fail_if ((n <? 4) || (spl <? sizeof_bbl_chap)) DECODE_ERROR;;
  alloc sizeof_bbl_chap;;
  code ← ld8 0; identifier ← ld8 1; chap_len ← ld_be 2 2;
  let chap := chap0 {{ chap_code := code ; chap_identifier := identifier }} in
  if code =? CHAP_CODE_CHALLENGE then
    fail_if ((chap_len <? 5) || (n <? chap_len)) DECODE_ERROR;;
    bump 4;;
    clen ← ld8 0; bump 1;;
    n ← len; fail_if (n <? clen) DECODE_ERROR;;
    challenge ← cur; bump clen;;
    publish PROTOCOL_SUCCESS (chap {{ chap_challenge := Some challenge ; chap_challenge_len := clen }})
  else
    fail_if ((chap_len <? 4) || (n <? chap_len)) DECODE_ERROR;;
    bump 4;;
    let rlen := u8 (chap_len - 4) in
    if rlen =? 0 then publish PROTOCOL_SUCCESS chap
    else
      n ← len; fail_if (n <? rlen) DECODE_ERROR;;
      msg ← cur; bump rlen;;
      publish PROTOCOL_SUCCESS (chap {{ chap_reply_message := Some msg ; chap_reply_message_len := rlen }})).

(** ** IP6CP and IPCP *)

(** Code, identifier and length of a control protocol; the cursor's length
    becomes that of the options. *)
Definition ppp_cp_header : dm (Z * Z) :=
  code ← ld8 0; bump 1;;
  identifier ← ld8 0; bump 1;;
  cp_len ← ld_be 0 2; bump 2;;
  fail_if (cp_len <? 4) DECODE_ERROR;;
  let cp_len := cp_len - 4 in
  n ← len;
  fail_if (n <? cp_len) DECODE_ERROR;;
  set_len cp_len;;
  mret (code, identifier).

(** Type and length of the next option, the length without these two bytes. *)
Definition ppp_option : dm (Z * Z) :=
  t ← ld8 0; bump 1;;
  l ← ld8 0; bump 1;;
  fail_if (l <? 2) DECODE_ERROR;;
  let l := l - 2 in
  n ← len;
  fail_if (n <? l) DECODE_ERROR;;
  mret (t, l).

Definition ip6cp_round (ip6cp : bbl_ip6cp) : dm bbl_ip6cp :=
  '(t, l) ← ppp_option;
  ip6cp ← (if t =? PPP_IP6CP_OPTION_IDENTIFIER then
             fail_if (l <? 8) DECODE_ERROR;;
             v ← ld_le 0 8; mret (ip6cp {{ ip6cp_ipv6_identifier := v }})
           else mret (ip6cp {{ ip6cp_unknown_options := true }}));
  bump l;;
  mret ip6cp.

Definition decode_ppp_ip6cp : dm (protocol_error * bbl_ip6cp) := fn F_ppp_ip6cp (
  n ← len; spl ← sp_len;
  fail_if ((n <? 4) || (spl <? sizeof_bbl_ip6cp)) DECODE_ERROR;;
  alloc sizeof_bbl_ip6cp;;
  '(code, identifier) ← ppp_cp_header;
  options ← cur; options_len ← len;
  let ip6cp := ip6cp0 {{ ip6cp_code := code ; ip6cp_identifier := identifier ;
                         ip6cp_options := Some options ; ip6cp_options_len := u8 options_len }} in
  ip6cp ← (if (code =? PPP_CODE_CONF_REQUEST) || (code =? PPP_CODE_CONF_ACK) || (code =? PPP_CODE_CONF_NAK)
           then while (fun _ d => 2 <=? d_len d) ip6cp_round ip6cp
           else mret ip6cp);
  publish PROTOCOL_SUCCESS ip6cp).

Definition ipcp_round (ipcp : bbl_ipcp) : dm bbl_ipcp :=
  '(t, l) ← ppp_option;
  ipcp ← (if t =? PPP_IPCP_OPTION_ADDRESS then
            fail_if (l <? 4) DECODE_ERROR;;
            v ← ld_le 0 4; mret (ipcp {{ ipcp_option_address := true ; ipcp_address := v }})
          else if t =? PPP_IPCP_OPTION_DNS1 then
            fail_if (l <? 4) DECODE_ERROR;;
            v ← ld_le 0 4; mret (ipcp {{ ipcp_option_dns1 := true ; ipcp_dns1 := v }})
          else if t =? PPP_IPCP_OPTION_DNS2 then
            fail_if (l <? 4) DECODE_ERROR;;
            v ← ld_le 0 4; mret (ipcp {{ ipcp_option_dns2 := true ; ipcp_dns2 := v }})
          else mret (ipcp {{ ipcp_unknown_options := true }}));
  bump l;;
  mret ipcp.

Definition decode_ppp_ipcp : dm (protocol_error * bbl_ipcp) := fn F_ppp_ipcp (
  n ← len; spl ← sp_len;
  fail_if ((n <? 4) || (spl <? sizeof_bbl_ipcp)) DECODE_ERROR;;
  alloc sizeof_bbl_ipcp;;
  '(code, identifier) ← ppp_cp_header;
  options ← cur; options_len ← len;
  let ipcp := ipcp0 {{ ipcp_code := code ; ipcp_identifier := identifier ;
                       ipcp_options := Some options ; ipcp_options_len := u8 options_len }} in
  ipcp ← (if (code =? PPP_CODE_CONF_REQUEST) || (code =? PPP_CODE_CONF_ACK) || (code =? PPP_CODE_CONF_NAK)
             || (code =? PPP_CODE_CONF_REJECT)
          then while (fun _ d => 2 <=? d_len d) ipcp_round ipcp
          else mret ipcp);
  publish PROTOCOL_SUCCESS ipcp).

(** ** LCP *)

(** [lcp->option[lcp_option_index++] = buf], while there is room. *)
Definition lcp_remember_option (lcp : bbl_lcp) (b : list Z) : bbl_lcp :=
  if (Z.of_nat (length (lcp_option lcp)) <? PPP_MAX_OPTIONS)
  then lcp {{ lcp_option := lcp_option lcp ++ [b] }} else lcp.

Definition lcp_round (lcp : bbl_lcp) : dm bbl_lcp :=
  b ← cur;
  let lcp := lcp_remember_option lcp b in
  '(t, l) ← ppp_option;
  n ← len;
  lcp ← (if t =? PPP_LCP_OPTION_MRU then
           fail_if (n <? 2) DECODE_ERROR;;
           v ← ld_be 0 2; mret (lcp {{ lcp_mru := v }})
         else if t =? PPP_LCP_OPTION_AUTH then
           fail_if (n <? 2) DECODE_ERROR;;
           v ← ld_be 0 2; mret (lcp {{ lcp_auth := v }})
         else if t =? PPP_LCP_OPTION_MAGIC then
           fail_if (n <? 4) DECODE_ERROR;;
           v ← ld_le 0 4; mret (lcp {{ lcp_magic := v }})
         else mret (lcp {{ lcp_unknown_options := true }}));
  bump l;;
  mret lcp.

Definition lcp_body (code : Z) (lcp : bbl_lcp) : dm bbl_lcp :=
  n ← len;
  if code =? PPP_CODE_VENDOR_SPECIFIC then
    fail_if (n <? 8) DECODE_ERROR;;
    magic ← ld_le 0 4; bump 4;;
    oui ← ld 0 3; bump OUI_LEN;;
    kind ← ld8 0; bump 1;;
    value ← cur; value_len ← len;
    mret (lcp {{ lcp_magic := magic ; lcp_vendor_oui := oui ; lcp_vendor_kind := kind ;
                 lcp_vendor_value := Some value ; lcp_vendor_value_len := value_len }})
  else if code =? PPP_CODE_PROT_REJECT then
    fail_if (n <? 2) DECODE_ERROR;;
    v ← ld_be 0 2; mret (lcp {{ lcp_protocol := v }})
  else if (code =? PPP_CODE_ECHO_REQUEST) || (code =? PPP_CODE_ECHO_REPLY) then
    if 4 <=? n then v ← ld_le 0 4; mret (lcp {{ lcp_magic := v }}) else mret lcp
  else if (code =? PPP_CODE_CONF_REQUEST) || (code =? PPP_CODE_CONF_ACK) || (code =? PPP_CODE_CONF_NAK) then
    while (fun _ d => 2 <=? d_len d) lcp_round lcp
  else mret lcp.

Definition decode_ppp_lcp : dm (protocol_error * bbl_lcp) := fn F_ppp_lcp (
  n ← len; spl ← sp_len;
  fail_if ((n <? 4) || (spl <? sizeof_bbl_lcp)) DECODE_ERROR;;
  alloc sizeof_bbl_lcp;;
  start ← cur;
  '(code, identifier) ← ppp_cp_header;
  options ← cur; options_len ← len;
  let lcp := lcp0 {{ lcp_start := Some start ; lcp_len := n ;
                     lcp_code := code ; lcp_identifier := identifier ;
                     lcp_options := Some options ; lcp_options_len := u8 options_len }} in
  lcp ← lcp_body code lcp;
  publish PROTOCOL_SUCCESS lcp).

(** ** PPPoE discovery *)

(** One TLV of the Broadband Forum vendor tag. *)
Definition vendor_round (al : access_line) : dm access_line :=
  tlv_type ← ld8 0; bump 1;;
  tlv_length ← ld8 0; bump 1;;
  spl ← sp_len;
  al ← (if tlv_type =? ACCESS_LINE_ACI then
          fail_if (spl <=? tlv_length) DECODE_ERROR;;
          str ← copy_string tlv_length (Some (al_at al)); mret (al {{ al_aci := Some str }})
        else if tlv_type =? ACCESS_LINE_ARI then
          fail_if (spl <=? tlv_length) DECODE_ERROR;;
          str ← copy_string tlv_length (Some (al_at al)); mret (al {{ al_ari := Some str }})
        else if tlv_type =? ACCESS_LINE_ACT_UP then
          fail_if (negb (tlv_length =? 4)) DECODE_ERROR;;
          v ← ld_be 0 4; mret (al {{ al_up := v }})
        else if tlv_type =? ACCESS_LINE_ACT_DOWN then
          fail_if (negb (tlv_length =? 4)) DECODE_ERROR;;
          v ← ld_be 0 4; mret (al {{ al_down := v }})
        else mret al);
  bump tlv_length;;
  mret al.

Definition decode_pppoe_vendor (pppoe : bbl_pppoe_discovery)
  : dm (protocol_error * bbl_pppoe_discovery) := fn F_pppoe_vendor (
  n ← len;
  fail_if (n <? 4) DECODE_ERROR;;
  vendor ← ld_be 0 4; bump 4;;
  if negb (vendor =? BROADBAND_FORUM_VENDOR_ID) then publish PROTOCOL_SUCCESS pppoe
  else
    spl ← sp_len;
    fail_if (spl <? sizeof_access_line) DECODE_ERROR;;
    at_ ← alloc sizeof_access_line;
    al ← while (fun _ d => 2 <? d_len d) vendor_round (access_line0 at_);
    publish PROTOCOL_SUCCESS (pppoe {{ pd_access_line := Some al }})).

Definition pppoe_tag_round (pppoe : bbl_pppoe_discovery) : dm bbl_pppoe_discovery :=
  tag ← ld_be 0 2; bump 2;;
  tag_len ← ld_be 0 2; bump 2;;
  n ← len;
  fail_if (n <? tag_len) DECODE_ERROR;;
  b ← cur;
  pppoe ← (if tag =? PPPOE_TAG_SERVICE_NAME then
             mret (pppoe {{ pd_service_name := Some b ; pd_service_name_len := tag_len }})
           else if tag =? PPPOE_TAG_HOST_UNIQ then
             mret (pppoe {{ pd_host_uniq := Some b ; pd_host_uniq_len := tag_len }})
           else if tag =? PPPOE_TAG_AC_COOKIE then
             mret (pppoe {{ pd_ac_cookie := Some b ; pd_ac_cookie_len := tag_len }})
           else if tag =? PPPOE_TAG_VENDOR then
             r ← call_on b tag_len (decode_pppoe_vendor pppoe);
             match r with
             | (PROTOCOL_SUCCESS, Some pppoe') => mret pppoe'
             | _ => fail DECODE_ERROR
             end
           else mret pppoe);
  bump tag_len;;
  mret pppoe.

Definition decode_pppoe_discovery : dm (protocol_error * bbl_pppoe_discovery) := fn F_pppoe_discovery (
  n ← len; spl ← sp_len;
  fail_if ((n <? 6) || (spl <? sizeof_bbl_pppoe_discovery)) DECODE_ERROR;;
  alloc sizeof_bbl_pppoe_discovery;;
  vt ← ld8 0;
  fail_if (negb (vt =? 17)) DECODE_ERROR;;
  bump 1;;
  code ← ld8 0; bump 1;;
  session_id ← ld_be 0 2; bump 2;;
  pppoe_len ← ld_be 0 2; bump 2;;
  n ← len;
  fail_if (n <? pppoe_len) DECODE_ERROR;;
  set_len pppoe_len;;
  pppoe ← while (fun _ d => 4 <=? d_len d) pppoe_tag_round
            (pppoe_discovery0 {{ pd_code := code ; pd_session_id := session_id }});
  publish PROTOCOL_SUCCESS pppoe).
