(* ===== verification/DecodeNet.v ===== *)
(** The decoders of bbl_protocols.c for the protocols above IP that contain no
    further headers: ICMP, ICMPv6, IGMP, DHCPv6, DHCP, the BBL stream header,
    LDP hello, TCP and OSPF. *)
From S2P Require Import Prelude.
From S2P Require Import Const.
From S2P Require Import ProtoTypes.
From S2P Require Import Dec.

Definition decode_icmp : dm (protocol_error * bbl_icmp) := fn F_icmp (
  n ← len; spl ← sp_len;
  fail_if ((n <? 4) || (spl <? sizeof_bbl_icmp)) DECODE_ERROR;;
  alloc sizeof_bbl_icmp;;
  t ← ld8 0; bump 1;;
  code ← ld8 0; bump 1;;
  bump 2;;
  n ← len; b ← cur;
  publish PROTOCOL_SUCCESS
    (if n =? 0 then mk_icmp t code None 0 else mk_icmp t code (Some b) n)).

(** ** ICMPv6 *)

(** Type and length (in bytes) of a neighbor discovery option. *)
Definition icmpv6_option : dm (Z * Z) :=
  option ← ld8 0; bump 1;;
  units ← ld8 0;
  let option_len := u16 (units * 8) in
  bump 1;;
  n ← len;
  fail_if ((option_len <? 2) || (n <? option_len - 2)) DECODE_ERROR;;
  mret (option, option_len).

(** A round of the router advertisement loop. *)
Definition icmpv6_ra_round (icmpv6 : bbl_icmpv6) : dm bbl_icmpv6 :=
  '(option, option_len) ← icmpv6_option;
  icmpv6 ← (if option =? ICMPV6_OPTION_PREFIX then
              fail_if (option_len <? 32) DECODE_ERROR;;
              plen ← ld8 0; address ← ld 14 16;
              mret (icmpv6 {{ icmpv6_prefix_len := plen ; icmpv6_prefix_address := address }})
            else if option =? ICMPV6_OPTION_DNS then
              if 24 <=? option_len then
                dns1 ← ptr_at 6;
                let icmpv6 := icmpv6 {{ icmpv6_dns1 := Some dns1 }} in
                if 40 <=? option_len then
                  dns2 ← ptr_at 22; mret (icmpv6 {{ icmpv6_dns2 := Some dns2 }})
                else mret icmpv6
              else mret icmpv6
            else mret icmpv6);
  bump (option_len - 2);;
  mret icmpv6.

(** A round of the neighbor advertisement loop; [true] is [break]. *)
Definition icmpv6_na_round (st : bbl_icmpv6 * bool) : dm (bbl_icmpv6 * bool) :=
  let icmpv6 := st.1 in
  '(option, option_len) ← icmpv6_option;
  if option =? ICMPV6_OPTION_DEST_LINK_LAYER then
    fail_if (negb (option_len =? 8)) DECODE_ERROR;;
    mac ← cur;
    mret (icmpv6 {{ icmpv6_dst_mac := Some mac }}, true)
  else
    bump (option_len - 2);;
    mret (icmpv6, false).

Definition decode_icmpv6 : dm (protocol_error * bbl_icmpv6) := fn F_icmpv6 (
  n ← len; spl ← sp_len;
  fail_if ((n <? 4) || (spl <? sizeof_bbl_icmpv6)) DECODE_ERROR;;
  alloc sizeof_bbl_icmpv6;;
  t ← ld8 0; bump 1;;
  code ← ld8 0; bump 1;;
  bump 2;;
  n ← len; b ← cur;
  let icmpv6 := icmpv6_0 {{ icmpv6_type := t ; icmpv6_code := code }} in
  let icmpv6 := if n =? 0 then icmpv6
                else icmpv6 {{ icmpv6_data := Some b ; icmpv6_data_len := n }} in
  icmpv6 ←
    (if t =? IPV6_ICMPV6_ROUTER_ADVERTISEMENT then
       fail_if (n <? 12) DECODE_ERROR;;
       bump 1;;
       flags ← ld8 0; bump 11;;
       while (fun _ d => 8 <=? d_len d) icmpv6_ra_round (icmpv6 {{ icmpv6_flags := flags }})
     else if t =? IPV6_ICMPV6_NEIGHBOR_SOLICITATION then
       fail_if (n <? 20) DECODE_ERROR;;
       bump 4;;
       address ← ld 0 16;
       mret (icmpv6 {{ icmpv6_prefix_address := address }})
     else if t =? IPV6_ICMPV6_NEIGHBOR_ADVERTISEMENT then
       fail_if (n <? 20) DECODE_ERROR;;
       bump 4;;
       address ← ld 0 16; bump IPV6_ADDR_LEN;;
       st ← while (fun st d => (8 <=? d_len d) && negb st.2) icmpv6_na_round
              (icmpv6 {{ icmpv6_prefix_address := address }}, false);
       mret st.1
     else mret icmpv6);
  publish PROTOCOL_SUCCESS icmpv6).

Definition decode_igmp : dm (protocol_error * bbl_igmp) := fn F_igmp (
  n ← len; spl ← sp_len;
  fail_if ((n <? 8) || (spl <? sizeof_bbl_igmp)) DECODE_ERROR;;
  alloc sizeof_bbl_igmp;;
  let version := if n <? 12 then IGMP_VERSION_1 else IGMP_VERSION_3 in
  t ← ld8 0; bump 1;;
  bump 1;;
  bump 2;;
  let igmp := igmp0 {{ igmp_version := version ; igmp_type := t }} in
  igmp ←
    (if t =? IGMP_TYPE_QUERY then
       group ← ld_le 0 4; bump 4;;
       let igmp := igmp {{ igmp_group := group }} in
       if version =? IGMP_VERSION_3 then
         r ← ld8 0; bump 2;;
         sources ← ld_be 0 2; bump 2;;
         let igmp := igmp {{ igmp_robustness := Z.land r 0x7 }} in
         if negb (sources =? 0) then
           source ← ld_le 0 4; mret (igmp {{ igmp_source := source }})
         else mret igmp
       else mret igmp
     else if t =? IGMP_TYPE_REPORT_V1 then
       group ← ld_le 0 4; bump 4;;
       mret (igmp {{ igmp_group := group }})
     else if t =? IGMP_TYPE_REPORT_V2 then
       group ← ld_le 0 4; bump 4;;
       mret (igmp {{ igmp_version := IGMP_VERSION_2 ; igmp_group := group }})
     else if t =? IGMP_TYPE_REPORT_V3 then
       mret (igmp {{ igmp_version := IGMP_VERSION_3 }})
     else if t =? IGMP_TYPE_LEAVE then
       group ← ld_le 0 4; bump 4;;
       mret (igmp {{ igmp_version := IGMP_VERSION_2 ; igmp_group := group }})
     else mret igmp);
  publish PROTOCOL_SUCCESS igmp).

(** ** DHCPv6 *)

(** Code and length of the next option. *)
Definition dhcpv6_option : dm (Z * Z) :=
  option ← ld_be 0 2; bump 2;;
  option_len ← ld_be 0 2; bump 2;;
  n ← len;
  fail_if (n <? option_len) DECODE_ERROR;;
  mret (option, option_len).

Definition ia_na_round (dhcpv6 : dhcpv6_t) : dm dhcpv6_t :=
  '(ia_option, ia_option_len) ← dhcpv6_option;
  dhcpv6 ← (if ia_option =? DHCPV6_OPTION_IAADDR then
              fail_if (ia_option_len <? 24) DECODE_ERROR;;
              address ← cur; preferred ← ld_be 16 4; valid ← ld_be 20 4;
              mret (dhcpv6 {{ dhcpv6_ia_na_address := Some address ;
                              dhcpv6_ia_na_preferred_lifetime := preferred ;
                              dhcpv6_ia_na_valid_lifetime := valid }})
            else if ia_option =? DHCPV6_OPTION_STATUS_CODE then
              fail_if (ia_option_len <? 2) DECODE_ERROR;;
              v ← ld_be 0 2; mret (dhcpv6 {{ dhcpv6_ia_na_status_code := v }})
            else mret dhcpv6);
  bump ia_option_len;;
  mret dhcpv6.

Definition decode_dhcpv6_ia_na (dhcpv6 : dhcpv6_t) : dm (protocol_error * dhcpv6_t) := fn F_dhcpv6_ia_na (
  n ← len;
  fail_if (n <? 12) DECODE_ERROR;;
  b ← cur;
  iaid ← ld_le 0 4; bump 4;;
  t1 ← ld_be 0 4; bump 4;;
  t2 ← ld_be 0 4; bump 4;;
  dhcpv6 ← while (fun _ d => 4 <=? d_len d) ia_na_round
    (dhcpv6 {{ dhcpv6_ia_na_option := Some b ; dhcpv6_ia_na_option_len := u8 n ;
               dhcpv6_ia_na_iaid := iaid ; dhcpv6_ia_na_t1 := t1 ; dhcpv6_ia_na_t2 := t2 }});
  publish PROTOCOL_SUCCESS dhcpv6).

Definition ia_pd_round (dhcpv6 : dhcpv6_t) : dm dhcpv6_t :=
  '(ia_option, ia_option_len) ← dhcpv6_option;
  dhcpv6 ← (if ia_option =? DHCPV6_OPTION_IAPREFIX then
              fail_if (ia_option_len <? 25) DECODE_ERROR;;
              preferred ← ld_be 0 4; valid ← ld_be 4 4; prefix ← ptr_at 8;
              mret (dhcpv6 {{ dhcpv6_ia_pd_preferred_lifetime := preferred ;
                              dhcpv6_ia_pd_valid_lifetime := valid ;
                              dhcpv6_ia_pd_prefix := Some prefix }})
            else if ia_option =? DHCPV6_OPTION_STATUS_CODE then
              fail_if (ia_option_len <? 2) DECODE_ERROR;;
              v ← ld_be 0 2; mret (dhcpv6 {{ dhcpv6_ia_pd_status_code := v }})
            else mret dhcpv6);
  bump ia_option_len;;
  mret dhcpv6.

Definition decode_dhcpv6_ia_pd (dhcpv6 : dhcpv6_t) : dm (protocol_error * dhcpv6_t) := fn F_dhcpv6_ia_pd (
  n ← len;
  fail_if (n <? 12) DECODE_ERROR;;
  b ← cur;
  iaid ← ld_le 0 4; bump 4;;
  t1 ← ld_be 0 4; bump 4;;
  t2 ← ld_be 0 4; bump 4;;
  dhcpv6 ← while (fun _ d => 4 <=? d_len d) ia_pd_round
    (dhcpv6 {{ dhcpv6_ia_pd_option := Some b ; dhcpv6_ia_pd_option_len := u8 n ;
               dhcpv6_ia_pd_iaid := iaid ; dhcpv6_ia_pd_t1 := t1 ; dhcpv6_ia_pd_t2 := t2 }});
  publish PROTOCOL_SUCCESS dhcpv6).

Definition dhcpv6_is_relay (t : Z) : bool :=
  (t =? DHCPV6_MESSAGE_RELAY_FORW) || (t =? DHCPV6_MESSAGE_RELAY_REPL).

(** The locals of the option loop: the structure and [relay_msg]/[relay_msg_len]. *)
Definition dhcpv6_locals : Type := dhcpv6_t * option (list Z * Z).

(** [if(f(...) != PROTOCOL_SUCCESS) return DECODE_ERROR;] *)
Definition succeed {A} (r : protocol_error * option A) : dm A :=
  match r with
  | (PROTOCOL_SUCCESS, Some a) => mret a
  | _ => fail DECODE_ERROR
  end.

Definition dhcpv6_interface_id (dhcpv6 : dhcpv6_t) (b : list Z) (option_len : Z) : dm dhcpv6_t :=
  let dhcpv6 := dhcpv6 {{ dhcpv6_interface_id := Some b ; dhcpv6_interface_id_len := u8 option_len }} in
  spl ← sp_len;
  match dhcpv6_access_line dhcpv6 with
  | Some al =>
      if option_len <? spl then
        str ← copy_string option_len (Some (al_at al));
        mret (dhcpv6 {{ dhcpv6_access_line := Some (al {{ al_aci := Some str }}) }})
      else mret dhcpv6
  | None => mret dhcpv6
  end.

Definition dhcpv6_remote_id (dhcpv6 : dhcpv6_t) (option_len : Z) : dm dhcpv6_t :=
  spl ← sp_len;
  match dhcpv6_access_line dhcpv6 with
  | Some al =>
      if (option_len <? spl) && (4 <=? option_len) then
        str ← copy_string option_len (Some (al_at al));
        mret (dhcpv6 {{ dhcpv6_access_line := Some (al {{ al_ari := Some (drop 4 str) }}) }})
      else mret dhcpv6
  | None => mret dhcpv6
  end.

(** The [switch(option)] of decode_dhcpv6. *)
Definition dhcpv6_switch (option option_len : Z) (st : dhcpv6_locals) : dm dhcpv6_locals :=
  let '(dhcpv6, relay_msg) := st in
  b ← cur;
  if option =? DHCPV6_OPTION_RAPID_COMMIT then
    mret (dhcpv6 {{ dhcpv6_rapid := true }}, relay_msg)
  else if option =? DHCPV6_OPTION_IA_NA then
    r ← call_on b option_len (decode_dhcpv6_ia_na dhcpv6);
    dhcpv6 ← succeed r; mret (dhcpv6, relay_msg)
  else if option =? DHCPV6_OPTION_IA_PD then
    r ← call_on b option_len (decode_dhcpv6_ia_pd dhcpv6);
    dhcpv6 ← succeed r; mret (dhcpv6, relay_msg)
  else if option =? DHCPV6_OPTION_SERVERID then
    fail_if (option_len <? 2) DECODE_ERROR;;
    mret (dhcpv6 {{ dhcpv6_server_duid := Some b ; dhcpv6_server_duid_len := u8 option_len }}, relay_msg)
  else if option =? DHCPV6_OPTION_DNS_SERVERS then
    if 16 <=? option_len then
      let dhcpv6 := dhcpv6 {{ dhcpv6_dns1 := Some b }} in
      if 32 <=? option_len then
        dns2 ← ptr_at 16; mret (dhcpv6 {{ dhcpv6_dns2 := Some dns2 }}, relay_msg)
      else mret (dhcpv6, relay_msg)
    else mret (dhcpv6, relay_msg)
  else if option =? DHCPV6_OPTION_INTERFACE_ID then
    dhcpv6 ← dhcpv6_interface_id dhcpv6 b option_len; mret (dhcpv6, relay_msg)
  else if option =? DHCPV6_OPTION_REMOTE_ID then
    dhcpv6 ← dhcpv6_remote_id dhcpv6 option_len; mret (dhcpv6, relay_msg)
  else if option =? DHCPV6_OPTION_RELAY_MSG then
    fail_if (negb (dhcpv6_is_relay (dhcpv6_type dhcpv6))) DECODE_ERROR;;
    mret (dhcpv6, Some (b, option_len))
  else mret (dhcpv6, relay_msg).

Definition dhcpv6_round (st : dhcpv6_locals) : dm dhcpv6_locals :=
  '(option, option_len) ← dhcpv6_option;
  st ← dhcpv6_switch option option_len st;
  bump option_len;;
  mret st.

(** The whole function; [inner] is the recursive call for the relay message. *)
Definition decode_dhcpv6_body (inner : dm (protocol_error * dhcpv6_t)) (relay : bool)
  : dm (protocol_error * dhcpv6_t) := fn F_dhcpv6 (
  n ← len; spl ← sp_len;
  fail_if ((n <? 8) || (spl <? sizeof_bbl_dhcpv6)) DECODE_ERROR;;
  alloc sizeof_bbl_dhcpv6;;
  spl ← sp_len;
  al ← (if negb (relay || (spl <? sizeof_access_line)) then
          at_ ← alloc sizeof_access_line; mret (Some (access_line0 at_))
        else mret None);
  t ← ld8 0;
  let dhcpv6 := dhcpv6_0 {{ dhcpv6_access_line := al ; dhcpv6_type := t }} in
  dhcpv6 ←
    (if dhcpv6_is_relay t then
       fail_if (relay || (n <? 34)) DECODE_ERROR;;
       bump 1;;
       hops ← ld8 0; bump 1;;
       link ← cur; bump IPV6_ADDR_LEN;;
       peer ← cur; bump IPV6_ADDR_LEN;;
       mret (dhcpv6 {{ dhcpv6_hops := hops ; dhcpv6_link_address := Some link ;
                       dhcpv6_peer_address := Some peer }})
     else
       xid ← ld_be 0 4; bump 4;;
       mret (dhcpv6 {{ dhcpv6_xid := Z.land xid DHCPV6_TYPE_MASK }}));
  '(dhcpv6, relay_msg) ← while (fun _ d => 4 <=? d_len d) dhcpv6_round (dhcpv6, None);
  dhcpv6 ← match relay_msg with
           | Some (b, n) =>
               r ← call_on b n inner;
               inner_msg ← succeed r;
               mret (dhcpv6 {{ dhcpv6_relay_message := h_dhcpv6 inner_msg }})
           | None => mret dhcpv6
           end;
  publish PROTOCOL_SUCCESS dhcpv6).

(** A relayed message ([relay = true]) is never asked to decode a further one. *)
Definition decode_dhcpv6_relayed : dm (protocol_error * dhcpv6_t) :=
  decode_dhcpv6_body (fun _ => Fault None Endless) true.

Definition decode_dhcpv6 : dm (protocol_error * dhcpv6_t) :=
  decode_dhcpv6_body decode_dhcpv6_relayed false.

(** ** DHCP *)

Definition agent_round (al : access_line) : dm access_line :=
  tlv_type ← ld8 0; bump 1;;
  tlv_length ← ld8 0; bump 1;;
  spl ← sp_len;
  al ← (if tlv_type =? ACCESS_LINE_ACI then
          fail_if (spl <=? tlv_length) DECODE_ERROR;;
          str ← copy_string tlv_length (Some (al_at al)); mret (al {{ al_aci := Some str }})
        else if tlv_type =? ACCESS_LINE_ARI then
          fail_if (spl <=? tlv_length) DECODE_ERROR;;
          str ← copy_string tlv_length (Some (al_at al)); mret (al {{ al_ari := Some str }})
        else mret al);
  bump tlv_length;;
  mret al.

Definition decode_dhcp_agent (dhcp : bbl_dhcp) : dm (protocol_error * bbl_dhcp) := fn F_dhcp_agent (
  al ← match dhcp_access_line dhcp with
       | Some al => mret al
       | None => at_ ← alloc sizeof_access_line; mret (access_line0 at_)
       end;
  al ← while (fun _ d => 2 <? d_len d) agent_round al;
  publish PROTOCOL_SUCCESS (dhcp {{ dhcp_access_line := Some al }})).

(** The [switch(option)] of decode_dhcp: the structure and the option length,
    which the END option replaces by the (truncated) rest of the packet. *)
Definition dhcp_switch (option option_len : Z) (dhcp : bbl_dhcp) : dm (bbl_dhcp * Z) :=
  b ← cur;
  if option =? DHCP_OPTION_END then n ← len; mret (dhcp, u8 n)
  else if option =? DHCP_OPTION_DHCP_MESSAGE_TYPE then
    fail_if (negb (option_len =? 1)) DECODE_ERROR;;
    v ← ld8 0; mret (dhcp {{ dhcp_type := v }}, option_len)
  else if option =? DHCP_OPTION_IP_ADDRESS_LEASE_TIME then
    fail_if (negb (option_len =? 4)) DECODE_ERROR;;
    v ← ld_be 0 4; mret (dhcp {{ dhcp_lease_time := v ; dhcp_option_lease_time := true }}, option_len)
  else if option =? DHCP_OPTION_CLIENT_IDENTIFIER then
    mret (dhcp {{ dhcp_client_identifier := Some b ; dhcp_client_identifier_len := option_len }}, option_len)
  else if option =? DHCP_OPTION_SERVER_IDENTIFIER then
    fail_if (negb (option_len =? 4)) DECODE_ERROR;;
    v ← ld_le 0 4; mret (dhcp {{ dhcp_server_identifier := v ; dhcp_option_server_identifier := true }}, option_len)
  else if option =? DHCP_OPTION_SUBNET_MASK then
    fail_if (negb (option_len =? 4)) DECODE_ERROR;;
    v ← ld_le 0 4; mret (dhcp {{ dhcp_netmask := v ; dhcp_option_netmask := true }}, option_len)
  else if option =? DHCP_OPTION_ROUTER then
    fail_if (option_len <? 4) DECODE_ERROR;;
    v ← ld_le 0 4; mret (dhcp {{ dhcp_router := v ; dhcp_option_router := true }}, option_len)
  else if option =? DHCP_OPTION_DNS_SERVER then
    fail_if (option_len <? 4) DECODE_ERROR;;
    v ← ld_le 0 4;
    let dhcp := dhcp {{ dhcp_dns1 := v ; dhcp_option_dns1 := true }} in
    if 8 <=? option_len then
      v ← ld_le 4 4; mret (dhcp {{ dhcp_dns2 := v ; dhcp_option_dns2 := true }}, option_len)
    else mret (dhcp, option_len)
  else if option =? DHCP_OPTION_HOST_NAME then
    mret (dhcp {{ dhcp_host_name := Some b ; dhcp_host_name_len := option_len }}, option_len)
  else if option =? DHCP_OPTION_DOMAIN_NAME then
    mret (dhcp {{ dhcp_domain_name := Some b ; dhcp_domain_name_len := option_len }}, option_len)
  else if option =? DHCP_OPTION_INTERFACE_MTU then
    fail_if (negb (option_len =? 2)) DECODE_ERROR;;
    v ← ld_be 0 2; mret (dhcp {{ dhcp_mtu := v ; dhcp_option_mtu := true }}, option_len)
  else if option =? DHCP_OPTION_RELAY_AGENT_INFORMATION then
    r ← call_on b option_len (decode_dhcp_agent dhcp);
    dhcp ← succeed r; mret (dhcp, option_len)
  else if option =? DHCP_OPTION_RENEWAL_TIME_VALUE then
    fail_if (negb (option_len =? 4)) DECODE_ERROR;;
    v ← ld_be 0 4; mret (dhcp {{ dhcp_t1 := v ; dhcp_option_t1 := true }}, option_len)
  else if option =? DHCP_OPTION_REBINDING_TIME_VALUE then
    fail_if (negb (option_len =? 4)) DECODE_ERROR;;
    v ← ld_be 0 4; mret (dhcp {{ dhcp_t2 := v ; dhcp_option_t2 := true }}, option_len)
  else mret (dhcp, option_len).

Definition dhcp_round (dhcp : bbl_dhcp) : dm bbl_dhcp :=
  option ← ld8 0; bump 1;;
  if option =? DHCP_OPTION_PAD then mret dhcp
  else
    option_len ← ld8 0; bump 1;;
    n ← len;
    fail_if (n <? option_len) DECODE_ERROR;;
    '(dhcp, option_len) ← dhcp_switch option option_len dhcp;
    bump option_len;;
    mret dhcp.

Definition decode_dhcp : dm (protocol_error * bbl_dhcp) := fn F_dhcp (
  n ← len; spl ← sp_len;
  fail_if ((n <? sizeof_dhcp_header + 4) || (spl <? sizeof_bbl_dhcp)) DECODE_ERROR;;
  alloc sizeof_bbl_dhcp;;
  header ← cur; bump sizeof_dhcp_header;;
  bump 4;;
  dhcp ← while (fun _ d => 2 <=? d_len d) dhcp_round (dhcp0 {{ dhcp_header := Some header }});
  publish PROTOCOL_SUCCESS dhcp).

(** ** The BBL stream header *)

Definition decode_bbl : dm (protocol_error * bbl_bbl) := fn F_bbl (
  n ← len; spl ← sp_len;
  fail_if ((n <? BBL_HEADER_LEN) || (spl <? sizeof_bbl_bbl)) DECODE_ERROR;;
  (if BBL_HEADER_LEN <? n then bump (n - BBL_HEADER_LEN) else mret tt);;
  magic ← ld_le 0 8;
  fail_if (negb (magic =? BBL_MAGIC_NUMBER)) DECODE_ERROR;;
  alloc sizeof_bbl_bbl;;
  bump 8;;
  t ← ld8 0; bump 1;;
  sub_type ← ld8 0; bump 1;;
  direction ← ld8 0; bump 1;;
  tos ← ld8 0; bump 1;;
  session_id ← ld_le 0 4; bump 4;;
  '(ifindex, outer, inner, mc_source, mc_group) ←
    (if t =? BBL_TYPE_UNICAST then
       ifindex ← ld_le 0 4; bump 4;;
       outer ← ld_le 0 2; bump 2;;
       inner ← ld_le 0 2; bump 2;;
       mret (Some ifindex, Some outer, Some inner, None, None)
     else if t =? BBL_TYPE_MULTICAST then
       mc_source ← ld_le 0 4; bump 4;;
       mc_group ← ld_le 0 4; bump 4;;
       mret (None, None, None, Some mc_source, Some mc_group)
     else mret (None, None, None, None, None));
  flow_id ← ld_le 0 8; bump 8;;
  flow_seq ← ld_le 0 8; bump 8;;
  tv_sec ← ld_le 0 4; bump 4;;
  tv_nsec ← ld_le 0 4; bump 4;;
  publish PROTOCOL_SUCCESS
    (mk_bbl None t sub_type direction tos session_id ifindex outer inner mc_source mc_group
       flow_id flow_seq tv_sec tv_nsec)).

(** ** LDP hello *)

Definition ldp_tlv_round (ldp : bbl_ldp_hello) : dm bbl_ldp_hello :=
  tlv_type ← ld_be 0 2; bump 2;;
  let tlv_type := Z.land tlv_type LDP_TLV_TYPE_MASK in
  tlv_len ← ld_be 0 2; bump 2;;
  n ← len;
  fail_if (n <? tlv_len) DECODE_ERROR;;
  ldp ← (if tlv_type =? LDP_TLV_TYPE_COMMON_HELLO_PARAMETERS then
           fail_if (negb (tlv_len =? 4)) DECODE_ERROR;;
           v ← ld_be 0 2; mret (ldp {{ ldp_hold_time := v }})
         else if tlv_type =? LDP_TLV_TYPE_IPV4_TRANSPORT_ADDRESS then
           fail_if (negb (tlv_len =? 4)) DECODE_ERROR;;
           v ← ld_le 0 4; mret (ldp {{ ldp_ipv4_transport_address := v }})
         else if tlv_type =? LDP_TLV_TYPE_IPV6_TRANSPORT_ADDRESS then
           fail_if (negb (tlv_len =? IPV6_ADDR_LEN)) DECODE_ERROR;;
           b ← cur; mret (ldp {{ ldp_ipv6_transport_address := Some b }})
         else if tlv_type =? LDP_TLV_TYPE_DUAL_STACK_CAPABILITY then
           fail_if (negb (tlv_len =? 4)) DECODE_ERROR;;
           v ← ld8 0; mret (ldp {{ ldp_dual_stack_capability := Z.land (Z.shiftr v 4) 0x0F }})
         else mret ldp);
  bump tlv_len;;
  mret ldp.

Definition decode_ldp_hello : dm (protocol_error * bbl_ldp_hello) := fn F_ldp_hello (
  n ← len; spl ← sp_len;
  fail_if ((n <? 10) || (spl <? sizeof_bbl_ldp_hello)) DECODE_ERROR;;
  alloc sizeof_bbl_ldp_hello;;
  v ← ld_be 0 2; bump 2;;
  let pdu_version := Z.land v 0x7FFF in
  pdu_len ← ld_be 0 2; bump 2;;
  fail_if (negb (pdu_version =? 1)) UNKNOWN_PROTOCOL;;
  n ← len;
  fail_if (n <? pdu_len) UNKNOWN_PROTOCOL;;
  set_len pdu_len;;
  lsr_id ← ld_le 0 4; bump 4;;
  label_space_id ← ld_be 0 2; bump 2;;
  n ← len;
  fail_if (n <? 4) DECODE_ERROR;;
  msg_type ← ld_be 0 2; bump 2;;
  msg_len ← ld_be 0 2; bump 2;;
  n ← len;
  fail_if ((n <? msg_len) || (msg_len <? 4) || negb (msg_type =? LDP_MESSAGE_TYPE_HELLO)) DECODE_ERROR;;
  set_len msg_len;;
  msg_id ← ld_be 0 4; bump 4;;
  ldp ← while (fun _ d => LDP_TLV_LEN_MIN <=? d_len d) ldp_tlv_round
          (ldp_hello0 {{ ldp_lsr_id := lsr_id ; ldp_label_space_id := label_space_id ; ldp_msg_id := msg_id }});
  publish PROTOCOL_SUCCESS ldp).

(** ** TCP and OSPF *)

(** The result of the BBL attempt is ignored, what it stores is kept. *)
Definition decode_tcp : dm (protocol_error * bbl_tcp) := fn F_tcp (
  n ← len; spl ← sp_len;
  fail_if ((n <? TCP_HDR_LEN_MIN) || (spl <? sizeof_bbl_tcp)) DECODE_ERROR;;
  alloc sizeof_bbl_tcp;;
  src ← ld_be 0 2;
  dst ← ld_be 2 2;
  bump TCP_HDR_LEN_MIN;;
  '(_, bbl) ← call decode_bbl;
  match bbl with
  | Some b => on_eth (fun eth => eth {{ eth_bbl := p_to b }})
  | None => mret tt
  end;;
  publish PROTOCOL_SUCCESS (mk_tcp src dst 0 None)).

Definition decode_ospf : dm (protocol_error * bbl_ospf) := fn F_ospf (
  n ← len; spl ← sp_len;
  fail_if ((n <? OSPF_PDU_LEN_MIN) || (spl <? sizeof_bbl_ospf)) DECODE_ERROR;;
  alloc sizeof_bbl_isis;;
  pdu ← cur;
  version ← ld8 0; bump 1;;
  t ← ld8 0; bump 1;;
  hdr_len ← ld_be 0 2;
  fail_if (n <? hdr_len) DECODE_ERROR;;
  publish PROTOCOL_SUCCESS (mk_ospf version t pdu n)).
