(* ===== verification/DecodeEth.v ===== *)
(** The decoders of bbl_protocols.c that decode further headers: IPv6, IPv4,
    L2TP, PPPoE session, QMX LI, UDP and Ethernet.

    The recursion of the C code always passes through UDP (L2TP and QMX LI tunnel
    whole packets inside of it), so the section below defines the other decoders
    for a given UDP decoder and the knot is tied by recursion on the number of
    UDP headers. *)
From S2P Require Import Prelude.
From S2P Require Import Const.
From S2P Require Import ProtoTypes.
From S2P Require Import Dec.
From S2P Require Import DecodePpp.
From S2P Require Import DecodeNet.

Definition be16toh (x : Z) : Z := be_combine (le_split 2 x).

(** [if(!eth->tos) eth->tos = tos;] and the same for ttl. *)
Definition eth_learn_tos (tos : Z) (eth : ethernet) : ethernet :=
  if eth_tos eth =? 0 then eth {{ eth_tos := tos }} else eth.
Definition eth_learn_ttl (ttl : Z) (eth : ethernet) : ethernet :=
  if eth_ttl eth =? 0 then eth {{ eth_ttl := ttl }} else eth.

(** A sub-decoder called for a [next] pointer that holds [old]: return code and
    new pointer. *)
Definition sub {A} (f : A -> hdr) (old : hdr) (m : dm (protocol_error * A)) : dm (protocol_error * hdr) :=
  '(e, o) ← call m; mret (e, stored f old o).

Section WithUdp.
Context (decode_udp : dm (protocol_error * udp_t)).

Definition decode_ipv6_with : dm (protocol_error * ipv6_t) := fn F_ipv6 (
  n ← len; spl ← sp_len;
  fail_if ((n <? IPV6_HDR_LEN) || (spl <? sizeof_bbl_ipv6)) DECODE_ERROR;;
  alloc sizeof_bbl_ipv6;;
  hdr ← cur;
  v ← ld8 0;
  fail_if (negb (Z.land (Z.shiftr v 4) 0xf =? 6)) DECODE_ERROR;;
  w ← ld_be 0 2;
  let tos := u8 (Z.shiftr w 4) in
  on_eth (eth_learn_tos tos);;
  bump 4;;
  payload_len ← ld_be 0 2; bump 2;;
  protocol ← ld8 0; bump 1;;
  ttl ← ld8 0;
  on_eth (eth_learn_ttl ttl);;
  bump 1;;
  src ← cur; bump IPV6_ADDR_LEN;;
  dst ← cur; bump IPV6_ADDR_LEN;;
  payload ← cur;
  n ← len;
  fail_if (n <? payload_len) DECODE_ERROR;;
  set_len payload_len;;
  '(ret_val, next) ←
    (if protocol =? IPV6_NEXT_HEADER_ICMPV6 then sub h_icmpv6 h_uninit decode_icmpv6
     else if protocol =? IPV6_NEXT_HEADER_UDP then sub h_udp h_uninit decode_udp
     else if protocol =? IPV6_NEXT_HEADER_TCP then sub h_tcp h_uninit decode_tcp
     else if protocol =? IPV6_NEXT_HEADER_OSPF then sub h_ospf h_uninit decode_ospf
     else mret (PROTOCOL_SUCCESS, h_null));
  publish ret_val
    (mk_ipv6 src dst tos ttl protocol (u16 (IPV6_HDR_LEN + payload_len)) hdr next (Some payload) payload_len)).

Definition decode_ipv4_with : dm (protocol_error * ipv4_t) := fn F_ipv4 (
  n ← len; spl ← sp_len;
  fail_if ((n <? 20) || (spl <? sizeof_bbl_ipv4)) DECODE_ERROR;;
  alloc sizeof_bbl_ipv4;;
  hdr ← cur;
  v ← ld8 0;
  fail_if (negb (Z.shiftr v 4 =? 4)) DECODE_ERROR;;
  let ipv4_header_len := Z.land v 0xf * 4 in
  fail_if (ipv4_header_len <? 20) DECODE_ERROR;;
  tos ← ld8 1;
  on_eth (eth_learn_tos tos);;
  ip_len ← ld_be 2 2;
  fail_if ((ip_len <? ipv4_header_len) || (n <? ip_len)) DECODE_ERROR;;
  id ← ld_be 4 2;
  offset ← ld_be 6 2;
  ttl ← ld8 8;
  on_eth (eth_learn_ttl ttl);;
  protocol ← ld8 9;
  src ← ld_le 12 4;
  dst ← ld_le 16 4;
  bump ipv4_header_len;;
  payload ← cur;
  let payload_len := u16 (ip_len - ipv4_header_len) in
  n ← len;
  fail_if (n <? payload_len) DECODE_ERROR;;
  set_len payload_len;;
  if negb (Z.ldiff offset IPV4_DF =? 0) then
    publish PROTOCOL_SUCCESS
      (mk_ipv4 src dst tos ttl (if protocol =? PROTOCOL_IPV4_OSPF then protocol else 0) false
         id offset ip_len hdr h_null (Some payload) payload_len)
  else
    '(ret_val, next) ←
      (if protocol =? PROTOCOL_IPV4_IGMP then sub h_igmp h_uninit decode_igmp
       else if protocol =? PROTOCOL_IPV4_ICMP then sub h_icmp h_uninit decode_icmp
       else if protocol =? PROTOCOL_IPV4_UDP then sub h_udp h_uninit decode_udp
       else if protocol =? PROTOCOL_IPV4_TCP then sub h_tcp h_uninit decode_tcp
       else if protocol =? PROTOCOL_IPV4_OSPF then sub h_ospf h_uninit decode_ospf
       else mret (PROTOCOL_SUCCESS, h_null));
    publish ret_val
      (mk_ipv4 src dst tos ttl protocol false id offset ip_len hdr next (Some payload) payload_len)).

(** The protocols of a PPP frame; [old] is the pointer before the call, and
    [unknown] what it becomes for other protocols. *)
Definition ppp_payload (protocol : Z) (old unknown : hdr) : dm (protocol_error * hdr) :=
  if protocol =? PROTOCOL_IPV4 then sub h_ipv4 old decode_ipv4_with
  else if protocol =? PROTOCOL_IPV6 then sub h_ipv6 old decode_ipv6_with
  else if protocol =? PROTOCOL_LCP then sub h_lcp old decode_ppp_lcp
  else if protocol =? PROTOCOL_IPCP then sub h_ipcp old decode_ppp_ipcp
  else if protocol =? PROTOCOL_IP6CP then sub h_ip6cp old decode_ppp_ip6cp
  else if protocol =? PROTOCOL_PAP then sub h_pap old decode_ppp_pap
  else if protocol =? PROTOCOL_CHAP then sub h_chap old decode_ppp_chap
  else mret (UNKNOWN_PROTOCOL, unknown).

Definition bit (v mask : Z) : bool := negb (Z.land v mask =? 0).

(** The optional fields between the L2TP flags and the payload. *)
Definition l2tp_header : dm l2tp_t :=
  v ← ld8 0;
  let l2tp := l2tp0 {{ l2tp_type := if bit v L2TP_HDR_CTRL_BIT_MASK then L2TP_MESSAGE_ZLB else 0 ;
                       l2tp_with_length := bit v L2TP_HDR_LEN_BIT_MASK ;
                       l2tp_with_sequence := bit v L2TP_HDR_SEQ_BIT_MASK ;
                       l2tp_with_offset := bit v L2TP_HDR_OFFSET_BIT_MASK ;
                       l2tp_with_priority := bit v L2TP_HDR_PRIORITY_BIT_MASK }} in
  bump 1;;
  ver ← ld8 0;
  fail_if (negb (Z.land ver L2TP_HDR_VERSION_MASK =? 2)) DECODE_ERROR;;
  bump 1;;
  l2tp ← (if l2tp_with_length l2tp then
            length ← ld_be 0 2; bump 2;;
            let l2tp_len := u16 (length - 4) in
            n ← len;
            fail_if (n <? l2tp_len) DECODE_ERROR;;
            set_len l2tp_len;;
            mret (l2tp {{ l2tp_length := length }})
          else
            fail_if (negb (l2tp_type l2tp =? 0)) DECODE_ERROR;;
            mret l2tp);
  n ← len;
  fail_if (n <? 4) DECODE_ERROR;;
  tunnel_id ← ld_be 0 2; bump 2;;
  session_id ← ld_be 0 2; bump 2;;
  let l2tp := l2tp {{ l2tp_tunnel_id := tunnel_id ; l2tp_session_id := session_id }} in
  l2tp ← (if l2tp_with_sequence l2tp then
            n ← len;
            fail_if (n <? 4) DECODE_ERROR;;
            ns ← ld_be 0 2; bump 2;;
            nr ← ld_be 0 2; bump 2;;
            mret (l2tp {{ l2tp_ns := ns ; l2tp_nr := nr }})
          else
            fail_if (negb (l2tp_type l2tp =? 0)) DECODE_ERROR;;
            mret l2tp);
  if l2tp_with_offset l2tp then
    n ← len;
    fail_if (n <? 2) DECODE_ERROR;;
    offset ← ld_be 0 2; bump 2;;
    (if negb (offset =? 0) then
       n ← len;
       fail_if (n <? offset) DECODE_ERROR;;
       bump offset
     else mret tt);;
    mret (l2tp {{ l2tp_offset := offset }})
  else mret l2tp.

Definition decode_l2tp_with : dm (protocol_error * l2tp_t) := fn F_l2tp (
  n ← len; spl ← sp_len;
  fail_if ((n <? 8) || (spl <? sizeof_bbl_l2tp)) DECODE_ERROR;;
  alloc sizeof_bbl_l2tp;;
  l2tp ← l2tp_header;
  n ← len;
  if negb (l2tp_type l2tp =? 0) then
    if n =? 0 then publish PROTOCOL_SUCCESS l2tp
    else
      fail_if (n <? 8) DECODE_ERROR;;
      bump 2;;
      z ← ld_le 0 4;
      fail_if (negb (z =? 0)) DECODE_ERROR;;
      bump 4;;
      t ← ld_be 0 2; bump 2;;
      n ← len; b ← cur;
      let l2tp := l2tp {{ l2tp_type := t }} in
      publish PROTOCOL_SUCCESS
        (if n =? 0 then l2tp else l2tp {{ l2tp_payload := Some b ; l2tp_payload_len := n }})
  else
    fail_if (n <? 4) DECODE_ERROR;;
    b ← cur;
    bump 2;;
    protocol ← ld_be 0 2; bump 2;;
    '(ret_val, next) ← ppp_payload protocol h_null h_null;
    publish ret_val
      (l2tp {{ l2tp_payload := Some b ; l2tp_payload_len := n ; l2tp_protocol := protocol ;
               l2tp_next := next }})).

Definition decode_pppoe_session_with : dm (protocol_error * pppoe_session) := fn F_pppoe_session (
  n ← len; spl ← sp_len;
  fail_if ((n <? 8) || (spl <? sizeof_bbl_pppoe_session)) DECODE_ERROR;;
  alloc sizeof_bbl_pppoe_session;;
  version_type ← ld8 0;
  session_id ← ld_be 2 2;
  hlen ← ld_be 4 2;
  protocol ← ld_be 6 2;
  bump 8;;
  fail_if (negb (version_type =? 17)) DECODE_ERROR;;
  let pppoe_len := u16 (hlen - 2) in
  n ← len;
  fail_if (n <? pppoe_len) DECODE_ERROR;;
  set_len pppoe_len;;
  '(ret_val, next) ← ppp_payload protocol h_uninit h_null;
  publish ret_val (mk_pppoe_session session_id protocol 0 false next)).

(** ** Ethernet *)

Definition is_vlan (type : Z) : bool := (type =? NB_ETH_TYPE_VLAN) || (type =? NB_ETH_TYPE_QINQ).

(** Up to three VLAN tags; the result is the raw ethertype behind them. *)
Definition eth_vlans (type : Z) : dm Z :=
  if is_vlan type then
    n ← len; fail_if (n <? 4) DECODE_ERROR;;
    (if type =? ETH_TYPE_QINQ then on_eth (fun eth => eth {{ eth_qinq := true }}) else mret tt);;
    prio ← ld8 0; vid ← ld_be 0 2;
    on_eth (fun eth => eth {{ eth_vlan_outer_priority := Z.shiftr prio 5 ;
                              eth_vlan_outer := Z.land vid BBL_ETH_VLAN_ID_MAX }});;
    bump 2;;
    type ← ld_le 0 2; bump 2;;
    if is_vlan type then
      n ← len; fail_if (n <? 4) DECODE_ERROR;;
      prio ← ld8 0; vid ← ld_be 0 2;
      on_eth (fun eth => eth {{ eth_vlan_inner_priority := Z.shiftr prio 5 ;
                                eth_vlan_inner := Z.land vid BBL_ETH_VLAN_ID_MAX }});;
      bump 2;;
      type ← ld_le 0 2; bump 2;;
      if is_vlan type then
        n ← len; fail_if (n <? 4) DECODE_ERROR;;
        vid ← ld_be 0 2;
        on_eth (fun eth => eth {{ eth_vlan_three := Z.land vid BBL_ETH_VLAN_ID_MAX }});;
        bump 2;;
        type ← ld_le 0 2; bump 2;;
        mret type
      else mret type
    else mret type
  else mret type.

(** A round of [while(mpls)]: the labels so far, and whether another follows. *)
Definition mpls_round (st : list bbl_mpls * bool) : dm (list bbl_mpls * bool) :=
  n ← len; spl ← sp_len;
  fail_if (n <? 5) DECODE_ERROR;;
  w ← ld_be 0 4; b2 ← ld8 2; ttl ← ld8 3;
  let labels := st.1 ++ [mk_mpls (Z.shiftr w 12) (Z.land (Z.shiftr b2 1) 7) ttl] in
  more ← (if bit b2 1 then mret false
          else
            fail_if (spl <? sizeof_bbl_mpls) DECODE_ERROR;;
            alloc sizeof_bbl_mpls;;
            mret true);
  bump 4;;
  mret (labels, more).

Definition eth_mpls_stack (type : Z) : dm Z :=
  if type =? NB_ETH_TYPE_MPLS then
    spl ← sp_len;
    fail_if (spl <? sizeof_bbl_mpls) DECODE_ERROR;;
    alloc sizeof_bbl_mpls;;
    '(labels, _) ← while (fun st _ => st.2) mpls_round ([], true);
    on_eth (fun eth => eth {{ eth_mpls := labels }});;
    v ← ld8 0;
    let version := Z.land (Z.shiftr v 4) 0xf in
    if version =? 4 then mret NB_ETH_TYPE_IPV4
    else if version =? 6 then mret NB_ETH_TYPE_IPV6
    else fail UNKNOWN_PROTOCOL
  else mret type.

(** The 802.3 frames, of which IS-IS is decoded. *)
Definition eth_802_3 (type : Z) : dm (protocol_error * hdr) :=
  if type <=? ETH_IEEE_802_3_MAX_LEN then
    n ← len;
    fail_if (n <? type) DECODE_ERROR;;
    set_len type;;
    fail_if (type <? LLC_HDR_LEN) DECODE_ERROR;;
    bump LLC_HDR_LEN;;
    n ← len;
    if ISIS_HDR_LEN_COMMON <=? n then
      v ← ld8 0;
      if v =? ISIS_PROTOCOL_IDENTIFIER then
        on_eth (fun eth => eth {{ eth_type := ISIS_PROTOCOL_IDENTIFIER }});;
        sub h_isis h_null decode_isis
      else mret (UNKNOWN_PROTOCOL, h_null)
    else mret (UNKNOWN_PROTOCOL, h_null)
  else mret (UNKNOWN_PROTOCOL, h_null).

(** The header is published before anything can fail behind the first check;
    callers read it after PROTOCOL_SUCCESS only. *)
Definition decode_ethernet_with : dm (protocol_error * ethernet) := fn F_ethernet (
  n ← len; spl ← sp_len;
  fail_if ((n <? 14) || (spl <? sizeof_bbl_ethernet_header)) DECODE_ERROR;;
  alloc sizeof_bbl_ethernet_header;;
  dst ← cur; bump ETH_ADDR_LEN;;
  src ← cur; bump ETH_ADDR_LEN;;
  on_eth (fun _ => eth0 {{ eth_length := n ; eth_dst := Some dst ; eth_src := Some src }});;
  type ← ld_le 0 2; bump 2;;
  type ← eth_vlans type;
  type ← eth_mpls_stack type;
  let type := be16toh type in
  on_eth (fun eth => eth {{ eth_type := type }});;
  '(ret_val, next) ←
    (if type =? ETH_TYPE_PPPOE_SESSION then sub h_pppoe_session h_null decode_pppoe_session_with
     else if type =? ETH_TYPE_PPPOE_DISCOVERY then sub h_pppoe_discovery h_null decode_pppoe_discovery
     else if type =? ETH_TYPE_ARP then sub h_arp h_null decode_arp
     else if type =? ETH_TYPE_IPV4 then sub h_ipv4 h_null decode_ipv4_with
     else if type =? ETH_TYPE_IPV6 then sub h_ipv6 h_null decode_ipv6_with
     else if type =? ETH_TYPE_LACP then sub h_lacp h_null decode_lacp
     else eth_802_3 type);
  on_eth (fun eth => eth {{ eth_next := next }});;
  eth ← get d_eth;
  publish ret_val eth).

(** The tunnelled frame has an ethernet header of its own. *)
Definition decode_qmx_li_with : dm (protocol_error * qmx_li_t) := fn F_qmx_li (
  n ← len; spl ← sp_len;
  fail_if ((n <? 4) || (spl <? sizeof_bbl_qmx_li)) DECODE_ERROR;;
  alloc sizeof_bbl_qmx_li;;
  header ← ld_le 0 4;
  w ← ld_be 0 4;
  v ← ld8 0;
  h ← ld_be 0 2;
  let packet_type := Z.land (Z.shiftr v 1) 0xf in
  bump 4;;
  b ← cur; n ← len;
  next ← (if packet_type =? 7 then
            outer ← get d_eth;
            '(e, o) ← call decode_ethernet_with;
            on_eth (fun _ => outer);;
            mret (match e, o with
                  | PROTOCOL_SUCCESS, Some eth => h_eth eth
                  | _, _ => h_null
                  end)
          else mret h_null);
  publish PROTOCOL_SUCCESS
    (mk_qmx_li header (Z.land w 0x003fffff) (Z.land (Z.shiftr v 5) 0x7) packet_type
       (Z.land (Z.shiftr h 6) 0x07) next b n)).

(** [eth->bbl = udp->next;] *)
Definition bbl_pointer (next : hdr) : pointer bbl_bbl :=
  match next with
  | h_bbl b => p_to b
  | h_null => p_null
  | _ => p_uninit
  end.

(** The [switch(udp->dst)]: return code, protocol and next pointer. *)
Definition udp_switch (src dst : Z) : dm (protocol_error * option Z * hdr) :=
  if (dst =? DHCPV6_UDP_CLIENT) || (dst =? DHCPV6_UDP_SERVER) then
    '(e, next) ← sub h_dhcpv6 h_uninit decode_dhcpv6; mret (e, Some UDP_PROTOCOL_DHCPV6, next)
  else if dst =? BBL_UDP_PORT then
    '(e, next) ← sub h_bbl h_uninit decode_bbl;
    on_eth (fun eth => eth {{ eth_bbl := bbl_pointer next }});;
    mret (e, Some UDP_PROTOCOL_BBL, next)
  else if dst =? L2TP_UDP_PORT then
    if src =? L2TP_UDP_PORT then
      '(e, next) ← sub h_l2tp h_uninit decode_l2tp_with; mret (e, Some UDP_PROTOCOL_L2TP, next)
    else mret (UNKNOWN_PROTOCOL, None, h_uninit)
  else if (dst =? DHCP_UDP_CLIENT) || (dst =? DHCP_UDP_SERVER) then
    '(e, next) ← sub h_dhcp h_uninit decode_dhcp; mret (e, Some UDP_PROTOCOL_DHCP, next)
  else if dst =? QMX_LI_UDP_PORT then
    '(e, next) ← sub h_qmx_li h_uninit decode_qmx_li_with; mret (e, Some UDP_PROTOCOL_QMX_LI, next)
  else if dst =? LDP_PORT then
    if src =? LDP_PORT then
      '(e, next) ← sub h_ldp_hello h_uninit decode_ldp_hello; mret (e, Some UDP_PROTOCOL_LDP, next)
    else mret (UNKNOWN_PROTOCOL, None, h_uninit)
  else mret (UNKNOWN_PROTOCOL, None, h_uninit).

Definition decode_udp_body : dm (protocol_error * udp_t) := fn F_udp (
  n ← len; spl ← sp_len;
  fail_if ((n <? UDP_HDR_LEN) || (spl <? sizeof_bbl_udp)) DECODE_ERROR;;
  alloc sizeof_bbl_udp;;
  src ← ld_be 0 2; bump 2;;
  dst ← ld_be 0 2; bump 2;;
  ulen ← ld_be 0 2; bump 4;;
  fail_if (ulen <? UDP_HDR_LEN) DECODE_ERROR;;
  let payload_len := ulen - UDP_HDR_LEN in
  n ← len;
  fail_if (n <? payload_len) DECODE_ERROR;;
  set_len payload_len;;
  '(ret_val, protocol, next) ← udp_switch src dst;
  '(ret_val, protocol, next) ←
    (if bool_decide (ret_val = UNKNOWN_PROTOCOL) then
       if src =? QMX_LI_UDP_PORT then
         '(e, next) ← sub h_qmx_li next decode_qmx_li_with; mret (e, Some UDP_PROTOCOL_QMX_LI, next)
       else
         '(e, next) ← sub h_bbl next decode_bbl;
         if bool_decide (e = PROTOCOL_SUCCESS) then
           on_eth (fun eth => eth {{ eth_bbl := bbl_pointer next }});;
           mret (PROTOCOL_SUCCESS, Some UDP_PROTOCOL_BBL, next)
         else mret (PROTOCOL_SUCCESS, Some 0, h_null)
     else mret (ret_val, protocol, next));
  publish ret_val (mk_udp src dst payload_len protocol next)).

End WithUdp.

(** ** The recursive knot *)

Fixpoint decode_udp (depth : nat) : dm (protocol_error * udp_t) :=
  match depth with
  | O => fun _ => Fault None Endless
  | S depth' => decode_udp_body (decode_udp depth')
  end.

(** Every UDP header takes eight bytes of the packet, so [len] bounds the depth. *)
Definition with_depth {A} (f : dm (protocol_error * udp_t) -> dm A) : dm A := fun d =>
  f (decode_udp (S (Z.to_nat (d_len d)))) d.

Definition decode_ipv4 := with_depth decode_ipv4_with.
Definition decode_ipv6 := with_depth decode_ipv6_with.
Definition decode_l2tp := with_depth decode_l2tp_with.
Definition decode_pppoe_session := with_depth decode_pppoe_session_with.
Definition decode_qmx_li := with_depth decode_qmx_li_with.

(** The entry point: [decode_ethernet(buf, len, sp, sp_len, &eth)] on a packet
    of [len] bytes, with a scratchpad of [sp_len] bytes. *)
Definition decode_ethernet (buf : list Z) (len sp_len : Z) : outcome (protocol_error * ethernet) :=
  with_depth decode_ethernet_with (mk_dec buf len 0 sp_len sp_len eth0).

(** ** Is the packet a BBL stream packet *)

(** [packet_is_bbl]: [None] is a read outside of the packet. *)
Definition packet_is_bbl (buf : list Z) (len : Z) : option bool :=
  if len <? BBL_MIN_LEN then Some false
  else
    let b := drop (Z.to_nat (len - BBL_HEADER_LEN)) buf in
    if (length b <? 8)%nat then None
    else Some (le_combine (take 8 b) =? BBL_MAGIC_NUMBER).
