(* ===== verification/DecodeSafe.v ===== *)
(** Memory safety and termination of the packet decoders. *)
From S2P Require Import Prelude.
From S2P Require Import Const.
From S2P Require Import ProtoTypes.
From S2P Require Import Dec.
From S2P Require Import DecodePpp.
From S2P Require Import DecodeNet.
From S2P Require Import DecodeEth.

Ltac consts := unfold sizeof_bbl_arp, ETH_ADDR_LEN, sizeof_bbl_isis, ISIS_HDR_LEN_COMMON,
  sizeof_bbl_lacp, sizeof_bbl_pap, sizeof_bbl_chap, sizeof_bbl_ip6cp, sizeof_bbl_ipcp,
  sizeof_bbl_lcp, OUI_LEN, sizeof_access_line, sizeof_bbl_pppoe_discovery, sizeof_bbl_icmp, sizeof_bbl_icmpv6,
  IPV6_ADDR_LEN, sizeof_bbl_igmp, sizeof_bbl_dhcpv6, sizeof_bbl_dhcp, sizeof_dhcp_header,
  sizeof_bbl_bbl, BBL_HEADER_LEN, sizeof_bbl_ldp_hello, LDP_TLV_LEN_MIN, TCP_HDR_LEN_MIN,
  sizeof_bbl_tcp, OSPF_PDU_LEN_MIN, sizeof_bbl_ospf, IPV6_HDR_LEN, sizeof_bbl_ipv6, sizeof_bbl_ipv4,
  sizeof_bbl_l2tp, sizeof_bbl_pppoe_session, sizeof_bbl_mpls, LLC_HDR_LEN, sizeof_bbl_ethernet_header,
  sizeof_bbl_qmx_li, UDP_HDR_LEN, sizeof_bbl_udp in *.

(** ** Option loops: every round keeps the cursor inside of the packet and moves it. *)

Definition progress {T} (d : dec) : T -> dec -> Prop := fun _ d' => wf d' /\ d_len d' < d_len d.

Lemma safe_wf_while ok f0 {T} (cond : T -> dec -> bool) body (s : T) (Q : T -> dec -> Prop) d :
  wf d ->
  (forall s d, wf d -> cond s d = true -> safe ok f0 (body s) (progress d) d) ->
  (forall s d, wf d -> cond s d = false -> Q s d) ->
  safe ok f0 (while cond body s) Q d.
Proof. intros Hw Hb HQ. apply (safe_while ok f0 (fun _ d => wf d)); auto. Qed.

(** The automation for a round, and for a decoder around its loop. *)
Ltac round_go := safe_go; (split; [assumption|lia]).
Ltac loop_by H := apply safe_wf_while; [assumption| |done]; intros; bool_to_prop; by apply H.

(** ** The decoders that check what they read *)

Section Leaf.
Context (ok : site -> fault -> Prop).

Lemma decode_arp_safe f0 d : wf d -> safe ok f0 decode_arp (fun _ _ => True) d.
Proof. intros Hw. pose proof (wf_facts d Hw). unfold decode_arp. consts. safe_go. Qed.

Lemma decode_isis_safe f0 d : wf d -> safe ok f0 decode_isis (fun _ _ => True) d.
Proof. intros Hw. pose proof (wf_facts d Hw). unfold decode_isis. consts. safe_go. Qed.

Lemma decode_ppp_pap_safe f0 d : wf d -> safe ok f0 decode_ppp_pap (fun _ _ => True) d.
Proof. intros Hw. pose proof (wf_facts d Hw). unfold decode_ppp_pap. consts. safe_go. Qed.

Lemma decode_ppp_chap_safe f0 d : wf d -> safe ok f0 decode_ppp_chap (fun _ _ => True) d.
Proof. intros Hw. pose proof (wf_facts d Hw). unfold decode_ppp_chap. consts. safe_go. Qed.

Lemma ip6cp_round_safe f0 s d : wf d -> 2 <= d_len d -> safe ok f0 (ip6cp_round s) (progress d) d.
Proof.
  intros Hw H. pose proof (wf_facts d Hw). unfold ip6cp_round, ppp_option, progress. round_go.
Qed.

Lemma decode_ppp_ip6cp_safe f0 d : wf d -> safe ok f0 decode_ppp_ip6cp (fun _ _ => True) d.
Proof.
  intros Hw. pose proof (wf_facts d Hw). unfold decode_ppp_ip6cp, ppp_cp_header. consts. safe_go.
  loop_by ip6cp_round_safe.
Qed.

Lemma ipcp_round_safe f0 s d : wf d -> 2 <= d_len d -> safe ok f0 (ipcp_round s) (progress d) d.
Proof.
  intros Hw H. pose proof (wf_facts d Hw). unfold ipcp_round, ppp_option, progress. round_go.
Qed.

Lemma decode_ppp_ipcp_safe f0 d : wf d -> safe ok f0 decode_ppp_ipcp (fun _ _ => True) d.
Proof.
  intros Hw. pose proof (wf_facts d Hw). unfold decode_ppp_ipcp, ppp_cp_header. consts. safe_go.
  loop_by ipcp_round_safe.
Qed.

Lemma lcp_round_safe f0 s d : wf d -> 2 <= d_len d -> safe ok f0 (lcp_round s) (progress d) d.
Proof.
  intros Hw H. pose proof (wf_facts d Hw). unfold lcp_round, ppp_option, progress. round_go.
Qed.

Lemma decode_ppp_lcp_safe f0 d : wf d -> safe ok f0 decode_ppp_lcp (fun _ _ => True) d.
Proof.
  intros Hw. pose proof (wf_facts d Hw). unfold decode_ppp_lcp, ppp_cp_header, lcp_body. consts. safe_go.
  loop_by lcp_round_safe.
Qed.

(** ** ICMP, ICMPv6, OSPF, BBL, TCP *)

Lemma decode_icmp_safe f0 d : wf d -> safe ok f0 decode_icmp (fun _ _ => True) d.
Proof. intros Hw. pose proof (wf_facts d Hw). unfold decode_icmp. consts. safe_go. Qed.

Lemma icmpv6_ra_round_safe f0 s d : wf d -> 8 <= d_len d -> safe ok f0 (icmpv6_ra_round s) (progress d) d.
Proof.
  intros Hw H. pose proof (wf_facts d Hw). unfold icmpv6_ra_round, icmpv6_option, progress. round_go.
Qed.

Lemma icmpv6_na_round_safe f0 s d : wf d -> 8 <= d_len d -> safe ok f0 (icmpv6_na_round s) (progress d) d.
Proof.
  intros Hw H. pose proof (wf_facts d Hw). unfold icmpv6_na_round, icmpv6_option, progress. round_go.
Qed.

Lemma decode_icmpv6_safe f0 d : wf d -> safe ok f0 decode_icmpv6 (fun _ _ => True) d.
Proof.
  intros Hw. pose proof (wf_facts d Hw). unfold decode_icmpv6. consts. safe_go.
  - loop_by icmpv6_ra_round_safe.
  - loop_by icmpv6_na_round_safe.
Qed.

Lemma decode_ospf_safe f0 d : wf d -> safe ok f0 decode_ospf (fun _ _ => True) d.
Proof. intros Hw. pose proof (wf_facts d Hw). unfold decode_ospf. consts. safe_go. Qed.

Lemma decode_bbl_safe f0 d : wf d -> safe ok f0 decode_bbl (fun _ _ => True) d.
Proof. intros Hw. pose proof (wf_facts d Hw). unfold decode_bbl. consts. safe_go. Qed.

Lemma decode_tcp_safe f0 d : wf d -> safe ok f0 decode_tcp (fun _ _ => True) d.
Proof.
  intros Hw. pose proof (wf_facts d Hw). unfold decode_tcp. consts. safe_go.
  apply safe_call; [assumption|by apply decode_bbl_safe|]. intros [e o] d2. intros. safe_go.
  destruct o; safe_go.
Qed.
(** ** DHCPv6 *)

(** The IA decoders write to the IA fields only. *)
Definition keeps (x y : dhcpv6_t) : Prop :=
  dhcpv6_access_line y = dhcpv6_access_line x /\ dhcpv6_type y = dhcpv6_type x.

Definition progress_keep (x : dhcpv6_t) (d : dec) : dhcpv6_t -> dec -> Prop :=
  fun y d' => (wf d' /\ keeps x y) /\ d_len d' < d_len d.

Ltac keep_go := safe_go; (split; [split; [assumption|]; unfold keeps in *; destruct_and?; by split|lia]).

Lemma ia_na_round_safe f0 x s d :
  wf d /\ keeps x s -> 4 <= d_len d -> safe ok f0 (ia_na_round s) (progress_keep x d) d.
Proof.
  intros [Hw Hk] H. pose proof (wf_facts d Hw).
  unfold ia_na_round, dhcpv6_option, progress_keep. destruct s. keep_go.
Qed.

Lemma ia_pd_round_safe f0 x s d :
  wf d /\ keeps x s -> 4 <= d_len d -> safe ok f0 (ia_pd_round s) (progress_keep x d) d.
Proof.
  intros [Hw Hk] H. pose proof (wf_facts d Hw).
  unfold ia_pd_round, dhcpv6_option, progress_keep. destruct s. keep_go.
Qed.

Ltac keep_loop x H :=
  apply (safe_while ok _ (fun s d => wf d /\ keeps x s));
  [split; [assumption|by destruct x]|by intros ? ? [? _]|intros; bool_to_prop; by apply H|
   intros ? ? [_ ?] _; safe_go; assumption].

Lemma decode_dhcpv6_ia_na_safe f0 x d :
  wf d -> safe ok f0 (decode_dhcpv6_ia_na x) (fun r _ => keeps x r.2) d.
Proof.
  intros Hw. pose proof (wf_facts d Hw). unfold decode_dhcpv6_ia_na. safe_go. keep_loop x ia_na_round_safe.
Qed.

Lemma decode_dhcpv6_ia_pd_safe f0 x d :
  wf d -> safe ok f0 (decode_dhcpv6_ia_pd x) (fun r _ => keeps x r.2) d.
Proof.
  intros Hw. pose proof (wf_facts d Hw). unfold decode_dhcpv6_ia_pd. safe_go. keep_loop x ia_pd_round_safe.
Qed.

(** A callee that gets a part of the packet from the cursor on. *)
Lemma wf_part d n : wf d -> 0 <= n <= d_len d -> wf (d {{ d_buf := d_buf d ; d_len := n }}).
Proof.
  destruct d. intros (Hl & Hb & Hs) Hn. cbn in *. split; [cbn; unfold constant; lia|]. by split.
Qed.

(** The strings of the access line are behind it. *)
Definition al_behind (d : dec) (x : dhcpv6_t) : Prop :=
  match dhcpv6_access_line x with
  | Some al => al_at al + 48 <= d_sp d
  | None => True
  end.

(** What the option loop keeps: the cursor, the access line below [sp], the
    relay message inside of the packet. *)
Definition relay_ok (d : dec) (r : option (list Z * Z)) : Prop :=
  match r with
  | Some (b, n) => (0 <= n <= Z.of_nat (length b) /\ n < 65536) /\ bytes b
  | None => True
  end.

Definition dhcpv6_inv (relay : bool) (st : dhcpv6_locals) (d : dec) : Prop :=
  wf d /\ al_behind d st.1 /\ relay_ok d st.2 /\
  (relay = true -> dhcpv6_is_relay (dhcpv6_type st.1) = false /\ st.2 = None).

Lemma dhcpv6_interface_id_safe f0 x b n d (Q : dhcpv6_t -> dec -> Prop) :
  wf d -> 0 <= n <= d_len d -> al_behind d x ->
  (forall y d', wf d' -> d_len d' = d_len d -> d_sp d <= d_sp d' -> al_behind d' y ->
     dhcpv6_type y = dhcpv6_type x -> Q y d') ->
  safe ok f0 (dhcpv6_interface_id x b n) Q d.
Proof.
  intros Hw Hn Ha HQ. pose proof (wf_facts d Hw). unfold dhcpv6_interface_id. safe_go.
  destruct x. cbn in *. destruct dhcpv6_access_line as [al|] eqn:E; safe_go; try (apply HQ; auto; lia).
  apply safe_copy_string; [done|lia|lia|done|]. intros str d2 ? ? ?. safe_go.
  apply HQ; auto; try lia. unfold al_behind in *. destruct al. cbn in *. unfold constant. lia.
Qed.

Lemma dhcpv6_remote_id_safe f0 x n d (Q : dhcpv6_t -> dec -> Prop) :
  wf d -> 0 <= n <= d_len d -> al_behind d x ->
  (forall y d', wf d' -> d_len d' = d_len d -> d_sp d <= d_sp d' -> al_behind d' y ->
     dhcpv6_type y = dhcpv6_type x -> Q y d') ->
  safe ok f0 (dhcpv6_remote_id x n) Q d.
Proof.
  intros Hw Hn Ha HQ. pose proof (wf_facts d Hw). unfold dhcpv6_remote_id. safe_go.
  destruct x. cbn in *. destruct dhcpv6_access_line as [al|] eqn:E; safe_go; try (apply HQ; auto; lia).
  apply safe_copy_string; [done|lia|lia|done|]. intros str d2 ? ? ?. safe_go.
  apply HQ; auto; try lia. unfold al_behind in *. destruct al. cbn in *. unfold constant. lia.
Qed.

Lemma dhcpv6_inv_next relay x y r d d' :
  dhcpv6_inv relay (x, r) d -> wf d' -> d_sp d <= d_sp d' -> keeps x y -> dhcpv6_inv relay (y, r) d'.
Proof.
  intros (_ & Ha & Hr & Hrel) Hw Hsp [Hal Ht]. unfold dhcpv6_inv, al_behind, relay_ok in *. cbn [fst snd] in *.
  rewrite Hal, Ht. split; [done|]. split; [|by split].
  destruct (dhcpv6_access_line x); [lia|done].
Qed.

Lemma dhcpv6_switch_safe f0 relay o n st d :
  dhcpv6_inv relay st d -> 0 <= n <= d_len d ->
  safe ok f0 (dhcpv6_switch o n st) (fun st' d' => dhcpv6_inv relay st' d' /\ d_len d' = d_len d) d.
Proof.
  destruct st as [x r]. intros Hi Hn. pose proof Hi as (Hw & Ha & Hr & Hrel).
  pose proof (wf_facts d Hw). pose proof (wf_part d n Hw Hn) as Hpart.
  unfold dhcpv6_switch. safe_go;
    try (split; [eapply dhcpv6_inv_next; [exact Hi|assumption|lia|by destruct x]|lia]).
  - eapply (safe_call_on _ _ (keeps x)); [done|by apply decode_dhcpv6_ia_na_safe|].
    intros e [y|] d2 Hk ? ? ? ? ?; destruct e; cbn [succeed]; safe_go.
    split; [eapply dhcpv6_inv_next; [exact Hi|assumption|lia|done]|lia].
  - eapply (safe_call_on _ _ (keeps x)); [done|by apply decode_dhcpv6_ia_pd_safe|].
    intros e [y|] d2 Hk ? ? ? ? ?; destruct e; cbn [succeed]; safe_go.
    split; [eapply dhcpv6_inv_next; [exact Hi|assumption|lia|done]|lia].
  - apply dhcpv6_interface_id_safe; [done|done|exact Ha|]. intros y d2 ? ? ? ? Ht. safe_go.
    unfold dhcpv6_inv in *; cbn [fst snd] in *. rewrite Ht. by split_and!.
  - apply dhcpv6_remote_id_safe; [done|done|exact Ha|]. intros y d2 ? ? ? ? Ht. safe_go.
    unfold dhcpv6_inv in *; cbn [fst snd] in *. rewrite Ht. by split_and!.
  - split; [|done]. unfold dhcpv6_inv in *; cbn [fst snd] in *. split; [done|]. split; [done|]. split.
    + destruct Hw as (? & ? & _). cbn. split; [lia|done].
    + intros Hrl. destruct (Hrel Hrl). congruence.
Qed.

Lemma dhcpv6_round_safe f0 relay st d :
  dhcpv6_inv relay st d -> 4 <= d_len d ->
  safe ok f0 (dhcpv6_round st) (fun st' d' => dhcpv6_inv relay st' d' /\ d_len d' < d_len d) d.
Proof.
  intros Hi H. pose proof Hi as (Hw & Ha & Hr & Hrel). pose proof (wf_facts d Hw).
  unfold dhcpv6_round, dhcpv6_option. safe_go.
  eapply safe_mono; [|apply (dhcpv6_switch_safe _ relay);
    [destruct st; eapply dhcpv6_inv_next; [exact Hi|assumption|lia|done]|lia]].
  intros [y r] d2 [Hi2 ?]. pose proof Hi2 as (? & _). safe_go.
  split; [eapply dhcpv6_inv_next; [exact Hi2|assumption|lia|done]|lia].
Qed.

Lemma dhcpv6_loop_safe f0 relay st d (Q : dhcpv6_locals -> dec -> Prop) :
  dhcpv6_inv relay st d -> (forall st d, dhcpv6_inv relay st d -> Q st d) ->
  safe ok f0 (while (fun _ d => 4 <=? d_len d) dhcpv6_round st) Q d.
Proof.
  intros Hi HQ. apply (safe_while ok _ (dhcpv6_inv relay)); auto.
  - by intros ? ? (? & _).
  - intros. bool_to_prop. by apply dhcpv6_round_safe.
Qed.

Lemma decode_dhcpv6_body_safe f0 inner relay d :
  wf d ->
  (relay = false -> forall d, wf d -> safe ok F_dhcpv6 inner (fun _ _ => True) d) ->
  safe ok f0 (decode_dhcpv6_body inner relay) (fun _ _ => True) d.
Proof.
  intros Hw Hin. pose proof (wf_facts d Hw). unfold decode_dhcpv6_body. consts. safe_go.
  all: match goal with |- safe _ _ (while _ _ ?st) _ ?d => eapply (dhcpv6_loop_safe _ relay) end.
  all: try (unfold dhcpv6_inv, al_behind; cbn; unfold constant; split_and!; try done; try lia;
            intros ->; bool_to_prop; by split).
  all: intros [x [[b n]|]] d2 (Hw2 & _ & Hr2 & Hrel2); cbn [fst snd] in *; safe_go.
  all: destruct relay; [by destruct (Hrel2 eq_refl) as [_ [=]]|].
  all: apply (safe_call_on _ _ (fun _ => True)); [done| |
         intros e [y|] d3 ? ? ? ? ? ?; destruct e; cbn [succeed]; safe_go].
  all: apply Hin; [done|]; destruct d2, Hw2 as (? & ? & ?), Hr2 as [? ?]; cbn in *;
         split; [cbn; unfold constant; lia|]; by split.
Qed.

Lemma decode_dhcpv6_safe f0 d : wf d -> safe ok f0 decode_dhcpv6 (fun _ _ => True) d.
Proof.
  intros Hw. apply decode_dhcpv6_body_safe; [done|]. intros _ d2 Hw2.
  apply decode_dhcpv6_body_safe; [done|]. intros [=].
Qed.

End Leaf.

(** ** The decoders that trust lengths of the packet *)

(** The faults that can occur, by decoder. *)
Definition known_fault (s : site) (f : fault) : Prop :=
  match s, f with
  | F_lacp, (OobRead | Endless) => True
  | F_igmp, OobRead => True
  | F_ldp_hello, OobRead => True
  | F_pppoe_vendor, OobRead => True
  | F_dhcp_agent, (OobRead | OobWrite | Overlap) => True
  | _, _ => False
  end.

Ltac any_step :=
  lazymatch goal with
  | |- safe _ _ (ld8 _) _ _ => apply any_ld8; [exact I|solve [auto 12 using sp_ok_bytes]|intros ? ? ?]
  | |- safe _ _ (ld_be _ _) _ _ => apply any_ld_be; [exact I|solve [auto 12 using sp_ok_bytes]|intros ? ? ?]
  | |- safe _ _ (ld_le _ _) _ _ => apply any_ld_le; [exact I|intros ?]
  | |- safe _ _ (bump _) _ _ => apply any_bump; [safe_side|intros ? ? ? ? ? ?]
  | |- safe _ _ (set_len _) _ _ => apply any_set_len; [solve [auto 12]|intros ? ? ? ? ?]
  | |- safe _ _ (alloc _) _ _ => apply sure_alloc; [solve [auto 12]|lia|intros ? ? ? ?]
  | |- _ => safe_step
  end.
Ltac any_go := cbv beta iota zeta; repeat (any_step; cbv beta iota zeta); try exact I.

Definition vendor_inv (al : access_line) (d : dec) : Prop := sp_ok d /\ al_at al + 48 <= d_sp d.

Lemma vendor_round_safe al d :
  vendor_inv al d ->
  safe known_fault F_pppoe_vendor (vendor_round al)
    (fun al' d' => vendor_inv al' d' /\ (length (d_buf d') < length (d_buf d))%nat) d.
Proof.
  intros [Hs Ha]. pose proof (proj1 Hs). unfold vendor_round. destruct al. any_go.
  all: try match goal with |- safe _ _ (copy_string _ _) _ _ =>
    apply any_copy_string; [exact I|auto; fail|lia|lia|cbn in *; lia|intros ? ? ? Hbuf ?]; any_go;
    rewrite ?Hbuf in * end.
  all: split; [split; [auto; fail|cbn in *; unfold constant; lia]|lia].
Qed.

Lemma decode_pppoe_vendor_safe f0 x d :
  sp_ok d -> safe known_fault f0 (decode_pppoe_vendor x) (fun _ _ => True) d.
Proof.
  intros Hs. pose proof (proj1 Hs). unfold decode_pppoe_vendor. consts. any_go.
  apply (any_while _ _ vendor_inv).
  - split; [done|]. cbn. lia.
  - intros. by apply vendor_round_safe.
  - intros. any_go.
Qed.

Lemma agent_round_safe al d :
  bytes (d_buf d) ->
  safe known_fault F_dhcp_agent (agent_round al)
    (fun _ d' => bytes (d_buf d') /\ (length (d_buf d') < length (d_buf d))%nat) d.
Proof.
  intros Hb. unfold agent_round. any_go.
  all: try match goal with |- safe _ _ (copy_string _ _) _ _ =>
    apply wild_copy_string; [exact I|exact I|exact I|intros ? ? Hbuf]; any_go; rewrite ?Hbuf in * end.
  all: split; [auto; fail|lia].
Qed.

Lemma agent_loop_safe al d (Q : access_line -> dec -> Prop) :
  bytes (d_buf d) -> (forall al d, Q al d) ->
  safe known_fault F_dhcp_agent (while (fun _ d => 2 <? d_len d) agent_round al) Q d.
Proof.
  intros Hb HQ. apply (any_while _ _ (fun _ d => bytes (d_buf d))); auto.
  intros. by apply agent_round_safe.
Qed.

Lemma decode_dhcp_agent_safe f0 x d :
  bytes (d_buf d) -> safe known_fault f0 (decode_dhcp_agent x) (fun _ _ => True) d.
Proof.
  intros Hb. unfold decode_dhcp_agent. any_go. destruct (dhcp_access_line x); any_go.
  - apply agent_loop_safe; [done|]. intros. any_go.
  - apply any_alloc; [exact I|]. intros d' E. any_go.
    apply agent_loop_safe; [by rewrite E|]. intros. any_go.
Qed.

Lemma ldp_tlv_round_safe s d :
  sp_ok d ->
  safe known_fault F_ldp_hello (ldp_tlv_round s)
    (fun _ d' => sp_ok d' /\ (length (d_buf d') < length (d_buf d))%nat) d.
Proof.
  intros Hs. pose proof (proj1 Hs). unfold ldp_tlv_round. any_go. all: split; [auto; fail|lia].
Qed.

Lemma decode_ldp_hello_safe f0 d : wf d -> safe known_fault f0 decode_ldp_hello (fun _ _ => True) d.
Proof.
  intros Hw. pose proof (wf_facts d Hw). pose proof (wf_sp_ok d Hw).
  unfold decode_ldp_hello. consts. any_go.
  apply (any_while _ _ (fun _ d => sp_ok d)); [auto 12| |intros; any_go].
  intros. by apply ldp_tlv_round_safe.
Qed.

Lemma decode_igmp_safe f0 d : wf d -> safe known_fault f0 decode_igmp (fun _ _ => True) d.
Proof.
  intros Hw. pose proof (wf_facts d Hw). pose proof (wf_sp_ok d Hw).
  unfold decode_igmp. consts. any_go.
Qed.

Lemma lacp_round_safe s d :
  sp_ok d -> safe known_fault F_lacp (lacp_round s) (fun _ d' => sp_ok d') d.
Proof. intros Hs. unfold lacp_round, lacp_tlv. any_go; auto 12. Qed.

Lemma decode_lacp_safe f0 d : wf d -> safe known_fault f0 decode_lacp (fun _ _ => True) d.
Proof.
  intros Hw. pose proof (wf_facts d Hw). pose proof (wf_sp_ok d Hw).
  unfold decode_lacp. consts. any_go.
  all: apply (wild_while _ _ (fun _ d => sp_ok d)); [exact I|auto 12| |intros; any_go].
  all: intros; by apply lacp_round_safe.
Qed.

(** ** DHCP and PPPoE discovery *)

Lemma dhcp_switch_safe o n x d :
  wf d -> 0 <= n <= d_len d ->
  safe known_fault F_dhcp (dhcp_switch o n x) (fun r d' => wf d' /\ 0 <= r.2 <= d_len d' /\ d_len d' = d_len d) d.
Proof.
  intros Hw Hn. pose proof (wf_facts d Hw). pose proof (wf_part d n Hw Hn) as (_ & Hp & _).
  unfold dhcp_switch. safe_go; try (split_and!; try assumption; cbn [snd]; lia).
  - pose proof (u8_range (d_len d)). pose proof (u8_le (d_len d)). split_and!; try assumption; cbn [snd]; lia.
  - apply (safe_call_on _ _ (fun _ => True)); [done|by apply decode_dhcp_agent_safe|].
    intros e [y|] d2 ? ? ? ? ? ?; destruct e; cbn [succeed]; safe_go. split_and!; try assumption; cbn [snd]; lia.
Qed.

Lemma dhcp_round_safe x d :
  wf d -> 2 <= d_len d -> safe known_fault F_dhcp (dhcp_round x) (progress d) d.
Proof.
  intros Hw H. pose proof (wf_facts d Hw). unfold dhcp_round, progress. safe_go; [split; [assumption|lia]|].
  eapply safe_mono; [|apply dhcp_switch_safe; [assumption|lia]].
  intros [y n] d2 (? & ? & ?). cbn [snd] in *. round_go.
Qed.

Lemma decode_dhcp_safe f0 d : wf d -> safe known_fault f0 decode_dhcp (fun _ _ => True) d.
Proof.
  intros Hw. pose proof (wf_facts d Hw). unfold decode_dhcp. consts. safe_go. loop_by dhcp_round_safe.
Qed.

Lemma pppoe_tag_round_safe x d :
  wf d -> 4 <= d_len d -> safe known_fault F_pppoe_discovery (pppoe_tag_round x) (progress d) d.
Proof.
  intros Hw H. pose proof (wf_facts d Hw). unfold pppoe_tag_round, progress.
  safe_go; try (split; [assumption|lia]).
  apply (safe_call_on _ _ (fun _ => True)); [assumption| |].
  - apply decode_pppoe_vendor_safe, wf_sp_ok, wf_part; [assumption|lia].
  - intros e [y|] d2 ? ? ? ? ? ?; destruct e; round_go.
Qed.

Lemma decode_pppoe_discovery_safe f0 d :
  wf d -> safe known_fault f0 decode_pppoe_discovery (fun _ _ => True) d.
Proof.
  intros Hw. pose proof (wf_facts d Hw). unfold decode_pppoe_discovery. consts. safe_go.
  loop_by pppoe_tag_round_safe.
Qed.

(** ** The decoders of nested headers *)

(** A UDP decoder that copes with packets of up to [n] bytes. *)
Definition udp_ok (n : Z) (u : dm (protocol_error * udp_t)) : Prop :=
  forall f0 d, wf d -> d_len d <= n -> safe known_fault f0 u (fun _ _ => True) d.

Lemma safe_sub f0 {A} (f : A -> hdr) old (m : dm (protocol_error * A)) (Q : _ -> dec -> Prop) d :
  wf d -> safe known_fault f0 m (fun _ _ => True) d ->
  (forall r d', wf d' -> d_len d' = d_len d -> d_sp d' = d_sp d -> d_sp_len d' = d_sp_len d -> Q r d') ->
  safe known_fault f0 (sub f old m) Q d.
Proof.
  intros Hw Hm HQ. unfold sub. apply safe_bind, safe_call; [done|done|].
  intros [e o] d' ? ? ? ?. safe_go. by apply HQ.
Qed.

Create HintDb bbl_safe.
#[local] Hint Resolve decode_arp_safe decode_isis_safe decode_ppp_pap_safe decode_ppp_chap_safe
  decode_ppp_ip6cp_safe decode_ppp_ipcp_safe decode_ppp_lcp_safe decode_icmp_safe decode_icmpv6_safe
  decode_ospf_safe decode_bbl_safe decode_tcp_safe decode_dhcpv6_safe decode_ldp_hello_safe
  decode_igmp_safe decode_lacp_safe decode_dhcp_safe decode_pppoe_discovery_safe : bbl_safe.

(** [nest_go] continues over calls of sub-decoders. *)
Ltac nest_go :=
  safe_go;
  repeat (match goal with
          | |- safe _ _ (sub _ _ _) _ _ =>
              apply safe_sub; [assumption|auto with bbl_safe|intros [? ?] ? ? ? ? ?]
          end; safe_go).

Lemma decode_ipv6_with_safe f0 u d :
  wf d -> udp_ok (d_len d) u -> safe known_fault f0 (decode_ipv6_with u) (fun _ _ => True) d.
Proof.
  intros Hw Hu. pose proof (wf_facts d Hw). unfold decode_ipv6_with. consts. nest_go.
  apply Hu; [assumption|lia].
Qed.

Lemma decode_ipv4_with_safe f0 u d :
  wf d -> udp_ok (d_len d) u -> safe known_fault f0 (decode_ipv4_with u) (fun _ _ => True) d.
Proof.
  intros Hw Hu. pose proof (wf_facts d Hw). unfold decode_ipv4_with.
  assert (Hihl : forall v, 0 <= v < 256 -> 0 <= Z.land v 15 * 4 <= 60).
  { intros v Hv. change 15 with (Z.ones 4). rewrite Z.land_ones by lia.
    pose proof (Z.mod_pos_bound v (2 ^ 4) ltac:(lia)). lia. }
  consts. nest_go; try (apply Hu; [assumption|]).
  all: try match goal with H : 0 <= ?v < 256 |- context [Z.land ?v 15] => pose proof (Hihl v H) end.
  all: range_facts; lia.
Qed.

Lemma udp_ok_le n m u : m <= n -> udp_ok n u -> udp_ok m u.
Proof. intros Hle Hu f0 d Hw Hd. apply Hu; [done|lia]. Qed.

Lemma ppp_payload_safe f0 u p old unk d (Q : _ -> dec -> Prop) :
  wf d -> udp_ok (d_len d) u -> (forall r d', wf d' -> Q r d') ->
  safe known_fault f0 (ppp_payload u p old unk) Q d.
Proof.
  intros Hw Hu HQ. unfold ppp_payload. nest_go; auto.
  - by apply decode_ipv4_with_safe.
  - by apply decode_ipv6_with_safe.
Qed.

Lemma l2tp_header_safe f0 d :
  wf d -> 8 <= d_len d -> safe known_fault f0 l2tp_header (fun _ d' => wf d' /\ d_len d' <= d_len d) d.
Proof.
  intros Hw H. pose proof (wf_facts d Hw). unfold l2tp_header. safe_go.
  all: split; [assumption|lia].
Qed.

Lemma decode_l2tp_with_safe f0 u d :
  wf d -> udp_ok (d_len d) u -> safe known_fault f0 (decode_l2tp_with u) (fun _ _ => True) d.
Proof.
  intros Hw Hu. pose proof (wf_facts d Hw). unfold decode_l2tp_with. consts. safe_go.
  eapply safe_mono; [|apply l2tp_header_safe; [assumption|lia]]. intros l d2 [Hw2 ?]. nest_go.
  apply ppp_payload_safe; [assumption|eapply udp_ok_le; [|exact Hu]; lia|]. intros [? ?] ? ?. safe_go.
Qed.

Lemma decode_pppoe_session_with_safe f0 u d :
  wf d -> udp_ok (d_len d) u -> safe known_fault f0 (decode_pppoe_session_with u) (fun _ _ => True) d.
Proof.
  intros Hw Hu. pose proof (wf_facts d Hw). unfold decode_pppoe_session_with. consts. safe_go.
  apply ppp_payload_safe; [assumption|eapply udp_ok_le; [|exact Hu]; lia|]. intros [? ?] ? ?. safe_go.
Qed.

Lemma eth_vlans_safe f0 t d :
  wf d -> safe known_fault f0 (eth_vlans t) (fun _ d' => wf d' /\ d_len d' <= d_len d) d.
Proof.
  intros Hw. pose proof (wf_facts d Hw). unfold eth_vlans. safe_go; (split; [assumption|lia]).
Qed.

Definition mpls_inv (n : Z) (st : list bbl_mpls * bool) (d : dec) : Prop :=
  wf d /\ d_len d <= n /\ (st.2 = false -> 1 <= d_len d).

Lemma eth_mpls_stack_safe f0 t d :
  wf d -> safe known_fault f0 (eth_mpls_stack t) (fun _ d' => wf d' /\ d_len d' <= d_len d) d.
Proof.
  intros Hw. pose proof (wf_facts d Hw). unfold eth_mpls_stack. consts. safe_go; [|split; [assumption|lia]].
  apply (safe_while _ _ (mpls_inv (d_len d))).
  - split_and!; [assumption|lia|by intros [=]].
  - by intros ? ? (? & _).
  - intros st d2 (Hw2 & ? & _) _. pose proof (wf_facts d2 Hw2). unfold mpls_round, mpls_inv. consts. safe_go.
    all: split_and!; cbn [snd]; try assumption; lia.
  - intros [labels more] d2 (Hw2 & ? & Hm) Hc. cbn [snd] in *. specialize (Hm Hc). safe_go.
    all: split; [assumption|lia].
Qed.

Lemma eth_802_3_safe f0 t d :
  wf d -> 0 <= t -> safe known_fault f0 (eth_802_3 t) (fun _ d' => wf d') d.
Proof. intros Hw Ht. pose proof (wf_facts d Hw). unfold eth_802_3. consts. nest_go; assumption. Qed.

Lemma be16toh_nonneg x : 0 <= be16toh x.
Proof. unfold be16toh. apply (be_combine_bound (le_split 2 x)). auto with bbl. Qed.

Lemma decode_ethernet_with_safe f0 u d :
  wf d -> udp_ok (d_len d) u -> safe known_fault f0 (decode_ethernet_with u) (fun _ _ => True) d.
Proof.
  intros Hw Hu. pose proof (wf_facts d Hw). unfold decode_ethernet_with. consts. safe_go.
  eapply safe_mono; [|apply eth_vlans_safe; assumption]. intros t1 d2 [Hw2 ?]. safe_go.
  eapply safe_mono; [|apply eth_mpls_stack_safe; assumption]. intros t2 d3 [Hw3 ?]. nest_go.
  - apply decode_pppoe_session_with_safe; [assumption|eapply udp_ok_le; [|exact Hu]; lia].
  - apply decode_ipv4_with_safe; [assumption|eapply udp_ok_le; [|exact Hu]; lia].
  - apply decode_ipv6_with_safe; [assumption|eapply udp_ok_le; [|exact Hu]; lia].
  - eapply safe_mono; [|apply eth_802_3_safe; [assumption|apply be16toh_nonneg]].
    intros [? ?] ? ?. safe_go.
Qed.

Lemma decode_qmx_li_with_safe f0 u d :
  wf d -> udp_ok (d_len d) u -> safe known_fault f0 (decode_qmx_li_with u) (fun _ _ => True) d.
Proof.
  intros Hw Hu. pose proof (wf_facts d Hw). unfold decode_qmx_li_with. consts. safe_go.
  apply safe_call; [assumption|apply decode_ethernet_with_safe; [assumption|eapply udp_ok_le; [|exact Hu]; lia]|].
  intros [? ?] ? ? ? ? ?. safe_go.
Qed.

Lemma decode_udp_body_safe f0 u d :
  wf d -> udp_ok (d_len d - 8) u -> safe known_fault f0 (decode_udp_body u) (fun _ _ => True) d.
Proof.
  intros Hw Hu. pose proof (wf_facts d Hw). unfold decode_udp_body. consts. safe_go.
  unfold udp_switch. nest_go.
  all: try (apply decode_qmx_li_with_safe; [assumption|eapply udp_ok_le; [|exact Hu]; lia]).
  all: apply decode_l2tp_with_safe; [assumption|eapply udp_ok_le; [|exact Hu]; lia].
Qed.

Lemma decode_udp_ok depth : udp_ok (Z.of_nat depth - 1) (decode_udp depth).
Proof.
  induction depth as [|n IH]; intros f0 d Hw Hd; pose proof (wf_facts d Hw); [lia|].
  apply decode_udp_body_safe; [done|]. eapply udp_ok_le; [|exact IH]. lia.
Qed.

(** C9. Memory safety and termination of the receive path.  On any packet of
    [len] bytes, with any scratchpad, [decode_ethernet] terminates and reads and
    writes inside of the packet and of the scratchpad, with the exception of the
    five decoders that take a length from the packet without checking it:
    [decode_lacp] (reads behind the packet, endless loop), [decode_igmp],
    [decode_ldp_hello], [decode_pppoe_vendor] (reads behind the packet) and
    [decode_dhcp_agent] (reads, writes and overwrites a live structure). *)
Theorem decode_ethernet_memory_safe pkt len sp_len :
  bytes pkt -> len = Z.of_nat (length pkt) -> len < 65536 -> 0 <= sp_len < 65536 ->
  match decode_ethernet pkt len sp_len with
  | Ok _ _ | Err _ _ => True
  | Fault (Some s) f => known_fault s f
  | Fault None _ => False
  end.
Proof.
  intros Hb -> Hl Hs. set (d := mk_dec pkt (Z.of_nat (length pkt)) 0 sp_len sp_len eth0).
  assert (Hw : wf d) by (split; cbn; [lia|]; split; [done|lia]).
  assert (Hu : udp_ok (d_len d) (decode_udp (S (Z.to_nat (d_len d)))))
    by (eapply udp_ok_le; [|apply decode_udp_ok]; cbn [d_len d]; lia).
  pose proof (decode_ethernet_with_safe F_ethernet _ d Hw Hu) as H.
  unfold decode_ethernet, with_depth. fold d. unfold safe in H.
  by destruct (decode_ethernet_with _ d) as [? ?|? ?|[s|] f].
Qed.

(** The witness: an ARP request. *)
Definition arp_request : list Z :=
  [255;255;255;255;255;255; 2;0;0;0;0;1; 8;6; 0;1;8;0;6;4;0;1;
   2;0;0;0;0;1; 10;0;0;1; 0;0;0;0;0;0; 10;0;0;2].

Lemma decode_ethernet_memory_safe_witness :
  match decode_ethernet arp_request 42 4096 with
  | Ok r _ => r.1 = PROTOCOL_SUCCESS
  | _ => False
  end /\
  match decode_ethernet arp_request 42 4096 with
  | Ok _ _ | Err _ _ => True
  | Fault (Some s) f => known_fault s f
  | Fault None _ => False
  end.
Proof.
  split; [vm_compute; reflexivity|].
  apply (decode_ethernet_memory_safe arp_request 42 4096); [|reflexivity|lia|lia].
  repeat constructor; lia.
Defined.

(** ** Each of the exceptions occurs *)

(** A slow-protocols frame with the given LACP TLVs. *)
Definition lacp_frame (tlvs : list Z) : list Z :=
  [1;128;194;0;0;2; 2;0;0;0;0;1; 136;9; 1; 1] ++ tlvs ++ replicate (108 - length tlvs) 9.

(** An LACP frame whose TLV terminator carries a length makes
    [decode_lacp] read behind the packet: the terminator sets [len] to 0, the
    length of the terminator is then subtracted from it and wraps around. *)
Theorem lacp_terminator_reads_behind_packet :
  decode_ethernet (lacp_frame [0; 108]) 124 4096 = Fault (Some F_lacp) OobRead.
Proof. vm_compute. reflexivity. Qed.

(** C34. An LACP TLV of length 0 whose type is none of terminator, actor and partner
    information is never left: for any number of rounds the loop is still running. *)
Theorem lacp_zero_tlv_diverges t rest d fuel lacp :
  t <> LACP_TLV_TERMINATOR -> t <> LACP_TLV_ACTOR_INFORMATION -> t <> LACP_TLV_PARTNER_INFORMATION ->
  0 <= t < 256 -> d_buf d = t :: 0 :: rest -> 2 <= d_len d < 65536 ->
  loop fuel (fun _ d => 2 <=? d_len d) lacp_round lacp d = Fault None Endless.
Proof.
  intros H0 H1 H2 Ht Hbuf Hl.
  assert (E : lacp_round lacp d = Ok lacp d).
  { destruct d as [buf l sp spl spe e]. cbn [d_buf d_len] in *. subst buf.
    unfold lacp_round, ld8, ld, len, get, mbind, dm_bind, mret, dm_ret.
    cbn [d_buf d_len length Nat.add Nat.leb take drop le_combine].
    rewrite ?take_0. cbn [le_combine]. change (0 + 256 * 0) with 0. replace (t + 256 * 0) with t by lia.
    replace (l <? 0) with false by lia.
    unfold lacp_tlv, fail_if, mret, dm_ret.
    replace (t =? LACP_TLV_TERMINATOR) with false by lia.
    replace (t =? LACP_TLV_ACTOR_INFORMATION) with false by lia.
    replace (t =? LACP_TLV_PARTNER_INFORMATION) with false by lia.
    rewrite bump_0; [done|cbn [d_len]; lia]. }
  induction fuel as [|fuel IH]; [done|]. cbn [loop].
  replace (2 <=? d_len d) with true by lia. unfold mbind at 1, dm_bind at 1. by rewrite E.
Qed.

(** The witness: the loop on a TLV of type 9. *)
Lemma lacp_zero_tlv_diverges_witness :
  loop 1000 (fun _ d => 2 <=? d_len d) lacp_round lacp0 (mk_dec [9; 0; 1] 3 48 100 200 eth0)
  = Fault None Endless.
Proof.
  apply (lacp_zero_tlv_diverges 9 [1]); try reflexivity; try (cbn; lia);
    unfold LACP_TLV_TERMINATOR, LACP_TLV_ACTOR_INFORMATION, LACP_TLV_PARTNER_INFORMATION; lia.
Defined.

(** Frames for the other exceptions. *)
Definition eth_frame (type : Z) (body : list Z) : list Z :=
  [2;0;0;0;0;2; 2;0;0;0;0;1] ++ be_split 2 type ++ body.
Definition ipv4_packet (proto : Z) (body : list Z) : list Z :=
  [69;0] ++ be_split 2 (20 + Z.of_nat (length body)) ++ [0;0;0;0;64] ++ [proto;0;0;10;0;0;1;10;0;0;2] ++ body.
Definition udp_datagram (src dst : Z) (body : list Z) : list Z :=
  be_split 2 src ++ be_split 2 dst ++ be_split 2 (8 + Z.of_nat (length body)) ++ [0;0] ++ body.
Definition receive (pkt : list Z) : outcome (protocol_error * ethernet) :=
  decode_ethernet pkt (Z.of_nat (length pkt)) SCRATCHPAD_LEN.

Definition igmp_query_12 : list Z :=
  eth_frame ETH_TYPE_IPV4 (ipv4_packet PROTOCOL_IPV4_IGMP [17;0;0;0; 239;1;1;1; 2;0; 0;1]).
Definition ldp_pdu_len_0 : list Z :=
  eth_frame ETH_TYPE_IPV4 (ipv4_packet PROTOCOL_IPV4_UDP
    (udp_datagram LDP_PORT LDP_PORT [0;1; 0;0; 10;0;0;1; 0;0])).
Definition pppoe_vendor_long_tlv : list Z :=
  eth_frame ETH_TYPE_PPPOE_DISCOVERY ([17;9;0;0; 0;12] ++ [1;5;0;8] ++ be_split 4 3561 ++ [1;200;65;65]).
Definition dhcp_with (options : list Z) : list Z :=
  eth_frame ETH_TYPE_IPV4 (ipv4_packet PROTOCOL_IPV4_UDP
    (udp_datagram DHCP_UDP_SERVER DHCP_UDP_CLIENT (replicate 236 0 ++ [99;130;83;99] ++ options))).

(** The remaining exceptions of the safety theorem are real: a 12-byte
    IGMPv3 query that announces a source, an LDP hello whose PDU length is below
    6, a PPPoE vendor tag with a TLV longer than the tag and a DHCP agent option
    with such a TLV make the receive path read behind the packet, and a second
    DHCP agent option overwrites the access line structure of the first. *)
Theorem unchecked_lengths_fault :
  receive igmp_query_12 = Fault (Some F_igmp) OobRead /\
  receive ldp_pdu_len_0 = Fault (Some F_ldp_hello) OobRead /\
  receive pppoe_vendor_long_tlv = Fault (Some F_pppoe_vendor) OobRead /\
  receive (dhcp_with [82;4; 1;200;65;65]) = Fault (Some F_dhcp_agent) OobRead /\
  receive (dhcp_with [82;3;1;1;65; 82;3;2;1;66; 255;0]) = Fault (Some F_dhcp_agent) Overlap.
Proof. split_and!; vm_compute; reflexivity. Qed.
