(* ===== verification/DecodeQinq.v ===== *)
(** A consequence of comparing a raw ethertype with a host-order constant: the
    decoder never sets the QinQ flag. *)
From S2P Require Import Prelude.
From S2P Require Import Const.
From S2P Require Import ProtoTypes.
From S2P Require Import Dec.
From S2P Require Import DecodePpp.
From S2P Require Import DecodeNet.
From S2P Require Import DecodeEth.
From S2P Require Import DecodeSafe.

(** [keeps_qinq m]: [m] does not set [eth->qinq] on a header where it is not set. *)
Definition keeps_qinq {A} (m : dm A) : Prop :=
  forall d, eth_qinq (d_eth d) = false ->
  match m d with
  | Ok _ d' | Err _ d' => eth_qinq (d_eth d') = false
  | Fault _ _ => True
  end.

Lemma kq_ret {A} (a : A) : keeps_qinq (mret a).
Proof. by intros d Hd. Qed.
Lemma kq_publish {A} e (a : A) : keeps_qinq (publish e a).
Proof. by intros d Hd. Qed.
Lemma kq_fail {A} e : keeps_qinq (@fail A e).
Proof. by intros d Hd. Qed.
Lemma kq_fail_if b e : keeps_qinq (fail_if b e).
Proof. by destruct b; intros d Hd. Qed.
Lemma kq_get {A} (f : dec -> A) : keeps_qinq (get f).
Proof. by intros d Hd. Qed.
Lemma kq_ld o n : keeps_qinq (ld o n).
Proof. intros d Hd. unfold ld. by destruct (_ <=? _)%nat. Qed.
Lemma kq_bump n : keeps_qinq (bump n).
Proof. by intros [] Hd. Qed.
Lemma kq_set_len n : keeps_qinq (set_len n).
Proof. by intros [] Hd. Qed.
Lemma kq_alloc n : keeps_qinq (alloc n).
Proof. intros [] Hd. unfold alloc. by case_if. Qed.
Lemma kq_copy n live : keeps_qinq (copy_string n live).
Proof. intros [] Hd. unfold copy_string. by repeat case_if. Qed.
Lemma kq_bind {A B} (m : dm A) (k : A -> dm B) :
  keeps_qinq m -> (forall a, keeps_qinq (k a)) -> keeps_qinq (m ≫= k).
Proof.
  intros Hm Hk d Hd. unfold mbind, dm_bind. specialize (Hm d Hd).
  destruct (m d); [by apply Hk|done|done].
Qed.
Lemma kq_bind_eth {B} (k : ethernet -> dm B) :
  (forall eth, eth_qinq eth = false -> keeps_qinq (k eth)) -> keeps_qinq (get d_eth ≫= k).
Proof. intros Hk d Hd. by apply (Hk (d_eth d)). Qed.
Lemma kq_on_eth f : (forall eth, eth_qinq eth = false -> eth_qinq (f eth) = false) -> keeps_qinq (on_eth f).
Proof. intros Hf [] Hd. by apply Hf. Qed.
Lemma kq_call {A} (m : dm (protocol_error * A)) : keeps_qinq m -> keeps_qinq (call m).
Proof. intros Hm d Hd. specialize (Hm d Hd). unfold call. destruct d, (m _) as [[? ?] ?| |]; done. Qed.
Lemma kq_call_on {A} b n (m : dm (protocol_error * A)) : keeps_qinq m -> keeps_qinq (call_on b n m).
Proof.
  intros Hm d Hd. specialize (Hm (d {{ d_buf := b ; d_len := n }})). unfold call_on.
  destruct d, (m _) as [[? ?] ?| |]; try done; by apply Hm.
Qed.
Lemma kq_fn {A} s (m : dm A) : keeps_qinq m -> keeps_qinq (fn s m).
Proof. intros Hm d Hd. specialize (Hm d Hd). unfold fn. by destruct (m d) as [| |[]]. Qed.
Lemma kq_while {T} cond (body : T -> dm T) s : (forall s, keeps_qinq (body s)) -> keeps_qinq (while cond body s).
Proof.
  intros Hb d Hd. unfold while. generalize (S (length (d_buf d))). intros fuel. revert s d Hd.
  induction fuel as [|fuel IH]; intros s d Hd; [done|]. cbn [loop]. destruct (cond s d); [|done].
  apply (kq_bind (body s) (loop fuel cond body)); auto.
Qed.
Lemma kq_sub {A} (f : A -> hdr) old m : keeps_qinq m -> keeps_qinq (sub f old m).
Proof. intros Hm. apply kq_bind; [by apply kq_call|]. intros [e o]. apply kq_ret. Qed.

Lemma kq_learn_tos tos eth : eth_qinq eth = false -> eth_qinq (eth_learn_tos tos eth) = false.
Proof. destruct eth. unfold eth_learn_tos. by case_if. Qed.
Lemma kq_learn_ttl ttl eth : eth_qinq eth = false -> eth_qinq (eth_learn_ttl ttl eth) = false.
Proof. destruct eth. unfold eth_learn_ttl. by case_if. Qed.

(** [kq] decides by the shape of the code. *)
Ltac kq_step :=
  lazymatch goal with
  | |- keeps_qinq (get d_eth ≫= _) => apply kq_bind_eth; intros ? ?
  | |- keeps_qinq (_ ≫= _) => apply kq_bind; [|intros ?]
  | |- keeps_qinq (if ?b then _ else _) => destruct b eqn:?
  | |- keeps_qinq (match ?x with _ => _ end) => destruct x
  | |- keeps_qinq (let _ := _ in _) => cbv zeta
  | |- keeps_qinq (fn _ _) => apply kq_fn
  | |- keeps_qinq (while _ _ _) => apply kq_while; intros ?
  | |- keeps_qinq (sub _ _ _) => apply kq_sub
  | |- keeps_qinq (call _) => apply kq_call
  | |- keeps_qinq (call_on _ _ _) => apply kq_call_on
  | |- keeps_qinq (on_eth _) => apply kq_on_eth;
      first [apply kq_learn_tos | apply kq_learn_ttl | intros [] ?; cbn in *; try done]
  | |- keeps_qinq (mret _) => apply kq_ret
  | |- keeps_qinq (publish _ _) => apply kq_publish
  | |- keeps_qinq (fail _) => apply kq_fail
  | |- keeps_qinq (fail_if _ _) => apply kq_fail_if
  | |- keeps_qinq (ld8 _) => unfold ld8
  | |- keeps_qinq (ld_le _ _) => unfold ld_le
  | |- keeps_qinq (ld_be _ _) => unfold ld_be
  | |- keeps_qinq (ptr_at _) => unfold ptr_at
  | |- keeps_qinq (ld _ _) => apply kq_ld
  | |- keeps_qinq (bump _) => apply kq_bump
  | |- keeps_qinq (set_len _) => apply kq_set_len
  | |- keeps_qinq (alloc _) => apply kq_alloc
  | |- keeps_qinq (copy_string _ _) => apply kq_copy
  | |- keeps_qinq (get _) => apply kq_get
  | |- keeps_qinq (fun _ => Fault _ _) => by intros ? ?
  | |- keeps_qinq len => apply kq_get
  | |- keeps_qinq sp_len => apply kq_get
  | |- keeps_qinq cur => apply kq_get
  end.
Ltac kq := repeat (kq_step; cbv beta iota zeta).

Lemma kq_leaves :
  keeps_qinq decode_arp /\ keeps_qinq decode_isis /\ keeps_qinq decode_lacp /\ keeps_qinq decode_ppp_pap /\
  keeps_qinq decode_ppp_chap /\ keeps_qinq decode_ppp_ip6cp /\ keeps_qinq decode_ppp_ipcp /\
  keeps_qinq decode_ppp_lcp /\ keeps_qinq decode_pppoe_discovery.
Proof.
  unfold decode_arp, decode_isis, decode_lacp, lacp_round, lacp_tlv, decode_ppp_pap, decode_ppp_chap,
    decode_ppp_ip6cp, ip6cp_round, decode_ppp_ipcp, ipcp_round, decode_ppp_lcp, lcp_body, lcp_round,
    ppp_cp_header, ppp_option, decode_pppoe_discovery, pppoe_tag_round, decode_pppoe_vendor, vendor_round.
  split_and!; kq.
Qed.

Lemma kq_net :
  keeps_qinq decode_icmp /\ keeps_qinq decode_icmpv6 /\ keeps_qinq decode_igmp /\ keeps_qinq decode_dhcpv6 /\
  keeps_qinq decode_dhcp /\ keeps_qinq decode_bbl /\ keeps_qinq decode_ldp_hello /\ keeps_qinq decode_tcp /\
  keeps_qinq decode_ospf.
Proof.
  unfold decode_icmp, decode_icmpv6, icmpv6_ra_round, icmpv6_na_round, icmpv6_option, decode_igmp, decode_dhcpv6,
    decode_dhcpv6_relayed, decode_dhcpv6_body, dhcpv6_round, dhcpv6_switch, dhcpv6_option, dhcpv6_interface_id,
    dhcpv6_remote_id, decode_dhcpv6_ia_na, decode_dhcpv6_ia_pd, ia_na_round, ia_pd_round, dhcpv6_option,
    decode_dhcp, dhcp_round, dhcp_switch, decode_dhcp_agent, agent_round, decode_ldp_hello,
    ldp_tlv_round, decode_tcp, decode_bbl, decode_ospf, succeed.
  split_and!; kq.
Qed.

Section KeepsUdp.
Context (u : dm (protocol_error * udp_t)) (Hu : keeps_qinq u).

Ltac leaves := destruct kq_leaves as (? & ? & ? & ? & ? & ? & ? & ? & ?);
  destruct kq_net as (? & ? & ? & ? & ? & ? & ? & ? & ?).

Lemma kq_ipv6 : keeps_qinq (decode_ipv6_with u).
Proof. leaves. unfold decode_ipv6_with. kq; assumption. Qed.
Lemma kq_ipv4 : keeps_qinq (decode_ipv4_with u).
Proof. leaves. unfold decode_ipv4_with. kq; assumption. Qed.
Lemma kq_ppp p a b : keeps_qinq (ppp_payload u p a b).
Proof. leaves. unfold ppp_payload. kq; auto using kq_ipv4, kq_ipv6. Qed.
Lemma kq_l2tp : keeps_qinq (decode_l2tp_with u).
Proof. unfold decode_l2tp_with, l2tp_header. kq; apply kq_ppp. Qed.
Lemma kq_pppoe_session : keeps_qinq (decode_pppoe_session_with u).
Proof. unfold decode_pppoe_session_with. kq; apply kq_ppp. Qed.

(** The raw ethertype of a tag is never the host-order constant. *)
Lemma kq_vlans t : keeps_qinq (eth_vlans t).
Proof.
  unfold eth_vlans. kq; unfold is_vlan in *; bool_to_prop; subst; vm_compute in *; intuition discriminate.
Qed.

Lemma kq_ethernet : keeps_qinq (decode_ethernet_with u).
Proof.
  leaves. unfold decode_ethernet_with, eth_mpls_stack, mpls_round, eth_802_3.
  kq; auto using kq_vlans, kq_pppoe_session, kq_ipv4, kq_ipv6.
Qed.

Lemma kq_qmx_li : keeps_qinq (decode_qmx_li_with u).
Proof. unfold decode_qmx_li_with. kq. apply kq_ethernet. Qed.

Lemma kq_udp_body : keeps_qinq (decode_udp_body u).
Proof. leaves. unfold decode_udp_body, udp_switch. kq; auto using kq_l2tp, kq_qmx_li. Qed.
End KeepsUdp.

Lemma kq_udp depth : keeps_qinq (decode_udp depth).
Proof. induction depth; cbn [decode_udp]; [by intros ? ?|by apply kq_udp_body]. Qed.

(** The header [decode_ethernet] returns is the one its sub-decoders wrote to. *)
Definition returns_eth (m : dm (protocol_error * ethernet)) : Prop :=
  forall d r d', m d = Ok r d' -> r.2 = d_eth d'.

Lemma returns_eth_bind {A} (m : dm A) k : (forall a, returns_eth (k a)) -> returns_eth (m ≫= k).
Proof. intros Hk d r d' H. unfold mbind, dm_bind in H. destruct (m d); [by eapply Hk|done|done]. Qed.

Lemma returns_eth_tail e : returns_eth (eth ← get d_eth; publish e eth).
Proof. by intros d r d' [= <- <-]. Qed.

Lemma returns_eth_fn s m : returns_eth m -> returns_eth (fn s m).
Proof. intros Hm d r d' H. apply (Hm d). unfold fn in H. by destruct (m d) as [| |[]]. Qed.

Lemma decode_ethernet_with_returns u : returns_eth (decode_ethernet_with u).
Proof.
  unfold decode_ethernet_with. apply returns_eth_fn.
  repeat (cbv beta iota zeta; first
    [ apply returns_eth_tail
    | apply returns_eth_bind; intros ?
    | match goal with |- returns_eth (match ?p with _ => _ end) => destruct p end ]).
Qed.

(** The QinQ flag of a received frame is never set: [decode_ethernet]
    compares the ethertype in network byte order with the host-order constant
    0x88A8, so on the little-endian host 802.1ad tags are decoded like 802.1Q
    tags and frames sent back as QinQ lose their ethertype. *)
Theorem decode_ethernet_never_qinq pkt len sp_len e eth d :
  decode_ethernet pkt len sp_len = Ok (e, eth) d -> eth_qinq eth = false.
Proof.
  intros H. unfold decode_ethernet, with_depth in H.
  set (u := decode_udp _) in H. pose proof (decode_ethernet_with_returns u _ _ _ H) as E. cbn in E.
  pose proof (kq_ethernet u (kq_udp _) (mk_dec pkt len 0 sp_len sp_len eth0) eq_refl) as K.
  rewrite H in K. by rewrite E.
Qed.

(** The witness: an ARP request behind an 802.1ad tag. *)
Lemma decode_ethernet_never_qinq_witness :
  exists e eth d,
    receive ([2;0;0;0;0;2; 2;0;0;0;0;1; 136;168; 0;7] ++ drop 12 arp_request) = Ok (e, eth) d /\
    e = PROTOCOL_SUCCESS /\ eth_vlan_outer eth = 7 /\ eth_qinq eth = false.
Proof.
  set (r := receive _).
  assert (H : exists e eth d, r = Ok (e, eth) d /\ e = PROTOCOL_SUCCESS /\ eth_vlan_outer eth = 7)
    by (vm_compute; eauto 10).
  destruct H as (e & eth & d & Hr & He & Hv). exists e, eth, d.
  split; [exact Hr|]. split; [exact He|]. split; [exact Hv|].
  exact (decode_ethernet_never_qinq _ _ _ e eth d Hr).
Defined.
