(* ===== verification/Enc.v ===== *)
(** The machine on which the packet encoders of bbl_protocols.c run.

    An encoder writes to a buffer through its own cursor [buf] and adds to the
    length [*len] it shares with its callers.  [wm] is the state monad of such
    code; a fault is a write behind the buffer, a read behind the source of a
    copy or a use of a pointer that is NULL or indeterminate.

    The second half executes encoders symbolically: [wst pre out room l0] is the
    state of an encoder that was entered with the cursor behind [pre] and [*len]
    equal to [l0] and has written [out] since.  [emits m bs a] is the
    specification of an encoder: from any such state with enough room, [m] leaves
    the bytes [bs] in the buffer, counts them and returns [a]. *)
From S2P Require Import Prelude.
From S2P Require Import ProtoTypes.

Record wr := mk_wr {
  w_mem : list Z;    (* the buffer *)
  w_pos : nat;       (* the cursor *)
  w_len : Z          (* *len *)
}.

Inductive wout (A : Type) :=
| WOk (a : A) (w : wr)
| WFault.
Arguments WOk {A}.
Arguments WFault {A}.

Definition wm (A : Type) : Type := wr -> wout A.

#[export] Instance wm_ret : MRet wm := fun A a w => WOk a w.
#[export] Instance wm_bind : MBind wm := fun A B k m w =>
  match m w with
  | WOk a w' => k a w'
  | WFault => WFault
  end.

(** ** Primitives *)

Definition wfault {A} : wm A := fun _ => WFault.

(** [memcpy] to the absolute position [p]. *)
Definition store_at (p : nat) (bs : list Z) : wm unit := fun w =>
  if (p + length bs <=? length (w_mem w))%nat
  then WOk tt (mk_wr (take p (w_mem w) ++ bs ++ drop (p + length bs) (w_mem w)) (w_pos w) (w_len w))
  else WFault.

(** To [buf + o]. *)
Definition store (o : nat) (bs : list Z) : wm unit := fun w => store_at (w_pos w + o) bs w.

(** The byte at [buf + o]. *)
Definition load8 (o : nat) : wm Z := fun w =>
  match w_mem w !! (w_pos w + o)%nat with
  | Some b => WOk b w
  | None => WFault
  end.

(** [BUMP_WRITE_BUFFER(buf, len, n)] *)
Definition wbump (n : Z) : wm unit := fun w =>
  WOk tt (mk_wr (w_mem w) (w_pos w + Z.to_nat n) (u16 (w_len w + n))).

Definition wpos : wm nat := fun w => WOk (w_pos w) w.
Definition wlen : wm Z := fun w => WOk (w_len w) w.

(** A store that is followed by the bump over it. *)
Definition put (bs : list Z) : wm unit := store 0 bs;; wbump (Z.of_nat (length bs)).
Definition put8 (v : Z) : wm unit := put [u8 v].
Definition put_be (n : nat) (v : Z) : wm unit := put (be_split n v).
Definition put_le (n : nat) (v : Z) : wm unit := put (le_split n v).

(** The first [n] bytes behind a pointer. *)
Definition source (p : ptr) (n : Z) : wm (list Z) :=
  match p with
  | Some s => if Z.of_nat (length s) <? n then wfault else mret (take (Z.to_nat n) s)
  | None => if n =? 0 then mret [] else wfault
  end.

(** [memcpy(buf, p, n); BUMP_WRITE_BUFFER(buf, len, n)] *)
Definition put_copy (p : ptr) (n : Z) : wm unit := bs ← source p n; put bs.

Definition use {A} (o : option A) : wm A :=
  match o with
  | Some a => mret a
  | None => wfault
  end.

Definition when (b : bool) (m : wm unit) : wm unit := if b then m else mret tt.

(** A call: the callee has a cursor of its own. *)
Definition wcall {A} (m : wm A) : wm A := fun w =>
  match m w with
  | WOk a w' => WOk a (mk_wr (w_mem w') (w_pos w) (w_len w'))
  | WFault => WFault
  end.

(** [strnlen(s, max)] *)
Fixpoint strnlen (s : list Z) (max : nat) : option Z :=
  match max with
  | O => Some 0
  | S max' =>
      match s with
      | [] => None
      | c :: s' => if c =? 0 then Some 0 else option_map Z.succ (strnlen s' max')
      end
  end.

Definition is_some {A} (o : option A) : bool := match o with Some _ => true | None => false end.

(** ** Symbolic execution *)

(** The buffer holds [out] behind [pre], and [room] behind it; the cursor is [pos]. *)
Definition wat (pos : nat) (pre out room : list Z) (l0 : Z) : wr :=
  mk_wr (pre ++ out ++ room) pos (u16 (l0 + Z.of_nat (length out))).

(** The cursor is behind [out]. *)
Definition behind (pre out : list Z) : nat := (length pre + length out)%nat.
Abbreviation wst pre out room l0 := (wat (behind pre out) pre out room l0).

(** [m] does not fault on [w] and ends as [Q] says. *)
Definition wp {A} (m : wm A) (Q : A -> wr -> Prop) (w : wr) : Prop :=
  match m w with
  | WOk a w' => Q a w'
  | WFault => False
  end.

Definition emits (m : wm protocol_error) (bs : list Z) (a : protocol_error) : Prop :=
  forall pre room l0, (length bs + 8 <= length room)%nat ->
  wp m (fun r w => r = a /\ exists pos room', w = wat pos pre bs room' l0 /\
                   length room' = (length room - length bs)%nat) (wst pre [] room l0).

Lemma wp_bind {A B} (m : wm A) (k : A -> wm B) Q w :
  wp m (fun a w' => wp (k a) Q w') w -> wp (m ≫= k) Q w.
Proof. unfold wp, mbind, wm_bind. by destruct (m w). Qed.

Lemma wp_eq {A} (m : wm A) (Q : A -> wr -> Prop) w a w' : m w = WOk a w' -> Q a w' -> wp m Q w.
Proof. unfold wp. by intros ->. Qed.

Lemma wst_bind {A B} (m : wm A) (k : A -> wm B) w a w' r :
  m w = WOk a w' -> k a w' = r -> (m ≫= k) w = r.
Proof. intros Hm Hk. unfold mbind, wm_bind. by rewrite Hm. Qed.

(** Writing over [old], which was emitted before. *)
Lemma run_patch pos pre a old b room l0 p f :
  p = (length pre + length a)%nat -> length old = length f ->
  store_at p f (wat pos pre (a ++ old ++ b) room l0) = WOk tt (wat pos pre (a ++ f ++ b) room l0).
Proof.
  intros -> Hl. unfold store_at, wat. cbn [w_mem w_pos w_len].
  destruct (_ <=? _)%nat eqn:E; [|apply Nat.leb_gt in E; rewrite !length_app in E; lia].
  do 2 f_equal; [|by rewrite !length_app, Hl].
  rewrite <-!app_assoc, take_app_add', take_app_length, <-app_assoc by done.
  replace (drop _ _) with (b ++ room); [done|]. symmetry.
  rewrite (app_assoc a), (app_assoc pre). apply drop_app_exact. rewrite !length_app. lia.
Qed.

Lemma run_store pre out room l0 o f :
  (o + length f <= length room)%nat ->
  store o f (wst pre out room l0) = WOk tt (wst pre out (take o room ++ f ++ drop (o + length f) room) l0).
Proof.
  intros Ho. unfold store, store_at, wat, behind. cbn [w_mem w_pos w_len].
  destruct (_ <=? _)%nat eqn:E; [|apply Nat.leb_gt in E; rewrite !length_app in E; lia]. do 2 f_equal.
  replace (length pre + length out + o)%nat with (length pre + (length out + o))%nat by lia.
  rewrite take_app_add', take_app_add', (drop_app_ge pre), (drop_app_ge out), <-!app_assoc by lia.
  do 5 f_equal. lia.
Qed.

Lemma run_load8 pre out room l0 o v :
  room !! o = Some v -> load8 o (wst pre out room l0) = WOk v (wst pre out room l0).
Proof.
  intros Hv. unfold load8, wat, behind. cbn [w_mem w_pos].
  rewrite app_assoc, lookup_app_r, length_app by (rewrite length_app; lia).
  replace (length pre + length out + o - (length pre + length out))%nat with o by lia. by rewrite Hv.
Qed.

Lemma run_bump pre out room l0 n :
  0 <= n <= Z.of_nat (length room) ->
  wbump n (wst pre out room l0) =
    WOk tt (wst pre (out ++ take (Z.to_nat n) room) (drop (Z.to_nat n) room) l0).
Proof.
  intros Hn. unfold wbump, wat, behind. cbn [w_mem w_pos w_len].
  rewrite <-(app_assoc out), take_drop, u16_add, length_app, length_take. f_equal. f_equal; [lia|].
  f_equal. lia.
Qed.

Lemma run_put pre out room l0 bs :
  (length bs <= length room)%nat ->
  put bs (wst pre out room l0) = WOk tt (wst pre (out ++ bs) (drop (length bs) room) l0).
Proof.
  intros Hl. unfold put. eapply wst_bind; [apply run_store; lia|].
  rewrite run_bump by (rewrite !length_app, length_take, length_drop; lia).
  by rewrite take_0, app_nil_l, Nat2Z.id, Nat.add_0_l, take_app_length, drop_app_length.
Qed.

Lemma run_pos pos pre out room l0 : wpos (wat pos pre out room l0) = WOk pos (wat pos pre out room l0).
Proof. done. Qed.
Lemma run_len pos pre out room l0 :
  wlen (wat pos pre out room l0) = WOk (u16 (l0 + Z.of_nat (length out))) (wat pos pre out room l0).
Proof. done. Qed.

Lemma run_source p n s w : p = Some s -> n <= Z.of_nat (length s) -> source p n w = WOk (take (Z.to_nat n) s) w.
Proof. intros -> Hn. unfold source. by replace (Z.of_nat (length s) <? n) with false by lia. Qed.

Lemma run_use {A} (o : option A) a w : o = Some a -> use o w = WOk a w.
Proof. by intros ->. Qed.

(** An encoder that was proved to emit its bytes, called at the cursor. *)
Lemma wp_call m bs a pre out room l0 (Q : protocol_error -> wr -> Prop) :
  emits m bs a -> (length bs + 8 <= length room)%nat ->
  (forall room', length room' = (length room - length bs)%nat ->
     Q a (wat (behind pre out) pre (out ++ bs) room' l0)) ->
  wp (wcall m) Q (wst pre out room l0).
Proof.
  intros Hm Hr HQ. specialize (Hm (pre ++ out) room (l0 + Z.of_nat (length out)) Hr).
  replace (wst (pre ++ out) [] room _) with (wst pre out room l0) in Hm
    by (unfold wat, behind; rewrite app_nil_l, <-app_assoc, length_app; cbn [length]; f_equal; [lia|f_equal; lia]).
  unfold wp, wcall in *. destruct (m _) as [r w|]; [|done]. destruct Hm as (-> & pos & room' & -> & Hl).
  replace (mk_wr _ _ _) with (wat (behind pre out) pre (out ++ bs) room' l0); [by apply HQ|].
  unfold wat. cbn [w_mem w_pos w_len]. rewrite <-!app_assoc, !length_app. do 2 f_equal. lia.
Qed.

Lemma run_put_copy p n s pre out room l0 :
  p = Some s -> 0 <= n <= Z.of_nat (length s) -> n <= Z.of_nat (length room) ->
  put_copy p n (wst pre out room l0) =
    WOk tt (wst pre (out ++ take (Z.to_nat n) s) (drop (Z.to_nat n) room) l0).
Proof.
  intros Hp Hn Hr. unfold put_copy. eapply wst_bind; [apply run_source; [exact Hp|lia]|].
  assert (Hl : length (take (Z.to_nat n) s) = Z.to_nat n) by (rewrite length_take; lia).
  rewrite run_put by (rewrite Hl; lia). by rewrite Hl.
Qed.

(** Patches of what was emitted, lengths as differences of the running length. *)
Lemma wp_patch pos pre out a old b room l0 p f (Q : unit -> wr -> Prop) :
  out = a ++ old ++ b -> p = (length pre + length a)%nat -> length old = length f ->
  Q tt (wat pos pre (a ++ f ++ b) room l0) ->
  wp (store_at p f) Q (wat pos pre out room l0).
Proof. intros -> Hp Hl HQ. eapply wp_eq; [by apply run_patch|done]. Qed.

Lemma len_diff l0 (a b : list Z) n :
  Z.of_nat (length b) = n -> n < 65536 ->
  u16 (u16 (l0 + Z.of_nat (length (a ++ b))) - u16 (l0 + Z.of_nat (length a))) = n.
Proof. intros Hn Hl. rewrite u16_sub, length_app. rewrite <-(u16_small n) by lia. f_equal. lia. Qed.

(** Lengths of what was written and of the room left. *)
Ltac wlen_side :=
  rewrite ?length_take, ?length_drop, ?length_app, ?length_drop, ?be_split_length, ?le_split_length,
    ?length_take, ?length_replicate in *;
  cbn [length] in *; lia.

Lemma run_ret {A} (a : A) w : wm_ret A a w = WOk a w.
Proof. done. Qed.

(** Straight-line encoder code: [enc_prim] runs one statement, [enc_run] a block
    and [enc_go] all statements that can be run. *)
Ltac enc_prim :=
  lazymatch goal with
  | |- put _ _ = _ => apply run_put; wlen_side
  | |- put8 _ _ = _ => apply run_put; wlen_side
  | |- put_be _ _ _ = _ => apply run_put; wlen_side
  | |- put_le _ _ _ = _ => apply run_put; wlen_side
  | |- wbump _ _ = _ => apply run_bump; wlen_side
  | |- wpos _ = _ => apply run_pos
  | |- wlen _ = _ => apply run_len
  | |- mret _ _ = _ => apply run_ret
  end.
Ltac enc_step :=
  lazymatch goal with
  | |- wp (_ ≫= _) _ _ => apply wp_bind
  | |- wp _ _ _ => eapply wp_eq; [enc_prim|]
  end.
Ltac enc_go := cbv zeta; repeat (cbv beta; enc_step).

(** The end of an encoder, with the bytes it wrote in the form of the specification. *)
Ltac in_range := first [lia | vm_compute; split; [discriminate | reflexivity]].
Ltac u8_go := repeat match goal with |- context [u8 ?x] => rewrite (u8_small x) by in_range end.
Ltac enc_done :=
  split; [reflexivity|]; do 2 eexists; split;
  [rewrite ?app_nil_l, <-?app_assoc; u8_go; reflexivity | wlen_side].
