(* ===== verification/EncodeApp.v ===== *)
(** The encoders of bbl_protocols.c for the protocols without further headers. *)
From S2P Require Import Prelude.
From S2P Require Import Const.
From S2P Require Import ProtoTypes.
From S2P Require Import Checksum.
From S2P Require Import Enc.

Definition nz (x : Z) : bool := negb (x =? 0).

(** A six-byte address. *)
Definition put_mac (p : ptr) : wm unit := put_copy p ETH_ADDR_LEN.

(** [memset(buf, 0, n)] or a copy, for a pointer that may be NULL. *)
Definition put_or_zero (p : ptr) (n : Z) : wm unit :=
  match p with
  | Some _ => put_copy p n
  | None => put (replicate (Z.to_nat n) 0)
  end.

(** [*(uint32_t* )buf = 0; *buf = v; BUMP_WRITE_BUFFER(buf, len, sizeof(uint32_t));] *)
Definition put_state (v : Z) : wm unit := store 0 [0;0;0;0];; store 0 [u8 v];; wbump 4.

Definition encode_lacp (lacp : bbl_lacp) : wm protocol_error :=
  put8 SLOW_PROTOCOLS_LACP;;
  put8 0x01;;
  put8 LACP_TLV_ACTOR_INFORMATION;;
  put8 20;;
  put_be 2 (lacp_actor_system_priority lacp);;
  put_mac (lacp_actor_system_id lacp);;
  put_be 2 (lacp_actor_key lacp);;
  put_be 2 (lacp_actor_port_priority lacp);;
  put_be 2 (lacp_actor_port_id lacp);;
  put_state (lacp_actor_state lacp);;
  put8 LACP_TLV_PARTNER_INFORMATION;;
  put8 20;;
  put_be 2 (lacp_partner_system_priority lacp);;
  put_mac (lacp_partner_system_id lacp);;
  put_be 2 (lacp_partner_key lacp);;
  put_be 2 (lacp_partner_port_priority lacp);;
  put_be 2 (lacp_partner_port_id lacp);;
  put_state (lacp_partner_state lacp);;
  put8 LACP_TLV_COLLECTOR_INFORMATION;;
  put8 16;;
  put (replicate 66 0);;
  mret PROTOCOL_SUCCESS.

(** ** DHCPv6 *)

(** A four-byte TLV with two-byte type and length. *)
Definition put_tlv16 (t v : Z) : wm unit := put_be 2 t;; put_be 2 4;; put_be 4 v.

(** The callee counts in a local [len]; the cursor stays with the caller. *)
Definition with_local_len (m : wm unit) : wm Z := fun w =>
  match m (mk_wr (w_mem w) (w_pos w) 0) with
  | WOk _ w' => WOk (w_len w') (mk_wr (w_mem w') (w_pos w) (w_len w))
  | WFault => WFault
  end.

Definition encode_dhcpv6_access_line (al : access_line) : wm Z :=
  option_len_at ← wpos;
  n ← with_local_len (
    put_be 2 DHCPV6_OPTION_VENDOR_OPTS;;
    wbump 2;;
    put_be 4 BROADBAND_FORUM;;
    when (nz (al_up al)) (put_tlv16 ACCESS_LINE_ACT_UP (al_up al));;
    when (nz (al_down al)) (put_tlv16 ACCESS_LINE_ACT_DOWN (al_down al));;
    when (nz (al_dsl_type al)) (put_tlv16 ACCESS_LINE_DSL_TYPE (al_dsl_type al)));
  if 8 <? n then store_at (option_len_at + 2) (be_split 2 (n - 4));; mret n
  else mret 0.

(** Option header and value. *)
Definition put_option16 (t : Z) (n : Z) (p : ptr) : wm unit :=
  put_be 2 t;; put_be 2 n;; put_copy p n.

Definition dhcpv6_header (dhcpv6 : dhcpv6_t) : wm unit :=
  if (dhcpv6_type dhcpv6 =? DHCPV6_MESSAGE_RELAY_FORW) || (dhcpv6_type dhcpv6 =? DHCPV6_MESSAGE_RELAY_REPL) then
    put8 (dhcpv6_type dhcpv6);;
    put8 (dhcpv6_hops dhcpv6);;
    put_or_zero (dhcpv6_link_address dhcpv6) IPV6_ADDR_LEN;;
    put_or_zero (dhcpv6_peer_address dhcpv6) IPV6_ADDR_LEN
  else
    store 0 (be_split 4 (dhcpv6_xid dhcpv6));;
    store 0 [u8 (dhcpv6_type dhcpv6)];;
    wbump 4;;
    put_be 2 DHCPV6_OPTION_ELAPSED_TIME;;
    put_be 2 2;;
    put_be 2 (dhcpv6_elapsed dhcpv6).

(** The times are copied in host byte order. *)
Definition dhcpv6_put_ia_na (dhcpv6 : dhcpv6_t) : wm unit :=
  if nz (dhcpv6_ia_na_option_len dhcpv6) then
    put_option16 DHCPV6_OPTION_IA_NA (dhcpv6_ia_na_option_len dhcpv6) (dhcpv6_ia_na_option dhcpv6)
  else if nz (dhcpv6_ia_na_iaid dhcpv6) then
    put_be 2 DHCPV6_OPTION_IA_NA;;
    put_be 2 (if is_some (dhcpv6_ia_na_address dhcpv6) then 40 else 12);;
    put_le 4 (dhcpv6_ia_na_iaid dhcpv6);;
    put_le 4 (dhcpv6_ia_na_t1 dhcpv6);;
    put_le 4 (dhcpv6_ia_na_t2 dhcpv6);;
    when (is_some (dhcpv6_ia_na_address dhcpv6)) (
      put_be 2 DHCPV6_OPTION_IAADDR;;
      put_be 2 24;;
      put_copy (dhcpv6_ia_na_address dhcpv6) IPV6_ADDR_LEN;;
      put_le 4 (dhcpv6_ia_na_preferred_lifetime dhcpv6);;
      put_le 4 (dhcpv6_ia_na_valid_lifetime dhcpv6))
  else mret tt.

Definition dhcpv6_put_ia_pd (dhcpv6 : dhcpv6_t) : wm unit :=
  if nz (dhcpv6_ia_pd_option_len dhcpv6) then
    put_option16 DHCPV6_OPTION_IA_PD (dhcpv6_ia_pd_option_len dhcpv6) (dhcpv6_ia_pd_option dhcpv6)
  else if nz (dhcpv6_ia_pd_iaid dhcpv6) then
    put_be 2 DHCPV6_OPTION_IA_PD;;
    put_be 2 41;;
    put_le 4 (dhcpv6_ia_pd_iaid dhcpv6);;
    put_le 4 (dhcpv6_ia_pd_t1 dhcpv6);;
    put_le 4 (dhcpv6_ia_pd_t2 dhcpv6);;
    put_be 2 DHCPV6_OPTION_IAPREFIX;;
    put_be 2 25;;
    put_le 4 (dhcpv6_ia_pd_preferred_lifetime dhcpv6);;
    put_le 4 (dhcpv6_ia_pd_valid_lifetime dhcpv6);;
    put_or_zero (dhcpv6_ia_pd_prefix dhcpv6) sizeof_ipv6_prefix
  else mret tt.

(** [strnlen] of a string of the access line. *)
Definition string_len (p : ptr) (max : nat) : wm Z := s ← use p; use (strnlen s max).

Definition dhcpv6_put_access_line (dhcpv6 : dhcpv6_t) (al : access_line) : wm unit :=
  when (negb (is_some (dhcpv6_interface_id dhcpv6)) && is_some (al_aci al)) (
    n ← string_len (al_aci al) 255;
    put_option16 DHCPV6_OPTION_INTERFACE_ID n (al_aci al));;
  when (is_some (al_ari al)) (
    n ← string_len (al_ari al) (Z.to_nat 65535);
    put_be 2 DHCPV6_OPTION_REMOTE_ID;;
    put_be 2 (n + 4);;
    put_be 4 BROADBAND_FORUM;;
    put_copy (al_ari al) n);;
  n ← wcall (encode_dhcpv6_access_line al);
  wbump n.

(** [inner] encodes the relay message. *)
Definition encode_dhcpv6_body (inner : dhcpv6_t -> wm protocol_error) (dhcpv6 : dhcpv6_t) : wm protocol_error :=
  dhcpv6_header dhcpv6;;
  relay ← match dhcpv6_relay_message dhcpv6 with
          | h_null => mret PROTOCOL_SUCCESS
          | h_dhcpv6 msg =>
              put_be 2 DHCPV6_OPTION_RELAY_MSG;;
              at_ ← wpos;
              (* encode_dhcpv6(buf+2, &value_len, ...) counts in value_len *)
              '(e, value_len) ← (fun w =>
                match inner msg (mk_wr (w_mem w) (at_ + 2) 0) with
                | WOk e w' => WOk (e, w_len w') (mk_wr (w_mem w') (w_pos w) (w_len w))
                | WFault => WFault
                end) : wm (protocol_error * Z);
              if bool_decide (e = PROTOCOL_SUCCESS) then
                store 0 (be_split 2 value_len);;
                wbump (2 + value_len);;
                mret PROTOCOL_SUCCESS
              else mret ENCODE_ERROR
          | _ => wfault
          end;
  if bool_decide (relay = PROTOCOL_SUCCESS) then
    when (nz (dhcpv6_client_duid_len dhcpv6))
      (put_option16 DHCPV6_OPTION_CLIENTID (dhcpv6_client_duid_len dhcpv6) (dhcpv6_client_duid dhcpv6));;
    when (nz (dhcpv6_server_duid_len dhcpv6))
      (put_option16 DHCPV6_OPTION_SERVERID (dhcpv6_server_duid_len dhcpv6) (dhcpv6_server_duid dhcpv6));;
    when (dhcpv6_rapid dhcpv6) (put_be 2 DHCPV6_OPTION_RAPID_COMMIT;; put_be 2 0);;
    dhcpv6_put_ia_na dhcpv6;;
    dhcpv6_put_ia_pd dhcpv6;;
    when (dhcpv6_oro dhcpv6) (
      put_be 2 DHCPV6_OPTION_ORO;; put_be 2 2;; put_be 2 DHCPV6_OPTION_DNS_SERVERS);;
    when (is_some (dhcpv6_interface_id dhcpv6))
      (put_option16 DHCPV6_OPTION_INTERFACE_ID (dhcpv6_interface_id_len dhcpv6) (dhcpv6_interface_id dhcpv6));;
    match dhcpv6_access_line dhcpv6 with
    | Some al => dhcpv6_put_access_line dhcpv6 al
    | None => mret tt
    end;;
    mret PROTOCOL_SUCCESS
  else mret ENCODE_ERROR.

(** The recursion over relay messages, down to [depth]. *)
Fixpoint encode_dhcpv6_depth (depth : nat) (dhcpv6 : dhcpv6_t) : wm protocol_error :=
  match depth with
  | O => wfault
  | S depth' => encode_dhcpv6_body (encode_dhcpv6_depth depth') dhcpv6
  end.

Definition encode_dhcpv6 (dhcpv6 : dhcpv6_t) : wm protocol_error :=
  encode_dhcpv6_depth (nesting (h_dhcpv6 dhcpv6)) dhcpv6.

(** ** DHCP *)

(** A four-byte TLV with one-byte type and length. *)
Definition put_tlv8 (t v : Z) : wm unit := put8 t;; put8 4;; put_be 4 v.

(** The result is truncated to the uint8_t return type. *)
Definition encode_dhcp_access_line (al : access_line) : wm Z :=
  start ← wpos;
  n ← with_local_len (
    put8 DHCP_RELAY_AGENT_VENDOR_SUBOPT;;
    wbump 1;;
    put_be 4 BROADBAND_FORUM;;
    wbump 1;;
    when (nz (al_up al)) (put_tlv8 ACCESS_LINE_ACT_UP (al_up al));;
    when (nz (al_down al)) (put_tlv8 ACCESS_LINE_ACT_DOWN (al_down al));;
    when (nz (al_dsl_type al)) (put_tlv8 ACCESS_LINE_DSL_TYPE (al_dsl_type al)));
  if 7 <? n then
    store_at (start + 1) [u8 (n - 2)];;
    store_at (start + 6) [u8 (n - 7)];;
    mret (u8 n)
  else mret 0.

(** A one-byte option code, counted in [option_len]. *)
Definition put_code (b : bool) (code n : Z) : wm Z := if b then put8 code;; mret (u8 (n + 1)) else mret n.

Definition dhcp_put_param_list (dhcp : bbl_dhcp) : wm unit :=
  put8 DHCP_OPTION_PARAM_REQUEST_LIST;;
  option_len_at ← wpos;
  wbump 1;;
  n ← put_code (dhcp_option_netmask dhcp) DHCP_OPTION_SUBNET_MASK 0;
  n ← put_code (dhcp_option_router dhcp) DHCP_OPTION_ROUTER n;
  n ← put_code (dhcp_option_dns1 dhcp || dhcp_option_dns2 dhcp) DHCP_OPTION_DNS_SERVER n;
  n ← put_code (dhcp_option_domain_name dhcp) DHCP_OPTION_DOMAIN_NAME n;
  store_at option_len_at [n].

(** A string of the access line as a sub-option, counted in [option_len]. *)
Definition put_agent_string (t : Z) (p : ptr) (n : Z) : wm Z :=
  match p with
  | None => mret n
  | Some _ =>
      put8 t;;
      l ← string_len p 255;
      put8 l;;
      put_copy p l;;
      mret (u8 (n + (l + 2)))
  end.

Definition dhcp_put_agent (al : access_line) : wm unit :=
  put8 DHCP_OPTION_RELAY_AGENT_INFORMATION;;
  option_len_at ← wpos;
  wbump 1;;
  n ← put_agent_string ACCESS_LINE_ACI (al_aci al) 0;
  n ← put_agent_string ACCESS_LINE_ARI (al_ari al) n;
  l ← wcall (encode_dhcp_access_line al);
  wbump l;;
  store_at option_len_at [u8 (n + l)].

(** [while( *len % 8)] write padding. *)
Fixpoint dhcp_pad (fuel : nat) : wm unit :=
  match fuel with
  | O => wfault
  | S fuel' =>
      n ← wlen;
      if n mod 8 =? 0 then mret tt else put8 DHCP_OPTION_PAD;; dhcp_pad fuel'
  end.

Definition encode_dhcp (dhcp : bbl_dhcp) : wm protocol_error :=
  match dhcp_header dhcp with
  | None => mret ENCODE_ERROR
  | Some _ =>
      put_copy (dhcp_header dhcp) sizeof_dhcp_header;;
      put_be 4 0x63825363;;
      put8 DHCP_OPTION_DHCP_MESSAGE_TYPE;;
      put8 1;;
      put8 (dhcp_type dhcp);;
      when (dhcp_parameter_request_list dhcp) (dhcp_put_param_list dhcp);;
      when (is_some (dhcp_client_identifier dhcp)) (
        put8 DHCP_OPTION_CLIENT_IDENTIFIER;;
        put8 (dhcp_client_identifier_len dhcp);;
        put_copy (dhcp_client_identifier dhcp) (dhcp_client_identifier_len dhcp));;
      when (dhcp_option_server_identifier dhcp)
        (put8 DHCP_OPTION_SERVER_IDENTIFIER;; put8 4;; put_le 4 (dhcp_server_identifier dhcp));;
      when (dhcp_option_address dhcp && nz (dhcp_address dhcp))
        (put8 DHCP_OPTION_REQUESTED_IP_ADDRESS;; put8 4;; put_le 4 (dhcp_address dhcp));;
      when (dhcp_option_router dhcp && nz (dhcp_router dhcp))
        (put8 DHCP_OPTION_ROUTER;; put8 4;; put_le 4 (dhcp_router dhcp));;
      when (dhcp_option_lease_time dhcp && nz (dhcp_lease_time dhcp))
        (put8 DHCP_OPTION_IP_ADDRESS_LEASE_TIME;; put8 4;; put_be 4 (dhcp_lease_time dhcp));;
      when (is_some (dhcp_vendor_class_id dhcp)) (
        put8 DHCP_OPTION_VENDOR_CLASS_IDENTIFIER;;
        n ← string_len (dhcp_vendor_class_id dhcp) 255;
        put8 n;;
        put_copy (dhcp_vendor_class_id dhcp) n);;
      match dhcp_access_line dhcp with
      | Some al => dhcp_put_agent al
      | None => mret tt
      end;;
      put8 DHCP_OPTION_END;;
      dhcp_pad 8;;
      mret PROTOCOL_SUCCESS
  end.

(** ** LDP hello *)

Definition encode_ldp_hello (ldp : bbl_ldp_hello) : wm protocol_error :=
  start ← wpos;
  put_be 2 1;;
  put_be 2 0;;
  pdu_len ← wlen;
  put_le 4 (ldp_lsr_id ldp);;
  put_be 2 (ldp_label_space_id ldp);;
  put_be 2 LDP_MESSAGE_TYPE_HELLO;;
  put_be 2 0;;
  msg_len ← wlen;
  put_be 4 (ldp_msg_id ldp);;
  put_be 2 LDP_TLV_TYPE_COMMON_HELLO_PARAMETERS;;
  put_be 2 4;;
  put_be 2 (ldp_hold_time ldp);;
  put_be 2 0;;
  when (nz (ldp_ipv4_transport_address ldp)) (
    put_be 2 LDP_TLV_TYPE_IPV4_TRANSPORT_ADDRESS;;
    put_be 2 4;;
    put_le 4 (ldp_ipv4_transport_address ldp));;
  when (is_some (ldp_ipv6_transport_address ldp)) (
    put_be 2 LDP_TLV_TYPE_IPV6_TRANSPORT_ADDRESS;;
    put_be 2 IPV6_ADDR_LEN;;
    put_copy (ldp_ipv6_transport_address ldp) IPV6_ADDR_LEN);;
  when (nz (ldp_dual_stack_capability ldp)) (
    store 0 (be_split 2 LDP_TLV_TYPE_DUAL_STACK_CAPABILITY);;
    b ← load8 0;
    store 0 [Z.lor b 0x80];;
    wbump 2;;
    put_be 2 4;;
    put_state (Z.land (Z.shiftl (ldp_dual_stack_capability ldp) 4) 0xF0));;
  n ← wlen;
  store_at (start + 2) (be_split 2 (u16 (n - pdu_len)));;
  store_at (start + 12) (be_split 2 (u16 (n - msg_len)));;
  mret PROTOCOL_SUCCESS.

(** ** BBL stream header *)

(** Reading an indeterminate field is a fault. *)
Definition encode_bbl (bbl : bbl_bbl) : wm protocol_error :=
  padding ← use (bbl_padding bbl);
  when (nz padding) (put (replicate (Z.to_nat padding) 0));;
  put_le 8 BBL_MAGIC_NUMBER;;
  put8 (bbl_type bbl);;
  put8 (bbl_sub_type bbl);;
  put8 (bbl_direction bbl);;
  put8 (bbl_tos bbl);;
  put_le 4 (bbl_session_id bbl);;
  (if bbl_type bbl =? BBL_TYPE_UNICAST then
     ifindex ← use (bbl_ifindex bbl); put_le 4 ifindex;;
     outer ← use (bbl_outer_vlan_id bbl); put_le 2 outer;;
     inner ← use (bbl_inner_vlan_id bbl); put_le 2 inner
   else if bbl_type bbl =? BBL_TYPE_MULTICAST then
     mc_source ← use (bbl_mc_source bbl); put_le 4 mc_source;;
     mc_group ← use (bbl_mc_group bbl); put_le 4 mc_group
   else mret tt);;
  put_le 8 (bbl_flow_id bbl);;
  put_le 8 (bbl_flow_seq bbl);;
  put_le 4 (bbl_tv_sec bbl);;
  put_le 4 (bbl_tv_nsec bbl);;
  mret PROTOCOL_SUCCESS.

(** ** ARP, ICMP, ICMPv6, IGMP and OSPF *)

Definition encode_arp (arp : bbl_arp) : wm protocol_error :=
  put_le 2 0x0100;;
  put_le 2 0x0008;;
  put8 6;;
  put8 4;;
  put_be 2 (arp_code arp);;
  put_or_zero (arp_sender arp) ETH_ADDR_LEN;;
  put_le 4 (arp_sender_ip arp);;
  put_or_zero (arp_target arp) ETH_ADDR_LEN;;
  put_le 4 (arp_target_ip arp);;
  mret PROTOCOL_SUCCESS.

(** [bbl_checksum] over [n] bytes of the buffer from [p] on. *)
Definition checksum_of (p : nat) (n : Z) : wm Z := fun w =>
  match Inet.bbl_checksum (drop p (w_mem w)) n with
  | Some c => WOk c w
  | None => WFault
  end.

Definition encode_icmp (icmp : bbl_icmp) : wm protocol_error :=
  start ← wpos;
  icmp_len ← wlen;
  store 0 (replicate 8 0);;
  store 0 [u8 (icmp_type icmp)];;
  store 1 [u8 (icmp_code icmp)];;
  wbump 4;;
  when (nz (icmp_data_len icmp)) (put_copy (icmp_data icmp) (icmp_data_len icmp));;
  n ← wlen;
  c ← checksum_of start (u16 (n - icmp_len));
  store_at (start + 2) (le_split 2 c);;
  mret PROTOCOL_SUCCESS.

(** A link-layer address option of a neighbor discovery message. *)
Definition put_lla (t : Z) (mac : ptr) : wm unit := put8 t;; put8 1;; put_mac mac.

Definition icmpv6_put_message (icmp : bbl_icmpv6) : wm unit :=
  if icmpv6_type icmp =? IPV6_ICMPV6_ROUTER_SOLICITATION then put_le 4 0
  else if icmpv6_type icmp =? IPV6_ICMPV6_ROUTER_ADVERTISEMENT then
    put8 64;; put8 0;; put_be 2 30;; put_le 4 0;; put_le 4 0;; put_lla 1 (icmpv6_mac icmp)
  else if icmpv6_type icmp =? IPV6_ICMPV6_NEIGHBOR_SOLICITATION then
    put_le 4 0;; put (icmpv6_prefix_address icmp);; put_lla 1 (icmpv6_mac icmp)
  else if icmpv6_type icmp =? IPV6_ICMPV6_NEIGHBOR_ADVERTISEMENT then
    (* only the first of the four flag bytes is written *)
    store 0 [0x60];; wbump 4;; put (icmpv6_prefix_address icmp);; put_lla 2 (icmpv6_mac icmp)
  else mret tt.

Definition encode_icmpv6 (icmp : bbl_icmpv6) : wm protocol_error :=
  start ← wpos;
  icmp_len ← wlen;
  store 0 (replicate 4 0);;
  store 0 [u8 (icmpv6_type icmp)];;
  store 1 [u8 (icmpv6_code icmp)];;
  wbump 4;;
  (if nz (icmpv6_data_len icmp) then put_copy (icmpv6_data icmp) (icmpv6_data_len icmp)
   else icmpv6_put_message icmp);;
  n ← wlen;
  c ← checksum_of start (u16 (n - icmp_len));
  store_at (start + 2) (le_split 2 c);;
  mret PROTOCOL_SUCCESS.

Fixpoint igmp_put_sources (n : nat) (sources : list Z) : wm unit :=
  match n with
  | O => mret tt
  | S n' =>
      match sources with
      | s :: rest => put_le 4 s;; igmp_put_sources n' rest
      | [] => wfault
      end
  end.

Fixpoint igmp_put_records (n : nat) (records : list bbl_igmp_group_record) : wm unit :=
  match n with
  | O => mret tt
  | S n' =>
      match records with
      | r :: rest =>
          put8 (igr_type r);;
          put8 0;;
          put_be 2 (igr_sources r);;
          put_le 4 (igr_group r);;
          igmp_put_sources (Z.to_nat (Z.min (igr_sources r) IGMP_MAX_SOURCES)) (igr_source r);;
          igmp_put_records n' rest
      | [] => wfault
      end
  end.

Definition encode_igmp (igmp : bbl_igmp) : wm protocol_error :=
  start ← wpos;
  igmp_len ← wlen;
  store 0 (replicate 8 0);;
  store 0 [u8 (igmp_type igmp)];;
  wbump 4;;
  (if (igmp_type igmp =? IGMP_TYPE_QUERY) || (igmp_type igmp =? IGMP_TYPE_REPORT_V1)
      || (igmp_type igmp =? IGMP_TYPE_REPORT_V2) || (igmp_type igmp =? IGMP_TYPE_LEAVE) then
     put_le 4 (igmp_group igmp)
   else if igmp_type igmp =? IGMP_TYPE_REPORT_V3 then
     put_le 2 0;;
     put_be 2 (igmp_group_records igmp);;
     if nz (igmp_group_records igmp) then
       igmp_put_records (Z.to_nat (Z.min (igmp_group_records igmp) IGMP_MAX_GROUPS)) (igmp_group_record igmp)
     else put_le 2 0
   else mret tt);;
  n ← wlen;
  c ← checksum_of start (u16 (n - igmp_len));
  store_at (start + 2) (le_split 2 c);;
  mret PROTOCOL_SUCCESS.

Definition encode_ospf (ospf : bbl_ospf) : wm protocol_error :=
  put_copy (Some (ospf_pdu ospf)) (ospf_pdu_len ospf);; mret PROTOCOL_SUCCESS.
