(* ===== verification/EncodePpp.v ===== *)
(** The encoders of bbl_protocols.c for PPP, PPPoE discovery, CFM and IS-IS. *)
From S2P Require Import Prelude.
From S2P Require Import Const.
From S2P Require Import ProtoTypes.
From S2P Require Import Enc.
From S2P Require Import EncodeApp.

(** ** PAP and CHAP *)

(** A length byte and the bytes. *)
Definition put_counted (p : ptr) (n : Z) : wm unit := put8 n;; put_copy p n.

Definition encode_ppp_pap (pap : bbl_pap) : wm protocol_error :=
  pap_len ← wlen;
  put8 (pap_code pap);;
  put8 (pap_identifier pap);;
  field ← wpos;
  wbump 2;;
  when (is_some (pap_username pap)) (put_counted (pap_username pap) (pap_username_len pap));;
  when (is_some (pap_password pap)) (put_counted (pap_password pap) (pap_password_len pap));;
  when (is_some (pap_reply_message pap)) (put_counted (pap_reply_message pap) (pap_reply_message_len pap));;
  n ← wlen;
  store_at field (be_split 2 (u16 (n - pap_len)));;
  mret PROTOCOL_SUCCESS.

Definition encode_ppp_chap (chap : bbl_chap) : wm protocol_error :=
  chap_len ← wlen;
  put8 (chap_code chap);;
  put8 (chap_identifier chap);;
  field ← wpos;
  wbump 2;;
  when (is_some (chap_challenge chap)) (put_counted (chap_challenge chap) (chap_challenge_len chap));;
  when (is_some (chap_name chap)) (put_copy (chap_name chap) (chap_name_len chap));;
  when (is_some (chap_reply_message chap)) (put_copy (chap_reply_message chap) (chap_reply_message_len chap));;
  n ← wlen;
  store_at field (be_split 2 (u16 (n - chap_len)));;
  mret PROTOCOL_SUCCESS.

(** ** IP6CP, IPCP and LCP *)

Definition encode_ppp_ip6cp (ip6cp : bbl_ip6cp) : wm protocol_error :=
  put8 (ip6cp_code ip6cp);;
  put8 (ip6cp_identifier ip6cp);;
  field ← wpos;
  wbump 2;;
  (if is_some (ip6cp_options ip6cp) && nz (ip6cp_options_len ip6cp) then
     put_copy (ip6cp_options ip6cp) (ip6cp_options_len ip6cp);;
     store_at field (be_split 2 (ip6cp_options_len ip6cp + 4))
   else
     put8 PPP_IP6CP_OPTION_IDENTIFIER;;
     put8 10;;
     put_le 8 (ip6cp_ipv6_identifier ip6cp);;
     store_at field (be_split 2 14));;
  mret PROTOCOL_SUCCESS.

(** An optional IPCP address option, counted in [ipcp_len]. *)
Definition put_ipcp_option (b : bool) (t v n : Z) : wm Z :=
  if b then put8 t;; put8 6;; put_le 4 v;; mret (n + 6) else mret n.

Definition encode_ppp_ipcp (ipcp : bbl_ipcp) : wm protocol_error :=
  put8 (ipcp_code ipcp);;
  put8 (ipcp_identifier ipcp);;
  field ← wpos;
  wbump 2;;
  (if is_some (ipcp_options ipcp) && nz (ipcp_options_len ipcp) then
     put_copy (ipcp_options ipcp) (ipcp_options_len ipcp);;
     store_at field (be_split 2 (ipcp_options_len ipcp + 4))
   else
     n ← put_ipcp_option (ipcp_option_address ipcp) PPP_IPCP_OPTION_ADDRESS (ipcp_address ipcp) 4;
     n ← put_ipcp_option (ipcp_option_dns1 ipcp) PPP_IPCP_OPTION_DNS1 (ipcp_dns1 ipcp) n;
     n ← put_ipcp_option (ipcp_option_dns2 ipcp) PPP_IPCP_OPTION_DNS2 (ipcp_dns2 ipcp) n;
     store_at field (be_split 2 n));;
  mret PROTOCOL_SUCCESS.

Definition encode_ppp_lcp (lcp : bbl_lcp) : wm protocol_error :=
  put8 (lcp_code lcp);;
  put8 (lcp_identifier lcp);;
  field ← wpos;
  wbump 2;;
  (if (lcp_code lcp =? PPP_CODE_ECHO_REQUEST) || (lcp_code lcp =? PPP_CODE_ECHO_REPLY) then
     put_le 4 (lcp_magic lcp);;
     store_at field (be_split 2 8)
   else if is_some (lcp_options lcp) && nz (lcp_options_len lcp) then
     put_copy (lcp_options lcp) (lcp_options_len lcp);;
     store_at field (be_split 2 (lcp_options_len lcp + 4))
   else
     n ← (if nz (lcp_mru lcp) then
            put8 PPP_LCP_OPTION_MRU;; put8 4;; put_be 2 (lcp_mru lcp);; mret (4 + 4)
          else mret 4);
     n ← (if nz (lcp_auth lcp) then
            put8 PPP_LCP_OPTION_AUTH;; put8 4;; put_be 2 (lcp_auth lcp);; mret (n + 4)
          else mret n);
     n ← (if nz (lcp_magic lcp) then
            put8 PPP_LCP_OPTION_MAGIC;; put8 6;; put_le 4 (lcp_magic lcp);; mret (n + 6)
          else mret n);
     store_at field (be_split 2 n));;
  when (nz (lcp_padding lcp)) (wbump (lcp_padding lcp));;
  mret PROTOCOL_SUCCESS.

(** ** PPPoE discovery *)

(** A string TLV of the vendor tag, counted in [vendor_len]. *)
Definition put_vendor_string (t : Z) (p : ptr) (n : Z) : wm Z :=
  match p with
  | None => mret n
  | Some _ =>
      put8 t;;
      l ← string_len p 128;
      put8 l;;
      put_copy p l;;
      mret (u16 (n + (2 + l)))
  end.

(** [if(v) { type, 4, htobe32(v) }], counted in [vendor_len]. *)
Definition put_rate (t v n : Z) : wm Z :=
  if nz v then put_tlv8 t v;; mret (u16 (n + 6)) else mret n.

Fixpoint put_rates (l : list (Z * Z)) (n : Z) : wm Z :=
  match l with
  | [] => mret n
  | (t, v) :: rest => n ← put_rate t v n; put_rates rest n
  end.

(** Data link encapsulation: the length 3 replaces the highest byte. *)
Definition put_encaps (v n : Z) : wm Z :=
  if nz v then
    put8 ACCESS_LINE_DATA_LINK_ENCAPS;;
    store 0 (be_split 4 v);;
    store 0 [3];;
    wbump 4;;
    mret (u16 (n + 5))
  else mret n.

(** The attribute types of the two draft versions. *)
Definition pon_type (p : access_line_profile) (v00 v04 : Z) : Z :=
  if alp_pon_access_line_version p =? DRAFT_LIHAWI_00 then v00 else v04.

Definition put_profile (p : access_line_profile) (n : Z) : wm Z :=
  n ← put_rates
    [ (ACCESS_LINE_MIN_UP, alp_min_up p); (ACCESS_LINE_MIN_DOWN, alp_min_down p);
      (ACCESS_LINE_ATT_UP, alp_att_up p); (ACCESS_LINE_ATT_DOWN, alp_att_down p);
      (ACCESS_LINE_MAX_UP, alp_max_up p); (ACCESS_LINE_MAX_DOWN, alp_max_down p);
      (ACCESS_LINE_MIN_UP_LOW, alp_min_up_low p); (ACCESS_LINE_MIN_DOWN_LOW, alp_min_down_low p);
      (ACCESS_LINE_MAX_INTERL_DELAY_UP, alp_max_interl_delay_up p);
      (ACCESS_LINE_ACT_INTERL_DELAY_UP, alp_act_interl_delay_up p);
      (ACCESS_LINE_MAX_INTERL_DELAY_DOWN, alp_max_interl_delay_down p);
      (ACCESS_LINE_ACT_INTERL_DELAY_DOWN, alp_act_interl_delay_down p) ] n;
  n ← put_encaps (alp_data_link_encaps p) n;
  put_rates
    [ (ACCESS_LINE_DSL_TYPE, alp_dsl_type p);
      (pon_type p ACCESS_LINE_PON_TYPE_LIHAWI_00 ACCESS_LINE_PON_TYPE, alp_pon_type p);
      (ACCESS_LINE_ETR_UP, alp_etr_up p); (ACCESS_LINE_ETR_DOWN, alp_etr_down p);
      (ACCESS_LINE_ATTETR_UP, alp_attetr_up p); (ACCESS_LINE_ATTETR_DOWN, alp_attetr_down p);
      (ACCESS_LINE_GDR_UP, alp_gdr_up p); (ACCESS_LINE_GDR_DOWN, alp_gdr_down p);
      (ACCESS_LINE_ATTGDR_UP, alp_attgdr_up p); (ACCESS_LINE_ATTGDR_DOWN, alp_attgdr_down p);
      (pon_type p ACCESS_LINE_ONT_ONU_AVG_DOWN_LIHAWI_00 ACCESS_LINE_ONT_ONU_AVG_DOWN, alp_ont_onu_avg_down p);
      (pon_type p ACCESS_LINE_ONT_ONU_PEAK_DOWN_LIHAWI_00 ACCESS_LINE_ONT_ONU_PEAK_DOWN, alp_ont_onu_peak_down p);
      (pon_type p ACCESS_LINE_ONT_ONU_MAX_UP_LIHAWI_00 ACCESS_LINE_ONT_ONU_MAX_UP, alp_ont_onu_max_up p);
      (pon_type p ACCESS_LINE_ONT_ONU_ASS_UP_LIHAWI_00 ACCESS_LINE_ONT_ONU_ASS_UP, alp_ont_onu_ass_up p);
      (pon_type p ACCESS_LINE_PON_MAX_UP_LIHAWI_00 ACCESS_LINE_PON_MAX_UP, alp_pon_max_up p);
      (pon_type p ACCESS_LINE_PON_MAX_DOWN_LIHAWI_00 ACCESS_LINE_PON_MAX_DOWN, alp_pon_max_down p) ] n.

(** The vendor tag; the result is [vendor_len]. *)
Definition put_vendor_tag (al : access_line) : wm Z :=
  put_be 2 PPPOE_TAG_VENDOR;;
  field ← wpos;
  wbump 2;;
  put_be 4 BROADBAND_FORUM_VENDOR_ID;;
  n ← put_vendor_string ACCESS_LINE_ACI (al_aci al) 4;
  n ← put_vendor_string ACCESS_LINE_ARI (al_ari al) n;
  n ← put_vendor_string ACCESS_LINE_AGG_ACC_CIRCUIT_ID_ASCII (al_aaci al) n;
  n ← put_rates [(ACCESS_LINE_ACT_UP, al_up al); (ACCESS_LINE_ACT_DOWN, al_down al);
                 (ACCESS_LINE_DSL_TYPE, al_dsl_type al)] n;
  n ← match al_profile al with
      | Some p => put_profile p n
      | None => mret n
      end;
  store_at field (be_split 2 n);;
  mret n.

(** A tag with its header, counted in [pppoe_len]. *)
Definition put_tag (t : Z) (p : ptr) (l n : Z) : wm Z :=
  put_be 2 t;; put_be 2 l;; put_copy p l;; mret (u16 (u16 (n + 4) + l)).

Definition pppoe_put_tags (pppoe : bbl_pppoe_discovery) : wm Z :=
  put_be 2 PPPOE_TAG_SERVICE_NAME;;
  put_be 2 (pd_service_name_len pppoe);;
  n ← (if nz (pd_service_name_len pppoe) then
         put_copy (pd_service_name pppoe) (pd_service_name_len pppoe);;
         mret (u16 (4 + pd_service_name_len pppoe))
       else mret 4);
  n ← (if nz (pd_host_uniq_len pppoe)
       then put_tag PPPOE_TAG_HOST_UNIQ (pd_host_uniq pppoe) (pd_host_uniq_len pppoe) n
       else mret n);
  n ← (if nz (pd_max_payload pppoe) then
         put_be 2 PPPOE_TAG_MAX_PAYLOAD;; put_be 2 2;; put_be 2 (pd_max_payload pppoe);; mret (u16 (n + 6))
       else mret n);
  n ← (if is_some (pd_ac_cookie pppoe)
       then put_tag PPPOE_TAG_AC_COOKIE (pd_ac_cookie pppoe) (pd_ac_cookie_len pppoe) n
       else mret n);
  match pd_access_line pppoe with
  | Some al => v ← put_vendor_tag al; mret (u16 (n + (4 + v)))
  | None => mret n
  end.

Definition encode_pppoe_discovery (pppoe : bbl_pppoe_discovery) : wm protocol_error :=
  put8 17;;
  put8 (pd_code pppoe);;
  put_be 2 (pd_session_id pppoe);;
  field ← wpos;
  wbump 2;;
  n ← (if negb (pd_code pppoe =? PPPOE_PADT) then pppoe_put_tags pppoe else mret 0);
  store_at field (be_split 2 n);;
  mret PROTOCOL_SUCCESS.

(** ** CFM and IS-IS *)

Definition encode_cfm (cfm : bbl_cfm) : wm protocol_error :=
  if negb (cfm_type cfm =? CFM_TYPE_CCM) then mret ENCODE_ERROR
  else
    put8 (Z.shiftl (cfm_md_level cfm) 5);;
    put8 (cfm_type cfm);;
    put8 (if cfm_rdi cfm then Z.lor 4 128 else 4);;
    put8 70;;
    store 0 (replicate 70 0);;
    put_be 4 (cfm_seq cfm);;
    put_be 2 (cfm_ma_id cfm);;
    put8 (cfm_md_name_format cfm);;
    max_ma_str_len ←
      (if negb (cfm_md_name_format cfm =? CMF_MD_NAME_FORMAT_NONE) then
         let md_name_len := if 32 <? cfm_md_name_len cfm then 32 else cfm_md_name_len cfm in
         put_counted (Some (cfm_md_name cfm)) md_name_len;;
         mret (u8 (45 - (md_name_len + 1)))
       else mret 45);
    let ma_name_len := if max_ma_str_len <? cfm_ma_name_len cfm then max_ma_str_len else cfm_ma_name_len cfm in
    put8 (cfm_ma_name_format cfm);;
    put8 ma_name_len;;
    name ← source (Some (cfm_ma_name cfm)) ma_name_len;
    store 0 name;;
    wbump max_ma_str_len;;
    wbump 16;;
    put8 1;; put_be 2 1;; put8 0;;
    put8 2;; put_be 2 1;; put8 2;;
    put8 4;; put_be 2 1;; put8 1;;
    put8 0;;
    mret PROTOCOL_SUCCESS.

Definition encode_isis (isis : bbl_isis) : wm protocol_error :=
  if isis_pdu_len isis <? ISIS_HDR_LEN_COMMON then mret ENCODE_ERROR
  else
    put_le 2 0xfefe;;
    put8 0x03;;
    put_copy (Some (isis_pdu isis)) (isis_pdu_len isis);;
    mret PROTOCOL_SUCCESS.
