(* ===== verification/EncodeEth.v ===== *)
(** The encoders of bbl_protocols.c for headers that contain further headers:
    UDP, TCP, IPv6, IPv4, L2TP, PPPoE session and Ethernet. *)
From coqutil Require Import Datatypes.RecordSetters.
Import DoubleBraceUpdate.
From S2P Require Import Prelude.
From S2P Require Import Const.
From S2P Require Import ProtoTypes.
From S2P Require Import Checksum.
From S2P Require Import Enc.
From S2P Require Import EncodeApp.
From S2P Require Import EncodePpp.

(** The bytes of the buffer from [p] on, for a checksum. *)
Definition mem_at (p : nat) : wm (list Z) := fun w => WOk (drop p (w_mem w)) w.

(** A cast of [next] to a structure it does not point to is a fault. *)
Definition as_udp (h : hdr) : wm udp_t := match h with h_udp u => mret u | _ => wfault end.

(** Copies of an lwIP buffer chain. *)
Fixpoint put_chain (l : list (list Z)) : wm unit :=
  match l with
  | [] => mret tt
  | b :: rest => put b;; put_chain rest
  end.

Section WithUdp.
Context (encode_udp : udp_t -> wm protocol_error).

Definition encode_raw_tcp (udp : udp_t) : wm protocol_error :=
  put_be 2 (udp_src udp);;
  put_be 2 (udp_dst udp);;
  put_be 4 1;;
  put_be 4 1;;
  store 0 [0x50];;
  store 1 [0x02];;
  wbump 2;;
  put_le 2 0xff;;
  wbump 4;;
  protocol ← use (udp_protocol udp);
  if protocol =? UDP_PROTOCOL_BBL then
    match udp_next udp with
    | h_bbl bbl => wcall (encode_bbl bbl)
    | _ => wfault
    end
  else mret ENCODE_ERROR.

(** The payload of IPv6: result and payload length. *)
Definition ipv6_put_payload (ipv6 : ipv6_t) : wm (protocol_error * Z) :=
  buf ← wpos;
  ipv6_len ← wlen;
  if ipv6_protocol ipv6 =? IPV6_NEXT_HEADER_ICMPV6 then
    match ipv6_next ipv6 with
    | h_icmpv6 icmp =>
        result ← wcall (encode_icmpv6 icmp);
        n ← wlen; m ← mem_at buf;
        let ipv6_len := u16 (n - ipv6_len) in
        c ← use (Inet.bbl_ipv6_icmpv6_checksum (take 16 (ipv6_src ipv6)) (take 16 (ipv6_dst ipv6)) m ipv6_len);
        store_at (buf + 2) (le_split 2 c);;
        mret (result, ipv6_len)
    | _ => wfault
    end
  else if ipv6_protocol ipv6 =? IPV6_NEXT_HEADER_UDP then
    udp ← as_udp (ipv6_next ipv6);
    result ← wcall (encode_udp udp);
    n ← wlen;
    let ipv6_len := u16 (n - ipv6_len) in
    store_at (buf + 4) (be_split 2 ipv6_len);;
    protocol ← use (udp_protocol udp);
    when (negb (protocol =? UDP_PROTOCOL_BBL)) (
      m ← mem_at buf;
      c ← use (Inet.bbl_ipv6_udp_checksum (take 16 (ipv6_src ipv6)) (take 16 (ipv6_dst ipv6)) m ipv6_len);
      store_at (buf + 6) (le_split 2 c));;
    mret (result, ipv6_len)
  else if ipv6_protocol ipv6 =? IPV6_NEXT_HEADER_TCP then
    udp ← as_udp (ipv6_next ipv6);
    result ← wcall (encode_raw_tcp udp);
    n ← wlen; mret (result, u16 (n - ipv6_len))
  else if ipv6_protocol ipv6 =? IPV6_NEXT_HEADER_OSPF then
    match ipv6_next ipv6 with
    | h_ospf ospf =>
        result ← wcall (encode_ospf ospf);
        n ← wlen; mret (result, u16 (n - ipv6_len))
    | _ => wfault
    end
  else mret (UNKNOWN_PROTOCOL, 0).

Definition encode_ipv6_with (ipv6 : ipv6_t) : wm protocol_error :=
  start ← wpos;
  store 0 (replicate 8 0);;
  store 0 (be_split 2 (Z.shiftl (ipv6_tos ipv6) 4));;
  b ← load8 0;
  store 0 [u8 (Z.lor b (Z.shiftl 6 4))];;
  wbump 4;;
  wbump 2;;
  put8 (ipv6_protocol ipv6);;
  put8 (ipv6_ttl ipv6);;
  put_copy (Some (ipv6_src ipv6)) IPV6_ADDR_LEN;;
  put_copy (Some (ipv6_dst ipv6)) IPV6_ADDR_LEN;;
  '(result, ipv6_len) ← ipv6_put_payload ipv6;
  store_at (start + 4) (be_split 2 ipv6_len);;
  mret result.

(** The payload of IPv4. *)
Definition ipv4_put_payload (ipv4 : ipv4_t) : wm protocol_error :=
  buf ← wpos;
  if ipv4_protocol ipv4 =? PROTOCOL_IPV4_IGMP then
    match ipv4_next ipv4 with h_igmp igmp => wcall (encode_igmp igmp) | _ => wfault end
  else if ipv4_protocol ipv4 =? PROTOCOL_IPV4_ICMP then
    match ipv4_next ipv4 with h_icmp icmp => wcall (encode_icmp icmp) | _ => wfault end
  else if ipv4_protocol ipv4 =? PROTOCOL_IPV4_UDP then
    udp_len ← wlen;
    udp ← as_udp (ipv4_next ipv4);
    result ← wcall (encode_udp udp);
    n ← wlen;
    let udp_len := u16 (n - udp_len) in
    store_at (buf + 4) (be_split 2 udp_len);;
    protocol ← use (udp_protocol udp);
    when (negb (protocol =? UDP_PROTOCOL_BBL) && negb (protocol =? UDP_PROTOCOL_L2TP)) (
      m ← mem_at buf;
      c ← use (Inet.bbl_ipv4_udp_checksum (ipv4_src ipv4) (ipv4_dst ipv4) m udp_len);
      store_at (buf + 6) (le_split 2 c));;
    mret result
  else if ipv4_protocol ipv4 =? PROTOCOL_IPV4_TCP then
    udp ← as_udp (ipv4_next ipv4); wcall (encode_raw_tcp udp)
  else if ipv4_protocol ipv4 =? PROTOCOL_IPV4_OSPF then
    match ipv4_next ipv4 with h_ospf ospf => wcall (encode_ospf ospf) | _ => wfault end
  else mret PROTOCOL_SUCCESS.

Definition encode_ipv4_with (ipv4 : ipv4_t) : wm protocol_error :=
  start ← wpos;
  ipv4_len ← wlen;
  let header_len := if ipv4_router_alert_option ipv4 then 6 else 5 in
  put8 (Z.lor 64 header_len);;
  put8 (ipv4_tos ipv4);;
  wbump 2;;
  put_be 2 (ipv4_id ipv4);;
  put_be 2 (ipv4_offset ipv4);;
  put8 (ipv4_ttl ipv4);;
  put8 (ipv4_protocol ipv4);;
  put_le 2 0;;
  put_le 4 (ipv4_src ipv4);;
  put_le 4 (ipv4_dst ipv4);;
  when (ipv4_router_alert_option ipv4) (put [0x94; 0x04; 0x00; 0x00]);;
  result ← ipv4_put_payload ipv4;
  n ← wlen;
  store_at (start + 2) (be_split 2 (u16 (n - ipv4_len)));;
  c ← checksum_of start (header_len * 4);
  store_at (start + 10) (le_split 2 c);;
  mret result.

(** The protocols of a PPP frame. *)
Definition ppp_put_payload (protocol : Z) (next : hdr) : wm protocol_error :=
  if protocol =? PROTOCOL_LCP then
    match next with h_lcp x => wcall (encode_ppp_lcp x) | _ => wfault end
  else if protocol =? PROTOCOL_IPCP then
    match next with h_ipcp x => wcall (encode_ppp_ipcp x) | _ => wfault end
  else if protocol =? PROTOCOL_IP6CP then
    match next with h_ip6cp x => wcall (encode_ppp_ip6cp x) | _ => wfault end
  else if protocol =? PROTOCOL_PAP then
    match next with h_pap x => wcall (encode_ppp_pap x) | _ => wfault end
  else if protocol =? PROTOCOL_CHAP then
    match next with h_chap x => wcall (encode_ppp_chap x) | _ => wfault end
  else if protocol =? PROTOCOL_IPV4 then
    match next with h_ipv4 x => wcall (encode_ipv4_with x) | _ => wfault end
  else if protocol =? PROTOCOL_IPV6 then
    match next with h_ipv6 x => wcall (encode_ipv6_with x) | _ => wfault end
  else mret UNKNOWN_PROTOCOL.

(** The flag byte.  A data packet never gets the sequence bit. *)
Definition l2tp_flags (l2tp : l2tp_t) : Z :=
  let f := if nz (l2tp_type l2tp)
           then Z.lor (Z.lor L2TP_HDR_CTRL_BIT_MASK L2TP_HDR_LEN_BIT_MASK) L2TP_HDR_SEQ_BIT_MASK
           else if l2tp_with_length l2tp then L2TP_HDR_LEN_BIT_MASK else 0 in
  let f := if l2tp_with_offset l2tp then Z.lor f L2TP_HDR_OFFSET_BIT_MASK else f in
  if l2tp_with_priority l2tp then Z.lor f L2TP_HDR_PRIORITY_BIT_MASK else f.

(** Control packets set [with_length] and [with_sequence] in the structure. *)
Definition encode_l2tp_with (l2tp : l2tp_t) : wm protocol_error :=
  l2tp_len ← wlen;
  store 0 (replicate 8 0);;
  let with_length := nz (l2tp_type l2tp) || l2tp_with_length l2tp in
  let with_sequence := nz (l2tp_type l2tp) || l2tp_with_sequence l2tp in
  put8 (l2tp_flags l2tp);;
  put8 2;;
  field ← wpos;
  when with_length (wbump 2);;
  put_be 2 (l2tp_tunnel_id l2tp);;
  put_be 2 (l2tp_session_id l2tp);;
  when with_sequence (put_be 2 (l2tp_ns l2tp);; put_be 2 (l2tp_nr l2tp));;
  when (l2tp_with_offset l2tp) (
    put_be 2 (l2tp_offset l2tp);;
    when (nz (l2tp_offset l2tp)) (wbump (l2tp_offset l2tp)));;
  result ←
    (if nz (l2tp_type l2tp) then
       when (is_some (l2tp_payload l2tp) && nz (l2tp_payload_len l2tp))
         (put_copy (l2tp_payload l2tp) (l2tp_payload_len l2tp));;
       mret PROTOCOL_SUCCESS
     else
       put8 0xff;;
       put8 0x03;;
       put_be 2 (l2tp_protocol l2tp);;
       ppp_put_payload (l2tp_protocol l2tp) (l2tp_next l2tp));
  when with_length (n ← wlen; store_at field (be_split 2 (u16 (n - l2tp_len))));;
  mret result.

Definition encode_pppoe_session_with (pppoe : pppoe_session) : wm protocol_error :=
  put8 17;;
  put8 0;;
  put_be 2 (ps_session_id pppoe);;
  field ← wpos;
  wbump 2;;
  put_be 2 (ps_protocol pppoe);;
  pppoe_len ← wlen;
  result ←
    (if nz (ps_raw_len pppoe) then
       match ps_next pppoe with
       | h_raw b => put_copy (Some b) (ps_raw_len pppoe);; mret PROTOCOL_SUCCESS
       | _ => wfault
       end
     else if ps_lwip pppoe then
       match ps_next pppoe with
       | h_pbuf chain => put_chain chain;; mret PROTOCOL_SUCCESS
       | h_null => mret PROTOCOL_SUCCESS
       | _ => wfault
       end
     else ppp_put_payload (ps_protocol pppoe) (ps_next pppoe));
  n ← wlen;
  store_at field (be_split 2 (u16 (u16 (n - pppoe_len) + 2)));;
  mret result.

Definition encode_udp_body (udp : udp_t) : wm protocol_error :=
  put_be 2 (udp_src udp);;
  put_be 2 (udp_dst udp);;
  put_le 4 0;;
  protocol ← use (udp_protocol udp);
  if protocol =? UDP_PROTOCOL_DHCPV6 then
    match udp_next udp with h_dhcpv6 x => wcall (encode_dhcpv6 x) | _ => wfault end
  else if protocol =? UDP_PROTOCOL_BBL then
    match udp_next udp with h_bbl x => wcall (encode_bbl x) | _ => wfault end
  else if protocol =? UDP_PROTOCOL_L2TP then
    match udp_next udp with h_l2tp x => wcall (encode_l2tp_with x) | _ => wfault end
  else if protocol =? UDP_PROTOCOL_DHCP then
    match udp_next udp with h_dhcp x => wcall (encode_dhcp x) | _ => wfault end
  else if protocol =? UDP_PROTOCOL_LDP then
    match udp_next udp with h_ldp_hello x => wcall (encode_ldp_hello x) | _ => wfault end
  else mret PROTOCOL_SUCCESS.

(** ** Ethernet *)

(** The VLAN tags; the priorities are merged into the identifiers in the
    structure. *)
Definition put_vlans (eth : ethernet) : wm ethernet :=
  if nz (eth_vlan_outer eth) then
    put_be 2 (if eth_qinq eth then ETH_TYPE_QINQ else ETH_TYPE_VLAN);;
    let outer := u16 (Z.lor (eth_vlan_outer eth) (Z.shiftl (eth_vlan_outer_priority eth) 13)) in
    put_be 2 outer;;
    let eth := eth {{ eth_vlan_outer := outer }} in
    if nz (eth_vlan_inner eth) then
      put_be 2 ETH_TYPE_VLAN;;
      let inner := u16 (Z.lor (eth_vlan_inner eth) (Z.shiftl (eth_vlan_inner_priority eth) 13)) in
      put_be 2 inner;;
      let eth := eth {{ eth_vlan_inner := inner }} in
      when (nz (eth_vlan_three eth)) (put_be 2 ETH_TYPE_VLAN;; put_be 2 (eth_vlan_three eth));;
      mret eth
    else mret eth
  else mret eth.

(** The word of a label: [exp] and [ttl] are written first, the label is or-ed
    over them, the last label gets the bottom-of-stack bit. *)
Definition mpls_word (m : bbl_mpls) (last : bool) : list Z :=
  let lab := be_split 4 (u32 (Z.shiftl (mpls_label m) 12)) in
  let old := [0; 0; u8 (Z.shiftl (mpls_exp m) 1); u8 (mpls_ttl m)] in
  let w := zip_with Z.lor old lab in
  if last then <[2%nat := Z.lor (nth 2 w 0) 1]> w else w.

Fixpoint put_mpls (l : list bbl_mpls) : wm unit :=
  match l with
  | [] => mret tt
  | m :: rest => put (mpls_word m (bool_decide (rest = [])));; put_mpls rest
  end.

Definition encode_ethernet_with (eth : ethernet) : wm (protocol_error * ethernet) :=
  match eth_dst eth with
  | Some _ => put_mac (eth_dst eth)
  | None => put (replicate 6 0xff)
  end;;
  put_mac (eth_src eth);;
  eth ← put_vlans eth;
  if (eth_type eth =? ISIS_PROTOCOL_IDENTIFIER) && bool_decide (eth_mpls eth = []) then
    field ← wpos;
    wbump 2;;
    eth_len ← wlen;
    match eth_next eth with
    | h_isis isis =>
        e ← wcall (encode_isis isis);
        if bool_decide (e = PROTOCOL_SUCCESS) then
          n ← wlen;
          store_at field (be_split 2 (n - eth_len));;
          mret (PROTOCOL_SUCCESS, eth)
        else mret (ENCODE_ERROR, eth)
    | _ => wfault
    end
  else
    (if bool_decide (eth_mpls eth = []) then put_be 2 (eth_type eth)
     else put_be 2 ETH_TYPE_MPLS;; put_mpls (eth_mpls eth));;
    e ←
      (if nz (eth_raw_len eth) then
         match eth_next eth with
         | h_raw b => put_copy (Some b) (eth_raw_len eth);; mret PROTOCOL_SUCCESS
         | _ => wfault
         end
       else if eth_lwip eth then
         match eth_next eth with
         | h_pbuf chain => put_chain chain;; mret PROTOCOL_SUCCESS
         | h_null => mret PROTOCOL_SUCCESS
         | _ => wfault
         end
       else if eth_type eth =? ETH_TYPE_PPPOE_DISCOVERY then
         match eth_next eth with h_pppoe_discovery x => wcall (encode_pppoe_discovery x) | _ => wfault end
       else if eth_type eth =? ETH_TYPE_PPPOE_SESSION then
         match eth_next eth with h_pppoe_session x => wcall (encode_pppoe_session_with x) | _ => wfault end
       else if eth_type eth =? ETH_TYPE_ARP then
         match eth_next eth with h_arp x => wcall (encode_arp x) | _ => wfault end
       else if eth_type eth =? ETH_TYPE_IPV4 then
         match eth_next eth with h_ipv4 x => wcall (encode_ipv4_with x) | _ => wfault end
       else if eth_type eth =? ETH_TYPE_IPV6 then
         match eth_next eth with h_ipv6 x => wcall (encode_ipv6_with x) | _ => wfault end
       else if eth_type eth =? ETH_TYPE_CFM then
         match eth_next eth with h_cfm x => wcall (encode_cfm x) | _ => wfault end
       else if eth_type eth =? ETH_TYPE_LACP then
         match eth_next eth with h_lacp x => wcall (encode_lacp x) | _ => wfault end
       else mret UNKNOWN_PROTOCOL);
    mret (e, eth).

End WithUdp.

(** The recursion through L2TP, down to [depth] UDP headers. *)
Fixpoint encode_udp_depth (depth : nat) (udp : udp_t) : wm protocol_error :=
  match depth with
  | O => wfault
  | S depth' => encode_udp_body (encode_udp_depth depth') udp
  end.

(** The UDP encoder for headers nested as deep as those below [h]. *)
Definition encode_udp_in (h : hdr) : udp_t -> wm protocol_error := encode_udp_depth (S (nesting h)).

Definition encode_udp (u : udp_t) := encode_udp_in (h_udp u) u.
Definition encode_ipv4 (i : ipv4_t) := encode_ipv4_with (encode_udp_in (h_ipv4 i)) i.
Definition encode_ipv6 (i : ipv6_t) := encode_ipv6_with (encode_udp_in (h_ipv6 i)) i.
Definition encode_l2tp (l : l2tp_t) := encode_l2tp_with (encode_udp_in (h_l2tp l)) l.
Definition encode_pppoe_session (p : pppoe_session) := encode_pppoe_session_with (encode_udp_in (h_pppoe_session p)) p.

(** [encode_ethernet(buf, &len, eth)] into a buffer [mem]. *)
Definition encode_ethernet (eth : ethernet) (mem : list Z) (len : Z) : wout (protocol_error * ethernet) :=
  encode_ethernet_with (encode_udp_in (h_eth eth)) eth (mk_wr mem 0 len).
