(* ===== verification/RoundTrip.v ===== *)
(** Round trips: decoding what the encoders emit gives back the header.

    The bytes an encoder emits are stated as a list ([arp_bytes], ...); the
    encoder is proved to emit them, whatever the buffer held before, and the
    decoder to read the header back from any packet that starts with them. *)
From S2P Require Import Prelude.
From S2P Require Import Const.
From S2P Require Import ProtoTypes.
From S2P Require Import Dec.
From S2P Require Import DecodePpp.
From S2P Require Import DecodeNet.
From S2P Require Import DecodeEth.
From S2P Require Import Enc.
From S2P Require Import EncodeApp.
From S2P Require Import EncodePpp.
From S2P Require Import EncodeEth.

(** ** Symbolic execution of decoders *)

(** [m] succeeds on [d] and ends as [Q] says. *)
Definition gets {A} (m : dm A) (Q : A -> dec -> Prop) (d : dec) : Prop :=
  match m d with
  | Ok a d' => Q a d'
  | _ => False
  end.

Lemma gets_bind {A B} (m : dm A) (k : A -> dm B) Q d :
  gets m (fun a d' => gets (k a) Q d') d -> gets (m ≫= k) Q d.
Proof. unfold gets, mbind, dm_bind. by destruct (m d). Qed.

Lemma gets_unbind {A B} (m : dm A) (k : A -> dm B) Q d :
  gets (m ≫= k) Q d -> gets m (fun a d' => gets (k a) Q d') d.
Proof. unfold gets, mbind, dm_bind. by destruct (m d). Qed.

Lemma gets_eq {A} (m : dm A) (Q : A -> dec -> Prop) d a d' : m d = Ok a d' -> Q a d' -> gets m Q d.
Proof. unfold gets. by intros ->. Qed.

Lemma gets_fn {A} s (m : dm A) Q d : gets m Q d -> gets (fn s m) Q d.
Proof. unfold gets, fn. by destruct (m d). Qed.

Lemma run_bind {A B} (m : dm A) (k : A -> dm B) d a d' r :
  m d = Ok a d' -> k a d' = r -> (m ≫= k) d = r.
Proof. intros Hm Hk. unfold mbind, dm_bind. by rewrite Hm. Qed.

Lemma rd_ld n bs r l sp spl spe e :
  length bs = n -> ld 0 n (mk_dec (bs ++ r) l sp spl spe e) = Ok bs (mk_dec (bs ++ r) l sp spl spe e).
Proof.
  intros Hl. unfold ld. cbn [d_buf]. rewrite length_app, Nat.add_0_l.
  destruct (n <=? _)%nat eqn:E; [|apply Nat.leb_gt in E; lia].
  by rewrite drop_0, take_app_exact.
Qed.

Lemma rd_be n v r l sp spl spe e :
  0 <= v < 256 ^ Z.of_nat n ->
  ld_be 0 n (mk_dec (be_split n v ++ r) l sp spl spe e) = Ok v (mk_dec (be_split n v ++ r) l sp spl spe e).
Proof.
  intros Hv. unfold ld_be. eapply run_bind; [apply rd_ld; apply be_split_length|].
  by rewrite be_combine_split, Z.mod_small.
Qed.

Lemma rd_le n v r l sp spl spe e :
  0 <= v < 256 ^ Z.of_nat n ->
  ld_le 0 n (mk_dec (le_split n v ++ r) l sp spl spe e) = Ok v (mk_dec (le_split n v ++ r) l sp spl spe e).
Proof.
  intros Hv. unfold ld_le. eapply run_bind; [apply rd_ld; apply le_split_length|].
  by rewrite le_combine_split, Z.mod_small.
Qed.

Lemma rd_8 v r l sp spl spe e :
  ld8 0 (mk_dec ([v] ++ r) l sp spl spe e) = Ok v (mk_dec ([v] ++ r) l sp spl spe e).
Proof.
  unfold ld8. eapply run_bind; [by apply rd_ld|]. cbn [le_combine]. unfold mret, dm_ret. f_equal. lia.
Qed.

(** Numbers in network byte order that are read in host byte order, and their first byte. *)
Lemma rd_le_be n v r l sp spl spe e :
  ld_le 0 n (mk_dec (be_split n v ++ r) l sp spl spe e) =
    Ok (le_combine (be_split n v)) (mk_dec (be_split n v ++ r) l sp spl spe e).
Proof. unfold ld_le. eapply run_bind; [apply rd_ld; apply be_split_length|]. done. Qed.

Lemma rd_8_be v r l sp spl spe e :
  ld8 0 (mk_dec (be_split 2 v ++ r) l sp spl spe e) =
    Ok (v / 256 mod 256) (mk_dec (be_split 2 v ++ r) l sp spl spe e).
Proof.
  replace (be_split 2 v) with [v / 256 mod 256; v mod 256]
    by (cbn [be_split]; change (256 ^ Z.of_nat 0) with 1; by rewrite Z.div_1_r).
  unfold ld8. eapply run_bind; [exact (rd_ld 1 [v / 256 mod 256] ([v mod 256] ++ r) l sp spl spe e eq_refl)|].
  unfold mret, dm_ret. cbn [le_combine]. by rewrite Z.mul_0_r, Z.add_0_r.
Qed.

Lemma rd_bump n bs r l sp spl spe e :
  Z.of_nat (length bs) = n -> n <= l < 65536 ->
  bump n (mk_dec (bs ++ r) l sp spl spe e) = Ok tt (mk_dec r (l - n) sp spl spe e).
Proof.
  intros Hn Hl. unfold bump. cbn. unfold constant. rewrite u16_small by lia.
  by rewrite drop_app_exact by lia.
Qed.

(** Loads and bumps behind the first part of the packet. *)
Lemma rd_ld_skip k o n a bs r l sp spl spe e :
  length a = k -> (k <= o)%nat ->
  ld (o - k) n (mk_dec r l sp spl spe e) = Ok bs (mk_dec r l sp spl spe e) ->
  ld o n (mk_dec (a ++ r) l sp spl spe e) = Ok bs (mk_dec (a ++ r) l sp spl spe e).
Proof.
  intros <- Hk. unfold ld. cbn [d_buf]. rewrite length_app, drop_app_ge by lia.
  destruct (o - length a + n <=? length r)%nat eqn:E; [|done]. apply Nat.leb_le in E. intros [= <-].
  by replace (o + n <=? length a + length r)%nat with true by (symmetry; apply Nat.leb_le; lia).
Qed.

Lemma rd_be_skip k o n v a r l sp spl spe e :
  length a = k -> (k <= o)%nat ->
  ld_be (o - k) n (mk_dec r l sp spl spe e) = Ok v (mk_dec r l sp spl spe e) ->
  ld_be o n (mk_dec (a ++ r) l sp spl spe e) = Ok v (mk_dec (a ++ r) l sp spl spe e).
Proof.
  intros Ha Hk. unfold ld_be, mbind, dm_bind. destruct (ld (o - k) n _) as [bs d| |] eqn:E; [|done..].
  assert (d = mk_dec r l sp spl spe e) as -> by (unfold ld in E; case_match; by simplify_eq).
  intros [= <-]. by rewrite (rd_ld_skip k o n a bs) by done.
Qed.

Lemma rd_le_skip k o n v a r l sp spl spe e :
  length a = k -> (k <= o)%nat ->
  ld_le (o - k) n (mk_dec r l sp spl spe e) = Ok v (mk_dec r l sp spl spe e) ->
  ld_le o n (mk_dec (a ++ r) l sp spl spe e) = Ok v (mk_dec (a ++ r) l sp spl spe e).
Proof.
  intros Ha Hk. unfold ld_le, mbind, dm_bind. destruct (ld (o - k) n _) as [bs d| |] eqn:E; [|done..].
  assert (d = mk_dec r l sp spl spe e) as -> by (unfold ld in E; case_match; by simplify_eq).
  intros [= <-]. by rewrite (rd_ld_skip k o n a bs) by done.
Qed.

Lemma rd_bump_skip k n a r l sp spl spe e d :
  length a = k -> Z.of_nat k <= n -> n <= l < 65536 ->
  bump (n - Z.of_nat k) (mk_dec r (l - Z.of_nat k) sp spl spe e) = Ok tt d ->
  bump n (mk_dec (a ++ r) l sp spl spe e) = Ok tt d.
Proof.
  intros <- Hk Hl. unfold bump. cbn. unfold constant. intros [= <-].
  rewrite drop_app_ge by lia. do 3 f_equal; lia.
Qed.

Lemma rd_alloc n b l sp spl spe e :
  0 <= n <= spl -> spl < 65536 -> sp + spl <= spe ->
  alloc n (mk_dec b l sp spl spe e) = Ok sp (mk_dec b l (sp + n) (spl - n) spe e).
Proof.
  intros Hn Hs He. unfold alloc. cbn [d_sp d_sp_end]. case_if; [|lia]. cbn. unfold constant.
  by rewrite u16_small by lia.
Qed.

Lemma rd_fail_if b e d : b = false -> fail_if b e d = Ok tt d.
Proof. by intros ->. Qed.

Lemma rd_get {A} (f : dec -> A) d : get f d = Ok (f d) d.
Proof. done. Qed.
Lemma rd_ret {A} (a : A) d : dm_ret A a d = Ok a d.
Proof. done. Qed.
Lemma rd_set_len n b l sp spl spe e : set_len n (mk_dec b l sp spl spe e) = Ok tt (mk_dec b n sp spl spe e).
Proof. done. Qed.
Lemma rd_on_eth f b l sp spl spe e : on_eth f (mk_dec b l sp spl spe e) = Ok tt (mk_dec b l sp spl spe (f e)).
Proof. done. Qed.

(** [m] returns [a] with PROTOCOL_SUCCESS and leaves [e] in the ethernet header. *)
Definition returns {A} (m : dm (protocol_error * A)) (a : A) (e : ethernet) : dec -> Prop :=
  gets m (fun r d => r = (PROTOCOL_SUCCESS, a) /\ d_eth d = e).

(** The callee's view of the cursor is discarded. *)
Lemma gets_sub {A} (f : A -> hdr) old (m : dm (protocol_error * A)) (Q : _ -> dec -> Prop) a b l sp spl spe e e' :
  returns m a e' (mk_dec b l sp spl spe e) ->
  Q (PROTOCOL_SUCCESS, f a) (mk_dec b l sp spl spe e') ->
  gets (sub f old m) Q (mk_dec b l sp spl spe e).
Proof.
  unfold returns, gets, sub, call, mbind, dm_bind. destruct (m _) as [[r x] d'| |]; try done.
  intros [[= -> ->] <-] HQ. exact HQ.
Qed.

Ltac len_go :=
  rewrite ?length_app, ?be_split_length, ?le_split_length, ?length_take, ?length_replicate in *; cbn [length] in *.
Ltac rd_side := len_go; lia.

Ltac skip_side := len_go; reflexivity.
Ltac rd_be_go :=
  first [ apply rd_be; cbn; lia
        | eapply rd_be_skip; [skip_side | lia | cbn [Nat.sub]; rd_be_go] ].
Ltac rd_8_go :=
  first [ apply rd_8_be
        | apply rd_8
        | eapply rd_le_skip; [skip_side | lia | cbn [Nat.sub]; apply rd_8 || rd_8_go] ].
Ltac rd_le_go :=
  first [ apply rd_le; cbn; lia
        | apply rd_le_be
        | eapply rd_le_skip; [skip_side | lia | cbn [Nat.sub]; rd_le_go] ].
Ltac rd_bump_go :=
  first [ apply rd_bump; [rd_side | lia]
        | eapply rd_bump_skip; [skip_side | lia | lia | rd_bump_go] ].

(** Straight-line decoder code: [dec_prim] runs one statement. *)
Ltac dec_prim :=
  lazymatch goal with
  | |- get _ _ = _ => apply rd_get
  | |- len _ = _ => apply rd_get
  | |- sp_len _ = _ => apply rd_get
  | |- cur _ = _ => apply rd_get
  | |- ld_be _ _ _ = _ => rd_be_go
  | |- ld_le _ _ _ = _ => rd_le_go
  | |- ld8 _ _ = _ => rd_8_go
  | |- bump _ _ = _ => rd_bump_go
  | |- alloc _ _ = _ => apply rd_alloc; lia
  | |- fail_if _ _ _ = _ => apply rd_fail_if; first [lia | reflexivity]
  | |- mret _ _ = _ => apply rd_ret
  | |- publish _ _ _ = _ => apply rd_ret
  | |- set_len _ _ = _ => apply rd_set_len
  | |- on_eth _ _ = _ => apply rd_on_eth
  end.
Ltac dec_step :=
  lazymatch goal with
  | |- gets (_ ≫= _) _ _ => apply gets_bind
  | |- gets (fn _ _) _ _ => apply gets_fn
  | |- gets _ _ _ => eapply gets_eq; [dec_prim|]
  end.
Ltac dec_go := cbv zeta; repeat (cbv beta iota; cbn [d_len d_sp_len d_buf d_eth d_sp Z.eqb Pos.eqb]; dec_step).

(** ** ARP *)

Definition arp_bytes (code : Z) (sender : list Z) (sender_ip : Z) (target : list Z) (target_ip : Z) : list Z :=
  le_split 2 0x0100 ++ le_split 2 0x0008 ++ [6] ++ [4] ++ be_split 2 code ++
  sender ++ le_split 4 sender_ip ++ target ++ le_split 4 target_ip.

(** Addresses have six bytes; a NULL address is sent as zeros. *)
Definition mac_of (p : ptr) : list Z := match p with Some s => take 6 s | None => replicate 6 0 end.
Definition mac_ok (p : ptr) : Prop := match p with Some s => (6 <= length s)%nat | None => True end.

Lemma mac_of_length p : mac_ok p -> length (mac_of p) = 6%nat.
Proof. destruct p; cbn; intros H; [rewrite length_take; lia|done]. Qed.

Lemma run_put_mac p pre out room l0 :
  mac_ok p -> (6 <= length room)%nat ->
  put_or_zero p ETH_ADDR_LEN (wst pre out room l0) = WOk tt (wst pre (out ++ mac_of p) (drop 6 room) l0).
Proof.
  change ETH_ADDR_LEN with 6. intros Hp Hr. destruct p as [s|]; cbn [put_or_zero mac_of].
  - cbn in Hp. apply run_put_copy; [done|lia|lia].
  - by apply (run_put _ _ _ _ (replicate 6 0)).
Qed.

Ltac mac_step := eapply wp_eq; [apply run_put_mac; [assumption|wlen_side]|].

Lemma encode_arp_emits arp :
  mac_ok (arp_sender arp) -> mac_ok (arp_target arp) ->
  emits (encode_arp arp)
    (arp_bytes (arp_code arp) (mac_of (arp_sender arp)) (arp_sender_ip arp) (mac_of (arp_target arp)) (arp_target_ip arp))
    PROTOCOL_SUCCESS.
Proof.
  intros Hs Ht pre room l0 Hr. pose proof (mac_of_length _ Hs). pose proof (mac_of_length _ Ht).
  unfold arp_bytes, encode_arp in *. repeat (enc_go; try mac_step). enc_done.
Qed.

