(* ===== verification/PppRoundTrip.v ===== *)
(** Round trips of ARP and of the PPP control protocols: what the client sends in
    a Configure-Request is what the peer's decoder finds in it. *)
From S2P Require Import Prelude.
From S2P Require Import Const.
From S2P Require Import ProtoTypes.
From S2P Require Import Dec.
From S2P Require Import DecodePpp.
From S2P Require Import Enc.
From S2P Require Import EncodeApp.
From S2P Require Import EncodePpp.
From S2P Require Import RoundTrip.

(** ** Running an encoder and a decoder in a row *)

(** [m] run on an empty buffer of [n] bytes: result and the bytes it counted. *)
Definition emitted (m : wm protocol_error) (mem : list Z) : option (protocol_error * list Z) :=
  match m (mk_wr mem 0 0) with
  | WOk e w => Some (e, take (Z.to_nat (w_len w)) (w_mem w))
  | WFault => None
  end.

Lemma emits_emitted m bs a mem :
  emits m bs a -> (length bs + 8 <= length mem)%nat -> Z.of_nat (length bs) < 65536 -> emitted m mem = Some (a, bs).
Proof.
  intros Hm Hr Hl. specialize (Hm [] mem 0 Hr). unfold wp in Hm. unfold emitted.
  change (mk_wr mem 0 0) with (wst [] [] mem 0). destruct (m _) as [e w|]; [|done].
  destruct Hm as (-> & pos & room' & -> & _). unfold wat. cbn [w_mem w_len app].
  rewrite u16_small, Z.add_0_l, Nat2Z.id, take_app_length by lia. done.
Qed.

(** The result of a decoder on a packet. *)
Definition decoded {A} (m : dm (protocol_error * A)) (bs : list Z) (sp_len : Z) : option (protocol_error * A) :=
  match m (mk_dec bs (Z.of_nat (length bs)) 0 sp_len sp_len eth0) with
  | Ok r _ => Some r
  | _ => None
  end.

Lemma gets_decoded {A} (m : dm (protocol_error * A)) bs sp_len r :
  gets m (fun r' _ => r' = r) (mk_dec (bs ++ []) (Z.of_nat (length bs)) 0 sp_len sp_len eth0) ->
  decoded m bs sp_len = Some r.
Proof. rewrite app_nil_r. unfold gets, decoded. destruct (m _); [by intros ->|done..]. Qed.

Lemma gets_decoded_ex {A} (m : dm (protocol_error * A)) (P : A -> Prop) bs sp_len :
  gets m (fun r _ => r.1 = PROTOCOL_SUCCESS /\ P r.2) (mk_dec (bs ++ []) (Z.of_nat (length bs)) 0 sp_len sp_len eth0) ->
  exists a, decoded m bs sp_len = Some (PROTOCOL_SUCCESS, a) /\ P a.
Proof.
  rewrite app_nil_r. unfold gets, decoded. destruct (m _) as [[e a] d| |]; [|done..]. cbn. intros [-> H]. eauto.
Qed.

(** Loops. *)
Lemma gets_loop_step {T} fuel cond (body : T -> dm T) s Q d :
  cond s d = true -> gets (body s) (fun s' d' => gets (loop fuel cond body s') Q d') d ->
  gets (loop (S fuel) cond body s) Q d.
Proof. intros Hc H. unfold gets. cbn [loop]. rewrite Hc. by apply gets_bind in H. Qed.

Lemma gets_loop_end {T} fuel cond (body : T -> dm T) s (Q : T -> dec -> Prop) d :
  cond s d = false -> Q s d -> gets (loop (S fuel) cond body s) Q d.
Proof. intros Hc H. unfold gets. cbn [loop]. by rewrite Hc. Qed.

(** A loop that is known to end within [n] rounds has fuel for them. *)
Lemma gets_while {T} n cond (body : T -> dm T) s Q b l sp spl spe e :
  (n <= length b)%nat ->
  (forall k, gets (loop (S n + k) cond body s) Q (mk_dec b l sp spl spe e)) ->
  gets (while cond body s) Q (mk_dec b l sp spl spe e).
Proof.
  intros Hn H. unfold gets, while in *. cbn [d_buf]. specialize (H (length b - n)%nat).
  by replace (S (length b)) with (S n + (length b - n))%nat by lia.
Qed.

(** ** ARP *)

(** An ARP packet survives the round trip: with a NULL address sent as
    zeros, the receiver gets operation, addresses and protocol addresses back. *)
Theorem arp_roundtrip (arp : bbl_arp) (mem : list Z) :
  mac_ok (arp_sender arp) -> mac_ok (arp_target arp) -> 0 <= arp_code arp < 65536 ->
  0 <= arp_sender_ip arp < 2 ^ 32 -> 0 <= arp_target_ip arp < 2 ^ 32 -> (36 <= length mem)%nat ->
  exists bs arp', emitted (encode_arp arp) mem = Some (PROTOCOL_SUCCESS, bs) /\ length bs = 28%nat /\
    decoded decode_arp bs SCRATCHPAD_LEN = Some (PROTOCOL_SUCCESS, arp') /\
    arp_code arp' = arp_code arp /\ mac_of (arp_sender arp') = mac_of (arp_sender arp) /\
    arp_sender_ip arp' = arp_sender_ip arp /\ mac_of (arp_target arp') = mac_of (arp_target arp) /\
    arp_target_ip arp' = arp_target_ip arp.
Proof.
  intros Hs Ht Hc Hsi Hti Hm. pose proof (encode_arp_emits arp Hs Ht) as He.
  pose proof (mac_of_length _ Hs) as Ls. pose proof (mac_of_length _ Ht) as Lt.
  set (bs := arp_bytes _ _ _ _ _) in He. assert (Hl : length bs = 28%nat) by (unfold bs, arp_bytes; len_go; lia).
  exists bs. eexists. split; [apply emits_emitted; [done|lia|lia]|]. split; [done|]. split.
  - apply gets_decoded. rewrite Hl. unfold decode_arp, bs, arp_bytes. rewrite <-!app_assoc. const_go. dec_go. done.
  - cbn [arp_code arp_sender arp_sender_ip arp_target arp_target_ip mac_of].
    rewrite !take_app_exact by done. done.
Qed.

Lemma arp_roundtrip_witness :
  exists bs arp', emitted (encode_arp (mk_arp 1 (Some [2;0;0;0;0;1]) 0x0100000a None 0x0200000a)) (replicate 64 9) =
      Some (PROTOCOL_SUCCESS, bs) /\ length bs = 28%nat /\
    decoded decode_arp bs SCRATCHPAD_LEN = Some (PROTOCOL_SUCCESS, arp') /\
    arp_code arp' = 1 /\ mac_of (arp_sender arp') = [2;0;0;0;0;1] /\
    arp_sender_ip arp' = 0x0100000a /\ mac_of (arp_target arp') = [0;0;0;0;0;0] /\ arp_target_ip arp' = 0x0200000a.
Proof.
  apply (arp_roundtrip (mk_arp 1 (Some [2;0;0;0;0;1]) 0x0100000a None 0x0200000a) (replicate 64 9));
    cbn; lia.
Defined.

(** ** IPCP *)

(** The codes whose options the decoder parses. *)
Definition ipcp_code_ok (code : Z) : bool :=
  (code =? PPP_CODE_CONF_REQUEST) || (code =? PPP_CODE_CONF_ACK) || (code =? PPP_CODE_CONF_NAK)
  || (code =? PPP_CODE_CONF_REJECT).

Definition ipcp_opt (b : bool) (t v : Z) : list Z := if b then [t] ++ [6] ++ le_split 4 v else [].

Definition ipcp_opts (p : bbl_ipcp) : list Z :=
  ipcp_opt (ipcp_option_address p) PPP_IPCP_OPTION_ADDRESS (ipcp_address p) ++
  ipcp_opt (ipcp_option_dns1 p) PPP_IPCP_OPTION_DNS1 (ipcp_dns1 p) ++
  ipcp_opt (ipcp_option_dns2 p) PPP_IPCP_OPTION_DNS2 (ipcp_dns2 p).

Definition ipcp_bytes (p : bbl_ipcp) : list Z :=
  [ipcp_code p] ++ [ipcp_identifier p] ++ be_split 2 (4 + Z.of_nat (length (ipcp_opts p))) ++ ipcp_opts p.

Definition ipcp_ok (p : bbl_ipcp) : Prop :=
  0 <= ipcp_code p < 256 /\ 0 <= ipcp_identifier p < 256 /\ ipcp_options p = None /\
  0 <= ipcp_address p < 2 ^ 32 /\ 0 <= ipcp_dns1 p < 2 ^ 32 /\ 0 <= ipcp_dns2 p < 2 ^ 32.

Lemma run_ipcp_option b t v n pre out room l0 :
  0 <= t < 256 -> (length (ipcp_opt b t v) <= length room)%nat ->
  put_ipcp_option b t v n (wst pre out room l0) = WOk (n + Z.of_nat (length (ipcp_opt b t v)))
    (wst pre (out ++ ipcp_opt b t v) (drop (length (ipcp_opt b t v)) room) l0).
Proof.
  intros Ht. unfold put_ipcp_option, ipcp_opt. destruct b; intros Hr; len_go.
  - unfold put8, put_le. rewrite !u8_small by lia.
    repeat (eapply wst_bind; [apply run_put; wlen_side|]). unfold mret, wm_ret. f_equal.
    rewrite !drop_drop, <-!app_assoc. done.
  - unfold mret, wm_ret. by rewrite app_nil_r, drop_0, Z.add_0_r.
Qed.

Lemma encode_ipcp_emits p : ipcp_ok p -> emits (encode_ppp_ipcp p) (ipcp_bytes p) PROTOCOL_SUCCESS.
Proof.
  intros (Hc & Hi & Ho & Ha & H1 & H2) pre room l0 Hr. unfold ipcp_bytes, encode_ppp_ipcp in *.
  rewrite Ho. cbn [is_some andb]. set (n := 4 + _) in *. unfold ipcp_opts in *. len_go. enc_go.
  set (gap := take (Z.to_nat 2) _). assert (Hg : length gap = 2%nat) by (unfold gap; wlen_side).
  do 3 (eapply wp_eq; [apply run_ipcp_option; [in_range|wlen_side]|]; enc_go).
  match goal with |- wp (store_at _ (be_split 2 ?m)) _ _ => replace m with n by (unfold n, ipcp_opts; len_go; lia) end.
  u8_go. rewrite app_nil_l, <-!app_assoc.
  eapply wp_patch with (a := [ipcp_code p] ++ [ipcp_identifier p]) (old := gap);
    [by rewrite <-!app_assoc|unfold behind; len_go; lia|by rewrite be_split_length|].
  enc_go. split; [done|]. do 2 eexists. split; [rewrite <-!app_assoc; reflexivity|wlen_side].
Qed.

(** What the receiver keeps of an option: its value, if it was sent. *)
Definition opt_value (b : bool) (v : Z) : Z := if b then v else 0.

Ltac nat_go :=
  repeat match goal with |- context [Z.of_nat ?n] =>
    let v := eval vm_compute in (Z.of_nat n) in
    lazymatch v with Z0 => change (Z.of_nat n) with v | Zpos _ => change (Z.of_nat n) with v end end.
Ltac round r :=
  apply gets_loop_step; [cbn [d_len]; lia|]; unfold r, ppp_option; const_go; dec_go.
Ltac last_round := apply gets_loop_end; [cbn [d_len]; lia|]; dec_go.

Lemma decode_ipcp_reads p sp_len :
  ipcp_ok p -> ipcp_code_ok (ipcp_code p) = true -> 40 <= sp_len < 65536 ->
  exists p', decoded decode_ppp_ipcp (ipcp_bytes p) sp_len = Some (PROTOCOL_SUCCESS, p') /\
    (ipcp_code p' = ipcp_code p /\ ipcp_identifier p' = ipcp_identifier p /\ ipcp_unknown_options p' = false /\
     ipcp_option_address p' = ipcp_option_address p /\ ipcp_address p' = opt_value (ipcp_option_address p) (ipcp_address p) /\
     ipcp_option_dns1 p' = ipcp_option_dns1 p /\ ipcp_dns1 p' = opt_value (ipcp_option_dns1 p) (ipcp_dns1 p) /\
     ipcp_option_dns2 p' = ipcp_option_dns2 p /\ ipcp_dns2 p' = opt_value (ipcp_option_dns2 p) (ipcp_dns2 p)).
Proof.
  intros (Hc & Hi & Ho & Ha & H1 & H2) Hcode Hs. apply gets_decoded_ex.
  unfold decode_ppp_ipcp, ipcp_bytes, ipcp_opts, ppp_cp_header. rewrite <-!app_assoc.
  unfold ipcp_code_ok in Hcode. revert Hcode. set (c := ipcp_code p) in *. clearbody c. intros Hcode.
  destruct (ipcp_option_address p), (ipcp_option_dns1 p), (ipcp_option_dns2 p); cbn [ipcp_opt opt_value]; len_go;
    rewrite <-?app_assoc, ?app_nil_l; nat_go; revert Hcode; const_go; intros Hcode; dec_go; rewrite Hcode;
    first [apply (gets_while 3); [rd_side|] | apply (gets_while 0); [cbn; lia|]]; intros k; cbn [Nat.add];
    repeat round ipcp_round; last_round; done.
Qed.

Lemma ipcp_bytes_length p : (4 <= length (ipcp_bytes p) <= 22)%nat.
Proof.
  unfold ipcp_bytes, ipcp_opts. len_go.
  destruct (ipcp_option_address p), (ipcp_option_dns1 p), (ipcp_option_dns2 p); cbn; lia.
Qed.

(** C29. An IPCP packet with any of the address and DNS options survives the round
    trip: each option is found if and only if it was sent, with its value. *)
Theorem ipcp_roundtrip (p : bbl_ipcp) (mem : list Z) :
  ipcp_ok p -> ipcp_code_ok (ipcp_code p) = true -> (30 <= length mem)%nat ->
  exists bs p', emitted (encode_ppp_ipcp p) mem = Some (PROTOCOL_SUCCESS, bs) /\
    decoded decode_ppp_ipcp bs SCRATCHPAD_LEN = Some (PROTOCOL_SUCCESS, p') /\
    (ipcp_code p' = ipcp_code p /\ ipcp_identifier p' = ipcp_identifier p /\ ipcp_unknown_options p' = false /\
     ipcp_option_address p' = ipcp_option_address p /\ ipcp_address p' = opt_value (ipcp_option_address p) (ipcp_address p) /\
     ipcp_option_dns1 p' = ipcp_option_dns1 p /\ ipcp_dns1 p' = opt_value (ipcp_option_dns1 p) (ipcp_dns1 p) /\
     ipcp_option_dns2 p' = ipcp_option_dns2 p /\ ipcp_dns2 p' = opt_value (ipcp_option_dns2 p) (ipcp_dns2 p)).
Proof.
  intros Hp Hc Hm. pose proof (ipcp_bytes_length p).
  destruct (decode_ipcp_reads p SCRATCHPAD_LEN Hp Hc) as (p' & Hd & Hf); [in_range|].
  exists (ipcp_bytes p), p'. split; [|by split]. apply emits_emitted; [by apply encode_ipcp_emits|lia|lia].
Qed.

Definition example_ipcp : bbl_ipcp := mk_ipcp 1 7 None 0 0x0100000a 0 0x08080808 true false true false.

Lemma ipcp_roundtrip_witness :
  exists bs p', emitted (encode_ppp_ipcp example_ipcp) (replicate 40 3) = Some (PROTOCOL_SUCCESS, bs) /\
    decoded decode_ppp_ipcp bs SCRATCHPAD_LEN = Some (PROTOCOL_SUCCESS, p') /\
    (ipcp_code p' = 1 /\ ipcp_identifier p' = 7 /\ ipcp_unknown_options p' = false /\
     ipcp_option_address p' = true /\ ipcp_address p' = 0x0100000a /\ ipcp_option_dns1 p' = false /\ ipcp_dns1 p' = 0 /\
     ipcp_option_dns2 p' = true /\ ipcp_dns2 p' = 0x08080808).
Proof.
  apply (ipcp_roundtrip example_ipcp (replicate 40 3)); [|reflexivity|rewrite length_replicate; lia].
  unfold ipcp_ok, example_ipcp. cbn. split_and!; lia || done.
Defined.

(** ** LCP *)

Definition lcp_opt16 (t v : Z) : list Z := if nz v then [t] ++ [4] ++ be_split 2 v else [].
Definition lcp_opt32 (t v : Z) : list Z := if nz v then [t] ++ [6] ++ le_split 4 v else [].

Definition lcp_echo (code : Z) : bool := (code =? PPP_CODE_ECHO_REQUEST) || (code =? PPP_CODE_ECHO_REPLY).
Definition lcp_conf (code : Z) : bool :=
  (code =? PPP_CODE_CONF_REQUEST) || (code =? PPP_CODE_CONF_ACK) || (code =? PPP_CODE_CONF_NAK).

(** The body of a packet: the magic number of an echo, or the options. *)
Definition lcp_opts (p : bbl_lcp) : list Z :=
  if lcp_echo (lcp_code p) then le_split 4 (lcp_magic p)
  else lcp_opt16 PPP_LCP_OPTION_MRU (lcp_mru p) ++ lcp_opt16 PPP_LCP_OPTION_AUTH (lcp_auth p) ++
       lcp_opt32 PPP_LCP_OPTION_MAGIC (lcp_magic p).

Definition lcp_bytes (p : bbl_lcp) : list Z :=
  [lcp_code p] ++ [lcp_identifier p] ++ be_split 2 (4 + Z.of_nat (length (lcp_opts p))) ++ lcp_opts p.

Definition lcp_ok (p : bbl_lcp) : Prop :=
  0 <= lcp_code p < 256 /\ 0 <= lcp_identifier p < 256 /\ lcp_options p = None /\ lcp_padding p = 0 /\
  0 <= lcp_mru p < 65536 /\ 0 <= lcp_auth p < 65536 /\ 0 <= lcp_magic p < 2 ^ 32.

Lemma encode_lcp_emits p : lcp_ok p -> emits (encode_ppp_lcp p) (lcp_bytes p) PROTOCOL_SUCCESS.
Proof.
  intros (Hc & Hi & Ho & Hpad & Hm & Ha & Hg) pre room l0 Hr. unfold lcp_bytes, encode_ppp_lcp in *.
  change ((lcp_code p =? PPP_CODE_ECHO_REQUEST) || (lcp_code p =? PPP_CODE_ECHO_REPLY)) with (lcp_echo (lcp_code p)).
  rewrite Ho, Hpad. cbn [is_some andb]. change (nz 0) with false. unfold lcp_opts, lcp_opt16, lcp_opt32 in *.
  destruct (lcp_echo (lcp_code p)); [|destruct (nz (lcp_mru p)), (nz (lcp_auth p)), (nz (lcp_magic p))];
    len_go; enc_go; cbn [when];
    (set (gap := take (Z.to_nat 2) _); assert (Hgap : length gap = 2%nat) by (unfold gap; wlen_side);
     u8_go; rewrite app_nil_l, <-!app_assoc;
     eapply wp_patch with (a := [lcp_code p] ++ [lcp_identifier p]) (old := gap);
       [first [by rewrite <-!app_assoc | by rewrite app_assoc, app_nil_r]
       |unfold behind; len_go; lia|by rewrite be_split_length|];
     enc_go; split; [done|]; do 2 eexists; split; [rewrite ?app_nil_r, <-?app_assoc; reflexivity|wlen_side]).
Qed.

Lemma lcp_bytes_length p : (4 <= length (lcp_bytes p) <= 18)%nat.
Proof. unfold lcp_bytes, lcp_opts, lcp_opt16, lcp_opt32. repeat case_match; len_go; lia. Qed.

Lemma nz_false v : nz v = false -> v = 0.
Proof. unfold nz. lia. Qed.

Lemma decode_lcp_conf p sp_len :
  lcp_ok p -> lcp_conf (lcp_code p) = true -> 136 <= sp_len < 65536 ->
  exists p', decoded decode_ppp_lcp (lcp_bytes p) sp_len = Some (PROTOCOL_SUCCESS, p') /\
    (lcp_code p' = lcp_code p /\ lcp_identifier p' = lcp_identifier p /\ lcp_unknown_options p' = false /\
     lcp_mru p' = lcp_mru p /\ lcp_auth p' = lcp_auth p /\ lcp_magic p' = lcp_magic p).
Proof.
  intros (Hc & Hi & Ho & Hpad & Hm & Ha & Hg) Hcode Hs. apply gets_decoded_ex.
  unfold decode_ppp_lcp, lcp_bytes, ppp_cp_header, lcp_opts, lcp_opt16, lcp_opt32, lcp_body.
  assert (lcp_echo (lcp_code p) = false) as -> by (revert Hcode; unfold lcp_conf, lcp_echo; const_go; lia).
  unfold lcp_conf in Hcode.
  pose proof (nz_false (lcp_mru p)). pose proof (nz_false (lcp_auth p)). pose proof (nz_false (lcp_magic p)).
  revert Hcode. set (c := lcp_code p) in *. clearbody c. intros Hcode.
  destruct (nz (lcp_mru p)), (nz (lcp_auth p)), (nz (lcp_magic p)); len_go;
    rewrite <-?app_assoc, ?app_nil_l; nat_go; revert Hcode; const_go; intros Hcode; dec_go;
    replace (c =? 0) with false by lia; replace (c =? 8) with false by lia;
    replace ((c =? 9) || (c =? 10)) with false by lia; rewrite Hcode;
    first [apply (gets_while 3); [rd_side|] | apply (gets_while 0); [cbn; lia|]]; intros k; cbn [Nat.add];
    repeat round lcp_round; last_round;
    (split; [done|]); cbn [snd]; rewrite ?H, ?H0, ?H1 by done; done.
Qed.

Lemma decode_lcp_echo p sp_len :
  lcp_ok p -> lcp_echo (lcp_code p) = true -> 136 <= sp_len < 65536 ->
  exists p', decoded decode_ppp_lcp (lcp_bytes p) sp_len = Some (PROTOCOL_SUCCESS, p') /\
    (lcp_code p' = lcp_code p /\ lcp_identifier p' = lcp_identifier p /\ lcp_magic p' = lcp_magic p).
Proof.
  intros (Hc & Hi & Ho & Hpad & Hm & Ha & Hg) Hcode Hs. apply gets_decoded_ex.
  unfold decode_ppp_lcp, lcp_bytes, ppp_cp_header, lcp_opts, lcp_body. rewrite Hcode. unfold lcp_echo in Hcode.
  revert Hcode. set (c := lcp_code p) in *. clearbody c. intros Hcode. len_go.
  rewrite <-?app_assoc, ?app_nil_l; nat_go; revert Hcode; const_go; intros Hcode; dec_go.
  replace (c =? 0) with false by lia. replace (c =? 8) with false by lia. rewrite Hcode.
  change (4 <=? _) with true. dec_go. done.
Qed.

(** C13. An LCP Configure packet with any of MRU, authentication protocol and
    magic number, and an echo packet, survive the round trip. *)
Theorem lcp_roundtrip (p : bbl_lcp) (mem : list Z) :
  lcp_ok p -> lcp_conf (lcp_code p) || lcp_echo (lcp_code p) = true -> (26 <= length mem)%nat ->
  exists bs p', emitted (encode_ppp_lcp p) mem = Some (PROTOCOL_SUCCESS, bs) /\
    decoded decode_ppp_lcp bs SCRATCHPAD_LEN = Some (PROTOCOL_SUCCESS, p') /\
    lcp_code p' = lcp_code p /\ lcp_identifier p' = lcp_identifier p /\ lcp_magic p' = lcp_magic p /\
    (lcp_conf (lcp_code p) = true ->
     lcp_mru p' = lcp_mru p /\ lcp_auth p' = lcp_auth p /\ lcp_unknown_options p' = false).
Proof.
  intros Hp Hc Hm. pose proof (lcp_bytes_length p).
  assert (He : emitted (encode_ppp_lcp p) mem = Some (PROTOCOL_SUCCESS, lcp_bytes p))
    by (apply emits_emitted; [by apply encode_lcp_emits|lia|lia]).
  destruct (lcp_conf (lcp_code p)) eqn:E.
  - destruct (decode_lcp_conf p SCRATCHPAD_LEN Hp E) as (p' & Hd & Hf); [in_range|]. exists (lcp_bytes p), p'. tauto.
  - destruct (decode_lcp_echo p SCRATCHPAD_LEN Hp Hc) as (p' & Hd & Hf); [in_range|]. exists (lcp_bytes p), p'.
    split; [done|]. split; [done|]. split_and!; try tauto. done.
Qed.

Definition example_lcp : bbl_lcp := lcp0 {{ lcp_code := 1 ; lcp_identifier := 3 ; lcp_mru := 1492 ; lcp_magic := 0x01020304 }}.

Lemma lcp_roundtrip_witness :
  exists bs p', emitted (encode_ppp_lcp example_lcp) (replicate 40 3) = Some (PROTOCOL_SUCCESS, bs) /\
    decoded decode_ppp_lcp bs SCRATCHPAD_LEN = Some (PROTOCOL_SUCCESS, p') /\
    lcp_code p' = 1 /\ lcp_identifier p' = 3 /\ lcp_magic p' = 0x01020304 /\
    (lcp_conf 1 = true -> lcp_mru p' = 1492 /\ lcp_auth p' = 0 /\ lcp_unknown_options p' = false).
Proof.
  apply (lcp_roundtrip example_lcp (replicate 40 3)); [|reflexivity|rewrite length_replicate; lia].
  unfold lcp_ok, example_lcp. cbn. unfold constant. split_and!; lia || done.
Defined.
