(* ===== verification/StreamPacket.v ===== *)
(** The stream packets from the encoder to the decoder.

    A BBL header in UDP over IPv4 or IPv6, optionally in a PPPoE session, in a
    frame with up to two VLAN tags: the bytes [encode_ethernet] writes for it and
    what [decode_ethernet] gets back from them, layer by layer. *)
From S2P Require Import Prelude.
From S2P Require Import Const.
From S2P Require Import Checksum.
From S2P Require Import ProtoTypes.
From S2P Require Import Dec.
From S2P Require Import DecodePpp.
From S2P Require Import DecodeNet.
From S2P Require Import DecodeEth.
From S2P Require Import Enc.
From S2P Require Import EncodeApp.
From S2P Require Import EncodePpp.
From S2P Require Import EncodeEth.
From S2P Require Import RoundTrip.

(** ** BBL stream header *)

(** A header a stream sends: every field its type uses is set and in range. *)
Inductive bbl_ok : bbl_bbl -> Prop :=
| bbl_ok_unicast pad sub dir tos sid ifindex outer inner mcs mcg flow seq sec nsec :
    0 <= pad -> 0 <= sub < 256 -> 0 <= dir < 256 -> 0 <= tos < 256 -> 0 <= sid < 2 ^ 32 ->
    0 <= ifindex < 2 ^ 32 -> 0 <= outer < 65536 -> 0 <= inner < 65536 ->
    0 <= flow < 2 ^ 64 -> 0 <= seq < 2 ^ 64 -> 0 <= sec < 2 ^ 32 -> 0 <= nsec < 2 ^ 32 ->
    bbl_ok (mk_bbl (Some pad) BBL_TYPE_UNICAST sub dir tos sid (Some ifindex) (Some outer) (Some inner)
              mcs mcg flow seq sec nsec)
| bbl_ok_multicast pad sub dir tos sid ifindex outer inner mcs mcg flow seq sec nsec :
    0 <= pad -> 0 <= sub < 256 -> 0 <= dir < 256 -> 0 <= tos < 256 -> 0 <= sid < 2 ^ 32 ->
    0 <= mcs < 2 ^ 32 -> 0 <= mcg < 2 ^ 32 ->
    0 <= flow < 2 ^ 64 -> 0 <= seq < 2 ^ 64 -> 0 <= sec < 2 ^ 32 -> 0 <= nsec < 2 ^ 32 ->
    bbl_ok (mk_bbl (Some pad) BBL_TYPE_MULTICAST sub dir tos sid ifindex outer inner
              (Some mcs) (Some mcg) flow seq sec nsec).

(** What the receiver gets: the padding and the fields of the other type are not transmitted. *)
Definition bbl_received (b : bbl_bbl) : bbl_bbl :=
  if bbl_type b =? BBL_TYPE_UNICAST
  then b {{ bbl_padding := None ; bbl_mc_source := None ; bbl_mc_group := None }}
  else b {{ bbl_padding := None ; bbl_ifindex := None ; bbl_outer_vlan_id := None ; bbl_inner_vlan_id := None }}.

Definition or0 (o : option Z) : Z := match o with Some v => v | None => 0 end.

Definition bbl_bytes (b : bbl_bbl) : list Z :=
  replicate (Z.to_nat (or0 (bbl_padding b))) 0 ++
  le_split 8 BBL_MAGIC_NUMBER ++ [bbl_type b] ++ [bbl_sub_type b] ++ [bbl_direction b] ++ [bbl_tos b] ++
  le_split 4 (bbl_session_id b) ++
  (if bbl_type b =? BBL_TYPE_UNICAST
   then le_split 4 (or0 (bbl_ifindex b)) ++ le_split 2 (or0 (bbl_outer_vlan_id b)) ++ le_split 2 (or0 (bbl_inner_vlan_id b))
   else le_split 4 (or0 (bbl_mc_source b)) ++ le_split 4 (or0 (bbl_mc_group b))) ++
  le_split 8 (bbl_flow_id b) ++ le_split 8 (bbl_flow_seq b) ++ le_split 4 (bbl_tv_sec b) ++ le_split 4 (bbl_tv_nsec b).

Lemma wp_padding pad pre out room l0 (Q : unit -> wr -> Prop) :
  0 <= pad <= Z.of_nat (length room) ->
  (forall room', length room' = (length room - Z.to_nat pad)%nat ->
     Q tt (wst pre (out ++ replicate (Z.to_nat pad) 0) room' l0)) ->
  wp (when (nz pad) (put (replicate (Z.to_nat pad) 0))) Q (wst pre out room l0).
Proof.
  intros Hp HQ. unfold when, nz. destruct (pad =? 0) eqn:E; cbn [negb].
  - apply Z.eqb_eq in E. subst pad. specialize (HQ room). cbn in HQ. rewrite app_nil_r in HQ. apply HQ. lia.
  - eapply wp_eq; [apply run_put; rewrite length_replicate; lia|]. apply HQ.
    rewrite length_drop, length_replicate. lia.
Qed.

Lemma encode_bbl_emits b : bbl_ok b -> emits (encode_bbl b) (bbl_bytes b) PROTOCOL_SUCCESS.
Proof.
  intros Hb pre room l0 Hr. unfold bbl_bytes, encode_bbl in *.
  destruct Hb; cbn -[replicate le_split length app] in *; rewrite length_app, length_replicate in Hr;
    enc_go; (apply wp_padding; [lia|intros room1 Hl1]); enc_go; enc_done.
Qed.

Lemma rd_skip n c r l sp spl spe e :
  0 <= c -> l = c + Z.of_nat n -> l < 65536 ->
  (if c <? l then bump (l - c) else mret tt) (mk_dec (replicate n 0 ++ r) l sp spl spe e) =
    Ok tt (mk_dec r c sp spl spe e).
Proof.
  intros Hc Hl Hl'. destruct (c <? l) eqn:E.
  - rewrite rd_bump by (rewrite ?length_replicate; lia). do 2 f_equal. lia.
  - assert (n = 0%nat) as -> by lia. cbn. do 2 f_equal. lia.
Qed.

Lemma decode_bbl_reads b rest l sp spl spe e :
  bbl_ok b -> l = Z.of_nat (length (bbl_bytes b)) -> l < 65536 -> 64 <= spl < 65536 -> sp + spl <= spe ->
  returns decode_bbl (bbl_received b) e (mk_dec (bbl_bytes b ++ rest) l sp spl spe e).
Proof.
  intros Hb Hl Hl' Hs He. unfold returns, decode_bbl.
  destruct Hb; unfold bbl_bytes, bbl_received in *; cbn -[replicate le_split length app decode_bbl] in *;
    len_go; rewrite <-!app_assoc; const_go; dec_go;
    (eapply gets_eq; [apply rd_skip; lia|]); dec_go; done.
Qed.

(** ** UDP *)

(** The ports for which the receiver looks for a BBL header: its own, or a
    destination without another meaning and no QMX LI source. *)
Definition stream_ports (src dst : Z) : bool :=
  (dst =? BBL_UDP_PORT) ||
  negb ((dst =? DHCPV6_UDP_CLIENT) || (dst =? DHCPV6_UDP_SERVER) || (dst =? L2TP_UDP_PORT)
        || (dst =? DHCP_UDP_CLIENT) || (dst =? DHCP_UDP_SERVER) || (dst =? QMX_LI_UDP_PORT)
        || (dst =? LDP_PORT) || (src =? QMX_LI_UDP_PORT)).

Inductive udp_ok : udp_t -> bbl_bbl -> Prop :=
| udp_ok_bbl src dst n b :
    0 <= src < 65536 -> 0 <= dst < 65536 -> stream_ports src dst = true -> bbl_ok b ->
    udp_ok (mk_udp src dst n (Some UDP_PROTOCOL_BBL) (h_bbl b)) b.

Definition udp_bytes (u : udp_t) (n : Z) (payload : list Z) : list Z :=
  be_split 2 (udp_src u) ++ be_split 2 (udp_dst u) ++ be_split 2 n ++ [0; 0] ++ payload.

Lemma encode_udp_emits enc u b :
  udp_ok u b -> emits (encode_udp_body enc u) (udp_bytes u 0 (bbl_bytes b)) PROTOCOL_SUCCESS.
Proof.
  intros [src dst n b' Hs Hd _ Hb] pre room l0 Hr. pose proof (encode_bbl_emits _ Hb) as Hm.
  unfold udp_bytes, encode_udp_body in *. cbn [udp_src udp_dst udp_protocol udp_next use] in *.
  enc_go. change (le_split 4 0) with (be_split 2 0 ++ [0;0]). cbn [Z.eqb Pos.eqb].
  apply (wp_call _ _ _ _ _ _ _ _ Hm); [wlen_side|]. intros room1 Hl1. enc_done.
Qed.

Lemma udp_switch_other dec src dst d :
  stream_ports src dst = true -> dst <> BBL_UDP_PORT ->
  udp_switch dec src dst d = Ok (UNKNOWN_PROTOCOL, None, h_uninit) d.
Proof.
  unfold stream_ports, udp_switch. intros Hp Hd. apply Z.eqb_neq in Hd. rewrite Hd in *.
  cbn [orb] in Hp. apply negb_true_iff in Hp. repeat (apply orb_false_iff in Hp as [Hp ?]).
  by repeat match goal with H : (_ =? _) = false |- _ => rewrite H; clear H end.
Qed.

Definition udp_received (u : udp_t) (b : bbl_bbl) : udp_t :=
  mk_udp (udp_src u) (udp_dst u) (Z.of_nat (length (bbl_bytes b))) (Some UDP_PROTOCOL_BBL) (h_bbl (bbl_received b)).

Definition eth_with_bbl (b : bbl_bbl) (eth : ethernet) : ethernet := eth {{ eth_bbl := p_to (bbl_received b) }}.

Lemma decode_udp_reads dec u b rest n l sp spl spe e :
  udp_ok u b -> n = 8 + Z.of_nat (length (bbl_bytes b)) -> n <= l < 65536 -> 88 <= spl < 65536 -> sp + spl <= spe ->
  returns (decode_udp_body dec) (udp_received u b) (eth_with_bbl b e)
    (mk_dec (udp_bytes u n (bbl_bytes b) ++ rest) l sp spl spe e).
Proof.
  intros [src dst n0 b' Hs Hd Hp Hb] Hn Hl Hs' He. unfold returns, decode_udp_body, udp_bytes. const_go.
  cbn [udp_src udp_dst]. rewrite <-!app_assoc. dec_go.
  assert (Hb' : returns decode_bbl (bbl_received b') e
    (mk_dec (bbl_bytes b' ++ rest) (n - 8) (sp + 24) (spl - 24) spe e))
    by (apply decode_bbl_reads; [done|lia..]).
  assert (Hlen : n - 8 = Z.of_nat (length (bbl_bytes b'))) by lia.
  destruct (Z.eq_dec dst BBL_UDP_PORT) as [->|Hne].
  - unfold udp_switch. const_go. cbn [Z.eqb Pos.eqb orb]. dec_go.
    eapply gets_sub; [exact Hb'|]. dec_go. case_bool_decide; [done|]. dec_go.
    split; [by rewrite Hlen|done].
  - eapply gets_eq; [by apply udp_switch_other|]. dec_go. case_bool_decide; [|done].
    assert ((src =? 49152) = false) as ->.
    { unfold stream_ports in Hp. apply Z.eqb_neq in Hne. rewrite Hne in Hp. revert Hp. const_go. lia. }
    dec_go. eapply gets_sub; [exact Hb'|]. dec_go. case_bool_decide; [|done]. dec_go.
    split; [by rewrite Hlen|done].
Qed.

(** ** IPv4 *)

(** The checksum of a header, over exactly its bytes. *)
Definition hdr_checksum (h : list Z) : Z := or0 (Inet.bbl_checksum h (Z.of_nat (length h))).

Lemma hdr_checksum_spec h q :
  bytes h -> Z.of_nat (length h) < 65536 ->
  Inet.bbl_checksum (h ++ q) (Z.of_nat (length h)) = Some (hdr_checksum h) /\ 0 <= hdr_checksum h < 65536.
Proof.
  intros Hb Hl. unfold hdr_checksum, Inet.bbl_checksum.
  rewrite Inet.checksum_spec, Inet.checksum_spec_full by done. cbn [mbind option_bind].
  pose proof (Inet.wsum_bound (length h) h ltac:(lia) Hb) as Hw.
  destruct (Inet.fold_spec (Inet.wsum h)) as (f & E & Hf & _); [lia|]. rewrite E. cbn [mbind option_bind or0].
  rewrite Inet.not16_spec by lia. split; [done|lia].
Qed.

Lemma wp_checksum pos pre out h q room l0 p n (Q : Z -> wr -> Prop) :
  out = h ++ q -> p = length pre -> n = Z.of_nat (length h) -> bytes h -> n < 65536 ->
  Q (hdr_checksum h) (wat pos pre out room l0) ->
  wp (checksum_of p n) Q (wat pos pre out room l0).
Proof.
  intros -> -> -> Hb Hn HQ. eapply wp_eq; [|exact HQ]. unfold checksum_of. cbn [wat w_mem].
  assert (E : drop (length pre) (pre ++ (h ++ q) ++ room) = h ++ q ++ room)
    by (by rewrite drop_app_length, app_assoc).
  rewrite E. by rewrite (proj1 (hdr_checksum_spec h _ Hb Hn)).
Qed.

Inductive ipv4_ok : ipv4_t -> udp_t -> bbl_bbl -> Prop :=
| ipv4_ok_udp src dst tos ttl id off n hdr u b p pn :
    0 <= src < 2 ^ 32 -> 0 <= dst < 2 ^ 32 -> 0 <= tos < 256 -> 0 <= ttl < 256 -> 0 <= id < 65536 ->
    off = 0 \/ off = IPV4_DF -> udp_ok u b ->
    ipv4_ok (mk_ipv4 src dst tos ttl PROTOCOL_IPV4_UDP false id off n hdr (h_udp u) p pn) u b.

(** The header with total length [n] and checksum [c]. *)
Definition ipv4_header (i : ipv4_t) (n c : Z) : list Z :=
  [0x45] ++ [ipv4_tos i] ++ be_split 2 n ++ be_split 2 (ipv4_id i) ++ be_split 2 (ipv4_offset i) ++
  [ipv4_ttl i] ++ [ipv4_protocol i] ++ le_split 2 c ++ le_split 4 (ipv4_src i) ++ le_split 4 (ipv4_dst i).

Definition ipv4_bytes (i : ipv4_t) (u : udp_t) (b : bbl_bbl) : list Z :=
  let n := 28 + Z.of_nat (length (bbl_bytes b)) in
  ipv4_header i n (hdr_checksum (ipv4_header i n 0)) ++ udp_bytes u (n - 20) (bbl_bytes b).

Lemma ipv4_header_length i n c : length (ipv4_header i n c) = 20%nat.
Proof. unfold ipv4_header. by rewrite !length_app, !be_split_length, !le_split_length. Qed.
Lemma udp_bytes_length u n p : length (udp_bytes u n p) = (8 + length p)%nat.
Proof. unfold udp_bytes. by rewrite !length_app, !be_split_length. Qed.

Lemma ipv4_header_bytes i u b n : ipv4_ok i u b -> bytes (ipv4_header i n 0).
Proof.
  intros [???????????? ?????? _]. unfold ipv4_header. cbn [ipv4_tos ipv4_ttl ipv4_protocol ipv4_id ipv4_offset ipv4_src ipv4_dst].
  const_go. repeat (apply bytes_app; split); auto with bbl; repeat constructor; lia.
Qed.

(** The length of the datagram goes into the UDP header. *)
Lemma wp_ipv4_payload enc i u b pre out room l0 (Q : protocol_error -> wr -> Prop) n :
  ipv4_ok i u b -> emits (enc u) (udp_bytes u 0 (bbl_bytes b)) PROTOCOL_SUCCESS ->
  n = 8 + Z.of_nat (length (bbl_bytes b)) -> n < 65536 -> n + 8 <= Z.of_nat (length room) ->
  (forall room', Z.of_nat (length room') = Z.of_nat (length room) - n ->
     Q PROTOCOL_SUCCESS (wat (behind pre out) pre (out ++ udp_bytes u n (bbl_bytes b)) room' l0)) ->
  wp (ipv4_put_payload enc i) Q (wst pre out room l0).
Proof.
  intros [src dst tos ttl id off n1 hdr u1 b1 p pn ? ? ? ? ? ? Hu] Hm Hn Hl Hr HQ.
  unfold ipv4_put_payload. cbn [ipv4_protocol ipv4_next as_udp]. enc_go. const_go. cbn [Z.eqb Pos.eqb]. enc_go.
  apply (wp_call _ _ _ _ _ _ _ _ Hm); [rewrite udp_bytes_length; lia|]. rewrite udp_bytes_length. intros room1 Hl1.
  enc_go. rewrite (len_diff _ _ _ n) by (rewrite ?udp_bytes_length; lia).
  eapply wp_patch with (a := out ++ be_split 2 (udp_src u1) ++ be_split 2 (udp_dst u1)) (old := be_split 2 0).
  - unfold udp_bytes. rewrite <-!app_assoc. done.
  - unfold behind. rewrite !length_app, !be_split_length. lia.
  - by rewrite !be_split_length.
  - destruct Hu. cbn [udp_protocol use when Z.eqb Pos.eqb negb andb]. enc_go. cbn [Z.eqb Pos.eqb negb andb when].
    enc_go. specialize (HQ room1 ltac:(lia)). unfold udp_bytes in HQ. rewrite <-!app_assoc. done.
Qed.

Lemma encode_ipv4_emits enc i u b :
  ipv4_ok i u b -> emits (enc u) (udp_bytes u 0 (bbl_bytes b)) PROTOCOL_SUCCESS ->
  28 + Z.of_nat (length (bbl_bytes b)) < 65536 ->
  emits (encode_ipv4_with enc i) (ipv4_bytes i u b) PROTOCOL_SUCCESS.
Proof.
  intros Hi Hm Hl pre room l0 Hr. unfold ipv4_bytes in *. set (n := 28 + _) in *.
  pose proof (ipv4_header_bytes i u b n Hi) as Hh.
  rewrite length_app, ipv4_header_length, udp_bytes_length in Hr.
  unfold encode_ipv4_with. assert (ipv4_router_alert_option i = false) as -> by (by destruct Hi).
  enc_go. cbn [when]. enc_go.
  eapply wp_ipv4_payload; [done|done|reflexivity|lia|wlen_side|]. intros room1 Hl1. enc_go.
  set (gap := take (Z.to_nat 2) _). assert (Hg : length gap = 2%nat) by (unfold gap; wlen_side).
  rewrite u16_sub. replace (u16 _) with n
    by (rewrite <-(u16_small n) by lia; f_equal; rewrite !length_app, udp_bytes_length, Hg; len_go; lia).
  replace (8 + Z.of_nat (length (bbl_bytes b))) with (n - 20) by lia.
  assert (u8 (ipv4_tos i) = ipv4_tos i /\ u8 (ipv4_ttl i) = ipv4_ttl i /\ u8 (ipv4_protocol i) = ipv4_protocol i)
    as (-> & -> & ->) by (destruct Hi; cbn; rewrite !u8_small by in_range; done).
  change (u8 (Z.lor 64 5)) with 0x45. rewrite app_nil_l, <-!app_assoc.
  eapply wp_patch with (a := [0x45] ++ [ipv4_tos i]) (old := gap);
    [by rewrite <-!app_assoc|unfold behind; cbn [length app]; lia|by rewrite be_split_length|].
  rewrite <-!app_assoc.
  enc_go. eapply wp_checksum with (h := ipv4_header i n 0) (q := udp_bytes u (n - 20) (bbl_bytes b));
    [unfold ipv4_header; by rewrite <-!app_assoc|unfold behind; cbn [length]; lia
    |rewrite ipv4_header_length; lia|done|lia|].
  enc_go. eapply wp_patch with (old := le_split 2 0) (a := [0x45] ++ [ipv4_tos i] ++ be_split 2 n ++
      be_split 2 (ipv4_id i) ++ be_split 2 (ipv4_offset i) ++ [ipv4_ttl i] ++ [ipv4_protocol i]);
    [by rewrite <-!app_assoc|unfold behind; len_go; lia|by rewrite !le_split_length|].
  enc_go. split; [done|]. do 2 eexists. split.
  - unfold ipv4_header. rewrite <-!app_assoc. done.
  - rewrite length_app, ipv4_header_length, udp_bytes_length. wlen_side.
Qed.

(** What the receiver gets, with the packet behind the header in [rest]. *)
Definition ipv4_received (i : ipv4_t) (u : udp_t) (b : bbl_bbl) (rest : list Z) : ipv4_t :=
  let n := 28 + Z.of_nat (length (bbl_bytes b)) in
  mk_ipv4 (ipv4_src i) (ipv4_dst i) (ipv4_tos i) (ipv4_ttl i) (ipv4_protocol i) false (ipv4_id i) (ipv4_offset i) n
    (ipv4_bytes i u b ++ rest) (h_udp (udp_received u b)) (Some (udp_bytes u (n - 20) (bbl_bytes b) ++ rest)) (n - 20).

Lemma decode_ipv4_reads dec i u b rest l sp spl spe e :
  ipv4_ok i u b -> 28 + Z.of_nat (length (bbl_bytes b)) <= l < 65536 -> 144 <= spl < 65536 -> sp + spl <= spe ->
  returns (decode_ipv4_with (decode_udp_body dec)) (ipv4_received i u b rest)
    (eth_with_bbl b (eth_learn_ttl (ipv4_ttl i) (eth_learn_tos (ipv4_tos i) e)))
    (mk_dec (ipv4_bytes i u b ++ rest) l sp spl spe e).
Proof.
  intros Hi Hl Hs He. pose proof (ipv4_header_bytes i u b (28 + Z.of_nat (length (bbl_bytes b))) Hi) as Hh.
  unfold returns, decode_ipv4_with, ipv4_received, ipv4_bytes. set (n := 28 + _) in *.
  destruct (hdr_checksum_spec _ [] Hh) as [_ Hc]; [rewrite ipv4_header_length; lia|].
  set (c := hdr_checksum _) in *. clearbody c. clear Hh.
  destruct Hi as [src dst tos ttl id off n1 hdr u1 b1 p pn ? ? ? ? ? Hoff Hu].
  unfold ipv4_header in *. cbn [ipv4_tos ipv4_ttl ipv4_protocol ipv4_id ipv4_offset ipv4_src ipv4_dst].
  assert (0 <= off < 65536) by (revert Hoff; const_go; lia).
  rewrite <-!app_assoc. const_go. dec_go. change (Z.land 69 15 * 4) with 20. dec_go.
  rewrite (u16_small (n - 20)) by lia. dec_go.
  replace (Z.ldiff off 16384 =? 0) with true by (by destruct Hoff as [->| ->]). cbn [negb]. dec_go.
  eapply gets_sub; [apply decode_udp_reads; [done|lia..]|]. dec_go. done.
Qed.

(** ** IPv6 *)

Inductive ipv6_ok : ipv6_t -> udp_t -> bbl_bbl -> Prop :=
| ipv6_ok_udp src dst tos ttl n hdr u b p pn :
    (16 <= length src)%nat -> (16 <= length dst)%nat -> 0 <= tos < 256 -> 0 <= ttl < 256 -> udp_ok u b ->
    ipv6_ok (mk_ipv6 src dst tos ttl IPV6_NEXT_HEADER_UDP n hdr (h_udp u) p pn) u b.

(** The first four bytes: version, traffic class and a zero flow label. *)
Definition ipv6_word (tos : Z) : list Z := [96 + tos / 16; tos mod 16 * 16; 0; 0].

Definition ipv6_bytes (i : ipv6_t) (u : udp_t) (b : bbl_bbl) : list Z :=
  let n := 8 + Z.of_nat (length (bbl_bytes b)) in
  ipv6_word (ipv6_tos i) ++ be_split 2 n ++ [ipv6_protocol i] ++ [ipv6_ttl i] ++
  take 16 (ipv6_src i) ++ take 16 (ipv6_dst i) ++ udp_bytes u n (bbl_bytes b).

Lemma ipv6_bytes_length i u b : ipv6_ok i u b -> length (ipv6_bytes i u b) = (48 + length (bbl_bytes b))%nat.
Proof. intros []. unfold ipv6_bytes, ipv6_word. cbn [ipv6_src ipv6_dst]. len_go. rewrite udp_bytes_length. cbn [length]. lia. Qed.

Lemma wp_ipv6_payload enc i u b pre out room l0 (Q : protocol_error * Z -> wr -> Prop) n :
  ipv6_ok i u b -> emits (enc u) (udp_bytes u 0 (bbl_bytes b)) PROTOCOL_SUCCESS ->
  n = 8 + Z.of_nat (length (bbl_bytes b)) -> n < 65536 -> n + 8 <= Z.of_nat (length room) ->
  (forall room', Z.of_nat (length room') = Z.of_nat (length room) - n ->
     Q (PROTOCOL_SUCCESS, n) (wat (behind pre out) pre (out ++ udp_bytes u n (bbl_bytes b)) room' l0)) ->
  wp (ipv6_put_payload enc i) Q (wst pre out room l0).
Proof.
  intros [src dst tos ttl n1 hdr u1 b1 p pn ? ? ? ? Hu] Hm Hn Hl Hr HQ.
  unfold ipv6_put_payload. cbn [ipv6_protocol ipv6_next as_udp]. enc_go. const_go. cbn [Z.eqb Pos.eqb]. enc_go.
  apply (wp_call _ _ _ _ _ _ _ _ Hm); [rewrite udp_bytes_length; lia|]. rewrite udp_bytes_length. intros room1 Hl1.
  enc_go. rewrite (len_diff _ _ _ n) by (rewrite ?udp_bytes_length; lia).
  eapply wp_patch with (a := out ++ be_split 2 (udp_src u1) ++ be_split 2 (udp_dst u1)) (old := be_split 2 0).
  - unfold udp_bytes. rewrite <-!app_assoc. done.
  - unfold behind. rewrite !length_app, !be_split_length. lia.
  - by rewrite !be_split_length.
  - destruct Hu. cbn [udp_protocol use when Z.eqb Pos.eqb negb andb]. enc_go. cbn [Z.eqb Pos.eqb negb andb when].
    enc_go. specialize (HQ room1 ltac:(lia)). unfold udp_bytes in HQ. rewrite <-!app_assoc. done.
Qed.

Lemma ipv6_word_spec tos : 0 <= tos < 256 ->
  be_split 2 (Z.shiftl tos 4) = [tos / 16; tos mod 16 * 16] /\ u8 (Z.lor (tos / 16) (Z.shiftl 6 4)) = 96 + tos / 16 /\
  Z.land (Z.shiftr (96 + tos / 16) 4) 0xf = 6 /\
  u8 (Z.shiftr (be_combine [96 + tos / 16; tos mod 16 * 16]) 4) = tos.
Proof.
  intros Ht. set (P := fun tos =>
    bool_decide (be_split 2 (Z.shiftl tos 4) = [tos / 16; tos mod 16 * 16]) &&
    (u8 (Z.lor (tos / 16) (Z.shiftl 6 4)) =? 96 + tos / 16) &&
    (Z.land (Z.shiftr (96 + tos / 16) 4) 0xf =? 6) &&
    (u8 (Z.shiftr (be_combine [96 + tos / 16; tos mod 16 * 16]) 4) =? tos)).
  pose proof (byte_cases P ltac:(vm_compute; reflexivity) tos Ht) as H. unfold P in H.
  rewrite !andb_true_iff, bool_decide_eq_true, !Z.eqb_eq in H. tauto.
Qed.

(** The eight bytes of the buffer that are cleared before the header is built. *)
Lemma wp_ipv6_start {A} tos (k : wm A) pre room l0 Q :
  0 <= tos < 256 -> (8 <= length room)%nat ->
  wp k Q (wst pre [] (ipv6_word tos ++ [0; 0; 0; 0] ++ drop 8 room) l0) ->
  wp (store 0 (replicate 8 0);; store 0 (be_split 2 (Z.shiftl tos 4));; b ← load8 0;
      store 0 [u8 (Z.lor b (Z.shiftl 6 4))];; k) Q (wst pre [] room l0).
Proof.
  intros Ht Hr Hk. destruct (ipv6_word_spec tos Ht) as (E1 & E2 & _). rewrite E1.
  apply wp_bind. eapply wp_eq; [apply run_store; cbn; lia|]. rewrite take_0. cbn [length replicate Nat.add app].
  apply wp_bind. eapply wp_eq; [apply run_store; cbn; lia|]. rewrite take_0. cbn [length Nat.add app drop].
  apply wp_bind. eapply wp_eq; [by apply run_load8|]. rewrite E2.
  apply wp_bind. eapply wp_eq; [apply run_store; cbn; lia|]. rewrite take_0. cbn [length Nat.add app drop].
  exact Hk.
Qed.

Lemma encode_ipv6_emits enc i u b :
  ipv6_ok i u b -> emits (enc u) (udp_bytes u 0 (bbl_bytes b)) PROTOCOL_SUCCESS ->
  48 + Z.of_nat (length (bbl_bytes b)) < 65536 ->
  emits (encode_ipv6_with enc i) (ipv6_bytes i u b) PROTOCOL_SUCCESS.
Proof.
  intros Hi Hm Hl pre room l0 Hr. pose proof (ipv6_bytes_length _ _ _ Hi) as Hlen. rewrite Hlen in Hr.
  unfold encode_ipv6_with. do 2 enc_step. apply wp_ipv6_start; [by destruct Hi|lia|].
  assert ((16 <= length (ipv6_src i))%nat /\ (16 <= length (ipv6_dst i))%nat) as [Hs Hd] by (by destruct Hi).
  change IPV6_ADDR_LEN with 16. unfold ipv6_word in *.
  enc_go. eapply wp_eq; [eapply run_put_copy; [done|lia|wlen_side]|].
  enc_go. eapply wp_eq; [eapply run_put_copy; [done|lia|wlen_side]|].
  enc_go. eapply wp_ipv6_payload; [done|done|reflexivity|lia|wlen_side|]. intros room1 Hl1. enc_go.
  assert (u8 (ipv6_ttl i) = ipv6_ttl i /\ u8 (ipv6_protocol i) = ipv6_protocol i) as (-> & ->)
    by (destruct Hi; cbn; rewrite !u8_small by in_range; done).
  change (take (Z.to_nat 4) _) with (ipv6_word (ipv6_tos i)). change (take (Z.to_nat 2) _) with [0; 0].
  change (Z.to_nat 16) with 16%nat in *. rewrite app_nil_l, <-!app_assoc.
  eapply wp_patch with (a := ipv6_word (ipv6_tos i)) (old := [0; 0]); [done|unfold behind; cbn [length ipv6_word]; lia|done|]. enc_go.
  split; [done|]. do 2 eexists. split; [unfold ipv6_bytes; done|]. rewrite Hlen. wlen_side.
Qed.

Definition ipv6_received (i : ipv6_t) (u : udp_t) (b : bbl_bbl) (rest : list Z) : ipv6_t :=
  let n := 8 + Z.of_nat (length (bbl_bytes b)) in
  mk_ipv6 (take 16 (ipv6_src i) ++ take 16 (ipv6_dst i) ++ udp_bytes u n (bbl_bytes b) ++ rest)
    (take 16 (ipv6_dst i) ++ udp_bytes u n (bbl_bytes b) ++ rest) (ipv6_tos i) (ipv6_ttl i) (ipv6_protocol i) (40 + n)
    (ipv6_bytes i u b ++ rest) (h_udp (udp_received u b))
    (Some (udp_bytes u n (bbl_bytes b) ++ rest)) n.

Lemma decode_ipv6_reads dec i u b rest l sp spl spe e :
  ipv6_ok i u b -> 48 + Z.of_nat (length (bbl_bytes b)) <= l < 65536 -> 144 <= spl < 65536 -> sp + spl <= spe ->
  returns (decode_ipv6_with (decode_udp_body dec)) (ipv6_received i u b rest)
    (eth_with_bbl b (eth_learn_ttl (ipv6_ttl i) (eth_learn_tos (ipv6_tos i) e)))
    (mk_dec (ipv6_bytes i u b ++ rest) l sp spl spe e).
Proof.
  intros Hi Hl Hs He. destruct (ipv6_word_spec (ipv6_tos i)) as (_ & _ & E3 & E4); [by destruct Hi|].
  unfold returns, decode_ipv6_with, ipv6_received, ipv6_bytes.
  set (n := 8 + Z.of_nat (length (bbl_bytes b))) in *.
  destruct Hi as [src dst tos ttl n1 hdr u1 b1 p pn Hsrc Hdst ? ? Hu].
  cbn [ipv6_tos ipv6_ttl ipv6_protocol ipv6_src ipv6_dst] in *.
  assert (length (take 16 src) = 16%nat /\ length (take 16 dst) = 16%nat) as [? ?] by (rewrite !length_take; lia).
  rewrite <-!app_assoc. const_go. unfold ipv6_word. dec_go.
  match goal with |- context [[?a] ++ ?b :: ?c :: ?d :: ?r] =>
    change ([a] ++ b :: c :: d :: r) with ([a; b; c; d] ++ r) end.
  eapply gets_eq; [reflexivity|]. change (take 2 _) with [96 + tos / 16; tos mod 16 * 16]. rewrite E4. dec_go.
  eapply gets_sub; [apply decode_udp_reads; [done|lia..]|]. dec_go. by rewrite u16_small by lia.
Qed.

(** ** IP packets *)

Inductive l3 := L4 (i : ipv4_t) | L6 (i : ipv6_t).

Definition l3_hdr (x : l3) : hdr := match x with L4 i => h_ipv4 i | L6 i => h_ipv6 i end.
Definition l3_ok (x : l3) (u : udp_t) (b : bbl_bbl) : Prop :=
  match x with L4 i => ipv4_ok i u b | L6 i => ipv6_ok i u b end.
Definition l3_bytes (x : l3) (u : udp_t) (b : bbl_bbl) : list Z :=
  match x with L4 i => ipv4_bytes i u b | L6 i => ipv6_bytes i u b end.
Definition l3_received (x : l3) (u : udp_t) (b : bbl_bbl) (rest : list Z) : l3 :=
  match x with L4 i => L4 (ipv4_received i u b rest) | L6 i => L6 (ipv6_received i u b rest) end.
Definition l3_type (x : l3) : Z := match x with L4 _ => ETH_TYPE_IPV4 | L6 _ => ETH_TYPE_IPV6 end.
Definition l3_protocol (x : l3) : Z := match x with L4 _ => PROTOCOL_IPV4 | L6 _ => PROTOCOL_IPV6 end.
Definition l3_learn (x : l3) (b : bbl_bbl) (e : ethernet) : ethernet :=
  match x with
  | L4 i => eth_with_bbl b (eth_learn_ttl (ipv4_ttl i) (eth_learn_tos (ipv4_tos i) e))
  | L6 i => eth_with_bbl b (eth_learn_ttl (ipv6_ttl i) (eth_learn_tos (ipv6_tos i) e))
  end.

Definition l3_size (x : l3) (b : bbl_bbl) : Z :=
  match x with L4 _ => 28 | L6 _ => 48 end + Z.of_nat (length (bbl_bytes b)).

Lemma l3_bytes_length x u b : l3_ok x u b -> Z.of_nat (length (l3_bytes x u b)) = l3_size x b.
Proof.
  destruct x; intros Hi; unfold l3_size; cbn [l3_bytes].
  - unfold ipv4_bytes. rewrite length_app, ipv4_header_length, udp_bytes_length. lia.
  - rewrite (ipv6_bytes_length _ _ _ Hi). lia.
Qed.

Lemma encode_l3_emits enc x u b :
  l3_ok x u b -> l3_size x b < 65536 ->
  match x with
  | L4 i => emits (encode_ipv4_with (encode_udp_body enc) i) (l3_bytes x u b) PROTOCOL_SUCCESS
  | L6 i => emits (encode_ipv6_with (encode_udp_body enc) i) (l3_bytes x u b) PROTOCOL_SUCCESS
  end.
Proof.
  unfold l3_size. destruct x as [i|i]; cbn [l3_ok l3_bytes]; intros Hi Hl.
  - apply encode_ipv4_emits; [done|apply encode_udp_emits; by destruct Hi|lia].
  - apply encode_ipv6_emits; [done|apply encode_udp_emits; by destruct Hi|lia].
Qed.

(** ** PPPoE session *)

Definition pppoe_bytes (sid : Z) (x : l3) (u : udp_t) (b : bbl_bbl) : list Z :=
  [17] ++ [0] ++ be_split 2 sid ++ be_split 2 (l3_size x b + 2) ++ be_split 2 (l3_protocol x) ++ l3_bytes x u b.

Definition pppoe_of (sid : Z) (x : l3) : pppoe_session := mk_pppoe_session sid (l3_protocol x) 0 false (l3_hdr x).

Lemma wp_ppp_payload enc x u b pre out room l0 (Q : protocol_error -> wr -> Prop) :
  l3_ok x u b -> l3_size x b < 65536 -> l3_size x b + 8 <= Z.of_nat (length room) ->
  (forall room', Z.of_nat (length room') = Z.of_nat (length room) - l3_size x b ->
     Q PROTOCOL_SUCCESS (wat (behind pre out) pre (out ++ l3_bytes x u b) room' l0)) ->
  wp (ppp_put_payload (encode_udp_body enc) (l3_protocol x) (l3_hdr x)) Q (wst pre out room l0).
Proof.
  intros Hx Hl Hr HQ. pose proof (l3_bytes_length _ _ _ Hx) as Hn.
  pose proof (encode_l3_emits enc x u b Hx ltac:(lia)) as Hm. unfold ppp_put_payload.
  destruct x as [i|i]; cbn [l3_protocol l3_hdr]; const_go; cbn [Z.eqb Pos.eqb];
    (eapply wp_call; [exact Hm|lia|]); intros room1 Hl1; apply HQ; lia.
Qed.

Lemma encode_pppoe_emits enc sid x u b :
  l3_ok x u b -> 0 <= sid < 65536 -> l3_size x b + 2 < 65536 ->
  emits (encode_pppoe_session_with (encode_udp_body enc) (pppoe_of sid x)) (pppoe_bytes sid x u b) PROTOCOL_SUCCESS.
Proof.
  intros Hx Hsid Hl pre room l0 Hr. pose proof (l3_bytes_length _ _ _ Hx) as Hn.
  unfold pppoe_bytes in *. len_go. unfold encode_pppoe_session_with, pppoe_of.
  cbn [ps_session_id ps_protocol ps_raw_len ps_lwip ps_next nz Z.eqb negb]. enc_go.
  set (gap := take (Z.to_nat 2) _). assert (Hg : length gap = 2%nat) by (unfold gap; wlen_side).
  eapply wp_ppp_payload; [done|lia|wlen_side|]. intros room1 Hl1. enc_go.
  rewrite (len_diff _ _ _ (l3_size x b)) by lia. rewrite u16_small by lia.
  change (u8 17) with 17. change (u8 0) with 0. rewrite app_nil_l, <-!app_assoc.
  eapply wp_patch with (a := [17] ++ [0] ++ be_split 2 sid) (old := gap);
    [by rewrite <-!app_assoc|unfold behind; len_go; lia|by rewrite be_split_length|]. enc_go.
  split; [done|]. do 2 eexists. split; [by rewrite <-!app_assoc|wlen_side].
Qed.

(** The PPP payload at the receiver. *)
Lemma gets_ppp_payload dudp x u b rest l sp spl spe e old unknown (Q : _ -> dec -> Prop) :
  l3_ok x u b -> l3_size x b <= l < 65536 -> 144 <= spl < 65536 -> sp + spl <= spe ->
  Q (PROTOCOL_SUCCESS, l3_hdr (l3_received x u b rest)) (mk_dec (l3_bytes x u b ++ rest) l sp spl spe (l3_learn x b e)) ->
  gets (ppp_payload (decode_udp_body dudp) (l3_protocol x) old unknown) Q (mk_dec (l3_bytes x u b ++ rest) l sp spl spe e).
Proof.
  unfold l3_size, ppp_payload. destruct x as [i|i]; cbn [l3_protocol l3_bytes l3_ok l3_received l3_learn l3_hdr];
    intros Hx Hl Hs He HQ; const_go; cbn [Z.eqb Pos.eqb].
  - eapply gets_sub; [apply decode_ipv4_reads; [done|lia..]|done].
  - eapply gets_sub; [apply decode_ipv6_reads; [done|lia..]|done].
Qed.

Lemma decode_pppoe_reads dec sid x u b rest l sp spl spe e :
  l3_ok x u b -> 0 <= sid < 65536 -> l3_size x b + 8 <= l < 65536 -> 160 <= spl < 65536 -> sp + spl <= spe ->
  returns (decode_pppoe_session_with (decode_udp_body dec)) (pppoe_of sid (l3_received x u b rest)) (l3_learn x b e)
    (mk_dec (pppoe_bytes sid x u b ++ rest) l sp spl spe e).
Proof.
  intros Hx Hsid Hl Hs He. unfold returns, decode_pppoe_session_with, pppoe_bytes.
  assert (0 < l3_size x b) by (unfold l3_size; destruct x; lia).
  assert (Hp : 0 <= l3_protocol x < 65536) by (destruct x; vm_compute; split; [discriminate|done|discriminate|done]).
  rewrite <-!app_assoc. set (proto := l3_protocol x) in *. const_go. dec_go.
  replace (u16 _) with (l3_size x b) by (rewrite u16_small; lia). dec_go.
  eapply gets_ppp_payload; [done|lia..|]. dec_go. split; [|done]. unfold pppoe_of. by destruct x.
Qed.

(** ** Frames *)

Definition pay_hdr (s : option Z) (x : l3) : hdr :=
  match s with Some sid => h_pppoe_session (pppoe_of sid x) | None => l3_hdr x end.
Definition pay_type (s : option Z) (x : l3) : Z :=
  match s with Some _ => ETH_TYPE_PPPOE_SESSION | None => l3_type x end.
Definition pay_bytes (s : option Z) (x : l3) (u : udp_t) (b : bbl_bbl) : list Z :=
  match s with Some sid => pppoe_bytes sid x u b | None => l3_bytes x u b end.
Definition pay_size (s : option Z) (x : l3) (b : bbl_bbl) : Z :=
  match s with Some _ => 8 | None => 0 end + l3_size x b.

Lemma pay_bytes_length s x u b : l3_ok x u b -> Z.of_nat (length (pay_bytes s x u b)) = pay_size s x b.
Proof.
  intros Hx. pose proof (l3_bytes_length _ _ _ Hx). unfold pay_size. destruct s; cbn [pay_bytes]; [|lia].
  unfold pppoe_bytes. len_go. lia.
Qed.

(** Tags: an inner tag needs an outer one, a third one an inner one. *)
Definition vlan_ok (eth : ethernet) : Prop :=
  0 <= eth_vlan_outer eth < 4096 /\ 0 <= eth_vlan_inner eth < 4096 /\ 0 <= eth_vlan_three eth < 4096 /\
  0 <= eth_vlan_outer_priority eth < 8 /\ 0 <= eth_vlan_inner_priority eth < 8 /\
  (eth_vlan_outer eth = 0 -> eth_vlan_inner eth = 0 /\ eth_vlan_outer_priority eth = 0) /\
  (eth_vlan_inner eth = 0 -> eth_vlan_three eth = 0 /\ eth_vlan_inner_priority eth = 0).

Record frame_ok (eth : ethernet) (dst src : list Z) (s : option Z) (x : l3) (u : udp_t) (b : bbl_bbl) : Prop := {
  fo_dst : eth_dst eth = Some dst /\ (6 <= length dst)%nat;
  fo_src : eth_src eth = Some src /\ (6 <= length src)%nat;
  fo_vlan : vlan_ok eth;
  fo_type : eth_type eth = pay_type s x;
  fo_mpls : eth_mpls eth = [];
  fo_raw : eth_raw_len eth = 0 /\ eth_lwip eth = false;
  fo_next : eth_next eth = pay_hdr s x;
  fo_l3 : l3_ok x u b;
  fo_sid : match s with Some sid => 0 <= sid < 65536 | None => True end
}.

Definition tag (v p : Z) : Z := v + p * 8192.

Lemma tag_spec v p : 0 <= v < 4096 -> 0 <= p < 8 ->
  u16 (Z.lor v (Z.shiftl p 13)) = tag v p /\ 0 <= tag v p < 65536 /\
  Z.shiftr (tag v p / 256 mod 256) 5 = p /\ Z.land (tag v p) 4095 = v.
Proof.
  intros Hv Hp. unfold tag. rewrite Z.shiftl_mul_pow2 by lia. change (2 ^ 13) with 8192.
  assert (E : Z.lor v (p * 8192) = v + p * 8192).
  { rewrite <-Z.add_lor_land. replace (Z.land v (p * 8192)) with 0; [lia|]. symmetry.
    apply Z.bits_inj_0. intros n. rewrite Z.land_spec. change 8192 with (2 ^ 13).
    destruct (Z.ltb_spec n 13).
    - rewrite Z.mul_pow2_bits_low by lia. apply andb_false_r.
    - destruct (Z.eq_dec v 0) as [->|]; [by rewrite Z.bits_0|].
      rewrite Z.bits_above_log2; [done|lia|]. apply Z.log2_lt_pow2; [lia|].
      pose proof (Z.pow_le_mono_r 2 12 n ltac:(lia) ltac:(lia)). lia. }
  rewrite E, u16_small by lia. split; [done|]. split; [lia|]. split.
  - rewrite Z.shiftr_div_pow2 by lia. change (2 ^ 5) with 32.
    rewrite Z.mod_small by (split; [apply Z.div_pos|apply Z.div_lt_upper_bound]; lia).
    rewrite Z.div_div by lia. symmetry. apply (Z.div_unique _ _ _ v); lia.
  - change 4095 with (Z.ones 12). rewrite Z.land_ones by lia. change (2 ^ 12) with 4096. symmetry.
    apply (Z.mod_unique _ _ (2 * p)); lia.
Qed.

Definition vlan_bytes (eth : ethernet) : list Z :=
  if nz (eth_vlan_outer eth) then
    be_split 2 (if eth_qinq eth then ETH_TYPE_QINQ else ETH_TYPE_VLAN) ++
    be_split 2 (tag (eth_vlan_outer eth) (eth_vlan_outer_priority eth)) ++
    if nz (eth_vlan_inner eth) then
      be_split 2 ETH_TYPE_VLAN ++ be_split 2 (tag (eth_vlan_inner eth) (eth_vlan_inner_priority eth)) ++
      if nz (eth_vlan_three eth) then be_split 2 ETH_TYPE_VLAN ++ be_split 2 (eth_vlan_three eth) else []
    else []
  else [].

Lemma vlan_bytes_length eth : (length (vlan_bytes eth) <= 12)%nat.
Proof. unfold vlan_bytes. repeat case_match; len_go; lia. Qed.

(** The encoder merges priorities and identifiers in the structure. *)
Definition eth_sent (eth : ethernet) : ethernet :=
  if nz (eth_vlan_outer eth) then
    let eth1 := eth {{ eth_vlan_outer := tag (eth_vlan_outer eth) (eth_vlan_outer_priority eth) }} in
    if nz (eth_vlan_inner eth)
    then eth1 {{ eth_vlan_inner := tag (eth_vlan_inner eth) (eth_vlan_inner_priority eth) }} else eth1
  else eth.

Lemma wp_put_vlans eth pre out room l0 (Q : ethernet -> wr -> Prop) :
  vlan_ok eth -> (12 <= length room)%nat ->
  (forall room', length room' = (length room - length (vlan_bytes eth))%nat ->
     Q (eth_sent eth) (wst pre (out ++ vlan_bytes eth) room' l0)) ->
  wp (put_vlans eth) Q (wst pre out room l0).
Proof.
  intros (Ho & Hi & Ht & Hop & Hip & _) Hr. destruct (tag_spec _ _ Ho Hop) as [E1 _]. destruct (tag_spec _ _ Hi Hip) as [E2 _].
  unfold put_vlans, vlan_bytes, eth_sent. rewrite E1. clear E1.
  destruct (nz (eth_vlan_outer eth)) eqn:N1; intros HQ; [|enc_go; specialize (HQ room); rewrite app_nil_r in HQ; apply HQ; cbn; lia].
  enc_go. destruct eth. cbn -[be_split length nz tag] in *. rewrite E2.
  destruct (nz eth_vlan_inner); [destruct (nz eth_vlan_three)|]; cbn [when]; enc_go;
    rewrite ?app_nil_r in HQ; rewrite <-?app_assoc; apply HQ; wlen_side.
Qed.

Definition eth_bytes (eth : ethernet) (dst src : list Z) (s : option Z) (x : l3) (u : udp_t) (b : bbl_bbl) : list Z :=
  take 6 dst ++ take 6 src ++ vlan_bytes eth ++ be_split 2 (pay_type s x) ++ pay_bytes s x u b.

Lemma eth_bytes_length eth dst src s x u b :
  frame_ok eth dst src s x u b ->
  Z.of_nat (length (eth_bytes eth dst src s x u b)) = 14 + Z.of_nat (length (vlan_bytes eth)) + pay_size s x b.
Proof.
  intros [[_ ?] [_ ?] _ _ _ _ _ Hx _]. pose proof (pay_bytes_length s _ _ _ Hx). unfold eth_bytes. len_go. lia.
Qed.

Lemma eth_sent_fields eth :
  eth_type (eth_sent eth) = eth_type eth /\ eth_mpls (eth_sent eth) = eth_mpls eth /\
  eth_raw_len (eth_sent eth) = eth_raw_len eth /\ eth_lwip (eth_sent eth) = eth_lwip eth /\
  eth_next (eth_sent eth) = eth_next eth.
Proof. unfold eth_sent. repeat case_match; by destruct eth. Qed.

(** The payload of the frame. *)
Lemma encode_pay_emits enc s x u b :
  l3_ok x u b -> match s with Some sid => 0 <= sid < 65536 | None => True end -> pay_size s x b < 65536 ->
  match s, x with
  | Some sid, _ => emits (encode_pppoe_session_with (encode_udp_body enc) (pppoe_of sid x)) (pay_bytes s x u b) PROTOCOL_SUCCESS
  | None, L4 i => emits (encode_ipv4_with (encode_udp_body enc) i) (pay_bytes s x u b) PROTOCOL_SUCCESS
  | None, L6 i => emits (encode_ipv6_with (encode_udp_body enc) i) (pay_bytes s x u b) PROTOCOL_SUCCESS
  end.
Proof.
  unfold pay_size. destruct s as [sid|]; intros Hx Hs Hl.
  - apply encode_pppoe_emits; [done|done|lia].
  - pose proof (encode_l3_emits enc x u b Hx ltac:(lia)) as H. by destruct x.
Qed.

Lemma encode_ethernet_emits enc eth dst src s x u b pre room l0 :
  frame_ok eth dst src s x u b -> pay_size s x b < 65536 ->
  pay_size s x b + 40 <= Z.of_nat (length room) ->
  wp (encode_ethernet_with (encode_udp_body enc) eth)
    (fun r w => r = (PROTOCOL_SUCCESS, eth_sent eth) /\ exists pos room', w = wat pos pre (eth_bytes eth dst src s x u b) room' l0 /\
       length room' = (length room - length (eth_bytes eth dst src s x u b))%nat)
    (wst pre [] room l0).
Proof.
  intros Hf Hl Hr. pose proof (eth_sent_fields eth) as (F1 & F2 & F3 & F4 & F5).
  destruct Hf as [[Hd Hd'] [Hs Hs'] Hv Ht Hm [Hraw Hlw] Hn Hx Hsid].
  pose proof (encode_pay_emits enc s x u b Hx Hsid Hl) as He.
  pose proof (pay_bytes_length s _ _ _ Hx) as Hplen. pose proof (vlan_bytes_length eth) as Hvlen.
  unfold encode_ethernet_with, put_mac. rewrite Hd, Hs. change ETH_ADDR_LEN with 6.
  enc_go. eapply wp_eq; [eapply run_put_copy; [done|lia|lia]|].
  enc_go. eapply wp_eq; [eapply run_put_copy; [done|lia|wlen_side]|].
  enc_go. apply wp_put_vlans; [done|wlen_side|]. intros room1 Hl1.
  rewrite F1, F2, F3, F4, F5, Ht, Hm, Hraw, Hlw, Hn.
  assert (Hbd : bool_decide (@nil bbl_mpls = []) = true) by (by apply bool_decide_eq_true). rewrite Hbd.
  replace (pay_type s x =? ISIS_PROTOCOL_IDENTIFIER) with false by (by destruct s, x). cbn [andb]. enc_go.
  change (nz 0) with false. cbv iota.
  match goal with |- wp _ ?Q ?w =>
    assert (Hfin : forall m, emits m (pay_bytes s x u b) PROTOCOL_SUCCESS -> wp (wcall m) Q w) end.
  { intros m Hem. eapply wp_call; [exact Hem|wlen_side|]. intros room2 Hl2. enc_go. split; [done|].
    do 2 eexists. unfold eth_bytes. rewrite app_nil_l, <-!app_assoc. split; [reflexivity|wlen_side]. }
  destruct s as [sid|]; [|destruct x]; cbn [pay_type pay_hdr l3_type l3_hdr]; const_go; cbn [Z.eqb Pos.eqb];
    by apply Hfin.
Qed.

(** *** The receiver *)

Definition vlan_learn (t e : ethernet) : ethernet :=
  if nz (eth_vlan_outer t) then
    let e1 := e {{ eth_vlan_outer_priority := eth_vlan_outer_priority t ; eth_vlan_outer := eth_vlan_outer t }} in
    if nz (eth_vlan_inner t) then
      let e2 := e1 {{ eth_vlan_inner_priority := eth_vlan_inner_priority t ; eth_vlan_inner := eth_vlan_inner t }} in
      if nz (eth_vlan_three t) then e2 {{ eth_vlan_three := eth_vlan_three t }} else e2
    else e1
  else e.

(** The ethertypes of tags and payloads as the decoder reads them. *)
Lemma tag_types :
  is_vlan (le_combine (be_split 2 ETH_TYPE_VLAN)) = true /\ is_vlan (le_combine (be_split 2 ETH_TYPE_QINQ)) = true /\
  (le_combine (be_split 2 ETH_TYPE_VLAN) =? ETH_TYPE_QINQ) = false /\
  (le_combine (be_split 2 ETH_TYPE_QINQ) =? ETH_TYPE_QINQ) = false.
Proof. by vm_compute. Qed.

Lemma gets_vlans {A} t ty (k : Z -> dm A) rest l sp spl spe e Q :
  vlan_ok t -> is_vlan (le_combine (be_split 2 ty)) = false ->
  2 + Z.of_nat (length (vlan_bytes t)) <= l < 65536 ->
  gets (k (le_combine (be_split 2 ty))) Q
    (mk_dec rest (l - 2 - Z.of_nat (length (vlan_bytes t))) sp spl spe (vlan_learn t e)) ->
  gets (type ← ld_le 0 2; bump 2;; type ← eth_vlans type; k type) Q
    (mk_dec (vlan_bytes t ++ be_split 2 ty ++ rest) l sp spl spe e).
Proof.
  intros (Ho & Hi & Ht & Hop & Hip & _) Hty. destruct tag_types as (T1 & T2 & T3 & T4).
  destruct (tag_spec _ _ Ho Hop) as (_ & R1 & P1 & V1). destruct (tag_spec _ _ Hi Hip) as (_ & R2 & P2 & V2).
  assert (V3 : Z.land (eth_vlan_three t) 4095 = eth_vlan_three t)
    by (change 4095 with (Z.ones 12); rewrite Z.land_ones, Z.mod_small by lia; lia).
  unfold vlan_bytes, vlan_learn, eth_vlans. change BBL_ETH_VLAN_ID_MAX with 4095.
  set (T := if eth_qinq t then _ else _).
  assert (is_vlan (le_combine (be_split 2 T)) = true /\ (le_combine (be_split 2 T) =? ETH_TYPE_QINQ) = false) as [T5 T6]
    by (unfold T; by destruct (eth_qinq t)).
  clearbody T. intros Hl Hk.
  destruct (nz (eth_vlan_outer t)); [destruct (nz (eth_vlan_inner t)); [destruct (nz (eth_vlan_three t))|]|];
    rewrite ?app_nil_r, <-?app_assoc in *; cbn [app] in *; len_go;
    repeat progress (dec_go; rewrite ?T5, ?T6, ?T1, ?Hty, ?P1, ?V1, ?P2, ?V2, ?V3);
    (refine (eq_ind _ (fun z => gets _ _ (mk_dec _ z _ _ _ _)) Hk _ _); lia).
Qed.

(** What the receiver of [l] bytes gets. *)
Definition eth_received (t : ethernet) (dst src : list Z) (s : option Z) (x : l3) (u : udp_t) (b : bbl_bbl)
    (rest : list Z) (l : Z) : ethernet :=
  let wire := eth_bytes t dst src s x u b ++ rest in
  let e := eth0 {{ eth_length := l ; eth_dst := Some wire ; eth_src := Some (drop 6 wire) }} in
  (l3_learn x b ((vlan_learn t e) {{ eth_type := pay_type s x }})) {{ eth_next := pay_hdr s (l3_received x u b rest) }}.

Lemma pay_types s x :
  let raw := le_combine (be_split 2 (pay_type s x)) in
  is_vlan raw = false /\ (raw =? NB_ETH_TYPE_MPLS) = false /\ be16toh raw = pay_type s x.
Proof. destruct s, x; by vm_compute. Qed.

Lemma decode_ethernet_reads dudp t dst src s x u b rest l sp spl spe e :
  frame_ok t dst src s x u b ->
  Z.of_nat (length (eth_bytes t dst src s x u b)) <= l < 65536 -> 240 <= spl < 65536 -> sp + spl <= spe ->
  returns (decode_ethernet_with (decode_udp_body dudp)) (eth_received t dst src s x u b rest l)
    (eth_received t dst src s x u b rest l) (mk_dec (eth_bytes t dst src s x u b ++ rest) l sp spl spe e).
Proof.
  intros Hf Hl Hs He. rewrite (eth_bytes_length _ _ _ _ _ _ _ Hf) in Hl.
  destruct (pay_types s x) as (T1 & T2 & T3). cbv zeta in *.
  destruct Hf as [[_ Hd] [_ Hsrc] Hv _ _ _ _ Hx Hsid].
  assert (0 <= pay_size s x b) by (unfold pay_size, l3_size; destruct s, x; lia).
  assert (length (take 6 dst) = 6%nat /\ length (take 6 src) = 6%nat) as [Hld Hls] by (rewrite !length_take; lia).
  unfold returns, eth_received, decode_ethernet_with.
  replace (drop 6 (eth_bytes t dst src s x u b ++ rest))
    with (take 6 src ++ vlan_bytes t ++ be_split 2 (pay_type s x) ++ pay_bytes s x u b ++ rest)
    by (unfold eth_bytes; rewrite <-!app_assoc; by rewrite (drop_app_exact (take 6 dst))).
  unfold eth_bytes. rewrite <-!app_assoc.
  change sizeof_bbl_ethernet_header with 80. change ETH_ADDR_LEN with 6. dec_go.
  apply gets_unbind, gets_vlans; [done|done|lia|].
  unfold eth_mpls_stack. rewrite T2. dec_go. rewrite T3. dec_go.
  unfold pay_size, l3_size in *.
  destruct s as [sid|]; [|destruct x as [i|i]]; cbn [pay_type pay_hdr pay_bytes l3_type l3_bytes l3_ok l3_hdr l3_learn l3_received] in *;
    const_go; cbn [Z.eqb Pos.eqb].
  - eapply gets_sub; [apply decode_pppoe_reads; [done|done|unfold l3_size; destruct x; lia|lia..]|]. dec_go. done.
  - eapply gets_sub; [apply decode_ipv4_reads; [done|lia..]|]. dec_go. done.
  - eapply gets_sub; [apply decode_ipv6_reads; [done|lia..]|]. dec_go. done.
Qed.

(** ** The round trip *)

(** The contents of a stream packet: addresses, tags, session, IP header fields,
    ports and BBL header. *)
Record stream_view := mk_view {
  v_dst : list Z;
  v_src : list Z;
  v_vlans : Z * Z * Z * Z * Z;
  v_session : option Z;
  v_ip : (Z * Z * Z * Z * Z * Z) + (list Z * list Z * Z * Z);
  v_ports : Z * Z;
  v_bbl : bbl_bbl
}.

Definition view_l3 (h : hdr) : option (((Z * Z * Z * Z * Z * Z) + (list Z * list Z * Z * Z)) * (Z * Z) * bbl_bbl) :=
  let payload (n : hdr) := match n with
                           | h_udp (mk_udp src dst _ _ (h_bbl b)) => Some (src, dst, bbl_received b)
                           | _ => None
                           end in
  match h with
  | h_ipv4 i =>
      '(src, dst, b) ← payload (ipv4_next i);
      Some (inl (ipv4_src i, ipv4_dst i, ipv4_tos i, ipv4_ttl i, ipv4_id i, ipv4_offset i), (src, dst), b)
  | h_ipv6 i =>
      '(src, dst, b) ← payload (ipv6_next i);
      Some (inr (take 16 (ipv6_src i), take 16 (ipv6_dst i), ipv6_tos i, ipv6_ttl i), (src, dst), b)
  | _ => None
  end.

Definition view (eth : ethernet) : option stream_view :=
  dst ← eth_dst eth; src ← eth_src eth;
  let '(session, h) := match eth_next eth with
                       | h_pppoe_session p => (Some (ps_session_id p), ps_next p)
                       | h => (None, h)
                       end in
  '(ip, ports, b) ← view_l3 h;
  Some (mk_view (take 6 dst) (take 6 src)
    (eth_vlan_outer eth, eth_vlan_outer_priority eth, eth_vlan_inner eth, eth_vlan_inner_priority eth, eth_vlan_three eth)
    session ip ports b).

Lemma bbl_received_idem b : bbl_received (bbl_received b) = bbl_received b.
Proof.
  unfold bbl_received. destruct (bbl_type b =? BBL_TYPE_UNICAST) eqn:E; destruct b; cbn -[Z.eqb] in *; by rewrite E.
Qed.

Lemma view_l3_received x u b rest : l3_ok x u b -> view_l3 (l3_hdr (l3_received x u b rest)) = view_l3 (l3_hdr x).
Proof.
  destruct x as [i|i]; cbn [l3_ok]; intros Hx.
  - destruct Hx as [? ? ? ? ? ? ? ? ? ? ? ? ? ? ? ? ? ? Hu]. destruct Hu. cbn -[take]. by rewrite bbl_received_idem.
  - destruct Hx as [s d ? ? ? ? ? ? ? ? Hs Hd ? ? Hu]. destruct Hu. cbn -[take app]. rewrite bbl_received_idem.
    by rewrite !take_app_exact by (rewrite length_take; lia).
Qed.

Lemma l3_learn_fields x b e :
  eth_dst (l3_learn x b e) = eth_dst e /\ eth_src (l3_learn x b e) = eth_src e /\
  eth_vlan_outer (l3_learn x b e) = eth_vlan_outer e /\ eth_vlan_outer_priority (l3_learn x b e) = eth_vlan_outer_priority e /\
  eth_vlan_inner (l3_learn x b e) = eth_vlan_inner e /\ eth_vlan_inner_priority (l3_learn x b e) = eth_vlan_inner_priority e /\
  eth_vlan_three (l3_learn x b e) = eth_vlan_three e /\ eth_bbl (l3_learn x b e) = p_to (bbl_received b).
Proof.
  unfold l3_learn, eth_with_bbl, eth_learn_tos, eth_learn_ttl. destruct x as [i|i], e; repeat case_match; done.
Qed.

Lemma vlan_learn_fields t e :
  vlan_ok t -> eth_vlan_outer e = 0 -> eth_vlan_outer_priority e = 0 -> eth_vlan_inner e = 0 ->
  eth_vlan_inner_priority e = 0 -> eth_vlan_three e = 0 ->
  eth_dst (vlan_learn t e) = eth_dst e /\ eth_src (vlan_learn t e) = eth_src e /\
  eth_vlan_outer (vlan_learn t e) = eth_vlan_outer t /\
  eth_vlan_outer_priority (vlan_learn t e) = eth_vlan_outer_priority t /\
  eth_vlan_inner (vlan_learn t e) = eth_vlan_inner t /\
  eth_vlan_inner_priority (vlan_learn t e) = eth_vlan_inner_priority t /\
  eth_vlan_three (vlan_learn t e) = eth_vlan_three t.
Proof.
  destruct t, e. unfold vlan_learn, vlan_ok, nz. cbn. intros (Ho & Hi & Ht & Hop & Hip & H1 & H2) ? ? ? ? ?.
  repeat case_match; cbn; unfold constant; bool_to_prop; split_and!; try done; lia.
Qed.

(** The frame a stream sends, for some addresses, session, IP packet and BBL
    header with the padding [pad]. *)
Definition stream_frame (eth : ethernet) (pad : Z) (b : bbl_bbl) : Prop :=
  exists dst src s x u, frame_ok eth dst src s x u b /\ bbl_padding b = Some pad.

Lemma stream_frame_size s x b pad : bbl_ok b -> bbl_padding b = Some pad ->
  0 <= pad /\ pay_size s x b <= pad + 104.
Proof.
  intros Hb Hp. assert (0 <= pad /\ Z.of_nat (length (bbl_bytes b)) = 48 + pad) as [? ?].
  { destruct Hb; cbn in Hp; injection Hp as ->; (split; [lia|]); unfold bbl_bytes; cbn -[replicate le_split length app]; len_go; lia. }
  unfold pay_size, l3_size. destruct s, x; lia.
Qed.

Lemma eth_received_fields t dst src s x u b rest l :
  vlan_ok t ->
  let e := eth_received t dst src s x u b rest l in let wire := eth_bytes t dst src s x u b ++ rest in
  eth_dst e = Some wire /\ eth_src e = Some (drop 6 wire) /\
  eth_vlan_outer e = eth_vlan_outer t /\ eth_vlan_outer_priority e = eth_vlan_outer_priority t /\
  eth_vlan_inner e = eth_vlan_inner t /\ eth_vlan_inner_priority e = eth_vlan_inner_priority t /\
  eth_vlan_three e = eth_vlan_three t /\ eth_bbl e = p_to (bbl_received b) /\
  eth_next e = pay_hdr s (l3_received x u b rest).
Proof.
  intros Hv. cbv zeta. unfold eth_received. set (wire := _ ++ rest).
  match goal with |- context [vlan_learn t ?e0] =>
    destruct (vlan_learn_fields t e0 Hv) as (V1 & V2 & V3 & V4 & V5 & V6 & V7); [done..|];
    set (e := vlan_learn t e0) in * end.
  match goal with |- context [l3_learn x b ?e0] =>
    destruct (l3_learn_fields x b e0) as (L1 & L2 & L3 & L4' & L5 & L6' & L7 & L8); set (e1 := l3_learn x b e0) in * end.
  clearbody e e1. destruct e, e1. cbn -[drop] in *. by subst.
Qed.

Lemma view_received t dst src s x u b rest l :
  frame_ok t dst src s x u b -> view (eth_received t dst src s x u b rest l) = view t.
Proof.
  intros [[Hd Hd'] [Hs Hs'] Hv Ht Hm _ Hn Hx Hsid]. pose proof (view_l3_received x u b rest Hx) as E.
  destruct (eth_received_fields t dst src s x u b rest l Hv) as (F1 & F2 & F3 & F4 & F5 & F6 & F7 & _ & F8).
  unfold view. rewrite F1, F2, F3, F4, F5, F6, F7, F8, Hd, Hs, Hn. cbn [mbind option_bind].
  unfold eth_bytes. rewrite <-!app_assoc.
  rewrite take_app_exact, (drop_app_exact (take 6 dst)), take_app_exact by (rewrite length_take; lia).
  destruct s as [sid|]; cbn [pay_hdr pppoe_of ps_session_id ps_next]; [by rewrite E|].
  destruct x; cbn [l3_hdr l3_received] in *; by rewrite E.
Qed.

Lemma l3_ok_bbl x u b : l3_ok x u b -> bbl_ok b.
Proof. destruct x; intros []; by match goal with H : udp_ok _ _ |- _ => destruct H end. Qed.

Lemma view_frame eth dst src s x u b : frame_ok eth dst src s x u b -> view eth <> None.
Proof.
  intros [[Hd _] [Hs _] _ _ _ _ Hn Hx _]. unfold view. rewrite Hd, Hs, Hn. cbn [mbind option_bind].
  destruct x as [i|i]; cbn [l3_ok] in Hx; destruct Hx;
    match goal with H : udp_ok _ _ |- _ => destruct H end; by destruct s.
Qed.

Lemma encode_frame eth dst src s x u b mem :
  frame_ok eth dst src s x u b -> pay_size s x b + 40 <= Z.of_nat (length mem) -> pay_size s x b + 26 < 65536 ->
  exists w rest, encode_ethernet eth mem 0 = WOk (PROTOCOL_SUCCESS, eth_sent eth) w /\
    w_mem w = eth_bytes eth dst src s x u b ++ rest /\ length (w_mem w) = length mem /\
    w_len w = Z.of_nat (length (eth_bytes eth dst src s x u b)).
Proof.
  intros Hf Hr Hl. pose proof (eth_bytes_length _ _ _ _ _ _ _ Hf) as Hlen. pose proof (vlan_bytes_length eth).
  pose proof (encode_ethernet_emits (encode_udp_depth (nesting (h_eth eth))) eth dst src s x u b [] mem 0 Hf
    ltac:(lia) Hr) as H0.
  assert (E : encode_ethernet_with (encode_udp_body (encode_udp_depth (nesting (h_eth eth)))) eth (wst [] [] mem 0) =
    encode_ethernet eth mem 0) by reflexivity.
  unfold wp in H0. rewrite E in H0.
  destruct (encode_ethernet eth mem 0) as [r w|]; [|done]. destruct H0 as (-> & pos & room' & -> & Hroom).
  exists (wat pos [] (eth_bytes eth dst src s x u b) room' 0), room'. split; [done|]. split; [done|].
  unfold wat. cbn [w_len w_mem app]. rewrite length_app, u16_small; lia.
Qed.

Lemma decode_frame t dst src s x u b trailer l sp_len :
  frame_ok t dst src s x u b -> Z.of_nat (length (eth_bytes t dst src s x u b)) <= l < 65536 -> 240 <= sp_len < 65536 ->
  exists d', decode_ethernet (eth_bytes t dst src s x u b ++ trailer) l sp_len =
    Ok (PROTOCOL_SUCCESS, eth_received t dst src s x u b trailer l) d'.
Proof.
  intros Hf Hl Hs. unfold decode_ethernet, with_depth. cbn [d_len].
  pose proof (decode_ethernet_reads (decode_udp (Z.to_nat l)) t dst src s x u b trailer l 0 sp_len sp_len eth0 Hf
    ltac:(lia) ltac:(lia) ltac:(lia)) as H.
  unfold returns, gets in H.
  change (decode_udp_body (decode_udp (Z.to_nat l))) with (decode_udp (S (Z.to_nat l))) in H.
  destruct (decode_ethernet_with _ _) as [r d'| |]; [|done..]. exists d'. by destruct H as [-> _].
Qed.

(** C10. What a stream sends is what the receiver gets: [encode_ethernet] writes a
    frame (any tags, IPv4 or IPv6, with or without a PPPoE session) of at most
    [pad + 130] bytes, and [decode_ethernet] on that frame, followed by any
    trailer, succeeds with the same addresses, tags, session, IP header, ports
    and BBL header. *)
Theorem stream_packet_roundtrip (eth : ethernet) (b : bbl_bbl) (pad : Z) (mem trailer : list Z) (sp_len : Z) :
  stream_frame eth pad b -> pad + 144 <= Z.of_nat (length mem) ->
  pad + 130 + Z.of_nat (length trailer) < 65536 -> 240 <= sp_len < 65536 ->
  exists eth1 w eth' d',
    encode_ethernet eth mem 0 = WOk (PROTOCOL_SUCCESS, eth1) w /\ 0 <= w_len w <= pad + 130 /\
    decode_ethernet (take (Z.to_nat (w_len w)) (w_mem w) ++ trailer) (w_len w + Z.of_nat (length trailer)) sp_len =
      Ok (PROTOCOL_SUCCESS, eth') d' /\
    view eth' = view eth /\ view eth <> None /\ eth_bbl eth' = p_to (bbl_received b).
Proof.
  intros (dst & src & s & x & u & Hf & Hp) Hm Ht Hs.
  assert (Hb : bbl_ok b) by (destruct Hf; by eapply l3_ok_bbl).
  destruct (stream_frame_size s x b pad Hb Hp) as [? ?]. pose proof (vlan_bytes_length eth).
  pose proof (eth_bytes_length _ _ _ _ _ _ _ Hf) as Hlen.
  destruct (encode_frame eth dst src s x u b mem Hf) as (w & rest & Ew & Hmem & _ & Hwl); [lia|lia|].
  destruct (decode_frame eth dst src s x u b trailer
    (Z.of_nat (length (eth_bytes eth dst src s x u b)) + Z.of_nat (length trailer)) sp_len Hf) as (d' & Ed); [lia|lia|].
  exists (eth_sent eth), w, (eth_received eth dst src s x u b trailer
    (Z.of_nat (length (eth_bytes eth dst src s x u b)) + Z.of_nat (length trailer))), d'.
  rewrite Hwl, Hmem, take_app_exact by lia. split; [done|]. split; [lia|]. split; [done|].
  split; [by apply view_received|]. split; [by eapply view_frame|]. apply eth_received_fields. by destruct Hf.
Qed.

(** A downstream IPv4 packet in a PPPoE session with two tags. *)
Definition example_bbl : bbl_bbl :=
  mk_bbl (Some 60) BBL_TYPE_UNICAST 1 2 7 42 (Some 3) (Some 1001) (Some 7) None None 99 12345 1700000000 250.
Definition example_ipv4 : ipv4_t :=
  mk_ipv4 0x0100000a 0x0200000a 0x48 64 PROTOCOL_IPV4_UDP false 17 IPV4_DF 0 []
    (h_udp (mk_udp BBL_UDP_PORT BBL_UDP_PORT 0 (Some UDP_PROTOCOL_BBL) (h_bbl example_bbl))) None 0.
Definition example_frame : ethernet :=
  mk_eth 0 ETH_TYPE_PPPOE_SESSION 1001 7 0 5 3 0 0 false true (Some [2;0;0;0;0;1]) (Some [2;0;0;0;0;2]) p_null []
    (h_pppoe_session (mk_pppoe_session 4711 PROTOCOL_IPV4 0 false (h_ipv4 example_ipv4))) 0.

Lemma stream_packet_roundtrip_witness :
  stream_frame example_frame 60 example_bbl /\
  exists eth1 w eth' d',
    encode_ethernet example_frame (replicate 2000 170) 0 = WOk (PROTOCOL_SUCCESS, eth1) w /\ 0 <= w_len w <= 60 + 130 /\
    decode_ethernet (take (Z.to_nat (w_len w)) (w_mem w) ++ [1;2;3;4]) (w_len w + 4) 4096 =
      Ok (PROTOCOL_SUCCESS, eth') d' /\
    view eth' = view example_frame /\ view example_frame <> None /\ eth_bbl eth' = p_to (bbl_received example_bbl).
Proof.
  assert (H : stream_frame example_frame 60 example_bbl).
  { exists [2;0;0;0;0;1], [2;0;0;0;0;2], (Some 4711), (L4 example_ipv4),
      (mk_udp BBL_UDP_PORT BBL_UDP_PORT 0 (Some UDP_PROTOCOL_BBL) (h_bbl example_bbl)). split; [|done].
    constructor; cbn; try done; try lia.
    unfold example_ipv4. constructor; try lia. constructor; try (by vm_compute). unfold example_bbl. constructor; lia. }
  split; [exact H|].
  apply (stream_packet_roundtrip example_frame example_bbl 60 (replicate 2000 170) [1;2;3;4] 4096 H);
    rewrite ?length_replicate; cbn [length]; lia.
Defined.
