(* ===== verification/Txq.v ===== *)
(** The transmit queue of bbl_txq.c: a ring of packet slots between one producer
    and one consumer.

    [Ring] has the arithmetic of ring indices.  [Txq] models the operations on
    the structure, with the encoder of EncodeEth.v writing into the slots, and
    proves that they implement a bounded FIFO of packets.  [Spsc] models the two
    threads that share a queue (io_thread.c) as a step relation on its indices:
    the FIFO order is kept by every execution in which the producer is not
    admitted while the consumer is between the increment of [read] and its
    wrap-around, and an execution that violates this loses a full ring. *)
From S2P Require Import Prelude.
From S2P Require Import Const.
From S2P Require Import ConstApp.
From S2P Require Import ProtoTypes.
From S2P Require Import Dec.
From S2P Require Import DecodeEth.
From S2P Require Import Enc.
From S2P Require Import EncodeEth.
From S2P Require Import StreamPacket.

(** * Ring indices *)
Module Ring.

(** [i++; if(i == size) i = 0;] *)
Definition advance (size i : Z) : Z := let i := u16 (i + 1) in if i =? size then 0 else i.

Section Window.
Context {A : Type} (d : A) (size : Z).
Context (Hsize : 0 < size < 65536).

Definition entry (ring : list A) (i : Z) : A := default d (ring !! Z.to_nat i).

(** The [n] entries from [read] on. *)
Definition window (ring : list A) (read : Z) (n : nat) : list A :=
  map (fun i => entry ring ((read + Z.of_nat i) mod size)) (seq 0 n).

Lemma advance_mod i : 0 <= i < size -> advance size i = (i + 1) mod size.
Proof.
  intros Hi. unfold advance. rewrite u16_small by lia. case_if.
  - assert (i + 1 = size) as -> by lia. by rewrite Z.mod_same by lia.
  - rewrite Z.mod_small; lia.
Qed.

Lemma advance_range i : 0 <= i < size -> 0 <= advance size i < size.
Proof. intros Hi. rewrite advance_mod by done. apply Z.mod_pos_bound. lia. Qed.

Lemma window_cons ring read n :
  0 <= read < size -> window ring read (S n) = entry ring read :: window ring (advance size read) n.
Proof.
  intros Hr. unfold window. cbn [seq map]. change (Z.of_nat 0) with 0. rewrite Z.add_0_r, Z.mod_small by lia. f_equal.
  rewrite <-seq_shift, map_map. apply map_ext. intros i. rewrite advance_mod by done.
  rewrite Zplus_mod_idemp_l. by replace (read + Z.of_nat (S i)) with (read + 1 + Z.of_nat i) by lia.
Qed.

Lemma window_snoc ring read n :
  window ring read (S n) = window ring read n ++ [entry ring ((read + Z.of_nat n) mod size)].
Proof. unfold window. by rewrite seq_S, map_app. Qed.

(** Different offsets below [size] are different entries. *)
Lemma offset_inj read i j :
  0 <= i < size -> 0 <= j < size -> (read + i) mod size = (read + j) mod size -> i = j.
Proof.
  intros Hi Hj H. assert (E : (i - j) mod size = 0).
  { replace (i - j) with (read + i - (read + j)) by lia. rewrite Zminus_mod, H, Z.sub_diag. apply Z.mod_0_l. lia. }
  apply Z.mod_divide in E as [k Hk]; [|lia]. assert (k < 1) by nia. assert (-1 < k) by nia. nia.
Qed.

Lemma window_insert ring read n j x :
  Z.of_nat n < size -> j = (read + Z.of_nat n) mod size ->
  window (<[Z.to_nat j := x]> ring) read n = window ring read n.
Proof.
  intros Hn ->. unfold window. apply map_ext_in. intros i Hi%in_seq. unfold entry.
  rewrite list_lookup_insert_ne; [done|]. intros E.
  pose proof (Z.mod_pos_bound (read + Z.of_nat n) size ltac:(lia)).
  pose proof (Z.mod_pos_bound (read + Z.of_nat i) size ltac:(lia)).
  assert (E' : (read + Z.of_nat n) mod size = (read + Z.of_nat i) mod size) by lia.
  apply offset_inj in E'; lia.
Qed.

Lemma entry_insert ring j x : 0 <= j < Z.of_nat (length ring) -> entry (<[Z.to_nat j := x]> ring) j = x.
Proof. intros Hj. unfold entry. by rewrite list_lookup_insert_eq by lia. Qed.

(** The number of entries between two indices. *)
Definition distance (read write : Z) : nat := Z.to_nat ((write - read) mod size).

Lemma distance_lt read write : Z.of_nat (distance read write) < size.
Proof. unfold distance. pose proof (Z.mod_pos_bound (write - read) size ltac:(lia)). lia. Qed.

Lemma distance_end read write : 0 <= write < size -> (read + Z.of_nat (distance read write)) mod size = write.
Proof.
  intros Hw. unfold distance. pose proof (Z.mod_pos_bound (write - read) size ltac:(lia)).
  rewrite Z2Nat.id by lia. rewrite Zplus_mod_idemp_r. replace (read + (write - read)) with write by lia.
  by apply Z.mod_small.
Qed.

Lemma distance_zero read write : 0 <= read < size -> 0 <= write < size -> distance read write = O <-> read = write.
Proof.
  intros Hr Hw. split; intros H.
  - pose proof (distance_end read write Hw) as E. rewrite H, Z.add_0_r, Z.mod_small in E; lia.
  - subst. unfold distance. rewrite Z.sub_diag, Z.mod_0_l; lia.
Qed.

(** Moving [write] on, unless the ring is full; moving [read] on, unless it is empty. *)
Lemma distance_push read write :
  0 <= read < size -> 0 <= write < size -> advance size write <> read ->
  distance read (advance size write) = S (distance read write).
Proof.
  intros Hr Hw Hne. pose proof (distance_lt read write) as Hlt. pose proof (distance_end read write Hw) as He.
  rewrite advance_mod in * by done. set (n := distance read write) in *.
  destruct (Z.eq_dec (Z.of_nat n + 1) size) as [E|E].
  - exfalso. apply Hne. rewrite <-He, Zplus_mod_idemp_l.
    replace (read + Z.of_nat n + 1) with (read + 1 * size) by lia. rewrite Z.mod_add, Z.mod_small; lia.
  - unfold distance at 1. rewrite Zminus_mod_idemp_l.
    replace (write + 1 - read) with (write - read + 1) by lia. rewrite <-Zplus_mod_idemp_l.
    replace ((write - read) mod size) with (Z.of_nat n)
      by (unfold n, distance; rewrite Z2Nat.id; [done|apply Z.mod_pos_bound; lia]).
    rewrite Z.mod_small; lia.
Qed.

Lemma distance_pop read write :
  0 <= read < size -> 0 <= write < size -> read <> write ->
  distance read write = S (distance (advance size read) write).
Proof.
  intros Hr Hw Hne. rewrite advance_mod by done. unfold distance. rewrite Zminus_mod_idemp_r.
  pose proof (Z.mod_pos_bound (write - read) size ltac:(lia)).
  assert ((write - read) mod size <> 0).
  { intros E. apply Hne. apply (distance_zero read write Hr Hw). unfold distance. lia. }
  replace (write - (read + 1)) with (write - read - 1) by lia. rewrite <-(Zminus_mod_idemp_l (write - read)).
  rewrite (Z.mod_small ((write - read) mod size - 1)); lia.
Qed.

(** The queue is full when [advance write] is [read]: it holds [size - 1] entries. *)
Lemma distance_full read write :
  0 <= read < size -> 0 <= write < size -> advance size write = read ->
  Z.of_nat (distance read write) = size - 1.
Proof.
  intros Hr Hw <-. unfold distance. rewrite advance_mod by done. rewrite Zminus_mod_idemp_r.
  replace (write - (write + 1)) with (-1) by lia.
  replace (-1) with (size - 1 + (-1) * size) by lia. rewrite Z.mod_add, Z.mod_small; lia.
Qed.
End Window.
End Ring.

(** * The structure and its operations *)
Module Txq.
Import Ring.

Inductive bbl_txq_result := BBL_TXQ_OK | BBL_TXQ_ENCODE_ERROR | BBL_TXQ_FULL.

Record bbl_txq_slot := mk_slot {
  slot_timestamp : Z * Z;
  slot_vlan_tci : Z;
  slot_vlan_tpid : Z;
  slot_packet_len : Z;
  slot_packet : list Z
}.

Record bbl_txq := mk_txq {
  txq_ring : list bbl_txq_slot;
  txq_size : Z;
  txq_write : Z;
  txq_next : Z;
  txq_stats_full : Z;
  txq_stats_encode_error : Z;
  txq_read : Z
}.

(** A slot of [calloc]. *)
Definition slot0 : bbl_txq_slot := mk_slot (0, 0) 0 0 0 (replicate (Z.to_nat BBL_TXQ_BUFFER_LEN) 0).

(** [mem] tells whether [calloc] succeeds. *)
Definition bbl_txq_init (mem : bool) (size : Z) : option bbl_txq :=
  if mem then Some (mk_txq (replicate (Z.to_nat size) slot0) size 0 1 0 0 0) else None.

Definition bbl_txq_is_empty (txq : bbl_txq) : bool := txq_read txq =? txq_write txq.
Definition bbl_txq_is_full (txq : bbl_txq) : bool := txq_read txq =? txq_next txq.

Definition bbl_txq_read_next (txq : bbl_txq) : bbl_txq :=
  txq {{ txq_read := advance (txq_size txq) (txq_read txq) }}.

Definition bbl_txq_write_next (txq : bbl_txq) : bbl_txq :=
  txq {{ txq_write := txq_next txq ; txq_next := advance (txq_size txq) (txq_next txq) }}.

(** The index of the slot returned, or NULL. *)
Definition bbl_txq_read_slot (txq : bbl_txq) : option Z :=
  if txq_read txq =? txq_write txq then None else Some (txq_read txq).

Definition bbl_txq_write_slot (txq : bbl_txq) : option Z * bbl_txq :=
  if txq_read txq =? txq_next txq
  then (None, txq {{ txq_stats_full := u32 (txq_stats_full txq + 1) }})
  else (Some (txq_write txq), txq).

(** The bytes copied and the number of bytes; [None] is an access outside of the
    ring or of a slot's buffer. *)
Definition bbl_txq_from_buffer (txq : bbl_txq) : option (bbl_txq * list Z * Z) :=
  if txq_read txq =? txq_write txq then Some (txq, [], 0)
  else
    slot ← txq_ring txq !! Z.to_nat (txq_read txq);
    if Z.of_nat (length (slot_packet slot)) <? slot_packet_len slot then None
    else Some (bbl_txq_read_next txq, take (Z.to_nat (slot_packet_len slot)) (slot_packet slot), slot_packet_len slot).

Definition bbl_txq_to_buffer (txq : bbl_txq) (eth : ethernet) : option (bbl_txq * bbl_txq_result * ethernet) :=
  if txq_read txq =? txq_next txq
  then Some (txq {{ txq_stats_full := u32 (txq_stats_full txq + 1) }}, BBL_TXQ_FULL, eth)
  else
    slot ← txq_ring txq !! Z.to_nat (txq_write txq);
    match encode_ethernet eth (slot_packet slot) 0 with
    | WFault => None
    | WOk (e, eth') w =>
        let slot := slot {{ slot_packet_len := w_len w ; slot_packet := w_mem w }} in
        let txq := txq {{ txq_ring := <[Z.to_nat (txq_write txq) := slot]> (txq_ring txq) }} in
        match e with
        | PROTOCOL_SUCCESS => Some (bbl_txq_write_next txq, BBL_TXQ_OK, eth')
        | _ => Some (txq {{ txq_stats_encode_error := u32 (txq_stats_encode_error txq + 1) }},
                     BBL_TXQ_ENCODE_ERROR, eth')
        end
    end.

(** ** The bounded FIFO it implements *)

Definition packet (s : bbl_txq_slot) : list Z := take (Z.to_nat (slot_packet_len s)) (slot_packet s).

Definition count (txq : bbl_txq) : nat := distance (txq_size txq) (txq_read txq) (txq_write txq).

Definition queued (txq : bbl_txq) : list bbl_txq_slot :=
  window slot0 (txq_size txq) (txq_ring txq) (txq_read txq) (count txq).

(** The packets in the queue, in the order they were written. *)
Definition contents (txq : bbl_txq) : list (list Z) := map packet (queued txq).

Record wf (txq : bbl_txq) : Prop := {
  wf_size : 2 <= txq_size txq < 65536;
  wf_ring : Z.of_nat (length (txq_ring txq)) = txq_size txq;
  wf_read : 0 <= txq_read txq < txq_size txq;
  wf_write : 0 <= txq_write txq < txq_size txq;
  wf_next : txq_next txq = advance (txq_size txq) (txq_write txq);
  wf_slots : Forall (fun s => Z.of_nat (length (slot_packet s)) = BBL_TXQ_BUFFER_LEN) (txq_ring txq);
  wf_queued : Forall (fun s => 0 <= slot_packet_len s <= BBL_TXQ_BUFFER_LEN) (queued txq)
}.

(** What the encoder makes of a header in a slot: the packet, or an error. *)
Inductive encoding (eth : ethernet) : option (list Z) -> Prop :=
| encoding_ok bs :
    (forall mem, Z.of_nat (length mem) = BBL_TXQ_BUFFER_LEN ->
       exists eth' w, encode_ethernet eth mem 0 = WOk (PROTOCOL_SUCCESS, eth') w /\
         w_len w = Z.of_nat (length bs) /\ take (length bs) (w_mem w) = bs /\ length (w_mem w) = length mem) ->
    encoding eth (Some bs)
| encoding_error :
    (forall mem, Z.of_nat (length mem) = BBL_TXQ_BUFFER_LEN ->
       exists e eth' w, encode_ethernet eth mem 0 = WOk (e, eth') w /\ e <> PROTOCOL_SUCCESS /\
         length (w_mem w) = length mem) ->
    encoding eth None.

(** The specification: a queue of at most [cap] packets. *)
Inductive op := Push (eth : ethernet) | Pop.
Inductive event := Pushed (r : bbl_txq_result) | Popped (bs : list Z).

Inductive spec_step (cap : nat) : op -> list (list Z) -> event -> list (list Z) -> Prop :=
| spec_push eth bs q : (length q < cap)%nat -> encoding eth (Some bs) ->
    spec_step cap (Push eth) q (Pushed BBL_TXQ_OK) (q ++ [bs])
| spec_push_error eth q : (length q < cap)%nat -> encoding eth None ->
    spec_step cap (Push eth) q (Pushed BBL_TXQ_ENCODE_ERROR) q
| spec_push_full eth q : length q = cap -> spec_step cap (Push eth) q (Pushed BBL_TXQ_FULL) q
| spec_pop bs q : spec_step cap Pop (bs :: q) (Popped bs) q
| spec_pop_empty : spec_step cap Pop [] (Popped []) [].

Inductive spec_run (cap : nat) : list op -> list (list Z) -> list event -> list (list Z) -> Prop :=
| spec_run_nil q : spec_run cap [] q [] q
| spec_run_cons o os q e q1 es q2 :
    spec_step cap o q e q1 -> spec_run cap os q1 es q2 -> spec_run cap (o :: os) q (e :: es) q2.

(** The operations of the code. *)
Definition apply_op (txq : bbl_txq) (o : op) : option (bbl_txq * event) :=
  match o with
  | Push eth => '(txq', r, _) ← bbl_txq_to_buffer txq eth; Some (txq', Pushed r)
  | Pop => '(txq', bs, _) ← bbl_txq_from_buffer txq; Some (txq', Popped bs)
  end.

Fixpoint run (txq : bbl_txq) (os : list op) : option (bbl_txq * list event) :=
  match os with
  | [] => Some (txq, [])
  | o :: os => '(txq1, e) ← apply_op txq o; '(txq2, es) ← run txq1 os; Some (txq2, e :: es)
  end.

(** ** Refinement *)

Lemma buffer_len : 0 <= BBL_TXQ_BUFFER_LEN < 65536.
Proof. by vm_compute. Qed.

Lemma contents_length txq : length (contents txq) = count txq.
Proof. unfold contents, queued, window. by rewrite !length_map, length_seq. Qed.

Lemma init_wf size txq : 2 <= size < 65536 -> bbl_txq_init true size = Some txq ->
  wf txq /\ contents txq = [] /\ txq_size txq = size.
Proof.
  intros Hs [= <-].
  assert (Hc : count (mk_txq (replicate (Z.to_nat size) slot0) size 0 1 0 0 0) = O)
    by (apply distance_zero; cbn; lia).
  unfold contents, queued. rewrite Hc. cbn. split_and!; [|done..]. constructor; cbn; try lia.
  - rewrite length_replicate. lia.
  - unfold advance. rewrite u16_small by lia. case_if; lia.
  - apply Forall_replicate. cbn. by rewrite length_replicate.
  - unfold queued. rewrite Hc. by constructor.
Qed.

Section Step.
Context (txq : bbl_txq) (Hwf : wf txq).

Lemma size_range : 0 < txq_size txq < 65536.
Proof. destruct Hwf. lia. Qed.

(** The slot the producer fills is outside of the queued ones. *)
Lemma fill_queued s :
  queued (txq {{ txq_ring := <[Z.to_nat (txq_write txq) := s]> (txq_ring txq) }}) = queued txq.
Proof.
  destruct Hwf, txq as [ring size write next full enc read]; cbn in *. unfold queued, count. cbn. unfold constant.
  apply window_insert; [lia|apply distance_lt; lia|]. by rewrite distance_end by lia.
Qed.

Lemma fill_wf s :
  Z.of_nat (length (slot_packet s)) = BBL_TXQ_BUFFER_LEN ->
  wf (txq {{ txq_ring := <[Z.to_nat (txq_write txq) := s]> (txq_ring txq) }}).
Proof.
  intros Hl. pose proof (fill_queued s) as Hq. destruct Hwf, txq as [ring size write next full enc read]; cbn in *.
  unfold constant in *. constructor; cbn; unfold constant; try done.
  - by rewrite length_insert.
  - by apply Forall_insert.
  - by rewrite Hq.
Qed.

(** Publishing a filled slot appends it to the queue. *)
Lemma publish_queued s :
  txq_read txq <> txq_next txq -> txq_ring txq !! Z.to_nat (txq_write txq) = Some s ->
  queued (bbl_txq_write_next txq) = queued txq ++ [s].
Proof.
  intros Hne Hs. destruct Hwf, txq as [ring size write next full enc read]; cbn in *.
  unfold bbl_txq_write_next, queued, count. cbn. unfold constant. subst next.
  rewrite distance_push by (try done; lia). rewrite window_snoc. f_equal.
  rewrite distance_end by lia. unfold entry. by rewrite Hs.
Qed.

Lemma publish_wf s :
  txq_read txq <> txq_next txq -> txq_ring txq !! Z.to_nat (txq_write txq) = Some s ->
  0 <= slot_packet_len s <= BBL_TXQ_BUFFER_LEN -> wf (bbl_txq_write_next txq).
Proof.
  intros Hne Hs Hl. pose proof (publish_queued s Hne Hs) as Hq.
  destruct Hwf, txq as [ring size write next full enc read]; cbn in *.
  unfold constant in *. constructor; cbn; unfold constant; try done.
  - subst next. apply advance_range; lia.
  - rewrite Hq. apply Forall_app. split; [done|]. by constructor.
Qed.

(** Releasing the oldest slot removes it. *)
Lemma release_queued :
  txq_read txq <> txq_write txq ->
  exists s, txq_ring txq !! Z.to_nat (txq_read txq) = Some s /\ queued txq = s :: queued (bbl_txq_read_next txq).
Proof.
  intros Hne. destruct Hwf, txq as [ring size write next full enc read]; cbn in *.
  destruct (lookup_lt_is_Some_2 ring (Z.to_nat read)) as [s Hs]; [lia|]. exists s. split; [done|].
  unfold bbl_txq_read_next, queued, count. cbn. unfold constant. rewrite (distance_pop size ltac:(lia) read write) by lia.
  rewrite window_cons by lia. unfold entry at 1. by rewrite Hs.
Qed.

Lemma release_wf : txq_read txq <> txq_write txq -> wf (bbl_txq_read_next txq).
Proof.
  intros Hne. destruct (release_queued Hne) as (s & Hs & Hq).
  destruct Hwf, txq as [ring size write next full enc read]; cbn in *.
  unfold constant in *. constructor; cbn; unfold constant; try done.
  - apply advance_range; lia.
  - rewrite Hq in wf_queued0. by inversion wf_queued0.
Qed.

Lemma count_full : txq_read txq = txq_next txq -> count txq = Z.to_nat (txq_size txq - 1).
Proof.
  intros E. destruct Hwf. unfold count.
  assert (Z.of_nat (distance (txq_size txq) (txq_read txq) (txq_write txq)) = txq_size txq - 1)
    by (apply distance_full; congruence || lia). lia.
Qed.

Lemma count_room : txq_read txq <> txq_next txq -> (count txq < Z.to_nat (txq_size txq - 1))%nat.
Proof.
  intros E. destruct Hwf. pose proof (distance_push (txq_size txq) ltac:(lia) (txq_read txq) (txq_write txq)) as Hp.
  rewrite <-wf_next0 in Hp. specialize (Hp ltac:(done) ltac:(done) ltac:(congruence)).
  pose proof (distance_lt (txq_size txq) ltac:(lia) (txq_read txq) (txq_next txq)). unfold count. lia.
Qed.

Lemma write_slot_lookup : exists s, txq_ring txq !! Z.to_nat (txq_write txq) = Some s /\
  Z.of_nat (length (slot_packet s)) = BBL_TXQ_BUFFER_LEN.
Proof.
  destruct Hwf. destruct (lookup_lt_is_Some_2 (txq_ring txq) (Z.to_nat (txq_write txq))) as [s Hs]; [lia|].
  exists s. split; [done|]. by apply (Forall_lookup_1 _ _ _ _ wf_slots0 Hs).
Qed.
End Step.

(** The statistics are not part of the invariant. *)
Lemma stats_wf txq f e : wf txq -> wf (txq {{ txq_stats_full := f ; txq_stats_encode_error := e }}).
Proof. intros []. destruct txq. by constructor. Qed.

Definition op_ok (o : op) : Prop := match o with Push eth => exists r, encoding eth r | Pop => True end.

(** One operation is one step of the specification, and none is a memory error. *)
Definition simulates (txq : bbl_txq) (o : op) : Prop :=
  exists txq' e, apply_op txq o = Some (txq', e) /\ wf txq' /\ txq_size txq' = txq_size txq /\
    spec_step (Z.to_nat (txq_size txq - 1)) o (contents txq) e (contents txq').

Lemma push_full txq eth : wf txq -> txq_read txq = txq_next txq -> simulates txq (Push eth).
Proof.
  intros Hwf E. exists (txq {{ txq_stats_full := u32 (txq_stats_full txq + 1) }}), (Pushed BBL_TXQ_FULL). split_and!.
  - cbn. unfold bbl_txq_to_buffer. by rewrite E, Z.eqb_refl.
  - apply (stats_wf txq (u32 (txq_stats_full txq + 1)) (txq_stats_encode_error txq)) in Hwf. by destruct txq.
  - by destruct txq.
  - replace (contents (txq {{ txq_stats_full := u32 (txq_stats_full txq + 1) }})) with (contents txq) by by destruct txq.
    apply spec_push_full. rewrite contents_length. by apply count_full.
Qed.

Lemma push_ok txq eth bs :
  wf txq -> txq_read txq <> txq_next txq -> encoding eth (Some bs) -> simulates txq (Push eth).
Proof.
  intros Hwf Hne Henc. inversion Henc as [bs' He Hbs|]; subst bs'.
  destruct (write_slot_lookup txq Hwf) as (s & Hs & Hl). destruct (He (slot_packet s) Hl) as (eth' & w & Hw & Hlen & Htake & Hmem).
  set (s' := s {{ slot_packet_len := w_len w ; slot_packet := w_mem w }}).
  set (txq1 := txq {{ txq_ring := <[Z.to_nat (txq_write txq) := s']> (txq_ring txq) }}).
  assert (Hl' : Z.of_nat (length (slot_packet s')) = BBL_TXQ_BUFFER_LEN) by (subst s'; destruct s; cbn in *; unfold constant; by rewrite Hmem).
  assert (Hbs : 0 <= Z.of_nat (length bs) <= BBL_TXQ_BUFFER_LEN).
  { apply (f_equal length) in Htake. rewrite length_take in Htake. lia. }
  assert (Hwf1 : wf txq1) by by apply fill_wf.
  assert (Hne1 : txq_read txq1 <> txq_next txq1) by by destruct txq.
  assert (Hs1 : txq_ring txq1 !! Z.to_nat (txq_write txq1) = Some s').
  { subst txq1. destruct Hwf, txq; cbn in *. unfold constant. apply list_lookup_insert_eq. lia. }
  assert (Hslen : 0 <= slot_packet_len s' <= BBL_TXQ_BUFFER_LEN) by (subst s'; destruct s; cbn; unfold constant; lia).
  exists (bbl_txq_write_next txq1), (Pushed BBL_TXQ_OK). split_and!.
  - cbn. unfold bbl_txq_to_buffer. rewrite (proj2 (Z.eqb_neq _ _) Hne), Hs. cbn. by rewrite Hw.
  - by apply (publish_wf txq1 Hwf1 s').
  - by destruct txq.
  - unfold contents. rewrite (publish_queued txq1 Hwf1 s') by done. subst txq1. rewrite fill_queued by done.
    rewrite map_app. cbn [map]. replace (packet s') with bs.
    + apply (spec_push _ _ _ (contents txq)); [|done]. rewrite contents_length. by apply count_room.
    + unfold packet. subst s'. destruct s; cbn. unfold constant. by rewrite Hlen, Nat2Z.id.
Qed.

Lemma push_error txq eth :
  wf txq -> txq_read txq <> txq_next txq -> encoding eth None -> simulates txq (Push eth).
Proof.
  intros Hwf Hne Henc. inversion Henc as [|He].
  destruct (write_slot_lookup txq Hwf) as (s & Hs & Hl). destruct (He (slot_packet s) Hl) as (e & eth' & w & Hw & Herr & Hmem).
  set (s' := s {{ slot_packet_len := w_len w ; slot_packet := w_mem w }}).
  set (txq1 := txq {{ txq_ring := <[Z.to_nat (txq_write txq) := s']> (txq_ring txq) }}).
  assert (Hl' : Z.of_nat (length (slot_packet s')) = BBL_TXQ_BUFFER_LEN) by (subst s'; destruct s; cbn in *; unfold constant; by rewrite Hmem).
  assert (Hwf1 : wf txq1) by by apply fill_wf.
  exists (txq1 {{ txq_stats_encode_error := u32 (txq_stats_encode_error txq + 1) }}), (Pushed BBL_TXQ_ENCODE_ERROR).
  split_and!.
  - cbn. unfold bbl_txq_to_buffer. rewrite (proj2 (Z.eqb_neq _ _) Hne), Hs. cbn. rewrite Hw. by destruct e, txq.
  - apply (stats_wf txq1 (txq_stats_full txq1) (u32 (txq_stats_encode_error txq + 1))) in Hwf1. by destruct txq.
  - by destruct txq.
  - assert (contents (txq1 {{ txq_stats_encode_error := u32 (txq_stats_encode_error txq + 1) }}) = contents txq) as ->.
    { transitivity (contents txq1); [by destruct txq|]. unfold contents. subst txq1. by rewrite fill_queued. }
    apply spec_push_error; [|done]. rewrite contents_length. by apply count_room.
Qed.

Lemma pop_step txq : wf txq -> simulates txq Pop.
Proof.
  intros Hwf. destruct (Z.eq_dec (txq_read txq) (txq_write txq)) as [E|E].
  - exists txq, (Popped []). cbn. unfold bbl_txq_from_buffer. rewrite E, Z.eqb_refl. split_and!; [done..|].
    assert (contents txq = []) as ->; [|constructor]. apply length_zero_iff_nil. rewrite contents_length.
    apply distance_zero; (destruct Hwf; done || lia).
  - destruct (release_queued txq Hwf E) as (s & Hs & Hq). exists (bbl_txq_read_next txq), (Popped (packet s)).
    assert (Hlen : ~ Z.of_nat (length (slot_packet s)) < slot_packet_len s).
    { destruct Hwf. rewrite Hq in wf_queued0. inversion wf_queued0; subst.
      pose proof (Forall_lookup_1 _ _ _ _ wf_slots0 Hs) as Hp. cbn in *. lia. }
    split_and!.
    + cbn. unfold bbl_txq_from_buffer. rewrite (proj2 (Z.eqb_neq _ _) E), Hs. cbn.
      by rewrite (proj2 (Z.ltb_ge _ _)) by lia.
    + by apply release_wf.
    + by destruct txq.
    + unfold contents. rewrite Hq. constructor.
Qed.

Lemma apply_op_simulates txq o : wf txq -> op_ok o -> simulates txq o.
Proof.
  intros Hwf Ho. destruct o as [eth|]; [|by apply pop_step].
  destruct (Z.eq_dec (txq_read txq) (txq_next txq)); [by apply push_full|].
  destruct Ho as [[bs|] He]; [by eapply push_ok|by apply push_error].
Qed.

Lemma run_simulates os txq : wf txq -> Forall op_ok os ->
  exists txq' es, run txq os = Some (txq', es) /\ wf txq' /\ txq_size txq' = txq_size txq /\
    spec_run (Z.to_nat (txq_size txq - 1)) os (contents txq) es (contents txq').
Proof.
  intros Hwf Hos. revert txq Hwf. induction Hos as [|o os Ho Hos IH]; intros txq Hwf.
  - exists txq, []. split_and!; [done..|constructor].
  - destruct (apply_op_simulates txq o Hwf Ho) as (txq1 & e & H1 & Hwf1 & Hsz1 & Hs1).
    destruct (IH txq1 Hwf1) as (txq2 & es & H2 & Hwf2 & Hsz2 & Hs2).
    exists txq2, (e :: es). cbn. rewrite H1. cbn. rewrite H2. split_and!; [done..|congruence|].
    rewrite Hsz1 in Hs2. by econstructor.
Qed.


Lemma encoding_fun eth bs bs' : encoding eth (Some bs) -> encoding eth (Some bs') -> bs = bs'.
Proof.
  intros H H'. inversion H as [b Hb E|]; inversion H' as [b' Hb' E'|]; subst b b'.
  destruct (Hb (slot_packet slot0) ltac:(done)) as (? & w & Hw & Hl & Ht & _).
  destruct (Hb' (slot_packet slot0) ltac:(done)) as (? & w' & Hw' & Hl' & Ht' & _).
  rewrite Hw in Hw'. injection Hw' as _ <-. assert (length bs = length bs') as E by lia. by rewrite <-Ht, <-Ht', E.
Qed.

(** Stream frames are encoded: a slot has room for up to [BBL_TXQ_BUFFER_LEN] bytes. *)
Lemma frame_encoding eth dst src s x u b :
  frame_ok eth dst src s x u b -> pay_size s x b + 40 <= BBL_TXQ_BUFFER_LEN ->
  encoding eth (Some (eth_bytes eth dst src s x u b)).
Proof.
  intros Hf Hl. constructor. intros mem Hm. pose proof buffer_len.
  destruct (encode_frame eth dst src s x u b mem Hf) as (w & rest & E & Hmem & Hlm & Hlw); [lia|lia|].
  exists (eth_sent eth), w. rewrite Hmem. split_and!; [done..|by rewrite take_app_length|congruence].
Qed.

(** A frame of the queue and its bytes on the other side. *)
Definition delivers (eth : ethernet) (bs : list Z) : Prop :=
  exists eth' d', decode_ethernet bs (Z.of_nat (length bs)) 240 = Ok (PROTOCOL_SUCCESS, eth') d' /\
    view eth' = view eth /\ view eth <> None.

Definition queueable (eth : ethernet) : Prop :=
  exists pad b, stream_frame eth pad b /\ pad + 144 <= BBL_TXQ_BUFFER_LEN.

Lemma queueable_encoding eth : queueable eth -> exists bs, encoding eth (Some bs) /\ bs <> [] /\ delivers eth bs.
Proof.
  intros (pad & b & (dst & src & s & x & u & Hf & Hp) & Hl).
  assert (Hb : bbl_ok b) by (destruct Hf; by eapply l3_ok_bbl).
  destruct (stream_frame_size s x b pad Hb Hp) as [? ?]. pose proof (vlan_bytes_length eth). pose proof buffer_len.
  pose proof (eth_bytes_length _ _ _ _ _ _ _ Hf) as Hlen.
  exists (eth_bytes eth dst src s x u b). split_and!.
  - apply frame_encoding; [done|lia].
  - intros E. rewrite E in Hlen. cbn in Hlen. destruct x, s; unfold pay_size, l3_size in *; cbn in *; lia.
  - destruct (decode_frame eth dst src s x u b [] (Z.of_nat (length (eth_bytes eth dst src s x u b))) 240 Hf) as (d' & Ed); [lia..|].
    rewrite app_nil_r in Ed. eexists _, d'. split_and!; [exact Ed|by apply view_received|by eapply view_frame].
Qed.

(** The frames accepted and the packets delivered in a run. *)
Fixpoint accepted (os : list op) (es : list event) : list ethernet :=
  match os, es with
  | Push eth :: os, Pushed BBL_TXQ_OK :: es => eth :: accepted os es
  | _ :: os, _ :: es => accepted os es
  | _, _ => []
  end.

Fixpoint delivered (es : list event) : list (list Z) :=
  match es with
  | [] => []
  | Popped (b :: bs) :: es => (b :: bs) :: delivered es
  | _ :: es => delivered es
  end.

Definition push_queueable (o : op) : Prop := match o with Push eth => queueable eth | Pop => True end.

Lemma push_queueable_ok os : Forall push_queueable os -> Forall op_ok os.
Proof.
  intros H. eapply Forall_impl; [|exact H]. intros [eth|] Hq; [|done].
  destruct (queueable_encoding eth Hq) as (bs & He & _). by exists (Some bs).
Qed.

(** What goes in comes out, in order. *)
Lemma spec_run_fifo cap os q es q' :
  spec_run cap os q es q' -> Forall push_queueable os -> Forall (fun bs => bs <> []) q ->
  exists pkts, Forall2 delivers (accepted os es) pkts /\ q ++ pkts = delivered es ++ q'.
Proof.
  intros Hr. induction Hr as [q|o os q e q1 es q2 Hstep Hr IH]; intros Hos Hq.
  { exists []. split; [constructor|by rewrite app_nil_r]. }
  apply Forall_cons_iff in Hos as [Ho Hos]. specialize (IH Hos).
  destruct Hstep as [eth bs q Hlt He|eth q Hlt He|eth q Hfull|bs q|]; cbn [accepted delivered].
  - destruct (queueable_encoding eth Ho) as (bs' & He' & Hne & Hd). rewrite <-(encoding_fun _ _ _ He He') in *.
    destruct IH as (pkts & Hf & Heq); [by apply Forall_app; auto|]. rewrite <-app_assoc in Heq.
    exists (bs :: pkts). split; [by constructor|done].
  - destruct (IH Hq) as (pkts & ? & ?). by exists pkts.
  - destruct (IH Hq) as (pkts & ? & ?). by exists pkts.
  - apply Forall_cons_iff in Hq as [Hne Hq]. destruct (IH Hq) as (pkts & ? & Heq). exists pkts.
    split; [done|]. destruct bs; [done|]. cbn. by rewrite Heq.
  - destruct (IH Hq) as (pkts & ? & ?). by exists pkts.
Qed.

(** C14. The transmit queue is a bounded FIFO: for every ring of 2 to 65535
    slots, any sequence of [bbl_txq_to_buffer], with frames that the encoder encodes or
    refuses inside of a slot, and [bbl_txq_from_buffer] on a fresh queue runs without an access outside of the ring or of a slot, and its
    results are those of a queue of [size - 1] packets: a push to a full queue
    is refused, a header that cannot be encoded is reported and leaves the queue
    as it is, a pop returns the oldest packet or nothing. *)
Theorem txq_refines_fifo (size : Z) (os : list op) (txq : bbl_txq) :
  2 <= size < 65536 -> bbl_txq_init true size = Some txq -> Forall op_ok os ->
  exists txq' es, run txq os = Some (txq', es) /\ wf txq' /\
    spec_run (Z.to_nat (size - 1)) os [] es (contents txq').
Proof.
  intros Hs Hi Ho. destruct (init_wf size txq Hs Hi) as (Hwf & Hc & <-).
  destruct (run_simulates os txq Hwf Ho) as (txq' & es & Hr & Hwf' & _ & Hspec). rewrite Hc in Hspec. by exists txq', es.
Qed.

(** C28. What the streams of an interface queue is what the peer receives, in
    order: in any sequence of pushes of stream frames and pops on a fresh queue,
    the packets popped followed by those still queued are the frames accepted,
    in the order they were pushed, and each of them decodes to the addresses,
    tags, session, IP header, ports and BBL header of its frame. *)
Theorem txq_delivers_in_order (size : Z) (os : list op) (txq : bbl_txq) :
  2 <= size < 65536 -> bbl_txq_init true size = Some txq -> Forall push_queueable os ->
  exists txq' es, run txq os = Some (txq', es) /\
    Forall2 delivers (accepted os es) (delivered es ++ contents txq').
Proof.
  intros Hs Hi Ho. destruct (init_wf size txq Hs Hi) as (Hwf & Hc & Hsz).
  destruct (run_simulates os txq Hwf (push_queueable_ok os Ho)) as (txq' & es & Hr & Hwf' & _ & Hspec).
  rewrite Hc in Hspec. exists txq', es. split; [done|].
  destruct (spec_run_fifo _ _ _ _ _ Hspec Ho) as (pkts & Hf & <-); [by constructor|done].
Qed.

Lemma example_queueable : queueable example_frame.
Proof.
  exists 60, example_bbl. split; [|by vm_compute].
  exists [2;0;0;0;0;1], [2;0;0;0;0;2], (Some 4711), (L4 example_ipv4),
    (mk_udp BBL_UDP_PORT BBL_UDP_PORT 0 (Some UDP_PROTOCOL_BBL) (h_bbl example_bbl)). split; [|done].
  constructor; cbn; try done; try lia.
  unfold example_ipv4. constructor; try lia. constructor; try (by vm_compute). unfold example_bbl. constructor; lia.
Qed.

Definition example_ops : list op := [Push example_frame; Push example_frame; Pop; Push example_frame; Pop; Pop].

Lemma txq_refines_fifo_witness :
  Forall op_ok example_ops /\
  exists txq, bbl_txq_init true 2 = Some txq /\
  exists txq' es, run txq example_ops = Some (txq', es) /\ wf txq' /\ spec_run 1 example_ops [] es (contents txq').
Proof.
  assert (H : Forall op_ok example_ops) by (apply push_queueable_ok; repeat constructor; apply example_queueable).
  split; [exact H|]. eexists. split; [reflexivity|]. by apply (txq_refines_fifo 2 example_ops).
Defined.

Lemma txq_delivers_in_order_witness :
  Forall push_queueable example_ops /\
  exists txq, bbl_txq_init true 3 = Some txq /\
  exists txq' es, run txq example_ops = Some (txq', es) /\
    Forall2 delivers (accepted example_ops es) (delivered es ++ contents txq').
Proof.
  assert (H : Forall push_queueable example_ops) by (repeat constructor; apply example_queueable).
  split; [exact H|]. eexists. split; [reflexivity|]. by apply (txq_delivers_in_order 3 example_ops).
Defined.
End Txq.

(** * Two threads on one queue *)

(** [redirect] of io_thread.c pushes in the thread of a receive interface what
    [io_thread_main_rx_job] pops in the main thread.  The indices are atomic:
    an execution interleaves their single loads and stores. *)
Module Spsc.
Import Ring Txq.

(** The next access of the producer ([P_write]: with the value of [next++]) and
    of the consumer. *)
Inductive producer := P_check | P_fill | P_next | P_write (old : Z) | P_wrap.
Inductive consumer := C_check | C_use | C_inc | C_wrap.

(** The queue, the threads, and the history: the slots published and used. *)
Record threads := mk_threads {
  t_ring : list bbl_txq_slot;
  t_write : Z;
  t_next : Z;
  t_read : Z;
  t_prod : producer;
  t_cons : consumer;
  t_pushed : list bbl_txq_slot;
  t_popped : list bbl_txq_slot
}.

Section Threads.
Context (size : Z).

Definition start : threads := mk_threads (replicate (Z.to_nat size) slot0) 0 1 0 P_check C_check [] [].

(** [redirect]: [bbl_txq_write_slot], the assignments and the copy,
    [txq->write = txq->next++] and the wrap of [bbl_txq_write_next]. *)
Definition pstep (s : bbl_txq_slot) (t : threads) : threads :=
  match t_prod t with
  | P_check => if t_read t =? t_next t then t else t {{ t_prod := P_fill }}
  | P_fill => t {{ t_ring := <[Z.to_nat (t_write t) := s]> (t_ring t) ; t_prod := P_next }}
  | P_next => t {{ t_next := u16 (t_next t + 1) ; t_prod := P_write (t_next t) }}
  | P_write old => t {{ t_write := old ; t_prod := P_wrap ;
                        t_pushed := t_pushed t ++ [entry slot0 (t_ring t) (t_write t)] }}
  | P_wrap => t {{ t_next := if t_next t =? size then 0 else t_next t ; t_prod := P_check }}
  end.

(** The loop of [io_thread_main_rx_job]: [bbl_txq_read_slot], the packet is
    handled, [txq->read++] and the wrap of [bbl_txq_read_next]. *)
Definition cstep (t : threads) : threads :=
  match t_cons t with
  | C_check => if t_read t =? t_write t then t else t {{ t_cons := C_use }}
  | C_use => t {{ t_popped := t_popped t ++ [entry slot0 (t_ring t) (t_read t)] ; t_cons := C_inc }}
  | C_inc => t {{ t_read := u16 (t_read t + 1) ; t_cons := C_wrap }}
  | C_wrap => t {{ t_read := if t_read t =? size then 0 else t_read t ; t_cons := C_check }}
  end.

(** Interleavings; the [guarded] ones have no check of the producer while [read]
    is one past the last slot. *)
Inductive reachable (guarded : bool) : threads -> Prop :=
| reach_start : reachable guarded start
| reach_p s t : (guarded = true -> t_prod t = P_check -> t_read t <> size) ->
    reachable guarded t -> reachable guarded (pstep s t)
| reach_c t : reachable guarded t -> reachable guarded (cstep t).

Definition lread (t : threads) : Z := if t_read t =? size then 0 else t_read t.
Definition pending (t : threads) : list bbl_txq_slot :=
  window slot0 size (t_ring t) (lread t) (distance size (lread t) (t_write t)).
Definition taken (t : threads) : nat := match t_cons t with C_inc => 1 | _ => 0 end.

Record inv (t : threads) : Prop := {
  i_ring : Z.of_nat (length (t_ring t)) = size;
  i_write : 0 <= t_write t < size;
  i_read : 0 <= t_read t <= size;
  i_wrap : t_cons t <> C_wrap -> t_read t <> size;
  i_next : match t_prod t with
           | P_check | P_fill | P_next => t_next t = advance size (t_write t)
           | P_write old => old = advance size (t_write t) /\ t_next t = u16 (old + 1)
           | P_wrap => t_next t = u16 (t_write t + 1)
           end;
  i_room : match t_prod t with
           | P_fill | P_next | P_write _ => lread t <> advance size (t_write t)
           | _ => True
           end;
  i_used : match t_cons t with C_use | C_inc => t_read t <> t_write t | _ => True end;
  i_fifo : t_pushed t = t_popped t ++ drop (taken t) (pending t)
}.

Context (Hsize : 2 <= size < 65536).

Lemma inv_start : inv start.
Proof.
  assert (E : lread start = 0) by (unfold lread; cbn; case_if; lia).
  constructor; cbn; try done; try lia.
  - rewrite length_replicate. lia.
  - unfold advance. rewrite u16_small by lia. case_if; lia.
  - unfold pending. rewrite E. cbn [t_write start].
    by rewrite (proj2 (distance_zero size ltac:(lia) 0 0 ltac:(lia) ltac:(lia))).
Qed.

Lemma lread_range t : inv t -> 0 <= lread t < size.
Proof. intros []. unfold lread. case_if; lia. Qed.

Lemma advance_wrap i : 0 <= i < size -> (if u16 (i + 1) =? size then 0 else u16 (i + 1)) = advance size i.
Proof. done. Qed.

Lemma lread_eq t : inv t -> t_cons t <> C_wrap -> lread t = t_read t.
Proof. intros [] Hc. unfold lread. specialize (i_wrap0 Hc). case_if; [lia|done]. Qed.

(** The accesses that leave the queue as it is. *)
Lemma pending_fill t s : inv t ->
  pending (t {{ t_ring := <[Z.to_nat (t_write t) := s]> (t_ring t) ; t_prod := P_next }}) = pending t.
Proof.
  intros Hi. pose proof (lread_range t Hi). destruct Hi, t; unfold pending; cbn in *; unfold constant in *.
  apply window_insert; [lia|apply distance_lt; lia|]. by rewrite distance_end by lia.
Qed.

Lemma pending_publish t : inv t -> lread t <> advance size (t_write t) ->
  window slot0 size (t_ring t) (lread t) (distance size (lread t) (advance size (t_write t))) =
    pending t ++ [entry slot0 (t_ring t) (t_write t)].
Proof.
  intros Hi Hne. pose proof (lread_range t Hi). destruct Hi.
  rewrite distance_push by (try lia; congruence). rewrite window_snoc. unfold pending. by rewrite distance_end by lia.
Qed.

Lemma pending_release t : inv t -> lread t <> t_write t ->
  pending t = entry slot0 (t_ring t) (lread t) ::
    window slot0 size (t_ring t) (advance size (lread t)) (distance size (advance size (lread t)) (t_write t)).
Proof.
  intros Hi Hne. pose proof (lread_range t Hi). destruct Hi. unfold pending.
  rewrite (distance_pop size ltac:(lia) (lread t) (t_write t)) by lia. by apply window_cons; lia.
Qed.

(** Opens a state and its invariant. *)
Ltac open_inv t Hi := destruct Hi, t; unfold pending, lread, taken in *; cbn in *; unfold constant in *; subst.

Lemma inv_pstep s t : (t_prod t = P_check -> t_read t <> size) -> inv t -> inv (pstep s t).
Proof.
  intros Hg Hi. unfold pstep. destruct (t_prod t) as [| | |old|] eqn:Ep.
  - destruct (Z.eqb_spec (t_read t) (t_next t)) as [E|E]; [done|]. specialize (Hg eq_refl).
    open_inv t Hi. constructor; cbn; try done.
    unfold lread. cbn. unfold constant. rewrite (proj2 (Z.eqb_neq _ _) Hg). congruence.
  - pose proof (pending_fill t s Hi) as Hf. open_inv t Hi. constructor; cbn; unfold constant; try done.
    + by rewrite length_insert.
    + unfold pending, lread, taken. cbn. unfold constant. by rewrite Hf.
  - open_inv t Hi. by constructor.
  - pose proof (lread_range t Hi). assert (Hne : lread t <> advance size (t_write t)) by (destruct Hi; by rewrite Ep in *).
    pose proof (pending_publish t Hi Hne) as Hp.
    assert (Hk : (taken t <= length (pending t))%nat).
    { unfold taken. destruct (t_cons t) eqn:Ec; try lia. rewrite pending_release; [cbn; lia|done|].
      rewrite lread_eq by (done || congruence). destruct Hi. by rewrite Ec in *. }
    assert (Hw : 0 <= advance size (t_write t) < size) by (apply advance_range; destruct Hi; lia).
    open_inv t Hi. destruct i_next0 as [-> ->]. constructor; cbn; unfold constant; try done.
    + destruct t_cons0; try done; specialize (i_wrap0 ltac:(done)).
      all: rewrite (proj2 (Z.eqb_neq _ _) i_wrap0) in Hne; done.
    + unfold pending, lread, taken. cbn. unfold constant. by rewrite Hp, drop_app_le, app_assoc by done.
  - open_inv t Hi. constructor; cbn; unfold constant; try done.
Qed.

Lemma inv_cstep t : inv t -> inv (cstep t).
Proof.
  intros Hi. pose proof (lread_range t Hi) as Hlr. unfold cstep. destruct (t_cons t) eqn:Ec.
  - destruct (Z.eqb_spec (t_read t) (t_write t)) as [E|E]; [done|]. open_inv t Hi. constructor; try done. intros _. by apply i_wrap0.
  - assert (Hr : lread t = t_read t) by (apply lread_eq; [done|congruence]).
    assert (Hne : lread t <> t_write t) by (destruct Hi; rewrite Ec in *; congruence).
    pose proof (pending_release t Hi Hne) as Hp. rewrite Hr in Hp.
    open_inv t Hi. constructor; cbn; unfold constant; try done.
    + intros _. by apply i_wrap0.
    + unfold pending, lread, taken. cbn. unfold constant. rewrite Hp, drop_0 in *. cbn. by rewrite <-app_assoc.
  - assert (Hr : lread t = t_read t) by (apply lread_eq; [done|congruence]).
    assert (Hne : lread t <> t_write t) by (destruct Hi; rewrite Ec in *; congruence).
    pose proof (pending_release t Hi Hne) as Hp. rewrite Hr in Hp, Hlr, Hne.
    assert (Hl : lread (t {{ t_read := u16 (t_read t + 1) ; t_cons := C_wrap }}) = advance size (t_read t))
      by (by destruct t).
    assert (Hroom : advance size (t_read t) <> advance size (t_write t)).
    { rewrite !advance_mod by (destruct Hi; lia). intros E. apply Hne.
      rewrite !(Z.add_comm _ 1) in E. apply (offset_inj size ltac:(lia) 1); (destruct Hi; done || lia). }
    open_inv t Hi. constructor; cbn; unfold constant; try done.
    + rewrite u16_small; lia.
    + unfold lread. cbn. unfold constant. rewrite Hl. by destruct t_prod0.
    + unfold pending, lread, taken. cbn. unfold constant. by rewrite Hl, Hp.
  - open_inv t Hi. constructor; cbn; unfold constant; try done.
    + case_if; lia.
    + intros _. case_if; lia.
    + unfold lread. cbn. unfold constant. by repeat case_if; try lia.
    + unfold pending, lread, taken. cbn. unfold constant. by repeat case_if; try lia.
Qed.

Lemma reachable_inv t : reachable true t -> inv t.
Proof.
  induction 1 as [|s t Hg Ht IH|t Ht IH]; [apply inv_start|by apply inv_pstep; auto|by apply inv_cstep].
Qed.

(** C27. A queue between two threads: in every interleaving in which the
    producer does not check for room while [read] is one past the last slot, the
    slots published are the slots used followed by the ones pending, in order, at
    most [size - 1] are pending, and the slot the producer fills is never the one
    the consumer is using. *)
Theorem spsc_fifo (t : threads) :
  reachable true t ->
  t_pushed t = t_popped t ++ drop (taken t) (pending t) /\
  Z.of_nat (length (pending t)) <= size - 1 /\
  (t_prod t = P_fill -> t_cons t = C_use -> t_write t <> t_read t).
Proof.
  intros H%reachable_inv. split; [apply H|]. split.
  - unfold pending, window. rewrite length_map, length_seq.
    pose proof (distance_lt size ltac:(lia) (lread t) (t_write t)). lia.
  - intros _ Hc. destruct H. rewrite Hc in *. congruence.
Qed.
End Threads.

(** A schedule: the producer's turns carry the packet to push. *)
Inductive turn := Prod (s : bbl_txq_slot) | Cons.
Definition run (size : Z) (ts : list turn) (t : threads) : threads :=
  fold_left (fun t x => match x with Prod s => pstep size s t | Cons => cstep size t end) ts t.
Definition schedule (size : Z) (ts : list turn) : threads := run size ts (start size).

Lemma reachable_unguarded size g t : reachable size g t -> reachable size false t.
Proof. induction 1; by constructor. Qed.
Lemma run_app size l1 l2 t : run size (l1 ++ l2) t = run size l2 (run size l1 t).
Proof. apply fold_left_app. Qed.
Lemma run_reachable size ts : forall t, reachable size false t -> reachable size false (run size ts t).
Proof. induction ts as [|[s|] ts IH]; intros t Ht; [done|..]; apply IH; by constructor. Qed.

Definition numbered (n : Z) : bbl_txq_slot := slot0 {{ slot_packet_len := 1 ; slot_packet := [n] }}.
Definition pushing (s : bbl_txq_slot) : list turn := replicate 5 (Prod s).
Definition push (n : Z) : list turn := pushing (numbered n).
Definition pop : list turn := replicate 4 Cons.

(** A push while [read] is one past the last slot. *)
Lemma run_push size s t : 2 <= size < 65536 -> t_prod t = P_check -> t_read t = size -> 0 <= t_next t < size -> 0 <= t_write t < size -> Z.of_nat (length (t_ring t)) = size ->
  run size (pushing s) t = t {{ t_ring := <[Z.to_nat (t_write t) := s]> (t_ring t) ; t_write := t_next t ; t_next := advance size (t_next t) ; t_pushed := t_pushed t ++ [s] }}.
Proof.
  intros Hs Hp Hr Hn Hw Hl. destruct t as [ring write next read prod cons pushed popped]. cbn in Hp, Hr, Hn, Hw, Hl. subst prod read.
  unfold run, pushing. cbn [replicate fold_left]. unfold pstep at 5. cbn. rewrite (proj2 (Z.eqb_neq size next)) by lia. cbn. unfold constant.
  unfold entry. rewrite list_lookup_insert_eq by lia. done.
Qed.

(** C30. The exception is real: between [read++] and [read = 0] of
    [bbl_txq_read_next] the index is [size], which never equals [next], so the
    producer is admitted to a full ring.  Of any size, from any state in which the
    ring is full and the consumer is done with the last slot: when the producer
    pushes two packets in this window, [write] meets [read] and the consumer finds
    the queue empty, and as many packets as the ring has slots are lost. *)
Theorem spsc_wrap_race (size : Z) (t : threads) (a b : bbl_txq_slot) :
  2 <= size < 65536 -> reachable size true t -> t_prod t = P_check -> t_cons t = C_inc -> t_read t = size - 1 -> t_next t = t_read t ->
  let t' := run size ([Cons] ++ pushing a ++ pushing b ++ [Cons]) t in
  reachable size false t' /\ t_prod t' = P_check /\ t_cons t' = C_check /\ t_read t' = t_write t' /\ pending size t' = [] /\
  t_popped t' = t_popped t /\ t_pushed t' = t_pushed t ++ [a; b] /\
  exists lost, t_pushed t' = t_popped t' ++ lost /\ Z.of_nat (length lost) = size.
Proof.
  intros Hs Hr Hp Hc Hread Hnext t'. pose proof (reachable_inv size Hs t Hr) as Hi.
  assert (Hw : t_write t = size - 2).
  { destruct Hi. rewrite Hp in *. unfold advance in i_next0. rewrite u16_small in i_next0 by lia. revert i_next0. case_if; lia. }
  assert (Hlen : Z.of_nat (length (drop (taken t) (pending size t))) = size - 2).
  { unfold taken, pending, lread, window, distance. rewrite Hc, length_drop, length_map, length_seq, Hread, Hw, (proj2 (Z.eqb_neq _ _)) by lia.
    replace (size - 2 - (size - 1)) with (size - 1 + (-1) * size) by lia. rewrite Z.mod_add, Z.mod_small by lia. lia. }
  pose proof (i_ring _ _ Hi) as Hring. pose proof (i_fifo _ _ Hi) as Hfifo.
  assert (Ha : forall i, 0 <= i < size - 1 -> advance size i = i + 1) by (intros i ?; unfold advance; rewrite u16_small by lia; case_if; lia).
  assert (Ha0 : advance size (size - 1) = 0) by (unfold advance; rewrite u16_small by lia; case_if; lia).
  assert (Hinc : cstep size t = t {{ t_read := size ; t_cons := C_wrap }}) by (unfold cstep; rewrite Hc, Hread, u16_small by lia; by replace (size - 1 + 1) with size by lia).
  assert (Ht' : t' = t {{ t_ring := <[Z.to_nat (size - 1) := b]> (<[Z.to_nat (size - 2) := a]> (t_ring t)) ; t_write := 0 ; t_next := advance size 0 ; t_pushed := t_pushed t ++ [a; b] ;
                          t_read := 0 ; t_cons := C_check }}).
  { subst t'. rewrite !run_app. change (run size [Cons] t) with (cstep size t). rewrite Hinc. clear Hi Hr Hlen Hfifo Hinc.
    set (t1 := t {{ t_read := size ; t_cons := C_wrap }}). rewrite (run_push size a t1) by (destruct t; cbn in *; unfold constant in *; done || lia). set (t2 := t1 {{ t_ring := _ ; t_write := _ ; t_next := _ ; t_pushed := _ }}).
    rewrite (run_push size b t2) by (destruct t; cbn in *; unfold constant in *; rewrite ?length_insert, ?Hnext, ?Hread, ?Ha0; done || lia).
    match goal with |- run size [Cons] ?x = _ => change (run size [Cons] x) with (cstep size x) end. subst t1 t2.
    unfold cstep. destruct t; cbn in *; unfold constant in *. rewrite Z.eqb_refl, Hw, Hnext, Hread, Ha0, <- app_assoc. done. }
  split; [apply run_reachable, (reachable_unguarded size true t Hr)|]. rewrite Ht'.
  split; [exact Hp|]. split; [done|]. split; [done|]. split.
  { unfold pending. match goal with |- context [lread size ?x] => assert (lread size x = 0) as -> by (unfold lread; change (t_read x) with 0; by destruct (0 =? size)); change (t_write x) with 0 end.
    unfold distance. rewrite Z.mod_0_l by lia. done. }
  split; [done|]. split; [done|]. exists (drop (taken t) (pending size t) ++ [a; b]). split; [change (t_pushed t ++ [a; b] = t_popped t ++ drop (taken t) (pending size t) ++ [a; b]); by rewrite Hfifo at 1; rewrite <- app_assoc|].
  rewrite length_app. cbn [length]. lia.
Qed.

(** In a ring of 4: three packets pass, three more fill the ring, and the consumer is done with
    the first of them. *)
Definition full_ring : list turn :=
  push 0 ++ push 1 ++ push 2 ++ pop ++ pop ++ pop ++ push 3 ++ push 4 ++ push 5 ++ replicate 2 Cons.

Lemma spsc_wrap_race_witness :
  exists t, reachable 4 false t /\ t_prod t = P_check /\ t_cons t = C_check /\ t_read t = t_write t /\ pending 4 t = [] /\
    map packet (t_pushed t) = [[0]; [1]; [2]; [3]; [4]; [5]; [6]; [7]] /\ map packet (t_popped t) = [[0]; [1]; [2]; [3]].
Proof.
  assert (H : reachable 4 true (schedule 4 full_ring)).
  { unfold schedule, run, full_ring. cbn [app push pushing pop replicate fold_left].
    repeat match goal with
           | |- reachable _ _ (pstep _ _ _) => apply reach_p; [by vm_compute|]
           | |- reachable _ _ (cstep _ _) => apply reach_c
           end. constructor. }
  destruct (spsc_wrap_race 4 (schedule 4 full_ring) (numbered 6) (numbered 7)) as (H1 & H2 & H3 & H4 & H5 & H6 & H7 & _); [lia|done|by vm_compute..|].
  eexists. split; [exact H1|]. split; [done|]. split; [done|]. split; [done|]. split; [done|]. rewrite H6, H7. split; by vm_compute.
Defined.

Definition example_schedule : list turn := push 1 ++ [Cons] ++ push 2 ++ replicate 3 Cons ++ [Prod (numbered 3)].

Lemma spsc_fifo_witness :
  exists t, reachable 4 true t /\ t_pushed t = t_popped t ++ drop (taken t) (pending 4 t) /\
    Z.of_nat (length (pending 4 t)) <= 4 - 1 /\
    (t_prod t = P_fill -> t_cons t = C_use -> t_write t <> t_read t).
Proof.
  exists (schedule 4 example_schedule).
  assert (H : reachable 4 true (schedule 4 example_schedule)).
  { unfold schedule, run, example_schedule. cbn [app push pushing replicate fold_left].
    repeat match goal with
           | |- reachable _ _ (pstep _ _ _) => apply reach_p; [by vm_compute|]
           | |- reachable _ _ (cstep _ _) => apply reach_c
           end. constructor. }
  split; [exact H|]. apply (spsc_fifo 4 ltac:(lia) _ H).
Defined.
End Spsc.
