(* ===== verification/Timer.v ===== *)
(** The timers of timer.c: the timestamps, and the timer root with its buckets,
    its change queue and its garbage queue.

    A timer or a bucket is an address in a heap; a pointer a client stores a
    timer in ([ptimer]) is a location whose content is an address or NULL.  The
    queues are the lists of the addresses they link.  [None] is a NULL or
    dangling pointer dereferenced.  The clock is a function from the number of
    times it was read.  Allocation succeeds, and the counters stay below 2^32. *)
From coqutil Require Import Datatypes.RecordSetters.
From S2P Require Import Prelude.
Import RecordSetters.DoubleBraceUpdate.
From stdpp Require Import strings gmap list.
Open Scope Z_scope.
#[local] Set Warnings "-clear-no-such-hyp".

(** * Timestamps *)

Record timespec := mk_ts { tv_sec : Z; tv_nsec : Z }.

Definition SEC : Z := 1000000000.

Definition timespec_compare (ts1 ts2 : timespec) : Z :=
  if tv_sec ts1 =? tv_sec ts2
  then Z.b2z (tv_nsec ts1 >? tv_nsec ts2) - Z.b2z (tv_nsec ts1 <? tv_nsec ts2)
  else Z.b2z (tv_sec ts1 >? tv_sec ts2) - Z.b2z (tv_sec ts1 <? tv_sec ts2).

Definition timespec_add (x y : timespec) : timespec :=
  let sec := tv_sec x + tv_sec y in
  let nsec := tv_nsec x + tv_nsec y in
  if nsec >=? SEC then mk_ts (sec + 1) (nsec - SEC) else mk_ts sec nsec.

Definition timespec_sub (x y : timespec) : timespec :=
  if tv_sec x <? tv_sec y then mk_ts 0 0
  else if tv_nsec x <? tv_nsec y then
    if tv_sec x =? tv_sec y then mk_ts 0 0
    else mk_ts (tv_sec x - tv_sec y - 1) (tv_nsec x + SEC - tv_nsec y)
  else mk_ts (tv_sec x - tv_sec y) (tv_nsec x - tv_nsec y).

(** A timestamp in nanoseconds. *)
Definition ns (ts : timespec) : Z := tv_sec ts * SEC + tv_nsec ts.
Definition normal (ts : timespec) : Prop := 0 <= tv_sec ts /\ 0 <= tv_nsec ts < SEC.

(** A time of the clock: normalised, and not the start of the epoch. *)
Definition proper (ts : timespec) : Prop := normal ts /\ 0 < ns ts.

(** * Data *)

Record timer := mk_timer {
  t_expire : timespec;
  t_timestamp : option timespec;
  t_bucket : option Z;
  t_ptimer : option Z;
  t_data : Z;
  t_cb : option Z;
  t_expired : bool;
  t_periodic : bool;
  t_reset : bool;
  t_delete : bool;
  t_on_change_list : bool;
  t_name : string
}.

Record bucket := mk_bucket {
  b_qhead : list Z;
  b_sec : Z;
  b_nsec : Z;
  b_timers : Z
}.

(** The timer root, with the heap ([r_timers], [r_bucket], [r_brk] the next
    address), the pointers to timers ([r_ptr]), the number of times the clock was
    read and the callbacks called. *)
Record root := mk_root {
  r_bucket_qhead : list Z;
  r_gc_qhead : list Z;
  r_change_qhead : list Z;
  r_buckets : Z;
  r_gc : Z;
  r_timers : gmap Z timer;
  r_bucket : gmap Z bucket;
  r_brk : Z;
  r_ptr : gmap Z Z;
  r_ticks : nat;
  r_fired : list Z
}.

Definition timer_init_root : root := mk_root [] [] [] 0 0 ∅ ∅ 0 ∅ 0 [].

(** [CIRCLEQ_REMOVE] of an element and [CIRCLEQ_NEXT] of an element of the queue. *)
Definition circleq_remove (x : Z) (q : list Z) : list Z := filter (fun y => y <> x) q.
Arguments circleq_remove : simpl never.
Fixpoint circleq_after (x : Z) (q : list Z) : list Z :=
  match q with
  | [] => []
  | y :: q => if y =? x then q else circleq_after x q
  end.

Section Clock.
Context (clock : nat -> timespec).

Definition clock_gettime (r : root) : timespec * root := (clock (r_ticks r), r {{ r_ticks ::= S }}).

(** [with_timer t f]: an assignment to fields of [*t]. *)
Definition with_timer (t : Z) (f : timer -> timer) (r : root) : option root :=
  tm ← r_timers r !! t; Some (r {{ r_timers ::= <[t := f tm]> }}).

Definition timer_set_expire (sec nsec : Z) (tm : timer) : timer :=
  tm {{ t_expire := timespec_add (t_expire tm) (mk_ts sec nsec) ; t_expired := false }}.

Definition timer_change (t : Z) (r : root) : option root :=
  tm ← r_timers r !! t;
  if t_on_change_list tm then Some r
  else
    b ← t_bucket tm;
    _ ← r_bucket r !! b;
    Some (r {{ r_change_qhead ::= (fun q => q ++ [t]) ;
               r_timers ::= <[t := tm {{ t_on_change_list := true }}]> }}).

Definition key_is (r : root) (sec nsec : Z) (b : Z) : bool :=
  match r_bucket r !! b with
  | Some bk => (b_sec bk =? sec) && (b_nsec bk =? nsec)
  | None => false
  end.

Definition timer_enqueue_bucket (t sec nsec : Z) (r : root) : option root :=
  tm ← r_timers r !! t;
  match List.find (key_is r sec nsec) (r_bucket_qhead r) with
  | Some b =>
      bk ← r_bucket r !! b;
      Some (r {{ r_timers ::= <[t := tm {{ t_bucket := Some b }}]> ;
                 r_bucket ::= <[b := bk {{ b_qhead ::= (fun q => q ++ [t]) ; b_timers ::= Z.add 1 }}]> }})
  | None =>
      let b := r_brk r in
      Some (r {{ r_brk ::= Z.add 1 ;
                 r_bucket_qhead ::= (fun q => q ++ [b]) ;
                 r_buckets ::= Z.add 1 ;
                 r_timers ::= <[t := tm {{ t_bucket := Some b }}]> ;
                 r_bucket ::= <[b := mk_bucket [t] sec nsec 1]> }})
  end.

Definition timer_dequeue_bucket (t : Z) (r : root) : option root :=
  tm ← r_timers r !! t;
  b ← t_bucket tm;
  bk ← r_bucket r !! b;
  let bk := bk {{ b_qhead ::= circleq_remove t ; b_timers ::= Z.add (-1) }} in
  let r := r {{ r_timers ::= <[t := tm {{ t_bucket := None }}]> }} in
  Some (if b_timers bk =? 0
        then r {{ r_bucket_qhead ::= circleq_remove b ; r_bucket ::= delete b ; r_buckets ::= Z.add (-1) }}
        else r {{ r_bucket ::= <[b := bk]> }}).

Definition timer_requeue (t sec nsec : Z) (r : root) : option root :=
  tm ← r_timers r !! t;
  b ← t_bucket tm;
  bk ← r_bucket r !! b;
  r ← with_timer t (timer_set_expire sec nsec) r;
  if (b_sec bk =? sec) && (b_nsec bk =? nsec)
  then Some (r {{ r_bucket ::= <[b := bk {{ b_qhead ::= (fun q => circleq_remove t q ++ [t]) }}]> }})
  else r ← timer_dequeue_bucket t r; timer_enqueue_bucket t sec nsec r.

(** The expiration times [step] apart, from [now] on. *)
Fixpoint smear (ts : list Z) (now step : timespec) (r : root) : option root :=
  match ts with
  | [] => Some r
  | t :: ts =>
      let now := timespec_add now step in
      r ← with_timer t (fun tm => tm {{ t_expire := now }}) r;
      smear ts now step r
  end.

Definition timer_smear_bucket_internal (b : Z) (r : root) : option root :=
  bk ← r_bucket r !! b;
  match last (b_qhead bk) with
  | Some last_timer =>
      if b_timers bk >? 1 then
        let (now, r) := clock_gettime r in
        tm ← r_timers r !! last_timer;
        let diff := timespec_sub (t_expire tm) now in
        let step_nsec := Z.quot (tv_sec diff * SEC + tv_nsec diff) (b_timers bk) in
        let step_sec := Z.quot step_nsec SEC in
        smear (b_qhead bk) now (mk_ts step_sec (step_nsec - step_sec * SEC)) r
      else Some r
  | None => Some r
  end.

Definition timer_smear_bucket (sec nsec : Z) (r : root) : option root :=
  match List.find (key_is r sec nsec) (r_bucket_qhead r) with
  | Some b => timer_smear_bucket_internal b r
  | None => Some r
  end.

Fixpoint smear_buckets (bs : list Z) (r : root) : option root :=
  match bs with
  | [] => Some r
  | b :: bs => r ← timer_smear_bucket_internal b r; smear_buckets bs r
  end.

Definition timer_smear_all_buckets (r : root) : option root := smear_buckets (r_bucket_qhead r) r.

Definition timer_del_internal (t : Z) (r : root) : option root :=
  tm ← r_timers r !! t;
  match t_bucket tm with
  | None => Some r
  | Some b =>
      r ← timer_dequeue_bucket t r;
      let r := r {{ r_gc_qhead ::= (fun q => q ++ [t]) ; r_gc ::= Z.add 1 }} in
      match t_ptimer tm with
      | Some p =>
          r ← with_timer t (fun tm => tm {{ t_ptimer := None }}) r;
          Some (r {{ r_ptr ::= delete p }})
      | None => Some r
      end
  end.

(** [timer_del] of the timer at an address; a client passes the content of its pointer. *)
Definition timer_del (t : Z) (r : root) : option root :=
  r ← with_timer t (fun tm => tm {{ t_delete := true }}) r; timer_change t r.

(** One turn of the loop of [timer_process_changes], and the loop. *)
Definition process_change (now : timespec) (t : Z) (r : root) : option root :=
  r ← with_timer t (fun tm => tm {{ t_on_change_list := false }})
        (r {{ r_change_qhead ::= circleq_remove t }});
  tm ← r_timers r !! t;
  if t_delete tm then timer_del_internal t r
  else if t_periodic tm then
    r ← (if t_reset tm then with_timer t (fun tm => tm {{ t_expire := now }}) r else Some r);
    b ← t_bucket tm;
    bk ← r_bucket r !! b;
    timer_requeue t (b_sec bk) (b_nsec bk) r
  else Some r.

Fixpoint process_changes (fuel : nat) (now : timespec) (r : root) : option root :=
  match fuel, r_change_qhead r with
  | _, [] => Some r
  | S fuel, t :: _ => r ← process_change now t r; process_changes fuel now r
  | O, _ => None
  end.

(** Each turn takes one timer off the queue. *)
Definition timer_process_changes (r : root) : option root :=
  let (now, r) := clock_gettime r in process_changes (length (r_change_qhead r)) now r.

Definition name_of (name : string) : string := String.substring 0 31 name.

Definition timer_add (ptimer : Z) (name : string) (sec nsec data : Z) (cb : option Z) (r : root) : option root :=
  match r_ptr r !! ptimer with
  | Some t =>
      let (now, r) := clock_gettime r in
      r ← with_timer t (fun tm => tm {{ t_expire := now }}) r;
      r ← timer_requeue t sec nsec r;
      tm ← r_timers r !! t;
      if negb (t_data tm =? data) || negb (bool_decide (t_cb tm = cb))
      then with_timer t (fun tm => tm {{ t_name := name_of name ; t_data := data ; t_cb := cb }}) r
      else Some r
  | None =>
      let (t, r) :=
        match r_gc_qhead r with
        | [] => (r_brk r, r {{ r_brk ::= Z.add 1 }})
        | t :: q => (t, r {{ r_gc_qhead := q ; r_gc ::= Z.add (-1) }})
        end in
      let (now, r) := clock_gettime r in
      let tm := timer_set_expire sec nsec
        (mk_timer now None None (Some ptimer) data cb false false false false false (name_of name)) in
      timer_enqueue_bucket t sec nsec (r {{ r_timers ::= <[t := tm]> ; r_ptr ::= <[ptimer := t]> }})
  end.

Definition timer_add_periodic (ptimer : Z) (name : string) (sec nsec data : Z) (cb : option Z) (r : root) : option root :=
  r ← timer_add ptimer name sec nsec data cb r;
  match r_ptr r !! ptimer with
  | Some t => with_timer t (fun tm => tm {{ t_periodic := true ; t_reset := true }}) r
  | None => Some r
  end.

(** The calls of the clients. *)
Inductive call :=
| CallAdd (ptimer : Z) (name : string) (sec nsec data : Z) (cb : option Z)
| CallAddPeriodic (ptimer : Z) (name : string) (sec nsec data : Z) (cb : option Z)
| CallDel (ptimer : Z)
| CallSmear (sec nsec : Z)
| CallSmearAll.

Definition exec (c : call) (r : root) : option root :=
  match c with
  | CallAdd p name sec nsec data cb => timer_add p name sec nsec data cb r
  | CallAddPeriodic p name sec nsec data cb => timer_add_periodic p name sec nsec data cb r
  | CallDel p => match r_ptr r !! p with Some t => timer_del t r | None => Some r end
  | CallSmear sec nsec => timer_smear_bucket sec nsec r
  | CallSmearAll => timer_smear_all_buckets r
  end.

Fixpoint execs (cs : list call) (r : root) : option root :=
  match cs with
  | [] => Some r
  | c :: cs => r ← exec c r; execs cs r
  end.
End Clock.

(** * Timestamps, in nanoseconds *)

Lemma timespec_add_ns x y :
  normal x -> 0 <= tv_sec y -> 0 <= tv_nsec y <= SEC -> normal (timespec_add x y) /\ ns (timespec_add x y) = ns x + ns y.
Proof. destruct x, y. unfold normal, ns, timespec_add, SEC. cbn. intros. case_if; cbn; lia. Qed.

Lemma timespec_sub_ns x y :
  normal x -> normal y -> normal (timespec_sub x y) /\ ns (timespec_sub x y) = Z.max 0 (ns x - ns y).
Proof. destruct x, y. unfold normal, ns, timespec_sub, SEC. cbn. intros. repeat case_if; cbn; lia. Qed.

Lemma timespec_compare_ns x y :
  normal x -> normal y -> timespec_compare x y = Z.sgn (ns x - ns y).
Proof.
  destruct x as [s1 n1], y as [s2 n2]. unfold normal, ns, timespec_compare, SEC. cbn. intros.
  assert (E : Z.sgn (s1 * 1000000000 + n1 - (s2 * 1000000000 + n2)) =
    if s1 =? s2 then Z.sgn (n1 - n2) else Z.sgn (s1 - s2)) by (case_if; lia).
  rewrite E. clear E. case_if; rewrite Z.gtb_ltb.
  - destruct (Z.ltb_spec n2 n1), (Z.ltb_spec n1 n2); cbn; lia.
  - destruct (Z.ltb_spec s2 s1), (Z.ltb_spec s1 s2); cbn; lia.
Qed.

(** The timestamp arithmetic of the timers is that of nanoseconds: on
    normalised timestamps [timespec_add] adds, [timespec_sub] subtracts and
    yields zero instead of a negative interval, both with a normalised result,
    and [timespec_compare] is -1, 0 or 1 as the first is older than, equal to or
    newer than the second. *)
Theorem timespec_arithmetic (x y : timespec) :
  normal x -> normal y ->
  normal (timespec_add x y) /\ ns (timespec_add x y) = ns x + ns y /\
  normal (timespec_sub x y) /\ ns (timespec_sub x y) = Z.max 0 (ns x - ns y) /\
  timespec_compare x y = Z.sgn (ns x - ns y).
Proof.
  intros Hx Hy. destruct (timespec_add_ns x y Hx) as [? ?]; [apply Hy|destruct Hy; lia|].
  destruct (timespec_sub_ns x y Hx Hy) as [? ?]. split_and!; try done. by apply timespec_compare_ns.
Qed.

Lemma timespec_arithmetic_witness :
  normal (timespec_add (mk_ts 7 999999999) (mk_ts 2 1)) /\
  ns (timespec_add (mk_ts 7 999999999) (mk_ts 2 1)) = ns (mk_ts 10 0) /\
  timespec_compare (mk_ts 7 999999999) (mk_ts 2 1) = 1.
Proof.
  assert (H1 : normal (mk_ts 7 999999999)) by (unfold normal, SEC; cbn; lia).
  assert (H2 : normal (mk_ts 2 1)) by (unfold normal, SEC; cbn; lia).
  destruct (timespec_arithmetic (mk_ts 7 999999999) (mk_ts 2 1) H1 H2) as (Ha & Hb & _ & _ & Hc).
  split; [exact Ha|]. split; [rewrite Hb; reflexivity|]. rewrite Hc. reflexivity.
Defined.

(** * The invariant *)

(** What links a timer: its bucket, the pointer it is stored in and whether it is
    on the change queue. *)
Definition link_of (tm : timer) : option Z * option Z * bool := (t_bucket tm, t_ptimer tm, t_on_change_list tm).
Definition links (r : root) : gmap Z (option Z * option Z * bool) := link_of <$> r_timers r.

(** The queues and the links between them.  [d]: the timers that are detached
    from their bucket, in the middle of an operation. *)
Record linked (d : Z -> Prop) (bq gcq cq : list Z) (nb ngc : Z) (lk : gmap Z (option Z * option Z * bool))
    (bks : gmap Z bucket) (brk : Z) (ptr : gmap Z Z) : Prop := {
  wf_bq : NoDup bq;
  wf_dom b : b ∈ bq <-> is_Some (bks !! b);
  wf_key b1 b2 k1 k2 : bks !! b1 = Some k1 -> bks !! b2 = Some k2 ->
    b_sec k1 = b_sec k2 -> b_nsec k1 = b_nsec k2 -> b1 = b2;
  wf_buckets : nb = Z.of_nat (length bq);
  wf_bucket b bk : bks !! b = Some bk ->
    b_qhead bk <> [] /\ NoDup (b_qhead bk) /\ b_timers bk = Z.of_nat (length (b_qhead bk));
  wf_link t b bk : bks !! b = Some bk -> t ∈ b_qhead bk <-> exists p c, lk !! t = Some (Some b, p, c);
  wf_back t b p c : lk !! t = Some (Some b, p, c) ->
    is_Some (bks !! b) /\ exists q, p = Some q /\ ptr !! q = Some t;
  wf_gcq : NoDup gcq;
  wf_gc : ngc = Z.of_nat (length gcq);
  wf_gc_link t : t ∈ gcq -> ~ d t /\ exists p c, lk !! t = Some (None, p, c);
  wf_free t p c : lk !! t = Some (None, p, c) -> d t \/ (t ∈ gcq /\ c = false);
  wf_detached t : d t -> exists q c, lk !! t = Some (None, Some q, c) /\ ptr !! q = Some t;
  wf_change : NoDup cq;
  wf_change_link t : t ∈ cq <-> exists b p, lk !! t = Some (b, p, true);
  wf_ptr q t : ptr !! q = Some t -> exists b c, lk !! t = Some (b, Some q, c) /\ (b <> None \/ d t);
  wf_brk_t t : is_Some (lk !! t) -> t < brk;
  wf_brk_b b : is_Some (bks !! b) -> b < brk
}.

Arguments wf_key {d bq gcq cq nb ngc lk bks brk ptr}.
Arguments wf_bucket {d bq gcq cq nb ngc lk bks brk ptr}.
Arguments wf_link {d bq gcq cq nb ngc lk bks brk ptr}.
Arguments wf_back {d bq gcq cq nb ngc lk bks brk ptr}.
Arguments wf_dom {d bq gcq cq nb ngc lk bks brk ptr}.
Arguments wf_gc_link {d bq gcq cq nb ngc lk bks brk ptr}.
Arguments wf_free {d bq gcq cq nb ngc lk bks brk ptr}.
Arguments wf_detached {d bq gcq cq nb ngc lk bks brk ptr}.
Arguments wf_change_link {d bq gcq cq nb ngc lk bks brk ptr}.
Arguments wf_ptr {d bq gcq cq nb ngc lk bks brk ptr}.
Arguments wf_brk_t {d bq gcq cq nb ngc lk bks brk ptr}.
Arguments wf_brk_b {d bq gcq cq nb ngc lk bks brk ptr}.

Definition wfx (d : Z -> Prop) (r : root) : Prop :=
  linked d (r_bucket_qhead r) (r_gc_qhead r) (r_change_qhead r) (r_buckets r) (r_gc r) (links r)
    (r_bucket r) (r_brk r) (r_ptr r).
Definition none (t : Z) : Prop := False.
Definition wf : root -> Prop := wfx none.

Lemma wf_init : wf timer_init_root.
Proof.
  constructor; unfold links; cbn; intros; rewrite ?fmap_empty, ?lookup_empty in *; try done; try constructor; set_solver.
Qed.

(** ** Queues *)

Lemma elem_of_remove x y q : x ∈ circleq_remove y q <-> x ∈ q /\ x <> y.
Proof. unfold circleq_remove. rewrite list_elem_of_filter. naive_solver. Qed.

Lemma NoDup_remove x q : NoDup q -> NoDup (circleq_remove x q).
Proof. apply NoDup_filter. Qed.

Lemma remove_notin x q : x ∉ q -> circleq_remove x q = q.
Proof.
  induction q as [|y q IH]; intros Hx; [done|]. unfold circleq_remove in *. rewrite filter_cons_True by set_solver.
  f_equal. apply IH. set_solver.
Qed.

Lemma length_remove x q : NoDup q -> x ∈ q -> Z.of_nat (length (circleq_remove x q)) = Z.of_nat (length q) - 1.
Proof.
  induction 1 as [|y q Hy Hq IH]; intros Hx; [set_solver|]. unfold circleq_remove in *.
  destruct (decide (y = x)) as [->|Hne].
  - rewrite filter_cons_False by naive_solver. fold (circleq_remove x q). rewrite remove_notin by done. cbn [length]. lia.
  - rewrite filter_cons_True by done. cbn [length]. rewrite !Nat2Z.inj_succ, IH; [lia|]. set_solver.
Qed.

Lemma NoDup_snoc (x : Z) q : NoDup q -> x ∉ q -> NoDup (q ++ [x]).
Proof. intros. apply NoDup_app. split_and!; [done| |apply NoDup_singleton]. set_solver. Qed.

(** Splits on which entry of an updated map is looked up. *)
Ltac look :=
  repeat match goal with
  | H : context [<[?k := _]> _ !! ?k'] |- _ =>
      first [rewrite lookup_insert_eq in H | rewrite lookup_insert_ne in H by congruence
            | destruct (decide (k' = k)) as [->|?]]
  | |- context [<[?k := _]> _ !! ?k'] =>
      first [rewrite lookup_insert_eq | rewrite lookup_insert_ne by congruence | destruct (decide (k' = k)) as [->|?]]
  | H : context [delete ?k _ !! ?k'] |- _ =>
      first [rewrite lookup_delete_eq in H | rewrite lookup_delete_ne in H by congruence
            | destruct (decide (k' = k)) as [->|?]]
  | |- context [delete ?k _ !! ?k'] =>
      first [rewrite lookup_delete_eq | rewrite lookup_delete_ne by congruence | destruct (decide (k' = k)) as [->|?]]
  end.


Section Linked.
Context (bq gcq cq : list Z) (nb ngc : Z) (lk : gmap Z (option Z * option Z * bool)).
Context (bks : gmap Z bucket) (brk : Z) (ptr : gmap Z Z).

(** Closes a clause of the invariant after [look]: unpacks the hypotheses,
    replaces membership of a queue by what the invariant says of it. *)
Ltac lk_go Hw :=
  repeat match goal with
  | H : exists _, _ |- _ => destruct H
  | H : _ /\ _ |- _ => destruct H
  | H : is_Some _ |- _ => destruct H
  | |- _ <-> _ => split; intros
  | H : _ ∈ _ ++ [_] |- _ => apply elem_of_app in H as [H|H%list_elem_of_singleton]
  | H : _ ∈ circleq_remove _ _ |- _ => apply elem_of_remove in H as [H ?]
  | H : _ ∈ cq |- _ => apply (wf_change_link Hw) in H
  | H : _ ∈ gcq |- _ => apply (wf_gc_link Hw) in H
  | H : ptr !! _ = Some _ |- exists _ _, _ => apply (wf_ptr Hw) in H
  | |- _ ∈ circleq_remove _ _ => apply elem_of_remove; split; [|done]
  | |- ?t ∈ _ ++ [?t] => apply elem_of_app; right; by constructor
  | |- _ ∈ _ ++ [_] => apply elem_of_app; left
  | |- _ ∈ cq => apply (wf_change_link Hw)
  | H1 : lk !! ?t = Some _, H2 : lk !! ?t = Some _ |- _ => rewrite H1 in H2
  | H1 : bks !! ?t = Some _, H2 : bks !! ?t = Some _ |- _ => rewrite H1 in H2
  | _ => progress simplify_eq
  end; try done; eauto 10.

Lemma linked_change d t b p :
  linked d bq gcq cq nb ngc lk bks brk ptr -> lk !! t = Some (Some b, p, false) ->
  linked d bq gcq (cq ++ [t]) nb ngc (<[t := (Some b, p, true)]> lk) bks brk ptr.
Proof.
  intros Hw Hl. assert (Hc : t ∉ cq) by (rewrite (wf_change_link Hw); intros (? & ? & ?); congruence).
  constructor; try apply Hw; intros; look; simplify_eq; try by eapply Hw.
  - rewrite (wf_link Hw) by done. lk_go Hw.
  - lk_go Hw.
  - apply (wf_detached Hw) in H. lk_go Hw.
  - by apply NoDup_snoc; [apply Hw|].
  - lk_go Hw.
  - lk_go Hw.
  - lk_go Hw.
Qed.

Lemma linked_unchange d t b p :
  linked d bq gcq cq nb ngc lk bks brk ptr -> lk !! t = Some (b, p, true) ->
  linked d bq gcq (circleq_remove t cq) nb ngc (<[t := (b, p, false)]> lk) bks brk ptr.
Proof.
  intros Hw Hl. constructor; try apply Hw; intros; look; simplify_eq; try by eapply Hw.
  all: try (rewrite (wf_link Hw) by done; lk_go Hw).
  all: try by lk_go Hw.
  - apply (wf_free Hw) in Hl as [?|[_ [=]]]. by left.
  - destruct (wf_detached Hw _ H) as (q & c & E & ?). rewrite E in Hl. simplify_eq. eauto.
  - by apply NoDup_remove, Hw.
Qed.

(** Taking a timer out of its bucket, which stays or goes. *)
Section Dequeue.
Context (t b : Z) (p : option Z) (c : bool) (bk bk' : bucket).
Context (Hw : linked none bq gcq cq nb ngc lk bks brk ptr).
Context (Hl : lk !! t = Some (Some b, p, c)) (Hb : bks !! b = Some bk).

Lemma linked_dequeue_keep :
  b_qhead bk' = circleq_remove t (b_qhead bk) -> b_qhead bk' <> [] ->
  b_sec bk' = b_sec bk -> b_nsec bk' = b_nsec bk -> b_timers bk' = b_timers bk - 1 ->
  linked (eq t) bq gcq cq nb ngc (<[t := (None, p, c)]> lk) (<[b := bk']> bks) brk ptr.
Proof.
  intros Hq Hne Hs Hn Ht. assert (Hin : t ∈ b_qhead bk) by (apply (wf_link Hw _ _ _ Hb); eauto).
  assert (Hbr : b < brk) by (apply (wf_brk_b Hw); eauto).
  constructor; try apply Hw.
  - intros b0. look; [|apply Hw]. split; [by eauto|]. intros _. apply (wf_dom Hw). eauto.
  - intros b1 b2 k1 k2 H1 H2 E1 E2. look; simplify_eq; try done; eapply (wf_key Hw); eauto; congruence.
  - intros b0 bk0 H. look; simplify_eq; [|by apply (wf_bucket Hw b0)].
    destruct (wf_bucket Hw b bk Hb) as (_ & Hnd & Hlen). rewrite Hq in *. split_and!; [done|by apply NoDup_remove|].
    rewrite length_remove by done. lia.
  - intros t0 b0 bk0 H. look; simplify_eq.
    + rewrite Hq, elem_of_remove. naive_solver.
    + rewrite Hq, elem_of_remove, (wf_link Hw t0 b bk) by done. naive_solver.
    + rewrite (wf_link Hw t b0 bk0) by done. lk_go Hw.
    + by apply Hw.
  - intros t0 b0 p0 c0 H. look; [done| |]; simplify_eq; apply (wf_back Hw) in H; lk_go Hw.
  - intros t0 H. look; lk_go Hw.
  - intros t0 p0 c0 H. look; [by left|]. right. apply (wf_free Hw) in H as [[]|?]. done.
  - intros t0 <-. look. destruct (wf_back Hw _ _ _ _ Hl) as [_ (q & -> & ?)]. eauto.
  - intros t0. look; [|apply Hw]. rewrite (wf_change_link Hw). lk_go Hw.
  - intros q t0 H. look; apply (wf_ptr Hw) in H as (b0 & c0 & ? & [?|[]]); simplify_eq; eauto 10.
  - intros t0 H. look; apply (wf_brk_t Hw); eauto.
  - intros b0 H. look; [done|]. by apply (wf_brk_b Hw).
Qed.

Lemma linked_dequeue_drop :
  circleq_remove t (b_qhead bk) = [] ->
  linked (eq t) (circleq_remove b bq) gcq cq (-1 + nb) ngc (<[t := (None, p, c)]> lk) (delete b bks) brk ptr.
Proof.
  intros Hq. assert (Hin : t ∈ b_qhead bk) by (apply (wf_link Hw _ _ _ Hb); eauto).
  assert (Hall : forall t0, t0 ∈ b_qhead bk -> t0 = t).
  { intros t0 H0. destruct (decide (t0 = t)); [done|]. assert (t0 ∈ circleq_remove t (b_qhead bk)) by by apply elem_of_remove.
    rewrite Hq in *. set_solver. }
  constructor; try apply Hw.
  - apply NoDup_remove, Hw.
  - intros b0. rewrite elem_of_remove, (wf_dom Hw). look; [|naive_solver]. split; [naive_solver|intros [? [=]]].
  - intros b1 b2 k1 k2 H1 H2 E1 E2. look; simplify_eq. eapply (wf_key Hw); eauto.
  - rewrite length_remove; [|apply Hw|apply (wf_dom Hw); eauto]. rewrite <-(wf_buckets _ _ _ _ _ _ _ _ _ _ Hw). lia.
  - intros b0 bk0 H. look; simplify_eq. by apply (wf_bucket Hw b0).
  - intros t0 b0 bk0 H. look; simplify_eq; [|by apply Hw]. rewrite (wf_link Hw t b0 bk0) by done. lk_go Hw.
  - intros t0 b0 p0 c0 H. look; simplify_eq; [|by apply (wf_back Hw) in H; lk_go Hw].
    exfalso. assert (t0 ∈ b_qhead bk) by (apply (wf_link Hw _ _ _ Hb); eauto). naive_solver.
  - intros t0 H. look; lk_go Hw.
  - intros t0 p0 c0 H. look; [by left|]. right. apply (wf_free Hw) in H as [[]|?]. done.
  - intros t0 <-. look. destruct (wf_back Hw _ _ _ _ Hl) as [_ (q & -> & ?)]. eauto.
  - intros t0. look; [|apply Hw]. rewrite (wf_change_link Hw). lk_go Hw.
  - intros q t0 H. look; apply (wf_ptr Hw) in H as (b0 & c0 & ? & [?|[]]); simplify_eq; eauto 10.
  - intros t0 H. look; apply (wf_brk_t Hw); eauto.
  - intros b0 H. look; [by destruct H|]. by apply (wf_brk_b Hw).
Qed.
End Dequeue.

(** The order within a bucket does not matter to the links. *)
Lemma linked_permute d b bk bk' :
  linked d bq gcq cq nb ngc lk bks brk ptr -> bks !! b = Some bk ->
  b_qhead bk' ≡ₚ b_qhead bk -> b_sec bk' = b_sec bk -> b_nsec bk' = b_nsec bk -> b_timers bk' = b_timers bk ->
  linked d bq gcq cq nb ngc lk (<[b := bk']> bks) brk ptr.
Proof.
  intros Hw Hb Hq Hs Hn Ht. assert (Hbr : b < brk) by (apply (wf_brk_b Hw); eauto). constructor; try apply Hw.
  - intros b0. look; [|apply Hw]. split; [by eauto|]. intros _. apply (wf_dom Hw). eauto.
  - intros b1 b2 k1 k2 H1 H2 E1 E2. look; simplify_eq; try done; eapply (wf_key Hw); eauto; congruence.
  - intros b0 bk0 H. look; simplify_eq; [|by apply (wf_bucket Hw b0)].
    destruct (wf_bucket Hw b bk Hb) as (Hne & Hnd & Hlen). split_and!.
    + intros E. rewrite E in Hq. by apply Permutation_nil_l in Hq.
    + by rewrite Hq.
    + by rewrite Ht, Hq.
  - intros t0 b0 bk0 H. look; simplify_eq; [|by apply Hw]. rewrite Hq. by apply (wf_link Hw).
  - intros t0 b0 p0 c0 H. apply (wf_back Hw) in H as [? ?]. split; [|done]. look; eauto.
  - intros b0 H. look; [done|]. by apply (wf_brk_b Hw).
Qed.

Lemma remove_permute (t : Z) q : NoDup q -> t ∈ q -> circleq_remove t q ++ [t] ≡ₚ q.
Proof.
  intros Hq Ht. apply NoDup_Permutation; [|done|].
  - apply NoDup_snoc; [by apply NoDup_remove|]. rewrite elem_of_remove. naive_solver.
  - intros x. rewrite elem_of_app, elem_of_remove, list_elem_of_singleton. destruct (decide (x = t)); naive_solver.
Qed.

(** A detached timer goes to a bucket, a new bucket or the garbage queue. *)
Section Attach.
Context (t q : Z) (c : bool).
Context (Hw : linked (eq t) bq gcq cq nb ngc lk bks brk ptr).
Context (Hl : lk !! t = Some (None, Some q, c)).

Lemma detached_ptr : ptr !! q = Some t.
Proof. destruct (wf_detached Hw t eq_refl) as (q' & c' & E & ?). rewrite Hl in E. by simplify_eq. Qed.

Lemma linked_enqueue b bk bk' :
  bks !! b = Some bk -> b_qhead bk' = b_qhead bk ++ [t] ->
  b_sec bk' = b_sec bk -> b_nsec bk' = b_nsec bk -> b_timers bk' = b_timers bk + 1 ->
  linked none bq gcq cq nb ngc (<[t := (Some b, Some q, c)]> lk) (<[b := bk']> bks) brk ptr.
Proof.
  intros Hb Hq Hs Hn Ht. assert (Hnin : t ∉ b_qhead bk) by (rewrite (wf_link Hw _ _ _ Hb); intros (? & ? & ?); congruence).
  assert (Hbr : b < brk) by (apply (wf_brk_b Hw); eauto). pose proof detached_ptr as Hp.
  constructor; try apply Hw.
  - intros b0. look; [|apply Hw]. split; [by eauto|]. intros _. apply (wf_dom Hw). eauto.
  - intros b1 b2 k1 k2 H1 H2 E1 E2. look; simplify_eq; try done; eapply (wf_key Hw); eauto; congruence.
  - intros b0 bk0 H. look; simplify_eq; [|by apply (wf_bucket Hw b0)].
    destruct (wf_bucket Hw b bk Hb) as (_ & Hnd & Hlen). rewrite Hq in *. split_and!.
    + by intros [_ [=]]%app_nil.
    + by apply NoDup_snoc.
    + rewrite length_app. cbn [length]. lia.
  - intros t0 b0 bk0 H. look; simplify_eq.
    + rewrite Hq. lk_go Hw.
    + rewrite Hq, elem_of_app, list_elem_of_singleton, (wf_link Hw t0 b bk) by done. naive_solver.
    + rewrite (wf_link Hw t b0 bk0) by done. lk_go Hw.
    + by apply Hw.
  - intros t0 b0 p0 c0 H. look; simplify_eq; eauto; apply (wf_back Hw) in H; destruct H; split; eauto.
  - intros t0 H. destruct (wf_gc_link Hw t0 H) as [? ?]. split; [intros []|]. by look.
  - intros t0 p0 c0 H. look; [done|]. apply (wf_free Hw) in H as [<-|?]; [done|auto].
  - by intros t0 [].
  - intros t0. look; [|apply Hw]. rewrite (wf_change_link Hw). lk_go Hw.
  - intros q0 t0 H. destruct (wf_ptr Hw _ _ H) as (b0 & c0 & ? & ?). look; simplify_eq; naive_solver.
  - intros t0 H. look; apply (wf_brk_t Hw); eauto.
  - intros b0 H. look; [done|]. by apply (wf_brk_b Hw).
Qed.

Lemma linked_enqueue_new sec nsec :
  (forall b bk, bks !! b = Some bk -> b_sec bk = sec -> b_nsec bk <> nsec) ->
  linked none (bq ++ [brk]) gcq cq (1 + nb) ngc (<[t := (Some brk, Some q, c)]> lk)
    (<[brk := mk_bucket [t] sec nsec 1]> bks) (1 + brk) ptr.
Proof.
  intros Hkey. pose proof detached_ptr as Hp.
  assert (Hfresh : bks !! brk = None).
  { destruct (bks !! brk) eqn:E; [|done]. assert (brk < brk) by (apply (wf_brk_b Hw); eauto). lia. }
  assert (Hbq : brk ∉ bq) by (rewrite (wf_dom Hw), Hfresh; by intros [? [=]]).
  constructor; try apply Hw.
  - by apply NoDup_snoc; [apply Hw|].
  - intros b0. rewrite elem_of_app, list_elem_of_singleton, (wf_dom Hw). look; [|naive_solver]. split; eauto.
  - intros b1 b2 k1 k2 H1 H2 E1 E2. look; try congruence.
    3: by eapply (wf_key Hw).
    all: exfalso; eapply Hkey; [eassumption|simplify_eq; cbn in *; congruence..].
  - rewrite length_app, (wf_buckets _ _ _ _ _ _ _ _ _ _ Hw). cbn [length]. lia.
  - intros b0 bk0 H. look; simplify_eq; [|by apply (wf_bucket Hw b0)]. cbn. split_and!; [done|apply NoDup_singleton|done].
  - intros t0 b0 bk0 H. look; simplify_eq; cbn.
    + rewrite list_elem_of_singleton. split; [by eauto|done].
    + rewrite list_elem_of_singleton. split; [done|]. intros (p & c' & E). apply (wf_back Hw) in E as [[? E] _]. congruence.
    + rewrite (wf_link Hw t b0 bk0) by done. lk_go Hw.
    + by apply Hw.
  - intros t0 b0 p0 c0 H. look; simplify_eq; eauto; apply (wf_back Hw) in H; destruct H; split; eauto.
  - intros t0 H. destruct (wf_gc_link Hw t0 H) as [? ?]. split; [intros []|]. by look.
  - intros t0 p0 c0 H. look; [done|]. apply (wf_free Hw) in H as [<-|?]; [done|auto].
  - by intros t0 [].
  - intros t0. look; [|apply Hw]. rewrite (wf_change_link Hw). lk_go Hw.
  - intros q0 t0 H. destruct (wf_ptr Hw _ _ H) as (b0 & c0 & ? & ?). look; simplify_eq; naive_solver.
  - intros t0 H. assert (t0 < brk); [|lia]. look; apply (wf_brk_t Hw); eauto.
  - intros b0 H. look; [lia|]. apply (wf_brk_b Hw) in H. lia.
Qed.

Lemma linked_collect :
  c = false ->
  linked none bq (gcq ++ [t]) cq nb (1 + ngc) (<[t := (None, None, false)]> lk) bks brk (delete q ptr).
Proof.
  intros Hc. pose proof detached_ptr as Hp. subst c.
  assert (Hg : t ∉ gcq) by (intros H; by destruct (wf_gc_link Hw t H) as [H' _]).
  constructor; try apply Hw.
  - intros t0 b bk Hb. rewrite (wf_link Hw t0 b bk) by done. look; [|done]. split; intros (? & ? & ?); congruence.
  - intros t0 b p c0 H. look; [done|]. destruct (wf_back Hw _ _ _ _ H) as [? (q0 & -> & H0)]. split; [done|].
    exists q0. split; [done|]. look; congruence.
  - by apply NoDup_snoc; [apply Hw|].
  - rewrite length_app, (wf_gc _ _ _ _ _ _ _ _ _ _ Hw). cbn [length]. lia.
  - intros t0 H. split; [intros []|]. look; [by eauto|]. apply elem_of_app in H as [H|H%list_elem_of_singleton]; [|done].
    by apply (wf_gc_link Hw).
  - intros t0 p c0 H. right. look; simplify_eq.
    + split; [|done]. apply elem_of_app. right. by constructor.
    + apply (wf_free Hw) in H as [?|[? ->]]; [congruence|]. split; [|done]. apply elem_of_app. by left.
  - by intros t0 [].
  - intros t0. look; [|apply Hw]. rewrite (wf_change_link Hw). lk_go Hw.
  - intros q0 t0 H. destruct (decide (q0 = q)) as [->|Hq]; [by rewrite lookup_delete_eq in H|].
    rewrite lookup_delete_ne in H by congruence. destruct (wf_ptr Hw _ _ H) as (b0 & c0 & H1 & H2).
    look. exists b0, c0. split; [done|]. left. naive_solver.
  - intros t0 H. look; apply (wf_brk_t Hw); eauto.
Qed.
End Attach.

(** A new timer, from the allocator or from the garbage queue. *)
Section Allocate.
Context (q : Z) (Hw : linked none bq gcq cq nb ngc lk bks brk ptr) (Hq : ptr !! q = None).

Lemma linked_fresh :
  linked (eq brk) bq gcq cq nb ngc (<[brk := (None, Some q, false)]> lk) bks (1 + brk) (<[q := brk]> ptr).
Proof.
  assert (Hfresh : lk !! brk = None).
  { destruct (lk !! brk) eqn:E; [|done]. assert (brk < brk) by (apply (wf_brk_t Hw); eauto). lia. }
  constructor; try apply Hw.
  - intros t0 b bk Hb. rewrite (wf_link Hw t0 b bk) by done. look; [|done]. split; intros (? & ? & ?); congruence.
  - intros t0 b p c0 H. look; [done|]. destruct (wf_back Hw _ _ _ _ H) as [? (q0 & -> & H0)]. split; [done|].
    exists q0. split; [done|]. look; congruence.
  - intros t0 H. destruct (wf_gc_link Hw t0 H) as [_ (p & c & E)]. split; [intros <-; congruence|]. look; eauto.
  - intros t0 p c0 H. look; [by left|]. right. by apply (wf_free Hw) in H as [[]|?].
  - intros t0 <-. exists q, false. by look.
  - intros t0. look; [|apply Hw]. rewrite (wf_change_link Hw). split; intros (? & ? & ?); congruence.
  - intros q0 t0 H. destruct (decide (q0 = q)) as [->|?]; look; simplify_eq; [by eauto 10| |].
    + destruct (wf_ptr Hw _ _ H) as (? & ? & ? & _). congruence.
    + destruct (wf_ptr Hw _ _ H) as (b0 & c0 & ? & [?|[]]). eauto 10.
  - intros t0 H. look; [lia|]. apply (wf_brk_t Hw) in H. lia.
  - intros b0 H. apply (wf_brk_b Hw) in H. lia.
Qed.

Lemma linked_recycle t g : gcq = t :: g ->
  linked (eq t) bq g cq nb (-1 + ngc) (<[t := (None, Some q, false)]> lk) bks brk (<[q := t]> ptr).
Proof.
  intros Hg. assert (Ht : t ∈ gcq) by (rewrite Hg; by constructor).
  destruct (wf_gc_link Hw t Ht) as [_ (p & c & Hl)].
  assert (c = false) as -> by (by destruct (wf_free Hw _ _ _ Hl) as [[]|[_ ?]]).
  pose proof (wf_gcq _ _ _ _ _ _ _ _ _ _ Hw) as Hnd. rewrite Hg in Hnd. apply NoDup_cons in Hnd as [Htg Hnd].
  constructor; try apply Hw.
  - intros t0 b bk Hb. rewrite (wf_link Hw t0 b bk) by done. look; [|done]. split; intros (? & ? & ?); congruence.
  - intros t0 b p0 c0 H. look; [done|]. destruct (wf_back Hw _ _ _ _ H) as [? (q0 & -> & H0)]. split; [done|].
    exists q0. split; [done|]. look; congruence.
  - done.
  - rewrite (wf_gc _ _ _ _ _ _ _ _ _ _ Hw), Hg. cbn [length]. lia.
  - intros t0 H. assert (t0 <> t) by congruence. split; [congruence|]. look. apply (wf_gc_link Hw). rewrite Hg. by constructor.
  - intros t0 p0 c0 H. look; [by left|]. right. apply (wf_free Hw) in H as [[]|[H ?]]. rewrite Hg in H.
    by apply elem_of_cons in H as [?|?].
  - intros t0 <-. exists q, false. by look.
  - intros t0. look; [|apply Hw]. rewrite (wf_change_link Hw). split; intros (? & ? & ?); congruence.
  - intros q0 t0 H. destruct (decide (q0 = q)) as [->|?]; look; simplify_eq; [by eauto 10| |].
    + destruct (wf_ptr Hw _ _ H) as (? & ? & ? & [?|[]]). congruence.
    + destruct (wf_ptr Hw _ _ H) as (b0 & c0 & ? & [?|[]]). eauto 10.
  - intros t0 H. look; apply (wf_brk_t Hw); eauto.
Qed.
End Allocate.
End Linked.

(** ** The operations of the root *)

Ltac open_root r := destruct r as [bq gcq cq nb gc tms bks brk ptr ticks fired]; cbn in *; unfold constant in *.
Ltac open_timer tm :=
  destruct tm as [expire timestamp tb tp data cb expired periodic reset del chg name]; cbn in *; unfold constant in *.

Lemma links_lookup r t tm : r_timers r !! t = Some tm -> links r !! t = Some (link_of tm).
Proof. intros H. unfold links. by rewrite lookup_fmap, H. Qed.

Lemma links_inv r t b p c : links r !! t = Some (b, p, c) ->
  exists tm, r_timers r !! t = Some tm /\ t_bucket tm = b /\ t_ptimer tm = p /\ t_on_change_list tm = c.
Proof. unfold links. rewrite lookup_fmap. intros (tm & H & E)%fmap_Some. exists tm. by injection E as -> -> ->. Qed.

Lemma links_assign tms (t : Z) tm tm' : tms !! t = Some tm -> link_of tm' = link_of tm ->
  link_of <$> <[t := tm']> tms = (link_of <$> tms : gmap Z _).
Proof. intros Ht E. rewrite fmap_insert, E. apply insert_id. by rewrite lookup_fmap, Ht. Qed.

Lemma wf_tick d r : wfx d r -> wfx d (r {{ r_ticks ::= S }}).
Proof. by destruct r. Qed.

(** Assignments to the other fields of a timer. *)
Lemma with_timer_wf d t f tm r : wfx d r -> r_timers r !! t = Some tm -> link_of (f tm) = link_of tm ->
  exists r', with_timer t f r = Some r' /\ wfx d r' /\ r' = r {{ r_timers ::= <[t := f tm]> }}.
Proof.
  intros Hw Ht Hf. unfold with_timer. rewrite Ht. cbn. eexists. split; [reflexivity|]. split; [|done].
  open_root r. unfold wfx, links in *. cbn in *. by rewrite (links_assign tms t tm).
Qed.

(** A timer that is in a bucket. *)
Definition armed (r : root) (t : Z) : Prop := exists tm b, r_timers r !! t = Some tm /\ t_bucket tm = Some b.

Lemma ptr_armed r p t : wf r -> r_ptr r !! p = Some t -> armed r t.
Proof.
  intros Hw Hp. destruct (wf_ptr Hw p t Hp) as (b & c & Hl & [Hb|[]]). destruct (links_inv _ _ _ _ _ Hl) as (tm & ? & ? & _).
  destruct b as [b|]; [|done]. by exists tm, b.
Qed.

Lemma armed_bucket r t : wf r -> armed r t -> exists tm b bk q,
  r_timers r !! t = Some tm /\ t_bucket tm = Some b /\ r_bucket r !! b = Some bk /\ t_ptimer tm = Some q /\ t ∈ b_qhead bk.
Proof.
  intros Hw (tm & b & Ht & Hb). pose proof (links_lookup _ _ _ Ht) as Hl. unfold link_of in Hl. rewrite Hb in Hl.
  destruct (wf_back Hw _ _ _ _ Hl) as [[bk Hbk] (q & Hq & _)]. exists tm, b, bk, q. split_and!; try done.
  apply (wf_link Hw _ _ _ Hbk). eauto.
Qed.

Lemma timer_change_wf t r : wf r -> armed r t -> exists r', timer_change t r = Some r' /\ wf r'.
Proof.
  intros Hw Ha. destruct (armed_bucket r t Hw Ha) as (tm & b & bk & q & Ht & Hb & Hbk & Hq & _). unfold timer_change.
  rewrite Ht. cbn. destruct (t_on_change_list tm) eqn:Ec; [by exists r|]. rewrite Hb. cbn. rewrite Hbk. cbn.
  eexists. split; [reflexivity|]. pose proof (links_lookup r t tm Ht) as Hl.
  open_root r. open_timer tm. subst. unfold wf, wfx, links in *. cbn in *. rewrite fmap_insert.
  by apply linked_change.
Qed.

Lemma timer_del_wf t r : wf r -> armed r t -> exists r', timer_del t r = Some r' /\ wf r'.
Proof.
  intros Hw (tm & b & Ht & Hb). unfold timer_del.
  destruct (with_timer_wf none t (fun tm => tm {{ t_delete := true }}) tm r Hw Ht) as (r' & -> & Hw' & ->); [by destruct tm|].
  cbn. apply timer_change_wf; [done|]. exists (tm {{ t_delete := true }}), b. destruct r, tm; cbn in *.
  by rewrite lookup_insert_eq.
Qed.

(** What an operation on one timer leaves as it is. *)
Definition framed (r r' : root) : Prop :=
  r_gc_qhead r' = r_gc_qhead r /\ r_change_qhead r' = r_change_qhead r /\ r_ptr r' = r_ptr r /\
  r_ticks r' = r_ticks r /\ r_fired r' = r_fired r.

(** A bucket of the new state [r'], seen from [r]: it has lost [t], or is new. *)
Definition without (t : Z) (r : root) (b : Z) (bk' : bucket) (q : list Z) : Prop :=
  (r_brk r <= b /\ q = []) \/
  (exists bk, r_bucket r !! b = Some bk /\ b_sec bk' = b_sec bk /\ b_nsec bk' = b_nsec bk /\
     q = circleq_remove t (b_qhead bk)).

(** [t] has moved to the tail of the bucket of an interval; the queue of the
    buckets has lost a bucket, or got a new one. *)
Definition moved (t sec nsec : Z) (r r' : root) : Prop :=
  (forall b bk', r_bucket r' !! b = Some bk' -> exists q, without t r b bk' q /\
    (b_qhead bk' = q \/ (b_qhead bk' = q ++ [t] /\ b_sec bk' = sec /\ b_nsec bk' = nsec))) /\
  (exists x l, r_bucket_qhead r' = circleq_remove x (r_bucket_qhead r) ++ l /\ r_bucket r' !! x = None /\
    forall b, b ∈ l -> r_brk r <= b).

Definition appended (r r' : root) : Prop :=
  exists l, r_bucket_qhead r' = r_bucket_qhead r ++ l /\ forall b, b ∈ l -> r_brk r <= b.

Definition dropped (r r' : root) : Prop :=
  r_bucket_qhead r' = r_bucket_qhead r \/
  exists x, r_bucket r' !! x = None /\ r_bucket_qhead r' = circleq_remove x (r_bucket_qhead r) /\ x < r_brk r.

Definition removed (t : Z) (r r' : root) : Prop :=
  forall b bk', r_bucket r' !! b = Some bk' -> exists bk, r_bucket r !! b = Some bk /\
    b_sec bk' = b_sec bk /\ b_nsec bk' = b_nsec bk /\ b_qhead bk' = circleq_remove t (b_qhead bk).

(** A timer is in one bucket. *)
Lemma remove_other d r t tm b bk :
  wfx d r -> r_timers r !! t = Some tm -> r_bucket r !! b = Some bk -> t_bucket tm <> Some b ->
  circleq_remove t (b_qhead bk) = b_qhead bk.
Proof.
  intros Hw Ht Hb Hne. apply remove_notin. rewrite (wf_link Hw _ _ _ Hb). rewrite (links_lookup _ _ _ Ht).
  unfold link_of. intros (? & ? & [=]). done.
Qed.

Lemma timer_dequeue_wf t tm r : wf r -> r_timers r !! t = Some tm -> t_bucket tm <> None ->
  exists r', timer_dequeue_bucket t r = Some r' /\ wfx (eq t) r' /\ framed r r' /\ removed t r r' /\
    (r_brk r' = r_brk r /\ dropped r r') /\ r_timers r' = <[t := tm {{ t_bucket := None }}]> (r_timers r).
Proof.
  intros Hw Ht Hb. destruct (t_bucket tm) as [b|] eqn:Eb; [|done].
  destruct (armed_bucket r t Hw ltac:(by exists tm, b)) as (tm' & b' & bk & q & Ht' & Hb' & Hbk & Hq & Hin). simplify_eq.
  unfold timer_dequeue_bucket. rewrite Ht. cbn. rewrite Eb. cbn. rewrite Hbk. cbn.
  destruct (wf_bucket Hw _ _ Hbk) as (_ & Hnd & Hlen). pose proof (length_remove t _ Hnd Hin) as Hrem.
  pose proof (links_lookup r t tm Ht) as Hl.
  assert (Hoth : forall b0 bk0, b0 <> b -> r_bucket r !! b0 = Some bk0 -> circleq_remove t (b_qhead bk0) = b_qhead bk0).
  { intros b0 bk0 Hne H0. apply (remove_other none r t tm b0 bk0 Hw Ht H0). congruence. }
  eexists. split; [reflexivity|]. open_root r. open_timer tm. subst. destruct bk as [bqh bs bn bt]. cbn in *.
  case_if; cbn; unfold wfx, links; cbn; rewrite ?fmap_insert; split_and!; try done.
  - eapply linked_dequeue_drop; [done..|]. cbn. apply length_zero_iff_nil. lia.
  - intros b0 bk' H. cbn in *. look; [done|]. exists bk'. by rewrite (Hoth b0 bk') by done.
  - right. exists b. cbn. split_and!; try done; [by rewrite lookup_delete_eq|]. apply (wf_brk_b Hw). eauto.
  - eapply linked_dequeue_keep; [exact Hw|exact Hl|exact Hbk|..]; cbn; try done; [|lia].
    intros E0. rewrite E0 in Hrem. cbn in Hrem. lia.
  - intros b0 bk' H. cbn in *. look; simplify_eq; cbn; [by eexists|]. exists bk'. by rewrite (Hoth b0 bk') by done.
  - by left.
Qed.

(** No bucket has the next address. *)
Lemma fresh_bucket d r : wfx d r -> r_bucket r !! r_brk r = None.
Proof.
  intros Hw. destruct (r_bucket r !! r_brk r) eqn:E; [|done]. assert (r_brk r < r_brk r) by (apply (wf_brk_b Hw); eauto). lia.
Qed.

Lemma remove_fresh d r x : wfx d r -> r_brk r <= x -> circleq_remove x (r_bucket_qhead r) = r_bucket_qhead r.
Proof.
  intros Hw Hx. apply remove_notin. rewrite (wf_dom Hw). intros H%(wf_brk_b Hw). lia.
Qed.

Lemma find_key r sec nsec : wf r \/ (exists t, wfx (eq t) r) ->
  match List.find (key_is r sec nsec) (r_bucket_qhead r) with
  | Some b => exists bk, r_bucket r !! b = Some bk /\ b_sec bk = sec /\ b_nsec bk = nsec
  | None => forall b bk, r_bucket r !! b = Some bk -> b_sec bk = sec -> b_nsec bk <> nsec
  end.
Proof.
  intros Hw. destruct (List.find _ _) as [b|] eqn:E.
  - apply List.find_some in E as [_ E]. unfold key_is in E. destruct (r_bucket r !! b) as [bk|]; [|done].
    bool_to_prop. eauto.
  - intros b bk Hb Hs Hn. assert (Hin : List.In b (r_bucket_qhead r)).
    { apply list_elem_of_In. destruct Hw as [Hw|[t Hw]]; apply (wf_dom Hw); eauto. }
    pose proof (List.find_none _ _ E b Hin) as F. unfold key_is in F. rewrite Hb, Hs, Hn, !Z.eqb_refl in F. done.
Qed.

Lemma timer_enqueue_wf t tm q sec nsec r : wfx (eq t) r -> r_timers r !! t = Some tm ->
  t_bucket tm = None -> t_ptimer tm = Some q ->
  exists r' b, timer_enqueue_bucket t sec nsec r = Some r' /\ wf r' /\ framed r r' /\ moved t sec nsec r r' /\
    appended r r' /\ r_timers r' = <[t := tm {{ t_bucket := Some b }}]> (r_timers r).
Proof.
  intros Hw Ht Hb Hq. unfold timer_enqueue_bucket. rewrite Ht. cbn. pose proof (links_lookup r t tm Ht) as Hl.
  assert (Hoth : forall b bk, r_bucket r !! b = Some bk -> circleq_remove t (b_qhead bk) = b_qhead bk).
  { intros b0 bk0 H0. apply (remove_other _ r t tm b0 bk0 Hw Ht H0). congruence. }
  pose proof (fresh_bucket _ r Hw) as Hfresh.
  pose proof (remove_fresh _ r (r_brk r) Hw ltac:(lia)) as Hrf. pose proof (remove_fresh _ r (1 + r_brk r) Hw ltac:(lia)) as Hrf'.
  assert (Hfresh' : r_bucket r !! (1 + r_brk r) = None).
  { destruct (r_bucket r !! (1 + r_brk r)) eqn:E; [|done]. assert (1 + r_brk r < r_brk r) by (apply (wf_brk_b Hw); eauto). lia. }
  pose proof (find_key r sec nsec ltac:(eauto)) as Hf. destruct (List.find _ _) as [b|].
  - destruct Hf as (bk & Hbk & Hs & Hn). rewrite Hbk. cbn. eexists _, b. split; [reflexivity|].
    open_root r. open_timer tm. subst. destruct bk as [bqh bs bn bt]. cbn in *. split_and!; try done.
    + unfold wf, wfx, links in *; cbn in *; rewrite ?fmap_insert. eapply linked_enqueue; try done. cbn. lia.
    + split; [intros b0 bk' H; cbn in *; look; simplify_eq; cbn|].
      * eexists. split; [right; eexists; split_and!; done|]. cbn. rewrite (Hoth _ _ Hbk : circleq_remove t bqh = bqh). by right.
      * eexists. split; [right; eexists; split_and!; done|]. rewrite (Hoth _ _ H). by left.
      * exists brk, []. cbn. rewrite app_nil_r, Hrf. split_and!; [done| |set_solver]. look; done || congruence.
    + exists []. by rewrite app_nil_r; split; [|set_solver].
  - eexists _, (r_brk r). split; [reflexivity|].
    open_root r. open_timer tm. subst. split_and!; try done.
    + unfold wf, wfx, links in *; cbn in *; rewrite ?fmap_insert. by eapply linked_enqueue_new.
    + split; [intros b0 bk' H; cbn in *; look; simplify_eq; cbn|].
      * exists []. split; [left; cbn; split; [lia|done]|]. by right.
      * eexists. split; [right; eexists; split_and!; done|]. rewrite (Hoth _ _ H). by left.
      * exists (1 + brk), [brk]. cbn. rewrite Hrf'. split_and!; [done| |set_solver by lia]. by rewrite lookup_insert_ne by lia.
    + exists [brk]. split; [done|]. cbn. set_solver by lia.
Qed.

(** Dequeuing and enqueuing, seen from the queue of the buckets. *)
Lemma requeued_buckets r r2 r3 :
  wf r -> wf r3 -> dropped r r2 -> r_brk r2 = r_brk r -> appended r2 r3 ->
  exists x l, r_bucket_qhead r3 = circleq_remove x (r_bucket_qhead r) ++ l /\ r_bucket r3 !! x = None /\
    forall b, b ∈ l -> r_brk r <= b.
Proof.
  intros Hw Hw3 Hd Hk (l & Hl & Hlb). rewrite Hk in Hlb. destruct Hd as [Hd|(x & Hx & Hd & Hxb)].
  - exists (Z.max (r_brk r) (r_brk r3)), l. rewrite (remove_fresh none r) by (done || lia). split_and!; [congruence| |done].
    destruct (r_bucket r3 !! _) eqn:E; [|done]. assert (Z.max (r_brk r) (r_brk r3) < r_brk r3) by (apply (wf_brk_b Hw3); eauto). lia.
  - exists x, l. rewrite Hl, Hd. split_and!; [done| |done]. destruct (r_bucket r3 !! x) eqn:E; [|done].
    assert (Hin : x ∈ r_bucket_qhead r3) by (apply (wf_dom Hw3); eauto). rewrite Hl, Hd in Hin.
    apply elem_of_app in Hin as [Hin|Hin]; [apply elem_of_remove in Hin; naive_solver|]. apply Hlb in Hin. lia.
Qed.

(** [timer_requeue] moves a timer and sets its expiration. *)
Lemma timer_requeue_wf t tm sec nsec r : wf r -> r_timers r !! t = Some tm -> t_bucket tm <> None ->
  exists r' b, timer_requeue t sec nsec r = Some r' /\ wf r' /\ framed r r' /\ moved t sec nsec r r' /\
    r_timers r' = <[t := (timer_set_expire sec nsec tm) {{ t_bucket := Some b }}]> (r_timers r) /\
    (forall b0 bk, t_bucket tm = Some b0 -> r_bucket r !! b0 = Some bk -> b_sec bk = sec -> b_nsec bk = nsec -> b = b0).
Proof.
  intros Hw Ht Hb. destruct (t_bucket tm) as [b|] eqn:Eb; [|done]. clear Hb.
  destruct (armed_bucket r t Hw ltac:(by exists tm, b)) as (tm' & b' & bk & q & Ht' & Hb' & Hbk & Hq & Hin). simplify_eq.
  unfold timer_requeue. rewrite Ht. cbn. rewrite Eb. cbn. rewrite Hbk. cbn.
  destruct (with_timer_wf none t (timer_set_expire sec nsec) tm r Hw Ht) as (r1 & -> & Hw1 & ->); [by destruct tm|]. cbn [mbind option_bind].
  set (tm1 := timer_set_expire sec nsec tm) in *. set (r1 := r {{ r_timers ::= <[t := tm1]> }}) in *.
  assert (Ht1 : r_timers r1 !! t = Some tm1) by (destruct r; cbn; by look).
  assert (Hsame : r_bucket r1 = r_bucket r /\ framed r r1) by by destruct r. destruct Hsame as [Hsb Hfr].
  case_if.
  - exists (r1 {{ r_bucket ::= <[b := bk {{ b_qhead ::= (fun q => circleq_remove t q ++ [t]) }}]> }}), b.
    destruct (wf_bucket Hw _ _ Hbk) as (_ & Hnd & _). split_and!.
    + done.
    + subst r1. open_root r. unfold wf, wfx, links in *. cbn in *.
      eapply linked_permute; [done..| | | |]; destruct bk; cbn; try done. by apply remove_permute.
    + by destruct r.
    + split; [intros b0 bk' H'; subst r1; open_root r; cbn in *; look; simplify_eq|].
      * eexists. split; [right; eexists; split_and!; [done|by destruct bk..]|]. right. by destruct bk.
      * exists (b_qhead bk'). split; [|by left]. right. exists bk'. split_and!; try done.
        by rewrite (remove_other none _ t tm b0 bk' Hw) by (done || congruence).
      * exists (r_brk r), []. pose proof (fresh_bucket none r Hw). rewrite (remove_fresh none r) by (done || lia).
        rewrite app_nil_r. subst r1. open_root r. split_and!; [done| |set_solver]. look; done || congruence.
    + subst tm1 r1. open_root r. destruct tm; cbn in *. by subst.
    + intros b0 bk0 E0 _ _ _. congruence.
  - destruct (timer_dequeue_wf t tm1 r1 Hw1 Ht1) as (r2 & -> & Hw2 & Hf2 & Hr2 & [Hk2 Hd2] & Ht2); [subst tm1; by destruct tm; cbn in *; subst|].
    cbn. destruct (timer_enqueue_wf t (tm1 {{ t_bucket := None }}) q sec nsec r2 Hw2) as (r3 & b3 & -> & Hw3 & Hf3 & Hm3 & Ha3 & Ht3).
    { rewrite Ht2. by look. }
    { subst tm1. by destruct tm. }
    { subst tm1. by destruct tm. }
    exists r3, b3. split_and!; try done.
    + unfold framed in *. intuition congruence.
    + destruct Hm3 as [Hm3 _]. split; [intros b0 bk' H'|].
      2:{ by apply (requeued_buckets r r2 r3). }
      destruct (Hm3 b0 bk' H') as (q0 & Hq0 & Hq0'). exists q0. split; [|done].
      destruct Hq0 as [[H0 ->]|(bk0 & H0 & Hs0 & Hn0 & ->)].
      * left. split; [|done]. rewrite Hk2 in H0. by destruct r.
      * right. destruct (Hr2 b0 bk0 H0) as (bk1 & H1 & Hs1 & Hn1 & Hq1). rewrite Hsb in H1. exists bk1.
        split_and!; [done|congruence..|]. rewrite Hq1. apply remove_notin. rewrite elem_of_remove. naive_solver.
    + rewrite Ht3, Ht2, insert_insert_eq. subst r1 tm1. destruct r, tm; cbn. by rewrite insert_insert_eq.
    + intros b0 bk0 E0 H0 Hs0 Hn0. simplify_eq. naive_solver.
Qed.

Lemma timer_del_internal_wf t tm r :
  wf r -> r_timers r !! t = Some tm -> t_bucket tm <> None -> t_on_change_list tm = false ->
  exists r', timer_del_internal t r = Some r' /\ wf r' /\ removed t r r' /\ r_change_qhead r' = r_change_qhead r /\
    r_ticks r' = r_ticks r /\ r_fired r' = r_fired r /\
    r_timers r' = <[t := tm {{ t_bucket := None ; t_ptimer := None }}]> (r_timers r) /\
    forall p, t_ptimer tm = Some p -> r_ptr r' = delete p (r_ptr r).
Proof.
  intros Hw Ht Hb Hc. unfold timer_del_internal. rewrite Ht. cbn [mbind option_bind].
  destruct (timer_dequeue_wf t tm r Hw Ht Hb) as (r1 & E1 & Hw1 & (Hg & Hch & Hp & Htk & Hfd) & Hr1 & Hk1 & Ht1).
  destruct (t_bucket tm) as [b|] eqn:Eb; [|done]. rewrite E1. cbn [mbind option_bind].
  destruct (armed_bucket r t Hw ltac:(by exists tm, b)) as (tm' & b' & bk & q & Ht' & _ & _ & Hq & _). simplify_eq.
  rewrite Hq. unfold with_timer.
  assert (Hl1 : links r1 !! t = Some (None, Some q, false)).
  { rewrite (links_lookup r1 t (tm {{ t_bucket := None }})) by (rewrite Ht1; by look). destruct tm. cbn in *. by subst. }
  pose proof (linked_collect _ _ _ _ _ _ _ _ _ t q false Hw1 Hl1 eq_refl) as Hw2.
  assert (Hlk : r_timers r1 !! t = Some (tm {{ t_bucket := None }})) by (rewrite Ht1; by look).
  open_root r1. rewrite Hlk. cbn. eexists. split; [reflexivity|]. split_and!; cbn; try done.
  - unfold wf, wfx, links in *; cbn in *. rewrite fmap_insert. destruct tm; cbn in *. by subst.
  - rewrite Ht1, insert_insert_eq. by destruct tm.
  - intros p [= ->]. by subst.
Qed.

(** One change: the timer leaves the queue, and is deleted, requeued or left alone. *)
Definition changed (now : timespec) (t : Z) (tm tm' : timer) (r r' : root) : Prop :=
  if t_delete tm then removed t r r' /\ t_expire tm' = t_expire tm /\ t_bucket tm' = None /\ t_ptimer tm' = None
  else if t_periodic tm then
    exists b bk, t_bucket tm = Some b /\ r_bucket r !! b = Some bk /\ moved t (b_sec bk) (b_nsec bk) r r' /\
      t_expire tm' = timespec_add (if t_reset tm then now else t_expire tm) (mk_ts (b_sec bk) (b_nsec bk)) /\
      t_bucket tm' <> None
  else r_bucket r' = r_bucket r /\ t_expire tm' = t_expire tm /\ t_bucket tm' = t_bucket tm.

(** The rest of the turn, after the timer [t] has left the queue. *)
Lemma process_changed now t tm tm1 q b r r1 :
  wf r1 -> r_timers r !! t = Some tm -> t_bucket tm = b -> b <> None ->
  r_timers r1 = <[t := tm1]> (r_timers r) /\ r_bucket r1 = r_bucket r /\ r_change_qhead r1 = q /\
    r_ticks r1 = r_ticks r /\ r_fired r1 = r_fired r /\ r_brk r1 = r_brk r /\ r_bucket_qhead r1 = r_bucket_qhead r ->
  t_bucket tm1 = b /\ t_on_change_list tm1 = false /\ t_delete tm1 = t_delete tm /\
    t_periodic tm1 = t_periodic tm /\ t_reset tm1 = t_reset tm /\ t_expire tm1 = t_expire tm ->
  exists r' tm0 tm',
    (tm ← r_timers r1 !! t;
     if t_delete tm then timer_del_internal t r1
     else if t_periodic tm then
       r ← (if t_reset tm then with_timer t (fun tm => tm {{ t_expire := now }}) r1 else Some r1);
       b ← t_bucket tm; bk ← r_bucket r !! b; timer_requeue t (b_sec bk) (b_nsec bk) r
     else Some r1) = Some r' /\ wf r' /\ r_change_qhead r' = q /\ r_ticks r' = r_ticks r /\ r_fired r' = r_fired r /\
    r_timers r !! t = Some tm0 /\ r_timers r' = <[t := tm']> (r_timers r) /\
    t_periodic tm' = t_periodic tm0 /\ t_reset tm' = t_reset tm0 /\ t_delete tm' = t_delete tm0 /\
    changed now t tm0 tm' r r'.
Proof.
  intros Hw1 Ht Hb Hne (R1 & R2 & R3 & R4 & R5 & R6 & R7) (T1 & T2 & T3 & T4 & T5 & T6).
  assert (Ht1 : r_timers r1 !! t = Some tm1) by (rewrite R1; by look). rewrite Ht1. cbn [mbind option_bind].
  unfold changed. rewrite T3, T4, T5. destruct (t_delete tm) eqn:Ed.
  { destruct (timer_del_internal_wf t tm1 r1 Hw1 Ht1) as (r' & -> & ? & Hr & ? & ? & ? & Ht' & _); [congruence|done|].
    exists r', tm, (tm1 {{ t_bucket := None ; t_ptimer := None }}). rewrite Ed. split_and!; try congruence; try (by destruct tm1).
    all: try (destruct tm1; cbn in *; congruence).
    - rewrite Ht', R1. by rewrite insert_insert_eq.
    - unfold removed in *. by rewrite <-R2. }
  destruct (t_periodic tm) eqn:Ep.
  2:{ exists r1, tm, tm1. rewrite Ed, Ep. split_and!; congruence || done. }
  assert (exists r2 tm2, (if t_reset tm then with_timer t (fun tm => tm {{ t_expire := now }}) r1 else Some r1) = Some r2 /\
    wf r2 /\ r_timers r2 !! t = Some tm2 /\ r_timers r2 = <[t := tm2]> (r_timers r) /\ t_bucket tm2 = b /\
    r_change_qhead r2 = q /\ r_ticks r2 = r_ticks r /\ r_fired r2 = r_fired r /\ r_bucket r2 = r_bucket r /\ r_brk r2 = r_brk r /\
    t_delete tm2 = t_delete tm /\ t_periodic tm2 = t_periodic tm /\ t_reset tm2 = t_reset tm /\
    t_expire tm2 = (if t_reset tm then now else t_expire tm) /\ r_bucket_qhead r2 = r_bucket_qhead r)
    as (r2 & tm2 & -> & Hwf2 & Ht2 & Ht2' & Hb2 & Q1 & Q2 & Q3 & Q4 & Q5 & Q6 & Q7 & Q8 & Q9 & Q10).
  { destruct (t_reset tm) eqn:Er; [|exists r1, tm1; split_and!; congruence || done].
    destruct (with_timer_wf none t (fun tm => tm {{ t_expire := now }}) tm1 r1 Hw1 Ht1) as (r2 & -> & ? & ->); [by destruct tm1|].
    eexists _, (tm1 {{ t_expire := now }}). split; [reflexivity|]. split; [done|]. destruct r1, tm1; cbn in *. look.
    split_and!; try congruence || done. rewrite R1, insert_insert_eq. done. }
  cbn [mbind option_bind]. rewrite T1. destruct b as [b|]; [|done].
  destruct (armed_bucket r2 t Hwf2 ltac:(by exists tm2, b)) as (tm' & b' & bk & q' & Ht' & Hb' & Hbk & _). simplify_eq.
  cbn [mbind option_bind]. rewrite Hbk. cbn [mbind option_bind].
  destruct (timer_requeue_wf t tm2 (b_sec bk) (b_nsec bk) r2 Hwf2 Ht2) as (r3 & b3 & -> & Hw3 & (_ & F2 & F3 & F4 & F5) & Hm3 & Ht3 & _); [congruence|].
  exists r3, tm, ((timer_set_expire (b_sec bk) (b_nsec bk) tm2) {{ t_bucket := Some b3 }}). rewrite Ed, Ep.
  split_and!; try congruence; try (destruct tm2; cbn in *; congruence).
  - rewrite Ht3, Ht2'. by rewrite insert_insert_eq.
  - exists b, bk. split_and!; try congruence; try (destruct tm2; cbn in *; congruence).
    + unfold moved, without in *. by rewrite <-Q4, <-Q5, <-Q10.
    + rewrite <-Q9. by destruct tm2.
    + by destruct tm2.
Qed.

Lemma process_change_wf now t q r : wf r -> r_change_qhead r = t :: q ->
  exists r' tm tm', process_change now t r = Some r' /\ wf r' /\ r_change_qhead r' = q /\
    r_ticks r' = r_ticks r /\ r_fired r' = r_fired r /\
    r_timers r !! t = Some tm /\ r_timers r' = <[t := tm']> (r_timers r) /\
    t_periodic tm' = t_periodic tm /\ t_reset tm' = t_reset tm /\ t_delete tm' = t_delete tm /\
    changed now t tm tm' r r'.
Proof.
  intros Hw Hq. assert (Hin : t ∈ r_change_qhead r) by (rewrite Hq; by constructor).
  apply (wf_change_link Hw) in Hin as (b & p & Hl). destruct (links_inv _ _ _ _ _ Hl) as (tm & Ht & Hb & Hp & Hc).
  assert (b <> None) as Hne by (intros ->; apply (wf_free Hw) in Hl as [[]|[_ [=]]]).
  pose proof (wf_change _ _ _ _ _ _ _ _ _ _ Hw) as Hnd. rewrite Hq in Hnd. apply NoDup_cons in Hnd as [Hnin _].
  assert (Hrem : circleq_remove t (t :: q) = q).
  { unfold circleq_remove. rewrite filter_cons_False by naive_solver. by apply remove_notin. }
  pose proof (linked_unchange _ _ _ _ _ _ _ _ _ none t b p Hw Hl) as Hw1. rewrite Hq, Hrem in Hw1.
  set (tm1 := tm {{ t_on_change_list := false }}).
  set (r1 := r {{ r_change_qhead := q ; r_timers ::= <[t := tm1]> }}).
  assert (E1 : with_timer t (fun tm => tm {{ t_on_change_list := false }}) (r {{ r_change_qhead ::= circleq_remove t }}) = Some r1).
  { unfold with_timer. subst r1 tm1. open_root r. rewrite Ht. cbn. by rewrite Hq, Hrem. }
  assert (Hwf1 : wf r1).
  { subst r1 tm1. open_root r. unfold wf, wfx, links in *. cbn in *. rewrite fmap_insert. destruct tm; cbn in *. by subst. }
  assert (Hr1 : r_timers r1 = <[t := tm1]> (r_timers r) /\ r_bucket r1 = r_bucket r /\ r_change_qhead r1 = q /\
    r_ticks r1 = r_ticks r /\ r_fired r1 = r_fired r /\ r_brk r1 = r_brk r /\
    r_bucket_qhead r1 = r_bucket_qhead r) by by destruct r.
  assert (Htm1 : t_bucket tm1 = b /\ t_on_change_list tm1 = false /\ t_delete tm1 = t_delete tm /\
    t_periodic tm1 = t_periodic tm /\ t_reset tm1 = t_reset tm /\ t_expire tm1 = t_expire tm) by (subst tm1; by destruct tm).
  unfold process_change. rewrite E1. cbn [mbind option_bind]. clearbody r1 tm1. clear E1 Hw1.
  apply (process_changed now t tm tm1 q b r r1); congruence || done.
Qed.

Lemma process_changes_wf now n r : wf r -> length (r_change_qhead r) = n ->
  exists r', process_changes n now r = Some r' /\ wf r' /\ r_change_qhead r' = [].
Proof.
  revert r. induction n as [|n IH]; intros r Hw Hn; cbn; destruct (r_change_qhead r) as [|t q] eqn:Eq; try done; [by exists r|].
  destruct (process_change_wf now t q r Hw Eq) as (r1 & tm & tm1 & -> & Hw1 & Hq1 & _). cbn [mbind option_bind].
  apply IH; [done|]. rewrite Hq1. cbn in Hn. lia.
Qed.

(** The state with other timers: their expiration has changed, at most. *)
Definition retimed (r r' : root) : Prop :=
  wf r' /\ r_bucket_qhead r' = r_bucket_qhead r /\ r_bucket r' = r_bucket r /\ r_ptr r' = r_ptr r /\
  r_change_qhead r' = r_change_qhead r /\ r_ticks r' = r_ticks r /\
  (r_fired r' = r_fired r /\ r_brk r' = r_brk r /\ r_gc_qhead r' = r_gc_qhead r) /\
  (forall t tm', r_timers r' !! t = Some tm' -> exists tm, r_timers r !! t = Some tm /\
     tm' = tm {{ t_expire := t_expire tm' }}) /\
  (forall t, is_Some (r_timers r !! t) -> is_Some (r_timers r' !! t)).

Definition expire_ns (r : root) (t : Z) : Z :=
  match r_timers r !! t with Some tm => ns (t_expire tm) | None => 0 end.

(** [n] times [step] apart. *)
Fixpoint ladder (now step : Z) (n : nat) : list Z :=
  match n with O => [] | S n => (now + step) :: ladder (now + step) step n end.

Lemma retimed_trans r1 r2 r3 : retimed r1 r2 -> retimed r2 r3 -> retimed r1 r3.
Proof.
  intros (_ & A1 & A2 & A3 & A4 & A5 & (A6 & A9 & A10) & A7 & A8) (B0 & B1 & B2 & B3 & B4 & B5 & (B6 & B9 & B10) & B7 & B8).
  unfold retimed. split_and!; try done; try congruence; [|by auto].
  intros t tm' Ht. destruct (B7 t tm' Ht) as (tm2 & H2 & E2). destruct (A7 t tm2 H2) as (tm1 & H1 & E1).
  exists tm1. split; [done|]. rewrite E2, E1. by destruct tm1.
Qed.

Lemma set_expire_retimed t tm e r : wf r -> r_timers r !! t = Some tm ->
  exists r', with_timer t (fun tm => tm {{ t_expire := e }}) r = Some r' /\ retimed r r' /\
    r_timers r' = <[t := tm {{ t_expire := e }}]> (r_timers r).
Proof.
  intros Hw Ht. destruct (with_timer_wf none t (fun tm => tm {{ t_expire := e }}) tm r Hw Ht) as (r' & -> & Hw' & ->);
    [by destruct tm|]. eexists. split; [reflexivity|]. destruct r as [bq gcq cq nb gc tms bks brk ptr ticks fired].
  unfold retimed. split_and!; try done; cbn in *.
  - intros t0 tm' H. look; [|exists tm'; split; [done|by destruct tm']]. injection H as <-. exists tm. by destruct tm.
  - intros t0 H. by look.
Qed.

Lemma smear_spec ts now step r : wf r -> NoDup ts -> (forall t, t ∈ ts -> is_Some (r_timers r !! t)) ->
  normal now -> normal step ->
  exists r', smear ts now step r = Some r' /\ retimed r r' /\
    map (expire_ns r') ts = ladder (ns now) (ns step) (length ts) /\
    (forall t, t ∉ ts -> r_timers r' !! t = r_timers r !! t) /\
    (forall t tm, t ∈ ts -> r_timers r' !! t = Some tm -> normal (t_expire tm) /\ ns now <= ns (t_expire tm)).
Proof.
  intros Hw Hnd Hts Hn Hs. revert now r Hn Hw Hts. induction Hnd as [|t ts Hnin Hnd IH]; intros now r Hn Hw Hts; cbn [smear].
  { exists r. unfold retimed. split_and!; try done; [|set_solver]. intros t tm Ht. exists tm. split; [done|by destruct tm]. }
  destruct (Hts t) as [tm Ht]; [by constructor|].
  destruct (set_expire_retimed t tm (timespec_add now step) r Hw Ht) as (r1 & -> & Hr1 & Ht1). cbn [mbind option_bind].
  destruct (timespec_add_ns now step Hn) as [Hn1 En1]; [apply Hs|destruct Hs; lia|].
  destruct (IH (timespec_add now step) r1) as (r2 & -> & Hr2 & Hm & Ho & Hnm); try done.
  { apply Hr1. }
  { intros t0 Ht0. apply Hr1, Hts. by constructor. }
  assert (E : r_timers r2 !! t = Some (tm {{ t_expire := timespec_add now step }})) by (rewrite Ho, Ht1 by done; by look).
  exists r2. split_and!; [done|by eapply retimed_trans|..].
  - cbn [map length ladder]. rewrite <-En1, <-Hm. f_equal. unfold expire_ns. rewrite E. by destruct tm.
  - intros t0 H0. rewrite Ho, Ht1 by set_solver. look; set_solver.
  - assert (0 <= ns step) by (destruct Hs; unfold ns, SEC; lia). intros t0 tm0 [->|H0]%elem_of_cons Ht0.
    + rewrite E in Ht0. injection Ht0 as <-. destruct tm; cbn. unfold constant. split; [done|lia].
    + destruct (Hnm t0 tm0 H0 Ht0). split; [done|lia].
Qed.

Section ClockWf.
Context (clock : nat -> timespec).

Lemma timer_process_changes_wf r : wf r ->
  exists r', timer_process_changes clock r = Some r' /\ wf r' /\ r_change_qhead r' = [].
Proof. intros Hw. unfold timer_process_changes, clock_gettime. apply process_changes_wf; [by apply wf_tick|done]. Qed.

(** The step of [timer_smear_bucket_internal]: an equal share of the time left
    until the last timer expires. *)
Definition smear_step (now last n : Z) : Z := Z.max 0 (last - now) / n.

Lemma smear_step_normal d n : normal d -> 0 < n ->
  let step_nsec := Z.quot (tv_sec d * SEC + tv_nsec d) n in
  let step_sec := Z.quot step_nsec SEC in
  let step := mk_ts step_sec (step_nsec - step_sec * SEC) in
  normal step /\ ns step = ns d / n.
Proof.
  intros [H1 H2] Hn. cbv zeta. unfold normal, ns, SEC in *. cbn [tv_sec tv_nsec]. rewrite !Z.quot_div_nonneg; try lia.
  - set (x := (tv_sec d * 1000000000 + tv_nsec d) / n). assert (0 <= x) by (apply Z.div_pos; lia).
    pose proof (Z.div_mod x 1000000000 ltac:(lia)). pose proof (Z.mod_pos_bound x 1000000000 ltac:(lia)).
    pose proof (Z.div_pos x 1000000000 ltac:(lia) ltac:(lia)). lia.
  - apply Z.quot_pos; lia.
Qed.

Context (Hclock : forall i, proper (clock i)).

Definition bucket_timers (r : root) (b : Z) : list Z :=
  match r_bucket r !! b with Some bk => b_qhead bk | None => [] end.

(** All expirations are times of the clock. *)
Definition normalised (r : root) : Prop := forall t tm, r_timers r !! t = Some tm -> proper (t_expire tm).

Lemma smear_internal_spec b bk l r : wf r -> normalised r -> r_bucket r !! b = Some bk -> last (b_qhead bk) = Some l ->
  1 < b_timers bk ->
  exists r', timer_smear_bucket_internal clock b r = Some r' /\ retimed (r {{ r_ticks ::= S }}) r' /\ normalised r' /\
    map (expire_ns r') (b_qhead bk) =
      ladder (ns (clock (r_ticks r))) (smear_step (ns (clock (r_ticks r))) (expire_ns r l) (b_timers bk)) (length (b_qhead bk)) /\
    (forall t, t ∉ b_qhead bk -> r_timers r' !! t = r_timers r !! t).
Proof.
  intros Hw Hnm Hb Hl Hn. unfold timer_smear_bucket_internal. rewrite Hb. cbn [mbind option_bind]. rewrite Hl.
  rewrite Z.gtb_ltb, (proj2 (Z.ltb_lt _ _) Hn). unfold clock_gettime.
  assert (Hin : forall t, t ∈ b_qhead bk -> is_Some (r_timers r !! t)).
  { intros t Ht. apply (wf_link Hw _ _ _ Hb) in Ht as (? & ? & Hlk). destruct (links_inv _ _ _ _ _ Hlk) as (tm & ? & _). eauto. }
  destruct (Hin l) as [tm Htm]; [by apply last_Some_elem_of|].
  assert (Et : r_timers (r {{ r_ticks ::= S }}) = r_timers r) by by destruct r. rewrite Et, Htm. cbn [mbind option_bind].
  destruct (timespec_sub_ns (t_expire tm) (clock (r_ticks r)) (proj1 (Hnm _ _ Htm)) (proj1 (Hclock _))) as [Hd Ed].
  destruct (smear_step_normal _ (b_timers bk) Hd ltac:(lia)) as [Hsn Hse]. rewrite Ed in Hse.
  destruct (smear_spec (b_qhead bk) (clock (r_ticks r)) _ (r {{ r_ticks ::= S }}) (wf_tick none r Hw)
    (proj1 (proj2 (wf_bucket Hw _ _ Hb))) ltac:(by rewrite Et) (proj1 (Hclock _)) Hsn) as (r' & E & Hr & Hm & Ho & Hn').
  exists r'. split_and!; try apply Hr; try done.
  - intros t tm' Ht'. destruct (decide (t ∈ b_qhead bk)) as [Hi|Hi].
    { destruct (Hn' t tm' Hi Ht'). destruct (Hclock (r_ticks r)). split; [done|lia]. }
    rewrite Ho, Et in Ht' by done. by eapply Hnm.
  - rewrite Hm, Hse. unfold smear_step, expire_ns. by rewrite Htm.
Qed.
End ClockWf.
