(* ===== verification/TimerOrder.v ===== *)
(** The order of the timers of timer.c: each bucket holds the timers of one
    interval, sorted by their expiration, and every call of the clients keeps it
    so, as the clock does not run backwards. *)
From coqutil Require Import Datatypes.RecordSetters.
From S2P Require Import Prelude.
From S2P Require Import Timer.
Import RecordSetters.DoubleBraceUpdate.
#[local] Set Warnings "-clear-no-such-hyp".
From stdpp Require Import strings gmap list sorting.
Open Scope Z_scope.

Definition interval (sec nsec : Z) : Z := sec * SEC + nsec.
Definition valid (sec nsec : Z) : Prop := 0 <= sec /\ 0 <= nsec <= SEC.

(** Sorted buckets, in which no timer expires later than an interval after [n]. *)
Record timed (n : Z) (r : root) : Prop := {
  tn_normal : normalised r;
  tn_periodic t tm : r_timers r !! t = Some tm -> t_periodic tm = true -> t_reset tm = true;
  tn_valid b bk : r_bucket r !! b = Some bk -> valid (b_sec bk) (b_nsec bk);
  tn_sorted b bk : r_bucket r !! b = Some bk -> StronglySorted Z.le (map (expire_ns r) (b_qhead bk));
  tn_bound b bk t : r_bucket r !! b = Some bk -> t ∈ b_qhead bk ->
    expire_ns r t <= n + interval (b_sec bk) (b_nsec bk)
}.

Lemma timed_init n : timed n timer_init_root.
Proof. constructor; unfold normalised; cbn; intros *; by rewrite lookup_empty. Qed.

Lemma timed_mono n n' r : n <= n' -> timed n r -> timed n' r.
Proof. intros Hn []. constructor; try done. intros b bk t Hb Ht. specialize (tn_bound0 b bk t Hb Ht). lia. Qed.

Lemma sorted_remove (f : Z -> Z) t q : StronglySorted Z.le (map f q) -> StronglySorted Z.le (map f (circleq_remove t q)).
Proof.
  unfold circleq_remove. induction q as [|x q IH]; intros Hs; [done|]. inversion Hs as [|? ? Hq Hx]; subst.
  destruct (decide (x <> t)) as [Ht|Ht]; [rewrite filter_cons_True by done|rewrite filter_cons_False by done]; [|by auto].
  cbn. constructor; [by auto|]. rewrite Forall_map in *. apply Forall_forall. intros y Hy. rewrite Forall_forall in Hx.
  apply Hx. by apply list_elem_of_filter in Hy as [_ Hy].
Qed.

Lemma sorted_snoc l (x : Z) : StronglySorted Z.le l -> Forall (fun y => y <= x) l -> StronglySorted Z.le (l ++ [x]).
Proof.
  induction 1 as [|y l Hs IH Hy]; intros Hx; cbn; [by repeat constructor|]. inversion Hx; subst.
  constructor; [by auto|]. apply Forall_app. split; [done|by constructor].
Qed.

(** A timer other than the one operated on keeps its expiration. *)
Lemma expire_ns_other r r' (t t0 : Z) tm' :
  r_timers r' = <[t := tm']> (r_timers r) -> t0 <> t -> expire_ns r' t0 = expire_ns r t0.
Proof. intros E Hne. unfold expire_ns. by rewrite E, lookup_insert_ne by done. Qed.

Lemma expire_ns_this r r' (t : Z) tm' : r_timers r' = <[t := tm']> (r_timers r) -> expire_ns r' t = ns (t_expire tm').
Proof. intros E. unfold expire_ns. by rewrite E, lookup_insert_eq. Qed.

Lemma map_expire_other r r' t tm' q :
  r_timers r' = <[t := tm']> (r_timers r) -> t ∉ q -> map (expire_ns r') q = map (expire_ns r) q.
Proof.
  intros E Hq. apply map_ext_in. intros x Hx%list_elem_of_In. apply (expire_ns_other r r' t x tm' E). set_solver.
Qed.

(** Moving a timer to the tail of its bucket with the expiration [n + interval]. *)
Lemma timed_moved n t tm' sec nsec r r' :
  timed n r -> wf r' -> moved t sec nsec r r' -> r_timers r' = <[t := tm']> (r_timers r) -> valid sec nsec ->
  proper (t_expire tm') -> ns (t_expire tm') = n + interval sec nsec ->
  (t_periodic tm' = true -> t_reset tm' = true) -> timed n r'.
Proof.
  intros [] Hw [Hm _] Ht Hv Hn He Hp.
  assert (Hq : forall b bk' q, without t r b bk' q -> (t ∉ q) /\
    (q <> [] -> valid (b_sec bk') (b_nsec bk')) /\ StronglySorted Z.le (map (expire_ns r') q) /\
    (forall t0, t0 ∈ q -> expire_ns r' t0 <= n + interval (b_sec bk') (b_nsec bk'))).
  { intros b bk' q [[_ ->]|(bk & Hb & Hs & Hns & ->)]; [split_and!; [set_solver|done|constructor|set_solver]|].
    assert (Hnin : t ∉ circleq_remove t (b_qhead bk)) by (rewrite elem_of_remove; naive_solver).
    rewrite (map_expire_other r r' t tm') by done. rewrite Hs, Hns. split_and!; eauto using sorted_remove.
    intros t0 [H0 Hne]%elem_of_remove. rewrite (expire_ns_other r r' t t0 tm') by done. eauto. }
  constructor.
  - intros t0 tm0. rewrite Ht. intros [[<- <-]|[_ H]]%lookup_insert_Some; eauto.
  - intros t0 tm0. rewrite Ht. intros [[<- <-]|[_ H]]%lookup_insert_Some; eauto.
  - intros b bk' H. destruct (Hm b bk' H) as (q & Hwo & [E|(_ & -> & ->)]); [|done].
    destruct (Hq b bk' q Hwo) as (_ & Hvq & _). apply Hvq. destruct (wf_bucket Hw _ _ H) as (Hne & _). congruence.
  - intros b bk' H. destruct (Hm b bk' H) as (q & Hwo & Hcase). destruct (Hq b bk' q Hwo) as (_ & _ & Hs & Hb).
    destruct Hcase as [->|(-> & <- & <-)]; [done|]. rewrite map_app. cbn [map]. apply sorted_snoc; [done|].
    rewrite (expire_ns_this r r' t tm'), He by done. rewrite Forall_map. by apply Forall_forall.
  - intros b bk' t0 H H0. destruct (Hm b bk' H) as (q & Hwo & Hcase). destruct (Hq b bk' q Hwo) as (_ & _ & _ & Hb).
    destruct Hcase as [E|(E & <- & <-)]; rewrite E in H0; [by auto|].
    apply elem_of_app in H0 as [H0|H0%list_elem_of_singleton]; [by auto|]. subst t0. rewrite (expire_ns_this r r' t tm') by done. lia.
Qed.

(** [moved] is about the buckets, and about the addresses in use. *)
Lemma moved_ext t sec nsec r1 r r' :
  moved t sec nsec r1 r' -> r_bucket r1 = r_bucket r -> r_bucket_qhead r1 = r_bucket_qhead r -> r_brk r <= r_brk r1 ->
  moved t sec nsec r r'.
Proof.
  intros [Hm (x & l & Hx & Hn & Hl)] Hb Hq Hk. split.
  - intros b bk' H. destruct (Hm b bk' H) as (q & Hwo & Hc). exists q. split; [|done].
    unfold without in *. rewrite Hb in Hwo. destruct Hwo as [[? ?]|?]; [left; split; [lia|done]|by right].
  - exists x, l. rewrite <-Hq. split_and!; [done..|]. intros b H. apply Hl in H. lia.
Qed.

Section Clock.
Context (clock : nat -> timespec).

(** What [timer_add] does, to a timer that is running and to a new one. *)
Lemma timer_add_running p t tm name sec nsec data cb r :
  wf r -> r_ptr r !! p = Some t -> r_timers r !! t = Some tm ->
  exists r' tm', timer_add clock p name sec nsec data cb r = Some r' /\ wf r' /\ moved t sec nsec r r' /\
    r_timers r' = <[t := tm']> (r_timers r) /\ r_ptr r' = r_ptr r /\ r_ticks r' = S (r_ticks r) /\
    r_change_qhead r' = r_change_qhead r /\ r_fired r' = r_fired r /\ r_gc_qhead r' = r_gc_qhead r /\
    t_expire tm' = timespec_add (clock (r_ticks r)) (mk_ts sec nsec) /\ t_expired tm' = false /\
    t_periodic tm' = t_periodic tm /\ t_reset tm' = t_reset tm /\ t_delete tm' = t_delete tm /\ t_cb tm' = cb /\
    t_ptimer tm' = t_ptimer tm /\
    (forall b bk, t_bucket tm = Some b -> r_bucket r !! b = Some bk -> b_sec bk = sec -> b_nsec bk = nsec ->
       t_bucket tm' = Some b).
Proof.
  intros Hw Hp Ht. destruct (ptr_armed r p t Hw Hp) as (tm0 & b & Ht0 & Hb). simplify_eq.
  unfold timer_add. rewrite Hp. unfold clock_gettime. set (r0 := r {{ r_ticks ::= S }}).
  assert (Hw0 : wf r0) by by apply wf_tick. assert (Ht0' : r_timers r0 !! t = Some tm) by by destruct r.
  destruct (set_expire_retimed t tm (clock (r_ticks r)) r0 Hw0 Ht0') as (r1 & -> & Hr1 & Ht1). cbn [mbind option_bind].
  destruct Hr1 as (Hw1 & R1 & R2 & R3 & R4 & R5 & (R6 & R7 & R8) & _). set (tm1 := tm {{ t_expire := clock (r_ticks r) }}) in *.
  destruct (timer_requeue_wf t tm1 sec nsec r1 Hw1) as (r2 & b2 & -> & Hw2 & (F1 & F2 & F3 & F4 & F5) & Hm2 & Ht2 & Hkb).
  { rewrite Ht1. by apply lookup_insert_eq. }
  { subst tm1. by destruct tm; cbn in *; subst. }
  cbn [mbind option_bind]. set (tm2 := (timer_set_expire sec nsec tm1) {{ t_bucket := Some b2 }}) in *.
  assert (Ht2' : r_timers r2 !! t = Some tm2) by (rewrite Ht2; apply lookup_insert_eq). rewrite Ht2'. cbn [mbind option_bind].
  assert (Hall : r_timers r2 = <[t := tm2]> (r_timers r)).
  { rewrite Ht2, Ht1, insert_insert_eq. by destruct r. }
  assert (Hmv : moved t sec nsec r r2).
  { apply (moved_ext t sec nsec r1); [done|rewrite R2; by destruct r|rewrite R1; by destruct r|rewrite R7; by destruct r]. }
  assert (Hrest : r_ptr r2 = r_ptr r /\ r_ticks r2 = S (r_ticks r) /\ r_change_qhead r2 = r_change_qhead r /\
    r_fired r2 = r_fired r /\ r_gc_qhead r2 = r_gc_qhead r).
  { rewrite F1, F2, F3, F4, F5, R3, R4, R5, R6, R8. by destruct r. }
  assert (Hf : t_expire tm2 = timespec_add (clock (r_ticks r)) (mk_ts sec nsec) /\ t_expired tm2 = false /\
    t_periodic tm2 = t_periodic tm /\ t_reset tm2 = t_reset tm /\ t_delete tm2 = t_delete tm /\ t_ptimer tm2 = t_ptimer tm)
    by by destruct tm.
  assert (Hkey : forall b bk, t_bucket tm = Some b -> r_bucket r !! b = Some bk -> b_sec bk = sec -> b_nsec bk = nsec ->
    t_bucket tm2 = Some b).
  { intros b0 bk0 E0 H0 Hs0 Hn0. assert (b2 = b0) as <-; [|subst tm2 tm1; by destruct tm].
    apply (Hkb b0 bk0); try done. rewrite R2. by destruct r. }
  destruct Hrest as (? & ? & ? & ? & ?), Hf as (? & ? & ? & ? & ? & ?). clearbody tm2. clear Hkb. case_if.
  - destruct (with_timer_wf none t (fun tm => tm {{ t_name := name_of name ; t_data := data ; t_cb := cb }}) tm2 r2 Hw2 Ht2')
      as (r3 & -> & Hw3 & ->); [by destruct tm2|].
    eexists _, (tm2 {{ t_name := name_of name ; t_data := data ; t_cb := cb }}). split; [reflexivity|].
    split; [done|]. clear Ht2 Ht2'. destruct r2, tm2; cbn in *; subst. split_and!; try done. by rewrite insert_insert_eq.
  - exists r2, tm2. split_and!; try done. bool_to_prop. by match goal with H : bool_decide _ = true |- _ => apply bool_decide_eq_true_1 in H end.
Qed.

Lemma timer_add_new p name sec nsec data cb r :
  wf r -> r_ptr r !! p = None ->
  exists r' t tm', timer_add clock p name sec nsec data cb r = Some r' /\ wf r' /\ moved t sec nsec r r' /\
    r_timers r' = <[t := tm']> (r_timers r) /\ r_ptr r' = <[p := t]> (r_ptr r) /\ r_ticks r' = S (r_ticks r) /\
    r_change_qhead r' = r_change_qhead r /\ r_fired r' = r_fired r /\ ~ armed r t /\
    t_expire tm' = timespec_add (clock (r_ticks r)) (mk_ts sec nsec) /\ t_expired tm' = false /\
    t_periodic tm' = false /\ t_delete tm' = false /\ t_on_change_list tm' = false /\ t_cb tm' = cb /\ t_ptimer tm' = Some p.
Proof.
  intros Hw Hp. unfold timer_add. rewrite Hp.
  set (tm := fun now => timer_set_expire sec nsec
    (mk_timer now None None (Some p) data cb false false false false false (name_of name))).
  assert (exists t r0, match r_gc_qhead r with
      | [] => (r_brk r, r {{ r_brk ::= Z.add 1 }})
      | t :: q => (t, r {{ r_gc_qhead := q ; r_gc ::= Z.add (-1) }}) end = (t, r0) /\ ~ armed r t /\
      wfx (eq t) (r0 {{ r_timers ::= <[t := tm (clock (r_ticks r))]> ; r_ptr ::= <[p := t]> }}) /\
      r_bucket r0 = r_bucket r /\ r_brk r <= r_brk r0 /\ r_timers r0 = r_timers r /\ r_ptr r0 = r_ptr r /\
      r_ticks r0 = r_ticks r /\ r_change_qhead r0 = r_change_qhead r /\ r_fired r0 = r_fired r /\
      r_bucket_qhead r0 = r_bucket_qhead r)
    as (t & r0 & -> & Hna & Hw0 & B1 & B2 & B3 & B4 & B5 & B6 & B7 & B8).
  { destruct (r_gc_qhead r) as [|t q] eqn:Eg.
    - exists (r_brk r), (r {{ r_brk ::= Z.add 1 }}). split; [done|]. split.
      + intros (tm0 & b & Ht & _). assert (r_brk r < r_brk r); [|lia]. apply (wf_brk_t Hw).
        rewrite (links_lookup _ _ _ Ht). eauto.
      + pose proof (linked_fresh _ _ _ _ _ _ _ _ _ p Hw Hp) as Hl. destruct r; cbn in *. split_and!; try done; [|lia].
        unfold wfx, links in *; cbn in *. rewrite fmap_insert. exact Hl.
    - exists t, (r {{ r_gc_qhead := q ; r_gc ::= Z.add (-1) }}). split; [done|]. split.
      + intros (tm0 & b & Ht & Hb). destruct (wf_gc_link Hw t) as [_ (q' & c & Hl)]; [rewrite Eg; by constructor|].
        rewrite (links_lookup _ _ _ Ht) in Hl. unfold link_of in Hl. congruence.
      + pose proof (linked_recycle _ _ _ _ _ _ _ _ _ p Hw Hp t q Eg) as Hl. destruct r; cbn in *. split_and!; try done.
        unfold wfx, links in *; cbn in *. rewrite fmap_insert. exact Hl. }
  unfold clock_gettime. rewrite B5. fold (tm (clock (r_ticks r))).
  set (r1 := (r0 {{ r_ticks ::= S }}) {{ r_timers ::= <[t := tm (clock (r_ticks r))]> ; r_ptr ::= <[p := t]> }}).
  destruct (timer_enqueue_wf t (tm (clock (r_ticks r))) p sec nsec r1) as (r' & b & -> & Hw' & (F1 & F2 & F3 & F4 & F5) & Hm & _ & Ht').
  { subst r1. apply (wf_tick (eq t)) in Hw0. by destruct r0. }
  { subst r1. destruct r0. cbn. apply lookup_insert_eq. }
  { done. }
  { done. }
  exists r', t, ((tm (clock (r_ticks r))) {{ t_bucket := Some b }}). split_and!; try done.
  - apply (moved_ext t sec nsec r1); [done|subst r1; rewrite <-B1; by destruct r0|subst r1; rewrite <-B8; by destruct r0|subst r1; by destruct r0].
  - rewrite Ht'. subst r1. rewrite <-B3. destruct r0; cbn. by rewrite insert_insert_eq.
  - rewrite F3, <-B4. subst r1. by destruct r0.
  - rewrite F4, <-B5. subst r1. by destruct r0.
  - rewrite F2, <-B6. subst r1. by destruct r0.
  - rewrite F5, <-B7. subst r1. by destruct r0.
Qed.

(** Assignments that leave the expiration alone. *)
Lemma timed_assign n r r' t tm tm' :
  timed n r -> r_bucket r' = r_bucket r -> r_timers r !! t = Some tm -> r_timers r' = <[t := tm']> (r_timers r) ->
  t_expire tm' = t_expire tm -> (t_periodic tm' = true -> t_reset tm' = true) -> timed n r'.
Proof.
  intros [] Hb Ht Ht' He Hp. assert (E : forall x, expire_ns r' x = expire_ns r x).
  { intros x. destruct (decide (x = t)) as [->|Hx]; [|by apply (expire_ns_other r r' t x tm')].
    rewrite (expire_ns_this r r' t tm') by done. unfold expire_ns. by rewrite Ht, He. }
  constructor; rewrite ?Hb.
  - intros x tmx. rewrite Ht'. intros [[<- <-]|[_ H]]%lookup_insert_Some; [rewrite He|]; eauto.
  - intros x tmx. rewrite Ht'. intros [[<- <-]|[_ H]]%lookup_insert_Some; eauto.
  - done.
  - intros b bk H. rewrite (map_ext _ _ E). eauto.
  - intros b bk x H Hx. rewrite E. eauto.
Qed.

Lemma timed_removed n r r' t tm tm' :
  timed n r -> removed t r r' -> r_timers r !! t = Some tm -> r_timers r' = <[t := tm']> (r_timers r) ->
  t_expire tm' = t_expire tm -> (t_periodic tm' = true -> t_reset tm' = true) -> timed n r'.
Proof.
  intros [] Hr Ht Ht' He Hp. constructor.
  - intros x tmx. rewrite Ht'. intros [[<- <-]|[_ H]]%lookup_insert_Some; [rewrite He|]; eauto.
  - intros x tmx. rewrite Ht'. intros [[<- <-]|[_ H]]%lookup_insert_Some; eauto.
  - intros b bk' H. destruct (Hr b bk' H) as (bk & Hb & -> & -> & _). eauto.
  - intros b bk' H. destruct (Hr b bk' H) as (bk & Hb & _ & _ & ->).
    rewrite (map_expire_other r r' t tm') by (done || rewrite elem_of_remove; naive_solver). eauto using sorted_remove.
  - intros b bk' x H Hx. destruct (Hr b bk' H) as (bk & Hb & -> & -> & Hq). rewrite Hq in Hx.
    apply elem_of_remove in Hx as [Hx Hne]. rewrite (expire_ns_other r r' t x tm') by done. eauto.
Qed.

Context (Hnormal : forall i, proper (clock i)) (Hmono : forall i, ns (clock i) <= ns (clock (S i))).

Definition now_ns (r : root) : Z := ns (clock (r_ticks r)).
Definition inv (r : root) : Prop := wf r /\ timed (now_ns r) r.

Lemma inv_init : inv timer_init_root.
Proof. split; [apply wf_init|apply timed_init]. Qed.

Definition valid_call (c : call) : Prop :=
  match c with CallAdd _ _ sec nsec _ _ | CallAddPeriodic _ _ sec nsec _ _ => valid sec nsec | _ => True end.

Lemma later_proper now sec nsec : proper now -> valid sec nsec ->
  proper (timespec_add now (mk_ts sec nsec)) /\ ns (timespec_add now (mk_ts sec nsec)) = ns now + interval sec nsec.
Proof.
  intros [Hn Hp] [Hs Hns]. destruct (timespec_add_ns now (mk_ts sec nsec) Hn Hs Hns) as [H1 H2]. split; [|done]. split; [done|].
  rewrite H2. unfold ns, SEC in *. cbn in *. lia.
Qed.

Lemma add_expire sec nsec k : valid sec nsec ->
  proper (timespec_add (clock k) (mk_ts sec nsec)) /\
  ns (timespec_add (clock k) (mk_ts sec nsec)) = ns (clock k) + interval sec nsec.
Proof. by apply later_proper. Qed.

Lemma timer_add_inv p name sec nsec data cb r : inv r -> valid sec nsec ->
  exists r' t, timer_add clock p name sec nsec data cb r = Some r' /\ inv r' /\
    r_ptr r' !! p = Some t /\ is_Some (r_timers r' !! t) /\ r_ticks r' = S (r_ticks r).
Proof.
  intros [Hw Ht] Hv. destruct (add_expire sec nsec (r_ticks r) Hv) as [Hn He].
  assert (Hle : now_ns r <= ns (clock (S (r_ticks r)))) by apply Hmono.
  destruct (r_ptr r !! p) as [t|] eqn:Ep.
  - destruct (ptr_armed r p t Hw Ep) as (tm & b & Htm & _).
    destruct (timer_add_running p t tm name sec nsec data cb r Hw Ep Htm)
      as (r' & tm' & -> & Hw' & Hm & Ht' & Hp' & Hk & _ & _ & _ & Ex & _ & Hpe & Hre & _).
    exists r', t. rewrite Hp'. split_and!; try done.
    + split; [done|]. unfold now_ns. rewrite Hk. apply (timed_mono (now_ns r)); [done|].
      apply (timed_moved _ t tm' sec nsec r); rewrite ?Ex; try done. rewrite Hpe, Hre. by apply (tn_periodic _ _ Ht t).
    + rewrite Ht', lookup_insert_eq. eauto.
  - destruct (timer_add_new p name sec nsec data cb r Hw Ep)
      as (r' & t & tm' & -> & Hw' & Hm & Ht' & Hp' & Hk & _ & _ & _ & Ex & _ & Hpe & _).
    exists r', t. split_and!; try done.
    + split; [done|]. unfold now_ns. rewrite Hk. apply (timed_mono (now_ns r)); [done|].
      apply (timed_moved _ t tm' sec nsec r); rewrite ?Ex; try done. congruence.
    + rewrite Hp'. apply lookup_insert_eq.
    + rewrite Ht', lookup_insert_eq. eauto.
Qed.

Lemma timer_add_periodic_inv p name sec nsec data cb r : inv r -> valid sec nsec ->
  exists r', timer_add_periodic clock p name sec nsec data cb r = Some r' /\ inv r'.
Proof.
  intros Hi Hv. unfold timer_add_periodic.
  destruct (timer_add_inv p name sec nsec data cb r Hi Hv) as (r1 & t & -> & [Hw1 Ht1] & Hp1 & [tm Htm] & _).
  cbn [mbind option_bind]. rewrite Hp1.
  destruct (with_timer_wf none t (fun tm => tm {{ t_periodic := true ; t_reset := true }}) tm r1 Hw1 Htm)
    as (r2 & -> & Hw2 & ->); [by destruct tm|]. eexists. split; [reflexivity|]. split; [done|].
  eapply (timed_assign _ r1 _ t tm); [by destruct r1| |done|..]; destruct r1, tm; done.
Qed.

Lemma timer_change_inv n t r : wf r -> timed n r -> armed r t ->
  exists r', timer_change t r = Some r' /\ wf r' /\ timed n r' /\ r_ticks r' = r_ticks r.
Proof.
  intros Hw Ht Ha. destruct (timer_change_wf t r Hw Ha) as (r' & E & Hw'). exists r'. split; [done|]. split; [done|].
  destruct Ha as (tm & b & Htm & Hb). unfold timer_change in E. rewrite Htm in E. cbn [mbind option_bind] in E.
  destruct (t_on_change_list tm); [by injection E as <-|]. rewrite Hb in E. cbn [mbind option_bind] in E.
  destruct (r_bucket r !! b); [|done]. injection E as <-. split; [|by destruct r].
  eapply (timed_assign n r _ t tm); [done|by destruct r|done|by destruct r|by destruct tm|].
  pose proof (tn_periodic _ _ Ht t tm Htm). by destruct tm.
Qed.

Lemma timer_del_inv n t r : wf r -> timed n r -> armed r t ->
  exists r', timer_del t r = Some r' /\ wf r' /\ timed n r' /\ r_ticks r' = r_ticks r.
Proof.
  intros Hw Ht (tm & b & Htm & Hb). unfold timer_del.
  destruct (with_timer_wf none t (fun tm => tm {{ t_delete := true }}) tm r Hw Htm) as (r1 & -> & Hw1 & E1); [by destruct tm|].
  cbn [mbind option_bind]. destruct (timer_change_inv n t r1) as (r2 & -> & Hw2 & Ht2 & Hk2); [done| | |].
  - eapply (timed_assign n r _ t tm); [done|subst; by destruct r|done|subst; by destruct r|by destruct tm|].
    pose proof (tn_periodic _ _ Ht t tm Htm). by destruct tm.
  - exists (tm {{ t_delete := true }}), b. subst r1. destruct r, tm; cbn in *. by rewrite lookup_insert_eq.
  - exists r2. split_and!; try done. rewrite Hk2. subst. by destruct r.
Qed.

(** The expirations after smearing. *)
Lemma ladder_bounds now step n x : 0 <= step -> x ∈ ladder now step n -> now + step <= x <= now + step * Z.of_nat n.
Proof.
  intros Hs. revert now. induction n as [|n IH]; intros now Hx; cbn [ladder] in Hx; [set_solver|].
  apply elem_of_cons in Hx as [->|Hx]; [nia|]. apply IH in Hx. nia.
Qed.

Lemma ladder_sorted now step n : 0 <= step -> StronglySorted Z.le (ladder now step n).
Proof.
  intros Hs. revert now. induction n as [|n IH]; intros now; cbn [ladder]; constructor; [by apply IH|].
  apply Forall_forall. intros x Hx%ladder_bounds; lia.
Qed.

Lemma smear_share now last n : 0 < n -> 0 <= smear_step now last n /\ smear_step now last n * n <= Z.max 0 (last - now).
Proof.
  intros Hn. unfold smear_step. split; [apply Z.div_pos; lia|].
  rewrite Z.mul_comm. apply Z.mul_div_le. lia.
Qed.

Lemma one_bucket r t b1 b2 k1 k2 : wf r -> r_bucket r !! b1 = Some k1 -> r_bucket r !! b2 = Some k2 ->
  t ∈ b_qhead k1 -> t ∈ b_qhead k2 -> b1 = b2.
Proof.
  intros Hw H1 H2 Ht1%(wf_link Hw _ _ _ H1) Ht2%(wf_link Hw _ _ _ H2). destruct Ht1 as (? & ? & E1), Ht2 as (? & ? & E2). congruence.
Qed.

(** The state after [clock_gettime]. *)
Lemma inv_tick r : inv r -> inv (r {{ r_ticks ::= S }}).
Proof.
  intros [Hw Ht]. split; [by apply wf_tick|]. assert (timed (now_ns r) (r {{ r_ticks ::= S }})) as H' by (destruct r; by destruct Ht).
  eapply timed_mono; [|exact H']. destruct r. apply Hmono.
Qed.

Lemma smear_bucket_inv b bk l r : inv r -> r_bucket r !! b = Some bk -> last (b_qhead bk) = Some l -> 1 < b_timers bk ->
  exists r', timer_smear_bucket_internal clock b r = Some r' /\ inv r' /\
    r_bucket_qhead r' = r_bucket_qhead r /\ r_bucket r' = r_bucket r /\
    map (expire_ns r') (b_qhead bk) =
      ladder (now_ns r) (smear_step (now_ns r) (expire_ns r l) (b_timers bk)) (length (b_qhead bk)) /\
    (forall t, t ∉ b_qhead bk -> r_timers r' !! t = r_timers r !! t).
Proof.
  intros [Hw Ht] Hb Hl Hn.
  destruct (smear_internal_spec clock Hnormal b bk l r Hw (tn_normal _ _ Ht) Hb Hl Hn) as (r' & -> & Hr & Hnm & Hm & Ho).
  destruct Hr as (Hw' & R1 & R2 & R3 & R4 & R5 & _ & R7 & _). destruct (wf_bucket Hw _ _ Hb) as (_ & _ & Hlen).
  assert (Hbk : r_bucket r' = r_bucket r) by (rewrite R2; by destruct r).
  destruct (smear_share (now_ns r) (expire_ns r l) (b_timers bk) ltac:(lia)) as [Hs0 Hs1].
  pose proof (tn_bound _ _ Ht b bk l Hb (last_Some_elem_of _ _ Hl)) as Hbl.
  pose proof (tn_valid _ _ Ht b bk Hb) as [Hv1 Hv2]. assert (Hi0 : 0 <= interval (b_sec bk) (b_nsec bk)) by (unfold interval, SEC in *; lia).
  exists r'. split; [done|]. split; [split; [done|]|split_and!; try done; rewrite R1; by destruct r].
  apply (timed_mono (now_ns r)).
  { unfold now_ns. rewrite R5. destruct r. apply Hmono. }
  constructor; rewrite ?Hbk.
  - done.
  - intros t tm' H. destruct (R7 t tm' H) as (tm & H' & ->). pose proof (tn_periodic _ _ Ht t tm) as Hp. destruct r, tm. by apply Hp.
  - apply Ht.
  - intros b0 bk0 H. destruct (decide (b0 = b)) as [->|Hne].
    + assert (bk0 = bk) as -> by congruence. rewrite Hm. by apply ladder_sorted.
    + rewrite (map_ext_in _ (expire_ns r)); [by eapply Ht|]. intros t Hx%list_elem_of_In. unfold expire_ns. rewrite Ho; [done|].
      intros Hx'. by apply Hne, (one_bucket r t b0 b bk0 bk).
  - intros b0 bk0 t H Hx. destruct (decide (b0 = b)) as [->|Hne].
    + assert (bk0 = bk) as -> by congruence. assert (Hin : expire_ns r' t ∈ map (expire_ns r') (b_qhead bk)) by (by apply list_elem_of_fmap_2).
      rewrite Hm in Hin. apply ladder_bounds in Hin; [|done]. rewrite <-Hlen in Hin. fold (now_ns r) in *. lia.
    + unfold expire_ns. rewrite Ho; [by eapply Ht|]. intros Hx'. by apply Hne, (one_bucket r t b0 b bk0 bk).
Qed.

Lemma smear_internal_inv b r : inv r -> is_Some (r_bucket r !! b) ->
  exists r', timer_smear_bucket_internal clock b r = Some r' /\ inv r' /\
    r_bucket_qhead r' = r_bucket_qhead r /\ r_bucket r' = r_bucket r.
Proof.
  intros Hi [bk Hb]. destruct (last (b_qhead bk)) as [l|] eqn:El.
  - destruct (Z.ltb_spec 1 (b_timers bk)) as [Hn|Hn].
    + destruct (smear_bucket_inv b bk l r Hi Hb El Hn) as (r' & ? & ? & ? & ? & _). eauto 10.
    + exists r. split_and!; try done. unfold timer_smear_bucket_internal. rewrite Hb. cbn [mbind option_bind].
      rewrite El, Z.gtb_ltb, (proj2 (Z.ltb_ge _ _)) by lia. done.
  - exists r. split_and!; try done. unfold timer_smear_bucket_internal. rewrite Hb. cbn [mbind option_bind]. by rewrite El.
Qed.

Lemma smear_buckets_inv bs r : inv r -> (forall b, b ∈ bs -> is_Some (r_bucket r !! b)) ->
  exists r', smear_buckets clock bs r = Some r' /\ inv r'.
Proof.
  revert r. induction bs as [|b bs IH]; intros r Hi Hbs; cbn [smear_buckets]; [by exists r|].
  destruct (smear_internal_inv b r Hi) as (r1 & -> & Hi1 & _ & Hb1); [apply Hbs; by constructor|].
  cbn [mbind option_bind]. apply IH; [done|]. intros b0 H0. rewrite Hb1. apply Hbs. by constructor.
Qed.

Lemma exec_inv c r : inv r -> valid_call c -> exists r', exec clock c r = Some r' /\ inv r'.
Proof.
  intros Hi Hv. destruct c as [p name sec nsec data cb|p name sec nsec data cb|p|sec nsec|]; cbn [exec].
  - destruct (timer_add_inv p name sec nsec data cb r Hi Hv) as (r' & t & ? & ? & _). eauto.
  - by apply timer_add_periodic_inv.
  - destruct (r_ptr r !! p) as [t|] eqn:Ep; [|by exists r]. destruct Hi as [Hw Ht].
    destruct (timer_del_inv (now_ns r) t r Hw Ht (ptr_armed _ _ _ Hw Ep)) as (r' & ? & ? & ? & Hk). exists r'. split; [done|].
    split; [done|]. unfold now_ns. by rewrite Hk.
  - unfold timer_smear_bucket. pose proof (find_key r sec nsec (or_introl (proj1 Hi))) as Hf.
    destruct (List.find _ _) as [b|]; [|by exists r]. destruct Hf as (bk & Hb & _).
    destruct (smear_internal_inv b r Hi) as (r' & ? & ? & _); eauto.
  - apply smear_buckets_inv; [done|]. intros b Hb. by apply (wf_dom (proj1 Hi)).
Qed.

Lemma execs_inv cs r : inv r -> Forall valid_call cs -> exists r', execs clock cs r = Some r' /\ inv r'.
Proof.
  intros Hi Hcs. revert r Hi. induction Hcs as [|c cs Hc Hcs IH]; intros r Hi; cbn [execs]; [by exists r|].
  destruct (exec_inv c r Hi Hc) as (r1 & -> & Hi1). by apply IH.
Qed.

(** ** Change processing *)

Lemma process_change_inv now t q r : wf r -> timed (ns now) r -> proper now -> r_change_qhead r = t :: q ->
  exists r', process_change now t r = Some r' /\ wf r' /\ timed (ns now) r' /\ r_change_qhead r' = q /\
    r_ticks r' = r_ticks r /\ r_fired r' = r_fired r.
Proof.
  intros Hw Ht Hn Hq.
  destruct (process_change_wf now t q r Hw Hq) as (r' & tm & tm' & -> & Hw' & Hq' & Hk & Hf & Htm & Ht' & Hp & Hr & _ & Hc).
  exists r'. split_and!; try done.
  assert (Hpr : t_periodic tm' = true -> t_reset tm' = true) by (rewrite Hp, Hr; by apply (tn_periodic _ _ Ht t)).
  unfold changed in Hc. destruct (t_delete tm).
  { destruct Hc as (Hrem & He & _). by apply (timed_removed _ r r' t tm tm'). }
  destruct (t_periodic tm) eqn:Ep; [|by destruct Hc as (? & ? & _); apply (timed_assign _ r r' t tm tm')].
  destruct Hc as (b & bk & Hb & Hbk & Hm & He & _). rewrite (tn_periodic _ _ Ht t tm Htm Ep) in He.
  pose proof (tn_valid _ _ Ht b bk Hbk) as Hv. destruct (later_proper now _ _ Hn Hv) as [N1 N2].
  apply (timed_moved _ t tm' (b_sec bk) (b_nsec bk) r); rewrite ?He; try done.
Qed.

Lemma process_changes_inv now n r : wf r -> timed (ns now) r -> proper now -> length (r_change_qhead r) = n ->
  exists r', process_changes n now r = Some r' /\ wf r' /\ timed (ns now) r' /\ r_change_qhead r' = [] /\
    r_ticks r' = r_ticks r /\ r_fired r' = r_fired r.
Proof.
  intros Hw Ht Hnow. revert r Hw Ht. induction n as [|n IH]; intros r Hw Ht Hn; cbn;
    destruct (r_change_qhead r) as [|t q] eqn:Eq; try done; [by exists r|].
  destruct (process_change_inv now t q r Hw Ht Hnow Eq) as (r1 & -> & Hw1 & Ht1 & Hq1 & Hk1 & Hf1). cbn [mbind option_bind].
  destruct (IH r1 Hw1 Ht1) as (r2 & ? & ? & ? & ? & ? & ?); [rewrite Hq1; cbn in Hn; lia|]. exists r2. split_and!; congruence || done.
Qed.

Lemma timer_process_changes_inv r : inv r ->
  exists r', timer_process_changes clock r = Some r' /\ inv r' /\ r_change_qhead r' = [] /\ r_fired r' = r_fired r.
Proof.
  intros [Hw Ht]. unfold timer_process_changes, clock_gettime. set (r0 := r {{ r_ticks ::= S }}).
  assert (Ht0 : timed (now_ns r) r0) by (destruct r; by destruct Ht).
  destruct (process_changes_inv (clock (r_ticks r)) _ r0 (wf_tick none r Hw) Ht0 (Hnormal _) eq_refl)
    as (r' & -> & Hw' & Ht' & Hq & Hk & Hf).
  exists r'. split_and!; try done. split; [done|]. eapply timed_mono; [|exact Ht'].
  unfold now_ns. rewrite Hk. subst r0. destruct r. apply Hmono.
Qed.

(** ** Claims *)

(** C17. The timer root is kept in order by its clients: any sequence of calls
    (adding one-shot and periodic timers, re-adding running ones with any
    interval, deleting, smearing) runs without a NULL or dangling pointer and
    leaves the root well-formed (each timer in one bucket or on the garbage
    queue, no empty bucket, one bucket per interval, exact counters, every client
    pointer to a running timer that points back) with each bucket sorted by
    expiration, and processing the changes then empties the change queue and
    keeps all of this. *)
Theorem timer_calls_invariant (cs : list call) :
  Forall valid_call cs ->
  exists r1 r2, execs clock cs timer_init_root = Some r1 /\ inv r1 /\
    timer_process_changes clock r1 = Some r2 /\ inv r2 /\ r_change_qhead r2 = [].
Proof.
  intros Hcs. destruct (execs_inv cs timer_init_root inv_init Hcs) as (r1 & E1 & Hi1).
  destruct (timer_process_changes_inv r1 Hi1) as (r2 & E2 & Hi2 & Hq2 & _). by exists r1, r2.
Qed.

(** C33. [timer_smear_bucket] spaces the timers of a bucket evenly and in their
    order: with [n] timers the k-th expires k times the n-th part of the time left
    until the last one, counted from now, so none is later than the last one was
    (or than now, if that has passed), and the timers of other buckets keep their
    expiration. *)
Theorem timer_smear_bucket_spread (r : root) (b : Z) (bk : bucket) (l : Z) :
  inv r -> r_bucket r !! b = Some bk -> last (b_qhead bk) = Some l -> 1 < b_timers bk ->
  exists r', timer_smear_bucket clock (b_sec bk) (b_nsec bk) r = Some r' /\ inv r' /\ r_bucket r' = r_bucket r /\
    map (expire_ns r') (b_qhead bk) =
      ladder (now_ns r) (Z.max 0 (expire_ns r l - now_ns r) / b_timers bk) (length (b_qhead bk)) /\
    Forall (fun t => now_ns r <= expire_ns r' t <= Z.max (now_ns r) (expire_ns r l)) (b_qhead bk) /\
    (forall t, t ∉ b_qhead bk -> expire_ns r' t = expire_ns r t).
Proof.
  intros Hi Hb Hl Hn. destruct (smear_bucket_inv b bk l r Hi Hb Hl Hn) as (r' & E & Hi' & _ & Hbk & Hm & Ho).
  exists r'. split_and!; try done.
  - unfold timer_smear_bucket. pose proof (find_key r (b_sec bk) (b_nsec bk) (or_introl (proj1 Hi))) as Hf.
    destruct (List.find _ _) as [b'|]; [|by destruct (Hf b bk Hb eq_refl)]. destruct Hf as (bk' & Hb' & Hs & Hns).
    by rewrite (wf_key (proj1 Hi) b' b bk' bk).
  - destruct (smear_share (now_ns r) (expire_ns r l) (b_timers bk) ltac:(lia)) as [Hs0 Hs1].
    destruct (wf_bucket (proj1 Hi) _ _ Hb) as (_ & _ & Hlen). apply Forall_forall. intros t Ht.
    assert (Hin : expire_ns r' t ∈ map (expire_ns r') (b_qhead bk)) by (by apply list_elem_of_fmap_2).
    rewrite Hm in Hin. apply ladder_bounds in Hin; [|done]. rewrite <-Hlen in Hin. lia.
  - intros t Ht. unfold expire_ns. by rewrite Ho.
Qed.
End Clock.

(** A clock that advances by a millisecond a read, and some calls. *)
Definition example_clock (n : nat) : timespec := mk_ts (100 + Z.of_nat n / 1000) (Z.of_nat n mod 1000 * 1000000).

Lemma example_clock_ns n : ns (example_clock n) = 100 * SEC + Z.of_nat n * 1000000.
Proof. unfold ns, example_clock, SEC. cbn [tv_sec tv_nsec]. pose proof (Z.div_mod (Z.of_nat n) 1000). lia. Qed.

Lemma example_clock_normal n : proper (example_clock n).
Proof.
  unfold proper. rewrite example_clock_ns. unfold normal, example_clock, SEC. cbn [tv_sec tv_nsec]. pose proof (Z.mod_pos_bound (Z.of_nat n) 1000).
  pose proof (Z.div_pos (Z.of_nat n) 1000). lia.
Qed.

Lemma example_clock_mono n : ns (example_clock n) <= ns (example_clock (S n)).
Proof. rewrite !example_clock_ns. lia. Qed.

Definition example_calls : list call :=
  [CallAddPeriodic 1 "keepalive" 5 0 11 (Some 1); CallAddPeriodic 2 "keepalive" 5 0 12 (Some 1);
   CallAdd 3 "retry" 0 500000000 13 (Some 2); CallSmear 5 0; CallAdd 1 "keepalive" 1 0 11 (Some 1); CallDel 3].

Lemma example_calls_valid : Forall valid_call example_calls.
Proof. repeat constructor; by vm_compute. Qed.

Lemma timer_calls_invariant_witness :
  exists r1 r2, execs example_clock example_calls timer_init_root = Some r1 /\ inv example_clock r1 /\
    timer_process_changes example_clock r1 = Some r2 /\ inv example_clock r2 /\ r_change_qhead r2 = [].
Proof.
  apply (timer_calls_invariant example_clock example_clock_normal example_clock_mono example_calls example_calls_valid).
Defined.

Lemma timer_smear_bucket_spread_witness :
  exists r b bk l, inv example_clock r /\ r_bucket r !! b = Some bk /\ last (b_qhead bk) = Some l /\ 1 < b_timers bk /\
  exists r', timer_smear_bucket example_clock (b_sec bk) (b_nsec bk) r = Some r' /\
    map (expire_ns r') (b_qhead bk) =
      ladder (now_ns example_clock r) (Z.max 0 (expire_ns r l - now_ns example_clock r) / b_timers bk) (length (b_qhead bk)).
Proof.
  destruct (execs_inv example_clock example_clock_normal example_clock_mono (take 3 example_calls) timer_init_root
    (inv_init example_clock) ltac:(apply Forall_take, example_calls_valid)) as (r & E & Hi).
  vm_compute in E. injection E as <-.
  eexists _, 1, (mk_bucket [0; 2] 5 0 2), 2. split; [exact Hi|]. split; [reflexivity|]. split; [reflexivity|]. split; [reflexivity|].
  destruct (timer_smear_bucket_spread example_clock example_clock_normal example_clock_mono _ 1 (mk_bucket [0; 2] 5 0 2) 2 Hi
    eq_refl eq_refl eq_refl) as (r' & E' & _ & _ & Hm & _). exists r'. split; [exact E'|exact Hm].
Defined.
