(* ===== verification/TimerWalk.v ===== *)
(** The event loop of timer.c: [timer_walk] and [timer_flush_root].

    The callbacks are code of the clients: a parameter that is given the root, the
    timer and the state of the client, and answers with the calls it makes.  Where
    the traversal of a queue would follow the link of an element that has left it,
    the model is undefined ([None]). *)
From coqutil Require Import Datatypes.RecordSetters.
From S2P Require Import Prelude.
From S2P Require Import Timer.
From S2P Require Import TimerOrder.
Import RecordSetters.DoubleBraceUpdate.
From stdpp Require Import strings gmap list sorting.
Open Scope Z_scope.
#[local] Set Warnings "-clear-no-such-hyp".

Section Walk.
Context (clock : nat -> timespec) {W : Type} (callback : root -> Z -> W -> W * list call).

(** Calls the callback of an expired timer, if it has one. *)
Definition fire (now : timespec) (t : Z) (tm : timer) (r : root) (w : W) : option (root * W) :=
  r ← with_timer t (fun tm => tm {{ t_expired := true }}) r;
  match t_cb tm with
  | Some _ =>
      r ← with_timer t (fun tm => tm {{ t_timestamp := Some now }}) r;
      let r := r {{ r_fired ::= (fun l => l ++ [t]) }} in
      let (w, cs) := callback r t w in
      r ← execs clock cs r;
      Some (r, w)
  | None => Some (r, w)
  end.

(** Requeues a periodic timer later; deletes another unless it was restarted. *)
Definition settle (t : Z) (r : root) : option root :=
  tm ← r_timers r !! t;
  if t_periodic tm then timer_change t r
  else if t_expired tm then timer_del t r
  else Some r.

(** The element after [t]: in the queue of the bucket [b], if [t] is still there. *)
Definition next_timer (b t : Z) (r : root) : option (list Z) :=
  tm ← r_timers r !! t;
  b' ← t_bucket tm;
  if b' =? b then bk ← r_bucket r !! b; Some (circleq_after t (b_qhead bk)) else None.

(** First pass over a bucket, from the timer [t] on. *)
Fixpoint walk_timers (fuel : nat) (now : timespec) (b t : Z) (r : root) (w : W) : option (root * W) :=
  match fuel with
  | O => None
  | S fuel =>
      tm ← r_timers r !! t;
      if timespec_compare (t_expire tm) now =? 1 then Some (r, w)
      else
        '(r, w) ← fire now t tm r w;
        r ← settle t r;
        ts ← next_timer b t r;
        match ts with
        | [] => Some (r, w)
        | t' :: _ => walk_timers fuel now b t' r w
        end
  end.

(** First pass over the buckets, from [b] on. *)
Fixpoint walk_buckets (fuel : nat) (now : timespec) (b : Z) (r : root) (w : W) : option (root * W) :=
  match fuel with
  | O => None
  | S fuel =>
      bk ← r_bucket r !! b;
      '(r, w) ← match b_qhead bk with [] => Some (r, w) | t :: _ => walk_timers fuel now b t r w end;
      _ ← r_bucket r !! b;
      match circleq_after b (r_bucket_qhead r) with
      | [] => Some (r, w)
      | b' :: _ => walk_buckets fuel now b' r w
      end
  end.

(** Second pass: the earliest expiration, up to the first timer of each bucket
    that has not expired. *)
Fixpoint min_timers (now : timespec) (ts : list Z) (r : root) (min : timespec) : option timespec :=
  match ts with
  | [] => Some min
  | t :: ts =>
      tm ← r_timers r !! t;
      if t_delete tm then min_timers now ts r min
      else
        let min := if (tv_sec min =? 0) && (tv_nsec min =? 0) then t_expire tm else min in
        let min := if timespec_compare (t_expire tm) min =? -1 then t_expire tm else min in
        if timespec_compare (t_expire tm) now =? 1 then Some min else min_timers now ts r min
  end.

Fixpoint min_buckets (now : timespec) (bs : list Z) (r : root) (min : timespec) : option timespec :=
  match bs with
  | [] => Some min
  | b :: bs => bk ← r_bucket r !! b; min ← min_timers now (b_qhead bk) r min; min_buckets now bs r min
  end.

(** The new state and the time to sleep. *)
Definition timer_walk (fuel : nat) (r : root) (w : W) : option (root * W * option timespec) :=
  match r_bucket_qhead r with
  | [] => Some (r, w, None)
  | b :: _ =>
      let (now, r) := clock_gettime clock r in
      '(r, w) ← walk_buckets fuel now b r w;
      r ← timer_process_changes clock r;
      min ← min_buckets now (r_bucket_qhead r) r (mk_ts 0 0);
      let (now, r) := clock_gettime clock r in
      Some (r, w, if timespec_compare now min =? -1 then Some (timespec_sub min now) else None)
  end.

(** [timer_del] of every timer of every bucket. *)
Fixpoint del_timers (ts : list Z) (r : root) : option root :=
  match ts with
  | [] => Some r
  | t :: ts => r ← timer_del t r; del_timers ts r
  end.

Fixpoint flush_buckets (bs : list Z) (r : root) : option root :=
  match bs with
  | [] => Some r
  | b :: bs => bk ← r_bucket r !! b; r ← del_timers (b_qhead bk) r; flush_buckets bs r
  end.

(** Frees the timers of the garbage queue. *)
Fixpoint gc_timers (ts : list Z) (r : root) : root :=
  match ts with
  | [] => r
  | t :: ts => gc_timers ts (r {{ r_gc_qhead := ts ; r_gc ::= Z.add (-1) ; r_timers ::= delete t }})
  end.

Definition timer_flush_root (r : root) : option root :=
  r ← flush_buckets (r_bucket_qhead r) r;
  r ← timer_process_changes clock r;
  Some (gc_timers (r_gc_qhead r) r).
End Walk.

(** * The timers that are due *)

(** ** Queues *)

Lemma circleq_after_app x q l : x ∈ q -> circleq_after x (q ++ l) = circleq_after x q ++ l.
Proof.
  induction q as [|y q IH]; intros Hx; [set_solver|]. cbn. destruct (Z.eqb_spec y x) as [->|Hne]; [done|].
  apply IH. set_solver.
Qed.

Lemma circleq_after_remove x y q : x <> y -> circleq_after x (circleq_remove y q) = circleq_remove y (circleq_after x q).
Proof.
  intros Hne. induction q as [|z q IH]; [done|]. unfold circleq_remove in *. cbn [circleq_after].
  destruct (decide (z = y)) as [->|Hz].
  - rewrite filter_cons_False by naive_solver. rewrite IH. rewrite (proj2 (Z.eqb_neq y x)) by congruence. done.
  - rewrite filter_cons_True by done. cbn [circleq_after]. by destruct (z =? x).
Qed.

Lemma circleq_after_notin x q : x ∉ q -> circleq_after x q = [].
Proof.
  induction q as [|y q IH]; intros Hx; [done|]. cbn. destruct (Z.eqb_spec y x); [set_solver|]. apply IH. set_solver.
Qed.

(** The last element has none after it. *)
Lemma circleq_after_last x q : x ∉ q -> circleq_after x (q ++ [x]) = [].
Proof.
  induction q as [|y q IH]; intros Hx; cbn; [by rewrite Z.eqb_refl|]. destruct (Z.eqb_spec y x); [set_solver|]. apply IH. set_solver.
Qed.

Lemma circleq_split x q : x ∈ q -> exists l, q = l ++ x :: circleq_after x q /\ x ∉ l.
Proof.
  induction q as [|y q IH]; intros Hx; [set_solver|]. cbn. destruct (Z.eqb_spec y x) as [->|Hne].
  - exists []. split; [done|set_solver].
  - destruct IH as (l & E & Hl); [set_solver|]. exists (y :: l). cbn. split; [by rewrite <-E|set_solver].
Qed.

Lemma elem_of_after x y q : y ∈ circleq_after x q -> y ∈ q.
Proof.
  induction q as [|z q IH]; cbn; [done|]. destruct (z =? x); intros H; [by constructor|]. constructor. by apply IH.
Qed.

Lemma circleq_after_next x y q l : NoDup q -> circleq_after x q = y :: l -> circleq_after y q = l.
Proof.
  induction 1 as [|z q Hz Hq IH]; cbn; [done|]. destruct (Z.eqb_spec z x) as [->|Hne]; intros E.
  - subst q. destruct (Z.eqb_spec x y) as [->|Hxy]; [set_solver|]. cbn. by rewrite Z.eqb_refl.
  - rewrite (proj2 (Z.eqb_neq z y)); [by apply IH|]. intros ->. apply Hz, (elem_of_after x). rewrite E. by constructor.
Qed.

Lemma remove_filter (P : Z -> Prop) `{!forall x, Decision (P x)} u q :
  circleq_remove u (filter P q) = filter P (circleq_remove u q).
Proof.
  unfold circleq_remove. induction q as [|x q IH]; [done|].
  destruct (decide (P x)), (decide (x = u)) as [->|Hne];
    repeat first [rewrite filter_cons_True by (done || naive_solver) | rewrite filter_cons_False by (done || naive_solver)];
    by rewrite ?IH.
Qed.

Lemma remove_app u q1 q2 : circleq_remove u (q1 ++ q2) = circleq_remove u q1 ++ circleq_remove u q2.
Proof. apply filter_app. Qed.

Lemma remove_sublist u q : circleq_remove u q `sublist_of` q.
Proof. apply sublist_filter. Qed.

Section Due.
Context (n0 : Z).

Definition dueq (r : root) (q : list Z) : list Z := filter (fun t => expire_ns r t <= n0) q.
Definition dueb (r : root) (b : Z) : list Z := dueq r (bucket_timers r b).
Definition due (r : root) (bs : list Z) : list Z := concat (map (dueb r) bs).

(** The due timers ahead of the timer [t] of the bucket [b]. *)
Definition due_after (r : root) (b t : Z) : list Z :=
  dueq r (circleq_after t (bucket_timers r b)) ++ due r (circleq_after b (r_bucket_qhead r)).

Lemma due_app r l1 l2 : due r (l1 ++ l2) = due r l1 ++ due r l2.
Proof. unfold due. by rewrite map_app, concat_app. Qed.

Lemma due_none r l : (forall b, b ∈ l -> dueb r b = []) -> due r l = [].
Proof.
  induction l as [|b l IH]; intros H; [done|]. unfold due in *. cbn. rewrite H by constructor. apply IH. intros. apply H. by constructor.
Qed.

Lemma due_remove r x l : dueb r x = [] -> due r (circleq_remove x l) = due r l.
Proof.
  intros Hx. unfold circleq_remove. induction l as [|b l IH]; [done|]. destruct (decide (b = x)) as [->|Hne].
  - rewrite filter_cons_False by naive_solver. rewrite IH. unfold due. cbn. by rewrite Hx.
  - rewrite filter_cons_True by done. unfold due in *. cbn. by rewrite IH.
Qed.

Lemma due_remove_map r r' u l : (forall b, dueb r' b = circleq_remove u (dueb r b)) -> due r' l = circleq_remove u (due r l).
Proof.
  intros H. unfold due. induction l as [|b l IH]; [done|]. cbn. by rewrite H, IH, remove_app.
Qed.

(** A state in which the same timers are due. *)
Lemma dueq_ext r r' q : (forall t, t ∈ q -> expire_ns r' t = expire_ns r t) -> dueq r' q = dueq r q.
Proof.
  intros H. unfold dueq. induction q as [|x q IH]; [done|]. specialize (H x) as Hx. rewrite !filter_cons.
  rewrite Hx by constructor. rewrite IH; [done|]. intros. apply H. by constructor.
Qed.

(** Moving a timer that is not due any more. *)
Section Moved.
Context (u sec nsec : Z) (tm' : timer) (r r' : root).
Context (Hw : wf r) (Hw' : wf r') (Hm : moved u sec nsec r r').
Context (Ht : r_timers r' = <[u := tm']> (r_timers r)) (He : n0 < ns (t_expire tm')).

Lemma dueq_moved q : dueq r' (circleq_remove u q) = circleq_remove u (dueq r q).
Proof.
  unfold dueq. rewrite remove_filter. apply dueq_ext. intros t [_ Hne]%elem_of_remove. by apply (expire_ns_other r r' u t tm').
Qed.

Lemma dueq_last q : dueq r' (q ++ [u]) = dueq r' q.
Proof.
  unfold dueq. rewrite filter_app, filter_cons_False, filter_nil, app_nil_r; [done|].
  rewrite (expire_ns_this r r' u tm') by done. lia.
Qed.

Lemma dropped_bucket b bk : r_bucket r !! b = Some bk -> r_bucket r' !! b = None -> circleq_remove u (b_qhead bk) = [].
Proof.
  intros Hb Hn. destruct (circleq_remove u (b_qhead bk)) as [|t q] eqn:E; [done|].
  assert (Hin : t ∈ circleq_remove u (b_qhead bk)) by (rewrite E; by constructor). apply elem_of_remove in Hin as [Hin Hne].
  apply (wf_link Hw _ _ _ Hb) in Hin as (p & c & Hl). destruct (links_inv _ _ _ _ _ Hl) as (tm & Htm & Hbt & _).
  assert (Htm' : r_timers r' !! t = Some tm) by by rewrite Ht, lookup_insert_ne by done.
  pose proof (links_lookup _ _ _ Htm') as Hl'. unfold link_of in Hl'. rewrite Hbt in Hl'.
  apply (wf_back Hw') in Hl' as [[? ?] _]. congruence.
Qed.

Lemma dueb_moved b : dueb r' b = circleq_remove u (dueb r b).
Proof.
  unfold dueb, bucket_timers. destruct (r_bucket r' !! b) as [bk'|] eqn:Eb.
  - destruct (proj1 Hm b bk' Eb) as (q & Hwo & Hq).
    assert (E : dueq r' (b_qhead bk') = dueq r' q) by (destruct Hq as [->|(-> & _)]; [done|apply dueq_last]). rewrite E.
    destruct Hwo as [[Hbrk ->]|(bk & -> & _ & _ & ->)]; [|apply dueq_moved].
    destruct (r_bucket r !! b) eqn:E'; [|done]. assert (b < r_brk r) by (apply (wf_brk_b Hw); eauto). lia.
  - destruct (r_bucket r !! b) as [bk|] eqn:E'; [|done]. rewrite <-dueq_moved. by rewrite (dropped_bucket b bk).
Qed.

Lemma due_moved b : b ∈ r_bucket_qhead r -> b ∈ r_bucket_qhead r' ->
  due r' (circleq_after b (r_bucket_qhead r')) = circleq_remove u (due r (circleq_after b (r_bucket_qhead r))).
Proof.
  intros Hb Hb'. destruct (proj2 Hm) as (x & l & Hq & Hx & Hl).
  assert (Hnx : b <> x) by (intros ->; apply (wf_dom Hw') in Hb' as [? ?]; congruence).
  rewrite Hq, circleq_after_app by by rewrite elem_of_remove. rewrite due_app, circleq_after_remove by done.
  rewrite (due_remove r' x) by (unfold dueb, bucket_timers; by rewrite Hx).
  rewrite (due_none r' l), app_nil_r; [by apply due_remove_map, dueb_moved|].
  intros b0 H0%Hl. rewrite dueb_moved. unfold dueb, bucket_timers.
  destruct (r_bucket r !! b0) eqn:E; [|done]. assert (b0 < r_brk r) by (apply (wf_brk_b Hw); eauto). lia.
Qed.

(** The due timers ahead of another timer. *)
Lemma due_after_moved b bk bk' t :
  u <> t -> r_bucket r !! b = Some bk -> r_bucket r' !! b = Some bk' -> t ∈ b_qhead bk ->
  due_after r' b t = circleq_remove u (due_after r b t).
Proof.
  intros Hne Hb Hb' Hin. unfold due_after. rewrite remove_app, due_moved; [|apply (wf_dom Hw); eauto|apply (wf_dom Hw'); eauto].
  f_equal. unfold bucket_timers. rewrite Hb, Hb'. destruct (proj1 Hm b bk' Hb') as (q & Hwo & Hq).
  destruct Hwo as [[Hbrk _]|(bk0 & Hb0 & _ & _ & ->)]; [assert (b < r_brk r) by (apply (wf_brk_b Hw); eauto); lia|].
  simplify_eq. destruct Hq as [->|(-> & _)].
  - by rewrite circleq_after_remove, dueq_moved by done.
  - rewrite circleq_after_app by by rewrite elem_of_remove. by rewrite dueq_last, circleq_after_remove, dueq_moved by done.
Qed.

(** The timer itself has moved to the tail of its bucket. *)
Lemma due_after_self b bk bk' :
  r_bucket r !! b = Some bk -> r_bucket r' !! b = Some bk' -> u ∈ b_qhead bk' -> u ∈ b_qhead bk ->
  due_after r' b u = due r' (circleq_after b (r_bucket_qhead r')) /\
  due_after r' b u `sublist_of` due_after r b u.
Proof.
  intros Hb Hb' Hu Hu0. assert (E : due_after r' b u = due r' (circleq_after b (r_bucket_qhead r'))).
  { unfold due_after, bucket_timers. rewrite Hb'. destruct (proj1 Hm b bk' Hb') as (q & Hwo & Hq).
    assert (Hnin : u ∉ q).
    { destruct Hwo as [[_ ->]|(bk0 & _ & _ & _ & ->)]; [set_solver|]. rewrite elem_of_remove. naive_solver. }
    destruct Hq as [Hq|(Hq & _)]; rewrite Hq in *; [done|]. by rewrite circleq_after_last by done. }
  split; [done|]. rewrite E, due_moved by ((apply (wf_dom Hw); eauto) || (apply (wf_dom Hw'); eauto)).
  etransitivity; [apply remove_sublist|]. unfold due_after. by apply sublist_inserts_l.
Qed.
End Moved.
End Due.

(** * Calls made while a timer fires *)

Section Safe.
Context (clock : nat -> timespec).
Context (Hnormal : forall i, proper (clock i)) (Hmono : forall i, ns (clock i) <= ns (clock (S i))).

(** The calls a callback of the timer at the pointer [p0] in the bucket of
    interval [sb], [nb] may make: it does not smear, and re-adds itself with its
    interval only. *)
Definition polite (p0 sb nb : Z) (c : call) : Prop :=
  match c with
  | CallAdd p _ sec nsec _ _ | CallAddPeriodic p _ sec nsec _ _ =>
      valid sec nsec /\ 0 < interval sec nsec /\ (p = p0 -> sec = sb /\ nsec = nb)
  | CallDel _ => True
  | CallSmear _ _ | CallSmearAll => False
  end.

(** The timer [t] stored at [p] is in the bucket [b] of interval [sb], [nb]. *)
Definition placed (r : root) (t b p sb nb : Z) : Prop :=
  exists tm bk, r_timers r !! t = Some tm /\ t_bucket tm = Some b /\ t_ptimer tm = Some p /\
    r_bucket r !! b = Some bk /\ b_sec bk = sb /\ b_nsec bk = nb.

Lemma placed_in r t b p sb nb bk : wf r -> placed r t b p sb nb -> r_bucket r !! b = Some bk -> t ∈ b_qhead bk.
Proof.
  intros Hw (tm & bk' & Ht & Hb & _) Hbk. apply (wf_link Hw _ _ _ Hbk). rewrite (links_lookup _ _ _ Ht). unfold link_of.
  rewrite Hb. eauto.
Qed.

(** What [timer_add] does for the walk. *)
Lemma add_moved n0 p name sec nsec data cb r : inv clock r -> n0 <= now_ns clock r ->
  valid sec nsec -> 0 < interval sec nsec ->
  exists r' u tm', timer_add clock p name sec nsec data cb r = Some r' /\ inv clock r' /\ moved u sec nsec r r' /\
    r_timers r' = <[u := tm']> (r_timers r) /\ n0 < ns (t_expire tm') /\ r_ticks r' = S (r_ticks r) /\
    r_fired r' = r_fired r /\ t_ptimer tm' = Some p /\ r_ptr r' = <[p := u]> (r_ptr r) /\
    (forall tm, r_timers r !! u = Some tm -> t_bucket tm <> None -> r_ptr r !! p = Some u /\ t_ptimer tm = Some p /\
       forall b bk, t_bucket tm = Some b -> r_bucket r !! b = Some bk -> b_sec bk = sec -> b_nsec bk = nsec -> t_bucket tm' = Some b).
Proof.
  intros Hi Hn Hv Hpos. destruct (timer_add_inv clock Hnormal Hmono p name sec nsec data cb r Hi Hv) as (r0 & t0 & E0 & Hi0 & _).
  destruct Hi as [Hw Ht]. destruct (add_expire clock Hnormal sec nsec (r_ticks r) Hv) as [_ He].
  assert (Hlt : n0 < ns (timespec_add (clock (r_ticks r)) (mk_ts sec nsec))) by (rewrite He; unfold now_ns in Hn; lia).
  destruct (r_ptr r !! p) as [t|] eqn:Ep.
  - destruct (wf_ptr Hw p t Ep) as (b & c & Hl & _). destruct (links_inv _ _ _ _ _ Hl) as (tm & Htm & _ & Hp & _).
    destruct (timer_add_running clock p t tm name sec nsec data cb r Hw Ep Htm)
      as (r' & tm' & E & Hw' & Hm & Ht' & Hp' & Hk & _ & Hf & _ & Ex & _ & _ & _ & _ & _ & Hpt & Hkey).
    rewrite E in E0. injection E0 as <-. exists r', t, tm'. split_and!; try congruence; try done.
    + by rewrite insert_id.
    + intros tm0 Htm0 _. simplify_eq. done.
  - destruct (timer_add_new clock p name sec nsec data cb r Hw Ep)
      as (r' & t & tm' & E & Hw' & Hm & Ht' & Hp' & Hk & _ & Hf & Hna & Ex & _ & _ & _ & _ & _ & Hpt).
    rewrite E in E0. injection E0 as <-. exists r', t, tm'. split_and!; try congruence; try done.
    + intros tm0 Htm0 Hb. exfalso. apply Hna. destruct (t_bucket tm0) as [b|] eqn:Eb; [|done]. by exists tm0, b.
Qed.

(** The cursor of the walk is not disturbed. *)
Definition undisturbed (n0 : Z) (t b p sb nb : Z) (r r' : root) : Prop :=
  inv clock r' /\ placed r' t b p sb nb /\ r_fired r' = r_fired r /\ (r_ticks r <= r_ticks r')%nat /\
  due_after n0 r' b t `sublist_of` due_after n0 r b t /\
  due n0 r' (circleq_after b (r_bucket_qhead r')) `sublist_of` due n0 r (circleq_after b (r_bucket_qhead r)).

Lemma undisturbed_trans n0 t b p sb nb r1 r2 r3 :
  undisturbed n0 t b p sb nb r1 r2 -> undisturbed n0 t b p sb nb r2 r3 -> undisturbed n0 t b p sb nb r1 r3.
Proof.
  intros (A1 & A2 & A3 & A4 & A5 & A6) (B1 & B2 & B3 & B4 & B5 & B6). unfold undisturbed.
  split_and!; try done; [congruence|lia|by etransitivity|by etransitivity].
Qed.

Lemma add_undisturbed n0 t b p0 sb nb p name sec nsec data cb r :
  inv clock r -> n0 <= now_ns clock r -> placed r t b p0 sb nb ->
  valid sec nsec -> 0 < interval sec nsec -> (p = p0 -> sec = sb /\ nsec = nb) ->
  exists r' u, timer_add clock p name sec nsec data cb r = Some r' /\ undisturbed n0 t b p0 sb nb r r' /\ r_ptr r' !! p = Some u.
Proof.
  intros Hi Hn Hpl Hv Hpos Hself.
  destruct (add_moved n0 p name sec nsec data cb r Hi Hn Hv Hpos)
    as (r' & u & tm' & E & Hi' & Hm & Ht' & He & Hk & Hf & Hpt & Hpu & Hold).
  exists r', u. split; [done|]. split; [|rewrite Hpu; apply lookup_insert_eq]. destruct Hi as [Hw _], Hi' as [Hw' Htd'].
  destruct Hpl as (tm & bk & Htm & Hb & Hp & Hbk & Hs & Hns).
  assert (Hbq : b ∈ r_bucket_qhead r) by (apply (wf_dom Hw); eauto).
  assert (Htb : exists tm1, r_timers r' !! t = Some tm1 /\ t_bucket tm1 = Some b /\ t_ptimer tm1 = Some p0).
  { rewrite Ht'. destruct (decide (u = t)) as [->|Hne]; [|rewrite lookup_insert_ne by done; eauto].
    rewrite lookup_insert_eq. destruct (Hold tm Htm ltac:(congruence)) as (_ & Hp' & Hkey).
    assert (p = p0) as -> by congruence. destruct (Hself eq_refl) as [-> ->]. exists tm'. split; [done|]. split; [|done].
    by apply (Hkey b bk). }
  destruct Htb as (tm1 & Htm1 & Hb1 & Hp1).
  assert (Hex : exists bk', r_bucket r' !! b = Some bk' /\ b_sec bk' = sb /\ b_nsec bk' = nb /\ t ∈ b_qhead bk').
  { pose proof (links_lookup _ _ _ Htm1) as Hl. unfold link_of in Hl. rewrite Hb1 in Hl.
    destruct (wf_back Hw' _ _ _ _ Hl) as [[bk' Hbk'] _]. exists bk'. destruct (proj1 Hm b bk' Hbk') as (q & Hwo & _).
    destruct Hwo as [[Hbrk _]|(bk0 & Hb0 & -> & -> & _)]; [assert (b < r_brk r) by (apply (wf_brk_b Hw); eauto); lia|].
    simplify_eq. split_and!; try done. apply (wf_link Hw' _ _ _ Hbk'). eauto. }
  destruct Hex as (bk' & Hbk' & Hs' & Hn' & Hin').
  assert (Hbq' : b ∈ r_bucket_qhead r') by (apply (wf_dom Hw'); eauto).
  assert (Hin : t ∈ b_qhead bk) by (apply (placed_in r t b p0 sb nb bk Hw); [|done]; by exists tm, bk).
  split_and!; try done.
  - by exists tm1, bk'.
  - lia.
  - destruct (decide (u = t)) as [->|Hne].
    + by apply (due_after_self n0 t sec nsec tm' r r' Hw Hw' Hm Ht' He b bk bk').
    + rewrite (due_after_moved n0 u sec nsec tm' r r' Hw Hw' Hm Ht' He b bk bk' t) by done. apply remove_sublist.
  - rewrite (due_moved n0 u sec nsec tm' r r' Hw Hw' Hm Ht' He b) by done. apply remove_sublist.
Qed.

(** The states with the same buckets and expirations. *)
Definition alike (r r' : root) : Prop :=
  r_bucket r' = r_bucket r /\ r_bucket_qhead r' = r_bucket_qhead r /\ forall t, expire_ns r' t = expire_ns r t.

Lemma alike_due n0 r r' : alike r r' ->
  (forall q, dueq n0 r' q = dueq n0 r q) /\ (forall bs, due n0 r' bs = due n0 r bs) /\
  (forall b t, due_after n0 r' b t = due_after n0 r b t).
Proof.
  intros (Hb & Hq & He). assert (Hd : forall q, dueq n0 r' q = dueq n0 r q) by (intros q; apply dueq_ext; auto).
  assert (Hbd : forall bs, due n0 r' bs = due n0 r bs).
  { intros bs. unfold due. f_equal. apply map_ext. intros b. unfold dueb, bucket_timers. by rewrite Hb, Hd. }
  split_and!; try done. intros b t. unfold due_after, bucket_timers. by rewrite Hb, Hq, Hd, Hbd.
Qed.

Lemma assign_alike r r' u tm tm' :
  r_timers r !! u = Some tm -> r_timers r' = <[u := tm']> (r_timers r) -> t_expire tm' = t_expire tm ->
  r_bucket r' = r_bucket r -> r_bucket_qhead r' = r_bucket_qhead r -> alike r r'.
Proof.
  intros Hu Hu' He Hb Hq. split_and!; try done. intros t. destruct (decide (t = u)) as [->|Hne].
  - rewrite (expire_ns_this r r' u tm') by done. unfold expire_ns. by rewrite Hu, He.
  - by apply (expire_ns_other r r' u t tm').
Qed.

Lemma assign_undisturbed n0 t b p sb nb r r' u tm tm' :
  inv clock r' -> placed r t b p sb nb ->
  r_timers r !! u = Some tm -> r_timers r' = <[u := tm']> (r_timers r) -> t_expire tm' = t_expire tm ->
  t_bucket tm' = t_bucket tm -> t_ptimer tm' = t_ptimer tm ->
  r_bucket r' = r_bucket r -> r_bucket_qhead r' = r_bucket_qhead r -> r_fired r' = r_fired r -> r_ticks r' = r_ticks r ->
  undisturbed n0 t b p sb nb r r'.
Proof.
  intros Hi' Hpl Hu Hu' He Htb Htp Hb Hq Hf Hk.
  destruct (alike_due n0 r r') as (_ & Hd & Ha); [by apply (assign_alike r r' u tm tm')|].
  split_and!; try done; [|lia|by rewrite Ha|by rewrite Hd, Hq].
  destruct Hpl as (tm0 & bk & Htm & Hbt & Hpt & Hbk & Hs & Hn). unfold placed. rewrite Hb, Hu'.
  destruct (decide (u = t)) as [->|Hne]; [rewrite lookup_insert_eq|rewrite lookup_insert_ne by done].
  - exists tm', bk. simplify_eq. split_and!; congruence.
  - by exists tm0, bk.
Qed.

Lemma periodic_undisturbed n0 t b p0 sb nb u r :
  inv clock r -> placed r t b p0 sb nb -> is_Some (r_timers r !! u) ->
  exists r', with_timer u (fun tm => tm {{ t_periodic := true ; t_reset := true }}) r = Some r' /\
    undisturbed n0 t b p0 sb nb r r'.
Proof.
  intros [Hw Ht] Hpl [tm Htm].
  destruct (with_timer_wf none u (fun tm => tm {{ t_periodic := true ; t_reset := true }}) tm r Hw Htm)
    as (r' & E & Hw' & Er); [by destruct tm|]. exists r'. split; [done|].
  assert (Hr : r_timers r' = <[u := tm {{ t_periodic := true ; t_reset := true }}]> (r_timers r) /\ r_bucket r' = r_bucket r /\
    r_bucket_qhead r' = r_bucket_qhead r /\ r_fired r' = r_fired r /\ r_ticks r' = r_ticks r) by (subst; by destruct r).
  destruct Hr as (R1 & R2 & R3 & R4 & R5).
  eapply (assign_undisturbed _ _ _ _ _ _ r r' u tm); try done; try (by destruct tm).
  split; [done|]. unfold now_ns. rewrite R5. eapply (timed_assign _ r r' u tm); try done; by destruct tm.
Qed.

(** What marking a timer changes: its flags and the change queue. *)
Definition marked (u : Z) (tm tm' : timer) (r r' : root) : Prop :=
  r_timers r' = <[u := tm']> (r_timers r) /\ t_expire tm' = t_expire tm /\ t_bucket tm' = t_bucket tm /\
  t_ptimer tm' = t_ptimer tm /\ t_cb tm' = t_cb tm /\ t_periodic tm' = t_periodic tm /\ t_reset tm' = t_reset tm /\
  r_bucket r' = r_bucket r /\ r_bucket_qhead r' = r_bucket_qhead r /\ r_fired r' = r_fired r /\ r_ticks r' = r_ticks r /\
  r_ptr r' = r_ptr r.

Lemma change_marked u tm b r : wf r -> r_timers r !! u = Some tm -> t_bucket tm = Some b ->
  exists r', timer_change u r = Some r' /\ wf r' /\ marked u tm (tm {{ t_on_change_list := true }}) r r'.
Proof.
  intros Hw Htm Hb. destruct (timer_change_wf u r Hw ltac:(by exists tm, b)) as (r' & E & Hw'). exists r'. split; [done|]. split; [done|].
  unfold timer_change in E. rewrite Htm in E. cbn [mbind option_bind] in E. destruct (t_on_change_list tm) eqn:Ec.
  - injection E as <-. assert (tm {{ t_on_change_list := true }} = tm) as -> by (destruct tm; cbn in *; by subst).
    unfold marked. rewrite insert_id by done. by split_and!.
  - rewrite Hb in E. cbn [mbind option_bind] in E. destruct (r_bucket r !! b); [|done]. injection E as <-.
    unfold marked. destruct r, tm. by split_and!.
Qed.

Lemma del_marked u tm b r : wf r -> r_timers r !! u = Some tm -> t_bucket tm = Some b ->
  exists r', timer_del u r = Some r' /\ wf r' /\
    marked u tm (tm {{ t_delete := true ; t_on_change_list := true }}) r r'.
Proof.
  intros Hw Htm Hb. unfold timer_del.
  destruct (with_timer_wf none u (fun tm => tm {{ t_delete := true }}) tm r Hw Htm) as (r1 & -> & Hw1 & Er); [by destruct tm|].
  cbn [mbind option_bind]. destruct (change_marked u (tm {{ t_delete := true }}) b r1 Hw1) as (r2 & E2 & Hw2 & Hm2).
  { subst r1. destruct r; cbn. apply lookup_insert_eq. }
  { by destruct tm. }
  exists r2. split; [done|]. split; [done|]. destruct Hm2 as (M1 & M2 & M3 & M4 & M5 & M6 & M7 & M8 & M9 & M10 & M11 & M12).
  unfold marked. rewrite M1, M8, M9, M10, M11, M12. subst r1. destruct r, tm; cbn. rewrite insert_insert_eq. by split_and!.
Qed.

Lemma marked_inv u tm tm' r r' : inv clock r -> wf r' -> r_timers r !! u = Some tm -> marked u tm tm' r r' -> inv clock r'.
Proof.
  intros [Hw Ht] Hw' Htm (M1 & M2 & M3 & M4 & M5 & M6 & M7 & M8 & M9 & M10 & M11 & M12). split; [done|].
  unfold now_ns. rewrite M11. apply (timed_assign _ r r' u tm tm'); try done. rewrite M6, M7. by apply (tn_periodic _ _ Ht u).
Qed.

Lemma marked_undisturbed n0 t b p sb nb u tm tm' r r' :
  inv clock r -> wf r' -> placed r t b p sb nb -> r_timers r !! u = Some tm -> marked u tm tm' r r' ->
  undisturbed n0 t b p sb nb r r'.
Proof.
  intros Hi Hw' Hpl Htm Hm. pose proof (marked_inv u tm tm' r r' Hi Hw' Htm Hm) as Hi'.
  destruct Hm as (M1 & M2 & M3 & M4 & M5 & M6 & M7 & M8 & M9 & M10 & M11 & M12).
  by apply (assign_undisturbed _ _ _ _ _ _ r r' u tm tm').
Qed.

Lemma del_undisturbed n0 t b p0 sb nb u r :
  inv clock r -> placed r t b p0 sb nb -> armed r u ->
  exists r', timer_del u r = Some r' /\ undisturbed n0 t b p0 sb nb r r'.
Proof.
  intros Hi Hpl (tm & bu & Htm & Hbu). destruct (del_marked u tm bu r (proj1 Hi) Htm Hbu) as (r' & E & Hw' & Hm).
  exists r'. split; [done|]. by eapply marked_undisturbed.
Qed.

Lemma exec_undisturbed n0 t b p0 sb nb c r :
  inv clock r -> n0 <= now_ns clock r -> placed r t b p0 sb nb -> polite p0 sb nb c ->
  exists r', exec clock c r = Some r' /\ undisturbed n0 t b p0 sb nb r r'.
Proof.
  intros Hi Hn Hpl Hc. destruct c as [p name sec nsec data cb|p name sec nsec data cb|p| |]; cbn [exec polite] in *; [| | |done..].
  - destruct Hc as (Hv & Hpos & Hself).
    destruct (add_undisturbed n0 t b p0 sb nb p name sec nsec data cb r Hi Hn Hpl Hv Hpos Hself) as (r' & u & ? & ? & _). eauto.
  - destruct Hc as (Hv & Hpos & Hself). unfold timer_add_periodic.
    destruct (add_undisturbed n0 t b p0 sb nb p name sec nsec data cb r Hi Hn Hpl Hv Hpos Hself) as (r1 & u & -> & Hu1 & Hpu).
    cbn [mbind option_bind]. rewrite Hpu. destruct (ptr_armed r1 p u (proj1 (proj1 Hu1)) Hpu) as (tm & bu & Htm & _).
    destruct (periodic_undisturbed n0 t b p0 sb nb u r1) as (r2 & E2 & Hu2); [apply Hu1|apply Hu1|eauto|].
    exists r2. split; [done|]. by eapply undisturbed_trans.
  - destruct (r_ptr r !! p) as [u|] eqn:Ep.
    + destruct (del_undisturbed n0 t b p0 sb nb u r Hi Hpl (ptr_armed _ _ _ (proj1 Hi) Ep)) as (r' & ? & ?). eauto.
    + exists r. split; [done|]. by split_and!.
Qed.

Lemma now_mono i j : (i <= j)%nat -> ns (clock i) <= ns (clock j).
Proof. induction 1 as [|j Hle IH]; [done|]. specialize (Hmono j). lia. Qed.

Lemma execs_undisturbed n0 t b p0 sb nb cs r :
  inv clock r -> n0 <= now_ns clock r -> placed r t b p0 sb nb -> Forall (polite p0 sb nb) cs ->
  exists r', execs clock cs r = Some r' /\ undisturbed n0 t b p0 sb nb r r'.
Proof.
  intros Hi Hn Hpl Hcs. revert r Hi Hn Hpl. induction Hcs as [|c cs Hc Hcs IH]; intros r Hi Hn Hpl; cbn [execs].
  - exists r. split; [done|]. by split_and!.
  - destruct (exec_undisturbed n0 t b p0 sb nb c r Hi Hn Hpl Hc) as (r1 & -> & Hu1). cbn [mbind option_bind].
    destruct Hu1 as (Hi1 & Hpl1 & Hf1 & Hk1 & Hrest).
    destruct (IH r1) as (r2 & E2 & Hu2); try done; [pose proof (now_mono _ _ Hk1); unfold now_ns in *; lia|].
    exists r2. split; [done|]. eapply undisturbed_trans; [|done]. unfold undisturbed; split_and!; try done; apply Hrest.
Qed.

(** ** The walk *)

Definition steady (n0 : Z) (t b p sb nb : Z) (r r' : root) : Prop :=
  inv clock r' /\ placed r' t b p sb nb /\ (r_ticks r <= r_ticks r')%nat /\
  due_after n0 r' b t `sublist_of` due_after n0 r b t /\
  due n0 r' (circleq_after b (r_bucket_qhead r')) `sublist_of` due n0 r (circleq_after b (r_bucket_qhead r)).

Lemma undisturbed_steady n0 t b p sb nb r r' : undisturbed n0 t b p sb nb r r' -> steady n0 t b p sb nb r r'.
Proof. intros (A1 & A2 & _ & A4 & A5 & A6). by split_and!. Qed.

Lemma steady_trans n0 t b p sb nb r1 r2 r3 :
  steady n0 t b p sb nb r1 r2 -> steady n0 t b p sb nb r2 r3 -> steady n0 t b p sb nb r1 r3.
Proof.
  intros (A1 & A2 & A4 & A5 & A6) (B1 & B2 & B4 & B5 & B6). unfold steady.
  split_and!; try done; [lia|by etransitivity|by etransitivity].
Qed.

(** Flags of the timer. *)
Lemma flag_undisturbed n0 t b p0 sb nb u f tm r :
  inv clock r -> placed r t b p0 sb nb -> r_timers r !! u = Some tm ->
  link_of (f tm) = link_of tm -> t_expire (f tm) = t_expire tm -> t_periodic (f tm) = t_periodic tm ->
  t_reset (f tm) = t_reset tm ->
  exists r', with_timer u f r = Some r' /\ undisturbed n0 t b p0 sb nb r r' /\ r_timers r' !! u = Some (f tm).
Proof.
  intros [Hw Ht] Hpl Htm Hl He Hp Hr. destruct (with_timer_wf none u f tm r Hw Htm Hl) as (r' & E & Hw' & Er).
  exists r'. split; [done|].
  assert (Hr' : r_timers r' = <[u := f tm]> (r_timers r) /\ r_bucket r' = r_bucket r /\
    r_bucket_qhead r' = r_bucket_qhead r /\ r_fired r' = r_fired r /\ r_ticks r' = r_ticks r) by (subst; by destruct r).
  destruct Hr' as (R1 & R2 & R3 & R4 & R5). unfold link_of in Hl. injection Hl as L1 L2 L3.
  split; [|by rewrite R1, lookup_insert_eq].
  apply (assign_undisturbed _ _ _ _ _ _ r r' u tm (f tm)); try done.
  split; [done|]. unfold now_ns. rewrite R5. apply (timed_assign _ r r' u tm (f tm)); try done.
  rewrite Hp, Hr. by apply (tn_periodic _ _ Ht u).
Qed.

Lemma member_placed r t b bk : wf r -> r_bucket r !! b = Some bk -> t ∈ b_qhead bk ->
  exists p, placed r t b p (b_sec bk) (b_nsec bk).
Proof.
  intros Hw Hb Hin. apply (wf_link Hw _ _ _ Hb) in Hin as (p & c & Hl). destruct (links_inv _ _ _ _ _ Hl) as (tm & Htm & Htb & Hp & _).
  destruct (wf_back Hw _ _ _ _ Hl) as [_ (q & -> & _)]. exists q. by exists tm, bk.
Qed.

Section Second.
Context (now : timespec) (Hnow : normal now).

(** ** The second pass *)

Lemma min_timers_ok ts r min :
  normalised r -> (forall t, t ∈ ts -> is_Some (r_timers r !! t)) -> StronglySorted Z.le (map (expire_ns r) ts) ->
  normal min ->
  exists m, min_timers now ts r min = Some m /\ normal m /\ (0 < ns min -> 0 < ns m <= ns min) /\
    forall t tm, t ∈ ts -> r_timers r !! t = Some tm -> t_delete tm = false -> 0 < ns m <= expire_ns r t.
Proof.
  intros Hnm. revert min. induction ts as [|t ts IH]; intros min Hts Hsort Hmin; cbn [min_timers].
  { exists min. split_and!; try done; (lia || set_solver). }
  destruct (Hts t) as [tm Htm]; [by constructor|]. rewrite Htm. cbn [mbind option_bind].
  cbn [map] in Hsort. apply StronglySorted_inv in Hsort as [Hsort Hle]. rewrite Forall_map in Hle.
  assert (Hts' : forall t0, t0 ∈ ts -> is_Some (r_timers r !! t0)) by (intros; apply Hts; by constructor).
  destruct (t_delete tm) eqn:Ed.
  { destruct (IH min Hts' Hsort Hmin) as (m & E & Hm & Hb & Ha). exists m. split_and!; try done; [apply Hb..|].
    intros t0 tm0 [->|H0]%elem_of_cons Ht0 Hd0; [congruence|by eapply Ha]. }
  set (min1 := if (tv_sec min =? 0) && (tv_nsec min =? 0) then t_expire tm else min).
  set (min2 := if timespec_compare (t_expire tm) min1 =? -1 then t_expire tm else min1).
  destruct (Hnm t tm Htm) as [Hn Hp]. assert (Ht : expire_ns r t = ns (t_expire tm)) by (unfold expire_ns; by rewrite Htm).
  assert (H1 : normal min1 /\ 0 < ns min1 /\ (0 < ns min -> min1 = min)).
  { subst min1. destruct Hmin as [? ?]. unfold ns, SEC in *. case_if; [split_and!; try done; lia|].
    assert (tv_sec min <> 0 \/ tv_nsec min <> 0) by (destruct (Z.eq_dec (tv_sec min) 0); [right|left]; naive_solver). split_and!; try done; lia. }
  assert (H2 : normal min2 /\ 0 < ns min2 <= expire_ns r t /\ ns min2 <= ns min1).
  { destruct H1 as (N1 & P1 & _). subst min2. rewrite timespec_compare_ns by done.
    destruct (Z.eqb_spec (Z.sgn (ns (t_expire tm) - ns min1)) (-1)); split_and!; try done; lia. }
  destruct H1 as (N1 & P1 & Hkeep), H2 as (N2 & P2 & Q2).
  assert (Hbound : 0 < ns min -> ns min2 <= ns min) by (intros H; rewrite <-(Hkeep H); lia).
  rewrite timespec_compare_ns by done. destruct (Z.eqb_spec (Z.sgn (ns (t_expire tm) - ns now)) 1) as [E|E].
  - exists min2. split_and!; try done; [intros H; specialize (Hbound H); lia|]. intros t0 tm0 [->|H0]%elem_of_cons _ _; [done|].
    rewrite Forall_forall in Hle. specialize (Hle t0 H0). lia.
  - destruct (IH min2 Hts' Hsort N2) as (m & Em & Hm & Hb & Ha). exists m. destruct (Hb (proj1 P2)) as [Hb1 Hb2].
    split_and!; try done; [intros H; specialize (Hbound H); lia|].
    intros t0 tm0 [->|H0]%elem_of_cons Ht0 Hd0; [lia|by eapply Ha].
Qed.

Lemma min_buckets_ok bs r min :
  wf r -> (exists n, timed n r) -> (forall b, b ∈ bs -> is_Some (r_bucket r !! b)) -> normal min ->
  exists m, min_buckets now bs r min = Some m /\ normal m /\ (0 < ns min -> 0 < ns m <= ns min) /\
    forall b bk t tm, b ∈ bs -> r_bucket r !! b = Some bk -> t ∈ b_qhead bk -> r_timers r !! t = Some tm ->
      t_delete tm = false -> 0 < ns m <= expire_ns r t.
Proof.
  intros Hw [n Ht]. revert min. induction bs as [|b bs IH]; intros min Hbs Hmin; cbn [min_buckets].
  { exists min. split_and!; try done; (lia || set_solver). }
  destruct (Hbs b) as [bk Hb]; [by constructor|]. rewrite Hb. cbn [mbind option_bind].
  destruct (min_timers_ok (b_qhead bk) r min (tn_normal _ _ Ht)) as (m1 & -> & N1 & K1 & A1); [|by eapply Ht|done|].
  { intros t Hin. destruct (member_placed r t b bk Hw Hb Hin) as (p & tm & _ & Htm & _). eauto. }
  cbn [mbind option_bind]. destruct (IH m1) as (m & -> & N2 & K2 & A2); [intros; apply Hbs; by constructor|done|].
  exists m. split_and!; try done.
  - intros H. destruct (K1 H), K2; lia.
  - intros b0 bk0 t tm [->|H0]%elem_of_cons Hb0 Hin Htm Hd; [|by eapply A2].
    assert (bk0 = bk) as -> by congruence. destruct (A1 t tm Hin Htm Hd), K2; lia.
Qed.
End Second.

Section Callbacks.
Context {W : Type} (callback : root -> Z -> W -> W * list call).

Definition polite_callbacks : Prop := forall r t w tm p b bk,
  r_timers r !! t = Some tm -> t_ptimer tm = Some p -> t_bucket tm = Some b -> r_bucket r !! b = Some bk ->
  Forall (polite p (b_sec bk) (b_nsec bk)) (callback r t w).2.

Context (Hpolite : polite_callbacks).

Lemma fire_steady now t tm b p sb nb r w :
  inv clock r -> ns now <= now_ns clock r -> placed r t b p sb nb -> r_timers r !! t = Some tm ->
  exists r' w', fire clock callback now t tm r w = Some (r', w') /\ steady (ns now) t b p sb nb r r' /\
    r_fired r' = r_fired r ++ (if t_cb tm is Some _ then [t] else []).
Proof.
  intros Hi Hn Hpl Htm. unfold fire.
  destruct (flag_undisturbed (ns now) t b p sb nb t (fun tm => tm {{ t_expired := true }}) tm r Hi Hpl Htm)
    as (r1 & -> & Hu1 & Htm1); [by destruct tm..|]. cbn [mbind option_bind].
  destruct (t_cb tm) as [c|] eqn:Ecb.
  2:{ exists r1, w. rewrite app_nil_r. split; [done|]. split; [by apply undisturbed_steady|apply Hu1]. }
  destruct (flag_undisturbed (ns now) t b p sb nb t (fun tm => tm {{ t_timestamp := Some now }}) (tm {{ t_expired := true }}) r1)
    as (r2 & -> & Hu2 & Htm2); [apply Hu1|apply Hu1|done|by destruct tm..|]. cbn [mbind option_bind].
  set (r3 := r2 {{ r_fired ::= (fun l => l ++ [t]) }}).
  assert (Hs : steady (ns now) t b p sb nb r2 r3).
  { subst r3. destruct Hu2 as ([Hw2 Ht2] & Hp2 & _). unfold steady. destruct r2. split_and!; try done.
    split; [done|]. by destruct Ht2. }
  assert (Hn3 : ns now <= now_ns clock r3).
  { destruct Hu1 as (_ & _ & _ & K1 & _), Hu2 as (_ & _ & _ & K2 & _), Hs as (_ & _ & K3 & _).
    pose proof (now_mono (r_ticks r) (r_ticks r3) ltac:(lia)). unfold now_ns in *. lia. }
  destruct (callback r3 t w) as [w' cs] eqn:Ec. destruct Hs as (Hi3 & Hp3 & Hs).
  pose proof Hp3 as (tm3 & bk3 & H1 & H2 & H3 & H4 & H5 & H6).
  destruct (execs_undisturbed (ns now) t b p sb nb cs r3 Hi3 Hn3) as (r4 & -> & Hu4); [done| |].
  { pose proof (Hpolite r3 t w tm3 p b bk3 H1 H3 H2 H4) as Hc. by rewrite Ec, H5, H6 in Hc. }
  exists r4, w'. split; [done|]. split.
  - eapply steady_trans; [by apply undisturbed_steady|]. eapply steady_trans; [by apply undisturbed_steady|].
    eapply steady_trans; [|by apply undisturbed_steady]. unfold steady. by split_and!.
  - destruct Hu1 as (_ & _ & F1 & _), Hu2 as (_ & _ & F2 & _), Hu4 as (_ & _ & F4 & _). rewrite F4.
    subst r3. rewrite <-F1, <-F2. by destruct r2.
Qed.

Lemma settle_steady n0 t b p sb nb r :
  inv clock r -> placed r t b p sb nb ->
  exists r', settle t r = Some r' /\ undisturbed n0 t b p sb nb r r'.
Proof.
  intros Hi Hpl. unfold settle. pose proof Hpl as (tm & bk & Htm & Hb & _). rewrite Htm. cbn [mbind option_bind].
  assert (Ha : armed r t) by by exists tm, b. destruct (t_periodic tm); [|destruct (t_expired tm)].
  - destruct (change_marked t tm b r (proj1 Hi) Htm Hb) as (r' & E & Hw' & Hm). exists r'. split; [done|]. by eapply marked_undisturbed.
  - by apply del_undisturbed.
  - exists r. by split_and!.
Qed.

Lemma next_timer_placed b t p sb nb r : placed r t b p sb nb ->
  next_timer b t r = Some (circleq_after t (bucket_timers r b)).
Proof.
  intros (tm & bk & Htm & Hb & _ & Hbk & _). unfold next_timer, bucket_timers. rewrite Htm. cbn [mbind option_bind].
  rewrite Hb. cbn [mbind option_bind]. by rewrite Z.eqb_refl, Hbk.
Qed.

(** Whether a timer has expired, and whether it is due. *)
Lemma expired_ns now t tm r : inv clock r -> normal now -> r_timers r !! t = Some tm ->
  (timespec_compare (t_expire tm) now =? 1) = negb (expire_ns r t <=? ns now).
Proof.
  intros [_ Ht] Hn Htm. rewrite (timespec_compare_ns _ _ (proj1 (tn_normal _ _ Ht _ _ Htm)) Hn). unfold expire_ns. rewrite Htm.
  destruct (Z.leb_spec (ns (t_expire tm)) (ns now)); cbn [negb]; [apply Z.eqb_neq|apply Z.eqb_eq]; lia.
Qed.

Lemma due_after_next n0 r b bk t t' l : wf r -> r_bucket r !! b = Some bk ->
  circleq_after t (b_qhead bk) = t' :: l ->
  due_after n0 r b t = (if expire_ns r t' <=? n0 then [t'] else []) ++ due_after n0 r b t'.
Proof.
  intros Hw Hb E. unfold due_after, bucket_timers. rewrite Hb, E.
  rewrite (circleq_after_next t t' (b_qhead bk) l) by (done || apply (wf_bucket Hw _ _ Hb)).
  unfold dueq. rewrite filter_cons. destruct (Z.leb_spec (expire_ns r t') n0); case_decide; done || lia.
Qed.

Section Fixed.
Context (now : timespec) (Hnow : normal now).

(** The first pass over a bucket ends, with the due timers of the later buckets. *)
Lemma walk_timers_ok b k : forall t r w bk,
  inv clock r -> ns now <= now_ns clock r -> r_bucket r !! b = Some bk -> t ∈ b_qhead bk ->
  (length (due_after (ns now) r b t) <= k)%nat ->
  exists r' w', (forall fuel, (k + 2 <= fuel)%nat -> walk_timers clock callback fuel now b t r w = Some (r', w')) /\
    inv clock r' /\ is_Some (r_bucket r' !! b) /\ (r_ticks r <= r_ticks r')%nat /\
    due (ns now) r' (circleq_after b (r_bucket_qhead r')) `sublist_of` due (ns now) r (circleq_after b (r_bucket_qhead r)) /\
    (ns now < expire_ns r t -> r' = r).
Proof.
  induction k as [k IH] using lt_wf_ind. intros t r w bk Hi Hn Hb Hin Hk.
  destruct (member_placed r t b bk (proj1 Hi) Hb Hin) as (p & Hpl). pose proof Hpl as (tm & _ & Htm & _).
  assert (Hstep : forall fuel, walk_timers clock callback (S fuel) now b t r w =
    if negb (expire_ns r t <=? ns now) then Some (r, w)
    else '(r, w) ← fire clock callback now t tm r w; r ← settle t r; ts ← next_timer b t r;
      match ts with [] => Some (r, w) | t' :: _ => walk_timers clock callback fuel now b t' r w end).
  { intros fuel. cbn [walk_timers]. rewrite Htm. cbn [mbind option_bind]. by rewrite (expired_ns now t tm r). }
  destruct (Z.leb_spec (expire_ns r t) (ns now)) as [Hle|Hlt].
  2:{ exists r, w. split_and!; eauto. intros [|fuel] Hf; [lia|]. by rewrite Hstep. }
  cbn [negb] in Hstep.
  destruct (fire_steady now t tm b p (b_sec bk) (b_nsec bk) r w Hi Hn Hpl Htm) as (r1 & w1 & E1 & Hs1 & _).
  destruct (settle_steady (ns now) t b p (b_sec bk) (b_nsec bk) r1) as (r2 & E2 & Hu2); [apply Hs1..|].
  pose proof (steady_trans _ _ _ _ _ _ _ _ _ Hs1 (undisturbed_steady _ _ _ _ _ _ _ _ Hu2)) as Hs.
  destruct Hs as (Hi2 & Hpl2 & Hk2 & Hd2 & Hb2). pose proof Hpl2 as (tm2 & bk2 & _ & _ & _ & Hbk2 & _).
  assert (Hstep2 : forall fuel, walk_timers clock callback (S fuel) now b t r w =
    match circleq_after t (b_qhead bk2) with
    | [] => Some (r2, w1) | t' :: _ => walk_timers clock callback fuel now b t' r2 w1 end).
  { intros fuel. rewrite Hstep, E1. cbn [mbind option_bind]. rewrite E2. cbn [mbind option_bind].
    rewrite (next_timer_placed b t p (b_sec bk) (b_nsec bk) r2 Hpl2). cbn [mbind option_bind].
    unfold bucket_timers. by rewrite Hbk2. }
  clear Hstep. destruct (circleq_after t (b_qhead bk2)) as [|t' l] eqn:Ea.
  { exists r2, w1. split_and!; eauto; [|lia]. intros [|fuel] Hf; [lia|]. by rewrite Hstep2. }
  apply sublist_length in Hd2. rewrite (due_after_next _ r2 b bk2 t t' l (proj1 Hi2) Hbk2 Ea) in Hd2.
  assert (Hin' : t' ∈ b_qhead bk2) by (apply (elem_of_after t); rewrite Ea; by constructor).
  assert (Hn2 : ns now <= now_ns clock r2) by (pose proof (now_mono _ _ Hk2); unfold now_ns in *; lia).
  destruct (Z.leb_spec (expire_ns r2 t') (ns now)) as [Hle'|Hlt'].
  - rewrite length_app in Hd2. cbn [length] in Hd2. destruct k as [|k]; [lia|].
    destruct (IH k ltac:(lia) t' r2 w1 bk2 Hi2 Hn2 Hbk2 Hin') as (r3 & w3 & E3 & Hi3 & Hb3 & Hk3 & Hs3 & _); [lia|].
    exists r3, w3. split_and!; try done; [|lia|by etransitivity|lia].
    intros [|fuel] Hf; [lia|]. rewrite Hstep2. apply E3. lia.
  - exists r2, w1. split_and!; eauto; [|lia]. intros [|[|fuel]] Hf; [lia..|]. rewrite Hstep2. cbn [walk_timers].
    destruct (member_placed r2 t' b bk2 (proj1 Hi2) Hbk2 Hin') as (p' & tm' & _ & Htm' & _). rewrite Htm'. cbn [mbind option_bind].
    rewrite (expired_ns now t' tm' r2) by done. by rewrite (proj2 (Z.leb_gt _ _)) by lia.
Qed.

Lemma after_nodup_notin x q : NoDup q -> x ∉ circleq_after x q.
Proof.
  induction 1 as [|y q Hy Hq IH]; cbn; [set_solver|]. by destruct (Z.eqb_spec y x) as [->|].
Qed.

(** The first pass over the buckets ends. *)
Lemma walk_buckets_ok m k : forall b r w,
  inv clock r -> ns now <= now_ns clock r -> is_Some (r_bucket r !! b) ->
  (length (due (ns now) r (b :: circleq_after b (r_bucket_qhead r))) <= m)%nat ->
  (length (circleq_after b (r_bucket_qhead r)) <= k)%nat ->
  exists N r' w', (forall fuel, (N <= fuel)%nat -> walk_buckets clock callback fuel now b r w = Some (r', w')) /\
    inv clock r' /\ (r_ticks r <= r_ticks r')%nat.
Proof.
  revert k. induction m as [m IHm] using lt_wf_ind. intros k. induction k as [k IHk] using lt_wf_ind.
  intros b r w Hi Hn [bk Hb] Hm Hk. destruct (wf_bucket (proj1 Hi) _ _ Hb) as (Hne & Hnd & _).
  destruct (b_qhead bk) as [|t q] eqn:Eq; [done|].
  assert (Hin : t ∈ b_qhead bk) by (rewrite Eq; by constructor).
  assert (Hdb : due (ns now) r (b :: circleq_after b (r_bucket_qhead r)) =
    (if expire_ns r t <=? ns now then [t] else []) ++ due_after (ns now) r b t).
  { unfold due_after, due. cbn [map concat]. unfold dueb, bucket_timers. rewrite Hb, Eq. cbn [circleq_after].
    rewrite Z.eqb_refl. rewrite app_assoc. f_equal. unfold dueq. rewrite filter_cons.
    destruct (Z.leb_spec (expire_ns r t) (ns now)); case_decide; done || lia. }
  rewrite Hdb, length_app in Hm.
  destruct (walk_timers_ok b m t r w bk Hi Hn Hb Hin ltac:(lia)) as (r1 & w1 & E1 & Hi1 & [bk1 Hb1] & Hk1 & Hs1 & Hsame).
  assert (Hn1 : ns now <= now_ns clock r1) by (pose proof (now_mono _ _ Hk1); unfold now_ns in *; lia).
  assert (Hstep : forall fuel, (m + 2 <= fuel)%nat -> walk_buckets clock callback (S fuel) now b r w =
    match circleq_after b (r_bucket_qhead r1) with
    | [] => Some (r1, w1) | b' :: _ => walk_buckets clock callback fuel now b' r1 w1 end).
  { intros fuel Hf. cbn [walk_buckets]. rewrite Hb. cbn [mbind option_bind]. rewrite Eq, E1 by done.
    cbn [mbind option_bind]. by rewrite Hb1. }
  destruct (circleq_after b (r_bucket_qhead r1)) as [|b' l] eqn:Ea.
  { exists (m + 3)%nat, r1, w1. split_and!; try done. intros [|fuel] Hf; [lia|]. apply Hstep. lia. }
  assert (Hb' : is_Some (r_bucket r1 !! b')).
  { apply (wf_dom (proj1 Hi1)), (elem_of_after b). rewrite Ea. by constructor. }
  pose proof (circleq_after_next b b' _ l (wf_bq _ _ _ _ _ _ _ _ _ _ (proj1 Hi1)) Ea) as Ea'.
  apply sublist_length in Hs1. rewrite <-Ea' in Hs1, Ea.
  assert (exists N r' w', (forall fuel, (N <= fuel)%nat -> walk_buckets clock callback fuel now b' r1 w1 = Some (r', w')) /\
    inv clock r' /\ (r_ticks r1 <= r_ticks r')%nat) as (N & r' & w' & E & Hi' & Hk').
  { destruct (Z.leb_spec (expire_ns r t) (ns now)) as [Hle|Hlt].
    - cbn [length] in Hm. destruct m as [|m]; [lia|].
      assert (length (due (ns now) r (circleq_after b (r_bucket_qhead r))) <= length (due_after (ns now) r b t))%nat
        by (unfold due_after; rewrite length_app; lia).
      apply (IHm m ltac:(lia) (length (circleq_after b' (r_bucket_qhead r1))) b' r1 w1 Hi1 Hn1 Hb'); [lia|done].
    - rewrite (Hsame Hlt) in *. rewrite Ea in Hk. cbn [length] in Hk, Hm. rewrite Ea' in Hk.
      destruct k as [|k]; [lia|]. apply (IHk k ltac:(lia) b' r w1 Hi Hn Hb'); [|rewrite Ea'; lia].
      rewrite <-Ea. unfold due_after in Hm. rewrite length_app in Hm. lia. }
  exists (S (Nat.max N (m + 2))), r', w'. split_and!; [|done|lia].
  intros [|fuel] Hf; [lia|]. rewrite Hstep by lia. apply E. lia.
Qed.

End Fixed.

Lemma no_buckets_no_changes r : wf r -> r_bucket_qhead r = [] -> r_change_qhead r = [].
Proof.
  intros Hw E. destruct (r_change_qhead r) as [|t q] eqn:Eq; [done|]. exfalso.
  assert (Hin : t ∈ r_change_qhead r) by (rewrite Eq; by constructor).
  apply (wf_change_link Hw) in Hin as ([b|] & p & Hl).
  - apply (wf_back Hw) in Hl as [H _]. apply (wf_dom Hw) in H. rewrite E in H. set_solver.
  - by apply (wf_free Hw) in Hl as [[]|[_ [=]]].
Qed.

(** The time to sleep ends before any timer expires. *)
Definition wakes_in_time (r : root) (sleep : option timespec) : Prop :=
  forall s t tm, sleep = Some s -> r_timers r !! t = Some tm -> t_bucket tm <> None -> t_delete tm = false ->
    ns (clock (r_ticks r - 1)) + ns s <= expire_ns r t.

Lemma timer_walk_ok r w : inv clock r ->
  exists N r' w' sleep, (forall fuel, (N <= fuel)%nat -> timer_walk clock callback fuel r w = Some (r', w', sleep)) /\
    inv clock r' /\ r_change_qhead r' = [] /\ wakes_in_time r' sleep.
Proof.
  intros Hi. unfold timer_walk. destruct (r_bucket_qhead r) as [|b bq] eqn:Eq.
  { exists O, r, w, None. split_and!; try done. by apply no_buckets_no_changes; [apply Hi|]. }
  unfold clock_gettime. set (now := clock (r_ticks r)). destruct (Hnormal (r_ticks r)) as [Hnow Hpos]. fold now in Hnow, Hpos.
  set (r0 := r {{ r_ticks ::= S }}). assert (Hi0 : inv clock r0) by by apply inv_tick.
  assert (Hb0 : is_Some (r_bucket r0 !! b)).
  { subst r0. assert (is_Some (r_bucket r !! b)); [|by destruct r]. apply (wf_dom (proj1 Hi)). rewrite Eq. by constructor. }
  assert (Hn0 : ns now <= now_ns clock r0) by (subst now r0; destruct r; apply Hmono).
  destruct (walk_buckets_ok now Hnow _ _ b r0 w Hi0 Hn0 Hb0 (Nat.le_refl _) (Nat.le_refl _))
    as (N & r1 & w1 & E1 & Hi1 & _).
  destruct (timer_process_changes_inv clock Hnormal Hmono r1 Hi1) as (r2 & E2 & Hi2 & Hq2 & _).
  destruct (min_buckets_ok now Hnow (r_bucket_qhead r2) r2 (mk_ts 0 0)) as (m & E3 & Nm & _ & Hm).
  { apply Hi2. }
  { destruct Hi2 as [_ H]. eauto. }
  { intros b0 H0. by apply (wf_dom (proj1 Hi2)). }
  { unfold normal, SEC. cbn. lia. }
  set (now2 := clock (r_ticks r2)). set (r3 := r2 {{ r_ticks ::= S }}).
  exists N, r3, w1, (if timespec_compare now2 m =? -1 then Some (timespec_sub m now2) else None). split_and!.
  - intros fuel Hf. rewrite E1 by done. cbn [mbind option_bind]. rewrite E2. cbn [mbind option_bind]. rewrite E3. done.
  - by apply inv_tick.
  - by destruct r2.
  - intros s t tm Hs Htm Hbt Hd. destruct (Hnormal (r_ticks r2)) as [Hn2 _]. fold now2 in Hn2.
    destruct (timespec_compare now2 m =? -1) eqn:Ec; [|done]. injection Hs as <-. bool_to_prop.
    rewrite timespec_compare_ns in Ec by done. destruct (timespec_sub_ns m now2 Nm Hn2) as [_ ->].
    assert (Htm2 : r_timers r2 !! t = Some tm) by (subst r3; by destruct r2).
    destruct (t_bucket tm) as [bt|] eqn:Ebt; [|done].
    destruct (armed_bucket r2 t (proj1 Hi2) ltac:(by exists tm, bt)) as (tm' & b' & bk & q & H1 & H2 & H3 & _ & H5).
    assert (tm' = tm) as -> by congruence. assert (Hin : b' ∈ r_bucket_qhead r2) by (apply (wf_dom (proj1 Hi2)); eauto).
    destruct (Hm b' bk t tm Hin H3 H5 Htm2 Hd) as [_ Hle].
    assert (expire_ns r3 t = expire_ns r2 t) as -> by (subst r3; by destruct r2).
    assert (r_ticks r3 - 1 = r_ticks r2)%nat as -> by (subst r3; destruct r2; cbn; lia). fold now2. lia.
Qed.
End Callbacks.

(** * What a walk fires *)

(** Calls that leave the due timers alone: they do not smear, and re-add none of them. *)
Definition harmless (n0 : Z) (r : root) (c : call) : Prop :=
  match c with
  | CallAdd p _ sec nsec _ _ | CallAddPeriodic p _ sec nsec _ _ =>
      valid sec nsec /\ 0 < interval sec nsec /\ forall u, r_ptr r !! p = Some u -> n0 < expire_ns r u
  | CallDel _ => True
  | CallSmear _ _ | CallSmearAll => False
  end.

Definition has_cb (r : root) (t : Z) : bool :=
  match r_timers r !! t with Some tm => bool_decide (is_Some (t_cb tm)) | None => false end.

(** The due timers are where they were, with their callbacks, and no other has
    become due. *)
Definition retains (n0 : Z) (r r' : root) : Prop :=
  inv clock r' /\ (r_ticks r <= r_ticks r')%nat /\
  (forall b bk t, r_bucket r !! b = Some bk -> t ∈ b_qhead bk -> expire_ns r t <= n0 ->
     exists bk', r_bucket r' !! b = Some bk' /\ t ∈ b_qhead bk' /\
       dueq n0 r' (circleq_after t (b_qhead bk')) = dueq n0 r (circleq_after t (b_qhead bk)) /\
       due n0 r' (circleq_after b (r_bucket_qhead r')) = due n0 r (circleq_after b (r_bucket_qhead r)) /\
       expire_ns r' t = expire_ns r t /\ has_cb r' t = has_cb r t) /\
  (forall p u, r_ptr r' !! p = Some u ->
     n0 < expire_ns r' u \/ (r_ptr r !! p = Some u /\ expire_ns r' u = expire_ns r u)).

Definition keeps (n0 : Z) (r r' : root) : Prop := retains n0 r r' /\ r_fired r' = r_fired r.

Lemma retains_trans n0 r1 r2 r3 : retains n0 r1 r2 -> retains n0 r2 r3 -> retains n0 r1 r3.
Proof.
  intros (A1 & A3 & A4 & A5) (B1 & B3 & B4 & B5). unfold retains. split_and!; try done; [lia|..].
  - intros b bk t Hb Hin He. destruct (A4 b bk t Hb Hin He) as (bk2 & Hb2 & Hin2 & D2 & E2 & X2 & C2).
    destruct (B4 b bk2 t Hb2 Hin2 ltac:(lia)) as (bk3 & Hb3 & Hin3 & D3 & E3 & X3 & C3).
    exists bk3. split_and!; congruence.
  - intros p u Hp. destruct (B5 p u Hp) as [?|[Hp2 He2]]; [by left|]. destruct (A5 p u Hp2) as [?|[? ?]]; [left; lia|].
    right. split; [done|lia].
Qed.

Lemma keeps_trans n0 r1 r2 r3 : keeps n0 r1 r2 -> keeps n0 r2 r3 -> keeps n0 r1 r3.
Proof. intros [A A'] [B B']. split; [by eapply retains_trans|congruence]. Qed.

Lemma alike_retains n0 r r' :
  alike r r' -> inv clock r' -> r_ticks r' = r_ticks r -> r_ptr r' = r_ptr r ->
  (forall t, has_cb r' t = has_cb r t) -> retains n0 r r'.
Proof.
  intros Ha Hi Hk Hp Hc. destruct (alike_due n0 r r' Ha) as (D1 & D2 & _). destruct Ha as (Hb & Hq & He).
  unfold retains. split_and!; try done; [lia|..].
  - intros b bk t Hbk Hin Hle. exists bk. rewrite Hb, Hq. split_and!; auto.
  - intros p u Hpu. right. rewrite <-Hp. auto.
Qed.

Lemma alike_keeps n0 r r' :
  alike r r' -> inv clock r' -> r_fired r' = r_fired r -> r_ticks r' = r_ticks r -> r_ptr r' = r_ptr r ->
  (forall t, has_cb r' t = has_cb r t) -> keeps n0 r r'.
Proof. intros. split; [by apply alike_retains|done]. Qed.

Lemma due_armed r b bk t : wf r -> r_bucket r !! b = Some bk -> t ∈ b_qhead bk -> armed r t.
Proof. intros Hw Hb Hin. destruct (member_placed r t b bk Hw Hb Hin) as (p & tm & ? & ? & ? & _). by exists tm, b. Qed.

(** A timer that is not due is not among the due ones. *)
Lemma not_due n0 r u bs : wf r -> (armed r u -> n0 < expire_ns r u) ->
  (forall b bk, r_bucket r !! b = Some bk -> u ∉ dueq n0 r (b_qhead bk)) /\ u ∉ due n0 r bs.
Proof.
  intros Hw Hu. assert (H : forall b bk, r_bucket r !! b = Some bk -> u ∉ dueq n0 r (b_qhead bk)).
  { intros b bk Hb. unfold dueq. rewrite list_elem_of_filter. intros [He Hin]. specialize (Hu (due_armed r b bk u Hw Hb Hin)). lia. }
  split; [done|]. unfold due. induction bs as [|b bs IH]; [set_solver|]. cbn. rewrite elem_of_app. intros [Hin|Hin]; [|done].
  unfold dueb, bucket_timers in Hin. destruct (r_bucket r !! b) eqn:E; [by eapply H|]. cbn in Hin. set_solver.
Qed.

Lemma dueq_after_sub n0 r t u q : u ∉ dueq n0 r q -> u ∉ dueq n0 r (circleq_after t q).
Proof. unfold dueq. rewrite !list_elem_of_filter. intros H [? ?%elem_of_after]. naive_solver. Qed.

Lemma add_keeps n0 p name sec nsec data cb r :
  inv clock r -> n0 <= now_ns clock r -> valid sec nsec -> 0 < interval sec nsec ->
  (forall u, r_ptr r !! p = Some u -> n0 < expire_ns r u) ->
  exists r' u, timer_add clock p name sec nsec data cb r = Some r' /\ keeps n0 r r' /\ r_ptr r' !! p = Some u.
Proof.
  intros Hi Hn Hv Hpos Hund.
  destruct (add_moved n0 p name sec nsec data cb r Hi Hn Hv Hpos)
    as (r' & u & tm' & E & Hi' & Hm & Ht' & He & Hk & Hf & Hpt & Hpu & Hold).
  exists r', u. split; [done|]. split; [|rewrite Hpu; apply lookup_insert_eq]. pose proof (proj1 Hi) as Hw. pose proof (proj1 Hi') as Hw'.
  assert (Hu : armed r u -> n0 < expire_ns r u).
  { intros (tm & b & Htm & Hb). apply Hund. by apply (Hold tm Htm); rewrite Hb. }
  assert (Hother : forall t, t <> u -> expire_ns r' t = expire_ns r t /\ has_cb r' t = has_cb r t).
  { intros t Hne. unfold expire_ns, has_cb. by rewrite Ht', lookup_insert_ne by done. }
  split; [|done]. unfold retains. split_and!; try done; [lia|..].
  - intros b bk t Hb Hin Hle. assert (Hne : t <> u) by (intros ->; specialize (Hu (due_armed r b bk u Hw Hb Hin)); lia).
    destruct (member_placed r t b bk Hw Hb Hin) as (pt & tm & _ & Htm & Htb & _).
    assert (Htm' : r_timers r' !! t = Some tm) by by rewrite Ht', lookup_insert_ne by done.
    destruct (armed_bucket r' t Hw' ltac:(by exists tm, b)) as (tm0 & b0 & bk' & q & ? & ? & Hb' & _ & Hin'). simplify_eq.
    exists bk'. split; [done|]. split; [done|]. destruct (not_due n0 r u (circleq_after b (r_bucket_qhead r)) Hw Hu) as [Hn1 Hn2].
    assert (Hbq : b ∈ r_bucket_qhead r) by (apply (wf_dom Hw); eauto).
    assert (Hbq' : b ∈ r_bucket_qhead r') by (apply (wf_dom Hw'); eauto).
    split; [|split; [|by apply Hother]].
    + pose proof (due_after_moved n0 u sec nsec tm' r r' Hw Hw' Hm Ht' He b bk bk' t ltac:(done) Hb Hb' Hin) as Hd.
      unfold due_after in Hd. rewrite remove_app, (due_moved n0 u sec nsec tm' r r') in Hd by done. apply app_inv_tail in Hd.
      unfold bucket_timers in Hd. rewrite Hb, Hb' in Hd. rewrite Hd. apply remove_notin, dueq_after_sub. by eapply Hn1.
    + rewrite (due_moved n0 u sec nsec tm' r r') by done. by apply remove_notin.
  - intros p' u' Hp'. destruct (decide (u' = u)) as [->|Hne]; [left; by rewrite (expire_ns_this r r' u tm')|].
    right. rewrite Hpu in Hp'. split; [|by apply Hother]. destruct (decide (p' = p)) as [->|Hnp].
    + rewrite lookup_insert_eq in Hp'. congruence.
    + by rewrite lookup_insert_ne in Hp' by done.
Qed.

Lemma marked_keeps n0 u tm tm' r r' :
  inv clock r -> wf r' -> r_timers r !! u = Some tm -> marked u tm tm' r r' -> keeps n0 r r'.
Proof.
  intros Hi Hw' Htm Hm. pose proof (marked_inv u tm tm' r r' Hi Hw' Htm Hm) as Hi'.
  destruct Hm as (M1 & M2 & M3 & M4 & M5 & M6 & M7 & M8 & M9 & M10 & M11 & M12).
  apply alike_keeps; try done; [by apply (assign_alike r r' u tm tm')|].
  intros t. unfold has_cb. rewrite M1. destruct (decide (t = u)) as [->|Hne];
    [by rewrite lookup_insert_eq, Htm, M5|by rewrite lookup_insert_ne by done].
Qed.

Lemma flag_keeps n0 u f tm r :
  inv clock r -> r_timers r !! u = Some tm ->
  link_of (f tm) = link_of tm -> t_expire (f tm) = t_expire tm -> (t_periodic (f tm) = true -> t_reset (f tm) = true) ->
  t_cb (f tm) = t_cb tm ->
  exists r', with_timer u f r = Some r' /\ keeps n0 r r' /\ r_timers r' !! u = Some (f tm).
Proof.
  intros [Hw Ht] Htm Hl He Hp Hc. destruct (with_timer_wf none u f tm r Hw Htm Hl) as (r' & E & Hw' & Er).
  exists r'. split; [done|].
  assert (Hr' : r_timers r' = <[u := f tm]> (r_timers r) /\ r_bucket r' = r_bucket r /\ r_ptr r' = r_ptr r /\
    r_bucket_qhead r' = r_bucket_qhead r /\ r_fired r' = r_fired r /\ r_ticks r' = r_ticks r) by (subst; by destruct r).
  destruct Hr' as (R1 & R2 & R3 & R4 & R5 & R6). split; [|by rewrite R1, lookup_insert_eq].
  apply alike_keeps; try done.
  - by apply (assign_alike r r' u tm (f tm)).
  - split; [done|]. unfold now_ns. rewrite R6. by apply (timed_assign _ r r' u tm (f tm)).
  - intros t. unfold has_cb. rewrite R1. destruct (decide (t = u)) as [->|Hne];
      [by rewrite lookup_insert_eq, Htm, Hc|by rewrite lookup_insert_ne by done].
Qed.

Lemma exec_keeps n0 c r :
  inv clock r -> n0 <= now_ns clock r -> harmless n0 r c -> exists r', exec clock c r = Some r' /\ keeps n0 r r'.
Proof.
  intros Hi Hn Hc. destruct c as [p name sec nsec data cb|p name sec nsec data cb|p| |]; cbn [exec harmless] in *; [| | |done..].
  - destruct Hc as (Hv & Hpos & Hu). destruct (add_keeps n0 p name sec nsec data cb r Hi Hn Hv Hpos Hu) as (r' & u & ? & ? & _). eauto.
  - destruct Hc as (Hv & Hpos & Hu). unfold timer_add_periodic.
    destruct (add_keeps n0 p name sec nsec data cb r Hi Hn Hv Hpos Hu) as (r1 & u & -> & Hk1 & Hpu).
    cbn [mbind option_bind]. rewrite Hpu. destruct (ptr_armed r1 p u (proj1 (proj1 (proj1 Hk1))) Hpu) as (tm & bu & Htm & _).
    destruct (flag_keeps n0 u (fun tm => tm {{ t_periodic := true ; t_reset := true }}) tm r1 (proj1 (proj1 Hk1)) Htm)
      as (r2 & E2 & Hk2 & _); [by destruct tm..|]. exists r2. split; [done|]. by eapply keeps_trans.
  - destruct (r_ptr r !! p) as [u|] eqn:Ep.
    + destruct (ptr_armed r p u (proj1 Hi) Ep) as (tm & b & Htm & Hb). destruct (del_marked u tm b r (proj1 Hi) Htm Hb) as (r' & E & Hw' & Hm).
      exists r'. split; [done|]. by eapply marked_keeps.
    + exists r. split; [done|]. by apply alike_keeps.
Qed.

Lemma harmless_keeps n0 r r' c : keeps n0 r r' -> harmless n0 r c -> harmless n0 r' c.
Proof.
  intros [(_ & _ & _ & Hp) _] Hc. destruct c; try done; cbn in *; destruct Hc as (Hv & Hpos & Hu); split_and!; try done;
    intros u H; destruct (Hp _ u H) as [?|[H' ->]]; auto.
Qed.

Lemma execs_keeps n0 cs r :
  inv clock r -> n0 <= now_ns clock r -> Forall (harmless n0 r) cs -> exists r', execs clock cs r = Some r' /\ keeps n0 r r'.
Proof.
  revert r. induction cs as [|c cs IH]; intros r Hi Hn Hcs; cbn [execs].
  { exists r. split; [done|]. by apply alike_keeps. }
  apply Forall_cons_iff in Hcs as [Hc Hcs]. destruct (exec_keeps n0 c r Hi Hn Hc) as (r1 & -> & Hk1). cbn [mbind option_bind].
  destruct (IH r1) as (r2 & E2 & Hk2).
  - apply Hk1.
  - destruct Hk1 as [(_ & K & _) _]. pose proof (now_mono _ _ K). unfold now_ns in *. lia.
  - eapply Forall_impl; [exact Hcs|]. intros c0 H0. by eapply harmless_keeps.
  - exists r2. split; [done|]. by eapply keeps_trans.
Qed.

Section Firing.
Context {W : Type} (callback : root -> Z -> W -> W * list call).
Context (now : timespec) (Hnow : normal now).
Context (Hharmless : forall r t w, Forall (harmless (ns now) r) (callback r t w).2).

Lemma fire_keeps t tm r w :
  inv clock r -> ns now <= now_ns clock r -> r_timers r !! t = Some tm ->
  exists r' w', fire clock callback now t tm r w = Some (r', w') /\ retains (ns now) r r' /\
    r_fired r' = r_fired r ++ (if has_cb r t then [t] else []).
Proof.
  intros Hi Hn Htm. unfold fire. pose proof (tn_periodic _ _ (proj2 Hi) t tm Htm) as Hpr.
  destruct (flag_keeps (ns now) t (fun tm => tm {{ t_expired := true }}) tm r Hi Htm) as (r1 & -> & [K1 F1] & Htm1);
    [by destruct tm..|]. cbn [mbind option_bind]. unfold has_cb. rewrite Htm.
  destruct (t_cb tm) as [c|] eqn:Ecb.
  2:{ exists r1, w. rewrite bool_decide_false by (by intros [? [=]]). by rewrite app_nil_r. }
  rewrite bool_decide_true by eauto.
  destruct (flag_keeps (ns now) t (fun tm => tm {{ t_timestamp := Some now }}) (tm {{ t_expired := true }}) r1)
    as (r2 & -> & [K2 F2] & Htm2); [apply K1|done|by destruct tm..|]. cbn [mbind option_bind].
  set (r3 := r2 {{ r_fired ::= (fun l => l ++ [t]) }}).
  assert (K3 : retains (ns now) r2 r3).
  { subst r3. destruct K2 as [[Hw2 Ht2] _]. destruct r2. apply alike_retains; try done. split; [done|]. by destruct Ht2. }
  assert (Hn3 : ns now <= now_ns clock r3).
  { destruct K1 as (_ & K1 & _), K2 as (_ & K2 & _), K3 as (_ & K3 & _).
    pose proof (now_mono (r_ticks r) (r_ticks r3) ltac:(lia)). unfold now_ns in *. lia. }
  destruct (callback r3 t w) as [w' cs] eqn:Ec. pose proof (Hharmless r3 t w) as Hcs. rewrite Ec in Hcs.
  destruct (execs_keeps (ns now) cs r3 (proj1 K3) Hn3 Hcs) as (r4 & -> & [K4 F4]).
  exists r4, w'. split; [done|]. split.
  - eapply retains_trans; [exact K1|]. eapply retains_trans; [exact K2|]. eapply retains_trans; [exact K3|exact K4].
  - rewrite F4. subst r3. rewrite <-F1, <-F2. by destruct r2.
Qed.

Lemma settle_keeps t r : inv clock r -> armed r t -> exists r', settle t r = Some r' /\ keeps (ns now) r r'.
Proof.
  intros Hi (tm & b & Htm & Hb). unfold settle. rewrite Htm. cbn [mbind option_bind].
  destruct (t_periodic tm); [|destruct (t_expired tm)].
  - destruct (change_marked t tm b r (proj1 Hi) Htm Hb) as (r' & E & Hw' & Hm). exists r'. split; [done|]. by eapply marked_keeps.
  - destruct (del_marked t tm b r (proj1 Hi) Htm Hb) as (r' & E & Hw' & Hm). exists r'. split; [done|]. by eapply marked_keeps.
  - exists r. split; [done|]. by apply alike_keeps.
Qed.

(** The callbacks of the due timers among these. *)
Definition calls (r : root) (ts : list Z) : list Z := filter (fun t => has_cb r t) ts.

Lemma calls_app r l1 l2 : calls r (l1 ++ l2) = calls r l1 ++ calls r l2.
Proof. apply filter_app. Qed.

Lemma calls_ext r r' ts : (forall t, t ∈ ts -> has_cb r' t = has_cb r t) -> calls r' ts = calls r ts.
Proof.
  intros H. unfold calls. induction ts as [|t ts IH]; [done|]. rewrite !filter_cons, (H t) by constructor. rewrite IH; [done|].
  intros. apply H. by constructor.
Qed.

(** Every timer of the due lists is in a bucket and due. *)
Lemma in_dueq n0 r b bk t : r_bucket r !! b = Some bk -> t ∈ dueq n0 r (b_qhead bk) -> t ∈ b_qhead bk /\ expire_ns r t <= n0.
Proof. unfold dueq. rewrite list_elem_of_filter. naive_solver. Qed.

Lemma in_due n0 r bs t : t ∈ due n0 r bs -> exists b bk, r_bucket r !! b = Some bk /\ t ∈ b_qhead bk /\ expire_ns r t <= n0.
Proof.
  unfold due. induction bs as [|b bs IH]; cbn; [set_solver|]. rewrite elem_of_app. intros [H|H]; [|by apply IH].
  unfold dueb, bucket_timers in H. destruct (r_bucket r !! b) as [bk|] eqn:E; [|cbn in H; set_solver].
  exists b, bk. split; [done|]. by eapply in_dueq.
Qed.

Lemma retains_calls n0 r r' ts : retains n0 r r' ->
  (forall t, t ∈ ts -> exists b bk, r_bucket r !! b = Some bk /\ t ∈ b_qhead bk /\ expire_ns r t <= n0) ->
  calls r' ts = calls r ts.
Proof.
  intros (_ & _ & K & _) H. apply calls_ext. intros t Ht. destruct (H t Ht) as (b & bk & Hb & Hin & He).
  by destruct (K b bk t Hb Hin He) as (? & _ & _ & _ & _ & _ & ->).
Qed.

Lemma none_due n0 r q : (forall t, t ∈ q -> n0 < expire_ns r t) -> dueq n0 r q = [].
Proof.
  intros H. unfold dueq. induction q as [|t q IH]; [done|]. rewrite filter_cons_False.
  - apply IH. intros. apply H. by constructor.
  - specialize (H t ltac:(by constructor)). lia.
Qed.

(** In a sorted bucket nothing is due after a timer that is not. *)
Lemma sorted_due n0 r q t : StronglySorted Z.le (map (expire_ns r) q) -> t ∈ q -> n0 < expire_ns r t ->
  dueq n0 r (circleq_after t q) = [].
Proof.
  induction q as [|x q IH]; intros Hs Hin Ht; [set_solver|]. cbn [map] in Hs. apply StronglySorted_inv in Hs as [Hs Hx].
  cbn [circleq_after]. destruct (Z.eqb_spec x t) as [->|Hne]; [|apply IH; set_solver].
  rewrite Forall_map, Forall_forall in Hx. apply none_due. intros y Hy. specialize (Hx y Hy). lia.
Qed.

(** The first pass over a bucket calls what is due in it, from [t] on. *)
Lemma walk_timers_fires b k : forall t r w bk,
  inv clock r -> ns now <= now_ns clock r -> r_bucket r !! b = Some bk -> t ∈ b_qhead bk ->
  (length (dueq (ns now) r (circleq_after t (b_qhead bk))) <= k)%nat ->
  exists r' w', (forall fuel, (k + 2 <= fuel)%nat -> walk_timers clock callback fuel now b t r w = Some (r', w')) /\
    inv clock r' /\ (r_ticks r <= r_ticks r')%nat /\ is_Some (r_bucket r' !! b) /\
    r_fired r' = r_fired r ++ calls r (dueq (ns now) r (t :: circleq_after t (b_qhead bk))) /\
    due (ns now) r' (circleq_after b (r_bucket_qhead r')) = due (ns now) r (circleq_after b (r_bucket_qhead r)) /\
    calls r' (due (ns now) r (circleq_after b (r_bucket_qhead r))) = calls r (due (ns now) r (circleq_after b (r_bucket_qhead r))) /\
    (ns now < expire_ns r t -> r' = r).
Proof.
  induction k as [k IH] using lt_wf_ind. intros t r w bk Hi Hn Hb Hin Hk. pose proof (proj1 Hi) as Hw.
  destruct (member_placed r t b bk Hw Hb Hin) as (p & tm & _ & Htm & Htb & _).
  assert (Hstep : forall fuel, walk_timers clock callback (S fuel) now b t r w =
    if negb (expire_ns r t <=? ns now) then Some (r, w)
    else '(r, w) ← fire clock callback now t tm r w; r ← settle t r; ts ← next_timer b t r;
      match ts with [] => Some (r, w) | t' :: _ => walk_timers clock callback fuel now b t' r w end).
  { intros fuel. cbn [walk_timers]. rewrite Htm. cbn [mbind option_bind]. by rewrite (expired_ns now t tm r). }
  destruct (Z.leb_spec (expire_ns r t) (ns now)) as [Hle|Hlt].
  2:{ exists r, w. unfold dueq at 1. rewrite filter_cons_False by lia. fold (dueq (ns now) r (circleq_after t (b_qhead bk))).
      rewrite (sorted_due (ns now) r (b_qhead bk) t) by (done || by eapply (proj2 Hi)). cbn. rewrite app_nil_r.
      split_and!; eauto. intros [|fuel] Hf; [lia|]. by rewrite Hstep. }
  cbn [negb] in Hstep. destruct (fire_keeps t tm r w Hi Hn Htm) as (r1 & w1 & E1 & K1 & F1).
  assert (Ha1 : armed r1 t).
  { destruct K1 as (Hi1 & _ & K & _). destruct (K b bk t Hb Hin Hle) as (bk1 & Hb1 & Hin1 & _). by eapply due_armed; [apply Hi1|..]. }
  destruct (settle_keeps t r1 (proj1 K1) Ha1) as (r2 & E2 & [K2 F2]).
  pose proof (retains_trans _ _ _ _ K1 K2) as K. pose proof K as (Hi2 & Hk2 & Hdue & _). clear K1 K2.
  destruct (Hdue b bk t Hb Hin Hle) as (bk2 & Hb2 & Hin2 & D2 & B2 & X2 & C2).
  destruct (member_placed r2 t b bk2 (proj1 Hi2) Hb2 Hin2) as (p2 & Hpl2).
  assert (Hstep2 : forall fuel, walk_timers clock callback (S fuel) now b t r w =
    match circleq_after t (b_qhead bk2) with
    | [] => Some (r2, w1) | t' :: _ => walk_timers clock callback fuel now b t' r2 w1 end).
  { intros fuel. rewrite Hstep, E1. cbn [mbind option_bind]. rewrite E2. cbn [mbind option_bind].
    rewrite (next_timer_placed b t p2 _ _ r2 Hpl2). cbn [mbind option_bind]. unfold bucket_timers. by rewrite Hb2. }
  clear Hstep. assert (Hn2 : ns now <= now_ns clock r2) by (pose proof (now_mono _ _ Hk2); unfold now_ns in *; lia).
  assert (Hcd : calls r2 (due (ns now) r (circleq_after b (r_bucket_qhead r))) = calls r (due (ns now) r (circleq_after b (r_bucket_qhead r)))).
  { apply (retains_calls (ns now) r r2); [done|]. intros t0. apply in_due. }
  assert (Hcq : calls r2 (dueq (ns now) r (circleq_after t (b_qhead bk))) = calls r (dueq (ns now) r (circleq_after t (b_qhead bk)))).
  { apply (retains_calls (ns now) r r2); [done|]. intros t0 H0. exists b, bk. unfold dueq in H0. apply list_elem_of_filter in H0 as [H0 H0'].
    apply elem_of_after in H0'. done. }
  assert (Hfr : r_fired r ++ calls r (dueq (ns now) r (t :: circleq_after t (b_qhead bk))) =
    r_fired r2 ++ calls r2 (dueq (ns now) r2 (circleq_after t (b_qhead bk2)))).
  { rewrite D2, Hcq, F2, F1, <-app_assoc. f_equal. unfold dueq at 1. rewrite filter_cons_True by done.
    unfold calls at 1. rewrite filter_cons. destruct (has_cb r t); case_decide; done. }
  rewrite Hfr. clear Hfr F1 F2.
  destruct (circleq_after t (b_qhead bk2)) as [|t' l] eqn:Ea.
  { exists r2, w1. cbn. rewrite app_nil_r. split_and!; eauto; [|lia]. intros [|fuel] Hf; [lia|]. by rewrite Hstep2. }
  pose proof (circleq_after_next t t' (b_qhead bk2) l (proj1 (proj2 (wf_bucket (proj1 Hi2) _ _ Hb2))) Ea) as Ea'. subst l.
  assert (Hin' : t' ∈ b_qhead bk2) by (apply (elem_of_after t); rewrite Ea; by constructor).
  rewrite <-D2 in Hk. assert (Hk' : (length (dueq (ns now) r2 (circleq_after t' (b_qhead bk2))) <= k)%nat).
  { etransitivity; [|exact Hk]. unfold dueq. rewrite filter_cons. case_decide; cbn; lia. }
  assert (Htail : exists r' w', (forall fuel, (k + 1 <= fuel)%nat -> walk_timers clock callback fuel now b t' r2 w1 = Some (r', w')) /\
    inv clock r' /\ (r_ticks r2 <= r_ticks r')%nat /\ is_Some (r_bucket r' !! b) /\
    r_fired r' = r_fired r2 ++ calls r2 (dueq (ns now) r2 (t' :: circleq_after t' (b_qhead bk2))) /\
    due (ns now) r' (circleq_after b (r_bucket_qhead r')) = due (ns now) r2 (circleq_after b (r_bucket_qhead r2)) /\
    calls r' (due (ns now) r2 (circleq_after b (r_bucket_qhead r2))) = calls r2 (due (ns now) r2 (circleq_after b (r_bucket_qhead r2)))).
  { destruct (Z.leb_spec (expire_ns r2 t') (ns now)) as [Hle'|Hlt'].
    - unfold dueq in Hk at 1. rewrite filter_cons_True in Hk by done. cbn [length] in Hk. destruct k as [|k]; [lia|].
      destruct (IH k ltac:(lia) t' r2 w1 bk2 Hi2 Hn2 Hb2 Hin') as (r3 & w3 & E3 & Hi3 & Hk3 & Hb3 & F3 & D3 & C3 & _); [unfold dueq; lia|].
      exists r3, w3. split_and!; try done. intros fuel Hf. apply E3. lia.
    - exists r2, w1. split_and!; eauto.
      + intros [|fuel] Hf; [lia|]. cbn [walk_timers].
        destruct (member_placed r2 t' b bk2 (proj1 Hi2) Hb2 Hin') as (p' & tm' & _ & Htm' & _). rewrite Htm'. cbn [mbind option_bind].
        rewrite (expired_ns now t' tm' r2) by done. by rewrite (proj2 (Z.leb_gt _ _)) by lia.
      + unfold dueq. rewrite filter_cons_False by lia. fold (dueq (ns now) r2 (circleq_after t' (b_qhead bk2))).
        rewrite (sorted_due (ns now) r2 (b_qhead bk2) t') by (done || by eapply (proj2 Hi2)). cbn. by rewrite app_nil_r. }
  destruct Htail as (r3 & w3 & E3 & Hi3 & Hk3 & Hb3 & F3 & D3 & C3).
  exists r3, w3. split_and!; try done; [|lia|by rewrite D3|rewrite <-B2, C3, B2; done|lia].
  intros [|fuel] Hf; [lia|]. rewrite Hstep2. apply E3. lia.
Qed.

(** The first pass over the buckets calls what is due, from [b] on. *)
Lemma walk_buckets_fires m : forall k b r w,
  inv clock r -> ns now <= now_ns clock r -> is_Some (r_bucket r !! b) ->
  (length (due (ns now) r (b :: circleq_after b (r_bucket_qhead r))) <= m)%nat ->
  (length (circleq_after b (r_bucket_qhead r)) <= k)%nat ->
  exists N r' w', (forall fuel, (N <= fuel)%nat -> walk_buckets clock callback fuel now b r w = Some (r', w')) /\
    inv clock r' /\ r_fired r' = r_fired r ++ calls r (due (ns now) r (b :: circleq_after b (r_bucket_qhead r))).
Proof.
  induction m as [m IHm] using lt_wf_ind. intros k. induction k as [k IHk] using lt_wf_ind.
  intros b r w Hi Hn [bk Hb] Hm Hk. destruct (wf_bucket (proj1 Hi) _ _ Hb) as (Hne & Hnd & _).
  destruct (b_qhead bk) as [|t q] eqn:Eq; [done|].
  assert (Hin : t ∈ b_qhead bk) by (rewrite Eq; by constructor).
  assert (Haf : t :: circleq_after t (b_qhead bk) = b_qhead bk) by (rewrite Eq; cbn; by rewrite Z.eqb_refl).
  assert (Hdb : due (ns now) r (b :: circleq_after b (r_bucket_qhead r)) =
    dueq (ns now) r (t :: circleq_after t (b_qhead bk)) ++ due (ns now) r (circleq_after b (r_bucket_qhead r))).
  { unfold due. cbn [map concat]. unfold dueb at 1, bucket_timers. by rewrite Hb, Haf. }
  rewrite Hdb in *. rewrite length_app in Hm.
  assert (Hlen : (length (dueq (ns now) r (circleq_after t (b_qhead bk))) <= length (dueq (ns now) r (t :: circleq_after t (b_qhead bk))))%nat).
  { unfold dueq. rewrite (filter_cons _ t). case_decide; cbn; lia. }
  destruct (walk_timers_fires b m t r w bk Hi Hn Hb Hin ltac:(lia)) as (r1 & w1 & E1 & Hi1 & Hk1 & [bk1 Hb1] & F1 & D1 & C1 & Hsame).
  assert (Hn1 : ns now <= now_ns clock r1) by (pose proof (now_mono _ _ Hk1); unfold now_ns in *; lia).
  assert (Hstep : forall fuel, (m + 2 <= fuel)%nat -> walk_buckets clock callback (S fuel) now b r w =
    match circleq_after b (r_bucket_qhead r1) with
    | [] => Some (r1, w1) | b' :: _ => walk_buckets clock callback fuel now b' r1 w1 end).
  { intros fuel Hf. cbn [walk_buckets]. rewrite Hb. cbn [mbind option_bind]. rewrite Eq, E1 by done.
    cbn [mbind option_bind]. by rewrite Hb1. }
  rewrite calls_app, app_assoc, <-F1, <-C1, <-D1.
  destruct (circleq_after b (r_bucket_qhead r1)) as [|b' l] eqn:Ea.
  { exists (m + 3)%nat, r1, w1. cbn. rewrite app_nil_r. split_and!; try done. intros [|fuel] Hf; [lia|]. apply Hstep. lia. }
  assert (Hb' : is_Some (r_bucket r1 !! b')).
  { apply (wf_dom (proj1 Hi1)), (elem_of_after b). rewrite Ea. by constructor. }
  pose proof (circleq_after_next b b' _ l (wf_bq _ _ _ _ _ _ _ _ _ _ (proj1 Hi1)) Ea) as Ea'. subst l.
  assert (exists N r' w', (forall fuel, (N <= fuel)%nat -> walk_buckets clock callback fuel now b' r1 w1 = Some (r', w')) /\
    inv clock r' /\ r_fired r' = r_fired r1 ++ calls r1 (due (ns now) r1 (b' :: circleq_after b' (r_bucket_qhead r1))))
    as (N & r' & w' & E & Hi' & F').
  { destruct (Z.leb_spec (expire_ns r t) (ns now)) as [Hle|Hlt].
    - unfold dueq in Hm at 1. rewrite filter_cons_True in Hm by done. cbn [length] in Hm. destruct m as [|m]; [lia|].
      apply (IHm m ltac:(lia) (length (circleq_after b' (r_bucket_qhead r1))) b' r1 w1 Hi1 Hn1 Hb'); [|done]. rewrite D1. lia.
    - specialize (Hsame Hlt). subst r1. rewrite Ea in Hk. cbn [length] in Hk. destruct k as [|k]; [lia|].
      apply (IHk k ltac:(lia) b' r w1 Hi Hn Hb'); [|lia]. rewrite D1. lia. }
  exists (S (Nat.max N (m + 2))), r', w'. split_and!; [|done|done].
  intros [|fuel] Hf; [lia|]. rewrite Hstep by lia. apply E. lia.
Qed.
End Firing.

(** * Flushing *)

(** The timers in buckets are marked for deletion and wait for it. *)
Definition doomed (r : root) (t : Z) : Prop :=
  exists tm, r_timers r !! t = Some tm /\ t_delete tm = true /\ t_on_change_list tm = true.

Lemma del_timers_ok ts r : inv clock r -> (forall t, t ∈ ts -> armed r t) ->
  exists r', del_timers ts r = Some r' /\ inv clock r' /\ r_bucket r' = r_bucket r /\ r_bucket_qhead r' = r_bucket_qhead r /\
    (forall t, armed r t -> armed r' t) /\ forall t, t ∈ ts \/ doomed r t -> doomed r' t.
Proof.
  revert r. induction ts as [|t ts IH]; intros r Hi Hts; cbn [del_timers].
  { exists r. split_and!; try done. intros t [H|H]; [set_solver|done]. }
  destruct (Hts t) as (tm & b & Htm & Hb); [by constructor|].
  destruct (del_marked t tm b r (proj1 Hi) Htm Hb) as (r1 & -> & Hw1 & Hm). pose proof (marked_inv _ _ _ _ _ Hi Hw1 Htm Hm) as Hi1.
  destruct Hm as (M1 & M2 & M3 & _ & _ & _ & _ & M8 & M9 & _). cbn [mbind option_bind].
  assert (Harm : forall t0, armed r t0 -> armed r1 t0).
  { intros t0 (tm0 & b0 & H1 & H2). unfold armed. rewrite M1. destruct (decide (t0 = t)) as [->|Hne].
    - rewrite lookup_insert_eq. eexists _, b0. split; [done|]. rewrite M3. congruence.
    - rewrite lookup_insert_ne by done. eauto. }
  destruct (IH r1 Hi1) as (r2 & -> & Hi2 & Hb2 & Hq2 & Ha2 & Hd2); [intros t0 H0; apply Harm, Hts; by constructor|].
  exists r2. split_and!; try done; [congruence..|by auto|].
  intros t0 H0. apply Hd2. destruct (decide (t0 = t)) as [->|Hne].
  - right. exists (tm {{ t_delete := true ; t_on_change_list := true }}). rewrite M1, lookup_insert_eq. by destruct tm.
  - destruct H0 as [H0|(tm0 & H1 & H2)]; [left; set_solver|]. right. exists tm0. by rewrite M1, lookup_insert_ne by done.
Qed.

Lemma flush_buckets_ok bs r : inv clock r -> (forall b, b ∈ bs -> is_Some (r_bucket r !! b)) ->
  exists r', flush_buckets bs r = Some r' /\ inv clock r' /\ r_bucket r' = r_bucket r /\
    (forall t, doomed r t -> doomed r' t) /\ forall b bk t, b ∈ bs -> r_bucket r !! b = Some bk -> t ∈ b_qhead bk -> doomed r' t.
Proof.
  revert r. induction bs as [|b bs IH]; intros r Hi Hbs; cbn [flush_buckets].
  { exists r. split_and!; try done. set_solver. }
  destruct (Hbs b) as [bk Hb]; [by constructor|]. rewrite Hb. cbn [mbind option_bind].
  destruct (del_timers_ok (b_qhead bk) r Hi) as (r1 & -> & Hi1 & Hb1 & Hq1 & _ & Hd1).
  { intros t Ht. by apply (due_armed r b bk t (proj1 Hi)). }
  cbn [mbind option_bind]. destruct (IH r1 Hi1) as (r2 & -> & Hi2 & Hb2 & Hk2 & Hd2).
  { intros b0 H0. rewrite Hb1. apply Hbs. by constructor. }
  exists r2. split_and!; try done; [congruence|by auto|].
  intros b0 bk0 t [->|H0]%elem_of_cons Hbk Ht; [|apply (Hd2 b0 bk0); by rewrite ?Hb1].
  assert (bk0 = bk) as -> by congruence. auto.
Qed.

(** Deleting the doomed timers. *)
Definition all_doomed (r : root) : Prop := forall t, armed r t -> doomed r t.

Lemma process_changes_doomed now n r : wf r -> all_doomed r -> length (r_change_qhead r) = n ->
  exists r', process_changes n now r = Some r' /\ wf r' /\ all_doomed r' /\ r_change_qhead r' = [].
Proof.
  revert r. induction n as [|n IH]; intros r Hw Hd Hn; cbn; destruct (r_change_qhead r) as [|t q] eqn:Eq; try done; [by exists r|].
  destruct (process_change_wf now t q r Hw Eq) as (r1 & tm & tm1 & -> & Hw1 & Hq1 & _ & _ & Htm & Ht1 & _ & _ & _ & Hc).
  cbn [mbind option_bind]. apply IH; [done| |rewrite Hq1; cbn in Hn; lia].
  assert (Harm : armed r t).
  { assert (Hin : t ∈ r_change_qhead r) by (rewrite Eq; by constructor). apply (wf_change_link Hw) in Hin as (b & p & Hl).
    destruct (links_inv _ _ _ _ _ Hl) as (tm' & ? & Hb & _). destruct b as [b|]; [by exists tm', b|].
    by apply (wf_free Hw) in Hl as [[]|[_ [=]]]. }
  destruct (Hd t Harm) as (tm' & Htm' & Hdel & _). assert (tm' = tm) as -> by congruence.
  unfold changed in Hc. rewrite Hdel in Hc. destruct Hc as (_ & _ & Hnone & _).
  intros t0 (tm0 & b0 & H1 & H2). unfold doomed. rewrite Ht1 in *. destruct (decide (t0 = t)) as [->|Hne].
  - rewrite lookup_insert_eq in H1. congruence.
  - rewrite lookup_insert_ne in * by done. apply Hd. by exists tm0, b0.
Qed.

Lemma gc_timers_spec ts r :
  (forall t, r_timers (gc_timers ts r) !! t = if decide (t ∈ ts) then None else r_timers r !! t) /\
  r_gc (gc_timers ts r) = r_gc r - Z.of_nat (length ts) /\
  (r_gc_qhead r = ts -> r_gc_qhead (gc_timers ts r) = []) /\ r_bucket (gc_timers ts r) = r_bucket r /\
  r_bucket_qhead (gc_timers ts r) = r_bucket_qhead r /\ r_ptr (gc_timers ts r) = r_ptr r /\
  r_buckets (gc_timers ts r) = r_buckets r.
Proof.
  revert r. induction ts as [|t ts IH]; intros r; cbn [gc_timers].
  { split_and!; try done; try (cbn; lia); intros t; by case_decide as Hin; [apply elem_of_nil in Hin|]. }
  destruct (IH (r {{ r_gc_qhead := ts ; r_gc ::= Z.add (-1) ; r_timers ::= delete t }})) as (G1 & G2 & G3 & G4 & G5 & G6 & G7).
  rewrite G2, G4, G5, G6, G7. destruct r; cbn in *. split_and!; try done; [|lia|by auto].
  intros t0. rewrite G1. clear. destruct (decide (t0 ∈ ts)) as [H1|H1], (decide (t0 ∈ t :: ts)) as [H2|H2]; try done.
  - exfalso. apply H2. by constructor.
  - apply elem_of_cons in H2 as [->|H2]; [by rewrite lookup_delete_eq|done].
  - rewrite lookup_delete_ne; [done|]. intros ->. apply H2. constructor.
Qed.

Lemma timer_flush_root_ok r : inv clock r ->
  exists r', timer_flush_root clock r = Some r' /\ r_timers r' = ∅ /\ r_bucket_qhead r' = [] /\ r_buckets r' = 0 /\
    r_gc_qhead r' = [] /\ r_gc r' = 0 /\ r_ptr r' = ∅.
Proof.
  intros Hi. unfold timer_flush_root.
  destruct (flush_buckets_ok (r_bucket_qhead r) r Hi) as (r1 & -> & Hi1 & Hb1 & _ & Hd1); [intros b; apply (wf_dom (proj1 Hi))|].
  cbn [mbind option_bind]. unfold timer_process_changes, clock_gettime.
  set (r1' := r1 {{ r_ticks ::= S }}). assert (Hw1 : wf r1') by apply (wf_tick none), Hi1.
  assert (Had : all_doomed r1').
  { intros t Ha. destruct (armed_bucket r1' t Hw1 Ha) as (tm & b & bk & q & H1 & H2 & H3 & _ & H5).
    assert (H3' : r_bucket r !! b = Some bk) by (rewrite <-Hb1; subst r1'; by destruct r1).
    assert (doomed r1 t) by (apply (Hd1 b bk); try done; apply (wf_dom (proj1 Hi)); eauto). subst r1'. by destruct r1. }
  destruct (process_changes_doomed (clock (r_ticks r1)) _ r1' Hw1 Had eq_refl) as (r2 & -> & Hw2 & Had2 & Hq2).
  cbn [mbind option_bind]. eexists. split; [reflexivity|].
  assert (Hno : forall t, ~ armed r2 t).
  { intros t Ha. destruct (Had2 t Ha) as (tm & Htm & _ & Hc). assert (Hin : t ∈ r_change_qhead r2).
    { apply (wf_change_link Hw2). eexists _, _. rewrite (links_lookup _ _ _ Htm). unfold link_of. by rewrite Hc. }
    rewrite Hq2 in Hin. set_solver. }
  assert (Hbq : r_bucket_qhead r2 = []).
  { destruct (r_bucket_qhead r2) as [|b l] eqn:E; [done|]. exfalso. assert (Hin : b ∈ r_bucket_qhead r2) by (rewrite E; by constructor).
    apply (wf_dom Hw2) in Hin as [bk Hb]. destruct (wf_bucket Hw2 _ _ Hb) as (Hne & _). destruct (b_qhead bk) as [|t q] eqn:Eq; [done|].
    apply (Hno t), (due_armed r2 b bk t Hw2 Hb). rewrite Eq. by constructor. }
  destruct (gc_timers_spec (r_gc_qhead r2) r2) as (G1 & G2 & G3 & _ & G5 & G6 & G7). rewrite G2, G5, G6, G7, Hbq.
  split_and!; auto.
  - apply map_eq. intros t. rewrite G1, lookup_empty. case_decide as Hin; [done|].
    destruct (r_timers r2 !! t) as [tm|] eqn:E; [|done]. exfalso.
    destruct (t_bucket tm) as [b|] eqn:Eb; [by apply (Hno t); exists tm, b|].
    pose proof (links_lookup _ _ _ E) as Hl. unfold link_of in Hl. rewrite Eb in Hl.
    by apply (wf_free Hw2) in Hl as [[]|[? _]].
  - by rewrite (wf_buckets _ _ _ _ _ _ _ _ _ _ Hw2), Hbq.
  - rewrite (wf_gc _ _ _ _ _ _ _ _ _ _ Hw2). lia.
  - apply map_eq. intros p. rewrite lookup_empty. destruct (r_ptr r2 !! p) as [t|] eqn:E; [|done].
    exfalso. by apply (Hno t), (ptr_armed r2 p t Hw2).
Qed.
End Safe.

(** * Claims *)

(** C15. The event loop is safe and ends: for a root in order and callbacks that do
    not smear, add timers with any positive interval, delete and re-add any other timer, and
    re-add themselves with their own interval, [timer_walk] never follows a link of
    a timer or bucket that is gone and returns (for all fuel above some bound),
    leaves the root in order with no change pending, and never sleeps beyond the
    expiration of a timer that is armed. *)
Theorem timer_walk_terminates (clock : nat -> timespec) {W : Type} (callback : root -> Z -> W -> W * list call) (r : root) (w : W) :
  (forall i, proper (clock i)) -> (forall i, ns (clock i) <= ns (clock (S i))) ->
  polite_callbacks callback -> inv clock r ->
  exists N r' w' sleep, (forall fuel, (N <= fuel)%nat -> timer_walk clock callback fuel r w = Some (r', w', sleep)) /\
    inv clock r' /\ r_change_qhead r' = [] /\ wakes_in_time clock r' sleep.
Proof. intros Hn Hm Hp Hi. by apply timer_walk_ok. Qed.

(** C16. The event loop is exact: when the callbacks do not smear, add
    timers with positive intervals only and re-add none of the expired timers, a walk calls the callback of every timer whose expiration has come at
    the time the walk starts, once and in the order of the buckets and of their
    queues, and calls no other. *)
Theorem timer_walk_fires_due (clock : nat -> timespec) {W : Type} (callback : root -> Z -> W -> W * list call) (r : root) (w : W) :
  (forall i, proper (clock i)) -> (forall i, ns (clock i) <= ns (clock (S i))) -> inv clock r ->
  (forall r1 t w1, Forall (harmless (now_ns clock r) r1) (callback r1 t w1).2) ->
  exists N r' w' sleep, (forall fuel, (N <= fuel)%nat -> timer_walk clock callback fuel r w = Some (r', w', sleep)) /\
    r_fired r' = r_fired r ++ calls r (due (now_ns clock r) r (r_bucket_qhead r)).
Proof.
  intros Hn Hm Hi Hc. unfold timer_walk. destruct (r_bucket_qhead r) as [|b bq] eqn:Eq.
  { exists O, r, w, None. split; [done|]. cbn. by rewrite app_nil_r. }
  unfold clock_gettime. set (r0 := r {{ r_ticks ::= S }}). assert (Hi0 : inv clock r0) by by apply inv_tick.
  destruct (Hn (r_ticks r)) as [Hnow _].
  assert (Hb0 : is_Some (r_bucket r0 !! b)).
  { subst r0. assert (is_Some (r_bucket r !! b)); [|by destruct r]. apply (wf_dom (proj1 Hi)). rewrite Eq. by constructor. }
  assert (Hn0 : ns (clock (r_ticks r)) <= now_ns clock r0) by (subst r0; destruct r; apply Hm).
  destruct (walk_buckets_fires clock Hn Hm callback (clock (r_ticks r)) Hnow Hc _ _ b r0 w Hi0 Hn0 Hb0 (Nat.le_refl _) (Nat.le_refl _))
    as (N & r1 & w1 & E1 & Hi1 & F1).
  destruct (timer_process_changes_inv clock Hn Hm r1 Hi1) as (r2 & E2 & Hi2 & _ & F2).
  destruct (min_buckets_ok clock Hn Hm (clock (r_ticks r)) Hnow (r_bucket_qhead r2) r2 (mk_ts 0 0)) as (m & E3 & _).
  { apply Hi2. }
  { destruct Hi2 as [_ H]. eauto. }
  { intros b0 H0. by apply (wf_dom (proj1 Hi2)). }
  { unfold normal, SEC. cbn. lia. }
  eexists N, _, w1, _. split.
  - intros fuel Hf. rewrite E1 by done. cbn [mbind option_bind]. rewrite E2. cbn [mbind option_bind]. rewrite E3. reflexivity.
  - assert (Hq : b :: circleq_after b (r_bucket_qhead r0) = b :: bq).
    { subst r0. destruct r; cbn in *. subst. cbn. by rewrite Z.eqb_refl. }
    rewrite Hq in F1. destruct r2; cbn in *. rewrite F2, F1. subst r0. by destruct r.
Qed.

(** [timer_flush_root] leaves nothing behind: of a root in order every timer
    is freed, the queues and counters are empty and every client pointer is NULL. *)
Theorem timer_flush_root_empties (clock : nat -> timespec) (r : root) :
  (forall i, proper (clock i)) -> (forall i, ns (clock i) <= ns (clock (S i))) -> inv clock r ->
  exists r', timer_flush_root clock r = Some r' /\ r_timers r' = ∅ /\ r_bucket_qhead r' = [] /\ r_buckets r' = 0 /\
    r_gc_qhead r' = [] /\ r_gc r' = 0 /\ r_ptr r' = ∅.
Proof. intros Hn Hm Hi. by apply timer_flush_root_ok. Qed.

(** ** Examples *)

(** A clock that is read once a second. *)
Definition seconds (n : nat) : timespec := mk_ts (100 + Z.of_nat n) 0.

Lemma seconds_proper i : proper (seconds i).
Proof. unfold proper, normal, seconds, ns, SEC. cbn. lia. Qed.
Lemma seconds_mono i : ns (seconds i) <= ns (seconds (S i)).
Proof. unfold seconds, ns, SEC. cbn [tv_sec tv_nsec]. lia. Qed.

Definition one_timer : list call := [CallAdd 1 "lifetime" 1 0 7 (Some 1)].
Definition two_timers : list call := [CallAdd 1 "first" 1 0 7 (Some 1); CallAdd 2 "second" 1 0 8 (Some 2)].

(** A callback that re-adds its timer with the interval it has, one that does so
    with another interval, and one that deletes the other timer. *)
Definition restart_same (r : root) (t : Z) (w : unit) : unit * list call :=
  match r_timers r !! t with
  | Some tm =>
      match t_ptimer tm, t_bucket tm with
      | Some p, Some b =>
          match r_bucket r !! b with
          | Some bk => if (0 <=? b_sec bk) && (0 <=? b_nsec bk) && (b_nsec bk <=? SEC) && (0 <? interval (b_sec bk) (b_nsec bk))
                       then (w, [CallAdd p "again" (b_sec bk) (b_nsec bk) (t_data tm) (t_cb tm)]) else (w, [])
          | None => (w, [])
          end
      | _, _ => (w, [])
      end
  | None => (w, [])
  end.
Definition restart_other (r : root) (t : Z) (w : unit) : unit * list call := (w, [CallAdd 1 "purge" 60 0 7 (Some 2)]).
Definition delete_other (r : root) (t : Z) (w : unit) : unit * list call := (w, [CallDel 2]).

Lemma restart_same_polite : polite_callbacks restart_same.
Proof.
  intros r t w tm p b bk H1 H2 H3 H4. unfold restart_same. rewrite H1, H2, H3, H4. case_if; cbn; [|constructor].
  repeat constructor; unfold valid; cbn; lia.
Qed.

(** The due timers are three seconds old. *)
Lemma two_timers_inv : exists r, execs seconds two_timers timer_init_root = Some r /\ inv seconds r.
Proof. apply (execs_inv seconds seconds_proper seconds_mono); [apply inv_init|]. repeat constructor; by vm_compute. Qed.

Lemma timer_walk_terminates_witness :
  polite_callbacks restart_same /\
  exists r, inv seconds r /\ r_buckets r = 1 /\
  exists N r' w' sleep, (forall fuel, (N <= fuel)%nat -> timer_walk seconds restart_same fuel r tt = Some (r', w', sleep)) /\
    inv seconds r' /\ r_change_qhead r' = [] /\ wakes_in_time seconds r' sleep.
Proof.
  split; [exact restart_same_polite|]. destruct two_timers_inv as (r & E & Hi). exists r. split; [exact Hi|].
  split; [vm_compute in E; by injection E as <-|].
  exact (timer_walk_terminates seconds restart_same r tt seconds_proper seconds_mono restart_same_polite Hi).
Defined.

Lemma timer_walk_fires_due_witness :
  exists r, inv seconds r /\ calls r (due (now_ns seconds r) r (r_bucket_qhead r)) = [0; 2] /\
  exists N r' w' sleep, (forall fuel, (N <= fuel)%nat -> timer_walk seconds delete_other fuel r tt = Some (r', w', sleep)) /\
    r_fired r' = r_fired r ++ calls r (due (now_ns seconds r) r (r_bucket_qhead r)).
Proof.
  destruct two_timers_inv as (r & E & Hi). exists r. split; [exact Hi|]. split; [vm_compute in E; injection E as <-; by vm_compute|].
  apply (timer_walk_fires_due seconds delete_other r tt seconds_proper seconds_mono Hi). intros r1 t w1. by repeat constructor.
Defined.

Lemma timer_flush_root_empties_witness :
  exists r, inv seconds r /\ r_buckets r = 1 /\
  exists r', timer_flush_root seconds r = Some r' /\ r_timers r' = ∅ /\ r_bucket_qhead r' = [] /\ r_buckets r' = 0 /\
    r_gc_qhead r' = [] /\ r_gc r' = 0 /\ r_ptr r' = ∅.
Proof.
  destruct two_timers_inv as (r & E & Hi). exists r. split; [exact Hi|]. split; [vm_compute in E; by injection E as <-|].
  exact (timer_flush_root_empties seconds r seconds_proper seconds_mono Hi).
Defined.

(** The condition on callbacks is needed: when the callback of a one-shot
    timer re-adds it with another interval, the timer moves to another bucket and
    the walk goes on from there, to the head of that bucket's queue taken for a
    timer and to a bucket that has been freed; for no fuel is the walk defined. *)
Theorem timer_walk_rearm_undefined :
  exists r, execs seconds one_timer timer_init_root = Some r /\
    forall fuel, timer_walk seconds restart_other fuel r tt = None.
Proof. eexists. split; [by vm_compute|]. intros [|[|fuel]]; by vm_compute. Qed.

(** A timer that is deleted while a walk is running still fires in that walk:
    the first pass does not look at the [delete] flag. *)
Theorem timer_walk_fires_deleted :
  exists r r' sleep, execs seconds two_timers timer_init_root = Some r /\
    timer_walk seconds delete_other 5 r tt = Some (r', tt, sleep) /\ r_fired r' = [0; 2] /\ r_ptr r' !! 2 = None.
Proof. eexists _, _, _. split; [by vm_compute|]. split; [by vm_compute|]. by vm_compute. Qed.
