(* ===== verification/TimerLost.v ===== *)
(** Timers that are deleted and added again (timer.c).

    [timer_del] only flags a timer; it leaves its bucket and its pointer when the changes are
    processed.  Here: no call of a client takes the flag back. *)
From coqutil Require Import Datatypes.RecordSetters.
From S2P Require Import Prelude.
From S2P Require Import Timer.
From S2P Require Import TimerOrder.
From S2P Require Import TimerWalk.
Import RecordSetters.DoubleBraceUpdate.
#[local] Set Warnings "-clear-no-such-hyp".
From stdpp Require Import strings gmap list.
Open Scope Z_scope.

(** The timer of a client is to be deleted. *)
Definition doomed (p t : Z) (r : root) : Prop :=
  r_ptr r !! p = Some t /\ t ∈ r_change_qhead r /\ exists tm, r_timers r !! t = Some tm /\ t_delete tm = true.

(** The timer is in no bucket, and the client has no pointer. *)
Definition gone (p t : Z) (r : root) : Prop :=
  r_ptr r !! p = None /\ exists tm, r_timers r !! t = Some tm /\ t_bucket tm = None.

Section Clock.
Context (clock : nat -> timespec).
Context (Hnormal : forall i, proper (clock i)) (Hmono : forall i, ns (clock i) <= ns (clock (S i))).

Lemma doomed_add p t q name sec nsec data cb r r' : wf r -> doomed p t r -> timer_add clock q name sec nsec data cb r = Some r' -> doomed p t r'.
Proof.
  intros Hw (Hp & Hc & tm & Ht & Hd) E. destruct (r_ptr r !! q) as [x|] eqn:Eq.
  - destruct (ptr_armed r q x Hw Eq) as (tmx & b & Hx & _).
    destruct (timer_add_running clock q x tmx name sec nsec data cb r Hw Eq Hx) as (r1 & tm' & E1 & _ & _ & Ht' & Hp' & _ & Hc' & _ & _ & _ & _ & _ & _ & Hdel & _).
    assert (r1 = r') as -> by congruence. unfold doomed. rewrite Hp', Hc', Ht'. split_and!; [done|done|].
    destruct (decide (x = t)) as [->|Hne]; [exists tm'; rewrite lookup_insert_eq; split; congruence|exists tm; by rewrite lookup_insert_ne].
  - destruct (timer_add_new clock q name sec nsec data cb r Hw Eq) as (r1 & x & tm' & E1 & _ & _ & Ht' & Hp' & _ & Hc' & _ & Hna & _).
    assert (r1 = r') as -> by congruence. assert (x <> t) by (intros ->; apply Hna, (ptr_armed r p t Hw Hp)). unfold doomed. rewrite Hp', Hc', Ht'.
    rewrite !lookup_insert_ne by congruence. by eauto.
Qed.

Lemma doomed_assign p t x f r r' : (forall tm, t_delete tm = true -> t_delete (f tm) = true) -> with_timer x f r = Some r' -> doomed p t r -> doomed p t r'.
Proof.
  intros Hf E (Hp & Hc & tm & Ht & Hd). unfold with_timer in E. destruct (r_timers r !! x) as [tmx|] eqn:Ex; [|done]. injection E as <-.
  split; [by destruct r|]. split; [by destruct r|]. change (r_timers _) with (<[x := f tmx]> (r_timers r)).
  destruct (decide (x = t)) as [->|Hne]; [exists (f tmx); rewrite lookup_insert_eq; split; [done|]; apply Hf; congruence|exists tm; by rewrite lookup_insert_ne].
Qed.

Lemma doomed_change p t x r r' : timer_change x r = Some r' -> doomed p t r -> doomed p t r'.
Proof.
  unfold timer_change. destruct (r_timers r !! x) as [tmx|] eqn:Ex; [|done]. cbn [mbind option_bind]. destruct (t_on_change_list tmx); [by intros [= <-]|].
  destruct (t_bucket tmx) as [b|]; [|done]. cbn [mbind option_bind]. destruct (r_bucket r !! b); [|done]. cbn [mbind option_bind]. intros [= <-] (Hp & Hc & tm & Ht & Hd).
  split; [by destruct r|]. change (r_timers _) with (<[x := tmx {{ t_on_change_list := true }}]> (r_timers r)).
  change (r_change_qhead _) with (r_change_qhead r ++ [x]). split; [by apply elem_of_app; left|].
  destruct (decide (x = t)) as [->|Hne]; [exists (tmx {{ t_on_change_list := true }}); rewrite lookup_insert_eq; split; [done|]|exists tm; by rewrite lookup_insert_ne].
  assert (tmx = tm) as -> by congruence. by destruct tm.
Qed.

Lemma doomed_del p t x r r' : timer_del x r = Some r' -> doomed p t r -> doomed p t r'.
Proof.
  unfold timer_del. destruct (with_timer x _ r) as [r1|] eqn:E1; [|done]. cbn [mbind option_bind]. intros E2 Hd. apply (doomed_change p t x r1); [done|].
  eapply doomed_assign; [|exact E1|exact Hd]. by intros [].
Qed.

Lemma doomed_smear p t b r r' : inv clock r -> is_Some (r_bucket r !! b) -> timer_smear_bucket_internal clock b r = Some r' -> doomed p t r -> doomed p t r'.
Proof.
  intros [Hw Ht] [bk Hb] E (Hp & Hc & tm & Htm & Hd). destruct (last (b_qhead bk)) as [l|] eqn:El.
  2:{ unfold timer_smear_bucket_internal in E. rewrite Hb in E. cbn [mbind option_bind] in E. rewrite El in E. injection E as <-. split_and!; eauto. }
  destruct (Z.ltb_spec 1 (b_timers bk)) as [Hn|Hn].
  2:{ unfold timer_smear_bucket_internal in E. rewrite Hb in E. cbn [mbind option_bind] in E. rewrite El, Z.gtb_ltb, (proj2 (Z.ltb_ge _ _)) in E by lia. injection E as <-. split_and!; eauto. }
  destruct (smear_internal_spec clock Hnormal b bk l r Hw (tn_normal _ _ Ht) Hb El Hn) as (r1 & E1 & (_ & _ & _ & R3 & R4 & _ & _ & R7 & R8) & _).
  assert (r1 = r') as -> by congruence. destruct (R8 t) as [tm' Ht']; [by destruct r; exists tm|]. destruct (R7 t tm' Ht') as (tm0 & Ht0 & Etm).
  assert (tm0 = tm) as -> by (destruct r; cbn in *; congruence). unfold doomed. rewrite R3, R4. split; [by destruct r|]. split; [by destruct r|].
  exists tm'. split; [done|]. rewrite Etm. by destruct tm.
Qed.

Lemma doomed_smear_buckets p t bs : forall r r', inv clock r -> (forall b, b ∈ bs -> is_Some (r_bucket r !! b)) -> smear_buckets clock bs r = Some r' -> doomed p t r -> doomed p t r'.
Proof.
  induction bs as [|b bs IH]; intros r r' Hi Hbs; cbn [smear_buckets]; [by intros [= <-]|].
  destruct (smear_internal_inv clock Hnormal Hmono b r Hi) as (r1 & E1 & Hi1 & _ & Hb1); [apply Hbs; by left|]. rewrite E1. cbn [mbind option_bind]. intros E Hd.
  apply (IH r1 r' Hi1); [|done|].
  - intros c Hc. rewrite Hb1. apply Hbs. by right.
  - apply (doomed_smear p t b r r1 Hi); [apply Hbs; by left|done|done].
Qed.

Lemma doomed_exec p t c r r' : inv clock r -> valid_call c -> exec clock c r = Some r' -> doomed p t r -> doomed p t r'.
Proof.
  intros Hi Hv E Hd. destruct c as [q name sec nsec data cb|q name sec nsec data cb|q|sec nsec|]; cbn [exec] in E.
  - by apply (doomed_add p t q name sec nsec data cb r r' (proj1 Hi)).
  - unfold timer_add_periodic in E. destruct (timer_add _ _ _ _ _ _ _ r) as [r1|] eqn:E1; [|done]. cbn [mbind option_bind] in E.
    apply (doomed_add p t _ _ _ _ _ _ _ _ (proj1 Hi) Hd) in E1. destruct (r_ptr r1 !! q) as [x|]; [|by injection E as <-].
    eapply doomed_assign; [|exact E|exact E1]. by intros [].
  - destruct (r_ptr r !! q) as [x|]; [|by injection E as <-]. by apply (doomed_del p t x r).
  - unfold timer_smear_bucket in E. pose proof (find_key r sec nsec (or_introl (proj1 Hi))) as Hf.
    destruct (List.find _ _) as [b|]; [|by injection E as <-]. destruct Hf as (bk & Hb & _). apply (doomed_smear p t b r); [done|by eexists|done|done].
  - apply (doomed_smear_buckets p t (r_bucket_qhead r) r r' Hi); [|done|done]. intros b. apply (wf_dom (proj1 Hi)).
Qed.

Lemma doomed_execs p t cs : forall r, inv clock r -> Forall valid_call cs -> doomed p t r -> exists r', execs clock cs r = Some r' /\ inv clock r' /\ doomed p t r'.
Proof.
  induction cs as [|c cs IH]; intros r Hi Hv Hd; cbn [execs]; [by exists r|]. apply Forall_cons in Hv as [Hc Hv].
  destruct (exec_inv clock Hnormal Hmono c r Hi Hc) as (r1 & E & Hi1). rewrite E. cbn [mbind option_bind]. apply IH; [done|done|]. by apply (doomed_exec p t c r r1 Hi).
Qed.

(** Deleting a running timer. *)
Lemma del_doomed p t r : wf r -> r_ptr r !! p = Some t -> exists r', timer_del t r = Some r' /\ wf r' /\ doomed p t r'.
Proof.
  intros Hw Hp. pose proof (ptr_armed r p t Hw Hp) as Ha. destruct (timer_del_wf t r Hw Ha) as (r' & E & Hw'). exists r'. split; [done|]. split; [done|].
  destruct Ha as (tm & b & Ht & Hb). unfold timer_del, with_timer in E. rewrite Ht in E. cbn [mbind option_bind] in E.
  match type of E with timer_change t ?x = _ => set (r1 := x) in E end.
  assert (Ht1 : r_timers r1 !! t = Some (tm {{ t_delete := true }})) by (apply lookup_insert_eq).
  unfold timer_change in E. rewrite Ht1 in E. cbn [mbind option_bind] in E. destruct (t_on_change_list _) eqn:Ec.
  - injection E as <-. split; [exact Hp|]. split; [|by eexists]. apply (wf_change_link Hw'). rewrite (links_lookup _ _ _ Ht1). unfold link_of. rewrite Ec. by eauto.
  - change (t_bucket (tm {{ t_delete := true }})) with (t_bucket tm) in E. rewrite Hb in E. cbn [mbind option_bind] in E. destruct (r_bucket r1 !! b); [|done]. injection E as <-.
    split; [exact Hp|]. split; [apply elem_of_app; right; by left|]. eexists. split; [apply lookup_insert_eq|done].
Qed.

(** ** Processing the changes *)

Lemma with_timer_ptr t f r r' : with_timer t f r = Some r' -> r_ptr r' = r_ptr r.
Proof. unfold with_timer. destruct (r_timers r !! t); [|done]. by intros [= <-]. Qed.
Lemma dequeue_ptr t r r' : timer_dequeue_bucket t r = Some r' -> r_ptr r' = r_ptr r.
Proof.
  unfold timer_dequeue_bucket. destruct (r_timers r !! t) as [tm|]; [|done]. cbn [mbind option_bind]. destruct (t_bucket tm) as [b|]; [|done]. cbn [mbind option_bind].
  destruct (r_bucket r !! b); [|done]. cbn [mbind option_bind]. intros [= <-]. by destruct (_ =? 0).
Qed.
Lemma enqueue_ptr t sec nsec r r' : timer_enqueue_bucket t sec nsec r = Some r' -> r_ptr r' = r_ptr r.
Proof.
  unfold timer_enqueue_bucket. destruct (r_timers r !! t) as [tm|]; [|done]. cbn [mbind option_bind]. destruct (List.find _ _) as [b|]; [|by intros [= <-]].
  destruct (r_bucket r !! b); [|done]. by intros [= <-].
Qed.
Lemma requeue_ptr t sec nsec r r' : timer_requeue t sec nsec r = Some r' -> r_ptr r' = r_ptr r.
Proof.
  unfold timer_requeue. destruct (r_timers r !! t) as [tm|]; [|done]. cbn [mbind option_bind]. destruct (t_bucket tm) as [b|]; [|done]. cbn [mbind option_bind].
  destruct (r_bucket r !! b) as [bk|]; [|done]. cbn [mbind option_bind]. destruct (with_timer t _ r) as [r1|] eqn:E1; [|done]. cbn [mbind option_bind]. apply with_timer_ptr in E1.
  destruct (_ && _); [intros [= <-]; exact E1|]. destruct (timer_dequeue_bucket t r1) as [r2|] eqn:E2; [|done]. cbn [mbind option_bind]. intros E3.
  apply dequeue_ptr in E2. apply enqueue_ptr in E3. congruence.
Qed.

(** Pointers are only cleared. *)
Lemma process_change_ptr now x r r' p : process_change now x r = Some r' -> r_ptr r !! p = None -> r_ptr r' !! p = None.
Proof.
  unfold process_change. destruct (with_timer x _ _) as [r1|] eqn:E1; [|done]. cbn [mbind option_bind]. apply with_timer_ptr in E1.
  change (r_ptr (r {{ r_change_qhead ::= circleq_remove x }})) with (r_ptr r) in E1. intros E Hp. rewrite <- E1 in Hp. clear E1.
  destruct (r_timers r1 !! x) as [tm|] eqn:Ex; [|done]. cbn [mbind option_bind] in E. destruct (t_delete tm).
  - unfold timer_del_internal in E. rewrite Ex in E. cbn [mbind option_bind] in E. destruct (t_bucket tm) as [b|]; [|by injection E as <-].
    destruct (timer_dequeue_bucket x r1) as [r2|] eqn:E2; [|done]. cbn [mbind option_bind] in E. apply dequeue_ptr in E2. rewrite <- E2 in Hp.
    destruct (t_ptimer tm) as [q|]; [|by injection E as <-]. destruct (with_timer x _ _) as [r3|] eqn:E3; [|done]. apply with_timer_ptr in E3. injection E as <-.
    change (delete q (r_ptr r3) !! p = None). rewrite E3. change (delete q (r_ptr r2) !! p = None). apply lookup_delete_None. by right.
  - destruct (t_periodic tm); [|by injection E as <-].
    destruct (if t_reset tm then _ else _) as [r2|] eqn:E2; [|done]. cbn [mbind option_bind] in E.
    assert (Hr2 : r_ptr r2 = r_ptr r1) by (destruct (t_reset tm); [by apply with_timer_ptr in E2|by injection E2 as <-]).
    destruct (t_bucket tm) as [b|]; [|done]. cbn [mbind option_bind] in E. destruct (r_bucket r2 !! b) as [bk|]; [|done]. cbn [mbind option_bind] in E.
    apply requeue_ptr in E. by rewrite E, Hr2.
Qed.

Lemma process_other now x q r r' p t : wf r -> r_change_qhead r = x :: q -> process_change now x r = Some r' -> x <> t ->
  (doomed p t r -> doomed p t r') /\ (gone p t r -> gone p t r').
Proof.
  intros Hw Hq E Hne. destruct (process_change_wf now x q r Hw Hq) as (r1 & tm & tm' & E1 & Hw' & Hq' & _ & _ & Hx & Ht' & _). assert (r1 = r') as -> by congruence.
  assert (Hlook : r_timers r' !! t = r_timers r !! t) by (rewrite Ht'; by apply lookup_insert_ne). split.
  - intros (Hp & Hc & tmt & Htm & Hd). destruct (wf_ptr Hw p t Hp) as (b & c & Hl & [Hb|[]]). destruct b as [b|]; [|done].
    split; [|split; [rewrite Hq', Hq in *; apply elem_of_cons in Hc as [->|]; done|rewrite Hlook; by eauto]].
    assert (Hl' : links r' !! t = Some (Some b, Some p, c)).
    { destruct (links_inv _ _ _ _ _ Hl) as (tm2 & H2 & B1 & B2 & B3). assert (H3 : r_timers r' !! t = Some tm2) by congruence. rewrite (links_lookup _ _ _ H3). unfold link_of. congruence. }
    destruct (wf_back Hw' _ _ _ _ Hl') as [_ (p' & [= <-] & ?)]. done.
  - intros (Hp & tmt & Htm & Hb). split; [by apply (process_change_ptr now x r r')|]. rewrite Hlook. by eauto.
Qed.

Lemma process_this now q r r' p t : wf r -> r_change_qhead r = t :: q -> process_change now t r = Some r' -> doomed p t r -> gone p t r'.
Proof.
  intros Hw Hq E (Hp & _ & tmt & Htm & Hd). destruct (process_change_wf now t q r Hw Hq) as (r1 & tm & tm' & E1 & Hw' & Hq' & _ & _ & Hx & Ht' & _ & _ & _ & Hc). assert (r1 = r') as -> by congruence.
  assert (tmt = tm) as -> by congruence. unfold changed in Hc. rewrite Hd in Hc. destruct Hc as (_ & _ & Hb & _). split; [|exists tm'; by rewrite Ht', lookup_insert_eq].
  destruct (r_ptr r' !! p) as [x|] eqn:Ep; [|done]. destruct (wf_ptr Hw' p x Ep) as (b & c & Hl & [Hb'|[]]). destruct (links_inv _ _ _ _ _ Hl) as (tmx & H2 & B1 & B2 & B3).
  destruct (decide (x = t)) as [->|Hne]; [rewrite Ht', lookup_insert_eq in H2; congruence|]. rewrite Ht', lookup_insert_ne in H2 by congruence.
  destruct b as [b|]; [|done]. assert (Hl' : links r !! x = Some (Some b, Some p, c)) by (rewrite (links_lookup _ _ _ H2); unfold link_of; congruence).
  destruct (wf_back Hw _ _ _ _ Hl') as [_ (p' & [= <-] & ?)]. congruence.
Qed.

Lemma process_changes_lost now p t : forall n r r', wf r -> length (r_change_qhead r) = n -> process_changes n now r = Some r' -> (doomed p t r \/ gone p t r) -> wf r' /\ gone p t r'.
Proof.
  induction n as [|n IH]; intros r r' Hw Hn; cbn [process_changes]; destruct (r_change_qhead r) as [|x q] eqn:Eq; try done.
  - intros [= <-] [(_ & Hc & _)|Hg]; [rewrite Eq in Hc; by apply elem_of_nil in Hc|done].
  - destruct (process_change now x r) as [r1|] eqn:E1; [|done]. cbn [mbind option_bind]. intros E Hd.
    destruct (process_change_wf now x q r Hw Eq) as (r2 & _ & _ & E2 & Hw1 & Hq1 & _). assert (r2 = r1) as -> by congruence.
    apply (IH r1 r' Hw1); [rewrite Hq1; cbn in Hn; lia|done|]. destruct (decide (x = t)) as [->|Hne].
    + right. destruct Hd as [Hd|(_ & tm & Ht & Hb)]; [by apply (process_this now q r)|]. assert (Hin : t ∈ r_change_qhead r) by (rewrite Eq; by left).
      apply (wf_change_link Hw) in Hin as (b & p' & Hl). rewrite (links_lookup _ _ _ Ht) in Hl. unfold link_of in Hl. rewrite Hb in Hl. injection Hl as <- E3 E4.
      assert (Hl : links r !! t = Some (None, p', true)) by (rewrite (links_lookup _ _ _ Ht); unfold link_of; congruence). by apply (wf_free Hw) in Hl as [[]|[_ ?]].
    + destruct (process_other now x q r r1 p t Hw Eq E1 Hne) as [H1 H2]. destruct Hd; [left|right]; auto.
Qed.

(** C31. A timer that is deleted while it runs stays deleted, whatever the clients call before
    the changes are processed.  When the client adds it again with the same pointer,
    [timer_add] finds the pointer and re-queues the timer but does not clear its [delete]
    flag: the pointer still names the timer, and processing the changes takes it off its
    bucket into the garbage queue and clears the pointer, so the timer that the client has
    just armed never fires. *)
Theorem timer_delete_add_lost (r : root) (p t : Z) (cs : list call) :
  inv clock r -> r_ptr r !! p = Some t -> Forall valid_call cs ->
  exists r1 r2, execs clock (CallDel p :: cs) r = Some r1 /\ r_ptr r1 !! p = Some t
  /\ timer_process_changes clock r1 = Some r2 /\ r_ptr r2 !! p = None /\ t ∈ r_gc_qhead r2 /\ forall b bk, r_bucket r2 !! b = Some bk -> t ∉ b_qhead bk.
Proof.
  intros Hi Hp Hv. destruct (exec_inv clock Hnormal Hmono (CallDel p) r Hi I) as (r0 & E0 & Hi0). destruct (del_doomed p t r (proj1 Hi) Hp) as (r0' & E0' & _ & Hd0).
  assert (r0' = r0) as -> by (cbn [exec] in E0; rewrite Hp in E0; congruence). destruct (doomed_execs p t cs r0 Hi0 Hv Hd0) as (r1 & E1 & Hi1 & Hd1).
  destruct (timer_process_changes_inv clock Hnormal Hmono r1 Hi1) as (r2 & E2 & _). exists r1, r2. cbn [execs]. rewrite E0. cbn [mbind option_bind]. split; [done|]. split; [apply Hd1|]. split; [done|].
  unfold timer_process_changes, clock_gettime in E2. destruct (process_changes_lost (clock (r_ticks r1)) p t _ _ r2 (wf_tick none r1 (proj1 Hi1)) eq_refl E2) as (Hw2 & Hn & tm & Ht & Hb).
  { left. exact Hd1. }
  assert (Hl : links r2 !! t = Some (None, t_ptimer tm, t_on_change_list tm)) by (rewrite (links_lookup _ _ _ Ht); unfold link_of; congruence).
  split; [done|]. split; [by apply (wf_free Hw2) in Hl as [[]|[? _]]|]. intros b bk Hbk Hin. apply (wf_link Hw2 _ _ _ Hbk) in Hin as (q & c & Hl'). congruence.
Qed.
End Clock.

(** The timer is deleted and added again, after another one was added. *)
Lemma timer_delete_add_lost_witness :
  exists r r1 r2, execs seconds one_timer timer_init_root = Some r
  /\ execs seconds (CallDel 1 :: [CallAdd 2 "other" 5 0 9 (Some 2)] ++ one_timer) r = Some r1 /\ r_ptr r1 !! 1 = Some 0
  /\ timer_process_changes seconds r1 = Some r2 /\ r_ptr r2 !! 1 = None.
Proof.
  destruct (execs_inv seconds seconds_proper seconds_mono one_timer timer_init_root (inv_init seconds)) as (r & E & Hi); [by repeat constructor|].
  assert (Hp : r_ptr r !! 1 = Some 0) by (vm_compute in E; injection E as <-; by vm_compute).
  destruct (timer_delete_add_lost seconds seconds_proper seconds_mono r 1 0 ([CallAdd 2 "other" 5 0 9 (Some 2)] ++ one_timer) Hi Hp) as (r1 & r2 & E1 & H1 & E2 & H2 & _); [by repeat constructor|].
  exists r, r1, r2. by split_and!.
Defined.
