(* ===== verification/Tcp.v ===== *)
(** The TCP contexts of bbl_tcp.c, the layer between the lwIP stack and the
    applications (BGP, LDP, HTTP).

    lwIP is the interface [Lwip]: a protocol control block with the calls the
    code makes on it; [LwipSpec] states what lwIP documents of these calls.  A
    context refers to the application's transmit buffer by its address; [mem] is
    the memory.  The application's callbacks are called by the application's own
    file: an operation returns whether [idle_cb] is due, its last action.
    [None] is an access through NULL or outside of a buffer.  Addresses and the
    log are left out. *)
From coqutil Require Import Datatypes.RecordSetters.
From S2P Require Import Prelude.
From S2P Require Import Const.
From S2P Require Import ConstApp.
Import RecordSetters.DoubleBraceUpdate.
From stdpp Require Import list.
Open Scope Z_scope.

Definition ERR_OK : Z := 0.
Definition ERR_MEM : Z := -1.
Definition ERR_RST : Z := -14.
Definition ERR_ABRT : Z := -13.

Inductive bbl_tcp_state :=
| BBL_TCP_STATE_CLOSED
| BBL_TCP_STATE_LISTEN
| BBL_TCP_STATE_CONNECTING
| BBL_TCP_STATE_IDLE
| BBL_TCP_STATE_SENDING.

#[export] Instance bbl_tcp_state_eq_dec : EqDecision bbl_tcp_state.
Proof. solve_decision. Defined.

(** * Outcomes

    [Ok a]: the code returns [a].  [Fault]: it follows NULL or leaves a buffer.
    [Diverge]: it did not return within the fuel. *)

Inductive out (A : Type) := Ok (a : A) | Fault | Diverge.
Arguments Ok {_} _.
Arguments Fault {_}.
Arguments Diverge {_}.

#[export] Instance out_ret : MRet out := @Ok.
#[export] Instance out_bind : MBind out := fun A B f m =>
  match m with Ok a => f a | Fault => Fault | Diverge => Diverge end.

Definition lift {A} (o : option A) : out A := match o with Some a => Ok a | None => Fault end.

Lemma lift_bind {A B} (o : option A) (f : A -> option B) : lift (o ≫= f) = (a ← lift o; lift (f a)).
Proof. by destruct o. Qed.

(** * lwIP *)

Class Lwip := {
  pcb : Type;
  tcp_sndbuf : pcb -> Z;
  tcp_write : pcb -> list Z -> Z -> Z * pcb;
  tcp_output : pcb -> pcb;
  (** [unacked == NULL && unsent == NULL] *)
  tcp_drained : pcb -> bool;
  tcp_recved : pcb -> Z -> pcb
}.

(** [tcp_accepted] are the bytes lwIP has taken for transmission.  [tcp_write]
    takes all bytes or none; a block with nothing in flight has room and takes
    what fits into it. *)
Class LwipSpec `{Lwip} := {
  tcp_accepted : pcb -> list Z;
  tcp_sndbuf_range p : 0 <= tcp_sndbuf p < 65536;
  tcp_write_accepted p data flags :
    tcp_accepted (tcp_write p data flags).2 =
      if (tcp_write p data flags).1 =? ERR_OK then tcp_accepted p ++ data else tcp_accepted p;
  tcp_output_accepted p : tcp_accepted (tcp_output p) = tcp_accepted p;
  tcp_recved_accepted p n : tcp_accepted (tcp_recved p n) = tcp_accepted p;
  tcp_recved_drained p n : tcp_drained p = true -> tcp_drained (tcp_recved p n) = true;
  tcp_drained_room p : tcp_drained p = true -> 0 < tcp_sndbuf p;
  tcp_drained_write p data flags : tcp_drained p = true -> Z.of_nat (length data) <= tcp_sndbuf p ->
    (tcp_write p data flags).1 = ERR_OK
}.

Section Context.
Context `{Lwip}.

Record tcp_ctx := mk_tcp_ctx {
  tcp_listen : bool;
  tcp_pcb : option pcb;
  tcp_idle_cb : bool;
  tcp_sp : option (list Z);
  tcp_sp_len : Z;
  tcp_state : bbl_tcp_state;
  tcp_err : Z;
  tx_buf : option Z;
  tx_len : Z;
  tx_offset : Z;
  tx_flags : Z;
  tcp_bytes_rx : Z
}.

(** [calloc] of a context. *)
Definition tcp_ctx_zero : tcp_ctx := mk_tcp_ctx false None false None 0 BBL_TCP_STATE_CLOSED 0 None 0 0 0 0.

Definition bbl_tcp_close (tcpc : option tcp_ctx) : option tcp_ctx :=
  match tcpc with
  | Some c => Some (c {{ tcp_sp := None ;
                         tcp_sp_len := (match tcp_sp c with Some _ => 0 | None => tcp_sp_len c end) ;
                         tcp_state := BBL_TCP_STATE_CLOSED ;
                         tcp_pcb := None }})
  | None => None
  end.

(** [tcp_new] and [tcp_bind_netif]: NULL without a control block. *)
Definition bbl_tcp_ctx_new (new : option pcb) : option tcp_ctx :=
  p ← new; Some (tcp_ctx_zero {{ tcp_pcb := Some p }}).

(** [new] and [err] are the results of [tcp_new] and [tcp_connect]; a context that
    cannot connect is freed. *)
Definition bbl_tcp_ipv4_connect (tcp_enabled : bool) (new : option pcb) (err : Z) : option tcp_ctx :=
  if negb tcp_enabled then None
  else
    c ← bbl_tcp_ctx_new new;
    if negb (err =? ERR_OK) then None
    else Some (c {{ tcp_state := BBL_TCP_STATE_CONNECTING }}).

Definition bbl_tcp_ipv6_connect (tcp_enabled : bool) (new : option pcb) (err : Z) : option tcp_ctx :=
  if negb tcp_enabled then None
  else
    c ← bbl_tcp_ctx_new new;
    if negb (err =? ERR_OK) then None
    else Some (c {{ tcp_state := BBL_TCP_STATE_CONNECTING }}).

(** [n] bytes from [off] on, [None] when the buffer ends before. *)
Definition region (data : list Z) (off n : Z) : option (list Z) :=
  if off + n <=? Z.of_nat (length data) then Some (take (Z.to_nat n) (drop (Z.to_nat off) data)) else None.

(** The context, the result for lwIP and whether [idle_cb] is called. *)
Definition bbl_tcp_sent_cb (mem : Z -> option (list Z)) (c : tcp_ctx) : option (tcp_ctx * Z * bool) :=
  p ← tcp_pcb c;
  if tx_offset c <? tx_len c then
    let tx := tcp_sndbuf p in
    if negb (tx =? 0) then
      let tx := if 4096 <? tx then 4096 else tx in
      let tx := if tx_len c <? u32 (tx_offset c + tx) then u16 (tx_len c - tx_offset c) else tx in
      buf ← tx_buf c;
      data ← mem buf;
      data ← region data (tx_offset c) tx;
      let (result, p) := tcp_write p data (tx_flags c) in
      if result =? ERR_OK then
        Some (c {{ tcp_pcb := Some p ;
                   tcp_state := BBL_TCP_STATE_SENDING ;
                   tx_offset := u32 (tx_offset c + tx) }}, result, false)
      else
        Some (c {{ tcp_pcb := Some (if result =? ERR_MEM then tcp_output p else p) }}, result, false)
    else Some (c {{ tcp_pcb := Some (tcp_output p) }}, ERR_MEM, false)
  else if tcp_drained p then
    Some (c {{ tcp_state := BBL_TCP_STATE_IDLE }}, ERR_OK, tcp_idle_cb c)
  else Some (c, ERR_OK, false).

(** The context, the return value and whether [idle_cb] is called. *)
Definition bbl_tcp_send (mem : Z -> option (list Z)) (tcpc : option tcp_ctx) (buf : Z) (len : Z)
    : option (tcp_ctx * bool * bool) :=
  c ← tcpc;
  if decide (tcp_state c = BBL_TCP_STATE_SENDING) then Some (c, false, false)
  else
    let c := c {{ tx_buf := Some buf ; tx_len := len ; tx_offset := 0 }} in
    if decide (tcp_state c = BBL_TCP_STATE_IDLE) then
      '(c, _, idle) ← bbl_tcp_sent_cb mem c; Some (c, true, idle)
    else Some (c, true, false).

(** The end of the connection: [bbl_tcp_error_cb] before it calls [error_cb]. *)
Definition bbl_tcp_error_cb (err : Z) (c : tcp_ctx) : tcp_ctx :=
  c {{ tcp_state := BBL_TCP_STATE_CLOSED ; tcp_pcb := None ; tcp_err := err }}.

(** Received data is a chain of buffers.  The loop runs over the chain, but hands
    the first buffer of it to the application each time. *)
Fixpoint recv_loop {A : Type} (receive_cb : option (list Z) -> A -> out A) (p : list Z) (chain : list (list Z)) (a : A) : out A :=
  match chain with
  | [] => Ok a
  | _ :: chain => a ← receive_cb (Some p) a; recv_loop receive_cb p chain a
  end.

(** [receive_cb] is called with NULL at the end.  [p] is the chain, [] for NULL;
    [tot_len] is the length of the chain. *)
Definition bbl_tcp_recv_cb {A : Type} (receive_cb : option (list Z) -> A -> out A) (p : list (list Z)) (err : Z) (a : A) : out A :=
  match p with
  | [] => Ok a
  | first :: _ =>
      if err =? ERR_OK then a ← recv_loop receive_cb first p a; receive_cb None a
      else Ok a
  end.

(** The accounting of [bbl_tcp_recv_cb] in the context. *)
Definition bbl_tcp_recv_account (p : list (list Z)) (err : Z) (c : tcp_ctx) : tcp_ctx :=
  if (err =? ERR_OK) && negb (bool_decide (p = [])) then
    let tot_len := u16 (Z.of_nat (length (concat p))) in
    c {{ tcp_bytes_rx := u64 (tcp_bytes_rx c + tot_len) ; tcp_pcb ::= fmap (fun p => tcp_recved p tot_len) }}
  else c.

(** What the operations keep: an open context has a control block, and the part
    handed to lwIP is inside the buffer. *)
Definition ctx_open (c : tcp_ctx) : Prop :=
  tcp_state c = BBL_TCP_STATE_IDLE \/ tcp_state c = BBL_TCP_STATE_SENDING.

Record ctx_wf (c : tcp_ctx) : Prop := {
  ctx_pcb : ctx_open c -> is_Some (tcp_pcb c);
  ctx_tx : 0 <= tx_offset c <= tx_len c /\ tx_len c < 2 ^ 32
}.
End Context.
Arguments tcp_ctx _ : clear implicits.
Arguments tcp_ctx {_}.

(** * An lwIP that takes all data *)

(** The bytes taken, and whether all of them are acknowledged. *)
Definition all_taken : Lwip := {|
  pcb := list Z * bool;
  tcp_sndbuf _ := 65535;
  tcp_write p data _ := (ERR_OK, (p.1 ++ data, false));
  tcp_output p := p;
  tcp_drained p := p.2;
  tcp_recved p _ := p
|}.

Lemma all_taken_spec : @LwipSpec all_taken.
Proof. refine {| tcp_accepted := (fst : @pcb all_taken -> list Z) |}; cbn; try done; lia. Defined.
