(* ===== verification/BgpMessage.v ===== *)
(** The BGP session and its messages: the data of bgp_def.h, the messages
    bgp_message.c writes, and the file of raw updates (bgp_raw_update.c).

    The session keeps a log of its calls to the timers and to the traffic switch,
    in the order they are made, and counts how often it reads the clock.  Its
    read buffer is kept beside it in BgpReceive.v, as no operation on messages
    uses it.  Names, addresses and the log lines are left out. *)
From coqutil Require Import Datatypes.RecordSetters.
From S2P Require Import Prelude.
From S2P Require Import Const.
From S2P Require Import ConstApp.
From S2P Require Import Utils.
From S2P Require Import Timer.
From S2P Require Import Tcp.
Import RecordSetters.DoubleBraceUpdate.
From stdpp Require Import list strings.
Import BeUint IoBuffer.
Open Scope Z_scope.

(** * Data *)

Inductive bgp_state :=
| BGP_CLOSED
| BGP_IDLE
| BGP_CONNECT
| BGP_ACTIVE
| BGP_OPENSENT
| BGP_OPENCONFIRM
| BGP_ESTABLISHED
| BGP_CLOSING.

#[export] Instance bgp_state_eq_dec : EqDecision bgp_state.
Proof. solve_decision. Defined.

(** The value of the enumeration, for its comparisons. *)
Definition state_val (s : bgp_state) : Z :=
  match s with
  | BGP_CLOSED => 0 | BGP_IDLE => 1 | BGP_CONNECT => 2 | BGP_ACTIVE => 3
  | BGP_OPENSENT => 4 | BGP_OPENCONFIRM => 5 | BGP_ESTABLISHED => 6 | BGP_CLOSING => 7
  end.

(** [raw_addr] is the address of the buffer. *)
Record bgp_raw_update := mk_raw_update {
  raw_addr : Z;
  raw_buf : list Z;
  raw_len : Z;
  raw_updates : Z
}.

Record bgp_config := mk_bgp_config {
  cfg_id : list Z;
  cfg_local_as : Z;
  cfg_hold_time : Z;
  cfg_teardown_time : Z;
  cfg_family : Z;
  cfg_extended_nexthop : Z;
  cfg_reconnect : bool;
  cfg_start_traffic : bool
}.

Inductive bgp_timer := connect_timer | keepalive_timer | hold_timer | close_timer | update_timer | teardown_timer.
Inductive bgp_job := connect_job | keepalive_job | hold_timer_job | close_job | update_job | teardown_job.

(** [ActOneShot]: [timer->periodic = false]. *)
Inductive action :=
| ActAdd (t : bgp_timer) (sec nsec : Z) (job : bgp_job)
| ActAddPeriodic (t : bgp_timer) (sec nsec : Z) (job : bgp_job)
| ActDel (t : bgp_timer)
| ActOneShot (t : bgp_timer)
| ActTrafficEnable.

Record bgp_stats := mk_bgp_stats {
  st_message_rx : Z;
  st_message_tx : Z;
  st_keepalive_rx : Z;
  st_keepalive_tx : Z;
  st_update_rx : Z;
  st_update_tx : Z
}.

Section Session.
Context `{Lwip}.

Record bgp_session := mk_bgp_session {
  s_config : bgp_config;
  s_ipv6 : bool;
  s_tcpc : option tcp_ctx;
  s_write_buf : io_buffer;
  s_state : bgp_state;
  s_peer_as : Z;
  s_peer_id : Z;
  s_peer_hold_time : Z;
  s_stats : bgp_stats;
  s_raw_update_start : option bgp_raw_update;
  s_raw_update : option bgp_raw_update;
  s_raw_update_sending : bool;
  s_established_timestamp : timespec;
  s_update_start_timestamp : timespec;
  s_update_stop_timestamp : timespec;
  s_update_duration : timespec;
  s_teardown : bool;
  s_error_code : Z;
  s_error_subcode : Z;
  s_actions : list action;
  s_ticks : nat
}.

Definition act (a : action) (s : bgp_session) : bgp_session := s {{ s_actions ::= (fun l => l ++ [a]) }}.

(** * Messages

    The return value of a push is ignored: what does not fit is left out. *)

Definition push (n v : Z) (b : io_buffer) : option io_buffer := '(_, b) ← push_be_uint b n v; Some b.

(** [write_be_uint(buffer->data + pos, n, v)] *)
Definition write_at (pos n v : Z) (b : io_buffer) : option io_buffer :=
  '(_, tail) ← write_be_uint (drop (Z.to_nat pos) (io_data b)) n v;
  Some (mk_io_buffer (take (Z.to_nat pos) (io_data b) ++ tail) (io_start_idx b) (io_idx b) (io_size b)).

Definition push_as4_capability (asn : Z) (b : io_buffer) : option io_buffer :=
  b ← push 1 2 b;
  b ← push 1 0 b;
  let cap_idx := io_idx b in
  b ← push 1 65 b;
  b ← push 1 4 b;
  b ← push 4 asn b;
  let length := u32 (io_idx b - cap_idx) in
  write_at (cap_idx - 1) 1 length b.

Definition push_mp_capability (afi safi : Z) (b : io_buffer) : option io_buffer :=
  b ← push 1 2 b;
  b ← push 1 0 b;
  let cap_idx := io_idx b in
  b ← push 1 1 b;
  b ← push 1 4 b;
  b ← push 2 afi b;
  b ← push 1 0 b;
  b ← push 1 safi b;
  let length := u32 (io_idx b - cap_idx) in
  write_at (cap_idx - 1) 1 length b.

Definition push_en_capability (afi safi nh_afi : Z) (b : io_buffer) : option io_buffer :=
  b ← push 1 2 b;
  b ← push 1 0 b;
  let cap_idx := io_idx b in
  b ← push 1 5 b;
  b ← push 1 6 b;
  b ← push 2 afi b;
  b ← push 2 safi b;
  b ← push 2 nh_afi b;
  let length := u32 (io_idx b - cap_idx) in
  write_at (cap_idx - 1) 1 length b.

(** The capability when the bit of the family is set. *)
Definition push_if (word bit : Z) (f : io_buffer -> option io_buffer) (b : io_buffer) : option io_buffer :=
  if Z.land word bit =? 0 then Some b else f b.

Definition MARKER : Z := 0xffffffffffffffff.

Definition push_families (family : Z) (b : io_buffer) : option io_buffer :=
  b ← push_if family BGP_IPV4_UC (push_mp_capability 1 1) b;
  b ← push_if family BGP_IPv6_UC (push_mp_capability 2 1) b;
  b ← push_if family BGP_IPv4_MC (push_mp_capability 1 2) b;
  b ← push_if family BGP_IPv6_MC (push_mp_capability 2 2) b;
  b ← push_if family BGP_IPv4_LU (push_mp_capability 1 4) b;
  b ← push_if family BGP_IPv6_LU (push_mp_capability 2 4) b;
  b ← push_if family BGP_IPv4_VPN_UC (push_mp_capability 1 128) b;
  b ← push_if family BGP_IPv6_VPN_UC (push_mp_capability 2 128) b;
  b ← push_if family BGP_IPv4_VPN_MC (push_mp_capability 1 129) b;
  b ← push_if family BGP_IPv6_VPN_MC (push_mp_capability 2 129) b;
  b ← push_if family BGP_IPv4_FLOW (push_mp_capability 1 133) b;
  b ← push_if family BGP_IPv6_FLOW (push_mp_capability 2 133) b;
  push_if family BGP_EVPN (push_mp_capability 25 70) b.

Definition bgp_push_open_message (config : bgp_config) (b : io_buffer) : option io_buffer :=
  if u32 (io_size b - BGP_MIN_MESSAGE_SIZE) <? io_idx b then Some b
  else
    let open_start_idx := io_idx b in
    b ← push 8 MARKER b;
    b ← push 8 MARKER b;
    b ← push 2 0 b;
    b ← push 1 BGP_MSG_OPEN b;
    b ← push 1 4 b;
    b ← (if 65535 <? cfg_local_as config then push 2 23456 b else push 2 (cfg_local_as config) b);
    b ← push 2 (cfg_hold_time config) b;
    '(_, b) ← push_data b (cfg_id config) 4;
    b ← push 1 0 b;
    let opt_parms_idx := io_idx b in
    b ← push_as4_capability (cfg_local_as config) b;
    b ← push_families (cfg_family config) b;
    b ← push_if (cfg_extended_nexthop config) BGP_IPV4_UC (push_en_capability 1 1 2) b;
    b ← push_if (cfg_extended_nexthop config) BGP_IPv4_VPN_UC (push_en_capability 1 128 2) b;
    let opt_parms_length := u32 (io_idx b - opt_parms_idx) in
    b ← write_at (opt_parms_idx - 1) 1 opt_parms_length b;
    let length := u32 (io_idx b - open_start_idx) in
    write_at (open_start_idx + 16) 2 length b.

Definition bgp_push_keepalive_message (b : io_buffer) : option io_buffer :=
  if u32 (io_size b - BGP_MIN_MESSAGE_SIZE) <? io_idx b then Some b
  else
    let keepalive_start_idx := io_idx b in
    b ← push 8 MARKER b;
    b ← push 8 MARKER b;
    b ← push 2 0 b;
    b ← push 1 BGP_MSG_KEEPALIVE b;
    let length := u32 (io_idx b - keepalive_start_idx) in
    write_at (keepalive_start_idx + 16) 2 length b.

Definition bgp_push_notification_message (error_code error_subcode : Z) (b : io_buffer) : option io_buffer :=
  if u32 (io_size b - BGP_MIN_MESSAGE_SIZE) <? io_idx b then Some b
  else
    let notification_start_idx := io_idx b in
    b ← push 8 MARKER b;
    b ← push 8 MARKER b;
    b ← push 2 0 b;
    b ← push 1 BGP_MSG_NOTIFICATION b;
    b ← push 1 error_code b;
    b ← push 1 error_subcode b;
    let length := u32 (io_idx b - notification_start_idx) in
    write_at (notification_start_idx + 16) 2 length b.
End Session.
