(* ===== verification/BgpSession.v ===== *)
(** The BGP session of bgp_session.c: the state machine, its timer jobs, the
    transmit path through the TCP context, and the handlers of bgp.c and
    bgp_ctrl.c that stop, restart or feed a session.

    [bgp_session] is the session without its read buffer; [bgp] has both.  A
    timer job gets the timer that fires; the calls of the timers are logged in
    the session. *)
From coqutil Require Import Datatypes.RecordSetters.
From S2P Require Import Prelude.
From S2P Require Import Const.
From S2P Require Import ConstApp.
From S2P Require Import Utils.
From S2P Require Import Timer.
From S2P Require Import Tcp.
From S2P Require Import BgpMessage.
Import RecordSetters.DoubleBraceUpdate.
From stdpp Require Import list strings.
Import BeUint IoBuffer.
Open Scope Z_scope.

Section Session.
Context `{Lwip} (clock : nat -> timespec).

Definition bgp_clock (s : bgp_session) : timespec * bgp_session := (clock (s_ticks s), s {{ s_ticks ::= S }}).

(** [counter++] of a [uint32_t]. *)
Definition inc (x : Z) : Z := u32 (x + 1).

(** * Transmit *)

(** The address of [write_buf.data]; those of raw updates are others. *)
Definition WRITE_BUF : Z := 0.

Definition bgp_mem (s : bgp_session) (addr : Z) : option (list Z) :=
  if addr =? WRITE_BUF then Some (io_data (s_write_buf s))
  else r ← s_raw_update s; if addr =? raw_addr r then Some (raw_buf r) else None.

Definition tcp_sending (c : tcp_ctx) : bool := bool_decide (tcp_state c = BBL_TCP_STATE_SENDING).

Definition bgp_session_reset_write_buffer (s : bgp_session) : bgp_session :=
  if match s_tcpc s with Some c => tcp_sending c | None => false end then s
  else s {{ s_write_buf := mk_io_buffer (io_data (s_write_buf s)) 0 0 (io_size (s_write_buf s)) }}.

(** The transmission of a raw update is done: the callback [idle_cb]. *)
Definition bgp_raw_update_stop_cb (s : bgp_session) : option bgp_session :=
  c ← s_tcpc s;
  let s := s {{ s_tcpc := Some (c {{ tcp_idle_cb := false }}) }} in
  let (now, s) := bgp_clock s in
  r ← s_raw_update s;
  let s := s {{ s_update_stop_timestamp := now ;
                s_update_duration := timespec_sub now (s_update_start_timestamp s) ;
                s_raw_update_sending := false ;
                s_stats := (s_stats s) {{ st_message_tx := u32 (st_message_tx (s_stats s) + raw_updates r) ;
                                        st_update_tx := u32 (st_update_tx (s_stats s) + raw_updates r) }} }} in
  Some (if cfg_start_traffic (s_config s) then act ActTrafficEnable s else s).

(** [bbl_tcp_send] on the session's context, with the callback it may call. *)
Definition session_tcp_send (addr len : Z) (s : bgp_session) : option (bgp_session * bool) :=
  '(c, ok, idle) ← bbl_tcp_send (bgp_mem s) (s_tcpc s) addr len;
  let s := s {{ s_tcpc := Some c }} in
  if (idle : bool) then s ← bgp_raw_update_stop_cb s; Some (s, ok) else Some (s, ok).

Definition bgp_session_send (s : bgp_session) : option (bgp_session * bool) :=
  match s_tcpc s with
  | Some c =>
      if tcp_sending c && bool_decide (tx_buf c = Some WRITE_BUF) && (tx_len c <? io_idx (s_write_buf s))
      then Some (s {{ s_tcpc := Some (c {{ tx_len := io_idx (s_write_buf s) }}) }}, true)
      else session_tcp_send WRITE_BUF (io_idx (s_write_buf s)) s
  | None => session_tcp_send WRITE_BUF (io_idx (s_write_buf s)) s
  end.

(** Reset the buffer, push a message, send it. *)
Definition send_message (push_message : io_buffer -> option io_buffer) (s : bgp_session) : option (bgp_session * bool) :=
  let s := bgp_session_reset_write_buffer s in
  b ← push_message (s_write_buf s);
  bgp_session_send (s {{ s_write_buf := b }}).

Definition count_message_tx (s : bgp_session) : bgp_session :=
  s {{ s_stats := (s_stats s) {{ st_message_tx ::= inc }} }}.
Definition count_keepalive_tx (s : bgp_session) : bgp_session :=
  s {{ s_stats := (s_stats s) {{ st_message_tx ::= inc ; st_keepalive_tx ::= inc }} }}.

(** * State changes *)

Definition bgp_session_state_opensent (s : bgp_session) : option bgp_session :=
  '(s, _) ← send_message (bgp_push_open_message (s_config s)) s;
  Some (count_message_tx s).

Definition bgp_session_state_openconfirm (s : bgp_session) : option bgp_session :=
  '(s, _) ← send_message bgp_push_keepalive_message s;
  Some (count_keepalive_tx s).

Definition bgp_session_state_established (s : bgp_session) : option bgp_session :=
  let (now, s) := bgp_clock s in
  let s := s {{ s_established_timestamp := now }} in
  let keepalive_interval :=
    if s_peer_hold_time s <? cfg_hold_time (s_config s)
    then s_peer_hold_time s / 2 else cfg_hold_time (s_config s) / 2 in
  let keepalive_interval := if keepalive_interval =? 0 then 1 else keepalive_interval in
  let s := act (ActAddPeriodic keepalive_timer keepalive_interval 0 keepalive_job) s in
  Some (act (ActAdd update_timer 0 0 update_job) s).

Definition bgp_session_state_change (new_state : bgp_state) (s : bgp_session) : option bgp_session :=
  if decide (s_state s = new_state) then Some s
  else
    let s := s {{ s_state := new_state }} in
    match new_state with
    | BGP_OPENSENT => bgp_session_state_opensent s
    | BGP_OPENCONFIRM => bgp_session_state_openconfirm s
    | BGP_ESTABLISHED => bgp_session_state_established s
    | _ => Some s
    end.

(** * Closing *)

Definition bgp_session_close (s : bgp_session) : option bgp_session :=
  let s := act (ActDel connect_timer) s in
  let s := act (ActDel keepalive_timer) s in
  let s := act (ActDel hold_timer) s in
  let s := act (ActDel update_timer) s in
  if (state_val BGP_CONNECT <? state_val (s_state s)) && (state_val (s_state s) <? state_val BGP_CLOSING) &&
     (0 <? s_error_code s)
  then
    '(s, _) ← send_message (bgp_push_notification_message (s_error_code s) (s_error_subcode s)) s;
    s ← bgp_session_state_change BGP_CLOSING (count_message_tx s);
    Some (act (ActAdd close_timer 3 0 close_job) s)
  else Some (act (ActAdd close_timer 0 0 close_job) s).

(** [if(!session->error_code) { ... }] *)
Definition set_error (code subcode : Z) (s : bgp_session) : bgp_session :=
  if s_error_code s =? 0 then s {{ s_error_code := code ; s_error_subcode := subcode }} else s.

Definition bgp_session_hold_timer_job (s : bgp_session) : option bgp_session :=
  bgp_session_close (set_error 4 0 s).

Definition bgp_restart_hold_timer (timeout : Z) (s : bgp_session) : bgp_session :=
  act (ActAdd hold_timer timeout 0 hold_timer_job) s.

Definition bgp_error_cb (s : bgp_session) : option bgp_session :=
  bgp_session_close (s {{ s_error_code := 0 }}).

Definition bgp_connected_cb (s : bgp_session) : option bgp_session := bgp_session_state_change BGP_OPENSENT s.

(** * Timer jobs *)

Definition bgp_session_keepalive_job (s : bgp_session) : option bgp_session :=
  if decide (s_state s = BGP_ESTABLISHED) then
    match s_tcpc s with
    | Some c =>
        if decide (tcp_state c = BBL_TCP_STATE_IDLE) then
          '(s, sent) ← send_message bgp_push_keepalive_message s;
          Some (if (sent : bool) then count_keepalive_tx s else s)
        else Some s
    | None => Some s
    end
  else Some s.

(** The retry is armed on [connect_timer]. *)
Definition bgp_session_update_job (timer : bgp_timer) (s : bgp_session) : option bgp_session :=
  match decide (s_state s = BGP_ESTABLISHED), s_raw_update s, s_raw_update_sending s with
  | left _, Some r, false =>
      '(s, sent) ← session_tcp_send (raw_addr r) (raw_len r) s;
      if (sent : bool) then
        let s := s {{ s_raw_update_sending := true }} in
        let (now, s) := bgp_clock s in
        c ← s_tcpc s;
        let s := s {{ s_update_start_timestamp := now ; s_tcpc := Some (c {{ tcp_idle_cb := true }}) }} in
        Some (act (ActOneShot timer) s)
      else Some (act (ActAddPeriodic connect_timer 0 (250 * MSEC) update_job) s)
  | _, _, _ => Some (act (ActOneShot timer) s)
  end.

(** [connect] is the context [bbl_tcp_ipv4_connect] or [bbl_tcp_ipv6_connect] returns. *)
Definition bgp_session_connect_job (init_phase : bool) (connect : bool -> option tcp_ctx) (timer : bgp_timer)
    (s : bgp_session) : option bgp_session :=
  if init_phase then Some (act (ActAddPeriodic connect_timer 1 0 connect_job) s)
  else if decide (s_state s = BGP_IDLE) then
    let s := s {{ s_tcpc := connect (s_ipv6 s) }} in
    match s_tcpc s with
    | Some _ =>
        s ← bgp_session_state_change BGP_CONNECT s;
        Some (act (ActAddPeriodic connect_timer 60 0 connect_job) s)
    | None => Some (act (ActAddPeriodic connect_timer 5 0 connect_job) s)
    end
  else if decide (s_state s = BGP_ESTABLISHED) then Some (act (ActOneShot timer) s)
  else s ← bgp_session_close s; Some (act (ActOneShot timer) s).

(** * The session with its read buffer *)

Record bgp := mk_bgp { b_session : bgp_session; b_read_buf : io_buffer }.

Definition bgp_session_reset_read_buffer (b : io_buffer) : io_buffer :=
  mk_io_buffer (io_data b) 0 0 (io_size b).

Definition ts_zero : timespec := mk_ts 0 0.

Definition bgp_session_connect (delay : Z) (b : bgp) : option bgp :=
  let s := b_session b in
  if decide (s_state s = BGP_CLOSED) then
    let s := bgp_session_reset_write_buffer (s {{ s_tcpc := None }}) in
    let s := s {{ s_peer_as := 0 ; s_peer_id := 0 ; s_peer_hold_time := 0 ;
                  s_stats := mk_bgp_stats 0 0 0 0 0 0 ;
                  s_raw_update := s_raw_update_start s ; s_raw_update_sending := false ;
                  s_established_timestamp := ts_zero ;
                  s_update_start_timestamp := ts_zero ;
                  s_update_stop_timestamp := ts_zero ;
                  s_error_code := 0 ; s_error_subcode := 0 }} in
    s ← bgp_session_state_change BGP_IDLE s;
    Some (mk_bgp (act (ActAdd connect_timer delay 0 connect_job) s) (bgp_session_reset_read_buffer (b_read_buf b)))
  else Some b.

Definition bgp_session_close_job (b : bgp) : option bgp :=
  let s := b_session b in
  let s := if state_val BGP_IDLE <? state_val (s_state s) then s {{ s_tcpc := bbl_tcp_close (s_tcpc s) }} else s in
  s ← bgp_session_state_change BGP_CLOSED s;
  let b := mk_bgp s (b_read_buf b) in
  if negb (s_teardown s) && cfg_reconnect (s_config s) then bgp_session_connect 5 b else Some b.

(** * Stopping and feeding a session: bgp.c and bgp_ctrl.c, for one session of the list *)

Definition bgp_teardown (s : bgp_session) : option bgp_session :=
  if s_teardown s then Some s
  else
    s ← bgp_session_close (set_error 6 2 (s {{ s_teardown := true }}));
    Some (act (ActAdd teardown_timer (cfg_teardown_time (s_config s)) 0 teardown_job) s).

Definition bgp_ctrl_disconnect (s : bgp_session) : option bgp_session :=
  match s_state s with
  | BGP_CLOSED | BGP_CLOSING => Some s
  | _ => bgp_session_close (set_error 6 2 s)
  end.

Definition bgp_ctrl_raw_update (raw_update : bgp_raw_update) (s : bgp_session) : option bgp_session :=
  if s_raw_update_sending s then Some s
  else Some (act (ActAdd update_timer 0 0 update_job)
               (s {{ s_raw_update := Some raw_update ; s_update_start_timestamp := ts_zero }})).

(** [bgp_init] for one configuration; [data] is the memory [malloc] returns. *)
Definition bgp_init (config : bgp_config) (ipv6 : bool) (raw : option bgp_raw_update) (data data' : list Z) : option bgp :=
  bgp_session_connect 1
    (mk_bgp (mk_bgp_session config ipv6 None (mk_io_buffer data 0 0 BGP_BUF_SIZE) BGP_CLOSED 0 0 0 (mk_bgp_stats 0 0 0 0 0 0)
               raw raw false ts_zero ts_zero ts_zero ts_zero false 0 0 [] 0%nat)
            (mk_io_buffer data' 0 0 BGP_BUF_SIZE)).
End Session.
