(* ===== verification/BgpReceive.v ===== *)
(** The receive path of a BGP session (bgp_receive.c): the messages handled in
    place in the read buffer, the loop over the buffer, and the callback that
    fills it. *)
From coqutil Require Import Datatypes.RecordSetters.
From S2P Require Import Prelude.
From S2P Require Import Const.
From S2P Require Import ConstApp.
From S2P Require Import Utils.
From S2P Require Import Timer.
From S2P Require Import Tcp.
From S2P Require Import BgpMessage.
From S2P Require Import BgpSession.
Import RecordSetters.DoubleBraceUpdate.
From stdpp Require Import list strings.
Import BeUint IoBuffer.
Open Scope Z_scope.

Section Receive.
Context `{Lwip} (clock : nat -> timespec).

(** [read_be_uint(start+off, n)] *)
Definition rd (start : list Z) (off n : Z) : out Z := lift (read_be_uint (drop (Z.to_nat off) start) n).
(** [*(start+off)] *)
Definition rd8 (start : list Z) (off : Z) : out Z := lift (start !! Z.to_nat off).

Definition bgp_decode_error (s : bgp_session) : out bgp_session :=
  lift (bgp_session_close clock (set_error 1 2 s)).

Definition bgp_capability (start : list Z) (length : Z) (s : bgp_session) : out (bool * bgp_session) :=
  if length <? 2 then Ok (false, s)
  else
    cap_code ← rd start 0 1;
    cap_length ← rd start 1 1;
    if length <? cap_length + 2 then Ok (false, s)
    else if cap_code =? BGP_CAPABILITY_4_BYTE_AS then
      if negb (cap_length =? 4) then Ok (false, s)
      else peer_as ← rd start 2 4; Ok (true, s {{ s_peer_as := u32 peer_as }})
    else Ok (true, s).

(** A round of the loop over the optional parameters: the next index, or [None]
    when the message is rejected.  The index is a [uint8_t]. *)
Definition open_round (start : list Z) (length opt_idx : Z) (s : bgp_session) : out (option Z * bgp_session) :=
  opt_param_type ← rd start opt_idx 1;
  opt_param_length ← rd start (opt_idx + 1) 1;
  let opt_idx := u8 (opt_idx + 2) in
  if length <? opt_idx + opt_param_length then Ok (None, s)
  else
    '(ok, s) ← (if opt_param_type =? BGP_CAPABILITY
                then bgp_capability (drop (Z.to_nat opt_idx) start) opt_param_length s
                else Ok (true, s));
    if (ok : bool) then Ok (Some (u8 (opt_idx + opt_param_length)), s) else Ok (None, s).

Fixpoint open_params (fuel : nat) (start : list Z) (length opt_idx : Z) (s : bgp_session) : out (bool * bgp_session) :=
  if opt_idx + 2 <=? length then
    match fuel with
    | O => Diverge
    | S fuel =>
        '(next, s) ← open_round start length opt_idx s;
        match next with
        | Some opt_idx => open_params fuel start length opt_idx s
        | None => Ok (false, s)
        end
    end
  else Ok (true, s).

Definition bgp_open (fuel : nat) (start : list Z) (length : Z) (s : bgp_session) : out (bool * bgp_session) :=
  if length <? 29 then Ok (false, s)
  else
    peer_as ← rd start 20 2;
    hold_time ← rd start 22 2;
    id ← rd start 24 4;
    let s := s {{ s_peer_as := peer_as ; s_peer_hold_time := hold_time ; s_peer_id := id }} in
    opt_length ← rd start 28 1;
    if length <? opt_length + 29 then Ok (false, s)
    else
      '(ok, s) ← open_params fuel start length 29 s;
      if (ok : bool) then s ← lift (bgp_session_state_change clock BGP_OPENCONFIRM s); Ok (true, s)
      else Ok (false, s).

Definition bgp_notification (start : list Z) (length : Z) (s : bgp_session) : out (bool * bgp_session) :=
  if length <? 21 then Ok (false, s)
  else
    _ ← rd8 start 19;
    _ ← rd8 start 20;
    s ← lift (bgp_session_close clock (s {{ s_error_code := 0 }}));
    Ok (true, s).

(** The message at [start], of the given length: [false] when the loop returns. *)
Definition bgp_message (fuel : nat) (start : list Z) (length : Z) (s : bgp_session) : out (bool * bgp_session) :=
  type ← rd8 start 18;
  let s := s {{ s_stats := (s_stats s) {{ st_message_rx ::= inc }} }} in
  '(go, s) ←
    (if type =? BGP_MSG_OPEN then
       '(ok, s) ← bgp_open fuel start length s;
       if (ok : bool) then Ok (true, s) else s ← bgp_decode_error s; Ok (false, s)
     else if type =? BGP_MSG_NOTIFICATION then
       '(ok, s) ← bgp_notification start length s;
       if (ok : bool) then Ok (false, s) else s ← bgp_decode_error s; Ok (false, s)
     else if type =? BGP_MSG_KEEPALIVE then
       let s := s {{ s_stats := (s_stats s) {{ st_keepalive_rx ::= inc }} }} in
       if decide (s_state s = BGP_OPENCONFIRM)
       then s ← lift (bgp_session_state_change clock BGP_ESTABLISHED s); Ok (true, s)
       else Ok (true, s)
     else if type =? BGP_MSG_UPDATE then
       Ok (true, s {{ s_stats := (s_stats s) {{ st_update_rx ::= inc }} }})
     else Ok (true, s));
  if (go : bool) then Ok (true, bgp_restart_hold_timer (cfg_hold_time (s_config s)) s) else Ok (false, s).

Definition bgp_rebase_read_buffer (b : io_buffer) : option io_buffer :=
  let size := u32 (io_idx b - io_start_idx b) in
  if negb (size =? 0) then
    chunk ← region (io_data b) (io_start_idx b) size;
    Some (mk_io_buffer (chunk ++ drop (Z.to_nat size) (io_data b)) 0 size (io_size b))
  else Some (mk_io_buffer (io_data b) 0 size (io_size b)).

(** The loop with its exits: the buffer is rebased unless the loop returns. *)
Fixpoint bgp_read (fuel : nat) (b : bgp) : out bgp :=
  match fuel with
  | O => Diverge
  | S fuel =>
      let buffer := b_read_buf b in
      let start := drop (Z.to_nat (io_start_idx buffer)) (io_data buffer) in
      let size := u32 (io_idx buffer - io_start_idx buffer) in
      let finish := buffer ← lift (bgp_rebase_read_buffer buffer); Ok (mk_bgp (b_session b) buffer) in
      if size <? BGP_MIN_MESSAGE_SIZE then finish
      else
        length ← rd start 16 2;
        if (length <? BGP_MIN_MESSAGE_SIZE) || (BGP_MAX_MESSAGE_SIZE <? length)
        then s ← bgp_decode_error (b_session b); Ok (mk_bgp s buffer)
        else if size <? length then finish
        else
          '(go, s) ← bgp_message fuel start length (b_session b);
          if (go : bool) then bgp_read fuel (mk_bgp s (buffer {{ io_start_idx := u32 (io_start_idx buffer + length) }}))
          else Ok (mk_bgp s buffer)
  end.

(** [buf] is NULL or the received bytes. *)
Definition bgp_receive_cb (fuel : nat) (buf : option (list Z)) (b : bgp) : out bgp :=
  match buf with
  | Some buf =>
      let buffer := b_read_buf b in
      let len := Z.of_nat (length buf) in
      if io_size buffer <? u32 (io_idx buffer + len) then
        s ← lift (bgp_session_close clock (set_error 6 8 (b_session b))); Ok (mk_bgp s buffer)
      else
        if Z.of_nat (length (io_data buffer)) <? io_idx buffer + len then Fault
        else Ok (mk_bgp (b_session b)
               (with_tail buffer (buf ++ drop (length buf) (drop (Z.to_nat (io_idx buffer)) (io_data buffer)))
                  (u32 (io_idx buffer + len))))
  | None => bgp_read fuel b
  end.
End Receive.
