(* ===== verification/BgpFraming.v ===== *)
(** The receive path of BGP is correct for the stream: the messages a session
    handles do not depend on how TCP cuts the stream into segments. *)
From coqutil Require Import Datatypes.RecordSetters.
From S2P Require Import Prelude.
From S2P Require Import Const.
From S2P Require Import ConstApp.
From S2P Require Import Utils.
From S2P Require Import Timer.
From S2P Require Import Tcp.
From S2P Require Import BgpMessage.
From S2P Require Import BgpSession.
From S2P Require Import BgpReceive.
Import RecordSetters.DoubleBraceUpdate.
From stdpp Require Import list strings.
Import BeUint IoBuffer.
Open Scope Z_scope.

(** * Reads *)

Lemma rd_ok m off n :
  bytes m -> 0 <= off -> 1 <= n <= 8 -> off + n <= Z.of_nat (length m) ->
  exists v, rd m off n = Ok v /\ 0 <= v < 256 ^ n /\ forall rest, bytes rest -> rd (m ++ rest) off n = Ok v.
Proof.
  intros Hm Ho Hn Hl. unfold rd.
  exists (be_combine (take (Z.to_nat n) (drop (Z.to_nat off) m))). rewrite read_be_uint_spec; [|auto with bbl|lia|rewrite length_drop; lia].
  split; [done|]. split.
  - pose proof (be_combine_bound (take (Z.to_nat n) (drop (Z.to_nat off) m))) as B.
    rewrite length_take, length_drop in B. rewrite Nat.min_l, Z2Nat.id in B by lia. apply B. auto with bbl.
  - intros rest Hr. rewrite read_be_uint_spec;
      [|apply bytes_drop, bytes_app; done|lia|rewrite length_drop, length_app; lia].
    rewrite drop_app_le by lia. by rewrite take_app_le by (rewrite length_drop; lia).
Qed.

Lemma rd_be2 m off : bytes m -> 0 <= off -> off + 2 <= Z.of_nat (length m) ->
  rd m off 2 = Ok (be_combine (take 2 (drop (Z.to_nat off) m))).
Proof.
  intros. unfold rd. rewrite read_be_uint_spec; [done|auto with bbl|lia|rewrite length_drop; lia].
Qed.

(** [read_bind]: the first read of the right hand side is inside of the message. *)
Ltac read_bind v Hv Hr :=
  match goal with
  | Hm : bytes ?m |- _ = mbind _ (rd ?m ?off ?n) =>
      destruct (rd_ok m off n Hm) as (v & -> & Hv & Hr); [try lia..|]; cbn [mbind out_bind]
  end.

Section Framing.
Context `{Lwip} (clock : nat -> timespec).

(** * A message does not depend on the bytes behind it *)

Lemma bgp_capability_frame m rest n s :
  bytes m -> bytes rest -> n <= Z.of_nat (length m) -> bgp_capability (m ++ rest) n s = bgp_capability m n s.
Proof.
  intros Hm Hrest Hn. unfold bgp_capability. case_if; [done|].
  read_bind code Hc Hcr. rewrite Hcr by done. cbn [mbind out_bind].
  read_bind len Hl Hlr. rewrite Hlr by done. cbn [mbind out_bind].
  case_if; [done|]. case_if; [|done]. case_if; [done|]. read_bind asn Ha Har. by rewrite Har.
Qed.

Lemma open_round_frame m rest idx s :
  bytes m -> bytes rest -> 0 <= idx < 256 -> idx + 2 <= Z.of_nat (length m) ->
  open_round (m ++ rest) (Z.of_nat (length m)) idx s = open_round m (Z.of_nat (length m)) idx s.
Proof.
  intros Hm Hrest Hi Hl. unfold open_round.
  read_bind ty Ht Htr. rewrite Htr by done. cbn [mbind out_bind].
  read_bind pl Hp Hpr. rewrite Hpr by done. cbn [mbind out_bind].
  set (i := u8 (idx + 2)). assert (0 <= i < 256) by apply u8_range.
  case_if; [done|]. case_if; [|done].
  rewrite drop_app_le by lia. rewrite bgp_capability_frame; [done|auto with bbl|done|rewrite length_drop; lia].
Qed.

Lemma open_round_next m n idx s next s' :
  open_round m n idx s = Ok (Some next, s') -> 0 <= next < 256.
Proof.
  unfold open_round. destruct (rd m idx 1) as [ty| |]; try discriminate. cbn [mbind out_bind].
  destruct (rd m (idx + 1) 1) as [pl| |]; try discriminate. cbn [mbind out_bind]. case_if; [discriminate|].
  destruct (if ty =? _ then _ else _) as [[ok s1]| |]; try discriminate. cbn [mbind out_bind].
  destruct ok; intros [= <- <-]. apply u8_range.
Qed.

Lemma open_params_frame fuel m rest idx s :
  bytes m -> bytes rest -> 0 <= idx < 256 ->
  open_params fuel (m ++ rest) (Z.of_nat (length m)) idx s = open_params fuel m (Z.of_nat (length m)) idx s.
Proof.
  intros Hm Hrest. revert idx s. induction fuel as [|fuel IH]; intros idx s Hi; cbn [open_params]; [done|].
  case_if; [|done]. rewrite open_round_frame by done.
  destruct (open_round m _ idx s) as [[[next|] s1]| |] eqn:Er; try done. cbn [mbind out_bind].
  apply IH. by eapply open_round_next.
Qed.

Lemma bgp_open_frame fuel m rest s :
  bytes m -> bytes rest -> bgp_open clock fuel (m ++ rest) (Z.of_nat (length m)) s = bgp_open clock fuel m (Z.of_nat (length m)) s.
Proof.
  intros Hm Hrest. unfold bgp_open. case_if; [done|].
  read_bind asn H1 R1. rewrite R1 by done. cbn [mbind out_bind].
  read_bind hold H2 R2. rewrite R2 by done. cbn [mbind out_bind].
  read_bind pid H3 R3. rewrite R3 by done. cbn [mbind out_bind].
  read_bind ol H4 R4. rewrite R4 by done. cbn [mbind out_bind].
  case_if; [done|]. by rewrite open_params_frame.
Qed.

Lemma rd8_frame m rest off : 0 <= off < Z.of_nat (length m) -> rd8 (m ++ rest) off = rd8 m off.
Proof. intros. unfold rd8. by rewrite lookup_app_l by lia. Qed.

Lemma bgp_message_frame fuel m rest s :
  bytes m -> bytes rest -> 19 <= Z.of_nat (length m) ->
  bgp_message clock fuel (m ++ rest) (Z.of_nat (length m)) s = bgp_message clock fuel m (Z.of_nat (length m)) s.
Proof.
  intros Hm Hrest Hl. unfold bgp_message. rewrite rd8_frame by lia.
  destruct (rd8 m 18) as [ty| |]; [|done..]. cbn [mbind out_bind]. rewrite bgp_open_frame by done.
  f_equal. repeat case_if; try done. unfold bgp_notification. case_if; [done|]. by rewrite !rd8_frame by lia.
Qed.

(** * More fuel does not change a result *)

Lemma open_params_fuel f f' m n idx s r :
  open_params f m n idx s = Ok r -> (f <= f')%nat -> open_params f' m n idx s = Ok r.
Proof.
  revert f' idx s. induction f as [|f IH]; intros f' idx s; cbn [open_params]; intros Hr Hf.
  - destruct f'; cbn [open_params]; case_if; done.
  - destruct f' as [|f']; [lia|]. cbn [open_params]. case_if; [|done].
    destruct (open_round m n idx s) as [[[next|] s1]| |]; try done. cbn [mbind out_bind] in *. apply IH; [done|lia].
Qed.

Lemma bgp_message_fuel f f' m n s r :
  bgp_message clock f m n s = Ok r -> (f <= f')%nat -> bgp_message clock f' m n s = Ok r.
Proof.
  unfold bgp_message, bgp_open. intros Hr Hf.
  destruct (rd8 m 18) as [ty| |]; [|done..]. cbn [mbind out_bind] in *.
  destruct (ty =? BGP_MSG_OPEN); [|done]. case_if; [done|].
  destruct (rd m 20 2); try done. cbn [mbind out_bind] in *. destruct (rd m 22 2); try done. cbn [mbind out_bind] in *.
  destruct (rd m 24 4); try done. cbn [mbind out_bind] in *. destruct (rd m 28 1); try done. cbn [mbind out_bind] in *.
  case_if; [done|]. match type of Hr with context [open_params f m n 29 ?x] => destruct (open_params f m n 29 x) eqn:Eo end; try done.
  by rewrite (open_params_fuel f f' _ _ _ _ _ Eo Hf).
Qed.

(** * The stream *)

(** The bytes received and not yet handled. *)
Definition pending (b : io_buffer) : list Z :=
  take (Z.to_nat (io_idx b - io_start_idx b)) (drop (Z.to_nat (io_start_idx b)) (io_data b)).

Definition read_wf (b : io_buffer) : Prop := io_wf b /\ 0 <= io_start_idx b <= io_idx b.

Definition message_length (m : list Z) : Z := be_combine (take 2 (drop 16 m)).

(** A complete message, and the beginning of one. *)
Definition is_message (m : list Z) : Prop :=
  BGP_MIN_MESSAGE_SIZE <= Z.of_nat (length m) <= BGP_MAX_MESSAGE_SIZE /\ message_length m = Z.of_nat (length m).
Definition is_partial (t : list Z) : Prop :=
  Z.of_nat (length t) < BGP_MIN_MESSAGE_SIZE \/
  BGP_MIN_MESSAGE_SIZE <= message_length t <= BGP_MAX_MESSAGE_SIZE /\ Z.of_nat (length t) < message_length t.

(** The session handles the message, or the messages in turn, and goes on reading. *)
Definition handles (m : list Z) (s s' : bgp_session) : Prop :=
  exists fuel, bgp_message clock fuel m (Z.of_nat (length m)) s = Ok (true, s').

Inductive handles_all : list (list Z) -> bgp_session -> bgp_session -> Prop :=
| handles_nil s : handles_all [] s s
| handles_cons m ms s s1 s2 : is_message m -> handles m s s1 -> handles_all ms s1 s2 -> handles_all (m :: ms) s s2.

Lemma pending_length b : read_wf b -> Z.of_nat (length (pending b)) = io_idx b - io_start_idx b.
Proof. intros ((_ & Hl & Hi & _) & Hs). unfold pending. rewrite length_take, length_drop. lia. Qed.

Lemma pending_bytes b : read_wf b -> bytes (pending b).
Proof. intros ((Hb & _) & _). unfold pending. auto with bbl. Qed.

Lemma start_pending b : read_wf b ->
  drop (Z.to_nat (io_start_idx b)) (io_data b) = pending b ++ drop (Z.to_nat (io_idx b)) (io_data b).
Proof.
  intros ((_ & Hl & Hi & _) & Hs). unfold pending.
  rewrite <- (take_drop (Z.to_nat (io_idx b - io_start_idx b)) (drop (Z.to_nat (io_start_idx b)) (io_data b))) at 1.
  f_equal. rewrite drop_drop. f_equal. lia.
Qed.

Lemma message_length_app m rest : 18 <= Z.of_nat (length m) -> message_length (m ++ rest) = message_length m.
Proof. intros. unfold message_length. rewrite drop_app_le by lia. by rewrite take_app_le by (rewrite length_drop; lia). Qed.

(** The header the loop looks at. *)
Lemma read_length b : read_wf b -> 19 <= Z.of_nat (length (pending b)) ->
  rd (drop (Z.to_nat (io_start_idx b)) (io_data b)) 16 2 = Ok (message_length (pending b)).
Proof.
  intros Hw Hl. assert (Hb : bytes (io_data b)) by apply Hw.
  rewrite rd_be2; [|auto with bbl|lia|rewrite start_pending, length_app by done; lia].
  rewrite start_pending by done. change (be_combine (take 2 (drop (Z.to_nat 16) ?l))) with (message_length l).
  by rewrite message_length_app by lia.
Qed.

Lemma rebase_ok b : read_wf b -> exists b', bgp_rebase_read_buffer b = Some b' /\
  read_wf b' /\ io_start_idx b' = 0 /\ io_size b' = io_size b /\ pending b' = pending b.
Proof.
  intros Hw. pose proof Hw as ((Hb & Hl & Hi & Hs) & Hst). pose proof (pending_length b Hw) as Hp.
  unfold bgp_rebase_read_buffer. rewrite u32_small by lia. case_if.
  - unfold region. replace (_ <=? _) with true by lia. cbn [mbind option_bind].
    change (take _ (drop _ (io_data b))) with (pending b).
    eexists. split; [done|]. unfold read_wf, io_wf. cbn. split_and!; try lia.
    + apply bytes_app. split; [by apply pending_bytes|auto with bbl].
    + rewrite length_app, length_drop. lia.
    + unfold pending at 1. cbn. rewrite drop_0, take_app_exact; [done|lia].
  - eexists. split; [done|]. unfold read_wf, io_wf. cbn. split_and!; try done; try lia.
    unfold pending. cbn. by replace (Z.to_nat (io_idx b - io_start_idx b - 0)) with 0%nat by lia; replace (Z.to_nat (io_idx b - io_start_idx b)) with 0%nat by lia.
Qed.

Lemma read_partial b : read_wf (b_read_buf b) -> is_partial (pending (b_read_buf b)) ->
  exists buf, (forall fuel, bgp_read clock (S fuel) b = Ok (mk_bgp (b_session b) buf)) /\ read_wf buf /\ io_start_idx buf = 0 /\
    io_size buf = io_size (b_read_buf b) /\ pending buf = pending (b_read_buf b).
Proof.
  intros Hw Hp. destruct (rebase_ok _ Hw) as (buf & Er & Hr). exists buf. split; [|done]. intros fuel.
  pose proof (pending_length _ Hw) as Hl. destruct Hw as ((Hb & Hd & Hi & Hs) & Hst).
  cbn [bgp_read]. rewrite u32_small by lia. rewrite <- Hl, Er. cbn [lift mbind out_bind].
  case_if; [done|]. rewrite read_length by (done || lia). cbn [mbind out_bind].
  destruct Hp as [?|[??]]; [lia|]. replace (_ || _) with false by lia. by replace (_ <? _) with true by lia.
Qed.

Lemma read_message b m rest f s' :
  read_wf (b_read_buf b) -> pending (b_read_buf b) = m ++ rest -> is_message m ->
  bgp_message clock f m (Z.of_nat (length m)) (b_session b) = Ok (true, s') ->
  exists buf, (forall fuel, (f <= fuel)%nat -> bgp_read clock (S fuel) b = bgp_read clock fuel (mk_bgp s' buf)) /\
    read_wf buf /\ io_size buf = io_size (b_read_buf b) /\ pending buf = rest.
Proof.
  intros Hw Hp (Hml & Hlen) Hm. pose proof (pending_length _ Hw) as Hl.
  pose proof (pending_bytes _ Hw) as Hpb. rewrite Hp in Hpb. apply bytes_app in Hpb as [Hmb Hrb].
  pose proof (start_pending _ Hw) as Hst. pose proof (read_length _ Hw) as Hrl.
  rewrite Hp in Hl, Hrl. rewrite length_app in Hl, Hrl.
  pose proof Hw as ((Hb & Hd & Hi & Hs) & Hsi). unfold BGP_MIN_MESSAGE_SIZE, BGP_MAX_MESSAGE_SIZE in *.
  eexists. split.
  - intros fuel Hf. cbn [bgp_read]. rewrite u32_small by lia. unfold BGP_MIN_MESSAGE_SIZE, BGP_MAX_MESSAGE_SIZE. replace (_ <? 19) with false by lia.
    rewrite Hrl by lia. cbn [mbind out_bind]. rewrite message_length_app, Hlen by lia.
    replace (_ || _) with false by lia. replace (_ <? _) with false by lia.
    rewrite Hst, Hp, <- app_assoc. rewrite bgp_message_frame; [|done|apply bytes_app; auto with bbl|lia].
    rewrite (bgp_message_fuel _ _ _ _ _ _ Hm Hf). cbn [mbind out_bind]. reflexivity.
  - destruct (b_read_buf b) as [data start idx size]. unfold read_wf, io_wf, pending in *. cbn in *. unfold constant. rewrite u32_small by lia.
    split_and!; try done; try lia.
    rewrite <- (drop_app_exact m rest (length m)) by done. rewrite <- Hp, skipn_firstn_comm, drop_drop. f_equal; [|f_equal]; lia.
Qed.

Lemma read_messages ms b tail s' :
  handles_all ms (b_session b) s' -> read_wf (b_read_buf b) -> pending (b_read_buf b) = concat ms ++ tail -> is_partial tail ->
  exists N buf, (forall fuel, (N <= fuel)%nat -> bgp_read clock fuel b = Ok (mk_bgp s' buf)) /\
    read_wf buf /\ io_start_idx buf = 0 /\ io_size buf = io_size (b_read_buf b) /\ pending buf = tail.
Proof.
  revert b. induction ms as [|m ms IH]; intros b Hh Hw Hp Ht; inversion Hh as [|? ? ? s1 ? Hm Hs1 Hms]; subst.
  - destruct (read_partial b Hw) as (buf & E & Hb); [by rewrite Hp|].
    exists 1%nat, buf. split; [intros [|fuel] ?; [lia|done]|]. by rewrite Hp in Hb.
  - cbn [concat] in Hp. rewrite <- app_assoc in Hp. destruct Hs1 as [f Hf].
    destruct (read_message b m _ f s1 Hw Hp Hm Hf) as (buf & E & Hw1 & Hsz & Hp1).
    destruct (IH (mk_bgp s1 buf) Hms Hw1 Hp1 Ht) as (N & buf' & E' & ? & ? & Hsz' & ?).
    exists (S (N + f)), buf'. split; [|cbn in Hsz'; split_and!; congruence].
    intros [|fuel] Hfuel; [lia|]. rewrite E by lia. apply E'. lia.
Qed.

(** * Segments *)

(** The segments of the stream, each handed over by lwIP as one buffer. *)
Fixpoint deliver (fuel : nat) (segments : list (list Z)) (b : bgp) : out bgp :=
  match segments with
  | [] => Ok b
  | c :: cs => b ← bbl_tcp_recv_cb (bgp_receive_cb clock fuel) [c] ERR_OK b; deliver fuel cs b
  end.

(** What is pending is the beginning of a message and fits with any segment. *)
Definition read_ready (b : io_buffer) : Prop :=
  read_wf b /\ io_start_idx b = 0 /\ io_size b = BGP_BUF_SIZE /\ is_partial (pending b).

Lemma receive_segment c b : read_ready (b_read_buf b) -> bytes c -> Z.of_nat (length c) < 65536 ->
  exists buf, (forall fuel, bgp_receive_cb clock fuel (Some c) b = Ok (mk_bgp (b_session b) buf)) /\
    read_wf buf /\ io_start_idx buf = 0 /\ io_size buf = BGP_BUF_SIZE /\ pending buf = pending (b_read_buf b) ++ c.
Proof.
  intros (Hw & H0 & Hz & Hp) Hc Hl. pose proof (pending_length _ Hw) as Hpl.
  assert (Hroom : Z.of_nat (length (pending (b_read_buf b))) < 4096).
  { destruct Hp as [?|[??]]; unfold BGP_MIN_MESSAGE_SIZE, BGP_MAX_MESSAGE_SIZE in *; lia. }
  pose proof Hw as ((Hb & Hd & Hi & Hs) & _). unfold BGP_BUF_SIZE in Hz.
  destruct (with_tail_spec (b_read_buf b) c (proj1 Hw) Hc) as (W1 & W2 & W3); [lia|].
  eexists. split.
  { intros fuel. unfold bgp_receive_cb. rewrite u32_small by lia. replace (_ <? _) with false by lia.
    replace (_ <? _) with false by lia. reflexivity. }
  rewrite u32_small in W1, W2, W3 by lia.
  destruct (b_read_buf b) as [data start idx size]. cbn in *. subst. unfold read_wf, pending, io_written in *. cbn in *.
  split_and!; try done; try lia. by rewrite !drop_0, !Z.sub_0_r in *.
Qed.

Lemma partial_prefix p rest m : p ++ rest = m -> is_partial m \/ is_message m /\ rest <> [] -> is_partial p.
Proof.
  intros <- Hm. unfold is_partial, is_message, BGP_MIN_MESSAGE_SIZE, BGP_MAX_MESSAGE_SIZE in *. rewrite length_app in Hm.
  destruct (decide (Z.of_nat (length p) < 19)) as [|Hp]; [by left|right].
  rewrite message_length_app in Hm by lia. destruct Hm as [[?|[??]]|[[??] Hr]]; [lia..|].
  destruct rest; [done|]. cbn in *. lia.
Qed.

Lemma app_eq_length {A} (a b c d : list A) : a ++ b = c ++ d -> (length a <= length c)%nat -> c = a ++ drop (length a) c.
Proof.
  intros E Hl. rewrite <- (take_drop (length a) c) at 1. f_equal.
  transitivity (take (length a) (a ++ b)); [rewrite E; by rewrite take_app_le by lia|by apply take_app_exact].
Qed.

(** Where the first bytes of a stream end, complete messages come before the beginning of one. *)
Lemma split_stream ms p rest tail :
  Forall is_message ms -> is_partial tail -> p ++ rest = concat ms ++ tail ->
  exists ms1 ms2 t, ms = ms1 ++ ms2 /\ p = concat ms1 ++ t /\ is_partial t /\ t ++ rest = concat ms2 ++ tail.
Proof.
  intros Hms Ht. revert p. induction Hms as [|m ms Hm Hms IH]; intros p E; cbn [concat] in E.
  { exists [], [], p. split_and!; try done. apply (partial_prefix p rest tail); eauto. }
  rewrite <- app_assoc in E. destruct (decide (length m <= length p)%nat) as [Hl|Hl].
  - assert (Ep : p = m ++ drop (length m) p) by exact (app_eq_length _ _ _ _ (eq_sym E) Hl).
    rewrite Ep, <- app_assoc in E. apply app_inv_head in E.
    destruct (IH _ E) as (ms1 & ms2 & t & -> & Ed & Hpt & Et). exists (m :: ms1), ms2, t.
    split_and!; try done. rewrite Ep, Ed. cbn. by rewrite app_assoc.
  - exists [], (m :: ms), p. split_and!; try done; [|cbn [concat]; by rewrite <- app_assoc].
    assert (Em : m = p ++ drop (length p) m) by (eapply app_eq_length; [done|lia]).
    apply (partial_prefix p (drop (length p) m) m); [done|]. right. split; [done|].
    intros Hd. apply (f_equal length) in Hd. rewrite length_drop in Hd. cbn in Hd. lia.
Qed.

Lemma handles_all_app ms1 ms2 s s' :
  handles_all (ms1 ++ ms2) s s' -> exists s1, handles_all ms1 s s1 /\ handles_all ms2 s1 s'.
Proof.
  revert s. induction ms1 as [|m ms1 IH]; intros s Hh; [by exists s; split; [constructor|]|].
  inversion Hh as [|? ? ? s1 ? Hm Hs1 Hms]; subst. destruct (IH _ Hms) as (s2 & ? & ?). exists s2. split; [by econstructor|done].
Qed.

Lemma handles_all_messages ms s s' : handles_all ms s s' -> Forall is_message ms.
Proof. induction 1; by constructor. Qed.

Lemma deliver_stream segments ms b tail s' :
  handles_all ms (b_session b) s' -> read_ready (b_read_buf b) -> is_partial tail ->
  Forall (fun c => bytes c /\ Z.of_nat (length c) < 65536) segments ->
  pending (b_read_buf b) ++ concat segments = concat ms ++ tail ->
  exists N b', (forall fuel, (N <= fuel)%nat -> deliver fuel segments b = Ok b') /\
    b_session b' = s' /\ read_ready (b_read_buf b') /\ pending (b_read_buf b') = tail.
Proof.
  intros Hh Hr Ht Hc. revert ms b Hh Hr. induction Hc as [|c cs [Hc Hcl] Hcs IH]; intros ms b Hh Hr E; cbn [concat] in E.
  - rewrite app_nil_r in E. exists 0%nat, b.
    destruct ms as [|m ms]; [inversion Hh; subst; done|]. exfalso.
    inversion Hh as [|? ? ? s1 ? [Hm1 Hm2] _ _]; subst. destruct Hr as (_ & _ & _ & Hp).
    rewrite E in Hp. cbn [concat] in Hp. rewrite <- app_assoc in Hp. unfold is_partial, BGP_MIN_MESSAGE_SIZE, BGP_MAX_MESSAGE_SIZE in *.
    rewrite length_app, message_length_app in Hp by lia. lia.
  - rewrite app_assoc in E.
    destruct (split_stream ms _ _ tail (handles_all_messages _ _ _ Hh) Ht E) as (ms1 & ms2 & t & -> & Ep & Hpt & Et).
    destruct (handles_all_app _ _ _ _ Hh) as (s1 & Hh1 & Hh2).
    destruct (receive_segment c b Hr Hc Hcl) as (buf & E0 & Hw & H0 & Hz & Hp). rewrite Ep in Hp.
    destruct (read_messages ms1 (mk_bgp (b_session b) buf) t s1 Hh1 Hw Hp Hpt) as (N1 & buf1 & E1 & Hw1 & H01 & Hz1 & Hp1).
    assert (Hr1 : read_ready buf1) by (unfold read_ready; rewrite Hp1, Hz1; done).
    destruct (IH ms2 (mk_bgp s1 buf1) Hh2 Hr1) as (N2 & b' & E2 & Hb'); [cbn; by rewrite Hp1|].
    exists (N1 + N2)%nat, b'. split; [|done]. intros fuel Hf. cbn [deliver bbl_tcp_recv_cb recv_loop].
    replace (ERR_OK =? ERR_OK) with true by done.
    rewrite E0. cbn [mbind out_bind bgp_receive_cb]. rewrite E1 by lia. cbn [mbind out_bind]. apply E2. lia.
Qed.

(** * The loop over the optional parameters *)

(** Only the peer's AS number changes. *)
Definition same_but_as (s s' : bgp_session) : Prop := exists asn, s' = s {{ s_peer_as := asn }}.

Lemma same_but_as_refl s : same_but_as s s.
Proof. exists (s_peer_as s). by destruct s. Qed.
Lemma same_but_as_trans s1 s2 s3 : same_but_as s1 s2 -> same_but_as s2 s3 -> same_but_as s1 s3.
Proof. intros [a ->] [b ->]. exists b. by destruct s1. Qed.

Lemma bgp_capability_ok start n s : bytes start -> n <= Z.of_nat (length start) ->
  exists ok s', bgp_capability start n s = Ok (ok, s') /\ same_but_as s s'.
Proof.
  intros Hs Hn. unfold bgp_capability. case_if; [eauto using same_but_as_refl|].
  destruct (rd_ok start 0 1 Hs) as (code & -> & _ & _); [lia..|]. cbn [mbind out_bind].
  destruct (rd_ok start 1 1 Hs) as (len & -> & ? & _); [lia..|]. cbn [mbind out_bind].
  do 3 (case_if; [try by eauto using same_but_as_refl|try by eauto using same_but_as_refl]).
  destruct (rd_ok start 2 4 Hs) as (asn & -> & _ & _); [lia..|]. eexists _, _. split; [done|by eexists].
Qed.

Lemma open_round_ok m n idx s : bytes m -> n <= Z.of_nat (length m) -> 0 <= idx < 256 -> idx + 2 <= n ->
  exists next s', open_round m n idx s = Ok (next, s') /\ same_but_as s s' /\
    forall i, next = Some i -> 0 <= i < 256 /\ (n <= 255 -> idx + 2 <= i <= n).
Proof.
  intros Hm Hn Hi Hl. unfold open_round.
  destruct (rd_ok m idx 1 Hm) as (ty & -> & _ & _); [lia..|]. cbn [mbind out_bind].
  destruct (rd_ok m (idx + 1) 1 Hm) as (pl & -> & Hpl & _); [lia..|]. cbn [mbind out_bind].
  set (i := u8 (idx + 2)). assert (0 <= i < 256) by apply u8_range.
  case_if; [eexists _, _; split; [done|]; split; [apply same_but_as_refl|discriminate]|].
  assert (Hc : exists ok s', (if ty =? BGP_CAPABILITY then bgp_capability (drop (Z.to_nat i) m) pl s else Ok (true, s)) = Ok (ok, s') /\ same_but_as s s').
  { case_if; [apply bgp_capability_ok; [auto with bbl|rewrite length_drop; lia]|eauto using same_but_as_refl]. }
  destruct Hc as (ok & s' & -> & Hs). cbn [mbind out_bind].
  destruct ok; eexists _, _; (split; [done|]; split; [done|]); [|discriminate].
  intros j [= <-]. split; [apply u8_range|]. intros Hn'. subst i. rewrite (u8_small (idx + 2)) in * by lia. rewrite u8_small by lia. lia.
Qed.

Lemma open_params_ok fuel m n idx s : bytes m -> n <= Z.of_nat (length m) -> 0 <= idx < 256 ->
  open_params fuel m n idx s = Diverge \/
  exists ok s', open_params fuel m n idx s = Ok (ok, s') /\ same_but_as s s'.
Proof.
  intros Hm Hn. revert idx s. induction fuel as [|fuel IH]; intros idx s Hi; cbn [open_params]; (case_if; [|right; eauto using same_but_as_refl]); [by left|].
  destruct (open_round_ok m n idx s Hm Hn Hi) as (next & s1 & -> & Hs & Hnext); [done|]. cbn [mbind out_bind].
  destruct next as [i|]; [|right; eauto]. destruct (IH i s1) as [?|(ok & s2 & E2 & Hs2)]; [by apply Hnext|by left|right].
  exists ok, s2. split; [done|]. by eapply same_but_as_trans.
Qed.

(** The index grows and stays below 256 while the message does. *)
Lemma open_params_terminates fuel m n idx s :
  bytes m -> n <= Z.of_nat (length m) -> n <= 255 -> 0 <= idx <= n -> n - idx < 2 * Z.of_nat (S fuel) ->
  open_params fuel m n idx s <> Diverge.
Proof.
  intros Hm Hn Hn'. revert idx s. induction fuel as [|fuel IH]; intros idx s Hi Hf; cbn [open_params]; (case_if; [|done]); [lia|].
  destruct (open_round_ok m n idx s Hm Hn) as (next & s1 & -> & Hs & Hnext); [lia..|]. cbn [mbind out_bind].
  destruct next as [i|]; [|done]. destruct (Hnext i eq_refl) as [_ Hi']. apply IH; lia.
Qed.
End Framing.

(** * Claims *)

(** C20. The messages a BGP session handles do not depend on the segments of the
    TCP stream: however the stream of complete messages [ms], each accepted by its handler, followed by the
    beginning [tail] of another one, is cut into segments of up to 65535 bytes, the
    session ends in the state it has after handling the messages of [ms] one
    after the other, with exactly [tail] left in its read buffer, and the read
    buffer is never exhausted. *)
Theorem bgp_stream_equivalence `{Lwip} (clock : nat -> timespec) (segments ms : list (list Z)) (tail : list Z) (b : bgp) (s' : bgp_session) :
  handles_all clock ms (b_session b) s' -> is_partial tail ->
  read_ready (b_read_buf b) -> Forall (fun c => bytes c /\ Z.of_nat (length c) < 65536) segments ->
  pending (b_read_buf b) ++ concat segments = concat ms ++ tail ->
  exists N b', (forall fuel, (N <= fuel)%nat -> deliver clock fuel segments b = Ok b') /\
    b_session b' = s' /\ read_ready (b_read_buf b') /\ pending (b_read_buf b') = tail.
Proof. intros Hh Ht Hr Hs E. by apply (deliver_stream clock segments ms b tail s'). Qed.

Definition demo_open : list Z := replicate 16 255 ++ [0; 29; 1; 4; 253; 232; 0; 90; 10; 0; 0; 2; 0].
Definition demo_keepalive : list Z := replicate 16 255 ++ [0; 19; 4].
Definition demo_clock (n : nat) : timespec := mk_ts (Z.of_nat n) 0.
Definition demo_config : bgp_config := mk_bgp_config [10; 0; 0; 1] 65000 90 5 1 0 true false.

(** A session that has sent its OPEN message. *)
Definition demo_session : @bgp_session all_taken :=
  mk_bgp_session demo_config false
    (Some (@mk_tcp_ctx all_taken false (Some ([], true)) false None 0 BBL_TCP_STATE_IDLE 0 None 0 0 0 0))
    (mk_io_buffer (replicate 64 0) 0 0 64) BGP_OPENSENT 0 0 0 (mk_bgp_stats 0 0 0 0 0 0) None None false
    ts_zero ts_zero ts_zero ts_zero false 0 0 [] 0%nat.

Definition demo_read_buf : io_buffer := mk_io_buffer (replicate (Z.to_nat BGP_BUF_SIZE) 0) 0 0 BGP_BUF_SIZE.

Lemma demo_read_ready : read_ready demo_read_buf /\ pending demo_read_buf = [].
Proof.
  unfold read_ready, read_wf, io_wf, is_partial, pending, demo_read_buf. cbn [io_data io_start_idx io_idx io_size].
  replace (Z.to_nat (0 - 0)) with 0%nat by done. rewrite take_0. rewrite length_replicate, Z2Nat.id by done. unfold BGP_BUF_SIZE. split_and!; try done; try lia.
  - apply bytes_replicate. lia.
  - left. done.
Qed.

Lemma bgp_stream_equivalence_witness :
  exists N b', (forall fuel, (N <= fuel)%nat ->
      deliver demo_clock fuel [take 10 demo_open; drop 10 demo_open ++ take 5 demo_keepalive; drop 5 demo_keepalive ++ [255; 255]]
        (mk_bgp demo_session demo_read_buf) = Ok b') /\
    s_state (b_session b') = BGP_ESTABLISHED /\ s_peer_as (b_session b') = 65000 /\ pending (b_read_buf b') = [255; 255].
Proof.
  destruct demo_read_ready as [Hr Hp].
  edestruct (bgp_stream_equivalence demo_clock
    [take 10 demo_open; drop 10 demo_open ++ take 5 demo_keepalive; drop 5 demo_keepalive ++ [255; 255]]
    [demo_open; demo_keepalive] [255; 255] (mk_bgp demo_session demo_read_buf)) as (N & b' & E & Hs & _ & Ht).
  - eapply handles_cons; [split; [vm_compute; split; discriminate|reflexivity]|exists 20%nat; vm_compute; reflexivity|].
    eapply handles_cons; [split; [vm_compute; split; discriminate|reflexivity]|exists 20%nat; vm_compute; reflexivity|]. constructor.
  - left. reflexivity.
  - exact Hr.
  - repeat (constructor; [split; [repeat constructor; lia|reflexivity]|]). constructor.
  - cbn [b_read_buf]. rewrite Hp. reflexivity.
  - exists N, b'. split; [exact E|]. rewrite Hs. split; [reflexivity|]. split; [reflexivity|exact Ht].
Defined.

(** The session with a small read buffer. *)
Definition demo_small : bgp := mk_bgp demo_session (mk_io_buffer (replicate 128 0) 0 0 128).

(** Received data that lwIP hands over as a chain of buffers is corrupted: the
    loop of [bbl_tcp_recv_cb] over the chain passes the first buffer of the chain
    each time.  A peer's OPEN and KEEPALIVE establish the session when they come in
    one buffer; the same bytes in two chained buffers are taken for a malformed
    message, and the session sends a notification and closes. *)
Theorem tcp_recv_chain_corrupts :
  exists c1 c2 b1 b2, c1 ++ c2 = demo_open ++ demo_keepalive /\
    bbl_tcp_recv_cb (bgp_receive_cb demo_clock 20) [c1 ++ c2] ERR_OK demo_small = Ok b1 /\ s_state (b_session b1) = BGP_ESTABLISHED /\
    bbl_tcp_recv_cb (bgp_receive_cb demo_clock 20) [c1; c2] ERR_OK demo_small = Ok b2 /\ s_state (b_session b2) = BGP_CLOSING /\
    s_error_code (b_session b2) = 1.
Proof.
  exists (take 24 (demo_open ++ demo_keepalive)), (drop 24 (demo_open ++ demo_keepalive)). eexists _, _.
  split; [by vm_compute|]. split; [by vm_compute|]. split; [by vm_compute|]. split; [by vm_compute|]. by vm_compute.
Qed.
