(* ===== verification/BgpTx.v ===== *)
(** The transmit path of BGP: the messages are appended to the write buffer, and
    what lwIP is given is the stream of the messages. *)
From coqutil Require Import Datatypes.RecordSetters.
From S2P Require Import Prelude.
From S2P Require Import Const.
From S2P Require Import ConstApp.
From S2P Require Import Utils.
From S2P Require Import Timer.
From S2P Require Import Tcp.
From S2P Require Import BgpMessage.
From S2P Require Import BgpSession.
Import RecordSetters.DoubleBraceUpdate.
From stdpp Require Import list strings.
Import BeUint IoBuffer.
Open Scope Z_scope.
#[local] Set Warnings "-clear-no-such-hyp".

(** * The write buffer *)

Lemma written_length b : io_wf b -> Z.of_nat (length (io_written b)) = io_idx b.
Proof. intros (_ & Hl & Hi & _). unfold io_written. rewrite length_take. lia. Qed.

Lemma written_bytes b : io_wf b -> bytes (io_written b).
Proof. intros (Hb & _). unfold io_written. auto with bbl. Qed.

(** [b'] is [b] with the bytes [bs] appended. *)
Definition appends (b : io_buffer) (bs : list Z) (b' : io_buffer) : Prop :=
  io_wf b' /\ io_size b' = io_size b /\ io_written b' = io_written b ++ bs.

Definition extends (b b' : io_buffer) : Prop := exists bs, appends b bs b'.

Lemma appends_nil b : io_wf b -> appends b [] b.
Proof. intros. unfold appends. by rewrite app_nil_r. Qed.

Lemma appends_app b bs b1 cs b2 : appends b bs b1 -> appends b1 cs b2 -> appends b (bs ++ cs) b2.
Proof. intros (W1 & S1 & E1) (W2 & S2 & E2). unfold appends. rewrite E2, E1, S2, S1. by rewrite app_assoc. Qed.

Lemma appends_idx b bs b' : io_wf b -> appends b bs b' -> io_idx b' = io_idx b + Z.of_nat (length bs).
Proof.
  intros Hw (W & _ & E). rewrite <- (written_length b'), <- (written_length b), E by done. rewrite length_app. lia.
Qed.

(** A push appends its bytes when they fit. *)
Lemma push_appends b n v : io_wf b -> 1 <= n <= 8 -> io_idx b + n <= io_size b ->
  exists b', push n v b = Some b' /\ appends b (be_split (Z.to_nat n) v) b'.
Proof.
  intros Hw Hn Hr. pose proof (push_be_uint_ok b n v Hw Hn) as P. unfold push_ok in P.
  rewrite be_split_length, Z2Nat.id, decide_True in P by lia. destruct P as (b' & Ep & W & E & S). unfold push. rewrite Ep.
  exists b'. split; [done|]. by split_and!.
Qed.

Lemma push_extends b n v : io_wf b -> 1 <= n <= 8 ->
  exists b', push n v b = Some b' /\ extends b b' /\ io_wf b' /\ io_size b' = io_size b /\ io_idx b <= io_idx b'.
Proof.
  intros Hw Hn. destruct (decide (io_idx b + n <= io_size b)) as [Hr|Hr].
  - destruct (push_appends b n v Hw Hn Hr) as (b' & E & A). exists b'. split; [done|]. pose proof (appends_idx _ _ _ Hw A).
    split; [by eexists|]. split; [apply A|]. split; [apply A|lia].
  - exists b. pose proof (push_be_uint_ok b n v Hw Hn) as P. unfold push_ok in P.
    rewrite be_split_length, Z2Nat.id, decide_False in P by lia. unfold push. rewrite P. split; [done|].
    split; [by exists []; apply appends_nil|]. split_and!; done || lia.
Qed.

(** An overwrite of bytes that are already there. *)
Lemma write_at_written b p x q n v :
  io_wf b -> io_written b = p ++ x ++ q -> n = Z.of_nat (length x) -> 1 <= n <= 8 ->
  exists b', write_at (Z.of_nat (length p)) n v b = Some b' /\ io_wf b' /\ io_size b' = io_size b /\ io_idx b' = io_idx b /\
    io_written b' = p ++ be_split (length x) v ++ q.
Proof.
  intros Hw E Hn Hr. pose proof (written_length b Hw) as Hl. rewrite E, !length_app in Hl.
  pose proof Hw as (Hb & Hd & Hi & Hs).
  assert (Ed : io_data b = p ++ x ++ q ++ drop (Z.to_nat (io_idx b)) (io_data b)).
  { rewrite <- (take_drop (Z.to_nat (io_idx b)) (io_data b)) at 1. unfold io_written in E. rewrite E. by rewrite <- !app_assoc. }
  set (r := drop _ _) in Ed. assert (Hrb : bytes r) by (subst r; auto with bbl).
  pose proof (written_bytes b Hw) as Hwb. rewrite E, !bytes_app in Hwb.
  unfold write_at. rewrite Nat2Z.id, Ed, drop_app_length, take_app_length.
  rewrite write_be_uint_spec by (rewrite ?length_app; lia). cbn [mbind option_bind].
  replace (Z.to_nat n) with (length x) by lia. rewrite drop_app_length.
  eexists. split; [done|]. unfold io_wf, io_written. cbn. split_and!; try done; try lia.
  - rewrite !bytes_app. split_and!; try done; naive_solver eauto with bbl.
  - apply (f_equal length) in Ed. rewrite !length_app in *. rewrite be_split_length. lia.
  - rewrite !app_assoc, take_app_exact; [by rewrite <- !app_assoc|]. rewrite !length_app, be_split_length. lia.
Qed.

(** * The messages *)

Definition header (len type : Z) : list Z := replicate 16 255 ++ be_split 2 len ++ [u8 type].

Lemma header_length len type : length (header len type) = 19%nat.
Proof. unfold header. by rewrite !length_app, length_replicate, be_split_length. Qed.

(** [push_all]: a chain of pushes that fit appends their bytes. *)
Lemma push_bind b bs b1 n v (f : io_buffer -> option io_buffer) (P : io_buffer -> Prop) :
  io_wf b -> appends b bs b1 -> 1 <= n <= 8 -> io_idx b + Z.of_nat (length bs) + n <= io_size b ->
  (forall b2, appends b (bs ++ be_split (Z.to_nat n) v) b2 -> exists b', f b2 = Some b' /\ P b') ->
  exists b', (b2 ← push n v b1; f b2) = Some b' /\ P b'.
Proof.
  intros Hw A Hn Hr Hf. pose proof (appends_idx _ _ _ Hw A) as Hi. destruct A as (W1 & S1 & E1).
  destruct (push_appends b1 n v W1 Hn) as (b2 & -> & A2); [lia|]. cbn [mbind option_bind]. apply Hf.
  by eapply appends_app.
Qed.

Lemma write_at_appends b p x q b1 n v :
  io_wf b -> appends b (p ++ x ++ q) b1 -> n = Z.of_nat (length x) -> 1 <= n <= 8 ->
  exists b', write_at (io_idx b + Z.of_nat (length p)) n v b1 = Some b' /\ appends b (p ++ be_split (length x) v ++ q) b'.
Proof.
  intros Hw (W1 & S1 & E1) Hn Hr. pose proof (written_length b Hw) as Hl.
  destruct (write_at_written b1 (io_written b ++ p) x q n v W1) as (b' & E & W & S & I & E'); [by rewrite E1, <- !app_assoc|done..|].
  exists b'. rewrite length_app in E. replace (io_idx b + _) with (Z.of_nat (length (io_written b) + length p)) by lia.
  split; [done|]. unfold appends. rewrite E', S. by rewrite <- app_assoc.
Qed.

(** The bytes of the pushes, evaluated. *)
Lemma marker_bytes : be_split (Z.to_nat 8) MARKER = replicate 8 255.
Proof. by vm_compute. Qed.

Lemma be_split1 v : be_split (Z.to_nat 1) v = [u8 v].
Proof. change (be_split (Z.to_nat 1) v) with [(v / 1) mod 256]. by rewrite Z.div_1_r. Qed.

Ltac push_step := eapply push_bind; [|eassumption|lia| |]; [done|rewrite ?length_app, ?be_split_length, ?header_length; cbn [length]; lia|].

Lemma header_bind b type (f : io_buffer -> option io_buffer) (P : io_buffer -> Prop) :
  io_wf b -> io_idx b + 19 <= io_size b ->
  (forall b1, appends b (header 0 type) b1 -> exists b', f b1 = Some b' /\ P b') ->
  exists b', (b ← push 8 MARKER b; b ← push 8 MARKER b; b ← push 2 0 b; b ← push 1 type b; f b) = Some b' /\ P b'.
Proof.
  intros Hw Hr Hf. pose proof (appends_nil b Hw) as A0.
  push_step. intros b1 A1. push_step. intros b2 A2. push_step. intros b3 A3. push_step. intros b4 A4. apply Hf.
  by rewrite marker_bytes, be_split1 in A4.
Qed.

(** The length field is written last. *)
Lemma header_finish b type body b1 len : io_wf b -> appends b (header 0 type ++ body) b1 ->
  exists b', write_at (io_idx b + 16) 2 len b1 = Some b' /\ appends b (header len type ++ body) b'.
Proof.
  intros Hw A. unfold header in *. rewrite <- !app_assoc in *.
  destruct (write_at_appends b (replicate 16 255) [0; 0] ([u8 type] ++ body) b1 2 len Hw A) as (b' & E & A'); [done|lia|].
  exists b'. by rewrite length_replicate in E.
Qed.

Lemma keepalive_appends b : io_wf b -> BGP_MIN_MESSAGE_SIZE <= io_size b ->
  exists b', bgp_push_keepalive_message b = Some b' /\
    appends b (if io_idx b <=? io_size b - BGP_MIN_MESSAGE_SIZE then header 19 BGP_MSG_KEEPALIVE else []) b'.
Proof.
  intros Hw Hsz. pose proof Hw as (_ & _ & Hi & Hs). unfold bgp_push_keepalive_message, BGP_MIN_MESSAGE_SIZE in *.
  rewrite u32_small by lia. case_if; [exists b; replace (_ <=? _) with false by lia; split; [done|by apply appends_nil]|].
  replace (_ <=? _) with true by lia. apply header_bind; [done|lia|]. intros b1 A1.
  pose proof (appends_idx _ _ _ Hw A1) as Hi1. rewrite header_length in Hi1. rewrite u32_small by lia.
  replace (io_idx b1 - io_idx b) with 19 by lia.
  rewrite <- (app_nil_r (header 0 _)) in A1. destruct (header_finish b _ [] b1 19 Hw A1) as (b' & Ef & A'). rewrite app_nil_r in A'. eauto.
Qed.

Lemma notification_appends b code sub : io_wf b -> io_idx b + 21 <= io_size b ->
  exists b', bgp_push_notification_message code sub b = Some b' /\ appends b (header 21 BGP_MSG_NOTIFICATION ++ [u8 code; u8 sub]) b'.
Proof.
  intros Hw Hr. pose proof Hw as (_ & _ & Hi & Hs). unfold bgp_push_notification_message, BGP_MIN_MESSAGE_SIZE.
  rewrite u32_small by lia. replace (_ <? _) with false by lia. apply header_bind; [done|lia|]. intros b1 A1.
  push_step. intros b2 A2. push_step. intros b3 A3.
  pose proof (appends_idx _ _ _ Hw A3) as Hi3. rewrite !length_app, header_length, !be_split_length in Hi3. rewrite u32_small by lia.
  replace (io_idx b3 - io_idx b) with 21 by lia. rewrite <- app_assoc in A3.
  destruct (header_finish b _ _ b3 21 Hw A3) as (b' & E & A'). exists b'. split; [done|].
  by rewrite !be_split1 in A'.
Qed.

(** A notification that does not fit is cut or left out. *)
Lemma notification_extends b code sub : io_wf b -> 21 <= io_size b ->
  exists b', bgp_push_notification_message code sub b = Some b' /\ extends b b'.
Proof.
  intros Hw Hsz. destruct (decide (io_idx b + 21 <= io_size b)) as [Hr|Hr].
  { destruct (notification_appends b code sub Hw Hr) as (b' & E & A). exists b'. split; [done|by eexists]. }
  pose proof Hw as (_ & _ & Hi & Hs). unfold bgp_push_notification_message, BGP_MIN_MESSAGE_SIZE.
  rewrite u32_small by lia. case_if; [exists b; split; [done|by exists []; apply appends_nil]|].
  apply header_bind; [done|lia|]. intros b1 A1.
  destruct (push_extends b1 1 code) as (b2 & -> & (bs2 & A2) & W2 & S2 & I2); [apply A1|lia|]. cbn [mbind option_bind].
  destruct (push_extends b2 1 sub) as (b3 & -> & (bs3 & A3) & W3 & S3 & I3); [done|lia|]. cbn [mbind option_bind].
  pose proof (appends_app _ _ _ _ _ A1 (appends_app _ _ _ _ _ A2 A3)) as A.
  destruct (header_finish b _ _ b3 (u32 (io_idx b3 - io_idx b)) Hw A) as (b' & Ef & A'). exists b'. split; [done|by eexists].
Qed.
