(* ===== verification/BgpOpen.v ===== *)
(** The OPEN message: what bgp_message.c writes is what bgp_receive.c reads, and
    the loop over the optional parameters on messages the writer does not make. *)
From coqutil Require Import Datatypes.RecordSetters.
From S2P Require Import Prelude.
From S2P Require Import Const.
From S2P Require Import ConstApp.
From S2P Require Import Utils.
From S2P Require Import Timer.
From S2P Require Import Tcp.
From S2P Require Import BgpMessage.
From S2P Require Import BgpSession.
From S2P Require Import BgpReceive.
From S2P Require Import BgpFraming.
From S2P Require Import BgpTx.
Import RecordSetters.DoubleBraceUpdate.
From stdpp Require Import list strings.
Import BeUint IoBuffer.
Open Scope Z_scope.

(** * The bytes of the optional parameters *)

Definition as4_body (asn : Z) : list Z := [65; 4] ++ be_split 4 asn.
Definition mp_body (afi safi : Z) : list Z := [1; 4] ++ be_split 2 afi ++ [0; u8 safi].
Definition en_body (afi safi nh_afi : Z) : list Z := [5; 6] ++ be_split 2 afi ++ be_split 2 safi ++ be_split 2 nh_afi.

Definition param (body : list Z) : list Z := [2; Z.of_nat (length body)] ++ body.

Definition family_table : list (Z * (Z * Z)) :=
  [(BGP_IPV4_UC, (1, 1)); (BGP_IPv6_UC, (2, 1)); (BGP_IPv4_MC, (1, 2)); (BGP_IPv6_MC, (2, 2));
   (BGP_IPv4_LU, (1, 4)); (BGP_IPv6_LU, (2, 4)); (BGP_IPv4_VPN_UC, (1, 128)); (BGP_IPv6_VPN_UC, (2, 128));
   (BGP_IPv4_VPN_MC, (1, 129)); (BGP_IPv6_VPN_MC, (2, 129)); (BGP_IPv4_FLOW, (1, 133)); (BGP_IPv6_FLOW, (2, 133));
   (BGP_EVPN, (25, 70))].

Definition if_bit (word bit : Z) (body : list Z) : list (list Z) := if Z.land word bit =? 0 then [] else [body].

Definition family_bodies (family : Z) (table : list (Z * (Z * Z))) : list (list Z) :=
  concat (map (fun e => if_bit family e.1 (mp_body e.2.1 e.2.2)) table).

Definition open_bodies (c : bgp_config) : list (list Z) :=
  as4_body (cfg_local_as c) :: family_bodies (cfg_family c) family_table ++
  if_bit (cfg_extended_nexthop c) BGP_IPV4_UC (en_body 1 1 2) ++
  if_bit (cfg_extended_nexthop c) BGP_IPv4_VPN_UC (en_body 1 128 2).

Definition params (bodies : list (list Z)) : list Z := concat (map param bodies).

Definition open_message (c : bgp_config) : list Z :=
  let ps := params (open_bodies c) in
  header (29 + Z.of_nat (length ps)) BGP_MSG_OPEN ++ [4] ++
  be_split 2 (if 65535 <? cfg_local_as c then 23456 else cfg_local_as c) ++ be_split 2 (cfg_hold_time c) ++ cfg_id c ++
  [Z.of_nat (length ps)] ++ ps.

(** A parameter appended: [pushes] leaves the length byte zero, which is written last. *)
Lemma param_finish b body b1 : io_wf b -> appends b ([2; 0] ++ body) b1 -> (length body < 256)%nat ->
  exists b', write_at (io_idx b + 2 - 1) 1 (u32 (io_idx b1 - (io_idx b + 2))) b1 = Some b' /\ appends b (param body) b'.
Proof.
  intros Hw A Hl. pose proof (appends_idx _ _ _ Hw A) as Hi. rewrite length_app in Hi. cbn [length] in Hi.
  rewrite u32_small by lia. replace (io_idx b1 - (io_idx b + 2)) with (Z.of_nat (length body)) by lia.
  destruct (write_at_appends b [2] [0] body b1 1 (Z.of_nat (length body)) Hw A) as (b' & E & A'); [done|lia|].
  exists b'. cbn [length] in E. replace (io_idx b + 2 - 1) with (io_idx b + Z.of_nat 1) by lia. split; [done|].
  replace (be_split (length [0]) _) with [Z.of_nat (length body)] in A'; [done|].
  change (length [0]) with (Z.to_nat 1). rewrite be_split1, u8_small by lia. done.
Qed.

(** [push_param]: the pushes of a parameter, up to its end. *)
Ltac push_param Hw :=
  pose proof (appends_nil _ Hw) as A0;
  push_step; intros ? A1; push_step; intros ? A2;
  match type of A2 with appends ?b _ ?b2 =>
    let H := fresh in assert (H : io_idx b2 = io_idx b + 2) by (rewrite (appends_idx _ _ _ Hw A2), !length_app, !be_split_length; cbn [length]; lia); rewrite H; clear H
  end;
  repeat (push_step; intros ? ?A).

Lemma as4_appends asn b : io_wf b -> io_idx b + 8 <= io_size b ->
  exists b', push_as4_capability asn b = Some b' /\ appends b (param (as4_body asn)) b'.
Proof.
  intros Hw Hr. unfold push_as4_capability. push_param Hw.
  apply param_finish; [done|by rewrite <- !app_assoc in *|cbn; lia].
Qed.

Lemma mp_appends afi safi b : io_wf b -> io_idx b + 8 <= io_size b ->
  exists b', push_mp_capability afi safi b = Some b' /\ appends b (param (mp_body afi safi)) b'.
Proof.
  intros Hw Hr. unfold push_mp_capability. push_param Hw.
  apply param_finish; [done| |cbn; lia]. rewrite !be_split1 in *. by rewrite <- !app_assoc in *.
Qed.

Lemma en_appends afi safi nh b : io_wf b -> io_idx b + 10 <= io_size b ->
  exists b', push_en_capability afi safi nh b = Some b' /\ appends b (param (en_body afi safi nh)) b'.
Proof.
  intros Hw Hr. unfold push_en_capability. push_param Hw.
  apply param_finish; [done|by rewrite <- !app_assoc in *|cbn; lia].
Qed.

(** * The message written *)

Lemma params_app l k : params (l ++ k) = params l ++ params k.
Proof. unfold params. by rewrite map_app, concat_app. Qed.

Lemma params_one body : params [body] = param body.
Proof. unfold params. cbn. by rewrite app_nil_r. Qed.

Lemma push_if_appends word bit f body b (n : Z) :
  io_wf b -> io_idx b + n <= io_size b ->
  (io_idx b + n <= io_size b -> exists b', f b = Some b' /\ appends b (param body) b') ->
  exists b', push_if word bit f b = Some b' /\ appends b (params (if_bit word bit body)) b'.
Proof.
  intros Hw Hr Hf. unfold push_if, if_bit. case_if; [exists b; split; [done|by apply appends_nil]|].
  rewrite params_one. by apply Hf.
Qed.

(** [push_families], as a loop over the table. *)
Fixpoint push_table (family : Z) (table : list (Z * (Z * Z))) (b : io_buffer) : option io_buffer :=
  match table with
  | [] => Some b
  | [e] => push_if family e.1 (push_mp_capability e.2.1 e.2.2) b
  | e :: table => b ← push_if family e.1 (push_mp_capability e.2.1 e.2.2) b; push_table family table b
  end.

Lemma push_families_table family b : push_families family b = push_table family family_table b.
Proof. reflexivity. Qed.

Lemma if_bit_bound word bit body : (length (params (if_bit word bit body)) <= length body + 2)%nat.
Proof. unfold if_bit. case_if; [cbn; lia|]. rewrite params_one. unfold param. rewrite length_app. cbn. lia. Qed.

Lemma push_table_appends family table b : io_wf b -> io_idx b + 8 * Z.of_nat (length table) <= io_size b ->
  exists b', push_table family table b = Some b' /\ appends b (params (family_bodies family table)) b'.
Proof.
  revert b. induction table as [|e table IH]; intros b Hw Hr; [exists b; split; [done|by apply appends_nil]|].
  cbn [length] in Hr.
  destruct (push_if_appends family e.1 (push_mp_capability e.2.1 e.2.2) (mp_body e.2.1 e.2.2) b 8 Hw) as (b1 & E1 & A1);
    [lia|intros; by apply mp_appends|].
  change (family_bodies family (e :: table)) with (if_bit family e.1 (mp_body e.2.1 e.2.2) ++ family_bodies family table).
  rewrite params_app. pose proof (appends_idx _ _ _ Hw A1) as Hi. pose proof (if_bit_bound family e.1 (mp_body e.2.1 e.2.2)) as Hbd.
  assert (Hmp : length (mp_body e.2.1 e.2.2) = 6%nat) by (unfold mp_body; by rewrite !length_app, be_split_length).
  destruct A1 as (W1 & S1 & Wr1). destruct (IH b1 W1) as (b2 & E2 & A2); [lia|].
  exists b2. split; [|eapply appends_app; [by split_and!|done]].
  cbn [push_table]. destruct table; rewrite E1; cbn [mbind option_bind]; [|done]. by cbn in E2.
Qed.

Definition config_wf (c : bgp_config) : Prop :=
  0 <= cfg_local_as c < 2 ^ 32 /\ 0 <= cfg_hold_time c < 2 ^ 16 /\ bytes (cfg_id c) /\ length (cfg_id c) = 4%nat.

Lemma family_bodies_bound family t : (length (params (family_bodies family t)) <= 8 * length t)%nat.
Proof.
  induction t as [|e t IH]; [done|].
  change (family_bodies family (e :: t)) with (if_bit family e.1 (mp_body e.2.1 e.2.2) ++ family_bodies family t).
  rewrite params_app, length_app. cbn [length]. pose proof (if_bit_bound family e.1 (mp_body e.2.1 e.2.2)) as Hbd.
  unfold mp_body in Hbd at 2. rewrite !length_app, be_split_length in Hbd. cbn [length] in Hbd. lia.
Qed.

Lemma open_bodies_bound c : (length (params (open_bodies c)) <= 132)%nat.
Proof.
  unfold open_bodies. change (as4_body ?x :: ?l) with ([as4_body x] ++ l). rewrite !params_app, !length_app, params_one.
  pose proof (family_bodies_bound (cfg_family c) family_table) as Hf. cbn [length family_table] in Hf.
  pose proof (if_bit_bound (cfg_extended_nexthop c) BGP_IPV4_UC (en_body 1 1 2)) as H1.
  pose proof (if_bit_bound (cfg_extended_nexthop c) BGP_IPv4_VPN_UC (en_body 1 128 2)) as H2.
  unfold param. rewrite length_app. cbn in *. lia.
Qed.

Lemma open_params_appends c b : io_wf b -> io_idx b + 132 <= io_size b ->
  exists b', (b ← push_as4_capability (cfg_local_as c) b;
              b ← push_families (cfg_family c) b;
              b ← push_if (cfg_extended_nexthop c) BGP_IPV4_UC (push_en_capability 1 1 2) b;
              push_if (cfg_extended_nexthop c) BGP_IPv4_VPN_UC (push_en_capability 1 128 2) b) = Some b' /\
    appends b (params (open_bodies c)) b'.
Proof.
  intros Hw Hr. unfold open_bodies. change (as4_body ?x :: ?l) with ([as4_body x] ++ l). rewrite !params_app, params_one.
  destruct (as4_appends (cfg_local_as c) b Hw) as (b1 & -> & A1); [lia|]. cbn [mbind option_bind].
  pose proof (appends_idx _ _ _ Hw A1) as Hi1. unfold param, as4_body in Hi1. rewrite !length_app in Hi1. cbn in Hi1.
  pose proof (proj1 A1) as W1. pose proof (proj1 (proj2 A1)) as S1.
  rewrite push_families_table. destruct (push_table_appends (cfg_family c) family_table b1 W1) as (b2 & -> & A2); [cbn; lia|]. cbn [mbind option_bind].
  pose proof (appends_idx _ _ _ W1 A2) as Hi2. pose proof (family_bodies_bound (cfg_family c) family_table) as Hb2. change (length family_table) with 13%nat in Hb2.
  pose proof (proj1 A2) as W2. pose proof (proj1 (proj2 A2)) as S2.
  destruct (push_if_appends (cfg_extended_nexthop c) BGP_IPV4_UC (push_en_capability 1 1 2) (en_body 1 1 2) b2 10 W2) as (b3 & -> & A3);
    [lia|intros; by apply en_appends|]. cbn [mbind option_bind].
  pose proof (appends_idx _ _ _ W2 A3) as Hi3. pose proof (if_bit_bound (cfg_extended_nexthop c) BGP_IPV4_UC (en_body 1 1 2)) as Hb3. change (length (en_body 1 1 2)) with 8%nat in Hb3.
  pose proof (proj1 A3) as W3. pose proof (proj1 (proj2 A3)) as S3.
  destruct (push_if_appends (cfg_extended_nexthop c) BGP_IPv4_VPN_UC (push_en_capability 1 128 2) (en_body 1 128 2) b3 10 W3) as (b4 & -> & A4);
    [lia|intros; by apply en_appends|].
  exists b4. split; [done|]. do 2 (eapply appends_app; [done|]). by eapply appends_app.
Qed.

(** The OPEN message is appended whole. *)
Lemma open_appends c b : config_wf c -> io_wf b -> io_idx b + 161 <= io_size b ->
  exists b', bgp_push_open_message c b = Some b' /\ appends b (open_message c) b'.
Proof.
  intros (Has & Hhold & Hid & Hidl) Hw Hr. pose proof Hw as (_ & _ & Hi & Hs). pose proof (open_bodies_bound c) as Hbd.
  unfold bgp_push_open_message, BGP_MIN_MESSAGE_SIZE. rewrite u32_small by lia. replace (_ <? _) with false by lia.
  apply header_bind; [done|lia|]. intros b1 A1. push_step. intros b2 A2.
  set (as2 := if 65535 <? cfg_local_as c then 23456 else cfg_local_as c).
  replace (if 65535 <? cfg_local_as c then push 2 23456 b2 else push 2 (cfg_local_as c) b2) with (push 2 as2 b2)
    by (subst as2; by case_if).
  push_step. intros b3 A3. push_step. intros b4 A4.
  pose proof (appends_idx _ _ _ Hw A4) as Hi4. rewrite !length_app, header_length, !be_split_length in Hi4.
  pose proof (push_data_ok b4 (cfg_id c) (proj1 A4) Hid) as Hd. unfold push_ok in Hd. rewrite Hidl in Hd.
  destruct A4 as (W4 & S4 & E4). rewrite decide_True in Hd by lia. change (Z.of_nat 4) with 4 in Hd.
  destruct Hd as (b5 & -> & W5 & E5 & S5); [lia|]. cbn [mbind option_bind].
  set (pre := header 0 BGP_MSG_OPEN ++ [4] ++ be_split 2 as2 ++ be_split 2 (cfg_hold_time c) ++ cfg_id c).
  assert (Hpre : length pre = 28%nat) by (subst pre; rewrite !length_app, header_length, !be_split_length, Hidl; done).
  assert (A5 : appends b pre b5).
  { split_and!; [done|congruence|]. rewrite E5, E4, be_split1. subst pre. by rewrite <- !app_assoc. }
  push_step. intros b6 A6. rewrite be_split1 in A6. pose proof (appends_idx _ _ _ Hw A6) as Hi6. rewrite length_app, Hpre in Hi6. cbn [length] in Hi6.
  pose proof (proj1 A6) as W6. pose proof (proj1 (proj2 A6)) as S6.
  destruct (open_params_appends c b6) as (b7 & E7 & A7); [done|lia|]. revert E7.
  destruct (push_as4_capability (cfg_local_as c) b6) as [b61|]; [|discriminate]. cbn [mbind option_bind].
  destruct (push_families (cfg_family c) b61) as [b62|]; [|discriminate]. cbn [mbind option_bind].
  destruct (push_if _ _ (push_en_capability 1 1 2) b62) as [b63|]; [|discriminate]. cbn [mbind option_bind]. intros ->. cbn [mbind option_bind].
  pose proof (appends_idx _ _ _ W6 A7) as Hi7. set (ps := params (open_bodies c)) in *.
  rewrite (u32_small (io_idx b7 - io_idx b6)) by lia.
  destruct (write_at_appends b pre [0] ps b7 1 (io_idx b7 - io_idx b6) Hw) as (b8 & E8 & A8); [|done|lia|].
  { rewrite app_assoc. by eapply appends_app. }
  replace (io_idx b6 - 1) with (io_idx b + Z.of_nat (length pre)) by lia. rewrite E8. cbn [mbind option_bind].
  pose proof (appends_idx _ _ _ Hw A8) as Hi8. rewrite !length_app, be_split_length, Hpre in Hi8. cbn [length] in Hi8.
  replace (be_split (length [0]) (io_idx b7 - io_idx b6)) with [Z.of_nat (length ps)] in A8.
  2:{ change (length [0]) with (Z.to_nat 1). rewrite be_split1, u8_small by lia. f_equal. lia. }
  rewrite u32_small by lia. replace (io_idx b8 - io_idx b) with (29 + Z.of_nat (length ps)) by lia.
  subst pre. rewrite <- !app_assoc in A8. destruct (header_finish b _ _ b8 (29 + Z.of_nat (length ps)) Hw A8) as (b9 & E9 & A9). eauto.
Qed.

(** * The message read *)

Lemma rd_at pre x rest n : bytes (pre ++ x ++ rest) -> n = Z.of_nat (length x) -> 1 <= n <= 8 ->
  rd (pre ++ x ++ rest) (Z.of_nat (length pre)) n = Ok (be_combine x).
Proof.
  intros Hb Hn Hr. unfold rd. rewrite Nat2Z.id, drop_app_length.
  rewrite !bytes_app in Hb. rewrite read_be_uint_spec; [|rewrite bytes_app; tauto|done|rewrite length_app; lia].
  replace (Z.to_nat n) with (length x) by lia. by rewrite take_app_length.
Qed.

Lemma rd_split pre k v rest off n : bytes (pre ++ be_split k v ++ rest) -> off = Z.of_nat (length pre) -> n = Z.of_nat k ->
  1 <= n <= 8 -> 0 <= v < 256 ^ n -> rd (pre ++ be_split k v ++ rest) off n = Ok v.
Proof.
  intros Hb -> -> Hk Hv. rewrite rd_at; [|done|by rewrite be_split_length|lia]. rewrite be_combine_split. by rewrite Z.mod_small.
Qed.

Lemma rd_byte pre v rest off : bytes (pre ++ [v] ++ rest) -> off = Z.of_nat (length pre) -> rd (pre ++ [v] ++ rest) off 1 = Ok v.
Proof. intros ? ->. by rewrite rd_at. Qed.

Section Read.
Context `{Lwip} (clock : nat -> timespec).

(** A capability the session ignores. *)
Definition neutral (body : list Z) : Prop :=
  exists code len v, body = [code; len] ++ v /\ code <> BGP_CAPABILITY_4_BYTE_AS /\ len = Z.of_nat (length v).

Lemma neutral_capability body rest s : bytes (body ++ rest) -> neutral body ->
  bgp_capability (body ++ rest) (Z.of_nat (length body)) s = Ok (true, s).
Proof.
  intros Hb (code & len & v & -> & Hc & ->). unfold bgp_capability. rewrite length_app. cbn [length].
  case_if; [lia|]. rewrite <- app_assoc in *. set (l := Z.of_nat (length v)) in *.
  change ([code; l] ++ v ++ rest) with ([] ++ [code] ++ l :: v ++ rest) in *.
  rewrite (rd_byte [] code (l :: v ++ rest) 0) by done. cbn [mbind out_bind].
  change ([] ++ [code] ++ l :: v ++ rest) with ([code] ++ [l] ++ v ++ rest) in *.
  rewrite (rd_byte [code] l (v ++ rest) 1) by done. cbn [mbind out_bind].
  case_if; [lia|]. by rewrite (proj2 (Z.eqb_neq _ _)) by done.
Qed.

Lemma as4_capability asn rest s : bytes (as4_body asn ++ rest) -> 0 <= asn < 2 ^ 32 ->
  bgp_capability (as4_body asn ++ rest) (Z.of_nat (length (as4_body asn))) s = Ok (true, s {{ s_peer_as := asn }}).
Proof.
  intros Hb Ha. unfold bgp_capability, as4_body in *. rewrite length_app, be_split_length. cbn [length].
  case_if; [lia|]. rewrite <- app_assoc in *. set (l := be_split 4 asn ++ rest) in *.
  change ([65; 4] ++ l) with ([] ++ [65] ++ 4 :: l) in *. rewrite (rd_byte [] 65 (4 :: l) 0) by done. cbn [mbind out_bind].
  change ([] ++ [65] ++ 4 :: l) with ([65] ++ [4] ++ l) in *. rewrite (rd_byte [65] 4 l 1) by done. cbn [mbind out_bind].
  case_if; [lia|]. cbn [Z.eqb BGP_CAPABILITY_4_BYTE_AS Pos.eqb negb].
  change ([65] ++ [4] ++ l) with ([65; 4] ++ l) in *. subst l. rewrite (rd_split [65; 4] 4 asn rest 2 4) by (done || lia). cbn [mbind out_bind]. by rewrite u32_small by lia.
Qed.

Lemma open_params_step fuel pre body rest s s' :
  let m := pre ++ param body ++ rest in
  bytes m -> Z.of_nat (length m) <= 255 ->
  bgp_capability (body ++ rest) (Z.of_nat (length body)) s = Ok (true, s') ->
  open_params (S fuel) m (Z.of_nat (length m)) (Z.of_nat (length pre)) s =
  open_params fuel m (Z.of_nat (length m)) (Z.of_nat (length (pre ++ param body))) s'.
Proof.
  intros m Hb Hl Hc. subst m. unfold param in *. rewrite !length_app in *. cbn [length] in *.
  cbn [open_params]. case_if; [|lia]. unfold open_round.
  change ([2; ?l] ++ body) with ([2] ++ [l] ++ body) in *. rewrite <- !app_assoc in *.
  rewrite (rd_byte pre _ _ (Z.of_nat (length pre))) by done. cbn [mbind out_bind].
  rewrite (app_assoc pre [2]) in *. rewrite (rd_byte (pre ++ [2])) by (done || (rewrite length_app; cbn; lia)). cbn [mbind out_bind].
  rewrite (u8_small (_ + 2)) by lia. case_if; [lia|]. cbn [Z.eqb BGP_CAPABILITY Pos.eqb].
  replace (Z.to_nat (Z.of_nat (length pre) + 2)) with (length ((pre ++ [2]) ++ [Z.of_nat (length body)])) by (rewrite !length_app; cbn; lia).
  rewrite (app_assoc (pre ++ [2])), drop_app_length, Hc. cbn [mbind out_bind]. rewrite u8_small by lia. f_equal. lia.
Qed.

Lemma open_params_neutral fuel pre bodies s :
  let m := pre ++ params bodies in
  bytes m -> Z.of_nat (length m) <= 255 -> Forall neutral bodies -> (length bodies <= fuel)%nat ->
  open_params fuel m (Z.of_nat (length m)) (Z.of_nat (length pre)) s = Ok (true, s).
Proof.
  revert fuel pre. induction bodies as [|body bodies IH]; intros fuel pre m Hb Hl Hn Hf; subst m.
  - cbn [params concat map]. rewrite app_nil_r. destruct fuel; cbn [open_params]; case_if; done || lia.
  - inversion Hn as [|? ? Hn1 Hn2]; subst. cbn [length] in Hf. destruct fuel as [|fuel]; [lia|].
    change (params (body :: bodies)) with (param body ++ params bodies) in *.
    rewrite (open_params_step fuel pre body (params bodies) s s); [|done|done|].
    + rewrite app_assoc in *. apply IH; [done..|lia].
    + apply neutral_capability; [|done]. unfold param in Hb. rewrite <- !app_assoc, !bytes_app in *. tauto.
Qed.

Lemma mp_neutral afi safi : neutral (mp_body afi safi).
Proof. exists 1, 4, (be_split 2 afi ++ [0; u8 safi]). split_and!; [done|done|by rewrite length_app, be_split_length]. Qed.
Lemma en_neutral afi safi nh : neutral (en_body afi safi nh).
Proof. exists 5, 6, (be_split 2 afi ++ be_split 2 safi ++ be_split 2 nh). split_and!; [done|done|by rewrite !length_app, !be_split_length]. Qed.

Lemma if_bit_neutral word bit body : neutral body -> Forall neutral (if_bit word bit body).
Proof. intros. unfold if_bit. case_if; by repeat constructor. Qed.
Lemma family_neutral family t : Forall neutral (family_bodies family t).
Proof.
  induction t as [|e t IH]; [constructor|]. apply Forall_app. split; [apply if_bit_neutral, mp_neutral|done].
Qed.

Lemma if_bit_length word bit body : (length (if_bit word bit body) <= 1)%nat.
Proof. unfold if_bit. case_if; cbn; lia. Qed.

Lemma open_bodies_length c : (length (open_bodies c) <= 16)%nat.
Proof.
  assert (Hf : forall t, (length (family_bodies (cfg_family c) t) <= length t)%nat).
  { induction t as [|e t IH]; [done|].
    change (family_bodies (cfg_family c) (e :: t)) with (if_bit (cfg_family c) e.1 (mp_body e.2.1 e.2.2) ++ family_bodies (cfg_family c) t).
    rewrite length_app. cbn [length]. pose proof (if_bit_length (cfg_family c) e.1 (mp_body e.2.1 e.2.2)). lia. }
  specialize (Hf family_table). change (length family_table) with 13%nat in Hf. unfold open_bodies. cbn [length]. rewrite !length_app.
  pose proof (if_bit_length (cfg_extended_nexthop c) BGP_IPV4_UC (en_body 1 1 2)).
  pose proof (if_bit_length (cfg_extended_nexthop c) BGP_IPv4_VPN_UC (en_body 1 128 2)). lia.
Qed.

Lemma open_message_length c : config_wf c -> length (open_message c) = (29 + length (params (open_bodies c)))%nat.
Proof. intros (_ & _ & _ & Hl). unfold open_message. rewrite !length_app, header_length, !be_split_length, Hl. cbn [length]. lia. Qed.

Lemma params_bytes l : Forall (fun body => bytes body /\ (length body < 256)%nat) l -> bytes (params l).
Proof.
  induction 1 as [|body l [Hb Hl] _ IH]; [constructor|]. change (params (body :: l)) with (param body ++ params l).
  unfold param. rewrite !bytes_app. split; [split; [|done]|done]. repeat constructor; lia.
Qed.

Lemma open_message_bytes c : config_wf c -> bytes (open_message c).
Proof.
  intros (_ & _ & Hid & _). pose proof (open_bodies_bound c) as Hbd. unfold open_message, header.
  rewrite !bytes_app. split_and!; auto with bbl; try (repeat constructor; (lia || apply u8_range)).
  apply params_bytes. unfold open_bodies. constructor; [split; [|cbn; lia]; unfold as4_body; rewrite bytes_app; split; [repeat constructor; lia|auto with bbl]|].
  assert (Hm : forall afi safi, bytes (mp_body afi safi) /\ (length (mp_body afi safi) < 256)%nat).
  { intros. split; [|cbn; lia]. unfold mp_body. rewrite !bytes_app. split_and!; auto with bbl; repeat constructor; (lia || apply u8_range). }
  assert (He : forall a b d, bytes (en_body a b d) /\ (length (en_body a b d) < 256)%nat).
  { intros. split; [|cbn; lia]. unfold en_body. rewrite !bytes_app. split_and!; auto with bbl; repeat constructor; lia. }
  assert (Hi : forall w bit body, bytes body /\ (length body < 256)%nat -> Forall (fun body => bytes body /\ (length body < 256)%nat) (if_bit w bit body)).
  { intros. unfold if_bit. case_if; [constructor|by constructor]. }
  rewrite !Forall_app. split_and!; [|by apply Hi..]. induction family_table as [|e t IH]; [constructor|].
  apply Forall_app. split; [by apply Hi|done].
Qed.

Lemma open_message_is_message c : config_wf c -> is_message (open_message c).
Proof.
  intros Hc. pose proof (open_bodies_bound c) as Hbd. pose proof (open_message_length c Hc) as Hl.
  unfold is_message, BGP_MIN_MESSAGE_SIZE, BGP_MAX_MESSAGE_SIZE. split; [lia|].
  rewrite Hl. unfold message_length, open_message, header. rewrite <- !app_assoc. rewrite drop_app_exact by (by rewrite length_replicate).
  rewrite take_app_exact by (by rewrite be_split_length). rewrite be_combine_split, Z.mod_small; [|change (256 ^ Z.of_nat 2) with 65536; lia].
  lia.
Qed.

(** The fields before the parameters. *)
Lemma open_message_fields c : config_wf c ->
  let m := open_message c in
  (exists as2, rd m 20 2 = Ok as2) /\ rd m 22 2 = Ok (cfg_hold_time c) /\ rd m 24 4 = Ok (be_combine (cfg_id c)) /\
  rd m 28 1 = Ok (Z.of_nat (length (params (open_bodies c)))) /\
  exists pre, length pre = 29%nat /\ m = pre ++ params (open_bodies c).
Proof.
  intros Hc m. pose proof (open_message_bytes c Hc) as Hb. destruct Hc as (Has & Hhold & Hid & Hidl).
  set (ps := params (open_bodies c)) in *. set (as2 := if 65535 <? cfg_local_as c then 23456 else cfg_local_as c) in *.
  set (h := header (29 + Z.of_nat (length ps)) BGP_MSG_OPEN ++ [4]).
  assert (Hh : length h = 20%nat) by (subst h; by rewrite length_app, header_length).
  assert (Hm : m = h ++ be_split 2 as2 ++ be_split 2 (cfg_hold_time c) ++ cfg_id c ++ [Z.of_nat (length ps)] ++ ps)
    by (subst m h; unfold open_message; by rewrite <- !app_assoc).
  clearbody m. subst m. split_and!.
  - exists as2. apply rd_split; [done|by rewrite Hh|done|lia|]. subst as2. case_if; lia.
  - rewrite app_assoc in *. apply rd_split; [done|by rewrite length_app, Hh|done|lia|lia].
  - rewrite app_assoc, (app_assoc (h ++ _)) in *. change 24 with (Z.of_nat 24).
    replace 24%nat with (length ((h ++ be_split 2 as2) ++ be_split 2 (cfg_hold_time c))) by (by rewrite !length_app, Hh).
    apply rd_at; [done|by rewrite Hidl|lia].
  - rewrite !app_assoc in *. rewrite <- (app_assoc _ [Z.of_nat (length ps)]) in *.
    apply rd_byte; [done|]. by rewrite !length_app, Hh, Hidl.
  - exists (h ++ be_split 2 as2 ++ be_split 2 (cfg_hold_time c) ++ cfg_id c ++ [Z.of_nat (length ps)]).
    split; [by rewrite !length_app, Hh, !be_split_length, Hidl|by rewrite <- !app_assoc].
Qed.

(** The values of the message, and the state change. *)
Lemma open_message_read c fuel s : config_wf c -> (16 <= fuel)%nat ->
  bgp_open clock fuel (open_message c) (Z.of_nat (length (open_message c))) s =
  (s' ← lift (bgp_session_state_change clock BGP_OPENCONFIRM
     (s {{ s_peer_as := cfg_local_as c ; s_peer_hold_time := cfg_hold_time c ; s_peer_id := be_combine (cfg_id c) }}));
   Ok (true, s')).
Proof.
  intros Hc Hf. pose proof (open_message_bytes c Hc) as Hb. pose proof (open_message_length c Hc) as Hl.
  pose proof (open_bodies_bound c) as Hbd. pose proof (open_bodies_length c) as Hn.
  destruct (open_message_fields c Hc) as ((as2 & R1) & R2 & R3 & R4 & pre & Hp & Hm). destruct Hc as (Has & _).
  unfold bgp_open. case_if; [lia|]. rewrite R1, R2, R3, R4. cbn [mbind out_bind]. case_if; [lia|]. clear R1 R2 R3 R4.
  set (m := open_message c) in *. clearbody m. subst m. unfold open_bodies in *. cbn [length] in Hn.
  match goal with |- context [pre ++ params (?x :: ?l)] =>
    set (rest := l) in *; change (params (x :: rest)) with (param x ++ params rest) in * end.
  assert (Hneu : Forall neutral rest).
  { subst rest. rewrite !Forall_app. split_and!; [apply family_neutral|apply if_bit_neutral, en_neutral..]. }
  clearbody rest. destruct fuel as [|fuel]; [lia|]. change 29 with (Z.of_nat 29). rewrite <- Hp.
  erewrite open_params_step; [|done|lia|].
  - rewrite app_assoc in *. rewrite open_params_neutral; [|done|lia|done|lia]. cbn [mbind out_bind]. by destruct s.
  - apply as4_capability; [|done]. unfold param in Hb. rewrite <- !app_assoc, !bytes_app in *. tauto.
Qed.
End Read.

(** * Claims *)

(** C26. A BGP speaker reads the OPEN message it writes: for every configuration the
    message written into an empty buffer is one complete BGP message, and reading it
    gives the peer the four-byte AS number (also when it does not fit into the field
    of the header), the hold time and the identifier of the configuration, accepts
    all capabilities and moves the session to OpenConfirm. *)
Theorem bgp_open_roundtrip `{Lwip} (clock : nat -> timespec) (c : bgp_config) (b : io_buffer) (s : bgp_session) (fuel : nat) :
  config_wf c -> io_wf b -> io_idx b = 0 -> 161 <= io_size b -> (16 <= fuel)%nat ->
  exists b', bgp_push_open_message c b = Some b' /\ is_message (io_written b') /\
    bgp_open clock fuel (io_written b') (Z.of_nat (length (io_written b'))) s =
    (s' ← lift (bgp_session_state_change clock BGP_OPENCONFIRM
       (s {{ s_peer_as := cfg_local_as c ; s_peer_hold_time := cfg_hold_time c ; s_peer_id := be_combine (cfg_id c) }}));
     Ok (true, s')).
Proof.
  intros Hc Hw Hi Hz Hf. destruct (open_appends c b Hc Hw) as (b' & E & _ & _ & Ew); [lia|].
  assert (E0 : io_written b = []) by (unfold io_written; by rewrite Hi).
  exists b'. rewrite Ew, E0. split; [done|]. split; [by apply open_message_is_message|by apply open_message_read].
Qed.

Definition demo_buffer : io_buffer := mk_io_buffer (replicate 200 0) 0 0 200.
Definition demo_config4 : bgp_config := mk_bgp_config [10; 0; 0; 1] 4200000000 90 5 0x1fff 0x41 true false.

Lemma bgp_open_roundtrip_witness :
  exists b', bgp_push_open_message demo_config4 demo_buffer = Some b' /\ is_message (io_written b') /\
    bgp_open demo_clock 16 (io_written b') (Z.of_nat (length (io_written b'))) demo_session =
    (s' ← lift (bgp_session_state_change demo_clock BGP_OPENCONFIRM
       (demo_session {{ s_peer_as := 4200000000 ; s_peer_hold_time := 90 ; s_peer_id := be_combine [10; 0; 0; 1] }}));
     Ok (true, s')).
Proof.
  apply (bgp_open_roundtrip demo_clock demo_config4 demo_buffer demo_session 16).
  - unfold config_wf. cbn. split_and!; try lia; try done. repeat constructor; lia.
  - unfold io_wf. cbn -[replicate]. split_and!; try done; try lia. apply bytes_replicate. lia.
  - reflexivity.
  - cbn. lia.
  - lia.
Defined.

(** Reading an OPEN message of up to 255 bytes ends, whatever its bytes are:
    the loop over the optional parameters needs at most 113 rounds. *)
Theorem bgp_open_terminates `{Lwip} (clock : nat -> timespec) (m : list Z) (n : Z) (s : bgp_session) (fuel : nat) :
  bytes m -> n <= Z.of_nat (length m) -> n <= 255 -> (113 <= fuel)%nat -> bgp_open clock fuel m n s <> Diverge.
Proof.
  intros Hm Hn Hs Hf. unfold bgp_open. case_if; [done|].
  destruct (rd_ok m 20 2 Hm) as (asn & -> & _); [lia..|]. cbn [mbind out_bind]. destruct (rd_ok m 22 2 Hm) as (hold & -> & _); [lia..|]. cbn [mbind out_bind].
  destruct (rd_ok m 24 4 Hm) as (pid & -> & _); [lia..|]. cbn [mbind out_bind]. destruct (rd_ok m 28 1 Hm) as (ol & -> & _); [lia..|]. cbn [mbind out_bind].
  case_if; [done|]. set (s1 := s {{ s_peer_as := asn ; s_peer_hold_time := hold ; s_peer_id := pid }}).
  pose proof (open_params_terminates fuel m n 29 s1 Hm Hn Hs) as Ht.
  destruct (open_params_ok fuel m n 29 s1 Hm Hn) as [E2|(ok & s2 & -> & _)]; [lia|exfalso; apply Ht; [lia|lia|done]|]. cbn [mbind out_bind].
  destruct ok; [|done]. by destruct (bgp_session_state_change clock BGP_OPENCONFIRM s2).
Qed.

Lemma bgp_open_terminates_witness : bgp_open demo_clock 113 demo_open 29 demo_session <> Diverge.
Proof. apply (bgp_open_terminates demo_clock demo_open 29 demo_session 113); [repeat constructor; lia|vm_compute; discriminate|lia|lia]. Defined.

(** An OPEN message of 300 bytes whose first parameter ends at the index 256. *)
Definition wrapping_open : list Z :=
  [0; 254] ++ replicate 14 255 ++ [1; 44; 1; 4; 0; 1; 0; 90; 10; 0; 0; 2; 255; 0; 225] ++ replicate 269 0.

(** An OPEN message of more than 255 bytes can stop the program: the index of
    the loop over the optional parameters is a [uint8_t], so a parameter that ends at
    index 256 sends the loop back to the beginning of the message, and from there for
    ever; a session with an empty read buffer that receives [wrapping_open] does
    not return. *)
Theorem bgp_open_wraps_forever `{Lwip} (clock : nat -> timespec) (b : bgp) (fuel : nat) :
  read_ready (b_read_buf b) -> pending (b_read_buf b) = [] -> deliver clock fuel [wrapping_open] b = Diverge.
Proof.
  intros Hr Hp. assert (Hb : bytes wrapping_open) by (repeat constructor; lia). cbn [deliver bbl_tcp_recv_cb recv_loop]. rewrite Z.eqb_refl.
  destruct (receive_segment clock wrapping_open b Hr Hb) as (buf & -> & Hw & H0 & Hz & Hpe); [done|]. cbn [mbind out_bind bgp_receive_cb].
  rewrite Hp, app_nil_l in Hpe. pose proof (pending_length _ Hw) as Hl. pose proof Hw as ((Hdb & Hd & Hi & Hs) & _).
  assert (Hread : bgp_read clock fuel (mk_bgp (b_session b) buf) = Diverge); [|by rewrite Hread].
  destruct fuel as [|fuel]; [done|]. cbn [bgp_read b_read_buf b_session]. rewrite u32_small by lia. rewrite <- Hl, Hpe.
  rewrite read_length by (done || (rewrite Hpe; cbn; lia)). rewrite Hpe. cbn [mbind out_bind].
  change (message_length wrapping_open) with 300. change (Z.of_nat (length wrapping_open)) with 300. cbn [Z.ltb Z.compare Pos.compare Pos.compare_cont orb BGP_MIN_MESSAGE_SIZE BGP_MAX_MESSAGE_SIZE].
  rewrite start_pending, Hpe by done. change 300 with (Z.of_nat (length wrapping_open)). rewrite bgp_message_frame; [|done|auto with bbl|cbn; lia].
  unfold bgp_message. change (rd8 wrapping_open 18) with (@Ok Z 1). cbn [mbind out_bind Z.eqb BGP_MSG_OPEN Pos.eqb].
  match goal with |- context [bgp_open clock fuel wrapping_open _ ?x] => set (s := x) end. clearbody s. unfold bgp_open. change (Z.of_nat (length wrapping_open)) with 300.
  change (rd wrapping_open 20 2) with (@Ok Z 1). change (rd wrapping_open 22 2) with (@Ok Z 90). change (rd wrapping_open 24 4) with (@Ok Z 167772162).
  change (rd wrapping_open 28 1) with (@Ok Z 255). cbn [mbind out_bind]. cbn [Z.ltb Z.compare Pos.compare Pos.compare_cont Z.add Pos.add Pos.succ].
  match goal with |- context [open_params fuel wrapping_open 300 29 ?x] => set (s1 := x) end. clearbody s1.
  assert (Hloop : forall f s, open_params f wrapping_open 300 0 s = Diverge) by (induction f as [|f IH]; intros s2; [done|exact (IH s2)]).
  assert (Ho : open_params fuel wrapping_open 300 29 s1 = Diverge) by (destruct fuel; [done|exact (Hloop fuel s1)]). by rewrite Ho.
Qed.

Lemma bgp_open_wraps_forever_witness : deliver demo_clock 1000 [wrapping_open] (mk_bgp demo_session demo_read_buf) = Diverge.
Proof. apply (bgp_open_wraps_forever demo_clock); apply demo_read_ready. Defined.
