(* ===== verification/BgpStream.v ===== *)
(** The transmit path of BGP as a stream: what lwIP has accepted, followed by what
    the TCP context still refers to, is the concatenation of the messages the
    session has submitted, whole and in order; and the memory lwIP refers to is
    not changed before it is acknowledged. *)
From coqutil Require Import Datatypes.RecordSetters.
From S2P Require Import Prelude.
From S2P Require Import Const.
From S2P Require Import ConstApp.
From S2P Require Import Utils.
From S2P Require Import Timer.
From S2P Require Import Tcp.
From S2P Require Import BgpMessage.
From S2P Require Import BgpSession.
From S2P Require Import BgpTx.
Import RecordSetters.DoubleBraceUpdate.
From stdpp Require Import list strings.
Import BeUint IoBuffer.
Open Scope Z_scope.
#[local] Set Warnings "-clear-no-such-hyp".

(** * Every message appends to the buffer, however full it is *)

(** At least [n] bytes were appended to [b]. *)
Definition grown (n : nat) (b b1 : io_buffer) : Prop := exists bs, appends b bs b1 /\ (n <= length bs)%nat.

Lemma grown_push k b b1 n v : io_wf b -> grown k b b1 -> 1 <= n <= 8 -> exists b2, push n v b1 = Some b2 /\ grown k b b2 /\ io_idx b1 <= io_idx b2.
Proof.
  intros Hw (bs & A & Hl) Hn. destruct (push_extends b1 n v) as (b2 & E & (cs & A2) & _ & _ & Hi); [apply A|done|].
  exists b2. split; [done|]. split; [|done]. exists (bs ++ cs). split; [by eapply appends_app|]. rewrite length_app. lia.
Qed.

Lemma grown_idx k b b1 : io_wf b -> grown k b b1 -> io_idx b + Z.of_nat k <= io_idx b1.
Proof. intros Hw (bs & A & Hl). rewrite (appends_idx _ _ _ Hw A). lia. Qed.

Lemma grown_write_at j b b1 pos n v : io_wf b -> grown j b b1 -> io_idx b <= pos -> 1 <= n <= 8 -> pos + n <= io_idx b1 ->
  exists b2, write_at pos n v b1 = Some b2 /\ grown j b b2.
Proof.
  intros Hw (bs & A & Hl) Hp Hn Hi. pose proof (appends_idx _ _ _ Hw A) as Hi1.
  set (k := Z.to_nat (pos - io_idx b)). set (p := take k bs). set (x := take (Z.to_nat n) (drop k bs)). set (q := drop (Z.to_nat n) (drop k bs)).
  assert (Hbs : bs = p ++ x ++ q) by (subst p x q; by rewrite !take_drop).
  assert (Hpl : length p = k) by (subst p k; rewrite length_take; lia).
  assert (Hxl : length x = Z.to_nat n) by (subst x k; rewrite length_take, length_drop; lia).
  rewrite Hbs in A. destruct (write_at_appends b p x q b1 n v Hw A) as (b2 & E & A2); [lia|done|].
  exists b2. replace pos with (io_idx b + Z.of_nat (length p)) by (subst k; lia). split; [done|].
  exists (p ++ be_split (length x) v ++ q). split; [done|]. rewrite Hbs in Hl. rewrite !length_app in *. by rewrite be_split_length.
Qed.

Lemma grown_push_data k b b1 data : io_wf b -> grown k b b1 -> bytes data -> Z.of_nat (length data) < 2 ^ 32 ->
  exists ok b2, push_data b1 data (Z.of_nat (length data)) = Some (ok, b2) /\ grown k b b2.
Proof.
  intros Hw (bs & A & Hl) Hd Hdl. pose proof (push_data_ok b1 data (proj1 A) Hd Hdl) as P. unfold push_ok in P. case_decide.
  - destruct P as (b2 & E & W & Ew & S). exists true, b2. split; [done|]. exists (bs ++ data).
    split; [eapply appends_app; [done|by split_and!]|rewrite length_app; lia].
  - exists false, b1. split; [done|by exists bs].
Qed.

(** [grow]: the next push of the goal. *)
Ltac grow :=
  match goal with
  | Hw : io_wf ?b, G : grown ?k ?b ?b1 |- context [push ?n ?v ?b1] =>
      let b2 := fresh "b" in let E := fresh "E" in let G2 := fresh "G" in let Hi := fresh "Hi" in
      destruct (grown_push k b b1 n v Hw G) as (b2 & E & G2 & Hi); [lia|]; rewrite E; cbn [mbind option_bind]; clear E
  end.
Ltac grow_finish :=
  match goal with
  | Hw : io_wf ?b, G : grown ?k ?b ?b1 |- context [io_idx ?b1 - 1] => pose proof (grown_idx k b b1 Hw G)
  end;
  repeat grow; apply grown_write_at; [done|done|lia|lia|lia].

Section Grown.
Context (n : nat) (Hn : (1 <= n)%nat) (b : io_buffer) (Hw : io_wf b).

Lemma grown_as4 asn b1 : grown n b b1 -> exists b2, push_as4_capability asn b1 = Some b2 /\ grown n b b2.
Proof. intros G. unfold push_as4_capability. do 2 grow. grow_finish. Qed.
Lemma grown_mp afi safi b1 : grown n b b1 -> exists b2, push_mp_capability afi safi b1 = Some b2 /\ grown n b b2.
Proof. intros G. unfold push_mp_capability. do 2 grow. grow_finish. Qed.
Lemma grown_en afi safi nh b1 : grown n b b1 -> exists b2, push_en_capability afi safi nh b1 = Some b2 /\ grown n b b2.
Proof. intros G. unfold push_en_capability. do 2 grow. grow_finish. Qed.

Lemma grown_if word bit f b1 : (forall b1, grown n b b1 -> exists b2, f b1 = Some b2 /\ grown n b b2) -> grown n b b1 ->
  exists b2, push_if word bit f b1 = Some b2 /\ grown n b b2.
Proof. intros Hf G. unfold push_if. case_if; [by exists b1|by apply Hf]. Qed.

(** [grow_if]: the next conditional capability of the goal. *)
Ltac grow_if :=
  match goal with
  | G : grown _ _ ?b1 |- context [push_if ?w ?bit ?f ?b1] =>
      let b2 := fresh "b" in let E := fresh "E" in let G2 := fresh "G" in
      destruct (grown_if w bit f b1) as (b2 & E & G2); [intros ? ?; by (apply grown_mp || apply grown_en)|done|];
      rewrite E; cbn [mbind option_bind]; clear E G
  end.

Lemma grown_families family b1 : grown n b b1 -> exists b2, push_families family b1 = Some b2 /\ grown n b b2.
Proof. intros G. unfold push_families. do 13 grow_if. eauto. Qed.
End Grown.

Lemma open_extends c b : io_wf b -> 19 <= io_size b -> bytes (cfg_id c) -> length (cfg_id c) = 4%nat ->
  exists b', bgp_push_open_message c b = Some b' /\ extends b b'.
Proof.
  intros Hw Hsz Hid Hidl. pose proof Hw as (_ & _ & Hi & Hs). unfold bgp_push_open_message, BGP_MIN_MESSAGE_SIZE.
  rewrite u32_small by lia. case_if; [exists b; split; [done|by exists []; apply appends_nil]|].
  apply header_bind; [done|lia|]. intros b1 A1.
  assert (G : grown 19 b b1) by (exists (header 0 BGP_MSG_OPEN); by rewrite header_length).
  grow.
  replace (if 65535 <? cfg_local_as c then push 2 23456 b0 else push 2 (cfg_local_as c) b0)
    with (push 2 (if 65535 <? cfg_local_as c then 23456 else cfg_local_as c) b0) by (by case_if).
  do 2 grow.
  destruct (grown_push_data 19 b b3 (cfg_id c)) as (ok & b4 & E4 & G4); [done|done|done|lia|]. rewrite Hidl in E4.
  change (Z.of_nat 4) with 4 in E4. rewrite E4. cbn [mbind option_bind]. grow.
  destruct G3 as (bs & A5 & Hl). pose proof (appends_idx _ _ _ Hw A5) as Hi5.
  assert (G5 : grown (length bs) b b5) by (by exists bs). assert (Hn : (1 <= length bs)%nat) by lia.
  destruct (grown_as4 _ Hn _ Hw (cfg_local_as c) _ G5) as (b6 & -> & G6). cbn [mbind option_bind].
  destruct (grown_families _ Hn _ Hw (cfg_family c) _ G6) as (b7 & -> & G7). cbn [mbind option_bind].
  destruct (grown_if (length bs) b (cfg_extended_nexthop c) BGP_IPV4_UC (push_en_capability 1 1 2) b7) as (b8 & -> & G8);
    [intros; by apply grown_en|done|]. cbn [mbind option_bind].
  destruct (grown_if (length bs) b (cfg_extended_nexthop c) BGP_IPv4_VPN_UC (push_en_capability 1 128 2) b8) as (b9 & -> & G9);
    [intros; by apply grown_en|done|]. cbn [mbind option_bind].
  pose proof (grown_idx _ _ _ Hw G9). set (len := u32 (io_idx b9 - io_idx b5)).
  destruct (grown_write_at _ _ _ (io_idx b5 - 1) 1 len Hw G9) as (b10 & -> & G10); [lia..|]. cbn [mbind option_bind].
  pose proof (grown_idx _ _ _ Hw G10). set (len' := u32 (io_idx b10 - io_idx b)).
  destruct (grown_write_at _ _ _ (io_idx b + 16) 2 len' Hw G10) as (b11 & -> & (bs' & A11 & _)); [lia..|].
  exists b11. split; [done|by exists bs'].
Qed.

(** What was appended. *)
Definition appended (b b' : io_buffer) : list Z := drop (Z.to_nat (io_idx b)) (io_written b').

Lemma extends_appends b b' : io_wf b -> extends b b' -> appends b (appended b b') b'.
Proof.
  intros Hw (bs & W & S & E). split_and!; try done. unfold appended. rewrite E at 2. rewrite drop_app_exact; [done|].
  pose proof (written_length b Hw). lia.
Qed.

(** * The stream *)

Section Stream.
Context `{LwipSpec} (clock : nat -> timespec).

(** The sum of offset and chunk is a [uint32_t]. *)
Definition raw_wf (r : bgp_raw_update) : Prop :=
  raw_addr r <> WRITE_BUF /\ raw_len r = Z.of_nat (length (raw_buf r)) /\ raw_len r <= 2 ^ 32 - 4096.

Record buffers_wf (s : bgp_session) : Prop := {
  bw_write : io_wf (s_write_buf s);
  bw_size : io_size (s_write_buf s) = BGP_BUF_SIZE;
  bw_raw r : s_raw_update s = Some r -> raw_wf r;
  bw_start r : s_raw_update_start s = Some r -> raw_wf r;
  bw_id : bytes (cfg_id (s_config s)) /\ length (cfg_id (s_config s)) = 4%nat
}.

(** The buffer the context sends from. *)
Definition tx_data (s : bgp_session) (c : tcp_ctx) : option (list Z) := buf ← tx_buf c; bgp_mem s buf.

(** The open context [c] has been given the stream [sub].  While it is sending,
    lwIP has the first [tx_offset] bytes of the buffer, which are still in it. *)
Inductive tx_state (s : bgp_session) (c : tcp_ctx) (sub : list Z) : Prop :=
| tx_idle p :
    tcp_pcb c = Some p -> tcp_state c = BBL_TCP_STATE_IDLE -> tx_offset c = tx_len c ->
    tcp_drained p = true -> tcp_accepted p = sub -> tx_state s c sub
| tx_sending p pre data :
    tcp_pcb c = Some p -> tcp_state c = BBL_TCP_STATE_SENDING -> tx_data s c = Some data ->
    0 <= tx_offset c <= tx_len c -> tx_len c <= Z.of_nat (length data) -> tx_len c <= 2 ^ 32 - 4096 ->
    tcp_accepted p = pre ++ take (Z.to_nat (tx_offset c)) data -> sub = pre ++ take (Z.to_nat (tx_len c)) data ->
    (tx_buf c = Some WRITE_BUF -> tx_len c = io_idx (s_write_buf s)) -> tx_state s c sub.

Definition ctx_tx (s : bgp_session) (c : tcp_ctx) (sub : list Z) : Prop :=
  (tcp_idle_cb c = true -> is_Some (s_raw_update s)) /\ tx_state s c sub.

(** What [tx_state] depends on. *)
Lemma tx_state_frame s s' c sub :
  io_idx (s_write_buf s') = io_idx (s_write_buf s) -> io_data (s_write_buf s') = io_data (s_write_buf s) ->
  s_raw_update s' = s_raw_update s -> tx_state s c sub -> tx_state s' c sub.
Proof.
  intros Hi Hd Hr [p|p pre data]; [by eapply tx_idle|]. eapply tx_sending; try done; [|by rewrite Hi].
  unfold tx_data, bgp_mem in *. by rewrite Hd, Hr.
Qed.

Lemma tx_data_inv s c data : tx_data s c = Some data -> exists buf, tx_buf c = Some buf /\ bgp_mem s buf = Some data.
Proof. unfold tx_data. destruct (tx_buf c) as [buf|]; [|discriminate]. by exists buf. Qed.

(** The length of the next chunk. *)
Lemma chunk_length c p : 0 <= tx_offset c < tx_len c -> tx_len c <= 2 ^ 32 - 4096 -> 0 < tcp_sndbuf p < 65536 ->
  let t := if 4096 <? tcp_sndbuf p then 4096 else tcp_sndbuf p in
  let tx := if tx_len c <? u32 (tx_offset c + t) then u16 (tx_len c - tx_offset c) else t in
  0 < tx <= tcp_sndbuf p /\ tx_offset c + tx <= tx_len c.
Proof.
  intros Ho Hl Hp t tx. assert (0 < t <= 4096 /\ t <= tcp_sndbuf p) by (subst t; case_if; lia).
  subst tx. rewrite u32_small by lia. case_if; [rewrite u16_small by lia|]; lia.
Qed.

Lemma bbl_tcp_sent_cb_ok s c sub : tx_state s c sub ->
  exists c' e idle, bbl_tcp_sent_cb (bgp_mem s) c = Some (c', e, idle) /\ tx_state s c' sub /\
    tcp_idle_cb c' = tcp_idle_cb c /\ tx_buf c' = tx_buf c /\ (idle = true -> tcp_idle_cb c = true /\ tcp_state c' = BBL_TCP_STATE_IDLE) /\
    (tcp_state c = BBL_TCP_STATE_IDLE -> tcp_state c' = BBL_TCP_STATE_IDLE).
Proof.
  intros [p Hp Hs Ho Hd Ha|p pre data Hp Hs Hdata Hoff Hlen H32 Ha Hsub Hw]; unfold bbl_tcp_sent_cb; rewrite Hp; cbn [mbind option_bind].
  - rewrite Ho, Z.ltb_irrefl, Hd. eexists _, _, _. split; [done|]. split; [|destruct c; cbn in *; naive_solver]. destruct c; cbn in *. by eapply tx_idle.
  - destruct (tx_data_inv s c data Hdata) as (buf & Ebuf & Hmem).
    pose proof (tcp_sndbuf_range p) as Hr. case_if.
    + case_if.
      2:{ eexists _, _, _. split; [done|]. split; [|destruct c; cbn in *; naive_solver]. destruct c; cbn in *. eapply (tx_sending _ _ _ (tcp_output p) pre data); cbn; try done.
          by rewrite tcp_output_accepted. }
      set (tx := if tx_len c <? _ then _ else _).
      pose proof (chunk_length c p) as Hc. cbv zeta in Hc. fold tx in Hc.
      rewrite Ebuf. cbn [mbind option_bind]. rewrite Hmem. cbn [mbind option_bind]. unfold region. rewrite (proj2 (Z.leb_le _ _)) by lia. cbn [mbind option_bind].
      set (chunk := take (Z.to_nat tx) (drop (Z.to_nat (tx_offset c)) data)).
      pose proof (tcp_write_accepted p chunk (tx_flags c)) as Hacc. destruct (tcp_write p chunk (tx_flags c)) as [err p'] eqn:Ew. cbn in Hacc.
      destruct (err =? ERR_OK); eexists _, _, _; (split; [done|]; split; [|destruct c; cbn in *; naive_solver]); destruct c; cbn in *; unfold constant.
      * eapply (tx_sending _ _ _ p' pre data); cbn; try done; rewrite ?u32_small by lia; try lia.
        rewrite Hacc, Ha, <- app_assoc. f_equal. subst chunk. rewrite take_take_drop. f_equal. lia.
      * eapply (tx_sending _ _ _ (if err =? ERR_MEM then tcp_output p' else p') pre data); cbn; try done.
        rewrite <- Ha, <- Hacc. case_if; [apply tcp_output_accepted|done].
    + assert (Ho : tx_offset c = tx_len c) by lia. destruct (tcp_drained p) eqn:Edr.
      * eexists _, _, _. split; [done|]. split; [|destruct c; cbn in *; naive_solver]. destruct c; cbn in *. eapply tx_idle; cbn; try done. by rewrite Ha, Ho, Hsub.
      * eexists _, _, _. split; [done|]. split; [|naive_solver]. by eapply tx_sending.
Qed.

(** The first chunk of a buffer given to a drained context is accepted. *)
Lemma bbl_tcp_sent_cb_first s c p data :
  tcp_pcb c = Some p -> tcp_drained p = true -> tcp_state c = BBL_TCP_STATE_IDLE -> tx_offset c = 0 -> tx_data s c = Some data ->
  0 <= tx_len c <= Z.of_nat (length data) -> tx_len c <= 2 ^ 32 - 4096 ->
  (tx_buf c = Some WRITE_BUF -> tx_len c = io_idx (s_write_buf s)) ->
  exists c' e idle, bbl_tcp_sent_cb (bgp_mem s) c = Some (c', e, idle) /\
    tx_state s c' (tcp_accepted p ++ take (Z.to_nat (tx_len c)) data) /\
    tcp_idle_cb c' = tcp_idle_cb c /\ tx_buf c' = tx_buf c /\ (idle = true -> tcp_idle_cb c = true /\ tcp_state c' = BBL_TCP_STATE_IDLE).
Proof.
  intros Hp Hd Hs Ho Hdata Hl H32 Hw. unfold bbl_tcp_sent_cb. rewrite Hp. cbn [mbind option_bind].
  pose proof (tcp_sndbuf_range p). pose proof (tcp_drained_room p Hd). case_if.
  - case_if; [|lia]. destruct (tx_data_inv s c data Hdata) as (buf & Ebuf & Hmem). rewrite Ebuf. cbn [mbind option_bind]. rewrite Hmem. cbn [mbind option_bind].
    pose proof (chunk_length c p) as Hc. cbv zeta in Hc. set (tx := if tx_len c <? _ then _ else _) in *.
    unfold region. rewrite (proj2 (Z.leb_le _ _)) by lia. cbn [mbind option_bind].
    set (chunk := take (Z.to_nat tx) (drop (Z.to_nat (tx_offset c)) data)).
    assert (Hcl : Z.of_nat (length chunk) = tx) by (subst chunk; rewrite length_take, length_drop; lia).
    pose proof (tcp_write_accepted p chunk (tx_flags c)) as Hacc. pose proof (tcp_drained_write p chunk (tx_flags c) Hd) as Hok.
    destruct (tcp_write p chunk (tx_flags c)) as [err p']. cbn in Hacc, Hok. rewrite Hok in * by lia. cbn in Hacc. rewrite Z.eqb_refl.
    eexists _, _, _. split; [done|]. split; [|destruct c; cbn in *; naive_solver]. destruct c; cbn in *; unfold constant. subst.
    eapply (tx_sending _ _ _ p' (tcp_accepted p) data); cbn; try done; rewrite ?u32_small by lia; try lia. rewrite Hacc. f_equal.
  - rewrite Hd. eexists _, _, _. split; [done|]. split; [|destruct c; cbn in *; naive_solver]. replace (Z.to_nat (tx_len c)) with 0%nat by lia.
    rewrite take_0, app_nil_r. destruct c; cbn in *. eapply tx_idle; cbn; (done || lia).
Qed.

(** A buffer given to an idle context joins the stream. *)
Lemma bbl_tcp_send_idle s c sub addr len data :
  tx_state s c sub -> tcp_state c = BBL_TCP_STATE_IDLE -> bgp_mem s addr = Some data ->
  0 <= len <= Z.of_nat (length data) -> len <= 2 ^ 32 - 4096 -> (addr = WRITE_BUF -> len = io_idx (s_write_buf s)) ->
  exists c' idle, bbl_tcp_send (bgp_mem s) (Some c) addr len = Some (c', true, idle) /\
    tx_state s c' (sub ++ take (Z.to_nat len) data) /\ tcp_idle_cb c' = tcp_idle_cb c /\ tx_buf c' = Some addr /\
    (idle = true -> tcp_idle_cb c = true /\ tcp_state c' = BBL_TCP_STATE_IDLE).
Proof.
  intros [p Hp Hs Ho Hd Ha|? ? ? ? Hs] Hst Hmem Hlen H32 Hw; [|congruence]. unfold bbl_tcp_send. cbn [mbind option_bind].
  rewrite decide_False by congruence. rewrite decide_True by (by destruct c).
  destruct (bbl_tcp_sent_cb_first s (c {{ tx_buf := Some addr ; tx_len := len ; tx_offset := 0 }}) p data) as (c' & e & idle & E & Ht & Hi & Hbuf & Hi').
  1-8: destruct c; cbn in *; try done. { unfold constant. intros [= Ea]. by apply Hw. }
  rewrite E. cbn [mbind option_bind]. exists c', idle. split; [done|]. destruct c; cbn in *. by subst.
Qed.

Lemma bbl_tcp_send_sending s c addr len : tcp_state c = BBL_TCP_STATE_SENDING ->
  bbl_tcp_send (bgp_mem s) (Some c) addr len = Some (c, false, false).
Proof. intros Hs. unfold bbl_tcp_send. cbn [mbind option_bind]. by rewrite decide_True. Qed.

(** * The session *)

(** The context sends a raw update only while the session says so. *)
Definition raw_busy (s : bgp_session) (c : tcp_ctx) : Prop :=
  tcp_state c = BBL_TCP_STATE_SENDING -> tx_buf c <> Some WRITE_BUF -> s_raw_update_sending s = true.

Record session_tx (s : bgp_session) (sub : list Z) : Prop := {
  stx_buffers : buffers_wf s;
  stx_ctx : exists c, s_tcpc s = Some c /\ ctx_tx s c sub /\ raw_busy s c
}.

(** What the transmit path leaves alone. *)
Record tx_frame (s s' : bgp_session) : Prop := {
  fr_config : s_config s' = s_config s;
  fr_state : s_state s' = s_state s;
  fr_write : s_write_buf s' = s_write_buf s;
  fr_raw : s_raw_update s' = s_raw_update s;
  fr_start : s_raw_update_start s' = s_raw_update_start s
}.

Lemma tx_frame_refl s : tx_frame s s.
Proof. done. Qed.
Lemma tx_frame_trans s1 s2 s3 : tx_frame s1 s2 -> tx_frame s2 s3 -> tx_frame s1 s3.
Proof. intros [] []. split; congruence. Qed.

Lemma buffers_wf_frame s s' : tx_frame s s' -> buffers_wf s -> buffers_wf s'.
Proof. intros [Hc _ Hw Hr Hs] []. constructor; rewrite ?Hc, ?Hw, ?Hr, ?Hs; done. Qed.

Lemma tx_state_tx_frame s s' c sub : tx_frame s s' -> tx_state s c sub -> tx_state s' c sub.
Proof. intros [_ _ Hw Hr _]. apply tx_state_frame; congruence. Qed.

Lemma bgp_raw_update_stop_cb_ok s c sub : s_tcpc s = Some c -> is_Some (s_raw_update s) -> tx_state s c sub ->
  exists s' c', bgp_raw_update_stop_cb clock s = Some s' /\ tx_frame s s' /\ s_tcpc s' = Some c' /\ tx_state s' c' sub /\
    tcp_idle_cb c' = false /\ tcp_state c' = tcp_state c /\ tx_buf c' = tx_buf c.
Proof.
  intros Hc [r Hr] Ht. unfold bgp_raw_update_stop_cb. rewrite Hc. cbn [mbind option_bind].
  destruct s; cbn in *. subst. cbn. eexists _, _. split; [done|].
  assert (Ht' : forall s, tx_state s c sub -> tx_state s (c {{ tcp_idle_cb := false }}) sub).
  { intros s [p|p pre data]; [eapply tx_idle|eapply tx_sending]; destruct c; cbn in *; done. }
  case_if; cbn; (split; [done|]; split; [done|]; split; [|by destruct c]); apply Ht'; eapply tx_state_frame; try exact Ht; done.
Qed.

Lemma session_tcp_send_ok s c sub addr len : s_tcpc s = Some c -> ctx_tx s c sub ->
  (tcp_state c = BBL_TCP_STATE_IDLE -> exists data, bgp_mem s addr = Some data /\ 0 <= len <= Z.of_nat (length data) /\ len <= 2 ^ 32 - 4096 /\
     (addr = WRITE_BUF -> len = io_idx (s_write_buf s))) ->
  exists s' ok c', session_tcp_send clock addr len s = Some (s', ok) /\ tx_frame s s' /\ s_tcpc s' = Some c' /\
    ok = bool_decide (tcp_state c = BBL_TCP_STATE_IDLE) /\
    (if ok then tx_buf c' = Some addr else c' = c) /\
    (s_raw_update_sending s' = s_raw_update_sending s \/ tcp_state c' = BBL_TCP_STATE_IDLE) /\
    ctx_tx s' c' (if ok then sub ++ take (Z.to_nat len) (default [] (bgp_mem s addr)) else sub).
Proof.
  intros Hc [Hi Ht] Hidle. unfold session_tcp_send. rewrite Hc.
  destruct (decide (tcp_state c = BBL_TCP_STATE_IDLE)) as [Hs|Hs].
  - destruct (Hidle Hs) as (data & Hm & Hl & H32 & Hw). rewrite Hm. cbn [default].
    destruct (bbl_tcp_send_idle s c sub addr len data Ht Hs Hm Hl H32 Hw) as (c' & idle & -> & Ht' & Hi1 & Hbuf & Hi2). cbn [mbind option_bind].
    rewrite bool_decide_eq_true_2 by done. set (s1 := s {{ s_tcpc := Some c' }}).
    assert (F1 : tx_frame s s1) by (by destruct s). assert (Ht1 : tx_state s1 c' (sub ++ take (Z.to_nat len) data)) by (by eapply tx_state_tx_frame).
    destruct idle.
    + destruct (bgp_raw_update_stop_cb_ok s1 c' (sub ++ take (Z.to_nat len) data)) as (s2 & c2 & -> & F2 & Hc2 & Ht2 & Hf & Hst2 & Hb2); [by destruct s|by destruct s; apply Hi, Hi2|exact Ht1|]. cbn [mbind option_bind].
      eexists _, _, _. split; [done|]. split; [by eapply tx_frame_trans|]. split; [done|]. split; [done|]. split; [congruence|].
      split; [right; rewrite Hst2; by apply Hi2|]. split; [congruence|done].
    + eexists _, _, _. split; [done|]. split; [done|]. split; [by destruct s|]. split; [done|]. split; [done|]. split; [left; by destruct s|].
      split; [by destruct s; rewrite Hi1|done].
  - assert (Hsend : tcp_state c = BBL_TCP_STATE_SENDING) by (by destruct Ht).
    rewrite bbl_tcp_send_sending by done. cbn [mbind option_bind]. rewrite bool_decide_eq_false_2 by done.
    eexists _, _, _. split; [done|]. split; [by destruct s|]. split; [by destruct s|]. split; [done|]. split; [done|]. split; [left; by destruct s|].
    split; [by destruct s|]. eapply tx_state_tx_frame; [|done]. by destruct s.
Qed.

(** ** Messages *)

Inductive bgp_msg := MsgOpen | MsgKeepalive | MsgNotification.

Definition push_msg (m : bgp_msg) (s : bgp_session) : io_buffer -> option io_buffer :=
  match m with
  | MsgOpen => bgp_push_open_message (s_config s)
  | MsgKeepalive => bgp_push_keepalive_message
  | MsgNotification => bgp_push_notification_message (s_error_code s) (s_error_subcode s)
  end.

Lemma push_msg_extends m s b : buffers_wf s -> io_wf b -> io_size b = BGP_BUF_SIZE ->
  exists b', push_msg m s b = Some b' /\ extends b b'.
Proof.
  intros Hs Hw Hz. unfold BGP_BUF_SIZE in Hz. destruct m; cbn [push_msg].
  - apply open_extends; [done|lia|apply Hs..].
  - destruct (keepalive_appends b Hw) as (b' & E & A); [unfold BGP_MIN_MESSAGE_SIZE; lia|]. exists b'. split; [done|by eexists].
  - apply notification_extends; [done|lia].
Qed.

Lemma reset_write_buffer_wf s : buffers_wf s ->
  let s' := bgp_session_reset_write_buffer s in
  buffers_wf s' /\ s_tcpc s' = s_tcpc s /\ s_config s' = s_config s /\ s_state s' = s_state s /\ s_raw_update s' = s_raw_update s /\
  s_error_code s' = s_error_code s /\ s_error_subcode s' = s_error_subcode s /\ s_raw_update_start s' = s_raw_update_start s.
Proof.
  intros Hs s'. subst s'. unfold bgp_session_reset_write_buffer. case_match; [done|].
  destruct Hs as [(Hb & Hl & Hi & Hz) Hsz Hr Hst Hid]. destruct s; cbn in *. split; [|done].
  constructor; cbn; try done. unfold io_wf. cbn. split_and!; (done || lia).
Qed.

Lemma write_mem s : bgp_mem s WRITE_BUF = Some (io_data (s_write_buf s)).
Proof. done. Qed.

Lemma tx_state_push s c sub bs b' :
  io_wf (s_write_buf s) -> tx_state s c sub -> tcp_state c = BBL_TCP_STATE_SENDING -> appends (s_write_buf s) bs b' -> io_size b' <= 2 ^ 32 - 4096 ->
  tx_buf c = Some WRITE_BUF -> tx_state (s {{ s_write_buf := b' }}) (c {{ tx_len := io_idx b' }}) (sub ++ bs).
Proof.
  intros Hw [p ? Hs|p pre data Hp Hs Hdata Hoff Hlen H32 Ha -> Hwr] Hst A Hz Hb; [congruence|].
  pose proof (appends_idx _ _ _ Hw A) as Hi. destruct A as ((Hb' & Hl' & Hi' & _) & Hz' & E). unfold io_written in E.
  unfold tx_data in Hdata. rewrite Hb in Hdata. cbn [mbind option_bind] in Hdata. rewrite write_mem in Hdata. injection Hdata as <-.
  specialize (Hwr Hb). destruct c; cbn in *; unfold constant. subst.
  eapply (tx_sending _ _ _ p pre (io_data b')); cbn; try done; try (destruct s; cbn in *; done || lia).
  - rewrite Ha. f_equal. apply (f_equal (take (Z.to_nat tx_offset))) in E.
    rewrite take_take, take_app_le, take_take in E by (rewrite length_take; destruct Hw as (_ & ? & _); lia).
    rewrite !Nat.min_l in E by lia. done.
  - by rewrite E, <- app_assoc.
Qed.

Lemma tx_state_push_raw s c sub b' : tx_state s c sub -> tx_buf c <> Some WRITE_BUF \/ tcp_state c = BBL_TCP_STATE_IDLE ->
  tx_state (s {{ s_write_buf := b' }}) c sub.
Proof.
  intros [p|p pre data Hp Hs Hdata] Hb; [by eapply tx_idle|]. destruct Hb as [Hb|]; [|congruence].
  destruct (tx_data_inv _ _ _ Hdata) as (buf & Ebuf & Hm). eapply tx_sending; try done. unfold tx_data, bgp_mem in *. rewrite Ebuf in *.
  cbn [mbind option_bind] in *. destruct (buf =? WRITE_BUF) eqn:E; [apply Z.eqb_eq in E; congruence|]. by destruct s.
Qed.

Lemma buffers_wf_push s b' bs : buffers_wf s -> appends (s_write_buf s) bs b' -> buffers_wf (s {{ s_write_buf := b' }}).
Proof. intros [? Hsz ? ? ?] (W & Z' & _). constructor; destruct s; cbn in *; unfold constant; try done. congruence. Qed.

(** Sending what is in the buffer: the bytes appended since it was last sent. *)
Lemma bgp_session_send_ok s sub bs b' : session_tx s sub -> appends (s_write_buf s) bs b' ->
  (forall c, s_tcpc s = Some c -> tcp_state c = BBL_TCP_STATE_IDLE -> io_idx (s_write_buf s) = 0) ->
  exists s' ok, bgp_session_send clock (s {{ s_write_buf := b' }}) = Some (s', ok) /\
    session_tx s' (sub ++ if ok then bs else []) /\ tx_frame (s {{ s_write_buf := b' }}) s'.
Proof.
  intros [Hbuf (c & Hc & (Hcb & Ht) & Hbusy)] A Hidle. set (s1 := s {{ s_write_buf := b' }}).
  assert (Hb1 : buffers_wf s1) by by eapply buffers_wf_push. assert (Hc1 : s_tcpc s1 = Some c) by by destruct s.
  assert (Hraw1 : s_raw_update s1 = s_raw_update s) by by destruct s. assert (Hwb1 : s_write_buf s1 = b') by by destruct s.
  pose proof (bw_write _ Hbuf) as Hw. pose proof (appends_idx _ _ _ Hw A) as Hi.
  assert (Hw1 : io_wf b') by apply A. assert (Hz1 : io_size b' = BGP_BUF_SIZE) by (rewrite <- Hwb1; apply Hb1). unfold BGP_BUF_SIZE in Hz1.
  destruct (decide (tcp_state c = BBL_TCP_STATE_SENDING /\ tx_buf c = Some WRITE_BUF)) as [[Hs Hwb]|Hn].
  - pose proof (tx_state_push s c sub bs b' Hw Ht Hs A ltac:(lia) Hwb) as Ht1. fold s1 in Ht1.
    unfold bgp_session_send. rewrite Hc1, Hwb1. unfold tcp_sending. rewrite !bool_decide_eq_true_2 by done. cbn [andb].
    destruct (tx_len c <? io_idx b') eqn:El; bool_to_prop.
    + eexists _, _. split; [done|]. split; [|by destruct s]. split; [eapply buffers_wf_frame; [|done]; by destruct s|].
      exists (c {{ tx_len := io_idx b' }}). split; [by destruct s|]. split; [split; [by destruct c, s|]|by destruct c, s]. eapply tx_state_tx_frame; [|exact Ht1]. by destruct s.
    + assert (Hbs : bs = []). { destruct Ht as [? ? Hs'|? ? ? ? _ _ _ _ _ _ _ Hl]; [congruence|]. destruct bs; [done|]. cbn in Hi. specialize (Hl Hwb). lia. }
      subst bs. replace (c {{ tx_len := io_idx b' }}) with c in Ht1.
      2:{ destruct Ht as [? ? Hs'|? ? ? ? _ _ _ _ _ _ _ Hl]; [congruence|]. specialize (Hl Hwb). cbn in Hi. destruct c; cbn in *. unfold constant. f_equal. lia. }
      destruct (session_tcp_send_ok s1 c (sub ++ []) WRITE_BUF (io_idx b') Hc1) as (s2 & ok & c2 & E2 & F2 & Hc2 & -> & Hb2 & Hsn2 & Ht2);
        [split; [by rewrite Hraw1|done]|congruence|]. rewrite bool_decide_eq_false_2 in * by congruence. subst c2.
      exists s2, false. split; [done|]. split; [|done]. split; [by eapply buffers_wf_frame|]. exists c. split; [done|]. split; [done|].
      intros _ Hx. congruence.
  - assert (Ht1 : tx_state s1 c sub).
    { apply tx_state_push_raw; [done|]. destruct Ht as [? ? Hs|? ? ? ? Hs]; [by right|left; naive_solver]. }
    assert (E1 : bgp_session_send clock s1 = session_tcp_send clock WRITE_BUF (io_idx b') s1).
    { unfold bgp_session_send. rewrite Hc1, Hwb1. unfold tcp_sending. case_match eqn:E; [|done]. bool_to_prop.
      exfalso. apply Hn. split; by eapply bool_decide_eq_true_1. }
    rewrite E1. destruct (session_tcp_send_ok s1 c sub WRITE_BUF (io_idx b') Hc1) as (s2 & ok & c2 & E2 & F2 & Hc2 & -> & Hb2 & Hsn2 & Ht2);
      [split; [by rewrite Hraw1|done]| |].
    { intros Hs. exists (io_data b'). rewrite write_mem, Hwb1. destruct Hw1 as (_ & ? & ? & ?). split_and!; done || lia. }
    exists s2, (bool_decide (tcp_state c = BBL_TCP_STATE_IDLE)). split; [done|]. split; [|done]. split; [by eapply buffers_wf_frame|].
    exists c2. split; [done|].
    assert (Hbusy2 : raw_busy s2 c2).
    { intros Hx Hy. case_bool_decide; [congruence|]. subst c2. destruct Hsn2 as [->|]; [|congruence]. rewrite <- (Hbusy Hx Hy). by destruct s. }
    split; [|done]. case_bool_decide as Hs; [|by rewrite app_nil_r].
    rewrite write_mem, Hwb1 in Ht2. cbn in Ht2. destruct A as (_ & _ & Ea). unfold io_written in Ea.
    rewrite (Hidle c Hc Hs) in Ea. rewrite Ea in Ht2. exact Ht2.
Qed.

(** Sending a message appends its bytes to the stream, or nothing when it returns false. *)
Lemma send_message_ok m s sub : session_tx s sub ->
  exists s' ok, send_message clock (push_msg m s) s = Some (s', ok) /\ s_state s' = s_state s /\ s_config s' = s_config s /\
    session_tx s' (sub ++ if ok then appended (s_write_buf (bgp_session_reset_write_buffer s)) (s_write_buf s') else []).
Proof.
  intros Hs. destruct (reset_write_buffer_wf s (stx_buffers _ _ Hs)) as (Hb0 & Hc0 & Hcf & Hst & Hr0 & _).
  set (s0 := bgp_session_reset_write_buffer s) in *.
  assert (Hs0 : session_tx s0 sub).
  { destruct Hs as [Hb (c & Hc & (Hcb & Ht) & Hbusy)]. split; [done|]. exists c. rewrite Hc0. split; [done|].
    split; [|subst s0; unfold bgp_session_reset_write_buffer; case_match; [done|by destruct s]]. split; [by rewrite Hr0|].
    subst s0. unfold bgp_session_reset_write_buffer in *. rewrite Hc in *. unfold tcp_sending in *. case_bool_decide; [done|].
    apply tx_state_push_raw; [done|]. right. by destruct Ht. }
  destruct (push_msg_extends m s (s_write_buf s0)) as (b' & E & Hext); [apply Hs|apply Hb0..|].
  pose proof (extends_appends _ _ (bw_write _ Hb0) Hext) as A.
  destruct (bgp_session_send_ok s0 sub _ b' Hs0 A) as (s' & ok & E' & Ht' & F').
  { intros c Hc Hi. subst s0. unfold bgp_session_reset_write_buffer in *. rewrite Hc0 in Hc. rewrite Hc. unfold tcp_sending.
    rewrite bool_decide_eq_false_2 by congruence. by destruct s. }
  unfold send_message. fold s0. rewrite E. cbn [mbind option_bind]. rewrite E'. exists s', ok. split; [done|].
  destruct F' as [Fc Fs Fw _ _]. rewrite Fw. split_and!; [rewrite Fs, <- Hst; by destruct s0|rewrite Fc, <- Hcf; by destruct s0|].
  by destruct s0.
Qed.

(** ** Raw updates and callbacks of lwIP *)

(** The session starts to send its raw update now. *)
Definition starts_update (s : bgp_session) : option bgp_raw_update :=
  match s_state s, s_raw_update s, s_raw_update_sending s, s_tcpc s with
  | BGP_ESTABLISHED, Some r, false, Some c => if decide (tcp_state c = BBL_TCP_STATE_IDLE) then Some r else None
  | _, _, _, _ => None
  end.

Lemma ctx_tx_act s c sub a : ctx_tx s c sub -> ctx_tx (act a s) c sub.
Proof. intros [Hi Ht]. split; [by destruct s|]. eapply tx_state_tx_frame; [|done]. by destruct s. Qed.

Lemma session_tx_act s sub a : session_tx s sub -> session_tx (act a s) sub.
Proof.
  intros [Hb (c & Hc & Ht & Hbusy)]. split; [eapply buffers_wf_frame; [|done]; by destruct s|].
  exists c. split; [by destruct s|]. split; [by apply ctx_tx_act|by destruct s].
Qed.

(** [s] with the context [c]. *)
Lemma session_tx_frame s s' c sub : tx_frame s s' -> buffers_wf s -> s_tcpc s' = Some c -> ctx_tx s c sub -> raw_busy s' c -> session_tx s' sub.
Proof.
  intros F Hb Hc [Hi Ht] Hbusy. split; [by eapply buffers_wf_frame|]. exists c. split; [done|]. split; [|done]. split; [by rewrite (fr_raw _ _ F)|by eapply tx_state_tx_frame].
Qed.

Lemma bgp_session_update_job_ok t s sub : session_tx s sub ->
  exists s', bgp_session_update_job clock t s = Some s' /\ s_state s' = s_state s /\ s_config s' = s_config s /\
    session_tx s' (sub ++ match starts_update s with Some r => raw_buf r | None => [] end).
Proof.
  intros Hs. pose proof Hs as [Hb (c & Hc & Ht & Hbusy)]. unfold bgp_session_update_job, starts_update.
  assert (Hone : forall a, exists s', Some (act a s) = Some s' /\ s_state s' = s_state s /\ s_config s' = s_config s /\ session_tx s' (sub ++ [])).
  { intros a. exists (act a s). rewrite app_nil_r. split; [done|]. split; [by destruct s|]. split; [by destruct s|by apply session_tx_act]. }
  destruct (decide (s_state s = BGP_ESTABLISHED)) as [He|He]; [rewrite He|destruct (s_state s); done || apply Hone].
  rewrite He in Hone.
  destruct (s_raw_update s) as [r|] eqn:Er; [|apply Hone]. destruct (s_raw_update_sending s) eqn:Eu; [apply Hone|]. rewrite Hc.
  pose proof (bw_raw _ Hb r Er) as (Hra & Hrl & Hr32).
  assert (Hm : bgp_mem s (raw_addr r) = Some (raw_buf r)).
  { unfold bgp_mem. rewrite (proj2 (Z.eqb_neq _ _)) by done. rewrite Er. cbn [mbind option_bind]. by rewrite Z.eqb_refl. }
  destruct (session_tcp_send_ok s c sub (raw_addr r) (raw_len r) Hc Ht) as (s1 & ok & c1 & E1 & F1 & Hc1 & -> & Hb1' & Hsn1 & Ht1).
  { intros _. exists (raw_buf r). split_and!; done || lia. }
  rewrite E1. cbn [mbind option_bind]. rewrite Hm in Ht1. cbn in Ht1. pose proof (fr_raw _ _ F1) as Hr1. pose proof (buffers_wf_frame _ _ F1 Hb) as Hb1.
  case_bool_decide as Hi.
  - rewrite decide_True by done. rewrite take_ge in Ht1 by lia. destruct Ht1 as [_ Ht1].
    unfold bgp_clock. cbn [mbind option_bind]. destruct s1 eqn:Es1. cbn in Hc1. subst s_tcpc. cbn [mbind option_bind].
    eexists. split; [done|]. destruct F1 as [Fc Fs Fw Fr Fst]. cbn in *.
    split; [congruence|]. split; [congruence|]. eapply (session_tx_frame s1 _ (c1 {{ tcp_idle_cb := true }})); [by subst s1|by subst s1|done| |done].
    split; [subst s1; cbn; by rewrite Fr, Er|]. subst s1.
    destruct Ht1 as [p|p pre data]; [eapply tx_idle|eapply tx_sending]; destruct c1; cbn in *; done.
  - rewrite decide_False by done. rewrite app_nil_r. eexists. split; [done|]. destruct F1 as [Fc Fs Fw Fr Fst].
    split; [destruct s1; cbn in *; congruence|]. split; [destruct s1; cbn in *; congruence|]. apply session_tx_act. split; [done|]. subst c1. exists c. split; [done|]. split; [done|].
    intros Hx Hy. destruct Hsn1 as [->|]; [by apply Hbusy|congruence].
Qed.

(** The callback of lwIP for acknowledged data, and the callback of the application. *)
Definition session_sent_cb (s : bgp_session) : option bgp_session :=
  c ← s_tcpc s;
  '(c, _, idle) ← bbl_tcp_sent_cb (bgp_mem s) c;
  let s := s {{ s_tcpc := Some c }} in
  if (idle : bool) then bgp_raw_update_stop_cb clock s else Some s.

Lemma session_sent_cb_ok s sub : session_tx s sub ->
  exists s', session_sent_cb s = Some s' /\ s_state s' = s_state s /\ s_config s' = s_config s /\ session_tx s' sub.
Proof.
  intros [Hb (c & Hc & (Hcb & Ht) & Hbusy)]. unfold session_sent_cb. rewrite Hc. cbn [mbind option_bind].
  destruct (bbl_tcp_sent_cb_ok s c sub Ht) as (c' & e & idle & -> & Ht' & Hi & Hbuf & Hi' & Hidle). cbn [mbind option_bind].
  set (s1 := s {{ s_tcpc := Some c' }}). assert (F1 : tx_frame s s1) by (by destruct s). assert (Hc1 : s_tcpc s1 = Some c') by by destruct s.
  assert (Ht1 : tx_state s1 c' sub) by by eapply tx_state_tx_frame. pose proof (buffers_wf_frame _ _ F1 Hb) as Hb1.
  destruct idle.
  - destruct (bgp_raw_update_stop_cb_ok s1 c' sub Hc1) as (s2 & c2 & -> & F2 & Hc2 & Ht2 & Hf & Hst2 & _); [rewrite (fr_raw _ _ F1); by apply Hcb, Hi'|done|].
    exists s2. split; [done|]. destruct F1 as [Fc1 Fs1 _ _ _]. split; [by rewrite (fr_state _ _ F2)|]. split; [by rewrite (fr_config _ _ F2)|].
    split; [by eapply buffers_wf_frame|]. exists c2. split; [done|]. split; [split; [congruence|done]|]. intros Hx. rewrite Hst2 in Hx. destruct (Hi' eq_refl). congruence.
  - exists s1. split; [done|]. split; [by destruct s|]. split; [by destruct s|]. split; [done|]. exists c'. split; [done|]. split; [split; [|done]; by rewrite (fr_raw _ _ F1), Hi|].
    intros Hx Hy. rewrite Hbuf in Hy. subst s1. destruct s; cbn in *. apply Hbusy; [|done]. destruct Ht as [? ? Hs|]; [|done]. rewrite Hidle in Hx; done.
Qed.

(** Acknowledgements and window updates change the control block. *)
Definition acks (f : pcb -> pcb) : Prop :=
  forall p, tcp_accepted (f p) = tcp_accepted p /\ (tcp_drained p = true -> tcp_drained (f p) = true).

Definition session_ack (f : pcb -> pcb) (s : bgp_session) : bgp_session :=
  s {{ s_tcpc ::= fmap (fun c => c {{ tcp_pcb ::= fmap f }}) }}.

Lemma session_ack_ok f s sub : acks f -> session_tx s sub -> session_tx (session_ack f s) sub.
Proof.
  intros Hf [Hb (c & Hc & (Hcb & Ht) & Hbusy)].
  apply (session_tx_frame s _ (c {{ tcp_pcb ::= fmap f }})); [by destruct s|done|destruct s; cbn in *; by subst| |by destruct s, c].
  split; [by destruct c|].
  destruct Ht as [p Hp|p pre data Hp]; destruct (Hf p) as [Ha Hd]; [eapply (tx_idle _ _ _ (f p))|eapply (tx_sending _ _ _ (f p) pre data)];
    destruct c; cbn in *; subst; cbn; (done || by rewrite Ha || by apply Hd).
Qed.

(** * Executions *)

Inductive tx_event :=
| TxMessage (m : bgp_msg)
| TxUpdate (t : bgp_timer)
| TxSent
| TxAck (f : pcb -> pcb).

(** The new session and the bytes submitted. *)
Definition tx_step (e : tx_event) (s : bgp_session) : option (bgp_session * list Z) :=
  match e with
  | TxMessage m =>
      '(s', ok) ← send_message clock (push_msg m s) s;
      Some (s', if (ok : bool) then appended (s_write_buf (bgp_session_reset_write_buffer s)) (s_write_buf s') else [])
  | TxUpdate t =>
      s' ← bgp_session_update_job clock t s;
      Some (s', match starts_update s with Some r => raw_buf r | None => [] end)
  | TxSent => s' ← session_sent_cb s; Some (s', [])
  | TxAck f => Some (session_ack f s, [])
  end.

Fixpoint tx_run (es : list tx_event) (s : bgp_session) : option (bgp_session * list Z) :=
  match es with
  | [] => Some (s, [])
  | e :: es => '(s, bs) ← tx_step e s; '(s, cs) ← tx_run es s; Some (s, bs ++ cs)
  end.

Definition event_ok (e : tx_event) : Prop := match e with TxAck f => acks f | _ => True end.

Lemma tx_run_ok es s sub : Forall event_ok es -> session_tx s sub ->
  exists s' bs, tx_run es s = Some (s', bs) /\ session_tx s' (sub ++ bs).
Proof.
  intros Hes. revert s sub. induction Hes as [|e es He _ IH]; intros s sub Hs; [exists s, []; by rewrite app_nil_r|].
  assert (Hstep : exists s1 bs, tx_step e s = Some (s1, bs) /\ session_tx s1 (sub ++ bs)).
  { destruct e; cbn [tx_step].
    - destruct (send_message_ok m s sub Hs) as (s1 & ok & -> & _ & _ & H1). eexists _, _. by split.
    - destruct (bgp_session_update_job_ok t s sub Hs) as (s1 & -> & _ & _ & H1). eexists _, _. by split.
    - destruct (session_sent_cb_ok s sub Hs) as (s1 & -> & _ & _ & H1). eexists _, _. split; [done|]. by rewrite app_nil_r.
    - eexists _, _. split; [done|]. rewrite app_nil_r. by apply session_ack_ok. }
  destruct Hstep as (s1 & bs & E1 & H1). destruct (IH _ _ H1) as (s2 & cs & E2 & H2).
  exists s2, (bs ++ cs). cbn [tx_run]. rewrite E1. cbn [mbind option_bind]. rewrite E2. cbn [mbind option_bind]. split; [done|]. by rewrite app_assoc.
Qed.
End Stream.

(** * Claims *)

(** C19. The transmit path of BGP is a stream: after any sequence of messages (OPEN,
    KEEPALIVE, NOTIFICATION), raw updates, callbacks and acknowledgements on a new
    connection, no step has left a buffer or followed NULL, and what lwIP has
    accepted followed by what the context still has to send is exactly the
    concatenation of the messages and updates submitted, whole and in order; the
    part of the buffer lwIP may still have to retransmit is unchanged. *)
Theorem bgp_tx_stream `{LwipSpec} (clock : nat -> timespec) (s : bgp_session) (c : tcp_ctx) (p : pcb) (es : list tx_event) :
  buffers_wf s -> s_tcpc s = Some c -> tcp_pcb c = Some p -> tcp_state c = BBL_TCP_STATE_IDLE -> tx_offset c = tx_len c ->
  tcp_idle_cb c = false -> tcp_drained p = true -> tcp_accepted p = [] -> Forall event_ok es ->
  exists s' sub c' p', tx_run clock es s = Some (s', sub) /\ s_tcpc s' = Some c' /\ tcp_pcb c' = Some p' /\
    (tcp_state c' = BBL_TCP_STATE_IDLE /\ tcp_accepted p' = sub \/
     tcp_state c' = BBL_TCP_STATE_SENDING /\ exists sent data, tx_data s' c' = Some data /\
       tcp_accepted p' = sent ++ take (Z.to_nat (tx_offset c')) data /\ sub = sent ++ take (Z.to_nat (tx_len c')) data).
Proof.
  intros Hb Hc Hp Hs Ho Hi Hd Ha Hes.
  destruct (tx_run_ok clock es s [] Hes) as (s' & sub & E & [Hb' (c' & Hc' & (_ & Ht) & _)]).
  { split; [done|]. exists c. split; [done|]. split; [split; [congruence|by eapply tx_idle]|]. intros ?. congruence. }
  exists s', sub, c'. destruct Ht as [p'|p' pre data]; exists p'; (split; [done|]; split; [done|]; split; [done|]); [by left|right].
  split; [done|]. by exists pre, data.
Qed.

Definition tx_ctx : @tcp_ctx all_taken := @mk_tcp_ctx all_taken false (Some ([], true)) false None 0 BBL_TCP_STATE_IDLE 0 None 0 0 0 0.
Definition tx_session : @bgp_session all_taken :=
  mk_bgp_session (mk_bgp_config [10; 0; 0; 1] 65000 90 5 1 0 true false) false (Some tx_ctx)
    (mk_io_buffer (replicate (Z.to_nat BGP_BUF_SIZE) 0) 0 0 BGP_BUF_SIZE) BGP_OPENSENT 0 0 0 (mk_bgp_stats 0 0 0 0 0 0) None None false
    ts_zero ts_zero ts_zero ts_zero false 0 0 [] 0%nat.

(** All data is acknowledged. *)
Definition ack_all : @pcb all_taken -> @pcb all_taken := fun p => (p.1, true).

Lemma tx_session_wf : buffers_wf tx_session.
Proof.
  constructor; try discriminate; [|done|].
  - unfold io_wf, tx_session. cbn [s_write_buf io_data io_idx io_size]. rewrite length_replicate, Z2Nat.id by done.
    split; [apply bytes_replicate; lia|]. split; [done|]. unfold BGP_BUF_SIZE. lia.
  - split; [repeat constructor; lia|done].
Qed.

Lemma bgp_tx_stream_witness :
  exists s' sub c' p',
    @tx_run all_taken (fun n => mk_ts (Z.of_nat n) 0) [TxMessage MsgOpen; TxMessage MsgKeepalive; TxAck ack_all; TxSent; TxMessage MsgNotification] tx_session = Some (s', sub) /\
    s_tcpc s' = Some c' /\ @tcp_pcb all_taken c' = Some p' /\
    (tcp_state c' = BBL_TCP_STATE_IDLE /\ p'.1 = sub \/
     tcp_state c' = BBL_TCP_STATE_SENDING /\ exists sent data, tx_data s' c' = Some data /\
       p'.1 = sent ++ take (Z.to_nat (tx_offset c')) data /\ sub = sent ++ take (Z.to_nat (tx_len c')) data).
Proof.
  apply (@bgp_tx_stream all_taken all_taken_spec (fun n => mk_ts (Z.of_nat n) 0) tx_session tx_ctx ([], true)); try reflexivity.
  - exact tx_session_wf.
  - repeat constructor; intros; reflexivity.
Defined.
