(* ===== verification/BgpSafe.v ===== *)
(** BGP sessions never follow NULL and never leave a buffer: the handlers of the
    session, called by the timers, by lwIP and by the control socket in any
    order, keep the invariant [session_inv]. *)
From coqutil Require Import Datatypes.RecordSetters.
From S2P Require Import Prelude.
From S2P Require Import Const.
From S2P Require Import ConstApp.
From S2P Require Import Utils.
From S2P Require Import Timer.
From S2P Require Import Tcp.
From S2P Require Import BgpMessage.
From S2P Require Import BgpSession.
From S2P Require Import BgpReceive.
From S2P Require Import BgpFraming.
From S2P Require Import BgpTx.
From S2P Require Import BgpStream.
Import RecordSetters.DoubleBraceUpdate.
From stdpp Require Import list strings.
Import BeUint IoBuffer.
Open Scope Z_scope.
#[local] Set Warnings "-clear-no-such-hyp".

Section Safe.
Context `{LwipSpec} (clock : nat -> timespec).

(** * The invariant *)

(** A connection is open. *)
Definition open_inv (s : bgp_session) : Prop := (exists sub, session_tx s sub) /\ 1 < state_val (s_state s).

(** The context of a session that is not open. *)
Definition shut_inv (s : bgp_session) : Prop :=
  buffers_wf s /\
  match s_tcpc s with
  | None => s_state s = BGP_CLOSED \/ s_state s = BGP_IDLE
  | Some c =>
      match tcp_state c with
      | BBL_TCP_STATE_CONNECTING => s_state s = BGP_CONNECT /\ is_Some (tcp_pcb c) /\ tx_offset c = tx_len c /\ tcp_idle_cb c = false
      | BBL_TCP_STATE_CLOSED => s_state s <> BGP_IDLE
      | _ => False
      end
  end.

Definition session_inv (s : bgp_session) : Prop := open_inv s \/ shut_inv s.

(** The handler returns, and [P] holds of its result. *)
Definition returns {A} (o : option A) (P : A -> Prop) : Prop := exists a, o = Some a /\ P a.

Lemma returns_some {A} (a : A) (P : A -> Prop) : P a -> returns (Some a) P.
Proof. intros. by exists a. Qed.
Lemma returns_bind {A B} (o : option A) (f : A -> option B) (P : A -> Prop) (Q : B -> Prop) :
  returns o P -> (forall a, P a -> returns (f a) Q) -> returns (o ≫= f) Q.
Proof. intros (a & -> & Ha) Hf. by apply Hf. Qed.
Lemma returns_mono {A} (o : option A) (P Q : A -> Prop) : returns o P -> (forall a, P a -> Q a) -> returns o Q.
Proof. intros (a & -> & Ha) Hpq. exists a. auto. Qed.

(** ** Changes of a session that keep it open or shut *)

(** [s'] has the buffers and the context of [s]. *)
Record same_tx (s s' : bgp_session) : Prop := {
  st_config : s_config s' = s_config s;
  st_tcpc : s_tcpc s' = s_tcpc s;
  st_write : s_write_buf s' = s_write_buf s;
  st_raw : s_raw_update s' = s_raw_update s;
  st_start : s_raw_update_start s' = s_raw_update_start s;
  st_sending : s_raw_update_sending s' = s_raw_update_sending s
}.

Lemma same_buffers s s' : same_tx s s' -> buffers_wf s -> buffers_wf s'.
Proof. intros [Hc _ Hw Hr Hs _] []. constructor; rewrite ?Hc, ?Hw, ?Hr, ?Hs; done. Qed.

Lemma same_open s s' : same_tx s s' -> open_inv s -> 1 < state_val (s_state s') -> open_inv s'.
Proof.
  intros Hs [(sub & [Hb (c & Hc & (Hi & Ht) & Hbusy)]) _] Hst. split; [|done]. exists sub. split; [by eapply same_buffers|].
  exists c. destruct Hs as [? Htc Hw Hr ? Hsn]. rewrite Htc. split; [done|]. split; [|unfold raw_busy; by rewrite Hsn]. split; [by rewrite Hr|]. eapply tx_state_frame; [..|exact Ht]; congruence.
Qed.

(** Where the state of a shut session may go. *)
Definition shut_to (s : bgp_session) (st : bgp_state) : Prop :=
  match s_tcpc s with
  | None => st = BGP_CLOSED \/ st = BGP_IDLE
  | Some c =>
      match tcp_state c with
      | BBL_TCP_STATE_CONNECTING => st = BGP_CONNECT
      | BBL_TCP_STATE_CLOSED => st <> BGP_IDLE
      | _ => False
      end
  end.

Lemma same_shut s s' : same_tx s s' -> shut_inv s -> shut_to s (s_state s') -> shut_inv s'.
Proof.
  intros Hs [Hb Hc] Hst. split; [by eapply same_buffers|]. destruct Hs as [_ Ht _ _ _ _]. rewrite Ht. unfold shut_to in Hst.
  destruct (s_tcpc s) as [c|]; [|done]. destruct (tcp_state c); try done. naive_solver.
Qed.

Lemma shut_inv_to s : shut_inv s -> shut_to s (s_state s).
Proof. intros [_ Hc]. unfold shut_to. destruct (s_tcpc s) as [c|]; [|done]. destruct (tcp_state c); naive_solver. Qed.

Lemma same_inv s s' : same_tx s s' -> s_state s' = s_state s -> session_inv s -> session_inv s'.
Proof.
  intros Hs Hst [Ho|Hsh]; [left; eapply same_open; [done..|rewrite Hst; apply Ho]|right].
  eapply same_shut; [done..|]. rewrite Hst. by apply shut_inv_to.
Qed.

Lemma act_inv a s : session_inv s -> session_inv (act a s).
Proof. apply same_inv; by destruct s. Qed.
Lemma act_open a s : open_inv s -> open_inv (act a s).
Proof. intros Ho. apply (same_open s); [by destruct s|done|]. destruct Ho as [_ ?]. by destruct s. Qed.

(** ** Sending *)

(** A context that is shut takes the buffer and sends nothing. *)
Lemma send_message_shut m s : shut_inv s -> 2 < state_val (s_state s) ->
  returns (send_message clock (push_msg m s) s) (fun r => shut_inv r.1 /\ s_state r.1 = s_state s /\ s_config r.1 = s_config s).
Proof.
  intros [Hb Hc] Hst. destruct (reset_write_buffer_wf s Hb) as (Hb0 & Hc0 & Hcf & Hs0 & Hr0 & _ & _ & Hst0).
  unfold send_message. set (s0 := bgp_session_reset_write_buffer s) in *.
  destruct (push_msg_extends m s (s_write_buf s0)) as (b' & E & Hext); [done|apply Hb0..|]. rewrite E. cbn [mbind option_bind].
  pose proof (extends_appends _ _ (bw_write _ Hb0) Hext) as A. pose proof (buffers_wf_push _ _ _ Hb0 A) as Hb1.
  destruct (s_tcpc s) as [c|] eqn:Etc; [|destruct Hc as [Hc|Hc]; rewrite Hc in Hst; cbn in Hst; lia].
  assert (Hclosed : tcp_state c = BBL_TCP_STATE_CLOSED).
  { destruct (tcp_state c); try done. destruct Hc as [Hc _]. rewrite Hc in Hst. cbn in Hst. lia. }
  unfold bgp_session_send, session_tcp_send, bbl_tcp_send.
  assert (Hc1 : s_tcpc (s0 {{ s_write_buf := b' }}) = Some c) by (destruct s0; cbn in *; congruence). rewrite Hc1. unfold tcp_sending.
  rewrite bool_decide_eq_false_2 by congruence. cbn [andb mbind option_bind]. rewrite decide_False by congruence.
  rewrite decide_False by (destruct c; cbn in *; congruence). cbn [mbind option_bind].
  apply returns_some. cbn [fst]. split; [|destruct s0; cbn in *; split; congruence].
  split.
  - destruct Hb1. constructor; destruct s0; cbn in *; done.
  - destruct s0; cbn in *. destruct c; cbn in *. subst tcp_state. intros Hidle. rewrite Hs0 in Hidle. rewrite Hidle in Hst. cbn in Hst. lia.
Qed.

Lemma send_message_open m s : open_inv s ->
  returns (send_message clock (push_msg m s) s) (fun r => open_inv r.1 /\ s_state r.1 = s_state s /\ s_config r.1 = s_config s).
Proof.
  intros [(sub & Hs) Hst]. destruct (send_message_ok clock m s sub Hs) as (s' & ok & -> & H1 & H2 & H3).
  apply returns_some. cbn. split; [|done]. split; [by eexists|by rewrite H1].
Qed.

Lemma send_message_inv m s : session_inv s -> 2 < state_val (s_state s) ->
  returns (send_message clock (push_msg m s) s) (fun r => session_inv r.1 /\ s_state r.1 = s_state s /\ s_config r.1 = s_config s).
Proof.
  intros [Ho|Hsh] Hst; [eapply returns_mono; [by apply send_message_open|]|eapply returns_mono; [by apply send_message_shut|]];
    cbn; intros r (? & ? & ?); (split; [by left + by right|done]).
Qed.

(** ** Closing *)

(** [P] is [open_inv] or [session_inv]: what [bgp_session_close] needs of it. *)
Definition sendable (P : bgp_session -> Prop) : Prop :=
  (forall a s, P s -> P (act a s)) /\ (forall s s', same_tx s s' -> s_state s' = s_state s -> P s -> P s') /\
  (forall s s', same_tx s s' -> 2 < state_val (s_state s) -> s_state s' = BGP_CLOSING -> P s -> P s') /\
  (forall m s, P s -> 2 < state_val (s_state s) -> returns (send_message clock (push_msg m s) s) (fun r => P r.1 /\ s_state r.1 = s_state s /\ s_config r.1 = s_config s)).

Lemma open_sendable : sendable open_inv.
Proof.
  split_and!.
  - apply act_open.
  - intros s s' Hs Hst Ho. apply (same_open s); [done..|]. rewrite Hst. apply Ho.
  - intros s s' Hs _ Hst Ho. apply (same_open s); [done..|]. rewrite Hst. done.
  - intros m s Ho _. by apply send_message_open.
Qed.

Lemma inv_sendable : sendable session_inv.
Proof.
  split_and!.
  - apply act_inv.
  - intros s s' Hs Hst. by apply same_inv.
  - intros s s' Hs Hst Hst' [Ho|Hsh]; [left; apply (same_open s); [done..|by rewrite Hst']|right].
    apply (same_shut s); [done..|]. rewrite Hst'. destruct Hsh as [_ Hc]. unfold shut_to.
    destruct (s_tcpc s) as [c|]; [|destruct Hc as [Hc|Hc]; rewrite Hc in Hst; cbn in Hst; lia].
    destruct (tcp_state c); try done. destruct Hc as [Hc _]. rewrite Hc in Hst. cbn in Hst. lia.
  - intros m s. apply send_message_inv.
Qed.

Lemma bgp_session_close_ok P s : sendable P -> P s -> returns (bgp_session_close clock s) P.
Proof.
  intros (Hact & Hsame & Hclosing & Hsend) Hs. unfold bgp_session_close.
  set (s4 := act (ActDel update_timer) _). assert (H4 : P s4) by (subst s4; by repeat apply Hact). clearbody s4.
  case_if; [|by apply returns_some, Hact]. assert (Hst : 2 < state_val (s_state s4)) by (cbn in *; lia).
  eapply returns_bind; [exact (Hsend MsgNotification s4 H4 Hst)|]. intros [s5 ok] (H5 & Hs5 & _). cbn [fst] in *.
  assert (Hc5 : P (count_message_tx s5)) by (apply (Hsame s5); by destruct s5).
  assert (Hsc : s_state (count_message_tx s5) = s_state s4) by (rewrite <- Hs5; by destruct s5).
  unfold bgp_session_state_change. rewrite Hsc. destruct (decide (s_state s4 = BGP_CLOSING)) as [Hx|Hx]; cbn [mbind option_bind]; apply returns_some, Hact; [done|].
  apply (Hclosing (count_message_tx s5)); [by destruct s5|by rewrite Hsc|by destruct s5|done].
Qed.

Lemma set_error_same code sub s : same_tx s (set_error code sub s) /\ s_state (set_error code sub s) = s_state s.
Proof. unfold set_error. case_if; [|done]. by destruct s. Qed.

Lemma close_error_ok P code sub s : sendable P -> P s -> returns (bgp_session_close clock (set_error code sub s)) P.
Proof.
  intros HP Hs. apply bgp_session_close_ok; [done|]. destruct (set_error_same code sub s) as [H1 H2]. destruct HP as (_ & Hsame & _). by apply (Hsame s).
Qed.

Lemma close_no_error_ok P s : sendable P -> P s -> returns (bgp_session_close clock (s {{ s_error_code := 0 }})) P.
Proof. intros HP Hs. apply bgp_session_close_ok; [done|]. destruct HP as (_ & Hsame & _). apply (Hsame s); [by destruct s..|done]. Qed.

(** ** State changes of an open session *)

Lemma state_change_open st s : open_inv s -> In st [BGP_OPENSENT; BGP_OPENCONFIRM; BGP_ESTABLISHED] ->
  returns (bgp_session_state_change clock st s) open_inv.
Proof.
  intros Ho Hst. unfold bgp_session_state_change. destruct (decide (s_state s = st)); [by apply returns_some|].
  set (s1 := s {{ s_state := st }}). assert (H1 : open_inv s1).
  { apply (same_open s); [by destruct s|done|]. destruct s; cbn. unfold constant. destruct Hst as [<-|[<-|[<-|[]]]]; done. }
  assert (Hcnt : forall f s2, open_inv s2 -> open_inv (s2 {{ s_stats := f (s_stats s2) }})).
  { intros f s2 H2. apply (same_open s2); [by destruct s2|done|]. destruct H2 as [_ ?]. by destruct s2. }
  destruct Hst as [<-|[<-|[<-|[]]]].
  - unfold bgp_session_state_opensent. eapply returns_bind; [exact (send_message_open MsgOpen s1 H1)|].
    intros [s2 ok] (H2 & _). apply returns_some. by apply (Hcnt (fun st => st {{ st_message_tx ::= inc }})).
  - unfold bgp_session_state_openconfirm. eapply returns_bind; [exact (send_message_open MsgKeepalive s1 H1)|].
    intros [s2 ok] (H2 & _). apply returns_some. by apply (Hcnt (fun st => st {{ st_message_tx ::= inc ; st_keepalive_tx ::= inc }})).
  - unfold bgp_session_state_established, bgp_clock. apply returns_some, act_open, act_open.
    apply (same_open s1); [by destruct s1|done|]. destruct H1 as [_ ?]. by destruct s1.
Qed.

(** * Receiving *)

(** The code does not fault, and [P] holds of what it returns. *)
Definition safe {A} (o : out A) (P : A -> Prop) : Prop :=
  match o with Ok a => P a | Fault => False | Diverge => True end.

Lemma out_safe_bind {A B} (o : out A) (f : A -> out B) (P : A -> Prop) (Q : B -> Prop) :
  safe o P -> (forall a, P a -> safe (f a) Q) -> safe (o ≫= f) Q.
Proof. destruct o; cbn; auto. Qed.
Lemma safe_lift {A} (o : option A) (P : A -> Prop) : returns o P -> safe (lift o) P.
Proof. by intros (a & -> & Ha). Qed.
Lemma out_safe_mono {A} (o : out A) (P Q : A -> Prop) : safe o P -> (forall a, P a -> Q a) -> safe o Q.
Proof. destruct o; cbn; auto. Qed.

Lemma rd_safe m off n : bytes m -> 0 <= off -> 1 <= n <= 8 -> off + n <= Z.of_nat (length m) -> safe (rd m off n) (fun v => 0 <= v < 256 ^ n).
Proof. intros Hm Ho Hn Hl. by destruct (rd_ok m off n Hm Ho Hn Hl) as (v & -> & Hv & _). Qed.

Lemma rd8_safe m off : 0 <= off < Z.of_nat (length m) -> safe (rd8 m off) (fun _ => True).
Proof. intros Ho. unfold rd8. destruct (lookup_lt_is_Some_2 m (Z.to_nat off)) as [v ->]; [lia|done]. Qed.

Lemma keep_open s s' : open_inv s -> same_tx s s' -> s_state s' = s_state s -> open_inv s'.
Proof. intros Ho Hs Hst. apply (same_open s); [done..|]. rewrite Hst. apply Ho. Qed.

Lemma open_close_safe code sub s : open_inv s -> safe (lift (bgp_session_close clock (set_error code sub s))) open_inv.
Proof. intros Ho. apply safe_lift, close_error_ok; [apply open_sendable|done]. Qed.

Lemma bgp_open_safe fuel m n s : bytes m -> n <= Z.of_nat (length m) -> open_inv s -> safe (bgp_open clock fuel m n s) (fun r => open_inv r.2).
Proof.
  intros Hm Hn Ho. unfold bgp_open. case_if; [done|].
  eapply out_safe_bind; [apply rd_safe; (done || lia)|]. intros asn _. eapply out_safe_bind; [apply rd_safe; (done || lia)|]. intros hold _.
  eapply out_safe_bind; [apply rd_safe; (done || lia)|]. intros pid _. eapply out_safe_bind; [apply rd_safe; (done || lia)|]. intros ol _.
  set (s1 := s {{ s_peer_as := asn ; s_peer_hold_time := hold ; s_peer_id := pid }}).
  assert (H1 : open_inv s1) by (apply (keep_open s); [done|by destruct s..]). clearbody s1. case_if; [done|].
  destruct (open_params_ok fuel m n 29 s1 Hm Hn) as [->|(ok & s2 & -> & Has)]; [lia|done|]. cbn [mbind out_bind].
  assert (H2 : open_inv s2) by (destruct Has as [a ->]; apply (keep_open s1); [done|by destruct s1..]).
  destruct ok; [|done]. eapply out_safe_bind; [apply safe_lift, state_change_open; [done|cbn; auto]|]. by intros s3 H3.
Qed.

Lemma bgp_message_safe fuel m n s : bytes m -> 19 <= n <= Z.of_nat (length m) -> open_inv s ->
  safe (bgp_message clock fuel m n s) (fun r => open_inv r.2).
Proof.
  intros Hm Hn Ho. unfold bgp_message. eapply out_safe_bind; [apply rd8_safe; lia|]. intros type _.
  set (s1 := s {{ s_stats := (s_stats s) {{ st_message_rx ::= inc }} }}). assert (H1 : open_inv s1) by (apply (keep_open s); [done|by destruct s..]). clearbody s1.
  eapply (out_safe_bind _ _ (fun r => open_inv r.2)).
  2:{ intros [go s2] H2. cbn in H2. destruct go; [|done]. by apply act_open. }
  assert (Herr : forall s2, open_inv s2 -> safe (s' ← bgp_decode_error clock s2; Ok (false, s')) (fun r => open_inv r.2)).
  { intros s2 H2. eapply out_safe_bind; [by apply open_close_safe|]. by intros s3 H3. }
  repeat case_if.
  - eapply out_safe_bind; [apply bgp_open_safe; [done|lia|done]|]. intros [ok s2] H2. cbn in H2. destruct ok; [done|by apply Herr].
  - eapply (out_safe_bind _ _ (fun r => open_inv r.2)).
    2:{ intros [ok s2] H2. cbn in H2. destruct ok; [done|by apply Herr]. }
    unfold bgp_notification. case_if; [done|]. eapply out_safe_bind; [apply rd8_safe; lia|]. intros _ _. eapply out_safe_bind; [apply rd8_safe; lia|]. intros _ _.
    eapply out_safe_bind; [apply safe_lift, close_no_error_ok; [apply open_sendable|done]|]. by intros s2 H2.
  - set (s2 := s1 {{ s_stats := (s_stats s1) {{ st_keepalive_rx ::= inc }} }}). assert (H2 : open_inv s2) by (apply (keep_open s1); [done|by destruct s1..]). clearbody s2.
    destruct (decide (s_state s2 = BGP_OPENCONFIRM)); [|done]. eapply out_safe_bind; [apply safe_lift, state_change_open; [done|cbn; auto]|]. by intros s3 H3.
  - apply (keep_open s1); [done|by destruct s1..].
  - done.
Qed.

Definition bgp_open_inv (b : bgp) : Prop := open_inv (b_session b) /\ read_wf (b_read_buf b) /\ io_size (b_read_buf b) = BGP_BUF_SIZE.

Lemma bgp_read_safe fuel b : bgp_open_inv b -> safe (bgp_read clock fuel b) bgp_open_inv.
Proof.
  revert b. induction fuel as [|fuel IH]; intros b (Ho & Hw & Hz); [done|]. cbn [bgp_read].
  pose proof (pending_length _ Hw) as Hpl. pose proof Hw as ((Hb & Hd & Hi & Hs) & Hst). rewrite u32_small by lia.
  assert (Hfin : safe (buffer ← lift (bgp_rebase_read_buffer (b_read_buf b)); Ok (mk_bgp (b_session b) buffer)) bgp_open_inv).
  { destruct (rebase_ok _ Hw) as (buf & -> & Hr & _ & Hrz & _). cbn. unfold bgp_open_inv. cbn. by rewrite Hrz. }
  case_if; [exact Hfin|]. unfold BGP_MIN_MESSAGE_SIZE in *.
  assert (Hstart : bytes (drop (Z.to_nat (io_start_idx (b_read_buf b))) (io_data (b_read_buf b)))) by auto with bbl.
  eapply out_safe_bind; [apply rd_safe; [done|lia|lia|rewrite length_drop; lia]|]. intros len Hlen.
  case_if.
  { eapply out_safe_bind; [by apply open_close_safe|]. intros s' Hs'. by unfold bgp_open_inv. }
  unfold BGP_MAX_MESSAGE_SIZE in *. case_if; [exact Hfin|].
  eapply out_safe_bind; [apply bgp_message_safe; [done|rewrite length_drop; lia|done]|]. intros [go s'] Hs'. cbn in Hs'.
  destruct go; [|by unfold bgp_open_inv]. apply IH. unfold bgp_open_inv. cbn. split; [done|].
  destruct (b_read_buf b) as [data start idx size]; cbn in *. unfold constant. rewrite u32_small by lia. unfold read_wf. cbn. split_and!; done || lia.
Qed.

Lemma bgp_receive_cb_safe fuel buf b : (forall c, buf = Some c -> bytes c /\ Z.of_nat (length c) < 65536) ->
  bgp_open_inv b -> safe (bgp_receive_cb clock fuel buf b) bgp_open_inv.
Proof.
  intros Hbuf Hb. destruct buf as [c|]; [|by apply bgp_read_safe]. destruct (Hbuf c eq_refl) as [Hc Hcl].
  destruct Hb as (Ho & Hw & Hz). pose proof Hw as ((Hdb & Hd & Hi & Hs) & Hst). unfold bgp_receive_cb, BGP_BUF_SIZE in *. rewrite u32_small by lia.
  case_if; [eapply out_safe_bind; [by apply open_close_safe|]; intros s' Hs'; by unfold bgp_open_inv|].
  case_if; [lia|]. cbn. destruct (with_tail_spec (b_read_buf b) c (proj1 Hw) Hc) as (W1 & W2 & W3); [lia|]. rewrite u32_small in * by lia.
  unfold bgp_open_inv. cbn. split; [done|]. split; [|exact Hz]. split; [exact W1|]. cbn. lia.
Qed.

Lemma bbl_tcp_recv_cb_safe fuel p err b : Forall (fun c => bytes c /\ Z.of_nat (length c) < 65536) p -> bgp_open_inv b ->
  safe (bbl_tcp_recv_cb (bgp_receive_cb clock fuel) p err b) bgp_open_inv.
Proof.
  intros Hp Hb. destruct p as [|first rest]; [done|]. cbn [bbl_tcp_recv_cb]. case_if; [|done]. apply Forall_cons_iff in Hp as [Hf _].
  eapply out_safe_bind; [|intros b' Hb'; by apply bgp_receive_cb_safe].
  generalize (first :: rest) as chain. intros chain. revert b Hb. induction chain as [|c chain IH]; intros b Hb; [done|]. cbn [recv_loop].
  eapply out_safe_bind; [apply bgp_receive_cb_safe; [by intros ? [= <-]|done]|]. intros b' Hb'. by apply IH.
Qed.

(** * Handlers of a session in any state *)

Lemma inv_buffers s : session_inv s -> buffers_wf s.
Proof. intros [[(sub & Hs) _]|Hs]; apply Hs. Qed.

Lemma bgp_session_keepalive_job_ok s : session_inv s -> returns (bgp_session_keepalive_job clock s) session_inv.
Proof.
  intros Hs. unfold bgp_session_keepalive_job. destruct (decide (s_state s = BGP_ESTABLISHED)) as [He|]; [|by apply returns_some].
  destruct (s_tcpc s) as [c|]; [|by apply returns_some]. destruct (decide (tcp_state c = BBL_TCP_STATE_IDLE)); [|by apply returns_some].
  eapply returns_bind; [apply (send_message_inv MsgKeepalive s Hs); by rewrite He|]. intros [s1 ok] (H1 & _). cbn in H1.
  apply returns_some. destruct ok; [|done]. apply (same_inv s1); by destruct s1.
Qed.

Lemma bgp_session_update_job_inv t s : session_inv s -> returns (bgp_session_update_job clock t s) session_inv.
Proof.
  intros [Ho|Hsh].
  { destruct Ho as [(sub & Hs) Hst]. destruct (bgp_session_update_job_ok clock t s sub Hs) as (s' & -> & H1 & H2 & H3).
    apply returns_some. left. split; [by eexists|by rewrite H1]. }
  pose proof Hsh as [Hb Hc]. unfold bgp_session_update_job.
  assert (Hone : returns (Some (act (ActOneShot t) s)) session_inv) by (apply returns_some, act_inv; by right).
  destruct (decide (s_state s = BGP_ESTABLISHED)) as [He|]; [|done]. destruct (s_raw_update s) as [r|] eqn:Er; [|done].
  destruct (s_raw_update_sending s); [done|]. destruct (s_tcpc s) as [c|] eqn:Etc; [|destruct Hc; congruence].
  assert (Hcl : tcp_state c = BBL_TCP_STATE_CLOSED) by (destruct (tcp_state c); try done; destruct Hc; congruence).
  unfold session_tcp_send, bbl_tcp_send. rewrite Etc. cbn [mbind option_bind]. rewrite decide_False by congruence.
  rewrite decide_False by (destruct c; cbn in *; congruence). cbn [mbind option_bind]. destruct s; cbn in *; subst. cbn.
  apply returns_some. right. destruct Hb. split; [by constructor|]. destruct c; cbn in *; subst. done.
Qed.

(** A new context is connecting. *)
Definition connecting (c : tcp_ctx) : Prop :=
  tcp_state c = BBL_TCP_STATE_CONNECTING /\ is_Some (tcp_pcb c) /\ tx_offset c = tx_len c /\ tcp_idle_cb c = false.

Lemma bbl_tcp_connect_connecting enabled new err c :
  bbl_tcp_ipv4_connect enabled new err = Some c \/ bbl_tcp_ipv6_connect enabled new err = Some c -> connecting c.
Proof.
  unfold bbl_tcp_ipv4_connect, bbl_tcp_ipv6_connect, bbl_tcp_ctx_new. destruct enabled, new as [p|]; cbn; try (intros [?|?]; discriminate).
  destruct (err =? ERR_OK); cbn; (intros [Hx|Hx]; [|]); try discriminate; injection Hx as <-; repeat split; by eexists.
Qed.

Lemma bgp_session_connect_job_ok init conn t s : (forall v6 c, conn v6 = Some c -> connecting c) ->
  session_inv s -> returns (bgp_session_connect_job clock init conn t s) session_inv.
Proof.
  intros Hconn Hs. unfold bgp_session_connect_job. destruct init; [by apply returns_some, act_inv|].
  destruct (decide (s_state s = BGP_IDLE)) as [Hi|Hi].
  - pose proof (inv_buffers s Hs) as Hb. destruct (conn (s_ipv6 s)) as [c|] eqn:Ec.
    + destruct (Hconn _ _ Ec) as (Hst & Hp & Htx & Hcb). assert (E : s_tcpc (s {{ s_tcpc := Some c }}) = Some c) by by destruct s. rewrite E.
      unfold bgp_session_state_change. rewrite decide_False by (destruct s; cbn in *; congruence). cbn [mbind option_bind].
      apply returns_some, act_inv. right. destruct Hb. split; [destruct s; by constructor|]. destruct s; cbn in *. by rewrite Hst.
    + assert (E : s_tcpc (s {{ s_tcpc := None }}) = None) by by destruct s. rewrite E.
      apply returns_some, act_inv. right. destruct Hb. split; [destruct s; by constructor|]. destruct s; cbn in *. by right.
  - destruct (decide (s_state s = BGP_ESTABLISHED)); [by apply returns_some, act_inv|].
    eapply returns_bind; [apply (bgp_session_close_ok session_inv); [apply inv_sendable|done]|]. intros s1 H1. by apply returns_some, act_inv.
Qed.

Lemma bgp_teardown_ok s : session_inv s -> returns (bgp_teardown clock s) session_inv.
Proof.
  intros Hs. unfold bgp_teardown. destruct (s_teardown s); [by apply returns_some|].
  eapply returns_bind; [apply close_error_ok; [apply inv_sendable|]|intros s1 H1; by apply returns_some, act_inv].
  apply (same_inv s); by destruct s.
Qed.

Lemma bgp_ctrl_disconnect_ok s : session_inv s -> returns (bgp_ctrl_disconnect clock s) session_inv.
Proof.
  intros Hs. unfold bgp_ctrl_disconnect. destruct (s_state s); try (by apply returns_some); apply close_error_ok; (apply inv_sendable || done).
Qed.

Lemma bgp_ctrl_raw_update_ok r s : raw_wf r -> session_inv s -> returns (bgp_ctrl_raw_update r s) session_inv.
Proof.
  intros Hr Hs. unfold bgp_ctrl_raw_update. destruct (s_raw_update_sending s) eqn:Esn; [by apply returns_some|].
  apply returns_some, act_inv. set (s1 := s {{ s_raw_update := Some r ; s_update_start_timestamp := ts_zero }}).
  assert (Hb1 : buffers_wf s1).
  { destruct (inv_buffers s Hs). constructor; destruct s; cbn in *; try done. by intros ? [= <-]. }
  destruct Hs as [[(sub & [Hb (c & Hc & (Hi & Ht) & Hbusy)]) Hst]|[Hb Hc]]; [left|right; split; [done|by destruct s]].
  split; [|by destruct s]. exists sub. split; [done|]. exists c. split; [by destruct s|]. split; [|by destruct s]. split; [by destruct s|].
  destruct Ht as [p|p pre data Hp Hsd Hdata]; [by eapply tx_idle|]. destruct (tx_data_inv _ _ _ Hdata) as (buf & Ebuf & Hm).
  assert (Hw : tx_buf c = Some WRITE_BUF).
  { destruct (decide (tx_buf c = Some WRITE_BUF)); [done|]. specialize (Hbusy Hsd n). congruence. }
  eapply tx_sending; try done. unfold tx_data in *. rewrite Hw in *. cbn [mbind option_bind] in *. rewrite write_mem in *. by destruct s.
Qed.

(** ** The end of a connection, and the next one *)

Lemma bgp_session_connect_ok delay b : shut_inv (b_session b) ->
  (s_state (b_session b) = BGP_CLOSED -> io_wf (b_read_buf b) /\ io_size (b_read_buf b) = BGP_BUF_SIZE) ->
  returns (bgp_session_connect clock delay b) (fun b' => session_inv (b_session b') /\
    (b' = b \/ read_wf (b_read_buf b') /\ io_size (b_read_buf b') = BGP_BUF_SIZE)).
Proof.
  intros Hs Hrb. unfold bgp_session_connect. destruct (decide (s_state (b_session b) = BGP_CLOSED)) as [Hc|]; [|apply returns_some; split; [by right|by left]].
  destruct (Hrb Hc) as ((Hb & Hl & Hi & Hz) & Hsz). destruct b as [s rb]. cbn [b_session b_read_buf] in *. destruct Hs as [Hbuf _].
  assert (Hb0 : buffers_wf (s {{ s_tcpc := None }})) by (destruct Hbuf; constructor; by destruct s).
  destruct (reset_write_buffer_wf _ Hb0) as (Hb1 & Hc1 & _ & Hs1 & _). set (s1 := bgp_session_reset_write_buffer _) in *.
  assert (Hst1 : s_state s1 = BGP_CLOSED) by (rewrite Hs1; destruct s; done). assert (Htc1 : s_tcpc s1 = None) by (rewrite Hc1; by destruct s). clearbody s1.
  unfold bgp_session_state_change. rewrite decide_False by (destruct s1; cbn in *; congruence). cbn [mbind option_bind].
  apply returns_some. cbn [b_session b_read_buf]. split.
  - apply act_inv. right. destruct s1; cbn in *; subst. destruct Hb1. cbn in *. split; [by constructor|]. cbn. by right.
  - right. unfold read_wf, io_wf. cbn. split_and!; done || lia.
Qed.

Definition bgp_inv (b : bgp) : Prop := session_inv (b_session b) /\ read_wf (b_read_buf b) /\ io_size (b_read_buf b) = BGP_BUF_SIZE.

Lemma bgp_session_close_job_ok b : bgp_inv b -> returns (bgp_session_close_job clock b) bgp_inv.
Proof.
  intros (Hs & Hw & Hz). unfold bgp_session_close_job. pose proof (inv_buffers _ Hs) as Hb. destruct b as [s rb]. cbn [b_session b_read_buf] in *.
  set (s1 := if _ <? _ then _ else _).
  assert (H1 : exists c, s1 = s {{ s_tcpc := c }} /\ match c with Some c => tcp_state c = BBL_TCP_STATE_CLOSED | None => True end).
  { subst s1. case_if.
    - exists (bbl_tcp_close (s_tcpc s)). split; [done|]. destruct (s_tcpc s) as [c|]; cbn; [by destruct c|done].
    - exists (s_tcpc s). split; [by destruct s|]. destruct Hs as [[_ Hst]|[_ Hc]]; [cbn in *; lia|].
      destruct (s_tcpc s) as [c|]; [|done]. destruct (tcp_state c); try done. destruct Hc as [Hc _]. rewrite Hc in *. cbn in *. lia. }
  destruct H1 as (c & -> & Hc). set (s1 := s {{ s_tcpc := c }}).
  assert (H2 : returns (bgp_session_state_change clock BGP_CLOSED s1) (fun s2 => shut_inv s2 /\ s_state s2 = BGP_CLOSED)).
  { unfold bgp_session_state_change. assert (Hb1 : buffers_wf s1) by (destruct Hb; constructor; by destruct s).
    destruct (decide (s_state s1 = BGP_CLOSED)) as [Hcl|]; apply returns_some.
    - split; [|done]. split; [done|]. destruct s; cbn in *; unfold constant in *. destruct c as [c|]; [rewrite Hc; congruence|by left].
    - split; [|by destruct s]. split; [destruct Hb1; constructor; by destruct s|]. destruct s; cbn in *; unfold constant in *. destruct c as [c|]; [by rewrite Hc|by left]. }
  eapply returns_bind; [exact H2|]. intros s2 [Hs2 Hst2]. case_if; [|apply returns_some; split; [by right|done]].
  eapply returns_mono; [apply (bgp_session_connect_ok 5 (mk_bgp s2 rb)); [done|intros _; split; [apply Hw|done]]|].
  intros b' [Hi [->|[Hr Hrz]]]; [by split|by split].
Qed.

(** [bbl_tcp_connected]: the context becomes idle, the application is told, and
    what it has sent goes on. *)
Definition session_connected (p : pcb) (s : bgp_session) : option bgp_session :=
  c ← s_tcpc s;
  s ← bgp_connected_cb clock (s {{ s_tcpc := Some (c {{ tcp_state := BBL_TCP_STATE_IDLE ; tcp_pcb := Some p }}) }});
  session_sent_cb clock s.

Lemma session_connected_ok p c s : session_inv s -> s_tcpc s = Some c -> tcp_state c = BBL_TCP_STATE_CONNECTING -> tcp_drained p = true ->
  returns (session_connected p s) open_inv.
Proof.
  intros Hs Hc Hst Hd. destruct Hs as [[(sub & [_ (c' & Hc' & (_ & Ht) & _)]) _]|[Hb Hsh]].
  { assert (c' = c) by congruence. subst. destruct Ht; congruence. }
  rewrite Hc, Hst in Hsh. destruct Hsh as (Hcon & Hp & Htx & Hcb). unfold session_connected. rewrite Hc. cbn [mbind option_bind].
  set (c1 := c {{ tcp_state := BBL_TCP_STATE_IDLE ; tcp_pcb := Some p }}). set (s1 := s {{ s_tcpc := Some c1 }}).
  assert (H1 : open_inv s1).
  { split; [|destruct s; cbn in *; by rewrite Hcon]. exists (tcp_accepted p). split; [destruct Hb; constructor; by destruct s|].
    exists c1. split; [by destruct s|]. split; [|by destruct c]. split; [destruct c; cbn in *; congruence|]. eapply (tx_idle _ _ _ p); by destruct c. }
  unfold bgp_connected_cb. eapply returns_bind; [apply (state_change_open BGP_OPENSENT s1 H1); cbn; auto|]. intros s2 [(sub & H2) Hst2].
  destruct (session_sent_cb_ok clock s2 sub H2) as (s3 & -> & Hst3 & _ & H3). apply returns_some. split; [by eexists|by rewrite Hst3].
Qed.

(** The connection is lost: [bbl_tcp_error_cb] with the callback of the application. *)
Definition session_error (err : Z) (s : bgp_session) : option bgp_session :=
  c ← s_tcpc s; bgp_error_cb clock (s {{ s_tcpc := Some (bbl_tcp_error_cb err c) }}).

Lemma session_error_ok err c s : session_inv s -> s_tcpc s = Some c -> returns (session_error err s) session_inv.
Proof.
  intros Hs Hc. unfold session_error. rewrite Hc. cbn [mbind option_bind]. apply (close_no_error_ok session_inv); [apply inv_sendable|].
  right. destruct (inv_buffers s Hs). split; [constructor; by destruct s|].
  assert (Hst : s_state s <> BGP_IDLE).
  { intros Hst. destruct Hs as [[_ Ho]|[_ Hsh]]; [rewrite Hst in Ho; cbn in Ho; lia|]. rewrite Hc in Hsh. destruct (tcp_state c); try done. destruct Hsh; congruence. }
  destruct s; cbn in *. by destruct c.
Qed.

(** The data received is accounted. *)
Lemma recv_account_ok p err b c : bgp_open_inv b -> s_tcpc (b_session b) = Some c ->
  bgp_open_inv (mk_bgp ((b_session b) {{ s_tcpc := Some (bbl_tcp_recv_account p err c) }}) (b_read_buf b)).
Proof.
  intros [[(sub & [Hb (c' & Hc' & (Hi & Ht) & Hbusy)]) Hst] Hrd] Hc. assert (c' = c) as -> by congruence. split; [|done]. cbn [b_session].
  split; [|by destruct (b_session b)]. exists sub. set (n := u16 (Z.of_nat (length (concat p)))).
  unfold bbl_tcp_recv_account. destruct (_ && _); [|by destruct (b_session b); cbn in *; rewrite <- Hc; split; [done|exists c]].
  fold n. set (c1 := c {{ tcp_bytes_rx := _ ; tcp_pcb ::= _ }}).
  apply (session_tx_frame (b_session b) _ c1); [by destruct (b_session b)|done|by destruct (b_session b)| |by destruct (b_session b), c].
  split; [by destruct c|]. destruct Ht as [q Hq|q pre data Hq]; [eapply (tx_idle _ _ _ (tcp_recved q n))|eapply (tx_sending _ _ _ (tcp_recved q n) pre data)];
    destruct c; cbn in *; subst; cbn; (done || by rewrite tcp_recved_accepted || by apply tcp_recved_drained).
Qed.

(** * Executions *)

Definition on_session (b : bgp) (f : bgp_session -> option bgp_session) : out bgp :=
  s ← lift (f (b_session b)); Ok (mk_bgp s (b_read_buf b)).

(** What the timers, lwIP and the control socket may do with a session.  A timer
    may fire at any time; lwIP calls back only for a connection it has. *)
Inductive bgp_step (b : bgp) : out bgp -> Prop :=
| step_connect_job init enabled new err timer :
    bgp_step b (on_session b (bgp_session_connect_job clock init
      (fun ipv6 => if (ipv6 : bool) then bbl_tcp_ipv6_connect enabled new err else bbl_tcp_ipv4_connect enabled new err) timer))
| step_keepalive_job : bgp_step b (on_session b (bgp_session_keepalive_job clock))
| step_hold_timer_job : bgp_step b (on_session b (bgp_session_hold_timer_job clock))
| step_update_job timer : bgp_step b (on_session b (bgp_session_update_job clock timer))
| step_close_job : bgp_step b (lift (bgp_session_close_job clock b))
| step_teardown : bgp_step b (on_session b (bgp_teardown clock))
| step_disconnect : bgp_step b (on_session b (bgp_ctrl_disconnect clock))
| step_raw_update r : raw_wf r -> bgp_step b (on_session b (bgp_ctrl_raw_update r))
| step_connected c p :
    s_tcpc (b_session b) = Some c -> tcp_state c = BBL_TCP_STATE_CONNECTING -> tcp_drained p = true ->
    bgp_step b (on_session b (session_connected p))
| step_recv fuel c p err :
    s_tcpc (b_session b) = Some c -> ctx_open c -> Forall (fun seg => bytes seg /\ Z.of_nat (length seg) < 65536) p ->
    bgp_step b (b' ← bbl_tcp_recv_cb (bgp_receive_cb clock fuel) p err b;
                c' ← lift (s_tcpc (b_session b'));
                Ok (mk_bgp ((b_session b') {{ s_tcpc := Some (bbl_tcp_recv_account p err c') }}) (b_read_buf b')))
| step_sent c : s_tcpc (b_session b) = Some c -> ctx_open c -> bgp_step b (on_session b (session_sent_cb clock))
| step_ack c f : s_tcpc (b_session b) = Some c -> ctx_open c -> acks f ->
    bgp_step b (on_session b (fun s => Some (session_ack f s)))
| step_error c err : s_tcpc (b_session b) = Some c -> is_Some (tcp_pcb c) -> bgp_step b (on_session b (session_error err)).

Inductive bgp_reachable : bgp -> Prop :=
| reach_init config ipv6 raw data data' b :
    bytes (cfg_id config) -> length (cfg_id config) = 4%nat -> (forall r, raw = Some r -> raw_wf r) ->
    bytes data -> bytes data' -> Z.of_nat (length data) = BGP_BUF_SIZE -> Z.of_nat (length data') = BGP_BUF_SIZE ->
    bgp_init clock config ipv6 raw data data' = Some b -> bgp_reachable b
| reach_step b b' : bgp_reachable b -> bgp_step b (Ok b') -> bgp_reachable b'.

Lemma on_session_safe b f : bgp_inv b -> returns (f (b_session b)) session_inv -> safe (on_session b f) bgp_inv.
Proof. intros (_ & Hr) Hf. unfold on_session. eapply out_safe_bind; [by apply safe_lift|]. intros s Hs. by split. Qed.

Lemma open_context b c : bgp_inv b -> s_tcpc (b_session b) = Some c -> ctx_open c -> bgp_open_inv b.
Proof.
  intros [[Ho|[_ Hsh]] Hr] Hc Hop; [by split|]. rewrite Hc in Hsh. destruct Hop as [Ho|Ho]; by rewrite Ho in Hsh.
Qed.

Lemma open_inv_inv b : bgp_open_inv b -> bgp_inv b.
Proof. intros [Ho Hr]. split; [by left|done]. Qed.

Lemma bgp_step_safe b o : bgp_inv b -> bgp_step b o -> safe o bgp_inv.
Proof.
  intros Hb Hstep. pose proof Hb as (Hs & _). destruct Hstep as [init en new err t|  | |t| | | |r Hr|c p Hc Hst Hd|fuel c p err Hc Hop Hp|c Hc Hop|c f Hc Hop Hf|c err Hc Hp].
  - apply on_session_safe, bgp_session_connect_job_ok; [done| |done]. intros [] c E; eapply bbl_tcp_connect_connecting; eauto.
  - by apply on_session_safe, bgp_session_keepalive_job_ok.
  - apply on_session_safe, close_error_ok; [done|apply inv_sendable|done].
  - by apply on_session_safe, bgp_session_update_job_inv.
  - by apply safe_lift, bgp_session_close_job_ok.
  - by apply on_session_safe, bgp_teardown_ok.
  - by apply on_session_safe, bgp_ctrl_disconnect_ok.
  - by apply on_session_safe, bgp_ctrl_raw_update_ok.
  - apply on_session_safe; [done|]. eapply returns_mono; [by eapply session_connected_ok|]. by left.
  - eapply out_safe_bind; [apply bbl_tcp_recv_cb_safe; [done|by eapply open_context]|]. intros b' Hb'.
    assert (Hc' : exists c', s_tcpc (b_session b') = Some c') by (destruct Hb' as [[(? & [_ (c' & ? & _)]) _] _]; by exists c').
    destruct Hc' as (c' & Hc'). rewrite Hc'. cbn. by apply open_inv_inv, recv_account_ok.
  - destruct (open_context b c Hb Hc Hop) as [[(sub & Ho) Hst] _]. destruct (session_sent_cb_ok clock _ _ Ho) as (s' & E & Hs' & _ & Ho').
    apply on_session_safe; [done|]. exists s'. split; [done|]. left. split; [by eexists|by rewrite Hs'].
  - destruct (open_context b c Hb Hc Hop) as [[(sub & Ho) Hst] _]. apply on_session_safe; [done|]. apply returns_some. left.
    split; [exists sub; by apply session_ack_ok|by destruct (b_session b)].
  - apply on_session_safe; [done|by eapply session_error_ok].
Qed.

Lemma bgp_init_inv config ipv6 raw data data' b :
  bytes (cfg_id config) -> length (cfg_id config) = 4%nat -> (forall r, raw = Some r -> raw_wf r) ->
  bytes data -> bytes data' -> Z.of_nat (length data) = BGP_BUF_SIZE -> Z.of_nat (length data') = BGP_BUF_SIZE ->
  bgp_init clock config ipv6 raw data data' = Some b -> bgp_inv b.
Proof.
  intros Hid Hidl Hraw Hd Hd' Hl Hl' E. unfold bgp_init in E. unfold BGP_BUF_SIZE in *.
  destruct (bgp_session_connect_ok 1 (mk_bgp (mk_bgp_session config ipv6 None (mk_io_buffer data 0 0 BGP_BUF_SIZE) BGP_CLOSED 0 0 0 (mk_bgp_stats 0 0 0 0 0 0)
     raw raw false ts_zero ts_zero ts_zero ts_zero false 0 0 [] 0%nat) (mk_io_buffer data' 0 0 BGP_BUF_SIZE))) as (b1 & E1 & Hs & Hr).
  - split; [|by left]. by constructor.
  - intros _. cbn. unfold io_wf, BGP_BUF_SIZE. cbn. split_and!; done || lia.
  - assert (b1 = b) as -> by (unfold BGP_BUF_SIZE in E1; congruence). split; [done|]. destruct Hr as [->|[Hr Hz]]; [|by split].
    cbn. unfold read_wf, io_wf, BGP_BUF_SIZE. cbn. split_and!; done || lia.
Qed.

Lemma bgp_reachable_inv b : bgp_reachable b -> bgp_inv b.
Proof.
  induction 1 as [config ipv6 raw data data' b H1 H2 H3 H4 H5 H6 H7 H8|b b' _ IH Hstep].
  { exact (bgp_init_inv config ipv6 raw data data' b H1 H2 H3 H4 H5 H6 H7 H8). }
  exact (bgp_step_safe b (Ok b') IH Hstep).
Qed.
End Safe.

(** * Claims *)

(** C18. BGP sessions are memory safe: in every state that the timer jobs, the
    callbacks of lwIP with any received bytes and the control commands can reach
    from [bgp_init], in any order, the next of these events neither follows a NULL
    pointer (the TCP context, its control block, the raw update) nor reads or
    writes outside of the read buffer, the write buffer or a raw update. *)
Theorem bgp_never_faults `{LwipSpec} (clock : nat -> timespec) (b : bgp) (o : out bgp) :
  bgp_reachable clock b -> bgp_step clock b o -> o <> Fault.
Proof. intros Hb Hstep. apply bgp_reachable_inv in Hb. pose proof (bgp_step_safe clock b o Hb Hstep) as Hs. by destruct o. Qed.

Definition demo_buf : list Z := replicate (Z.to_nat BGP_BUF_SIZE) 0.

Lemma bgp_never_faults_witness :
  exists b, @bgp_init all_taken demo_clock demo_config false None demo_buf demo_buf = Some b /\
    @on_session all_taken b (@bgp_teardown all_taken demo_clock) <> Fault.
Proof.
  eexists. split; [reflexivity|].
  eapply (@bgp_never_faults all_taken all_taken_spec demo_clock); [|apply step_teardown].
  apply (@reach_init all_taken all_taken_spec demo_clock demo_config false None demo_buf demo_buf);
    [repeat constructor; lia|reflexivity|discriminate| | | | |reflexivity].
  1,2: apply bytes_replicate; lia.
  1,2: unfold demo_buf; rewrite length_replicate; exact (Z2Nat.id _ (Zle_0_pos _)).
Defined.
