(* ===== verification/ConstStream.v ===== *)
(** The constants of the C headers that the stream, LDP and session components
    use, under their C names. *)
From Stdlib Require Import ZArith.
Open Scope Z_scope.

Definition BBL_SUB_TYPE_IPV4 : Z := 1.
Definition BBL_SUB_TYPE_IPV6 : Z := 2.
Definition BBL_SUB_TYPE_IPV6PD : Z := 3.
Definition BBL_DIRECTION_UP : Z := 1.
Definition BBL_DIRECTION_DOWN : Z := 2.
Definition PPPOE_PADI : Z := 0x09.
Definition PPPOE_PADO : Z := 0x07.
Definition PPPOE_PADR : Z := 0x19.
Definition PPPOE_PADS : Z := 0x65.
Definition ICMP_TYPE_ECHO_REPLY : Z := 0x00.
Definition ICMP_TYPE_ECHO_REQUEST : Z := 0x08.
Definition PPP_CODE_TERM_REQUEST : Z := 5.
Definition PPP_CODE_TERM_ACK : Z := 6.
Definition PPP_CODE_CODE_REJECT : Z := 7.
Definition PAP_CODE_ACK : Z := 2.
Definition CHAP_CODE_RESPONSE : Z := 2.
Definition CHAP_CODE_SUCCESS : Z := 3.
Definition PPP_OPTIONS_BUFFER : Z := 64.
Definition IGMP_INCLUDE : Z := 1.
Definition IGMP_EXCLUDE : Z := 2.
Definition IGMP_CHANGE_TO_INCLUDE : Z := 3.
Definition IGMP_ALLOW_NEW_SOURCES : Z := 5.
Definition IGMP_BLOCK_OLD_SOURCES : Z := 6.
Definition IPV4_BROADCAST : Z := 0xffffffff.
Definition IPV4_MC_IGMP : Z := 0x160000e0.
Definition ARP_REQUEST : Z := 1.
Definition ARP_REPLY : Z := 2.
Definition ICMPV6_FLAGS_MANAGED : Z := 0x80.
Definition ICMPV6_FLAGS_OTHER_CONFIG : Z := 0x40.
Definition BOOTREQUEST : Z := 1.
Definition CMF_MA_NAME_FORMAT_STRING : Z := 2.
Definition IPV6_ICMPV6_ECHO_REQUEST : Z := 128.
Definition IPV6_ICMPV6_ECHO_REPLY : Z := 129.
Definition DHCPV6_MESSAGE_SOLICIT : Z := 1.
Definition DHCPV6_MESSAGE_ADVERTISE : Z := 2.
Definition DHCPV6_MESSAGE_REQUEST : Z := 3.
Definition DHCPV6_MESSAGE_RENEW : Z := 5.
Definition DHCPV6_MESSAGE_REPLY : Z := 7.
Definition DHCPV6_MESSAGE_RELEASE : Z := 8.
Definition L2TP_MESSAGE_DATA : Z := 0.
Definition DHCP_MESSAGE_DISCOVER : Z := 1.
Definition DHCP_MESSAGE_OFFER : Z := 2.
Definition DHCP_MESSAGE_REQUEST : Z := 3.
Definition DHCP_MESSAGE_ACK : Z := 5.
Definition DHCP_MESSAGE_NAK : Z := 6.
Definition DHCP_MESSAGE_RELEASE : Z := 7.
Definition IO_BUFFER_LEN : Z := 9216.
Definition CHALLENGE_LEN : Z := 16.
Definition MOCK_IP_LOCAL : Z := 167772170.
Definition BBL_SEND_DISCOVERY : Z := 0x00000001.
Definition BBL_SEND_LCP_RESPONSE : Z := 0x00000002.
Definition BBL_SEND_LCP_REQUEST : Z := 0x00000004.
Definition BBL_SEND_PAP_REQUEST : Z := 0x00000008.
Definition BBL_SEND_CHAP_RESPONSE : Z := 0x00000010.
Definition BBL_SEND_IPCP_RESPONSE : Z := 0x00000020.
Definition BBL_SEND_IPCP_REQUEST : Z := 0x00000040.
Definition BBL_SEND_IP6CP_REQUEST : Z := 0x00000080.
Definition BBL_SEND_IP6CP_RESPONSE : Z := 0x00000100.
Definition BBL_SEND_ICMPV6_RS : Z := 0x00000200.
Definition BBL_SEND_DHCPV6_REQUEST : Z := 0x00000400.
Definition BBL_SEND_IGMP : Z := 0x00000800.
Definition BBL_SEND_ARP_REQUEST : Z := 0x00010000.
Definition BBL_SEND_ARP_REPLY : Z := 0x00020000.
Definition BBL_SEND_DHCP_REQUEST : Z := 0x00040000.
Definition BBL_SEND_CFM_CC : Z := 0x00400000.
Definition BBL_AVG_SAMPLES : Z := 5.
Definition BBL_MAX_STREAM_OVERHEAD : Z := 128.
Definition DUID_LEN : Z := 10.
Definition DHCPV6_BUFFER : Z := 64.
Definition IGMP_GROUP_IDLE : Z := 0.
Definition IGMP_GROUP_LEAVING : Z := 1.
Definition IGMP_GROUP_ACTIVE : Z := 2.
Definition IGMP_GROUP_JOINING : Z := 3.
