(* ===== verification/ConstNet.v ===== *)
(** The constants of the C headers that the fragment, tunnel and routing components
    use, under their C names. *)
From Stdlib Require Import ZArith.
Open Scope Z_scope.

Definition LACP_STATE_FLAG_ACTIVE : Z := 0x01.
Definition LACP_STATE_FLAG_SHORT_TIMEOUT : Z := 0x02.
Definition LACP_STATE_FLAG_AGGREGATION : Z := 0x04.
Definition LACP_STATE_FLAG_IN_SYNC : Z := 0x08.
Definition LACP_STATE_FLAG_COLLECTING : Z := 0x10.
Definition LACP_STATE_FLAG_DISTRIBUTING : Z := 0x20.
Definition LACP_STATE_FLAG_DEFAULTED : Z := 0x40.
Definition LACP_STATE_FLAG_EXPIRED : Z := 0x80.
Definition IPV4_MF : Z := 0x2000.
Definition L2TP_AVP_LEN_MASK : Z := 0x03FF.
Definition L2TP_AVP_HDR_LEN : Z := 6.
Definition L2TP_AVP_M_BIT_MASK : Z := 0x8000.
Definition L2TP_AVP_H_BIT_MASK : Z := 0x4000.
Definition L2TP_AVP_MAX_LEN : Z := 1024.
Definition L2TP_MESSAGE_SCCRQ : Z := 1.
Definition L2TP_MESSAGE_SCCRP : Z := 2.
Definition L2TP_MESSAGE_SCCCN : Z := 3.
Definition L2TP_MESSAGE_STOPCCN : Z := 4.
Definition L2TP_MESSAGE_HELLO : Z := 6.
Definition L2TP_MESSAGE_ICRQ : Z := 10.
Definition L2TP_MESSAGE_ICRP : Z := 11.
Definition L2TP_MESSAGE_ICCN : Z := 12.
Definition L2TP_MESSAGE_CDN : Z := 14.
Definition L2TP_MESSAGE_CSUN : Z := 28.
Definition L2TP_MESSAGE_CSURQ : Z := 29.
Definition MOCK_IP_REMOTE : Z := 168430090.
Definition MOCK_DNS1 : Z := 134744072.
Definition MOCK_DNS2 : Z := 16843009.
Definition BBL_SEND_LACP : Z := 0x00000001.
Definition L2TP_MD5_DIGEST_LEN : Z := 16.
Definition L2TP_MAX_PACKET_SIZE : Z := 1500.
Definition L2TP_MAX_AVP_SIZE : Z := 1024.
Definition L2TP_AVP_MESSAGE_TYPE : Z := 0.
Definition L2TP_AVP_RESULT_CODE : Z := 1.
Definition L2TP_AVP_PROTOCOL_VERSION : Z := 2.
Definition L2TP_AVP_FRAMING_CAPABILITIES : Z := 3.
Definition L2TP_AVP_BEARER_CAPABILITIES : Z := 4.
Definition L2TP_AVP_FIRMWARE_REVISION : Z := 6.
Definition L2TP_AVP_HOST_NAME : Z := 7.
Definition L2TP_AVP_VENDOR_NAME : Z := 8.
Definition L2TP_AVP_ASSIGNED_TUNNEL_ID : Z := 9.
Definition L2TP_AVP_RECEIVE_WINDOW_SIZE : Z := 10.
Definition L2TP_AVP_CHALLENGE : Z := 11.
Definition L2TP_AVP_CHALLENGE_RESPONSE : Z := 13.
Definition L2TP_AVP_ASSIGNED_SESSION_ID : Z := 14.
Definition L2TP_AVP_CALL_SERIAL_NUMBER : Z := 15.
Definition L2TP_AVP_BEARER_TYPE : Z := 18.
Definition L2TP_AVP_FRAMING_TYPE : Z := 19.
Definition L2TP_AVP_CALLED_NUMBER : Z := 21.
Definition L2TP_AVP_CALLING_NUMBER : Z := 22.
Definition L2TP_AVP_SUB_ADDRESS : Z := 23.
Definition L2TP_AVP_TX_CONNECT_SPEED : Z := 24.
Definition L2TP_AVP_PHYSICAL_CHANNEL_ID : Z := 25.
Definition L2TP_AVP_INITIAL_RECEIVED_CONFREQ : Z := 26.
Definition L2TP_AVP_LAST_SENT_CONFREQ : Z := 27.
Definition L2TP_AVP_LAST_RECEIVED_CONFREQ : Z := 28.
Definition L2TP_AVP_PROXY_AUTHEN_TYPE : Z := 29.
Definition L2TP_AVP_PROXY_AUTHEN_NAME : Z := 30.
Definition L2TP_AVP_PROXY_AUTHEN_CHALLENGE : Z := 31.
Definition L2TP_AVP_PROXY_AUTHEN_ID : Z := 32.
Definition L2TP_AVP_PROXY_AUTHEN_RESPONSE : Z := 33.
Definition L2TP_AVP_RANDOM_VECTOR : Z := 36.
Definition L2TP_AVP_PRIVATE_GROUP_ID : Z := 37.
Definition L2TP_AVP_RX_CONNECT_SPEED : Z := 38.
Definition L2TP_AVP_SEQUENCING_REQUIRED : Z := 39.
Definition L2TP_AVP_PPP_DISCONNECT_CODE : Z := 46.
Definition L2TP_AVP_CONNECT_SPEED_UPDATE : Z := 97.
Definition L2TP_AVP_CONNECT_SPEED_UPDATE_ENABLE : Z := 98.
Definition LAG_MEMBER_ACTIVE_MAX : Z := 64.
