(* ===== verification/Stream.v ===== *)
(** Traffic streams (bbl_stream.c, bbl_stream.h): the data of a stream, its index,
    the receive path with loss detection, and the synchronisation of its counters
    with the statistics of the interfaces and sessions.

    Streams, sessions and interfaces refer to each other by their addresses in the
    stores of [ctx]; [None] is a NULL or dangling pointer dereferenced or an
    indeterminate field read.  A stream has the three sections of the C structure:
    the main thread's, the transmit thread's and the receive thread's.  A rate
    ([double]) is a rational number.  The log is left out. *)
From Stdlib Require Import QArith.
From coqutil Require Import Datatypes.RecordSetters.
From S2P Require Import Prelude.
From S2P Require Import Const.
From S2P Require Import ConstApp.
From S2P Require Import ConstStream.
From S2P Require Import ProtoTypes.
From S2P Require Import Timer.
Import RecordSetters.DoubleBraceUpdate.
From stdpp Require Import gmap list strings.
Open Scope Z_scope.

(** * Data *)

Inductive session_state :=
| BBL_IDLE
| BBL_IPOE_SETUP
| BBL_PPPOE_INIT
| BBL_PPPOE_REQUEST
| BBL_PPP_LINK
| BBL_PPP_AUTH
| BBL_PPP_NETWORK
| BBL_ESTABLISHED
| BBL_PPP_TERMINATING
| BBL_TERMINATING
| BBL_TERMINATED
| BBL_MAX.

#[export] Instance session_state_eq_dec : EqDecision session_state.
Proof. solve_decision. Defined.

Inductive endpoint_state := ENDPOINT_DISABLED | ENDPOINT_ENABLED | ENDPOINT_ACTIVE.

#[export] Instance endpoint_state_eq_dec : EqDecision endpoint_state.
Proof. solve_decision. Defined.

Inductive access_type := ACCESS_TYPE_PPPOE | ACCESS_TYPE_IPOE.

#[export] Instance access_type_eq_dec : EqDecision access_type.
Proof. solve_decision. Defined.

(** The counters of session traffic, one per sub-type. *)
Record sub_stats := mk_sub { sub_ipv4 : Z; sub_ipv6 : Z; sub_ipv6pd : Z }.

Definition sub_zero : sub_stats := mk_sub 0 0 0.

(** [x += n] of a [uint64_t]. *)
Definition add64 (n x : Z) : Z := u64 (x + n).

(** [switch(stream->sub_type)] over the counters. *)
Definition sub_add (sub_type n : Z) (s : sub_stats) : sub_stats :=
  if sub_type =? BBL_SUB_TYPE_IPV4 then s {{ sub_ipv4 ::= add64 n }}
  else if sub_type =? BBL_SUB_TYPE_IPV6 then s {{ sub_ipv6 ::= add64 n }}
  else if sub_type =? BBL_SUB_TYPE_IPV6PD then s {{ sub_ipv6pd ::= add64 n }}
  else s.

(** The stream counters of an access, network or A10NSP interface. *)
Record if_stats := mk_if_stats {
  if_packets_tx : Z; if_bytes_tx : Z; if_packets_rx : Z; if_bytes_rx : Z;
  if_stream_tx : Z; if_stream_rx : Z; if_stream_loss : Z;
  if_mc_tx : Z; if_l2tp_data_tx : Z; if_l2tp_data_rx : Z;
  if_session_tx : sub_stats; if_session_rx : sub_stats; if_session_loss : sub_stats;
  if_wrong_session : sub_stats
}.

Definition if_zero : if_stats := mk_if_stats 0 0 0 0 0 0 0 0 0 0 sub_zero sub_zero sub_zero sub_zero.

Record session_stats := mk_session_stats {
  ses_packets_tx : Z; ses_bytes_tx : Z; ses_packets_rx : Z; ses_bytes_rx : Z;
  ses_accounting_packets_tx : Z; ses_accounting_bytes_tx : Z;
  ses_accounting_packets_rx : Z; ses_accounting_bytes_rx : Z;
  ses_flows_verified : Z
}.

Definition session_stats_zero : session_stats := mk_session_stats 0 0 0 0 0 0 0 0 0.

(** A session, with what the streams use of it. *)
Record bbl_session := mk_session {
  ses_state : session_state;
  ses_access_type : access_type;
  ses_session_id : Z;
  ses_version : Z;
  ses_client_mac : list Z;
  ses_server_mac : list Z;
  ses_ifindex : Z;
  ses_outer_vlan_id : Z;
  ses_inner_vlan_id : Z;
  ses_third_vlan : Z;
  ses_qinq : bool;
  ses_pppoe_session_id : Z;
  ses_ip_address : Z;
  ses_ipv6_address : list Z;
  ses_delegated_ipv6_address : list Z;
  ses_link_local_ipv6_address : list Z;
  ses_network_interface : option Z;
  ses_l2tp_session : option Z;
  ses_a10nsp_session : option Z;
  ses_stats : session_stats
}.

Record l2tp_session := mk_l2tp_session {
  lts_tunnel : Z; lts_peer_session_id : Z;
  lts_data_tx : Z; lts_data_ipv4_tx : Z; lts_data_rx : Z; lts_data_ipv4_rx : Z
}.

Record l2tp_tunnel := mk_l2tp_tunnel {
  ltt_interface : Z; ltt_peer_ip : Z; ltt_server_ip : Z; ltt_peer_tunnel_id : Z;
  ltt_data_length : bool; ltt_data_offset : bool;
  ltt_data_tx : Z; ltt_data_rx : Z
}.

Record a10nsp_session := mk_a10nsp_session { a10_s_vlan : Z; a10_packets_tx : Z; a10_packets_rx : Z }.

(** The label database of an LDP instance: the addresses of the entries. *)
Record ldp_db := mk_ldp_db { db_ipv4 : gmap Z Z; db_ipv6 : gmap (list Z) Z }.

(** [net_ldp]: [ldp_adjacency->instance->db]. *)
Record network_interface := mk_network_interface {
  net_name : string; net_mac : list Z; net_vlan : Z;
  net_gateway_mac : list Z; net_gateway6_mac : list Z;
  net_ip_address : Z; net_ip_len : Z; net_ip6_address : list Z;
  net_ldp : option ldp_db;
  net_stats : if_stats
}.

Record a10nsp_interface := mk_a10nsp_interface { a10_name : string; a10_mac : list Z; a10_qinq : bool; a10_stats : if_stats }.

(** [ldp_db_entry_s], with what the streams use of it. *)
Record ldp_entry := mk_ldp_entry { ldp_active : bool; ldp_label : Z; ldp_version : Z }.

Record bbl_stream_config := mk_stream_config {
  sc_stream_group_id : Z;
  sc_max_packets : Z;
  sc_start_delay : Z;
  sc_setup_interval : Z;
  sc_src_port : Z;
  sc_dst_port : Z;
  sc_length : Z;
  sc_priority : Z;
  sc_vlan_priority : Z;
  sc_vlan_inner_priority : Z;
  sc_ttl : Z;
  sc_ipv4_ldp_lookup_address : Z;
  sc_ipv4_access_src_address : Z;
  sc_ipv6_access_src_address : list Z;
  sc_ipv4_network_address : Z;
  sc_ipv6_ldp_lookup_address : list Z;
  sc_ipv6_network_address : list Z;
  sc_ipv4_destination_address : Z;
  sc_ipv6_destination_address : list Z;
  sc_network_interface : option string;
  sc_a10nsp_interface : option string;
  sc_ipv4_df : bool;
  sc_tx_mpls1 : bool;
  sc_tx_mpls1_label : Z;
  sc_tx_mpls1_exp : Z;
  sc_tx_mpls1_ttl : Z;
  sc_tx_mpls2 : bool;
  sc_tx_mpls2_label : Z;
  sc_tx_mpls2_exp : Z;
  sc_tx_mpls2_ttl : Z;
  sc_rx_mpls1_label : Z;
  sc_rx_mpls2_label : Z
}.

(** [bbl_rate_s] of bbl_stats.h: a ring of [BBL_AVG_SAMPLES] differences. *)
Record bbl_rate := mk_rate {
  rate_diff_value : list Z;
  rate_cursor : Z;
  rate_last_value : Z;
  rate_sum : Z;
  rate_avg : Z;
  rate_avg_max : Z
}.

Definition rate_zero : bbl_rate := mk_rate (replicate (Z.to_nat BBL_AVG_SAMPLES) 0) 0 0 0 0 0.

(** The section of the main thread. *)
Record stream_main := mk_stream_main {
  last_sync_packets_tx : Z;
  last_sync_packets_rx : Z;
  last_sync_loss : Z;
  last_sync_wrong_session : Z;
  reset_packets_tx : Z;
  reset_packets_rx : Z;
  reset_loss : Z;
  rate_packets_tx : bbl_rate;
  rate_packets_rx : bbl_rate;
  flow_id : Z;
  st_type : Z;
  st_sub_type : Z;
  st_direction : Z;
  tcp_flags : Z;
  enabled : bool;
  verified : bool;
  st_reset : bool;
  session_traffic : bool;
  setup : bool;
  nat : bool;
  tcp : bool;
  ldp_lookup : bool;
  session_version : Z;
  ldp_entry_version : Z;
  st_ipv4_src : Z;
  st_ipv4_dst : Z;
  pps : Q;
  tx_len : Z;
  tx_bbl_hdr_len : Z;
  tx_buf : option (list Z);
  st_ipv6_src : ptr;
  st_ipv6_dst : ptr;
  config : bbl_stream_config;
  st_reverse : option Z;
  session : option Z;
  endpoint : Z;
  tx_access_interface : option Z;
  tx_network_interface : option Z;
  tx_a10nsp_interface : option Z;
  st_ldp_entry : option Z
}.

(** The section of the transmit thread. *)
Record stream_tx := mk_stream_tx {
  tx_packets : Z;
  flow_seq : Z;
  max_packets : Z;
  tx_first_epoch : Z;
  wait_start : timespec
}.

(** The section of the receive thread. *)
Record stream_rx := mk_stream_rx {
  rx_packets : Z;
  rx_loss : Z;
  rx_wrong_session : Z;
  rx_wrong_order : Z;
  rx_min_delay_us : Z;
  rx_max_delay_us : Z;
  rx_len : Z;
  rx_first_seq : Z;
  rx_last_seq : Z;
  rx_first_epoch : Z;
  rx_last_epoch : Z;
  rx_interface_changed_epoch : Z;
  rx_interface_changes : Z;
  rx_fragments : Z;
  rx_fragment_offset : Z;
  rx_ttl : Z;
  rx_priority : Z;
  rx_outer_vlan_pbit : Z;
  rx_inner_vlan_pbit : Z;
  rx_mpls1 : option bbl_mpls;
  rx_mpls2 : option bbl_mpls;
  rx_source_ip : Z;
  rx_source_port : Z;
  rx_access_interface : option Z;
  rx_network_interface : option Z;
  rx_a10nsp_interface : option Z
}.

Record bbl_stream := mk_stream { st_main : stream_main; st_tx : stream_tx; st_rx : stream_rx }.

Record ctx := mk_ctx {
  c_streams : gmap Z bbl_stream;
  c_stream_list : list Z;              (* stream_head and the [next] links *)
  c_stream_index : option (list (option Z));
  c_sessions : gmap Z bbl_session;
  c_access : gmap Z if_stats;
  c_network : gmap Z network_interface;
  c_network_list : list Z;             (* the network interfaces of all interfaces, in order *)
  c_a10nsp : gmap Z a10nsp_interface;
  c_interface_list : list (string * option Z);   (* interface names with their A10NSP interface *)
  c_l2tp_sessions : gmap Z l2tp_session;
  c_l2tp_tunnels : gmap Z l2tp_tunnel;
  c_a10nsp_sessions : gmap Z a10nsp_session;
  c_endpoints : gmap Z endpoint_state;
  c_ldp : gmap Z ldp_entry;
  c_stream_rate_calc : bool;
  c_stream_delay_calc : bool;
  c_stream_udp_checksum : bool;
  c_traffic_stop_verified : bool;
  c_session_flows_verified : Z;
  c_stream_flows_verified : Z
}.

Definition with_stream (a : Z) (f : bbl_stream -> bbl_stream) (c : ctx) : ctx := c {{ c_streams ::= alter f a }}.

(** * The index of the streams *)

Definition bbl_stream_index_get (c : ctx) (flow_id : Z) : option Z :=
  match c_stream_index c with
  | Some index =>
      if (flow_id <=? Z.of_nat (length (c_stream_list c))) && (0 <? flow_id)
      then mjoin (index !! Z.to_nat (flow_id - 1)) else None
  | None => None
  end.

(** The loop over the list: [None] when a flow identifier is out of range, or
    dangling. *)
Fixpoint index_streams (c : ctx) (streams : list Z) (index : list (option Z)) : option (list (option Z)) :=
  match streams with
  | [] => Some index
  | a :: streams =>
      s ← c_streams c !! a;
      let flow_id := flow_id (st_main s) in
      if (Z.of_nat (length (c_stream_list c)) <? flow_id) || (flow_id <? 1) then None
      else index_streams c streams (<[Z.to_nat (flow_id - 1) := Some a]> index)
  end.

(** [g_ctx->streams] counts the streams of the list. *)
Definition bbl_stream_index_init (c : ctx) : option ctx :=
  index ← index_streams c (c_stream_list c) (replicate (length (c_stream_list c)) None);
  Some (c {{ c_stream_index := Some index }}).

(** * Receive *)

Definition bbl_stream_delay (rx_timestamp bbl_timestamp : timespec) (r : stream_rx) : stream_rx :=
  let delay := timespec_sub rx_timestamp bbl_timestamp in
  let delay_us := u64 (tv_sec delay * 1000000 + tv_nsec delay / 1000) in
  let delay_us := if delay_us =? 0 then 1 else delay_us in
  let r := if rx_max_delay_us r <? delay_us then r {{ rx_max_delay_us := delay_us }} else r in
  if negb (rx_min_delay_us r =? 0) then
    if delay_us <? rx_min_delay_us r then r {{ rx_min_delay_us := delay_us }} else r
  else r {{ rx_min_delay_us := delay_us }}.

(** [ipv4->next] is taken for a UDP header, also for TCP: both begin with the ports. *)
Definition bbl_stream_rx_nat (eth : ethernet) (r : stream_rx) : option stream_rx :=
  if eth_type eth =? ETH_TYPE_IPV4 then
    match eth_next eth with
    | h_ipv4 ipv4 =>
        if (ipv4_protocol ipv4 =? PROTOCOL_IPV4_UDP) || (ipv4_protocol ipv4 =? PROTOCOL_IPV4_TCP) then
          port ← match ipv4_next ipv4 with h_udp u => Some (udp_src u) | h_tcp t => Some (tcp_src t) | _ => None end;
          Some (r {{ rx_source_ip := ipv4_src ipv4 ; rx_source_port := port }})
        else Some r
    | _ => None
    end
  else Some r.

(** The label of a received header, 0 when there was none. *)
Definition mpls_label_of (m : option bbl_mpls) : Z := match m with Some m => mpls_label m | None => 0 end.

(** The fields taken from the first packet, before it is checked. *)
Definition rx_learn (eth : ethernet) (r : stream_rx) : stream_rx :=
  let r := r {{ rx_len := eth_length eth ;
                rx_priority := eth_tos eth ;
                rx_ttl := eth_ttl eth ;
                rx_outer_vlan_pbit := eth_vlan_outer_priority eth ;
                rx_inner_vlan_pbit := eth_vlan_inner_priority eth }} in
  match eth_mpls eth with
  | [] => r
  | [m1] => r {{ rx_mpls1 := Some m1 }}
  | m1 :: m2 :: _ => r {{ rx_mpls1 := Some m1 ; rx_mpls2 := Some m2 }}
  end.

(** [memcmp(mac, eth->dst, ETH_ADDR_LEN) == 0] *)
Definition mac_is (mac : list Z) (dst : ptr) : option bool :=
  dst ← dst;
  if (length dst <? 6)%nat then None else Some (bool_decide (mac = take 6 dst)).

(** The checks of the receiver, with the counter of wrong sessions. *)
Definition rx_receiver (ses : option bbl_session) (mac : option (list Z)) (eth : ethernet) (bbl : bbl_bbl)
    (m : stream_main) (r : stream_rx) : option (bool * stream_rx) :=
  match mac with
  | Some mac => ok ← mac_is mac (eth_dst eth); Some (ok, r)
  | None =>
      match ses with
      | None => Some (false, r)
      | Some ses =>
          if decide (ses_state ses = BBL_TERMINATED \/ ses_state ses = BBL_IDLE) then Some (false, r)
          else
            ok ← mac_is (ses_client_mac ses) (eth_dst eth);
            if negb ok then Some (false, r)
            else if session_traffic m then
              outer ← bbl_outer_vlan_id bbl;
              inner ← bbl_inner_vlan_id bbl;
              if negb (outer =? ses_outer_vlan_id ses) || negb (inner =? ses_inner_vlan_id ses) ||
                 negb (bbl_session_id bbl =? ses_session_id ses)
              then Some (false, r {{ rx_wrong_session ::= add64 1 }})
              else Some (true, r)
            else Some (true, r)
      end
  end.

(** The first packet of a stream: [false] when it is rejected.  What was learned
    from it is kept either way. *)
Definition rx_first (ses : option bbl_session) (mac : option (list Z)) (eth : ethernet) (timestamp : timespec) (bbl : bbl_bbl)
    (m : stream_main) (r : stream_rx) : option (bool * stream_rx) :=
  let r := rx_learn eth r in
  let cfg := config m in
  if negb (sc_rx_mpls1_label cfg =? 0) &&
     (negb (mpls_label_of (rx_mpls1 r) =? sc_rx_mpls1_label cfg) ||
      negb (sc_rx_mpls2_label cfg =? 0) && negb (mpls_label_of (rx_mpls2 r) =? sc_rx_mpls2_label cfg))
  then Some (false, r)
  else if negb (bbl_sub_type bbl =? st_sub_type m) || negb (bbl_direction bbl =? st_direction m) then Some (false, r)
  else
    '(ok, r) ← rx_receiver ses mac eth bbl m r;
    if negb ok then Some (false, r)
    else
      r ← (if nat m && (st_direction m =? BBL_DIRECTION_UP) then bbl_stream_rx_nat eth r else Some r);
      Some (true, r {{ rx_first_seq := bbl_flow_seq bbl ;
                       rx_last_seq := bbl_flow_seq bbl ;
                       rx_first_epoch := tv_sec timestamp ;
                       rx_last_epoch := tv_sec timestamp ;
                       rx_packets ::= add64 1 }}).

(** A packet of a stream that has been received before. *)
Definition rx_next (timestamp : timespec) (bbl : bbl_bbl) (r : stream_rx) : stream_rx :=
  let seq := bbl_flow_seq bbl in
  let last := rx_last_seq r in
  if last <? seq then
    let r := if u64 (last + 1) <? seq then r {{ rx_loss ::= add64 (u64 (seq - u64 (last + 1))) }} else r in
    r {{ rx_last_seq := seq ; rx_last_epoch := tv_sec timestamp ; rx_packets ::= add64 1 }}
  else r {{ rx_wrong_order ::= add64 1 ; rx_packets ::= add64 1 }}.

Definition stream_receive (delay_calc : bool) (ses : option bbl_session) (mac : option (list Z)) (eth : ethernet)
    (timestamp : timespec) (bbl : bbl_bbl) (m : stream_main) (r : stream_rx) : option (bool * stream_rx) :=
  '(ok, r) ← (if negb (rx_last_seq r =? 0) then Some (true, rx_next timestamp bbl r)
              else rx_first ses mac eth timestamp bbl m r);
  Some (ok, if ok && delay_calc then bbl_stream_delay timestamp (mk_ts (bbl_tv_sec bbl) (bbl_tv_nsec bbl)) r else r).

(** [timestamp] is [eth->timestamp].  The stream that has accepted the packet, or NULL. *)
Definition bbl_stream_rx (eth : ethernet) (timestamp : timespec) (mac : option (list Z)) (c : ctx) : option (option Z * ctx) :=
  match eth_bbl eth with
  | p_uninit => None
  | p_null => Some (None, c)
  | p_to bbl =>
      if negb (bbl_type bbl =? BBL_TYPE_UNICAST) then Some (None, c)
      else
        match bbl_stream_index_get c (bbl_flow_id bbl) with
        | None => Some (None, c)
        | Some a =>
            s ← c_streams c !! a;
            ses ← (match session (st_main s) with Some x => ses ← c_sessions c !! x; Some (Some ses) | None => Some None end);
            '(ok, r) ← stream_receive (c_stream_delay_calc c) ses mac eth timestamp bbl (st_main s) (st_rx s);
            Some (if (ok : bool) then Some a else None, with_stream a (fun s => s {{ st_rx := r }}) c)
        end
  end.

(** [bbl_stream_reset] for a stream that is not NULL. *)
Definition bbl_stream_reset (s : bbl_stream) : bbl_stream :=
  s {{ st_main := (st_main s) {{ reset_packets_tx := tx_packets (st_tx s) ;
                                 reset_packets_rx := rx_packets (st_rx s) ;
                                 reset_loss := rx_loss (st_rx s) ;
                                 rate_packets_tx := (rate_packets_tx (st_main s)) {{ rate_avg_max := 0 }} ;
                                 rate_packets_rx := (rate_packets_rx (st_main s)) {{ rate_avg_max := 0 }} ;
                                 st_reset := true ;
                                 verified := false }} ;
       st_rx := (st_rx s) {{ rx_min_delay_us := 0 ; rx_max_delay_us := 0 ; rx_len := 0 ;
                             rx_fragments := 0 ; rx_fragment_offset := 0 ; rx_ttl := 0 ; rx_priority := 0 ;
                             rx_outer_vlan_pbit := 0 ; rx_inner_vlan_pbit := 0 ;
                             rx_mpls1 := None ; rx_mpls2 := None ;
                             rx_source_ip := 0 ; rx_source_port := 0 ;
                             rx_first_seq := 0 ; rx_last_seq := 0 }} }}.

(** * Statistics *)

Definition bbl_compute_avg_rate (current_value : Z) (rate : bbl_rate) : option bbl_rate :=
  if current_value =? 0 then Some rate
  else
    let diff := u64 (current_value - rate_last_value rate) in
    old_diff ← rate_diff_value rate !! Z.to_nat (rate_cursor rate);
    let sum := u64 (u64 (rate_sum rate - old_diff) + diff) in
    let avg := sum / BBL_AVG_SAMPLES in
    Some (mk_rate (<[Z.to_nat (rate_cursor rate) := diff]> (rate_diff_value rate))
            (u32 (rate_cursor rate + 1) mod BBL_AVG_SAMPLES) current_value sum avg
            (if rate_avg_max rate <? avg then avg else rate_avg_max rate)).

(** An update of the object a pointer refers to. *)
Definition upd {A} (a : Z) (f : A -> A) (m : gmap Z A) : option (gmap Z A) := x ← m !! a; Some (<[a := f x]> m).

Definition upd_access (a : Z) (f : if_stats -> if_stats) (c : ctx) : option ctx :=
  m ← upd a f (c_access c); Some (c {{ c_access := m }}).
Definition upd_network (a : Z) (f : if_stats -> if_stats) (c : ctx) : option ctx :=
  m ← upd a (fun n => n {{ net_stats ::= f }}) (c_network c); Some (c {{ c_network := m }}).
Definition upd_a10nsp (a : Z) (f : if_stats -> if_stats) (c : ctx) : option ctx :=
  m ← upd a (fun n => n {{ a10_stats ::= f }}) (c_a10nsp c); Some (c {{ c_a10nsp := m }}).
Definition upd_session (a : Z) (f : session_stats -> session_stats) (c : ctx) : option ctx :=
  m ← upd a (fun s => s {{ ses_stats ::= f }}) (c_sessions c); Some (c {{ c_sessions := m }}).

(** [if(session->l2tp_session)]: the counters of the L2TP session and its tunnel. *)
Definition upd_l2tp (ses : bbl_session) (f : l2tp_session -> l2tp_session) (g : l2tp_tunnel -> l2tp_tunnel) (c : ctx) : option ctx :=
  match ses_l2tp_session ses with
  | None => Some c
  | Some l =>
      ls ← c_l2tp_sessions c !! l;
      t ← upd (lts_tunnel ls) g (c_l2tp_tunnels c);
      m ← upd l f (c_l2tp_sessions c);
      Some (c {{ c_l2tp_tunnels := t ; c_l2tp_sessions := m }})
  end.

(** [if(session->a10nsp_session)] *)
Definition upd_a10nsp_session (ses : bbl_session) (f : a10nsp_session -> a10nsp_session) (c : ctx) : option ctx :=
  match ses_a10nsp_session ses with
  | None => Some c
  | Some x => m ← upd x f (c_a10nsp_sessions c); Some (c {{ c_a10nsp_sessions := m }})
  end.

(** [if(session)] *)
Definition if_session (m : stream_main) (f : Z -> bbl_session -> ctx -> option ctx) (c : ctx) : option ctx :=
  match session m with
  | None => Some c
  | Some x => ses ← c_sessions c !! x; f x ses c
  end.

Definition count_tx (packets bytes : Z) (s : if_stats) : if_stats :=
  s {{ if_packets_tx ::= add64 packets ; if_bytes_tx ::= add64 bytes ; if_stream_tx ::= add64 packets }}.

Definition session_count_tx (packets bytes : Z) (s : session_stats) : session_stats :=
  s {{ ses_packets_tx ::= add64 packets ; ses_bytes_tx ::= add64 bytes ;
       ses_accounting_packets_tx ::= add64 packets ; ses_accounting_bytes_tx ::= add64 bytes }}.

Definition session_count_rx (packets bytes : Z) (s : session_stats) : session_stats :=
  s {{ ses_packets_rx ::= add64 packets ; ses_bytes_rx ::= add64 bytes ;
       ses_accounting_packets_rx ::= add64 packets ; ses_accounting_bytes_rx ::= add64 bytes }}.

(** [if(stream->session_traffic) switch(stream->sub_type)] *)
Definition sub_tx (m : stream_main) (packets : Z) (s : if_stats) : if_stats :=
  if session_traffic m then s {{ if_session_tx ::= sub_add (st_sub_type m) packets }} else s.
Definition sub_rx (m : stream_main) (packets loss : Z) (s : if_stats) : if_stats :=
  if session_traffic m
  then s {{ if_session_rx ::= sub_add (st_sub_type m) packets ; if_session_loss ::= sub_add (st_sub_type m) loss }} else s.

Definition bbl_stream_tx_stats (m : stream_main) (packets bytes : Z) (c : ctx) : option ctx :=
  if packets =? 0 then Some c
  else if st_direction m =? BBL_DIRECTION_UP then
    match tx_access_interface m with
    | None => Some c
    | Some i =>
        c ← upd_access i (count_tx packets bytes) c;
        if_session m (fun x _ c =>
          c ← upd_session x (session_count_tx packets bytes) c;
          upd_access i (sub_tx m packets) c) c
    end
  else
    match tx_network_interface m, tx_a10nsp_interface m with
    | Some i, _ =>
        c ← upd_network i (count_tx packets bytes) c;
        c ← (if st_type m =? BBL_TYPE_MULTICAST then upd_network i (fun s => s {{ if_mc_tx ::= add64 packets }}) c else Some c);
        if_session m (fun _ ses c =>
          c ← (if decide (ses_l2tp_session ses = None) then Some c
               else upd_network i (fun s => s {{ if_l2tp_data_tx ::= add64 packets }}) c);
          c ← upd_l2tp ses
                (fun l => l {{ lts_data_tx ::= add64 packets ;
                               lts_data_ipv4_tx ::= (if st_sub_type m =? BBL_SUB_TYPE_IPV4 then add64 packets else id) }})
                (fun t => t {{ ltt_data_tx ::= add64 packets }}) c;
          upd_network i (sub_tx m packets) c) c
    | None, Some i =>
        c ← upd_a10nsp i (count_tx packets bytes) c;
        if_session m (fun _ ses c =>
          c ← upd_a10nsp_session ses (fun a => a {{ a10_packets_tx ::= add64 packets }}) c;
          upd_a10nsp i (sub_tx m packets) c) c
    | None, None => Some c
    end.

(** Reassembled packets are not counted again. *)
Definition count_rx (fragments packets bytes loss : Z) (s : if_stats) : if_stats :=
  let s := s {{ if_stream_rx ::= add64 packets ; if_stream_loss ::= add64 loss }} in
  if fragments =? 0 then s {{ if_packets_rx ::= add64 packets ; if_bytes_rx ::= add64 bytes }} else s.

(** The IPv4 counter of the L2TP session is guarded by [stream->type]. *)
Definition bbl_stream_rx_stats (m : stream_main) (r : stream_rx) (packets bytes loss : Z) (c : ctx) : option ctx :=
  if packets =? 0 then Some c
  else
    match rx_access_interface r, rx_network_interface r, rx_a10nsp_interface r with
    | Some i, _, _ =>
        c ← upd_access i (count_rx (rx_fragments r) packets bytes loss) c;
        if_session m (fun x _ c =>
          c ← upd_session x (session_count_rx packets bytes) c;
          upd_access i (sub_rx m packets loss) c) c
    | None, Some i, _ =>
        c ← upd_network i (count_rx (rx_fragments r) packets bytes loss) c;
        if_session m (fun _ ses c =>
          c ← (if decide (ses_l2tp_session ses = None) then Some c
               else upd_network i (fun s => s {{ if_l2tp_data_rx ::= add64 packets }}) c);
          c ← upd_l2tp ses
                (fun l => l {{ lts_data_rx ::= add64 packets ;
                               lts_data_ipv4_rx ::= (if st_type m =? BBL_SUB_TYPE_IPV4 then add64 packets else id) }})
                (fun t => t {{ ltt_data_rx ::= add64 packets }}) c;
          upd_network i (sub_rx m packets loss) c) c
    | None, None, Some i =>
        c ← upd_a10nsp i (count_rx 0 packets bytes loss) c;
        if_session m (fun _ ses c =>
          c ← upd_a10nsp_session ses (fun a => a {{ a10_packets_rx ::= add64 packets }}) c;
          upd_a10nsp i (sub_rx m packets loss) c) c
    | None, None, None => Some c
    end.

Definition with_main (a : Z) (f : stream_main -> stream_main) (c : ctx) : ctx := with_stream a (fun s => s {{ st_main ::= f }}) c.

Definition bbl_stream_rx_wrong_session (a : Z) (c : ctx) : option ctx :=
  s ← c_streams c !! a;
  let packets := rx_wrong_session (st_rx s) in
  let packets_delta := u64 (packets - last_sync_wrong_session (st_main s)) in
  let c := with_main a (fun m => m {{ last_sync_wrong_session := packets }}) c in
  match rx_access_interface (st_rx s) with
  | Some i => upd_access i (fun x => x {{ if_wrong_session ::= sub_add (st_sub_type (st_main s)) packets_delta }}) c
  | None => Some c
  end.

Definition bbl_stream_setup_established (a : Z) (c : ctx) : option ctx :=
  s ← c_streams c !! a;
  if setup (st_main s) then
    match st_reverse (st_main s) with
    | Some b =>
        rev ← c_streams c !! b;
        if verified (st_main rev)
        then Some (with_main a (fun m => m {{ setup := false }}) (with_main b (fun m => m {{ setup := false }}) c))
        else Some c
    | None => Some (with_main a (fun m => m {{ setup := false }}) c)
    end
  else Some c.

(** The stream has been received: [if(unlikely(!stream->verified))]. *)
Definition ctrl_verify (a : Z) (c : ctx) : option ctx :=
  s ← c_streams c !! a;
  let m := st_main s in
  if verified m then Some c
  else
    c ← (if rx_first_seq (st_rx s) =? 0 then Some c
         else if session_traffic m then
           match session m with
           | None => Some c
           | Some x =>
               c ← bbl_stream_setup_established a (with_main a (fun m => m {{ verified := true }}) c);
               c ← upd_session x (fun t => t {{ ses_flows_verified ::= (fun n => u8 (n + 1)) }}) c;
               Some (c {{ c_session_flows_verified ::= (fun n => u32 (n + 1)) }})
           end
         else
           c ← bbl_stream_setup_established a (with_main a (fun m => m {{ verified := true }}) c);
           Some (c {{ c_stream_flows_verified ::= (fun n => u32 (n + 1)) }}));
    s ← c_streams c !! a;
    Some (if verified (st_main s) && c_traffic_stop_verified c then with_main a (fun m => m {{ enabled := false }}) c else c).

(** [if(g_ctx->config.stream_rate_calc && stream->pps >= 1)] *)
Definition ctrl_rate (tx : bool) (a packets : Z) (c : ctx) : option ctx :=
  s ← c_streams c !! a;
  if c_stream_rate_calc c && Qle_bool 1 (pps (st_main s)) then
    if tx then r ← bbl_compute_avg_rate packets (rate_packets_tx (st_main s)); Some (with_main a (fun m => m {{ rate_packets_tx := r }}) c)
    else r ← bbl_compute_avg_rate packets (rate_packets_rx (st_main s)); Some (with_main a (fun m => m {{ rate_packets_rx := r }}) c)
  else Some c.

(** The packets sent since the last synchronisation. *)
Definition ctrl_tx (a : Z) (c : ctx) : option ctx :=
  s ← c_streams c !! a;
  let packets := tx_packets (st_tx s) in
  let packets_delta := u64 (packets - last_sync_packets_tx (st_main s)) in
  if packets_delta =? 0 then Some c
  else
    let c := with_main a (fun m => m {{ last_sync_packets_tx := packets }}) c in
    bbl_stream_tx_stats (st_main s) packets_delta (u64 (packets_delta * tx_len (st_main s))) c.

(** The packets and the loss received since the last synchronisation. *)
Definition ctrl_rx (a : Z) (c : ctx) : option ctx :=
  s ← c_streams c !! a;
  let r := st_rx s in
  let packets_delta := u64 (rx_packets r - last_sync_packets_rx (st_main s)) in
  if packets_delta =? 0 then Some c
  else
    let loss_delta := u64 (rx_loss r - last_sync_loss (st_main s)) in
    let c := with_main a (fun m => m {{ last_sync_packets_rx := rx_packets r ; last_sync_loss := rx_loss r }}) c in
    c ← bbl_stream_rx_stats (st_main s) r packets_delta (u64 (packets_delta * rx_len r)) loss_delta c;
    c ← (if rx_wrong_session r =? 0 then Some c else bbl_stream_rx_wrong_session a c);
    ctrl_verify a c.

Definition bbl_stream_ctrl (a : Z) (c : ctx) : option ctx :=
  s ← c_streams c !! a;
  c ← ctrl_tx a c;
  c ← ctrl_rate true a (tx_packets (st_tx s)) c;
  if st_type (st_main s) =? BBL_TYPE_MULTICAST then Some c
  else
    c ← ctrl_rx a c;
    ctrl_rate false a (rx_packets (st_rx s)) c.

Fixpoint ctrl_all (streams : list Z) (c : ctx) : option ctx :=
  match streams with
  | [] => Some c
  | a :: streams => c ← bbl_stream_ctrl a c; ctrl_all streams c
  end.

Definition bbl_stream_final (c : ctx) : option ctx := ctrl_all (c_stream_list c) c.

(** The streams of a group, linked by [group_next]. *)
Definition bbl_stream_group_job (group : list Z) (c : ctx) : option ctx := ctrl_all group c.
