(* ===== verification/StreamLoss.v ===== *)
(** Loss detection of traffic streams: what the counters of a stream say about the
    packets it has received. *)
From coqutil Require Import Datatypes.RecordSetters.
From S2P Require Import Prelude.
From S2P Require Import Const.
From S2P Require Import ConstApp.
From S2P Require Import ConstStream.
From S2P Require Import ProtoTypes.
From S2P Require Import Timer.
From S2P Require Import Stream.
Import RecordSetters.DoubleBraceUpdate.
From stdpp Require Import gmap list strings.
Open Scope Z_scope.

(** * The reference: sequence numbers *)

(** The sequence numbers that exceed all before them. *)
Definition record (rs : list Z) (q : Z) : list Z := if default 0 (last rs) <? q then rs ++ [q] else rs.
Definition records (seqs : list Z) : list Z := foldl record [] seqs.

(** The sequence numbers from the first to the highest one, and those of them that
    did not come in order. *)
Definition span (rs : list Z) : list Z :=
  match rs with [] => [] | first :: _ => seqZ first (default first (last rs) - first + 1) end.
Definition missing (seqs : list Z) : list Z := filter (.∉ records seqs) (span (records seqs)).

Lemma records_snoc seqs q : records (seqs ++ [q]) = record (records seqs) q.
Proof. unfold records. by rewrite foldl_app. Qed.

(** A strictly increasing list of positive numbers. *)
Definition rising (rs : list Z) : Prop := forall i j x y, (i < j)%nat -> rs !! i = Some x -> rs !! j = Some y -> x < y.

Lemma rising_last rs x : rising rs -> x ∈ rs -> x <= default 0 (last rs).
Proof.
  intros Hr Hx. apply list_elem_of_lookup in Hx as [i Hi]. pose proof (lookup_lt_Some _ _ _ Hi) as Hl.
  destruct (lookup_lt_is_Some_2 rs (pred (length rs))) as [y Hy]; [lia|].
  rewrite last_lookup, Hy. cbn. destruct (decide (i = pred (length rs))) as [->|]; [by simplify_eq|].
  assert (x < y); [|lia]. apply (Hr i (pred (length rs))); [lia|done..].
Qed.

Lemma rising_snoc rs q : rising rs -> default 0 (last rs) < q -> rising (rs ++ [q]).
Proof.
  intros Hr Hq i j x y Hij Hi Hj. apply lookup_app_Some in Hj as [Hj|[Hj Hj']].
  - apply (Hr i j); [done| |done]. rewrite lookup_app_l in Hi; [done|]. apply lookup_lt_Some in Hj. lia.
  - apply list_lookup_singleton_Some in Hj' as [Hj' ->]. rewrite lookup_app_l in Hi by lia.
    assert (x <= default 0 (last rs)); [|lia]. apply rising_last; [done|]. by eapply list_elem_of_lookup_2.
Qed.

Lemma records_rising seqs : rising (records seqs).
Proof.
  induction seqs as [|q seqs IH] using rev_ind; [by intros [|i] j x y|].
  rewrite records_snoc. unfold record. case_if; [by apply rising_snoc; [|lia]|done].
Qed.

Lemma rising_NoDup rs : rising rs -> NoDup rs.
Proof.
  intros Hr. apply NoDup_alt. intros i j x Hi Hj. destruct (Nat.lt_trichotomy i j) as [H|[H|H]]; [|done|];
    pose proof (Hr _ _ _ _ H ltac:(done) ltac:(done)); lia.
Qed.

Lemma rising_head rs x : rising rs -> x ∈ rs -> default 0 (head rs) <= x.
Proof.
  intros Hr Hx. apply list_elem_of_lookup in Hx as [i Hi]. rewrite head_lookup. destruct i as [|i]; [by rewrite Hi|].
  destruct (rs !! 0%nat) as [y|] eqn:Hy; [|apply lookup_ge_None in Hy; apply lookup_lt_Some in Hi; lia]. cbn.
  assert (y < x); [|lia]. by apply (Hr 0%nat (S i)); [lia| |].
Qed.

Lemma length_filter_not {A} (P : A -> Prop) `{!forall x, Decision (P x)} (l : list A) :
  (length (filter P l) + length (filter (fun x => ~ P x) l) = length l)%nat.
Proof. induction l as [|x l IH]; [done|]. rewrite !filter_cons. repeat case_decide; cbn; try done; lia. Qed.

(** The number of missing packets, from the number of those in order. *)
Lemma missing_length seqs first : head (records seqs) = Some first ->
  Z.of_nat (length (missing seqs)) = default 0 (last (records seqs)) - first + 1 - Z.of_nat (length (records seqs)).
Proof.
  intros Hh. unfold missing. pose proof (records_rising seqs) as Hr. destruct (records seqs) as [|f rs'] eqn:E; [done|].
  injection Hh as ->. cbn [span]. set (rs := first :: rs') in *. assert (Hl : default first (last rs) = default 0 (last rs)) by (by destruct (last rs) eqn:El; [|apply last_None in El]).
  rewrite Hl. set (l := seqZ _ _).
  assert (Hp : filter (.∈ rs) l ≡ₚ rs).
  { apply NoDup_Permutation; [apply NoDup_filter, NoDup_seqZ|by apply rising_NoDup|].
    intros x. rewrite list_elem_of_filter. unfold l. rewrite elem_of_seqZ. split; [by intros [? _]|]. intros Hx. split; [done|].
    pose proof (rising_last _ _ Hr Hx). pose proof (rising_head _ _ Hr Hx) as Hx'. cbn in Hx'. lia. }
  assert (Hf : (length rs + length (filter (.∉ rs) l) = length l)%nat) by (rewrite <- Hp at 1; apply length_filter_not).
  unfold l in Hf at 2. rewrite length_seqZ in Hf.
  assert (first <= default 0 (last rs)) by (apply (rising_last rs first Hr), list_elem_of_here). lia.
Qed.

(** * The counters *)

Lemma u64_add x y : u64 (u64 x + y) = u64 (x + y).
Proof. unfold u64. by rewrite Zplus_mod_idemp_l. Qed.

(** The counters of a receive section after the packets [seqs] have been accepted. *)
Record counted (r0 : stream_rx) (seqs : list Z) (r : stream_rx) : Prop := {
  cnt_packets : rx_packets r = u64 (rx_packets r0 + Z.of_nat (length seqs));
  cnt_loss : rx_loss r = u64 (rx_loss r0 + Z.of_nat (length (missing seqs)));
  cnt_order : rx_wrong_order r = u64 (rx_wrong_order r0 + Z.of_nat (length seqs - length (records seqs)));
  cnt_last : rx_last_seq r = default 0 (last (records seqs));
  cnt_first : rx_first_seq r = default (rx_first_seq r0) (head (records seqs));
  cnt_rising : (length (records seqs) <= length seqs)%nat;
  cnt_seqs : Forall (fun q => 1 <= q < 2 ^ 64) seqs
}.

(** A receive section of a stream that has not been received yet. *)
Definition fresh_rx (r : stream_rx) : Prop :=
  rx_last_seq r = 0 /\ 0 <= rx_packets r < 2 ^ 64 /\ 0 <= rx_loss r < 2 ^ 64 /\ 0 <= rx_wrong_order r < 2 ^ 64.

Lemma counted_nil r : fresh_rx r -> counted r [] r.
Proof. intros (Hl & Hp & Ho & Hw). split; cbn; rewrite ?Z.add_0_r, ?u64_small; done || lia. Qed.

(** What a packet that is not counted may change. *)
Definition same_counts (r r' : stream_rx) : Prop :=
  rx_packets r' = rx_packets r /\ rx_loss r' = rx_loss r /\ rx_wrong_order r' = rx_wrong_order r /\
  rx_last_seq r' = rx_last_seq r /\ rx_first_seq r' = rx_first_seq r.

Lemma counted_same r0 seqs r r' : same_counts r r' -> counted r0 seqs r -> counted r0 seqs r'.
Proof. intros (Hp & Hl & Hw & Hs & Hf) []. split; congruence. Qed.

Lemma counted_first r0 r q : counted r0 [] r -> 1 <= q < 2 ^ 64 ->
  counted r0 [q] (r {{ rx_first_seq := q ; rx_last_seq := q ; rx_packets ::= add64 1 }}).
Proof.
  intros [Hp Hl Hw _ _ _ _] Hq. assert (Hr : records [q] = [q]) by (unfold records, record; cbn; by case_if; [|lia]).
  pose proof (missing_length [q] q) as Hm. rewrite Hr in Hm. cbn [head last length default from_option] in Hm.
  destruct r; cbn in *; subst. split; cbn; rewrite ?Hr; try done; [unfold add64; rewrite u64_add; f_equal; lia| |by constructor].
  f_equal. specialize (Hm eq_refl). lia.
Qed.

Lemma record_in rs q : default 0 (last rs) < q -> record rs q = rs ++ [q].
Proof. intros H. unfold record. by case_if; [|lia]. Qed.
Lemma record_out rs q : q <= default 0 (last rs) -> record rs q = rs.
Proof. intros H. unfold record. by case_if; [lia|]. Qed.

Lemma counted_later r0 seqs r q : counted r0 seqs r -> records seqs <> [] -> default 0 (last (records seqs)) < q < 2 ^ 64 ->
  0 <= default 0 (last (records seqs)) ->
  counted r0 (seqs ++ [q]) (r {{ rx_loss ::= add64 (q - (rx_last_seq r + 1)) ; rx_last_seq := q ; rx_packets ::= add64 1 }}).
Proof.
  intros [Hp Hl Hw Hs Hf Hle Hall] Hne Hq H0.
  assert (Hr : records (seqs ++ [q]) = records seqs ++ [q]) by (rewrite records_snoc; apply record_in; lia).
  destruct (records seqs) as [|first rs'] eqn:E; [done|].
  pose proof (missing_length seqs first) as Hm. pose proof (missing_length (seqs ++ [q]) first) as Hm'.
  rewrite E in Hm. rewrite Hr, last_snoc in Hm'. cbn [default from_option id] in Hm'. specialize (Hm eq_refl). specialize (Hm' eq_refl).
  rewrite length_app in Hm'. cbn [length] in Hm, Hm'. remember (default 0 (last (first :: rs'))) as l eqn:El. clear El.
  split; rewrite ?Hr, ?length_app; destruct r; cbn -[missing records length Z.of_nat Nat.sub] in *; subst.
  - cbn. unfold add64. rewrite u64_add. f_equal. lia.
  - cbn. unfold add64. rewrite u64_add. f_equal. lia.
  - cbn [length]. do 2 f_equal. lia.
  - by rewrite app_comm_cons, last_snoc.
  - done.
  - cbn [length] in *. lia.
  - apply Forall_app. split; [done|]. by constructor; [lia|].
Qed.

Lemma counted_late r0 seqs r q : counted r0 seqs r -> 1 <= q < 2 ^ 64 -> q <= default 0 (last (records seqs)) ->
  counted r0 (seqs ++ [q]) (r {{ rx_wrong_order ::= add64 1 ; rx_packets ::= add64 1 }}).
Proof.
  intros [Hp Hl Hw Hs Hf Hle Hall] Hq1 Hq.
  assert (Hr : records (seqs ++ [q]) = records seqs) by (rewrite records_snoc; by apply record_out).
  split; unfold missing; rewrite ?Hr, ?length_app; destruct r; cbn -[missing records length Z.of_nat Nat.sub] in *; subst; try done.
  - cbn. unfold add64. rewrite u64_add. f_equal. lia.
  - cbn. unfold add64. rewrite u64_add. f_equal. cbn [length]. lia.
  - cbn [length]. lia.
  - apply Forall_app. split; [done|]. by constructor.
Qed.

Lemma records_elem seqs x : x ∈ records seqs -> x ∈ seqs.
Proof.
  induction seqs as [|q seqs IH] using rev_ind; [done|]. rewrite records_snoc. unfold record. case_if; rewrite ?elem_of_app; intuition.
Qed.

Lemma records_nil seqs : Forall (fun q => 1 <= q < 2 ^ 64) seqs -> default 0 (last (records seqs)) = 0 -> seqs = [].
Proof.
  intros Hs Hl. destruct seqs as [|q seqs _] using rev_ind; [done|]. rewrite records_snoc in Hl.
  apply Forall_app in Hs as [_ Hq]. apply Forall_cons_1 in Hq as [Hq _]. unfold record in Hl.
  destruct (default 0 (last (records seqs)) <? q) eqn:E; [rewrite last_snoc in Hl; cbn in Hl; lia|]. rewrite Hl in E. lia.
Qed.

Lemma counted_last_range r0 seqs r : counted r0 seqs r -> 0 <= rx_last_seq r < 2 ^ 64.
Proof.
  intros [_ _ _ -> _ _ Hs]. destruct (last (records seqs)) as [x|] eqn:E; cbn; [|lia].
  apply last_Some_elem_of, records_elem in E. rewrite Forall_forall in Hs. apply Hs in E. lia.
Qed.

(** * Packets *)

(** A decoded packet with its timestamp, and the address of the interface it was
    received on (NULL for an access interface). *)
Record rx_packet := mk_rx_packet { p_eth : ethernet; p_timestamp : timespec; p_mac : option (list Z) }.

(** The packets a decoder can return for a stream. *)
Record packet_ok (p : rx_packet) (bbl : bbl_bbl) : Prop := {
  ok_bbl : eth_bbl (p_eth p) = p_to bbl;
  ok_seq : 1 <= bbl_flow_seq bbl < 2 ^ 64;
  ok_vlans : is_Some (bbl_outer_vlan_id bbl) /\ is_Some (bbl_inner_vlan_id bbl);
  ok_dst : exists dst, eth_dst (p_eth p) = Some dst /\ (6 <= length dst)%nat;
  ok_next : eth_type (p_eth p) = ETH_TYPE_IPV4 -> exists i, eth_next (p_eth p) = h_ipv4 i /\
    (ipv4_protocol i = PROTOCOL_IPV4_UDP \/ ipv4_protocol i = PROTOCOL_IPV4_TCP ->
     (exists u, ipv4_next i = h_udp u) \/ exists t, ipv4_next i = h_tcp t)
}.

Lemma same_counts_refl r : same_counts r r.
Proof. by repeat split. Qed.

Lemma same_counts_trans r1 r2 r3 : same_counts r1 r2 -> same_counts r2 r3 -> same_counts r1 r3.
Proof. intros (?&?&?&?&?) (?&?&?&?&?). repeat split; congruence. Qed.

Lemma rx_learn_counts eth r : same_counts r (rx_learn eth r).
Proof. unfold rx_learn. destruct (eth_mpls eth) as [|? [|? ?]]; by destruct r. Qed.

Lemma rx_nat_ok p bbl r : packet_ok p bbl -> exists r', bbl_stream_rx_nat (p_eth p) r = Some r' /\ same_counts r r'.
Proof.
  intros Hp. unfold bbl_stream_rx_nat. case_if; [|exists r; split; [done|apply same_counts_refl]].
  destruct (ok_next _ _ Hp) as (i & -> & Hn); [lia|]. case_if; [|exists r; split; [done|apply same_counts_refl]].
  destruct Hn as [[u ->]|[t ->]]; [tauto|..]; cbn; eexists; (split; [done|]); by destruct r.
Qed.

Lemma mac_is_ok mac p bbl : packet_ok p bbl -> exists b, mac_is mac (eth_dst (p_eth p)) = Some b.
Proof.
  intros Hp. destruct (ok_dst _ _ Hp) as (dst & -> & Hl). unfold mac_is. cbn [mbind option_bind].
  destruct (length dst <? 6)%nat eqn:E; [apply Nat.ltb_lt in E; lia|]. by eexists.
Qed.

Lemma rx_receiver_ok ses p bbl m r : packet_ok p bbl ->
  exists ok r', rx_receiver ses (p_mac p) (p_eth p) bbl m r = Some (ok, r') /\ same_counts r r'.
Proof.
  intros Hp. pose proof (same_counts_refl r). unfold rx_receiver. destruct (p_mac p) as [mac|].
  { destruct (mac_is_ok mac p bbl Hp) as [b ->]. cbn. by exists b, r. }
  destruct ses as [ses|]; [|by exists false, r]. case_decide; [by exists false, r|].
  destruct (mac_is_ok (ses_client_mac ses) p bbl Hp) as [[] ->]; cbn [mbind option_bind negb]; [|by exists false, r].
  destruct (session_traffic m); [|by exists true, r]. destruct (ok_vlans _ _ Hp) as [[vo ->] [vi ->]]. cbn [mbind option_bind].
  case_if; [|by exists true, r]. eexists _, _. split; [done|]. by destruct r.
Qed.

Lemma rx_first_ok ses p bbl m r r0 : packet_ok p bbl -> counted r0 [] r ->
  exists ok r', rx_first ses (p_mac p) (p_eth p) (p_timestamp p) bbl m r = Some (ok, r') /\
    counted r0 (if (ok : bool) then [bbl_flow_seq bbl] else []) r'.
Proof.
  intros Hp Hc. pose proof (rx_learn_counts (p_eth p) r) as Hl. unfold rx_first. set (r1 := rx_learn (p_eth p) r) in *. clearbody r1.
  pose proof (counted_same _ _ _ _ Hl Hc) as Hc1. case_if; [by exists false, r1|]. case_if; [by exists false, r1|].
  destruct (rx_receiver_ok ses p bbl m r1 Hp) as (ok & r2 & -> & H2). cbn [mbind option_bind]. pose proof (counted_same _ _ _ _ H2 Hc1) as Hc2.
  destruct ok; cbn [negb]; [|by exists false, r2].
  assert (Hn : exists r3, (if nat m && (st_direction m =? BBL_DIRECTION_UP) then bbl_stream_rx_nat (p_eth p) r2 else Some r2) = Some r3 /\ same_counts r2 r3).
  { case_if; [by eapply rx_nat_ok|]. exists r2. split; [done|apply same_counts_refl]. }
  destruct Hn as (r3 & -> & H3). cbn [mbind option_bind]. eexists true, _. split; [done|].
  eapply counted_same; [|apply (counted_first r0 r3); [by eapply counted_same|apply (ok_seq _ _ Hp)]]. by destruct r3.
Qed.

Lemma rx_next_ok ts bbl r0 seqs r : counted r0 seqs r -> 1 <= bbl_flow_seq bbl < 2 ^ 64 -> 0 < rx_last_seq r < 2 ^ 64 ->
  counted r0 (seqs ++ [bbl_flow_seq bbl]) (rx_next ts bbl r).
Proof.
  intros Hc Hq Hl. set (q := bbl_flow_seq bbl) in *. unfold rx_next. fold q.
  assert (Hne : records seqs <> []) by (intros E; rewrite (cnt_last _ _ _ Hc), E in Hl; cbn in Hl; lia).
  pose proof (cnt_last _ _ _ Hc) as Hlast. case_if; [|apply counted_late; [done|done|lia]].
  rewrite u64_small by lia. eapply counted_same; [|apply (counted_later r0 seqs r q); [done|done|lia|lia]].
  case_if; [rewrite u64_small by lia; by destruct r|].
  assert (Hz : q - (rx_last_seq r + 1) = 0) by lia. rewrite Hz. destruct Hc as [_ Hloss _ _ _ _ _]. destruct r; cbn in *. repeat split.
  unfold add64. rewrite Z.add_0_r, Hloss. symmetry. apply u64_small, u64_range.
Qed.

Lemma delay_counts t1 t2 r : same_counts r (bbl_stream_delay t1 t2 r).
Proof. unfold bbl_stream_delay. repeat case_if; destruct r; cbn in *; by repeat split. Qed.

Lemma stream_receive_ok dc ses p bbl m r r0 seqs : packet_ok p bbl -> counted r0 seqs r ->
  exists ok r', stream_receive dc ses (p_mac p) (p_eth p) (p_timestamp p) bbl m r = Some (ok, r') /\
    counted r0 (if (ok : bool) then seqs ++ [bbl_flow_seq bbl] else seqs) r'.
Proof.
  intros Hp Hc. pose proof (counted_last_range _ _ _ Hc) as Hl. unfold stream_receive.
  assert (H : exists ok r', (if negb (rx_last_seq r =? 0) then Some (true, rx_next (p_timestamp p) bbl r)
      else rx_first ses (p_mac p) (p_eth p) (p_timestamp p) bbl m r) = Some (ok, r') /\
    counted r0 (if (ok : bool) then seqs ++ [bbl_flow_seq bbl] else seqs) r').
  { case_if; [exists true, (rx_next (p_timestamp p) bbl r); split; [done|]; apply rx_next_ok; [done|apply (ok_seq _ _ Hp)|lia]|].
    assert (seqs = []) as -> by (apply records_nil; [apply Hc|]; rewrite <- (cnt_last _ _ _ Hc); lia). by apply rx_first_ok. }
  destruct H as (ok & r' & -> & Hc'). cbn [mbind option_bind]. eexists ok, _. split; [done|].
  destruct (ok && dc); [|done]. eapply counted_same; [apply delay_counts|done].
Qed.

(** * Executions *)

(** Pointers are valid: the index leads to streams, and a stream to its session;
    and the counters of the streams are those of what they have received. *)
Definition ctx_ok (c : ctx) : Prop :=
  (forall f a, bbl_stream_index_get c f = Some a -> is_Some (c_streams c !! a)) /\
  (forall a s x, c_streams c !! a = Some s -> session (st_main s) = Some x -> is_Some (c_sessions c !! x)) /\
  (forall a s, c_streams c !! a = Some s -> exists r0 qs, counted r0 qs (st_rx s)).

(** The packets received one after the other; the sequence numbers of those the
    stream [a] has accepted. *)
Fixpoint rx_run (a : Z) (ps : list rx_packet) (c : ctx) : option (list Z * ctx) :=
  match ps with
  | [] => Some ([], c)
  | p :: ps =>
      '(result, c) ← bbl_stream_rx (p_eth p) (p_timestamp p) (p_mac p) c;
      '(seqs, c) ← rx_run a ps c;
      Some (match eth_bbl (p_eth p) with
            | p_to bbl => if decide (result = Some a) then bbl_flow_seq bbl :: seqs else seqs
            | _ => seqs
            end, c)
  end.

Lemma with_stream_lookup a b f c : c_streams (with_stream a f c) !! b = (if decide (a = b) then f <$> c_streams c !! b else c_streams c !! b).
Proof. unfold with_stream. destruct c; cbn. case_decide; subst; [by rewrite lookup_alter_eq|by rewrite lookup_alter_ne]. Qed.

Lemma with_rx_ctx_ok a r c r0 qs : counted r0 qs r -> ctx_ok c -> ctx_ok (with_stream a (fun s => s {{ st_rx := r }}) c).
Proof.
  intros Hr (Hi & Hs & Hc). split_and!.
  - intros f b Hb. assert (Hb' : bbl_stream_index_get c f = Some b) by (by destruct c). rewrite with_stream_lookup. case_decide; [|by eapply Hi].
    subst. destruct (Hi _ _ Hb') as [s ->]. by eexists.
  - intros b s x Hb Hx. rewrite with_stream_lookup in Hb. assert (Hcs : c_sessions (with_stream a (fun s => s {{ st_rx := r }}) c) = c_sessions c) by by destruct c.
    rewrite Hcs. case_decide; [|by eapply Hs]. subst. destruct (c_streams c !! b) as [s0|] eqn:E; [|done]. injection Hb as <-. eapply Hs; [done|by destruct s0].
  - intros b s Hb. rewrite with_stream_lookup in Hb. case_decide; [|by eapply Hc]. subst. destruct (c_streams c !! b) as [s0|]; [|done].
    injection Hb as <-. exists r0, qs. destruct s0; exact Hr.
Qed.

Lemma bbl_stream_rx_ok p bbl c a s seqs r0 : packet_ok p bbl -> ctx_ok c -> c_streams c !! a = Some s -> counted r0 seqs (st_rx s) ->
  exists res c' s', bbl_stream_rx (p_eth p) (p_timestamp p) (p_mac p) c = Some (res, c') /\ ctx_ok c' /\
    c_streams c' !! a = Some s' /\ st_main s' = st_main s /\ st_tx s' = st_tx s /\
    counted r0 (if decide (res = Some a) then seqs ++ [bbl_flow_seq bbl] else seqs) (st_rx s').
Proof.
  intros Hp Hok Ha Hc. unfold bbl_stream_rx. rewrite (ok_bbl _ _ Hp).
  assert (Hskip : exists res c' s', Some (None, c) = Some (res, c') /\ ctx_ok c' /\
    c_streams c' !! a = Some s' /\ st_main s' = st_main s /\ st_tx s' = st_tx s /\
    counted r0 (if decide (res = Some a) then seqs ++ [bbl_flow_seq bbl] else seqs) (st_rx s')) by by exists None, c, s.
  case_if; [done|]. destruct (bbl_stream_index_get c (bbl_flow_id bbl)) as [b|] eqn:Hi; [|done]. clear Hskip.
  pose proof Hok as (Hidx & Hses & Hall). destruct (Hidx _ _ Hi) as [t Ht]. rewrite Ht. cbn [mbind option_bind].
  assert (Hs : exists ses, (match session (st_main t) with Some x => ses ← c_sessions c !! x; Some (Some ses) | None => Some None end) = Some ses).
  { destruct (session (st_main t)) as [x|] eqn:Ex; [|by eexists]. destruct (Hses _ _ _ Ht Ex) as [ses ->]. by eexists. }
  destruct Hs as (ses & ->). cbn [mbind option_bind].
  assert (Ht' : exists r1 qs, counted r1 qs (st_rx t) /\ (b = a -> r1 = r0 /\ qs = seqs /\ t = s)).
  { destruct (decide (b = a)) as [->|Hne]; [exists r0, seqs; simplify_eq; done|]. destruct (Hall _ _ Ht) as (r1 & qs & H1). by exists r1, qs. }
  destruct Ht' as (r1 & qs & H1 & Hsame).
  destruct (stream_receive_ok (c_stream_delay_calc c) ses p bbl (st_main t) (st_rx t) r1 qs Hp H1) as (ok & r & -> & Hr). cbn [mbind option_bind].
  exists (if ok then Some b else None), (with_stream b (fun s => s {{ st_rx := r }}) c).
  pose proof (with_rx_ctx_ok b r c _ _ Hr Hok) as Hok'. destruct (decide (b = a)) as [->|Hne].
  - destruct (Hsame eq_refl) as (-> & -> & ->). exists (s {{ st_rx := r }}).
    rewrite with_stream_lookup, decide_True, Ha by done. split_and!; try done; [by destruct s..|].
    destruct ok; [rewrite decide_True by done|rewrite decide_False by done]; by destruct s.
  - exists s. rewrite with_stream_lookup, decide_False by done. split_and!; try done.
    rewrite decide_False; [done|]. destruct ok; [congruence|done].
Qed.

Lemma rx_run_ok a ps c s seqs r0 : Forall (fun p => exists bbl, packet_ok p bbl) ps -> ctx_ok c -> c_streams c !! a = Some s ->
  counted r0 seqs (st_rx s) ->
  exists qs c' s', rx_run a ps c = Some (qs, c') /\ ctx_ok c' /\ c_streams c' !! a = Some s' /\ st_main s' = st_main s /\ st_tx s' = st_tx s /\
    counted r0 (seqs ++ qs) (st_rx s').
Proof.
  intros Hps. revert c s seqs. induction Hps as [|p ps (bbl & Hp) _ IH]; intros c s seqs Hok Ha Hc.
  { exists [], c, s. by rewrite app_nil_r. }
  destruct (bbl_stream_rx_ok p bbl c a s seqs r0 Hp Hok Ha Hc) as (res & c1 & s1 & E1 & Hok1 & Ha1 & Hm1 & Ht1 & Hc1).
  destruct (IH c1 s1 _ Hok1 Ha1 Hc1) as (qs & c2 & s2 & E2 & Hok2 & Ha2 & Hm2 & Ht2 & Hc2).
  cbn [rx_run]. rewrite E1. cbn [mbind option_bind]. rewrite E2. cbn [mbind option_bind]. rewrite (ok_bbl _ _ Hp).
  eexists _, c2, s2. split; [done|]. split_and!; [done|done|congruence|congruence|].
  case_decide; [|done]. by rewrite <- app_assoc in Hc2.
Qed.

Lemma records_rising_id seqs : Forall (fun q => 1 <= q < 2 ^ 64) seqs -> rising seqs -> records seqs = seqs.
Proof.
  induction seqs as [|q seqs IH] using rev_ind; [done|]. intros Hall Hr. apply Forall_app in Hall as [Hall Hq]. apply Forall_cons_1 in Hq as [Hq _].
  rewrite records_snoc, IH; [|done|]. 2:{ intros i j x y Hij Hi Hj. apply (Hr i j); [done|by apply lookup_app_l_Some..]. }
  apply record_in. destruct (last seqs) as [x|] eqn:E; [|cbn; lia]. rewrite last_lookup in E. pose proof (lookup_lt_Some _ _ _ E).
  apply (Hr (pred (length seqs)) (length seqs)); [lia|by apply lookup_app_l_Some|]. rewrite lookup_app_r by lia. by rewrite Nat.sub_diag.
Qed.

(** * Claims *)

(** C4. The counters of a stream are exact: after any sequence of received packets
    (of this and of other streams), the packets the stream has accepted, their
    sequence numbers being [seqs], are counted one by one in [rx_packets]; [rx_loss]
    has grown by the number of sequence numbers between the first and the highest
    one that did not come in order; [rx_wrong_order] by the number of packets that
    came late or twice.  If the packets came in order, the loss is the number of
    those that were not received.  Receiving never follows an invalid pointer and
    writes nothing but the receive section of the stream. *)
Theorem stream_loss_exact (c : ctx) (a : Z) (s : bbl_stream) (ps : list rx_packet) :
  ctx_ok c -> c_streams c !! a = Some s -> fresh_rx (st_rx s) -> Forall (fun p => exists bbl, packet_ok p bbl) ps ->
  exists seqs c' s', rx_run a ps c = Some (seqs, c') /\ c_streams c' !! a = Some s' /\
    st_main s' = st_main s /\ st_tx s' = st_tx s /\
    rx_packets (st_rx s') = u64 (rx_packets (st_rx s) + Z.of_nat (length seqs)) /\
    rx_loss (st_rx s') = u64 (rx_loss (st_rx s) + Z.of_nat (length (missing seqs))) /\
    rx_wrong_order (st_rx s') = u64 (rx_wrong_order (st_rx s) + Z.of_nat (length seqs - length (records seqs))) /\
    (rising seqs -> records seqs = seqs).
Proof.
  intros Hok Ha Hf Hps. destruct (rx_run_ok a ps c s [] (st_rx s) Hps Hok Ha (counted_nil _ Hf)) as (seqs & c' & s' & E & _ & Ha' & Hm & Ht & Hc).
  exists seqs, c', s'. destruct Hc as [Hp Hl Hw _ _ _ Hs]. split_and!; try done. by apply records_rising_id.
Qed.

(** A downstream IPv4 stream received on an access interface, and its packets. *)
Definition demo_stream_config : bbl_stream_config :=
  mk_stream_config 1 0 0 0 65056 65056 128 0 0 0 64 0 0 [] 0 [] [] 0 [] None None false false 0 0 0 false 0 0 0 0 0.
Definition demo_main : stream_main :=
  mk_stream_main 0 0 0 0 0 0 0 rate_zero rate_zero 1 BBL_TYPE_UNICAST BBL_SUB_TYPE_IPV4 BBL_DIRECTION_DOWN 0 true false false
    true false false false false 0 0 0 0 (QArith_base.Qmake 1 1) 0 0 None None None demo_stream_config None (Some 7) 1 None (Some 2) None None.
Definition rx_zero : stream_rx := mk_stream_rx 0 0 0 0 0 0 0 0 0 0 0 0 0 0 0 0 0 0 0 None None 0 0 None None None.
Definition demo_stream : bbl_stream := mk_stream demo_main (mk_stream_tx 0 1 0 0 (mk_ts 0 0)) rx_zero.
Definition demo_ses : bbl_session :=
  mk_session BBL_ESTABLISHED ACCESS_TYPE_PPPOE 42 0 [2;0;0;0;0;1] [2;0;0;0;0;2] 3 1001 7 0 false 4711 0x0100000a [] [] [] (Some 2) None None
    session_stats_zero.
Definition demo_ctx : ctx :=
  mk_ctx {[ 5 := demo_stream ]} [5] (Some [Some 5]) {[ 7 := demo_ses ]} ∅ ∅ [] ∅ [] ∅ ∅ ∅ ∅ ∅ false true false false 0 0.

Definition demo_rx_bbl (seq : Z) : bbl_bbl :=
  mk_bbl None BBL_TYPE_UNICAST BBL_SUB_TYPE_IPV4 BBL_DIRECTION_DOWN 0 42 (Some 3) (Some 1001) (Some 7) None None 1 seq 10 0.
Definition demo_rx_packet (seq : Z) : rx_packet :=
  mk_rx_packet (mk_eth 100 ETH_TYPE_PPPOE_SESSION 1001 7 0 0 0 0 64 false false (Some [2;0;0;0;0;1]) (Some [2;0;0;0;0;2])
                  (p_to (demo_rx_bbl seq)) [] h_null 0) (mk_ts 11 0) None.

Lemma demo_packet_ok seq : 1 <= seq < 2 ^ 64 -> packet_ok (demo_rx_packet seq) (demo_rx_bbl seq).
Proof. intros H. split; cbn; try done. eexists. split; [done|]. cbn. lia. Qed.

Lemma stream_loss_exact_witness :
  exists seqs c' s', rx_run 5 (map demo_rx_packet [2; 3; 7; 5; 8]) demo_ctx = Some (seqs, c') /\ c_streams c' !! 5 = Some s' /\
    st_main s' = demo_main /\ st_tx s' = st_tx demo_stream /\
    rx_packets (st_rx s') = u64 (0 + Z.of_nat (length seqs)) /\
    rx_loss (st_rx s') = u64 (0 + Z.of_nat (length (missing seqs))) /\
    rx_wrong_order (st_rx s') = u64 (0 + Z.of_nat (length seqs - length (records seqs))) /\
    (rising seqs -> records seqs = seqs).
Proof.
  apply (stream_loss_exact demo_ctx 5 demo_stream (map demo_rx_packet [2; 3; 7; 5; 8])).
  - split_and!.
    + intros f a. unfold bbl_stream_index_get. cbn [demo_ctx c_stream_index c_stream_list length]. case_if; [|done].
      assert (f = 1) as -> by lia. intros [= <-]. by eexists.
    + intros a s x Ha Hx. change (({[ 5 := demo_stream ]} : gmap Z bbl_stream) !! a = Some s) in Ha; apply lookup_singleton_Some in Ha as [<- <-]. injection Hx as <-. by eexists.
    + intros a s Ha. change (({[ 5 := demo_stream ]} : gmap Z bbl_stream) !! a = Some s) in Ha; apply lookup_singleton_Some in Ha as [<- <-]. exists rx_zero, []. apply counted_nil. repeat split; cbn; lia.
  - reflexivity.
  - repeat split; cbn; lia.
  - repeat constructor; (eexists; apply demo_packet_ok; lia).
Defined.
