(* ===== verification/StreamBuild.v ===== *)
(** The packets of traffic streams: the builders of bbl_stream.c.

    A builder fills the header structures from the stream, its session and its
    interfaces, and encodes them into a new buffer.  [malloc n] are the bytes of a
    new buffer of the size [n]; allocation succeeds.  The result is the return
    value and the section of the stream it changes; [None] is a NULL pointer
    dereferenced, or a write outside of the buffer. *)
From coqutil Require Import Datatypes.RecordSetters.
From S2P Require Import Prelude.
From S2P Require Import Const.
From S2P Require Import ConstApp.
From S2P Require Import ConstStream.
From S2P Require Import Utils.
From S2P Require Import ProtoTypes.
From S2P Require Import Timer.
From S2P Require Import Enc.
From S2P Require Import EncodeEth.
From S2P Require Import Stream.
Import RecordSetters.DoubleBraceUpdate.
From stdpp Require Import gmap list strings.
Import Ipv4.
Open Scope Z_scope.

Definition ipv6_link_local_address : list Z := [0xFE; 0x80; 0; 0; 0; 0; 0; 0; 0; 0; 0; 0; 0; 0; 0; 1].

(** [bbl_network_interface_get]: the first interface, or the one with the name. *)
Fixpoint find_network (c : ctx) (name : option string) (l : list Z) : option Z :=
  match l with
  | [] => None
  | i :: l =>
      match name, c_network c !! i with
      | None, _ => Some i
      | Some name, Some n => if decide (net_name n = name) then Some i else find_network c (Some name) l
      | Some name, None => None
      end
  end.
Definition bbl_network_interface_get (c : ctx) (name : option string) : option Z := find_network c name (c_network_list c).

(** [bbl_a10nsp_interface_get] *)
Fixpoint find_a10nsp (name : option string) (l : list (string * option Z)) : option Z :=
  match l with
  | [] => None
  | (n, i) :: l =>
      match name with
      | Some name => if decide (n = name) then i else find_a10nsp (Some name) l
      | None => match i with Some _ => i | None => find_a10nsp None l end
      end
  end.
Definition bbl_a10nsp_interface_get (c : ctx) (name : option string) : option Z := find_a10nsp name (c_interface_list c).

(** [if( *(uint64_t* )address)]: the first half of an IPv6 address is not zero. *)
Definition ipv6_set (address : list Z) : bool := negb (le_combine (take 8 address) =? 0).

(** * The headers all builders fill in the same way *)

Definition bbl0 : bbl_bbl := mk_bbl (Some 0) 0 0 0 0 0 (Some 0) (Some 0) (Some 0) (Some 0) (Some 0) 0 0 0 0.

(** [bbl] of a session. *)
Definition stream_bbl (m : stream_main) (ses : option bbl_session) (direction padding : Z) : bbl_bbl :=
  let b := match ses with
           | Some ses => bbl0 {{ bbl_session_id := ses_session_id ses ; bbl_ifindex := Some (ses_ifindex ses) ;
                                 bbl_outer_vlan_id := Some (ses_outer_vlan_id ses) ;
                                 bbl_inner_vlan_id := Some (ses_inner_vlan_id ses) }}
           | None => bbl0
           end in
  b {{ bbl_type := st_type m ; bbl_sub_type := st_sub_type m ; bbl_flow_id := flow_id m ;
       bbl_tos := sc_priority (config m) ; bbl_direction := direction ; bbl_padding := Some padding }}.

Definition stream_udp (src dst : Z) (b : bbl_bbl) : udp_t := mk_udp src dst 0 (Some UDP_PROTOCOL_BBL) (h_bbl b).

Definition stream_ipv4 (m : stream_main) (src dst : Z) (u : udp_t) : ipv4_t :=
  mk_ipv4 src dst (sc_priority (config m)) (sc_ttl (config m))
    (if tcp m then PROTOCOL_IPV4_TCP else PROTOCOL_IPV4_UDP) false 0
    (if sc_ipv4_df (config m) then IPV4_DF else 0) 0 [] (h_udp u) None 0.

Definition stream_ipv6 (m : stream_main) (src dst : list Z) (u : udp_t) : ipv6_t :=
  mk_ipv6 src dst (sc_priority (config m)) (sc_ttl (config m))
    (if tcp m then IPV6_NEXT_HEADER_TCP else IPV6_NEXT_HEADER_UDP) 0 [] (h_udp u) None 0.

(** [if(config->length > n) bbl.padding = config->length - n] *)
Definition padding_from (m : stream_main) (n : Z) : Z := if n <? sc_length (config m) then sc_length (config m) - n else 0.

Definition is_ipv6 (sub_type : Z) : bool := (sub_type =? BBL_SUB_TYPE_IPV6) || (sub_type =? BBL_SUB_TYPE_IPV6PD).

Section Build.
Context (malloc : Z -> list Z).

(** The end of every builder: allocate and encode. *)
Definition finish (eth : ethernet) (padding ipv4_src ipv4_dst : Z) (ipv6_src ipv6_dst : ptr) (m : stream_main)
    : option (bool * stream_main) :=
  let buf_len := u16 (sc_length (config m) + BBL_MAX_STREAM_OVERHEAD) in
  let buf_len := if buf_len <? 256 then 256 else buf_len in
  let m := m {{ tx_bbl_hdr_len := u16 (padding + BBL_HEADER_LEN) ;
                st_ipv4_src := ipv4_src ; st_ipv4_dst := ipv4_dst ;
                st_ipv6_src := ipv6_src ; st_ipv6_dst := ipv6_dst }} in
  match encode_ethernet eth (malloc buf_len) 0 with
  | WOk (PROTOCOL_SUCCESS, _) w => Some (true, m {{ tx_buf := Some (w_mem w) ; tx_len := w_len w }})
  | WOk _ _ => Some (false, m {{ tx_buf := None }})
  | WFault => None
  end.

(** The network interface of a session's stream. *)
Definition build_network (ses : bbl_session) (m : stream_main) (c : ctx) : option Z :=
  match sc_network_interface (config m) with
  | Some name => bbl_network_interface_get c (Some name)
  | None => ses_network_interface ses
  end.

(** The tags and addresses of an upstream frame. *)
Definition access_eth (ses : bbl_session) (m : stream_main) (type : Z) (next : hdr) : ethernet :=
  eth0 {{ eth_dst := Some (ses_server_mac ses) ; eth_src := Some (ses_client_mac ses) ; eth_qinq := ses_qinq ses ;
          eth_vlan_outer := ses_outer_vlan_id ses ; eth_vlan_outer_priority := sc_vlan_priority (config m) ;
          eth_vlan_inner := ses_inner_vlan_id ses ; eth_vlan_inner_priority := sc_vlan_inner_priority (config m) ;
          eth_vlan_three := ses_third_vlan ses ; eth_type := type ; eth_next := next }}.

(** Addresses of an upstream packet; [mock] when the session is tunnelled. *)
Definition access_ipv4_src (ses : bbl_session) (m : stream_main) : Z :=
  if negb (sc_ipv4_access_src_address (config m) =? 0) then sc_ipv4_access_src_address (config m) else ses_ip_address ses.
Definition access_ipv4_dst (mock : bool) (net : network_interface) (m : stream_main) : Z :=
  if negb (sc_ipv4_destination_address (config m) =? 0) then sc_ipv4_destination_address (config m)
  else if mock then MOCK_IP_LOCAL
  else if negb (sc_ipv4_network_address (config m) =? 0) then sc_ipv4_network_address (config m)
  else net_ip_address net.
Definition access_ipv6_src (ses : bbl_session) (m : stream_main) : list Z :=
  if ipv6_set (sc_ipv6_access_src_address (config m)) then sc_ipv6_access_src_address (config m)
  else if st_sub_type m =? BBL_SUB_TYPE_IPV6 then ses_ipv6_address ses else ses_delegated_ipv6_address ses.
Definition access_ipv6_dst (net : network_interface) (m : stream_main) : list Z :=
  if ipv6_set (sc_ipv6_destination_address (config m)) then sc_ipv6_destination_address (config m)
  else if ipv6_set (sc_ipv6_network_address (config m)) then sc_ipv6_network_address (config m)
  else net_ip6_address net.

Definition the_session (m : stream_main) (c : ctx) : option bbl_session := x ← session m; c_sessions c !! x.

Definition bbl_stream_build_access_pppoe_packet (m : stream_main) (c : ctx) : option (bool * stream_main) :=
  ses ← the_session m c;
  match build_network ses m c with
  | None => Some (false, m)
  | Some i =>
      net ← c_network c !! i;
      let pppoe protocol next := h_pppoe_session (mk_pppoe_session (ses_pppoe_session_id ses) protocol 0 false next) in
      let udp padding := stream_udp (sc_src_port (config m)) (sc_dst_port (config m)) (stream_bbl m (Some ses) BBL_DIRECTION_UP padding) in
      if st_sub_type m =? BBL_SUB_TYPE_IPV4 then
        let src := access_ipv4_src ses m in
        let dst := access_ipv4_dst (bool_decide (is_Some (ses_l2tp_session ses))) net m in
        let padding := padding_from m 76 in
        finish (access_eth ses m ETH_TYPE_PPPOE_SESSION (pppoe PROTOCOL_IPV4 (h_ipv4 (stream_ipv4 m src dst (udp padding)))))
          padding src dst None None m
      else if is_ipv6 (st_sub_type m) then
        let src := access_ipv6_src ses m in
        let dst := access_ipv6_dst net m in
        let padding := padding_from m 96 in
        finish (access_eth ses m ETH_TYPE_PPPOE_SESSION (pppoe PROTOCOL_IPV6 (h_ipv6 (stream_ipv6 m src dst (udp padding)))))
          padding 0 0 (Some src) (Some dst) m
      else Some (false, m)
  end.

Definition bbl_stream_build_access_ipoe_packet (m : stream_main) (c : ctx) : option (bool * stream_main) :=
  ses ← the_session m c;
  match build_network ses m c with
  | None => Some (false, m)
  | Some i =>
      net ← c_network c !! i;
      let udp padding := stream_udp (sc_src_port (config m)) (sc_dst_port (config m)) (stream_bbl m (Some ses) BBL_DIRECTION_UP padding) in
      if st_sub_type m =? BBL_SUB_TYPE_IPV4 then
        let src := access_ipv4_src ses m in
        let dst := access_ipv4_dst false net m in
        let padding := padding_from m 76 in
        finish (access_eth ses m ETH_TYPE_IPV4 (h_ipv4 (stream_ipv4 m src dst (udp padding)))) padding src dst None None m
      else if is_ipv6 (st_sub_type m) then
        let src := access_ipv6_src ses m in
        let dst := access_ipv6_dst net m in
        let padding := padding_from m 96 in
        finish (access_eth ses m ETH_TYPE_IPV6 (h_ipv6 (stream_ipv6 m src dst (udp padding)))) padding 0 0 (Some src) (Some dst) m
      else Some (false, m)
  end.

(** * A10NSP *)

(** The ports: an upstream packet has those of the configuration; a downstream
    packet has them exchanged if there is an upstream as well. *)
Definition stream_ports_of (up : bool) (m : stream_main) (b : bbl_bbl) : udp_t :=
  if negb up && bool_decide (is_Some (st_reverse m))
  then stream_udp (sc_dst_port (config m)) (sc_src_port (config m)) b
  else stream_udp (sc_src_port (config m)) (sc_dst_port (config m)) b.

Definition a10nsp_eth (up : bool) (ses : bbl_session) (a : a10nsp_interface) (s : a10nsp_session) (m : stream_main)
    (type : Z) (next : hdr) : ethernet :=
  if up then access_eth ses m type next
  else (access_eth ses m type next) {{ eth_dst := Some (ses_client_mac ses) ; eth_src := Some (ses_server_mac ses) ;
                                       eth_qinq := a10_qinq a ; eth_vlan_outer := a10_s_vlan s }}.

Definition a10nsp_ipv4 (up : bool) (ses : bbl_session) (m : stream_main) : Z * Z :=
  let '(src, dst) := if up then (ses_ip_address ses, MOCK_IP_LOCAL) else (MOCK_IP_LOCAL, ses_ip_address ses) in
  (src, if negb (sc_ipv4_destination_address (config m) =? 0) then sc_ipv4_destination_address (config m) else dst).

Definition a10nsp_ipv6 (up : bool) (ses : bbl_session) (m : stream_main) : list Z * list Z :=
  let '(src, dst) := if up then (ses_link_local_ipv6_address ses, ipv6_link_local_address)
                     else (ipv6_link_local_address, ses_link_local_ipv6_address ses) in
  (src, if ipv6_set (sc_ipv6_destination_address (config m)) then sc_ipv6_destination_address (config m) else dst).

(** Both builders: [wrap] puts the IP header into a PPPoE session or not, and gives
    the ethertype. *)
Definition build_a10nsp (wrap : bbl_session -> Z -> hdr -> Z * hdr) (m : stream_main) (c : ctx) : option (bool * stream_main) :=
  ses ← the_session m c;
  match bbl_a10nsp_interface_get c (sc_a10nsp_interface (config m)), ses_a10nsp_session ses with
  | Some i, Some j =>
      a ← c_a10nsp c !! i;
      s ← c_a10nsp_sessions c !! j;
      let up := st_direction m =? BBL_DIRECTION_UP in
      let bbl padding := stream_bbl m (Some ses) (if up then BBL_DIRECTION_UP else BBL_DIRECTION_DOWN) padding in
      if st_sub_type m =? BBL_SUB_TYPE_IPV4 then
        let (src, dst) := a10nsp_ipv4 up ses m in
        let padding := padding_from m 76 in
        let (type, next) := wrap ses PROTOCOL_IPV4 (h_ipv4 (stream_ipv4 m src dst (stream_ports_of up m (bbl padding)))) in
        finish (a10nsp_eth up ses a s m type next) padding src dst None None m
      else if is_ipv6 (st_sub_type m) then
        let (src, dst) := a10nsp_ipv6 up ses m in
        let padding := padding_from m 96 in
        let (type, next) := wrap ses PROTOCOL_IPV6 (h_ipv6 (stream_ipv6 m src dst (stream_ports_of up m (bbl padding)))) in
        finish (a10nsp_eth up ses a s m type next) padding 0 0 (Some src) (Some dst) m
      else Some (false, m)
  | _, _ => Some (false, m)
  end.

Definition bbl_stream_build_a10nsp_pppoe_packet (m : stream_main) (c : ctx) : option (bool * stream_main) :=
  build_a10nsp (fun ses protocol next =>
    (ETH_TYPE_PPPOE_SESSION, h_pppoe_session (mk_pppoe_session (ses_pppoe_session_id ses) protocol 0 false next))) m c.

Definition bbl_stream_build_a10nsp_ipoe_packet (m : stream_main) (c : ctx) : option (bool * stream_main) :=
  build_a10nsp (fun _ protocol next => (if protocol =? PROTOCOL_IPV4 then ETH_TYPE_IPV4 else ETH_TYPE_IPV6, next)) m c.

(** * Network *)

(** The MPLS labels: the one of the LDP entry or the configured ones. *)
Definition stream_mpls (m : stream_main) (c : ctx) : option (list bbl_mpls) :=
  let cfg := config m in
  let labels first := mk_mpls first (sc_tx_mpls1_exp cfg) (sc_tx_mpls1_ttl cfg) ::
    (if sc_tx_mpls2 cfg then [mk_mpls (sc_tx_mpls2_label cfg) (sc_tx_mpls2_exp cfg) (sc_tx_mpls2_ttl cfg)] else []) in
  match st_ldp_entry m with
  | Some e => entry ← c_ldp c !! e; Some (labels (ldp_label entry))
  | None => Some (if sc_tx_mpls1 cfg then labels (sc_tx_mpls1_label cfg) else [])
  end.

Definition network_eth (net : network_interface) (mpls : list bbl_mpls) (dst : list Z) (type : Z) (next : hdr) (m : stream_main) : ethernet :=
  eth0 {{ eth_src := Some (net_mac net) ; eth_dst := Some dst ; eth_vlan_outer := net_vlan net ;
          eth_vlan_outer_priority := sc_vlan_priority (config m) ; eth_mpls := mpls ; eth_type := type ; eth_next := next }}.

(** The destination of a downstream IPv4 packet with the destination port and the
    address of the next hop; [Some None]: the builder returns false. *)
Definition network_ipv4_dst (ses : option bbl_session) (net : network_interface) (port : Z) (m : stream_main) (c : ctx)
    : option (option (Z * Z * list Z)) :=
  match nat m, st_reverse m with
  | true, Some b =>
      rev ← c_streams c !! b;
      Some (Some (rx_source_ip (st_rx rev), rx_source_port (st_rx rev), net_gateway_mac net))
  | _, _ =>
      if negb (sc_ipv4_destination_address (config m) =? 0)
      then Some (Some (sc_ipv4_destination_address (config m), port, net_gateway_mac net))
      else
        match ses with
        | None => Some None
        | Some ses =>
            let dst := ses_ip_address ses in
            Some (Some (dst, port,
              if bool_decide (ses_access_type ses = ACCESS_TYPE_IPOE) &&
                 ipv4_addr_in_network dst (mk_prefix (net_ip_len net) (net_ip_address net))
              then ses_client_mac ses else net_gateway_mac net))
        end
  end.

Definition bbl_stream_build_network_packet (m : stream_main) (c : ctx) : option (bool * stream_main) :=
  ses ← (match session m with Some x => s ← c_sessions c !! x; Some (Some s) | None => Some None end);
  match tx_network_interface m with
  | None => Some (false, m)
  | Some i =>
      net ← c_network c !! i;
      mpls ← stream_mpls m c;
      let cfg := config m in
      let udp dst_port b := if bool_decide (is_Some (st_reverse m)) then stream_udp (sc_dst_port cfg) dst_port b
                            else stream_udp (sc_src_port cfg) dst_port b in
      let port := if bool_decide (is_Some (st_reverse m)) then sc_src_port cfg else sc_dst_port cfg in
      if st_sub_type m =? BBL_SUB_TYPE_IPV4 then
        let src := if negb (sc_ipv4_network_address cfg =? 0) then sc_ipv4_network_address cfg else net_ip_address net in
        d ← network_ipv4_dst ses net port m c;
        match d with
        | None => Some (false, m)
        | Some (dst, port, mac) =>
            let padding := padding_from m 76 in
            let bbl := stream_bbl m ses BBL_DIRECTION_DOWN padding in
            let multicast := st_type m =? BBL_TYPE_MULTICAST in
            let bbl := if multicast then bbl {{ bbl_mc_source := Some src ; bbl_mc_group := Some dst }} else bbl in
            let mac := if multicast then Utils.Addr.ipv4_multicast_mac dst else mac in
            finish (network_eth net mpls mac ETH_TYPE_IPV4 (h_ipv4 (stream_ipv4 m src dst (udp port bbl))) m)
              padding src dst None None m
        end
      else if is_ipv6 (st_sub_type m) then
        let src := if ipv6_set (sc_ipv6_network_address cfg) then sc_ipv6_network_address cfg else net_ip6_address net in
        let dst := if ipv6_set (sc_ipv6_destination_address cfg) then Some (sc_ipv6_destination_address cfg)
                   else match ses with
                        | Some ses => Some (if st_sub_type m =? BBL_SUB_TYPE_IPV6 then ses_ipv6_address ses
                                            else ses_delegated_ipv6_address ses)
                        | None => None
                        end in
        match dst with
        | None => Some (false, m)
        | Some dst =>
            let padding := padding_from m 96 in
            let bbl := stream_bbl m ses BBL_DIRECTION_DOWN padding in
            finish (network_eth net mpls (net_gateway6_mac net) ETH_TYPE_IPV6 (h_ipv6 (stream_ipv6 m src dst (udp port bbl))) m)
              padding 0 0 (Some src) (Some dst) m
        end
      else Some (false, m)
  end.

(** * L2TP *)

(** The addresses kept for the checksum are those of the inner header; the IPv6
    ones are left as they are. *)
Definition bbl_stream_build_l2tp_packet (m : stream_main) (c : ctx) : option (bool * stream_main) :=
  ses ← the_session m c;
  l ← ses_l2tp_session ses;
  ls ← c_l2tp_sessions c !! l;
  t ← c_l2tp_tunnels c !! lts_tunnel ls;
  if negb (st_sub_type m =? BBL_SUB_TYPE_IPV4) then Some (false, m)
  else
    net ← c_network c !! ltt_interface t;
    let cfg := config m in
    let padding := padding_from m 76 in
    let bbl := (stream_bbl m (Some ses) BBL_DIRECTION_DOWN padding)
                 {{ bbl_type := BBL_TYPE_UNICAST ; bbl_sub_type := BBL_SUB_TYPE_IPV4 }} in
    let src := MOCK_IP_LOCAL in
    let dst := ses_ip_address ses in
    let l2tp := l2tp0 {{ l2tp_type := L2TP_MESSAGE_DATA ; l2tp_tunnel_id := ltt_peer_tunnel_id t ;
                         l2tp_session_id := lts_peer_session_id ls ; l2tp_protocol := PROTOCOL_IPV4 ;
                         l2tp_with_length := ltt_data_length t ; l2tp_with_offset := ltt_data_offset t ;
                         l2tp_next := h_ipv4 (stream_ipv4 m src dst (stream_ports_of false m bbl)) }} in
    let outer := mk_ipv4 (ltt_server_ip t) (ltt_peer_ip t) (sc_priority cfg) (sc_ttl cfg) PROTOCOL_IPV4_UDP false 0 0 0 []
                   (h_udp (mk_udp L2TP_UDP_PORT L2TP_UDP_PORT 0 (Some UDP_PROTOCOL_L2TP) (h_l2tp l2tp))) None 0 in
    finish (eth0 {{ eth_dst := Some (net_gateway_mac net) ; eth_src := Some (net_mac net) ; eth_vlan_outer := net_vlan net ;
                    eth_type := ETH_TYPE_IPV4 ; eth_next := h_ipv4 outer }})
      padding src dst (st_ipv6_src m) (st_ipv6_dst m) m.

Definition bbl_stream_build_packet (m : stream_main) (c : ctx) : option (bool * stream_main) :=
  if sc_stream_group_id (config m) =? 0 then bbl_stream_build_network_packet m c
  else
    match session m with
    | None => Some (false, m)
    | Some x =>
        ses ← c_sessions c !! x;
        let up := st_direction m =? BBL_DIRECTION_UP in
        match ses_access_type ses with
        | ACCESS_TYPE_PPPOE =>
            if bool_decide (is_Some (ses_l2tp_session ses)) then
              if up then bbl_stream_build_access_pppoe_packet m c else bbl_stream_build_l2tp_packet m c
            else if bool_decide (is_Some (ses_a10nsp_session ses)) then bbl_stream_build_a10nsp_pppoe_packet m c
            else if (st_sub_type m =? BBL_SUB_TYPE_IPV4) || is_ipv6 (st_sub_type m) then
              if up then bbl_stream_build_access_pppoe_packet m c else bbl_stream_build_network_packet m c
            else Some (false, m)
        | ACCESS_TYPE_IPOE =>
            if bool_decide (is_Some (ses_a10nsp_session ses)) then bbl_stream_build_a10nsp_ipoe_packet m c
            else if up then bbl_stream_build_access_ipoe_packet m c else bbl_stream_build_network_packet m c
        end
    end.
End Build.
