(* ===== verification/StreamFrame.v ===== *)
(** The packets the stream builders make are stream frames: they fit into their
    buffer, and they carry the BBL header of the stream. *)
From coqutil Require Import Datatypes.RecordSetters.
From S2P Require Import Prelude.
From S2P Require Import Const.
From S2P Require Import ConstApp.
From S2P Require Import ConstStream.
From S2P Require Import ProtoTypes.
From S2P Require Import Enc.
From S2P Require Import EncodeEth.
From S2P Require Import StreamPacket.
From S2P Require Import Timer.
From S2P Require Import Stream.
From S2P Require Import StreamLoss.
From S2P Require Import StreamBuild.
Import RecordSetters.DoubleBraceUpdate.
From stdpp Require Import gmap list strings.
Open Scope Z_scope.

(** * Well-formed streams *)

(** A configured IPv4 address, 0 for none; an IPv6 address. *)
Definition ipv4_range (a : Z) : Prop := 0 <= a < 2 ^ 32.
Definition ipv6_size (a : list Z) : Prop := length a = 16%nat.

Record config_wf (c : bbl_stream_config) : Prop := {
  cw_ports : 0 <= sc_src_port c < 65536 /\ 0 <= sc_dst_port c < 65536;
  cw_stream_ports : stream_ports (sc_src_port c) (sc_dst_port c) = true /\ stream_ports (sc_dst_port c) (sc_src_port c) = true;
  cw_length : 0 <= sc_length c <= 65407;
  cw_priority : 0 <= sc_priority c < 256 /\ 0 <= sc_ttl c < 256;
  cw_vlan_priority : 0 <= sc_vlan_priority c < 8 /\ 0 <= sc_vlan_inner_priority c < 8;
  cw_ipv4 : ipv4_range (sc_ipv4_access_src_address c) /\ ipv4_range (sc_ipv4_network_address c) /\
            ipv4_range (sc_ipv4_destination_address c);
  cw_ipv6 : ipv6_size (sc_ipv6_access_src_address c) /\ ipv6_size (sc_ipv6_network_address c) /\
            ipv6_size (sc_ipv6_destination_address c)
}.

Record session_wf (s : bbl_session) : Prop := {
  sw_macs : length (ses_client_mac s) = 6%nat /\ length (ses_server_mac s) = 6%nat;
  sw_ids : 0 <= ses_session_id s < 2 ^ 32 /\ 0 <= ses_ifindex s < 2 ^ 32 /\ 0 <= ses_pppoe_session_id s < 65536;
  sw_vlans : 0 <= ses_outer_vlan_id s < 4096 /\ 0 <= ses_inner_vlan_id s < 4096 /\ 0 <= ses_third_vlan s < 4096;
  sw_tags : (ses_outer_vlan_id s = 0 -> ses_inner_vlan_id s = 0) /\ (ses_inner_vlan_id s = 0 -> ses_third_vlan s = 0);
  sw_ipv4 : ipv4_range (ses_ip_address s);
  sw_ipv6 : ipv6_size (ses_ipv6_address s) /\ ipv6_size (ses_delegated_ipv6_address s)
}.

Record network_wf (n : network_interface) : Prop := {
  nw_macs : length (net_mac n) = 6%nat /\ length (net_gateway_mac n) = 6%nat /\ length (net_gateway6_mac n) = 6%nat;
  nw_vlan : 0 <= net_vlan n < 4096;
  nw_ipv4 : ipv4_range (net_ip_address n);
  nw_ipv6 : ipv6_size (net_ip6_address n)
}.

(** The header a packet of the stream carries. *)
Record carries (m : stream_main) (ses : option bbl_session) (b : bbl_bbl) : Prop := {
  ca_ok : bbl_ok b;
  ca_type : bbl_type b = BBL_TYPE_UNICAST;
  ca_sub_type : bbl_sub_type b = st_sub_type m;
  ca_direction : bbl_direction b = st_direction m;
  ca_flow : bbl_flow_id b = flow_id m;
  ca_session : forall s, ses = Some s -> bbl_session_id b = ses_session_id s /\
    bbl_outer_vlan_id b = Some (ses_outer_vlan_id s) /\ bbl_inner_vlan_id b = Some (ses_inner_vlan_id s)
}.

(** The stream has a packet with the header [b]: a frame at the beginning of its
    buffer. *)
Definition framed (m : stream_main) (ses : option bbl_session) (b : bbl_bbl) : Prop :=
  exists t dst src s x u rest, frame_ok t dst src s x u b /\ carries m ses b /\
    tx_buf m = Some (eth_bytes t dst src s x u b ++ rest) /\ tx_len m = Z.of_nat (length (eth_bytes t dst src s x u b)) /\
    tx_len m <= Z.max 256 (sc_length (config m) + BBL_MAX_STREAM_OVERHEAD).
Definition has_frame (m : stream_main) (ses : option bbl_session) : Prop := exists b, framed m ses b.

(** The parts of the stream a builder does not change. *)
Definition built_from (m m' : stream_main) : Prop :=
  config m' = config m /\ flow_id m' = flow_id m /\ st_type m' = st_type m /\ st_sub_type m' = st_sub_type m /\
  st_direction m' = st_direction m /\ session m' = session m /\ tcp m' = tcp m /\ endpoint m' = endpoint m /\
  enabled m' = enabled m /\ st_reset m' = st_reset m /\ session_traffic m' = session_traffic m /\ nat m' = nat m /\
  ldp_lookup m' = ldp_lookup m /\ session_version m' = session_version m /\ setup m' = setup m.

Section Frame.
Context (malloc : Z -> list Z).
Hypothesis malloc_size : forall n, 0 <= n -> Z.of_nat (length (malloc n)) = n.

Lemma carries_ext m m' ses b : flow_id m' = flow_id m -> st_sub_type m' = st_sub_type m -> st_direction m' = st_direction m ->
  carries m ses b -> carries m' ses b.
Proof. intros Hf Hs Hd []. split; (done || congruence). Qed.

(** Encoding a frame into the new buffer succeeds. *)
Lemma finish_frame eth dst src s x u b pad v4s v4d v6s v6d m ses k :
  frame_ok eth dst src s x u b -> carries m ses b -> config_wf (config m) -> bbl_padding b = Some pad ->
  pad = padding_from m k -> 76 <= k ->
  exists m', finish malloc eth pad v4s v4d v6s v6d m = Some (true, m') /\ has_frame m' ses /\ built_from m m'.
Proof.
  intros Hf Hc Hw Hp Hpad Hk. pose proof (ca_ok _ _ _ Hc) as Hb. destruct (stream_frame_size s x b pad Hb Hp) as [H0 Hsize].
  pose proof (cw_length _ Hw) as Hl. unfold finish. rewrite u16_small by (unfold BBL_MAX_STREAM_OVERHEAD; lia).
  set (n := if _ <? 256 then 256 else _).
  assert (Hn : pad + 144 <= n /\ 0 <= n < 65536).
  { unfold n, padding_from, BBL_MAX_STREAM_OVERHEAD in *. split; [|case_if; lia].
    destruct (k <? sc_length (config m)) eqn:E; case_if; lia. }
  pose proof (eth_bytes_length _ _ _ _ _ _ _ Hf). pose proof (vlan_bytes_length eth).
  destruct (encode_frame eth dst src s x u b (malloc n) Hf) as (w & rest & -> & Hm & _ & Hwl); [rewrite malloc_size; lia|lia|].
  eexists. split; [done|]. split; [|by destruct m].
  exists b, eth, dst, src, s, x, u, rest. split; [done|]. split; [eapply carries_ext; [..|exact Hc]; by destruct m|].
  destruct m; cbn in *. rewrite Hm, Hwl. split_and!; [done..|]. unfold RecordSetters.constant. unfold n in Hn. revert Hn. case_if; lia.
Qed.

(** * The headers *)

Lemma stream_bbl_carries m ses dir pad : config_wf (config m) -> (forall s, ses = Some s -> session_wf s) ->
  st_type m = BBL_TYPE_UNICAST -> (st_sub_type m =? BBL_SUB_TYPE_IPV4) || is_ipv6 (st_sub_type m) = true ->
  st_direction m = dir -> dir = BBL_DIRECTION_UP \/ dir = BBL_DIRECTION_DOWN -> 0 <= flow_id m < 2 ^ 64 -> 0 <= pad ->
  carries m ses (stream_bbl m ses dir pad) /\ bbl_padding (stream_bbl m ses dir pad) = Some pad.
Proof.
  intros Hw Hs Ht Hsub Hd Hdir Hf Hp. destruct (cw_priority _ Hw) as [Hpr _].
  assert (Hsub' : 0 <= st_sub_type m < 256).
  { revert Hsub. unfold is_ipv6, BBL_SUB_TYPE_IPV4, BBL_SUB_TYPE_IPV6, BBL_SUB_TYPE_IPV6PD. rewrite !orb_true_iff, !Z.eqb_eq. lia. }
  assert (Hdir' : 0 <= dir < 256) by (unfold BBL_DIRECTION_UP, BBL_DIRECTION_DOWN in Hdir; lia).
  split; [|by destruct ses]. destruct ses as [s|].
  - pose proof (Hs s eq_refl) as []. unfold stream_bbl, bbl0. cbn. unfold RecordSetters.constant. rewrite Ht. split; cbn; try done; [constructor; lia|].
    by intros ? [= <-].
  - unfold stream_bbl, bbl0. cbn. unfold RecordSetters.constant. rewrite Ht. split; cbn; try done. constructor; lia.
Qed.

Lemma stream_udp_ok sp dp b : 0 <= sp < 65536 -> 0 <= dp < 65536 -> stream_ports sp dp = true -> bbl_ok b -> udp_ok (stream_udp sp dp b) b.
Proof. intros. by constructor. Qed.

Lemma stream_ipv4_ok m src dst u b : config_wf (config m) -> tcp m = false -> ipv4_range src -> ipv4_range dst -> udp_ok u b ->
  ipv4_ok (stream_ipv4 m src dst u) u b.
Proof.
  intros Hw Ht Hs Hd Hu. destruct (cw_priority _ Hw). unfold stream_ipv4. rewrite Ht. constructor; try (done || lia).
  destruct (sc_ipv4_df (config m)); [by right|by left].
Qed.

Lemma stream_ipv6_ok m src dst u b : config_wf (config m) -> tcp m = false -> ipv6_size src -> ipv6_size dst -> udp_ok u b ->
  ipv6_ok (stream_ipv6 m src dst u) u b.
Proof.
  intros Hw Ht Hs Hd Hu. destruct (cw_priority _ Hw). unfold stream_ipv6. rewrite Ht. unfold ipv6_size in *. constructor; done || lia.
Qed.

Lemma padding_nonneg m n : 0 <= padding_from m n.
Proof. unfold padding_from. case_if; lia. Qed.

(** A frame of a session: its tags are those of the session. *)
Lemma access_frame ses m s x u b : config_wf (config m) -> session_wf ses -> l3_ok x u b ->
  (ses_outer_vlan_id ses = 0 -> sc_vlan_priority (config m) = 0) -> (ses_inner_vlan_id ses = 0 -> sc_vlan_inner_priority (config m) = 0) ->
  (forall sid, s = Some sid -> 0 <= sid < 65536) ->
  frame_ok (access_eth ses m (pay_type s x) (pay_hdr s x)) (ses_server_mac ses) (ses_client_mac ses) s x u b.
Proof.
  intros Hw Hs Hx Ho Hi Hsid. destruct Hs as [[Hm1 Hm2] _ Hv [Ht1 Ht2] _ _]. destruct (cw_vlan_priority _ Hw).
  unfold access_eth. split; cbn; unfold RecordSetters.constant; try done.
  - split; [done|lia].
  - split; [done|lia].
  - unfold vlan_ok. cbn. unfold RecordSetters.constant. split_and!; try lia; intros E; split; auto.
  - destruct s; [by apply Hsid|done].
Qed.

Lemma network_frame net m dst x u b : config_wf (config m) -> network_wf net -> l3_ok x u b -> (6 <= length dst)%nat ->
  (net_vlan net = 0 -> sc_vlan_priority (config m) = 0) ->
  frame_ok (network_eth net [] dst (l3_type x) (l3_hdr x) m) dst (net_mac net) None x u b.
Proof.
  intros Hw Hn Hx Hd Ho. destruct Hn as [[Hm1 _] Hv _ _]. destruct (cw_vlan_priority _ Hw).
  unfold network_eth. split; cbn; unfold RecordSetters.constant; try done.
  - split; [done|lia].
  - unfold vlan_ok. cbn. unfold RecordSetters.constant. split_and!; try lia; intros E; split; auto.
Qed.

(** * The builders *)

(** What all streams of the theorem have. *)
Record stream_wf (m : stream_main) : Prop := {
  stw_config : config_wf (config m);
  stw_udp : tcp m = false;
  stw_type : st_type m = BBL_TYPE_UNICAST;
  stw_flow : 0 <= flow_id m < 2 ^ 64;
  stw_sub_type : (st_sub_type m =? BBL_SUB_TYPE_IPV4) || is_ipv6 (st_sub_type m) = true
}.

(** An upstream packet of a session that is not tunnelled. *)
Record upstream (m : stream_main) (c : ctx) (ses : bbl_session) : Prop := {
  up_direction : st_direction m = BBL_DIRECTION_UP;
  up_group : sc_stream_group_id (config m) <> 0;
  up_session : the_session m c = Some ses;
  up_wf : session_wf ses;
  up_a10nsp : ses_a10nsp_session ses = None;
  up_network : exists i net, build_network ses m c = Some i /\ c_network c !! i = Some net /\ network_wf net;
  up_tags : (ses_outer_vlan_id ses = 0 -> sc_vlan_priority (config m) = 0) /\
            (ses_inner_vlan_id ses = 0 -> sc_vlan_inner_priority (config m) = 0)
}.

Lemma access_addresses ses net m : config_wf (config m) -> session_wf ses -> network_wf net ->
  ipv4_range (access_ipv4_src ses m) /\ (forall mock, ipv4_range (access_ipv4_dst mock net m)) /\
  ipv6_size (access_ipv6_src ses m) /\ ipv6_size (access_ipv6_dst net m).
Proof.
  intros Hw Hs Hn. destruct (cw_ipv4 _ Hw) as (? & ? & ?). destruct (cw_ipv6 _ Hw) as (? & ? & ?). destruct (sw_ipv6 _ Hs).
  pose proof (sw_ipv4 _ Hs). pose proof (nw_ipv4 _ Hn). pose proof (nw_ipv6 _ Hn).
  unfold access_ipv4_src, access_ipv4_dst, access_ipv6_src, access_ipv6_dst. split_and!; [by case_if| |by repeat case_if..].
  intros mock. case_if; [done|]. case_if; [|by case_if]. unfold ipv4_range, MOCK_IP_LOCAL. lia.
Qed.

Lemma upstream_parts m c ses : stream_wf m -> upstream m c ses ->
  exists i net, the_session m c = Some ses /\ build_network ses m c = Some i /\ c_network c !! i = Some net /\ network_wf net /\
    forall pad, 0 <= pad -> let b := stream_bbl m (Some ses) BBL_DIRECTION_UP pad in
      carries m (Some ses) b /\ bbl_padding b = Some pad /\ udp_ok (stream_udp (sc_src_port (config m)) (sc_dst_port (config m)) b) b.
Proof.
  intros [Hw _ Ht Hf Hsub] [Hd _ Hs Hsw _ (i & net & Hi & Hnet & Hn) _]. exists i, net. split_and!; try done. intros pad Hp.
  destruct (stream_bbl_carries m (Some ses) BBL_DIRECTION_UP pad) as [Hc Hpad]; try done; [by intros ? [= <-]|by left|].
  split_and!; try done. destruct (cw_ports _ Hw), (cw_stream_ports _ Hw). by apply stream_udp_ok; [..|apply Hc].
Qed.

Lemma build_access_pppoe m c ses : stream_wf m -> upstream m c ses ->
  exists m', bbl_stream_build_access_pppoe_packet malloc m c = Some (true, m') /\ has_frame m' (Some ses) /\ built_from m m'.
Proof.
  intros Hm Hu. destruct (upstream_parts m c ses Hm Hu) as (i & net & Hs & Hi & Hnet & Hn & Hb). destruct Hm as [Hw Htcp _ _ Hsub].
  destruct Hu as [_ _ _ Hsw _ _ [Ht1 Ht2]]. destruct (access_addresses ses net m Hw Hsw Hn) as (A1 & A2 & A3 & A4).
  unfold bbl_stream_build_access_pppoe_packet. rewrite Hs. cbn [mbind option_bind]. rewrite Hi, Hnet. cbn [mbind option_bind].
  assert (Hsid : forall sid, Some (ses_pppoe_session_id ses) = Some sid -> 0 <= sid < 65536) by (intros sid [= <-]; apply Hsw).
  destruct (st_sub_type m =? BBL_SUB_TYPE_IPV4); cbn [orb] in Hsub.
  - destruct (Hb _ (padding_nonneg m 76)) as (Hc & Hp & Hudp).
    eapply (finish_frame _ _ _ (Some (ses_pppoe_session_id ses)) (L4 _)); [|exact Hc|done|exact Hp|done|lia].
    apply (access_frame ses m (Some (ses_pppoe_session_id ses)) (L4 _)); try done. by apply stream_ipv4_ok.
  - rewrite Hsub. destruct (Hb _ (padding_nonneg m 96)) as (Hc & Hp & Hudp).
    eapply (finish_frame _ _ _ (Some (ses_pppoe_session_id ses)) (L6 _)); [|exact Hc|done|exact Hp|done|lia].
    apply (access_frame ses m (Some (ses_pppoe_session_id ses)) (L6 _)); try done. by apply stream_ipv6_ok.
Qed.

Lemma build_access_ipoe m c ses : stream_wf m -> upstream m c ses ->
  exists m', bbl_stream_build_access_ipoe_packet malloc m c = Some (true, m') /\ has_frame m' (Some ses) /\ built_from m m'.
Proof.
  intros Hm Hu. destruct (upstream_parts m c ses Hm Hu) as (i & net & Hs & Hi & Hnet & Hn & Hb). destruct Hm as [Hw Htcp _ _ Hsub].
  destruct Hu as [_ _ _ Hsw _ _ [Ht1 Ht2]]. destruct (access_addresses ses net m Hw Hsw Hn) as (A1 & A2 & A3 & A4).
  unfold bbl_stream_build_access_ipoe_packet. rewrite Hs. cbn [mbind option_bind]. rewrite Hi, Hnet. cbn [mbind option_bind].
  destruct (st_sub_type m =? BBL_SUB_TYPE_IPV4); cbn [orb] in Hsub.
  - destruct (Hb _ (padding_nonneg m 76)) as (Hc & Hp & Hudp).
    eapply (finish_frame _ _ _ None (L4 _)); [|exact Hc|done|exact Hp|done|lia].
    apply (access_frame ses m None (L4 _)); try done. by apply stream_ipv4_ok.
  - rewrite Hsub. destruct (Hb _ (padding_nonneg m 96)) as (Hc & Hp & Hudp).
    eapply (finish_frame _ _ _ None (L6 _)); [|exact Hc|done|exact Hp|done|lia].
    apply (access_frame ses m None (L6 _)); try done. by apply stream_ipv6_ok.
Qed.

(** A downstream packet without labels, of a session that is not tunnelled or of no
    session; a stream with NAT has learned the address to send to. *)
Record downstream (m : stream_main) (c : ctx) (ses : option bbl_session) : Prop := {
  dn_direction : st_direction m = BBL_DIRECTION_DOWN;
  dn_session : match session m with Some x => ses = c_sessions c !! x /\ is_Some ses | None => ses = None end;
  dn_wf : forall s, ses = Some s -> session_wf s /\ ses_l2tp_session s = None /\ ses_a10nsp_session s = None;
  dn_network : exists i net, tx_network_interface m = Some i /\ c_network c !! i = Some net /\ network_wf net /\
    (net_vlan net = 0 -> sc_vlan_priority (config m) = 0);
  dn_labels : st_ldp_entry m = None /\ sc_tx_mpls1 (config m) = false;
  dn_group : ses = None -> sc_stream_group_id (config m) = 0 /\
    if st_sub_type m =? BBL_SUB_TYPE_IPV4 then sc_ipv4_destination_address (config m) <> 0 else ipv6_set (sc_ipv6_destination_address (config m)) = true;
  dn_nat : nat m = true -> forall b, st_reverse m = Some b -> exists rev, c_streams c !! b = Some rev /\
    ipv4_range (rx_source_ip (st_rx rev)) /\ 0 <= rx_source_port (st_rx rev) < 65536 /\
    stream_ports (sc_dst_port (config m)) (rx_source_port (st_rx rev)) = true
}.

(** The address, port and next hop of a downstream IPv4 packet. *)
Lemma network_dst m c ses net : config_wf (config m) -> network_wf net -> downstream m c ses -> (st_sub_type m =? BBL_SUB_TYPE_IPV4) = true ->
  let sport := if bool_decide (is_Some (st_reverse m)) then sc_dst_port (config m) else sc_src_port (config m) in
  let port := if bool_decide (is_Some (st_reverse m)) then sc_src_port (config m) else sc_dst_port (config m) in
  0 <= sport < 65536 /\ 0 <= port < 65536 /\ stream_ports sport port = true /\
  exists dst dport mac, network_ipv4_dst ses net port m c = Some (Some (dst, dport, mac)) /\ ipv4_range dst /\ 0 <= dport < 65536 /\
    stream_ports sport dport = true /\ (6 <= length mac)%nat.
Proof.
  intros Hw Hn [_ _ Hwf _ _ Hg Hnat] H4 sport port. rewrite H4 in Hg. destruct (cw_ports _ Hw) as [P1 P2], (cw_stream_ports _ Hw) as [S1 S2].
  assert (Hp : 0 <= sport < 65536 /\ 0 <= port < 65536 /\ stream_ports sport port = true) by (unfold sport, port; by case_bool_decide).
  destruct Hp as (Hs & Hp & Hst). split_and!; try done; [lia..|]. destruct (nw_macs _ Hn) as (_ & Hmac & _). destruct (cw_ipv4 _ Hw) as (_ & _ & Hd).
  unfold network_ipv4_dst.
  assert (Hplain : exists dst dport mac,
    (if negb (sc_ipv4_destination_address (config m) =? 0) then Some (Some (sc_ipv4_destination_address (config m), port, net_gateway_mac net))
     else match ses with
          | None => Some None
          | Some ses => Some (Some (ses_ip_address ses, port,
              if bool_decide (ses_access_type ses = ACCESS_TYPE_IPOE) &&
                 Utils.Ipv4.ipv4_addr_in_network (ses_ip_address ses) (Utils.Ipv4.mk_prefix (net_ip_len net) (net_ip_address net))
              then ses_client_mac ses else net_gateway_mac net))
          end) = Some (Some (dst, dport, mac)) /\ ipv4_range dst /\ 0 <= dport < 65536 /\ stream_ports sport dport = true /\ (6 <= length mac)%nat).
  { case_if; [eexists _, _, _; split; [done|]; split_and!; done || lia|]. destruct ses as [s|]; [|destruct (Hg eq_refl) as (_ & ?); lia].
    destruct (Hwf s eq_refl) as (Hsw & _). eexists _, _, _. split; [done|]. destruct (sw_macs _ Hsw). split_and!; try done; [apply Hsw|lia..|]. case_if; lia. }
  destruct (nat m) eqn:En; [|exact Hplain]. destruct (st_reverse m) as [b|] eqn:Er; [|exact Hplain].
  destruct (Hnat eq_refl b eq_refl) as (rev & -> & ? & ? & ?). cbn [mbind option_bind]. eexists _, _, _. split; [done|]. split_and!; try done; lia.
Qed.

Lemma build_network_packet m c ses : stream_wf m -> downstream m c ses ->
  exists m', bbl_stream_build_network_packet malloc m c = Some (true, m') /\ has_frame m' ses /\ built_from m m'.
Proof.
  intros [Hw Htcp Ht Hf Hsub] Hd. pose proof Hd as [Hdir Hses Hwf (i & net & Hi & Hnet & Hn & Hvl) [Hl1 Hl2] Hg _].
  unfold bbl_stream_build_network_packet.
  assert (Es : match session m with Some x => s ← c_sessions c !! x; Some (Some s) | None => Some None end = Some ses).
  { destruct (session m); [|by rewrite Hses]. destruct Hses as [<- [s ->]]. done. }
  rewrite Es. cbn [mbind option_bind]. rewrite Hi, Hnet. cbn [mbind option_bind]. unfold stream_mpls. rewrite Hl1, Hl2. cbn [mbind option_bind].
  assert (Hb : forall pad, 0 <= pad -> let b := stream_bbl m ses BBL_DIRECTION_DOWN pad in
    carries m ses b /\ bbl_padding b = Some pad) by (intros pad Hp; apply stream_bbl_carries; try done; [intros s ->; by apply Hwf|by right]).
  destruct (cw_ipv4 _ Hw) as (_ & Hv4 & _). destruct (cw_ipv6 _ Hw) as (_ & Hv6 & Hv6').
  assert (Hports : let sport := if bool_decide (is_Some (st_reverse m)) then sc_dst_port (config m) else sc_src_port (config m) in
    let port := if bool_decide (is_Some (st_reverse m)) then sc_src_port (config m) else sc_dst_port (config m) in
    0 <= sport < 65536 /\ 0 <= port < 65536 /\ stream_ports sport port = true).
  { destruct (cw_ports _ Hw), (cw_stream_ports _ Hw). by case_bool_decide. }
  destruct Hports as (Hsp & Hpo & Hst).
  destruct (st_sub_type m =? BBL_SUB_TYPE_IPV4) eqn:H4; cbn [orb] in Hsub.
  - destruct (network_dst m c ses net Hw Hn Hd H4) as (_ & _ & _ & dst & dport & mac & Ed & Hdst & Hdp & Hst' & Hmac). rewrite Ed. cbn [mbind option_bind]. rewrite Ht. change (BBL_TYPE_UNICAST =? BBL_TYPE_MULTICAST) with false. cbn iota.
    destruct (Hb _ (padding_nonneg m 76)) as (Hc & Hp).
    eapply (finish_frame _ _ _ None (L4 _)); [|exact Hc|done|exact Hp|done|lia].
    apply (network_frame net m mac (L4 _)); try done. apply stream_ipv4_ok; try done; [case_if; [done|apply Hn]|].
    case_bool_decide; apply stream_udp_ok; done || apply Hc.
  - rewrite Hsub. destruct (Hb _ (padding_nonneg m 96)) as (Hc & Hp).
    assert (Hx : exists d, (if ipv6_set (sc_ipv6_destination_address (config m)) then Some (sc_ipv6_destination_address (config m))
        else match ses with Some s => Some (if st_sub_type m =? BBL_SUB_TYPE_IPV6 then ses_ipv6_address s else ses_delegated_ipv6_address s) | None => None end) = Some d /\ ipv6_size d).
    { destruct (ipv6_set (sc_ipv6_destination_address (config m))) eqn:E6; [by eexists|]. destruct ses as [s|]; [|by destruct (Hg eq_refl) as (_ & ?)].
      destruct (Hwf s eq_refl) as (Hsw & _). destruct (sw_ipv6 _ Hsw). eexists. split; [done|]. by case_if. }
    destruct Hx as (d & -> & Hd6). eapply (finish_frame _ _ _ None (L6 _)); [|exact Hc|done|exact Hp|done|lia].
    destruct (nw_macs _ Hn) as (_ & _ & Hg6).
    apply (network_frame net m (net_gateway6_mac net) (L6 _)); try done; [|lia]. apply stream_ipv6_ok; try done; [case_if; [done|apply Hn]|].
    case_bool_decide; apply stream_udp_ok; done || apply Hc.
Qed.
End Frame.

Lemma build_packet_frame (malloc : Z -> list Z) (m : stream_main) (c : ctx) (ses : option bbl_session) :
  (forall n, 0 <= n -> Z.of_nat (length (malloc n)) = n) -> stream_wf m ->
  (exists s, ses = Some s /\ upstream m c s /\ ses_l2tp_session s = None) \/ downstream m c ses ->
  exists m', bbl_stream_build_packet malloc m c = Some (true, m') /\ has_frame m' ses /\ built_from m m'.
Proof.
  intros Hmal Hm Hcase. unfold bbl_stream_build_packet. destruct Hcase as [(s & -> & Hu & Hl2)|Hd].
  - pose proof Hu as [Hdir Hg Hs _ Ha _ _]. case_if; [lia|]. unfold the_session in Hs. destruct (session m) as [x|]; [|done]. cbn in Hs. rewrite Hs.
    cbn [mbind option_bind]. rewrite Hdir, Hl2, Ha. change (BBL_DIRECTION_UP =? BBL_DIRECTION_UP) with true. rewrite !bool_decide_false by by intros [].
    destruct (ses_access_type s); [rewrite (stw_sub_type _ Hm); exact (build_access_pppoe malloc Hmal m c s Hm Hu)|exact (build_access_ipoe malloc Hmal m c s Hm Hu)].
  - case_if; [by apply build_network_packet|]. pose proof Hd as [Hdir Hses Hwf _ _ Hg _].
    destruct (session m) as [x|]; [|destruct (Hg Hses); lia]. destruct Hses as [Hs [s Hs']]. assert (Hx : c_sessions c !! x = Some s) by congruence. rewrite Hx. cbn [mbind option_bind].
    destruct (Hwf s Hs') as (_ & Hl2 & Ha). rewrite Hdir, Hl2, Ha. change (BBL_DIRECTION_DOWN =? BBL_DIRECTION_UP) with false.
    rewrite !bool_decide_false by by intros [].
    destruct (ses_access_type s); [rewrite (stw_sub_type _ Hm)|]; exact (build_network_packet malloc Hmal m c ses Hm Hd).
Qed.

(** * Claims *)

(** C8. The packets of UDP unicast streams are built as they should be: for a stream of a
    session that is neither tunnelled by L2TP nor attached to A10NSP (upstream, or
    downstream without labels, PPPoE or IPoE, IPv4 or IPv6), or of no session and with
    a destination of its IP version, [bbl_stream_build_packet] follows no invalid pointer, writes
    inside the buffer it allocates whatever the configured length, and leaves there
    a complete frame whose BBL header carries the flow, direction and sub-type of the
    stream and the identity of the session. *)
Theorem stream_build_frame (malloc : Z -> list Z) (m : stream_main) (c : ctx) (ses : option bbl_session) :
  (forall n, 0 <= n -> Z.of_nat (length (malloc n)) = n) -> stream_wf m ->
  (exists s, ses = Some s /\ upstream m c s /\ ses_l2tp_session s = None) \/ downstream m c ses ->
  exists m', bbl_stream_build_packet malloc m c = Some (true, m') /\ has_frame m' ses /\ built_from m m'.
Proof. apply build_packet_frame. Qed.

(** The downstream stream of StreamLoss.v, on a network interface. *)
Definition demo_net : network_interface :=
  mk_network_interface "eth1" [2;0;0;0;1;1] 0 [2;0;0;0;1;2] [2;0;0;0;1;2] 0x0200000a 24 (replicate 16 0) None if_zero.
Definition demo_v6 : list Z := replicate 16 0.
Definition demo_full_config : bbl_stream_config :=
  mk_stream_config 1 0 0 0 65056 65056 128 0 0 0 64 0 0 demo_v6 0 demo_v6 demo_v6 0 demo_v6 None None false false 0 0 0 false 0 0 0 0 0.
Definition demo_tx_main : stream_main := demo_main {{ config := demo_full_config }}.
Definition demo_full_ses : bbl_session :=
  demo_ses {{ ses_ipv6_address := demo_v6 ; ses_delegated_ipv6_address := demo_v6 }}.
Definition demo_tx_ctx : ctx := demo_ctx {{ c_sessions := {[ 7 := demo_full_ses ]} ; c_network := {[ 2 := demo_net ]} ;
  c_streams := {[ 5 := demo_stream {{ st_main := demo_tx_main }} ]} ; c_endpoints := {[ 1 := ENDPOINT_ACTIVE ]} }}.
Definition zeros (n : Z) : list Z := replicate (Z.to_nat n) 0.

Lemma demo_stream_wf : stream_wf demo_tx_main.
Proof. by split. Qed.

Lemma demo_session_wf : session_wf demo_full_ses.
Proof. split; cbn; unfold ipv4_range; (done || lia). Qed.

Lemma demo_downstream : downstream demo_tx_main demo_tx_ctx (Some demo_full_ses).
Proof.
  split; try done.
  - by intros s [= <-]; split; [apply demo_session_wf|].
  - exists 2, demo_net. split; [done|]. split; [done|]. split; [|done]. split; cbn; unfold ipv4_range; (done || lia).
Qed.

Lemma stream_build_frame_witness : exists m', bbl_stream_build_packet zeros demo_tx_main demo_tx_ctx = Some (true, m') /\
  has_frame m' (Some demo_full_ses) /\ built_from demo_tx_main m'.
Proof.
  apply (stream_build_frame zeros demo_tx_main demo_tx_ctx (Some demo_full_ses)).
  - intros n Hn. unfold zeros. rewrite length_replicate. lia.
  - exact demo_stream_wf.
  - right. exact demo_downstream.
Defined.
