(* ===== verification/StreamSend.v ===== *)
(** Transmission of traffic streams: the checks before a packet is sent and the
    fields of it that change with every packet (bbl_stream.c), and the counters the
    I/O layer advances when it was sent. *)
From coqutil Require Import Datatypes.RecordSetters.
From S2P Require Import Prelude.
From S2P Require Import Const.
From S2P Require Import ConstApp.
From S2P Require Import ConstStream.
From S2P Require Import Checksum.
From S2P Require Import ProtoTypes.
From S2P Require Import Timer.
From S2P Require Import Stream.
From S2P Require Import StreamBuild.
Import RecordSetters.DoubleBraceUpdate.
From stdpp Require Import gmap list strings.
Import Inet.
Open Scope Z_scope.

(** [n] bytes stored into a buffer, [None] outside of it. *)
Definition poke (off : Z) (bs buf : list Z) : option (list Z) :=
  if (off <? 0) || (Z.of_nat (length buf) <? off + Z.of_nat (length bs)) then None
  else Some (take (Z.to_nat off) buf ++ bs ++ drop (Z.to_nat off + length bs) buf).

(** [ldb_db_lookup_ipv4] and [ldb_db_lookup_ipv6] of ldp_db.c *)
Definition ldb_db_lookup_ipv4 (db : ldp_db) (address : Z) : option Z := db_ipv4 db !! address.
Definition ldb_db_lookup_ipv6 (db : ldp_db) (address : list Z) : option Z := db_ipv6 db !! address.

Definition free_packet (a : Z) (c : ctx) : ctx := with_main a (fun m => m {{ tx_buf := None }}) c.

Definition stream_ldp_db (m : stream_main) (c : ctx) : option ldp_db :=
  i ← tx_network_interface m; net ← c_network c !! i; net_ldp net.

Definition bbl_stream_ldp_lookup (a : Z) (c : ctx) : option (bool * ctx) :=
  s ← c_streams c !! a;
  let m := st_main s in
  entry ← (match st_ldp_entry m with
           | Some e => Some (Some e)
           | None =>
               if negb (sc_ipv4_ldp_lookup_address (config m) =? 0)
               then db ← stream_ldp_db m c; Some (ldb_db_lookup_ipv4 db (sc_ipv4_ldp_lookup_address (config m)))
               else if ipv6_set (sc_ipv6_ldp_lookup_address (config m))
               then db ← stream_ldp_db m c; Some (ldb_db_lookup_ipv6 db (sc_ipv6_ldp_lookup_address (config m)))
               else Some None
           end);
  let c := with_main a (fun m => m {{ st_ldp_entry := entry }}) c in
  match entry with
  | None => Some (false, c)
  | Some e =>
      e ← c_ldp c !! e;
      if negb (ldp_active e) then Some (false, c)
      else if ldp_version e =? ldp_entry_version m then Some (true, c)
      else Some (true, free_packet a (with_main a (fun m => m {{ ldp_entry_version := ldp_version e }}) c))
  end.

Definition bbl_stream_can_send (a : Z) (c : ctx) : option (bool * ctx) :=
  s ← c_streams c !! a;
  let m := st_main s in
  ep ← c_endpoints c !! endpoint m;
  let wait := Some (false, free_packet a c) in
  if decide (ep = ENDPOINT_ACTIVE) then
    if ldp_lookup m then bbl_stream_ldp_lookup a c
    else if nat m && (st_direction m =? BBL_DIRECTION_DOWN) then
      match st_reverse m with
      | Some b =>
          rev ← c_streams c !! b;
          if negb (rx_source_ip (st_rx rev) =? 0) && negb (rx_source_port (st_rx rev) =? 0) then Some (true, c) else wait
      | None => wait
      end
    else Some (true, c)
  else wait.

(** The checksum of a TCP stream, over the header and the BBL header behind it. *)
Definition bbl_stream_update_tcp (m : stream_main) (buf : list Z) : option (list Z) :=
  let tcp_len := u16 (tx_bbl_hdr_len m + TCP_HDR_LEN_MIN) in
  let off := tx_len m - tcp_len in
  buf ← (if negb (tcp_flags m =? 0) then poke (off + 13) [Z.land (tcp_flags m) 0x3f] buf else Some buf);
  buf ← poke (off + 16) [0; 0] buf;
  let tcp_buf := drop (Z.to_nat off) buf in
  sum ← (match st_ipv6_src m, st_ipv6_dst m with
         | Some src, Some dst => bbl_ipv6_tcp_checksum (take 16 src) (take 16 dst) tcp_buf tcp_len
         | _, _ => bbl_ipv4_tcp_checksum (st_ipv4_src m) (st_ipv4_dst m) tcp_buf tcp_len
         end);
  poke (off + 16) (le_split 2 sum) buf.

Definition bbl_stream_update_udp (m : stream_main) (buf : list Z) : option (list Z) :=
  let udp_len := u16 (tx_bbl_hdr_len m + UDP_HDR_LEN) in
  let off := tx_len m - udp_len in
  buf ← poke (off + 6) [0; 0] buf;
  let udp_buf := drop (Z.to_nat off) buf in
  sum ← (match st_ipv6_src m, st_ipv6_dst m with
         | Some src, Some dst => bbl_ipv6_udp_checksum (take 16 src) (take 16 dst) udp_buf udp_len
         | _, _ => bbl_ipv4_udp_checksum (st_ipv4_src m) (st_ipv4_dst m) udp_buf udp_len
         end);
  poke (off + 6) (le_split 2 sum) buf.

Definition with_tx (a : Z) (f : stream_tx -> stream_tx) (c : ctx) : ctx := with_stream a (fun s => s {{ st_tx ::= f }}) c.

(** [if(unlikely(stream->reset))] *)
Definition send_reset (s : bbl_stream) : bbl_stream :=
  let cfg := config (st_main s) in
  s {{ st_main := (st_main s) {{ st_reset := false ; setup ::= (fun x => if sc_setup_interval cfg =? 0 then x else true) }} ;
       st_tx := (st_tx s) {{ flow_seq := 1 ;
                             max_packets ::= (fun x => if x =? 0 then x else u64 (tx_packets (st_tx s) + sc_max_packets cfg)) }} }}.

(** The optional delay before the first packet: [true] to wait. *)
Definition start_delay (timestamp : timespec) (m : stream_main) (t : stream_tx) : bool * stream_tx :=
  if (tx_packets t =? 0) && negb (sc_start_delay (config m) =? 0) then
    if negb (tv_sec (wait_start t) =? 0) then
      if tv_sec (timespec_sub timestamp (wait_start t)) <=? sc_start_delay (config m) then (true, t)
      else (false, t {{ wait_start := mk_ts 0 (tv_nsec (wait_start t)) }})
    else (true, t {{ wait_start := timestamp }})
  else (false, t).

(** The optional interval between packets until the stream is verified. *)
Definition setup_interval (timestamp : timespec) (m : stream_main) (t : stream_tx) : bool * stream_tx :=
  if setup m then
    if negb (tv_sec (wait_start t) =? 0) && (tv_sec (timespec_sub timestamp (wait_start t)) <=? sc_setup_interval (config m))
    then (true, t)
    else (false, t {{ wait_start := timestamp }})
  else (false, t).

(** The sequence number and the timestamp at the end of the packet. *)
Definition stamp (flow_seq : Z) (timestamp : timespec) : list Z :=
  le_split 8 flow_seq ++ le_split 4 (tv_sec timestamp) ++ le_split 4 (tv_nsec timestamp).

Section Send.
Context (malloc : Z -> list Z).

(** [if(!stream->tx_buf)]: the packet is built when there is none. *)
Definition need_packet (a : Z) (c : ctx) : option (bool * ctx) :=
  s ← c_streams c !! a;
  match tx_buf (st_main s) with
  | Some _ => Some (true, c)
  | None => '(ok, m) ← bbl_stream_build_packet malloc (st_main s) c; Some (ok, with_main a (fun _ => m) c)
  end.

(** The packet is dropped when the session has changed since it was built. *)
Definition session_changed (a : Z) (c : ctx) : option ctx :=
  s ← c_streams c !! a;
  match session (st_main s) with
  | None => Some c
  | Some x =>
      ses ← c_sessions c !! x;
      if ses_version ses =? session_version (st_main s) then Some c
      else Some (with_main a (fun m => m {{ session_version := ses_version ses }}) (free_packet a c))
  end.

(** The header fields of the packet to be sent. *)
Definition update_packet (timestamp : timespec) (udp_checksum : bool) (m : stream_main) (t : stream_tx) : option (list Z) :=
  buf ← tx_buf m;
  buf ← poke (tx_len m - 16) (stamp (flow_seq t) timestamp) buf;
  if tcp m then bbl_stream_update_tcp m buf
  else if udp_checksum then bbl_stream_update_udp m buf
  else Some buf.

(** [timestamp] is [io->timestamp]. *)
Definition bbl_stream_io_send (a : Z) (timestamp : timespec) (c : ctx) : option (protocol_error * ctx) :=
  s ← c_streams c !! a;
  if st_reset (st_main s) then Some (STREAM_WAIT, with_stream a send_reset c)
  else if negb (enabled (st_main s)) then Some (STREAM_WAIT, c)
  else
    '(ok, c) ← bbl_stream_can_send a c;
    if negb ok then Some (WRONG_PROTOCOL_STATE, c)
    else
      s ← c_streams c !! a;
      let t := st_tx s in
      if negb (max_packets t =? 0) && (max_packets t <=? tx_packets t) then Some (FULL, c)
      else
        let (wait, t) := start_delay timestamp (st_main s) t in
        let c := with_tx a (fun _ => t) c in
        if (wait : bool) then Some (STREAM_WAIT, c)
        else
          let (wait, t) := setup_interval timestamp (st_main s) t in
          let c := with_tx a (fun _ => t) c in
          if (wait : bool) then Some (STREAM_WAIT, c)
          else
            c ← session_changed a c;
            '(ok, c) ← need_packet a c;
            if negb ok then Some (ENCODE_ERROR, c)
            else
              s ← c_streams c !! a;
              buf ← update_packet timestamp (c_stream_udp_checksum c) (st_main s) (st_tx s);
              let c := with_main a (fun m => m {{ tx_buf := Some buf }}) c in
              Some (PROTOCOL_SUCCESS,
                    if flow_seq (st_tx s) =? 1 then with_tx a (fun t => t {{ tx_first_epoch := tv_sec timestamp }}) c else c).
End Send.

(** The I/O layer has sent the packet: the counters of io_raw.c, io_packet_mmap.c
    and io_dpdk.c. *)
Definition io_sent (a : Z) (c : ctx) : ctx := with_tx a (fun t => t {{ tx_packets ::= add64 1 ; flow_seq ::= add64 1 }}) c.
