(* ===== verification/StreamRx.v ===== *)
(** Received packets on their way to the streams: the stream handlers of the three
    kinds of interfaces (bbl_rx.c), and the receive threads of the I/O layer, which
    give stream packets to them and everything else to the main thread
    (io_thread.c). *)
From coqutil Require Import Datatypes.RecordSetters.
From S2P Require Import Prelude.
From S2P Require Import Const.
From S2P Require Import ConstApp.
From S2P Require Import ConstStream.
From S2P Require Import ProtoTypes.
From S2P Require Import Dec.
From S2P Require Import DecodeEth.
From S2P Require Import Txq.
From S2P Require Import Timer.
From S2P Require Import Stream.
Import RecordSetters.DoubleBraceUpdate.
From stdpp Require Import gmap list strings.
Open Scope Z_scope.

(** * Interfaces *)

Inductive interface_state := INTERFACE_DISABLED | INTERFACE_UP | INTERFACE_DOWN | INTERFACE_STANDBY.
#[export] Instance interface_state_dec : EqDecision interface_state.
Proof. solve_decision. Defined.

(** [bbl_interface_s], with what the receivers use of it. *)
Record bbl_interface := mk_interface {
  if_state : interface_state;
  if_network_vlan : list (option Z);   (* network_vlan[4096] *)
  if_access : option Z;
  if_a10nsp : option Z
}.

(** * The stream handlers of bbl_rx.c *)

Definition with_rx (a : Z) (f : stream_rx -> stream_rx) (c : ctx) : ctx := with_stream a (fun s => s {{ st_rx ::= f }}) c.

(** The interface on which the stream is received, with the changes of it. *)
Definition learn_network (i : Z) (timestamp : timespec) (r : stream_rx) : stream_rx :=
  if decide (rx_network_interface r = Some i) then r
  else
    let r := match rx_network_interface r with
             | Some _ => r {{ rx_interface_changes ::= (fun n => u8 (n + 1)) ; rx_interface_changed_epoch := tv_sec timestamp }}
             | None => r
             end in
    r {{ rx_network_interface := Some i }}.

Definition learn_access (i : Z) (r : stream_rx) : stream_rx :=
  match rx_access_interface r with None => r {{ rx_access_interface := Some i }} | Some _ => r end.

Definition learn_a10nsp (i : Z) (r : stream_rx) : stream_rx :=
  match rx_a10nsp_interface r with None => r {{ rx_a10nsp_interface := Some i }} | Some _ => r end.

(** [stream = bbl_stream_rx(eth, mac)], then [learn] when there is one. *)
Definition rx_stream (mac : option (list Z)) (learn : stream_rx -> stream_rx) (eth : ethernet) (timestamp : timespec) (c : ctx) :
    option (bool * ctx) :=
  match eth_bbl eth with
  | p_uninit => None
  | p_null => Some (false, c)
  | p_to _ =>
      '(stream, c) ← bbl_stream_rx eth timestamp mac c;
      match stream with
      | Some a => Some (true, with_rx a learn c)
      | None => Some (false, c)
      end
  end.

Definition bbl_rx_stream_network (i : Z) (eth : ethernet) (timestamp : timespec) (c : ctx) : option (bool * ctx) :=
  net ← c_network c !! i;
  rx_stream (Some (net_mac net)) (learn_network i timestamp) eth timestamp c.

Definition bbl_rx_stream_access (i : Z) (eth : ethernet) (timestamp : timespec) (c : ctx) : option (bool * ctx) :=
  rx_stream None (learn_access i) eth timestamp c.

Definition bbl_rx_stream_a10nsp (i : Z) (eth : ethernet) (timestamp : timespec) (c : ctx) : option (bool * ctx) :=
  a10 ← c_a10nsp c !! i;
  rx_stream (Some (a10_mac a10)) (learn_a10nsp i) eth timestamp c.

Definition bbl_rx_thread (interface : bbl_interface) (eth : ethernet) (timestamp : timespec) (c : ctx) : option (bool * ctx) :=
  if decide (if_state interface = INTERFACE_DISABLED) then Some (true, c)
  else
    network ← if_network_vlan interface !! Z.to_nat (eth_vlan_outer eth);
    match network, if_access interface, if_a10nsp interface with
    | Some i, _, _ => bbl_rx_stream_network i eth timestamp c
    | None, Some i, _ => bbl_rx_stream_access i eth timestamp c
    | None, None, Some i => bbl_rx_stream_a10nsp i eth timestamp c
    | None, None, None => Some (false, c)
    end.

(** * The receive threads of io_thread.c *)

Inductive io_result := IO_SUCCESS | IO_REDIRECT | IO_ERROR | IO_DECODE_ERROR | IO_ENCODE_ERROR | IO_FULL | IO_EMPTY.

(** [io_handle_s] of a receive thread: the packet in its buffer and the counters. *)
Record io_handle := mk_io_handle {
  io_interface : bbl_interface;
  io_buf : list Z;
  io_buf_len : Z;
  io_timestamp : timespec;
  io_vlan_tci : Z;
  io_vlan_tpid : Z;
  io_packets : Z;
  io_bytes : Z;
  io_unknown : Z;
  io_protocol_errors : Z
}.

(** The packet is copied into the ring to the main thread. *)
Definition redirect (io : io_handle) (txq : Txq.bbl_txq) : option (io_result * Txq.bbl_txq) :=
  if BBL_TXQ_BUFFER_LEN <? io_buf_len io then Some (IO_ERROR, txq)
  else
    let (slot, txq) := Txq.bbl_txq_write_slot txq in
    match slot with
    | None => Some (IO_FULL, txq)
    | Some i =>
        slot ← Txq.txq_ring txq !! Z.to_nat i;
        let n := Z.to_nat (io_buf_len io) in
        if (length (io_buf io) <? n)%nat || (length (Txq.slot_packet slot) <? n)%nat then None
        else
          let slot := Txq.mk_slot (tv_sec (io_timestamp io), tv_nsec (io_timestamp io)) (io_vlan_tci io) (io_vlan_tpid io)
                        (io_buf_len io) (take n (io_buf io) ++ drop n (Txq.slot_packet slot)) in
          Some (IO_REDIRECT, Txq.bbl_txq_write_next (txq {{ Txq.txq_ring := <[Z.to_nat i := slot]> (Txq.txq_ring txq) }}))
    end.

(** The tag the kernel has removed from the packet. *)
Definition restore_vlan (tci tpid : Z) (eth : ethernet) : ethernet :=
  if tci =? 0 then eth
  else
    let eth := eth {{ eth_vlan_inner := eth_vlan_outer eth ;
                      eth_vlan_inner_priority := eth_vlan_outer_priority eth ;
                      eth_vlan_outer := Z.land tci BBL_ETH_VLAN_ID_MAX ;
                      eth_vlan_outer_priority := Z.shiftr tci 13 }} in
    if tpid =? ETH_TYPE_QINQ then eth {{ eth_qinq := true }} else eth.

Definition io_thread_rx_handler (io : io_handle) (txq : Txq.bbl_txq) (c : ctx) :
    option (io_result * io_handle * Txq.bbl_txq * ctx) :=
  let io := io {{ io_packets ::= (fun n => u64 (n + 1)) ; io_bytes ::= (fun n => u64 (n + io_buf_len io)) }} in
  let to_main (io : io_handle) (c : ctx) := '(result, txq) ← redirect io txq; Some (result, io, txq, c) in
  is_bbl ← packet_is_bbl (io_buf io) (io_buf_len io);
  if negb is_bbl then to_main io c
  else
    match decode_ethernet (io_buf io) (io_buf_len io) SCRATCHPAD_LEN with
    | Ok (PROTOCOL_SUCCESS, eth) _ =>
        '(done, c) ← bbl_rx_thread (io_interface io) (restore_vlan (io_vlan_tci io) (io_vlan_tpid io) eth) (io_timestamp io) c;
        if (done : bool) then Some (IO_SUCCESS, io, txq, c) else to_main io c
    | Ok (UNKNOWN_PROTOCOL, _) _ | Err UNKNOWN_PROTOCOL _ => to_main (io {{ io_unknown ::= (fun n => u64 (n + 1)) }}) c
    | Ok _ _ | Err _ _ => to_main (io {{ io_protocol_errors ::= (fun n => u64 (n + 1)) }}) c
    | Fault _ _ => None
    end.

(** One round of the receive thread for raw sockets (io_raw.c): [recvfrom] has put
    [packet] at the beginning of the buffer. *)
Definition io_raw_thread_rx (packet : list Z) (timestamp : timespec) (io : io_handle) (txq : Txq.bbl_txq) (c : ctx) :
    option (io_handle * Txq.bbl_txq * ctx) :=
  let data := take (Z.to_nat IO_BUFFER_LEN) packet in
  let io := io {{ io_timestamp := timestamp ;
                  io_buf := data ++ drop (length data) (io_buf io) ;
                  io_buf_len := Z.of_nat (length data) }} in
  if (io_buf_len io <? 14) || (IO_BUFFER_LEN <? io_buf_len io) then Some (io, txq, c)
  else '(_, io, txq, c) ← io_thread_rx_handler io txq c; Some (io, txq, c).
