(* ===== verification/StreamEnd.v ===== *)
(** The two ends of a traffic stream: a packet that is sent carries the next sequence
    number and the time in the frame of the stream, and a frame of the stream that is
    received is counted. *)
From coqutil Require Import Datatypes.RecordSetters.
From S2P Require Import Prelude.
From S2P Require Import Const.
From S2P Require Import ConstApp.
From S2P Require Import ConstStream.
From S2P Require Import ProtoTypes.
From S2P Require Import Dec.
From S2P Require Import DecodeEth.
From S2P Require Import StreamPacket.
From S2P Require Import Timer.
From S2P Require Import Stream.
From S2P Require Import StreamLoss.
From S2P Require Import StreamBuild.
From S2P Require Import StreamFrame.
From S2P Require Import Txq.
From S2P Require Import StreamSend.
From S2P Require Import StreamRx.
Import RecordSetters.DoubleBraceUpdate.
From stdpp Require Import gmap list strings.
Open Scope Z_scope.

(** * Stamping a packet *)

Definition restamp (q : Z) (ts : timespec) (b : bbl_bbl) : bbl_bbl :=
  b {{ bbl_flow_seq := q ; bbl_tv_sec := tv_sec ts ; bbl_tv_nsec := tv_nsec ts }}.

Definition stamp_ok (q : Z) (ts : timespec) : Prop := 1 <= q < 2 ^ 64 /\ 0 <= tv_sec ts < 2 ^ 32 /\ 0 <= tv_nsec ts < 2 ^ 32.

Lemma restamp_ok q ts b : stamp_ok q ts -> bbl_ok b -> bbl_ok (restamp q ts b).
Proof. intros (Hq & Hs & Hn) []; unfold restamp; cbn; unfold RecordSetters.constant; constructor; lia. Qed.

Lemma restamp_carries q ts m ses b : stamp_ok q ts -> carries m ses b -> carries m ses (restamp q ts b).
Proof. intros Hq [Hok ? ? ? ? ?]. split; [by apply restamp_ok|by destruct b..]. Qed.

Lemma bbl_bytes_restamp q ts b :
  exists pre old, bbl_bytes b = pre ++ old /\ bbl_bytes (restamp q ts b) = pre ++ stamp q ts /\ length old = 16%nat.
Proof.
  destruct b as [pad ty sub dir tos sid ifi vo vi mcs mcg flow seq sec nsec]. unfold bbl_bytes, stamp, restamp.
  cbn -[le_split replicate app length]. unfold RecordSetters.constant.
  eexists _, (le_split 8 seq ++ le_split 4 sec ++ le_split 4 nsec).
  split_and!; [rewrite !app_assoc; done..|by rewrite !length_app, !le_split_length].
Qed.

(** Another BBL header of the same size in the same frame. *)
Lemma frame_payload t dst src s x u b b' : frame_ok t dst src s x u b -> bbl_ok b' -> length (bbl_bytes b') = length (bbl_bytes b) ->
  exists t' x' u' pre, frame_ok t' dst src s x' u' b' /\
    eth_bytes t dst src s x u b = pre ++ bbl_bytes b /\ eth_bytes t' dst src s x' u' b' = pre ++ bbl_bytes b'.
Proof.
  intros [Hd Hs Hv Ht Hm Hr Hn Hx Hsid] Hb' Hl.
  assert (Hl3 : exists x' u' pre, l3_ok x' u' b' /\ l3_type x' = l3_type x /\ l3_protocol x' = l3_protocol x /\ l3_size x' b' = l3_size x b /\
    l3_bytes x u b = pre ++ bbl_bytes b /\ l3_bytes x' u' b' = pre ++ bbl_bytes b').
  { destruct x as [i|i]; cbn [l3_ok] in Hx.
    - destruct Hx as [isrc idst tos ttl ident off n h u b p pn H1 H2 H3 H4 H5 H6 [us ud un b0 U1 U2 U3 _]].
      eexists (L4 (mk_ipv4 isrc idst tos ttl PROTOCOL_IPV4_UDP false ident off n h _ p pn)), (mk_udp us ud un (Some UDP_PROTOCOL_BBL) (h_bbl b')), _.
      split; [by constructor|]. split_and!; try done; [unfold l3_size; by rewrite Hl|..]; cbn [l3_bytes]; unfold ipv4_bytes, udp_bytes; rewrite ?Hl, !app_assoc; done.
    - destruct Hx as [isrc idst tos ttl n h u b p pn H1 H2 H3 H4 [us ud un b0 U1 U2 U3 _]].
      eexists (L6 (mk_ipv6 isrc idst tos ttl IPV6_NEXT_HEADER_UDP n h _ p pn)), (mk_udp us ud un (Some UDP_PROTOCOL_BBL) (h_bbl b')), _.
      split; [by constructor|]. split_and!; try done; [unfold l3_size; by rewrite Hl|..]; cbn [l3_bytes]; unfold ipv6_bytes, udp_bytes; rewrite ?Hl, !app_assoc; done. }
  destruct Hl3 as (x' & u' & pre & Hok & Hty & Hpr & Hsz & E & E').
  assert (Hpt : pay_type s x' = pay_type s x) by (destruct s; [done|exact Hty]).
  assert (Hvb : vlan_bytes (t {{ eth_next := pay_hdr s x' }}) = vlan_bytes t) by by destruct t.
  assert (Hpay : exists front, pay_bytes s x u b = front ++ bbl_bytes b /\ pay_bytes s x' u' b' = front ++ bbl_bytes b').
  { destruct s as [sid|]; cbn [pay_bytes]; [|by exists pre]. unfold pppoe_bytes. rewrite Hpr, Hsz, E, E', !app_assoc. eexists. split; reflexivity. }
  destruct Hpay as (front & F & F'). eexists (t {{ eth_next := pay_hdr s x' }}), x', u', _.
  split; [by split; destruct t; rewrite ?Hpt|]. unfold eth_bytes. rewrite Hvb, Hpt, F, F', !app_assoc. split; reflexivity.
Qed.

(** Stamping the frame in the buffer gives the frame of the stamped header. *)
Lemma frame_stamp t dst src s x u b q ts rest : frame_ok t dst src s x u b -> stamp_ok q ts ->
  exists t' x' u', frame_ok t' dst src s x' u' (restamp q ts b) /\
    length (eth_bytes t' dst src s x' u' (restamp q ts b)) = length (eth_bytes t dst src s x u b) /\
    poke (Z.of_nat (length (eth_bytes t dst src s x u b)) - 16) (stamp q ts) (eth_bytes t dst src s x u b ++ rest) =
      Some (eth_bytes t' dst src s x' u' (restamp q ts b) ++ rest).
Proof.
  intros Hf Hq. destruct (bbl_bytes_restamp q ts b) as (pre & old & E & E' & Hold).
  assert (Hs : length (stamp q ts) = 16%nat) by (unfold stamp; by rewrite !length_app, !le_split_length).
  destruct (frame_payload t dst src s x u b (restamp q ts b) Hf) as (t' & x' & u' & front & Hf' & F & F').
  { apply restamp_ok; [done|]. destruct Hf. by eapply l3_ok_bbl. }
  { rewrite E, E', !length_app. lia. }
  exists t', x', u'. split; [done|]. rewrite F, F', E, E', !length_app. split; [lia|].
  unfold poke. case_if; [rewrite !length_app in *; lia|]. f_equal.
  replace (Z.to_nat (Z.of_nat (length front + (length pre + length old)) - 16)) with (length (front ++ pre)) by (rewrite length_app; lia).
  rewrite <-!app_assoc, (app_assoc front), take_app_length. rewrite (app_assoc front pre (stamp q ts ++ rest)). do 2 f_equal.
  rewrite (app_assoc (front ++ pre)), drop_app_length'; [done|]. rewrite !length_app. lia.
Qed.

(** * Sending *)

(** A stream that sends: nothing holds its packets back or changes them but the
    stamp. *)
Record steady (m : stream_main) (c : ctx) : Prop := {
  sy_reset : st_reset m = false;
  sy_enabled : enabled m = true;
  sy_endpoint : c_endpoints c !! endpoint m = Some ENDPOINT_ACTIVE;
  sy_ldp : ldp_lookup m = false;
  sy_nat : nat m && (st_direction m =? BBL_DIRECTION_DOWN) = false;
  sy_delay : sc_start_delay (config m) = 0 /\ setup m = false;
  sy_udp : tcp m = false /\ c_stream_udp_checksum c = false;
  sy_session : forall x, session m = Some x -> exists ses, c_sessions c !! x = Some ses /\ ses_version ses = session_version m
}.

Definition buildable (m : stream_main) (c : ctx) (ses : option bbl_session) : Prop :=
  stream_wf m /\ ((exists s, ses = Some s /\ upstream m c s /\ ses_l2tp_session s = None) \/ downstream m c ses).

(** It has its packet, or can build it. *)
Definition ready (m : stream_main) (c : ctx) (ses : option bbl_session) : Prop :=
  steady m c /\ (has_frame m ses \/ tx_buf m = None /\ buildable m c ses).

Lemma steady_built m m' c c' : c_endpoints c' = c_endpoints c -> c_sessions c' = c_sessions c -> c_stream_udp_checksum c' = c_stream_udp_checksum c ->
  built_from m m' -> steady m c -> steady m' c'.
Proof.
  intros He Hs Hc (B1 & B2 & B3 & B4 & B5 & B6 & B7 & B8 & B9 & B10 & B11 & B12 & B13 & B14 & B15) [].
  split; rewrite ?B1, ?B5, ?B6, ?B7, ?B8, ?B9, ?B10, ?B12, ?B13, ?B14, ?B15, ?He, ?Hs, ?Hc; done.
Qed.

(** The packet to be sent carries the next sequence number and the time. *)
Lemma stamp_packet m t ses b ts : framed m ses b -> tcp m = false -> stamp_ok (flow_seq t) ts ->
  exists buf, update_packet ts false m t = Some buf /\ framed (m {{ tx_buf := Some buf }}) ses (restamp (flow_seq t) ts b).
Proof.
  intros (e & dst & src & s & x & u & rest & Hf & Hc & Hb & Hl & Hmax) Htcp Hq.
  destruct (frame_stamp e dst src s x u b (flow_seq t) ts rest Hf Hq) as (e' & x' & u' & Hf' & Hl' & Hp).
  eexists. split; [unfold update_packet; rewrite Hb; cbn [mbind option_bind]; rewrite Hl, Hp; cbn [mbind option_bind]; by rewrite Htcp|].
  exists e', dst, src, s, x', u', rest. split; [done|]. split; [eapply carries_ext; [..|by apply restamp_carries]; by destruct m|].
  split; [by destruct m|]. rewrite Hl'. by destruct m.
Qed.

Lemma with_stream_twice a f g c : with_stream a f (with_stream a g c) = with_stream a (fun s => f (g s)) c.
Proof. unfold with_stream. destruct c; cbn. f_equal. apply alter_alter_eq. Qed.

Lemma with_stream_at a f s c : c_streams c !! a = Some s -> with_stream a f c = with_stream a (fun _ => f s) c.
Proof. intros Ha. unfold with_stream. destruct c; cbn in *. f_equal. apply map_eq. intros b. destruct (decide (a = b)) as [<-|]; [by rewrite !lookup_alter_eq, Ha|by rewrite !lookup_alter_ne]. Qed.

Lemma with_stream_ext a f g s c : c_streams c !! a = Some s -> f s = g s -> with_stream a f c = with_stream a g c.
Proof. intros Ha E. rewrite (with_stream_at a f s), (with_stream_at a g s) by done. by rewrite E. Qed.

Lemma with_stream_lookup_same a f s c : c_streams c !! a = Some s -> c_streams (with_stream a f c) !! a = Some (f s).
Proof. intros Ha. rewrite with_stream_lookup, decide_True, Ha by done. done. Qed.

Lemma with_stream_id a f s c : c_streams c !! a = Some s -> f s = s -> with_stream a f c = c.
Proof. intros Ha Hf. unfold with_stream. destruct c; cbn in *. f_equal. apply alter_id. congruence. Qed.

(** A packet of the stream is sent: its header is the one of the stream, with the
    next sequence number and the time of transmission. *)
Lemma io_send_ok malloc a c s ses ts : (forall n, 0 <= n -> Z.of_nat (length (malloc n)) = n) ->
  c_streams c !! a = Some s -> ready (st_main s) c ses -> max_packets (st_tx s) = 0 -> stamp_ok (flow_seq (st_tx s)) ts ->
  exists m b ep, bbl_stream_io_send malloc a ts c = Some (PROTOCOL_SUCCESS, with_stream a (fun s => s {{ st_main := m ; st_tx := (st_tx s) {{ tx_first_epoch := ep }} }}) c) /\
    framed m ses (restamp (flow_seq (st_tx s)) ts b) /\ built_from (st_main s) m.
Proof.
  intros Hmal Ha [Hst Hfr] Hmax Hq. pose proof Hst as [R1 R2 R3 R4 R5 [R6 R6'] [R7 R8] R9].
  assert (Hneed : exists m b, need_packet malloc a c = Some (true, with_main a (fun _ => m) c) /\ framed m ses b /\ built_from (st_main s) m).
  { unfold need_packet. rewrite Ha. cbn [mbind option_bind]. destruct Hfr as [(b & Hb)|(Hno & Hwf & Hbd)].
    - exists (st_main s), b. pose proof Hb as (? & ? & ? & ? & ? & ? & ? & _ & _ & E & _). rewrite E. split; [|by split; [|repeat split]].
      do 2 f_equal. symmetry. apply (with_stream_id a _ s); [done|by destruct s].
    - rewrite Hno. destruct (build_packet_frame malloc _ c ses Hmal Hwf Hbd) as (m & -> & [b Hb] & Hfrom). by exists m, b. }
  destruct Hneed as (m & b & En & Hf & Hfrom). destruct (stamp_packet m (st_tx s) ses b ts Hf) as (buf & Eb & Hf'); [|done|].
  { destruct Hfrom as (_ & _ & _ & _ & _ & _ & -> & _). done. }
  assert (Hcs : session_changed a c = Some c).
  { unfold session_changed. rewrite Ha. cbn [mbind option_bind]. destruct (session (st_main s)) as [x|] eqn:Ex; [|done].
    destruct (R9 x eq_refl) as (v & -> & Ev). cbn [mbind option_bind]. by rewrite Ev, Z.eqb_refl. }
  exists (m {{ tx_buf := Some buf }}), b, (if flow_seq (st_tx s) =? 1 then tv_sec ts else tx_first_epoch (st_tx s)). split; [|by destruct m].
  unfold bbl_stream_io_send. rewrite Ha. cbn [mbind option_bind]. rewrite R1, R2. cbn [negb]. unfold bbl_stream_can_send.
  rewrite Ha. cbn [mbind option_bind]. rewrite R3. cbn [mbind option_bind]. rewrite decide_True, R4, R5 by done. cbn [mbind option_bind negb].
  rewrite Ha. cbn [mbind option_bind]. rewrite Hmax. cbn [Z.eqb negb andb]. unfold start_delay. rewrite R6, andb_false_r. unfold setup_interval. rewrite R6'.
  assert (Eid : with_tx a (fun _ => st_tx s) c = c) by (apply (with_stream_id a _ s); [done|by destruct s]).
  cbn iota. rewrite !Eid. cbn iota. rewrite Hcs. cbn [mbind option_bind]. rewrite En. cbn [mbind option_bind negb].
  assert (Es : c_streams (with_main a (fun _ => m) c) !! a = Some (s {{ st_main := m }})) by (unfold with_main; rewrite (with_stream_lookup_same a _ s) by done; by destruct s). rewrite Es. cbn [mbind option_bind].
  replace (c_stream_udp_checksum (with_main a (fun _ => m) c)) with false by (by destruct c).
  replace (st_main (s {{ st_main := m }})) with m by (by destruct s). replace (st_tx (s {{ st_main := m }})) with (st_tx s) by (by destruct s).
  rewrite Eb. cbn [mbind option_bind]. do 2 f_equal. unfold with_tx, with_main.
  destruct (flow_seq (st_tx s) =? 1); rewrite !with_stream_twice; (apply (with_stream_ext a _ _ s); [done|by destruct s as [m0 [] r]]).
Qed.

(** * Receiving *)

(** The header of a received packet belongs to the stream. *)
Definition of_stream (m : stream_main) (ses : option bbl_session) (b : bbl_bbl) : Prop :=
  bbl_type b = BBL_TYPE_UNICAST /\ bbl_sub_type b = st_sub_type m /\ bbl_direction b = st_direction m /\ bbl_flow_id b = flow_id m /\
  forall s, ses = Some s -> bbl_session_id b = ses_session_id s /\
    bbl_outer_vlan_id b = Some (ses_outer_vlan_id s) /\ bbl_inner_vlan_id b = Some (ses_inner_vlan_id s).

Lemma carries_received m ses b : carries m ses b -> of_stream m ses (bbl_received b).
Proof. intros [_ Ht Hs Hd Hf Hses]. unfold of_stream, bbl_received. rewrite Ht, Z.eqb_refl. destruct b; cbn in *. by split_and!. Qed.

(** The session a receiver looks at. *)
Definition stream_session (m : stream_main) (c : ctx) : option (option bbl_session) :=
  match session m with Some x => ses ← c_sessions c !! x; Some (Some ses) | None => Some None end.

(** The receiver of the interface takes the packets with this address. *)
Definition receiver_takes (ses : option bbl_session) (mac : option (list Z)) (dst : list Z) : Prop :=
  match mac with
  | Some mac => mac = dst
  | None => exists s, ses = Some s /\ ses_client_mac s = dst /\ ses_state s <> BBL_TERMINATED /\ ses_state s <> BBL_IDLE
  end.

Lemma rx_receiver_takes ses mac eth b m r dst : eth_dst eth = Some dst -> (6 <= length dst)%nat ->
  receiver_takes ses mac (take 6 dst) -> of_stream m ses b -> rx_receiver ses mac eth b m r = Some (true, r).
Proof.
  intros Hd Hl Hm (_ & _ & _ & _ & Hses). assert (El : (length dst <? 6)%nat = false) by (apply Nat.ltb_ge; lia).
  unfold rx_receiver, mac_is. rewrite Hd. cbn [mbind option_bind]. rewrite El. destruct mac as [mac|]; cbn [receiver_takes] in Hm.
  - subst. cbn [mbind option_bind]. by rewrite bool_decide_true.
  - destruct Hm as (s & -> & Hs & H1 & H2). rewrite decide_False by tauto. cbn [mbind option_bind]. rewrite bool_decide_true by done. cbn [negb].
    destruct (session_traffic m); [|done]. destruct (Hses s eq_refl) as (-> & -> & ->). cbn [mbind option_bind]. by rewrite !Z.eqb_refl.
Qed.

Lemma stream_receive_takes dc ses mac eth ts b m r ok r' dst : eth_dst eth = Some dst -> (6 <= length dst)%nat ->
  receiver_takes ses mac (take 6 dst) -> of_stream m ses b -> sc_rx_mpls1_label (config m) = 0 ->
  stream_receive dc ses mac eth ts b m r = Some (ok, r') -> ok = true.
Proof.
  intros Hd Hl Hm Hb Hmpls. pose proof Hb as (_ & Hs & Hdir & _). unfold stream_receive. case_if; [cbn; by intros [= <- _]|].
  unfold rx_first. rewrite Hmpls, Hs, Hdir, !Z.eqb_refl. cbn [negb andb orb].
  rewrite (rx_receiver_takes ses mac eth b m _ dst) by done. cbn [mbind option_bind negb].
  destruct (if nat m && _ then _ else _); [|done]. cbn [mbind option_bind]. by intros [= <- _].
Qed.

(** A packet of the stream is counted. *)
Lemma bbl_stream_rx_takes p b c a s ses seqs r0 dst : packet_ok p b -> bbl_stream_index_get c (flow_id (st_main s)) = Some a ->
  c_streams c !! a = Some s -> stream_session (st_main s) c = Some ses ->
  eth_dst (p_eth p) = Some dst -> receiver_takes ses (p_mac p) (take 6 dst) -> of_stream (st_main s) ses b ->
  sc_rx_mpls1_label (config (st_main s)) = 0 -> counted r0 seqs (st_rx s) ->
  exists r, bbl_stream_rx (p_eth p) (p_timestamp p) (p_mac p) c = Some (Some a, with_stream a (fun s => s {{ st_rx := r }}) c) /\
    counted r0 (seqs ++ [bbl_flow_seq b]) r.
Proof.
  intros Hp Hi Ha Hses Hd Hm Hb Hmpls Hc. pose proof Hb as (Ht & _ & _ & Hf & _).
  assert (Hl : (6 <= length dst)%nat) by (destruct (ok_dst _ _ Hp) as (d & Hd' & ?); by simplify_eq).
  destruct (stream_receive_ok (c_stream_delay_calc c) ses p b (st_main s) (st_rx s) r0 seqs Hp Hc) as (ok & r & E & Hr).
  pose proof (stream_receive_takes _ _ _ _ _ _ _ _ _ _ _ Hd Hl Hm Hb Hmpls E) as ->.
  exists r. split; [|done]. unfold bbl_stream_rx. rewrite (ok_bbl _ _ Hp), Ht, Hf, Hi. cbn [Z.eqb negb BBL_TYPE_UNICAST Pos.eqb].
  rewrite Ha. cbn [mbind option_bind]. unfold stream_session in Hses. rewrite Hses. cbn [mbind option_bind]. by rewrite E.
Qed.

Lemma learn_counts i ts r : same_counts r (learn_network i ts r) /\ same_counts r (learn_access i r) /\ same_counts r (learn_a10nsp i r).
Proof.
  unfold learn_network, learn_access, learn_a10nsp. split_and!; [|case_match; by destruct r..].
  case_decide; [apply same_counts_refl|]. case_match; by destruct r.
Qed.

(** The interface takes packets of the stream with this tag and address. *)
Definition accepts (i : bbl_interface) (vlan : Z) (dst : list Z) (m : stream_main) (ses : option bbl_session) (c : ctx) : Prop :=
  if_state i <> INTERFACE_DISABLED /\ sc_rx_mpls1_label (config m) = 0 /\
  exists net mac, if_network_vlan i !! Z.to_nat vlan = Some net /\ receiver_takes ses mac dst /\
    match net, if_access i, if_a10nsp i with
    | Some x, _, _ => exists n, c_network c !! x = Some n /\ mac = Some (net_mac n)
    | None, Some _, _ => mac = None
    | None, None, Some x => exists n, c_a10nsp c !! x = Some n /\ mac = Some (a10_mac n)
    | None, None, None => False
    end.

Lemma rx_stream_takes p b c a s ses seqs r0 dst learn : packet_ok p b -> bbl_stream_index_get c (flow_id (st_main s)) = Some a ->
  c_streams c !! a = Some s -> stream_session (st_main s) c = Some ses ->
  eth_dst (p_eth p) = Some dst -> receiver_takes ses (p_mac p) (take 6 dst) -> of_stream (st_main s) ses b ->
  sc_rx_mpls1_label (config (st_main s)) = 0 -> counted r0 seqs (st_rx s) -> (forall r, same_counts r (learn r)) ->
  exists r, rx_stream (p_mac p) learn (p_eth p) (p_timestamp p) c = Some (true, with_stream a (fun s => s {{ st_rx := r }}) c) /\
    counted r0 (seqs ++ [bbl_flow_seq b]) r.
Proof.
  intros Hp Hi Ha Hses Hd Hm Hb Hmpls Hc Hlearn. destruct (bbl_stream_rx_takes p b c a s ses seqs r0 dst) as (r & E & Hr); try done.
  exists (learn r). split; [|by eapply counted_same]. unfold rx_stream. rewrite (ok_bbl _ _ Hp), E. cbn [mbind option_bind].
  do 2 f_equal. unfold with_rx. rewrite with_stream_twice. apply (with_stream_ext a _ _ s); [done|by destruct s].
Qed.

Lemma rx_thread_takes i eth ts b c a s ses seqs r0 dst : (forall mac, packet_ok (mk_rx_packet eth ts mac) b) ->
  bbl_stream_index_get c (flow_id (st_main s)) = Some a -> c_streams c !! a = Some s -> stream_session (st_main s) c = Some ses ->
  eth_dst eth = Some dst -> accepts i (eth_vlan_outer eth) (take 6 dst) (st_main s) ses c -> of_stream (st_main s) ses b ->
  counted r0 seqs (st_rx s) ->
  exists r, bbl_rx_thread i eth ts c = Some (true, with_stream a (fun s => s {{ st_rx := r }}) c) /\ counted r0 (seqs ++ [bbl_flow_seq b]) r.
Proof.
  intros Hp Hi Ha Hses Hd (Hst & Hmpls & net & mac & Hnet & Hm & Hmac) Hb Hc. unfold bbl_rx_thread. rewrite decide_False, Hnet by done.
  cbn [mbind option_bind]. pose proof (fun learn => rx_stream_takes (mk_rx_packet eth ts mac) b c a s ses seqs r0 dst learn (Hp mac)) as H.
  cbn [p_eth p_mac p_timestamp] in H. destruct net as [x|]; [|destruct (if_access i) as [x|]; [|destruct (if_a10nsp i) as [x|]]]; try done.
  - destruct Hmac as (n & En & ->). unfold bbl_rx_stream_network. rewrite En. cbn [mbind option_bind]. apply H; try done. intros r. apply learn_counts.
  - subst. unfold bbl_rx_stream_access. apply H; try done. intros r. by apply learn_counts.
  - destruct Hmac as (n & En & ->). unfold bbl_rx_stream_a10nsp. rewrite En. cbn [mbind option_bind]. apply H; try done. intros r. by apply learn_counts.
Qed.

(** ** Frames that are received *)

Lemma eth_received_type t dst src s x u b rest l : eth_type (eth_received t dst src s x u b rest l) = pay_type s x.
Proof.
  unfold eth_received. match goal with |- context [l3_learn x b ?e0] => set (e := e0) end.
  assert (He : eth_type e = pay_type s x) by (unfold e; by destruct (vlan_learn t _)). clearbody e.
  unfold l3_learn, eth_with_bbl, eth_learn_tos, eth_learn_ttl. destruct x, e; repeat case_match; done.
Qed.

Lemma received_packet_ok t dst src s x u b rest l ts mac : frame_ok t dst src s x u b -> bbl_type b = BBL_TYPE_UNICAST ->
  1 <= bbl_flow_seq b -> packet_ok (mk_rx_packet (eth_received t dst src s x u b rest l) ts mac) (bbl_received b).
Proof.
  intros Hf Ht Hq. pose proof (eth_bytes_length _ _ _ _ _ _ _ Hf) as Hlen. assert (Hb : bbl_ok b) by (destruct Hf; by eapply l3_ok_bbl).
  destruct (eth_received_fields t dst src s x u b rest l) as (F1 & _ & _ & _ & _ & _ & _ & F2 & F3); [by destruct Hf|].
  assert (Hr : 1 <= bbl_flow_seq (bbl_received b) < 2 ^ 64 /\ is_Some (bbl_outer_vlan_id (bbl_received b)) /\ is_Some (bbl_inner_vlan_id (bbl_received b))).
  { unfold bbl_received. rewrite Ht, Z.eqb_refl. destruct Hb; cbn in *; [|done]. split_and!; [lia|lia|by eexists..]. }
  split; cbn [p_eth]; [done|apply Hr|apply Hr| |].
  - eexists. split; [done|]. rewrite length_app. unfold pay_size, l3_size in Hlen. destruct s, x; lia.
  - rewrite F3, eth_received_type. destruct s; [done|]. destruct x as [i|i]; [|done]. intros _. cbn [pay_hdr l3_received l3_hdr]. eexists. split; [done|].
    intros _. left. destruct Hf as [_ _ _ _ _ _ _ Hx _]. cbn [l3_ok] in Hx. destruct Hx. by eexists.
Qed.

Lemma bbl_bytes_magic b : bbl_ok b -> exists pad tail, bbl_bytes b = pad ++ le_split 8 BBL_MAGIC_NUMBER ++ tail /\ length tail = 40%nat.
Proof.
  intros Hb. unfold bbl_bytes. eexists _, _. split; [done|]. destruct Hb; cbn -[le_split app length replicate]; by rewrite !length_app, !le_split_length.
Qed.

Lemma frame_min t dst src s x u b : frame_ok t dst src s x u b -> 90 <= Z.of_nat (length (eth_bytes t dst src s x u b)).
Proof.
  intros Hf. rewrite (eth_bytes_length _ _ _ _ _ _ _ Hf). destruct (bbl_bytes_magic b) as (pad & tail & E & Hl); [destruct Hf; by eapply l3_ok_bbl|].
  unfold pay_size, l3_size. rewrite E, !length_app, le_split_length. destruct s, x; lia.
Qed.

Lemma frame_is_bbl t dst src s x u b rest : frame_ok t dst src s x u b ->
  packet_is_bbl (eth_bytes t dst src s x u b ++ rest) (Z.of_nat (length (eth_bytes t dst src s x u b))) = Some true.
Proof.
  intros Hf. assert (Hb : bbl_ok b) by (destruct Hf; by eapply l3_ok_bbl). pose proof (frame_min _ _ _ _ _ _ _ Hf) as Hmin.
  destruct (frame_payload t dst src s x u b b Hf Hb eq_refl) as (_ & _ & _ & pre & _ & E & _).
  destruct (bbl_bytes_magic b Hb) as (pad & tail & Eb & Hl). assert (Hn : length (bbl_bytes b) = (length pad + 48)%nat) by (rewrite Eb, !length_app, le_split_length; lia).
  unfold packet_is_bbl. case_if; [unfold BBL_MIN_LEN in *; lia|]. rewrite E, length_app, Hn.
  replace (Z.to_nat (Z.of_nat (length pre + (length pad + 48)) - BBL_HEADER_LEN)) with (length (pre ++ pad)) by (rewrite length_app; unfold BBL_HEADER_LEN; lia).
  rewrite Eb, <-!app_assoc, (app_assoc pre), drop_app_length. rewrite take_app_exact by by rewrite le_split_length.
  assert (El : (length (le_split 8 BBL_MAGIC_NUMBER ++ tail ++ rest) <? 8)%nat = false) by (apply Nat.ltb_ge; rewrite length_app, le_split_length; lia).
  rewrite El. by vm_compute.
Qed.
