(* ===== verification/StreamNet.v ===== *)
(** Traffic streams from end to end: packets are built and stamped, sent over a
    network that may lose packets, received, decoded and counted.

    The network with the device under test is a queue: it forwards or drops the
    packets in the order they were sent.  The device may rewrite all headers in front
    of the BBL header; [forward] is what it does to a packet. *)
From coqutil Require Import Datatypes.RecordSetters.
From S2P Require Import Prelude.
From S2P Require Import Const.
From S2P Require Import ConstApp.
From S2P Require Import ConstStream.
From S2P Require Import ProtoTypes.
From S2P Require Import Dec.
From S2P Require Import DecodeEth.
From S2P Require Import StreamPacket.
From S2P Require Import Timer.
From S2P Require Import Stream.
From S2P Require Import StreamLoss.
From S2P Require Import StreamBuild.
From S2P Require Import StreamFrame.
From S2P Require Import Txq.
From S2P Require Import StreamSend.
From S2P Require Import StreamRx.
From S2P Require Import StreamEnd.
Import RecordSetters.DoubleBraceUpdate.
From stdpp Require Import gmap list strings.
Open Scope Z_scope.

(** * What happens to the packets *)

(** Sending, and the first packet on the wire being dropped or delivered, with the
    time at which it is sent or received. *)
Inductive event := Send (ts : timespec) | Drop | Deliver (ts : timespec).

(** The number of packets sent, the sequence numbers on the wire, and those that
    were delivered and dropped. *)
Record history := mk_history { h_sent : Z; h_wire : list Z; h_delivered : list Z; h_dropped : list Z }.

Definition h_step (e : event) (h : history) : history :=
  match e, h_wire h with
  | Send _, _ => h {{ h_sent ::= Z.succ ; h_wire := h_wire h ++ [Z.succ (h_sent h)] }}
  | Drop, q :: w => h {{ h_wire := w ; h_dropped := h_dropped h ++ [q] }}
  | Deliver _, q :: w => h {{ h_wire := w ; h_delivered := h_delivered h ++ [q] }}
  | _, [] => h
  end.

Definition history_of (es : list event) : history := foldl (flip h_step) (mk_history 0 [] [] []) es.

(** The wire holds the packets sent last; the others were delivered, in order, or
    dropped. *)
Record history_ok (h : history) : Prop := {
  ho_wire : h_wire h = seqZ (h_sent h - Z.of_nat (length (h_wire h)) + 1) (Z.of_nat (length (h_wire h)));
  ho_past : h_delivered h ++ h_dropped h ≡ₚ seqZ 1 (h_sent h - Z.of_nat (length (h_wire h)));
  ho_rising : rising (h_delivered h);
  ho_sent : Z.of_nat (length (h_wire h)) <= h_sent h
}.

Lemma seqZ_snoc m n : 0 <= n -> seqZ m (n + 1) = seqZ m n ++ [m + n].
Proof. intros Hn. rewrite seqZ_app by lia. f_equal. Qed.

Lemma past_last h q w : history_ok h -> h_wire h = q :: w ->
  q = h_sent h - Z.of_nat (length w) /\ w = seqZ (h_sent h - Z.of_nat (length w) + 1) (Z.of_nat (length w)) /\
  seqZ 1 q = seqZ 1 (h_sent h - Z.of_nat (length (h_wire h))) ++ [q] /\ forall x, x ∈ h_delivered h -> 1 <= x < q.
Proof.
  intros [Hw Hp _ Hs] E. rewrite E in *. cbn [length] in *.
  assert (Hq : q = h_sent h - Z.of_nat (length w)).
  { replace (Z.of_nat (S (length w))) with (Z.succ (Z.of_nat (length w))) in Hw by lia. rewrite seqZ_cons in Hw by lia. injection Hw as Hq _. lia. }
  assert (Hd : forall x, x ∈ h_delivered h -> 1 <= x < q).
  { intros x Hx. assert (Hin : x ∈ seqZ 1 (h_sent h - Z.of_nat (S (length w)))) by (rewrite <- Hp; apply elem_of_app; by left).
    apply elem_of_seqZ in Hin. lia. }
  split_and!; try done.
  - replace (Z.of_nat (S (length w))) with (Z.succ (Z.of_nat (length w))) in Hw by lia. rewrite seqZ_cons in Hw by lia. injection Hw as _ Hw. rewrite Hw at 1. f_equal; lia.
  - replace q with (h_sent h - Z.of_nat (S (length w)) + 1) by lia. rewrite seqZ_snoc by lia. f_equal. f_equal. lia.
Qed.

Lemma h_step_ok e h : history_ok h -> history_ok (h_step e h).
Proof.
  intros Hh. destruct (h_wire h) as [|q w] eqn:E.
  - assert (Hsend : history_ok (h {{ h_sent ::= Z.succ ; h_wire := [] ++ [Z.succ (h_sent h)] }})).
    { destruct Hh as [Hw Hp Hr Hs]. rewrite E in *. destruct h; cbn in *. split; cbn; [rewrite seqZ_cons by lia; f_equal; lia| |done|lia].
      rewrite Hp. match goal with |- ?x ≡ₚ ?y => replace y with x; [done|f_equal; lia] end. }
    unfold h_step. rewrite E. by destruct e.
  - destruct (past_last h q w Hh E) as (Hq & Hw' & Hp' & Hd). destruct Hh as [Hw Hp Hr Hs]. unfold h_step. rewrite E. destruct e.
    + rewrite <- E. destruct h as [sent wire del drp]; cbn in *; subst wire. split; cbn -[seqZ length app]; unfold RecordSetters.constant; rewrite ?length_app; cbn [length] in *; try done; [| |lia].
      * replace (Z.of_nat (S (length w) + 1)) with (Z.of_nat (S (length w)) + 1) by lia. rewrite seqZ_snoc by lia. rewrite Hw at 1. f_equal; [f_equal; lia|f_equal; lia].
      * rewrite Hp. match goal with |- ?x ≡ₚ ?y => replace y with x; [done|f_equal; lia] end.
    + destruct h as [sent wire del drp]; cbn in *; subst wire. split; cbn -[seqZ length app]; unfold RecordSetters.constant; try done; [|cbn [length] in *; lia].
      rewrite app_assoc, Hp. cbn [length] in *. rewrite <- Hq, Hp'. done.
    + destruct h as [sent wire del drp]; cbn in *; subst wire. split; cbn -[seqZ length app]; unfold RecordSetters.constant; try done; [| |cbn [length] in *; lia].
      * rewrite <- app_assoc, (Permutation_app_comm [q]), app_assoc, Hp. cbn [length] in *. by rewrite <- Hq, Hp'.
      * apply rising_snoc; [done|]. destruct (last del) as [x|] eqn:El; cbn; [|cbn [length] in *; lia]. apply last_Some_elem_of in El. apply Hd in El. lia.
Qed.

Lemma history_of_ok es : history_ok (history_of es).
Proof.
  unfold history_of. assert (H0 : history_ok (mk_history 0 [] [] [])) by (split; [done|done|by intros [|i] j x y|done]).
  revert H0. generalize (mk_history 0 [] [] []). induction es as [|e es IH]; intros h Hh; [done|]. apply IH. by apply h_step_ok.
Qed.

(** The packets dropped between the first and the last one delivered. *)
Definition lost_between (h : history) : list Z :=
  filter (fun d => default 0 (head (h_delivered h)) < d < default 0 (last (h_delivered h))) (h_dropped h).

Lemma missing_dropped h : history_ok h -> Forall (fun q => 1 <= q < 2 ^ 64) (h_delivered h) ->
  length (missing (h_delivered h)) = length (lost_between h).
Proof.
  intros [_ Hp Hr _] Hall. unfold missing. rewrite records_rising_id by done. set (del := h_delivered h) in *.
  assert (Hnd : NoDup (del ++ h_dropped h)) by (rewrite Hp; apply NoDup_seqZ). apply NoDup_app in Hnd as (Hn1 & Hdisj & Hn2).
  apply Permutation_length, NoDup_Permutation.
  { apply NoDup_filter. destruct del; [constructor|apply NoDup_seqZ]. }
  { by apply NoDup_filter. }
  intros x. unfold lost_between. fold del. rewrite !list_elem_of_filter.
  destruct del as [|f del'] eqn:E; [cbn; rewrite elem_of_nil; split; [by intros [_ ?]|intros [? _]; lia]|]. rewrite <- E in *.
  assert (Hf : default 0 (head del) = f) by (by rewrite E). assert (Hl : default f (last del) = default 0 (last del)).
  { destruct (last del) eqn:El; [done|]. apply last_None in El. by rewrite E in El. }
  assert (Hspan : span del = seqZ f (default 0 (last del) - f + 1)) by (by rewrite <- Hl, E). rewrite Hspan, elem_of_seqZ, Hf.
  assert (Hin : forall y, y ∈ del ++ h_dropped h <-> 1 <= y < 1 + (h_sent h - Z.of_nat (length (h_wire h)))) by (intros y; rewrite Hp; apply elem_of_seqZ).
  assert (Hlast : default 0 (last del) ∈ del).
  { destruct (last del) as [y|] eqn:El; [by apply last_Some_elem_of in El|]. apply last_None in El. by rewrite E in El. }
  assert (Hfirst : f ∈ del) by (rewrite E; apply list_elem_of_here). pose proof (rising_last _ _ Hr Hfirst). split.
  - intros [Hx Hrange]. assert (Hx' : x ∈ del ++ h_dropped h).
    { apply Hin. pose proof (proj1 (Hin f) ltac:(apply elem_of_app; by left)). pose proof (proj1 (Hin (default 0 (last del))) ltac:(apply elem_of_app; by left)). lia. }
    apply elem_of_app in Hx' as [|Hx']; [done|]. split; [|done].
    assert (x <> f) by (intros ->; done). assert (x <> default 0 (last del)) by (intros ->; done). lia.
  - intros [Hrange Hx]. split; [|lia]. intros Hd. by apply (Hdisj x).
Qed.


(** * The network *)

(** The program, its receive thread and the packets on their way. *)
Record net := mk_net { n_ctx : ctx; n_io : io_handle; n_txq : Txq.bbl_txq; n_wire : list (list Z) }.

Section Net.
Context (malloc : Z -> list Z) (forward : list Z -> list Z) (a : Z).

(** The stream [a] sends a packet, and the device forwards it; the first packet on
    the wire is lost; the first packet is received. *)
Definition net_step (e : event) (n : net) : option net :=
  match e, n_wire n with
  | Send ts, w =>
      '(result, c) ← bbl_stream_io_send malloc a ts (n_ctx n);
      match result with
      | PROTOCOL_SUCCESS =>
          s ← c_streams c !! a;
          buf ← tx_buf (st_main s);
          Some (n {{ n_ctx := io_sent a c ; n_wire := w ++ [forward (take (Z.to_nat (tx_len (st_main s))) buf)] }})
      | _ => Some (n {{ n_ctx := c }})
      end
  | Drop, _ :: w => Some (n {{ n_wire := w }})
  | Deliver ts, p :: w =>
      '(io, txq, c) ← io_raw_thread_rx p ts (n_io n) (n_txq n) (n_ctx n);
      Some (mk_net c io txq w)
  | _, [] => Some n
  end.

Fixpoint net_run (es : list event) (n : net) : option net :=
  match es with [] => Some n | e :: es => n ← net_step e n; net_run es n end.
End Net.

(** What the device does to the packets of the stream: it sends them to an address
    the receiver takes, the BBL header unchanged. *)
Definition forwards (forward : list Z -> list Z) (i : bbl_interface) (m : stream_main) (ses : option bbl_session) (c : ctx) : Prop :=
  forall t dst src s x u b, frame_ok t dst src s x u b -> carries m ses b ->
    Z.of_nat (length (eth_bytes t dst src s x u b)) <= IO_BUFFER_LEN ->
    exists t' dst' src' s' x' u' b', frame_ok t' dst' src' s' x' u' b' /\ bbl_received b' = bbl_received b /\
      forward (eth_bytes t dst src s x u b) = eth_bytes t' dst' src' s' x' u' b' /\
      Z.of_nat (length (eth_bytes t' dst' src' s' x' u' b')) <= IO_BUFFER_LEN /\
      accepts i (eth_vlan_outer t') (take 6 dst') m ses c.

(** * One packet *)

(** A packet on its way to the receiver, with its sequence number. *)
Definition in_flight (i : bbl_interface) (m : stream_main) (ses : option bbl_session) (c : ctx) (q : Z) (p : list Z) : Prop :=
  exists t dst src s x u b, frame_ok t dst src s x u b /\ of_stream m ses (bbl_received b) /\ bbl_flow_seq b = q /\ 1 <= q /\
    p = eth_bytes t dst src s x u b /\ Z.of_nat (length p) <= IO_BUFFER_LEN /\ accepts i (eth_vlan_outer t) (take 6 dst) m ses c.

Lemma received_type b : bbl_type (bbl_received b) = bbl_type b /\ bbl_flow_seq (bbl_received b) = bbl_flow_seq b.
Proof. unfold bbl_received. case_if; by destruct b. Qed.

Lemma deliver_ok i ses c a s q p ts io txq seqs r0 : in_flight i (st_main s) ses c q p -> io_interface io = i -> io_vlan_tci io = 0 ->
  bbl_stream_index_get c (flow_id (st_main s)) = Some a -> c_streams c !! a = Some s -> stream_session (st_main s) c = Some ses ->
  counted r0 seqs (st_rx s) ->
  exists io' r, io_raw_thread_rx p ts io txq c = Some (io', txq, with_stream a (fun s => s {{ st_rx := r }}) c) /\
    io_interface io' = i /\ io_vlan_tci io' = 0 /\ counted r0 (seqs ++ [q]) r.
Proof.
  intros (t & dst & src & x & l & u & b & Hf & Hof & Hq & Hq1 & Hp & Hlen & Hacc) Hi Htci Hidx Ha Hses Hc.
  destruct (received_type b) as [Hty Hsq]. assert (Ht : bbl_type b = BBL_TYPE_UNICAST) by (rewrite <- Hty; apply Hof).
  pose proof (frame_is_bbl t dst src x l u b) as Hbbl. pose proof (frame_min _ _ _ _ _ _ _ Hf) as Hmin. rewrite <- Hp in Hmin.
  unfold io_raw_thread_rx. rewrite take_ge by (unfold IO_BUFFER_LEN in *; lia). set (rest := drop (length p) (io_buf io)).
  destruct io as [interface buf len iots tci tpid n1 n2 n3 n4]. cbn in Hi, Htci. subst interface tci. cbn -[length take drop IO_BUFFER_LEN io_thread_rx_handler app Z.ltb]. unfold RecordSetters.constant.
  case_if; [lia|]. unfold io_thread_rx_handler. cbn -[length take drop app Z.ltb packet_is_bbl decode_ethernet bbl_rx_thread restore_vlan SCRATCHPAD_LEN].
  subst p. rewrite Hbbl by done. cbn [mbind option_bind negb].
  destruct (decode_frame t dst src x l u b rest (Z.of_nat (length (eth_bytes t dst src x l u b))) SCRATCHPAD_LEN Hf) as (d' & ->); [unfold IO_BUFFER_LEN in *; lia|unfold SCRATCHPAD_LEN; lia|].
  destruct (eth_received_fields t dst src x l u b rest (Z.of_nat (length (eth_bytes t dst src x l u b)))) as (F1 & _ & F2 & _); [by destruct Hf|].
  destruct (rx_thread_takes i (eth_received t dst src x l u b rest (Z.of_nat (length (eth_bytes t dst src x l u b)))) ts (bbl_received b) c a s ses seqs r0
    (eth_bytes t dst src x l u b ++ rest)) as (r & E & Hr); try done.
  { intros mac. apply received_packet_ok; [done|done|lia]. }
  { rewrite F2. replace (take 6 (eth_bytes t dst src x l u b ++ rest)) with (take 6 dst); [done|]. unfold eth_bytes. rewrite <-!app_assoc, take_app_exact; [done|].
    rewrite length_take. destruct Hf as [[_ ?] _ _ _ _ _ _ _ _]. lia. }
  unfold restore_vlan. cbn [Z.eqb]. rewrite E. cbn [mbind option_bind]. eexists _, r. split; [done|]. by rewrite <- Hq, <- Hsq.
Qed.

(** A change of the stream itself leaves everything else as it is. *)
Lemma with_stream_frame a f c :
  let c' := with_stream a f c in
  c_endpoints c' = c_endpoints c /\ c_sessions c' = c_sessions c /\ c_network c' = c_network c /\ c_a10nsp c' = c_a10nsp c /\
  c_stream_udp_checksum c' = c_stream_udp_checksum c /\ (forall fl, bbl_stream_index_get c' fl = bbl_stream_index_get c fl).
Proof. by destruct c. Qed.

Lemma steady_ctx m c a f : steady m c -> steady m (with_stream a f c).
Proof. intros []. by destruct c; split. Qed.

Lemma build_network_ctx ses m a f c : build_network ses m (with_stream a f c) = build_network ses m c.
Proof.
  unfold build_network, bbl_network_interface_get. destruct (sc_network_interface (config m)) as [name|]; [|done].
  replace (c_network_list (with_stream a f c)) with (c_network_list c) by (by destruct c).
  induction (c_network_list c) as [|i l IH]; [done|]. cbn [find_network]. rewrite IH. by destruct c.
Qed.

Lemma buildable_ctx m c ses a f : steady m c -> buildable m c ses -> buildable m (with_stream a f c) ses.
Proof.
  intros Hs [Hw Hb]. split; [done|]. destruct Hb as [(s & -> & [] & Hl)|[]]; [left|right].
  - exists s. split; [done|]. split; [|done]. split; try done. rewrite build_network_ctx. by destruct c.
  - pose proof (sy_nat _ _ Hs) as Hn. rewrite dn_direction, Z.eqb_refl, andb_true_r in Hn. destruct c; split; try done. intros E. congruence.
Qed.

Lemma ready_ctx m c ses a f : ready m c ses -> ready m (with_stream a f c) ses.
Proof. intros [Hs Hb]. split; [by apply steady_ctx|]. destruct Hb as [|[? ?]]; [by left|right]. split; [done|by apply buildable_ctx]. Qed.

Lemma in_flight_ctx i m m' ses c a f q p : built_from m m' -> in_flight i m ses c q p -> in_flight i m' ses (with_stream a f c) q p.
Proof.
  intros (B1 & B2 & B3 & B4 & B5 & _) (t & dst & src & s & x & u & b & Hf & Hof & Hq & Hq1 & Hp & Hl & Hacc).
  exists t, dst, src, s, x, u, b. split_and!; try done.
  - unfold of_stream in *. by rewrite B2, B4, B5.
  - unfold accepts in *. rewrite B1. by destruct c.
Qed.

(** * The invariant *)

Section Inv.
Context (malloc : Z -> list Z) (forward : list Z -> list Z) (i : bbl_interface) (a : Z) (c0 : ctx) (s0 : bbl_stream) (ses : option bbl_session).
Hypothesis malloc_size : forall n, 0 <= n -> Z.of_nat (length (malloc n)) = n.
Hypothesis device : forwards forward i (st_main s0) ses c0.
Hypothesis stream : c_streams c0 !! a = Some s0.
Hypothesis index : bbl_stream_index_get c0 (flow_id (st_main s0)) = Some a.
Hypothesis the_ses : stream_session (st_main s0) c0 = Some ses.
Hypothesis max_length : sc_length (config (st_main s0)) + BBL_MAX_STREAM_OVERHEAD <= IO_BUFFER_LEN.

Record net_inv (h : history) (s : bbl_stream) (n : net) : Prop := {
  ni_ctx : n_ctx n = with_stream a (fun _ => s) c0;
  ni_from : built_from (st_main s0) (st_main s);
  ni_ready : ready (st_main s) c0 ses;
  ni_max : max_packets (st_tx s) = 0;
  ni_seq : flow_seq (st_tx s) = Z.succ (h_sent h);
  ni_tx : tx_packets (st_tx s) = u64 (tx_packets (st_tx s0) + h_sent h);
  ni_rx : counted (st_rx s0) (h_delivered h) (st_rx s);
  ni_wire : Forall2 (in_flight i (st_main s0) ses c0) (h_wire h) (n_wire n);
  ni_io : io_interface (n_io n) = i /\ io_vlan_tci (n_io n) = 0
}.

Lemma ctx_stream f : c_streams (with_stream a f c0) !! a = Some (f s0).
Proof. by apply with_stream_lookup_same. Qed.

Lemma built_from_trans m1 m2 m3 : built_from m1 m2 -> built_from m2 m3 -> built_from m1 m3.
Proof. unfold built_from. intuition congruence. Qed.

Lemma carries_built m m' b : built_from m m' -> carries m' ses b -> carries m ses b.
Proof. intros (_ & B2 & _ & B4 & B5 & _). by apply carries_ext. Qed.

Lemma send_step ts h s n : net_inv h s n -> 0 <= h_sent h < 2 ^ 64 - 2 -> 0 <= tv_sec ts < 2 ^ 32 -> 0 <= tv_nsec ts < 2 ^ 32 ->
  exists s' n', net_step malloc forward a (Send ts) n = Some n' /\ net_inv (h_step (Send ts) h) s' n'.
Proof.
  intros [Hc Hb Hr Hmax Hseq Htx Hrx Hw Hio] Hsent Hsec Hns. set (c := with_stream a (fun _ => s) c0) in *.
  assert (Hq : stamp_ok (flow_seq (st_tx s)) ts) by (rewrite Hseq; unfold stamp_ok; lia).
  destruct (io_send_ok malloc a c s ses ts malloc_size (ctx_stream _) (ready_ctx _ _ _ _ _ Hr) Hmax Hq) as (m & b & ep & E & Hf & Hbm).
  unfold net_step. rewrite Hc, E. cbn [mbind option_bind]. rewrite (with_stream_lookup_same a _ s) by apply ctx_stream. cbn [mbind option_bind].
  set (s1 := s {{ st_main := m ; st_tx := (st_tx s) {{ tx_first_epoch := ep }} }}). assert (Hm1 : st_main s1 = m) by by destruct s. rewrite Hm1.
  pose proof Hf as (t & dst & src & sid & x & u & rest & Hfr & Hcar & Hbuf & Hlen & Hmaxl). rewrite Hbuf. cbn [mbind option_bind].
  pose proof (built_from_trans _ _ _ Hb Hbm) as Hb'.
  assert (Hsz : Z.of_nat (length (eth_bytes t dst src sid x u (restamp (flow_seq (st_tx s)) ts b))) <= IO_BUFFER_LEN).
  { rewrite <- Hlen. destruct Hb' as (Bc & _). rewrite Bc in Hmaxl. unfold IO_BUFFER_LEN in *. lia. }
  destruct (device _ _ _ _ _ _ _ Hfr (carries_built _ _ _ Hb' Hcar) Hsz) as (t' & dst' & src' & sid' & x' & u' & b' & Hfr' & Eb & Efwd & Hsz' & Hacc).
  eexists (s1 {{ st_tx ::= (fun t => t {{ tx_packets ::= add64 1 ; flow_seq ::= add64 1 }}) }}), _. split; [done|].
  assert (Hfl : in_flight i (st_main s0) ses c0 (Z.succ (h_sent h)) (forward (take (Z.to_nat (tx_len m)) (eth_bytes t dst src sid x u (restamp (flow_seq (st_tx s)) ts b) ++ rest)))).
  { rewrite Hlen, Nat2Z.id, take_app_length, Efwd. exists t', dst', src', sid', x', u', b'. split; [done|]. rewrite Eb. split; [by apply carries_received, (carries_built _ m)|].
    destruct (received_type b') as [_ <-]. rewrite Eb. destruct (received_type (restamp (flow_seq (st_tx s)) ts b)) as [_ ->].
    split; [rewrite <- Hseq; by destruct b|]. split; [lia|done]. }
  assert (Hsy : steady m c0).
  { eapply steady_built; [..|exact Hbm|apply Hr]; done. }
  assert (Hh : h_step (Send ts) h = mk_history (Z.succ (h_sent h)) (h_wire h ++ [Z.succ (h_sent h)]) (h_delivered h) (h_dropped h)) by (unfold h_step; by destruct h).
  rewrite Hh. clear Hh. subst s1. destruct s as [m0 [x1 x2 x3 x4 x5] r1], n as [nc nio ntxq nw]. cbn [st_main st_tx st_rx n_wire n_io flow_seq tx_packets max_packets] in *. split.
  - unfold n_ctx, io_sent, with_tx. subst c. cbn -[with_stream]. unfold RecordSetters.constant. rewrite !with_stream_twice. by apply (with_stream_ext a _ _ s0).
  - exact Hb'.
  - split; [done|]. left. by eexists.
  - exact Hmax.
  - cbn [st_tx flow_seq h_sent]. cbn. unfold add64. rewrite Hseq, u64_small by lia. lia.
  - cbn. unfold add64. rewrite Htx, u64_add. f_equal. lia.
  - exact Hrx.
  - apply Forall2_app; [done|]. by constructor.
  - exact Hio.
Qed.

Lemma wire_step e h s n : net_inv h s n -> (forall ts, e <> Send ts) ->
  exists s' n', net_step malloc forward a e n = Some n' /\ net_inv (h_step e h) s' n'.
Proof.
  intros Hn He. pose proof Hn as [Hc Hb Hr Hmax Hseq Htx Hrx Hw Hio]. destruct e as [ts| |ts]; [by destruct (He ts)|..]; unfold net_step, h_step.
  - destruct Hw as [|q p qs ps Hp Hw]; [by exists s, n|]. exists s. eexists. split; [done|]. by split; destruct h, n.
  - destruct Hw as [|q p qs ps Hp Hw]; [by exists s, n|]. rewrite Hc.
    destruct (deliver_ok i ses (with_stream a (fun _ => s) c0) a s q p ts (n_io n) (n_txq n) (h_delivered h) (st_rx s0)) as (io' & r & -> & H1 & H2 & Hr'); try done.
    { by apply (in_flight_ctx _ (st_main s0)). }
    { by apply Hio. }
    { by apply Hio. }
    { destruct Hb as (_ & -> & _). by destruct (with_stream_frame a (fun _ => s) c0) as (_ & _ & _ & _ & _ & ->). }
    { apply ctx_stream. }
    { unfold stream_session. destruct Hb as (_ & _ & _ & _ & _ & -> & _). by destruct c0. }
    cbn [mbind option_bind]. exists (s {{ st_rx := r }}). eexists. split; [done|]. destruct s. split; try (by destruct h).
    rewrite with_stream_twice. by apply (with_stream_ext a _ _ s0).
Qed.

(** What a run needs of the events: the times fit into the header. *)
Definition event_ok (e : event) : Prop :=
  match e with Send ts => 0 <= tv_sec ts < 2 ^ 32 /\ 0 <= tv_nsec ts < 2 ^ 32 | _ => True end.

Lemma h_step_sent e h : h_sent (h_step e h) <= h_sent h + 1.
Proof. unfold h_step. destruct e, (h_wire h), h; cbn; lia. Qed.

Lemma h_step_sent_ge e h : h_sent h <= h_sent (h_step e h).
Proof. unfold h_step. destruct e, (h_wire h), h; cbn; lia. Qed.

Lemma net_run_inv es h s n : net_inv h s n -> Forall event_ok es -> 0 <= h_sent h -> h_sent h + Z.of_nat (length es) < 2 ^ 64 - 1 ->
  exists s' n', net_run malloc forward a es n = Some n' /\ net_inv (foldl (flip h_step) h es) s' n'.
Proof.
  revert h s n. induction es as [|e es IH]; intros h s n Hn He H0 Hlen; [by exists s, n|]. apply Forall_cons_1 in He as [He Hes]. cbn [length] in Hlen.
  assert (Hstep : exists s1 n1, net_step malloc forward a e n = Some n1 /\ net_inv (h_step e h) s1 n1).
  { destruct e as [ts| |ts]; [|by eapply wire_step..]. destruct He. by eapply send_step; [|lia|..]. }
  destruct Hstep as (s1 & n1 & E & H1). pose proof (h_step_sent e h). pose proof (h_step_sent_ge e h).
  destruct (IH _ _ _ H1 Hes) as (s' & n' & E' & H'); [lia|lia|]. exists s', n'. split; [|done]. cbn [net_run]. by rewrite E.
Qed.
End Inv.

(** * Claims *)

(** C3. Traffic streams measure loss end to end: a stream that sends (built as in
    StreamFrame.v) over a network that drops packets and otherwise forwards them in
    order to a receiver of the stream, however the device rewrites the headers in
    front of the BBL header.  Every run succeeds: no invalid pointer is followed and
    nothing is written outside of the buffers.  In the end [tx_packets] has grown by
    the number of packets sent, [rx_packets] by the number delivered, [rx_loss] by
    exactly the packets dropped between the first and the last one delivered, and no
    packet was counted as out of order. *)
Theorem stream_end_to_end (malloc forward : _) (i : bbl_interface) (a : Z) (s : bbl_stream) (ses : option bbl_session) (n : net) (es : list event) :
  (forall k, 0 <= k -> Z.of_nat (length (malloc k)) = k) ->
  forwards forward i (st_main s) ses (n_ctx n) ->
  c_streams (n_ctx n) !! a = Some s -> bbl_stream_index_get (n_ctx n) (flow_id (st_main s)) = Some a ->
  stream_session (st_main s) (n_ctx n) = Some ses -> ready (st_main s) (n_ctx n) ses ->
  sc_length (config (st_main s)) + BBL_MAX_STREAM_OVERHEAD <= IO_BUFFER_LEN ->
  max_packets (st_tx s) = 0 -> flow_seq (st_tx s) = 1 -> fresh_rx (st_rx s) -> 0 <= tx_packets (st_tx s) < 2 ^ 64 ->
  io_interface (n_io n) = i /\ io_vlan_tci (n_io n) = 0 -> n_wire n = [] ->
  Forall event_ok es -> Z.of_nat (length es) < 2 ^ 64 - 1 ->
  let h := history_of es in
  exists n' s', net_run malloc forward a es n = Some n' /\ c_streams (n_ctx n') !! a = Some s' /\
    tx_packets (st_tx s') = u64 (tx_packets (st_tx s) + h_sent h) /\
    rx_packets (st_rx s') = u64 (rx_packets (st_rx s) + Z.of_nat (length (h_delivered h))) /\
    rx_loss (st_rx s') = u64 (rx_loss (st_rx s) + Z.of_nat (length (lost_between h))) /\
    rx_wrong_order (st_rx s') = rx_wrong_order (st_rx s).
Proof.
  intros Hmal Hdev Hs Hidx Hses Hr Hlen Hmax Hseq Hf Htx Hio Hw Hes Hn h.
  assert (H0 : net_inv i a (n_ctx n) s ses (mk_history 0 [] [] []) s n).
  { split; [symmetry; by apply (with_stream_id a _ s)|by repeat split|done|done|done|cbn; rewrite u64_small; lia|by apply counted_nil|rewrite Hw; constructor|done]. }
  destruct (net_run_inv malloc forward i a (n_ctx n) s ses Hmal Hdev Hs Hidx Hses Hlen es _ s n H0 Hes) as (s' & n' & E & [Hc _ _ _ _ Ht Hrx _ _]); [done|cbn; lia|].
  exists n', s'. fold h in Ht, Hrx |- *. split; [done|]. split; [rewrite Hc; exact (with_stream_lookup_same a _ s (n_ctx n) Hs)|]. split; [done|].
  destruct Hrx as [Hp Hl Ho _ _ _ Hall]. pose proof (history_of_ok es) as Hok. fold h in Hok. split; [done|].
  rewrite Hl, Ho, missing_dropped, records_rising_id by (try done; apply Hok). split; [done|]. rewrite Nat.sub_diag, Z.add_0_r. apply u64_small, Hf.
Qed.

(** The downstream stream of StreamFrame.v, received by its session on an access
    interface, and a device that sets the address of the session's client. *)
Definition demo_interface : bbl_interface := mk_interface INTERFACE_UP (replicate 4096 None) (Some 9) None.
Definition demo_forward (p : list Z) : list Z := ses_client_mac demo_full_ses ++ drop 6 p.
Definition demo_net_start : net :=
  mk_net demo_tx_ctx (mk_io_handle demo_interface [] 0 (mk_ts 0 0) 0 0 0 0 0 0) (Txq.mk_txq [] 0 0 1 0 0 0) [].
Definition demo_events : list event :=
  [Send (mk_ts 1 0); Send (mk_ts 2 0); Drop; Send (mk_ts 3 0); Deliver (mk_ts 3 5); Send (mk_ts 4 0); Drop; Deliver (mk_ts 4 9)].
Definition demo_sender : bbl_stream := demo_stream {{ st_main := demo_tx_main }}.

Lemma demo_forwards m : sc_rx_mpls1_label (config m) = 0 -> forwards demo_forward demo_interface m (Some demo_full_ses) demo_tx_ctx.
Proof.
  intros Hm t dst src s x u b Hf _ Hl. set (mac := ses_client_mac demo_full_ses). pose proof Hf as [[Hd Hd6] Hsrc Hv Hty Hmp Hraw Hn Hx Hsid].
  assert (Hf' : frame_ok (t {{ eth_dst := Some mac }}) mac src s x u b).
  { by destruct t; split. }
  assert (E : demo_forward (eth_bytes t dst src s x u b) = eth_bytes (t {{ eth_dst := Some mac }}) mac src s x u b).
  { unfold demo_forward, eth_bytes. rewrite drop_app_length' by (rewrite length_take; lia). by destruct t. }
  exists (t {{ eth_dst := Some mac }}), mac, src, s, x, u, b. split; [done|]. split; [done|]. split; [exact E|]. split.
  - rewrite (eth_bytes_length _ _ _ _ _ _ _ Hf'). rewrite (eth_bytes_length _ _ _ _ _ _ _ Hf) in Hl. by destruct t.
  - split; [done|]. split; [done|]. exists None, None. split; [|split; [by exists demo_full_ses|done]].
    apply lookup_replicate_2. destruct Hv as (Hv & _). destruct t; cbn in *. lia.
Qed.

Lemma stream_end_to_end_witness :
  exists n' s', net_run zeros demo_forward 5 demo_events demo_net_start = Some n' /\ c_streams (n_ctx n') !! 5 = Some s' /\
    tx_packets (st_tx s') = u64 (0 + h_sent (history_of demo_events)) /\
    rx_packets (st_rx s') = u64 (0 + Z.of_nat (length (h_delivered (history_of demo_events)))) /\
    rx_loss (st_rx s') = u64 (0 + Z.of_nat (length (lost_between (history_of demo_events)))) /\
    rx_wrong_order (st_rx s') = 0.
Proof.
  apply (stream_end_to_end zeros demo_forward demo_interface 5 demo_sender (Some demo_full_ses) demo_net_start demo_events).
  - intros n Hn. unfold zeros. rewrite length_replicate. lia.
  - by apply demo_forwards.
  - reflexivity.
  - reflexivity.
  - reflexivity.
  - split; [split; try done|right; split; [done|split; [exact demo_stream_wf|right; exact demo_downstream]]].
    intros x [= <-]. by exists demo_full_ses.
  - unfold IO_BUFFER_LEN. cbn. unfold BBL_MAX_STREAM_OVERHEAD. lia.
  - reflexivity.
  - reflexivity.
  - repeat split; cbn; lia.
  - cbn. lia.
  - done.
  - reflexivity.
  - repeat constructor; cbn; lia.
  - cbn. lia.
Defined.
