(* ===== verification/IoStream.v ===== *)
(** The schedule of traffic streams on an I/O handle (io_stream.c and the part of bbl_stream.c
    that takes the next packet from it).

    A handle has a bucket for each rate, with the streams of this rate; [stream_head] and
    [io_next] are a list, and the pointer [stream_cur] is the part of the list that starts
    there, [] being NULL.  Buckets are never freed and known by their number.  Sending a packet
    is a parameter, with a state of its own.  Rates ([double]) are rational numbers. *)
From Stdlib Require Import QArith.
From coqutil Require Import Datatypes.RecordSetters.
From S2P Require Import Prelude.
From S2P Require Import Const.
From S2P Require Import ConstApp.
From S2P Require Import ConstStream.
From S2P Require Import Timer.
Import RecordSetters.DoubleBraceUpdate.
From stdpp Require Import gmap list.
Open Scope Z_scope.

(** * State *)

Record io_bucket := mk_bucket {
  bk_id : Z;
  bk_pps : Q;
  bk_nsec : Z;
  bk_base : Z;
  bk_streams : list Z;   (* stream_head *)
  bk_cur : list Z;       (* stream_cur *)
  bk_count : Z           (* stream_count *)
}.

(** What a handle has of streams: the list at [bucket_head], and [bucket_cur] as an index. *)
Record tx_handle := mk_io {
  io_buckets : list io_bucket;
  io_bucket_cur : Datatypes.nat;
  io_stream_pps : Q;
  io_stream_count : Z;
  io_update_streams : bool
}.

(** What the schedule has of a stream. *)
Record sched := mk_sched {
  sd_flow_id : Z;
  sd_pps : Q;
  sd_expired : Z;
  sd_io : option Z;
  sd_update_pps : bool
}.

(** Streams by address. *)
Abbreviation table := (gmap Z sched).

(** * Buckets *)

(** [SEC / pps] as an integer. *)
Definition period (pps : Q) : Z := SEC * Zpos (Qden pps) / Qnum pps.

Definition Qlt (a b : Q) : bool := negb (Qle_bool b a).

(** The bucket behind which a new one is inserted. *)
Fixpoint place (pps : Q) (l : list io_bucket) : Datatypes.nat :=
  match l with
  | b :: ((_ :: _) as r) => if Qlt pps (bk_pps b) then S (place pps r) else O
  | _ => O
  end.

(** The handle with a new bucket, and its index. *)
Definition bucket_new (pps : Q) (h : tx_handle) : Datatypes.nat * tx_handle :=
  let new := mk_bucket (Z.of_nat (length (io_buckets h))) pps (u64 (period pps)) 0 [] [] 0 in
  match io_buckets h with
  | b :: _ =>
      if Qlt pps (bk_pps b) then
        let i := S (place pps (io_buckets h)) in
        (i, h {{ io_buckets := take i (io_buckets h) ++ [new] ++ drop i (io_buckets h) ;
                 io_bucket_cur ::= (fun c => if (i <=? c)%nat then S c else c) }})
      else (O, h {{ io_buckets ::= cons new ; io_bucket_cur := O }})
  | [] => (O, h {{ io_buckets := [new] ; io_bucket_cur := O }})
  end.

Definition bucket_stream_add (a : Z) (b : io_bucket) : io_bucket := b {{ bk_streams ::= cons a ; bk_count ::= (fun n => u32 (n + 1)) }}.

(** [moved] is what is in front of the list, [kept] what was passed, the last one first; the
    third stream is the one at the pointer. *)
Fixpoint shuffle (third : Z -> bool) (moved kept rest : list Z) : list Z :=
  match rest with
  | x :: ((n :: r) as l) => if third n then shuffle third (n :: moved) (x :: kept) r else shuffle third moved (x :: kept) l
  | rest => moved ++ rev kept ++ rest
  end.

Definition third_flow (t : table) (a : Z) : bool := match t !! a with Some s => sd_flow_id s mod 3 =? 0 | None => false end.

Definition bucket_shuffle (t : table) (b : io_bucket) : io_bucket :=
  b {{ bk_streams := (if bk_count b =? 0 then bk_streams b else shuffle (third_flow t) [] [] (bk_streams b)) ; bk_cur := [] }}.

(** The expirations of a bucket, one step apart. *)
Fixpoint spread (step nsec : Z) (l : list Z) (t : table) : table :=
  match l with
  | [] => t
  | a :: l => let nsec := u64 (nsec + step) in spread step nsec l (alter (fun s => s {{ sd_expired := nsec }}) a t)
  end.

Definition bucket_smear (b : io_bucket) (t : table) : io_bucket * table :=
  if bk_count b =? 0 then (b, t)
  else (b {{ bk_base := 0 ; bk_cur := [] }}, spread (bk_nsec b / bk_count b) 0 (bk_streams b) t).

(** * Handles *)

Definition of_rate (pps : Q) (b : io_bucket) : bool := Qeq_bool (bk_pps b) pps.
Fixpoint find_rate (pps : Q) (l : list io_bucket) (i : Datatypes.nat) : option Datatypes.nat :=
  match l with [] => None | b :: l => if of_rate pps b then Some i else find_rate pps l (S i) end.

(** [io] is the address of the handle [h]. *)
Definition io_stream_add (io a : Z) (h : tx_handle) (t : table) : option (tx_handle * table) :=
  s ← t !! a;
  let t := <[a := s {{ sd_io := Some io }}]> t in
  let h := h {{ io_stream_pps := (io_stream_pps h + sd_pps s)%Q ; io_stream_count ::= (fun n => u32 (n + 1)) }} in
  let '(i, h) := match find_rate (sd_pps s) (io_buckets h) 0 with Some i => (i, h) | None => bucket_new (sd_pps s) h end in
  Some (h {{ io_buckets ::= alter (bucket_stream_add a) i }}, t).

Definition bucket_clear (b : io_bucket) : io_bucket := b {{ bk_count := 0 ; bk_streams := [] ; bk_cur := [] }}.
Definition io_stream_clear (h : tx_handle) : tx_handle := h {{ io_stream_pps := 0%Q ; io_stream_count := 0 ; io_buckets ::= map bucket_clear }}.

Fixpoint smear_list (l : list io_bucket) (t : table) : list io_bucket * table :=
  match l with
  | [] => ([], t)
  | b :: l =>
      let '(b, t) := bucket_smear (bucket_shuffle t b) t in
      let '(l, t) := smear_list l t in (b :: l, t)
  end.
Definition io_stream_smear (h : tx_handle) (t : table) : tx_handle * table :=
  let '(l, t) := smear_list (io_buckets h) t in (h {{ io_buckets := l }}, t).

(** ** Changed rates *)

(** A stream leaves its bucket: from behind [stream_prev], or at what the code takes for the
    head.  The counter of the bucket is not changed. *)
Definition unlink (a : Z) (prev : bool) (next : list Z) (b : io_bucket) : io_bucket :=
  b {{ bk_streams := if prev then filter (fun x => x <> a) (bk_streams b) else next }}.

Definition at_bucket (id : Z) (f : io_bucket -> io_bucket) (h : tx_handle) : tx_handle :=
  h {{ io_buckets ::= map (fun b => if bk_id b =? id then f b else b) }}.

Fixpoint update_streams (io id : Z) (prev : bool) (l : list Z) (h : tx_handle) (t : table) : option (tx_handle * table) :=
  match l with
  | [] => Some (h, t)
  | a :: l =>
      s ← t !! a;
      if sd_update_pps s then
        let h := at_bucket id (unlink a prev l) h in
        let h := h {{ io_stream_count ::= (fun n => u32 (n - 1)) ; io_stream_pps := (io_stream_pps h - sd_pps s)%Q }} in
        '(h, t) ← io_stream_add io a h t;
        update_streams io id prev l h (alter (fun s => s {{ sd_update_pps := false }}) a t)
      else update_streams io id true l h t
  end.

Fixpoint update_buckets (io : Z) (ids : list Z) (h : tx_handle) (t : table) : option (tx_handle * table) :=
  match ids with
  | [] => Some (h, t)
  | id :: ids =>
      b ← List.find (fun b => bk_id b =? id) (io_buckets h);
      '(h, t) ← update_streams io id false (bk_streams b) h t;
      update_buckets io ids h t
  end.

(** The buckets that are created on the way have no stream that is to be moved. *)
Definition io_stream_update_pps (io : Z) (h : tx_handle) (t : table) : option (tx_handle * table) :=
  '(h, t) ← update_buckets io (map bk_id (io_buckets h)) h t;
  let '(h, t) := io_stream_smear h t in
  Some (h {{ io_update_streams := false }}, t).

(** * Sending *)

Definition bbl_stream_io_stop (h : tx_handle) : tx_handle := h {{ io_buckets ::= map (fun b => b {{ bk_base := 0 ; bk_cur := [] }}) }}.

Section send.
Context {W : Type} (send : Z -> W -> option (bool * W)) (burst : Z).

(** What the loop over the streams of a bucket ends with. *)
Inductive round_end := sent (a : Z) (rest : list Z) | not_due (at_ : list Z) | no_stream.

Fixpoint send_streams (t : table) (expired : Z) (l : list Z) (w : W) : option (round_end * W) :=
  match l with
  | [] => Some (no_stream, w)
  | a :: r =>
      s ← t !! a;
      if expired <? sd_expired s then Some (not_due l, w)
      else
        '(ok, w) ← send a w;
        if (ok : bool) then Some (sent a r, w) else send_streams t expired r w
  end.

(** A new round of the bucket when the last one is over. *)
Definition new_round (now : Z) (b : io_bucket) : io_bucket :=
  if bool_decide (bk_cur b = []) then
    let min := u64 (now - burst) in
    b {{ bk_cur := bk_streams b ;
         bk_base := if bk_base b =? 0 then now else let base := u64 (bk_base b + bk_nsec b) in if base <? min then min else base }}
  else b.

(** One bucket: the stream that was sent, if any. *)
Definition send_bucket (now : Z) (t : table) (b : io_bucket) (w : W) : option (option Z * io_bucket * W) :=
  let b := new_round now b in
  if now <=? bk_base b then Some (None, b, w)
  else
    '(r, w) ← send_streams t (now - bk_base b) (bk_cur b) w;
    Some (match r with
          | sent a rest => (Some a, b {{ bk_cur := rest }}, w)
          | not_due l => (None, b {{ bk_cur := l }}, w)
          | no_stream =>
              let b := if bool_decide (bk_cur b = bk_streams b) then b {{ bk_base := 0 }} else b in
              (None, b {{ bk_cur := [] }}, w)
          end).

(** The buckets from the current one on, once around. *)
Fixpoint send_from (now : Z) (t : table) (order : list Datatypes.nat) (h : tx_handle) (w : W) : option (option Z * tx_handle * W) :=
  match order with
  | [] => Some (None, h, w)
  | i :: order =>
      b ← io_buckets h !! i;
      '(r, b, w) ← send_bucket now t b w;
      let h := h {{ io_buckets ::= <[i := b]> }} in
      match r with
      | Some a => Some (Some a, h {{ io_bucket_cur := i }}, w)
      | None => send_from now t order h w
      end
  end.

Definition around (h : tx_handle) : list Datatypes.nat :=
  let n := length (io_buckets h) in seq (io_bucket_cur h) (n - io_bucket_cur h) ++ seq 0 (io_bucket_cur h).

Definition bbl_stream_io_send_iter (now : Z) (t : table) (h : tx_handle) (w : W) : option (option Z * tx_handle * W) :=
  send_from now t (around h) h w.

End send.
