(* ===== verification/IoRate.v ===== *)
(** The rate at which an I/O handle sends its streams.

    [paced] is the invariant of a bucket: [cnt] are the packets of each stream so far, [t0] is
    the time of the first call and [T] of the last one.  A stream has sent at most once for
    each period, and not yet in this round when it is still ahead of [stream_cur]. *)
From Stdlib Require Import QArith.
From coqutil Require Import Datatypes.RecordSetters.
From S2P Require Import Prelude.
From S2P Require Import Const.
From S2P Require Import ConstApp.
From S2P Require Import ConstStream.
From S2P Require Import Timer.
From S2P Require Import IoStream.
Import RecordSetters.DoubleBraceUpdate.
From stdpp Require Import gmap list.
Open Scope Z_scope.

(** * Counting *)

Definition counted_up (cnt : Z -> Z) (r : option Z) (a : Z) : Z := cnt a + if decide (r = Some a) then 1 else 0.

Lemma up_none cnt a : counted_up cnt None a = cnt a.
Proof. unfold counted_up. rewrite decide_False by done. lia. Qed.
Lemma up_same cnt a : counted_up cnt (Some a) a = cnt a + 1.
Proof. unfold counted_up. by rewrite decide_True. Qed.
Lemma up_other cnt a b : a <> b -> counted_up cnt (Some a) b = cnt b.
Proof. intros H. unfold counted_up. rewrite decide_False by congruence. lia. Qed.

Ltac bucket_cases b := destruct b as [id pps nsec base streams cur count]; cbn in *; unfold RecordSetters.constant in *.

(** * The invariant of a bucket *)

Section rate.
Context {W : Type} (send : Z -> W -> option (bool * W)) (burst t0 : Z).
Context (Hburst : 0 <= burst < 2 ^ 62) (Ht0 : 0 < t0).

Record paced (T : Z) (cnt : Z -> Z) (b : io_bucket) : Prop := {
  pc_streams : bk_streams b <> [] /\ NoDup (bk_streams b);
  pc_cur : exists pre, bk_streams b = pre ++ bk_cur b;
  pc_nsec : 0 < bk_nsec b < 2 ^ 62;
  pc_base : bk_base b = 0 \/ t0 <= bk_base b <= T + bk_nsec b;
  pc_open : bk_cur b <> [] -> bk_base b <> 0;
  pc_over : bk_cur b = [] -> bk_base b <> 0 -> bk_base b < T;
  pc_all : forall a, a ∈ bk_streams b -> cnt a * bk_nsec b <= T - t0 + bk_nsec b;
  pc_ahead : forall a, a ∈ bk_cur b -> cnt a * bk_nsec b <= bk_base b - t0;
  pc_behind : bk_base b <> 0 -> forall a, a ∈ bk_streams b -> cnt a * bk_nsec b <= bk_base b - t0 + bk_nsec b;
  pc_idle : bk_base b = 0 -> forall a, a ∈ bk_streams b -> cnt a * bk_nsec b <= T - t0
}.

Lemma paced_later T now cnt cnt' b : T <= now -> (forall a, a ∈ bk_streams b -> cnt' a = cnt a) -> paced T cnt b -> paced now cnt' b.
Proof.
  clear Hburst Ht0. intros Hn Hc [H1 [pre H2] H3 H4 H5 H6 H7 H8 H9 H10].
  assert (Hcur : forall a, a ∈ bk_cur b -> cnt' a = cnt a) by (intros a Ha; apply Hc; rewrite H2, elem_of_app; by right).
  split; try done.
  - by exists pre.
  - destruct H4 as [H4|H4]; [by left|right; lia].
  - intros E1 E2. specialize (H6 E1 E2). lia.
  - intros a Ha. rewrite Hc by done. specialize (H7 a Ha). lia.
  - intros a Ha. rewrite Hcur by done. by apply H8.
  - intros Hb a Ha. rewrite Hc by done. by apply H9.
  - intros Hb a Ha. rewrite Hc by done. specialize (H10 Hb a Ha). lia.
Qed.

Lemma u64_id n : 0 <= n < 2 ^ 64 -> u64 n = n.
Proof. intros H. by apply u64_small. Qed.

Lemma paced_round T now cnt b : T <= now -> t0 <= now -> burst <= now -> now < 2 ^ 62 -> paced T cnt b ->
  paced now cnt (new_round burst now b) /\ bk_cur (new_round burst now b) <> [] /\ bk_streams (new_round burst now b) = bk_streams b
  /\ bk_nsec (new_round burst now b) = bk_nsec b.
Proof.
  intros HT Hnow Hb Hmax Hp. unfold new_round. case_bool_decide as Hcur; [|split_and!; try done; by apply (paced_later T now cnt)].
  destruct Hp as [[H1 H1'] [pre H2] H3 H4 H5 H6 H7 H8 H9 H10]. rewrite u64_id by lia.
  set (base := if bk_base b =? 0 then now else _).
  assert (Hbase : t0 <= base <= now + bk_nsec b /\ forall a, a ∈ bk_streams b -> cnt a * bk_nsec b <= base - t0).
  { subst base. destruct (Z.eqb_spec (bk_base b) 0) as [Hz|Hz]; cbv iota zeta.
    - split; [lia|]. intros a Ha. specialize (H10 Hz a Ha). lia.
    - specialize (H6 Hcur Hz). destruct H4 as [H4|H4]; [done|]. rewrite u64_id by lia.
      assert (forall a, a ∈ bk_streams b -> cnt a * bk_nsec b <= bk_base b + bk_nsec b - t0) as Hc.
      { intros a Ha. specialize (H9 Hz a Ha). lia. }
      destruct (Z.ltb_spec (bk_base b + bk_nsec b) (now - burst)); (split; [lia|]); intros a Ha; specialize (Hc a Ha); lia. }
  clearbody base. destruct Hbase as [Hr Hc]. split_and!; try done.
  destruct b as [id pps nsec base0 streams cur count]; cbn in *. split; cbn; unfold RecordSetters.constant; try done.
  - by exists [].
  - right. lia.
  - intros _. lia.
  - intros a Ha. specialize (H7 a Ha). lia.
  - intros _ a Ha. specialize (Hc a Ha). lia.
  - lia.
Qed.

(** What the loop over the streams does. *)
Lemma send_streams_cases t expired l : forall w r w', send_streams send t expired l w = Some (r, w') ->
  match r with
  | sent a rest => exists pre, l = pre ++ a :: rest
  | not_due l' => l' <> [] /\ exists pre, l = pre ++ l'
  | no_stream => True
  end.
Proof.
  induction l as [|a l IH]; intros w r w'; cbn [send_streams]; [by intros [= <- <-]|].
  destruct (t !! a) as [s|]; cbn [mbind option_bind]; [|done]. destruct (expired <? sd_expired s).
  - intros [= <- <-]. split; [done|]. by exists [].
  - destruct (send a w) as [[ok w1]|]; cbn [mbind option_bind]; [|done]. destruct ok.
    + intros [= <- <-]. by exists [].
    + intros H. specialize (IH _ _ _ H). destruct r as [x rest|l'|]; [|destruct IH as [Hne IH]|done].
      * destruct IH as [pre ->]. by exists (a :: pre).
      * split; [done|]. destruct IH as [pre ->]. by exists (a :: pre).
Qed.

Lemma paced_sent now cnt b a pre rest : paced now cnt b -> bk_base b < now -> bk_cur b = pre ++ a :: rest ->
  paced now (counted_up cnt (Some a)) (b {{ bk_cur := rest }}).
Proof.
  intros [[H1 H1'] [p H2] H3 H4 H5 H6 H7 H8 H9 H10] Hb Hc. bucket_cases b.
  assert (Hz : base <> 0) by (apply H5; rewrite Hc; by destruct pre).
  assert (Ha : cnt a * nsec <= base - t0) by (apply H8; rewrite Hc, elem_of_app; right; by left).
  assert (Hr : forall x, x ∈ rest -> x <> a).
  { intros x Hx ->. rewrite H2, Hc in H1'. apply NoDup_app in H1' as (_ & _ & H1'). apply NoDup_app in H1' as (_ & _ & H1'). by apply NoDup_cons in H1' as [? _]. }
  split; cbn; unfold RecordSetters.constant; try done.
  - exists (p ++ pre ++ [a]). by rewrite H2, Hc, <- !app_assoc.
  - intros x Hx. destruct (decide (x = a)) as [->|Hne]; [rewrite up_same; lia|]. rewrite up_other by done. by apply H7.
  - intros x Hx. rewrite up_other by (intros ->; by eapply Hr). apply H8. rewrite Hc, elem_of_app. right. by right.
  - intros _ x Hx. destruct (decide (x = a)) as [->|Hne]; [rewrite up_same; lia|]. rewrite up_other by done. by apply H9.
Qed.

Lemma paced_bucket T now cnt t b w r b' w' : T <= now -> t0 <= now -> burst <= now -> now < 2 ^ 62 -> paced T cnt b ->
  send_bucket send burst now t b w = Some (r, b', w') ->
  paced now (counted_up cnt r) b' /\ bk_streams b' = bk_streams b /\ bk_nsec b' = bk_nsec b /\ (forall a, r = Some a -> a ∈ bk_streams b).
Proof.
  intros HT Ht Hb Hmax Hp. destruct (paced_round T now cnt b HT Ht Hb Hmax Hp) as (Hp' & Hcur & Hs & Hn). unfold send_bucket. rewrite <- Hs, <- Hn.
  set (b1 := new_round burst now b) in *. clearbody b1. clear b Hs Hn Hp.
  assert (Hnone : paced now (counted_up cnt None) b1) by (apply (paced_later now now cnt); [lia|intros; apply up_none|done]).
  destruct (Z.leb_spec now (bk_base b1)) as [Hle|Hlt]; [intros [= <- <- <-]; split_and!; done|].
  destruct (send_streams send t (now - bk_base b1) (bk_cur b1) w) as [[x w1]|] eqn:E; cbn [mbind option_bind]; [|done].
  pose proof (send_streams_cases _ _ _ _ _ _ E) as Hx. destruct x as [a rest|l|].
  - destruct Hx as [pre Hpre]. intros [= <- <- <-]. split; [by eapply paced_sent|]. split_and!; try done.
    intros y [= ->]. destruct (pc_cur _ _ _ Hp') as [p ->]. rewrite Hpre, !elem_of_app. right. right. by left.
  - destruct Hx as [Hl [pre Hpre]]. intros [= <- <- <-]. split_and!; try done. destruct Hnone as [H1 [p H2] H3 H4 H5 H6 H7 H8 H9 H10]. bucket_cases b1.
    split; cbn; unfold RecordSetters.constant; try done.
    + exists (p ++ pre). by rewrite H2, Hpre, <- app_assoc.
    + intros _. by apply H5.
    + intros y Hy. apply H8. rewrite Hpre, elem_of_app. by right.
  - intros [= <- <- <-]. destruct Hnone as [H1 [p H2] H3 H4 H5 H6 H7 H8 H9 H10]. bucket_cases b1. specialize (H5 Hcur).
    case_bool_decide as Hall; (split; [|done]); split; cbn; unfold RecordSetters.constant; try done.
    + by exists streams; rewrite app_nil_r.
    + by left.
    + by intros y Hy%elem_of_nil.
    + intros _ y Hy. rewrite <- Hall in Hy. specialize (H8 y Hy). lia.
    + by exists streams; rewrite app_nil_r.
    + by intros y Hy%elem_of_nil.
Qed.

(** A bucket without streams sends nothing. *)
Definition vacant (b : io_bucket) : Prop := bk_streams b = [] /\ bk_cur b = [].

Lemma vacant_bucket now t b w : vacant b ->
  exists b', send_bucket send burst now t b w = Some (None, b', w) /\ vacant b' /\ bk_nsec b' = bk_nsec b.
Proof.
  intros [H1 H2]. unfold send_bucket, new_round. rewrite (bool_decide_eq_true_2 _ H2). bucket_cases b. subst. destruct (now <=? _); eexists; split; try reflexivity; done.
Qed.

Definition calm (T : Z) (cnt : Z -> Z) (b : io_bucket) : Prop := vacant b \/ paced T cnt b.

Lemma calm_later T now cnt cnt' b : T <= now -> (forall a, a ∈ bk_streams b -> cnt' a = cnt a) -> calm T cnt b -> calm now cnt' b.
Proof. intros HT Hc [Hv|Hp]; [by left|right; by eapply paced_later]. Qed.

Lemma vacant_not b a : a ∈ bk_streams b -> ~ vacant b.
Proof. intros Ha [Hv _]. rewrite Hv in Ha. by apply elem_of_nil in Ha. Qed.
Lemma calm_paced T cnt b a : a ∈ bk_streams b -> calm T cnt b -> paced T cnt b.
Proof. intros Ha [Hv|Hp]; [by destruct (vacant_not _ _ Ha)|done]. Qed.

Lemma calm_bucket T now cnt t b w r b' w' : T <= now -> t0 <= now -> burst <= now -> now < 2 ^ 62 -> calm T cnt b ->
  send_bucket send burst now t b w = Some (r, b', w') ->
  calm now (counted_up cnt r) b' /\ bk_streams b' = bk_streams b /\ bk_nsec b' = bk_nsec b /\ (forall a, r = Some a -> a ∈ bk_streams b).
Proof.
  intros HT Ht Hb Hmax [Hv|Hp] E.
  - destruct (vacant_bucket now t b w Hv) as (b1 & E1 & Hv1 & Hn). rewrite E1 in E. injection E as <- <- <-. destruct Hv as [Hv _].
    split_and!; [by left|destruct Hv1 as [Hv1 _]; by rewrite Hv, Hv1|done|done].
  - destruct (paced_bucket T now cnt t b w r b' w' HT Ht Hb Hmax Hp E) as (H1 & H2 & H3 & H4). split_and!; [by right|done..].
Qed.

(** * Handles *)

(** Every stream is in one bucket. *)
Definition separate (l : list io_bucket) : Prop :=
  forall i j b1 b2 a, l !! i = Some b1 -> l !! j = Some b2 -> a ∈ bk_streams b1 -> a ∈ bk_streams b2 -> i = j.

Definition shape (l : list io_bucket) : list (list Z * Z) := map (fun b => (bk_streams b, bk_nsec b)) l.

Lemma shape_insert i b b' l : l !! i = Some b -> bk_streams b' = bk_streams b -> bk_nsec b' = bk_nsec b -> shape (<[i := b']> l) = shape l.
Proof.
  intros Hi Hs Hn. unfold shape. change (map ?f ?l) with (f <$> l). rewrite list_fmap_insert. apply list_insert_id. by rewrite list_lookup_fmap, Hi, Hs, Hn.
Qed.
Lemma shape_lookup l l' i b : shape l = shape l' -> l !! i = Some b -> exists b', l' !! i = Some b' /\ bk_streams b' = bk_streams b /\ bk_nsec b' = bk_nsec b.
Proof.
  intros H Hi. apply (f_equal (lookup i)) in H. unfold shape in H. change (map ?f ?l) with (f <$> l) in H. rewrite !list_lookup_fmap, Hi in H.
  destruct (l' !! i) as [b'|]; [|done]. injection H as H1 H2. by exists b'.
Qed.
Lemma separate_shape l l' : shape l = shape l' -> separate l -> separate l'.
Proof.
  intros H Hs i j b1 b2 a Hi Hj H1 H2. destruct (shape_lookup l' l i b1 (eq_sym H) Hi) as (c1 & Hc1 & E1 & _).
  destruct (shape_lookup l' l j b2 (eq_sym H) Hj) as (c2 & Hc2 & E2 & _). rewrite <- E1 in H1. rewrite <- E2 in H2. by eapply Hs.
Qed.

Lemma calm_insert now cnt l i b b' r : Forall (calm now cnt) l -> separate l -> l !! i = Some b -> bk_streams b' = bk_streams b ->
  (forall a, r = Some a -> a ∈ bk_streams b) -> calm now (counted_up cnt r) b' -> Forall (calm now (counted_up cnt r)) (<[i := b']> l).
Proof.
  intros Hl Hs Hi Hb Hr Hp. apply Forall_lookup. intros j c Hj. destruct (decide (i = j)) as [<-|Hne].
  - rewrite list_lookup_insert_eq in Hj by (by eapply lookup_lt_Some). by injection Hj as <-.
  - rewrite list_lookup_insert_ne in Hj by done. apply (calm_later now now cnt); [lia| |by eapply Forall_lookup_1].
    intros a Ha. destruct r as [x|]; [|apply up_none]. apply up_other. intros ->. apply Hne. by eapply Hs, Ha; [|apply Hj|apply Hr].
Qed.

Lemma calm_from now cnt t order : t0 <= now -> burst <= now -> now < 2 ^ 62 -> forall h w r h' w', Forall (calm now cnt) (io_buckets h) -> separate (io_buckets h) ->
  send_from send burst now t order h w = Some (r, h', w') ->
  Forall (calm now (counted_up cnt r)) (io_buckets h') /\ shape (io_buckets h') = shape (io_buckets h).
Proof.
  intros Ht Hb Hmax. induction order as [|i order IH]; intros h w r h' w' Hl Hs; cbn [send_from].
  - intros [= <- <- <-]. split; [|done]. eapply Forall_impl; [exact Hl|]. intros b. apply calm_later; [lia|intros; apply up_none].
  - destruct (io_buckets h !! i) as [b|] eqn:Ei; cbn [mbind option_bind]; [|done].
    destruct (send_bucket send burst now t b w) as [[[r1 b1] w1]|] eqn:E; cbn [mbind option_bind]; [|done].
    destruct (calm_bucket now now cnt t b w r1 b1 w1) as (Hp & E1 & E2 & Hr); try done; [by eapply Forall_lookup_1|].
    pose proof (calm_insert now cnt _ i b b1 r1 Hl Hs Ei E1 Hr Hp) as Hl'. pose proof (shape_insert i b b1 _ Ei E1 E2) as Hsh.
    destruct r1 as [a|]; [intros [= <- <- <-]; by split|].
    intros H. destruct (IH (h {{ io_buckets ::= <[i := b1]> }}) w1 r h' w') as [H1 H2]; [| |done|].
    + eapply Forall_impl; [exact Hl'|]. intros c. apply calm_later; [lia|]. intros x _. symmetry. apply up_none.
    + by apply (separate_shape (io_buckets h)).
    + split; [done|]. by rewrite H2, <- Hsh.
Qed.

End rate.

(** * The upper bound *)

Section times.
Context {W : Type} (send : Z -> Z -> W -> option (bool * W)) (burst t0 : Z).
Context (Hburst : 0 <= burst < 2 ^ 62) (Ht0 : 0 < t0).

(** Calls at the given times, and the streams that were sent.  What [send] does may depend on
    the time. *)
Fixpoint calls (t : table) (times : list Z) (h : tx_handle) (w : W) : option (list Z * tx_handle * W) :=
  match times with
  | [] => Some ([], h, w)
  | now :: times =>
      '(r, h, w) ← bbl_stream_io_send_iter (send now) burst now t h w;
      '(l, h, w) ← calls t times h w;
      Some (match r with Some a => a :: l | None => l end, h, w)
  end.

Definition packets (a : Z) (l : list Z) : Z := Z.of_nat (length (filter (fun x => x = a) l)).

Lemma packets_cons a r l : packets a (match r with Some x => x :: l | None => l end) = (if decide (r = Some a) then 1 else 0) + packets a l.
Proof.
  unfold packets. destruct r as [x|]; [|rewrite decide_False by done; lia]. rewrite filter_cons. destruct (decide (x = a)) as [->|Hne].
  - rewrite decide_True by done. cbn [length]. lia.
  - rewrite decide_False by congruence. lia.
Qed.

(** Times in order from [T] on, and the last of them. *)
Fixpoint ordered (T : Z) (times : list Z) : Prop := match times with [] => True | now :: times => T <= now < 2 ^ 62 /\ ordered now times end.
Definition last_time (T : Z) (times : list Z) : Z := List.last times T.

Lemma last_time_cons T now times : last_time T (now :: times) = last_time now times.
Proof. unfold last_time. destruct times as [|x times]; [done|]. change (List.last (now :: x :: times) T) with (List.last (x :: times) T). revert x. induction times as [|y times IH]; intros x; [done|]. apply IH. Qed.

Lemma calm_calls t times : forall T cnt h w l h' w', Forall (calm t0 T cnt) (io_buckets h) -> separate (io_buckets h) -> t0 <= T -> burst <= T -> ordered T times ->
  calls t times h w = Some (l, h', w') ->
  Forall (calm t0 (last_time T times) (fun a => cnt a + packets a l)) (io_buckets h') /\ shape (io_buckets h') = shape (io_buckets h).
Proof.
  induction times as [|now times IH]; intros T cnt h w l h' w' Hl Hs Ht Hb Hord; cbn [calls].
  - intros [= <- <- <-]. split; [|done]. eapply Forall_impl; [exact Hl|]. intros b. apply calm_later; [cbn; lia|]. intros a _. change (packets a []) with 0. lia.
  - destruct Hord as [[HT Hmax] Hord]. unfold bbl_stream_io_send_iter. destruct (send_from (send now) burst now t (around h) h w) as [[[r h1] w1]|] eqn:E; cbn [mbind option_bind]; [|done].
    apply (calm_from (send now) burst t0 Hburst Ht0 now cnt) in E as [H1 H2]; [|lia|lia|done|eapply Forall_impl; [exact Hl|]; intros b; by apply calm_later|done].
    destruct (calls t times h1 w1) as [[[l1 h2] w2]|] eqn:Ec; cbn [mbind option_bind]; [|done]. intros [= <- <- <-].
    apply (IH now (counted_up cnt r)) in Ec as [H3 H4]; [|done|by apply (separate_shape (io_buckets h))|lia|lia|done].
    rewrite last_time_cons. split; [|by rewrite H4]. eapply Forall_impl; [exact H3|]. intros b. apply calm_later; [lia|]. intros a _. rewrite packets_cons. unfold counted_up. lia.
Qed.

(** A handle before its first call: no round of a bucket with streams has begun. *)
Record idle (l : list io_bucket) : Prop := {
  id_buckets : Forall (fun b => vacant b \/ bk_streams b <> [] /\ NoDup (bk_streams b) /\ 0 < bk_nsec b < 2 ^ 62 /\ bk_base b = 0 /\ bk_cur b = []) l;
  id_separate : separate l
}.

Lemma idle_calm l : idle l -> Forall (calm t0 t0 (fun _ => 0)) l.
Proof.
  intros [H _]. eapply Forall_impl; [exact H|]. intros b [Hv|(H1 & H2 & H3 & H4 & H5)]; [by left|right]. split; try done.
  - exists (bk_streams b). by rewrite H5, app_nil_r.
  - by left.
  - intros a _. lia.
  - intros a. rewrite H5. by intros Ha%elem_of_nil.
  - intros _ a _. lia.
Qed.

End times.

(** ** The rate is never exceeded *)

(** C6. Whatever the streams do when they are to send, and whenever the handle is asked for the
    next packet: a stream has sent at most one packet more than there are whole periods of its
    bucket since the first call, however late the calls came and however large the burst is. *)
Theorem stream_rate_bounded {W} (send : Z -> Z -> W -> option (bool * W)) burst t0 t times h w l h' w' i b a :
  idle (io_buckets h) -> 0 <= burst <= t0 -> 0 < t0 < 2 ^ 62 -> ordered t0 times ->
  calls send burst t times h w = Some (l, h', w') ->
  io_buckets h !! i = Some b -> a ∈ bk_streams b ->
  (packets a l - 1) * bk_nsec b <= last_time t0 times - t0.
Proof.
  intros Hi Hb Ht0 Hord H Hl Ha.
  apply (calm_calls send burst t0 ltac:(lia) ltac:(lia) t times t0 (fun _ => 0)) in H as [Hp Hs]; [|by apply idle_calm|by destruct Hi|lia|lia|done].
  destruct (shape_lookup _ _ i b (eq_sym Hs) Hl) as (b' & Hb' & E1 & E2).
  rewrite <- E1 in Ha. pose proof (pc_all _ _ _ _ (calm_paced _ _ _ _ _ Ha (Forall_lookup_1 _ _ _ _ Hp Hb')) a Ha) as Hall. rewrite E2 in Hall. lia.
Qed.

(** Two streams of 1000 packets per second; calls each half a millisecond. *)
Definition demo_handle : tx_handle := mk_io [mk_bucket 0 1000%Q 1000000 0 [1; 2] [] 2] 0 2000%Q 2 false.
Definition demo_table : table := {[ 1 := mk_sched 1 1000%Q 500000 (Some 0) false ; 2 := mk_sched 2 1000%Q 1000000 (Some 0) false ]}.
Definition demo_times : list Z := [1000000000; 1000500000; 1001000000; 1001500000; 1002000000; 1002500000].
Definition demo_send (now a : Z) (w : Z) : option (bool * Z) := Some (true, w + 1).

Lemma demo_idle : idle (io_buckets demo_handle).
Proof.
  split.
  - constructor; [|constructor]. right. split_and!; [done|by apply (bool_decide_unpack _)|done|done|done|done].
  - intros [|i] [|j] b1 b2 a H1 H2 _ _; by cbn in *.
Qed.

Lemma stream_rate_bounded_witness : exists l h' w',
  calls demo_send 100000000 demo_table demo_times demo_handle 0 = Some (l, h', w') /\ packets 1 l = 3 /\ (packets 1 l - 1) * 1000000 <= last_time 1000000000 demo_times - 1000000000.
Proof.
  destruct (calls demo_send 100000000 demo_table demo_times demo_handle 0) as [[[l h'] w']|] eqn:E; [|by vm_compute in E].
  exists l, h', w'. split; [done|]. split; [by vm_compute in E; injection E as <- _ _|].
  apply (stream_rate_bounded demo_send 100000000 1000000000 demo_table demo_times demo_handle 0 l h' w' 0%nat (mk_bucket 0 1000%Q 1000000 0 [1; 2] [] 2) 1 demo_idle ltac:(lia) ltac:(lia)); [|exact E|done|by left].
  cbn. lia.
Defined.
