(* ===== verification/IoExact.v ===== *)
(** The traffic streams of an I/O handle are sent at their rate.

    [timely] is the invariant of a bucket that is asked often enough, [settled] what holds of it
    when nothing more is due; [jobs] are the calls of a transmit job at the given times, each of
    them with a limited number of packets. *)
From Stdlib Require Import QArith.
From coqutil Require Import Datatypes.RecordSetters.
From S2P Require Import Prelude.
From S2P Require Import Const.
From S2P Require Import ConstApp.
From S2P Require Import ConstStream.
From S2P Require Import Timer.
From S2P Require Import IoStream.
From S2P Require Import IoRate.
Import RecordSetters.DoubleBraceUpdate.
From stdpp Require Import gmap list.
Open Scope Z_scope.

(** * Buckets *)

Section always.
Context {W : Type} (send : Z -> W -> option (bool * W)) (burst t0 : Z).
Context (Hburst : 0 <= burst < 2 ^ 62) (Ht0 : 0 < t0).
Context (Hsend : forall a w, exists w', send a w = Some (true, w')) (t : table).

(** The streams are known and expire within the period of their bucket. *)
Definition in_period (b : io_bucket) : Prop := forall a, a ∈ bk_streams b -> exists s, t !! a = Some s /\ sd_expired s <= bk_nsec b.

(** A bucket that has kept up, at the first call or later. *)
Definition timely (now : Z) (cnt : Z -> Z) (b : io_bucket) : Prop :=
  (bk_base b = 0 /\ bk_cur b = [] /\ now = t0 /\ forall a, a ∈ bk_streams b -> cnt a = 0)
  \/ (bk_base b <> 0 /\ now - burst <= bk_base b + bk_nsec b
      /\ forall a, a ∈ bk_streams b -> cnt a * bk_nsec b = bk_base b - t0 + if decide (a ∈ bk_cur b) then 0 else bk_nsec b).

(** Nothing is due. *)
Definition settled (now : Z) (b : io_bucket) : Prop :=
  bk_base b <> 0 /\ (now <= bk_base b \/ now < bk_base b + bk_nsec b).

Lemma timely_round now cnt b : t0 <= now -> burst <= now -> now < 2 ^ 62 -> paced t0 now cnt b -> timely now cnt b ->
  timely now cnt (new_round burst now b) /\ bk_base (new_round burst now b) <> 0.
Proof.
  intros Ht Hb Hmax [[H1 H1'] [p H2] H3 H4 H5 H6 H7 H8 H9 H10] Hx. unfold new_round. case_bool_decide as Hcur.
  2: { split; [done|]. by apply H5. }
  destruct Hx as [(Hz & _ & Hn & Hc)|(Hz & Hg & Hc)].
  - rewrite (proj2 (Z.eqb_eq _ _) Hz). split; [right|bucket_cases b; lia]. bucket_cases b. split_and!; [lia|lia|]. intros a Ha. rewrite decide_True by done. rewrite Hc by done. lia.
  - rewrite (proj2 (Z.eqb_neq _ _) Hz). specialize (H6 Hcur Hz). destruct H4 as [H4|H4]; [done|]. rewrite !u64_id by lia. cbv zeta.
    rewrite (proj2 (Z.ltb_ge _ _)) by lia. split; [right|bucket_cases b; lia]. bucket_cases b. split_and!; [lia|lia|]. intros a Ha. rewrite decide_True by done.
    rewrite (Hc a Ha), decide_False by (rewrite Hcur; apply not_elem_of_nil). lia.
Qed.

Lemma timely_none now cnt b : timely now cnt b -> timely now (counted_up cnt None) b.
Proof.
  intros [(H1 & H2 & H3 & H4)|(H1 & H2 & H3)]; [left|right]; split_and!; try done; intros a Ha; rewrite up_none; auto.
Qed.

Lemma timely_bucket now cnt b w : t0 <= now -> burst <= now -> now < 2 ^ 62 -> paced t0 now cnt b -> timely now cnt b -> in_period b ->
  exists r b' w', send_bucket send burst now t b w = Some (r, b', w') /\ timely now (counted_up cnt r) b' /\ (r = None -> settled now b').
Proof.
  intros Ht Hb Hmax Hp Hx Hper. destruct (timely_round now cnt b Ht Hb Hmax Hp Hx) as [Hx' Hz].
  destruct (paced_round burst t0 Hburst Ht0 now now cnt b ltac:(lia) Ht Hb Hmax Hp) as (Hp' & Hcur & Hs & Hn). unfold send_bucket.
  assert (Hper' : in_period (new_round burst now b)) by (intros a; rewrite Hs, Hn; apply Hper).
  set (b1 := new_round burst now b) in *. clearbody b1. clear b Hs Hn Hp Hx Hper.
  destruct (Z.leb_spec now (bk_base b1)) as [Hle|Hlt].
  { exists None, b1, w. split_and!; [done|by apply timely_none|]. intros _. split; [done|by left]. }
  destruct (bk_cur b1) as [|a rest] eqn:Ec; [done|]. cbn [send_streams].
  destruct (pc_cur _ _ _ _ Hp') as [pre Hpre]. rewrite Ec in Hpre.
  assert (Ha : a ∈ bk_streams b1) by (rewrite Hpre, elem_of_app; right; by left).
  destruct (Hper' a Ha) as (s & Hsa & Hexp). rewrite Hsa. cbn [mbind option_bind]. destruct (Z.ltb_spec (now - bk_base b1) (sd_expired s)).
  - eexists None, _, w. cbn [mbind option_bind]. split; [reflexivity|].
    assert (Heq : b1 {{ bk_cur := a :: rest }} = b1) by (rewrite <- Ec; by destruct b1). rewrite Heq.
    split; [by apply timely_none|]. intros _. split; [done|right; lia].
  - destruct (Hsend a w) as [w' Hw]. rewrite Hw. cbn [mbind option_bind]. eexists (Some a), _, w'. split; [reflexivity|]. split; [|done].
    destruct Hx' as [(Hz' & _)|(_ & Hg & Hc)]; [done|]. right. split_and!; [done|done|]. intros x Hx.
    change (x ∈ bk_streams b1) in Hx. change (counted_up cnt (Some a) x * bk_nsec b1 = bk_base b1 - t0 + if decide (x ∈ rest) then 0 else bk_nsec b1).
    assert (Hnd : a ∉ rest).
    { destruct (pc_streams _ _ _ _ Hp') as [_ Hd]. rewrite Hpre in Hd. apply NoDup_app in Hd as (_ & _ & Hd). by apply NoDup_cons in Hd as [? _]. }
    specialize (Hc x Hx). rewrite Ec in Hc. destruct (decide (x = a)) as [->|Hne].
    + rewrite up_same, (decide_False (P := a ∈ rest)) by done. rewrite decide_True in Hc by (by left). lia.
    + rewrite up_other by done. rewrite Hc. f_equal. destruct (decide (x ∈ rest)).
      * by rewrite decide_True by (by right).
      * by rewrite decide_False by (by intros [->|?]%elem_of_cons).
Qed.

Definition prompt (now : Z) (cnt : Z -> Z) (b : io_bucket) : Prop := vacant b \/ timely now cnt b.
Definition rested (now : Z) (b : io_bucket) : Prop := vacant b \/ settled now b.

Lemma timely_same now cnt cnt' b : (forall a, a ∈ bk_streams b -> cnt' a = cnt a) -> timely now cnt b -> timely now cnt' b.
Proof.
  intros Hc [(H1 & H2 & H3 & H4)|(H1 & H2 & H3)]; [left|right]; split_and!; try done; intros a Ha; rewrite Hc by done; auto.
Qed.
Lemma prompt_same now cnt cnt' b : (forall a, a ∈ bk_streams b -> cnt' a = cnt a) -> prompt now cnt b -> prompt now cnt' b.
Proof. intros Hc [Hv|Hx]; [by left|right; by eapply timely_same]. Qed.

Lemma prompt_timely now cnt b a : a ∈ bk_streams b -> prompt now cnt b -> timely now cnt b.
Proof. intros Ha [Hv|Hx]; [by destruct (vacant_not _ _ Ha)|done]. Qed.
Lemma rested_settled now b a : a ∈ bk_streams b -> rested now b -> settled now b.
Proof. intros Ha [Hv|Hx]; [by destruct (vacant_not _ _ Ha)|done]. Qed.

Lemma prompt_bucket now cnt b w : t0 <= now -> burst <= now -> now < 2 ^ 62 -> calm t0 now cnt b -> prompt now cnt b -> in_period b ->
  exists r b' w', send_bucket send burst now t b w = Some (r, b', w') /\ prompt now (counted_up cnt r) b' /\ (r = None -> rested now b').
Proof.
  intros Ht Hb Hmax Hp Hx Hper. assert (Hv : vacant b \/ paced t0 now cnt b /\ timely now cnt b) by (destruct Hp, Hx; auto). destruct Hv as [Hv|[Hp' Hx']].
  - destruct (vacant_bucket send burst now t b w Hv) as (b' & E & Hv' & _). exists None, b', w. split_and!; [done|by left|by left].
  - destruct (timely_bucket now cnt b w Ht Hb Hmax Hp' Hx' Hper) as (r & b' & w' & E & H1 & H2). exists r, b', w'. split_and!; [done|by right|]. intros Hr. right. auto.
Qed.

(** * Handles *)

Lemma prompt_insert now cnt l i b b' r : Forall (prompt now cnt) l -> separate l -> l !! i = Some b -> (forall a, r = Some a -> a ∈ bk_streams b) ->
  prompt now (counted_up cnt r) b' -> Forall (prompt now (counted_up cnt r)) (<[i := b']> l).
Proof.
  intros Hl Hs Hi Hr Hx. apply Forall_lookup. intros j c Hj. destruct (decide (i = j)) as [<-|Hne].
  - rewrite list_lookup_insert_eq in Hj by (by eapply lookup_lt_Some). by injection Hj as <-.
  - rewrite list_lookup_insert_ne in Hj by done. apply (prompt_same now cnt); [|by eapply Forall_lookup_1]. intros a Ha. destruct r as [x|]; [|apply up_none].
    apply up_other. intros ->. apply Hne. by eapply Hs, Ha; [|apply Hj|apply Hr].
Qed.

Definition streams_of (l : list io_bucket) (a : Z) : Prop := exists i b, l !! i = Some b /\ a ∈ bk_streams b.

(** One walk over the buckets of [order]. *)
Record walked (now : Z) (cnt : Z -> Z) (order : list Datatypes.nat) (h : tx_handle) (r : option Z) (h' : tx_handle) : Prop := {
  wk_timely : Forall (prompt now (counted_up cnt r)) (io_buckets h');
  wk_settled : r = None -> forall i b, i ∈ order -> io_buckets h' !! i = Some b -> rested now b;
  wk_others : forall i, i ∉ order -> io_buckets h' !! i = io_buckets h !! i;
  wk_cur : match r with Some a => io_bucket_cur h' ∈ order | None => io_bucket_cur h' = io_bucket_cur h end;
  wk_stream : forall a, r = Some a -> streams_of (io_buckets h) a
}.

Lemma in_period_same b b' : bk_streams b' = bk_streams b -> bk_nsec b' = bk_nsec b -> in_period b -> in_period b'.
Proof. unfold in_period. by intros -> ->. Qed.

Lemma in_period_shape l l' : shape l' = shape l -> Forall in_period l -> Forall in_period l'.
Proof.
  intros Hs Hl. apply Forall_lookup. intros i b Hi. destruct (shape_lookup _ _ i b Hs Hi) as (c & Hc & E1 & E2).
  by apply (in_period_same c); [..|eapply Forall_lookup_1].
Qed.

Lemma prompt_from now cnt order : t0 <= now -> burst <= now -> now < 2 ^ 62 -> forall h w,
  Forall (calm t0 now cnt) (io_buckets h) -> Forall (prompt now cnt) (io_buckets h) -> Forall in_period (io_buckets h) -> separate (io_buckets h) ->
  NoDup order -> Forall (fun i => (i < length (io_buckets h))%nat) order ->
  exists r h' w', send_from send burst now t order h w = Some (r, h', w') /\ walked now cnt order h r h'.
Proof.
  intros Ht Hb Hmax. induction order as [|i order IH]; intros h w Hp Hx Hper Hsep Hnd Hlen; cbn [send_from].
  - exists None, h, w. split; [done|]. split; try done; [|by intros _ i b Hi%elem_of_nil]. eapply Forall_impl; [exact Hx|]. intros b. apply prompt_same. intros; apply up_none.
  - apply Forall_cons in Hlen as [Hi Hlen]. apply NoDup_cons in Hnd as [Hni Hnd]. destruct (lookup_lt_is_Some_2 _ _ Hi) as [b Hb'].
    destruct (prompt_bucket now cnt b w) as (r & b1 & w1 & E & Hx1 & Hset); try done; [by eapply Forall_lookup_1..|].
    destruct (calm_bucket send burst t0 Hburst Ht0 now now cnt t b w r b1 w1) as (Hp1 & E1 & E2 & Hr); try done; [by eapply Forall_lookup_1|].
    rewrite Hb'. cbn [mbind option_bind]. rewrite E. cbn [mbind option_bind].
    pose proof (prompt_insert now cnt _ i b b1 r Hx Hsep Hb' Hr Hx1) as Hx'. pose proof (calm_insert t0 now cnt _ i b b1 r Hp Hsep Hb' E1 Hr Hp1) as Hp'.
    pose proof (shape_insert i b b1 _ Hb' E1 E2) as Hsh. destruct r as [a|].
    + eexists (Some a), _, w1. split; [reflexivity|]. split; cbn; unfold RecordSetters.constant; try done.
      * intros j Hj. rewrite list_lookup_insert_ne; [done|]. intros ->. apply Hj. by left.
      * by left.
      * intros x Hx2. exists i, b. auto.
    + destruct (IH (h {{ io_buckets ::= <[i := b1]> }}) w1) as (r & h' & w' & E' & [K1 K2 K3 K4 K5]); cbn; try done.
      * eapply Forall_impl; [exact Hp'|]. intros c. apply calm_later; [lia|]. intros x _. symmetry. apply up_none.
      * eapply Forall_impl; [exact Hx'|]. intros c. apply prompt_same. intros x _. symmetry. apply up_none.
      * by apply (in_period_shape (io_buckets h)).
      * by apply (separate_shape (io_buckets h)).
      * by rewrite length_insert.
      * exists r, h', w'. split; [done|]. split; try done.
        -- intros Hn j c [->|Hj]%elem_of_cons Hc; [|by eapply K2]. rewrite K3 in Hc by done. cbn in Hc. rewrite list_lookup_insert_eq in Hc by done. injection Hc as <-. by apply Hset.
        -- intros j Hj. rewrite K3 by (intros H; apply Hj; by right). cbn. apply list_lookup_insert_ne. intros ->. apply Hj. by left.
        -- destruct r; [by right|done].
        -- intros x Hx2. destruct (K5 x Hx2) as (j & c & Hc & Hin). cbn in Hc. destruct (shape_lookup _ _ j c Hsh Hc) as (c' & Hc' & F1 & _). exists j, c'. by rewrite F1.
Qed.

Definition cur_ok (h : tx_handle) : Prop := (io_bucket_cur h < length (io_buckets h))%nat.

Lemma around_elem h i : cur_ok h -> i ∈ around h <-> (i < length (io_buckets h))%nat.
Proof. unfold cur_ok, around. intros H. rewrite elem_of_app, !elem_of_seq. lia. Qed.

Lemma around_NoDup h : NoDup (around h).
Proof. unfold around. apply NoDup_app. split_and!; [apply NoDup_seq| |apply NoDup_seq]. intros i. rewrite !elem_of_seq. lia. Qed.

End always.

(** * Sums over the streams of a handle *)

Definition zsum {A} (f : A -> Z) (l : list A) : Z := foldr (fun x n => f x + n) 0 l.

Lemma zsum_le {A} (f g : A -> Z) l : (forall x, x ∈ l -> f x <= g x) -> zsum f l <= zsum g l.
Proof.
  induction l as [|x l IH]; intros H; [done|]. cbn. pose proof (H x ltac:(by left)). assert (zsum f l <= zsum g l) by (apply IH; intros y Hy; apply H; by right). unfold zsum in *. lia.
Qed.
Lemma zsum_lt {A} (f g : A -> Z) l y : (forall x, x ∈ l -> f x <= g x) -> y ∈ l -> f y < g y -> zsum f l < zsum g l.
Proof.
  intros H Hy Hlt. induction l as [|x l IH]; [by apply elem_of_nil in Hy|]. cbn. pose proof (H x ltac:(by left)).
  assert (Hl : forall z, z ∈ l -> f z <= g z) by (intros z Hz; apply H; by right). apply elem_of_cons in Hy as [->|Hy].
  - pose proof (zsum_le f g l Hl). unfold zsum in *. lia.
  - specialize (IH Hl Hy). unfold zsum in *. lia.
Qed.
Lemma zsum_nonneg {A} (f : A -> Z) l : (forall x, x ∈ l -> 0 <= f x) -> 0 <= zsum f l.
Proof. induction l as [|x l IH]; intros H; [done|]. cbn. pose proof (H x ltac:(by left)). assert (0 <= zsum f l) by (apply IH; intros y Hy; apply H; by right). unfold zsum in *. lia. Qed.

(** The streams of a handle, each with its period. *)
Definition flat (l : list io_bucket) : list (Z * Z) := shape l ≫= (fun '(s, n) => (fun a => (a, n)) <$> s).

Lemma flat_elem l a n : (a, n) ∈ flat l <-> exists i b, l !! i = Some b /\ a ∈ bk_streams b /\ bk_nsec b = n.
Proof.
  unfold flat, shape. change (map ?f ?l) with (f <$> l). rewrite list_elem_of_bind. split.
  - intros ([s m] & Hx & Hs). apply list_elem_of_fmap in Hx as (x & [= -> ->] & Hx). apply list_elem_of_fmap in Hs as (b & [= -> ->] & Hb).
    apply list_elem_of_lookup in Hb as [i Hi]. by exists i, b.
  - intros (i & b & Hi & Ha & <-). exists (bk_streams b, bk_nsec b). split; apply list_elem_of_fmap; [by exists a|]. exists b. split; [done|]. apply list_elem_of_lookup. by exists i.
Qed.

(** * Transmit jobs *)

Section jobs.
Context {W : Type} (send : Z -> Z -> W -> option (bool * W)) (burst gap t0 : Z) (t : table).
Context (Hgap : 0 <= gap <= burst) (Hburst : burst <= t0) (Ht0 : 0 < t0 < 2 ^ 62).
Context (Hsend : forall now a w, exists w', send now a w = Some (true, w')).

(** A job sends what is due, [limit] packets at most, all of them taken by the socket. *)
Fixpoint job (limit : Datatypes.nat) (now : Z) (h : tx_handle) (w : W) : option (list Z * tx_handle * W) :=
  match limit with
  | O => Some ([], h, w)
  | S limit =>
      '(r, h, w) ← bbl_stream_io_send_iter (send now) burst now t h w;
      match r with
      | Some a => '(l, h, w) ← job limit now h w; Some (a :: l, h, w)
      | None => Some ([], h, w)
      end
  end.

Fixpoint jobs (limit : Datatypes.nat) (times : list Z) (h : tx_handle) (w : W) : option (list Z * tx_handle * W) :=
  match times with
  | [] => Some ([], h, w)
  | now :: times =>
      '(l1, h, w) ← job limit now h w;
      '(l2, h, w) ← jobs limit times h w;
      Some (l1 ++ l2, h, w)
  end.

Record kept (now : Z) (cnt : Z -> Z) (h : tx_handle) : Prop := {
  kp_paced : Forall (calm t0 now cnt) (io_buckets h);
  kp_timely : Forall (prompt burst t0 now cnt) (io_buckets h);
  kp_period : Forall (in_period t) (io_buckets h);
  kp_separate : separate (io_buckets h);
  kp_cur : cur_ok h
}.

Lemma length_shape l l' : shape l = shape l' -> length l = length l'.
Proof. intros H%(f_equal length). unfold shape in H. by rewrite !length_map in H. Qed.

(** One call. *)
Lemma kept_iter now cnt h w : t0 <= now < 2 ^ 62 -> kept now cnt h ->
  exists r h' w', bbl_stream_io_send_iter (send now) burst now t h w = Some (r, h', w') /\ kept now (counted_up cnt r) h' /\ shape (io_buckets h') = shape (io_buckets h)
    /\ match r with Some a => exists n, (a, n) ∈ flat (io_buckets h) | None => Forall (rested now) (io_buckets h') end.
Proof.
  intros Hnow [H1 H2 H3 H4 H5]. unfold bbl_stream_io_send_iter.
  destruct (prompt_from (send now) burst t0 ltac:(lia) ltac:(lia) (Hsend now) t now cnt (around h) ltac:(lia) ltac:(lia) ltac:(lia) h w) as (r & h' & w' & E & [K1 K2 K3 K4 K5]); try done.
  { apply around_NoDup. }
  { apply Forall_forall. intros i Hi. by apply around_elem. }
  exists r, h', w'. destruct (calm_from (send now) burst t0 ltac:(lia) ltac:(lia) now cnt t (around h) ltac:(lia) ltac:(lia) ltac:(lia) h w r h' w' H1 H4 E) as [P1 P2].
  pose proof (length_shape _ _ P2) as Hlen. split_and!; [done| |done|].
  - split; [done|done|by apply (in_period_shape t (io_buckets h))|by apply (separate_shape (io_buckets h))|].
    unfold cur_ok. rewrite Hlen. destruct r; [by apply around_elem in K4|rewrite K4; apply H5].
  - destruct r as [a|].
    + destruct (K5 a eq_refl) as (i & b & Hi & Ha). exists (bk_nsec b). apply flat_elem. by exists i, b.
    + apply Forall_lookup. intros i b Hi. apply (K2 eq_refl i); [|done]. apply around_elem; [done|]. rewrite <- Hlen. by eapply lookup_lt_Some.
Qed.

(** What the streams may still send until [now]. *)
Definition room (now : Z) (cnt : Z -> Z) (l : list (Z * Z)) : Z := zsum (fun '(a, n) => (now - t0) / n + 1 - cnt a) l.

Lemma kept_count now cnt h a n : kept now cnt h -> (a, n) ∈ flat (io_buckets h) -> 0 < n /\ cnt a <= (now - t0) / n + 1.
Proof.
  intros [H1 _ _ _ _] Ha. apply flat_elem in Ha as (i & b & Hi & Ha & <-). pose proof (calm_paced _ _ _ _ _ Ha (Forall_lookup_1 _ _ _ _ H1 Hi)) as Hb.
  pose proof (pc_nsec _ _ _ _ Hb) as Hn. pose proof (pc_all _ _ _ _ Hb a Ha) as Hc. split; [lia|].
  assert (cnt a - 1 <= (now - t0) / bk_nsec b) by (apply Z.div_le_lower_bound; lia). lia.
Qed.

Lemma kept_room now cnt h : kept now cnt h -> 0 <= room now cnt (flat (io_buckets h)).
Proof. intros H. apply zsum_nonneg. intros [a n] Ha. destruct (kept_count _ _ _ _ _ H Ha). lia. Qed.

Lemma room_sent now cnt l a n : (a, n) ∈ l -> room now (counted_up cnt (Some a)) l < room now cnt l.
Proof.
  intros Ha. unfold room. apply (zsum_lt _ _ _ (a, n)); [|done|].
  - intros [x m] _. unfold counted_up. case_decide; lia.
  - rewrite up_same. lia.
Qed.

Lemma packets_cons_some a x l : packets a (x :: l) = (if decide (Some x = Some a) then 1 else 0) + packets a l.
Proof. exact (packets_cons a (Some x) l). Qed.

Lemma kept_same now cnt cnt' h : (forall a, cnt' a = cnt a) -> kept now cnt h -> kept now cnt' h.
Proof.
  intros Hc [H1 H2 H3 H4 H5]. split; try done.
  - eapply Forall_impl; [exact H1|]. intros b. apply calm_later; [lia|]. intros; apply Hc.
  - eapply Forall_impl; [exact H2|]. intros b. by apply prompt_same.
Qed.

(** One job that is large enough ends with nothing due. *)
Lemma kept_job limit : forall now cnt h w, t0 <= now < 2 ^ 62 -> kept now cnt h -> room now cnt (flat (io_buckets h)) < Z.of_nat limit ->
  exists l h' w', job limit now h w = Some (l, h', w') /\ kept now (fun a => cnt a + packets a l) h' /\ shape (io_buckets h') = shape (io_buckets h)
    /\ Forall (rested now) (io_buckets h').
Proof.
  induction limit as [|limit IH]; intros now cnt h w Hnow Hk Hroom; [pose proof (kept_room _ _ _ Hk); lia|].
  destruct (kept_iter now cnt h w Hnow Hk) as (r & h1 & w1 & E & Hk1 & Hs & Hr). cbn [job]. rewrite E. cbn [mbind option_bind].
  assert (Hf : flat (io_buckets h1) = flat (io_buckets h)) by (unfold flat; by rewrite Hs). destruct r as [a|].
  - destruct Hr as [n Ha]. pose proof (room_sent now cnt _ a n Ha).
    destruct (IH now (counted_up cnt (Some a)) h1 w1 Hnow Hk1) as (l & h' & w' & E' & Hk' & Hs' & Hset); [rewrite Hf; lia|].
    rewrite E'. cbn [mbind option_bind]. exists (a :: l), h', w'. split_and!; [done| |by rewrite Hs', Hs|done].
    eapply kept_same, Hk'. intros x. rewrite packets_cons_some. unfold counted_up. lia.
  - exists [], h1, w1. split_and!; done.
Qed.

(** Jobs at most [gap] apart. *)
Fixpoint spaced (T : Z) (times : list Z) : Prop := match times with [] => True | now :: times => T <= now <= T + gap /\ now < 2 ^ 62 /\ spaced now times end.

Definition capacity (l : list (Z * Z)) : Z := zsum (fun '(a, n) => gap / n + 2) l.

(** What has been sent when nothing is due. *)
Lemma kept_settled T cnt h a n : kept T cnt h -> Forall (rested T) (io_buckets h) -> (a, n) ∈ flat (io_buckets h) ->
  T - t0 - n < cnt a * n <= T - t0 + n.
Proof.
  intros [H1 H2 _ _ _] Hs Ha. apply flat_elem in Ha as (i & b & Hi & Ha & <-). pose proof (calm_paced _ _ _ _ _ Ha (Forall_lookup_1 _ _ _ _ H1 Hi)) as Hb.
  pose proof (pc_nsec _ _ _ _ Hb) as Hn. pose proof (pc_all _ _ _ _ Hb a Ha). destruct (rested_settled _ _ _ Ha (Forall_lookup_1 _ _ _ _ Hs Hi)) as [Hz Hset].
  destruct (prompt_timely _ _ _ _ _ _ Ha (Forall_lookup_1 _ _ _ _ H2 Hi)) as [(Hz' & _)|(_ & Hg & Hc)]; [done|]. rewrite (Hc a Ha) in *. destruct (decide (a ∈ bk_cur b)); lia.
Qed.

Lemma kept_advance T now cnt h : T <= now <= T + gap -> kept T cnt h -> Forall (rested T) (io_buckets h) -> kept now cnt h.
Proof.
  intros Hn [H1 H2 H3 H4 H5] Hs. split; try done.
  - eapply Forall_impl; [exact H1|]. intros b. apply calm_later; [lia|done].
  - apply Forall_lookup. intros i b Hi. destruct (Forall_lookup_1 _ _ _ _ Hs Hi) as [Hv|[Hz Hset]]; [by left|].
    destruct (Forall_lookup_1 _ _ _ _ H2 Hi) as [Hv|[(Hz' & _)|(_ & Hg & Hc)]]; [by left|done|]. destruct (Forall_lookup_1 _ _ _ _ H1 Hi) as [Hv|Hp]; [by left|].
    right. right. split_and!; [done| |done]. pose proof (pc_nsec _ _ _ _ Hp). lia.
Qed.

Lemma room_capacity T now cnt h : T <= now <= T + gap -> kept T cnt h -> Forall (rested T) (io_buckets h) ->
  room now cnt (flat (io_buckets h)) <= capacity (flat (io_buckets h)).
Proof.
  intros Hn Hk Hs. apply zsum_le. intros [a n] Ha. pose proof (kept_settled T cnt h a n Hk Hs Ha) as Hc. destruct (kept_count _ _ _ _ _ Hk Ha) as [Hpos _].
  assert ((now - t0) / n - 1 - cnt a < gap / n + 1); [|lia].
  pose proof (Z.div_mod (now - t0) n ltac:(lia)). pose proof (Z.mod_pos_bound (now - t0) n Hpos).
  pose proof (Z.div_mod gap n ltac:(lia)). pose proof (Z.mod_pos_bound gap n Hpos). nia.
Qed.

Lemma kept_jobs limit times : forall T cnt h w, t0 <= T -> kept T cnt h -> Forall (rested T) (io_buckets h) -> spaced T times ->
  capacity (flat (io_buckets h)) < Z.of_nat limit ->
  exists l h' w', jobs limit times h w = Some (l, h', w') /\ kept (last_time T times) (fun a => cnt a + packets a l) h'
    /\ shape (io_buckets h') = shape (io_buckets h) /\ Forall (rested (last_time T times)) (io_buckets h').
Proof.
  induction times as [|now times IH]; intros T cnt h w HT Hk Hs Hsp Hcap; cbn [jobs].
  - exists [], h, w. split_and!; try done. eapply kept_same, Hk. intros a. change (packets a []) with 0. lia.
  - destruct Hsp as (Hn & Hmax & Hsp). pose proof (room_capacity T now cnt h Hn Hk Hs).
    destruct (kept_job limit now cnt h w) as (l1 & h1 & w1 & E1 & Hk1 & Hs1 & Hset1); [lia|by apply (kept_advance T)|lia|].
    assert (Hf : flat (io_buckets h1) = flat (io_buckets h)) by (unfold flat; by rewrite Hs1).
    destruct (IH now _ h1 w1 ltac:(lia) Hk1 Hset1 Hsp) as (l2 & h2 & w2 & E2 & Hk2 & Hs2 & Hset2); [by rewrite Hf|].
    rewrite E1. cbn [mbind option_bind]. rewrite E2. cbn [mbind option_bind]. exists (l1 ++ l2), h2, w2. rewrite last_time_cons.
    split_and!; [done| |by rewrite Hs2|done]. eapply kept_same, Hk2. intros a. unfold packets. rewrite filter_app, length_app. lia.
Qed.

Lemma kept_idle h : idle (io_buckets h) -> cur_ok h -> Forall (in_period t) (io_buckets h) -> kept t0 (fun _ => 0) h.
Proof.
  intros Hi Hc Hp. split; try done; [by apply idle_calm| |by destruct Hi]. destruct Hi as [Hi _]. eapply Forall_impl; [exact Hi|].
  intros b [Hv|(H1 & H2 & H3 & H4 & H5)]; [by left|]. right. by left.
Qed.

(** The first job sends nothing and starts the rounds. *)
Lemma room_first l : Forall (fun '(a, n) => 0 < n) l -> room t0 (fun _ => 0) l <= capacity l.
Proof.
  intros Hl. apply zsum_le. intros [a n] Ha. pose proof (proj1 (Forall_forall _ _) Hl (a, n) Ha) as Hn. cbn in Hn.
  replace (t0 - t0) with 0 by lia. rewrite Z.div_0_l by lia. pose proof (Z.div_pos gap n). lia.
Qed.
End jobs.

(** ** The rate is kept *)

(** The packets of a handle that is ready. *)
Lemma stream_rate_at {W} (send : Z -> Z -> W -> option (bool * W)) burst gap t0 t limit times h w :
  (forall now a w, exists w', send now a w = Some (true, w')) ->
  idle (io_buckets h) -> cur_ok h -> Forall (in_period t) (io_buckets h) ->
  0 <= gap <= burst -> burst <= t0 -> 0 < t0 < 2 ^ 62 -> spaced gap t0 times -> capacity gap (flat (io_buckets h)) < Z.of_nat limit ->
  exists l h' w', jobs send burst t limit (t0 :: times) h w = Some (l, h', w') /\
    forall i b a, io_buckets h !! i = Some b -> a ∈ bk_streams b ->
      last_time t0 times - t0 - bk_nsec b < packets a l * bk_nsec b <= last_time t0 times - t0 + bk_nsec b.
Proof.
  intros Hsend Hi Hc Hp Hgap Hb Ht0 Hsp Hcap. pose proof (kept_idle burst t0 t h Hi Hc Hp) as Hk.
  assert (Hpos : Forall (fun '(a, n) => 0 < n) (flat (io_buckets h))) by (apply Forall_forall; intros [a n] Ha; apply (kept_count _ _ _ _ _ _ _ _ Hk Ha)).
  pose proof (room_first burst gap t0 ltac:(lia) _ Hpos) as Hroom.
  destruct (kept_job send burst gap t0 t Hgap Hb Ht0 Hsend limit t0 (fun _ => 0) h w ltac:(lia) Hk) as (l1 & h1 & w1 & E1 & Hk1 & Hs1 & Hset1); [lia|].
  assert (Hf : flat (io_buckets h1) = flat (io_buckets h)) by (unfold flat; by rewrite Hs1).
  destruct (kept_jobs send burst gap t0 t Hgap Hb Ht0 Hsend limit times t0 _ h1 w1 ltac:(lia) Hk1 Hset1 Hsp) as (l2 & h2 & w2 & E2 & Hk2 & Hs2 & Hset2); [by rewrite Hf|].
  exists (l1 ++ l2), h2, w2. cbn [jobs]. rewrite E1. cbn [mbind option_bind]. rewrite E2. split; [done|]. intros i b a Hib Ha.
  assert (Hel : (a, bk_nsec b) ∈ flat (io_buckets h2)) by (unfold flat; rewrite Hs2, Hs1; apply flat_elem; by exists i, b).
  pose proof (kept_settled _ _ _ _ _ _ _ _ Hk2 Hset2 Hel) as H. unfold packets in *. rewrite filter_app, length_app. lia.
Qed.
