(* ===== verification/IoSetup.v ===== *)
(** The schedule of an I/O handle as it is built.

    Streams are added one by one and the handle is smeared; then every stream is in the bucket
    of its rate, no round has begun, and the streams of a bucket expire within its period.
    With this, the rate of the streams as they are configured follows. *)
From Stdlib Require Import QArith.
From coqutil Require Import Datatypes.RecordSetters.
From S2P Require Import Prelude.
From S2P Require Import Const.
From S2P Require Import ConstApp.
From S2P Require Import ConstStream.
From S2P Require Import Timer.
From S2P Require Import IoStream.
From S2P Require Import IoRate.
From S2P Require Import IoExact.
Import RecordSetters.DoubleBraceUpdate.
From stdpp Require Import gmap list.
Open Scope Z_scope.

(** * Periods *)

(** Equal rates have equal periods. *)
Lemma period_Qeq p q : (0 < Qnum p) -> (p == q)%Q -> period p = period q.
Proof.
  unfold Qeq, period. intros Hp H. assert (Hq : 0 < Qnum q) by nia.
  rewrite <- (Z.div_mul_cancel_r (SEC * Zpos (Qden p)) (Qnum p) (Qnum q)) by lia.
  rewrite <- (Z.div_mul_cancel_r (SEC * Zpos (Qden q)) (Qnum q) (Qnum p)) by lia.
  f_equal; [rewrite <- !Z.mul_assoc; f_equal|]; lia.
Qed.

(** A rate the schedule can hold. *)
Definition good_rate (pps : Q) : Prop := 0 < Qnum pps /\ 0 < period pps < 2 ^ 62.

(** Tables whose streams have the same rates and flows. *)
Definition plan_of (s : sched) : Q * Z := (sd_pps s, sd_flow_id s).
Definition same_rates (t t' : table) : Prop := forall a, plan_of <$> t' !! a = plan_of <$> t !! a.

Lemma same_rates_refl t : same_rates t t.
Proof. done. Qed.
Lemma same_rates_trans t1 t2 t3 : same_rates t1 t2 -> same_rates t2 t3 -> same_rates t1 t3.
Proof. intros H1 H2 a. by rewrite H2. Qed.
Lemma same_rates_some t t' a s : same_rates t t' -> t !! a = Some s -> exists s', t' !! a = Some s' /\ sd_pps s' = sd_pps s /\ sd_flow_id s' = sd_flow_id s.
Proof. intros H Hs. specialize (H a). rewrite Hs in H. destruct (t' !! a) as [s'|]; [|done]. cbn in H. injection H as H1 H2. by exists s'. Qed.
Lemma same_rates_alter f t a : (forall s, plan_of (f s) = plan_of s) -> same_rates t (alter f a t).
Proof.
  intros Hf x. destruct (decide (a = x)) as [<-|Hne]; [rewrite lookup_alter_eq|by rewrite lookup_alter_ne]. destruct (t !! a); cbn; [by rewrite Hf|done].
Qed.

(** * Order of the streams *)

Lemma shuffle_perm third n : forall moved kept rest, (length rest <= n)%nat -> shuffle third moved kept rest ≡ₚ moved ++ kept ++ rest.
Proof.
  assert (Hend : forall moved kept rest : list Z, moved ++ rev kept ++ rest ≡ₚ moved ++ kept ++ rest) by (intros moved kept rest; by rewrite <- Permutation_rev).
  induction n as [|n IH]; intros moved kept rest Hn; [destruct rest; [apply Hend|cbn in Hn; lia]|].
  destruct rest as [|x [|y r]]; [apply Hend..|]. cbn in Hn.
  change (shuffle third moved kept (x :: y :: r)) with (if third y then shuffle third (y :: moved) (x :: kept) r else shuffle third moved (x :: kept) (y :: r)).
  destruct (third y); (rewrite IH; [|cbn; lia]); solve_Permutation.
Qed.

Lemma bucket_shuffle_perm t b : bk_streams (bucket_shuffle t b) ≡ₚ bk_streams b.
Proof. destruct b as [id pps nsec base streams cur count]; cbn. unfold RecordSetters.constant. destruct (_ =? 0); [done|]. by rewrite (shuffle_perm _ (length streams)). Qed.

(** * Expirations *)

Lemma spread_other step l : forall n t a, a ∉ l -> spread step n l t !! a = t !! a.
Proof.
  induction l as [|x l IH]; intros n t a Ha; [done|]. apply not_elem_of_cons in Ha as [Hx Ha]. cbn [spread]. rewrite IH by done. by apply lookup_alter_ne.
Qed.

Lemma spread_bound step l : 0 <= step -> forall n t a, NoDup l -> 0 <= n -> n + step * Z.of_nat (length l) < 2 ^ 64 -> a ∈ l -> is_Some (t !! a) ->
  exists s, spread step n l t !! a = Some s /\ sd_expired s <= n + step * Z.of_nat (length l).
Proof.
  intros Hstep. induction l as [|x l IH]; intros n t a Hnd Hn Hmax Ha [s Hs]; [by apply elem_of_nil in Ha|].
  apply NoDup_cons in Hnd as [Hx Hnd]. cbn [length] in Hmax. cbn [spread length]. assert (Hu : u64 (n + step) = n + step) by (apply u64_small; nia). rewrite Hu.
  apply elem_of_cons in Ha as [->|Ha].
  - rewrite spread_other by done. exists (s {{ sd_expired := n + step }}). rewrite lookup_alter_eq, Hs. split; [done|]. cbn. unfold RecordSetters.constant. nia.
  - destruct (IH (n + step) (alter (fun s => s {{ sd_expired := n + step }}) x t) a) as (s' & H1 & H2); [done|lia|lia|done| |exists s'; split; [done|lia]].
    rewrite lookup_alter_ne by (by intros ->). by exists s.
Qed.

Lemma spread_rates step l : forall n t, same_rates t (spread step n l t).
Proof.
  induction l as [|x l IH]; intros n t; [done|]. cbn [spread]. eapply same_rates_trans; [|apply IH]. by apply same_rates_alter.
Qed.

(** * Smearing *)

Definition all_streams (l : list io_bucket) : list Z := l ≫= bk_streams.

(** A bucket whose streams are counted. *)
Record counted (b : io_bucket) : Prop := {
  ct_count : bk_count b = Z.of_nat (length (bk_streams b));
  ct_rate : good_rate (bk_pps b);
  ct_nsec : bk_nsec b = period (bk_pps b);
  ct_cur : exists pre, bk_streams b = pre ++ bk_cur b
}.

(** A bucket before and after smearing. *)
Record smeared (b b' : io_bucket) : Prop := {
  sm_streams : bk_streams b' ≡ₚ bk_streams b;
  sm_pps : bk_pps b' = bk_pps b;
  sm_nsec : bk_nsec b' = bk_nsec b;
  sm_base : bk_streams b <> [] -> bk_base b' = 0;
  sm_cur : bk_cur b' = [];
  sm_count : bk_count b' = bk_count b
}.

Lemma bucket_smear_spec t b b' t' : counted b -> NoDup (bk_streams b) -> (forall a, a ∈ bk_streams b -> is_Some (t !! a)) ->
  bucket_smear (bucket_shuffle t b) t = (b', t') ->
  smeared b b' /\ in_period t' b' /\ (forall a, a ∉ bk_streams b -> t' !! a = t !! a).
Proof.
  intros [Hc [Hr Hp] Hn _] Hnd Hk. pose proof (bucket_shuffle_perm t b) as Hperm. unfold bucket_smear.
  assert (E1 : bk_count (bucket_shuffle t b) = bk_count b) by done. assert (E2 : bk_nsec (bucket_shuffle t b) = bk_nsec b) by done. rewrite E1, E2.
  destruct (Z.eqb_spec (bk_count b) 0) as [Hz|Hz].
  { intros [= <- <-]. assert (He : bk_streams b = []) by (apply length_zero_iff_nil; lia). rewrite He in *. split; [split; try done; by rewrite He|]. split; [|done].
    intros a Ha. rewrite Hperm in Ha. by apply elem_of_nil in Ha. }
  assert (Hlen : 0 < bk_count b) by lia. set (ls := bk_streams (bucket_shuffle t b)) in *. intros [= <- <-].
  split; [by split|]. assert (Hl : Z.of_nat (length ls) = bk_count b) by (by rewrite Hperm, Hc).
  assert (Hle : bk_nsec b / bk_count b * bk_count b <= bk_nsec b) by (rewrite Z.mul_comm; apply Z.mul_div_le; lia).
  split; [|intros a Ha; apply spread_other; by rewrite Hperm].
  intros a Ha. change (a ∈ ls) in Ha.
  destruct (spread_bound (bk_nsec b / bk_count b) ls ltac:(apply Z.div_pos; lia) 0 t a) as (s & Hs & Hb); [by rewrite Hperm|lia|rewrite Hl; lia|done|apply Hk; by rewrite <- Hperm|].
  exists s. split; [done|]. rewrite Hl in Hb. change (sd_expired s <= bk_nsec b). lia.
Qed.

Lemma smear_list_spec l : forall t l' t', Forall counted l -> NoDup (all_streams l) -> (forall a, a ∈ all_streams l -> is_Some (t !! a)) ->
  smear_list l t = (l', t') ->
  Forall2 smeared l l' /\ Forall (in_period t') l' /\ (forall a, a ∉ all_streams l -> t' !! a = t !! a).
Proof.
  induction l as [|b l IH]; intros t l' t' Hc Hnd Hk; cbn [smear_list]; [by intros [= <- <-]|].
  apply Forall_cons in Hc as [Hb Hc]. cbn [all_streams mbind list_bind] in Hnd, Hk. fold (all_streams l) in Hnd, Hk. apply NoDup_app in Hnd as (N1 & N2 & N3).
  destruct (bucket_smear (bucket_shuffle t b) t) as [b1 t1] eqn:E1. destruct (smear_list l t1) as [l2 t2] eqn:E2. intros [= <- <-].
  apply bucket_smear_spec in E1 as (S1 & S2 & S3); [|done|done|intros a Ha; apply Hk, elem_of_app; by left].
  apply IH in E2 as (S4 & S5 & S6); [|done|done|].
  - split_and!; [by constructor| |].
    + constructor; [|done]. intros a Ha. rewrite S6; [by apply S2|]. apply N2. by rewrite <- (sm_streams _ _ S1).
    + intros a Ha. cbn in Ha. apply not_elem_of_app in Ha as [Ha1 Ha2]. rewrite S6 by done. by apply S3.
  - intros a Ha. rewrite S3; [apply Hk, elem_of_app; by right|]. intros H. by apply (N2 a).
Qed.

Lemma smear_list_rates l : forall t, same_rates t (snd (smear_list l t)).
Proof.
  induction l as [|b l IH]; intros t; [done|]. cbn [smear_list]. destruct (bucket_smear (bucket_shuffle t b) t) as [b1 t1] eqn:E1.
  specialize (IH t1). destruct (smear_list l t1) as [l2 t2]. cbn [snd] in *. eapply same_rates_trans; [|exact IH].
  unfold bucket_smear in E1. destruct (_ =? 0); injection E1 as _ <-; [done|apply spread_rates].
Qed.

(** * Adding streams *)

(** A handle to which streams were added: every one of them is in one bucket, that of its rate. *)
Record built (t : table) (h : tx_handle) : Prop := {
  bt_counted : Forall counted (io_buckets h);
  bt_NoDup : NoDup (all_streams (io_buckets h));
  bt_streams : forall b a, b ∈ io_buckets h -> a ∈ bk_streams b -> exists s, t !! a = Some s /\ (bk_pps b == sd_pps s)%Q;
  bt_cur : (io_bucket_cur h <= length (io_buckets h) - 1)%nat
}.

Lemma find_rate_some pps l : forall k i, find_rate pps l k = Some i -> exists l1 b l2, l = l1 ++ b :: l2 /\ i = (k + length l1)%nat /\ of_rate pps b = true.
Proof.
  induction l as [|b l IH]; intros k i; cbn [find_rate]; [done|]. destruct (of_rate pps b) eqn:E.
  - intros [= <-]. exists [], b, l. split_and!; [done|cbn; lia|done].
  - intros H. destruct (IH _ _ H) as (l1 & c & l2 & -> & -> & Hc). exists (b :: l1), c, l2. split_and!; [done|cbn; lia|done].
Qed.

Lemma place_bound pps l : l <> [] -> (place pps l < length l)%nat.
Proof.
  induction l as [|b l IH]; [done|]. intros _. cbn [place]. destruct l as [|c l]; [cbn; lia|]. destruct (Qlt pps (bk_pps b)); [|cbn; lia].
  specialize (IH ltac:(done)). cbn [length] in *. lia.
Qed.

(** Where a new bucket comes. *)
Lemma bucket_new_spec pps h : exists l1 l2 id, io_buckets h = l1 ++ l2 /\ fst (bucket_new pps h) = length l1 /\
  io_buckets (snd (bucket_new pps h)) = l1 ++ mk_bucket id pps (u64 (period pps)) 0 [] [] 0 :: l2 /\
  ((io_bucket_cur h <= length (io_buckets h) - 1)%nat -> (io_bucket_cur (snd (bucket_new pps h)) <= length (io_buckets h))%nat).
Proof.
  unfold bucket_new. destruct (io_buckets h) as [|b l] eqn:El; [exists [], [], 0; split_and!; done|].
  destruct (Qlt pps (bk_pps b)).
  - set (i := S (place pps (b :: l))). pose proof (place_bound pps (b :: l) ltac:(done)) as Hi. exists (take i (b :: l)), (drop i (b :: l)), (Z.of_nat (length (b :: l))).
    split_and!; [by rewrite take_drop|cbn [fst]; rewrite length_take; lia|done|]. cbn [snd]. intros Hc.
    change ((if (i <=? io_bucket_cur h)%nat then S (io_bucket_cur h) else io_bucket_cur h) <= length (b :: l))%nat. cbn [length] in *. destruct (i <=? io_bucket_cur h)%nat; lia.
  - exists [], (b :: l), (Z.of_nat (length (b :: l))). split_and!; [done|done| |cbn; unfold RecordSetters.constant; lia].
    destruct h as [buckets cur pps0 count upd]; cbn in *. unfold RecordSetters.constant in *. by subst.
Qed.

Lemma all_streams_app l1 l2 : all_streams (l1 ++ l2) = all_streams l1 ++ all_streams l2.
Proof. apply bind_app. Qed.
Lemma all_streams_cons b l : all_streams (b :: l) = bk_streams b ++ all_streams l.
Proof. done. Qed.
Lemma elem_of_all_streams l a : a ∈ all_streams l <-> exists b, b ∈ l /\ a ∈ bk_streams b.
Proof. unfold all_streams. rewrite list_elem_of_bind. split; intros (b & H1 & H2); by exists b. Qed.

Lemma counted_add a b : counted b -> Z.of_nat (S (length (bk_streams b))) < 2 ^ 32 -> counted (bucket_stream_add a b).
Proof.
  intros [H1 H3 H4 [pre H5]] Hlen. split; try done; [|exists (a :: pre); change (a :: bk_streams b = a :: pre ++ bk_cur b); by rewrite H5]. change (u32 (bk_count b + 1) = Z.of_nat (S (length (bk_streams b)))). rewrite u32_small; lia.
Qed.

(** The bucket that gets the stream, in its place. *)
Lemma io_stream_add_spec io a h t s : built t h -> t !! a = Some s -> good_rate (sd_pps s) -> Z.of_nat (S (length (all_streams (io_buckets h)))) < 2 ^ 32 ->
  exists h' l1 b l2, io_stream_add io a h t = Some (h', <[a := s {{ sd_io := Some io }}]> t) /\ io_buckets h' = l1 ++ bucket_stream_add a b :: l2 /\
    counted (bucket_stream_add a b) /\ (bk_pps b == sd_pps s)%Q /\ Forall counted (l1 ++ l2) /\ all_streams (l1 ++ b :: l2) = all_streams (io_buckets h) /\
    (forall c, c ∈ l1 ++ b :: l2 -> bk_streams c <> [] -> c ∈ io_buckets h) /\ (io_bucket_cur h' <= length (l1 ++ l2))%nat.
Proof.
  intros [B1 B2 B3 B4] Hs Hr Hlen. unfold io_stream_add. rewrite Hs. cbn [mbind option_bind].
  set (h1 := h {{ io_stream_pps := (io_stream_pps h + sd_pps s)%Q ; io_stream_count ::= (fun n => u32 (n + 1)) }}).
  change (io_buckets h1) with (io_buckets h). destruct (find_rate (sd_pps s) (io_buckets h) 0) as [i|] eqn:E.
  - destruct (find_rate_some _ _ _ _ E) as (l1 & b & l2 & El & -> & Hb). eexists _, l1, b, l2. split; [reflexivity|].
    rewrite El in B1. apply Forall_app in B1 as [B1 [Bb B1']%Forall_cons]. split_and!.
    + change (alter (bucket_stream_add a) (length l1) (io_buckets h) = l1 ++ bucket_stream_add a b :: l2). by rewrite El, alter_middle.
    + apply counted_add; [done|]. rewrite El, all_streams_app, all_streams_cons, !length_app in Hlen. lia.
    + by apply Qeq_bool_iff.
    + by apply Forall_app.
    + by rewrite El.
    + intros c Hc _. by rewrite El.
    + change (io_bucket_cur h <= length (l1 ++ l2))%nat. rewrite El in B4. rewrite length_app in *. cbn [length] in B4. lia.
  - destruct (bucket_new_spec (sd_pps s) h1) as (l1 & l2 & id & El & Ei & Eb & Ec). destruct (bucket_new (sd_pps s) h1) as [i h2]. cbn [fst snd] in Ei, Eb, Ec. subst i.
    change (io_buckets h1) with (io_buckets h) in El, Ec. change (io_bucket_cur h1) with (io_bucket_cur h) in Ec. set (new := mk_bucket id (sd_pps s) (u64 (period (sd_pps s))) 0 [] [] 0) in *. eexists _, l1, new, l2. split; [reflexivity|].
    destruct Hr as [Hq Hp]. assert (Hu : u64 (period (sd_pps s)) = period (sd_pps s)) by (apply u64_small; lia). split_and!.
    + change (alter (bucket_stream_add a) (length l1) (io_buckets h2) = l1 ++ bucket_stream_add a new :: l2). by rewrite Eb, alter_middle.
    + split; try done. by exists [a].
    + done.
    + by rewrite <- El.
    + rewrite El, !all_streams_app. by rewrite all_streams_cons.
    + intros c Hc Hne. rewrite El. apply elem_of_app in Hc as [Hc|[->|Hc]%elem_of_cons]; [apply elem_of_app; by left|done|apply elem_of_app; by right].
    + change (io_bucket_cur h2 <= length (l1 ++ l2))%nat. rewrite <- El. by apply Ec.
Qed.

Lemma built_add io a h t s : built t h -> a ∉ all_streams (io_buckets h) -> t !! a = Some s -> good_rate (sd_pps s) ->
  Z.of_nat (S (length (all_streams (io_buckets h)))) < 2 ^ 32 ->
  exists h' t', io_stream_add io a h t = Some (h', t') /\ built t' h' /\ all_streams (io_buckets h') ≡ₚ a :: all_streams (io_buckets h) /\ same_rates t t' /\ io_buckets h' <> [].
Proof.
  intros Hb Ha Hs Hr Hlen. destruct (io_stream_add_spec io a h t s Hb Hs Hr Hlen) as (h' & l1 & b & l2 & E & El & Hc & Hq & Hf & Hall & Hin & Hcur).
  assert (Hperm : all_streams (io_buckets h') ≡ₚ a :: all_streams (io_buckets h)).
  { rewrite El, <- Hall, !all_streams_app, !all_streams_cons. change (bk_streams (bucket_stream_add a b)) with (a :: bk_streams b). solve_Permutation. }
  assert (Hrates : same_rates t (<[a := s {{ sd_io := Some io }}]> t)).
  { intros x. destruct (decide (a = x)) as [<-|Hne]; [by rewrite lookup_insert_eq, Hs|by rewrite lookup_insert_ne]. }
  exists h', (<[a := s {{ sd_io := Some io }}]> t). split_and!; [done| |done|done|rewrite El; by destruct l1]. destruct Hb as [B1 B2 B3 B4]. split.
  - rewrite El. apply Forall_app in Hf as [F1 F2]. apply Forall_app. split; [done|by constructor].
  - rewrite Hperm. by apply NoDup_cons.
  - intros c x Hcin Hx. assert (Hold : forall d, d ∈ l1 ++ b :: l2 -> x ∈ bk_streams d -> exists s', <[a := s {{ sd_io := Some io }}]> t !! x = Some s' /\ (bk_pps d == sd_pps s')%Q).
    { intros d Hd Hxd. destruct (B3 d x) as (s' & E1 & E2); [apply Hin; [done|by intros Hn; rewrite Hn in Hxd; apply elem_of_nil in Hxd]|done|].
      destruct (same_rates_some _ _ x s' Hrates E1) as (s'' & E3 & Hpps & _). exists s''. by rewrite Hpps. }
    rewrite El in Hcin. apply elem_of_app in Hcin as [Hcin|[->|Hcin]%elem_of_cons].
    + apply Hold; [apply elem_of_app; by left|done].
    + change (bk_streams (bucket_stream_add a b)) with (a :: bk_streams b) in Hx. apply elem_of_cons in Hx as [->|Hx]; [|by apply (Hold b); [apply elem_of_app; right; left|]].
      exists (s {{ sd_io := Some io }}). by rewrite lookup_insert_eq.
    + apply Hold; [apply elem_of_app; right; by right|done].
  - rewrite El. rewrite length_app in *. cbn [length]. lia.
Qed.

(** The streams of a list, one after the other, and a handle without any. *)
Fixpoint add_all (io : Z) (l : list Z) (h : tx_handle) (t : table) : option (tx_handle * table) :=
  match l with [] => Some (h, t) | a :: l => '(h, t) ← io_stream_add io a h t; add_all io l h t end.
Definition no_streams : tx_handle := mk_io [] 0 0%Q 0 false.

Lemma built_all io l : forall h t, built t h -> NoDup (l ++ all_streams (io_buckets h)) ->
  (forall a, a ∈ l -> exists s, t !! a = Some s /\ good_rate (sd_pps s)) -> Z.of_nat (length (l ++ all_streams (io_buckets h))) < 2 ^ 32 ->
  exists h' t', add_all io l h t = Some (h', t') /\ built t' h' /\ all_streams (io_buckets h') ≡ₚ l ++ all_streams (io_buckets h) /\ same_rates t t'.
Proof.
  induction l as [|a l IH]; intros h t Hb Hnd Hk Hlen; cbn [add_all]; [by exists h, t|].
  cbn [app] in Hnd. apply NoDup_cons in Hnd as [Ha Hnd]. destruct (Hk a) as (s & Hs & Hr); [by left|]. apply not_elem_of_app in Ha as [Ha1 Ha2].
  cbn [app length] in Hlen. rewrite length_app in Hlen.
  destruct (built_add io a h t s Hb Ha2 Hs Hr) as (h1 & t1 & E1 & Hb1 & Hp1 & Hr1 & _); [lia|].
  destruct (IH h1 t1) as (h2 & t2 & E2 & Hb2 & Hp2 & Hr2); [done|..].
  - rewrite Hp1, <- Permutation_middle. apply NoDup_cons. split; [|done]. by apply not_elem_of_app.
  - intros x Hx. destruct (Hk x) as (s' & Hs' & Hg); [by right|]. destruct (same_rates_some t t1 x s' Hr1 Hs') as (s'' & E & Hq & _). exists s''. by rewrite Hq.
  - rewrite length_app, Hp1. cbn [length]. lia.
  - exists h2, t2. rewrite E1. cbn [mbind option_bind]. split_and!; [done|done| |].
    + rewrite Hp2, Hp1. solve_Permutation.
    + intros x. by rewrite Hr2.
Qed.

(** * The handle that is ready *)

Lemma NoDup_separate l : NoDup (all_streams l) -> separate l /\ Forall (fun b => NoDup (bk_streams b)) l.
Proof.
  induction l as [|b l IH]; intros Hnd; [split; [by intros i j b1 b2 a H|constructor]|].
  rewrite all_streams_cons in Hnd. apply NoDup_app in Hnd as (N1 & N2 & N3). destruct (IH N3) as [S1 S2]. split; [|by constructor].
  assert (Hno : forall k c a, l !! k = Some c -> a ∈ bk_streams c -> a ∉ bk_streams b).
  { intros k c a Hc Ha Hb. apply (N2 a Hb), elem_of_all_streams. exists c. split; [by eapply list_elem_of_lookup_2|done]. }
  intros [|i] [|j] b1 b2 a H1 H2 Ha1 Ha2; cbn in H1, H2.
  - done.
  - injection H1 as <-. by destruct (Hno j b2 a).
  - injection H2 as <-. by destruct (Hno i b1 a).
  - f_equal. by eapply S1.
Qed.

Lemma all_streams_smeared l l' : Forall2 smeared l l' -> all_streams l' ≡ₚ all_streams l.
Proof. induction 1 as [|b b' l l' Hb _ IH]; [done|]. rewrite !all_streams_cons, IH. by rewrite (sm_streams _ _ Hb). Qed.

(** The period of a stream, from its rate. *)
Definition period_of (t : table) (a : Z) : Z := match t !! a with Some s => period (sd_pps s) | None => 1 end.

Lemma built_ready t h : built t h -> io_buckets h <> [] -> let '(h', t') := io_stream_smear h t in
  idle (io_buckets h') /\ cur_ok h' /\ Forall (in_period t') (io_buckets h') /\ all_streams (io_buckets h') ≡ₚ all_streams (io_buckets h) /\
  Forall (fun b => forall a, a ∈ bk_streams b -> bk_nsec b = period_of t a) (io_buckets h').
Proof.
  intros [B1 B2 B3 B4] Hne. unfold io_stream_smear. destruct (smear_list (io_buckets h) t) as [l' t'] eqn:E.
  apply smear_list_spec in E as (S1 & S2 & S3); [|done|done|].
  2: { intros a (b & Hb & Ha)%elem_of_all_streams. destruct (B3 b a Hb Ha) as (s & Hs & _). by exists s. }
  change (io_buckets (h {{ io_buckets := l' }})) with l'. pose proof (all_streams_smeared _ _ S1) as Hp.
  destruct (NoDup_separate l') as [Hsep Hnd]; [by rewrite Hp|].
  assert (Hold : forall i b', l' !! i = Some b' -> exists b, io_buckets h !! i = Some b /\ counted b /\ smeared b b').
  { intros i b' Hi. destruct (Forall2_lookup_r _ _ _ _ _ S1 Hi) as (b & Hb & Hs). exists b. split_and!; [done|by eapply Forall_lookup_1|done]. }
  split_and!; [split; [|done]| |done|done|].
  - apply Forall_lookup. intros i b' Hi. destruct (Hold i b' Hi) as (b & Hb & [C1 [C3 C4] C5 _] & [M1 M2 M3 M4 M5 M6]).
    destruct (decide (bk_streams b' = [])) as [He|He]; [by left|right]. split_and!; [done|by eapply (Forall_lookup_1 _ _ _ _ Hnd)|rewrite M3; lia|rewrite M3; lia| |done].
    apply M4. intros Hn. rewrite Hn in M1. by apply Permutation_nil_r in M1.
  - unfold cur_ok. change (io_bucket_cur (h {{ io_buckets := l' }})) with (io_bucket_cur h). change (io_buckets (h {{ io_buckets := l' }})) with l'.
    rewrite <- (Forall2_length _ _ _ S1). destruct (io_buckets h); [done|]. cbn [length] in *. lia.
  - apply Forall_lookup. intros i b' Hi a Ha. destruct (Hold i b' Hi) as (b & Hb & [C1 [C3 C4] C5 _] & [M1 M2 M3 M4 M5 M6]).
    rewrite M1 in Ha. destruct (B3 b a) as (s & Hs & Hq); [by eapply list_elem_of_lookup_2|done|]. unfold period_of. rewrite Hs, M3, C5. by apply period_Qeq.
Qed.

Lemma built_rates t t' h : same_rates t t' -> built t h -> built t' h.
Proof.
  intros Hr [B1 B2 B3 B4]. split; try done. intros b a Hb Ha. destruct (B3 b a Hb Ha) as (s & Hs & Hq). destruct (same_rates_some t t' a s Hr Hs) as (s' & Hs' & Hp & _). exists s'. by rewrite Hp.
Qed.

Lemma built_clear t h : built t h -> built t (io_stream_clear h) /\ all_streams (io_buckets (io_stream_clear h)) = [].
Proof.
  intros [B1 B2 B3 B4]. assert (E : all_streams (io_buckets (io_stream_clear h)) = []).
  { change (io_buckets (io_stream_clear h)) with (map bucket_clear (io_buckets h)). clear. induction (io_buckets h) as [|b l IH]; [done|exact IH]. }
  split; [|done]. split.
  - change (io_buckets (io_stream_clear h)) with (bucket_clear <$> io_buckets h). apply Forall_fmap. eapply Forall_impl; [exact B1|]. intros b [C1 C2 C3 _]. split; try done. by exists [].
  - rewrite E. constructor.
  - intros b a Hb Ha. assert (Hin : a ∈ all_streams (io_buckets (io_stream_clear h))) by (apply elem_of_all_streams; by exists b). rewrite E in Hin. by apply elem_of_nil in Hin.
  - change (io_bucket_cur h <= length (map bucket_clear (io_buckets h)) - 1)%nat. by rewrite length_map.
Qed.

Lemma built_smear t h : built t h -> let '(h', t') := io_stream_smear h t in
  built t' h' /\ all_streams (io_buckets h') ≡ₚ all_streams (io_buckets h) /\ same_rates t t'.
Proof.
  intros Hb. pose proof (smear_list_rates (io_buckets h) t) as Hr. destruct Hb as [B1 B2 B3 B4]. unfold io_stream_smear. destruct (smear_list (io_buckets h) t) as [l' t'] eqn:E. cbn [snd] in Hr.
  apply smear_list_spec in E as (S1 & S2 & S3); [|done|done|].
  2: { intros a (b & Hb & Ha)%elem_of_all_streams. destruct (B3 b a Hb Ha) as (s & Hs & _). by exists s. }
  pose proof (all_streams_smeared _ _ S1) as Hp. split_and!; [|done|done]. apply (built_rates t); [done|]. split.
  - change (Forall counted l'). apply Forall_lookup. intros i b' Hi. destruct (Forall2_lookup_r _ _ _ _ _ S1 Hi) as (b & Hb & [M1 M2 M3 M4 M5 M6]).
    destruct (Forall_lookup_1 _ _ _ _ B1 Hb) as [C1 C2 C3 _]. split; [by rewrite M6, C1, M1|by rewrite M2|by rewrite M2, M3|]. exists (bk_streams b'). by rewrite M5, app_nil_r.
  - change (NoDup (all_streams l')). by rewrite Hp.
  - intros b' a Hb' Ha. change (b' ∈ l') in Hb'. apply list_elem_of_lookup in Hb' as [i Hi]. destruct (Forall2_lookup_r _ _ _ _ _ S1 Hi) as (b & Hb & [M1 M2 M3 M4 M5 M6]).
    rewrite M2. apply B3; [by eapply list_elem_of_lookup_2|by rewrite <- M1].
  - change (io_bucket_cur h <= length l' - 1)%nat. by rewrite <- (Forall2_length _ _ _ S1).
Qed.

Lemma zsum_perm {A} (f : A -> Z) l l' : l ≡ₚ l' -> zsum f l = zsum f l'.
Proof. induction 1 as [|x l l' _ IH|x y l|l1 l2 l3 _ IH1 _ IH2]; unfold zsum in *; cbn; lia. Qed.

Lemma capacity_ready gap t l : Forall (fun b => forall a, a ∈ bk_streams b -> bk_nsec b = period_of t a) l ->
  capacity gap (flat l) = zsum (fun a => gap / period_of t a + 2) (all_streams l).
Proof.
  assert (Happ : forall A (f : A -> Z) l1 l2, zsum f (l1 ++ l2) = zsum f l1 + zsum f l2) by (intros A f l1 l2; induction l1 as [|x l1 IH]; unfold zsum in *; cbn; lia).
  induction l as [|b l IH]; [done|]. intros [Hb Hl]%Forall_cons. rewrite all_streams_cons, Happ, <- IH by done. unfold capacity.
  change (flat (b :: l)) with (((fun a => (a, bk_nsec b)) <$> bk_streams b) ++ flat l). rewrite Happ. f_equal. clear IH Hl.
  induction (bk_streams b) as [|a s IH]; [done|]. unfold zsum in *. cbn. rewrite IH by (intros x Hx; apply Hb; by right). by rewrite (Hb a) by (by left).
Qed.

(** ** The rate as configured *)

(** C5. A handle that is built from any streams of distinct addresses and smeared sends them at
    the configured rate: with jobs at most [gap] apart, of a size that holds what is due in such
    a gap and two packets more for each stream, building and every run of jobs complete, and at
    its end the packets of a stream differ from the elapsed time divided by its period by one at
    most. *)
Theorem stream_rate_configured {W} (send : Z -> Z -> W -> option (bool * W)) burst gap t0 t io limit l times :
  (forall now a w, exists w', send now a w = Some (true, w')) ->
  l <> [] -> NoDup l -> Z.of_nat (length l) < 2 ^ 32 -> (forall a, a ∈ l -> exists s, t !! a = Some s /\ good_rate (sd_pps s)) ->
  0 <= gap <= burst -> burst <= t0 -> 0 < t0 < 2 ^ 62 -> spaced gap t0 times -> zsum (fun a => gap / period_of t a + 2) l < Z.of_nat limit ->
  exists h1 t1, add_all io l no_streams t = Some (h1, t1) /\ let '(h2, t2) := io_stream_smear h1 t1 in
    forall w, exists sent h' w', jobs send burst t2 limit (t0 :: times) h2 w = Some (sent, h', w') /\
      forall a, a ∈ l -> last_time t0 times - t0 - period_of t a < packets a sent * period_of t a <= last_time t0 times - t0 + period_of t a.
Proof.
  intros Hsend Hne Hnd Hlen Hk Hgap Hb Ht0 Hsp Hcap.
  destruct (built_all io l no_streams t) as (h1 & t1 & E1 & Hb1 & Hp1 & Hr1); [|by cbn; rewrite app_nil_r|done|by cbn; rewrite app_nil_r|].
  { split; [done|constructor|by intros b a Hb'%elem_of_nil|done]. }
  cbn [no_streams io_buckets all_streams mbind list_bind] in Hp1. rewrite app_nil_r in Hp1.
  exists h1, t1. split; [done|]. pose proof (built_ready t1 h1 Hb1) as Hready. destruct (io_stream_smear h1 t1) as [h2 t2].
  destruct Hready as (R1 & R2 & R3 & R4 & R5); [intros Hn; rewrite Hn in Hp1; by apply Permutation_nil_l in Hp1|]. intros w.
  assert (Hper : forall a, period_of t1 a = period_of t a) by (intros a; specialize (Hr1 a); unfold period_of; destruct (t1 !! a), (t !! a); cbn in Hr1; unfold plan_of in Hr1; congruence).
  destruct (stream_rate_at send burst gap t0 t2 limit times h2 w) as (sent & h' & w' & E & H); try done.
  - rewrite (capacity_ready gap t1) by done. rewrite (zsum_perm _ _ l) by (by rewrite R4). eapply Z.le_lt_trans; [|exact Hcap]. apply zsum_le. intros a _. by rewrite Hper.
  - exists sent, h', w'. split; [done|]. intros a Ha. assert (Ha2 : a ∈ all_streams (io_buckets h2)) by (by rewrite R4, Hp1).
    apply elem_of_all_streams in Ha2 as (b & Hb2 & Hab). apply list_elem_of_lookup in Hb2 as [i Hi]. specialize (H i b a Hi Hab).
    by rewrite (Forall_lookup_1 _ _ _ _ R5 Hi a Hab), Hper in H.
Qed.

(** Three streams of 1000 and 500 packets per second; jobs each millisecond. *)
Definition plan_table : table :=
  {[ 1 := mk_sched 1 1000%Q 0 None false ; 2 := mk_sched 2 500%Q 0 None false ; 3 := mk_sched 3 1000%Q 0 None false ]}.
Definition plan_times : list Z := [1001000000; 1002000000; 1003000000; 1004000000].

Lemma stream_rate_configured_witness : exists h1 t1, add_all 7 [1; 2; 3] no_streams plan_table = Some (h1, t1) /\ let '(h2, t2) := io_stream_smear h1 t1 in
    forall w, exists sent h' w', jobs demo_send 100000000 t2 256 (1000000000 :: plan_times) h2 w = Some (sent, h', w') /\
      forall a, a ∈ [1; 2; 3] -> last_time 1000000000 plan_times - 1000000000 - period_of plan_table a < packets a sent * period_of plan_table a
        <= last_time 1000000000 plan_times - 1000000000 + period_of plan_table a.
Proof.
  apply (stream_rate_configured demo_send 100000000 1000000 1000000000 plan_table 7 256 [1; 2; 3] plan_times); try done.
  - intros now a w. by eexists.
  - by apply (bool_decide_unpack _).
  - intros a Ha. repeat (apply elem_of_cons in Ha as [->|Ha]; [eexists; split; [reflexivity|by vm_compute]|]). by apply elem_of_nil in Ha.
Defined.
