(* ===== verification/IoUpdate.v ===== *)
(** Rates that are set again (bbl_stream_ctrl_update and io_stream_update_pps).

    A stream whose rate is changed is taken off its bucket and added to the bucket of the new
    rate.  Here the new rate is the old one: the stream is added to the head of the list the
    loop is walking. *)
From Stdlib Require Import QArith.
From coqutil Require Import Datatypes.RecordSetters.
From S2P Require Import Prelude.
From S2P Require Import Const.
From S2P Require Import ConstApp.
From S2P Require Import ConstStream.
From S2P Require Import Timer.
From S2P Require Import IoStream.
From S2P Require Import IoRate.
From S2P Require Import IoExact.
From S2P Require Import IoSetup.
Import RecordSetters.DoubleBraceUpdate.
From stdpp Require Import gmap list.
Open Scope Z_scope.

(** What the loop does not change of a bucket. *)
Definition label (b : io_bucket) : Z * Q := (bk_id b, bk_pps b).

(** Buckets with their own identifiers and rates. *)
Record labelled (l : list io_bucket) : Prop := {
  lb_ids : forall i j b c, l !! i = Some b -> l !! j = Some c -> bk_id b = bk_id c -> i = j;
  lb_rates : forall i j b c, l !! i = Some b -> l !! j = Some c -> (bk_pps b == bk_pps c)%Q -> i = j
}.

(** The streams are known, and those that are flagged have the rate of their bucket. *)
Definition set_again (t : table) (b : io_bucket) : Prop :=
  forall a, a ∈ bk_streams b -> exists s, t !! a = Some s /\ (sd_update_pps s = true -> (sd_pps s == bk_pps b)%Q).
Definition flagged (t : table) (a : Z) : Prop := exists s, t !! a = Some s /\ sd_update_pps s = true.

Lemma labelled_alter f i l : (forall b, label (f b) = label b) -> labelled l -> labelled (alter f i l).
Proof.
  intros Hf [Hi Hr]. assert (Hl : forall j b, alter f i l !! j = Some b -> exists c, l !! j = Some c /\ label b = label c).
  { intros j b. destruct (decide (i = j)) as [<-|Hne].
    - rewrite list_lookup_alter_eq. destruct (l !! i) as [c|]; [|done]. cbn. intros [= <-]. exists c. by rewrite Hf.
    - rewrite list_lookup_alter_ne by done. intros Hj. by exists b. }
  split; intros j k b c Hb Hc He; apply Hl in Hb as (b' & Hb & E1), Hc as (c' & Hc & E2); unfold label in E1, E2;
    [apply (Hi j k b' c' Hb Hc)|apply (Hr j k b' c' Hb Hc)]; congruence.
Qed.

Lemma find_rate_at pps i : forall l n b, l !! i = Some b -> (bk_pps b == pps)%Q ->
  (forall j c, l !! j = Some c -> (bk_pps c == pps)%Q -> j = i) -> find_rate pps l n = Some (n + i)%nat.
Proof.
  induction i as [|i IH]; intros [|x l] n b Hb Hr Hu; try done; cbn [find_rate].
  - injection Hb as ->. unfold of_rate. rewrite (proj2 (Qeq_bool_iff _ _) Hr). f_equal. lia.
  - unfold of_rate. destruct (Qeq_bool (bk_pps x) pps) eqn:E; [apply Qeq_bool_iff in E; by specialize (Hu O x eq_refl E)|].
    rewrite (IH l (S n) b Hb Hr); [f_equal; lia|]. intros j c Hj Hc. specialize (Hu (S j) c Hj Hc). lia.
Qed.

Lemma map_id_alter id f l i b : labelled l -> l !! i = Some b -> bk_id b = id ->
  map (fun b => if bk_id b =? id then f b else b) l = alter f i l.
Proof.
  intros [Hi _] Hb <-. apply list_eq. intros j. rewrite list_lookup_fmap. destruct (decide (i = j)) as [<-|Hne].
  - rewrite list_lookup_alter_eq, Hb. cbn. by rewrite Z.eqb_refl.
  - rewrite list_lookup_alter_ne by done. destruct (l !! j) as [c|] eqn:E; [|done]. cbn. destruct (Z.eqb_spec (bk_id c) (bk_id b)) as [He|]; [|done].
    destruct Hne. by apply (Hi i j b c).
Qed.

Lemma alter_alter {A} (f g : A -> A) i (l : list A) : alter g i (alter f i l) = alter (fun x => g (f x)) i l.
Proof. revert i. induction l as [|x l IH]; intros [|i]; [done..|]. cbn. f_equal. apply IH. Qed.
Lemma alter_same {A} i (l : list A) : alter (fun x => x) i l = l.
Proof. revert i. induction l as [|x l IH]; intros [|i]; [done..|]. cbn. f_equal. apply IH. Qed.

(** A stream that is taken off its bucket and added again. *)
Lemma readd io id a prev next h t s i b : labelled (io_buckets h) -> io_buckets h !! i = Some b -> bk_id b = id -> t !! a = Some s -> (sd_pps s == bk_pps b)%Q ->
  let h1 := at_bucket id (unlink a prev next) h in
  exists h', io_stream_add io a (h1 {{ io_stream_count ::= (fun n => u32 (n - 1)) ; io_stream_pps := (io_stream_pps h1 - sd_pps s)%Q }}) t = Some (h', <[a := s {{ sd_io := Some io }}]> t)
  /\ io_buckets h' = alter (fun b => bucket_stream_add a (unlink a prev next b)) i (io_buckets h)
  /\ (0 <= io_stream_count h < 2 ^ 32 -> io_stream_count h' = io_stream_count h).
Proof.
  intros Hl Hb Hi Hs Hr h1. unfold io_stream_add. rewrite Hs. cbn [mbind option_bind].
  match goal with |- context [find_rate _ (io_buckets ?z) 0] => assert (Hz : io_buckets z = alter (unlink a prev next) i (io_buckets h)) by (apply (map_id_alter id _ _ i b); done); assert (Hc : io_stream_count z = u32 (u32 (io_stream_count h - 1) + 1)) by reflexivity; set (h2 := z) in * end.
  assert (Hl2 : labelled (io_buckets h2)) by (rewrite Hz; by apply labelled_alter).
  assert (Hb2 : io_buckets h2 !! i = Some (unlink a prev next b)) by (rewrite Hz, list_lookup_alter_eq, Hb; done).
  rewrite (find_rate_at (sd_pps s) i _ 0 _ Hb2).
  - eexists. split; [reflexivity|]. split.
    + transitivity (alter (bucket_stream_add a) i (io_buckets h2)); [reflexivity|]. by rewrite Hz, alter_alter.
    + intros Hn. change (io_stream_count h2 = io_stream_count h). rewrite Hc. unfold u32. rewrite Zplus_mod_idemp_l. rewrite Z.mod_small; lia.
  - symmetry. exact Hr.
  - intros j c Hj Hcr. symmetry. apply (lb_rates _ Hl2 i j _ c Hb2 Hj). change (bk_pps (unlink a prev next b)) with (bk_pps b). by rewrite <- Hr, Hcr.
Qed.

(** The loop over the streams of a bucket. *)
Lemma update_streams_run io i id b0 l : forall prev h t, labelled (io_buckets h) -> io_buckets h !! i = Some b0 -> bk_id b0 = id ->
  NoDup l -> (forall a, a ∈ l -> exists s, t !! a = Some s /\ (sd_update_pps s = true -> (sd_pps s == bk_pps b0)%Q)) ->
  exists h' t' f, update_streams io id prev l h t = Some (h', t') /\ io_buckets h' = alter f i (io_buckets h) /\ (forall b, label (f b) = label b)
  /\ (0 <= io_stream_count h < 2 ^ 32 -> io_stream_count h' = io_stream_count h) /\ (forall a, a ∉ l -> t' !! a = t !! a)
  /\ (l = [] -> forall b, f b = b) /\ (Forall (flagged t) l -> prev = false -> forall k a, l = k ++ [a] -> forall b, bk_streams (f b) = [a] /\ bk_count (f b) = u32 (bk_count b + Z.of_nat (length l))).
Proof.
  revert b0. induction l as [|a l IH]; intros b0 prev h t Hl Hb Hi Hn Hk; cbn [update_streams].
  - exists h, t, (fun b => b). split_and!; [done|by rewrite alter_same|done|done|done|done|]. intros _ _ [|? ?] ? ?; done.
  - destruct (Hk a) as (s & Hs & Hp); [by left|]. rewrite Hs. cbn [mbind option_bind]. apply NoDup_cons in Hn as [Ha Hn]. destruct (sd_update_pps s) eqn:Eu.
    + destruct (readd io id a prev l h t s i b0 Hl Hb Hi Hs (Hp eq_refl)) as (h1 & Hadd & Hb1 & Hc1). cbv zeta in Hadd. cbv zeta. rewrite Hadd. cbn [mbind option_bind].
      set (g := fun b => bucket_stream_add a (unlink a prev l b)) in *. set (t1 := alter _ a _).
      assert (Ht1 : forall x, x <> a -> t1 !! x = t !! x) by (intros x Hx; subst t1; by rewrite lookup_alter_ne, lookup_insert_ne by done).
      destruct (IH (g b0) prev h1 t1) as (h' & t' & f & -> & Hf & Hlab & Hc & Ht & Hnil & Hlast); [by rewrite Hb1; apply labelled_alter|by rewrite Hb1, list_lookup_alter_eq, Hb|done|done| |].
      { intros x Hx. rewrite Ht1 by (intros ->; done). apply Hk. by right. }
      exists h', t', (fun b => f (g b)). split_and!.
      * done.
      * by rewrite Hf, Hb1, alter_alter.
      * intros b. by rewrite Hlab.
      * intros Hr. rewrite Hc; [by apply Hc1|by rewrite Hc1].
      * intros x Hx. apply not_elem_of_cons in Hx as [Hxa Hx]. by rewrite Ht, Ht1.
      * done.
      * intros Hfl -> k y Hky b. apply Forall_cons in Hfl as [_ Hfl]. destruct k as [|z k]; cbn [app] in Hky; injection Hky as <- Hky.
        { subst l. rewrite Hnil by done. split; [done|]. change (bk_count (g b)) with (u32 (bk_count b + 1)). done. }
        { assert (Hfl1 : Forall (flagged t1) l).
          { rewrite Forall_forall in Hfl |- *. intros x Hx. unfold flagged. rewrite Ht1 by (intros ->; done). by apply Hfl. }
          destruct (Hlast Hfl1 eq_refl k y Hky (g b)) as [E1 E2]. split; [done|]. rewrite E2. change (bk_count (g b)) with (u32 (bk_count b + 1)).
          unfold u32. rewrite Zplus_mod_idemp_l. f_equal. cbn [length]. lia. }
    + destruct (IH b0 true h t Hl Hb Hi Hn) as (h' & t' & f & -> & Hf & Hlab & Hc & Ht & _ & _); [intros x Hx; apply Hk; by right|].
      exists h', t', f. split_and!; [done|done|done|done| |done|].
      * intros x Hx. apply not_elem_of_cons in Hx as [_ Hx]. by apply Ht.
      * intros Hfl. apply Forall_cons in Hfl as [(s' & Hs' & Hu) _]. congruence.
Qed.

(** The bucket with an identifier. *)
Lemma find_id l : forall i b, (forall i j b c, l !! i = Some b -> l !! j = Some c -> bk_id b = bk_id c -> i = j) -> l !! i = Some b ->
  List.find (fun c => bk_id c =? bk_id b) l = Some b.
Proof.
  induction l as [|x l IH]; intros [|i] b Hu Hb; try done; cbn [List.find].
  - injection Hb as ->. by rewrite Z.eqb_refl.
  - destruct (Z.eqb_spec (bk_id x) (bk_id b)) as [E|]; [by specialize (Hu O (S i) x b eq_refl Hb E)|]. apply (IH i); [|done].
    intros j k c d Hj Hk E. specialize (Hu (S j) (S k) c d Hj Hk E). lia.
Qed.

(** What is left of a bucket whose streams are all flagged. *)
Definition last_left (t : table) (b b' : io_bucket) : Prop :=
  forall k a, bk_streams b = k ++ [a] -> Forall (flagged t) (bk_streams b) ->
  bk_streams b' = [a] /\ bk_count b' = u32 (bk_count b + Z.of_nat (length (bk_streams b))).

Lemma update_buckets_run io : forall l pre h t, io_buckets h = pre ++ l -> labelled (io_buckets h) -> NoDup (concat (map bk_streams l)) -> Forall (set_again t) l ->
  exists h' t' l', update_buckets io (map bk_id l) h t = Some (h', t') /\ io_buckets h' = pre ++ l' /\ Forall2 (last_left t) l l'
  /\ (0 <= io_stream_count h < 2 ^ 32 -> io_stream_count h' = io_stream_count h).
Proof.
  induction l as [|b l IH]; intros pre h t Hh Hl Hn Ha; cbn [map update_buckets]; [by exists h, t, []|].
  assert (Hb : io_buckets h !! length pre = Some b) by (rewrite Hh; by apply list_lookup_middle).
  rewrite (find_id _ (length pre) b (lb_ids _ Hl) Hb). cbn [mbind option_bind]. cbn [map concat] in Hn. apply NoDup_app in Hn as (Hn1 & Hn2 & Hn3). apply Forall_cons in Ha as [Ha1 Ha2].
  destruct (update_streams_run io (length pre) (bk_id b) b (bk_streams b) false h t Hl Hb eq_refl Hn1 Ha1) as (h1 & t1 & f & -> & Hf & Hlab & Hc & Ht & _ & Hlast). cbn [mbind option_bind].
  assert (Hh1 : io_buckets h1 = (pre ++ [f b]) ++ l) by (rewrite Hf, Hh, <- app_assoc; apply alter_middle).
  assert (Hsame : forall c a, c ∈ l -> a ∈ bk_streams c -> t1 !! a = t !! a).
  { intros c a Hcl Hac. apply Ht. intros Hab. apply (Hn2 a Hab), list_elem_of_In, in_concat. exists (bk_streams c). split; [by apply in_map, list_elem_of_In|by apply list_elem_of_In]. }
  destruct (IH (pre ++ [f b]) h1 t1 Hh1) as (h' & t' & l' & -> & Hl' & H2 & Hc'); [rewrite Hf; by apply labelled_alter|done| |].
  { rewrite Forall_forall in Ha2 |- *. intros c Hcl a Hac. rewrite (Hsame c a Hcl Hac). by apply Ha2. }
  exists h', t', (f b :: l'). split_and!; [done|by rewrite Hl', <- app_assoc| |intros Hr; rewrite Hc'; [by apply Hc|by rewrite Hc]].
  constructor; [intros k a Hk Hfl; by apply (Hlast Hfl eq_refl k a Hk)|].
  apply Forall2_same_length_lookup_2; [by apply Forall2_length in H2|]. intros i c c' Hci Hc'i k a Hk Hfl. apply (Forall2_lookup_lr _ _ _ _ _ _ H2 Hci Hc'i k a Hk).
  rewrite Forall_forall in Hfl |- *. intros x Hx. unfold flagged. rewrite (Hsame c x); [by apply Hfl|by apply list_elem_of_lookup_2 in Hci|done].
Qed.

(** Spreading the streams leaves a stream that is alone in its bucket. *)
Lemma smear_list_alone l : forall t, Forall2 (fun b b' => bk_count b' = bk_count b /\ forall a, bk_streams b = [a] -> bk_streams b' = [a]) l (smear_list l t).1.
Proof.
  induction l as [|b l IH]; intros t; cbn [smear_list]; [constructor|].
  assert (Hb : bk_count (bucket_smear (bucket_shuffle t b) t).1 = bk_count b /\ forall a, bk_streams b = [a] -> bk_streams (bucket_smear (bucket_shuffle t b) t).1 = [a]).
  { unfold bucket_smear. change (bk_count (bucket_shuffle t b)) with (bk_count b).
    assert (Hs : forall a, bk_streams b = [a] -> bk_streams (bucket_shuffle t b) = [a]).
    { intros a Hs. change (bk_streams (bucket_shuffle t b)) with (if bk_count b =? 0 then bk_streams b else shuffle (third_flow t) [] [] (bk_streams b)). rewrite Hs. by case_match. }
    destruct (bk_count b =? 0); cbn [fst]; split; done. }
  destruct (bucket_smear (bucket_shuffle t b) t) as [b' t']. specialize (IH t'). destruct (smear_list l t') as [l' t'']. cbn [fst] in *. by constructor.
Qed.

(** C39. The rate of streams is set again to what it is.  Of the streams of a bucket that are all
    set again only the last one is left in the bucket: each of the others is added to the head
    of the list and is lost when the next one is taken off what was the head.  The handle still
    counts the streams that are lost, and the bucket counts every stream twice. *)
Theorem update_pps_loses_streams (io : Z) (h : tx_handle) (t : table) :
  labelled (io_buckets h) -> NoDup (concat (map bk_streams (io_buckets h))) -> Forall (set_again t) (io_buckets h) -> 0 <= io_stream_count h < 2 ^ 32 ->
  exists h' t', io_stream_update_pps io h t = Some (h', t') /\ io_stream_count h' = io_stream_count h
  /\ forall i b k a, io_buckets h !! i = Some b -> bk_streams b = k ++ [a] -> Forall (flagged t) (bk_streams b) ->
     exists b', io_buckets h' !! i = Some b' /\ bk_streams b' = [a] /\ bk_count b' = u32 (bk_count b + Z.of_nat (length (bk_streams b))).
Proof.
  intros Hl Hn Ha Hc. unfold io_stream_update_pps. destruct (update_buckets_run io (io_buckets h) [] h t eq_refl Hl Hn Ha) as (h1 & t1 & l1 & -> & Hl1 & H1 & Hc1). cbn [mbind option_bind].
  unfold io_stream_smear. pose proof (smear_list_alone (io_buckets h1) t1) as H2. destruct (smear_list (io_buckets h1) t1) as [l2 t2]. cbn [fst app] in *. rewrite Hl1 in H2.
  eexists _, _. split; [reflexivity|]. split; [exact (Hc1 Hc)|]. intros i b k a Hb Hk Hf.
  destruct (Forall2_lookup_l _ _ _ _ _ H1 Hb) as (b1 & Hb1 & Hlast). destruct (Hlast k a Hk Hf) as [E1 E2].
  destruct (Forall2_lookup_l _ _ _ _ _ H2 Hb1) as (b2 & Hb2 & E3 & E4). exists b2. split; [exact Hb2|]. split; [by apply E4|congruence].
Qed.

(** Three streams of one rate and two of another one. *)
Definition again_table : table :=
  list_to_map (map (fun '(a, pps) => (a, mk_sched a pps 0 None true)) [(1, 1000%Q); (2, 1000%Q); (3, 1000%Q); (4, 10%Q); (5, 10%Q)]).

Lemma update_pps_loses_streams_witness :
  exists h t h' t', add_all 7 [1; 2; 3; 4; 5] no_streams again_table = Some (h, t) /\ map bk_streams (io_buckets h) = [[3; 2; 1]; [5; 4]]
  /\ io_stream_update_pps 7 h t = Some (h', t') /\ io_stream_count h' = 5 /\ (exists b, io_buckets h' !! 0%nat = Some b /\ bk_streams b = [1] /\ bk_count b = 6).
Proof.
  destruct (add_all 7 [1; 2; 3; 4; 5] no_streams again_table) as [[h t]|] eqn:E; [|by vm_compute in E].
  assert (Hs : map bk_streams (io_buckets h) = [[3; 2; 1]; [5; 4]] /\ map label (io_buckets h) = [(0, 1000%Q); (1, 10%Q)] /\ map bk_count (io_buckets h) = [3; 2] /\ io_stream_count h = 5
    /\ Forall (fun '(a, pps) => (fun s => (sd_update_pps s, sd_pps s)) <$> t !! a = Some (true, pps)) [(1, 1000%Q); (2, 1000%Q); (3, 1000%Q); (4, 10%Q); (5, 10%Q)]).
  { vm_compute in E. injection E as <- <-. split_and!; try reflexivity. by repeat constructor. }
  destruct Hs as (Hs & Hl & Hn & Hc & Ht). destruct (io_buckets h) as [|b1 [|b2 [|]]] eqn:Eb; try done. injection Hs as S1 S2. injection Hl as I1 P1 I2 P2. injection Hn as N1 N2.
  assert (Hk : forall a pps, (a, pps) ∈ [(1, 1000%Q); (2, 1000%Q); (3, 1000%Q); (4, 10%Q); (5, 10%Q)] -> exists s, t !! a = Some s /\ sd_update_pps s = true /\ sd_pps s = pps).
  { intros a pps Ha. rewrite Forall_forall in Ht. specialize (Ht _ Ha). cbn in Ht. destruct (t !! a) as [s|]; [|done]. injection Ht as F1 F2. by exists s. }
  destruct (update_pps_loses_streams 7 h t) as (h' & t' & Hu & Hcount & Hlost).
  - rewrite Eb. split; intros [|[|i]] [|[|j]] b c Hb Hc' He; cbn in Hb, Hc'; try done; injection Hb as <-; injection Hc' as <-; [congruence..| |]; rewrite P1, P2 in He; by vm_compute in He.
  - rewrite Eb. cbn [map concat]. rewrite S1, S2. apply (bool_decide_unpack _). by vm_compute.
  - rewrite Eb. repeat constructor; intros a; [rewrite S1, P1|rewrite S2, P2]; intros Ha.
    + destruct (Hk a 1000%Q) as (s & ? & ? & E2); [set_solver|]. exists s. split; [done|]. intros _. by rewrite E2.
    + destruct (Hk a 10%Q) as (s & ? & ? & E2); [set_solver|]. exists s. split; [done|]. intros _. by rewrite E2.
  - rewrite Hc. lia.
  - exists h, t, h', t'. split; [done|]. split; [rewrite Eb; cbn; congruence|]. split; [done|]. split; [congruence|].
    destruct (Hlost 0%nat b1 [3; 2] 1) as (b' & Hb' & Hs' & Hc'); [by rewrite Eb|done| |exists b'; split; [done|]; split; [done|]; rewrite Hc', S1, N1; done].
    rewrite S1, Forall_forall. intros a Ha. destruct (Hk a 1000%Q) as (s & ? & ? & _); [set_solver|]. by exists s.
Defined.
