(* ===== verification/Lag.v ===== *)
(** Link aggregation (bbl_lag.c), the LACP packets of bbl_tx.c, the choice of a link for a
    stream in bbl_stream.c, and the commands that enable and disable a link (bbl_interface.c).

    Members are known by their address, which is also that of their transmit handle; a member
    is kept together with what is used of its interface.  LAGs are known by their index.  [None]
    is an access through NULL or outside of [active_list]. *)
From Stdlib Require Import QArith.
From coqutil Require Import Datatypes.RecordSetters.
From S2P Require Import Prelude.
From S2P Require Import Const.
From S2P Require Import ConstApp.
From S2P Require Import ConstStream.
From S2P Require Import ConstNet.
From S2P Require Import ProtoTypes.
From S2P Require Import Enc.
From S2P Require Import EncodeEth.
From S2P Require Import StreamRx.
From S2P Require Import IoStream.
Import RecordSetters.DoubleBraceUpdate.
From stdpp Require Import gmap list strings.
Open Scope Z_scope.

(** * State *)

Inductive lacp_state := LACP_DISABLED | LACP_EXPIRED | LACP_DEFAULTED | LACP_CURRENT.
#[export] Instance lacp_state_dec : EqDecision lacp_state.
Proof. solve_decision. Defined.

Record bbl_lag_config := mk_lag_config {
  lgc_id : Z;
  lgc_interface : string;
  lgc_lacp_enable : bool;
  lgc_lacp_timeout_short : bool;
  lgc_lacp_min_active_links : Z;
  lgc_lacp_max_active_links : Z;
  lgc_lacp_system_priority : Z;
  lgc_lacp_system_id : list Z;
  lgc_mac : list Z
}.

(** What a LACP packet says of one side. *)
Record lacp_info := mk_info {
  li_system_id : list Z;
  li_system_priority : Z;
  li_key : Z;
  li_port_priority : Z;
  li_port_id : Z;
  li_state : Z
}.
Definition info0 : lacp_info := mk_info (replicate 6 0) 0 0 0 0 0.

Record bbl_lag_member := mk_member {
  mb_lag : Datatypes.nat;
  mb_lacp_state : lacp_state;
  mb_primary : bool;
  mb_lacp_timer : option Z;     (* the interval of lacp_timer, in seconds *)
  mb_timeout : Z;
  mb_actor : lacp_info;
  mb_partner : lacp_info;
  mb_lacp_rx : Z;
  mb_lacp_tx : Z;
  (* of the interface *)
  mb_name : string;
  mb_state : interface_state;
  mb_state_transitions : Z;
  mb_send_requests : Z;
  mb_mac : list Z;
  mb_io : tx_handle             (* io.tx *)
}.

Record bbl_lag := mk_lag {
  lag_id : Z;
  lag_config : bbl_lag_config;
  lag_active : list Z;          (* the first active_count entries of active_list *)
  lag_streams : list Z;         (* stream_head *)
  lag_stream_count : Z;
  lag_members : list Z;         (* lag_member_qhead *)
  (* of the interface *)
  lag_ifindex : Z;
  lag_state : interface_state;
  lag_state_transitions : Z
}.

Record links := mk_links {
  ln_lags : list bbl_lag;                (* lag_qhead *)
  ln_members : gmap Z bbl_lag_member;
  ln_streams : table;
  ln_interfaces : Z;                     (* interfaces of the context *)
  ln_port_id : Z                         (* g_lag_port_id *)
}.

(** * Set-up *)

Definition bbl_lag_get_by_name (interface : string) (x : links) : option Datatypes.nat :=
  fst <$> list_find (fun l => lgc_interface (lag_config l) = interface) (ln_lags x).

Definition lag_new (config : bbl_lag_config) (x : links) : links :=
  x {{ ln_lags ::= (fun l => l ++ [mk_lag (lgc_id config) config [] [] 0 [] (ln_interfaces x) INTERFACE_DOWN 0]) ; ln_interfaces ::= (fun n => u32 (n + 1)) }}.

Fixpoint bbl_lag_add (configs : list bbl_lag_config) (x : links) : links :=
  match configs with [] => x | config :: configs => bbl_lag_add configs (lag_new config x) end.

(** Lower values come first. *)
Fixpoint bbl_lag_member_insert (ms : gmap Z bbl_lag_member) (priority a : Z) (q : list Z) : option (list Z) :=
  match q with
  | [] => Some [a]
  | b :: q =>
      m ← ms !! b;
      if priority <? li_port_priority (mb_actor m) then Some (a :: b :: q)
      else cons b <$> bbl_lag_member_insert ms priority a q
  end.

Definition with_lag (i : Datatypes.nat) (f : bbl_lag -> bbl_lag) (x : links) : links := x {{ ln_lags ::= alter f i }}.
Definition with_member (a : Z) (f : bbl_lag_member -> bbl_lag_member) (x : links) : links := x {{ ln_members ::= alter f a }}.

(** The configuration of a link. *)
Record link_config := mk_link { lk_interface : string; lk_lag_interface : option string; lk_tx_threads : Z; lk_lacp_priority : Z }.

Definition LACP_STATE_INIT : Z :=
  Z.lor (Z.lor (Z.lor (Z.lor LACP_STATE_FLAG_ACTIVE LACP_STATE_FLAG_IN_SYNC) LACP_STATE_FLAG_AGGREGATION) LACP_STATE_FLAG_EXPIRED) LACP_STATE_FLAG_DEFAULTED.

(** The member for an interface at address [a], whose state is [state] and handle [io]. *)
Definition member_new (i : Datatypes.nat) (lag : bbl_lag) (port_id : Z) (link : link_config) (state : interface_state) (io : tx_handle) : bbl_lag_member :=
  let c := lag_config lag in
  let m := mk_member i LACP_DISABLED false None 0 info0 info0 0 0 (lk_interface link) state 0 0 (lgc_mac c) io in
  if lgc_lacp_enable c then
    m {{ mb_lacp_state := LACP_DEFAULTED ; mb_state := INTERFACE_DOWN ;
         mb_actor := mk_info (lgc_lacp_system_id c) (lgc_lacp_system_priority c) (lag_id lag) (lk_lacp_priority link) port_id
           (if lgc_lacp_timeout_short c then Z.lor LACP_STATE_INIT LACP_STATE_FLAG_SHORT_TIMEOUT else LACP_STATE_INIT) ;
         mb_lacp_timer := Some (if lgc_lacp_timeout_short c then 1 else 30) }}
  else m {{ mb_primary := bool_decide (lag_members lag = []) }}.

Definition bbl_lag_interface_add (a : Z) (link : link_config) (state : interface_state) (io : tx_handle) (x : links) : option (bool * links) :=
  match lk_lag_interface link with
  | None => Some (true, x)
  | Some name =>
      match bbl_lag_get_by_name name x with
      | None => Some (false, x)
      | Some i =>
          if negb (lk_tx_threads link =? 0) then Some (false, x)
          else
            lag ← ln_lags x !! i;
            let m := member_new i lag (ln_port_id x) link state io in
            q ← bbl_lag_member_insert (ln_members x) (li_port_priority (mb_actor m)) a (lag_members lag);
            let x := x {{ ln_members ::= <[a := m]> }} in
            if lgc_lacp_enable (lag_config lag) then
              Some (true, with_lag i (fun l => l {{ lag_members := q }}) (x {{ ln_port_id ::= (fun n => u16 (n + 1)) }}))
            else if Z.of_nat (length (lag_active lag)) <? LAG_MEMBER_ACTIVE_MAX then
              Some (true, with_lag i (fun l => l {{ lag_members := q ; lag_state := INTERFACE_UP ; lag_active ::= (fun l => l ++ [a]) }}) x)
            else None
      end
  end.

(** * Selection of links *)

Definition clear_flags (flags v : Z) : Z := Z.ldiff v flags.
Definition flag (v f : Z) : bool := negb (Z.land v f =? 0).

Definition actor_flags (state : interface_state) (v : Z) : Z :=
  match state with
  | INTERFACE_UP => Z.lor v (Z.lor LACP_STATE_FLAG_COLLECTING LACP_STATE_FLAG_DISTRIBUTING)
  | INTERFACE_STANDBY => Z.lor (clear_flags LACP_STATE_FLAG_DISTRIBUTING v) LACP_STATE_FLAG_COLLECTING
  | _ => clear_flags (Z.lor LACP_STATE_FLAG_COLLECTING LACP_STATE_FLAG_DISTRIBUTING) v
  end.

Definition set_actor_state (f : Z -> Z) (m : bbl_lag_member) : bbl_lag_member := m {{ mb_actor ::= (fun a => a {{ li_state ::= f }}) }}.

Definition bbl_lag_member_update_state (state : interface_state) (m : bbl_lag_member) : bbl_lag_member :=
  if decide (mb_state m = state) then m
  else set_actor_state (actor_flags state) (m {{ mb_state_transitions ::= (fun n => u32 (n + 1)) ; mb_state := state }}).

Definition bbl_lag_update_state (state : interface_state) (l : bbl_lag) : bbl_lag :=
  if decide (lag_state l = state) then l else l {{ lag_state_transitions ::= (fun n => u32 (n + 1)) ; lag_state := state }}.

(** One member, with the active ones so far. *)
Definition select_member (max a : Z) (active : list Z) (m : bbl_lag_member) : bbl_lag_member * list Z :=
  let m := m {{ mb_io ::= io_stream_clear ; mb_primary := false }} in
  if decide (mb_state m = INTERFACE_DISABLED) then (m, active)
  else if bool_decide (mb_lacp_state m = LACP_CURRENT) && flag (li_state (mb_partner m)) LACP_STATE_FLAG_COLLECTING then
    let count := Z.of_nat (length active) in
    if (LAG_MEMBER_ACTIVE_MAX <=? count) || (max <=? count) then (bbl_lag_member_update_state INTERFACE_STANDBY m, active)
    else (bbl_lag_member_update_state INTERFACE_UP (m {{ mb_primary := count =? 0 }}), active ++ [a])
  else (bbl_lag_member_update_state INTERFACE_DOWN m, active).

Fixpoint select_members (max : Z) (q active : list Z) (ms : gmap Z bbl_lag_member) : option (list Z * gmap Z bbl_lag_member) :=
  match q with
  | [] => Some (active, ms)
  | a :: q =>
      m ← ms !! a;
      let '(m, active) := select_member max a active m in
      select_members max q active (<[a := m]> ms)
  end.

(** The streams of the LAG, each on the link that its flow selects. *)
Fixpoint distribute (active l : list Z) (ms : gmap Z bbl_lag_member) (t : table) : option (gmap Z bbl_lag_member * table) :=
  match l with
  | [] => Some (ms, t)
  | s :: l =>
      st ← t !! s;
      a ← active !! Z.to_nat (sd_flow_id st mod Z.of_nat (length active));
      m ← ms !! a;
      '(h, t) ← io_stream_add a s (mb_io m) t;
      distribute active l (<[a := m {{ mb_io := h }}]> ms) t
  end.

Fixpoint smear_members (active : list Z) (ms : gmap Z bbl_lag_member) (t : table) : option (gmap Z bbl_lag_member * table) :=
  match active with
  | [] => Some (ms, t)
  | a :: active =>
      m ← ms !! a;
      let '(h, t) := io_stream_smear (mb_io m) t in
      smear_members active (<[a := m {{ mb_io := h }}]> ms) t
  end.

Definition bbl_lag_select (i : Datatypes.nat) (x : links) : option links :=
  l ← ln_lags x !! i;
  '(active, ms) ← select_members (lgc_lacp_max_active_links (lag_config l)) (lag_members l) [] (ln_members x);
  if negb (bool_decide (active = [])) && (lgc_lacp_min_active_links (lag_config l) <=? Z.of_nat (length active)) then
    '(ms, t) ← distribute active (lag_streams l) ms (ln_streams x);
    '(ms, t) ← smear_members active ms t;
    Some (with_lag i (fun l => (bbl_lag_update_state INTERFACE_UP l) {{ lag_active := active }}) (x {{ ln_members := ms ; ln_streams := t }}))
  else Some (with_lag i (fun l => (bbl_lag_update_state INTERFACE_DOWN l) {{ lag_active := active }}) (x {{ ln_members := ms }})).

(** * LACP *)

(** An action that is followed by a selection. *)
Definition then_select (a : Z) (f : bbl_lag_member -> bbl_lag_member) (x : links) : option links :=
  m ← ln_members x !! a;
  bbl_lag_select (mb_lag m) (with_member a f x).

Definition lacp_expired (m : bbl_lag_member) : bbl_lag_member :=
  set_actor_state (Z.lor LACP_STATE_FLAG_EXPIRED) (m {{ mb_lacp_state := LACP_EXPIRED }}).
Definition lacp_defaulted (flags : Z) (m : bbl_lag_member) : bbl_lag_member :=
  set_actor_state (Z.lor flags) (m {{ mb_lacp_state := LACP_DEFAULTED ; mb_partner := info0 }}).

Definition bbl_lag_lacp_job (a : Z) (x : links) : option links :=
  let x := with_member a (fun m => m {{ mb_send_requests ::= Z.lor BBL_SEND_LACP ; mb_timeout ::= (fun n => u8 (n + 1)) }}) x in
  m ← ln_members x !! a;
  if 3 <? mb_timeout m then
    x ← (if flag (li_state (mb_actor m)) LACP_STATE_FLAG_EXPIRED then Some x else then_select a lacp_expired x);
    if 6 <? mb_timeout m then
      m ← ln_members x !! a;
      if flag (li_state (mb_actor m)) LACP_STATE_FLAG_DEFAULTED then Some x else then_select a (lacp_defaulted LACP_STATE_FLAG_DEFAULTED) x
    else Some x
  else Some x.

Definition bbl_lag_member_lacp_reset (a : Z) (x : links) : option links :=
  m ← ln_members x !! a;
  if decide (mb_lacp_state m = LACP_DISABLED) then Some x
  else then_select a (lacp_defaulted (Z.lor LACP_STATE_FLAG_EXPIRED LACP_STATE_FLAG_DEFAULTED)) x.

(** What the partner says of itself. *)
Definition partner_of (lacp : bbl_lacp) : option lacp_info :=
  id ← lacp_actor_system_id lacp;
  Some (mk_info (take 6 id) (lacp_actor_system_priority lacp) (lacp_actor_key lacp) (lacp_actor_port_priority lacp) (lacp_actor_port_id lacp) (lacp_actor_state lacp)).

Definition partner_changed (m : bbl_lag_member) (lacp : bbl_lacp) : bool :=
  negb (bool_decide (mb_lacp_state m = LACP_CURRENT)) || negb (li_state (mb_partner m) =? lacp_actor_state lacp)
  || negb (li_system_priority (mb_partner m) =? lacp_actor_system_priority lacp) || negb (li_port_priority (mb_partner m) =? lacp_actor_port_priority lacp).

Definition bbl_lag_rx_lacp (a : Z) (lacp : bbl_lacp) (x : links) : option links :=
  m ← ln_members x !! a;
  if decide (mb_lacp_state m = LACP_DISABLED) then Some x
  else
    let x := with_member a (fun m => set_actor_state (clear_flags (Z.lor LACP_STATE_FLAG_DEFAULTED LACP_STATE_FLAG_EXPIRED))
                                       (m {{ mb_timeout := 0 ; mb_lacp_rx ::= (fun n => u32 (n + 1)) }})) x in
    if partner_changed m lacp then
      p ← partner_of lacp;
      then_select a (fun m => m {{ mb_lacp_state := LACP_CURRENT ; mb_partner := p }}) x
    else Some x.

(** A packet of the partner, as the receive path hands it over. *)
Definition rx_lacp (a : Z) (lacp : bbl_lacp) (x : links) : option links :=
  m ← ln_members x !! a;
  if decide (mb_state m = INTERFACE_DISABLED) then Some x else bbl_lag_rx_lacp a lacp x.

(** The packet that is due, if any. *)
Definition lacp_packet (m : bbl_lag_member) : ethernet :=
  let lacp := mk_lacp (Some (li_system_id (mb_actor m))) (li_system_priority (mb_actor m)) (li_key (mb_actor m)) (li_port_priority (mb_actor m)) (li_port_id (mb_actor m)) (li_state (mb_actor m))
                      (Some (li_system_id (mb_partner m))) (li_system_priority (mb_partner m)) (li_key (mb_partner m)) (li_port_priority (mb_partner m)) (li_port_id (mb_partner m)) (li_state (mb_partner m)) in
  eth0 {{ eth_src := Some (mb_mac m) ; eth_dst := Some [0x01; 0x80; 0xc2; 0x00; 0x00; 0x02] ; eth_type := ETH_TYPE_LACP ; eth_next := h_lacp lacp }}.

Definition bbl_tx_encode_interface_packet (a : Z) (buf : list Z) (x : links) : option (protocol_error * option (list Z * Z) * links) :=
  m ← ln_members x !! a;
  if flag (mb_send_requests m) BBL_SEND_LACP then
    let x := with_member a (fun m => m {{ mb_send_requests ::= clear_flags BBL_SEND_LACP ; mb_lacp_tx ::= (fun n => u32 (n + 1)) }}) x in
    match encode_ethernet (lacp_packet m) buf 0 with
    | WOk (r, _) w => Some (r, Some (w_mem w, w_len w), x)
    | WFault => None
    end
  else Some (UNKNOWN_PROTOCOL, None, with_member a (fun m => m {{ mb_send_requests := 0 }}) x).

(** * Commands and streams *)

Definition bbl_interface_ctrl_enable_disable (enable : bool) (a : Z) (x : links) : option links :=
  m ← ln_members x !! a;
  if enable then
    if decide (mb_state m = INTERFACE_DISABLED) then
      Some (with_member a (fun m => m {{ mb_state := if decide (mb_lacp_state m = LACP_DISABLED) then INTERFACE_UP else INTERFACE_DOWN }}) x)
    else Some x
  else if decide (mb_state m = INTERFACE_DISABLED) then Some x
  else
    x ← bbl_lag_member_lacp_reset a x;
    Some (with_member a (fun m => m {{ mb_state := INTERFACE_DISABLED }}) x).

(** The member of the lowest rate, [best] so far. *)
Fixpoint lowest_rate (ms : gmap Z bbl_lag_member) (best : Z) (q : list Z) : option Z :=
  match q with
  | [] => Some best
  | a :: q =>
      m ← ms !! a; b ← ms !! best;
      lowest_rate ms (if Qlt (io_stream_pps (mb_io m)) (io_stream_pps (mb_io b)) then a else best) q
  end.

Definition bbl_stream_select_io_lag (s : Z) (i : Datatypes.nat) (x : links) : option links :=
  l ← ln_lags x !! i;
  let x := with_lag i (fun l => l {{ lag_streams ::= cons s ; lag_stream_count ::= (fun n => u32 (n + 1)) }}) x in
  if lgc_lacp_enable (lag_config l) then Some x
  else
    first ← head (lag_members l);
    a ← lowest_rate (ln_members x) first (lag_members l);
    m ← ln_members x !! a;
    '(h, t) ← io_stream_add a s (mb_io m) (ln_streams x);
    Some (with_member a (fun m => m {{ mb_io := h }}) (x {{ ln_streams := t }})).
