(* ===== verification/LagSelect.v ===== *)
(** Which links of a LAG are active, and where its streams are.

    [lag_ok] is what a LAG with LACP keeps: its active links are the first eligible ones in the
    order of their priority, up to the maximum, the first of them is the primary link; the state
    of the links and of the LAG and the advertised flags follow; and when the LAG is up each of
    its streams is on the link that its flow selects, and on no other. *)
From Stdlib Require Import QArith.
From coqutil Require Import Datatypes.RecordSetters.
From S2P Require Import Prelude.
From S2P Require Import Const.
From S2P Require Import ConstApp.
From S2P Require Import ConstStream.
From S2P Require Import ConstNet.
From S2P Require Import ProtoTypes.
From S2P Require Import StreamRx.
From S2P Require Import IoStream.
From S2P Require Import IoRate.
From S2P Require Import IoSetup.
From S2P Require Import Lag.
Import RecordSetters.DoubleBraceUpdate.
From stdpp Require Import gmap list strings.
Open Scope Z_scope.

(** * Reference *)

(** A link that may carry traffic. *)
Definition eligible (m : bbl_lag_member) : bool :=
  negb (bool_decide (mb_state m = INTERFACE_DISABLED)) && bool_decide (mb_lacp_state m = LACP_CURRENT) && flag (li_state (mb_partner m)) LACP_STATE_FLAG_COLLECTING.
Definition eligible_at (ms : gmap Z bbl_lag_member) (a : Z) : bool := match ms !! a with Some m => eligible m | None => false end.
Definition limit (c : bbl_lag_config) : Datatypes.nat := Z.to_nat (Z.min LAG_MEMBER_ACTIVE_MAX (lgc_lacp_max_active_links c)).
Definition eligibles (ms : gmap Z bbl_lag_member) (q : list Z) : list Z := filter (fun a => eligible_at ms a = true) q.

(** The links that are active. *)
Definition chosen (c : bbl_lag_config) (ms : gmap Z bbl_lag_member) (q : list Z) : list Z := take (limit c) (eligibles ms q).

Definition enough (c : bbl_lag_config) (active : list Z) : bool :=
  negb (bool_decide (active = [])) && (lgc_lacp_min_active_links c <=? Z.of_nat (length active)).

(** The link of a stream. *)
Definition link_of (active : list Z) (t : table) (s : Z) : option Z :=
  st ← t !! s; active !! Z.to_nat (sd_flow_id st mod Z.of_nat (length active)).

(** * Selection *)

(** What becomes of a link. *)
Definition placed (active : list Z) (a : Z) (m : bbl_lag_member) : bbl_lag_member :=
  let m1 := m {{ mb_io ::= io_stream_clear ; mb_primary := false }} in
  if decide (mb_state m = INTERFACE_DISABLED) then m1
  else if eligible m then
    if decide (a ∈ active) then bbl_lag_member_update_state INTERFACE_UP (m1 {{ mb_primary := bool_decide (head active = Some a) }})
    else bbl_lag_member_update_state INTERFACE_STANDBY m1
  else bbl_lag_member_update_state INTERFACE_DOWN m1.

Lemma update_state_eligible state m : state <> INTERFACE_DISABLED -> mb_state m <> INTERFACE_DISABLED -> eligible (bbl_lag_member_update_state state m) = eligible m.
Proof.
  intros H1 H2. unfold bbl_lag_member_update_state. case_decide; [done|]. unfold eligible at 2. rewrite (bool_decide_eq_false_2 _ H2).
  change (negb (bool_decide (state = INTERFACE_DISABLED)) && bool_decide (mb_lacp_state m = LACP_CURRENT) && flag (li_state (mb_partner m)) LACP_STATE_FLAG_COLLECTING
    = negb false && bool_decide (mb_lacp_state m = LACP_CURRENT) && flag (li_state (mb_partner m)) LACP_STATE_FLAG_COLLECTING). by rewrite (bool_decide_eq_false_2 _ H1).
Qed.

(** One link: it is appended exactly when it is eligible and there is room. *)
Lemma select_member_spec max a active m : a ∉ active ->
  let lim := Z.to_nat (Z.min LAG_MEMBER_ACTIVE_MAX max) in
  let room := eligible m && (length active <? lim)%nat in
  let '(m', active') := select_member max a active m in
  active' = (if room then active ++ [a] else active) /\ eligible m' = eligible m /\
  forall rest, (eligible m = true -> room = false -> a ∉ rest) -> placed (active' ++ rest) a m = m'.
Proof.
  intros Ha lim. unfold select_member. set (m1 := m {{ mb_io ::= io_stream_clear ; mb_primary := false }}).
  change (mb_state m1) with (mb_state m). change (mb_lacp_state m1) with (mb_lacp_state m). change (mb_partner m1) with (mb_partner m).
  assert (He1 : eligible m1 = eligible m) by done. unfold placed. fold m1. case_decide as Hd.
  { assert (Hem : eligible m = false) by (unfold eligible; by rewrite bool_decide_eq_true_2). rewrite Hem. cbn [andb]. split_and!; [done|by rewrite He1|done]. }
  destruct (bool_decide (mb_lacp_state m = LACP_CURRENT) && flag (li_state (mb_partner m)) LACP_STATE_FLAG_COLLECTING) eqn:Hel.
  - assert (Hem : eligible m = true) by (unfold eligible; rewrite bool_decide_eq_false_2 by done; exact Hel).
    assert (Hlim : (LAG_MEMBER_ACTIVE_MAX <=? Z.of_nat (length active)) || (max <=? Z.of_nat (length active)) = negb (length active <? lim)%nat).
    { subst lim. destruct (Nat.ltb_spec (length active) (Z.to_nat (Z.min LAG_MEMBER_ACTIVE_MAX max))); cbn; [apply orb_false_iff|apply orb_true_iff]; rewrite ?Z.leb_gt, ?Z.leb_le; lia. }
    rewrite Hlim, Hem. destruct (Nat.ltb_spec (length active) lim) as [Hlt|Hge]; cbn [negb andb].
    + split_and!; [done|by rewrite update_state_eligible|]. intros rest _. rewrite decide_True by (rewrite !elem_of_app; left; right; by left).
      f_equal. assert (Hh : bool_decide (head ((active ++ [a]) ++ rest) = Some a) = (Z.of_nat (length active) =? 0)); [|by rewrite Hh].
      destruct active as [|b active]; [by rewrite bool_decide_eq_true_2|]. rewrite bool_decide_eq_false_2; [done|]. cbn. intros [= ->]. apply Ha. by left.
    + split_and!; [done|by rewrite update_state_eligible|]. intros rest Hr. rewrite decide_False; [done|]. rewrite elem_of_app. intros [?|?]; [done|]. by apply Hr.
  - assert (Hem : eligible m = false) by (unfold eligible; rewrite bool_decide_eq_false_2 by done; exact Hel). rewrite Hem. cbn [andb].
    split_and!; [done|by rewrite update_state_eligible|done].
Qed.

Lemma eligibles_insert ms a m q : a ∉ q -> eligibles (<[a := m]> ms) q = eligibles ms q.
Proof.
  intros Ha. unfold eligibles. induction q as [|b q IH]; [done|]. apply not_elem_of_cons in Ha as [Hb Ha]. rewrite !filter_cons, (IH Ha).
  assert (E : eligible_at (<[a := m]> ms) b = eligible_at ms b) by (unfold eligible_at; by rewrite lookup_insert_ne). by rewrite E.
Qed.

Definition known (ms : gmap Z bbl_lag_member) (q : list Z) : Prop := forall a, a ∈ q -> is_Some (ms !! a).

(** All links of a LAG. *)
Lemma select_members_spec max q : forall active ms, NoDup (active ++ q) -> known ms q ->
  let lim := Z.to_nat (Z.min LAG_MEMBER_ACTIVE_MAX max) in
  exists ms', let active' := active ++ take (lim - length active) (eligibles ms q) in
    select_members max q active ms = Some (active', ms') /\
    (forall a m, a ∈ q -> ms !! a = Some m -> ms' !! a = Some (placed active' a m)) /\ (forall a, a ∉ q -> ms' !! a = ms !! a).
Proof.
  cbv zeta. set (lim := Z.to_nat _). induction q as [|a q IH]; intros active ms Hnd Hk.
  { exists ms. unfold eligibles. cbn. rewrite take_nil, app_nil_r. split_and!; [done| |done]. by intros a m Ha%elem_of_nil. }
  destruct (Hk a) as [m Hm]; [by left|]. cbn [select_members]. rewrite Hm. cbn [mbind option_bind].
  apply NoDup_app in Hnd as (N1 & N2 & N3). apply NoDup_cons in N3 as [Haq N3]. assert (Haa : a ∉ active) by (intros H; apply (N2 a H); by left).
  pose proof (select_member_spec max a active m Haa) as Hsel. cbv zeta in Hsel. fold lim in Hsel. destruct (select_member max a active m) as [m' active1]. destruct Hsel as (E1 & E2 & E3).
  destruct (IH active1 (<[a := m']> ms)) as (ms' & E & H1 & H2).
  { apply NoDup_app. split_and!; [|intros b Hb|done].
    - subst active1. destruct (_ && _); [|done]. apply NoDup_app. split_and!; [done|by intros b Hb ->%list_elem_of_singleton|apply NoDup_singleton].
    - subst active1. destruct (_ && _); [apply elem_of_app in Hb as [Hb| ->%list_elem_of_singleton]|]; try done; intros Hq; apply (N2 b Hb); by right. }
  { intros b Hb. destruct (decide (a = b)) as [->|Hne]; [done|]. rewrite lookup_insert_ne by done. apply Hk. by right. }
  exists ms'. rewrite (eligibles_insert ms a m' q Haq) in *.
  assert (Hact : active1 ++ take (lim - length active1) (eligibles ms q) = active ++ take (lim - length active) (eligibles ms (a :: q))).
  { unfold eligibles at 2. rewrite filter_cons. assert (Hea : eligible_at ms a = eligible m) by (unfold eligible_at; by rewrite Hm). rewrite Hea. fold (eligibles ms q). subst active1.
    destruct (eligible m); cbn [andb]; [|by rewrite decide_False]. rewrite decide_True by done. destruct (Nat.ltb_spec (length active) lim) as [Hlt|Hge].
    - rewrite length_app. cbn [length]. rewrite <- app_assoc. f_equal. replace (lim - length active)%nat with (S (lim - (length active + 1)))%nat by lia. done.
    - replace (lim - length active)%nat with 0%nat by lia. done. }
  rewrite Hact in *. split_and!; [done| |].
  - intros b mb Hb Hmb. apply elem_of_cons in Hb as [->|Hb].
    + rewrite Hm in Hmb. injection Hmb as <-. rewrite H2, lookup_insert_eq by done. f_equal. rewrite <- Hact. symmetry. apply E3.
      intros He Hr. rewrite He in Hr. cbn [andb] in Hr. apply Nat.ltb_ge in Hr. subst active1. rewrite He, (proj2 (Nat.ltb_ge _ _) Hr). cbn [andb].
      replace (lim - length active)%nat with 0%nat by lia. apply not_elem_of_nil.
    + apply H1; [done|]. rewrite lookup_insert_ne; [done|]. by intros ->.
  - intros b Hb. apply not_elem_of_cons in Hb as [Hb1 Hb2]. rewrite H2 by done. by apply lookup_insert_ne.
Qed.

(** * Distribution of streams *)

(** The streams of [l] on link [a]. *)
Definition on_link (active : list Z) (t : table) (a : Z) (l : list Z) : list Z := filter (fun s => link_of active t s = Some a) l.

Lemma link_of_rates active t t' s : same_rates t t' -> link_of active t' s = link_of active t s.
Proof. intros H. specialize (H s). unfold link_of. destruct (t' !! s), (t !! s); cbn in *; unfold plan_of in H; congruence. Qed.
Lemma on_link_rates active t t' a l : same_rates t t' -> on_link active t' a l = on_link active t a l.
Proof.
  intros H. unfold on_link. induction l as [|s l IH]; [done|]. rewrite !filter_cons, IH. by rewrite (link_of_rates _ _ _ _ H).
Qed.

Lemma link_of_some active t s st : active <> [] -> t !! s = Some st -> exists a, link_of active t s = Some a /\ a ∈ active.
Proof.
  intros Hne Hs. unfold link_of. rewrite Hs. cbn [mbind option_bind]. assert (Hpos : 0 < Z.of_nat (length active)) by (destruct active; [done|cbn; lia]).
  pose proof (Z.mod_pos_bound (sd_flow_id st) (Z.of_nat (length active)) Hpos). destruct (lookup_lt_is_Some_2 active (Z.to_nat (sd_flow_id st mod Z.of_nat (length active)))) as [a Ha]; [lia|].
  exists a. split; [done|]. by eapply list_elem_of_lookup_2.
Qed.

Definition streams_on (m : bbl_lag_member) : list Z := all_streams (io_buckets (mb_io m)).

(** Streams that can be scheduled. *)
Definition good_streams (t : table) (l : list Z) : Prop := forall s, s ∈ l -> exists st, t !! s = Some st /\ good_rate (sd_pps st).

Lemma good_streams_rates t t' l : same_rates t t' -> good_streams t l -> good_streams t' l.
Proof. intros Hr H s Hs. destruct (H s Hs) as (st & E & Hg). destruct (same_rates_some t t' s st Hr E) as (st' & E' & Hp & _). exists st'. by rewrite Hp. Qed.

Lemma on_link_none active t a l : active <> [] -> good_streams t l -> a ∉ active -> on_link active t a l = [].
Proof.
  intros Hne Hg Ha. destruct (on_link active t a l) as [|s r] eqn:E; [done|]. assert (Hs : s ∈ on_link active t a l) by (rewrite E; by left).
  apply list_elem_of_filter in Hs as [Hs Hl]. destruct (Hg s Hl) as (st & Hst & _). destruct (link_of_some active t s st Hne Hst) as (b & Hb1 & Hb2). rewrite Hs in Hb1. by injection Hb1 as <-.
Qed.

Lemma distribute_spec active l : active <> [] -> forall ms t, NoDup l -> good_streams t l ->
  (forall a, a ∈ active -> exists m, ms !! a = Some m /\ built t (mb_io m) /\ (forall s, s ∈ l -> s ∉ streams_on m) /\ Z.of_nat (length l + length (streams_on m)) < 2 ^ 32) ->
  exists ms' t', distribute active l ms t = Some (ms', t') /\ same_rates t t' /\ (forall a, a ∉ active -> ms' !! a = ms !! a) /\
    forall a m, a ∈ active -> ms !! a = Some m -> exists h, ms' !! a = Some (m {{ mb_io := h }}) /\ built t' h /\
      all_streams (io_buckets h) ≡ₚ on_link active t a l ++ streams_on m.
Proof.
  intros Hne. induction l as [|s l IH]; intros ms t Hnd Hg Hms.
  { exists ms, t. split_and!; [done|done|done|]. intros a m Ha Hm. exists (mb_io m). destruct (Hms a Ha) as (m0 & E & Hb & _). rewrite Hm in E. injection E as <-.
    split_and!; [|done|done]. rewrite Hm. f_equal. by destruct m. }
  apply NoDup_cons in Hnd as [Hsl Hnd]. destruct (Hg s) as (st & Hst & Hrate); [by left|]. destruct (link_of_some active t s st Hne Hst) as (a & Ha & Hin).
  destruct (Hms a Hin) as (m & Hm & Hb & Hfresh & Hlen). cbn [distribute]. rewrite Hst. cbn [mbind option_bind].
  assert (Ea : active !! Z.to_nat (sd_flow_id st mod Z.of_nat (length active)) = Some a) by (unfold link_of in Ha; by rewrite Hst in Ha). rewrite Ea. cbn [mbind option_bind]. rewrite Hm. cbn [mbind option_bind].
  destruct (built_add a s (mb_io m) t st Hb (Hfresh s ltac:(by left)) Hst Hrate) as (h & t1 & E & Hb1 & Hp1 & Hr1 & _); [unfold streams_on in Hlen; cbn [length] in Hlen; lia|].
  rewrite E. cbn [mbind option_bind]. set (m1 := m {{ mb_io := h }}).
  destruct (IH (<[a := m1]> ms) t1 Hnd) as (ms' & t' & E' & Hr' & Hout & Hact).
  { apply (good_streams_rates t); [done|]. intros x Hx. apply Hg. by right. }
  { intros b Hbin. destruct (decide (a = b)) as [<-|Hab].
    - exists m1. rewrite lookup_insert_eq. split_and!; [done|done| |].
      + intros x Hx. change (streams_on m1) with (all_streams (io_buckets h)). rewrite Hp1. apply not_elem_of_cons. split; [by intros ->|]. apply Hfresh. by right.
      + change (streams_on m1) with (all_streams (io_buckets h)). rewrite Hp1. unfold streams_on in Hlen. cbn [length] in *. lia.
    - destruct (Hms b Hbin) as (mb & Hmb & Hbb & Hfb & Hlb). exists mb. rewrite lookup_insert_ne by done. split_and!; [done|by apply (built_rates t)| |cbn [length] in Hlb; lia].
      intros x Hx. apply Hfb. by right. }
  exists ms', t'. split_and!; [done|by eapply same_rates_trans| |].
  - intros b Hbn. rewrite Hout by done. apply lookup_insert_ne. by intros ->.
  - intros b mb Hbin Hmb. unfold on_link. rewrite filter_cons. fold (on_link active t b l). destruct (decide (a = b)) as [<-|Hab].
    + rewrite Hm in Hmb. injection Hmb as <-. destruct (Hact a m1 Hin) as (h2 & F1 & F2 & F3); [by rewrite lookup_insert_eq|]. exists h2. split_and!; [done|done|].
      rewrite decide_True by done. rewrite F3, (on_link_rates _ _ _ _ _ Hr1). change (streams_on m1) with (all_streams (io_buckets h)). rewrite Hp1. unfold streams_on. solve_Permutation.
    + destruct (Hact b mb Hbin) as (h2 & F1 & F2 & F3); [by rewrite lookup_insert_ne|]. exists h2. split_and!; [done|done|].
      rewrite decide_False by congruence. by rewrite F3, (on_link_rates _ _ _ _ _ Hr1).
Qed.

Lemma smear_members_spec active : forall ms t, NoDup active -> (forall a, a ∈ active -> exists m, ms !! a = Some m /\ built t (mb_io m)) ->
  exists ms' t', smear_members active ms t = Some (ms', t') /\ same_rates t t' /\ (forall a, a ∉ active -> ms' !! a = ms !! a) /\
    forall a m, a ∈ active -> ms !! a = Some m -> exists h, ms' !! a = Some (m {{ mb_io := h }}) /\ built t' h /\ all_streams (io_buckets h) ≡ₚ streams_on m.
Proof.
  induction active as [|a active IH]; intros ms t Hnd Hms.
  { exists ms, t. split_and!; [done|done|done|]. by intros a m Ha%elem_of_nil. }
  apply NoDup_cons in Hnd as [Ha Hnd]. destruct (Hms a) as (m & Hm & Hb); [by left|]. cbn [smear_members]. rewrite Hm. cbn [mbind option_bind].
  pose proof (built_smear t (mb_io m) Hb) as Hs. destruct (io_stream_smear (mb_io m) t) as [h t1]. destruct Hs as (Hb1 & Hp1 & Hr1).
  destruct (IH (<[a := m {{ mb_io := h }}]> ms) t1 Hnd) as (ms' & t' & E & Hr & Hout & Hact).
  { intros b Hbin. destruct (Hms b) as (mb & Hmb & Hbb); [by right|]. exists mb. rewrite lookup_insert_ne by (by intros ->). split; [done|by apply (built_rates t)]. }
  exists ms', t'. split_and!; [done|by eapply same_rates_trans| |].
  - intros b Hbn. apply not_elem_of_cons in Hbn as [Hb2 Hb3]. rewrite Hout by done. by apply lookup_insert_ne.
  - intros b mb Hbin Hmb. apply elem_of_cons in Hbin as [->|Hbin].
    + rewrite Hm in Hmb. injection Hmb as <-. exists h. rewrite Hout, lookup_insert_eq by done. split_and!; [done|by apply (built_rates t1)|done].
    + apply Hact; [done|]. rewrite lookup_insert_ne; [done|]. by intros ->.
Qed.

(** * The invariant *)

(** The flags that a link advertises: whether it receives, and whether it sends. *)
Definition flags_ok (state : interface_state) (v : Z) : Prop :=
  flag v LACP_STATE_FLAG_COLLECTING = bool_decide (state = INTERFACE_UP \/ state = INTERFACE_STANDBY) /\
  flag v LACP_STATE_FLAG_DISTRIBUTING = bool_decide (state = INTERFACE_UP).

(** What a link of LAG [i] keeps, whatever is selected. *)
Record member_wf (t : table) (i : Datatypes.nat) (m : bbl_lag_member) : Prop := {
  mw_lag : mb_lag m = i;
  mw_lacp : mb_lacp_state m <> LACP_DISABLED;
  mw_flags : flags_ok (mb_state m) (li_state (mb_actor m));
  mw_built : built t (mb_io m);
  mw_disabled : mb_state m = INTERFACE_DISABLED -> mb_lacp_state m <> LACP_CURRENT
}.

(** What a link is for the active ones. *)
Record member_ok (t : table) (l : bbl_lag) (a : Z) (m : bbl_lag_member) : Prop := {
  mo_primary : mb_primary m = bool_decide (head (lag_active l) = Some a);
  mo_state : match mb_state m with
             | INTERFACE_UP => a ∈ lag_active l
             | INTERFACE_STANDBY => eligible m = true /\ a ∉ lag_active l
             | INTERFACE_DOWN => eligible m = false
             | INTERFACE_DISABLED => True
             end;
  mo_streams : streams_on m ≡ₚ if enough (lag_config l) (lag_active l) then on_link (lag_active l) t a (lag_streams l) else []
}.

(** What a LAG keeps, whatever is selected. *)
Record lag_wf (ms : gmap Z bbl_lag_member) (t : table) (i : Datatypes.nat) (l : bbl_lag) : Prop := {
  lw_NoDup : NoDup (lag_members l);
  lw_members : forall a, a ∈ lag_members l -> exists m, ms !! a = Some m /\ member_wf t i m;
  lw_streams : NoDup (lag_streams l) /\ good_streams t (lag_streams l) /\ Z.of_nat (length (lag_streams l)) < 2 ^ 32
}.

Record lag_ok (ms : gmap Z bbl_lag_member) (t : table) (i : Datatypes.nat) (l : bbl_lag) : Prop := {
  lo_wf : lag_wf ms t i l;
  lo_active : lag_active l = chosen (lag_config l) ms (lag_members l);
  lo_state : lag_state l = if enough (lag_config l) (lag_active l) then INTERFACE_UP else INTERFACE_DOWN;
  lo_members : forall a m, a ∈ lag_members l -> ms !! a = Some m -> member_ok t l a m
}.

(** ** Flags *)

Lemma flag_bit v k : 0 <= k -> flag v (2 ^ k) = Z.testbit v k.
Proof.
  intros Hk. unfold flag. destruct (Z.testbit v k) eqn:E.
  - apply negb_true_iff, Z.eqb_neq. intros H. assert (H' : Z.testbit (Z.land v (2 ^ k)) k = false) by (rewrite H; apply Z.bits_0). rewrite Z.land_spec, E, Z.pow2_bits_true in H' by lia. done.
  - apply negb_false_iff, Z.eqb_eq. apply Z.bits_inj'. intros n Hn. rewrite Z.land_spec, Z.bits_0. destruct (Z.eq_dec n k) as [->|Hne]; [by rewrite E|]. rewrite Z.pow2_bits_false by done. apply andb_false_r.
Qed.
Lemma flag_collecting v : flag v LACP_STATE_FLAG_COLLECTING = Z.testbit v 4.
Proof. by apply (flag_bit v 4). Qed.
Lemma flag_distributing v : flag v LACP_STATE_FLAG_DISTRIBUTING = Z.testbit v 5.
Proof. by apply (flag_bit v 5). Qed.

Lemma flags_ok_bits state v v' : Z.testbit v' 4 = Z.testbit v 4 -> Z.testbit v' 5 = Z.testbit v 5 -> flags_ok state v -> flags_ok state v'.
Proof. unfold flags_ok. rewrite !flag_collecting, !flag_distributing. by intros -> ->. Qed.

Lemma actor_flags_ok state v : flags_ok state (actor_flags state v).
Proof.
  unfold flags_ok. rewrite flag_collecting, flag_distributing. destruct state; cbn [actor_flags]; unfold clear_flags; rewrite ?Z.lor_spec, ?Z.ldiff_spec, ?Z.lor_spec; split;
  rewrite ?andb_false_r, ?orb_true_r; try done; by rewrite andb_false_r.
Qed.

(** ** What selection makes of a link *)

Lemma update_state_wf t i state m : state <> INTERFACE_DISABLED -> mb_state m <> INTERFACE_DISABLED -> member_wf t i m ->
  member_wf t i (bbl_lag_member_update_state state m) /\ mb_state (bbl_lag_member_update_state state m) = state.
Proof.
  intros Hs Hd [H1 H2 H3 H4 H5]. unfold bbl_lag_member_update_state. case_decide as E; [done|]. split; [|done].
  split; [done|done|apply actor_flags_ok|done|done].
Qed.

Lemma placed_wf t i active a m : member_wf t i m -> member_wf t i (placed active a m) /\ streams_on (placed active a m) = [].
Proof.
  intros H. assert (Hcl : forall b, member_wf t i (m {{ mb_io ::= io_stream_clear ; mb_primary := b }})).
  { intros b. destruct H as [H1 H2 H3 H4 H5]. destruct (built_clear _ _ H4) as [Hb _]. by split. }
  assert (Hst : streams_on (m {{ mb_io ::= io_stream_clear ; mb_primary := false }}) = []) by (destruct H as [_ _ _ H4 _]; apply (built_clear _ _ H4)).
  assert (Hio : forall state x, streams_on (bbl_lag_member_update_state state x) = streams_on x) by (intros state x; unfold bbl_lag_member_update_state; by case_decide).
  unfold placed. case_decide as Hd; [by split|]. destruct (eligible m); [case_decide|]; rewrite Hio; (split; [|done]); apply update_state_wf; try done; exact (Hcl _).
Qed.

Lemma placed_eligible active a m : eligible (placed active a m) = eligible m.
Proof.
  unfold placed. case_decide as Hd; [done|]. destruct (eligible m) eqn:E; [case_decide|]; rewrite update_state_eligible by done; exact E.
Qed.

Lemma update_state_primary state m : mb_primary (bbl_lag_member_update_state state m) = mb_primary m.
Proof. unfold bbl_lag_member_update_state. by case_decide. Qed.
Lemma update_state_state state m : mb_state (bbl_lag_member_update_state state m) = state.
Proof. unfold bbl_lag_member_update_state. by case_decide. Qed.

Lemma placed_ok active a m : (a ∈ active -> eligible m = true) ->
  mb_primary (placed active a m) = bool_decide (head active = Some a) /\
  match mb_state (placed active a m) with
  | INTERFACE_UP => a ∈ active
  | INTERFACE_STANDBY => eligible m = true /\ a ∉ active
  | INTERFACE_DOWN => eligible m = false
  | INTERFACE_DISABLED => True
  end.
Proof.
  intros Ha. assert (Hno : a ∉ active -> bool_decide (head active = Some a) = false).
  { intros Hn. apply bool_decide_eq_false_2. intros H. apply Hn. destruct active as [|x active]; [done|]. injection H as ->. by left. }
  unfold placed. destruct (decide (mb_state m = INTERFACE_DISABLED)) as [Hd|Hd].
  - assert (He : eligible m = false) by (unfold eligible; by rewrite (bool_decide_eq_true_2 _ Hd)). rewrite Hno by (intros H; specialize (Ha H); congruence).
    split; [done|]. change (match mb_state m with INTERFACE_UP => a ∈ active | INTERFACE_STANDBY => eligible m = true /\ a ∉ active | INTERFACE_DOWN => eligible m = false | INTERFACE_DISABLED => True end). by rewrite Hd.
  - destruct (eligible m) eqn:He; [destruct (decide (a ∈ active)) as [Hin|Hin]|]; rewrite update_state_primary, update_state_state.
    + done.
    + split; [by rewrite Hno|done].
    + split; [|done]. rewrite Hno; [done|]. intros H. by specialize (Ha H).
Qed.

(** ** The LAG *)

Lemma chosen_spec c ms q a : NoDup q -> NoDup (chosen c ms q) /\ (a ∈ chosen c ms q -> a ∈ q /\ eligible_at ms a = true).
Proof.
  intros Hnd. unfold chosen, eligibles. split.
  - assert (H : NoDup (filter (fun a => eligible_at ms a = true) q)) by (by apply NoDup_filter). rewrite <- (take_drop (limit c) (filter _ q)) in H. by apply NoDup_app in H as [? _].
  - intros Ha. assert (H : a ∈ filter (fun a => eligible_at ms a = true) q) by (rewrite <- (take_drop (limit c) (filter _ q)); apply elem_of_app; by left). apply list_elem_of_filter in H as [? ?]. done.
Qed.

Lemma eligibles_same ms ms' q : (forall a, a ∈ q -> eligible_at ms' a = eligible_at ms a) -> eligibles ms' q = eligibles ms q.
Proof.
  intros H. induction q as [|a q IH]; [done|]. unfold eligibles in *. rewrite !filter_cons, IH by (intros b Hb; apply H; by right). by rewrite (H a) by (by left).
Qed.

Lemma member_wf_io t t' i m h : member_wf t i m -> built t' h -> member_wf t' i (m {{ mb_io := h }}).
Proof. intros [H1 H2 H3 H4 H5] Hb. by split. Qed.
Lemma member_wf_rates t t' i m : same_rates t t' -> member_wf t i m -> member_wf t' i m.
Proof. intros Hr [H1 H2 H3 H4 H5]. split; try done. by apply (built_rates t). Qed.

Lemma update_lag_state state l : lag_state (bbl_lag_update_state state l) = state /\ lag_config (bbl_lag_update_state state l) = lag_config l /\
  lag_members (bbl_lag_update_state state l) = lag_members l /\ lag_streams (bbl_lag_update_state state l) = lag_streams l.
Proof. unfold bbl_lag_update_state. by case_decide. Qed.

(** The streams of the active links. *)
Lemma distributed l active ms t : active <> [] -> NoDup active -> NoDup (lag_streams l) -> good_streams t (lag_streams l) -> Z.of_nat (length (lag_streams l)) < 2 ^ 32 ->
  (forall a, a ∈ active -> exists m, ms !! a = Some m /\ built t (mb_io m) /\ streams_on m = []) ->
  exists ms1 t1 ms2 t2, distribute active (lag_streams l) ms t = Some (ms1, t1) /\ smear_members active ms1 t1 = Some (ms2, t2) /\ same_rates t t2 /\
    (forall a, a ∉ active -> ms2 !! a = ms !! a) /\
    forall a m, a ∈ active -> ms !! a = Some m -> exists h, ms2 !! a = Some (m {{ mb_io := h }}) /\ built t2 h /\ all_streams (io_buckets h) ≡ₚ on_link active t a (lag_streams l).
Proof.
  intros Hne Hnd Hs Hg Hlen Hms. destruct (distribute_spec active (lag_streams l) Hne ms t Hs Hg) as (ms1 & t1 & E1 & R1 & O1 & A1).
  { intros a Ha. destruct (Hms a Ha) as (m & Hm & Hb & He). exists m. rewrite He. split_and!; [done|done|intros; apply not_elem_of_nil|cbn; lia]. }
  destruct (smear_members_spec active ms1 t1 Hnd) as (ms2 & t2 & E2 & R2 & O2 & A2).
  { intros a Ha. destruct (Hms a Ha) as (m & Hm & Hb & He). destruct (A1 a m Ha Hm) as (h & F1 & F2 & F3). by eexists. }
  exists ms1, t1, ms2, t2. split_and!; [done|done|by eapply same_rates_trans|intros a Ha; by rewrite O2, O1|].
  intros a m Ha Hm. destruct (A1 a m Ha Hm) as (h & F1 & F2 & F3). destruct (A2 a _ Ha F1) as (h2 & G1 & G2 & G3). exists h2. split_and!; [done|done|].
  rewrite G3. change (streams_on (m {{ mb_io := h }})) with (all_streams (io_buckets h)). destruct (Hms a Ha) as (m' & Hm' & _ & He). rewrite Hm in Hm'. injection Hm' as <-. by rewrite F3, He, app_nil_r.
Qed.

(** What a selection leaves as it is. *)
Record selected (i : Datatypes.nat) (l : bbl_lag) (x x' : links) : Prop := {
  sl_rates : same_rates (ln_streams x) (ln_streams x');
  sl_others : forall a, a ∉ lag_members l -> ln_members x' !! a = ln_members x !! a;
  sl_lacp : forall a m, ln_members x !! a = Some m -> exists m', ln_members x' !! a = Some m' /\ mb_lacp_state m' = mb_lacp_state m;
  sl_lag : exists l', ln_lags x' = <[i := l']> (ln_lags x) /\ lag_config l' = lag_config l /\ lag_members l' = lag_members l /\ lag_ok (ln_members x') (ln_streams x') i l'
}.

Lemma placed_lacp active a m : mb_lacp_state (placed active a m) = mb_lacp_state m.
Proof.
  assert (H : forall st x, mb_lacp_state (bbl_lag_member_update_state st x) = mb_lacp_state x) by (intros st x; unfold bbl_lag_member_update_state; by case_decide).
  unfold placed. case_decide; [done|]. destruct (eligible m); [case_decide|]; by rewrite H.
Qed.

Lemma alter_insert {A} (f : A -> A) (i : Datatypes.nat) (l : list A) x : l !! i = Some x -> alter f i l = <[i := f x]> l.
Proof. revert i. induction l as [|y l IH]; intros [|i] H; cbn in *; try done; [by injection H as ->|by rewrite (IH i)]. Qed.

(** The links and the LAG for a choice of active links, and streams as they are to be. *)
Lemma lag_ok_placed ms ms' t t' i l l' : lag_wf ms t i l -> same_rates t t' ->
  let active := chosen (lag_config l) ms (lag_members l) in
  lag_config l' = lag_config l -> lag_members l' = lag_members l -> lag_streams l' = lag_streams l -> lag_active l' = active ->
  lag_state l' = (if enough (lag_config l) active then INTERFACE_UP else INTERFACE_DOWN) ->
  (forall a m, a ∈ lag_members l -> ms !! a = Some m -> exists h, ms' !! a = Some ((placed active a m) {{ mb_io := h }}) /\ built t' h /\
    all_streams (io_buckets h) ≡ₚ if enough (lag_config l) active then on_link active t a (lag_streams l) else []) ->
  lag_ok ms' t' i l'.
Proof.
  intros [W1 W2 (W3 & W4 & W5)] Hr active E1 E2 E3 E4 E5 Hms.
  assert (Hel : forall a, a ∈ lag_members l -> eligible_at ms' a = eligible_at ms a).
  { intros a Ha. destruct (W2 a Ha) as (m & Hm & _). destruct (Hms a m Ha Hm) as (h & Hm' & _). unfold eligible_at. rewrite Hm, Hm'. apply placed_eligible. }
  split.
  - split; [by rewrite E2| |].
    + rewrite E2. intros a Ha. destruct (W2 a Ha) as (m & Hm & Hw). destruct (Hms a m Ha Hm) as (h & Hm' & Hb & _). eexists. split; [exact Hm'|]. eapply member_wf_io, Hb. by apply placed_wf.
    + rewrite E3. split_and!; [done|by apply (good_streams_rates t)|done].
  - rewrite E4, E1, E2. unfold active, chosen. by rewrite (eligibles_same ms ms').
  - by rewrite E5, E1, E4.
  - rewrite E2. intros a m' Ha Hm'. destruct (W2 a Ha) as (m & Hm & _). destruct (Hms a m Ha Hm) as (h & Hm2 & Hb & Hs). rewrite Hm' in Hm2. injection Hm2 as ->.
    destruct (placed_ok active a m) as [P1 P2]. { intros Hin. destruct (chosen_spec (lag_config l) ms (lag_members l) a W1) as [_ H]. destruct (H Hin) as [_ H']. unfold eligible_at in H'. by rewrite Hm in H'. }
    split; rewrite ?E1, ?E3, ?E4.
    + exact P1.
    + pose proof (placed_eligible active a m) as Hpe. change (match mb_state (placed active a m) with INTERFACE_UP => a ∈ active | INTERFACE_STANDBY => eligible (placed active a m) = true /\ a ∉ active | INTERFACE_DOWN => eligible (placed active a m) = false | INTERFACE_DISABLED => True end).
      rewrite Hpe. exact P2.
    + change (all_streams (io_buckets h) ≡ₚ if enough (lag_config l) active then on_link active t' a (lag_streams l) else []). rewrite Hs. destruct (enough _ _); [|done]. by rewrite (on_link_rates _ _ _ _ _ Hr).
Qed.

Lemma enough_some c active : enough c active = true -> active <> [].
Proof. intros H ->. unfold enough in H. by rewrite bool_decide_eq_true_2 in H. Qed.

Lemma bbl_lag_select_spec x i l : ln_lags x !! i = Some l -> lag_wf (ln_members x) (ln_streams x) i l ->
  exists x', bbl_lag_select i x = Some x' /\ selected i l x x'.
Proof.
  intros Hl Hwf. destruct Hwf as [W1 W2 (W3 & W4 & W5)] eqn:Ewf. clear Ewf. unfold bbl_lag_select. rewrite Hl. cbn [mbind option_bind].
  destruct (select_members_spec (lgc_lacp_max_active_links (lag_config l)) (lag_members l) [] (ln_members x)) as (ms1 & E & P1 & P2); [done|intros a Ha; destruct (W2 a Ha) as (m & Hm & _); by exists m|].
  cbn [app length] in E, P1. rewrite Nat.sub_0_r in E, P1. fold (limit (lag_config l)) in E, P1. fold (chosen (lag_config l) (ln_members x) (lag_members l)) in E, P1.
  set (active := chosen (lag_config l) (ln_members x) (lag_members l)) in *. rewrite E. cbn [mbind option_bind].
  assert (Hpl : forall a, a ∈ lag_members l -> exists m, ln_members x !! a = Some m /\ ms1 !! a = Some (placed active a m) /\ member_wf (ln_streams x) i m).
  { intros a Ha. destruct (W2 a Ha) as (m & Hm & Hw). exists m. split_and!; [done|by apply P1|done]. }
  change (negb (bool_decide (active = [])) && (lgc_lacp_min_active_links (lag_config l) <=? Z.of_nat (length active))) with (enough (lag_config l) active).
  assert (Hsub : forall a, a ∈ active -> a ∈ lag_members l) by (intros a Ha; by apply (chosen_spec (lag_config l) (ln_members x) (lag_members l) a W1)).
  destruct (enough (lag_config l) active) eqn:Een.
  - destruct (distributed l active ms1 (ln_streams x)) as (ms2 & t2 & ms3 & t3 & D1 & D2 & D3 & D4 & D5); [|exact (proj1 (chosen_spec _ _ _ 0 W1))|done|done|done| |].
    { by eapply enough_some. }
    { intros a Ha. destruct (Hpl a (Hsub a Ha)) as (m & Hm & Hp & Hw). destruct (placed_wf (ln_streams x) i active a m Hw) as [Hw' Hs]. eexists. split_and!; [exact Hp|apply Hw'|done]. }
    rewrite D1. cbn [mbind option_bind]. rewrite D2. cbn [mbind option_bind]. eexists. split; [reflexivity|].
    assert (Hall : forall a m, ln_members x !! a = Some m -> a ∈ lag_members l -> exists h, ms3 !! a = Some ((placed active a m) {{ mb_io := h }}) /\ built t3 h /\ all_streams (io_buckets h) ≡ₚ on_link active (ln_streams x) a (lag_streams l)).
    { intros a m Hm Ha. destruct (decide (a ∈ active)) as [Hin|Hin]; [by apply D5, P1|]. destruct (Hpl a Ha) as (m' & Hm' & Hp & Hw). rewrite Hm in Hm'. injection Hm' as <-.
      destruct (placed_wf (ln_streams x) i active a m Hw) as [Hw' Hs]. exists (mb_io (placed active a m)). split_and!; [rewrite D4, Hp by done; f_equal; by destruct (placed active a m)|apply (built_rates (ln_streams x)); [done|apply Hw']|].
      unfold streams_on in Hs. rewrite Hs. by rewrite on_link_none by (try done; by eapply enough_some). }
    destruct (update_lag_state INTERFACE_UP l) as (U1 & U2 & U3 & U4). split.
    + exact D3.
    + intros a Ha. change (ms3 !! a = ln_members x !! a). rewrite D4 by (intros H; by apply Ha, Hsub). by apply P2.
    + intros a m Hm. change (exists m', ms3 !! a = Some m' /\ mb_lacp_state m' = mb_lacp_state m). destruct (decide (a ∈ lag_members l)) as [Ha|Ha].
      * destruct (Hall a m Hm Ha) as (h & H1 & _). eexists. split; [exact H1|]. apply placed_lacp.
      * exists m. rewrite D4, P2 by (try done; intros H; by apply Ha, Hsub). done.
    + eexists. split; [cbn; by apply alter_insert|]. split_and!; [exact U2|exact U3|]. apply (lag_ok_placed (ln_members x) ms3 (ln_streams x) t3 i l); try done; fold active; rewrite ?Een; try done.
      intros a m Ha Hm. by apply Hall.
  - eexists. split; [reflexivity|]. destruct (update_lag_state INTERFACE_DOWN l) as (U1 & U2 & U3 & U4). split.
    + done.
    + exact P2.
    + intros a m Hm. change (exists m', ms1 !! a = Some m' /\ mb_lacp_state m' = mb_lacp_state m). destruct (decide (a ∈ lag_members l)) as [Ha|Ha].
      * eexists. split; [by apply P1|]. apply placed_lacp.
      * exists m. by rewrite P2.
    + eexists. split; [cbn; by apply alter_insert|]. split_and!; [exact U2|exact U3|]. apply (lag_ok_placed (ln_members x) ms1 (ln_streams x) (ln_streams x) i l); try done; fold active; rewrite ?Een; try done.
      intros a m Ha Hm. destruct (Hpl a Ha) as (m' & Hm' & Hp & Hw). rewrite Hm in Hm'. injection Hm' as <-. destruct (placed_wf (ln_streams x) i active a m Hw) as [Hw' Hs].
      exists (mb_io (placed active a m)). split_and!; [rewrite Hp; f_equal; by destruct (placed active a m)|apply Hw'|unfold streams_on in Hs; by rewrite Hs].
Qed.
