(* ===== verification/LagRun.v ===== *)
(** Link aggregation in operation: the set-up of LAGs, links and streams, and any sequence of
    timers, LACP packets, commands and transmissions after it keep what [lag_ok] says. *)
From Stdlib Require Import QArith.
From coqutil Require Import Datatypes.RecordSetters.
From S2P Require Import Prelude.
From S2P Require Import Const.
From S2P Require Import ConstApp.
From S2P Require Import ConstStream.
From S2P Require Import ConstNet.
From S2P Require Import ProtoTypes.
From S2P Require Import StreamRx.
From S2P Require Import IoStream.
From S2P Require Import IoRate.
From S2P Require Import IoSetup.
From S2P Require Import Lag.
From S2P Require Import LagSelect.
Import RecordSetters.DoubleBraceUpdate.
From stdpp Require Import gmap list strings.
Open Scope Z_scope.

(** * Transmission keeps a handle *)

Lemma all_streams_insert l : forall i b b', l !! i = Some b -> bk_streams b' = bk_streams b -> all_streams (<[i := b']> l) = all_streams l.
Proof.
  induction l as [|c l IH]; intros [|i] b b' Hi Hs; cbn in Hi; try done.
  - injection Hi as ->. change (all_streams (b' :: l) = all_streams (b :: l)). by rewrite !all_streams_cons, Hs.
  - change (all_streams (c :: <[i := b']> l) = all_streams (c :: l)). rewrite !all_streams_cons. f_equal. by eapply IH.
Qed.

Lemma built_insert t h i b b' : built t h -> io_buckets h !! i = Some b -> counted b' -> bk_streams b' = bk_streams b -> bk_pps b' = bk_pps b ->
  built t (h {{ io_buckets ::= <[i := b']> }}) /\ all_streams (io_buckets (h {{ io_buckets ::= <[i := b']> }})) = all_streams (io_buckets h).
Proof.
  intros [B1 B2 B3 B4] Hi Hc Hs Hp. pose proof (all_streams_insert _ i b b' Hi Hs) as Ha. split; [|exact Ha]. split.
  - change (Forall counted (<[i := b']> (io_buckets h))). by apply Forall_insert.
  - change (NoDup (all_streams (<[i := b']> (io_buckets h)))). by rewrite Ha.
  - intros c a Hc' Ha'. change (c ∈ <[i := b']> (io_buckets h)) in Hc'. apply list_elem_of_lookup in Hc' as [j Hj]. destruct (decide (i = j)) as [<-|Hne].
    + rewrite list_lookup_insert_eq in Hj by (by eapply lookup_lt_Some). injection Hj as <-. rewrite Hp. apply B3; [by eapply list_elem_of_lookup_2|by rewrite <- Hs].
    + rewrite list_lookup_insert_ne in Hj by done. apply B3; [by eapply list_elem_of_lookup_2|done].
  - change (io_bucket_cur h <= length (<[i := b']> (io_buckets h)) - 1)%nat. by rewrite length_insert.
Qed.

Lemma built_cur t h i : built t h -> (i < length (io_buckets h))%nat -> built t (h {{ io_bucket_cur := i }}).
Proof. intros [B1 B2 B3 B4] Hi. split; try done. change (i <= length (io_buckets h) - 1)%nat. lia. Qed.

Section send.
Context {W : Type} (send : Z -> W -> option (bool * W)) (burst now : Z) (t : table).
Context (Hsend : forall a w, exists r w', send a w = Some (r, w')).

Lemma send_streams_total e l : (forall a, a ∈ l -> is_Some (t !! a)) -> forall w, exists r w', send_streams send t e l w = Some (r, w').
Proof.
  induction l as [|a l IH]; intros Hk w; cbn [send_streams]; [by eexists _, _|]. destruct (Hk a) as [s Hs]; [by left|]. rewrite Hs. cbn [mbind option_bind].
  destruct (e <? sd_expired s); [by eexists _, _|]. destruct (Hsend a w) as (r & w' & E). rewrite E. cbn [mbind option_bind]. destruct r; [by eexists _, _|]. apply IH. intros b Hb. apply Hk. by right.
Qed.

Lemma new_round_counted b : counted b -> counted (new_round burst now b) /\ bk_streams (new_round burst now b) = bk_streams b /\ bk_pps (new_round burst now b) = bk_pps b.
Proof. intros [C1 C2 C3 C4]. unfold new_round. case_bool_decide; [|done]. split_and!; [|done|done]. split; try done. by exists []. Qed.

Lemma counted_at b l : counted b -> (exists pre, bk_streams b = pre ++ l) -> counted (b {{ bk_cur := l }}).
Proof. intros [C1 C2 C3 C4] Hp. by split. Qed.

Lemma built_bucket b w : counted b -> (forall a, a ∈ bk_streams b -> is_Some (t !! a)) ->
  exists r b' w', send_bucket send burst now t b w = Some (r, b', w') /\ counted b' /\ bk_streams b' = bk_streams b /\ bk_pps b' = bk_pps b.
Proof.
  intros Hc Hk. destruct (new_round_counted b Hc) as (Hc1 & Hs & Hp). unfold send_bucket. rewrite <- Hs, <- Hp. rewrite <- Hs in Hk. set (b1 := new_round burst now b) in *. clearbody b1.
  destruct (now <=? bk_base b1); [by eexists _, _, _|]. destruct (ct_cur _ Hc1) as [pre Hpre].
  destruct (send_streams_total (now - bk_base b1) (bk_cur b1)) with (w := w) as (r & w' & E); [intros a Ha; apply Hk; rewrite Hpre; apply elem_of_app; by right|].
  rewrite E. cbn [mbind option_bind]. pose proof (send_streams_cases send _ _ _ _ _ _ E) as Hcase. destruct r as [a rest|l|]; eexists _, _, _; (split; [reflexivity|]).
  - destruct Hcase as [p Hp2]. split_and!; [|done|done]. apply counted_at; [done|]. exists (pre ++ p ++ [a]). by rewrite Hpre, Hp2, <- !app_assoc.
  - destruct Hcase as [_ [p Hp2]]. split_and!; [|done|done]. apply counted_at; [done|]. exists (pre ++ p). by rewrite Hpre, Hp2, <- app_assoc.
  - assert (He : exists p, bk_streams b1 = p ++ []) by (exists (bk_streams b1); by rewrite app_nil_r). case_bool_decide; (split_and!; [|done|done]); [|by apply counted_at].
    destruct Hc1 as [C1 C2 C3 C4]. by split.
Qed.

Lemma built_from order : forall h w, built t h -> Forall (fun i => (i < length (io_buckets h))%nat) order ->
  exists r h' w', send_from send burst now t order h w = Some (r, h', w') /\ built t h' /\ all_streams (io_buckets h') = all_streams (io_buckets h).
Proof.
  induction order as [|i order IH]; intros h w Hb Ho; cbn [send_from]; [by eexists _, _, _|]. apply Forall_cons in Ho as [Hi Ho].
  destruct (lookup_lt_is_Some_2 _ _ Hi) as [b Hbi]. rewrite Hbi. cbn [mbind option_bind].
  destruct (built_bucket b w) as (r & b' & w' & E & Hc & Hs & Hp); [by eapply Forall_lookup_1; [apply Hb|]| |].
  { intros a Ha. destruct (bt_streams _ _ Hb b a) as (s & Hs & _); [by eapply list_elem_of_lookup_2|done|by exists s]. }
  rewrite E. cbn [mbind option_bind]. destruct (built_insert t h i b b' Hb Hbi Hc Hs Hp) as [Hb' Ha'].
  assert (Hlen : length (io_buckets (h {{ io_buckets ::= <[i := b']> }})) = length (io_buckets h)) by (change (length (<[i := b']> (io_buckets h)) = length (io_buckets h)); apply length_insert).
  destruct r as [a|].
  - eexists _, _, _. split; [reflexivity|]. split; [apply built_cur; [done|by rewrite Hlen]|exact Ha'].
  - destruct (IH (h {{ io_buckets ::= <[i := b']> }}) w' Hb') as (r & h' & w'' & E' & H1 & H2); [by rewrite Hlen|]. exists r, h', w''. split_and!; [done|done|by rewrite H2].
Qed.

(** Asking a handle for a packet gives an answer, and keeps the streams where they are. *)
Lemma built_iter h w : built t h ->
  exists r h' w', bbl_stream_io_send_iter send burst now t h w = Some (r, h', w') /\ built t h' /\ all_streams (io_buckets h') = all_streams (io_buckets h).
Proof.
  intros Hb. apply built_from; [done|]. pose proof (bt_cur _ _ Hb). apply Forall_forall. intros i Hi. unfold around in Hi. rewrite elem_of_app, !elem_of_seq in Hi. lia.
Qed.
End send.

(** * All LAGs *)

Record links_ok (x : links) : Prop := {
  lk_lags : forall i l, ln_lags x !! i = Some l -> lgc_lacp_enable (lag_config l) = true /\ lag_ok (ln_members x) (ln_streams x) i l;
  lk_members : forall a m, ln_members x !! a = Some m -> exists l, ln_lags x !! mb_lag m = Some l /\ a ∈ lag_members l
}.

Lemma links_member x a m : links_ok x -> ln_members x !! a = Some m -> exists l, ln_lags x !! mb_lag m = Some l /\ a ∈ lag_members l /\ member_wf (ln_streams x) (mb_lag m) m.
Proof.
  intros [H1 H2] Hm. destruct (H2 a m Hm) as (l & Hl & Ha). exists l. split_and!; [done|done|]. destruct (H1 _ _ Hl) as [_ Hok].
  destruct (lw_members _ _ _ _ (lo_wf _ _ _ _ Hok) a Ha) as (m' & Hm' & Hw). rewrite Hm in Hm'. by injection Hm' as <-.
Qed.

(** A LAG depends on its own links and on the rates. *)
Lemma lag_wf_frame ms ms' t t' i l : (forall a, a ∈ lag_members l -> ms' !! a = ms !! a) -> same_rates t t' -> lag_wf ms t i l -> lag_wf ms' t' i l.
Proof.
  intros Hms Hr [W1 W2 (W3 & W4 & W5)]. split; [done| |split_and!; [done|by apply (good_streams_rates t)|done]].
  intros a Ha. destruct (W2 a Ha) as (m & Hm & Hw). exists m. rewrite Hms by done. split; [done|by apply (member_wf_rates t)].
Qed.

Lemma lag_ok_frame ms ms' t t' i l : (forall a, a ∈ lag_members l -> ms' !! a = ms !! a) -> same_rates t t' -> lag_ok ms t i l -> lag_ok ms' t' i l.
Proof.
  intros Hms Hr [H1 H2 H3 H4]. split; [by apply (lag_wf_frame ms ms' t)| |done|].
  - rewrite H2. unfold chosen. rewrite (eligibles_same ms ms'); [done|]. intros a Ha. unfold eligible_at. by rewrite Hms.
  - intros a m Ha Hm. rewrite Hms in Hm by done. destruct (H4 a m Ha Hm) as [M1 M2 M3]. split; [done|done|]. destruct (enough _ _); [|done]. by rewrite (on_link_rates _ _ _ _ _ Hr).
Qed.

(** Links of different LAGs are different. *)
Lemma lags_disjoint ms t i j l l' a : i <> j -> lag_wf ms t i l -> lag_wf ms t j l' -> a ∈ lag_members l -> a ∉ lag_members l'.
Proof.
  intros Hne H1 H2 Ha Ha'. destruct (lw_members _ _ _ _ H1 a Ha) as (m & Hm & Hw). destruct (lw_members _ _ _ _ H2 a Ha') as (m' & Hm' & Hw'). rewrite Hm in Hm'. injection Hm' as <-.
  apply Hne. by rewrite <- (mw_lag _ _ _ Hw), (mw_lag _ _ _ Hw').
Qed.

(** All LAGs but [i] are as they should be, and this one can be selected. *)
Record links_wf (x : links) (i : Datatypes.nat) : Prop := {
  lx_lags : forall j l, ln_lags x !! j = Some l -> lgc_lacp_enable (lag_config l) = true /\ lag_wf (ln_members x) (ln_streams x) j l /\ (i <> j -> lag_ok (ln_members x) (ln_streams x) j l);
  lx_members : forall a m, ln_members x !! a = Some m -> exists l, ln_lags x !! mb_lag m = Some l /\ a ∈ lag_members l
}.

Lemma select_ok x i l : links_wf x i -> ln_lags x !! i = Some l ->
  exists x', bbl_lag_select i x = Some x' /\ links_ok x' /\ (forall a m, ln_members x !! a = Some m -> exists m', ln_members x' !! a = Some m' /\ mb_lacp_state m' = mb_lacp_state m).
Proof.
  intros [H1 H2] Hl. destruct (H1 i l Hl) as (Hen & Hwf & _). destruct (bbl_lag_select_spec x i l Hl Hwf) as (x' & E & [S1 S2 S3 (l' & L1 & L2 & L3 & L4)]).
  exists x'. split_and!; [done| |done]. assert (Hi : (i < length (ln_lags x))%nat) by (by eapply lookup_lt_Some).
  assert (Hother : forall j k, i <> j -> ln_lags x !! j = Some k -> ln_lags x' !! j = Some k) by (intros j k Hne Hk; by rewrite L1, list_lookup_insert_ne).
  assert (Hsame : ln_lags x' !! i = Some l') by (by rewrite L1, list_lookup_insert_eq).
  split.
  - intros j k Hk. destruct (decide (i = j)) as [<-|Hne].
    + rewrite Hsame in Hk. injection Hk as <-. by rewrite L2.
    + rewrite L1, list_lookup_insert_ne in Hk by done. destruct (H1 j k Hk) as (Hj & Hjwf & Hjok). split; [done|]. apply (lag_ok_frame (ln_members x) _ (ln_streams x)); [|done|by apply Hjok].
      intros a Ha. apply S2. by eapply lags_disjoint; [|exact Hjwf|exact Hwf|].
  - intros a m' Hm'. destruct (decide (a ∈ lag_members l)) as [Ha|Ha].
    + rewrite <- L3 in Ha. destruct (lw_members _ _ _ _ (lo_wf _ _ _ _ L4) a Ha) as (m & Hm & Hw). rewrite Hm' in Hm. injection Hm as <-. exists l'. by rewrite (mw_lag _ _ _ Hw).
    + rewrite S2 in Hm' by done. destruct (H2 a m' Hm') as (k & Hk & Hak). exists k. split; [|done]. apply Hother; [|done]. intros ->. rewrite Hl in Hk. by injection Hk as <-.
Qed.

(** ** Changes of one link *)

Lemma links_wf_change x a m m' : links_ok x -> ln_members x !! a = Some m -> member_wf (ln_streams x) (mb_lag m) m' ->
  links_wf (x {{ ln_members ::= <[a := m']> }}) (mb_lag m).
Proof.
  intros Hok Hm Hw'. destruct (links_member x a m Hok Hm) as (l & Hl & Ha & Hw). destruct Hok as [H1 H2]. split.
  - intros j k Hk. change (ln_lags x !! j = Some k) in Hk. destruct (H1 j k Hk) as [Hen Hkok]. split; [done|].
    change (lag_wf (<[a := m']> (ln_members x)) (ln_streams x) j k /\ (mb_lag m <> j -> lag_ok (<[a := m']> (ln_members x)) (ln_streams x) j k)). destruct (decide (mb_lag m = j)) as [<-|Hne].
    + split; [|done]. destruct (lo_wf _ _ _ _ Hkok) as [W1 W2 W3]. split; [done| |done]. intros b Hb. destruct (decide (a = b)) as [<-|Hab].
      * exists m'. by rewrite lookup_insert_eq.
      * rewrite lookup_insert_ne by done. by apply W2.
    + assert (Hf : forall b, b ∈ lag_members k -> <[a := m']> (ln_members x) !! b = ln_members x !! b).
      { intros b Hb. apply lookup_insert_ne. intros ->. destruct (H1 _ _ Hl) as [_ Hlok]. by eapply (lags_disjoint _ _ (mb_lag m) j); [done|apply Hlok|apply Hkok| |]. }
      split; [apply (lag_wf_frame (ln_members x) _ (ln_streams x))|intros _; apply (lag_ok_frame (ln_members x) _ (ln_streams x))]; try done. apply Hkok.
  - intros b mb Hmb. change (<[a := m']> (ln_members x) !! b = Some mb) in Hmb. change (exists l, ln_lags x !! mb_lag mb = Some l /\ b ∈ lag_members l). destruct (decide (a = b)) as [<-|Hab].
    + rewrite lookup_insert_eq in Hmb. injection Hmb as <-. exists l. by rewrite (mw_lag _ _ _ Hw').
    + rewrite lookup_insert_ne in Hmb by done. by apply H2.
Qed.

Lemma with_member_insert x a f m : ln_members x !! a = Some m -> with_member a f x = x {{ ln_members ::= <[a := f m]> }}.
Proof.
  intros Hm. unfold with_member. assert (E : alter f a (ln_members x) = <[a := f m]> (ln_members x)); [|by destruct x; cbn in *; f_equal].
  apply map_eq. intros b. destruct (decide (a = b)) as [<-|Hne]; [by rewrite lookup_alter_eq, lookup_insert_eq, Hm|by rewrite lookup_alter_ne, lookup_insert_ne].
Qed.

(** A change and a selection. *)
Lemma then_select_ok a f x m : links_ok x -> ln_members x !! a = Some m -> member_wf (ln_streams x) (mb_lag m) (f m) ->
  exists x', then_select a f x = Some x' /\ links_ok x' /\ (forall b, is_Some (ln_members x !! b) -> is_Some (ln_members x' !! b)) /\
    exists m', ln_members x' !! a = Some m' /\ mb_lacp_state m' = mb_lacp_state (f m).
Proof.
  intros Hok Hm Hw. destruct (links_member x a m Hok Hm) as (l & Hl & _). unfold then_select. rewrite Hm. cbn [mbind option_bind]. rewrite (with_member_insert x a f m Hm).
  destruct (select_ok (x {{ ln_members ::= <[a := f m]> }}) (mb_lag m) l) as (x' & E & Hok' & Hk); [by apply links_wf_change|done|]. exists x'. split_and!; [done|done| |].
  - intros b [mb Hmb]. destruct (decide (a = b)) as [<-|Hne].
    + destruct (Hk a (f m)) as (m' & H' & _); [apply lookup_insert_eq|by exists m'].
    + destruct (Hk b mb) as (m' & H' & _); [change (<[a := f m]> (ln_members x) !! b = Some mb); by rewrite lookup_insert_ne|by exists m'].
  - apply Hk. apply lookup_insert_eq.
Qed.

(** A change that leaves the selection as it is. *)
Record unaffected (t : table) (m m' : bbl_lag_member) : Prop := {
  ua_wf : member_wf t (mb_lag m) m';
  ua_eligible : eligible m' = eligible m;
  ua_primary : mb_primary m' = mb_primary m;
  ua_state : mb_state m' = mb_state m \/ mb_state m' = INTERFACE_DISABLED \/ mb_state m' = INTERFACE_DOWN /\ eligible m = false;
  ua_streams : streams_on m' = streams_on m
}.

Lemma unaffected_ok t l a m m' : unaffected t m m' -> member_ok t l a m -> member_ok t l a m'.
Proof.
  intros [U1 U2 U3 U4 U5] [M1 M2 M3]. split; [by rewrite U3| |by rewrite U5]. destruct U4 as [-> |[->|[-> U4]]]; [by rewrite U2|done|by rewrite U2].
Qed.

Lemma change_ok x a m m' : links_ok x -> ln_members x !! a = Some m -> unaffected (ln_streams x) m m' -> links_ok (x {{ ln_members ::= <[a := m']> }}).
Proof.
  intros Hok Hm Hu. pose proof (links_wf_change x a m m' Hok Hm (ua_wf _ _ _ Hu)) as [X1 X2]. split; [|exact X2].
  intros j k Hk. destruct (X1 j k Hk) as (Hen & Hwf & Hother). split; [done|]. destruct (decide (mb_lag m = j)) as [<-|Hne]; [|by apply Hother].
  destruct Hok as [H1 H2]. destruct (H1 _ _ Hk) as [_ [O1 O2 O3 O4]]. split; [done| |done|].
  - rewrite O2. unfold chosen. f_equal. symmetry. apply eligibles_same. intros b Hb. change (eligible_at (<[a := m']> (ln_members x)) b = eligible_at (ln_members x) b). unfold eligible_at.
    destruct (decide (a = b)) as [<-|Hab]; [rewrite lookup_insert_eq, Hm; apply Hu|by rewrite lookup_insert_ne].
  - intros b mb Hb Hmb. change (<[a := m']> (ln_members x) !! b = Some mb) in Hmb. destruct (decide (a = b)) as [<-|Hab].
    + rewrite lookup_insert_eq in Hmb. injection Hmb as <-. by eapply unaffected_ok, O4.
    + rewrite lookup_insert_ne in Hmb by done. by apply O4.
Qed.

(** * Events *)

Definition members_kept (x x' : links) : Prop := forall b, is_Some (ln_members x !! b) -> is_Some (ln_members x' !! b).

Lemma members_kept_insert x a m : members_kept x (x {{ ln_members ::= <[a := m]> }}).
Proof. intros b Hb. change (is_Some (<[a := m]> (ln_members x) !! b)). apply lookup_insert_is_Some. destruct (decide (a = b)); auto. Qed.

(** What an event gives. *)
Definition fine (x : links) (r : option links) : Prop := exists x', r = Some x' /\ links_ok x' /\ members_kept x x'.

Lemma fine_refl x : links_ok x -> fine x (Some x).
Proof. intros H. exists x. split_and!; [done|done|by intros b]. Qed.

Lemma fine_change x a f m : links_ok x -> ln_members x !! a = Some m -> unaffected (ln_streams x) m (f m) -> fine x (Some (with_member a f x)).
Proof. intros Hok Hm Hu. rewrite (with_member_insert x a f m Hm). eexists. split_and!; [done|by eapply change_ok|apply members_kept_insert]. Qed.

Lemma fine_select x a f m : links_ok x -> ln_members x !! a = Some m -> member_wf (ln_streams x) (mb_lag m) (f m) -> fine x (then_select a f x).
Proof. intros Hok Hm Hw. destruct (then_select_ok a f x m Hok Hm Hw) as (x' & E & H1 & H2 & _). by exists x'. Qed.

(** The bits a link advertises about itself are kept by these. *)
Lemma lor_bits f v k : Z.testbit f k = false -> Z.testbit (Z.lor f v) k = Z.testbit v k.
Proof. intros H. by rewrite Z.lor_spec, H. Qed.
Lemma clear_bits f v k : Z.testbit f k = false -> Z.testbit (clear_flags f v) k = Z.testbit v k.
Proof. intros H. unfold clear_flags. rewrite Z.ldiff_spec, H. apply andb_true_r. Qed.

Lemma member_wf_lacp t i m g state partner :
  (forall v, Z.testbit (g v) 4 = Z.testbit v 4 /\ Z.testbit (g v) 5 = Z.testbit v 5) -> state <> LACP_DISABLED -> (mb_state m = INTERFACE_DISABLED -> state <> LACP_CURRENT) ->
  member_wf t i m -> member_wf t i (set_actor_state g (m {{ mb_lacp_state := state ; mb_partner := partner }})).
Proof.
  intros Hg Hs Hd [W1 W2 W3 W4 W5]. split; [done|done| |done|done]. change (flags_ok (mb_state m) (g (li_state (mb_actor m)))). by apply (flags_ok_bits _ (li_state (mb_actor m))); [apply Hg..|].
Qed.

Lemma expired_wf t i m : member_wf t i m -> member_wf t i (lacp_expired m).
Proof. intros H. apply (member_wf_lacp t i m (Z.lor LACP_STATE_FLAG_EXPIRED) LACP_EXPIRED (mb_partner m)); try done. intros v. by split; apply lor_bits. Qed.
Lemma defaulted_wf t i m flags : Z.testbit flags 4 = false -> Z.testbit flags 5 = false -> member_wf t i m -> member_wf t i (lacp_defaulted flags m).
Proof. intros H4 H5 H. apply (member_wf_lacp t i m (Z.lor flags) LACP_DEFAULTED info0); try done. intros v. by split; apply lor_bits. Qed.

Lemma job_fine x a m : links_ok x -> ln_members x !! a = Some m -> fine x (bbl_lag_lacp_job a x).
Proof.
  intros Hok Hm. destruct (links_member x a m Hok Hm) as (l & Hl & _ & Hw).
  set (f := fun m => m {{ mb_send_requests ::= Z.lor BBL_SEND_LACP ; mb_timeout ::= (fun n => u8 (n + 1)) }}). unfold bbl_lag_lacp_job. fold f.
  destruct (fine_change x a f m Hok Hm) as (x1 & [= <-] & Hok1 & Hk1). { destruct Hw as [W1 W2 W3 W4 W5]. by split; [split| | |left|]. }
  assert (Hm1 : ln_members (with_member a f x) !! a = Some (f m)) by (rewrite (with_member_insert x a f m Hm); apply lookup_insert_eq). set (x1 := with_member a f x) in *. rewrite Hm1. cbn [mbind option_bind].
  destruct (3 <? mb_timeout (f m)); [|by eexists].
  assert (H2 : fine x1 (if flag (li_state (mb_actor (f m))) LACP_STATE_FLAG_EXPIRED then Some x1 else then_select a lacp_expired x1)).
  { destruct (flag _ _); [by apply fine_refl|]. apply (fine_select x1 a lacp_expired (f m)); [done|done|]. apply expired_wf. by destruct (links_member x1 a (f m) Hok1 Hm1) as (_ & _ & _ & ?). }
  destruct H2 as (x2 & E2 & Hok2 & Hk2). rewrite E2. cbn [mbind option_bind]. assert (Hk : members_kept x x2) by (intros b Hb; by apply Hk2, Hk1).
  destruct (6 <? mb_timeout (f m)); [|by eexists]. destruct (Hk a) as [m2 Hm2]; [by exists m|]. rewrite Hm2. cbn [mbind option_bind]. destruct (flag (li_state (mb_actor m2)) _); [by eexists|].
  destruct (fine_select x2 a (lacp_defaulted LACP_STATE_FLAG_DEFAULTED) m2) as (x3 & E3 & Hok3 & Hk3); [done|done|apply defaulted_wf; [done|done|by destruct (links_member x2 a m2 Hok2 Hm2) as (_ & _ & _ & ?)]|].
  exists x3. split_and!; [done|done|]. intros b Hb. by apply Hk3, Hk.
Qed.

Lemma reset_fine x a m : links_ok x -> ln_members x !! a = Some m ->
  exists x', bbl_lag_member_lacp_reset a x = Some x' /\ links_ok x' /\ members_kept x x' /\ exists m', ln_members x' !! a = Some m' /\ mb_lacp_state m' = LACP_DEFAULTED.
Proof.
  intros Hok Hm. destruct (links_member x a m Hok Hm) as (l & Hl & _ & Hw). unfold bbl_lag_member_lacp_reset. rewrite Hm. cbn [mbind option_bind]. rewrite decide_False by apply Hw.
  destruct (then_select_ok a (lacp_defaulted (Z.lor LACP_STATE_FLAG_EXPIRED LACP_STATE_FLAG_DEFAULTED)) x m Hok Hm) as (x' & E & H1 & H2 & m' & H3 & H4); [by apply defaulted_wf|].
  exists x'. split_and!; [done|done|done|]. by exists m'.
Qed.

(** A packet that has the information of its sender. *)
Lemma lacp_fine x a m lacp : links_ok x -> ln_members x !! a = Some m -> lacp_actor_system_id lacp <> None -> fine x (rx_lacp a lacp x).
Proof.
  intros Hok Hm Hid. destruct (links_member x a m Hok Hm) as (l & Hl & _ & Hw). unfold rx_lacp. rewrite Hm. cbn [mbind option_bind]. case_decide as Hd; [by apply fine_refl|].
  unfold bbl_lag_rx_lacp. rewrite Hm. cbn [mbind option_bind]. rewrite decide_False by apply Hw.
  set (f := fun m => set_actor_state _ (m {{ mb_timeout := 0 ; mb_lacp_rx ::= _ }})).
  assert (Hwf : member_wf (ln_streams x) (mb_lag m) (f m)).
  { destruct Hw as [W1 W2 W3 W4 W5]. split; [done|done| |done|done]. apply (flags_ok_bits _ (li_state (mb_actor m))); [by apply clear_bits|by apply clear_bits|done]. }
  destruct (fine_change x a f m Hok Hm) as (x1 & [= <-] & Hok1 & Hk1). { by split; [| | |left|]. }
  destruct (partner_changed m lacp); [|by eexists]. unfold partner_of. destruct (lacp_actor_system_id lacp) as [id|]; [|done]. cbn [mbind option_bind].
  assert (Hm1 : ln_members (with_member a f x) !! a = Some (f m)) by (rewrite (with_member_insert x a f m Hm); apply lookup_insert_eq).
  destruct (fine_select (with_member a f x) a (fun m => m {{ mb_lacp_state := LACP_CURRENT ; mb_partner := mk_info (take 6 id) (lacp_actor_system_priority lacp) (lacp_actor_key lacp) (lacp_actor_port_priority lacp) (lacp_actor_port_id lacp) (lacp_actor_state lacp) }}) (f m)) as (x2 & E2 & Hok2 & Hk2); [done|done| |].
  { destruct Hwf as [W1 W2 W3 W4 W5]. by split. }
  exists x2. split_and!; [exact E2|done|]. intros b Hb. by apply Hk2, Hk1.
Qed.

Lemma enable_fine x a m enable : links_ok x -> ln_members x !! a = Some m -> fine x (bbl_interface_ctrl_enable_disable enable a x).
Proof.
  intros Hok Hm. destruct (links_member x a m Hok Hm) as (l & Hl & _ & Hw). unfold bbl_interface_ctrl_enable_disable. rewrite Hm. cbn [mbind option_bind].
  assert (Hel : forall m, mb_lacp_state m <> LACP_CURRENT -> eligible m = false) by (intros y Hy; unfold eligible; by rewrite (bool_decide_eq_false_2 _ Hy), andb_false_r).
  destruct enable; case_decide as Hd; [|by apply fine_refl|by apply fine_refl|].
  - apply (fine_change x a _ m Hok Hm). rewrite decide_False by apply Hw. pose proof (mw_disabled _ _ _ Hw Hd) as Hn. destruct Hw as [W1 W2 W3 W4 W5]. split; [split; try done| | | |done].
    + change (flags_ok INTERFACE_DOWN (li_state (mb_actor m))). rewrite Hd in W3. exact W3.
    + by rewrite !Hel.
    + done.
    + right. right. split; [done|by apply Hel].
  - destruct (reset_fine x a m Hok Hm) as (x1 & E1 & Hok1 & Hk1 & m1 & Hm1 & Hs1). rewrite E1. cbn [mbind option_bind].
    destruct (links_member x1 a m1 Hok1 Hm1) as (l1 & Hl1 & Ha1 & Hw1). assert (Hn : mb_lacp_state m1 <> LACP_CURRENT) by (by rewrite Hs1).
    destruct (fine_change x1 a (fun m => m {{ mb_state := INTERFACE_DISABLED }}) m1 Hok1 Hm1) as (x2 & E2 & Hok2 & Hk2); [|exists x2; split_and!; [done|done|]; intros b Hb; by apply Hk2, Hk1].
    destruct (lk_lags _ Hok1 _ _ Hl1) as [_ Hl1ok]. pose proof (mo_state _ _ _ _ (lo_members _ _ _ _ Hl1ok a m1 Ha1 Hm1)) as Hst. destruct Hw1 as [W1 W2 W3 W4 W5].
    split; [split; try done| |done| |done].
    + change (flags_ok INTERFACE_DISABLED (li_state (mb_actor m1))). destruct (mb_state m1) eqn:Es; [done| |done|].
      * exfalso. rewrite (lo_active _ _ _ _ Hl1ok) in Hst. apply chosen_spec in Hst as [_ Hst]; [|apply (lo_wf _ _ _ _ Hl1ok)]. unfold eligible_at in Hst. rewrite Hm1, Hel in Hst; done.
      * destruct Hst as [Hst _]. by rewrite Hel in Hst.
    + by rewrite !Hel.
    + by right; left.
Qed.

(** * Set-up *)

Definition no_links (t : table) : links := mk_links [] ∅ t 0 1.

(** Links one after the other, until one is refused. *)
Fixpoint add_interfaces (l : list (Z * link_config)) (x : links) : option links :=
  match l with
  | [] => Some x
  | (a, link) :: l => '(ok, x) ← bbl_lag_interface_add a link INTERFACE_UP no_streams x; if (ok : bool) then add_interfaces l x else None
  end.

Fixpoint add_streams (l : list (Z * Datatypes.nat)) (x : links) : option links :=
  match l with [] => Some x | (s, i) :: l => x ← bbl_stream_select_io_lag s i x; add_streams l x end.

Definition lag_setup (configs : list bbl_lag_config) (ifs : list (Z * link_config)) (strs : list (Z * Datatypes.nat)) (t : table) : option links :=
  x ← add_interfaces ifs (bbl_lag_add configs (no_links t));
  add_streams strs x.

(** LAGs that wait for their first packet, with streams of [done]. *)
Record waiting (t : table) (strs : list Z) (x : links) : Prop := {
  wt_ok : links_ok x;
  wt_table : ln_streams x = t;
  wt_active : forall i l, ln_lags x !! i = Some l -> lag_active l = [] /\ lag_streams l ⊆ strs /\ (length (lag_streams l) <= length strs)%nat
}.

Lemma waiting_lags configs : Forall (fun c => lgc_lacp_enable c = true) configs -> forall x t, ln_members x = ∅ -> waiting t [] x -> waiting t [] (bbl_lag_add configs x) /\ ln_members (bbl_lag_add configs x) = ∅.
Proof.
  induction 1 as [|c configs Hc _ IH]; intros x t Hms Hw; [done|]. cbn [bbl_lag_add]. destruct Hw as [[H1 H2] Ht Ha]. apply IH; [done|].
  set (l0 := mk_lag (lgc_id c) c [] [] 0 [] (ln_interfaces x) INTERFACE_DOWN 0).
  assert (Hl0 : lag_ok (ln_members x) (ln_streams x) (length (ln_lags x)) l0).
  { split; [|unfold chosen, eligibles; cbn; by rewrite take_nil|done|by intros a m Hin%elem_of_nil]. split; [constructor|by intros a Hin%elem_of_nil|]. split_and!; [constructor|by intros s Hs%elem_of_nil|done]. }
  assert (Hlag : forall i l, ln_lags (lag_new c x) !! i = Some l -> ln_lags x !! i = Some l \/ i = length (ln_lags x) /\ l = l0).
  { intros i l Hi. change ((ln_lags x ++ [l0]) !! i = Some l) in Hi. apply lookup_app_Some in Hi as [Hi|[Hi Hl]]; [by left|right]. apply list_lookup_singleton_Some in Hl as [Hl <-]. split; [lia|done]. }
  split; [split| |].
  - intros i l Hi. change (lgc_lacp_enable (lag_config l) = true /\ lag_ok (ln_members x) (ln_streams x) i l). destruct (Hlag i l Hi) as [Hi'|[-> ->]]; [by apply H1|done].
  - intros a m Hm. change (ln_members x !! a = Some m) in Hm. by rewrite Hms, lookup_empty in Hm.
  - done.
  - intros i l Hi. destruct (Hlag i l Hi) as [Hi'|[-> ->]]; [by eapply Ha|done].
Qed.

(** ** Links *)

Lemma insert_place ms p a : forall q q', bbl_lag_member_insert ms p a q = Some q' -> exists l1 l2, q = l1 ++ l2 /\ q' = l1 ++ a :: l2.
Proof.
  induction q as [|b q IH]; intros q' H; cbn in H; [injection H as <-; by exists [], []|]. destruct (ms !! b) as [m|]; cbn in H; [|done]. destruct (_ <? _).
  - injection H as <-. by exists [], (b :: q).
  - destruct (bbl_lag_member_insert ms p a q) as [q1|]; cbn in H; [|done]. injection H as <-. destruct (IH q1 eq_refl) as (l1 & l2 & -> & ->). by exists (b :: l1), l2.
Qed.

Lemma built_none t : built t no_streams.
Proof. split; [constructor|constructor|by intros b a Hb%elem_of_nil|done]. Qed.

Lemma member_new_wf t i l port link st : lgc_lacp_enable (lag_config l) = true ->
  let m := member_new i l port link st no_streams in member_wf t i m /\ eligible m = false /\ mb_state m = INTERFACE_DOWN /\ mb_primary m = false /\ streams_on m = [].
Proof.
  intros He. unfold member_new. rewrite He. cbv zeta. split; [|done]. split; [done|done| |apply built_none|done].
  change (flags_ok INTERFACE_DOWN (if lgc_lacp_timeout_short (lag_config l) then Z.lor LACP_STATE_INIT LACP_STATE_FLAG_SHORT_TIMEOUT else LACP_STATE_INIT)). by destruct (lgc_lacp_timeout_short _).
Qed.

Lemma waiting_interface t strs x a link x' : waiting t strs x -> ln_members x !! a = None -> bbl_lag_interface_add a link INTERFACE_UP no_streams x = Some (true, x') ->
  waiting t strs x' /\ (forall b, a <> b -> ln_members x' !! b = ln_members x !! b).
Proof.
  intros [[H1 H2] Ht Hact] Hfree. unfold bbl_lag_interface_add. destruct (lk_lag_interface link) as [name|]; [|by intros [= <-]]. destruct (bbl_lag_get_by_name name x) as [i|]; [|done].
  destruct (negb _); [done|]. destruct (ln_lags x !! i) as [l|] eqn:Hl; cbn [mbind option_bind]; [|done]. destruct (H1 i l Hl) as [Hen [[W1 W2 W3] Hch Hst Hmo]]. destruct (Hact i l Hl) as (Hempty & Hsub & Hlen).
  destruct (member_new_wf (ln_streams x) i l (ln_port_id x) link INTERFACE_UP Hen) as (Mwf & Mel & Mst & Mpr & Mio). set (m := member_new i l (ln_port_id x) link INTERFACE_UP no_streams) in *.
  destruct (bbl_lag_member_insert _ _ a (lag_members l)) as [q|] eqn:Eq; cbn [mbind option_bind]; [|done]. rewrite Hen. intros [= <-]. destruct (insert_place _ _ _ _ _ Eq) as (l1 & l2 & Eml & ->).
  assert (Hnew : forall k j, ln_lags x !! j = Some k -> a ∉ lag_members k).
  { intros k j Hk Ha. destruct (H1 j k Hk) as [_ Hkok]. destruct (lw_members _ _ _ _ (lo_wf _ _ _ _ Hkok) a Ha) as (m' & Hm' & _). by rewrite Hfree in Hm'. }
  set (l' := l {{ lag_members := l1 ++ a :: l2 }}). set (ms := <[a := m]> (ln_members x)).
  assert (Hlags : forall j k, alter (fun l => l {{ lag_members := l1 ++ a :: l2 }}) i (ln_lags x) !! j = Some k -> i <> j /\ ln_lags x !! j = Some k \/ i = j /\ k = l').
  { intros j k Hk. destruct (decide (i = j)) as [<-|Hne]; [|rewrite list_lookup_alter_ne in Hk by done; by left]. rewrite list_lookup_alter_eq, Hl in Hk. injection Hk as <-. by right. }
  assert (Hms : forall b, a <> b -> ms !! b = ln_members x !! b) by (intros b Hb; by apply lookup_insert_ne).
  assert (Hel : eligibles ms (l1 ++ a :: l2) = eligibles (ln_members x) (lag_members l)).
  { rewrite Eml. unfold eligibles. rewrite !filter_app, filter_cons. assert (Ea : eligible_at ms a = false) by (unfold eligible_at, ms; by rewrite lookup_insert_eq). rewrite decide_False by (by rewrite Ea).
    pose proof (Hnew l i Hl) as Hno. rewrite Eml, not_elem_of_app in Hno. destruct Hno as [N1 N2].
    f_equal; [apply (eligibles_insert (ln_members x) a m l1 N1)|apply (eligibles_insert (ln_members x) a m l2 N2)]. }
  assert (Hold : forall b, b ∈ l1 ++ a :: l2 -> b = a \/ a <> b /\ b ∈ lag_members l).
  { intros b Hb. destruct (decide (a = b)) as [->|Hne]; [by left|right]. split; [done|]. rewrite Eml. apply elem_of_app in Hb as [Hb|[->|Hb]%elem_of_cons]; [apply elem_of_app; by left|done|apply elem_of_app; by right]. }
  split; [|exact Hms]. split; [split| |].
  - intros j k Hk. change (lgc_lacp_enable (lag_config k) = true /\ lag_ok ms (ln_streams x) j k). destruct (Hlags j k Hk) as [[Hne Hk']|[<- ->]].
    { destruct (H1 j k Hk') as [Hk1 Hk2]. split; [done|]. apply (lag_ok_frame (ln_members x) _ (ln_streams x)); [|done|done]. intros b Hb. apply Hms. intros ->. by eapply Hnew. }
    split; [done|]. split; [split| |done|].
    + change (NoDup (l1 ++ a :: l2)). rewrite <- Permutation_middle, <- Eml. apply NoDup_cons. split; [by eapply Hnew|done].
    + intros b Hb. destruct (Hold b Hb) as [->|[Hne Hb']]; [exists m; by split; [apply lookup_insert_eq|]|]. rewrite Hms by done. by apply W2.
    + done.
    + change (lag_active l = take (limit (lag_config l)) (eligibles ms (l1 ++ a :: l2))). by rewrite Hel.
    + intros b mb Hb Hmb. destruct (Hold b Hb) as [->|[Hne Hb']].
      * unfold ms in Hmb. rewrite lookup_insert_eq in Hmb. injection Hmb as <-. split.
        -- change (mb_primary m = bool_decide (head (lag_active l) = Some a)). by rewrite Hempty, Mpr.
        -- by rewrite Mst.
        -- change (streams_on m ≡ₚ if enough (lag_config l) (lag_active l) then on_link (lag_active l) (ln_streams x) a (lag_streams l) else []). by rewrite Hempty, Mio.
      * rewrite Hms in Hmb by done. destruct (Hmo b mb Hb' Hmb) as [M1 M2 M3]. by split.
  - intros b mb Hmb. change (ms !! b = Some mb) in Hmb. change (exists k, alter (fun l => l {{ lag_members := l1 ++ a :: l2 }}) i (ln_lags x) !! mb_lag mb = Some k /\ b ∈ lag_members k).
    assert (Hin : forall y, y ∈ lag_members l -> y ∈ l1 ++ a :: l2) by (intros y; rewrite Eml, !elem_of_app, elem_of_cons; tauto).
    destruct (decide (a = b)) as [<-|Hne].
    + unfold ms in Hmb. rewrite lookup_insert_eq in Hmb. injection Hmb as <-. exists l'. rewrite (mw_lag _ _ _ Mwf), list_lookup_alter_eq, Hl. split; [done|]. apply elem_of_app. right. by left.
    + rewrite Hms in Hmb by done. destruct (H2 b mb Hmb) as (k & Hk & Hbk). destruct (decide (i = mb_lag mb)) as [Hi|Hi].
      * rewrite <- Hi in *. rewrite Hl in Hk. injection Hk as <-. exists l'. rewrite list_lookup_alter_eq, Hl. split; [done|]. by apply Hin.
      * exists k. by rewrite list_lookup_alter_ne.
  - done.
  - intros j k Hk. destruct (Hlags j k Hk) as [[Hne Hk']|[<- ->]]; [by eapply Hact|done].
Qed.

(** ** Streams *)

Lemma waiting_stream t strs x s i x' : waiting t strs x -> s ∉ strs -> good_streams t [s] -> Z.of_nat (S (length strs)) < 2 ^ 32 ->
  bbl_stream_select_io_lag s i x = Some x' -> waiting t (s :: strs) x' /\ ln_members x' = ln_members x.
Proof.
  intros [[H1 H2] Ht Hact] Hs Hg Hlen. unfold bbl_stream_select_io_lag. destruct (ln_lags x !! i) as [l|] eqn:Hl; cbn [mbind option_bind]; [|done].
  destruct (H1 i l Hl) as [Hen Hok]. rewrite Hen. intros [= <-]. split; [|done]. set (f := fun l => l {{ lag_streams ::= cons s ; lag_stream_count ::= (fun n => u32 (n + 1)) }}).
  assert (Hlags : forall j k, alter f i (ln_lags x) !! j = Some k -> i <> j /\ ln_lags x !! j = Some k \/ i = j /\ k = f l).
  { intros j k Hk. destruct (decide (i = j)) as [<-|Hne]; [|rewrite list_lookup_alter_ne in Hk by done; by left]. rewrite list_lookup_alter_eq, Hl in Hk. injection Hk as <-. by right. }
  destruct (Hact i l Hl) as (Hempty & Hsub & Hll). split; [split| |].
  - intros j k Hk. change (lgc_lacp_enable (lag_config k) = true /\ lag_ok (ln_members x) (ln_streams x) j k). destruct (Hlags j k Hk) as [[Hne Hk']|[<- ->]]; [by apply H1|]. split; [done|].
    destruct Hok as [[W1 W2 (W3 & W4 & W5)] O2 O3 O4]. split; [split; [done|done|]|done|done|].
    + change (NoDup (s :: lag_streams l) /\ good_streams (ln_streams x) (s :: lag_streams l) /\ Z.of_nat (S (length (lag_streams l))) < 2 ^ 32). split_and!; [|subst t|lia].
      * apply NoDup_cons. split; [|done]. intros Hin. by apply Hs, Hsub.
      * intros y [->|Hy]%elem_of_cons; [apply Hg; by left|by apply W4].
    + intros a m Ha Hm. destruct (O4 a m Ha Hm) as [M1 M2 M3]. split; [done|done|].
      change (streams_on m ≡ₚ if enough (lag_config l) (lag_active l) then on_link (lag_active l) (ln_streams x) a (s :: lag_streams l) else []). rewrite Hempty in *. exact M3.
  - intros a m Hm. change (exists k, alter f i (ln_lags x) !! mb_lag m = Some k /\ a ∈ lag_members k). destruct (H2 a m Hm) as (k & Hk & Ha). destruct (decide (i = mb_lag m)) as [Hi|Hi].
    + rewrite <- Hi in *. rewrite Hl in Hk. injection Hk as <-. exists (f l). by rewrite list_lookup_alter_eq, Hl.
    + exists k. by rewrite list_lookup_alter_ne.
  - done.
  - intros j k Hk. destruct (Hlags j k Hk) as [[Hne Hk']|[<- ->]].
    + destruct (Hact j k Hk') as (A1 & A2 & A3). split_and!; [done|by intros y Hy; right; apply A2|cbn; lia].
    + change (lag_active l = [] /\ s :: lag_streams l ⊆ s :: strs /\ (S (length (lag_streams l)) <= S (length strs))%nat). split_and!; [done| |lia].
      intros y [->|Hy]%elem_of_cons; [by left|right; by apply Hsub].
Qed.

Lemma waiting_streams t l : forall strs x x', waiting t strs x -> NoDup (map fst l ++ strs) -> good_streams t (map fst l) -> Z.of_nat (length (map fst l ++ strs)) < 2 ^ 32 ->
  add_streams l x = Some x' -> links_ok x' /\ ln_members x' = ln_members x.
Proof.
  induction l as [|[s i] l IH]; intros strs x x' Hw Hnd Hg Hlen; cbn [add_streams]; [intros [= <-]; split; [apply Hw|done]|].
  destruct (bbl_stream_select_io_lag s i x) as [x1|] eqn:E; cbn [mbind option_bind]; [|done]. cbn [map fst app length] in *. apply NoDup_cons in Hnd as [Hs Hnd]. apply not_elem_of_app in Hs as [Hs1 Hs2].
  rewrite length_app in Hlen. apply (waiting_stream t strs) in E as [Hw1 Hm1]; [|done|done|intros y ->%list_elem_of_singleton; apply Hg; by left|lia].
  intros H. apply (IH (s :: strs)) in H as [K1 K2]; [by rewrite K2|done| |intros y Hy; apply Hg; by right|rewrite length_app; cbn [length]; lia].
  rewrite <- Permutation_middle. apply NoDup_cons. split; [by apply not_elem_of_app|done].
Qed.

Lemma waiting_interfaces t l : forall x x', waiting t [] x -> NoDup (map fst l) -> (forall a, a ∈ map fst l -> ln_members x !! a = None) -> add_interfaces l x = Some x' -> waiting t [] x'.
Proof.
  induction l as [|[a link] l IH]; intros x x' Hw Hnd Hfree; cbn [add_interfaces]; [by intros [= <-]|]. cbn [map fst] in *. apply NoDup_cons in Hnd as [Ha Hnd].
  destruct (bbl_lag_interface_add a link INTERFACE_UP no_streams x) as [[ok x1]|] eqn:E; cbn [mbind option_bind]; [|done]. destruct ok; [|done].
  apply (waiting_interface t []) in E as [Hw1 Hm1]; [|done|apply Hfree; by left]. apply IH; [done|done|]. intros b Hb. rewrite Hm1 by (by intros ->). apply Hfree. by right.
Qed.

Lemma setup_ok configs ifs strs t x : Forall (fun c => lgc_lacp_enable c = true) configs -> NoDup (map fst ifs) -> NoDup (map fst strs) -> good_streams t (map fst strs) ->
  Z.of_nat (length strs) < 2 ^ 32 -> lag_setup configs ifs strs t = Some x -> links_ok x.
Proof.
  intros Hc Hi Hs Hg Hlen. unfold lag_setup. destruct (waiting_lags configs Hc (no_links t) t) as [Hw Hm]; [done|by split; [split| |]|].
  destruct (add_interfaces ifs _) as [x1|] eqn:E; cbn [mbind option_bind]; [|done]. intros H.
  apply (waiting_interfaces t) in E; [|done|done|intros a _; rewrite Hm; apply lookup_empty].
  by apply (waiting_streams t strs [] x1 x) in H as [H _]; rewrite ?app_nil_r, ?length_map.
Qed.

(** * Runs *)

Section run.
Context {W : Type} (send : Z -> Z -> W -> option (bool * W)) (burst : Z).

Inductive lag_event :=
| ev_job (a : Z)
| ev_lacp (a : Z) (lacp : bbl_lacp)
| ev_enable (a : Z) (enable : bool)
| ev_send (a now : Z)
| ev_stop (a : Z).

Definition event_member (e : lag_event) : Z := match e with ev_job a => a | ev_lacp a _ => a | ev_enable a _ => a | ev_send a _ => a | ev_stop a => a end.

(** What may happen: to known links, with packets that have the information of their sender. *)
Definition valid (x : links) (e : lag_event) : Prop :=
  is_Some (ln_members x !! event_member e) /\ match e with ev_lacp _ lacp => lacp_actor_system_id lacp <> None | _ => True end.

Definition step (e : lag_event) (x : links) (w : W) : option (links * W) :=
  match e with
  | ev_job a => x ← bbl_lag_lacp_job a x; Some (x, w)
  | ev_lacp a lacp => x ← rx_lacp a lacp x; Some (x, w)
  | ev_enable a enable => x ← bbl_interface_ctrl_enable_disable enable a x; Some (x, w)
  | ev_send a now =>
      m ← ln_members x !! a;
      '(_, h, w) ← bbl_stream_io_send_iter (send now) burst now (ln_streams x) (mb_io m) w;
      Some (with_member a (fun m => m {{ mb_io := h }}) x, w)
  | ev_stop a => Some (with_member a (fun m => m {{ mb_io ::= bbl_stream_io_stop }}) x, w)
  end.

Fixpoint run (l : list lag_event) (x : links) (w : W) : option (links * W) :=
  match l with [] => Some (x, w) | e :: l => '(x, w) ← step e x w; run l x w end.

Context (Hsend : forall now a w, exists r w', send now a w = Some (r, w')).

Lemma unaffected_io t m h : member_wf t (mb_lag m) m -> built t h -> all_streams (io_buckets h) = streams_on m -> unaffected t m (m {{ mb_io := h }}).
Proof. intros Hw Hb Hs. split; [by eapply member_wf_io|done|done|by left|exact Hs]. Qed.

Lemma built_stop t h : built t h -> built t (bbl_stream_io_stop h) /\ all_streams (io_buckets (bbl_stream_io_stop h)) = all_streams (io_buckets h).
Proof.
  intros [B1 B2 B3 B4]. set (g := fun b => b {{ bk_base := 0 ; bk_cur := [] }}). assert (E : all_streams (g <$> io_buckets h) = all_streams (io_buckets h)).
  { clear. induction (io_buckets h) as [|b l IH]; [done|]. rewrite fmap_cons, !all_streams_cons. by f_equal. }
  split; [|exact E]. split.
  - change (Forall counted (g <$> io_buckets h)). apply Forall_fmap. eapply Forall_impl; [exact B1|]. intros b [C1 C2 C3 C4]. split; try done. exists (bk_streams b). by rewrite app_nil_r.
  - change (NoDup (all_streams (g <$> io_buckets h))). by rewrite E.
  - intros b a Hb Ha. change (b ∈ g <$> io_buckets h) in Hb. apply list_elem_of_fmap in Hb as (c & -> & Hc). by apply (B3 c).
  - change (io_bucket_cur h <= length (g <$> io_buckets h) - 1)%nat. by rewrite length_fmap.
Qed.

Lemma step_ok e x w : links_ok x -> valid x e -> exists x' w', step e x w = Some (x', w') /\ links_ok x' /\ members_kept x x'.
Proof.
  intros Hok [[m Hm] Hv]. destruct (links_member x _ m Hok Hm) as (l & Hl & Ha & Hw).
  assert (Hf : forall r, fine x r -> exists x' w', (x ← r; Some (x, w)) = Some (x', w') /\ links_ok x' /\ members_kept x x') by (intros r (x' & -> & H1 & H2); by exists x', w).
  destruct e as [a|a lacp|a en|a now|a]; cbn [event_member] in Hm; cbn [step].
  - apply Hf. by eapply job_fine.
  - apply Hf. by eapply lacp_fine.
  - apply Hf. by eapply enable_fine.
  - rewrite Hm. cbn [mbind option_bind]. destruct (built_iter (send now) burst now (ln_streams x) (Hsend now) (mb_io m) w (mw_built _ _ _ Hw)) as (r & h & w' & E & Hb & Hs). rewrite E. cbn [mbind option_bind].
    destruct (fine_change x a (fun m => m {{ mb_io := h }}) m Hok Hm) as (x' & [= <-] & H1 & H2); [by apply unaffected_io|]. by eexists _, w'.
  - destruct (built_stop _ _ (mw_built _ _ _ Hw)) as [Hb Hs].
    destruct (fine_change x a (fun m => m {{ mb_io ::= bbl_stream_io_stop }}) m Hok Hm) as (x' & [= <-] & H1 & H2); [exact (unaffected_io _ _ _ Hw Hb Hs)|]. by eexists _, w.
Qed.

Lemma run_ok l : forall x w, links_ok x -> Forall (valid x) l -> exists x' w', run l x w = Some (x', w') /\ links_ok x'.
Proof.
  induction l as [|e l IH]; intros x w Hok Hv; cbn [run]; [by exists x, w|]. apply Forall_cons in Hv as [He Hv]. destruct (step_ok e x w Hok He) as (x1 & w1 & E & Hok1 & Hk). rewrite E. cbn [mbind option_bind].
  apply IH; [done|]. eapply Forall_impl; [exact Hv|]. intros e' [H1 H2]. split; [by apply Hk|done].
Qed.
End run.

(** ** The claim *)

(** C7. Every run of a set of LAGs that all use LACP succeeds, whatever timers expire, LACP packets
    that carry the information of their sender arrive, links are enabled and disabled and packets
    are sent, and at its end every LAG is as
    it should be: the active links are the first eligible ones of its list (LACP current, partner
    collecting, not disabled), up to the maximum, and the first of them alone is primary; exactly
    the active links are up, the other eligible ones in standby; the flags advertised to the
    partner say so; the LAG is up exactly when there are links enough; and when it is up each
    stream is scheduled on the link that its flow selects and on no other, when it is down on
    none. *)
Theorem lag_selection {W} (send : Z -> Z -> W -> option (bool * W)) burst configs ifs strs t events x w :
  (forall now a w, exists r w', send now a w = Some (r, w')) -> Forall (fun c => lgc_lacp_enable c = true) configs ->
  NoDup (map fst ifs) -> NoDup (map fst strs) -> good_streams t (map fst strs) -> Z.of_nat (length strs) < 2 ^ 32 ->
  lag_setup configs ifs strs t = Some x -> Forall (valid x) events ->
  exists x' w', run send burst events x w = Some (x', w') /\
    forall i l, ln_lags x' !! i = Some l -> lag_ok (ln_members x') (ln_streams x') i l.
Proof.
  intros Hsend Hc Hi Hs Hg Hlen Hx Hv. destruct (run_ok send burst Hsend events x w) as (x' & w' & E & Hok); [by eapply setup_ok|done|].
  exists x', w'. split; [done|]. intros i l Hl. by apply (lk_lags _ Hok).
Qed.

(** A LAG of three links, two of them active at most, and three streams. *)
Definition demo_config : bbl_lag_config := mk_lag_config 1 "lag0" true true 1 2 32768 [2; 255; 255; 255; 255; 0] [2; 255; 255; 255; 255; 1].
Definition demo_link (name : string) (priority : Z) : link_config := mk_link name (Some "lag0"%string) 0 priority.
Definition demo_links : list (Z * link_config) := [(10, demo_link "eth1" 100); (11, demo_link "eth2" 100); (12, demo_link "eth3" 50)].
Definition demo_streams : list (Z * Datatypes.nat) := [(1, 0%nat); (2, 0%nat); (3, 0%nat)].
Definition demo_lacp (port : Z) : bbl_lacp := mk_lacp (Some [2; 0; 0; 0; 0; 9]) 100 1 10 port 0x3d None 0 0 0 0 0.
Definition demo_events : list lag_event :=
  [ev_lacp 10 (demo_lacp 1); ev_send 10 1000000; ev_lacp 11 (demo_lacp 2); ev_lacp 12 (demo_lacp 3); ev_send 12 2000000; ev_send 12 3000000; ev_enable 12 false; ev_job 10; ev_job 10; ev_job 10; ev_job 10].

(** The active links and the streams of each link. *)
Definition summary (x : links) : list (list Z) * list (Z * interface_state * list Z) :=
  (map lag_active (ln_lags x), map (fun '(a, m) => (a, mb_state m, streams_on m)) (map_to_list (ln_members x))).

Lemma lag_selection_witness : exists x, lag_setup [demo_config] demo_links demo_streams plan_table = Some x /\
  exists x' w', run demo_send 100000000 demo_events x 0 = Some (x', w') /\ forall i l, ln_lags x' !! i = Some l -> lag_ok (ln_members x') (ln_streams x') i l.
Proof.
  destruct (lag_setup [demo_config] demo_links demo_streams plan_table) as [x|] eqn:E; [|by vm_compute in E]. exists x. split; [done|].
  apply (lag_selection demo_send 100000000 [demo_config] demo_links demo_streams plan_table demo_events x 0).
  - intros now a w. by eexists _, _.
  - by repeat constructor.
  - by apply (bool_decide_unpack _).
  - by apply (bool_decide_unpack _).
  - intros s Hs. cbn in Hs. repeat (apply elem_of_cons in Hs as [->|Hs]; [eexists; split; [reflexivity|by vm_compute]|]). by apply elem_of_nil in Hs.
  - done.
  - exact E.
  - vm_compute in E. injection E as <-. repeat (constructor; [split; [by vm_compute; eexists|done]|]). constructor.
Defined.

(** What the run makes of the LAG: after the packets of all partners links 12 and 10 are active
    in the order of their priorities, and link 11 is in standby; it takes over when link 12 has
    been disabled and the partner of link 10 is silent. *)
Example demo_summary : (x ← lag_setup [demo_config] demo_links demo_streams plan_table;
  '(x1, _) ← run demo_send 100000000 (take 6 demo_events) x 0; '(x2, _) ← run demo_send 100000000 demo_events x 0; Some (summary x1, summary x2))
  = Some (([[12; 10]], [(11, INTERFACE_STANDBY, []); (10, INTERFACE_UP, [3; 1]); (12, INTERFACE_UP, [2])]),
          ([[11]], [(11, INTERFACE_UP, [3; 1; 2]); (10, INTERFACE_DOWN, []); (12, INTERFACE_DISABLED, [])])).
Proof. vm_compute. reflexivity. Qed.
