(* ===== verification/LagErrors.v ===== *)
(** LACP packets that the code does not handle: a packet without the information of its sender is
    decoded, and its reception copies the identifier of the sender from NULL. *)
From coqutil Require Import Datatypes.RecordSetters.
From S2P Require Import Prelude.
From S2P Require Import Const.
From S2P Require Import ConstApp.
From S2P Require Import ConstStream.
From S2P Require Import ConstNet.
From S2P Require Import ProtoTypes.
From S2P Require Import Dec.
From S2P Require Import DecodeEth.
From S2P Require Import StreamRx.
From S2P Require Import IoStream.
From S2P Require Import IoSetup.
From S2P Require Import Lag.
From S2P Require Import LagRun.
Import RecordSetters.DoubleBraceUpdate.
From stdpp Require Import gmap list strings.
Open Scope Z_scope.

(** An LACP packet with one TLV of an unknown type. *)
Definition no_actor_frame : list Z := [1;128;194;0;0;2; 2;0;0;0;0;9; 136;9; 1; 1] ++ [9; 108] ++ replicate 106 0.

(** C40. A frame is a complete LACP packet for the decoder when it has no TLV with the
    information of the sender; whatever LAGs there are, a link with LACP that is not disabled and
    takes the packet for news (it has not heard of the partner yet, or of a state other than 0)
    copies the identifier of the partner from NULL. *)
Theorem lacp_without_actor x a m :
  ln_members x !! a = Some m -> mb_lacp_state m <> LACP_DISABLED -> mb_state m <> INTERFACE_DISABLED ->
  mb_lacp_state m <> LACP_CURRENT \/ li_state (mb_partner m) <> 0 ->
  exists eth d lacp, decode_ethernet no_actor_frame 124 SCRATCHPAD_LEN = Ok (PROTOCOL_SUCCESS, eth) d /\ eth_next eth = h_lacp lacp /\ rx_lacp a lacp x = None.
Proof.
  intros Hm H1 H2 H3. destruct (decode_ethernet no_actor_frame 124 SCRATCHPAD_LEN) as [[r eth] d|?|?] eqn:E; [|by vm_compute in E..].
  exists eth, d, lacp0. vm_compute in E. injection E as <- <- <-. split_and!; [reflexivity|reflexivity|].
  unfold rx_lacp, bbl_lag_rx_lacp. rewrite Hm. cbn [mbind option_bind]. rewrite !decide_False by done.
  assert (Hc : partner_changed m lacp0 = true); [|by rewrite Hc].
  unfold partner_changed. destruct H3 as [H3|H3]; [by rewrite (bool_decide_eq_false_2 _ H3)|]. change (lacp_actor_state lacp0) with 0. rewrite (proj2 (Z.eqb_neq _ _) H3). by rewrite orb_true_r.
Qed.

Lemma lacp_without_actor_witness : exists x m, lag_setup [demo_config] demo_links demo_streams plan_table = Some x /\ ln_members x !! 10 = Some m /\
  exists eth d lacp, decode_ethernet no_actor_frame 124 SCRATCHPAD_LEN = Ok (PROTOCOL_SUCCESS, eth) d /\ eth_next eth = h_lacp lacp /\ rx_lacp 10 lacp x = None.
Proof.
  destruct (lag_setup [demo_config] demo_links demo_streams plan_table) as [x|] eqn:E; [|by vm_compute in E]. vm_compute in E. injection E as <-.
  eexists _, _. split; [reflexivity|]. split; [reflexivity|]. eapply (lacp_without_actor _ 10); [reflexivity|done|done|by left].
Defined.
