(* ===== verification/Session.v ===== *)
(** Subscriber sessions (bbl_session.c, bbl_session.h): the life cycle of a session
    with the counters of the whole program.

    A function that takes a session works on that session and on the global context,
    [st]; the result says when an assertion fails or a buffer is left.  Timers are
    kept by name with the job they call; [rand] and the clock are oracles in the
    context.  The options buffers of the PPP protocols are lists of
    [PPP_OPTIONS_BUFFER] bytes.  Log messages and the memory of strings are left out,
    a string is the list of its bytes. *)
From coqutil Require Import Datatypes.RecordSetters.
From S2P Require Import Prelude.
From S2P Require Import Const.
From S2P Require Import ConstApp.
From S2P Require Import ConstStream.
From S2P Require Import ProtoTypes.
From S2P Require Import Timer.
From S2P Require Import Stream.
Import RecordSetters.DoubleBraceUpdate.
From stdpp Require Import gmap list strings.
Open Scope Z_scope.

(** * Data *)

(** The order of the states: [session_state_t] is compared with [<] and [>]. *)
Definition rank (s : session_state) : Z :=
  match s with
  | BBL_IDLE => 0 | BBL_IPOE_SETUP => 1 | BBL_PPPOE_INIT => 2 | BBL_PPPOE_REQUEST => 3 | BBL_PPP_LINK => 4 | BBL_PPP_AUTH => 5
  | BBL_PPP_NETWORK => 6 | BBL_ESTABLISHED => 7 | BBL_PPP_TERMINATING => 8 | BBL_TERMINATING => 9 | BBL_TERMINATED => 10 | BBL_MAX => 11
  end.

Inductive ppp_state :=
| BBL_PPP_DISABLED | BBL_PPP_REJECTED | BBL_PPP_CLOSED | BBL_PPP_INIT | BBL_PPP_LOCAL_ACK | BBL_PPP_PEER_ACK | BBL_PPP_OPENED
| BBL_PPP_TERMINATE.
#[export] Instance ppp_state_dec : EqDecision ppp_state.
Proof. solve_decision. Defined.

Inductive dhcp_state :=
| BBL_DHCP_DISABLED | BBL_DHCP_INIT | BBL_DHCP_SELECTING | BBL_DHCP_REQUESTING | BBL_DHCP_BOUND | BBL_DHCP_RENEWING | BBL_DHCP_RELEASE.
#[export] Instance dhcp_state_dec : EqDecision dhcp_state.
Proof. solve_decision. Defined.

Definition dhcp_rank (s : dhcp_state) : Z :=
  match s with
  | BBL_DHCP_DISABLED => 0 | BBL_DHCP_INIT => 1 | BBL_DHCP_SELECTING => 2 | BBL_DHCP_REQUESTING => 3 | BBL_DHCP_BOUND => 4
  | BBL_DHCP_RENEWING => 5 | BBL_DHCP_RELEASE => 6
  end.

(** The timers of a session and the jobs they call. *)
Inductive timer_name :=
| timer_arp | timer_padi | timer_padr | timer_lcp | timer_lcp_echo | timer_auth | timer_ipcp | timer_ip6cp | timer_dhcp_retry
| timer_dhcp_t1 | timer_dhcp_t2 | timer_dhcpv6 | timer_dhcpv6_t1 | timer_dhcpv6_t2 | timer_igmp | timer_zapping | timer_icmpv6
| timer_session | timer_reconnect | timer_tun | timer_cfm_cc.
#[export] Instance timer_name_dec : EqDecision timer_name.
Proof. solve_decision. Defined.

Inductive job :=
| J_padi_timeout | J_padr_timeout | J_lcp_timeout | J_lcp_start_delay | J_lcp_echo | J_pap_timeout | J_chap_timeout | J_ipcp_timeout
| J_ip6cp_timeout | J_dhcp_timeout | J_dhcp_s1 | J_dhcp_s2 | J_dhcpv6_timeout | J_dhcpv6_s1 | J_dhcpv6_s2 | J_arp_timeout
| J_icmpv6_timeout | J_session_timeout | J_igmp_initial_join | J_igmp_zapping | J_igmp_timeout | J_reconnect | J_tun_tx | J_cfm_cc.
#[export] Instance job_dec : EqDecision job.
Proof. solve_decision. Defined.

(** LCP, IPCP and IP6CP have the same fields. *)
Record ppp := mk_ppp {
  p_state : ppp_state;
  p_response_code : Z;
  p_request_code : Z;
  p_options : list Z;        (* [PPP_OPTIONS_BUFFER] *)
  p_options_len : Z;
  p_identifier : Z;
  p_peer_identifier : Z;
  p_retries : Z
}.

(** [bbl_access_config_s], with what sessions use of it. *)
Record access_config := mk_access_config {
  ac_qinq : bool;
  ac_ipv4_enable : bool;
  ac_ipv6_enable : bool;
  ac_ipcp_enable : bool;
  ac_ip6cp_enable : bool;
  ac_authentication_protocol : Z;
  ac_ppp_mru : Z
}.

Record pppoe_part := mk_pppoe_part {
  pppoe_session_id : Z;
  pppoe_ac_cookie : list Z;            (* with [pppoe_ac_cookie_len] *)
  pppoe_service_name : option (list Z);
  pppoe_host_uniq : Z;
  pppoe_retries : Z
}.

Record lcp_part := mk_lcp_part {
  x_echo_request_ignore : bool;
  x_magic_number : Z;
  x_peer_magic_number : Z;
  x_mru : Z;
  x_peer_mru : Z;
  x_auth_protocol : Z;
  x_auth_retries : Z;
  x_chap_identifier : Z;
  x_chap_response : list Z;
  x_reply_message : option (list Z);
  x_connections_status_message : option (list Z);
  x_ipcp_request_dns1 : bool;
  x_ipcp_request_dns2 : bool;
  x_ip6cp_ipv6_identifier : Z;
  x_ip6cp_ipv6_peer_identifier : Z
}.

Record ip_part := mk_ip_part {
  arp_resolved : bool;
  ip_address : Z;
  ip_netmask : Z;
  peer_ip_address : Z;
  dns1 : Z;
  dns2 : Z;
  icmpv6_ra_received : bool;
  link_local_ipv6_address : list Z;
  ipv6_prefix : Z * list Z;            (* length and address *)
  ipv6_address : list Z;
  delegated_ipv6_prefix : Z * list Z;
  delegated_ipv6_address : list Z;
  ipv6_dns1 : list Z;
  ipv6_dns2 : list Z
}.

Record dhcp_part := mk_dhcp_part {
  d_state : dhcp_state;
  d_requested : bool;
  d_established : bool;
  d_retry : Z;
  d_xid : Z;
  d_address : Z;
  d_lease_time : Z;
  d_t1 : Z;
  d_t2 : Z;
  d_server : Z;
  d_server_identifier : Z;
  d_server_mac : list Z;
  d_lease_timestamp : timespec;
  d_request_timestamp : timespec;
  d_host_name : option (list Z);
  d_domain_name : option (list Z)
}.

Record dhcpv6_part := mk_dhcpv6_part {
  d6_state : dhcp_state;
  d6_requested : bool;
  d6_established : bool;
  d6_retry : Z;
  d6_xid : Z;
  d6_duid : list Z;
  d6_server_duid : list Z;             (* [DHCPV6_BUFFER] *)
  d6_server_duid_len : Z;
  d6_dns1 : list Z;
  d6_dns2 : list Z;
  d6_lease_time : Z;
  d6_t1 : Z;
  d6_t2 : Z;
  d6_ia_na_iaid : Z;
  d6_ia_pd_iaid : Z;
  d6_ia_na_option : list Z;            (* [DHCPV6_BUFFER] *)
  d6_ia_na_option_len : Z;
  d6_ia_pd_option : list Z;            (* [DHCPV6_BUFFER] *)
  d6_ia_pd_option_len : Z;
  d6_lease_timestamp : timespec;
  d6_request_timestamp : timespec
}.

Record igmp_entry := mk_igmp_entry {
  ig_state : Z;
  ig_robustness_count : Z;
  ig_send : bool;
  ig_zapping : bool;
  ig_zapping_result : bool;
  ig_group : Z;
  ig_source : list Z;
  ig_packets : Z;
  ig_loss : Z;
  ig_join_tx_time : timespec;
  ig_first_mc_rx_time : timespec;
  ig_leave_tx_time : timespec;
  ig_last_mc_rx_time : timespec
}.

(** IGMP and zapping; a pointer to a group is its index. *)
Record igmp_part := mk_igmp_part {
  m_version : Z;
  m_robustness : Z;
  m_groups : list igmp_entry;          (* [IGMP_MAX_GROUPS] *)
  m_joined_group : option Datatypes.nat;
  m_leaved_group : option Datatypes.nat;
  m_group_max : Z;
  m_count : Z;
  m_join_delay_sum : Z;
  m_join_count : Z;
  m_leave_delay_sum : Z;
  m_leave_count : Z;
  m_view_start_time : timespec;
  m_rx_last_seq : Z
}.

(** The access line of a session. *)
Record line_part := mk_line_part {
  agent_circuit_id : ptr;
  agent_remote_id : ptr;
  access_aggregation_circuit_id : ptr;
  rate_up : Z;
  rate_down : Z;
  dsl_type : Z;
  line_profile : option access_line_profile;
  dhcp_vendor_class : ptr
}.

(** [bbl_cfm_session_s] *)
Record cfm_part := mk_cfm_part { cc_on : bool; cc_rdi : bool; cc_tx : Z; cc_seq : Z; cc_level : Z; cc_ma_id : Z; cc_ma_name : option (list Z) }.

(** [bbl_arp_client_s] *)
Record arp_client := mk_arp_client { acl_target_ip : Z; acl_target_mac : list Z; acl_tx : Z; acl_rx : Z }.

Record endpoints := mk_endpoints { ep_ipv4 : endpoint_state; ep_ipv6 : endpoint_state; ep_ipv6pd : endpoint_state }.

Record sess := mk_sess {
  s_id : Z;
  s_group_id : Z;
  s_access_type : access_type;
  s_access_interface : Z;
  s_config : access_config;
  s_username : list Z;
  s_password : list Z;
  s_state : session_state;
  s_version : Z;
  s_send_requests : Z;
  s_client_mac : list Z;
  s_server_mac : list Z;
  s_vlan_key : Z * Z * Z;              (* ifindex, outer and inner identifier *)
  s_third_vlan : Z;
  s_reconnect_delay : Z;
  s_reconnect_disabled : bool;
  s_timers : list (timer_name * job);
  s_endpoint : endpoints;
  s_pppoe : pppoe_part;
  s_lcp : ppp;
  s_ipcp : ppp;
  s_ip6cp : ppp;
  s_ppp : lcp_part;
  s_ip : ip_part;
  s_dhcp : dhcp_part;
  s_dhcpv6 : dhcpv6_part;
  s_igmp : igmp_part;
  s_line : line_part;
  s_cfm : option cfm_part;
  s_arp_clients : list arp_client;
  s_l2tp : bool;
  s_l2tp_session : option (Z * Z);
  s_a10nsp_session : option Z;
  s_tun : bool;
  s_flows_verified : Z;
  s_traffic : list (option Z);         (* ipv4, ipv6 and ipv6pd, up and down *)
  s_stats : gmap string Z
}.

Record config := mk_config {
  cf_pppoe_service_name : bool;
  cf_pppoe_reconnect : bool;
  cf_sessions_reconnect : bool;
  cf_sessions_start_rate : Z;
  cf_sessions_stop_rate : Z;
  cf_sessions_max_outstanding : Z;
  cf_sessions_start_delay : Z;
  cf_pppoe_discovery_timeout : Z;
  cf_pppoe_discovery_retry : Z;
  cf_pppoe_max_payload : Z;
  cf_pppoe_vlan_priority : Z;
  cf_pppoe_session_time : Z;
  cf_lcp_conf_request_timeout : Z;
  cf_lcp_conf_request_retry : Z;
  cf_lcp_keepalive_interval : Z;
  cf_lcp_keepalive_retry : Z;
  cf_lcp_start_delay : Z;
  cf_lcp_vendor_ignore : bool;
  cf_lcp_connection_status_message : bool;
  cf_authentication_timeout : Z;
  cf_authentication_retry : Z;
  cf_ipcp_enable : bool;
  cf_ip6cp_enable : bool;
  cf_ipcp_request_ip : bool;
  cf_ipcp_request_dns1 : bool;
  cf_ipcp_request_dns2 : bool;
  cf_ipcp_conf_reject_ignore : bool;
  cf_ipcp_conf_request_retry : Z;
  cf_ip6cp_conf_request_retry : Z;
  cf_igmp_group : Z;
  cf_igmp_group_iter : Z;
  cf_igmp_group_count : Z;
  cf_igmp_source : Z;
  cf_igmp_autostart : bool;
  cf_igmp_start_delay : Z;
  cf_igmp_zap_interval : Z;
  cf_igmp_zap_count : Z;
  cf_igmp_zap_view_duration : Z;
  cf_igmp_zap_wait : bool;
  cf_igmp_max_join_delay : Z;
  cf_igmp_combined_leave_join : bool;
  cf_arp_interval : Z;
  cf_dhcp_retry : Z;
  cf_dhcp_release_retry : Z;
  cf_dhcp_broadcast : bool;
  cf_dhcp_vlan_priority : Z;
  cf_dhcp_tos : Z;
  cf_dhcp_access_line : bool;
  cf_dhcpv6_retry : Z;
  cf_dhcpv6_ia_na : bool;
  cf_dhcpv6_ia_pd : bool;
  cf_dhcpv6_ldra : bool;
  cf_dhcpv6_access_line : bool;
  cf_dhcpv6_rapid_commit : bool;
  cf_dhcpv6_vlan_priority : Z;
  cf_dhcpv6_tc : Z
}.

(** What sessions hand to other components: packets for the queue of the interface
    (Txq.v), for TCP, for the ICMP clients, for the fragments and for the tun
    interface. *)
Inductive call :=
| call_txq (eth : ethernet)
| call_tcp_ipv4 (ipv4 : ipv4_t)
| call_tcp_ipv6 (ipv6 : ipv6_t)
| call_icmp_client (ipv4 : ipv4_t)
| call_fragment (ipv4 : ipv4_t)
| call_tun (bs : list Z)
| call_l2tp_stop_all_tunnel
| call_routing_teardown.             (* isis, ospf, ldp and bgp *)

(** [bbl_ctx_s], with what sessions use of it, and the flags of bbl.c. *)
Record glob := mk_glob {
  g_config : config;
  g_sessions : Z;
  g_sessions_established : Z;
  g_sessions_established_max : Z;
  g_sessions_outstanding : Z;
  g_sessions_terminated : Z;
  g_sessions_flapped : Z;
  g_dhcp_requested : Z;
  g_dhcp_established : Z;
  g_dhcp_established_max : Z;
  g_dhcpv6_requested : Z;
  g_dhcpv6_established : Z;
  g_dhcpv6_established_max : Z;
  g_dhcpv6_iaid : Z;
  g_flows_verified : Z;                (* stats.session_traffic_flows_verified *)
  g_idle : list Z;                     (* sessions_idle_qhead *)
  g_teardown_queue : list Z;           (* sessions_teardown_qhead *)
  g_tx : gmap Z (list Z);              (* session_tx_qhead of the access interfaces *)
  g_streams : gmap Z bbl_stream;
  g_l2tp_sessions : gmap (Z * Z) (option Z);   (* l2tp_session_dict, with pppoe_session *)
  g_stats : gmap string Z;             (* counters of the access interfaces *)
  g_teardown : bool;
  g_teardown_request : bool;
  g_now : timespec;
  g_last_session_established : timespec;
  g_first_session_tx : timespec;
  g_timestamp_resolved : timespec;
  g_zapping : bool;
  g_monkey : bool;
  g_l2tp_tunnels : Z;
  g_init_phase : bool;
  g_calls : list call;                 (* in order *)
  g_txq_ok : Z -> bool;                (* whether the queue takes the packet of the n-th call *)
  g_md5 : list Z -> list Z;            (* OpenSSL's MD5 *)
  g_rand : Z -> Z;
  g_rands : Z
}.

(** What a function of the program gives: a value, a failed assertion, or an access
    outside of a buffer (or a loop that does not end). *)
Inductive res (A : Type) := Ok (a : A) | Assert | Fault.
Arguments Ok {A}.
Arguments Assert {A}.
Arguments Fault {A}.

#[export] Instance res_ret : MRet res := fun _ a => Ok a.
#[export] Instance res_bind : MBind res := fun _ _ f r => match r with Ok a => f a | Assert => Assert | Fault => Fault end.

(** A pointer that has to be valid. *)
Definition opt {A} (o : option A) : res A := match o with Some a => Ok a | None => Fault end.

(** A session with the global context. *)
Record st := mk_st { gl : glob; ss : sess }.

Definition up (f : sess -> sess) (x : st) : st := x {{ ss ::= f }}.
Definition upg (f : glob -> glob) (x : st) : st := x {{ gl ::= f }}.

(** [counter++] of the session and of an interface. *)
Definition count (k : string) (x : st) : st := up (fun s => s {{ s_stats := <[k := u32 (default 0 (s_stats s !! k) + 1)]> (s_stats s) }}) x.
Definition count64 (k : string) (n : Z) (x : st) : st := up (fun s => s {{ s_stats := <[k := u64 (default 0 (s_stats s !! k) + n)]> (s_stats s) }}) x.
Definition count_if (k : string) (x : st) : st := upg (fun g => g {{ g_stats := <[k := u64 (default 0 (g_stats g !! k) + 1)]> (g_stats g) }}) x.

(** [timer_add] and [timer_add_periodic], [timer_del]. *)
Definition timer_off (t : timer_name) (s : sess) : sess := s {{ s_timers := filter (fun e => e.1 <> t) (s_timers s) }}.
Definition timer_on (t : timer_name) (j : job) (s : sess) : sess := (timer_off t s) {{ s_timers ::= cons (t, j) }}.

(** A call, and a packet written to the queue of the interface. *)
Definition note (c : call) (x : st) : st := upg (fun g => g {{ g_calls := g_calls g ++ [c] }}) x.
Definition txq_send (eth : ethernet) (x : st) : bool * st :=
  (g_txq_ok (gl x) (Z.of_nat (length (g_calls (gl x)))), note (call_txq eth) x).

(** [rand()] *)
Definition rand (x : st) : Z * st := (g_rand (gl x) (g_rands (gl x)), upg (fun g => g {{ g_rands ::= Z.succ }}) x).

(** [if(!n) n = 1] *)
Definition at_least_1 (n : Z) : Z := if n =? 0 then 1 else n.

(** [session->version++] *)
Definition new_version (s : sess) : sess := s {{ s_version ::= (fun v => u32 (v + 1)) }}.

(** [memcpy(buffer + off, p, len)]: outside of [p] or the buffer is a fault. *)
Definition copy_at (buffer : list Z) (off : Z) (p : ptr) (len : Z) : option (list Z) :=
  if len =? 0 then Some buffer
  else
    bs ← p;
    let n := Z.to_nat len in
    let o := Z.to_nat off in
    if (length bs <? n)%nat || (length buffer <? o + n)%nat then None else Some (take o buffer ++ take n bs ++ drop (o + n) buffer).
Definition copy_into (buffer : list Z) (p : ptr) (len : Z) : option (list Z) := copy_at buffer 0 p len.

(** The [len] bytes at [p]. *)
Definition bytes_at (p : ptr) (len : Z) : option (list Z) :=
  if len =? 0 then Some [] else bs ← p; if (length bs <? Z.to_nat len)%nat then None else Some (take (Z.to_nat len) bs).

(** * The transmit queue *)

Definition bbl_session_tx_qnode_insert (x : st) : st :=
  let q := default [] (g_tx (gl x) !! s_access_interface (ss x)) in
  if decide (s_id (ss x) ∈ q) then x
  else upg (fun g => g {{ g_tx := <[s_access_interface (ss x) := q ++ [s_id (ss x)]]> (g_tx g) }}) x.

Definition bbl_session_tx_qnode_remove (x : st) : st :=
  let q := default [] (g_tx (gl x) !! s_access_interface (ss x)) in
  upg (fun g => g {{ g_tx := <[s_access_interface (ss x) := filter (.≠ s_id (ss x)) q]> (g_tx g) }}) x.

(** [session->send_requests |= bits] *)
Definition want (bits : Z) (s : sess) : sess := s {{ s_send_requests ::= (fun r => Z.lor r bits) }}.
Definition unwant (bits : Z) (s : sess) : sess := s {{ s_send_requests ::= (fun r => Z.land r (Z.lnot bits)) }}.
Definition send (bits : Z) (x : st) : st := bbl_session_tx_qnode_insert (up (want bits) x).

(** * Endpoints *)

Definition ENABLE_ENDPOINT (e : endpoint_state) : endpoint_state := if decide (e = ENDPOINT_DISABLED) then e else ENDPOINT_ENABLED.
Definition ACTIVATE_ENDPOINT (e : endpoint_state) : endpoint_state := if decide (e = ENDPOINT_DISABLED) then e else ENDPOINT_ACTIVE.

Definition enable_endpoints (s : sess) : sess :=
  s {{ s_endpoint := mk_endpoints (ENABLE_ENDPOINT (ep_ipv4 (s_endpoint s))) (ENABLE_ENDPOINT (ep_ipv6 (s_endpoint s)))
                       (ENABLE_ENDPOINT (ep_ipv6pd (s_endpoint s))) }}.

(** * The life cycle *)

(** [if(session->x_state > BBL_PPP_DISABLED) session->x_state = BBL_PPP_CLOSED] *)
Definition ncp_closed (p : ppp) : ppp := if decide (p_state p = BBL_PPP_DISABLED) then p else p {{ p_state := BBL_PPP_CLOSED }}.
Definition ncps_closed (s : sess) : sess := s {{ s_ipcp ::= ncp_closed ; s_ip6cp ::= ncp_closed }}.
Definition lcp_closed (s : sess) : sess := s {{ s_lcp := (s_lcp s) {{ p_state := BBL_PPP_CLOSED }} }}.

Definition zero16 : list Z := replicate 16 0.
Definition broadcast_mac : list Z := replicate 6 255.

(** The counters of the session that a reconnect clears. *)
Definition cleared_stats : list string :=
  ["igmp_rx"; "igmp_tx"; "min_join_delay"; "avg_join_delay"; "max_join_delay"; "min_leave_delay"; "avg_leave_delay"; "max_leave_delay";
   "mc_old_rx_after_first_new"; "mc_rx"; "mc_loss"; "mc_not_received"; "icmp_rx"; "icmp_tx"; "icmpv6_rx"; "icmpv6_tx"].

Definition reset_ppp (cf : config) (s : sess) : sess :=
  let p := s_ppp s in
  s {{ s_lcp := (s_lcp s) {{ p_retries := 0 ; p_options_len := 0 ; p_response_code := 0 ; p_request_code := 0 }} ;
       s_ipcp := (s_ipcp s) {{ p_retries := 0 }} ;
       s_ip6cp := (s_ip6cp s) {{ p_retries := 0 }} ;
       s_ppp := p {{ x_auth_protocol := 0 ; x_auth_retries := 0 ; x_mru := ac_ppp_mru (s_config s) ; x_peer_mru := 0 ;
                     x_peer_magic_number := 0 ; x_ipcp_request_dns1 := cf_ipcp_request_dns1 cf ;
                     x_ipcp_request_dns2 := cf_ipcp_request_dns2 cf ;
                     x_reply_message := None ; x_connections_status_message := None }} ;
       s_pppoe := (s_pppoe s) {{ pppoe_retries := 0 ; pppoe_session_id := 0 ; pppoe_ac_cookie := [] ;
                                 pppoe_service_name := if cf_pppoe_service_name cf then pppoe_service_name (s_pppoe s) else None }} }}.

(** The zapping state cleared. *)
Definition zapping_reset (m : igmp_part) : igmp_part :=
  m {{ m_joined_group := None ; m_leaved_group := None ; m_count := 0 ; m_view_start_time := mk_ts 0 0 }}.

Definition reset_ip (s : sess) : sess :=
  let d6 := s_dhcpv6 s in
  s {{ s_ip := (s_ip s) {{ ip_address := 0 ; peer_ip_address := 0 ; dns1 := 0 ; dns2 := 0 ;
                           ipv6_prefix := (0, snd (ipv6_prefix (s_ip s))) ;
                           delegated_ipv6_prefix := (0, snd (delegated_ipv6_prefix (s_ip s))) ;
                           arp_resolved := false ; icmpv6_ra_received := false ;
                           ipv6_address := zero16 ; delegated_ipv6_address := zero16 ; ipv6_dns1 := zero16 ; ipv6_dns2 := zero16 }} ;
       s_dhcpv6 := d6 {{ d6_state := (if decide (d6_state d6 = BBL_DHCP_DISABLED) then BBL_DHCP_DISABLED else BBL_DHCP_INIT) ;
                         d6_requested := false ; d6_established := false ; d6_ia_na_option_len := 0 ; d6_ia_pd_option_len := 0 ;
                         d6_dns1 := zero16 ; d6_dns2 := zero16 }} ;
       s_igmp ::= zapping_reset }}.

(** [session->l2tp_session->pppoe_session = NULL] when it is this session. *)
Definition l2tp_release (x : st) : st :=
  let x := match s_l2tp_session (ss x) with
           | Some k =>
               match g_l2tp_sessions (gl x) !! k with
               | Some (Some id) => if decide (id = s_id (ss x)) then upg (fun g => g {{ g_l2tp_sessions ::= insert k None }}) x else x
               | _ => x
               end
           | None => x
           end in
  up (fun s => s {{ s_l2tp := false ; s_l2tp_session := None }}) x.

Definition reset_traffic (x : st) : st :=
  let n := s_flows_verified (ss x) in
  let x := upg (fun g => g {{ g_flows_verified ::= (fun v => if n <=? v then v - n else v) }}) x in
  let x := up (fun s => enable_endpoints (s {{ s_flows_verified := 0 }})) x in
  upg (fun g => g {{ g_streams := foldr (fun a m => match a with Some a => alter bbl_stream_reset a m | None => m end) (g_streams g) (s_traffic (ss x)) }}) x.

Definition bbl_session_reset (x : st) : st :=
  let cf := g_config (gl x) in
  let x := up (fun s => timer_off timer_reconnect
                          ((new_version s) {{ s_server_mac := broadcast_mac ; s_reconnect_delay := 0 ; s_reconnect_disabled := false }})) x in
  let x := up (fun s => reset_ip (reset_ppp cf s)) x in
  let x := reset_traffic (l2tp_release x) in
  up (fun s => s {{ s_stats ::= (fun m => foldr (fun k m => <[k := 0]> m) m cleared_stats) }}) x.

(** The session put at the end of the idle list: a list that holds it already is
    corrupted. *)
Definition bbl_session_start (x : st) : res (bool * st) :=
  if g_teardown (gl x) || negb (bool_decide (s_state (ss x) = BBL_TERMINATED)) then Ok (false, x)
  else
    let x := bbl_session_reset (up (fun s => s {{ s_state := BBL_IDLE }}) x) in
    let x := upg (fun g => g {{ g_sessions_terminated ::= (fun n => if n =? 0 then n else n - 1) }}) x in
    if decide (s_id (ss x) ∈ g_idle (gl x)) then Fault
    else Ok (true, upg (fun g => g {{ g_idle := g_idle g ++ [s_id (ss x)] }}) x).

(** The actions of a state change: leaving [BBL_ESTABLISHED], ... *)
Definition leave_established (x : st) : st :=
  let x := upg (fun g => if g_sessions_established g =? 0 then g else g {{ g_sessions_established ::= Z.pred }}) x in
  up (fun s => let s := if decide (s_access_type s = ACCESS_TYPE_PPPOE) then enable_endpoints s else s in
               if s_tun s then timer_off timer_tun s else s) x.

(** ... entering it, with the assertion, ... *)
Definition enter_established (x : st) : res st :=
  let g := gl x in
  let n := u32 (g_sessions_established g + 1) in
  if g_sessions g <? n then Assert
  else Ok (up (fun s => if s_tun s then timer_on timer_tun J_tun_tx s else s)
        (upg (fun g => g {{ g_sessions_established := n ; g_sessions_established_max ::= Z.max n }}) x)).

Definition session_timers : list timer_name :=
  [timer_arp; timer_padi; timer_padr; timer_lcp; timer_lcp_echo; timer_auth; timer_ipcp; timer_ip6cp; timer_dhcp_retry; timer_dhcp_t1;
   timer_dhcp_t2; timer_dhcpv6; timer_dhcpv6_t1; timer_dhcpv6_t2; timer_igmp; timer_zapping; timer_icmpv6; timer_session; timer_reconnect].

(** [if(flag) { flag = false; counter--; }] for the DHCP counters. *)
Definition drop_dhcp (x : st) : st :=
  let d := s_dhcp (ss x) in
  let d6 := s_dhcpv6 (ss x) in
  let dec (b : bool) (n : Z) := if b then u32 (n - 1) else n in
  let x := upg (fun g => g {{ g_dhcp_established ::= dec (d_established d) ; g_dhcp_requested ::= dec (d_requested d) ;
                              g_dhcpv6_established ::= dec (d6_established d6) ; g_dhcpv6_requested ::= dec (d6_requested d6) }}) x in
  up (fun s => s {{ s_dhcp := d {{ d_established := false ; d_requested := false }} ;
                    s_dhcpv6 := d6 {{ d6_established := false ; d6_requested := false }} }}) x.

(** ... and [BBL_TERMINATED]. *)
Definition reconnects (cf : config) (s : sess) : bool :=
  negb (s_reconnect_disabled s) &&
  match s_access_type s with ACCESS_TYPE_PPPOE => cf_pppoe_reconnect cf | ACCESS_TYPE_IPOE => cf_sessions_reconnect cf end.

Definition enter_terminated (x : st) : res st :=
  let n := u32 (g_sessions_terminated (gl x) + 1) in
  if g_sessions (gl x) <? n then Assert
  else
    let x := drop_dhcp (upg (fun g => g {{ g_sessions_terminated := n }}) x) in
    let x := up (fun s => foldr timer_off s session_timers) x in
    let x := up (fun s => if decide (s_access_type s = ACCESS_TYPE_PPPOE) then ncps_closed (lcp_closed s) else s) x in
    let x := up (fun s => (enable_endpoints s) {{ s_a10nsp_session := None }}) x in
    if g_teardown (gl x) then Ok x
    else
      let x := upg (fun g => g {{ g_sessions_flapped ::= (fun n => u32 (n + 1)) }}) (count "flapped" x) in
      if reconnects (g_config (gl x)) (ss x)
      then Ok (up (fun s => timer_on timer_reconnect J_reconnect
                                (s {{ s_reconnect_delay ::= at_least_1 }})) x)
      else Ok x.

(** [sessions_outstanding]: sessions between [BBL_IDLE] and [BBL_ESTABLISHED]. *)
Definition pending (s : session_state) : bool := (0 <? rank s) && (rank s <? rank BBL_ESTABLISHED).

Definition leave_pending (x : st) : res st :=
  if g_sessions_outstanding (gl x) =? 0 then Assert
  else Ok (upg (fun g => g {{ g_sessions_outstanding ::= Z.pred }}) x).

Definition bbl_session_update_state (new_state : session_state) (x : st) : res st :=
  let old_state := s_state (ss x) in
  if decide (old_state = new_state) then Ok x
  else
    let x := up (fun s => new_version (s {{ s_state := new_state }})) x in
    if negb ((0 <? rank new_state) && (rank new_state <? rank BBL_MAX)) then Assert
    else
      let x := if decide (old_state = BBL_ESTABLISHED) then leave_established x else x in
      x ← (if pending old_state && (rank BBL_ESTABLISHED <=? rank new_state) then leave_pending x else Ok x);
      match new_state with
      | BBL_ESTABLISHED => enter_established x
      | BBL_PPP_TERMINATING => Ok (up (fun s => enable_endpoints (ncps_closed s)) x)
      | BBL_TERMINATED => enter_terminated x
      | _ => Ok x
      end.

(** [session->dhcp_xid = rand()] with the request restarted. *)
Definition dhcp_new_request (state : dhcp_state) (x : st) : st :=
  let (xid, x) := rand x in
  up (fun s => want BBL_SEND_DHCP_REQUEST
         (s {{ s_dhcp := (s_dhcp s) {{ d_state := state ; d_xid := u32 xid ; d_request_timestamp := mk_ts 0 0 ; d_retry := 0 }} }})) x.
Definition dhcpv6_new_request (state : dhcp_state) (x : st) : st :=
  let (xid, x) := rand x in
  up (fun s => want BBL_SEND_DHCPV6_REQUEST
         (s {{ s_dhcpv6 := (s_dhcpv6 s) {{ d6_state := state ; d6_xid := Z.land xid 0xffffff ; d6_request_timestamp := mk_ts 0 0 ;
                                           d6_retry := 0 }} }})) x.

(** Sending a PADT: the PPP protocols are closed and only the discovery packet is left
    to be sent. *)
Definition send_padt (x : st) : st :=
  bbl_session_tx_qnode_insert (up (fun s => (ncps_closed (lcp_closed s)) {{ s_send_requests := BBL_SEND_DISCOVERY }}) x).

(** Sending an LCP terminate request. *)
Definition send_term_request (x : st) : st :=
  send BBL_SEND_LCP_REQUEST
    (up (fun s => s {{ s_lcp := (s_lcp s) {{ p_request_code := PPP_CODE_TERM_REQUEST ; p_options_len := 0 ; p_state := BBL_PPP_TERMINATE }} }}) x).

(** The DHCP part of clearing an IPoE session: whether a release is under way. *)
Definition clear_dhcp (x : st) : bool * st :=
  match d_state (s_dhcp (ss x)) with
  | BBL_DHCP_SELECTING => (false, up (fun s => s {{ s_dhcp := (s_dhcp s) {{ d_state := BBL_DHCP_INIT }} }}) x)
  | BBL_DHCP_REQUESTING | BBL_DHCP_BOUND | BBL_DHCP_RENEWING => (true, bbl_session_tx_qnode_insert (dhcp_new_request BBL_DHCP_RELEASE x))
  | BBL_DHCP_RELEASE => (true, x)
  | _ => (false, x)
  end.
Definition clear_dhcpv6 (x : st) : bool * st :=
  match d6_state (s_dhcpv6 (ss x)) with
  | BBL_DHCP_SELECTING => (false, up (fun s => s {{ s_dhcpv6 := (s_dhcpv6 s) {{ d6_state := BBL_DHCP_INIT }} }}) x)
  | BBL_DHCP_REQUESTING | BBL_DHCP_BOUND | BBL_DHCP_RENEWING => (true, bbl_session_tx_qnode_insert (dhcpv6_new_request BBL_DHCP_RELEASE x))
  | BBL_DHCP_RELEASE => (true, x)
  | _ => (false, x)
  end.

Definition bbl_session_clear (x : st) : res st :=
  match s_access_type (ss x) with
  | ACCESS_TYPE_PPPOE =>
      match s_state (ss x) with
      | BBL_IDLE | BBL_PPPOE_INIT => bbl_session_update_state BBL_TERMINATED x
      | BBL_PPPOE_REQUEST | BBL_PPP_LINK => x ← bbl_session_update_state BBL_TERMINATING x; Ok (send_padt x)
      | BBL_PPP_AUTH | BBL_PPP_NETWORK | BBL_ESTABLISHED | BBL_PPP_TERMINATING =>
          x ← bbl_session_update_state BBL_PPP_TERMINATING x; Ok (send_term_request x)
      | BBL_TERMINATING | BBL_TERMINATED => Ok x
      | _ => bbl_session_update_state BBL_TERMINATED x
      end
  | ACCESS_TYPE_IPOE =>
      let (release, x) := clear_dhcp x in
      let (release6, x) := clear_dhcpv6 x in
      bbl_session_update_state (if release || release6 then BBL_TERMINATING else BBL_TERMINATED) x
  end.

Definition bbl_session_reconnect (x : st) : res st := '(_, x) ← bbl_session_start x; Ok x.
