(* ===== verification/SessionDhcp.v ===== *)
(** The DHCP and DHCPv6 clients of the sessions (bbl_dhcp.c, bbl_dhcpv6.c), with the
    test for an established IPoE session (bbl_access.c). *)
From coqutil Require Import Datatypes.RecordSetters.
From S2P Require Import Prelude.
From S2P Require Import Const.
From S2P Require Import ConstApp.
From S2P Require Import ConstStream.
From S2P Require Import ProtoTypes.
From S2P Require Import Timer.
From S2P Require Import Stream.
From S2P Require Import Session.
Import RecordSetters.DoubleBraceUpdate.
From stdpp Require Import gmap list strings.
Open Scope Z_scope.

Definition up_ip (f : ip_part -> ip_part) (x : st) : st := up (fun s => s {{ s_ip ::= f }}) x.
Definition up_dhcp (f : dhcp_part -> dhcp_part) (x : st) : st := up (fun s => s {{ s_dhcp ::= f }}) x.
Definition up_dhcpv6 (f : dhcpv6_part -> dhcpv6_part) (x : st) : st := up (fun s => s {{ s_dhcpv6 ::= f }}) x.

(** * DHCP *)

(** [if(flag && counter) counter--] *)
Definition dec_if (b : bool) (n : Z) : Z := if b && negb (n =? 0) then n - 1 else n.

Definition bbl_dhcp_stop (x : st) : st :=
  let x := up (fun s => new_version (s {{ s_endpoint := (s_endpoint s) {{ ep_ipv4 ::= ENABLE_ENDPOINT }} }})) x in
  let x := up_ip (fun i => i {{ arp_resolved := false ; ip_address := 0 ; ip_netmask := 0 ; peer_ip_address := 0 ; dns1 := 0 ; dns2 := 0 }}) x in
  let x := up (fun s => timer_off timer_zapping (timer_off timer_igmp (s {{ s_igmp ::= zapping_reset }}))) x in
  let x := up (fun s => timer_off timer_dhcp_t2 (timer_off timer_dhcp_t1 (timer_off timer_dhcp_retry s))) x in
  let d := s_dhcp (ss x) in
  let x := upg (fun g => g {{ g_dhcp_established ::= dec_if (d_established d) ; g_dhcp_requested ::= dec_if (d_requested d) }}) x in
  up_dhcp (fun d => d {{ d_address := 0 ; d_lease_time := 0 ; d_t1 := 0 ; d_t2 := 0 ; d_server := 0 ; d_server_identifier := 0 ;
                         d_server_mac := broadcast_mac ; d_lease_timestamp := mk_ts 0 0 ; d_request_timestamp := mk_ts 0 0 ;
                         d_host_name := None ; d_domain_name := None ; d_established := false ; d_requested := false }}) x.

(** [if(session->access_type == ACCESS_TYPE_IPOE) bbl_session_update_state(session, BBL_IPOE_SETUP)] *)
Definition setup_ipoe (x : st) : res st :=
  match s_access_type (ss x) with ACCESS_TYPE_IPOE => bbl_session_update_state BBL_IPOE_SETUP x | ACCESS_TYPE_PPPOE => Ok x end.

Definition bbl_dhcp_start (x : st) : res st :=
  if d_requested (s_dhcp (ss x)) then Ok x
  else
    let x := upg (fun g => g {{ g_dhcp_requested ::= (fun n => u32 (n + 1)) }}) (up_dhcp (fun d => d {{ d_requested := true }}) x) in
    setup_ipoe (dhcp_new_request BBL_DHCP_SELECTING x).

Definition bbl_dhcp_restart (x : st) : res st :=
  x ← bbl_dhcp_start (bbl_dhcp_stop x); Ok (bbl_session_tx_qnode_insert x).

(** The jobs of the timers T1 and T2. *)
Definition bbl_dhcp_s1_job (x : st) : res st :=
  if decide (d_state (s_dhcp (ss x)) = BBL_DHCP_BOUND)
  then Ok (bbl_session_tx_qnode_insert (dhcp_new_request BBL_DHCP_RENEWING x)) else Ok x.
Definition bbl_dhcp_s2_job (x : st) : res st := bbl_dhcp_restart x.

(** The fields of [struct dhcp_header]. *)
Definition header_u32 (off : Datatypes.nat) (header : list Z) : option Z :=
  if (length header <? off + 4)%nat then None else Some (le_combine (take 4 (drop off header))).
Definition header_xid := header_u32 4.
Definition header_yiaddr := header_u32 16.
Definition header_siaddr := header_u32 20.

(** [strncpy] of [n] bytes into a new string. *)
Fixpoint until_nul (l : list Z) : list Z := match l with [] => [] | b :: l => if b =? 0 then [] else b :: until_nul l end.
Definition copy_string (p : ptr) (n : Z) : option (list Z) := bs ← p; Some (until_nul (take (Z.to_nat n) bs)).

(** The lease of an offer or an acknowledgement. *)
Definition dhcp_lease (header : list Z) (dhcp : bbl_dhcp) (ts : timespec) (x : st) : res st :=
  yiaddr ← opt (header_yiaddr header);
  siaddr ← opt (header_siaddr header);
  Ok (up_dhcp (fun d => d {{ d_address := yiaddr ; d_server := siaddr ; d_server_identifier := dhcp_server_identifier dhcp ;
                               d_lease_time := dhcp_lease_time dhcp ; d_lease_timestamp := ts }}) x).

Definition lease_valid (x : st) : bool :=
  let d := s_dhcp (ss x) in
  negb (d_address d =? 0) && negb (d_server_identifier d =? 0) && negb (d_lease_time d =? 0).

(** [0.5 * lease] and [0.875 * lease], at least 1. *)
Definition dhcp_times (t1 t2 : option Z) (x : st) : st :=
  let lease := d_lease_time (s_dhcp (ss x)) in
  up_dhcp (fun d => d {{ d_t1 := at_least_1 (default (lease / 2) t1) ; d_t2 := at_least_1 (default (lease * 7 / 8) t2) }}) x.

(** Both timers started and an ARP request sent. *)
Definition dhcp_bound_actions (x : st) : st :=
  send BBL_SEND_ARP_REQUEST (up (fun s => timer_on timer_dhcp_t2 J_dhcp_s2 (timer_on timer_dhcp_t1 J_dhcp_s1 s)) x).

Definition dhcp_rx_offer (header : list Z) (eth : ethernet) (dhcp : bbl_dhcp) (ts : timespec) (x : st) : res st :=
  src ← opt (eth_src eth);
  x ← dhcp_lease header dhcp ts (up_dhcp (fun d => d {{ d_state := BBL_DHCP_REQUESTING ; d_server_mac := take 6 src }}) x);
  if negb (lease_valid x) then bbl_dhcp_restart x
  else
    Ok (send BBL_SEND_DHCP_REQUEST
      (up (fun s => timer_on timer_dhcp_t2 J_dhcp_s2 s) (up_dhcp (fun d => d {{ d_request_timestamp := mk_ts 0 0 ; d_retry := 0 }}) x))).

Definition dhcp_rx_ack (header : list Z) (dhcp : bbl_dhcp) (ts : timespec) (x : st) : res st :=
  x ← dhcp_lease header dhcp ts x;
  if negb (lease_valid x) then bbl_dhcp_restart x
  else
    let addr := d_address (s_dhcp (ss x)) in
    let x := if addr =? ip_address (s_ip (ss x)) then x else up new_version x in
    let x := up_ip (fun i => i {{ ip_address := addr ; ip_netmask ::= (fun m => if dhcp_option_netmask dhcp then dhcp_netmask dhcp else m) }}) x in
    if negb (dhcp_option_router dhcp && negb (dhcp_router dhcp =? 0)) then bbl_dhcp_restart x
    else
      let x := up_ip (fun i => i {{ peer_ip_address := dhcp_router dhcp ;
                                    dns1 ::= (fun a => if dhcp_option_dns1 dhcp then dhcp_dns1 dhcp else a) ;
                                    dns2 ::= (fun a => if dhcp_option_dns2 dhcp then dhcp_dns2 dhcp else a) }}) x in
      host ← (if dhcp_option_host_name dhcp then h ← opt (copy_string (dhcp_host_name dhcp) (dhcp_host_name_len dhcp)); Ok (Some h)
              else Ok (d_host_name (s_dhcp (ss x))));
      domain ← (if dhcp_option_domain_name dhcp then h ← opt (copy_string (dhcp_domain_name dhcp) (dhcp_domain_name_len dhcp)); Ok (Some h)
                else Ok (d_domain_name (s_dhcp (ss x))));
      let x := up_dhcp (fun d => d {{ d_host_name := host ; d_domain_name := domain }}) x in
      let x := dhcp_times (if dhcp_option_t1 dhcp then Some (dhcp_t1 dhcp) else None)
                          (if dhcp_option_t2 dhcp then Some (dhcp_t2 dhcp) else None) x in
      let x := up (unwant BBL_SEND_DHCP_REQUEST) x in
      let x := if d_established (s_dhcp (ss x)) then x
               else upg (fun g => let n := u32 (g_dhcp_established g + 1) in
                                  g {{ g_dhcp_established := n ; g_dhcp_established_max ::= Z.max n }})
                      (up_dhcp (fun d => d {{ d_established := true }}) x) in
      Ok (dhcp_bound_actions (up_dhcp (fun d => d {{ d_state := BBL_DHCP_BOUND }}) x)).

Definition dhcp_rx_renew (header : list Z) (dhcp : bbl_dhcp) (ts : timespec) (x : st) : res st :=
  x ← dhcp_lease header dhcp ts (up_dhcp (fun d => d {{ d_state := BBL_DHCP_BOUND }}) x);
  if negb (lease_valid x) then bbl_dhcp_restart x
  else Ok (dhcp_bound_actions (dhcp_times None None x)).

(** [ts] is the time of the received packet. *)
Definition bbl_dhcp_rx (eth : ethernet) (dhcp : bbl_dhcp) (ts : timespec) (x : st) : res st :=
  let d := s_dhcp (ss x) in
  if dhcp_rank (d_state d) <=? dhcp_rank BBL_DHCP_INIT then Ok x
  else
    header ← opt (dhcp_header dhcp);
    xid ← opt (header_xid header);
    if negb (xid =? d_xid d) then Ok x
    else
      let type := dhcp_type dhcp in
      let counter := if type =? DHCP_MESSAGE_OFFER then Some "dhcp_rx_offer"
                     else if type =? DHCP_MESSAGE_ACK then Some "dhcp_rx_ack"
                     else if type =? DHCP_MESSAGE_NAK then Some "dhcp_rx_nak" else None in
      match counter with
      | None => Ok x
      | Some k =>
          let x := count k x in
          match d_state d with
          | BBL_DHCP_SELECTING => if type =? DHCP_MESSAGE_OFFER then dhcp_rx_offer header eth dhcp ts x else Ok x
          | BBL_DHCP_REQUESTING =>
              if type =? DHCP_MESSAGE_ACK then dhcp_rx_ack header dhcp ts x
              else if type =? DHCP_MESSAGE_NAK then bbl_dhcp_restart x else Ok x
          | BBL_DHCP_RENEWING =>
              if type =? DHCP_MESSAGE_ACK then dhcp_rx_renew header dhcp ts x
              else if type =? DHCP_MESSAGE_NAK then bbl_dhcp_restart x else Ok x
          | BBL_DHCP_RELEASE =>
              let x := up_dhcp (fun d => d {{ d_state := BBL_DHCP_INIT }}) x in
              if decide (s_state (ss x) = BBL_TERMINATING) then bbl_session_clear x else Ok x
          | _ => Ok x
          end
      end.

(** * Established IPoE sessions *)

Definition first_half_set (a : list Z) : bool := negb (le_combine (take 8 a) =? 0).

(** IPv4 and IPv6 are ready, with their endpoints activated. *)
Definition ipoe_ipv4 (x : st) : bool * st :=
  let s := ss x in
  if ac_ipv4_enable (s_config s) then
    let r := dhcp_rank (d_state (s_dhcp s)) in
    if negb (arp_resolved (s_ip s)) || (0 <? r) && (r <? dhcp_rank BBL_DHCP_BOUND) then (false, x)
    else (true, if ip_address (s_ip s) =? 0 then x
                else up (fun s => s {{ s_endpoint := (s_endpoint s) {{ ep_ipv4 ::= ACTIVATE_ENDPOINT }} }}) x)
  else (true, x).

Definition ipoe_ipv6 (x : st) : bool * st :=
  let s := ss x in
  if ac_ipv6_enable (s_config s) then
    let r := dhcp_rank (d6_state (s_dhcpv6 s)) in
    if negb (icmpv6_ra_received (s_ip s)) || (0 <? r) && (r <? dhcp_rank BBL_DHCP_BOUND) then (false, x)
    else
      let x := if first_half_set (ipv6_address (s_ip s))
               then up (fun s => s {{ s_endpoint := (s_endpoint s) {{ ep_ipv6 ::= ACTIVATE_ENDPOINT }} }}) x else x in
      (true, if first_half_set (delegated_ipv6_address (s_ip s))
             then up (fun s => s {{ s_endpoint := (s_endpoint s) {{ ep_ipv6pd ::= ACTIVATE_ENDPOINT }} }}) x else x)
  else (true, x).

(** [last_session_established] is kept until all sessions were established once. *)
Definition note_established (ts : timespec) (x : st) : st :=
  upg (fun g => if g_sessions_established_max g <? g_sessions g then g {{ g_last_session_established := ts }} else g) x.

(** [igmp_group && igmp_autostart && igmp_start_delay] *)
Definition igmp_starts (cf : config) : bool := negb (cf_igmp_group cf =? 0) && cf_igmp_autostart cf && negb (cf_igmp_start_delay cf =? 0).

Definition bbl_access_rx_established_ipoe (ts : timespec) (x : st) : res st :=
  let (ipv4, x) := ipoe_ipv4 x in
  let (ipv6, x) := ipoe_ipv6 x in
  if ipv4 && ipv6 && negb (bool_decide (s_state (ss x) = BBL_ESTABLISHED)) then
    x ← bbl_session_update_state BBL_ESTABLISHED (note_established ts x);
    Ok (if ac_ipv4_enable (s_config (ss x)) && igmp_starts (g_config (gl x))
          then up (timer_on timer_igmp J_igmp_initial_join) x else x)
  else Ok x.

(** * DHCPv6 *)

Definition bbl_dhcpv6_stop (x : st) : st :=
  if decide (d6_state (s_dhcpv6 (ss x)) = BBL_DHCP_DISABLED) then x
  else
    let x := match s_access_type (ss x) with
             | ACCESS_TYPE_IPOE =>
                 up (fun s => s {{ s_endpoint := (s_endpoint s) {{ ep_ipv6 ::= ENABLE_ENDPOINT }} }})
                   (up_ip (fun i => i {{ ipv6_prefix := (0, snd (ipv6_prefix i)) ; ipv6_address := zero16 }}) x)
             | ACCESS_TYPE_PPPOE => x
             end in
    let x := up_ip (fun i => i {{ delegated_ipv6_prefix := (0, snd (delegated_ipv6_prefix i)) ; delegated_ipv6_address := zero16 }}) x in
    let x := up (fun s => timer_off timer_dhcpv6_t2 (timer_off timer_dhcpv6_t1 (timer_off timer_dhcpv6
                   (new_version (s {{ s_endpoint := (s_endpoint s) {{ ep_ipv6pd ::= ENABLE_ENDPOINT }} }}))))) x in
    let d := s_dhcpv6 (ss x) in
    let x := upg (fun g => g {{ g_dhcpv6_established ::= dec_if (d6_established d) ; g_dhcpv6_requested ::= dec_if (d6_requested d) }}) x in
    up_dhcpv6 (fun d => d {{ d6_state := BBL_DHCP_INIT ; d6_ia_na_option_len := 0 ; d6_ia_pd_option_len := 0 ; d6_t1 := 0 ; d6_t2 := 0 ;
                             d6_dns1 := zero16 ; d6_dns2 := zero16 ; d6_server_duid := replicate (Z.to_nat DHCPV6_BUFFER) 0 ;
                             d6_server_duid_len := 0 ; d6_lease_time := 0 ; d6_lease_timestamp := mk_ts 0 0 ;
                             d6_request_timestamp := mk_ts 0 0 ; d6_established := false ; d6_requested := false }}) x.

(** The next identity association identifier. *)
Definition next_iaid (x : st) : Z * st :=
  (g_dhcpv6_iaid (gl x), upg (fun g => g {{ g_dhcpv6_iaid ::= (fun n => u32 (n + 1)) }}) x).

Definition bbl_dhcpv6_start (x : st) : res st :=
  let x := upg (fun g => g {{ g_dhcpv6_iaid ::= (fun n => if 2 ^ 32 - 1 - 10 <? n then 1 else n) }}) x in
  if d6_requested (s_dhcpv6 (ss x)) then Ok x
  else
    let cf := g_config (gl x) in
    let x := upg (fun g => g {{ g_dhcpv6_requested ::= (fun n => u32 (n + 1)) }}) (up_dhcpv6 (fun d => d {{ d6_requested := true }}) x) in
    let (xid, x) := rand x in
    let x := up_dhcpv6 (fun d => d {{ d6_state := BBL_DHCP_SELECTING ; d6_xid := Z.land xid 0xffffff }}) x in
    let x := if cf_dhcpv6_ia_na cf && bool_decide (s_access_type (ss x) = ACCESS_TYPE_IPOE)
             then let (iaid, x) := next_iaid x in up_dhcpv6 (fun d => d {{ d6_ia_na_iaid := iaid }}) x else x in
    let x := if cf_dhcpv6_ia_pd cf then let (iaid, x) := next_iaid x in up_dhcpv6 (fun d => d {{ d6_ia_pd_iaid := iaid }}) x else x in
    setup_ipoe (up (want BBL_SEND_DHCPV6_REQUEST) (up_dhcpv6 (fun d => d {{ d6_retry := 0 }}) x)).

Definition bbl_dhcpv6_restart (x : st) : res st :=
  x ← bbl_dhcpv6_start (bbl_dhcpv6_stop x); Ok (bbl_session_tx_qnode_insert x).

Definition bbl_dhcpv6_s1_job (x : st) : res st :=
  if decide (d6_state (s_dhcpv6 (ss x)) = BBL_DHCP_BOUND)
  then Ok (bbl_session_tx_qnode_insert (dhcpv6_new_request BBL_DHCP_RENEWING x)) else Ok x.
Definition bbl_dhcpv6_s2_job (x : st) : res st := bbl_dhcpv6_restart x.

(** [ia_pd_prefix && ia_pd_prefix->len]: the length and the address of a prefix. *)
Definition pd_prefix (p : ptr) : option (option (Z * list Z)) :=
  match p with
  | None => Some None
  | Some (len :: address) => if len =? 0 then Some None else if (length address <? 16)%nat then None else Some (Some (len, take 16 address))
  | Some [] => None
  end.

Definition keep_option (present : bool) (p : ptr) (len : Z) (buffer : list Z) (old_len : Z) : option (list Z * Z) :=
  if present && negb (len =? 0) && (len <? DHCPV6_BUFFER) then buffer ← copy_into buffer p len; Some (buffer, len) else Some (buffer, old_len).

Definition is_present (p : ptr) : bool := match p with Some _ => true | None => false end.

Definition dhcpv6_keep_options (d6 : dhcpv6_t) (d : dhcpv6_part) : option dhcpv6_part :=
  pd ← pd_prefix (dhcpv6_ia_pd_prefix d6);
  '(duid, duid_len) ← keep_option true (dhcpv6_server_duid d6) (dhcpv6_server_duid_len d6) (d6_server_duid d) (d6_server_duid_len d);
  '(na, na_len) ← keep_option (is_present (dhcpv6_ia_na_address d6)) (dhcpv6_ia_na_option d6) (dhcpv6_ia_na_option_len d6)
                    (d6_ia_na_option d) (d6_ia_na_option_len d);
  '(pdo, pdo_len) ← keep_option (bool_decide (pd <> None)) (dhcpv6_ia_pd_option d6) (dhcpv6_ia_pd_option_len d6)
                      (d6_ia_pd_option d) (d6_ia_pd_option_len d);
  Some (d {{ d6_server_duid := duid ; d6_server_duid_len := duid_len ; d6_ia_na_option := na ; d6_ia_na_option_len := na_len ;
             d6_ia_pd_option := pdo ; d6_ia_pd_option_len := pdo_len }}).

Definition bbl_dhcpv6_validate_ia (d6 : dhcpv6_t) (d : dhcpv6_part) : option bool :=
  pd ← pd_prefix (dhcpv6_ia_pd_prefix d6);
  Some (negb (negb (dhcpv6_ia_na_status_code d6 =? 0)
              || negb (d6_ia_na_iaid d =? 0) && negb (is_present (dhcpv6_ia_na_address d6))
              || negb (dhcpv6_ia_pd_status_code d6 =? 0)
              || negb (d6_ia_pd_iaid d =? 0) && bool_decide (pd = None))).

Definition nonzero_or (v old : Z) : Z := if v =? 0 then old else v.

(** The address of the lease, ... *)
Definition dhcpv6_take_address (d6 : dhcpv6_t) (x : st) : res st :=
  match s_access_type (ss x), dhcpv6_ia_na_address d6 with
  | ACCESS_TYPE_IPOE, Some a =>
      if (length a <? 16)%nat then Fault
      else
        let x := up_dhcpv6 (fun d => d {{ d6_lease_time ::= nonzero_or (dhcpv6_ia_na_valid_lifetime d6) ;
                                          d6_t1 ::= nonzero_or (dhcpv6_ia_na_t1 d6) ; d6_t2 ::= nonzero_or (dhcpv6_ia_na_t2 d6) }}) x in
        Ok (up new_version (up_ip (fun i => i {{ ipv6_address := take 16 a ; ipv6_prefix := (128, take 16 a) }}) x))
  | _, _ => Ok x
  end.

(** ... the delegated prefix, whose address is the first of it, ... *)
Definition dhcpv6_take_prefix (d6 : dhcpv6_t) (x : st) : res st :=
  pd ← opt (pd_prefix (dhcpv6_ia_pd_prefix d6));
  match pd with
  | Some (len, a) =>
      let x := up_dhcpv6 (fun d => d {{ d6_lease_time ::= nonzero_or (dhcpv6_ia_pd_valid_lifetime d6) ;
                                        d6_t1 ::= nonzero_or (dhcpv6_ia_pd_t1 d6) ; d6_t2 ::= nonzero_or (dhcpv6_ia_pd_t2 d6) }}) x in
      let x := up_ip (fun i => i {{ delegated_ipv6_prefix := (len, a) ;
                                    delegated_ipv6_address := take 8 a ++ take 7 (drop 8 (delegated_ipv6_address i)) ++ [1] }}) x in
      let x := match s_access_type (ss x) with
               | ACCESS_TYPE_PPPOE => up (fun s => s {{ s_endpoint := (s_endpoint s) {{ ep_ipv6pd ::= ACTIVATE_ENDPOINT }} }}) x
               | ACCESS_TYPE_IPOE => x
               end in
      Ok (up new_version x)
  | None => Ok x
  end.

(** ... and the name servers. *)
Definition dhcpv6_take_dns (d6 : dhcpv6_t) (d : dhcpv6_part) : dhcpv6_part :=
  match dhcpv6_dns1 d6, dhcpv6_dns2 d6 with
  | None, _ => d
  | Some a, None => d {{ d6_dns1 := take 16 a }}
  | Some a, Some b => d {{ d6_dns1 := take 16 a ; d6_dns2 := take 16 b }}
  end.

Definition dhcpv6_establish (d6 : dhcpv6_t) (x : st) : res st :=
  if d6_established (s_dhcpv6 (ss x)) then Ok x
  else
    let x := up_dhcpv6 (fun d => (dhcpv6_take_dns d6 d) {{ d6_established := true }}) x in
    let x := upg (fun g => let n := u32 (g_dhcpv6_established g + 1) in
                           g {{ g_dhcpv6_established := n ; g_dhcpv6_established_max ::= Z.max n }}) x in
    x ← dhcpv6_take_address d6 x;
    dhcpv6_take_prefix d6 x.

Definition dhcpv6_rx_reply (d6 : dhcpv6_t) (ts : timespec) (x : st) : res st :=
  if decide (d6_state (s_dhcpv6 (ss x)) = BBL_DHCP_RELEASE) then
    let x := up_dhcpv6 (fun d => d {{ d6_state := BBL_DHCP_INIT }}) x in
    if decide (s_state (ss x) = BBL_TERMINATING) then bbl_session_clear x else Ok x
  else
    valid ← opt (bbl_dhcpv6_validate_ia d6 (s_dhcpv6 (ss x)));
    if negb valid then Ok x
    else
      x ← dhcpv6_establish d6 x;
      let x := up_dhcpv6 (fun d => d {{ d6_lease_timestamp := ts ; d6_state := BBL_DHCP_BOUND }}) (up (unwant BBL_SEND_DHCPV6_REQUEST) x) in
      let d := s_dhcpv6 (ss x) in
      let x := if d6_t1 d =? 0 then x else up (timer_on timer_dhcpv6_t1 J_dhcpv6_s1) x in
      let x := if d6_t2 d =? 0 then x else up (timer_on timer_dhcpv6_t2 J_dhcpv6_s2) x in
      match s_access_type (ss x) with
      | ACCESS_TYPE_IPOE => x ← bbl_access_rx_established_ipoe ts x; Ok (send BBL_SEND_ICMPV6_RS x)
      | ACCESS_TYPE_PPPOE => Ok x
      end.

Definition dhcpv6_rx_advertise (d6 : dhcpv6_t) (x : st) : res st :=
  valid ← opt (bbl_dhcpv6_validate_ia d6 (s_dhcpv6 (ss x)));
  if negb valid then Ok x
  else Ok (send BBL_SEND_DHCPV6_REQUEST (up_dhcpv6 (fun d => d {{ d6_state := BBL_DHCP_REQUESTING ; d6_retry := 0 }}) x)).

Definition bbl_dhcpv6_rx (d6 : dhcpv6_t) (ts : timespec) (x : st) : res st :=
  let d := s_dhcpv6 (ss x) in
  if dhcp_rank (d6_state d) <=? dhcp_rank BBL_DHCP_INIT then Ok x
  else
    match (if dhcpv6_type d6 =? DHCPV6_MESSAGE_RELAY_REPL then dhcpv6_relay_message d6 else h_dhcpv6 d6) with
    | h_null => Ok x
    | h_dhcpv6 d6 =>
        if negb (dhcpv6_xid d6 =? d6_xid d) then Ok x
        else
          d ← opt (dhcpv6_keep_options d6 d);
          let x := up_dhcpv6 (fun _ => d) x in
          if dhcpv6_type d6 =? DHCPV6_MESSAGE_REPLY then dhcpv6_rx_reply d6 ts (count "dhcpv6_rx_reply" x)
          else if dhcpv6_type d6 =? DHCPV6_MESSAGE_ADVERTISE then dhcpv6_rx_advertise d6 (count "dhcpv6_rx_advertise" x)
          else Ok x
    | _ => Fault
    end.
