(* ===== verification/SessionIgmp.v ===== *)
(** IGMP in sessions: received queries (bbl_igmp.c), multicast traffic, the initial
    join and zapping (bbl_access.c), and the reports sent (bbl_tx.c).

    A result other than [Ok] is a read of an uninitialised pointer. *)
From coqutil Require Import Datatypes.RecordSetters.
From S2P Require Import Prelude.
From S2P Require Import Const.
From S2P Require Import ConstApp.
From S2P Require Import ConstStream.
From S2P Require Import Utils.
From S2P Require Import ProtoTypes.
From S2P Require Import Timer.
From S2P Require Import Stream.
From S2P Require Import Session.
Import RecordSetters.DoubleBraceUpdate.
From stdpp Require Import gmap list strings.
Import Ipv4.
Open Scope Z_scope.

Definition up_igmp (f : igmp_part -> igmp_part) (x : st) : st := up (fun s => s {{ s_igmp ::= f }}) x.
Definition up_group (i : Datatypes.nat) (f : igmp_entry -> igmp_entry) (x : st) : st := up_igmp (fun m => m {{ m_groups ::= alter f i }}) x.
Definition groups (x : st) : list igmp_entry := m_groups (s_igmp (ss x)).
Definition group_at (x : st) (i : Datatypes.nat) : option igmp_entry := groups x !! i.

(** [counter += n] and [counter = n] of the session, [counter += n] of the interface. *)
Definition stat (k : string) (x : st) : Z := default 0 (s_stats (ss x) !! k).
Definition set_stat (k : string) (n : Z) (x : st) : st := up (fun s => s {{ s_stats ::= insert k (u32 n) }}) x.
Definition add_if (k : string) (n : Z) (x : st) : st := upg (fun g => g {{ g_stats := <[k := u64 (default 0 (g_stats g !! k) + n)]> (g_stats g) }}) x.

(** The session is established, with IPv4 open for PPPoE. *)
Definition igmp_usable (s : sess) : bool :=
  bool_decide (s_state s = BBL_ESTABLISHED)
  && match s_access_type s with ACCESS_TYPE_PPPOE => bool_decide (p_state (s_ipcp s) = BBL_PPP_OPENED) | ACCESS_TYPE_IPOE => true end.

(** * Receiving *)

Definition igmp_asked (igmp : bbl_igmp) (g : igmp_entry) : bool :=
  ((igmp_group igmp =? 0) || (ig_group g =? igmp_group igmp)) && (ig_state g =? IGMP_GROUP_ACTIVE).

Definition bbl_igmp_rx (igmp : bbl_igmp) (x : st) : st :=
  if negb (igmp_type igmp =? IGMP_TYPE_QUERY) then x
  else
    let x := up_igmp (fun m => m {{ m_robustness ::= (fun r => if igmp_robustness igmp =? 0 then r else igmp_robustness igmp) }}) x in
    let answer := existsb (igmp_asked igmp) (groups x) in
    let x := up_igmp (fun m => m {{ m_groups ::= map (fun g => if igmp_asked igmp g then g {{ ig_send := true }} else g) }}) x in
    if answer then send BBL_SEND_IGMP x else x.

(** The loss of a multicast packet after the last one. *)
Definition mc_account (bbl : bbl_bbl) (i : Datatypes.nat) (x : st) : st :=
  let last := m_rx_last_seq (s_igmp (ss x)) in
  let x := if u64 (last + 1) <? bbl_flow_seq bbl then
             let loss := bbl_flow_seq bbl - u64 (last + 1) in
             up_group i (fun g => g {{ ig_loss ::= (fun l => u64 (l + loss)) }})
               (set_stat "mc_loss" (stat "mc_loss" x + loss) (add_if "mc_loss" loss x))
           else x in
  up_igmp (fun m => m {{ m_rx_last_seq := bbl_flow_seq bbl }}) x.

Definition mc_group (dst : Z) (bbl : option bbl_bbl) (ts : timespec) (x : st) (i : Datatypes.nat) : st :=
  match group_at x i with
  | Some g =>
      if negb (dst =? ig_group g) then x
      else
        let x := up_group i (fun g => g {{ ig_packets ::= (fun n => u64 (n + 1)) ; ig_last_mc_rx_time := ts }}) x in
        if IGMP_GROUP_ACTIVE <=? ig_state g then
          if tv_sec (ig_first_mc_rx_time g) =? 0 then
            let x := up_group i (fun g => g {{ ig_first_mc_rx_time := ts }}) x in
            match bbl with Some b => up_igmp (fun m => m {{ m_rx_last_seq := bbl_flow_seq b }}) x | None => x end
          else match bbl with Some b => mc_account b i x | None => x end
        else
          match m_joined_group (s_igmp (ss x)) with
          | Some j =>
              if bool_decide (m_leaved_group (s_igmp (ss x)) = Some i)
                 && match group_at x j with Some j => negb (tv_sec (ig_first_mc_rx_time j) =? 0) | None => false end
              then count "mc_old_rx_after_first_new" x else x
          | None => x
          end
  | None => x
  end.

Definition bbl_access_rx_ipv4_mc (eth : ethernet) (ipv4 : ipv4_t) (ts : timespec) (x : st) : res st :=
  bbl ← opt match eth_bbl eth with p_null => Some None | p_to b => Some (Some b) | p_uninit => None end;
  Ok (foldl (mc_group (ipv4_dst ipv4) bbl ts) x (seq 0 (length (groups x)))).

(** * Joining and zapping *)

Definition igmp_entry0 : igmp_entry :=
  mk_igmp_entry 0 0 false false false 0 [0; 0; 0] 0 0 (mk_ts 0 0) (mk_ts 0 0) (mk_ts 0 0) (mk_ts 0 0).

Definition bbl_access_igmp_initial_join (x : st) : st :=
  if negb (igmp_usable (ss x)) then x
  else
    let cf := g_config (gl x) in
    let (start, x) := if 1 <? cf_igmp_group_count cf then let (r, x) := rand x in (r mod cf_igmp_group_count cf, x) else (0, x) in
    let group := bswap32 (u32 (bswap32 (cf_igmp_group cf) + start * bswap32 (cf_igmp_group_iter cf))) in
    let x := up_group 0 (fun _ => igmp_entry0 {{ ig_group := group ; ig_source := [cf_igmp_source cf; 0; 0] ;
                                                 ig_robustness_count := m_robustness (s_igmp (ss x)) ;
                                                 ig_state := IGMP_GROUP_JOINING ; ig_send := true }}) x in
    let x := send BBL_SEND_IGMP (up_igmp (fun m => m {{ m_count := 1 }}) x) in
    if (1 <? cf_igmp_group_count cf) && (0 <? cf_igmp_zap_interval cf) then
      let x := up_group 0 (fun g => g {{ ig_zapping := true }}) x in
      let x := up_group 1 (fun _ => igmp_entry0 {{ ig_zapping := true ; ig_source := [cf_igmp_source cf; 0; 0] }}) x in
      let x := up_igmp (fun m => m {{ m_joined_group := Some 0%nat ; m_leaved_group := Some 1%nat }}) x in
      let x := if negb (cf_igmp_zap_count cf =? 0) && negb (cf_igmp_zap_view_duration cf =? 0)
               then let (r, x) := rand x in up_igmp (fun m => m {{ m_count := u8 (r mod cf_igmp_zap_count cf) }}) x else x in
      up (timer_on timer_zapping J_igmp_zapping) x
    else x.

(** The milliseconds between two times, rounded up and at least one. *)
Definition delay_ms (later earlier : timespec) : Z :=
  let d := timespec_sub later earlier in
  let ms := tv_nsec d / 1000000 + (if tv_nsec d mod 1000000 =? 0 then 0 else 1) in
  at_least_1 (u32 (tv_sec d * 1000 + ms)).

(** The counters of delays. *)
Definition add_delay (min max avg : string) (delay sum n : Z) (x : st) : st :=
  let x := if stat max x <? delay then set_stat max delay x else x in
  let x := if (stat min x =? 0) || (delay <? stat min x) then set_stat min delay x else x in
  set_stat avg (sum / n) x.

Definition violation (delay : Z) : option string :=
  if 2000 <? delay then Some "join_delay_violations_2s" else if 1000 <? delay then Some "join_delay_violations_1s"
  else if 500 <? delay then Some "join_delay_violations_500ms" else if 250 <? delay then Some "join_delay_violations_250ms"
  else if 125 <? delay then Some "join_delay_violations_125ms" else None.

(** The join delay of the group that was joined last. *)
Definition zapping_joined (j : Datatypes.nat) (g : igmp_entry) (x : st) : st :=
  if ig_zapping_result g then x
  else
    let delay := delay_ms (ig_first_mc_rx_time g) (ig_join_tx_time g) in
    let x := up_group j (fun g => g {{ ig_zapping_result := true }}) x in
    let x := up_igmp (fun m => m {{ m_join_delay_sum ::= (fun n => u64 (n + delay)) ; m_join_count ::= (fun n => u32 (n + 1)) }}) x in
    let m := s_igmp (ss x) in
    let x := add_delay "min_join_delay" "max_join_delay" "avg_join_delay" delay (m_join_delay_sum m) (m_join_count m) x in
    let limit := cf_igmp_max_join_delay (g_config (gl x)) in
    let x := if negb (limit =? 0) && (limit <? delay) then count "join_delay_violations" x else x in
    match violation delay with Some k => count k x | None => x end.

(** The leave delay of the group that was left last. *)
Definition zapping_left (g : igmp_entry) (x : st) : st :=
  if negb (ig_group g =? 0) && negb (tv_sec (ig_last_mc_rx_time g) =? 0) && negb (tv_sec (ig_leave_tx_time g) =? 0) then
    let delay := delay_ms (ig_last_mc_rx_time g) (ig_leave_tx_time g) in
    let x := up_igmp (fun m => m {{ m_leave_delay_sum ::= (fun n => u64 (n + delay)) ; m_leave_count ::= (fun n => u32 (n + 1)) }}) x in
    let m := s_igmp (ss x) in
    add_delay "min_leave_delay" "max_leave_delay" "avg_leave_delay" delay (m_leave_delay_sum m) (m_leave_count m) x
  else x.

(** The next group is joined in the slot of the one that was left, and the slots
    swap; without zapping the last group is only left. *)
Definition zapping_switch (j l : Datatypes.nat) (next : Z) (x : st) : st :=
  let r := m_robustness (s_igmp (ss x)) in
  if g_zapping (gl x) then
    let x := up_group l (fun g => g {{ ig_group := next ; ig_state := IGMP_GROUP_JOINING ; ig_robustness_count := r ; ig_send := true ;
                                       ig_packets := 0 ; ig_loss := 0 ; ig_join_tx_time := mk_ts 0 0 ; ig_first_mc_rx_time := mk_ts 0 0 ;
                                       ig_leave_tx_time := mk_ts 0 0 ; ig_last_mc_rx_time := mk_ts 0 0 ; ig_zapping_result := false }}) x in
    up_igmp (fun m => m {{ m_leaved_group := Some j ; m_joined_group := Some l }}) x
  else
    up_group l (fun g => g {{ ig_last_mc_rx_time := mk_ts 0 (tv_nsec (ig_last_mc_rx_time g)) ;
                              ig_leave_tx_time := mk_ts 0 (tv_nsec (ig_leave_tx_time g)) }}) x.

(** The viewing profile: a pause after [igmp_zap_count] groups. *)
Definition zapping_counted (x : st) : st :=
  let cf := g_config (gl x) in
  let x := up_igmp (fun m => m {{ m_count ::= (fun n => u8 (n + 1)) }}) x in
  if negb (cf_igmp_zap_count cf =? 0) && negb (cf_igmp_zap_view_duration cf =? 0) && (cf_igmp_zap_count cf <=? m_count (s_igmp (ss x)))
  then up_igmp (fun m => m {{ m_view_start_time := g_now (gl x) }}) x else x.

(** What a zapping interval does once the view is over. *)
Definition zapping_zap (j l : Datatypes.nat) (x : st) : st :=
  match group_at x j with
  | None => x
  | Some g =>
      let cf := g_config (gl x) in
      let next := u32 (bswap32 (ig_group g) + bswap32 (cf_igmp_group_iter cf)) in
      let next := if m_group_max (s_igmp (ss x)) <? next then cf_igmp_group cf else bswap32 next in
      let x := up_group j (fun g => g {{ ig_state := IGMP_GROUP_LEAVING ; ig_robustness_count := m_robustness (s_igmp (ss x)) ; ig_send := true ;
                                         ig_leave_tx_time := mk_ts 0 0 ; ig_last_mc_rx_time := mk_ts 0 0 }}) x in
      match group_at x l with
      | None => x
      | Some g => zapping_counted (send BBL_SEND_IGMP (zapping_switch j l next (zapping_left g x)))
      end
  end.

Definition bbl_access_igmp_zapping (x : st) : st :=
  let m := s_igmp (ss x) in
  let cf := g_config (gl x) in
  match igmp_usable (ss x), m_joined_group m, m_leaved_group m with
  | true, Some j, Some l =>
      let viewing := negb (tv_sec (m_view_start_time m) =? 0) in
      if viewing && (tv_sec (timespec_sub (g_now (gl x)) (m_view_start_time m)) <? cf_igmp_zap_view_duration cf) then x
      else
        let x := if viewing then up_igmp (fun m => m {{ m_view_start_time := mk_ts 0 (tv_nsec (m_view_start_time m)) ; m_count := 0 }}) x else x in
        match group_at x j with
        | None => x
        | Some g =>
            let received := negb (tv_sec (ig_first_mc_rx_time g) =? 0) in
            if negb received && cf_igmp_zap_wait cf then x
            else
              let x := if received then zapping_joined j g x
                       else count "mc_not_received" (up_group j (fun g => g {{ ig_zapping_result := true }}) x) in
              if negb (g_zapping (gl x)) && (ig_state g <? IGMP_GROUP_ACTIVE) then x else zapping_zap j l x
        end
  | _, _, _ => x
  end.

(** * Sending *)

Definition is_pending (g : igmp_entry) : bool := (ig_state g =? IGMP_GROUP_JOINING) || (ig_state g =? IGMP_GROUP_LEAVING).

(** A group waiting for its report to be repeated. *)
Definition igmp_repeat (g : igmp_entry) : igmp_entry :=
  if negb (is_pending g) then g
  else if negb (ig_robustness_count g =? 0) then g {{ ig_send := true }}
  else g {{ ig_state := (if ig_state g =? IGMP_GROUP_JOINING then IGMP_GROUP_ACTIVE else IGMP_GROUP_IDLE) }}.

Definition bbl_tx_igmp_timeout (x : st) : st :=
  if negb (igmp_usable (ss x)) then x
  else
    let again := existsb (fun g => is_pending g && negb (ig_robustness_count g =? 0)) (groups x) in
    let x := up_igmp (fun m => m {{ m_groups ::= map igmp_repeat }}) x in
    if again then send BBL_SEND_IGMP x else x.

(** [if(!time.tv_sec) time = now] *)
Definition stamp (now t : timespec) : timespec := if tv_sec t =? 0 then now else t.
Definition stamp_group (now : timespec) (g : igmp_entry) : igmp_entry :=
  if ig_state g =? IGMP_GROUP_LEAVING then g {{ ig_leave_tx_time ::= stamp now }} else g {{ ig_join_tx_time ::= stamp now }}.

(** The state of a group after its report, when it need not be repeated. *)
Definition igmp_sent (g : igmp_entry) : igmp_entry :=
  if negb (ig_robustness_count g =? 0) then g
  else if ig_state g =? IGMP_GROUP_JOINING then g {{ ig_state := IGMP_GROUP_ACTIVE }}
  else if ig_state g =? IGMP_GROUP_LEAVING then g {{ ig_state := IGMP_GROUP_IDLE }} else g.

Definition group_record (g : igmp_entry) : bbl_igmp_group_record :=
  let sources := filter (.≠ 0) (ig_source g) in
  let type := if bool_decide (sources = [])
              then (if ig_state g =? IGMP_GROUP_LEAVING then IGMP_CHANGE_TO_INCLUDE else IGMP_EXCLUDE)
              else (if ig_state g =? IGMP_GROUP_LEAVING then IGMP_BLOCK_OLD_SOURCES
                    else if ig_state g =? IGMP_GROUP_ACTIVE then IGMP_INCLUDE else IGMP_ALLOW_NEW_SOURCES) in
  mk_igmp_group_record type (ig_group g) (Z.of_nat (length sources)) sources.

(** What a packet function gives: an error, or the headers it encodes. *)
Inductive tx := tx_error (e : protocol_error) | tx_packet (eth : ethernet).

(** The Ethernet header of a session's packets. *)
Definition session_eth (s : sess) : ethernet :=
  let '(_, outer, inner) := s_vlan_key s in
  eth0 {{ eth_dst := Some (s_server_mac s) ; eth_src := Some (s_client_mac s) ; eth_qinq := ac_qinq (s_config s) ;
          eth_vlan_outer := outer ; eth_vlan_inner := inner ; eth_vlan_three := s_third_vlan s }}.

Definition with_priority (p : Z) (eth : ethernet) : ethernet := eth {{ eth_vlan_outer_priority := p ; eth_vlan_inner_priority := p }}.

(** A PPP packet of the session. *)
Definition session_ppp (x : st) (protocol : Z) (h : hdr) : ethernet :=
  (with_priority (cf_pppoe_vlan_priority (g_config (gl x))) (session_eth (ss x)))
    {{ eth_type := ETH_TYPE_PPPOE_SESSION ; eth_next := h_pppoe_session (mk_pppoe_session (pppoe_session_id (s_pppoe (ss x))) protocol 0 false h) }}.

(** The report under construction. *)
Record report := mk_report {
  r_join : bool;
  r_leave : bool;
  r_any : bool;
  r_igmp : bbl_igmp;
  r_dst : Z;
  r_mac : list Z
}.

Inductive next_round := Go | Stop | Wrong.

(** A report of version 3 has a record for each group. *)
Definition report_v3 (now : timespec) (i : Datatypes.nat) (g : igmp_entry) (r : report) (x : st) : report * st :=
  let recs := igmp_group_record (r_igmp r) ++ [group_record g] in
  (r {{ r_igmp := (r_igmp r) {{ igmp_version := IGMP_VERSION_3 ; igmp_type := IGMP_TYPE_REPORT_V3 ;
                                igmp_group_records := Z.of_nat (length recs) ; igmp_group_record := recs }} }},
   up_group i (fun g => igmp_sent (stamp_group now g)) x).

(** Older versions report one group. *)
Definition report_old (now : timespec) (i : Datatypes.nat) (g : igmp_entry) (r : report) (x : st) : next_round * report * st :=
  let leaving := ig_state g =? IGMP_GROUP_LEAVING in
  let r := r {{ r_dst := ig_group g ; r_igmp := (r_igmp r) {{ igmp_group := ig_group g }} }} in
  let r := match s_access_type (ss x) with ACCESS_TYPE_PPPOE => r | ACCESS_TYPE_IPOE => r {{ r_mac := Addr.ipv4_multicast_mac (ig_group g) }} end in
  if m_version (s_igmp (ss x)) =? IGMP_VERSION_2 then
    (Stop, r {{ r_igmp := (r_igmp r) {{ igmp_version := IGMP_VERSION_2 ; igmp_type := if leaving then IGMP_TYPE_LEAVE else IGMP_TYPE_REPORT_V2 }} }},
     up_group i (stamp_group now) x)
  else if leaving then (Wrong, r, up_group i (fun g => g {{ ig_state := IGMP_GROUP_IDLE }}) x)
  else (Stop, r {{ r_igmp := (r_igmp r) {{ igmp_version := IGMP_VERSION_1 ; igmp_type := IGMP_TYPE_REPORT_V1 }} }}, up_group i (stamp_group now) x).

Definition report_round (now : timespec) (i : Datatypes.nat) (r : report) (x : st) : next_round * report * st :=
  match group_at x i with
  | Some g =>
      if negb (ig_send g) || (ig_state g =? 0) then (Go, r, x)
      else
        let r := r {{ r_any := true }} in
        let leaving := ig_state g =? IGMP_GROUP_LEAVING in
        if (if leaving then r_join r else r_leave r) && negb (cf_igmp_combined_leave_join (g_config (gl x))) then (Go, r, x)
        else
          let r := if leaving then (if r_join r then r else r {{ r_leave := true }}) else (if r_leave r then r else r {{ r_join := true }}) in
          let x := up_group i (fun g => g {{ ig_send := false ; ig_robustness_count ::= (fun n => if n =? 0 then n else n - 1) }}) x in
          if m_version (s_igmp (ss x)) =? IGMP_VERSION_3 then let (r, x) := report_v3 now i g r x in (Go, r, x)
          else report_old now i g r x
  | None => (Go, r, x)
  end.

Fixpoint report_rounds (now : timespec) (l : list Datatypes.nat) (r : report) (x : st) : next_round * report * st :=
  match l with
  | [] => (Go, r, x)
  | i :: l => match report_round now i r x with
               | (Go, r, x) => report_rounds now l r x
               | out => out
               end
  end.

Definition ipv4_new (src dst ttl protocol : Z) (h : hdr) : ipv4_t := mk_ipv4 src dst 0 ttl protocol false 0 0 0 [] h None 0.

Definition bbl_tx_encode_packet_igmp (x : st) : tx * st :=
  if negb (igmp_usable (ss x)) then (tx_error WRONG_PROTOCOL_STATE, up (unwant BBL_SEND_IGMP) x)
  else
    let mac := match s_access_type (ss x) with ACCESS_TYPE_PPPOE => s_server_mac (ss x) | ACCESS_TYPE_IPOE => Addr.ipv4_multicast_mac IPV4_MC_IGMP end in
    match report_rounds (g_now (gl x)) (seq 0 (length (groups x))) (mk_report false false false igmp0 IPV4_MC_IGMP mac) x with
    | (Wrong, _, x) => (tx_error WRONG_PROTOCOL_STATE, x)
    | (_, r, x) =>
        if negb (r_any r) then (tx_error IGNORED, up (unwant BBL_SEND_IGMP) x)
        else
          let x := count_if "igmp_tx" (count "igmp_tx" (up (timer_on timer_igmp J_igmp_timeout) x)) in
          let ipv4 := ipv4_new (ip_address (s_ip (ss x))) (r_dst r) 1 PROTOCOL_IPV4_IGMP (h_igmp (r_igmp r)) in
          let ipv4 := ipv4 {{ ipv4_router_alert_option := true }} in
          (tx_packet match s_access_type (ss x) with
                     | ACCESS_TYPE_PPPOE => session_ppp x PROTOCOL_IPV4 (h_ipv4 ipv4)
                     | ACCESS_TYPE_IPOE => (session_eth (ss x)) {{ eth_dst := Some (r_mac r) ; eth_type := ETH_TYPE_IPV4 ; eth_next := h_ipv4 ipv4 }}
                     end, x)
    end.
