(* ===== verification/SessionAccess.v ===== *)
(** Packets received on access interfaces (bbl_access.c): the PPP protocols, PPPoE
    discovery, ARP, ICMP, ICMPv6 and the hand-over of other packets.

    [ts] is the time a packet was received; a result other than [Ok] is a failed assertion or an access
    outside of a buffer. *)
From coqutil Require Import Datatypes.RecordSetters.
From S2P Require Import Prelude.
From S2P Require Import Const.
From S2P Require Import ConstApp.
From S2P Require Import ConstStream.
From S2P Require Import Utils.
From S2P Require Import ProtoTypes.
From S2P Require Import Timer.
From S2P Require Import Stream.
From S2P Require Import Session.
From S2P Require Import SessionDhcp.
From S2P Require Import SessionIgmp.
Import RecordSetters.DoubleBraceUpdate.
From stdpp Require Import gmap list strings.
Open Scope Z_scope.

Definition up_lcp (f : ppp -> ppp) (x : st) : st := up (fun s => s {{ s_lcp ::= f }}) x.
Definition up_ipcp (f : ppp -> ppp) (x : st) : st := up (fun s => s {{ s_ipcp ::= f }}) x.
Definition up_ip6cp (f : ppp -> ppp) (x : st) : st := up (fun s => s {{ s_ip6cp ::= f }}) x.
Definition up_ppp (f : lcp_part -> lcp_part) (x : st) : st := up (fun s => s {{ s_ppp ::= f }}) x.

(** The answer to a request of the peer. *)
Definition answer (code id : Z) (p : ppp) : ppp := p {{ p_peer_identifier := id ; p_response_code := code }}.
Definition lcp_respond (code id : Z) (x : st) : st := send BBL_SEND_LCP_RESPONSE (up_lcp (answer code id) x).

(** [memcpy(session->options, options, len)] when they fit. *)
Definition keep_options (options : ptr) (len : Z) (p : ppp) : option ppp :=
  if len <=? PPP_OPTIONS_BUFFER then
    b ← copy_into (p_options p) options len; Some (p {{ p_options := b ; p_options_len := len }})
  else Some p.
Definition set_options (bs : list Z) (len : Z) (p : ppp) : option ppp :=
  b ← copy_into (p_options p) (Some bs) (Z.of_nat (length bs)); Some (p {{ p_options := b ; p_options_len := len }}).
Definition up_lcp_opt (f : ppp -> option ppp) (x : st) : res st := p ← opt (f (s_lcp (ss x))); Ok (up_lcp (fun _ => p) x).

(** Opening and closing the network protocols on request (bbl_session.c). *)
Definition ncp_allowed (s : sess) : bool := bool_decide (s_state s = BBL_ESTABLISHED) || bool_decide (s_state s = BBL_PPP_NETWORK).

Definition bbl_session_ncp_open (ipcp : bool) (x : st) : st :=
  if negb (ncp_allowed (ss x)) then x
  else if ipcp then
    if decide (p_state (s_ipcp (ss x)) = BBL_PPP_CLOSED)
    then send BBL_SEND_IPCP_REQUEST (up_ipcp (fun p => p {{ p_state := BBL_PPP_INIT ; p_request_code := PPP_CODE_CONF_REQUEST }}) x) else x
  else
    if decide (p_state (s_ip6cp (ss x)) = BBL_PPP_CLOSED)
    then send BBL_SEND_IP6CP_REQUEST (up_ip6cp (fun p => p {{ p_state := BBL_PPP_INIT ; p_request_code := PPP_CODE_CONF_REQUEST }}) x) else x.

Definition bbl_session_ncp_close (ipcp : bool) (x : st) : st :=
  if negb (ncp_allowed (ss x)) then x
  else if ipcp then
    if decide (p_state (s_ipcp (ss x)) = BBL_PPP_OPENED)
    then
      let x := up_ipcp (fun p => p {{ p_state := BBL_PPP_TERMINATE ; p_request_code := PPP_CODE_TERM_REQUEST }}) x in
      send BBL_SEND_IPCP_REQUEST (up_ip (fun i => i {{ ip_address := 0 ; peer_ip_address := 0 ; dns1 := 0 ; dns2 := 0 }}) x)
    else x
  else
    if decide (p_state (s_ip6cp (ss x)) = BBL_PPP_OPENED)
    then
      let x := up_ip6cp (fun p => p {{ p_state := BBL_PPP_TERMINATE ; p_request_code := PPP_CODE_TERM_REQUEST }}) x in
      let x := up_ip (fun i => i {{ ipv6_prefix := (0, snd (ipv6_prefix i)) ; icmpv6_ra_received := false ;
                                    ipv6_dns1 := zero16 ; ipv6_dns2 := zero16 }}) (up (want BBL_SEND_IP6CP_REQUEST) x) in
      bbl_session_tx_qnode_insert (bbl_dhcpv6_stop x)
    else x.

(** * Authentication *)

(** The next token of a C string that ends at a NUL; [None] reads past the buffer. *)
Fixpoint token (l : list Z) : option (list Z * list Z) :=
  match l with
  | [] => None
  | b :: l' => if b =? 0 then Some ([], l) else if b =? 58 then Some ([], l') else '(t, r) ← token l'; Some (b :: t, r)
  end.
Fixpoint strtok (l : list Z) : option (option (list Z * list Z)) :=
  match l with
  | [] => None
  | b :: l' => if b =? 0 then Some None else if b =? 58 then strtok l' else t ← token l; Some (Some t)
  end.

(** The first 20 characters of [L2TP_REPLY_MESSAGE], "BNG Blaster L2TP LNS". *)
Definition L2TP_REPLY_MESSAGE : list Z := [66; 78; 71; 32; 66; 108; 97; 115; 116; 101; 114; 32; 76; 50; 84; 80; 32; 76; 78; 83].

Definition bbl_access_l2tp_stream_force_verified (a : option Z) (x : st) : st :=
  match a with
  | Some a =>
      match g_streams (gl x) !! a with
      | Some s =>
          if verified (st_main s) then x
          else up (fun s => s {{ s_flows_verified ::= (fun n => u8 (n + 1)) }})
                 (upg (fun g => g {{ g_streams ::= alter (fun s => s {{ st_main := (st_main s) {{ verified := true }} }}) a ;
                                     g_flows_verified ::= (fun n => u32 (n + 1)) }}) x)
      | None => x
      end
  | None => x
  end.

(** The key in the reply message: [tunnel:session]. *)
Definition l2tp_key (substring : list Z) : option (option (Z * Z)) :=
  t ← strtok substring;
  match t with
  | None => Some None
  | Some (tunnel, rest) =>
      t ← strtok rest;
      match t with None => Some None | Some (session, _) => Some (Some (u16 (Iso.atoi tunnel), u16 (Iso.atoi session))) end
  end.

Definition bbl_access_l2tp (reply_message : ptr) (reply_message_len : Z) (x : st) : res st :=
  msg ← opt (bytes_at reply_message reply_message_len);
  if negb ((23 <? reply_message_len) && bool_decide (take 20 msg = L2TP_REPLY_MESSAGE)) then Ok x
  else
    let x := up (fun s => s {{ s_l2tp := true }}) x in
    substring ← opt (copy_into (replicate 16 0) (Some (drop 21 msg)) (reply_message_len - 21));
    key ← opt (l2tp_key substring);
    match key with
    | None => Ok x
    | Some k =>
        match g_l2tp_sessions (gl x) !! k with
        | None => Ok x
        | Some _ =>
            let x := upg (fun g => g {{ g_l2tp_sessions ::= insert k (Some (s_id (ss x))) }}) (up (fun s => s {{ s_l2tp_session := Some k }}) x) in
            Ok (foldl (fun x a => bbl_access_l2tp_stream_force_verified a x) x (drop 2 (s_traffic (ss x))))
        end
    end.

(** The network protocols are started. *)
Definition ncp_start (p : ppp) : ppp := p {{ p_state := BBL_PPP_INIT ; p_request_code := PPP_CODE_CONF_REQUEST }}.
Definition start_network (x : st) : st :=
  let x := if ac_ipcp_enable (s_config (ss x))
           then up (fun s => unwant BBL_SEND_IPCP_RESPONSE (want BBL_SEND_IPCP_REQUEST s)) (up_ipcp ncp_start x) else x in
  let x := if ac_ip6cp_enable (s_config (ss x))
           then up (fun s => unwant BBL_SEND_IP6CP_RESPONSE (want BBL_SEND_IP6CP_REQUEST s)) (up_ip6cp ncp_start x) else x in
  bbl_session_tx_qnode_insert x.

(** Authentication succeeded, or failed. *)
Definition auth_success (reply_message : ptr) (len : Z) (x : st) : res st :=
  x ← bbl_access_l2tp reply_message len x;
  msg ← opt (bytes_at reply_message len);
  let x := if len =? 0 then x else up_ppp (fun p => p {{ x_reply_message := Some msg }}) x in
  x ← bbl_session_update_state BBL_PPP_NETWORK x;
  Ok (start_network x).
Definition auth_failure (x : st) : res st := x ← bbl_session_update_state BBL_PPP_TERMINATING x; Ok (send_term_request x).

Definition bbl_access_rx_pap (pap : bbl_pap) (x : st) : res st :=
  if decide (s_state (ss x) = BBL_PPP_AUTH) then
    if pap_code pap =? PAP_CODE_ACK then auth_success (pap_reply_message pap) (pap_reply_message_len pap) x else auth_failure x
  else Ok x.

Definition bbl_access_rx_chap (chap : bbl_chap) (x : st) : res st :=
  if decide (s_state (ss x) = BBL_PPP_AUTH) then
    if chap_code chap =? CHAP_CODE_CHALLENGE then
      if chap_challenge_len chap =? 0 then auth_failure x
      else
        challenge ← opt (bytes_at (chap_challenge chap) (chap_challenge_len chap));
        let response := g_md5 (gl x) ([chap_identifier chap] ++ s_password (ss x) ++ challenge) in
        Ok (send BBL_SEND_CHAP_RESPONSE (up_ppp (fun p => p {{ x_chap_response := response ; x_chap_identifier := chap_identifier chap }}) x))
    else if chap_code chap =? CHAP_CODE_SUCCESS then auth_success (chap_reply_message chap) (chap_reply_message_len chap) x
    else auth_failure x
  else Ok x.

Definition bbl_access_session_timeout (x : st) : res st :=
  if decide (s_state (ss x) = BBL_ESTABLISHED) then bbl_session_clear x else Ok x.

(** * The network control protocols *)

Definition bbl_access_ncp_success (s : ppp_state) : bool :=
  match s with BBL_PPP_DISABLED | BBL_PPP_REJECTED | BBL_PPP_OPENED => true | _ => false end.

Definition bbl_access_rx_established_pppoe (ts : timespec) (x : st) : res st :=
  if bbl_access_ncp_success (p_state (s_ipcp (ss x))) && bbl_access_ncp_success (p_state (s_ip6cp (ss x)))
     && negb (bool_decide (s_state (ss x) = BBL_ESTABLISHED)) then
    x ← bbl_session_update_state BBL_ESTABLISHED (note_established ts x);
    let cf := g_config (gl x) in
    let x := if cf_pppoe_session_time cf =? 0 then x else up (timer_on timer_session J_session_timeout) x in
    Ok (if bool_decide (p_state (s_ipcp (ss x)) = BBL_PPP_OPENED) && negb (s_l2tp (ss x)) && bool_decide (s_a10nsp_session (ss x) = None)
             && igmp_starts cf
          then up (timer_on timer_igmp J_igmp_initial_join) x else x)
  else Ok x.

(** A packet of a protocol that is not configured. *)
Definition prot_reject (protocol : Z) (x : st) : res st :=
  x ← up_lcp_opt (set_options (be_split 2 protocol) 2) x;
  let x := up_lcp (fun p => let id := u8 (p_identifier p + 1) in
                            p {{ p_identifier := id ; p_peer_identifier := id ; p_response_code := PPP_CODE_PROT_REJECT }}) x in
  Ok (send BBL_SEND_LCP_RESPONSE x).

(** IPv6 is open. *)
Definition ip6cp_opened (ts : timespec) (x : st) : res st :=
  x ← bbl_access_rx_established_pppoe ts (up_ip6cp (fun p => p {{ p_state := BBL_PPP_OPENED }}) x);
  let x := up_ip (fun i => i {{ link_local_ipv6_address := [0xfe; 0x80] ++ take 6 (drop 2 (link_local_ipv6_address i))
                                                          ++ le_split 8 (x_ip6cp_ipv6_identifier (s_ppp (ss x))) }}) x in
  Ok (if s_l2tp (ss x) then x else send BBL_SEND_ICMPV6_RS x).

Definition ip6cp_conf_request (ip6cp : bbl_ip6cp) (ts : timespec) (x : st) : res st :=
  let x := if ip6cp_ipv6_identifier ip6cp =? 0 then x
           else up_ppp (fun p => p {{ x_ip6cp_ipv6_peer_identifier := ip6cp_ipv6_identifier ip6cp }}) x in
  p ← opt (keep_options (ip6cp_options ip6cp) (ip6cp_options_len ip6cp) (s_ip6cp (ss x)));
  let x := up_ip6cp (fun _ => p) x in
  x ← match p_state p with
      | BBL_PPP_INIT => Ok (up_ip6cp (fun p => p {{ p_state := BBL_PPP_PEER_ACK }}) x)
      | BBL_PPP_LOCAL_ACK => ip6cp_opened ts x
      | _ => Ok x
      end;
  Ok (send BBL_SEND_IP6CP_RESPONSE (up_ip6cp (answer PPP_CODE_CONF_ACK (ip6cp_identifier ip6cp)) x)).

Definition bbl_access_rx_ip6cp (ip6cp : bbl_ip6cp) (ts : timespec) (x : st) : res st :=
  if negb (bool_decide (p_state (s_lcp (ss x)) = BBL_PPP_OPENED)) then Ok x
  else if negb (cf_ip6cp_enable (g_config (gl x))) then prot_reject PROTOCOL_IP6CP x
  else
    let code := ip6cp_code ip6cp in
    let retried := up_ip6cp (fun p => p {{ p_retries := 0 }}) in
    if code =? PPP_CODE_CONF_REQUEST then ip6cp_conf_request ip6cp ts x
    else if code =? PPP_CODE_CONF_NAK then
      let x := if ip6cp_ipv6_identifier ip6cp =? 0 then retried x
               else up_ppp (fun p => p {{ x_ip6cp_ipv6_identifier := ip6cp_ipv6_identifier ip6cp }}) (retried x) in
      Ok (send BBL_SEND_IP6CP_REQUEST (up_ip6cp (fun p => p {{ p_request_code := PPP_CODE_CONF_REQUEST }}) x))
    else if code =? PPP_CODE_CONF_ACK then
      let x := retried x in
      match p_state (s_ip6cp (ss x)) with
      | BBL_PPP_INIT => Ok (up_ip6cp (fun p => p {{ p_state := BBL_PPP_LOCAL_ACK }}) x)
      | BBL_PPP_PEER_ACK => ip6cp_opened ts x
      | _ => Ok x
      end
    else if code =? PPP_CODE_TERM_REQUEST then Ok (send BBL_SEND_IP6CP_RESPONSE (up_ip6cp (answer PPP_CODE_TERM_ACK (ip6cp_identifier ip6cp)) x))
    else if code =? PPP_CODE_TERM_ACK then Ok (up_ip6cp (fun p => p {{ p_state := BBL_PPP_CLOSED }}) (retried x))
    else Ok x.

(** [while(len >= 2)] over the options of the peer; [len] is a [uint16_t].  All options
    but the address are sent back. *)
Fixpoint reject_options (fuel : Datatypes.nat) (len : Z) (buf : list Z) (p : ppp) : option ppp :=
  match fuel with
  | O => None
  | S fuel =>
      if len <? 2 then Some p
      else match buf with
      | option_type :: option_len :: _ =>
          p ← (if negb (option_type =? PPP_IPCP_OPTION_ADDRESS) && (p_options_len p + option_len <=? PPP_OPTIONS_BUFFER)
               then b ← copy_at (p_options p) (p_options_len p) (Some buf) option_len;
                    Some (p {{ p_options := b ; p_options_len := p_options_len p + option_len }})
               else Some p);
          reject_options fuel (u16 (len - option_len)) (drop (Z.to_nat option_len) buf) p
      | _ => None
      end
  end.

(** Each round of the loop consumes an option of at least one byte, or none is left
    to be read. *)
Definition bbl_access_rx_ipcp_conf_reject (ipcp : bbl_ipcp) (x : st) : res st :=
  buf ← opt (ipcp_options ipcp);
  p ← opt (reject_options (S (length buf)) (ipcp_options_len ipcp) buf ((s_ipcp (ss x)) {{ p_options_len := 0 }}));
  Ok (send BBL_SEND_IPCP_RESPONSE (up_ipcp (fun _ => answer PPP_CODE_CONF_REJECT (ipcp_identifier ipcp) p) x)).

(** IPv4 is open. *)
Definition ipcp_opened (ts : timespec) (x : st) : res st :=
  x ← bbl_access_rx_established_pppoe ts (up_ipcp (fun p => p {{ p_state := BBL_PPP_OPENED }}) x);
  Ok (up (fun s => new_version (s {{ s_endpoint := (s_endpoint s) {{ ep_ipv4 ::= ACTIVATE_ENDPOINT }} }})) x).

Definition ipcp_conf_request (ipcp : bbl_ipcp) (ts : timespec) (x : st) : res st :=
  if ipcp_option_dns1 ipcp || ipcp_option_dns2 ipcp || ipcp_unknown_options ipcp then bbl_access_rx_ipcp_conf_reject ipcp x
  else
    let x := if ipcp_address ipcp =? 0 then x else up_ip (fun i => i {{ peer_ip_address := ipcp_address ipcp }}) x in
    p ← opt (keep_options (ipcp_options ipcp) (ipcp_options_len ipcp) (s_ipcp (ss x)));
    let x := up_ipcp (fun _ => p) x in
    x ← match p_state p with
        | BBL_PPP_INIT => Ok (up_ipcp (fun p => p {{ p_state := BBL_PPP_PEER_ACK }}) x)
        | BBL_PPP_LOCAL_ACK => ipcp_opened ts x
        | _ => Ok x
        end;
    Ok (send BBL_SEND_IPCP_RESPONSE (up_ipcp (answer PPP_CODE_CONF_ACK (ipcp_identifier ipcp)) x)).

Definition ipcp_retry (x : st) : st := send BBL_SEND_IPCP_REQUEST (up_ipcp (fun p => p {{ p_request_code := PPP_CODE_CONF_REQUEST }}) x).

Definition bbl_access_rx_ipcp (ipcp : bbl_ipcp) (ts : timespec) (x : st) : res st :=
  if negb (bool_decide (p_state (s_lcp (ss x)) = BBL_PPP_OPENED)) then Ok x
  else if negb (cf_ipcp_enable (g_config (gl x))) then prot_reject PROTOCOL_IPCP x
  else
    let code := ipcp_code ipcp in
    let retried := up_ipcp (fun p => p {{ p_retries := 0 }}) in
    if code =? PPP_CODE_CONF_REQUEST then ipcp_conf_request ipcp ts x
    else if code =? PPP_CODE_CONF_REJECT then
      if cf_ipcp_conf_reject_ignore (g_config (gl x)) then Ok x
      else Ok (ipcp_retry (up_ppp (fun p => p {{ x_ipcp_request_dns1 ::= (fun b => b && negb (ipcp_option_dns1 ipcp)) ;
                                                   x_ipcp_request_dns2 ::= (fun b => b && negb (ipcp_option_dns2 ipcp)) }}) (retried x)))
    else if code =? PPP_CODE_CONF_NAK then
      Ok (ipcp_retry (up_ip (fun i => i {{ ip_address ::= nonzero_or (ipcp_address ipcp) ; dns1 ::= nonzero_or (ipcp_dns1 ipcp) ;
                                             dns2 ::= nonzero_or (ipcp_dns2 ipcp) }}) (retried x)))
    else if code =? PPP_CODE_CONF_ACK then
      let x := retried x in
      match p_state (s_ipcp (ss x)) with
      | BBL_PPP_INIT => Ok (up_ipcp (fun p => p {{ p_state := BBL_PPP_LOCAL_ACK }}) x)
      | BBL_PPP_PEER_ACK => ipcp_opened ts x
      | _ => Ok x
      end
    else if code =? PPP_CODE_TERM_REQUEST then
      Ok (send BBL_SEND_IPCP_RESPONSE (up_ipcp (fun p => (answer PPP_CODE_TERM_ACK (ipcp_identifier ipcp) p) {{ p_options_len := 0 }}) x))
    else if code =? PPP_CODE_TERM_ACK then Ok (up_ipcp (fun p => p {{ p_state := BBL_PPP_CLOSED }}) (retried x))
    else Ok x.

(** * LCP *)

(** The options that are sent back: all but MRU, authentication and magic number. *)
Definition reject_lcp_option (p : ppp) (o : list Z) : option ppp :=
  match o with
  | type :: len :: _ =>
      if (type =? PPP_LCP_OPTION_MRU) || (type =? PPP_LCP_OPTION_AUTH) || (type =? PPP_LCP_OPTION_MAGIC) then Some p
      else if p_options_len p + len <=? PPP_OPTIONS_BUFFER then
        b ← copy_at (p_options p) (p_options_len p) (Some o) len; Some (p {{ p_options := b ; p_options_len := p_options_len p + len }})
      else Some p
  | _ => None
  end.
Fixpoint reject_lcp_options (os : list (list Z)) (p : ppp) : option ppp :=
  match os with [] => Some p | o :: os => p ← reject_lcp_option p o; reject_lcp_options os p end.

Definition bbl_access_rx_lcp_conf_reject (lcp : bbl_lcp) (x : st) : res st :=
  x ← up_lcp_opt (fun p => reject_lcp_options (lcp_option lcp) (p {{ p_options_len := 0 }})) x;
  Ok (lcp_respond PPP_CODE_CONF_REJECT (lcp_identifier lcp) x).

(** The keep-alive job. *)
Definition bbl_access_lcp_echo (x : st) : res st :=
  if decide (s_state (ss x) = BBL_ESTABLISHED) then
    let retries := p_retries (s_lcp (ss x)) in
    let x := if retries =? 0 then x else count_if "lcp_echo_timeout" x in
    if cf_lcp_keepalive_retry (g_config (gl x)) <? retries then
      let x := up (fun s => (ncps_closed (lcp_closed s)) {{ s_send_requests := BBL_SEND_DISCOVERY }}) x in
      x ← bbl_session_update_state BBL_TERMINATING x; Ok (bbl_session_tx_qnode_insert x)
    else
      Ok (send BBL_SEND_LCP_REQUEST
        (up_lcp (fun p => p {{ p_request_code := PPP_CODE_ECHO_REQUEST ; p_identifier ::= (fun n => u8 (n + 1)) ; p_options_len := 0 }}) x))
  else Ok x.

Definition bbl_access_lcp_opened (x : st) : res st :=
  let x := up_lcp (fun p => p {{ p_state := BBL_PPP_OPENED }}) x in
  let auth := x_auth_protocol (s_ppp (ss x)) in
  x ← (if auth =? PROTOCOL_PAP then x ← bbl_session_update_state BBL_PPP_AUTH x; Ok (send BBL_SEND_PAP_REQUEST x)
       else if auth =? PROTOCOL_CHAP then bbl_session_update_state BBL_PPP_AUTH x
       else x ← bbl_session_update_state BBL_PPP_NETWORK x; Ok (start_network x));
  Ok (if cf_lcp_keepalive_interval (g_config (gl x)) =? 0 then x else up (timer_on timer_lcp_echo J_lcp_echo) x).

(** The packet is sent back, as far as it fits. *)
Definition lcp_code_reject (lcp : bbl_lcp) (x : st) : res st :=
  p ← opt (keep_options (lcp_start lcp) (Z.min (lcp_len lcp) PPP_OPTIONS_BUFFER) (s_lcp (ss x)));
  Ok (lcp_respond PPP_CODE_CODE_REJECT (lcp_identifier lcp) (up_lcp (fun _ => p) x)).

Definition lcp_vendor_specific (lcp : bbl_lcp) (x : st) : res st :=
  let cf := g_config (gl x) in
  if cf_lcp_vendor_ignore cf then Ok x
  else if cf_lcp_connection_status_message cf && (lcp_vendor_kind lcp =? 1) && (2 <? lcp_vendor_value_len lcp) then
    value ← opt (bytes_at (lcp_vendor_value lcp) (lcp_vendor_value_len lcp));
    let x := up_ppp (fun p => p {{ x_connections_status_message := Some (drop 2 value) }}) x in
    x ← up_lcp_opt (set_options (le_split 4 (x_magic_number (s_ppp (ss x))) ++ lcp_vendor_oui lcp ++ [2]) 8) x;
    Ok (lcp_respond PPP_CODE_VENDOR_SPECIFIC (lcp_identifier lcp) x)
  else lcp_code_reject lcp x.

(** The negotiation of the authentication protocol: the one that is agreed, and the
    one proposed instead. *)
Definition negotiate_auth (configured offered : Z) : Z * Z :=
  if configured =? 0 then (offered, PROTOCOL_PAP)
  else if configured =? offered then (offered, offered) else (0, configured).

Definition auth_nak (auth : Z) : list Z :=
  if auth =? PROTOCOL_CHAP then [3; 5] ++ be_split 2 PROTOCOL_CHAP ++ [5] else [3; 4] ++ be_split 2 PROTOCOL_PAP.

Definition lcp_conf_ack (lcp : bbl_lcp) (x : st) : res st :=
  let x := up_ppp (fun p => p {{ x_peer_mru ::= nonzero_or (lcp_mru lcp) ; x_peer_magic_number ::= nonzero_or (lcp_magic lcp) }}) x in
  p ← opt (keep_options (lcp_options lcp) (lcp_options_len lcp) (s_lcp (ss x)));
  let x := up_lcp (fun _ => p) x in
  x ← match p_state p with
      | BBL_PPP_INIT => Ok (up_lcp (fun p => p {{ p_state := BBL_PPP_PEER_ACK }}) x)
      | BBL_PPP_LOCAL_ACK => bbl_access_lcp_opened x
      | _ => Ok x
      end;
  Ok (lcp_respond PPP_CODE_CONF_ACK (lcp_identifier lcp) x).

Definition lcp_conf_request (lcp : bbl_lcp) (x : st) : res st :=
  if lcp_unknown_options lcp then bbl_access_rx_lcp_conf_reject lcp x
  else
    let configured := ac_authentication_protocol (s_config (ss x)) in
    if (lcp_auth lcp =? 0) && (configured =? 0) then lcp_conf_ack lcp x
    else
      let (auth, proposed) := negotiate_auth configured (lcp_auth lcp) in
      let x := up_ppp (fun p => p {{ x_auth_protocol := auth }}) x in
      if (auth =? PROTOCOL_CHAP) || (auth =? PROTOCOL_PAP) then lcp_conf_ack lcp x
      else
        let nak := auth_nak proposed in
        x ← up_lcp_opt (set_options nak (Z.of_nat (length nak))) x;
        Ok (lcp_respond PPP_CODE_CONF_NAK (lcp_identifier lcp) x).

Definition lcp_term_request (lcp : bbl_lcp) (x : st) : res st :=
  let x := up_lcp (fun p => (answer PPP_CODE_TERM_ACK (lcp_identifier lcp) p) {{ p_options_len := 0 ; p_state := BBL_PPP_TERMINATE }}) x in
  let x := up (fun s => s {{ s_send_requests := BBL_SEND_LCP_RESPONSE }}) x in
  let x := if decide (s_state (ss x) = BBL_PPP_TERMINATING) then x
           else up (want BBL_SEND_LCP_REQUEST) (up_lcp (fun p => p {{ p_request_code := PPP_CODE_TERM_REQUEST }}) x) in
  x ← bbl_session_update_state BBL_PPP_TERMINATING x; Ok (bbl_session_tx_qnode_insert x).

Definition lcp_term_ack (x : st) : res st :=
  let x := up (fun s => (ncps_closed (lcp_closed s)) {{ s_send_requests := BBL_SEND_DISCOVERY }}) (up_lcp (fun p => p {{ p_retries := 0 }}) x) in
  x ← bbl_session_update_state BBL_TERMINATING x; Ok (bbl_session_tx_qnode_insert x).

Definition lcp_prot_reject (lcp : bbl_lcp) (ts : timespec) (x : st) : res st :=
  let rejected (p : ppp) := p {{ p_state := BBL_PPP_REJECTED }} in
  bbl_access_rx_established_pppoe ts
    (if lcp_protocol lcp =? PROTOCOL_IPCP then up_ipcp rejected x
     else if lcp_protocol lcp =? PROTOCOL_IP6CP then up_ip6cp rejected x else x).

Definition bbl_access_rx_lcp (lcp : bbl_lcp) (ts : timespec) (x : st) : res st :=
  let code := lcp_code lcp in
  let retried := up_lcp (fun p => p {{ p_retries := 0 }}) in
  if rank (s_state (ss x)) <? rank BBL_PPP_LINK then Ok x
  else if bool_decide (s_state (ss x) = BBL_PPP_TERMINATING) && negb ((code =? PPP_CODE_TERM_REQUEST) || (code =? PPP_CODE_TERM_ACK)) then Ok x
  else if code =? PPP_CODE_VENDOR_SPECIFIC then lcp_vendor_specific lcp x
  else if code =? PPP_CODE_CONF_REQUEST then lcp_conf_request lcp x
  else if code =? PPP_CODE_CONF_ACK then
    let x := retried x in
    match p_state (s_lcp (ss x)) with
    | BBL_PPP_INIT => Ok (up_lcp (fun p => p {{ p_state := BBL_PPP_LOCAL_ACK }}) x)
    | BBL_PPP_PEER_ACK => bbl_access_lcp_opened x
    | _ => Ok x
    end
  else if code =? PPP_CODE_CONF_NAK then
    let x := up_ppp (fun p => p {{ x_mru ::= nonzero_or (lcp_mru lcp) ; x_magic_number ::= nonzero_or (lcp_magic lcp) }}) (retried x) in
    Ok (send BBL_SEND_LCP_REQUEST (up_lcp (fun p => p {{ p_request_code := PPP_CODE_CONF_REQUEST }}) x))
  else if code =? PPP_CODE_ECHO_REQUEST then
    if x_echo_request_ignore (s_ppp (ss x)) then Ok x
    else Ok (lcp_respond PPP_CODE_ECHO_REPLY (lcp_identifier lcp) (up_lcp (fun p => p {{ p_options_len := 0 }}) x))
  else if code =? PPP_CODE_ECHO_REPLY then Ok (retried x)
  else if code =? PPP_CODE_TERM_REQUEST then lcp_term_request lcp x
  else if code =? PPP_CODE_TERM_ACK then lcp_term_ack x
  else if code =? PPP_CODE_PROT_REJECT then lcp_prot_reject lcp ts x
  else lcp_code_reject lcp x.

Definition bbl_access_lcp_start_delay (x : st) : res st :=
  Ok (send BBL_SEND_LCP_REQUEST (up_lcp (fun p => p {{ p_request_code := PPP_CODE_CONF_REQUEST }}) x)).

(** * PPPoE discovery *)

Definition service_name (s : sess) : list Z := default [] (pppoe_service_name (s_pppoe s)).
Definition up_pppoe (f : pppoe_part -> pppoe_part) (x : st) : st := up (fun s => s {{ s_pppoe ::= f }}) x.

(** [memcmp] with the host-uniq of the session, when it has one. *)
Definition host_uniq_ok (d : bbl_pppoe_discovery) (s : sess) : option bool :=
  let want := pppoe_host_uniq (s_pppoe s) in
  if want =? 0 then Some true
  else if negb (pd_host_uniq_len d =? 8) then Some false
  else bs ← bytes_at (pd_host_uniq d) 8; Some (le_combine bs =? want).

(** The service name of a PADO is stored when the session has none. *)
Definition pado_service_name (d : bbl_pppoe_discovery) (s : sess) : option (option (list Z)) :=
  name ← bytes_at (pd_service_name d) (pd_service_name_len d);
  let mine := service_name s in
  Some (if bool_decide (name = []) then (if bool_decide (mine = []) then Some mine else None)
        else if bool_decide (mine = []) then Some name
        else if bool_decide (name = mine) then Some mine else None).

Definition discovery_pado (eth : ethernet) (d : bbl_pppoe_discovery) (x : st) : res st :=
  src ← opt (bytes_at (eth_src eth) 6);
  cookie ← opt (bytes_at (pd_ac_cookie d) (pd_ac_cookie_len d));
  let x := up (fun s => s {{ s_server_mac := src }}) x in
  let x := if bool_decide (cookie = []) then x else up_pppoe (fun p => p {{ pppoe_ac_cookie := cookie }}) x in
  name ← opt (pado_service_name d (ss x));
  match name with
  | None => Ok x
  | Some name =>
      let x := if bool_decide (name = service_name (ss x)) then x else up_pppoe (fun p => p {{ pppoe_service_name := Some name }}) x in
      ok ← opt (host_uniq_ok d (ss x));
      if negb ok then Ok x
      else
        x ← bbl_session_update_state BBL_PPPOE_REQUEST x;
        Ok (bbl_session_tx_qnode_insert (up (fun s => s {{ s_send_requests := BBL_SEND_DISCOVERY }}) (up_pppoe (fun p => p {{ pppoe_retries := 0 }}) x)))
  end.

Definition discovery_pads (d : bbl_pppoe_discovery) (x : st) : res st :=
  if pd_session_id d =? 0 then Ok x
  else
    ok ← opt (host_uniq_ok d (ss x));
    name ← opt (bytes_at (pd_service_name d) (pd_service_name_len d));
    if negb ok || negb (bool_decide (name = service_name (ss x))) then Ok x
    else
      let x := up_pppoe (fun p => p {{ pppoe_retries := 0 ; pppoe_session_id := pd_session_id d }}) x in
      x ← bbl_session_update_state BBL_PPP_LINK x;
      let x := up_lcp (fun p => p {{ p_request_code := PPP_CODE_CONF_REQUEST ; p_state := BBL_PPP_INIT }})
                 (up (fun s => s {{ s_send_requests := BBL_SEND_LCP_REQUEST }}) x) in
      Ok (if cf_lcp_start_delay (g_config (gl x)) =? 0 then bbl_session_tx_qnode_insert x else up (timer_on timer_lcp J_lcp_start_delay) x).

Definition bbl_access_rx_discovery (eth : ethernet) (d : bbl_pppoe_discovery) (x : st) : res st :=
  if pd_code d =? PPPOE_PADO then
    let x := count_if "pado_rx" x in
    if decide (s_state (ss x) = BBL_PPPOE_INIT) then discovery_pado eth d x else Ok x
  else if pd_code d =? PPPOE_PADS then
    let x := count_if "pads_rx" x in
    if decide (s_state (ss x) = BBL_PPPOE_REQUEST) then discovery_pads d x else Ok x
  else if pd_code d =? PPPOE_PADT then
    x ← bbl_session_update_state BBL_TERMINATED (count_if "padt_rx" x);
    Ok (up (fun s => s {{ s_send_requests := 0 }}) x)
  else Ok (count_if "unknown" x).

(** * ARP, ICMP and ICMPv6 *)

Definition bbl_arp_client_rx (arp : bbl_arp) (x : st) : res st :=
  if existsb (fun c => acl_target_ip c =? arp_sender_ip arp) (s_arp_clients (ss x)) then
    mac ← opt (bytes_at (arp_sender arp) 6);
    Ok (up (fun s => s {{ s_arp_clients ::= map (fun c => if acl_target_ip c =? arp_sender_ip arp
                              then c {{ acl_target_mac := mac ; acl_rx ::= (fun n => u32 (n + 1)) }} else c) }}) x)
  else Ok x.

Definition bbl_access_rx_arp (arp : bbl_arp) (ts : timespec) (x : st) : res st :=
  x ← (if negb (arp_sender_ip arp =? peer_ip_address (s_ip (ss x))) then Ok x
       else if arp_code arp =? ARP_REQUEST then
         Ok (if arp_target_ip arp =? ip_address (s_ip (ss x)) then send BBL_SEND_ARP_REPLY x else x)
       else if (arp_code arp =? ARP_REPLY) && negb (arp_resolved (s_ip (ss x))) then
         mac ← opt (bytes_at (arp_sender arp) 6);
         x ← bbl_access_rx_established_ipoe ts (up (fun s => s {{ s_server_mac := mac }}) (up_ip (fun i => i {{ arp_resolved := true }}) x));
         Ok (up (if cf_arp_interval (g_config (gl x)) =? 0 then timer_off timer_arp else timer_on timer_arp J_arp_timeout) x)
       else Ok x);
  bbl_arp_client_rx arp x.

(** The received packet with its addresses turned round, and the IP header [h] in it. *)
Definition bbl_access_update_eth (s : sess) (h : hdr) (eth : ethernet) : ethernet :=
  let mine := session_eth s in
  eth {{ eth_dst := eth_src eth ; eth_src := eth_src mine ; eth_mpls := [] ; eth_qinq := eth_qinq mine ; eth_vlan_outer := eth_vlan_outer mine ;
         eth_vlan_inner := eth_vlan_inner mine ; eth_vlan_three := eth_vlan_three mine ;
         eth_next := match eth_next eth with h_pppoe_session p => h_pppoe_session (p {{ ps_next := h }}) | _ => h end }}.

Definition bbl_access_icmp_reply (eth : ethernet) (ipv4 : ipv4_t) (icmp : bbl_icmp) (x : st) : bool * st :=
  let icmp := icmp {{ icmp_type := ICMP_TYPE_ECHO_REPLY }} in
  let ipv4 := ipv4 {{ ipv4_dst := ipv4_src ipv4 ; ipv4_src := ipv4_dst ipv4 ; ipv4_ttl := 64 ; ipv4_next := h_icmp icmp }} in
  txq_send (bbl_access_update_eth (ss x) (h_ipv4 ipv4) eth) x.

Definition bbl_access_rx_icmp (eth : ethernet) (ipv4 : ipv4_t) (x : st) : res st :=
  match ipv4_next ipv4 with
  | h_icmp icmp =>
      let mine := ip_address (s_ip (ss x)) in
      if negb (mine =? 0) && (mine =? ipv4_dst ipv4) then
        if icmp_type icmp =? ICMP_TYPE_ECHO_REQUEST then
          let (ok, x) := bbl_access_icmp_reply eth ipv4 icmp x in
          Ok (if ok then count_if "icmp_tx" (count "icmp_tx" x) else x)
        else Ok (note (call_icmp_client ipv4) x)
      else Ok x
  | _ => Fault
  end.

Definition icmpv6_without_data (icmpv6 : bbl_icmpv6) : bbl_icmpv6 :=
  icmpv6 {{ icmpv6_flags := 0 ; icmpv6_data := None ; icmpv6_data_len := 0 ; icmpv6_dns1 := None ; icmpv6_dns2 := None }}.

Definition bbl_access_icmpv6_na (eth : ethernet) (ipv6 : ipv6_t) (icmpv6 : bbl_icmpv6) (x : st) : bool * st :=
  let icmpv6 := (icmpv6_without_data icmpv6) {{ icmpv6_type := IPV6_ICMPV6_NEIGHBOR_ADVERTISEMENT ; icmpv6_mac := Some (s_client_mac (ss x)) }} in
  let ipv6 := ipv6 {{ ipv6_dst := ipv6_src ipv6 ; ipv6_src := icmpv6_prefix_address icmpv6 ; ipv6_ttl := 255 ; ipv6_next := h_icmpv6 icmpv6 }} in
  txq_send (bbl_access_update_eth (ss x) (h_ipv6 ipv6) eth) x.

Definition ipv6_solicited_node_multicast : list Z := [0xff; 2; 0; 0; 0; 0; 0; 0; 0; 0; 0; 1; 0xff; 0; 0; 0].

Definition bbl_access_icmpv6_ns (eth : ethernet) (ipv6 : ipv6_t) (icmpv6 : bbl_icmpv6) (x : st) : bool * st :=
  let dst := take 13 ipv6_solicited_node_multicast ++ take 3 (drop 13 (ipv6_src ipv6)) in
  let icmpv6 := (icmpv6_without_data icmpv6) {{ icmpv6_type := IPV6_ICMPV6_NEIGHBOR_SOLICITATION ; icmpv6_mac := Some (s_client_mac (ss x)) ;
                                                icmpv6_prefix_address := ipv6_src ipv6 }} in
  let ipv6 := ipv6 {{ ipv6_dst := dst ; ipv6_src := link_local_ipv6_address (s_ip (ss x)) ; ipv6_ttl := 255 ; ipv6_next := h_icmpv6 icmpv6 }} in
  txq_send (bbl_access_update_eth (ss x) (h_ipv6 ipv6) eth) x.

Definition bbl_access_icmpv6_echo_reply (eth : ethernet) (ipv6 : ipv6_t) (icmpv6 : bbl_icmpv6) (x : st) : bool * st :=
  let icmpv6 := icmpv6 {{ icmpv6_type := IPV6_ICMPV6_ECHO_REPLY }} in
  let ipv6 := ipv6 {{ ipv6_dst := ipv6_src ipv6 ; ipv6_src := ipv6_dst ipv6 ; ipv6_ttl := 255 ; ipv6_next := h_icmpv6 icmpv6 }} in
  txq_send (bbl_access_update_eth (ss x) (h_ipv6 ipv6) eth) x.

(** The prefix of the first router advertisement. *)
Definition ra_prefix (icmpv6 : bbl_icmpv6) (x : st) : res st :=
  if icmpv6_prefix_len icmpv6 =? 0 then Ok x
  else
    let a := icmpv6_prefix_address icmpv6 in
    let id := x_ip6cp_ipv6_identifier (s_ppp (ss x)) in
    let x := up_ip (fun i => i {{ ipv6_prefix := (icmpv6_prefix_len icmpv6, a) ; ipv6_address := take 8 a ++ le_split 8 id }}) x in
    let x := match s_access_type (ss x) with
             | ACCESS_TYPE_PPPOE => up (fun s => s {{ s_endpoint := (s_endpoint s) {{ ep_ipv6 ::= ACTIVATE_ENDPOINT }} }}) x
             | ACCESS_TYPE_IPOE => x
             end in
    let x := up new_version x in
    match icmpv6_dns1 icmpv6 with
    | None => Ok x
    | Some _ =>
        d1 ← opt (bytes_at (icmpv6_dns1 icmpv6) 16);
        let x := up_ip (fun i => i {{ ipv6_dns1 := d1 }}) x in
        match icmpv6_dns2 icmpv6 with
        | None => Ok x
        | Some _ => d2 ← opt (bytes_at (icmpv6_dns2 icmpv6) 16); Ok (up_ip (fun i => i {{ ipv6_dns2 := d2 }}) x)
        end
    end.

Definition rx_router_advertisement (eth : ethernet) (ipv6 : ipv6_t) (icmpv6 : bbl_icmpv6) (ts : timespec) (x : st) : res st :=
  if icmpv6_ra_received (s_ip (ss x)) then Ok x
  else
    x ← ra_prefix icmpv6 (up_ip (fun i => i {{ icmpv6_ra_received := true }}) x);
    match s_access_type (ss x) with
    | ACCESS_TYPE_IPOE =>
        src ← opt (bytes_at (eth_src eth) 6);
        let x := if arp_resolved (s_ip (ss x)) then x else up (fun s => s {{ s_server_mac := src }}) x in
        x ← bbl_access_rx_established_ipoe ts x;
        Ok (snd (bbl_access_icmpv6_ns eth ipv6 icmpv6 x))
    | ACCESS_TYPE_PPPOE =>
        if negb (bool_decide (d6_state (s_dhcpv6 (ss x)) = BBL_DHCP_DISABLED))
           && negb (Z.land (icmpv6_flags icmpv6) (Z.lor ICMPV6_FLAGS_MANAGED ICMPV6_FLAGS_OTHER_CONFIG) =? 0)
        then x ← bbl_dhcpv6_start x; Ok (bbl_session_tx_qnode_insert x) else Ok x
    end.

(** Whether a packet was sent, too. *)
Definition bbl_access_rx_icmpv6 (eth : ethernet) (ipv6 : ipv6_t) (ts : timespec) (x : st) : res (bool * st) :=
  match ipv6_next ipv6 with
  | h_icmpv6 icmpv6 =>
      let type := icmpv6_type icmpv6 in
      let target := icmpv6_prefix_address icmpv6 in
      if bool_decide (s_access_type (ss x) = ACCESS_TYPE_PPPOE) && negb (bool_decide (p_state (s_ip6cp (ss x)) = BBL_PPP_OPENED)) then Ok (false, x)
      else if type =? IPV6_ICMPV6_ROUTER_ADVERTISEMENT then x ← rx_router_advertisement eth ipv6 icmpv6 ts x; Ok (false, x)
      else if type =? IPV6_ICMPV6_NEIGHBOR_SOLICITATION then
        Ok (if bool_decide (target = ipv6_address (s_ip (ss x))) || bool_decide (target = link_local_ipv6_address (s_ip (ss x)))
              then bbl_access_icmpv6_na eth ipv6 icmpv6 x else (false, x))
      else if type =? IPV6_ICMPV6_ECHO_REQUEST then Ok (bbl_access_icmpv6_echo_reply eth ipv6 icmpv6 x)
      else Ok (false, x)
  | _ => Fault
  end.

(** * IP and the protocols of a session *)

Definition accounting (eth : ethernet) (x : st) : st := count64 "accounting_bytes_rx" (eth_length eth) (count64 "accounting_packets_rx" 1 x).

(** [write(session->tun_fd, ...)] *)
Definition to_tun (hdr : list Z) (len : Z) (x : st) : st := if s_tun (ss x) then note (call_tun (take (Z.to_nat len) hdr)) x else x.

(** All IPv4 multicast addresses start with 1110, in the first byte. *)
Definition is_multicast (dst : Z) : bool := Z.land dst 0xf0 =? 0xe0.

Definition rx_ipv4_other (eth : ethernet) (ipv4 : ipv4_t) (ts : timespec) (x : st) : res st :=
  let x := accounting eth x in
  if is_multicast (ipv4_dst ipv4) then bbl_access_rx_ipv4_mc eth ipv4 ts (count "mc_rx" (count_if "mc_rx" x)) else Ok x.

Definition rx_ipv4_udp (eth : ethernet) (ipv4 : ipv4_t) (udp : udp_t) (ts : timespec) (x : st) : res st :=
  protocol ← opt (udp_protocol udp);
  if protocol =? UDP_PROTOCOL_DHCP then
    match udp_next udp with
    | h_dhcp dhcp => bbl_dhcp_rx eth dhcp ts (count_if "dhcp_rx" (count "dhcp_rx" x))
    | _ => Fault
    end
  else rx_ipv4_other eth ipv4 ts x.

Definition bbl_access_rx_ipv4 (eth : ethernet) (ipv4 : ipv4_t) (ts : timespec) (x : st) : res st :=
  let x := to_tun (ipv4_hdr ipv4) (ipv4_len ipv4) x in
  let protocol := ipv4_protocol ipv4 in
  if negb (Z.land (ipv4_offset ipv4) (Z.lnot IPV4_DF) =? 0) then
    Ok (note (call_fragment ipv4) (count_if "ipv4_fragmented_rx" (count "ipv4_fragmented_rx" (accounting eth x))))
  else if protocol =? PROTOCOL_IPV4_IGMP then
    match ipv4_next ipv4 with h_igmp igmp => Ok (bbl_igmp_rx igmp (count_if "igmp_rx" (count "igmp_rx" x))) | _ => Fault end
  else if protocol =? PROTOCOL_IPV4_ICMP then bbl_access_rx_icmp eth ipv4 (count_if "icmp_rx" (count "icmp_rx" x))
  else if protocol =? PROTOCOL_IPV4_UDP then
    match ipv4_next ipv4 with h_udp udp => rx_ipv4_udp eth ipv4 udp ts x | _ => Fault end
  else if protocol =? PROTOCOL_IPV4_TCP then rx_ipv4_other eth ipv4 ts (note (call_tcp_ipv4 ipv4) x)
  else rx_ipv4_other eth ipv4 ts x.

Definition bbl_access_rx_udp_ipv6 (eth : ethernet) (ipv6 : ipv6_t) (ts : timespec) (x : st) : res st :=
  match ipv6_next ipv6 with
  | h_udp udp =>
      if (udp_dst udp =? DHCPV6_UDP_CLIENT) || (udp_dst udp =? DHCPV6_UDP_SERVER) then
        match udp_next udp with
        | h_dhcpv6 d6 => bbl_dhcpv6_rx d6 ts (count "dhcpv6_rx" (count_if "dhcpv6_rx" x))
        | _ => Fault
        end
      else Ok (accounting eth x)
  | _ => Fault
  end.

Definition bbl_access_rx_ipv6 (eth : ethernet) (ipv6 : ipv6_t) (ts : timespec) (x : st) : res st :=
  let x := to_tun (ipv6_hdr ipv6) (ipv6_len ipv6) x in
  let protocol := ipv6_protocol ipv6 in
  if protocol =? IPV6_NEXT_HEADER_ICMPV6 then
    match bbl_access_rx_icmpv6 eth ipv6 ts (count_if "icmpv6_rx" (count "icmpv6_rx" x)) with
    | Ok (true, x) => Ok (count_if "icmpv6_tx" (count "icmpv6_tx" x))
    | Ok (false, x) => Ok x
    | Assert => Assert
    | Fault => Fault
    end
  else if protocol =? IPV6_NEXT_HEADER_UDP then bbl_access_rx_udp_ipv6 eth ipv6 ts x
  else Ok (accounting eth (if protocol =? IPV6_NEXT_HEADER_TCP then note (call_tcp_ipv6 ipv6) x else x)).

(** [switch(pppoes->protocol)]; a header of another type than the protocol is not
    produced by the decoders. *)
Definition bbl_access_rx_session (eth : ethernet) (p : pppoe_session) (ts : timespec) (x : st) : res st :=
  let protocol := ps_protocol p in
  if protocol =? PROTOCOL_LCP then
    match ps_next p with h_lcp l => x ← bbl_access_rx_lcp l ts x; Ok (count_if "lcp_rx" x) | _ => Fault end
  else if protocol =? PROTOCOL_IPCP then
    match ps_next p with h_ipcp i => x ← bbl_access_rx_ipcp i ts x; Ok (count_if "ipcp_rx" x) | _ => Fault end
  else if protocol =? PROTOCOL_IP6CP then
    match ps_next p with h_ip6cp i => x ← bbl_access_rx_ip6cp i ts x; Ok (count_if "ip6cp_rx" x) | _ => Fault end
  else if protocol =? PROTOCOL_PAP then
    match ps_next p with h_pap a => x ← bbl_access_rx_pap a x; Ok (count_if "pap_rx" x) | _ => Fault end
  else if protocol =? PROTOCOL_CHAP then
    match ps_next p with h_chap c => x ← bbl_access_rx_chap c x; Ok (count_if "chap_rx" x) | _ => Fault end
  else if protocol =? PROTOCOL_IPV4 then
    match ps_next p with h_ipv4 i => bbl_access_rx_ipv4 eth i ts x | _ => Fault end
  else if protocol =? PROTOCOL_IPV6 then
    match ps_next p with h_ipv6 i => bbl_access_rx_ipv6 eth i ts x | _ => Fault end
  else Ok (count_if "unknown" x).

(** The packets of one session. *)
Definition is_running (s : sess) : bool := negb (bool_decide (s_state s = BBL_TERMINATED) || bool_decide (s_state s = BBL_IDLE)).

Definition rx_pppoe (eth : ethernet) (ts : timespec) (x : st) : res st :=
  if eth_type eth =? ETH_TYPE_PPPOE_DISCOVERY then
    match eth_next eth with h_pppoe_discovery d => bbl_access_rx_discovery eth d x | _ => Fault end
  else if eth_type eth =? ETH_TYPE_PPPOE_SESSION then
    match eth_next eth with h_pppoe_session p => bbl_access_rx_session eth p ts x | _ => Fault end
  else Ok (count_if "unknown" x).

(** [arp], [ipv4] and [ipv6] say which packets are taken. *)
Definition rx_ipoe (arp ipv4 ipv6 : bool) (eth : ethernet) (ts : timespec) (x : st) : res st :=
  if arp && (eth_type eth =? ETH_TYPE_ARP) then
    match eth_next eth with h_arp a => bbl_access_rx_arp a ts (count_if "arp_rx" x) | _ => Fault end
  else if ipv4 && (eth_type eth =? ETH_TYPE_IPV4) then
    match eth_next eth with h_ipv4 i => bbl_access_rx_ipv4 eth i ts x | _ => Fault end
  else if ipv6 && (eth_type eth =? ETH_TYPE_IPV6) then
    match eth_next eth with h_ipv6 i => bbl_access_rx_ipv6 eth i ts x | _ => Fault end
  else Ok (count_if "unknown" x).

Definition rx_counted (eth : ethernet) (x : st) : st := count64 "bytes_rx" (eth_length eth) (count64 "packets_rx" 1 x).

Definition rx_unicast (eth : ethernet) (ts : timespec) (x : st) : res st :=
  if negb (is_running (ss x)) then Ok x
  else
    let x := rx_counted eth x in
    match s_access_type (ss x) with
    | ACCESS_TYPE_PPPOE => rx_pppoe eth ts x
    | ACCESS_TYPE_IPOE => rx_ipoe true true true eth ts x
    end.

(** A broadcast or multicast packet that belongs to no session, in each IPoE session. *)
Definition rx_broadcast (multicast : bool) (eth : ethernet) (ts : timespec) (x : st) : res st :=
  if bool_decide (s_access_type (ss x) = ACCESS_TYPE_IPOE) && is_running (ss x)
  then rx_ipoe (negb multicast) true multicast eth ts (rx_counted eth x) else Ok x.
