(* ===== verification/SessionTx.v ===== *)
(** Packets sent by sessions (bbl_tx.c): the timeouts, the packet of each pending
    request, and one turn of an access interface.

    A packet function gives the headers that [encode_ethernet] writes into the buffer
    of the interface (EncodeEth.v); [Assert] is a failed assertion. *)
From coqutil Require Import Datatypes.RecordSetters.
From S2P Require Import Prelude.
From S2P Require Import Const.
From S2P Require Import ConstApp.
From S2P Require Import ConstStream.
From S2P Require Import Utils.
From S2P Require Import ProtoTypes.
From S2P Require Import Timer.
From S2P Require Import Enc.
From S2P Require Import EncodeEth.
From S2P Require Import Stream.
From S2P Require Import Session.
From S2P Require Import SessionDhcp.
From S2P Require Import SessionIgmp.
From S2P Require Import SessionAccess.
Import RecordSetters.DoubleBraceUpdate.
From stdpp Require Import gmap list strings.
Open Scope Z_scope.

(** * Authentication *)

Definition auth_timeout (counter : string) (request : Z) (x : st) : res st :=
  if decide (s_state (ss x) = BBL_PPP_AUTH) then
    let x := count_if counter x in
    if cf_authentication_retry (g_config (gl x)) <? x_auth_retries (s_ppp (ss x)) then bbl_session_clear x else Ok (send request x)
  else Ok x.
Definition bbl_tx_pap_timeout (x : st) : res st := auth_timeout "pap_timeout" BBL_SEND_PAP_REQUEST x.
Definition bbl_tx_chap_timeout (x : st) : res st := auth_timeout "chap_timeout" BBL_SEND_CHAP_RESPONSE x.

Definition strlen (l : list Z) : Z := Z.of_nat (length l).

Definition bbl_tx_encode_packet_pap_request (x : st) : tx * st :=
  let s := ss x in
  let pap := mk_pap PAP_CODE_REQUEST 1 (Some (s_username s)) (u8 (strlen (s_username s))) (Some (s_password s)) (u8 (strlen (s_password s))) None 0 in
  (tx_packet (session_ppp x PROTOCOL_PAP (h_pap pap)), count_if "pap_tx" (up (timer_on timer_auth J_pap_timeout) x)).

Definition bbl_tx_encode_packet_chap_response (x : st) : tx * st :=
  let s := ss x in
  let chap := mk_chap CHAP_CODE_RESPONSE (x_chap_identifier (s_ppp s)) (Some (s_username s)) (u8 (strlen (s_username s)))
                (Some (x_chap_response (s_ppp s))) CHALLENGE_LEN None 0 in
  (tx_packet (session_ppp x PROTOCOL_CHAP (h_chap chap)),
   count_if "chap_tx" (up (timer_on timer_auth J_chap_timeout) (count_if "chap_tx" x))).

(** * ICMPv6 and DHCPv6 *)

Definition bbl_icmpv6_timeout (x : st) : res st :=
  Ok (if icmpv6_ra_received (s_ip (ss x)) then x else send BBL_SEND_ICMPV6_RS (count_if "icmpv6_rs_timeout" x)).

Definition ipv6_multicast_all_routers : list Z := [0xff; 2; 0; 0; 0; 0; 0; 0; 0; 0; 0; 0; 0; 0; 0; 2].
Definition ipv6_multicast_all_dhcp : list Z := [0xff; 2; 0; 0; 0; 0; 0; 0; 0; 0; 0; 0; 0; 1; 0; 2].
Definition ipv6_new (src dst : list Z) (tos ttl protocol : Z) (h : hdr) : ipv6_t := mk_ipv6 src dst tos ttl protocol 0 [] h None 0.

(** An IPv6 packet to a multicast address, over PPP when IPv6 is open. *)
Definition session_ipv6 (x : st) (priority : Z) (ipv6 : ipv6_t) : tx :=
  match s_access_type (ss x) with
  | ACCESS_TYPE_PPPOE =>
      if decide (p_state (s_ip6cp (ss x)) = BBL_PPP_OPENED) then tx_packet (session_ppp x PROTOCOL_IPV6 (h_ipv6 ipv6))
      else tx_error WRONG_PROTOCOL_STATE
  | ACCESS_TYPE_IPOE =>
      tx_packet ((with_priority priority (session_eth (ss x)))
                   {{ eth_dst := Addr.ipv6_multicast_mac (ipv6_dst ipv6) ; eth_type := ETH_TYPE_IPV6 ; eth_next := h_ipv6 ipv6 }})
  end.

Definition bbl_tx_encode_packet_icmpv6_rs (x : st) : tx * st :=
  let icmpv6 := icmpv6_0 {{ icmpv6_type := IPV6_ICMPV6_ROUTER_SOLICITATION }} in
  let ipv6 := ipv6_new (link_local_ipv6_address (s_ip (ss x))) ipv6_multicast_all_routers 0 255 IPV6_NEXT_HEADER_ICMPV6 (h_icmpv6 icmpv6) in
  match session_ipv6 x 0 ipv6 with
  | tx_error e => (tx_error e, x)
  | t => (t, count_if "icmpv6_tx" (count "icmpv6_tx" (up (timer_on timer_icmpv6 J_icmpv6_timeout) x)))
  end.

Definition bbl_tx_dhcpv6_timeout (x : st) : res st :=
  let d := s_dhcpv6 (ss x) in
  match d6_state d with
  | BBL_DHCP_BOUND | BBL_DHCP_INIT => Ok x
  | state =>
      let x := count_if "dhcpv6_timeout" x in
      if d6_retry d <? cf_dhcpv6_retry (g_config (gl x)) then Ok (send BBL_SEND_DHCPV6_REQUEST x)
      else if decide (state = BBL_DHCP_RELEASE) then
        let x := up_dhcpv6 (fun d => d {{ d6_state := BBL_DHCP_INIT }}) x in
        if decide (s_state (ss x) = BBL_TERMINATING) then bbl_session_clear x else Ok x
      else bbl_dhcpv6_restart x
  end.

(** The first packet of a session. *)
Definition first_tx (x : st) : st :=
  upg (fun g => if tv_sec (g_first_session_tx g) =? 0 then g {{ g_first_session_tx := g_now g }} else g) x.

(** [access_line], with or without the profile. *)
Definition session_line (s : sess) (aci : ptr) (profile : option access_line_profile) : access_line :=
  let l := s_line s in
  mk_access_line 0 aci (agent_remote_id l) (access_aggregation_circuit_id l) (rate_up l) (rate_down l) (dsl_type l) profile.
Definition has_line (s : sess) : bool := is_present (agent_circuit_id (s_line s)) || is_present (agent_remote_id (s_line s)).

(** [format_mac_address]: [mac] prints an address. *)
Definition hex_digit (n : Z) : Z := if n <? 10 then 48 + n else 87 + n.
Fixpoint mac_string (mac : list Z) : list Z :=
  match mac with
  | [] => []
  | [b] => [hex_digit (b / 16); hex_digit (b mod 16)]
  | b :: mac => hex_digit (b / 16) :: hex_digit (b mod 16) :: 58 :: mac_string mac
  end.

(** The hundredths of a second since the request began. *)
Definition dhcpv6_elapsed_since (now since : timespec) : Z :=
  if tv_sec since =? 0 then 0
  else let d := timespec_sub now since in Z.min (tv_sec d * 100 + tv_nsec d / 10000000) 65535.

(** The type and the options of a request, by the state of the client. *)
Definition dhcpv6_message (x : st) (elapsed : Z) : option (dhcpv6_t * string) :=
  let d := s_dhcpv6 (ss x) in
  let m := dhcpv6_0 {{ dhcpv6_elapsed := elapsed ; dhcpv6_xid := d6_xid d ; dhcpv6_client_duid := Some (d6_duid d) ; dhcpv6_client_duid_len := DUID_LEN ;
                       dhcpv6_server_duid := Some (d6_server_duid d) ; dhcpv6_server_duid_len := d6_server_duid_len d ;
                       dhcpv6_ia_na_iaid := d6_ia_na_iaid d ; dhcpv6_ia_na_option := Some (d6_ia_na_option d) ;
                       dhcpv6_ia_na_option_len := d6_ia_na_option_len d ; dhcpv6_ia_pd_iaid := d6_ia_pd_iaid d ;
                       dhcpv6_ia_pd_option := Some (d6_ia_pd_option d) ; dhcpv6_ia_pd_option_len := d6_ia_pd_option_len d ; dhcpv6_oro := true }} in
  match d6_state d with
  | BBL_DHCP_SELECTING =>
      Some (m {{ dhcpv6_type := DHCPV6_MESSAGE_SOLICIT ; dhcpv6_rapid := cf_dhcpv6_rapid_commit (g_config (gl x)) ; dhcpv6_server_duid_len := 0 ;
                 dhcpv6_ia_na_option_len := 0 ; dhcpv6_ia_pd_option_len := 0 }}, "dhcpv6_tx_solicit")
  | BBL_DHCP_REQUESTING => Some (m {{ dhcpv6_type := DHCPV6_MESSAGE_REQUEST }}, "dhcpv6_tx_request")
  | BBL_DHCP_RENEWING => Some (m {{ dhcpv6_type := DHCPV6_MESSAGE_RENEW }}, "dhcpv6_tx_renew")
  | BBL_DHCP_RELEASE => Some (m {{ dhcpv6_type := DHCPV6_MESSAGE_RELEASE ; dhcpv6_oro := false }}, "dhcpv6_tx_release")
  | _ => None
  end.

(** The relay message of a lightweight relay agent. *)
Definition dhcpv6_relay (x : st) (m : dhcpv6_t) : dhcpv6_t :=
  let s := ss x in
  let line := if cf_dhcpv6_access_line (g_config (gl x)) && has_line s then session_line s (agent_circuit_id (s_line s)) None
              else access_line0 0 in
  let line := if is_present (al_aci line) then line else line {{ al_aci := Some (mac_string (s_client_mac s) ++ [0]) }} in
  dhcpv6_0 {{ dhcpv6_type := DHCPV6_MESSAGE_RELAY_FORW ; dhcpv6_peer_address := Some (link_local_ipv6_address (s_ip s)) ;
              dhcpv6_relay_message := h_dhcpv6 m ; dhcpv6_access_line := Some line }}.

Definition bbl_tx_encode_packet_dhcpv6_request (x : st) : tx * st :=
  let d := s_dhcpv6 (ss x) in
  let cf := g_config (gl x) in
  let now := g_now (gl x) in
  if bool_decide (d6_state d = BBL_DHCP_INIT) || bool_decide (d6_state d = BBL_DHCP_BOUND) then (tx_error IGNORED, x)
  else if bool_decide (s_access_type (ss x) = ACCESS_TYPE_PPPOE) && negb (bool_decide (p_state (s_ip6cp (ss x)) = BBL_PPP_OPENED))
  then (tx_error WRONG_PROTOCOL_STATE, x)
  else
    let elapsed := dhcpv6_elapsed_since now (d6_request_timestamp d) in
    let x := if tv_sec (d6_request_timestamp d) =? 0
             then up_dhcpv6 (fun d => d {{ d6_request_timestamp := mk_ts (tv_sec now) (tv_nsec (d6_request_timestamp d)) }}) x else x in
    match dhcpv6_message x elapsed with
    | None => (tx_error IGNORED, x)
    | Some (m, k) =>
        let udp := if cf_dhcpv6_ldra cf then mk_udp DHCPV6_UDP_SERVER DHCPV6_UDP_SERVER 0 (Some UDP_PROTOCOL_DHCPV6) (h_dhcpv6 (dhcpv6_relay x m))
                   else mk_udp DHCPV6_UDP_CLIENT DHCPV6_UDP_SERVER 0 (Some UDP_PROTOCOL_DHCPV6) (h_dhcpv6 m) in
        let ipv6 := ipv6_new (link_local_ipv6_address (s_ip (ss x))) ipv6_multicast_all_dhcp (cf_dhcpv6_tc cf) 64 IPV6_NEXT_HEADER_UDP (h_udp udp) in
        let x := if decide (d6_state d = BBL_DHCP_SELECTING) then first_tx x else x in
        (session_ipv6 x (cf_dhcpv6_vlan_priority cf) ipv6,
         count_if "dhcpv6_tx" (count "dhcpv6_tx"
           (up_dhcpv6 (fun d => d {{ d6_retry ::= (fun n => u8 (n + 1)) }}) (up (timer_on timer_dhcpv6 J_dhcpv6_timeout) (count k x)))))
    end.

(** * The PPP protocols *)

(** A network protocol that is not opened in time is closed; the session is cleared
    when both are. *)
Definition bbl_tx_ip6cp_timeout (x : st) : res st :=
  let p := s_ip6cp (ss x) in
  if bool_decide (s_state (ss x) = BBL_PPP_NETWORK) && negb (bool_decide (p_state p = BBL_PPP_OPENED)) then
    let x := if p_retries p =? 0 then x else count_if "ip6cp_timeout" x in
    if cf_ip6cp_conf_request_retry (g_config (gl x)) <? p_retries p then
      let x := up_ip6cp (fun p => p {{ p_state := BBL_PPP_CLOSED }}) x in
      if decide (p_state (s_ipcp (ss x)) = BBL_PPP_CLOSED) then bbl_session_clear x else Ok x
    else Ok (send BBL_SEND_IP6CP_REQUEST x)
  else Ok x.

Definition bbl_ipcp_timeout (x : st) : res st :=
  let p := s_ipcp (ss x) in
  if bool_decide (s_state (ss x) = BBL_PPP_NETWORK) && negb (bool_decide (p_state p = BBL_PPP_OPENED)) then
    let x := if p_retries p =? 0 then x else count_if "ipcp_timeout" x in
    if cf_ipcp_conf_request_retry (g_config (gl x)) <? p_retries p then
      let x := up_ipcp (fun p => p {{ p_state := BBL_PPP_CLOSED }}) x in
      if decide (p_state (s_ip6cp (ss x)) = BBL_PPP_CLOSED) then bbl_session_clear x else Ok x
    else Ok (send BBL_SEND_IPCP_REQUEST x)
  else Ok x.

(** [++session->identifier] *)
Definition next_identifier (p : ppp) : ppp := p {{ p_identifier ::= (fun n => u8 (n + 1)) }}.
Definition ncp_idle (p : ppp) : bool := bool_decide (p_state p = BBL_PPP_CLOSED) || bool_decide (p_state p = BBL_PPP_OPENED).

Definition bbl_tx_encode_packet_ip6cp_request (x : st) : tx * st :=
  if ncp_idle (s_ip6cp (ss x)) then (tx_error WRONG_PROTOCOL_STATE, x)
  else
    let x := up_ip6cp next_identifier x in
    let p := s_ip6cp (ss x) in
    let h := ip6cp0 {{ ip6cp_code := p_request_code p ; ip6cp_identifier := p_identifier p ;
                       ip6cp_ipv6_identifier := if p_request_code p =? PPP_CODE_CONF_REQUEST then x_ip6cp_ipv6_identifier (s_ppp (ss x)) else 0 }} in
    (tx_packet (session_ppp x PROTOCOL_IP6CP (h_ip6cp h)), count_if "ip6cp_tx" (up (timer_on timer_ip6cp J_ip6cp_timeout) x)).

Definition bbl_tx_encode_packet_ip6cp_response (x : st) : tx * st :=
  let p := s_ip6cp (ss x) in
  let h := ip6cp0 {{ ip6cp_code := p_response_code p ; ip6cp_identifier := p_peer_identifier p }} in
  let h := if p_options_len p =? 0 then h {{ ip6cp_ipv6_identifier := x_ip6cp_ipv6_identifier (s_ppp (ss x)) }}
           else h {{ ip6cp_options := Some (p_options p) ; ip6cp_options_len := p_options_len p }} in
  (tx_packet (session_ppp x PROTOCOL_IP6CP (h_ip6cp h)), count_if "ip6cp_tx" x).

Definition bbl_tx_encode_packet_ipcp_request (x : st) : tx * st :=
  if ncp_idle (s_ipcp (ss x)) then (tx_error WRONG_PROTOCOL_STATE, x)
  else
    let x := up_ipcp next_identifier x in
    let p := s_ipcp (ss x) in
    let i := s_ip (ss x) in
    let conf := p_request_code p =? PPP_CODE_CONF_REQUEST in
    let addr := conf && (negb (ip_address i =? 0) || cf_ipcp_request_ip (g_config (gl x))) in
    let d1 := conf && x_ipcp_request_dns1 (s_ppp (ss x)) in
    let d2 := conf && x_ipcp_request_dns2 (s_ppp (ss x)) in
    let h := ipcp0 {{ ipcp_code := p_request_code p ; ipcp_identifier := p_identifier p ;
                      ipcp_address := (if addr then ip_address i else 0) ; ipcp_option_address := addr ;
                      ipcp_dns1 := (if d1 then dns1 i else 0) ; ipcp_option_dns1 := d1 ;
                      ipcp_dns2 := (if d2 then dns2 i else 0) ; ipcp_option_dns2 := d2 }} in
    (tx_packet (session_ppp x PROTOCOL_IPCP (h_ipcp h)), count_if "ipcp_tx" (up (timer_on timer_ipcp J_ipcp_timeout) x)).

Definition bbl_tx_encode_packet_ipcp_response (x : st) : tx * st :=
  let p := s_ipcp (ss x) in
  let h := ipcp0 {{ ipcp_code := p_response_code p ; ipcp_identifier := p_peer_identifier p }} in
  let h := if p_options_len p =? 0 then h else h {{ ipcp_options := Some (p_options p) ; ipcp_options_len := p_options_len p }} in
  (tx_packet (session_ppp x PROTOCOL_IPCP (h_ipcp h)), count_if "ipcp_tx" x).

Definition bbl_lcp_timeout (x : st) : res st :=
  let p := s_lcp (ss x) in
  if bool_decide (s_state (ss x) = BBL_PPP_LINK) && negb (bool_decide (p_state p = BBL_PPP_OPENED)) then
    let x := if p_retries p =? 0 then x else count_if "lcp_timeout" x in
    if cf_lcp_conf_request_retry (g_config (gl x)) <? p_retries p then bbl_session_clear x else Ok (send BBL_SEND_LCP_REQUEST x)
  else if decide (s_state (ss x) = BBL_PPP_TERMINATING) then
    if 3 <? p_retries p then x ← bbl_session_update_state BBL_TERMINATING x; Ok (send_padt x)
    else bbl_session_clear x
  else Ok x.

Definition bbl_tx_encode_packet_lcp_request (x : st) : tx * st :=
  let x := up_lcp next_identifier x in
  let p := s_lcp (ss x) in
  let code := p_request_code p in
  let h := lcp0 {{ lcp_code := code ; lcp_identifier := p_identifier p }} in
  let h := if code =? PPP_CODE_ECHO_REQUEST then h {{ lcp_magic := x_magic_number (s_ppp (ss x)) }}
           else if code =? PPP_CODE_CONF_REQUEST then h {{ lcp_mru := x_mru (s_ppp (ss x)) ; lcp_magic := x_magic_number (s_ppp (ss x)) }} else h in
  let timeout := if code =? PPP_CODE_ECHO_REQUEST then 0
                 else if code =? PPP_CODE_CONF_REQUEST then cf_lcp_conf_request_timeout (g_config (gl x)) else 1 in
  (tx_packet (session_ppp x PROTOCOL_LCP (h_lcp h)),
   count_if "lcp_tx" (if timeout =? 0 then x else up (timer_on timer_lcp J_lcp_timeout) x)).

Definition bbl_tx_encode_packet_lcp_response (x : st) : tx * st :=
  let p := s_lcp (ss x) in
  let q := s_ppp (ss x) in
  let h := lcp0 {{ lcp_code := p_response_code p ; lcp_identifier := p_peer_identifier p }} in
  let h := if p_response_code p =? PPP_CODE_ECHO_REPLY then h {{ lcp_magic := x_magic_number q }}
           else if p_options_len p =? 0 then h {{ lcp_mru := x_peer_mru q ; lcp_auth := x_auth_protocol q ; lcp_magic := x_peer_magic_number q }}
           else h {{ lcp_options := Some (p_options p) ; lcp_options_len := p_options_len p }} in
  (tx_packet (session_ppp x PROTOCOL_LCP (h_lcp h)), count_if "lcp_tx" x).

(** * PPPoE discovery *)

Definition send_discovery (x : st) : st := bbl_session_tx_qnode_insert (up (fun s => s {{ s_send_requests := BBL_SEND_DISCOVERY }}) x).

Definition bbl_padi_timeout (x : st) : res st :=
  Ok (if decide (s_state (ss x) = BBL_PPPOE_INIT) then send_discovery x else x).

Definition bbl_padr_timeout (x : st) : res st :=
  if decide (s_state (ss x) = BBL_PPPOE_REQUEST) then
    x ← (if cf_pppoe_discovery_retry (g_config (gl x)) <? pppoe_retries (s_pppoe (ss x)) then bbl_session_update_state BBL_PPPOE_INIT x else Ok x);
    Ok (send_discovery x)
  else Ok x.

Definition session_discovery (x : st) (d : bbl_pppoe_discovery) : ethernet :=
  (with_priority (cf_pppoe_vlan_priority (g_config (gl x))) (session_eth (ss x)))
    {{ eth_type := ETH_TYPE_PPPOE_DISCOVERY ; eth_next := h_pppoe_discovery d }}.

(** What PADI and PADR have in common. *)
Definition discovery_request (x : st) (d : bbl_pppoe_discovery) : ethernet :=
  let s := ss x in
  let p := s_pppoe s in
  let d := match pppoe_service_name p with Some n => d {{ pd_service_name := Some n ; pd_service_name_len := strlen n }} | None => d end in
  let d := if pppoe_host_uniq p =? 0 then d else d {{ pd_host_uniq := Some (le_split 8 (pppoe_host_uniq p)) ; pd_host_uniq_len := 8 }} in
  let d := d {{ pd_max_payload := cf_pppoe_max_payload (g_config (gl x)) }} in
  let d := if has_line s then d {{ pd_access_line := Some (session_line s (agent_circuit_id (s_line s)) (line_profile (s_line s))) }} else d in
  session_discovery x d.

Definition bbl_encode_padi (x : st) : ethernet := discovery_request x (pppoe_discovery0 {{ pd_code := PPPOE_PADI }}).
Definition bbl_encode_padr (x : st) : ethernet :=
  let cookie := pppoe_ac_cookie (s_pppoe (ss x)) in
  discovery_request x (pppoe_discovery0 {{ pd_code := PPPOE_PADR ; pd_ac_cookie := (if bool_decide (cookie = []) then None else Some cookie) ;
                                           pd_ac_cookie_len := strlen cookie }}).
Definition bbl_encode_padt (x : st) : ethernet :=
  session_discovery x (pppoe_discovery0 {{ pd_code := PPPOE_PADT ; pd_session_id := pppoe_session_id (s_pppoe (ss x)) }}).

Definition bbl_tx_encode_packet_discovery (x : st) : res (tx * st) :=
  match s_state (ss x) with
  | BBL_PPPOE_INIT => Ok (tx_packet (bbl_encode_padi x), first_tx (count_if "padi_tx" (up (timer_on timer_padi J_padi_timeout) x)))
  | BBL_PPPOE_REQUEST => Ok (tx_packet (bbl_encode_padr x), count_if "padr_tx" (up (timer_on timer_padr J_padr_timeout) x))
  | BBL_TERMINATING =>
      let t := tx_packet (bbl_encode_padt x) in
      x ← bbl_session_update_state BBL_TERMINATED (count_if "padt_tx" x); Ok (t, x)
  | _ => Ok (tx_error UNKNOWN_PROTOCOL, x)
  end.

(** * DHCP and ARP *)

Definition bbl_dhcp_timeout (x : st) : res st :=
  let d := s_dhcp (ss x) in
  match d_state d with
  | BBL_DHCP_INIT | BBL_DHCP_BOUND => Ok x
  | state =>
      let x := count_if "dhcp_timeout" x in
      if d_retry d <? cf_dhcp_retry (g_config (gl x)) then Ok (send BBL_SEND_DHCP_REQUEST x)
      else if decide (state = BBL_DHCP_RELEASE) then
        let x := up_dhcp (fun d => d {{ d_state := BBL_DHCP_INIT }}) x in
        if decide (s_state (ss x) = BBL_TERMINATING) then bbl_session_clear x else Ok x
      else bbl_dhcp_restart x
  end.

(** [struct dhcp_header] *)
Definition dhcp_header_of (x : st) (secs ciaddr : Z) : list Z :=
  let s := ss x in
  let d := s_dhcp s in
  let broadcast := cf_dhcp_broadcast (g_config (gl x)) && (dhcp_rank (d_state d) <? dhcp_rank BBL_DHCP_BOUND) in
  [BOOTREQUEST; 1; 6; 0] ++ le_split 4 (d_xid d) ++ be_split 2 secs ++ be_split 2 (if broadcast then 2 ^ 15 else 0) ++ le_split 4 ciaddr
  ++ replicate 12 0 ++ take 6 (s_client_mac s) ++ replicate 10 0 ++ replicate 192 0.

(** [dhcp.parameter_request_list] with the options that are asked for. *)
Definition ask_parameters (m : bbl_dhcp) : bbl_dhcp :=
  m {{ dhcp_parameter_request_list := true ; dhcp_option_netmask := true ; dhcp_option_dns1 := true ; dhcp_option_dns2 := true ;
       dhcp_option_router := true ; dhcp_option_host_name := true ; dhcp_option_domain_name := true }}.

Inductive dhcp_to := To_broadcast | To_server.

(** The message, its counter, its destination and the client address in the header. *)
Definition dhcp_message (x : st) : option (bbl_dhcp * string * dhcp_to) :=
  let d := s_dhcp (ss x) in
  let m := dhcp0 {{ dhcp_vendor_class_id := dhcp_vendor_class (s_line (ss x)) ;
                    dhcp_access_line := (if cf_dhcp_access_line (g_config (gl x)) && has_line (ss x)
                                         then Some (session_line (ss x) (agent_circuit_id (s_line (ss x))) None) else None) }} in
  match d_state d with
  | BBL_DHCP_SELECTING => Some (ask_parameters (m {{ dhcp_type := DHCP_MESSAGE_DISCOVER }}), "dhcp_tx_discover", To_broadcast)
  | BBL_DHCP_REQUESTING =>
      Some (ask_parameters (m {{ dhcp_type := DHCP_MESSAGE_REQUEST ; dhcp_option_address := true ; dhcp_address := d_address d ;
                                 dhcp_option_server_identifier := true ; dhcp_server_identifier := d_server_identifier d }}),
            "dhcp_tx_request", To_broadcast)
  | BBL_DHCP_RENEWING => Some (m {{ dhcp_type := DHCP_MESSAGE_REQUEST }}, "dhcp_tx_request", To_server)
  | BBL_DHCP_RELEASE =>
      Some (m {{ dhcp_type := DHCP_MESSAGE_RELEASE ; dhcp_option_server_identifier := true ; dhcp_server_identifier := d_server_identifier d }},
            "dhcp_tx_release", To_server)
  | _ => None
  end.

Definition dhcp_packet (x : st) (secs : Z) (m : bbl_dhcp) (to : dhcp_to) : ethernet :=
  let s := ss x in
  let d := s_dhcp s in
  let cf := g_config (gl x) in
  let ip := ip_address (s_ip s) in
  let m := m {{ dhcp_header := Some (dhcp_header_of x secs (match to with To_broadcast => 0 | To_server => ip end)) }} in
  let udp := mk_udp DHCP_UDP_CLIENT DHCP_UDP_SERVER 0 (Some UDP_PROTOCOL_DHCP) (h_dhcp m) in
  let '(mac, dst) := match to with To_broadcast => (broadcast_mac, IPV4_BROADCAST) | To_server => (d_server_mac d, d_server_identifier d) end in
  let ipv4 := (ipv4_new ip dst 255 PROTOCOL_IPV4_UDP (h_udp udp)) {{ ipv4_tos := cf_dhcp_tos cf }} in
  (with_priority (cf_dhcp_vlan_priority cf) (session_eth s)) {{ eth_dst := Some mac ; eth_type := ETH_TYPE_IPV4 ; eth_next := h_ipv4 ipv4 }}.

(** After a release, the session may be cleared. *)
Definition dhcp_sent (release : bool) (x : st) : res st :=
  let x := up_dhcp (fun d => d {{ d_retry ::= (fun n => u8 (n + 1)) }}) x in
  if release && negb (d_retry (s_dhcp (ss x)) <? cf_dhcp_release_retry (g_config (gl x))) then
    let x := up_dhcp (fun d => d {{ d_state := BBL_DHCP_INIT }}) x in
    if decide (s_state (ss x) = BBL_TERMINATING) then bbl_session_clear x else Ok x
  else Ok (up (timer_on timer_dhcp_retry J_dhcp_timeout) x).

Definition bbl_tx_encode_packet_dhcp (x : st) : res (tx * st) :=
  let d := s_dhcp (ss x) in
  let now := g_now (gl x) in
  if bool_decide (d_state d = BBL_DHCP_INIT) || bool_decide (d_state d = BBL_DHCP_BOUND) then Ok (tx_error IGNORED, x)
  else
    let first := tv_sec (d_request_timestamp d) =? 0 in
    let secs := if first then 0 else u16 (Z.min (tv_sec now - tv_sec (d_request_timestamp d)) 65535) in
    let x := if first then up_dhcp (fun d => d {{ d_request_timestamp := mk_ts (tv_sec now) (tv_nsec (d_request_timestamp d)) }}) x else x in
    match dhcp_message x with
    | None => Ok (tx_error IGNORED, x)
    | Some (m, k, to) =>
        let t := tx_packet (dhcp_packet x secs m to) in
        let x := count k x in
        let x := if decide (d_state d = BBL_DHCP_SELECTING) then first_tx x else x in
        x ← dhcp_sent (dhcp_type m =? DHCP_MESSAGE_RELEASE) x;
        Ok (t, count_if "dhcp_tx" (count "dhcp_tx" x))
    end.

Definition bbl_arp_timeout (x : st) : res st := Ok (send BBL_SEND_ARP_REQUEST x).

Definition session_arp (s : sess) (dst : ptr) (arp : bbl_arp) : ethernet :=
  (session_eth s) {{ eth_dst := dst ; eth_type := ETH_TYPE_ARP ; eth_next := h_arp arp }}.

Definition bbl_tx_encode_packet_arp_request (x : st) : tx * st :=
  let s := ss x in
  let i := s_ip s in
  if (ip_address i =? 0) || (peer_ip_address i =? 0) then (tx_error IGNORED, x)
  else
    let t := tx_packet (session_arp s None (mk_arp ARP_REQUEST (Some (s_client_mac s)) (ip_address i) None (peer_ip_address i))) in
    let x := if arp_resolved i && (cf_arp_interval (g_config (gl x)) =? 0) then x else up (timer_on timer_arp J_arp_timeout) x in
    (t, count_if "arp_tx" (first_tx x)).

Definition bbl_tx_encode_packet_arp_reply (x : st) : tx * st :=
  let s := ss x in
  let i := s_ip s in
  (tx_packet (session_arp s (Some (s_server_mac s))
                (mk_arp ARP_REPLY (Some (s_client_mac s)) (ip_address i) (Some (s_server_mac s)) (peer_ip_address i))),
   count_if "arp_tx" x).

(** * CFM *)

Definition cfm_mac (level : Z) : list Z := [0x01; 0x80; 0xC2; 0x00; 0x00; Z.lor 0x30 level].

Definition bbl_tx_encode_packet_cfm_cc_session (x : st) : tx * st :=
  match s_cfm (ss x) with
  | None => (tx_error IGNORED, x)
  | Some c =>
      let name := default [] (cc_ma_name c) in
      let h := mk_cfm CFM_TYPE_CCM (cc_seq c) (cc_rdi c) (cc_level c) CMF_MD_NAME_FORMAT_NONE 0 [] (cc_ma_id c) CMF_MA_NAME_FORMAT_STRING
                 (u8 (strlen name)) name in
      let c := c {{ cc_tx ::= (fun n => u32 (n + 1)) ; cc_seq ::= (fun n => if n =? 0 then 0 else at_least_1 (u32 (n + 1))) }} in
      (tx_packet ((session_eth (ss x)) {{ eth_dst := Some (cfm_mac (cc_level c)) ; eth_type := ETH_TYPE_CFM ; eth_next := h_cfm h }}),
       up (fun s => s {{ s_cfm := Some c }}) x)
  end.

Definition bbl_cfm_cc_session_job (x : st) : res st :=
  Ok (if match s_cfm (ss x) with Some c => cc_on c | None => false end && negb (bool_decide (s_state (ss x) = BBL_TERMINATED))
        then send BBL_SEND_CFM_CC x else x).

(** * One request *)

(** [session->retries++] *)
Definition ppp_retry (p : ppp) : ppp := p {{ p_retries ::= (fun n => u8 (n + 1)) }}.
Definition auth_retry (p : lcp_part) : lcp_part := p {{ x_auth_retries ::= (fun n => u8 (n + 1)) }}.
Definition wants (s : sess) (bit : Z) : bool := negb (Z.land (s_send_requests s) bit =? 0).

Definition done_request (bit : Z) (f : st -> st) (r : tx * st) : tx * st := (r.1, f (up (unwant bit) r.2)).

Definition bbl_tx_encode_packet (x : st) : res (tx * st) :=
  let w := wants (ss x) in
  if w BBL_SEND_DISCOVERY then
    r ← bbl_tx_encode_packet_discovery x;
    Ok (done_request BBL_SEND_DISCOVERY (up_pppoe (fun p => p {{ pppoe_retries ::= (fun n => u8 (n + 1)) }})) r)
  else if w BBL_SEND_LCP_REQUEST then Ok (done_request BBL_SEND_LCP_REQUEST (up_lcp ppp_retry) (bbl_tx_encode_packet_lcp_request x))
  else if w BBL_SEND_LCP_RESPONSE then Ok (done_request BBL_SEND_LCP_RESPONSE id (bbl_tx_encode_packet_lcp_response x))
  else if w BBL_SEND_PAP_REQUEST then Ok (done_request BBL_SEND_PAP_REQUEST (up_ppp auth_retry) (bbl_tx_encode_packet_pap_request x))
  else if w BBL_SEND_CHAP_RESPONSE then Ok (done_request BBL_SEND_CHAP_RESPONSE (up_ppp auth_retry) (bbl_tx_encode_packet_chap_response x))
  else if w BBL_SEND_IPCP_REQUEST then Ok (done_request BBL_SEND_IPCP_REQUEST (up_ipcp ppp_retry) (bbl_tx_encode_packet_ipcp_request x))
  else if w BBL_SEND_IPCP_RESPONSE then Ok (done_request BBL_SEND_IPCP_RESPONSE id (bbl_tx_encode_packet_ipcp_response x))
  else if w BBL_SEND_IP6CP_REQUEST then Ok (done_request BBL_SEND_IP6CP_REQUEST (up_ip6cp ppp_retry) (bbl_tx_encode_packet_ip6cp_request x))
  else if w BBL_SEND_IP6CP_RESPONSE then Ok (done_request BBL_SEND_IP6CP_RESPONSE id (bbl_tx_encode_packet_ip6cp_response x))
  else if w BBL_SEND_ICMPV6_RS then Ok (done_request BBL_SEND_ICMPV6_RS id (bbl_tx_encode_packet_icmpv6_rs x))
  else if w BBL_SEND_DHCPV6_REQUEST then Ok (done_request BBL_SEND_DHCPV6_REQUEST id (bbl_tx_encode_packet_dhcpv6_request x))
  else if w BBL_SEND_IGMP then Ok (bbl_tx_encode_packet_igmp x)
  else if w BBL_SEND_ARP_REQUEST then Ok (done_request BBL_SEND_ARP_REQUEST id (bbl_tx_encode_packet_arp_request x))
  else if w BBL_SEND_ARP_REPLY then Ok (done_request BBL_SEND_ARP_REPLY id (bbl_tx_encode_packet_arp_reply x))
  else if w BBL_SEND_DHCP_REQUEST then
    r ← bbl_tx_encode_packet_dhcp x; Ok (done_request BBL_SEND_DHCP_REQUEST id r)
  else if w BBL_SEND_CFM_CC then Ok (done_request BBL_SEND_CFM_CC id (bbl_tx_encode_packet_cfm_cc_session x))
  else Ok (tx_error UNKNOWN_PROTOCOL, up (fun s => s {{ s_send_requests := 0 }}) x).
