(* ===== verification/SessionSys.v ===== *)
(** All sessions together: the jobs of the timers, the control job that starts and
    tears down sessions (bbl.c), the commands of the control socket (bbl_session.c),
    packets received on an access interface (bbl_access.c) and one transmit turn of it
    (bbl_tx.c).

    [session_list] is a list; the session with the identifier [n] has the index
    [n - 1].  An access interface is known by its index. *)
From coqutil Require Import Datatypes.RecordSetters.
From S2P Require Import Prelude.
From S2P Require Import Const.
From S2P Require Import ConstApp.
From S2P Require Import ConstStream.
From S2P Require Import ProtoTypes.
From S2P Require Import Timer.
From S2P Require Import Enc.
From S2P Require Import EncodeEth.
From S2P Require Import Stream.
From S2P Require Import Session.
From S2P Require Import SessionDhcp.
From S2P Require Import SessionIgmp.
From S2P Require Import SessionAccess.
From S2P Require Import SessionTx.
Import RecordSetters.DoubleBraceUpdate.
From stdpp Require Import gmap list strings.
Open Scope Z_scope.

(** * Timers *)

(** The function a timer calls. *)
Definition run_job (j : job) (x : st) : res st :=
  match j with
  | J_padi_timeout => bbl_padi_timeout x
  | J_padr_timeout => bbl_padr_timeout x
  | J_lcp_timeout => bbl_lcp_timeout x
  | J_lcp_start_delay => bbl_access_lcp_start_delay x
  | J_lcp_echo => bbl_access_lcp_echo x
  | J_pap_timeout => bbl_tx_pap_timeout x
  | J_chap_timeout => bbl_tx_chap_timeout x
  | J_ipcp_timeout => bbl_ipcp_timeout x
  | J_ip6cp_timeout => bbl_tx_ip6cp_timeout x
  | J_dhcp_timeout => bbl_dhcp_timeout x
  | J_dhcp_s1 => bbl_dhcp_s1_job x
  | J_dhcp_s2 => bbl_dhcp_s2_job x
  | J_dhcpv6_timeout => bbl_tx_dhcpv6_timeout x
  | J_dhcpv6_s1 => bbl_dhcpv6_s1_job x
  | J_dhcpv6_s2 => bbl_dhcpv6_s2_job x
  | J_arp_timeout => bbl_arp_timeout x
  | J_icmpv6_timeout => bbl_icmpv6_timeout x
  | J_session_timeout => bbl_access_session_timeout x
  | J_igmp_initial_join => Ok (bbl_access_igmp_initial_join x)
  | J_igmp_zapping => Ok (bbl_access_igmp_zapping x)
  | J_igmp_timeout => Ok (bbl_tx_igmp_timeout x)
  | J_reconnect => bbl_session_reconnect x
  | J_tun_tx => Ok x                       (* bbl_tun.c *)
  | J_cfm_cc => bbl_cfm_cc_session_job x
  end.

Definition periodic (j : job) : bool := match j with J_lcp_echo | J_igmp_zapping | J_tun_tx | J_cfm_cc => true | _ => false end.

(** A timer of the session expires: it is gone, unless it is periodic or was started
    again by its own function. *)
Definition fire (t : timer_name) (x : st) : res st :=
  match list_find (fun e => e.1 = t) (s_timers (ss x)) with
  | Some (_, (_, j)) => run_job j (if periodic j then x else up (timer_off t) x)
  | None => Ok x
  end.

(** * Monkey testing (bbl_session.c) *)

Definition bbl_session_monkey_pppoe (x : st) : res st :=
  let (r, x) := rand x in
  let toggle (ipcp : bool) (p : ppp) :=
    if decide (p_state p = BBL_PPP_OPENED) then bbl_session_ncp_close ipcp x else bbl_session_ncp_open ipcp x in
  match r mod 256 with
  | 10 => bbl_session_clear x
  | 20 => Ok (toggle true (s_ipcp (ss x)))
  | 30 => Ok (toggle false (s_ip6cp (ss x)))
  | 40 => Ok (send BBL_SEND_LCP_REQUEST (up_lcp (fun p => p {{ p_request_code := PPP_CODE_TERM_REQUEST ; p_options_len := 0 }}) x))
  | 50 => bbl_session_update_state BBL_TERMINATED x
  | 60 => x ← bbl_session_update_state BBL_TERMINATING x; Ok (send_padt x)
  | _ => Ok x
  end.

Definition bbl_session_monkey_ipoe (x : st) : res st :=
  let (r, x) := rand x in
  let d := d_state (s_dhcp (ss x)) in
  let d6 := d6_state (s_dhcpv6 (ss x)) in
  match r mod 256 with
  | 10 => bbl_session_clear x
  | 20 => Ok (if bool_decide (d = BBL_DHCP_DISABLED) || bool_decide (d = BBL_DHCP_RELEASE) then x
              else bbl_session_tx_qnode_insert (dhcp_new_request BBL_DHCP_RELEASE x))
  | 30 => Ok (if bool_decide (d6 = BBL_DHCP_DISABLED) || bool_decide (d6 = BBL_DHCP_RELEASE) then x
              else bbl_session_tx_qnode_insert (dhcpv6_new_request BBL_DHCP_RELEASE x))
  | 40 => if decide (d = BBL_DHCP_DISABLED) then Ok x else bbl_dhcp_restart x
  | 50 => if decide (d6 = BBL_DHCP_DISABLED) then Ok x else bbl_dhcpv6_restart x
  | _ => Ok x
  end.

Definition bbl_session_monkey_job (x : st) : res st :=
  if g_teardown (gl x) || negb (g_monkey (gl x)) || negb (is_running (ss x)) then Ok x
  else match s_access_type (ss x) with ACCESS_TYPE_PPPOE => bbl_session_monkey_pppoe x | ACCESS_TYPE_IPOE => bbl_session_monkey_ipoe x end.

(** * All sessions *)

Record sys := mk_sys {
  y_gl : glob;
  y_sessions : list sess;                  (* session_list *)
  y_vlan : gmap (Z * Z * Z) Z              (* vlan_session_dict *)
}.

Definition upy (f : glob -> glob) (y : sys) : sys := y {{ y_gl ::= f }}.

(** A function of one session. *)
Definition on_session (i : Datatypes.nat) (f : st -> res st) (y : sys) : res sys :=
  s ← opt (y_sessions y !! i);
  x ← f (mk_st (y_gl y) s);
  Ok (y {{ y_gl := gl x ; y_sessions := <[i := ss x]> (y_sessions y) }}).

Definition bbl_session_get (session_id : Z) (y : sys) : option Datatypes.nat :=
  if (g_sessions (y_gl y) <? session_id) || (session_id <? 1) then None else Some (Z.to_nat (session_id - 1)).

(** [for(i = 0; i < g_ctx->sessions; i++)] *)
Fixpoint each_session (is_ : list Datatypes.nat) (f : st -> res st) (y : sys) : res sys :=
  match is_ with [] => Ok y | i :: is_ => y ← on_session i f y; each_session is_ f y end.
Definition all_sessions (f : st -> res st) (y : sys) : res sys := each_session (seq 0 (Z.to_nat (g_sessions (y_gl y)))) f y.

(** * The control job (bbl.c) *)

Definition teardown_request (y : sys) : sys := upy (fun g => g {{ g_teardown := true ; g_teardown_request := true }}) y.

(** The first packets of an IPoE session. *)
Definition start_ipoe_ipv4 (x : st) : res st :=
  let s := ss x in
  if negb (ac_ipv4_enable (s_config s)) then Ok x
  else if negb (bool_decide (d_state (s_dhcp s) = BBL_DHCP_DISABLED)) then bbl_dhcp_start x
  else Ok (if (ip_address (s_ip s) =? 0) || (peer_ip_address (s_ip s) =? 0) then x else up (want BBL_SEND_ARP_REQUEST) x).
Definition start_ipoe_ipv6 (x : st) : res st :=
  let s := ss x in
  if negb (ac_ipv6_enable (s_config s)) then Ok x
  else if negb (bool_decide (d6_state (s_dhcpv6 s) = BBL_DHCP_DISABLED)) then bbl_dhcpv6_start x
  else Ok (up (want BBL_SEND_ICMPV6_RS) x).

(** An idle session is started. *)
Definition start_session (x : st) : res st :=
  let x := upg (fun g => g {{ g_sessions_outstanding ::= (fun n => u32 (n + 1)) }}) x in
  let x := match s_cfm (ss x) with Some _ => up (timer_on timer_cfm_cc J_cfm_cc) x | None => x end in
  x ← match s_access_type (ss x) with
      | ACCESS_TYPE_PPPOE => Ok (up (fun s => s {{ s_state := BBL_PPPOE_INIT ; s_send_requests := BBL_SEND_DISCOVERY }}) x)
      | ACCESS_TYPE_IPOE =>
          x ← start_ipoe_ipv4 (up (fun s => s {{ s_state := BBL_IPOE_SETUP ; s_send_requests := 0 }}) x);
          start_ipoe_ipv6 x
      end;
  Ok (upg (fun g => g {{ g_idle := filter (.≠ s_id (ss x)) (g_idle g) }}) (bbl_session_tx_qnode_insert x)).

(** [while(!CIRCLEQ_EMPTY(&g_ctx->sessions_idle_qhead))], at most [rate] times. *)
Fixpoint start_sessions (rate : Datatypes.nat) (y : sys) : res sys :=
  match rate, g_idle (y_gl y) with
  | S rate, id :: _ =>
      if g_sessions_outstanding (y_gl y) <? cf_sessions_max_outstanding (g_config (y_gl y))
      then y ← on_session (Z.to_nat (id - 1)) start_session y; start_sessions rate y
      else Ok y
  | _, _ => Ok y
  end.

(** The teardown list in chunks: a session that is not idle takes one of [rate]. *)
Definition teardown_session (x : st) : res st :=
  x ← bbl_session_clear x; Ok (upg (fun g => g {{ g_teardown_queue := filter (.≠ s_id (ss x)) (g_teardown_queue g) }}) x).

Fixpoint teardown_sessions (ids : list Z) (rate : Z) (y : sys) : res sys :=
  match ids with
  | [] => Ok y
  | id :: ids =>
      if rate <=? 0 then Ok y
      else
        s ← opt (y_sessions y !! Z.to_nat (id - 1));
        y ← on_session (Z.to_nat (id - 1)) teardown_session y;
        teardown_sessions ids (if decide (s_state s = BBL_IDLE) then rate else rate - 1) y
  end.

(** Every session is put on the teardown list once. *)
Definition queue_all (g : glob) : glob :=
  g {{ g_teardown_queue ::= (fun q => q ++ filter (fun id => id ∉ q) (map Z.of_nat (seq 1 (Z.to_nat (g_sessions g))))) ; g_teardown_request := false }}.

(** [resolved] says whether all gateways of the network interfaces are. *)
Definition bbl_ctrl_job (resolved : bool) (y : sys) : res sys :=
  let g := y_gl y in
  if g_init_phase g && negb (g_teardown g) && negb resolved then Ok y
  else
    let y := if g_init_phase g && negb (g_teardown g)
             then upy (fun g => g {{ g_init_phase := false ; g_timestamp_resolved := g_now g }}) y else y in
    let g := y_gl y in
    if g_teardown g then
      let y := if negb (g_l2tp_tunnels g =? 0) && (g_sessions g <=? g_sessions_terminated g)
               then upy (fun g => g {{ g_calls := g_calls g ++ [call_l2tp_stop_all_tunnel] }}) y else y in
      if g_teardown_request g then Ok (upy (fun g => (queue_all g) {{ g_calls := g_calls g ++ [call_routing_teardown] }}) y)
      else teardown_sessions (g_teardown_queue g) (cf_sessions_stop_rate (g_config g)) y
    else
      let delay := cf_sessions_start_delay (g_config g) in
      if negb (delay =? 0) && (tv_sec (timespec_sub (g_now g) (g_timestamp_resolved g)) <? delay) then Ok y
      else start_sessions (Z.to_nat (cf_sessions_start_rate (g_config g))) y.

(** * The control socket (bbl_session.c) *)

(** The sessions a command is for: one, or all of a group. *)
Inductive scope := Session (id : Z) | Group (group : option Z).

(** The result of a command: whether the session was found. *)
Definition command (c : scope) (f : st -> res st) (y : sys) : res (bool * sys) :=
  match c with
  | Session id =>
      match bbl_session_get id y with
      | Some i => y ← on_session i f y; Ok (true, y)
      | None => Ok (false, y)
      end
  | Group group =>
      y ← all_sessions (fun x => if match group with Some k => negb (s_group_id (ss x) =? k) | None => false end then Ok x else f x) y;
      Ok (true, y)
  end.

Definition stop_session (x : st) : res st := bbl_session_clear (up (fun s => s {{ s_reconnect_disabled := true }}) x).
Definition restart_session (reconnect_delay : Z) (x : st) : res st :=
  if decide (s_state (ss x) = BBL_TERMINATED) then bbl_session_reconnect x
  else bbl_session_clear (up (fun s => s {{ s_reconnect_disabled := false ; s_reconnect_delay := reconnect_delay }}) x).

Definition bbl_session_ctrl_stop (c : scope) (y : sys) : res (bool * sys) := command c stop_session y.
Definition bbl_session_ctrl_restart (c : scope) (reconnect_delay : Z) (y : sys) : res (bool * sys) :=
  if reconnect_delay <? 0 then Ok (false, y) else command c (restart_session (u32 reconnect_delay)) y.
Definition bbl_session_ctrl_start (c : scope) (y : sys) : res (bool * sys) :=
  if g_teardown (y_gl y) then Ok (false, y)
  else command c bbl_session_reconnect y.

Definition only_pppoe (f : st -> st) (x : st) : res st :=
  match s_access_type (ss x) with ACCESS_TYPE_PPPOE => Ok (f x) | ACCESS_TYPE_IPOE => Ok x end.
Definition bbl_session_ctrl_ncp_open_close (c : scope) (open ipcp : bool) (y : sys) : res (bool * sys) :=
  command c (only_pppoe (if open then bbl_session_ncp_open ipcp else bbl_session_ncp_close ipcp)) y.
Definition bbl_session_ctrl_lcp_echo_request (c : scope) (ignore : bool) (y : sys) : res (bool * sys) :=
  command c (only_pppoe (up_ppp (fun p => p {{ x_echo_request_ignore := ignore }}))) y.

(** * Packets of an access interface *)

Definition bbl_access_session_id_from_vlan (ifindex : Z) (eth : ethernet) (y : sys) : Z :=
  default 0 (y_vlan y !! (ifindex, eth_vlan_outer eth, eth_vlan_inner eth)).

(** The session in the last three bytes of a MAC address. *)
Definition mac_session (mac : list Z) : option Z :=
  match mac with _ :: _ :: _ :: a :: b :: c :: _ => Some (Z.lor (Z.lor c (Z.shiftl b 8)) (Z.shiftl a 16)) | _ => None end.

Definition dhcp_session (eth : ethernet) : option Z :=
  if negb (eth_type eth =? ETH_TYPE_IPV4) then Some 0
  else match eth_next eth with
  | h_ipv4 ipv4 =>
      if negb (ipv4_protocol ipv4 =? PROTOCOL_IPV4_UDP) then Some 0
      else match ipv4_next ipv4 with
      | h_udp udp =>
          protocol ← udp_protocol udp;
          if negb (protocol =? UDP_PROTOCOL_DHCP) then Some 0
          else match udp_next udp with h_dhcp dhcp => header ← dhcp_header dhcp; mac_session (drop 28 header) | _ => None end
      | _ => None
      end
  | _ => None
  end.

Definition bbl_access_session_id_from_broadcast (ifindex : Z) (eth : ethernet) (y : sys) : option Z :=
  id ← dhcp_session eth; Some (if id =? 0 then bbl_access_session_id_from_vlan ifindex eth y else id).

Definition on_interface (ifindex : Z) (f : st -> res st) (x : st) : res st := if s_access_interface (ss x) =? ifindex then f x else Ok x.

Definition rx_for (id : Z) (eth : ethernet) (ts : timespec) (y : sys) : res sys :=
  match bbl_session_get id y with
  | Some i => on_session i (rx_unicast eth ts) y
  | None => Ok (upy (fun g => g {{ g_stats := <["no_session" := u64 (default 0 (g_stats g !! "no_session") + 1)]> (g_stats g) }}) y)
  end.

(** Whom a packet is for: one session, or every IPoE session of the interface. *)
Inductive rx_to := To_session (id : Z) | To_all (multicast : bool).

Definition rx_target (ifindex : Z) (eth : ethernet) (y : sys) : option rx_to :=
  dst ← bytes_at (eth_dst eth) 6;
  if bool_decide (dst = broadcast_mac) then
    id ← bbl_access_session_id_from_broadcast ifindex eth y; Some (if id =? 0 then To_all false else To_session id)
  else if match dst with b :: _ => Z.odd b | [] => false end then
    let id := bbl_access_session_id_from_vlan ifindex eth y in Some (if id =? 0 then To_all true else To_session id)
  else id ← mac_session dst; Some (To_session id).

Definition bbl_access_rx_handler (ifindex : Z) (eth : ethernet) (ts : timespec) (y : sys) : res sys :=
  let y := upy (fun g => g {{ g_stats := <["packets_rx" := u64 (default 0 (g_stats g !! "packets_rx") + 1)]>
                                         (<["bytes_rx" := u64 (default 0 (g_stats g !! "bytes_rx") + eth_length eth)]> (g_stats g)) }}) y in
  to ← opt (rx_target ifindex eth y);
  match to with
  | To_session id => rx_for id eth ts y
  | To_all multicast => all_sessions (on_interface ifindex (rx_broadcast multicast eth ts)) y
  end.

(** One turn of [bbl_tx] for the sessions of an access interface: the packet is encoded
    into [buf]. *)
Definition tx_counted (len : Z) (x : st) : st :=
  upg (fun g => g {{ g_stats := <["packets_tx" := u64 (default 0 (g_stats g !! "packets_tx") + 1)]>
                                (<["bytes_tx" := u64 (default 0 (g_stats g !! "bytes_tx") + len)]> (g_stats g)) }})
    (count64 "bytes_tx" len (count64 "packets_tx" 1 x)).

Definition tx_session (buf : list Z) (x : st) : res st :=
  if s_send_requests (ss x) =? 0 then Ok (bbl_session_tx_qnode_remove x)
  else
    r ← bbl_tx_encode_packet x;
    x ← match r with
        | (tx_packet eth, x) =>
            match encode_ethernet eth buf 0 with
            | WFault => Fault
            | WOk (PROTOCOL_SUCCESS, _) w => Ok (tx_counted (w_len w) x)
            | WOk _ _ => Ok x
            end
        | (tx_error _, x) => Ok x
        end;
    let x := bbl_session_tx_qnode_remove x in
    Ok (if s_send_requests (ss x) =? 0 then x else bbl_session_tx_qnode_insert x).

Definition bbl_tx_sessions (ifindex : Z) (buf : list Z) (y : sys) : res sys :=
  match default [] (g_tx (y_gl y) !! ifindex) with
  | [] => Ok y
  | id :: _ => on_session (Z.to_nat (id - 1)) (tx_session buf) y
  end.
