(* ===== verification/SessionIgmpCtrl.v ===== *)
(** The IGMP commands of the control socket (bbl_igmp.c), and what joining a group sends.

    The arguments of a command are given as numbers, addresses in network byte order; the
    result is the code of the answer. *)
From coqutil Require Import Datatypes.RecordSetters.
From S2P Require Import Prelude.
From S2P Require Import Const.
From S2P Require Import ConstApp.
From S2P Require Import ConstStream.
From S2P Require Import Utils.
From S2P Require Import ProtoTypes.
From S2P Require Import Timer.
From S2P Require Import Enc.
From S2P Require Import EncodeEth.
From S2P Require Import Stream.
From S2P Require Import Session.
From S2P Require Import SessionDhcp.
From S2P Require Import SessionIgmp.
From S2P Require Import SessionAccess.
From S2P Require Import SessionTx.
From S2P Require Import SessionSys.
Import RecordSetters.DoubleBraceUpdate.
From stdpp Require Import gmap list strings.
Open Scope Z_scope.

(** * Joining *)

(** The slot for the group: [None] when it is in use already, [Some None] when all are. *)
Fixpoint join_slot (group : Z) (l : list igmp_entry) (i : Datatypes.nat) (found : option Datatypes.nat) : option (option Datatypes.nat) :=
  match l with
  | [] => Some found
  | g :: l =>
      if ig_zapping g then join_slot group l (S i) found
      else if ig_group g =? group then (if ig_state g =? IGMP_GROUP_IDLE then Some (Some i) else None)
      else join_slot group l (S i) (if ig_state g =? IGMP_GROUP_IDLE then Some i else found)
  end.

Definition joining (group : Z) (sources : list Z) (robustness : Z) : igmp_entry :=
  igmp_entry0 {{ ig_group := group ; ig_source := sources ; ig_state := IGMP_GROUP_JOINING ; ig_robustness_count := robustness ; ig_send := true }}.

Definition bbl_igmp_ctrl_join (session_id group source1 source2 source3 : Z) (y : sys) : res (Z * sys) :=
  if session_id =? 0 then Ok (400, y)
  else match bbl_session_get session_id y with
  | None => Ok (404, y)
  | Some i =>
      s ← opt (y_sessions y !! i);
      match join_slot group (m_groups (s_igmp s)) 0 None with
      | None | Some None => Ok (409, y)
      | Some (Some j) =>
          y ← on_session i (fun x => Ok (send BBL_SEND_IGMP
                (up_group j (fun _ => joining group [source1; source2; source3] (m_robustness (s_igmp (ss x)))) x))) y;
          Ok (200, y)
      end
  end.

(** The first slot that is free, unless the group is found in use before it. *)
Inductive iter_slot := Slot_exists | Slot_join (i : Datatypes.nat) | Slot_none.
Fixpoint find_slot (group : Z) (l : list igmp_entry) (i : Datatypes.nat) : iter_slot :=
  match l with
  | [] => Slot_none
  | g :: l =>
      if ig_zapping g then find_slot group l (S i)
      else if (ig_group g =? group) && negb (ig_state g =? IGMP_GROUP_IDLE) then Slot_exists
      else if negb (ig_state g =? IGMP_GROUP_IDLE) then find_slot group l (S i)
      else Slot_join i
  end.

Definition next_group (group iter : Z) : Z := Ipv4.bswap32 (u32 (Ipv4.bswap32 group + iter)).

(** One turn over the sessions: the next address, the groups still to be joined and
    whether one was joined. *)
Fixpoint iter_sessions (is_ : list Datatypes.nat) (group iter count : Z) (sources : list Z) (joined : bool) (y : sys) : res (Z * Z * bool * sys) :=
  match is_ with
  | [] => Ok (group, count, joined, y)
  | i :: is_ =>
      s ← opt (y_sessions y !! i);
      match find_slot group (m_groups (s_igmp s)) 0 with
      | Slot_exists => iter_sessions is_ (next_group group iter) iter count sources joined y
      | Slot_none => iter_sessions is_ group iter count sources joined y
      | Slot_join j =>
          y ← on_session i (fun x => Ok (up (want BBL_SEND_IGMP)
                (up_group j (fun _ => joining group sources (m_robustness (s_igmp (ss x)))) x))) y;
          if count - 1 =? 0 then Ok (group, 0, true, y)
          else iter_sessions is_ (next_group group iter) iter (count - 1) sources true y
      end
  end.

(** [while(group_count)]; a turn without a join ends it. *)
Fixpoint iter_turns (fuel : Datatypes.nat) (group iter count : Z) (sources : list Z) (y : sys) : res sys :=
  match fuel with
  | O => Ok y
  | S fuel =>
      '(group, count, joined, y) ← iter_sessions (seq 0 (Z.to_nat (g_sessions (y_gl y)))) group iter count sources false y;
      if (count =? 0) || negb joined then Ok y else iter_turns fuel group iter count sources y
  end.

Definition bbl_igmp_ctrl_join_iter (group iter group_count source1 source2 source3 : Z) (y : sys) : res (Z * sys) :=
  let count := Z.max 1 group_count in
  y ← iter_turns (Z.to_nat count) group iter count [source1; source2; source3] y; Ok (200, y).

(** * Leaving *)

Definition leaving (robustness : Z) (g : igmp_entry) : igmp_entry :=
  g {{ ig_state := IGMP_GROUP_LEAVING ; ig_robustness_count := robustness ; ig_send := true ;
       ig_leave_tx_time := mk_ts 0 0 ; ig_last_mc_rx_time := mk_ts 0 0 }}.

Definition bbl_igmp_ctrl_leave (session_id group : Z) (y : sys) : res (Z * sys) :=
  if session_id =? 0 then Ok (400, y)
  else match bbl_session_get session_id y with
  | None => Ok (404, y)
  | Some i =>
      s ← opt (y_sessions y !! i);
      match list_find (fun g => ig_group g = group) (m_groups (s_igmp s)) with
      | None => Ok (404, y)
      | Some (j, g) =>
          if ig_zapping g then Ok (408, y)
          else if ig_state g <=? IGMP_GROUP_LEAVING then Ok (200, y)
          else y ← on_session i (fun x => Ok (send BBL_SEND_IGMP (up_group j (leaving (m_robustness (s_igmp (ss x)))) x))) y; Ok (200, y)
      end
  end.

Definition may_leave (g : igmp_entry) : bool := negb (ig_zapping g || (ig_state g <=? IGMP_GROUP_LEAVING)).
Definition leave_groups (x : st) : st :=
  let any := existsb may_leave (groups x) in
  let x := up_igmp (fun m => m {{ m_groups ::= map (fun g => if may_leave g then leaving (m_robustness m) g else g) }}) x in
  if any then send BBL_SEND_IGMP x else x.
Definition bbl_igmp_ctrl_leave_all (y : sys) : res (Z * sys) := y ← all_sessions (fun x => Ok (leave_groups x)) y; Ok (200, y).

Definition bbl_igmp_ctrl_zapping_start (y : sys) : Z * sys := (200, upy (fun g => g {{ g_zapping := true }}) y).
Definition bbl_igmp_ctrl_zapping_stop (y : sys) : Z * sys := (200, upy (fun g => g {{ g_zapping := false }}) y).
