(* ===== verification/SessionInit.v ===== *)
(** The sessions created when the program starts (bbl_session.c, bbl_config.h): the
    VLANs of the access configurations are handed out in turn.

    An access interface is known by its index.  What other components add to a session
    (streams, TCP, the ICMP, ARP and HTTP clients, tun) is left out; it does not touch
    the fields set here.  A string is the list of its bytes, with its NUL where it is
    kept as a pointer. *)
From coqutil Require Import Datatypes.RecordSetters.
From S2P Require Import Prelude.
From S2P Require Import Const.
From S2P Require Import ConstApp.
From S2P Require Import ConstStream.
From S2P Require Import ProtoTypes.
From S2P Require Import Timer.
From S2P Require Import Enc.
From S2P Require Import EncodeEth.
From S2P Require Import Stream.
From S2P Require Import Session.
From S2P Require Import SessionDhcp.
From S2P Require Import SessionIgmp.
From S2P Require Import SessionAccess.
From S2P Require Import SessionTx.
From S2P Require Import SessionSys.
From S2P Require Import Utils.
Import RecordSetters.DoubleBraceUpdate.
From stdpp Require Import gmap list strings.
Open Scope Z_scope.

(** * Data *)

Inductive vlan_mode := VLAN_MODE_11 | VLAN_MODE_N1.
#[export] Instance vlan_mode_dec : EqDecision vlan_mode.
Proof. solve_decision. Defined.

(** [bbl_access_config_s]; what established sessions use of it is [a_config]. *)
Record access := mk_access {
  a_config : access_config;
  a_exhausted : bool;
  a_sessions : Z;
  a_sessions_max : Z;
  a_type : access_type;
  a_mode : vlan_mode;
  a_interface : Z;                      (* access_interface->ifindex *)
  a_session_group_id : Z;
  a_outer : Z;
  a_outer_min : Z;
  a_outer_max : Z;
  a_outer_step : Z;
  a_inner : Z;
  a_inner_min : Z;
  a_inner_max : Z;
  a_inner_step : Z;
  a_third : Z;
  a_static_ip : Z;
  a_static_ip_iter : Z;
  a_static_gateway : Z;
  a_static_gateway_iter : Z;
  a_static_ip6_ll : list Z;
  a_username : list Z;
  a_password : list Z;
  a_agent_circuit_id : option (list Z);
  a_agent_remote_id : option (list Z);
  a_access_aggregation_circuit_id : option (list Z);
  a_dhcp_vendor_class_id : option (list Z);
  a_rate_up : Z;
  a_rate_down : Z;
  a_dsl_type : Z;
  a_access_line_profile_id : Z;
  a_dhcp_enable : bool;
  a_dhcpv6_enable : bool;
  a_igmp_version : Z;
  a_cfm_cc : bool;
  a_cfm_seq : bool;
  a_cfm_level : Z;
  a_cfm_ma_id : Z;
  a_cfm_ma_name : option (list Z);
  a_i1 : Z;
  a_i1_step : Z;
  a_i2 : Z;
  a_i2_step : Z
}.

(** An access line profile with its identifier and the rates sessions take from it. *)
Record line_profile_config := mk_line_profile_config { lp_id : Z; lp_act_up : Z; lp_act_down : Z; lp_profile : access_line_profile }.

(** What the creation of sessions uses of [g_ctx->config]. *)
Record setup := mk_setup {
  su_sessions : Z;
  su_iterate_outer_vlan : bool;
  su_mac_modifier : Z;
  su_pppoe_service_name : option (list Z);
  su_pppoe_host_uniq : bool;
  su_sessions_autostart : bool;
  su_profiles : list line_profile_config;
  su_access : list access
}.

(** * VLANs *)

(** The next VLAN of an access configuration, and whether there is one. *)
Definition step_vlan (su : setup) (a : access) : access :=
  if a_outer a =? 0 then a {{ a_outer := a_outer_min a ; a_inner := a_inner_min a }}
  else if su_iterate_outer_vlan su && negb (a_outer_step a =? 0) then
    let outer := u16 (a_outer a + a_outer_step a) in
    if a_outer_max a <? outer then a {{ a_outer := a_outer_min a ; a_inner := u16 (a_inner a + a_inner_step a) }} else a {{ a_outer := outer }}
  else if negb (a_inner_step a =? 0) then
    let inner := u16 (a_inner a + a_inner_step a) in
    if a_inner_max a <? inner then a {{ a_inner := a_inner_min a ; a_outer := u16 (a_outer a + a_outer_step a) }} else a {{ a_inner := inner }}
  else a {{ a_outer := u16 (a_outer a + a_outer_step a) }}.

Definition next_vlan (su : setup) (a : access) : bool * access :=
  if a_exhausted a then (false, a)
  else if negb (a_sessions_max a =? 0) && (a_sessions_max a <=? a_sessions a) then (false, a {{ a_exhausted := true }})
  else match a_mode a with
  | VLAN_MODE_N1 =>
      (true, a {{ a_outer := (if a_outer_min a =? 0 then a_outer_max a else a_outer_min a) ;
                  a_inner := (if a_inner_min a =? 0 then a_inner_max a else a_inner_min a) }})
  | VLAN_MODE_11 =>
      let a := step_vlan su a in
      let a := if a_outer a =? 0 then a {{ a_exhausted := true }} else a in
      if (a_outer_max a <? a_outer a) || (a_inner_max a <? a_inner a) then (false, a {{ a_exhausted := true }}) else (true, a)
  end.

(** * Strings *)

Definition chars (s : string) : list Z := map (fun a => Z.of_N (Ascii.N_of_ascii a)) (String.list_ascii_of_string s).

(** [snprintf] with "%d": an unsigned value is read as a signed one. *)
Fixpoint digits (fuel : Datatypes.nat) (n : Z) (acc : list Z) : list Z :=
  match fuel with
  | O => acc
  | S fuel => let acc := (48 + n mod 10) :: acc in if n <? 10 then acc else digits fuel (n / 10) acc
  end.
Definition print_d (n : Z) : list Z :=
  let n := if n <? 2 ^ 31 then n else n - 2 ^ 32 in
  if n <? 0 then 45 :: digits 10 (- n) [] else digits 10 n [].

(** [update_strings] with the values of the access configuration. *)
Definition update_strings (i : Z) (a : access) (source : list Z) : option (list Z) :=
  s ← Subst.replace_substring source (chars "{session-global}") (print_d i);
  s ← Subst.replace_substring s (chars "{session}") (print_d (a_sessions a));
  s ← Subst.replace_substring s (chars "{i1}") (print_d (a_i1 a));
  s ← Subst.replace_substring s (chars "{i2}") (print_d (a_i2 a));
  s ← Subst.replace_substring s (chars "{outer-vlan}") (print_d (a_outer a));
  Subst.replace_substring s (chars "{inner-vlan}") (print_d (a_inner a)).
Definition update_pointer (i : Z) (a : access) (source : option (list Z)) : ptr := s ← source; s ← update_strings i a s; Some (s ++ [0]).

(** * A session *)

Definition client_mac (su : setup) (i : Z) : list Z := [2; 0; su_mac_modifier su; u8 (Z.shiftr i 16); u8 (Z.shiftr i 8); u8 i].

Definition ppp_new (enabled : bool) : ppp :=
  mk_ppp (if enabled then BBL_PPP_CLOSED else BBL_PPP_DISABLED) 0 0 (replicate (Z.to_nat PPP_OPTIONS_BUFFER) 0) 0 0 0 0.

Definition find_profile (su : setup) (id : Z) : option line_profile_config :=
  if id =? 0 then None else snd <$> list_find (fun p => lp_id p = id) (su_profiles su).

Definition rate_or (rate : Z) (p : option line_profile_config) (f : line_profile_config -> Z) : Z :=
  if rate =? 0 then from_option f 0 p else rate.

Definition line_new (su : setup) (i : Z) (a : access) : line_part :=
  let p := find_profile su (a_access_line_profile_id a) in
  {| agent_circuit_id := update_pointer i a (a_agent_circuit_id a);
     agent_remote_id := update_pointer i a (a_agent_remote_id a);
     access_aggregation_circuit_id := update_pointer i a (a_access_aggregation_circuit_id a);
     rate_up := rate_or (a_rate_up a) p lp_act_up;
     rate_down := rate_or (a_rate_down a) p lp_act_down;
     dsl_type := rate_or (a_dsl_type a) p (fun p => alp_dsl_type (lp_profile p));
     line_profile := lp_profile <$> p;
     dhcp_vendor_class := update_pointer i a (a_dhcp_vendor_class_id a) |}.

Definition cfm_new (i : Z) (a : access) : option cfm_part :=
  if a_cfm_cc a then
    Some {| cc_on := true; cc_rdi := false; cc_tx := 0; cc_seq := (if a_cfm_seq a then 1 else 0); cc_level := a_cfm_level a; cc_ma_id := a_cfm_ma_id a;
            cc_ma_name := (s ← a_cfm_ma_name a; update_strings i a s) |}
  else None.

Definition igmp_new (cf : config) (a : access) : igmp_part :=
  {| m_version := a_igmp_version a; m_robustness := 2; m_groups := replicate (Z.to_nat IGMP_MAX_GROUPS) igmp_entry0;
     m_joined_group := None; m_leaved_group := None;
     m_group_max := u32 (Ipv4.bswap32 (cf_igmp_group cf) + (cf_igmp_group_count cf - 1) * Ipv4.bswap32 (cf_igmp_group_iter cf));
     m_count := 0; m_join_delay_sum := 0; m_join_count := 0; m_leave_delay_sum := 0; m_leave_count := 0; m_view_start_time := mk_ts 0 0;
     m_rx_last_seq := 0 |}.

(** The static address of an IPoE session: the configuration has both. *)
Definition is_static (a : access) : bool :=
  bool_decide (a_type a = ACCESS_TYPE_IPOE) && ac_ipv4_enable (a_config a) && negb (a_static_ip a =? 0) && negb (a_static_gateway a =? 0).

Definition link_local (su : setup) (i : Z) (a : access) : list Z :=
  let own := [0xfe; 0x80; 0; 0; 0; 0; 0; 0; 255; 255; 255; 255; 255] ++ drop 3 (client_mac su i) in
  match a_type a with
  | ACCESS_TYPE_PPPOE => own
  | ACCESS_TYPE_IPOE => if ac_ipv6_enable (a_config a) && negb (bool_decide (a_static_ip6_ll a = zero16)) then a_static_ip6_ll a else own
  end.

Definition ip_new (su : setup) (i : Z) (a : access) : ip_part :=
  {| arp_resolved := false; ip_address := (if is_static a then a_static_ip a else 0); ip_netmask := 0;
     peer_ip_address := (if is_static a then a_static_gateway a else 0); dns1 := 0; dns2 := 0; icmpv6_ra_received := false;
     link_local_ipv6_address := link_local su i a; ipv6_prefix := (0, zero16); ipv6_address := zero16; delegated_ipv6_prefix := (0, zero16);
     delegated_ipv6_address := zero16; ipv6_dns1 := zero16; ipv6_dns2 := zero16 |}.

Definition ipv4_used (a : access) : bool :=
  ac_ipv4_enable (a_config a) && match a_type a with ACCESS_TYPE_PPPOE => ac_ipcp_enable (a_config a) | ACCESS_TYPE_IPOE => true end.
Definition ipv6_used (a : access) : bool :=
  ac_ipv6_enable (a_config a) && match a_type a with ACCESS_TYPE_PPPOE => ac_ip6cp_enable (a_config a) | ACCESS_TYPE_IPOE => true end.
Definition endpoint_of (b : bool) : endpoint_state := if b then ENDPOINT_ENABLED else ENDPOINT_DISABLED.

Definition endpoints_new (a : access) : endpoints :=
  mk_endpoints
    (endpoint_of (ipv4_used a && match a_type a with ACCESS_TYPE_PPPOE => true | ACCESS_TYPE_IPOE => is_static a || a_dhcp_enable a end))
    (endpoint_of (ipv6_used a)) (endpoint_of (ipv6_used a && a_dhcpv6_enable a)).

Definition dhcp_new (a : access) : dhcp_part :=
  let enabled := bool_decide (a_type a = ACCESS_TYPE_IPOE) && ac_ipv4_enable (a_config a) && negb (is_static a) && a_dhcp_enable a in
  {| d_state := (if enabled then BBL_DHCP_INIT else BBL_DHCP_DISABLED); d_requested := false; d_established := false; d_retry := 0; d_xid := 0;
     d_address := 0; d_lease_time := 0; d_t1 := 0; d_t2 := 0; d_server := 0; d_server_identifier := 0; d_server_mac := broadcast_mac;
     d_lease_timestamp := mk_ts 0 0; d_request_timestamp := mk_ts 0 0; d_host_name := None; d_domain_name := None |}.

Definition dhcpv6_new (su : setup) (i : Z) (a : access) : dhcpv6_part :=
  let buffer := replicate (Z.to_nat DHCPV6_BUFFER) 0 in
  {| d6_state := (if ipv6_used a && a_dhcpv6_enable a then BBL_DHCP_INIT else BBL_DHCP_DISABLED); d6_requested := false; d6_established := false;
     d6_retry := 0; d6_xid := 0; d6_duid := [0; 3; 0; 1] ++ client_mac su i; d6_server_duid := buffer; d6_server_duid_len := 0;
     d6_dns1 := zero16; d6_dns2 := zero16; d6_lease_time := 0; d6_t1 := 0; d6_t2 := 0; d6_ia_na_iaid := 0; d6_ia_pd_iaid := 0;
     d6_ia_na_option := buffer; d6_ia_na_option_len := 0; d6_ia_pd_option := buffer; d6_ia_pd_option_len := 0;
     d6_lease_timestamp := mk_ts 0 0; d6_request_timestamp := mk_ts 0 0 |}.

(** The PPP parts: an IPoE session has them disabled. *)
Definition lcp_new (su : setup) (cf : config) (i : Z) (a : access) : lcp_part :=
  let pppoe := bool_decide (a_type a = ACCESS_TYPE_PPPOE) in
  let mac := client_mac su i in
  {| x_echo_request_ignore := false; x_magic_number := (if pppoe then Ipv4.bswap32 i else 0); x_peer_magic_number := 0;
     x_mru := (if pppoe then ac_ppp_mru (a_config a) else 0); x_peer_mru := 0; x_auth_protocol := 0; x_auth_retries := 0; x_chap_identifier := 0;
     x_chap_response := replicate (Z.to_nat CHALLENGE_LEN) 0; x_reply_message := None; x_connections_status_message := None;
     x_ipcp_request_dns1 := pppoe && ipv4_used a && cf_ipcp_request_dns1 cf; x_ipcp_request_dns2 := pppoe && ipv4_used a && cf_ipcp_request_dns2 cf;
     x_ip6cp_ipv6_identifier := le_combine (take 3 mac ++ [0xff; 0xfe] ++ drop 3 mac); x_ip6cp_ipv6_peer_identifier := 0 |}.

Definition pppoe_new (su : setup) (i : Z) (a : access) : pppoe_part :=
  let pppoe := bool_decide (a_type a = ACCESS_TYPE_PPPOE) in
  {| pppoe_session_id := 0; pppoe_ac_cookie := []; pppoe_service_name := (if pppoe then su_pppoe_service_name su else None);
     pppoe_host_uniq := (if pppoe && su_pppoe_host_uniq su then be_combine (le_split 8 i) else 0); pppoe_retries := 0 |}.

(** The session with the identifier [i]; strings are [None] when [replace_substring]
    does not end. *)
Definition session_new (su : setup) (cf : config) (i : Z) (a : access) : option sess :=
  username ← update_strings i a (a_username a);
  password ← update_strings i a (a_password a);
  let pppoe := bool_decide (a_type a = ACCESS_TYPE_PPPOE) in
  Some
  {| s_id := i; s_group_id := a_session_group_id a; s_access_type := a_type a; s_access_interface := a_interface a; s_config := a_config a;
     s_username := username; s_password := password;
     s_state := (if su_sessions_autostart su then BBL_IDLE else BBL_TERMINATED); s_version := 0; s_send_requests := 0;
     s_client_mac := client_mac su i; s_server_mac := broadcast_mac; s_vlan_key := (a_interface a, a_outer a, a_inner a); s_third_vlan := a_third a;
     s_reconnect_delay := 0; s_reconnect_disabled := false; s_timers := []; s_endpoint := endpoints_new a; s_pppoe := pppoe_new su i a;
     s_lcp := ppp_new pppoe; s_ipcp := ppp_new (pppoe && ipv4_used a); s_ip6cp := ppp_new (pppoe && ipv6_used a); s_ppp := lcp_new su cf i a;
     s_ip := ip_new su i a; s_dhcp := dhcp_new a; s_dhcpv6 := dhcpv6_new su i a; s_igmp := igmp_new cf a; s_line := line_new su i a;
     s_cfm := cfm_new i a; s_arp_clients := []; s_l2tp := false; s_l2tp_session := None; s_a10nsp_session := None; s_tun := false;
     s_flows_verified := 0; s_traffic := replicate 6 None; s_stats := ∅ |}.

(** * All sessions *)

(** The iterators of the access configuration move on. *)
Definition advance (a : access) : access :=
  let next x step := Ipv4.bswap32 (u32 (Ipv4.bswap32 x + Ipv4.bswap32 step)) in
  let a := a {{ a_i1 := u32 (a_i1 a + a_i1_step a) ; a_i2 := u32 (a_i2 a + a_i2_step a) }} in
  if is_static a
  then a {{ a_static_ip := next (a_static_ip a) (a_static_ip_iter a) ; a_static_gateway := next (a_static_gateway a) (a_static_gateway_iter a) }} else a.

(** The session is idle, or waits to be started. *)
Definition count_session (su : setup) (i : Z) (g : glob) : glob :=
  let g := if su_sessions_autostart su then g {{ g_idle := g_idle g ++ [i] }} else g {{ g_sessions_terminated ::= (fun n => u32 (n + 1)) }} in
  g {{ g_sessions ::= (fun n => u32 (n + 1)) }}.

(** [vlan_session_dict]: the entry of an N:1 VLAN has no session. *)
Definition take_vlan (mode : vlan_mode) (key : Z * Z * Z) (i : Z) (d : gmap (Z * Z * Z) Z) : option (gmap (Z * Z * Z) Z) :=
  match mode, d !! key with
  | VLAN_MODE_11, Some _ => None
  | VLAN_MODE_11, None => Some (<[key := i]> d)
  | VLAN_MODE_N1, Some n => if n =? 0 then Some d else None
  | VLAN_MODE_N1, None => Some (<[key := 0]> d)
  end.

Definition create_session (su : setup) (i : Z) (a : access) (y : sys) : option (access * sys) :=
  let a := a {{ a_sessions ::= (fun n => u32 (n + 1)) }} in
  s ← session_new su (g_config (y_gl y)) i a;
  vlan ← take_vlan (a_mode a) (s_vlan_key s) i (y_vlan y);
  Some (advance a, mk_sys (count_session su i (y_gl y)) (y_sessions y ++ [s]) vlan).

(** One turn over the access configurations, while sessions are missing: the
    configurations, the next identifier and the number created in this turn. *)
Fixpoint init_turn (su : setup) (todo : list access) (i t : Z) (y : sys) : option (list access * Z * Z * sys) :=
  match todo with
  | [] => Some ([], i, t, y)
  | a :: todo =>
      if su_sessions su <? i then Some (a :: todo, i, t, y)
      else
        let (create, a) := next_vlan su a in
        if create then
          '(a, y) ← create_session su i a y;
          '(l, i, t, y) ← init_turn su todo (i + 1) (t + 1) y;
          Some (a :: l, i, t, y)
        else
          '(l, i, t, y) ← init_turn su todo i t y;
          Some (a :: l, i, t, y)
  end.

(** [while(i <= g_ctx->config.sessions)]: each turn creates a session or is the last.
    [None] when the program gives up. *)
Fixpoint init_loop (fuel : Datatypes.nat) (su : setup) (l : list access) (i : Z) (y : sys) : option sys :=
  if su_sessions su <? i then Some y
  else match fuel with
  | O => None
  | S fuel =>
      '(l, i, t, y) ← init_turn su l i 0 y;
      if t =? 0 then None else init_loop fuel su l i y
  end.

Definition bbl_sessions_init (su : setup) (g : glob) : option sys :=
  init_loop (S (Z.to_nat (su_sessions su))) su (su_access su) 1 (mk_sys g [] ∅).

(** * The sessions that were created *)

(** The program before its sessions are created. *)
Record before_init (g : glob) : Prop := {
  f_sessions : g_sessions g = 0;
  f_outstanding : g_sessions_outstanding g = 0;
  f_established : g_sessions_established g = 0;
  f_terminated : g_sessions_terminated g = 0;
  f_idle : g_idle g = []
}.

(** What is known of a new session with the identifier [i]. *)
Record session_ok (su : setup) (i : Z) (d : gmap (Z * Z * Z) Z) (s : sess) : Prop := {
  so_id : s_id s = i;
  so_mac : s_client_mac s = client_mac su i;
  so_state : s_state s = if su_sessions_autostart su then BBL_IDLE else BBL_TERMINATED;
  so_lcp : p_state (s_lcp s) = BBL_PPP_CLOSED \/ p_state (s_lcp s) = BBL_PPP_DISABLED;
  so_type : exists a, a ∈ su_access su /\ s_access_type s = a_type a;
  so_vlan : d !! s_vlan_key s = Some i \/ (d !! s_vlan_key s = Some 0 /\ exists a, a ∈ su_access su /\ a_mode a = VLAN_MODE_N1)
}.

(** After the sessions before [i]. *)
Record created (su : setup) (i : Z) (y : sys) : Prop := {
  cr_length : Z.of_nat (length (y_sessions y)) = i - 1;
  cr_sessions : g_sessions (y_gl y) = i - 1;
  cr_session : forall n s, y_sessions y !! n = Some s -> session_ok su (Z.of_nat n + 1) (y_vlan y) s;
  cr_outstanding : g_sessions_outstanding (y_gl y) = 0;
  cr_established : g_sessions_established (y_gl y) = 0;
  cr_terminated : g_sessions_terminated (y_gl y) = if su_sessions_autostart su then 0 else i - 1;
  cr_idle : g_idle (y_gl y) = if su_sessions_autostart su then map Z.of_nat (seq 1 (Z.to_nat (i - 1))) else []
}.

(** An access configuration of the setup, with other iterators. *)
Definition same_kind (a b : access) : Prop := a_type a = a_type b /\ a_mode a = a_mode b.
Definition known (su : setup) (a : access) : Prop := exists b, b ∈ su_access su /\ same_kind b a.

Lemma next_vlan_kind su a : same_kind a (next_vlan su a).2.
Proof.
  unfold next_vlan, step_vlan, same_kind. destruct (a_exhausted a); [done|]. destruct (_ && _); [done|]. destruct (a_mode a) eqn:E; [|by split].
  repeat case_match; by split.
Qed.
Lemma advance_kind a : same_kind a (advance a).
Proof. unfold advance. cbv zeta. case_match; by split. Qed.

Lemma known_kind su a b : known su a -> same_kind a b -> known su b.
Proof. intros (c & Hc & Ht & Hm) [Ht' Hm']. exists c. split; [done|]. split; congruence. Qed.

(** An entry is kept, and the session has its own or shares the entry of an N:1 VLAN. *)
Lemma take_vlan_spec m key i d d' :
  take_vlan m key i d = Some d' ->
  (forall k n, d !! k = Some n -> d' !! k = Some n) /\ match m with VLAN_MODE_11 => d' !! key = Some i | VLAN_MODE_N1 => d' !! key = Some 0 end.
Proof.
  unfold take_vlan. destruct m, (d !! key) as [n|] eqn:E; try done.
  - intros [= <-]. split; [|apply lookup_insert_eq]. intros k n Hk. rewrite lookup_insert_ne by congruence. done.
  - case_match eqn:En; [|done]. intros [= <-]. apply Z.eqb_eq in En as ->. done.
  - intros [= <-]. split; [|apply lookup_insert_eq]. intros k n Hk. rewrite lookup_insert_ne by congruence. done.
Qed.

Lemma session_new_ok su cf i a s d :
  known su a -> session_new su cf i a = Some s ->
  (match a_mode a with VLAN_MODE_11 => d !! s_vlan_key s = Some i | VLAN_MODE_N1 => d !! s_vlan_key s = Some 0 end) -> session_ok su i d s.
Proof.
  intros (b & Hb & Ht & Hm). unfold session_new. intros (u & _ & (p & _ & [= <-])%bind_Some)%bind_Some Hd. constructor; cbn in *; try done.
  - destruct (bool_decide _); [by left|by right].
  - by exists b.
  - destruct (a_mode a); [by left|right]. split; [done|]. by exists b.
Qed.

Lemma session_ok_keep su i d d' s : session_ok su i d s -> (forall k n, d !! k = Some n -> d' !! k = Some n) -> session_ok su i d' s.
Proof. intros [] H. constructor; auto. destruct so_vlan0 as [?|[? ?]]; [left|right]; auto. Qed.

Lemma ids_snoc i : 1 <= i -> map Z.of_nat (seq 1 (Z.to_nat (i - 1))) ++ [i] = map Z.of_nat (seq 1 (Z.to_nat (i + 1 - 1))).
Proof.
  intros Hi. replace (Z.to_nat (i + 1 - 1)) with (S (Z.to_nat (i - 1))) by lia. rewrite seq_S, map_app. cbn. do 2 f_equal. lia.
Qed.

Lemma create_session_ok su i a y a' y' :
  created su i y -> known su a -> 1 <= i <= su_sessions su -> su_sessions su < 2 ^ 32 -> create_session su i a y = Some (a', y') ->
  created su (i + 1) y' /\ known su a'.
Proof.
  intros [] Hk Hi Hm. unfold create_session. cbv zeta. set (a1 := a {{ a_sessions ::= _ }}).
  assert (Hk1 : known su a1) by (apply (known_kind su a); [done|by split]). clearbody a1. clear Hk a.
  intros (s & Hs & (d & Hd & [= <- <-])%bind_Some)%bind_Some. apply take_vlan_spec in Hd as [Hkeep Hmine].
  split; [|apply (known_kind su a1); [done|apply advance_kind]].
  assert (Hcnt : forall g, g_sessions g = i - 1 -> g_sessions (count_session su i g) = i).
  { intros g Hg. unfold count_session. destruct (su_sessions_autostart su); change (u32 (g_sessions g + 1) = i); rewrite Hg, u32_small; lia. }
  constructor; cbn [y_gl y_sessions y_vlan].
  - rewrite length_app. cbn. lia.
  - rewrite Hcnt by done. lia.
  - intros n t. rewrite lookup_app_Some. intros [Hn|[Hle Hn]].
    + by eapply session_ok_keep; [apply cr_session0|].
    + destruct (n - length (y_sessions y))%nat eqn:En; [|done]. cbn in Hn. injection Hn as <-.
      replace (Z.of_nat n + 1) with i by lia. eapply session_new_ok; [done|done|]. by destruct (a_mode a1).
  - unfold count_session. by destruct (su_sessions_autostart su).
  - unfold count_session. by destruct (su_sessions_autostart su).
  - unfold count_session. destruct (su_sessions_autostart su); [done|]. change (u32 (g_sessions_terminated (y_gl y) + 1) = i + 1 - 1). rewrite cr_terminated0, u32_small; lia.
  - unfold count_session. destruct (su_sessions_autostart su); [|done]. change (g_idle (y_gl y) ++ [i] = map Z.of_nat (seq 1 (Z.to_nat (i + 1 - 1)))). rewrite cr_idle0. apply ids_snoc. lia.
Qed.

Lemma init_turn_ok su todo i t y l i' t' y' :
  created su i y -> Forall (known su) todo -> 1 <= i <= su_sessions su + 1 -> su_sessions su < 2 ^ 32 ->
  init_turn su todo i t y = Some (l, i', t', y') ->
  created su i' y' /\ Forall (known su) l /\ i' - i = t' - t /\ i <= i' <= su_sessions su + 1.
Proof.
  intros Hc Hk Hi Hm. revert i t y l Hc Hi. induction Hk as [|a todo Ha Hk IH]; intros i t y l Hc Hi; cbn [init_turn].
  - intros [= <- <- <- <-]. auto with lia.
  - case_match eqn:Ei; [intros [= <- <- <- <-]; auto with lia|]. apply Z.ltb_ge in Ei. pose proof (next_vlan_kind su a) as Hn.
    destruct (next_vlan su a) as [create b]. cbn [snd] in Hn. apply (known_kind su a b) in Hn; [|done]. destruct create.
    + intros ([c y1] & Hcr & ([[[l1 i1] t1] y2] & Ht & [= <- <- <- <-])%bind_Some)%bind_Some.
      apply create_session_ok in Hcr as [Hc1 Hkc]; [|done|done|lia|lia]. apply IH in Ht as (? & ? & ? & ?); [|done|lia]. auto with lia.
    + intros ([[[l1 i1] t1] y2] & Ht & [= <- <- <- <-])%bind_Some. apply IH in Ht as (? & ? & ? & ?); [|done|lia]. auto with lia.
Qed.

Lemma init_loop_ok fuel su l i y y' :
  created su i y -> Forall (known su) l -> 1 <= i <= su_sessions su + 1 -> su_sessions su < 2 ^ 32 ->
  init_loop fuel su l i y = Some y' -> created su (su_sessions su + 1) y'.
Proof.
  intros Hc Hk Hi Hm. revert l i y Hc Hk Hi. induction fuel as [|fuel IH]; intros l i y Hc Hk Hi; cbn [init_loop].
  - case_match eqn:Ei; [|done]. intros [= <-]. apply Z.ltb_lt in Ei. by replace (su_sessions su + 1) with i by lia.
  - case_match eqn:Ei. { intros [= <-]. apply Z.ltb_lt in Ei. by replace (su_sessions su + 1) with i by lia. }
    intros ([[[l1 i1] t1] y1] & Ht & H)%bind_Some. apply init_turn_ok in Ht as (Hc1 & Hk1 & Hd & Hi1); [|done|done|lia|done].
    case_match; [done|]. apply (IH l1 i1 y1); [done|done|lia|done].
Qed.

(** More rounds change nothing: each creates a session or is the last. *)
Lemma init_loop_fuel fuel fuel' su l i y :
  created su i y -> Forall (known su) l -> 1 <= i <= su_sessions su + 1 -> su_sessions su < 2 ^ 32 ->
  su_sessions su + 1 - i < Z.of_nat fuel -> (fuel <= fuel')%nat -> init_loop fuel' su l i y = init_loop fuel su l i y.
Proof.
  intros Hc Hk Hi Hm. revert fuel' l i y Hc Hk Hi. induction fuel as [|fuel IH]; intros [|fuel'] l i y Hc Hk Hi Hf Hle; cbn [init_loop]; try lia.
  case_match; [done|]. destruct (init_turn su l i 0 y) as [[[[l1 i1] t1] y1]|] eqn:Ht; [|done]. cbn.
  apply init_turn_ok in Ht as (Hc1 & Hk1 & Hd & Hi1); [|done|done|lia|done]. case_match eqn:Et; [done|]. apply Z.eqb_neq in Et.
  apply IH; [done|done|lia|lia|lia].
Qed.

Lemma before_created su g : before_init g -> created su 1 (mk_sys g [] ∅).
Proof. intros []. constructor; cbn; try done; by destruct (su_sessions_autostart su). Qed.

Lemma access_known su : Forall (known su) (su_access su).
Proof. apply Forall_forall. intros a Ha. exists a. done. Qed.

Lemma sessions_init_created su g y :
  before_init g -> 0 <= su_sessions su < 2 ^ 32 -> bbl_sessions_init su g = Some y -> created su (su_sessions su + 1) y.
Proof. intros Hg Hs. apply init_loop_ok; [by apply before_created|apply access_known|lia|lia]. Qed.

Lemma sessions_init_fuel su g fuel :
  before_init g -> 0 <= su_sessions su < 2 ^ 32 -> (S (Z.to_nat (su_sessions su)) <= fuel)%nat ->
  init_loop fuel su (su_access su) 1 (mk_sys g [] ∅) = bbl_sessions_init su g.
Proof. intros Hg Hs Hf. apply init_loop_fuel; [by apply before_created|apply access_known|lia..]. Qed.

(** * Packets reach their session *)

(** The three bytes of the identifier in a MAC address. *)
Lemma lor_bytes a b c :
  0 <= b < 256 -> 0 <= c < 256 -> Z.lor (Z.lor c (Z.shiftl b 8)) (Z.shiftl a 16) = (a * 256 + b) * 256 + c.
Proof.
  intros Hb Hc. rewrite <- (BeUint.lor_shift8 a b), <- (BeUint.lor_shift8 _ c) by done. rewrite Z.shiftl_lor, Z.shiftl_shiftl by lia.
  rewrite <- Z.lor_assoc, Z.lor_comm. f_equal. apply Z.lor_comm.
Qed.

Lemma mac_session_client su i : 0 <= i < 2 ^ 24 -> mac_session (client_mac su i) = Some i.
Proof.
  intros Hi. unfold mac_session, client_mac. f_equal. unfold u8. rewrite lor_bytes by (apply Z.mod_pos_bound; lia).
  rewrite !Z.shiftr_div_pow2 by lia. rewrite (Z.mod_small (i / 2 ^ 16)) by (split; [apply Z.div_pos; lia|apply Z.div_lt_upper_bound; lia]).
  replace (2 ^ 16) with (2 ^ 8 * 2 ^ 8) by done. rewrite <- Z.div_div by lia. change (2 ^ 8) with 256.
  pose proof (Z.div_mod i 256). pose proof (Z.div_mod (i / 256) 256). lia.
Qed.

(** A packet for the client address of a session is for that session. *)
Lemma rx_target_client su ifindex i eth y :
  0 <= i < 2 ^ 24 -> eth_dst eth = Some (client_mac su i) -> rx_target ifindex eth y = Some (To_session i).
Proof.
  intros Hi Hd. unfold rx_target. rewrite Hd. change (bytes_at _ _) with (Some (client_mac su i)). cbn [mbind option_bind].
  rewrite bool_decide_eq_false_2 by done. change (match client_mac su i with b :: _ => Z.odd b | [] => false end) with false. cbv iota.
  by rewrite mac_session_client.
Qed.

(** A multicast packet of a 1:1 VLAN is for the session of that VLAN. *)
Lemma rx_target_vlan ifindex i eth y b l :
  eth_dst eth = Some (b :: l) -> (5 <= length l)%nat -> Z.odd b = true -> b <> 255 -> i <> 0 ->
  y_vlan y !! (ifindex, eth_vlan_outer eth, eth_vlan_inner eth) = Some i -> rx_target ifindex eth y = Some (To_session i).
Proof.
  intros Hd Hl Ho Hb Hi Hv. unfold rx_target. rewrite Hd. unfold bytes_at. cbn [Z.eqb mbind option_bind].
  rewrite (proj2 (Nat.ltb_ge _ _)) by (cbn; lia). change (Z.to_nat 6) with 6%nat. cbn [take mbind option_bind].
  rewrite bool_decide_eq_false_2 by (intros [= -> _]; done). rewrite Ho. unfold bbl_access_session_id_from_vlan. rewrite Hv.
  apply Z.eqb_neq in Hi. cbv [default from_option id]. by rewrite Hi.
Qed.

(** * The program with its default configuration *)

(** [bbl_config_init_defaults] (bbl_config.c), for what sessions use. *)
Definition bbl_config_init_defaults : config :=
  {| cf_pppoe_service_name := false; cf_pppoe_reconnect := false; cf_sessions_reconnect := false; cf_sessions_start_rate := 400;
     cf_sessions_stop_rate := 400; cf_sessions_max_outstanding := 800; cf_sessions_start_delay := 0; cf_pppoe_discovery_timeout := 5;
     cf_pppoe_discovery_retry := 10; cf_pppoe_max_payload := 0; cf_pppoe_vlan_priority := 0; cf_pppoe_session_time := 0;
     cf_lcp_conf_request_timeout := 5; cf_lcp_conf_request_retry := 10; cf_lcp_keepalive_interval := 30; cf_lcp_keepalive_retry := 3;
     cf_lcp_start_delay := 0; cf_lcp_vendor_ignore := false; cf_lcp_connection_status_message := false; cf_authentication_timeout := 5;
     cf_authentication_retry := 30; cf_ipcp_enable := true; cf_ip6cp_enable := true; cf_ipcp_request_ip := true; cf_ipcp_request_dns1 := true;
     cf_ipcp_request_dns2 := true; cf_ipcp_conf_reject_ignore := false; cf_ipcp_conf_request_retry := 10; cf_ip6cp_conf_request_retry := 10;
     cf_igmp_group := 0; cf_igmp_group_iter := Ipv4.bswap32 1; cf_igmp_group_count := 1; cf_igmp_source := 0; cf_igmp_autostart := true;
     cf_igmp_start_delay := 1; cf_igmp_zap_interval := 0; cf_igmp_zap_count := 0; cf_igmp_zap_view_duration := 0; cf_igmp_zap_wait := true;
     cf_igmp_max_join_delay := 0; cf_igmp_combined_leave_join := false; cf_arp_interval := 300; cf_dhcp_retry := 10; cf_dhcp_release_retry := 3;
     cf_dhcp_broadcast := false; cf_dhcp_vlan_priority := 0; cf_dhcp_tos := 0; cf_dhcp_access_line := true; cf_dhcpv6_retry := 10;
     cf_dhcpv6_ia_na := true; cf_dhcpv6_ia_pd := true; cf_dhcpv6_ldra := false; cf_dhcpv6_access_line := true; cf_dhcpv6_rapid_commit := true;
     cf_dhcpv6_vlan_priority := 0; cf_dhcpv6_tc := 0 |}.

(** The context before sessions are created; the oracles take every packet and give
    the number of the call. *)
Definition glob_new (cf : config) : glob :=
  {| g_config := cf; g_sessions := 0; g_sessions_established := 0; g_sessions_established_max := 0; g_sessions_outstanding := 0;
     g_sessions_terminated := 0; g_sessions_flapped := 0; g_dhcp_requested := 0; g_dhcp_established := 0; g_dhcp_established_max := 0;
     g_dhcpv6_requested := 0; g_dhcpv6_established := 0; g_dhcpv6_established_max := 0; g_dhcpv6_iaid := 0; g_flows_verified := 0;
     g_idle := []; g_teardown_queue := []; g_tx := ∅; g_streams := ∅; g_l2tp_sessions := ∅; g_stats := ∅; g_teardown := false;
     g_teardown_request := false; g_now := mk_ts 0 0; g_last_session_established := mk_ts 0 0; g_first_session_tx := mk_ts 0 0;
     g_timestamp_resolved := mk_ts 0 0; g_zapping := true; g_monkey := true; g_l2tp_tunnels := 0; g_init_phase := true; g_calls := [];
     g_txq_ok := (fun _ => true); g_md5 := (fun _ => replicate 16 0); g_rand := (fun n => n); g_rands := 0 |}.

Lemma glob_new_before cf : before_init (glob_new cf).
Proof. by constructor. Qed.

(** An access configuration with one outer VLAN range, PPPoE or IPoE. *)
Definition access_new (type : access_type) (mode : vlan_mode) (ifindex outer_min outer_max inner : Z) : access :=
  {| a_config := mk_access_config false true true true true 0 1492; a_exhausted := false; a_sessions := 0; a_sessions_max := 0; a_type := type;
     a_mode := mode; a_interface := ifindex; a_session_group_id := 0; a_outer := 0; a_outer_min := outer_min; a_outer_max := outer_max;
     a_outer_step := 1; a_inner := 0; a_inner_min := inner; a_inner_max := inner; a_inner_step := 0; a_third := 0; a_static_ip := 0;
     a_static_ip_iter := 0; a_static_gateway := 0; a_static_gateway_iter := 0; a_static_ip6_ll := zero16;
     a_username := chars "user{session-global}@rtbrick.com"; a_password := chars "test"; a_agent_circuit_id := Some (chars "0.0.0.0/0.0.0.0 eth 0:{session-global}");
     a_agent_remote_id := None; a_access_aggregation_circuit_id := None; a_dhcp_vendor_class_id := None; a_rate_up := 0; a_rate_down := 0;
     a_dsl_type := 0; a_access_line_profile_id := 0; a_dhcp_enable := true; a_dhcpv6_enable := true; a_igmp_version := 3; a_cfm_cc := false;
     a_cfm_seq := false; a_cfm_level := 0; a_cfm_ma_id := 0; a_cfm_ma_name := None; a_i1 := 1; a_i1_step := 1; a_i2 := 1; a_i2_step := 1 |}.

Definition setup_new (sessions : Z) (l : list access) : setup := mk_setup sessions false 0 None false true [] l.
Definition three_sessions : setup :=
  setup_new 3 [access_new ACCESS_TYPE_PPPOE VLAN_MODE_11 7 1 2 5; access_new ACCESS_TYPE_PPPOE VLAN_MODE_11 8 1 1 0].

Example three_sessions_users :
  (map s_username ∘ y_sessions) <$> bbl_sessions_init three_sessions (glob_new bbl_config_init_defaults)
  = Some [chars "user1@rtbrick.com"; chars "user2@rtbrick.com"; chars "user3@rtbrick.com"].
Proof. vm_compute. reflexivity. Qed.

Lemma client_mac_inj su i j : 0 <= i < 2 ^ 24 -> 0 <= j < 2 ^ 24 -> client_mac su i = client_mac su j -> i = j.
Proof. intros Hi Hj H. pose proof (mac_session_client su i Hi) as E. rewrite H, (mac_session_client su j Hj) in E. by injection E. Qed.

(** C2. When [bbl_sessions_init] does not give up, it has created the configured number of
    sessions, numbered in turn from 1: they are all idle and waiting in their order to be
    started (or all terminated when sessions are not started by themselves), the counters say
    so, each is found by its number and by packets to its client address, the client addresses
    are different, and two sessions have the same VLAN only if it is one of an N:1
    configuration; the loop is over after at most one turn for each session and one more. *)
Theorem sessions_init_correct (su : setup) (g : glob) :
  before_init g -> 0 <= su_sessions su < 2 ^ 24 ->
  (forall fuel, (S (Z.to_nat (su_sessions su)) <= fuel)%nat ->
     init_loop fuel su (su_access su) 1 (mk_sys g [] ∅) = bbl_sessions_init su g)
  /\ forall y, bbl_sessions_init su g = Some y ->
     (Z.of_nat (length (y_sessions y)) = su_sessions su /\ g_sessions (y_gl y) = su_sessions su
      /\ g_sessions_established (y_gl y) = 0 /\ g_sessions_outstanding (y_gl y) = 0
      /\ g_sessions_terminated (y_gl y) = (if su_sessions_autostart su then 0 else su_sessions su)
      /\ g_idle (y_gl y) = (if su_sessions_autostart su then map Z.of_nat (seq 1 (Z.to_nat (su_sessions su))) else []))
     /\ (forall n s, y_sessions y !! n = Some s ->
          s_id s = Z.of_nat n + 1
          /\ s_state s = (if su_sessions_autostart su then BBL_IDLE else BBL_TERMINATED)
          /\ bbl_session_get (s_id s) y = Some n
          /\ (forall ifindex eth, eth_dst eth = Some (s_client_mac s) -> rx_target ifindex eth y = Some (To_session (s_id s)))
          /\ (y_vlan y !! s_vlan_key s = Some (s_id s) \/ y_vlan y !! s_vlan_key s = Some 0 /\ exists a, a ∈ su_access su /\ a_mode a = VLAN_MODE_N1))
     /\ (forall n m s s', y_sessions y !! n = Some s -> y_sessions y !! m = Some s' -> n <> m ->
          s_client_mac s <> s_client_mac s' /\ (s_vlan_key s = s_vlan_key s' -> y_vlan y !! s_vlan_key s = Some 0)).
Proof.
  intros Hg Hs. split; [intros fuel Hf; apply sessions_init_fuel; [done|lia|done]|]. intros y Hy. apply sessions_init_created in Hy; [|done|lia].
  destruct Hy as [Hlen Hn Hses Ho He Ht Hi]. replace (su_sessions su + 1 - 1) with (su_sessions su) in * by lia. split; [split_and!; done|]. split.
  - intros n s Hs'. destruct (Hses n s Hs') as [Hid Hmac Hst _ _ Hv]. pose proof (lookup_lt_Some _ _ _ Hs') as Hlt. rewrite Hid in *. split_and!; [done|done| | |done].
    + unfold bbl_session_get. rewrite Hn. destruct (orb _ _) eqn:E; [apply orb_true_iff in E as [?%Z.ltb_lt|?%Z.ltb_lt]; lia|]. f_equal. lia.
    + intros ifindex eth Hd. rewrite Hmac in Hd. eapply rx_target_client; [lia|done].
  - intros n m s s' H1 H2 Hne. destruct (Hses n s H1) as [_ Hmac _ _ _ Hv]. destruct (Hses m s' H2) as [_ Hmac' _ _ _ Hv'].
    pose proof (lookup_lt_Some _ _ _ H1). pose proof (lookup_lt_Some _ _ _ H2). split.
    + rewrite Hmac, Hmac'. intros E%client_mac_inj; lia.
    + intros E. rewrite <- E in Hv'. destruct Hv as [Hv|[Hv _]]; [|done]. destruct Hv' as [Hv'|[Hv' _]]; [|done]. rewrite Hv in Hv'. injection Hv' as Hv'. lia.
Qed.

Lemma sessions_init_correct_witness :
  exists y, bbl_sessions_init three_sessions (glob_new bbl_config_init_defaults) = Some y /\ length (y_sessions y) = 3%nat /\ g_idle (y_gl y) = [1; 2; 3]
    /\ forall n s, y_sessions y !! n = Some s -> y_vlan y !! s_vlan_key s = Some (s_id s).
Proof.
  destruct (bbl_sessions_init three_sessions (glob_new bbl_config_init_defaults)) as [y|] eqn:E; [|by vm_compute in E].
  exists y. split; [done|].
  assert (H3 : 0 <= su_sessions three_sessions < 2 ^ 24) by (change (su_sessions three_sessions) with 3; lia).
  destruct (proj2 (sessions_init_correct three_sessions (glob_new bbl_config_init_defaults) (glob_new_before _) H3) y E) as ((Hl & _ & _ & _ & _ & Hi) & Hs & _).
  change (su_sessions three_sessions) with 3 in Hl. split_and!; [lia|exact Hi|].
  intros n s Hn. destruct (Hs n s Hn) as (_ & _ & _ & _ & [Hv|[_ (a & Ha & Hm)]]); [done|]. exfalso.
  repeat (apply elem_of_cons in Ha as [->|Ha]; [done|]). by apply elem_of_nil in Ha.
Defined.
