(* ===== verification/SessionCount.v ===== *)
(** The counters of the program agree with the states of its PPPoE sessions.

    Every function of a session is followed through the part of the state the counters
    depend on, its [view].  [good] relates a view to the numbers the other sessions
    account for; a function that preserves it neither loses count nor fails an
    assertion. *)
From coqutil Require Import Datatypes.RecordSetters.
From S2P Require Import Prelude.
From S2P Require Import Const.
From S2P Require Import ConstApp.
From S2P Require Import ConstStream.
From S2P Require Import ProtoTypes.
From S2P Require Import Timer.
From S2P Require Import Enc.
From S2P Require Import EncodeEth.
From S2P Require Import Stream.
From S2P Require Import Session.
From S2P Require Import SessionDhcp.
From S2P Require Import SessionIgmp.
From S2P Require Import SessionAccess.
From S2P Require Import SessionTx.
From S2P Require Import SessionSys.
Import RecordSetters.DoubleBraceUpdate.
From stdpp Require Import gmap list strings.
Open Scope Z_scope.

(** * Views *)

Record view := mk_view {
  v_id : Z;
  v_type : access_type;
  v_state : session_state;
  v_lcp : ppp_state;
  v_sessions : Z;
  v_outstanding : Z;
  v_established : Z;
  v_terminated : Z;
  v_idle : list Z;
  v_teardown : bool
}.

Definition view_of (x : st) : view :=
  let g := gl x in
  let s := ss x in
  mk_view (s_id s) (s_access_type s) (s_state s) (p_state (s_lcp s)) (g_sessions g) (g_sessions_outstanding g) (g_sessions_established g)
    (g_sessions_terminated g) (g_idle g) (g_teardown g).

(** What the other sessions account for. *)
Record others := mk_others {
  o_id : Z;
  o_sessions : Z;
  o_outstanding : Z;
  o_established : Z;
  o_terminated : Z;
  o_idle : list Z;
  o_teardown : bool
}.

Definition is_state (a b : session_state) : Z := if decide (a = b) then 1 else 0.
Definition is_pending (a : session_state) : Z := if pending a then 1 else 0.

(** LCP is being negotiated. *)
Definition negotiating (s : ppp_state) : bool := match s with BBL_PPP_INIT | BBL_PPP_LOCAL_ACK | BBL_PPP_PEER_ACK => true | _ => false end.

Record counted (o : others) (v : view) : Prop := {
  c_id : v_id v = o_id o;
  c_type : v_type v = ACCESS_TYPE_PPPOE;
  c_sessions : v_sessions v = o_sessions o;
  c_teardown : v_teardown v = o_teardown o;
  c_range : 0 <= o_outstanding o < o_sessions o /\ 0 <= o_established o < o_sessions o /\ 0 <= o_terminated o < o_sessions o
            /\ o_sessions o < 2 ^ 32;
  c_max : v_state v <> BBL_MAX;
  c_outstanding : v_outstanding v = o_outstanding o + is_pending (v_state v);
  c_established : v_established v = o_established o + is_state (v_state v) BBL_ESTABLISHED;
  c_terminated : v_terminated v = o_terminated o + is_state (v_state v) BBL_TERMINATED;
  c_others_idle : filter (.≠ v_id v) (v_idle v) = o_idle o;
  c_nodup : NoDup (v_idle v);
  c_idle : v_teardown v = false -> v_id v ∈ v_idle v <-> v_state v = BBL_IDLE
}.

Definition good (o : others) (v : view) : Prop := counted o v /\ (negotiating (v_lcp v) = true -> v_state v = BBL_PPP_LINK).

(** No assertion fails, and [P] holds of the result. *)
Definition safe {A} (P : A -> Prop) (r : res A) : Prop := match r with Ok a => P a | Assert => False | Fault => True end.

Lemma ok_bind {A B} (P : A -> Prop) (Q : B -> Prop) (r : res A) (f : A -> res B) :
  safe P r -> (forall a, P a -> safe Q (f a)) -> safe Q (r ≫= f).
Proof. destruct r; cbn; auto. Qed.

Lemma safe_opt {A B} (Q : B -> Prop) (a : option A) (f : A -> res B) : (forall a', safe Q (f a')) -> safe Q (opt a ≫= f).
Proof. destruct a; cbn; auto. Qed.

Lemma ok_mono {A} (P Q : A -> Prop) (r : res A) : safe P r -> (forall a, P a -> Q a) -> safe Q r.
Proof. destruct r; cbn; auto. Qed.

(** A function that keeps the counters right. *)
Definition keeps_if (P : view -> Prop) (h : st -> res st) : Prop :=
  forall o x, P (view_of x) -> good o (view_of x) -> safe (fun x' => good o (view_of x')) (h x).
Definition keeps (h : st -> res st) : Prop := keeps_if (fun _ => True) h.

(** * Functions that do not change the view *)

Ltac same_view := intros; cbv beta zeta delta [txq_send note]; repeat case_match; simplify_eq; try reflexivity; try by repeat split.

Lemma view_insert x : view_of (bbl_session_tx_qnode_insert x) = view_of x.
Proof. unfold bbl_session_tx_qnode_insert. by case_match. Qed.
Lemma view_send b x : view_of (send b x) = view_of x.
Proof. unfold send. by rewrite view_insert. Qed.
Lemma view_remove x : view_of (bbl_session_tx_qnode_remove x) = view_of x.
Proof. reflexivity. Qed.
Lemma view_note c x : view_of (note c x) = view_of x.
Proof. reflexivity. Qed.

(** What a view has of the session. *)
Definition same_session (s s' : sess) : Prop :=
  s_id s' = s_id s /\ s_access_type s' = s_access_type s /\ s_state s' = s_state s /\ s_lcp s' = s_lcp s.

Lemma view_up f x : (forall s, same_session s (f s)) -> view_of (up f x) = view_of x.
Proof.
  intros H. unfold view_of. change (ss (up f x)) with (f (ss x)). change (gl (up f x)) with (gl x).
  by destruct (H (ss x)) as (-> & -> & -> & ->).
Qed.

(** The setters that stay outside of the view. *)
Lemma view_ip f x : view_of (up_ip f x) = view_of x.
Proof. reflexivity. Qed.
Lemma view_dhcp f x : view_of (up_dhcp f x) = view_of x.
Proof. reflexivity. Qed.
Lemma view_dhcpv6 f x : view_of (up_dhcpv6 f x) = view_of x.
Proof. reflexivity. Qed.
Lemma view_igmp f x : view_of (up_igmp f x) = view_of x.
Proof. reflexivity. Qed.
Lemma view_group i f x : view_of (up_group i f x) = view_of x.
Proof. reflexivity. Qed.
Lemma view_ipcp f x : view_of (up_ipcp f x) = view_of x.
Proof. reflexivity. Qed.
Lemma view_ip6cp f x : view_of (up_ip6cp f x) = view_of x.
Proof. reflexivity. Qed.
Lemma view_ppp f x : view_of (up_ppp f x) = view_of x.
Proof. reflexivity. Qed.
Lemma view_pppoe f x : view_of (up_pppoe f x) = view_of x.
Proof. reflexivity. Qed.
Lemma view_count k x : view_of (count k x) = view_of x.
Proof. reflexivity. Qed.
Lemma view_count64 k n x : view_of (count64 k n x) = view_of x.
Proof. reflexivity. Qed.
Lemma view_count_if k x : view_of (count_if k x) = view_of x.
Proof. reflexivity. Qed.
Lemma view_add_if k n x : view_of (add_if k n x) = view_of x.
Proof. reflexivity. Qed.
Lemma view_set_stat k n x : view_of (set_stat k n x) = view_of x.
Proof. reflexivity. Qed.
Lemma view_rand x : view_of (rand x).2 = view_of x.
Proof. reflexivity. Qed.

Create Rewrite HintDb view.
#[export] Hint Rewrite view_insert view_send view_remove view_note view_ip view_dhcp view_dhcpv6 view_igmp view_group view_ipcp view_ip6cp
  view_ppp view_pppoe view_count view_count64 view_count_if view_add_if view_set_stat view_rand : view.

(** * State changes *)

Definition moved (new : session_state) (v : view) : view :=
  let old := v_state v in
  if decide (old = new) then v
  else mk_view (v_id v) (v_type v) new (if decide (new = BBL_TERMINATED) then BBL_PPP_CLOSED else v_lcp v) (v_sessions v)
         (v_outstanding v - (if pending old && (rank BBL_ESTABLISHED <=? rank new) then 1 else 0))
         (v_established v - is_state old BBL_ESTABLISHED + is_state new BBL_ESTABLISHED)
         (v_terminated v + is_state new BBL_TERMINATED) (v_idle v) (v_teardown v).

(** A session that is pending stays so or leaves; it does not become pending again. *)
Record may_move (v : view) (new : session_state) : Prop := {
  mm_new : new <> BBL_IDLE /\ new <> BBL_MAX;
  mm_pending : pending new = true -> pending (v_state v) = true;
  mm_idle : v_state v = BBL_IDLE -> v_teardown v = true;
  mm_terminated : v_state v = BBL_TERMINATED -> new = BBL_TERMINATED
}.

Lemma pending_not_established s : pending s = true -> s <> BBL_ESTABLISHED.
Proof. by destruct s. Qed.

Lemma counted_moved o v new : counted o v -> may_move v new -> counted o (moved new v).
Proof.
  intros [] [[] ? ? Ht]. unfold moved. case_decide as Hs; [by constructor|].
  constructor; cbn; auto.
  - rewrite c_outstanding0. unfold is_pending. destruct (v_state v), new; cbn in *; try lia; exfalso; intuition congruence.
  - rewrite c_established0. unfold is_state. repeat case_decide; lia.
  - rewrite c_terminated0. unfold is_state. repeat case_decide; try lia; exfalso; intuition congruence.
  - intros Htd. rewrite c_idle0 by done. split; [|by intros ->].
    intros Hi. specialize (mm_idle0 Hi). congruence.
Qed.

Lemma leave_established_view x :
  v_established (view_of x) <> 0 ->
  view_of (leave_established x)
  = mk_view (v_id (view_of x)) (v_type (view_of x)) (v_state (view_of x)) (v_lcp (view_of x)) (v_sessions (view_of x))
      (v_outstanding (view_of x)) (v_established (view_of x) - 1) (v_terminated (view_of x)) (v_idle (view_of x)) (v_teardown (view_of x)).
Proof.
  intros H. apply Z.eqb_neq in H. unfold leave_established. rewrite view_up by same_view.
  unfold view_of. change (gl (upg ?f x)) with (f (gl x)). change (ss (upg _ x)) with (ss x).
  change ((g_sessions_established (gl x) =? 0) = false) in H. cbv beta. by rewrite H.
Qed.

Lemma timers_off_view l x : view_of (up (fun s => foldr timer_off s l) x) = view_of x.
Proof.
  apply view_up. intros s. induction l as [|t l IH]; [done|]. exact IH.
Qed.

Lemma enter_terminated_view x :
  v_type (view_of x) = ACCESS_TYPE_PPPOE -> 0 <= v_terminated (view_of x) < v_sessions (view_of x) -> v_sessions (view_of x) < 2 ^ 32 ->
  safe (fun x' => view_of x'
    = mk_view (v_id (view_of x)) (v_type (view_of x)) (v_state (view_of x)) BBL_PPP_CLOSED (v_sessions (view_of x))
        (v_outstanding (view_of x)) (v_established (view_of x)) (v_terminated (view_of x) + 1) (v_idle (view_of x)) (v_teardown (view_of x)))
    (enter_terminated x).
Proof.
  cbn. intros Hty Hr Hn. unfold enter_terminated. rewrite u32_small by lia. case_if; [lia|].
  set (y := up _ (up _ (up _ (drop_dhcp _)))).
  assert (Hy : view_of y = mk_view (s_id (ss x)) (s_access_type (ss x)) (s_state (ss x)) BBL_PPP_CLOSED (g_sessions (gl x))
    (g_sessions_outstanding (gl x)) (g_sessions_established (gl x)) (g_sessions_terminated (gl x) + 1) (g_idle (gl x)) (g_teardown (gl x))).
  { subst y. set (z := up (fun s => foldr timer_off s session_timers) _).
    assert (Hz : view_of z = mk_view (s_id (ss x)) (s_access_type (ss x)) (s_state (ss x)) (p_state (s_lcp (ss x))) (g_sessions (gl x))
      (g_sessions_outstanding (gl x)) (g_sessions_established (gl x)) (g_sessions_terminated (gl x) + 1) (g_idle (gl x)) (g_teardown (gl x)))
      by (subst z; rewrite timers_off_view; reflexivity).
    clearbody z. unfold view_of in Hz. inversion Hz as [[H1 H2 H3 H4 H5 H6 H7 H8 H9 H10]].
    assert (Ht : s_access_type (ss z) = ACCESS_TYPE_PPPOE) by congruence.
    rewrite view_up by same_view. unfold view_of at 1. change (ss (up ?f z)) with (f (ss z)). cbv beta. rewrite !decide_True by done.
    transitivity (mk_view (s_id (ss z)) (s_access_type (ss z)) (s_state (ss z)) BBL_PPP_CLOSED (g_sessions (gl z))
      (g_sessions_outstanding (gl z)) (g_sessions_established (gl z)) (g_sessions_terminated (gl z)) (g_idle (gl z)) (g_teardown (gl z)));
      [reflexivity|congruence]. }
  clearbody y. destruct (g_teardown (gl y)); [done|].
  destruct (reconnects _ _); exact Hy.
Qed.

(** [v] with another state and other counters. *)
Definition reset_view (v : view) (s : session_state) (lcp : ppp_state) (out est term : Z) : view :=
  mk_view (v_id v) (v_type v) s lcp (v_sessions v) out est term (v_idle v) (v_teardown v).

Lemma leave_pending_view x :
  v_outstanding (view_of x) <> 0 ->
  let v := view_of x in
  safe (fun x' => view_of x' = reset_view v (v_state v) (v_lcp v) (v_outstanding v - 1) (v_established v) (v_terminated v)) (leave_pending x).
Proof. cbn. intros H. unfold leave_pending. case_if; [done|]. cbn -[view_of]. unfold view_of, reset_view. by rewrite <- Z.sub_1_r. Qed.

Lemma enter_established_view x :
  0 <= v_established (view_of x) < v_sessions (view_of x) -> v_sessions (view_of x) < 2 ^ 32 ->
  let v := view_of x in
  safe (fun x' => view_of x' = reset_view v (v_state v) (v_lcp v) (v_outstanding v) (v_established v + 1) (v_terminated v)) (enter_established x).
Proof.
  cbn. intros Hr Hn. unfold enter_established. rewrite u32_small by lia. case_if; [lia|]. cbn -[view_of up]. by rewrite view_up by same_view.
Qed.

(** The state after the first assignment, and after leaving [BBL_ESTABLISHED]. *)
Lemma left_view o x new :
  counted o (view_of x) -> v_state (view_of x) <> new ->
  let v := view_of x in
  let x1 := up (fun s => new_version (s {{ s_state := new }})) x in
  view_of (if decide (s_state (ss x) = BBL_ESTABLISHED) then leave_established x1 else x1)
  = reset_view v new (v_lcp v) (v_outstanding v) (v_established v - is_state (v_state v) BBL_ESTABLISHED) (v_terminated v).
Proof.
  intros Hc Hne v x1. assert (H1 : view_of x1 = reset_view v new (v_lcp v) (v_outstanding v) (v_established v) (v_terminated v)) by reflexivity.
  clearbody x1. change (s_state (ss x)) with (v_state v). unfold is_state. case_decide as Hs.
  - rewrite leave_established_view; [by rewrite H1|]. rewrite H1. change (v_established v <> 0).
    pose proof (c_established _ _ Hc) as He. pose proof (c_range _ _ Hc) as Hr. unfold is_state in He. rewrite decide_True in He by done.
    fold v in He. lia.
  - rewrite H1. unfold reset_view. by rewrite Z.sub_0_r.
Qed.

Lemma update_moves o x new :
  counted o (view_of x) -> may_move (view_of x) new ->
  safe (fun x' => view_of x' = moved new (view_of x)) (bbl_session_update_state new x).
Proof.
  intros Hc Hm. unfold bbl_session_update_state, moved. cbv zeta. change (v_state (view_of x)) with (s_state (ss x)).
  destruct (decide (s_state (ss x) = new)) as [Hs|Hs]; [done|].
  pose proof (left_view o x new Hc Hs) as Hl. cbv zeta in Hl |- *.
  set (v := view_of x) in *. set (x2 := if decide (s_state (ss x) = BBL_ESTABLISHED) then _ else _) in *. clearbody x2.
  change (s_state (ss x)) with (v_state v) in *. clearbody v.
  assert (Hr : negb ((0 <? rank new) && (rank new <? rank BBL_MAX)) = false) by (destruct Hm as [[] _ _ _]; by destruct new).
  rewrite Hr. destruct Hc. destruct Hm as [[Hn1 Hn2] Hp Hi Ht].
  eapply (ok_bind (fun x3 => view_of x3 = reset_view v new (v_lcp v)
    (v_outstanding v - (if pending (v_state v) && (rank BBL_ESTABLISHED <=? rank new) then 1 else 0))
    (v_established v - is_state (v_state v) BBL_ESTABLISHED) (v_terminated v))).
  { destruct (pending (v_state v) && _) eqn:E.
    - apply andb_true_iff in E as [E _]. eapply ok_mono; [apply leave_pending_view|].
      + rewrite Hl. cbn. rewrite c_outstanding0. unfold is_pending. rewrite E. lia.
      + intros x3 ->. rewrite Hl. done.
    - cbn -[view_of]. rewrite Hl, Z.sub_0_r. done. }
  intros x3 H3. assert (Hty : v_type (view_of x3) = ACCESS_TYPE_PPPOE) by by rewrite H3.
  assert (Hn : v_sessions (view_of x3) = v_sessions v) by by rewrite H3.
  assert (Ht0 : new = BBL_TERMINATED -> v_terminated (view_of x3) = o_terminated o).
  { intros ->. rewrite H3. cbn. rewrite c_terminated0. unfold is_state. rewrite decide_False by done. lia. }
  assert (He0 : new = BBL_ESTABLISHED -> v_established (view_of x3) = o_established o).
  { intros ->. rewrite H3. cbn -[is_state]. rewrite c_established0. lia. }
  destruct (decide (new = BBL_ESTABLISHED)) as [->|He].
  { eapply ok_mono; [apply enter_established_view; [rewrite He0, Hn by done; lia|rewrite Hn; lia]|]. intros x4 ->. rewrite H3. unfold reset_view. cbn -[rank].
    unfold is_state. by rewrite Z.add_0_r. }
  destruct (decide (new = BBL_TERMINATED)) as [->|Htm].
  { eapply ok_mono; [apply enter_terminated_view; [done|rewrite Ht0, ?Hn by done; lia|rewrite Hn; lia]|]. intros x4 ->. rewrite H3.
    unfold reset_view. cbn -[rank is_state]. by rewrite Z.add_0_r. }
  assert (Hz : is_state new BBL_ESTABLISHED = 0 /\ is_state new BBL_TERMINATED = 0) by (unfold is_state; by rewrite !decide_False by done).
  destruct Hz as [-> ->]. rewrite !Z.add_0_r. destruct new; try done; cbn -[view_of up]; rewrite ?view_up by same_view; exact H3.
Qed.
