(* ===== verification/SessionKeeps.v ===== *)
(** Every function of a PPPoE session keeps the counters right (SessionCount.v): the
    life cycle, the DHCP clients, received packets, timers and transmitted packets. *)
From coqutil Require Import Datatypes.RecordSetters.
From S2P Require Import Prelude.
From S2P Require Import Const.
From S2P Require Import ConstApp.
From S2P Require Import ConstStream.
From S2P Require Import ProtoTypes.
From S2P Require Import Timer.
From S2P Require Import Enc.
From S2P Require Import EncodeEth.
From S2P Require Import Stream.
From S2P Require Import Session.
From S2P Require Import SessionDhcp.
From S2P Require Import SessionIgmp.
From S2P Require Import SessionAccess.
From S2P Require Import SessionTx.
From S2P Require Import SessionSys.
From S2P Require Import SessionCount.
Import RecordSetters.DoubleBraceUpdate.
From stdpp Require Import gmap list strings.
Open Scope Z_scope.

(** * The tools *)

Definition running (v : view) : Prop := v_state v <> BBL_IDLE /\ v_state v <> BBL_TERMINATED.

(** [view_of t = view_of x] for a term that changes nothing the view has. *)
Ltac vsame :=
  cbv beta iota delta [next_iaid rand txq_send]; autorewrite with view; try reflexivity;
  repeat (first [rewrite view_up by same_view | case_match]; autorewrite with view); reflexivity.

(** The goal is [good] of a term with the view of [x]. *)
Ltac stay H :=
  lazymatch type of H with
  | good ?o (view_of ?x) =>
      lazymatch goal with
      | |- good _ (view_of ?t) => replace (view_of t) with (view_of x); [exact H | symmetry; vsame]
      end
  end.

Lemma safe_ok {A} (P : A -> Prop) (a : A) : P a -> safe P (Ok a).
Proof. done. Qed.

Lemma good_counted o v : good o v -> counted o v.
Proof. by intros []. Qed.
Lemma good_lcp o v : good o v -> v_state v <> BBL_PPP_LINK -> negotiating (v_lcp v) = false.
Proof. intros [_ H] Hs. destruct (negotiating _); [|done]. by destruct Hs; apply H. Qed.
Lemma good_pppoe o x : good o (view_of x) -> s_access_type (ss x) = ACCESS_TYPE_PPPOE.
Proof. intros [[] _]. done. Qed.

Lemma move_running v new :
  running v -> new <> BBL_IDLE -> new <> BBL_MAX -> (pending new = true -> pending (v_state v) = true) -> may_move v new.
Proof. intros [] ? ? ?. constructor; auto; by intros. Qed.

Lemma update_then {A} o x new (f : st -> res A) Q :
  counted o (view_of x) -> may_move (view_of x) new ->
  (forall x', view_of x' = moved new (view_of x) -> counted o (view_of x') -> safe Q (f x')) ->
  safe Q (bbl_session_update_state new x ≫= f).
Proof.
  intros Hc Hm Hf. eapply ok_bind; [by apply (update_moves o)|]. intros x' Hx'. apply Hf; [done|]. rewrite Hx'. by apply counted_moved.
Qed.

Lemma moved_state new v : v_state (moved new v) = new.
Proof. unfold moved. by case_decide. Qed.
Lemma moved_lcp new v : v_lcp (moved new v) = v_lcp v \/ v_lcp (moved new v) = BBL_PPP_CLOSED.
Proof. unfold moved. case_decide; [by left|]. cbn. case_decide; auto. Qed.
Lemma moved_negotiating new v : negotiating (v_lcp v) = false -> negotiating (v_lcp (moved new v)) = false.
Proof. destruct (moved_lcp new v) as [->| ->]; done. Qed.

(** A change of state while LCP is not negotiated. *)
Lemma update_good o x new :
  good o (view_of x) -> may_move (view_of x) new -> negotiating (v_lcp (view_of x)) = false ->
  safe (fun x' => good o (view_of x')) (bbl_session_update_state new x).
Proof.
  intros Hg Hm Hn. eapply ok_mono; [apply (update_moves o); [by apply good_counted|done]|]. intros x' ->.
  split; [apply counted_moved; [by apply good_counted|done]|]. rewrite moved_negotiating by done. done.
Qed.

(** Setting the LCP state to one that is not negotiated. *)
Definition lcp_is (s : ppp_state) (v : view) : view :=
  mk_view (v_id v) (v_type v) (v_state v) s (v_sessions v) (v_outstanding v) (v_established v) (v_terminated v) (v_idle v) (v_teardown v).

Lemma counted_lcp o v s : counted o v <-> counted o (lcp_is s v).
Proof. split; intros []; by constructor. Qed.

Lemma good_closed o v s : counted o v -> negotiating s = false -> good o (lcp_is s v).
Proof. intros H Hs. split; [by apply counted_lcp|]. cbn. congruence. Qed.

Lemma view_send_padt x : view_of (send_padt x) = lcp_is BBL_PPP_CLOSED (view_of x).
Proof. unfold send_padt. rewrite view_insert. reflexivity. Qed.
Lemma view_send_term_request x : view_of (send_term_request x) = lcp_is BBL_PPP_TERMINATE (view_of x).
Proof. unfold send_term_request. rewrite view_send. reflexivity. Qed.

(** A function that keeps the counters right from any state. *)
Class Keeps (h : st -> res st) : Prop := keeps_always : keeps h.

(** * The life cycle *)

(** An idle session is only cleared during the teardown. *)
Definition clearable (v : view) : Prop := v_state v = BBL_IDLE -> v_teardown v = true.

Lemma clear_keeps : keeps_if clearable bbl_session_clear.
Proof.
  intros o x Hcl Hg. unfold bbl_session_clear. rewrite (good_pppoe o) by done.
  change (s_state (ss x)) with (v_state (view_of x)). pose proof (good_counted _ _ Hg) as Hc.
  assert (Hup : forall new, new <> BBL_IDLE -> new <> BBL_MAX -> pending new = false -> v_state (view_of x) <> BBL_TERMINATED -> may_move (view_of x) new).
  { intros new ? ? Hp ?. constructor; auto; by rewrite ?Hp. }
  assert (Hterm : v_state (view_of x) <> BBL_TERMINATED -> v_state (view_of x) <> BBL_PPP_LINK ->
    safe (fun x' => good o (view_of x')) (bbl_session_update_state BBL_TERMINATED x)).
  { intros. apply update_good; [done|by apply Hup|by eapply good_lcp]. }
  destruct (v_state (view_of x)) eqn:Es; try (by apply Hterm); try exact Hg.
  all: eapply update_then; [exact Hc|by apply Hup|]; intros x' _ Hc'; apply safe_ok; rewrite ?view_send_padt, ?view_send_term_request;
    by apply good_closed.
Qed.

Lemma reset_view_of x : view_of (bbl_session_reset x) = view_of x.
Proof.
  unfold bbl_session_reset. rewrite view_up by same_view. unfold reset_traffic.
  set (y := l2tp_release _). assert (Hy : view_of y = view_of x).
  { subst y. unfold l2tp_release. rewrite view_up by same_view. vsame. }
  clearbody y. rewrite <- Hy. reflexivity.
Qed.

(** The session at the end of the idle list again. *)
Lemma counted_idle o v term :
  counted o v -> v_state v = BBL_TERMINATED -> v_teardown v = false -> term = o_terminated o ->
  counted o (mk_view (v_id v) (v_type v) BBL_IDLE (v_lcp v) (v_sessions v) (v_outstanding v) (v_established v) term (v_idle v ++ [v_id v]) (v_teardown v)).
Proof.
  intros Hc Es Htd ->. pose proof (c_idle _ _ Hc Htd) as Hi. destruct Hc.
  assert (Hnot : v_id v ∉ v_idle v) by (rewrite Hi, Es; done).
  rewrite Es in *. constructor; cbn; auto; try done.
  - unfold is_state. case_decide; [done|lia].
  - rewrite filter_app. cbn. rewrite decide_False by (intros H; by apply H). by rewrite app_nil_r.
  - apply NoDup_app. split_and!; [done| |apply NoDup_singleton]. intros z Hz ->%list_elem_of_singleton. done.
  - intros _. rewrite elem_of_app, list_elem_of_singleton. intuition.
Qed.

Lemma view_terminated h x :
  view_of (upg (fun g => g {{ g_sessions_terminated ::= h }}) x)
  = reset_view (view_of x) (v_state (view_of x)) (v_lcp (view_of x)) (v_outstanding (view_of x)) (v_established (view_of x))
      (h (v_terminated (view_of x))).
Proof. reflexivity. Qed.

Lemma view_to_idle x :
  let v := view_of x in
  view_of (upg (fun g => g {{ g_idle := g_idle g ++ [s_id (ss x)] }}) x)
  = mk_view (v_id v) (v_type v) (v_state v) (v_lcp v) (v_sessions v) (v_outstanding v) (v_established v) (v_terminated v) (v_idle v ++ [v_id v])
      (v_teardown v).
Proof. reflexivity. Qed.

#[export] Instance start_keeps : Keeps bbl_session_reconnect.
Proof.
  intros o x _ [Hc Hl]. unfold bbl_session_reconnect, bbl_session_start.
  destruct (g_teardown (gl x)) eqn:Etd; [exact (conj Hc Hl)|]. destruct (decide (s_state (ss x) = BBL_TERMINATED)) as [Es|];
    [|rewrite bool_decide_eq_false_2 by done; exact (conj Hc Hl)].
  rewrite bool_decide_eq_true_2 by done. cbn [negb orb]. set (x1 := bbl_session_reset _).
  assert (H1 : view_of x1 = reset_view (view_of x) BBL_IDLE (v_lcp (view_of x)) (v_outstanding (view_of x)) (v_established (view_of x))
    (v_terminated (view_of x))) by (subst x1; rewrite reset_view_of; reflexivity).
  clearbody x1. set (x2 := upg _ x1). assert (H2 : view_of x2 = reset_view (view_of x) BBL_IDLE (v_lcp (view_of x)) (v_outstanding (view_of x))
    (v_established (view_of x)) (o_terminated o)).
  { subst x2. rewrite view_terminated, H1. unfold reset_view. f_equal. cbn -[view_of].
    pose proof (c_terminated _ _ Hc) as Ht. pose proof (c_range _ _ Hc). unfold is_state in Ht. rewrite decide_True in Ht by done.
    case_if; lia. }
  clearbody x2. clear x1 H1. cbv zeta.
  rewrite decide_False.
  - apply safe_ok. rewrite view_to_idle, H2. refine (conj (counted_idle o (view_of x) _ Hc Es Etd eq_refl) _).
    intros Hneg. specialize (Hl Hneg). change (s_state (ss x) = BBL_PPP_LINK) in Hl. congruence.
  - change (v_id (view_of x2) ∉ v_idle (view_of x2)). rewrite H2. intros Hin. apply (c_idle _ _ Hc Etd) in Hin.
    change (s_state (ss x) = BBL_IDLE) in Hin. congruence.
Qed.

(** * Proofs by walking through a function *)

Ltac stay_any := match goal with H : good ?o (view_of ?x) |- good ?o' (view_of ?t) => unify o o'; solve [stay H] end.

Create HintDb keeps.


Lemma keeps_call h `{!Keeps h} o x : good o (view_of x) -> safe (fun x' => good o (view_of x')) (h x).
Proof. by apply keeps_always. Qed.

(** A function that keeps the counters right, called with [t]. *)
Ltac call :=
  lazymatch goal with
  | |- safe _ (?h ?t) => first [solve [eauto with keeps nocore] | solve [notypeclasses refine (keeps_call h _ _ _); [typeclasses eauto | stay_any]]]
  end.

Lemma safe_let {A B} (Q : B -> Prop) (t : A) (f : A -> res B) : (forall y, y = t -> safe Q (f y)) -> safe Q (let x := t in f x).
Proof. auto. Qed.

Lemma safe_opt_bind {A B C} (Q : C -> Prop) (a : option A) (g : A -> res B) (f : B -> res C) :
  (forall a', safe Q (g a' ≫= f)) -> safe Q ((opt a ≫= g) ≫= f).
Proof. destruct a; cbn; auto. Qed.

(** A state that was given a name has the view of an earlier one. *)
Ltac name_state :=
  let y := fresh "x" in let Hy := fresh "Hy" in intros y Hy; cbv beta;
  match goal with
  | H : good ?o (view_of ?x) |- _ =>
      let Hv := fresh "Hv" in
      assert (Hv : view_of y = view_of x) by (rewrite Hy; vsame);
      let Hg := fresh "Hg" in assert (Hg : good o (view_of y)) by (rewrite Hv; exact H); clear Hy
  end.

(** The same for the state in a pair. *)
Ltac name_pair e :=
  let r := fresh "r" in let y := fresh "x" in let E := fresh "E" in destruct e as [r y] eqn:E;
  match goal with
  | H : good ?o (view_of ?x) |- _ =>
      let Hv := fresh "Hv" in
      assert (Hv : view_of y = view_of x) by (transitivity (view_of (r, y).2); [reflexivity | rewrite <- E; vsame]);
      let Hg := fresh "Hg" in assert (Hg : good o (view_of y)) by (rewrite Hv; exact H); clear E
  end.

(** The IPoE branch is not taken. *)
Ltac pppoe_only :=
  match goal with
  | H : good ?o (view_of ?x), E : s_access_type (ss ?x) = ACCESS_TYPE_IPOE |- _ => exfalso; pose proof (good_pppoe o x H); congruence
  end.

(** Case analysis on the tests of a function, the lemmas of the functions it calls, and
    the view of what it returns. *)
Ltac walk :=
  cbv beta; try pppoe_only;
  lazymatch goal with
  | |- safe ?Q (let x := ?t in @?f x) =>
      lazymatch type of t with
      | st => refine (safe_let Q t f _); name_state; walk
      | _ => change (safe Q (f t)); walk
      end
  | |- safe _ (Ok _) => apply safe_ok; stay_any
  | |- safe _ Fault => exact I
  | |- safe _ (opt _ ≫= _) => apply safe_opt; intros ?; walk
  | |- safe _ (mbind _ (match ?e with _ => _ end)) => destruct e eqn:?; walk
  | |- safe _ (mbind _ (mbind _ (opt _))) => apply safe_opt_bind; intros ?; walk
  | |- safe _ (mbind ?f (Ok ?a)) => change (mbind f (Ok a)) with (f a); walk
  | |- safe _ (mbind _ _) => eapply ok_bind; [call | let H := fresh "Hg" in intros ? H; cbv beta in H; walk]
  | |- safe _ (match ?e with _ => _ end) => lazymatch type of e with (_ * st)%type => name_pair e | _ => destruct e eqn:? end; walk
  | |- _ => call
  end.

(** One [let] of the walk. *)
Ltac walk_let := lazymatch goal with |- safe ?Q (let x := ?t in @?f x) => refine (safe_let Q t f _) end.

(** The same for functions that cannot fail: they keep the view. *)
Lemma view_let {A} (t : A) (f : A -> st) v : (forall y, y = t -> view_of (f y) = v) -> view_of (let y := t in f y) = v.
Proof. auto. Qed.

Ltac vdone :=
  first [solve [vsame] | match goal with Hv : view_of ?y = ?v |- view_of ?t = ?v => solve [transitivity (view_of y); [vsame | exact Hv]] end].

Ltac vwalk :=
  cbv beta;
  lazymatch goal with
  | |- view_of (let y := ?t in @?f y) = ?v =>
      lazymatch type of t with
      | st => refine (view_let t f v _);
              let y := fresh "x" in let Hy := fresh "Hy" in intros y Hy; cbv beta;
              let Hv := fresh "Hv" in assert (Hv : view_of y = v) by (rewrite Hy; vdone); clear Hy; vwalk
      | _ => change (view_of (f t) = v); vwalk
      end
  | |- view_of (match ?e with _ => _ end) = _ => destruct e eqn:?; vwalk
  | |- _ => vdone
  end.

(** * The DHCP clients *)

#[export] Instance setup_keeps : Keeps setup_ipoe.
Proof. intros o x _ Hg. unfold setup_ipoe. rewrite (good_pppoe o) by done. walk. Qed.

Lemma view_dhcp_new s x : view_of (dhcp_new_request s x) = view_of x.
Proof. reflexivity. Qed.
Lemma view_dhcpv6_new s x : view_of (dhcpv6_new_request s x) = view_of x.
Proof. reflexivity. Qed.
Lemma view_dhcp_stop x : view_of (bbl_dhcp_stop x) = view_of x.
Proof. reflexivity. Qed.
Lemma view_dhcpv6_stop x : view_of (bbl_dhcpv6_stop x) = view_of x.
Proof. unfold bbl_dhcpv6_stop. case_decide; [done|]. cbv zeta. rewrite <- (view_up id x) by same_view. case_match; reflexivity. Qed.
#[export] Hint Rewrite view_dhcp_new view_dhcpv6_new view_dhcp_stop view_dhcpv6_stop : view.

#[export] Instance dhcp_start_keeps : Keeps bbl_dhcp_start.
Proof. intros o x _ Hg. cbv beta delta [bbl_dhcp_start]. walk. Qed.

#[export] Instance dhcp_restart_keeps : Keeps bbl_dhcp_restart.
Proof. intros o x _ Hg. cbv beta delta [bbl_dhcp_restart]. walk. Qed.

(** A session that terminates is not idle. *)
Lemma clear_terminating o x y :
  good o (view_of x) -> s_state (ss x) = BBL_TERMINATING -> view_of y = view_of x -> safe (fun x' => good o (view_of x')) (bbl_session_clear y).
Proof.
  intros Hg Hs Hv. apply clear_keeps; rewrite Hv; [|done]. unfold clearable. change (v_state (view_of x)) with (s_state (ss x)). congruence.
Qed.
#[export] Hint Extern 1 (safe _ (bbl_session_clear _)) =>
  match goal with H : good ?o (view_of ?x) |- _ => solve [eapply (clear_terminating o x); [exact H | assumption | vsame]] end : keeps.

#[export] Instance dhcp_lease_keeps header dhcp ts : Keeps (dhcp_lease header dhcp ts).
Proof. intros o x _ Hg. cbv beta delta [dhcp_lease]. walk. Qed.

Lemma dhcp_bound_actions_view x : view_of (dhcp_bound_actions x) = view_of x.
Proof. unfold dhcp_bound_actions. rewrite view_send. reflexivity. Qed.
Lemma dhcp_times_view a b x : view_of (dhcp_times a b x) = view_of x.
Proof. reflexivity. Qed.
#[export] Hint Rewrite dhcp_bound_actions_view dhcp_times_view : view.

#[export] Instance dhcp_rx_offer_keeps header eth dhcp ts : Keeps (dhcp_rx_offer header eth dhcp ts).
Proof. intros o x _ Hg. cbv beta delta [dhcp_rx_offer]. walk. Qed.
#[export] Instance dhcp_rx_ack_keeps header dhcp ts : Keeps (dhcp_rx_ack header dhcp ts).
Proof. intros o x _ Hg. cbv beta delta [dhcp_rx_ack]. walk. Qed.
#[export] Instance dhcp_rx_renew_keeps header dhcp ts : Keeps (dhcp_rx_renew header dhcp ts).
Proof. intros o x _ Hg. cbv beta delta [dhcp_rx_renew]. walk. Qed.

#[export] Instance dhcp_rx_keeps eth dhcp ts : Keeps (bbl_dhcp_rx eth dhcp ts).
Proof. intros o x _ Hg. cbv beta delta [bbl_dhcp_rx]. walk. Qed.

#[export] Instance dhcpv6_start_keeps : Keeps bbl_dhcpv6_start.
Proof.
  intros o x _ Hg. cbv beta delta [bbl_dhcpv6_start]. walk.
Qed.

#[export] Instance dhcpv6_restart_keeps : Keeps bbl_dhcpv6_restart.
Proof. intros o x _ Hg. cbv beta delta [bbl_dhcpv6_restart]. walk. Qed.

#[export] Instance dhcpv6_take_address_keeps d6 : Keeps (dhcpv6_take_address d6).
Proof. intros o x _ Hg. cbv beta delta [dhcpv6_take_address]. walk. Qed.
#[export] Instance dhcpv6_take_prefix_keeps d6 : Keeps (dhcpv6_take_prefix d6).
Proof. intros o x _ Hg. cbv beta delta [dhcpv6_take_prefix]. walk. Qed.
#[export] Instance dhcpv6_establish_keeps d6 : Keeps (dhcpv6_establish d6).
Proof. intros o x _ Hg. cbv beta delta [dhcpv6_establish]. walk. Qed.

#[export] Instance dhcpv6_rx_reply_keeps d6 ts : Keeps (dhcpv6_rx_reply d6 ts).
Proof. intros o x _ Hg. cbv beta delta [dhcpv6_rx_reply]. walk. Qed.
#[export] Instance dhcpv6_rx_advertise_keeps d6 : Keeps (dhcpv6_rx_advertise d6).
Proof. intros o x _ Hg. cbv beta delta [dhcpv6_rx_advertise]. walk. Qed.
#[export] Instance dhcpv6_rx_keeps d6 ts : Keeps (bbl_dhcpv6_rx d6 ts).
Proof. intros o x _ Hg. cbv beta delta [bbl_dhcpv6_rx]. walk. Qed.
