(* ===== verification/SessionRxKeeps.v ===== *)
(** Received packets keep the counters of PPPoE sessions right. *)
From coqutil Require Import Datatypes.RecordSetters.
From S2P Require Import Prelude.
From S2P Require Import Const.
From S2P Require Import ConstApp.
From S2P Require Import ConstStream.
From S2P Require Import ProtoTypes.
From S2P Require Import Timer.
From S2P Require Import Enc.
From S2P Require Import EncodeEth.
From S2P Require Import Stream.
From S2P Require Import Session.
From S2P Require Import SessionDhcp.
From S2P Require Import SessionIgmp.
From S2P Require Import SessionAccess.
From S2P Require Import SessionTx.
From S2P Require Import SessionSys.
From S2P Require Import SessionCount.
From S2P Require Import SessionKeeps.
Import RecordSetters.DoubleBraceUpdate.
From stdpp Require Import gmap list strings.
Open Scope Z_scope.

(** * IGMP *)

Lemma view_igmp_rx igmp x : view_of (bbl_igmp_rx igmp x) = view_of x.
Proof. cbv beta delta [bbl_igmp_rx]. vwalk. Qed.
Lemma view_mc_account b i x : view_of (mc_account b i x) = view_of x.
Proof. cbv beta delta [mc_account]. vwalk. Qed.
#[export] Hint Rewrite view_igmp_rx view_mc_account : view.
Lemma view_mc_group dst bbl ts x i : view_of (mc_group dst bbl ts x i) = view_of x.
Proof. cbv beta delta [mc_group]. vwalk. Qed.

Lemma view_foldl {A} (f : st -> A -> st) l x : (forall x a, view_of (f x a) = view_of x) -> view_of (foldl f x l) = view_of x.
Proof. intros H. revert x. induction l as [|a l IH]; intros x; [done|]. cbn. by rewrite IH, H. Qed.

#[export] Instance rx_ipv4_mc_keeps eth ipv4 ts : Keeps (bbl_access_rx_ipv4_mc eth ipv4 ts).
Proof.
  intros o x _ Hg. cbv beta delta [bbl_access_rx_ipv4_mc]. apply safe_opt. intros b. apply safe_ok.
  rewrite view_foldl; [done|]. intros. apply view_mc_group.
Qed.

(** * Authentication and the network protocols *)

Lemma view_lcp_is f x : view_of (up_lcp f x) = lcp_is (p_state (f (s_lcp (ss x)))) (view_of x).
Proof. reflexivity. Qed.

(** [up_lcp] of anything but the state. *)
Lemma view_lcp f x : p_state (f (s_lcp (ss x))) = p_state (s_lcp (ss x)) -> view_of (up_lcp f x) = view_of x.
Proof. intros H. by rewrite view_lcp_is, H. Qed.

Lemma view_lcp_respond c i x : view_of (lcp_respond c i x) = view_of x.
Proof. unfold lcp_respond. rewrite view_send. reflexivity. Qed.
Lemma view_verified a x : view_of (bbl_access_l2tp_stream_force_verified a x) = view_of x.
Proof. cbv beta delta [bbl_access_l2tp_stream_force_verified]. vwalk. Qed.
Lemma view_verified_all l x : view_of (foldl (fun x a => bbl_access_l2tp_stream_force_verified a x) x l) = view_of x.
Proof. apply view_foldl. intros. apply view_verified. Qed.
Lemma view_start_network x : view_of (start_network x) = view_of x.
Proof. cbv beta delta [start_network]. vwalk. Qed.
Lemma view_note_established ts x : view_of (note_established ts x) = view_of x.
Proof. cbv beta delta [note_established]. unfold view_of. change (gl (upg ?f x)) with (f (gl x)). cbv beta. by case_match. Qed.
Lemma view_ncp_open b x : view_of (bbl_session_ncp_open b x) = view_of x.
Proof. cbv beta delta [bbl_session_ncp_open]. vwalk. Qed.
Lemma view_ncp_close b x : view_of (bbl_session_ncp_close b x) = view_of x.
Proof. cbv beta delta [bbl_session_ncp_close]. vwalk. Qed.
#[export] Hint Rewrite view_lcp_respond view_verified view_verified_all view_start_network view_note_established view_ncp_open view_ncp_close : view.

Lemma l2tp_view m n x : safe (fun x' => view_of x' = view_of x) (bbl_access_l2tp m n x).
Proof.
  unfold bbl_access_l2tp. apply safe_opt. intros msg. case_match; [done|]. apply safe_opt. intros sub. apply safe_opt. intros [k|]; [|done].
  case_match; [|done]. apply safe_ok. by rewrite view_verified_all.
Qed.

(** A change of state of a running session. *)
Lemma update_running o x y new :
  good o (view_of y) -> view_of x = view_of y -> running (view_of y) -> new <> BBL_IDLE -> new <> BBL_MAX ->
  (pending new = true -> pending (v_state (view_of y)) = true) -> (v_state (view_of y) <> BBL_PPP_LINK) ->
  safe (fun x' => good o (view_of x')) (bbl_session_update_state new x).
Proof.
  intros Hg Hv Hr ? ? Hp Hl. apply update_good; rewrite Hv; [done|by apply move_running|by eapply good_lcp].
Qed.

Lemma auth_success_keeps m n : keeps_if (fun v => v_state v = BBL_PPP_AUTH) (auth_success m n).
Proof.
  intros o x Hs Hg. cbv beta delta [auth_success]. eapply ok_bind; [apply l2tp_view|]. intros y Hy. cbv beta in Hy. apply safe_opt. intros msg.
  set (z := if n =? 0 then y else _). assert (Hz : view_of z = view_of x) by (subst z; rewrite <- Hy; case_match; reflexivity). clearbody z.
  eapply ok_bind; [apply (update_running o z x); unfold running; rewrite ?Hs; done|]. intros w Hw. cbv beta in Hw. walk.
Qed.

Lemma auth_failure_keeps : keeps_if (fun v => v_state v = BBL_PPP_AUTH) auth_failure.
Proof.
  intros o x Hs Hg. unfold auth_failure. eapply update_then; [by apply good_counted|apply move_running; unfold running; rewrite ?Hs; done|].
  intros y _ Hc. apply safe_ok. rewrite view_send_term_request. by apply good_closed.
Qed.

#[export] Hint Extern 1 (safe _ (auth_success _ _ _)) => apply auth_success_keeps; assumption : keeps.
#[export] Hint Extern 1 (safe _ (auth_failure _)) => apply auth_failure_keeps; assumption : keeps.

#[export] Instance rx_pap_keeps pap : Keeps (bbl_access_rx_pap pap).
Proof. intros o x _ Hg. cbv beta delta [bbl_access_rx_pap]. walk. Qed.
#[export] Instance rx_chap_keeps chap : Keeps (bbl_access_rx_chap chap).
Proof. intros o x _ Hg. cbv beta delta [bbl_access_rx_chap]. walk. Qed.

(** Establishing a session whose LCP is not negotiated. *)
Lemma established_keeps ts : keeps_if (fun v => running v /\ negotiating (v_lcp v) = false) (bbl_access_rx_established_pppoe ts).
Proof.
  intros o x [Hr Hn] Hg. cbv beta delta [bbl_access_rx_established_pppoe]. case_match; [|exact Hg].
  eapply ok_bind; [apply (update_good o); rewrite ?view_note_established; [done|by apply move_running|done]|].
  intros y Hy. cbv beta in Hy. walk.
Qed.

#[export] Hint Rewrite view_lcp using (first [reflexivity | assumption]) : view.

(** The options of a protocol do not change its state. *)
Lemma keep_options_state p l q q' : keep_options p l q = Some q' -> p_state q' = p_state q.
Proof. unfold keep_options. case_match; [|by intros [= ->]]. intros (b & _ & [= <-])%bind_Some. reflexivity. Qed.
Lemma set_options_state bs l q q' : set_options bs l q = Some q' -> p_state q' = p_state q.
Proof. unfold set_options. intros (b & _ & [= <-])%bind_Some. reflexivity. Qed.
Lemma reject_lcp_options_state os q q' : reject_lcp_options os q = Some q' -> p_state q' = p_state q.
Proof.
  revert q. induction os as [|op os IH]; intros q; cbn; [by intros [= ->]|]. intros (q1 & H1 & ->%IH)%bind_Some. revert H1.
  unfold reject_lcp_option. repeat case_match; try done; try (by intros [= ->]). intros (b & _ & [= <-])%bind_Some. reflexivity.
Qed.

Lemma view_lcp_opt f x : (forall q q', f q = Some q' -> p_state q' = p_state q) -> safe (fun x' => view_of x' = view_of x) (up_lcp_opt f x).
Proof. intros H. unfold up_lcp_opt. destruct (f _) as [q|] eqn:E; [|done]. apply safe_ok. rewrite view_lcp; [done|]. by apply H in E. Qed.

#[export] Instance set_lcp_options_keeps bs l : Keeps (up_lcp_opt (set_options bs l)).
Proof.
  intros o x _ Hg. eapply ok_mono; [apply view_lcp_opt|intros ? ->; exact Hg]. intros ? ?. apply set_options_state.
Qed.

#[export] Instance prot_reject_keeps protocol : Keeps (prot_reject protocol).
Proof. intros o x _ Hg. cbv beta delta [prot_reject]. walk. Qed.

(** * The network control protocols *)

(** LCP is open: the session may be established. *)
Definition network (v : view) : Prop := running v /\ v_lcp v = BBL_PPP_OPENED.

Lemma established_network ts o x y :
  good o (view_of y) -> network (view_of y) -> view_of x = view_of y ->
  safe (fun x' => good o (view_of x')) (bbl_access_rx_established_pppoe ts x).
Proof. intros Hg [Hr Hl] Hv. apply established_keeps; rewrite Hv; [|done]. split; [done|by rewrite Hl]. Qed.
#[export] Hint Extern 1 (safe _ (bbl_access_rx_established_pppoe _ _)) =>
  match goal with H : good ?o (view_of ?x) |- _ => solve [eapply (established_network _ o _ x); [exact H | assumption | vsame]] end : keeps.

Lemma ip6cp_opened_keeps ts : keeps_if network (ip6cp_opened ts).
Proof. intros o x Hn Hg. cbv beta delta [ip6cp_opened]. walk. Qed.
Lemma ipcp_opened_keeps ts : keeps_if network (ipcp_opened ts).
Proof. intros o x Hn Hg. cbv beta delta [ipcp_opened]. walk. Qed.

(** [h] applied to a state with the view of [x]. *)
Lemma keeps_if_at P h o x y :
  keeps_if P h -> good o (view_of x) -> P (view_of x) -> view_of y = view_of x -> safe (fun x' => good o (view_of x')) (h y).
Proof. intros Hk Hg HP Hv. apply Hk; by rewrite Hv. Qed.

(** A state given a new name keeps what is known of the view. *)
Ltac at_view lem := match goal with Hg : good ?o (view_of ?x) |- _ => solve [eapply (keeps_if_at _ _ o x); [apply lem | exact Hg | congruence | vsame]] end.
#[export] Hint Extern 1 (safe _ (ip6cp_opened _ _)) => at_view ip6cp_opened_keeps : keeps.
#[export] Hint Extern 1 (safe _ (ipcp_opened _ _)) => at_view ipcp_opened_keeps : keeps.

Lemma ip6cp_conf_request_keeps ip6cp ts : keeps_if network (ip6cp_conf_request ip6cp ts).
Proof. intros o x Hn Hg. cbv beta delta [ip6cp_conf_request]. walk. Qed.
#[export] Hint Extern 1 (safe _ (ip6cp_conf_request _ _ _)) => at_view ip6cp_conf_request_keeps : keeps.

Lemma rx_ip6cp_keeps ip6cp ts : keeps_if running (bbl_access_rx_ip6cp ip6cp ts).
Proof.
  intros o x Hr Hg. cbv beta delta [bbl_access_rx_ip6cp].
  destruct (negb (bool_decide _)) eqn:E; [walk|]. apply negb_false_iff, bool_decide_eq_true in E.
  assert (Hn : network (view_of x)) by (split; assumption). walk.
Qed.

#[export] Instance ipcp_reject_keeps ipcp : Keeps (bbl_access_rx_ipcp_conf_reject ipcp).
Proof. intros o x _ Hg. cbv beta delta [bbl_access_rx_ipcp_conf_reject]. walk. Qed.
Lemma ipcp_conf_request_keeps ipcp ts : keeps_if network (ipcp_conf_request ipcp ts).
Proof. intros o x Hn Hg. cbv beta delta [ipcp_conf_request]. walk. Qed.
#[export] Hint Extern 1 (safe _ (ipcp_conf_request _ _ _)) => at_view ipcp_conf_request_keeps : keeps.

Lemma view_ipcp_retry x : view_of (ipcp_retry x) = view_of x.
Proof. unfold ipcp_retry. by rewrite view_send. Qed.
#[export] Hint Rewrite view_ipcp_retry : view.

Lemma rx_ipcp_keeps ipcp ts : keeps_if running (bbl_access_rx_ipcp ipcp ts).
Proof.
  intros o x Hr Hg. cbv beta delta [bbl_access_rx_ipcp].
  destruct (negb (bool_decide _)) eqn:E; [walk|]. apply negb_false_iff, bool_decide_eq_true in E.
  assert (Hn : network (view_of x)) by (split; assumption). walk.
Qed.

(** * LCP *)

#[export] Instance lcp_reject_keeps lcp : Keeps (bbl_access_rx_lcp_conf_reject lcp).
Proof.
  intros o x _ Hg. cbv beta delta [bbl_access_rx_lcp_conf_reject]. eapply ok_bind; [apply view_lcp_opt|].
  - intros q q' ->%reject_lcp_options_state. reflexivity.
  - intros y Hy. apply safe_ok. by rewrite view_lcp_respond, Hy.
Qed.

#[export] Instance lcp_code_reject_keeps lcp : Keeps (lcp_code_reject lcp).
Proof.
  intros o x _ Hg. unfold lcp_code_reject. destruct (keep_options _ _ _) as [q|] eqn:E; [|done]. apply safe_ok.
  rewrite view_lcp_respond, view_lcp; [done|]. by apply keep_options_state in E.
Qed.

#[export] Instance lcp_vendor_keeps lcp : Keeps (lcp_vendor_specific lcp).
Proof. intros o x _ Hg. cbv beta delta [lcp_vendor_specific]. walk. Qed.

(** While LCP is negotiated, its state may be changed freely. *)
Lemma good_negotiating o v s : good o v -> negotiating (v_lcp v) = true -> good o (lcp_is s v).
Proof. intros [Hc Hl] Hn. split; [by apply counted_lcp|]. intros _. by apply Hl. Qed.

Definition linking (v : view) : Prop := v_state v = BBL_PPP_LINK.

Lemma lcp_opened_keeps : keeps_if linking bbl_access_lcp_opened.
Proof.
  intros o x Hs Hg. cbv beta delta [bbl_access_lcp_opened]. set (x1 := up_lcp _ x).
  assert (Hg1 : good o (view_of x1)) by (subst x1; rewrite view_lcp_is; by apply good_closed; [apply good_counted|]).
  assert (Hl : v_lcp (view_of x1) = BBL_PPP_OPENED) by done. change (linking (view_of x1)) in Hs. clearbody x1. clear Hg x. cbv beta zeta.
  assert (Hup : forall new, pending new = true -> safe (fun x' => good o (view_of x')) (bbl_session_update_state new x1)).
  { intros new Hp. apply update_good; [done| |by rewrite Hl]. apply move_running; [unfold running; by rewrite Hs|by intros ->|by intros ->|by rewrite Hs]. }
  eapply (ok_bind (fun x' => good o (view_of x'))); [|intros y Hy; cbv beta in Hy; walk].
  repeat case_match; first [by apply Hup | eapply ok_bind; [by apply Hup|intros y Hy; cbv beta in Hy; walk]].
Qed.
#[export] Hint Extern 1 (safe _ (bbl_access_lcp_opened _)) => at_view lcp_opened_keeps : keeps.

(** LCP moves on while it is negotiated. *)
Lemma lcp_step_keeps o x s :
  good o (view_of x) -> negotiating (p_state (s_lcp (ss x))) = true ->
  safe (fun x' => good o (view_of x')) (Ok (up_lcp (fun p => p {{ p_state := s }}) x)).
Proof. intros Hg Hn. apply safe_ok. rewrite view_lcp_is. by apply good_negotiating. Qed.

Lemma negotiating_linking o x : good o (view_of x) -> negotiating (p_state (s_lcp (ss x))) = true -> linking (view_of x).
Proof. intros [_ Hl]. exact Hl. Qed.

#[export] Instance lcp_conf_ack_keeps lcp : Keeps (lcp_conf_ack lcp).
Proof.
  intros o x _ Hg. cbv beta delta [lcp_conf_ack]. walk_let. name_state. clear Hv.
  destruct (keep_options _ _ _) as [q|] eqn:E; [|done]. apply keep_options_state in E. change (opt (Some q)) with (Ok q).
  change (mbind ?f (Ok q)) with (f q). cbv beta. walk_let. name_state.
  assert (Hq : p_state q = p_state (s_lcp (ss x1))) by (rewrite E; change (v_lcp (view_of x0) = v_lcp (view_of x1)); by rewrite Hv).
  rewrite Hq. eapply (ok_bind (fun x' => good o (view_of x'))); [|intros y Hy; cbv beta in Hy; walk].
  destruct (p_state (s_lcp (ss x1))) eqn:El; try exact Hg1; [apply lcp_step_keeps; [done|by rewrite El]|].
  apply lcp_opened_keeps; [|done]. apply (negotiating_linking o); [done|by rewrite El].
Qed.

#[export] Instance lcp_conf_request_keeps lcp : Keeps (lcp_conf_request lcp).
Proof. intros o x _ Hg. cbv beta delta [lcp_conf_request]. walk. Qed.

Lemma lcp_term_request_keeps lcp : keeps_if running (lcp_term_request lcp).
Proof.
  intros o x Hr Hg. cbv beta delta [lcp_term_request]. set (x1 := up_lcp _ x).
  assert (H1 : view_of x1 = lcp_is BBL_PPP_TERMINATE (view_of x)) by reflexivity. clearbody x1. cbv zeta.
  set (x2 := if decide _ then _ else _). assert (H2 : view_of x2 = lcp_is BBL_PPP_TERMINATE (view_of x)).
  { subst x2. rewrite <- H1. case_match; [reflexivity|]. rewrite view_up by same_view. by rewrite view_lcp. }
  clearbody x2. eapply ok_bind; [apply (update_good o); rewrite H2|].
  - apply good_closed; [by apply good_counted|done].
  - by apply move_running.
  - done.
  - intros y Hy. cbv beta in Hy. walk.
Qed.

Lemma view_ppp_closed x :
  view_of (up (fun s => (ncps_closed (lcp_closed s)) {{ s_send_requests := BBL_SEND_DISCOVERY }}) x) = lcp_is BBL_PPP_CLOSED (view_of x).
Proof. reflexivity. Qed.

(** LCP is closed and the session is terminated with a PADT. *)
Lemma closed_terminating o x y :
  good o (view_of x) -> running (view_of x) -> view_of y = lcp_is BBL_PPP_CLOSED (view_of x) ->
  safe (fun x' => good o (view_of x')) (x ← bbl_session_update_state BBL_TERMINATING y; Ok (bbl_session_tx_qnode_insert x)).
Proof.
  intros Hg Hr Hy. eapply ok_bind; [apply (update_good o); rewrite Hy; [apply good_closed; [by apply good_counted|done]|by apply move_running|done]|].
  intros z Hz. cbv beta in Hz. walk.
Qed.

Lemma lcp_term_ack_keeps : keeps_if running lcp_term_ack.
Proof.
  intros o x Hr Hg. unfold lcp_term_ack. apply (closed_terminating o x); [done|done|]. rewrite view_ppp_closed. by rewrite view_lcp.
Qed.

Lemma lcp_prot_reject_keeps lcp ts : keeps_if (fun v => running v /\ v_state v <> BBL_PPP_LINK) (lcp_prot_reject lcp ts).
Proof.
  intros o x [Hr Hl] Hg. cbv beta zeta delta [lcp_prot_reject]. set (y := if _ : bool then _ else _).
  assert (Hy : view_of y = view_of x) by (subst y; repeat case_match; reflexivity). clearbody y.
  apply established_keeps; rewrite Hy; [|done]. split; [done|]. by eapply good_lcp.
Qed.

(** The first test of a function. *)
Ltac branch := lazymatch goal with |- safe _ (match ?b with _ => _ end) => destruct b eqn:? end.

(** A protocol reject before LCP is open is the one packet that is not expected. *)
Definition lcp_expected (lcp : bbl_lcp) (v : view) : Prop := lcp_code lcp = PPP_CODE_PROT_REJECT -> v_state v <> BBL_PPP_LINK.

Lemma rx_lcp_keeps lcp ts : keeps_if (fun v => running v /\ lcp_expected lcp v) (bbl_access_rx_lcp lcp ts).
Proof.
  intros o x [Hr He] Hg. cbv beta delta [bbl_access_rx_lcp].
  walk_let. intros code ->. walk_let. intros retried ->. cbv beta.
  do 4 (branch; [walk|]).
  destruct (_ =? PPP_CODE_CONF_ACK).
  { walk_let. name_state. destruct (p_state (s_lcp (ss x0))) eqn:El; try exact Hg0.
    - apply lcp_step_keeps; [done|by rewrite El].
    - apply lcp_opened_keeps; [|done]. apply (negotiating_linking o); [done|by rewrite El]. }
  do 3 (branch; [walk|]).
  destruct (_ =? PPP_CODE_TERM_REQUEST); [by apply lcp_term_request_keeps|]. destruct (_ =? PPP_CODE_TERM_ACK); [by apply lcp_term_ack_keeps|].
  destruct (_ =? PPP_CODE_PROT_REJECT) eqn:Ep; [|walk]. apply lcp_prot_reject_keeps; [split; [done|]|done]. by apply He, Z.eqb_eq.
Qed.

(** * PPPoE discovery *)

(** A change between two given states. *)
Definition simple_move (old new : session_state) : bool :=
  match old, new with
  | (BBL_IDLE | BBL_TERMINATED | BBL_PPP_LINK), _ | _, (BBL_IDLE | BBL_MAX) => false
  | _, _ => negb (pending new) || pending old
  end.

Lemma update_from o x y old new :
  good o (view_of y) -> v_state (view_of y) = old -> view_of x = view_of y -> simple_move old new = true ->
  safe (fun x' => good o (view_of x')) (bbl_session_update_state new x).
Proof.
  intros Hg Hs Hv Hm. apply (update_running o x y); [done|done| | | | |]; unfold running; rewrite ?Hs; by destruct old, new.
Qed.
Ltac move_from :=
  match goal with
  | Hs : v_state (view_of _) = ?old, Hg : good ?o (view_of ?y) |- _ =>
      solve [eapply (update_from o _ y old); [exact Hg | congruence | vsame | reflexivity]]
  end.
#[export] Hint Extern 1 (safe _ (bbl_session_update_state _ _)) => move_from : keeps.

Lemma discovery_pado_keeps eth d : keeps_if (fun v => v_state v = BBL_PPPOE_INIT) (discovery_pado eth d).
Proof. intros o x Hs Hg. cbv beta delta [discovery_pado]. walk. Qed.

(** The link is up: LCP begins. *)
Lemma link_up o x y :
  good o (view_of x) -> v_state (view_of x) = BBL_PPPOE_REQUEST -> view_of y = view_of x ->
  safe (fun x' => counted o (view_of x') /\ linking (view_of x')) (bbl_session_update_state BBL_PPP_LINK y).
Proof.
  intros Hg Hs Hv. rewrite <- Hv in *. eapply ok_mono; [apply (update_moves o); [by apply good_counted|]|].
  - apply move_running; [unfold running; by rewrite Hs|done|done|by rewrite Hs].
  - intros z ->. split; [|by unfold linking; rewrite moved_state]. apply counted_moved; [by apply good_counted|].
    apply move_running; [unfold running; by rewrite Hs|done|done|by rewrite Hs].
Qed.

Lemma view_lcp_begins r x : view_of (up_lcp (fun p => p {{ p_request_code := PPP_CODE_CONF_REQUEST ; p_state := BBL_PPP_INIT }})
    (up (fun s => s {{ s_send_requests := r }}) x)) = lcp_is BBL_PPP_INIT (view_of x).
Proof. reflexivity. Qed.

Lemma discovery_pads_keeps d : keeps_if (fun v => v_state v = BBL_PPPOE_REQUEST) (discovery_pads d).
Proof.
  intros o x Hs Hg. cbv beta delta [discovery_pads]. branch; [walk|]. apply safe_opt. intros ok. apply safe_opt. intros name. branch; [walk|].
  walk_let. name_state. eapply ok_bind; [apply (link_up o x); done|]. intros y [Hc Hl]. walk_let. intros z ->.
  set (z := up_lcp _ _). assert (Hz : view_of z = lcp_is BBL_PPP_INIT (view_of y)) by apply view_lcp_begins. clearbody z.
  assert (Hgz : good o (view_of z)) by (rewrite Hz; split; [by apply counted_lcp|intros _; exact Hl]). walk.
Qed.

(** A running session is terminated at once. *)
Lemma update_terminated o x y :
  good o (view_of x) -> running (view_of x) -> view_of y = view_of x -> safe (fun x' => good o (view_of x')) (bbl_session_update_state BBL_TERMINATED y).
Proof.
  intros Hg [Hi Ht] Hv. rewrite <- Hv in *. assert (Hm : may_move (view_of y) BBL_TERMINATED) by (apply move_running; [by split|done|done|done]).
  eapply ok_mono; [apply (update_moves o); [by apply good_counted|done]|]. intros z ->.
  split; [apply counted_moved; [by apply good_counted|done]|]. unfold moved. rewrite decide_False by done. done.
Qed.

Lemma rx_discovery_keeps eth d : keeps_if running (bbl_access_rx_discovery eth d).
Proof.
  intros o x Hr Hg. cbv beta delta [bbl_access_rx_discovery]. branch.
  { walk_let. name_state. branch; [|walk]. by apply discovery_pado_keeps. }
  branch. { walk_let. name_state. branch; [|walk]. by apply discovery_pads_keeps. }
  branch; [|walk]. eapply ok_bind; [apply (update_terminated o x); done|]. intros y Hy. cbv beta in Hy. walk.
Qed.

(** * IP *)

#[export] Instance rx_icmp_keeps eth ipv4 : Keeps (bbl_access_rx_icmp eth ipv4).
Proof. intros o x _ Hg. cbv beta delta [bbl_access_rx_icmp]. walk. Qed.
#[export] Instance ra_prefix_keeps icmpv6 : Keeps (ra_prefix icmpv6).
Proof. intros o x _ Hg. cbv beta delta [ra_prefix]. walk. Qed.
#[export] Instance rx_ra_keeps eth ipv6 icmpv6 ts : Keeps (rx_router_advertisement eth ipv6 icmpv6 ts).
Proof. intros o x _ Hg. cbv beta delta [rx_router_advertisement]. walk. Qed.

Lemma rx_icmpv6_keeps eth ipv6 ts o x :
  good o (view_of x) -> safe (fun r => good o (view_of r.2)) (bbl_access_rx_icmpv6 eth ipv6 ts x).
Proof.
  intros Hg. cbv beta zeta delta [bbl_access_rx_icmpv6]. destruct (ipv6_next ipv6); try exact I.
  repeat branch; try (apply safe_ok; repeat case_match; exact Hg).
  eapply ok_bind; [apply rx_ra_keeps; [done|exact Hg]|]. intros y Hy. exact Hy.
Qed.

Lemma view_to_tun h n x : view_of (to_tun h n x) = view_of x.
Proof. unfold to_tun. by case_match. Qed.
Lemma view_accounting eth x : view_of (accounting eth x) = view_of x.
Proof. reflexivity. Qed.
#[export] Hint Rewrite view_to_tun view_accounting : view.

#[export] Instance rx_ipv4_other_keeps eth ipv4 ts : Keeps (rx_ipv4_other eth ipv4 ts).
Proof. intros o x _ Hg. cbv beta delta [rx_ipv4_other]. walk. Qed.
#[export] Instance rx_ipv4_udp_keeps eth ipv4 udp ts : Keeps (rx_ipv4_udp eth ipv4 udp ts).
Proof. intros o x _ Hg. cbv beta delta [rx_ipv4_udp]. walk. Qed.
#[export] Instance rx_ipv4_keeps eth ipv4 ts : Keeps (bbl_access_rx_ipv4 eth ipv4 ts).
Proof. intros o x _ Hg. cbv beta delta [bbl_access_rx_ipv4]. walk. Qed.
#[export] Instance rx_udp_ipv6_keeps eth ipv6 ts : Keeps (bbl_access_rx_udp_ipv6 eth ipv6 ts).
Proof. intros o x _ Hg. cbv beta delta [bbl_access_rx_udp_ipv6]. walk. Qed.
#[export] Instance rx_ipv6_keeps eth ipv6 ts : Keeps (bbl_access_rx_ipv6 eth ipv6 ts).
Proof.
  intros o x _ Hg. cbv beta delta [bbl_access_rx_ipv6]. walk_let. name_state. walk_let. intros protocol ->. branch; [|walk].
  pose proof (rx_icmpv6_keeps eth ipv6 ts o (count_if "icmpv6_rx" (count "icmpv6_rx" x0)) Hg0) as H.
  destruct (bbl_access_rx_icmpv6 _ _ _ _) as [[[] y]| |]; try exact H.
Qed.

(** * The packets of a session *)

(** The packet is expected by a session with this view. *)
Definition expected (eth : ethernet) (v : view) : Prop :=
  match eth_next eth with
  | h_pppoe_session p => match ps_next p with h_lcp lcp => lcp_expected lcp v | _ => True end
  | _ => True
  end.

Lemma rx_session_keeps eth p ts :
  keeps_if (fun v => running v /\ match ps_next p with h_lcp lcp => lcp_expected lcp v | _ => True end) (bbl_access_rx_session eth p ts).
Proof.
  intros o x [Hr He] Hg. cbv beta zeta delta [bbl_access_rx_session]. repeat branch; try exact I; try walk.
  - eapply ok_bind; [apply rx_lcp_keeps; [split; done|done]|]. intros y Hy. cbv beta in Hy. walk.
  - eapply ok_bind; [apply rx_ipcp_keeps; done|]. intros y Hy. cbv beta in Hy. walk.
  - eapply ok_bind; [apply rx_ip6cp_keeps; done|]. intros y Hy. cbv beta in Hy. walk.
Qed.

Lemma rx_unicast_keeps eth ts : keeps_if (expected eth) (rx_unicast eth ts).
Proof.
  intros o x He Hg. cbv beta delta [rx_unicast is_running]. branch; [walk|]. walk_let. name_state. rewrite (good_pppoe o x0) by done.
  apply negb_false_iff, negb_true_iff, orb_false_iff in Heqb as [Ht%bool_decide_eq_false Hi%bool_decide_eq_false].
  assert (Hr : running (view_of x0)) by (rewrite Hv; split; assumption). rewrite <- Hv in He. unfold expected in He.
  unfold rx_pppoe. branch; [branch; try exact I; by apply rx_discovery_keeps|]. branch; [|walk]. branch; try exact I.
  by apply rx_session_keeps.
Qed.

#[export] Instance rx_broadcast_keeps multicast eth ts : Keeps (rx_broadcast multicast eth ts).
Proof. intros o x _ Hg. unfold rx_broadcast. rewrite (good_pppoe o x) by done. exact Hg. Qed.
