(* ===== verification/SessionTxKeeps.v ===== *)
(** Timers, transmitted packets and commands keep the counters of PPPoE sessions right. *)
From coqutil Require Import Datatypes.RecordSetters.
From S2P Require Import Prelude.
From S2P Require Import Const.
From S2P Require Import ConstApp.
From S2P Require Import ConstStream.
From S2P Require Import ProtoTypes.
From S2P Require Import Timer.
From S2P Require Import Enc.
From S2P Require Import EncodeEth.
From S2P Require Import Stream.
From S2P Require Import Session.
From S2P Require Import SessionDhcp.
From S2P Require Import SessionIgmp.
From S2P Require Import SessionAccess.
From S2P Require Import SessionTx.
From S2P Require Import SessionSys.
From S2P Require Import SessionCount.
From S2P Require Import SessionKeeps.
From S2P Require Import SessionRxKeeps.
Import RecordSetters.DoubleBraceUpdate.
From stdpp Require Import gmap list strings.
Open Scope Z_scope.

(** * Timers *)

(** A session in a state other than idle may be cleared. *)
Lemma clear_from o x y old :
  good o (view_of y) -> v_state (view_of y) = old -> old <> BBL_IDLE -> view_of x = view_of y -> safe (fun x' => good o (view_of x')) (bbl_session_clear x).
Proof. intros Hg Hs Ho Hv. apply clear_keeps; rewrite Hv; [|done]. unfold clearable. congruence. Qed.
Ltac clear_now :=
  match goal with
  | Hs : s_state (ss ?z) = ?old, Hg : good ?o (view_of ?y) |- _ =>
      change (v_state (view_of z) = old) in Hs; solve [eapply (clear_from o _ y old); [exact Hg | congruence | done | vsame]]
  | Hs : v_state (view_of ?z) = ?old, Hg : good ?o (view_of ?y) |- _ =>
      solve [eapply (clear_from o _ y old); [exact Hg | congruence | done | vsame]]
  end.
#[export] Hint Extern 2 (safe _ (bbl_session_clear _)) => clear_now : keeps.

#[export] Instance auth_timeout_keeps k r : Keeps (auth_timeout k r).
Proof. intros o x _ Hg. cbv beta delta [auth_timeout]. walk. Qed.
#[export] Instance session_timeout_keeps : Keeps bbl_access_session_timeout.
Proof. intros o x _ Hg. cbv beta delta [bbl_access_session_timeout]. walk. Qed.
#[export] Instance icmpv6_timeout_keeps : Keeps bbl_icmpv6_timeout.
Proof. intros o x _ Hg. cbv beta delta [bbl_icmpv6_timeout]. walk. Qed.
#[export] Instance dhcpv6_timeout_keeps : Keeps bbl_tx_dhcpv6_timeout.
Proof. intros o x _ Hg. cbv beta delta [bbl_tx_dhcpv6_timeout]. walk. Qed.
#[export] Instance dhcp_timeout_keeps : Keeps bbl_dhcp_timeout.
Proof. intros o x _ Hg. cbv beta delta [bbl_dhcp_timeout]. walk. Qed.

Lemma network_test (s : session_state) (b : bool) : bool_decide (s = BBL_PPP_NETWORK) && b = true -> s = BBL_PPP_NETWORK.
Proof. by intros [H%bool_decide_eq_true _]%andb_true_iff. Qed.

#[export] Instance ip6cp_timeout_keeps : Keeps bbl_tx_ip6cp_timeout.
Proof.
  intros o x _ Hg. cbv beta delta [bbl_tx_ip6cp_timeout]. walk_let. intros p ->. branch; [|walk]. apply network_test in Heqb.
  change (v_state (view_of x) = BBL_PPP_NETWORK) in Heqb. walk.
Qed.
#[export] Instance ipcp_timeout_keeps : Keeps bbl_ipcp_timeout.
Proof.
  intros o x _ Hg. cbv beta delta [bbl_ipcp_timeout]. walk_let. intros p ->. branch; [|walk]. apply network_test in Heqb.
  change (v_state (view_of x) = BBL_PPP_NETWORK) in Heqb. walk.
Qed.

(** The session is terminated with a PADT. *)
Lemma terminate_padt o x y :
  good o (view_of x) -> running (view_of x) -> view_of y = view_of x ->
  safe (fun x' => good o (view_of x')) (x ← bbl_session_update_state BBL_TERMINATING y; Ok (send_padt x)).
Proof.
  intros Hg Hr Hv. rewrite <- Hv in *. eapply update_then; [by apply good_counted|by apply move_running|]. intros z _ Hc. apply safe_ok.
  rewrite view_send_padt. by apply good_closed.
Qed.

#[export] Instance lcp_timeout_keeps : Keeps bbl_lcp_timeout.
Proof.
  intros o x _ Hg. cbv beta delta [bbl_lcp_timeout]. walk_let. intros p ->. branch.
  - apply andb_true_iff in Heqb as [Hs%bool_decide_eq_true _]. change (v_state (view_of x) = BBL_PPP_LINK) in Hs. walk.
  - branch; [|walk]. change (v_state (view_of x) = BBL_PPP_TERMINATING) in e. branch; [|walk].
    apply (terminate_padt o x); [done|unfold running; by rewrite e|done].
Qed.

#[export] Instance lcp_start_delay_keeps : Keeps bbl_access_lcp_start_delay.
Proof. intros o x _ Hg. cbv beta delta [bbl_access_lcp_start_delay]. walk. Qed.

#[export] Instance lcp_echo_keeps : Keeps bbl_access_lcp_echo.
Proof.
  intros o x _ Hg. cbv beta delta [bbl_access_lcp_echo]. branch; [|walk]. walk_let. intros retries ->. walk_let. name_state. branch; [|walk].
  walk_let. intros y ->. apply (closed_terminating o x); [done| |by rewrite view_ppp_closed, Hv].
  split; change (s_state (ss x) <> BBL_IDLE) || change (s_state (ss x) <> BBL_TERMINATED); congruence.
Qed.

Lemma view_send_discovery x : view_of (send_discovery x) = view_of x.
Proof. unfold send_discovery. by rewrite view_insert. Qed.
#[export] Hint Rewrite view_send_discovery : view.

#[export] Instance padi_timeout_keeps : Keeps bbl_padi_timeout.
Proof. intros o x _ Hg. cbv beta delta [bbl_padi_timeout]. walk. Qed.
#[export] Instance padr_timeout_keeps : Keeps bbl_padr_timeout.
Proof.
  intros o x _ Hg. cbv beta delta [bbl_padr_timeout]. branch; [|walk]. change (v_state (view_of x) = BBL_PPPOE_REQUEST) in e.
  eapply (ok_bind (fun x' => good o (view_of x'))); [branch; [move_from|exact Hg]|]. intros y Hy. cbv beta in Hy. walk.
Qed.

#[export] Instance arp_timeout_keeps : Keeps bbl_arp_timeout.
Proof. intros o x _ Hg. cbv beta delta [bbl_arp_timeout]. walk. Qed.
#[export] Instance cfm_job_keeps : Keeps bbl_cfm_cc_session_job.
Proof. intros o x _ Hg. cbv beta delta [bbl_cfm_cc_session_job]. walk. Qed.

(** * IGMP *)

Lemma view_first_tx x : view_of (first_tx x) = view_of x.
Proof. unfold first_tx, view_of. change (gl (upg ?f x)) with (f (gl x)). cbv beta. by case_match. Qed.
Lemma view_add_delay a b c d e f x : view_of (add_delay a b c d e f x) = view_of x.
Proof. cbv beta delta [add_delay]. vwalk. Qed.
#[export] Hint Rewrite view_first_tx view_add_delay : view.
Lemma view_zapping_joined j g x : view_of (zapping_joined j g x) = view_of x.
Proof. cbv beta delta [zapping_joined]. vwalk. Qed.
Lemma view_zapping_left g x : view_of (zapping_left g x) = view_of x.
Proof. cbv beta delta [zapping_left]. vwalk. Qed.
Lemma view_zapping_switch j l n x : view_of (zapping_switch j l n x) = view_of x.
Proof. cbv beta delta [zapping_switch]. vwalk. Qed.
Lemma view_zapping_counted x : view_of (zapping_counted x) = view_of x.
Proof. cbv beta delta [zapping_counted]. vwalk. Qed.
#[export] Hint Rewrite view_zapping_joined view_zapping_left view_zapping_switch view_zapping_counted : view.
Lemma view_zapping_zap j l x : view_of (zapping_zap j l x) = view_of x.
Proof. cbv beta delta [zapping_zap]. vwalk. Qed.
#[export] Hint Rewrite view_zapping_zap : view.
Lemma view_zapping x : view_of (bbl_access_igmp_zapping x) = view_of x.
Proof. cbv beta delta [bbl_access_igmp_zapping]. vwalk. Qed.
Lemma view_igmp_timeout x : view_of (bbl_tx_igmp_timeout x) = view_of x.
Proof. cbv beta delta [bbl_tx_igmp_timeout]. vwalk. Qed.

Lemma view_rands f x : view_of (upg (fun g => g {{ g_rands ::= f }}) x) = view_of x.
Proof. reflexivity. Qed.
#[export] Hint Rewrite view_rands : view.
Lemma view_initial_join x : view_of (bbl_access_igmp_initial_join x) = view_of x.
Proof.
  cbv beta delta [bbl_access_igmp_initial_join]. case_match; [done|]. cbv beta iota zeta delta [rand]. set (r := if 1 <? _ then _ else (0, x)).
  assert (Hr : view_of r.2 = view_of x) by (subst r; by case_match). destruct r as [start y]. cbn [snd] in Hr. rewrite <- Hr. clear Hr.
  repeat case_match; vsame.
Qed.
#[export] Hint Rewrite view_zapping view_igmp_timeout view_initial_join : view.

Lemma view_report_round now i r x : view_of (report_round now i r x).2 = view_of x.
Proof. unfold report_round, report_old, report_v3. repeat case_match; reflexivity. Qed.
Lemma view_report_rounds now l r x : view_of (report_rounds now l r x).2 = view_of x.
Proof.
  revert r x. induction l as [|i l IH]; intros r x; [done|]. cbn [report_rounds]. pose proof (view_report_round now i r x) as H.
  destruct (report_round now i r x) as [[[] r'] x']; cbn [snd] in *; [by rewrite IH|done|done].
Qed.
Lemma view_encode_igmp x : view_of (bbl_tx_encode_packet_igmp x).2 = view_of x.
Proof.
  unfold bbl_tx_encode_packet_igmp. case_match; [reflexivity|]. cbv zeta. set (r := mk_report _ _ _ _ _ _).
  pose proof (view_report_rounds (g_now (gl x)) (seq 0 (length (groups x))) r x) as Hv.
  destruct (report_rounds _ _ _ _) as [[[] q] y]; cbn [snd] in Hv; rewrite <- Hv; repeat case_match; reflexivity.
Qed.

(** * All timers *)

#[export] Instance run_job_keeps j : Keeps (run_job j).
Proof.
  intros o x _ Hg. unfold run_job. branch; cbv beta delta [bbl_tx_pap_timeout bbl_tx_chap_timeout bbl_dhcp_s1_job bbl_dhcp_s2_job bbl_dhcpv6_s1_job
    bbl_dhcpv6_s2_job]; walk.
Qed.

#[export] Instance fire_keeps t : Keeps (fire t).
Proof. intros o x _ Hg. unfold fire. branch; [|walk]. destruct p as [? []]. apply run_job_keeps; [done|]. case_match; [done|]. by rewrite view_up by same_view. Qed.

(** * Monkey testing *)

Lemma running_test x : is_running (ss x) = true <-> running (view_of x).
Proof.
  unfold is_running, running. change (v_state (view_of x)) with (s_state (ss x)). rewrite negb_true_iff, orb_false_iff, !bool_decide_eq_false. tauto.
Qed.

#[export] Instance monkey_keeps : Keeps bbl_session_monkey_job.
Proof.
  intros o x _ Hg. unfold bbl_session_monkey_job. branch; [walk|]. rewrite (good_pppoe o) by done.
  apply orb_false_iff in Heqb as [_ Hr%negb_false_iff%running_test].
  unfold bbl_session_monkey_pppoe. name_pair (rand x). rewrite <- Hv in Hr. cbv zeta. repeat branch; try walk.
  all: try (apply clear_keeps; [by intros Hi; destruct Hr|done]); try (by apply (update_terminated o x0)); by apply (terminate_padt o x0).
Qed.

(** * Transmitted packets *)

Lemma view_done bit f r : (forall x, view_of (f x) = view_of x) -> view_of (done_request bit f r).2 = view_of r.2.
Proof. intros H. unfold done_request. cbn [snd]. rewrite H. by rewrite view_up by same_view. Qed.

Lemma encode_discovery_keeps o x :
  good o (view_of x) -> safe (fun r => good o (view_of r.2)) (bbl_tx_encode_packet_discovery x).
Proof.
  intros Hg. unfold bbl_tx_encode_packet_discovery. branch; try exact Hg.
  - apply safe_ok. cbn [snd]. stay Hg.
  - cbv zeta. eapply ok_bind; [apply (update_terminated o x)|by intros y Hy]; [done| |done].
    split; change (s_state (ss x) <> BBL_IDLE) || change (s_state (ss x) <> BBL_TERMINATED); congruence.
Qed.

#[export] Instance dhcp_sent_keeps release : Keeps (dhcp_sent release).
Proof. intros o x _ Hg. cbv beta delta [dhcp_sent]. walk. Qed.

Lemma encode_dhcp_keeps o x : good o (view_of x) -> safe (fun r => good o (view_of r.2)) (bbl_tx_encode_packet_dhcp x).
Proof.
  intros Hg. cbv beta zeta delta [bbl_tx_encode_packet_dhcp]. branch; [exact Hg|]. set (y := if _ =? 0 then _ else x).
  assert (Hy : good o (view_of y)) by (subst y; by case_match). clearbody y. branch; [|exact Hy]. destruct p as [[m k] to].
  eapply (ok_bind (fun x' => good o (view_of x'))); [|by intros z Hz].
  apply dhcp_sent_keeps; [done|]. case_match; [rewrite view_first_tx|]; exact Hy.
Qed.

Lemma view_encode_dhcpv6 x : view_of (bbl_tx_encode_packet_dhcpv6_request x).2 = view_of x.
Proof.
  cbv beta zeta delta [bbl_tx_encode_packet_dhcpv6_request]. case_match; [done|]. case_match; [done|]. set (y := if _ =? 0 then _ else x).
  assert (Hy : view_of y = view_of x) by (subst y; by case_match). clearbody y. case_match; [|exact Hy]. destruct p as [m k]. cbn [snd].
  rewrite <- Hy. vsame.
Qed.

(** The encoders that change nothing a view has. *)
Ltac vencode := intros; cbv beta zeta delta [bbl_tx_encode_packet_lcp_request bbl_tx_encode_packet_lcp_response bbl_tx_encode_packet_pap_request
  bbl_tx_encode_packet_chap_response bbl_tx_encode_packet_ipcp_request bbl_tx_encode_packet_ipcp_response bbl_tx_encode_packet_ip6cp_request
  bbl_tx_encode_packet_ip6cp_response bbl_tx_encode_packet_icmpv6_rs bbl_tx_encode_packet_arp_request bbl_tx_encode_packet_arp_reply
  bbl_tx_encode_packet_cfm_cc_session]; repeat case_match; cbn [snd]; autorewrite with view; reflexivity.

Lemma encode_keeps o x : good o (view_of x) -> safe (fun r => good o (view_of r.2)) (bbl_tx_encode_packet x).
Proof.
  intros Hg. cbv beta zeta delta [bbl_tx_encode_packet].
  assert (Hdone : forall bit f r, (forall x, view_of (f x) = view_of x) -> view_of r.2 = view_of x ->
    safe (fun r => good o (view_of r.2)) (Ok (done_request bit f r))).
  { intros bit f r Hf Hr. apply safe_ok. rewrite view_done by done. by rewrite Hr. }
  branch. { eapply ok_bind; [by apply encode_discovery_keeps|]. intros r Hr. apply safe_ok. by rewrite view_done. }
  do 9 (branch; [apply Hdone; [reflexivity|vencode]|]).
  branch; [apply Hdone; [reflexivity|apply view_encode_dhcpv6]|].
  branch; [apply safe_ok; by rewrite view_encode_igmp|].
  do 2 (branch; [apply Hdone; [reflexivity|vencode]|]).
  branch. { eapply ok_bind; [by apply encode_dhcp_keeps|]. intros r Hr. apply safe_ok. by rewrite view_done. }
  branch; [apply Hdone; [reflexivity|vencode]|]. exact Hg.
Qed.

#[export] Instance tx_session_keeps buf : Keeps (tx_session buf).
Proof.
  intros o x _ Hg. unfold tx_session. branch; [walk|]. eapply ok_bind; [by apply encode_keeps|]. intros [t y] Hy. cbn [snd] in Hy.
  eapply (ok_bind (fun x' => good o (view_of x'))).
  - destruct t; [exact Hy|]. repeat branch; try exact I; exact Hy.
  - intros z Hz. cbv beta in Hz. cbv zeta. walk.
Qed.

(** * Starting and stopping *)

Definition idle (v : view) : Prop := v_state v = BBL_IDLE /\ v_teardown v = false.

(** The session leaves the idle list. *)
Lemma counted_started o v :
  counted o v -> v_state v = BBL_IDLE ->
  counted o (mk_view (v_id v) (v_type v) BBL_PPPOE_INIT (v_lcp v) (v_sessions v) (u32 (v_outstanding v + 1)) (v_established v) (v_terminated v)
               (filter (.≠ v_id v) (v_idle v)) (v_teardown v)).
Proof.
  intros [] Hs. rewrite Hs in *. unfold is_pending, is_state in *. constructor; cbn in *; auto; try done.
  - rewrite u32_small by lia. lia.
  - rewrite <- c_others_idle. by apply list_filter_filter_l.
  - by apply NoDup_filter.
  - intros _. rewrite list_elem_of_filter. split; [by intros []|done].
Qed.

(** [v] without the session in the idle list. *)
Definition unlisted (v : view) : view :=
  mk_view (v_id v) (v_type v) (v_state v) (v_lcp v) (v_sessions v) (v_outstanding v) (v_established v) (v_terminated v)
    (filter (.≠ v_id v) (v_idle v)) (v_teardown v).
Lemma view_unlisted x : view_of (upg (fun g => g {{ g_idle := filter (.≠ s_id (ss x)) (g_idle g) }}) x) = unlisted (view_of x).
Proof. reflexivity. Qed.
Lemma id_insert x : s_id (ss (bbl_session_tx_qnode_insert x)) = s_id (ss x).
Proof. unfold bbl_session_tx_qnode_insert. by case_match. Qed.

Lemma start_session_keeps : keeps_if idle start_session.
Proof.
  intros o x [Hs Ht] Hg. unfold start_session. set (x1 := upg _ x). cbv zeta. set (x2 := match s_cfm _ with Some _ => _ | None => _ end).
  assert (H2 : view_of x2 = reset_view (view_of x) BBL_IDLE (v_lcp (view_of x)) (u32 (v_outstanding (view_of x) + 1)) (v_established (view_of x))
    (v_terminated (view_of x))) by (rewrite <- Hs; subst x2; case_match; reflexivity).
  clearbody x2. clear x1. assert (Hty : s_access_type (ss x2) = ACCESS_TYPE_PPPOE).
  { change (v_type (view_of x2) = ACCESS_TYPE_PPPOE). rewrite H2. exact (good_pppoe _ _ Hg). }
  rewrite Hty. change (mbind ?f (Ok ?a)) with (f a). cbv beta. apply safe_ok. set (x3 := up _ x2).
  assert (H3 : view_of x3 = reset_view (view_of x) BBL_PPPOE_INIT (v_lcp (view_of x)) (u32 (v_outstanding (view_of x) + 1)) (v_established (view_of x))
    (v_terminated (view_of x))) by (transitivity (reset_view (view_of x2) BBL_PPPOE_INIT (v_lcp (view_of x2)) (v_outstanding (view_of x2))
      (v_established (view_of x2)) (v_terminated (view_of x2))); [reflexivity|by rewrite H2]).
  clearbody x3. rewrite <- (id_insert x3), view_unlisted, view_insert, H3. split.
  - exact (counted_started o _ (good_counted _ _ Hg) Hs).
  - intros Hn. change (v_lcp _) with (v_lcp (view_of x)) in Hn. apply (proj2 Hg) in Hn. congruence.
Qed.

(** An idle session is only stopped during the teardown. *)
Lemma teardown_session_keeps : keeps_if clearable teardown_session.
Proof. intros o x Hc Hg. unfold teardown_session. eapply ok_bind; [by apply clear_keeps|]. by intros y Hy. Qed.

Lemma stop_session_keeps : keeps_if clearable stop_session.
Proof. intros o x Hc Hg. unfold stop_session. apply clear_keeps; by rewrite view_up by same_view. Qed.

Lemma restart_session_keeps d : keeps_if clearable (restart_session d).
Proof.
  intros o x Hc Hg. unfold restart_session. branch; [by apply start_keeps|]. apply clear_keeps; by rewrite view_up by same_view.
Qed.

#[export] Instance only_pppoe_keeps f : (forall x, view_of (f x) = view_of x) -> Keeps (only_pppoe f).
Proof. intros H o x _ Hg. unfold only_pppoe. branch; apply safe_ok; by rewrite ?H. Qed.
