(* ===== verification/SessionExact.v ===== *)
(** The counters of the program are those of its PPPoE sessions, after any sequence of
    events. *)
From coqutil Require Import Datatypes.RecordSetters.
From S2P Require Import Prelude.
From S2P Require Import Const.
From S2P Require Import ConstApp.
From S2P Require Import ConstStream.
From S2P Require Import ProtoTypes.
From S2P Require Import Timer.
From S2P Require Import Enc.
From S2P Require Import EncodeEth.
From S2P Require Import Stream.
From S2P Require Import Session.
From S2P Require Import SessionDhcp.
From S2P Require Import SessionIgmp.
From S2P Require Import SessionAccess.
From S2P Require Import SessionTx.
From S2P Require Import SessionSys.
From S2P Require Import SessionInit.
From S2P Require Import SessionCount.
From S2P Require Import SessionKeeps.
From S2P Require Import SessionRxKeeps.
From S2P Require Import SessionTxKeeps.
Import RecordSetters.DoubleBraceUpdate.
From stdpp Require Import gmap list strings.
Open Scope Z_scope.

(** * Events *)

(** What happens to the sessions of the program. *)
Inductive event :=
| Ev_clock (now : timespec)                                  (* time passes *)
| Ev_ctrl_job (resolved : bool)                              (* the control job *)
| Ev_teardown                                                (* the program is stopped *)
| Ev_rx (ifindex : Z) (eth : ethernet) (ts : timespec)       (* a packet is received *)
| Ev_tx (ifindex : Z) (buf : list Z)                         (* a packet is sent *)
| Ev_timer (i : Datatypes.nat) (t : timer_name)              (* a timer of a session expires *)
| Ev_monkey (i : Datatypes.nat)                              (* the monkey job of a session *)
| Ev_stop (c : scope)                                        (* commands *)
| Ev_restart (c : scope) (reconnect_delay : Z)
| Ev_start (c : scope)
| Ev_ncp (c : scope) (open ipcp : bool)
| Ev_echo (c : scope) (ignore : bool).

Definition step (e : event) (y : sys) : res sys :=
  match e with
  | Ev_clock now => Ok (upy (fun g => g {{ g_now := now }}) y)
  | Ev_ctrl_job resolved => bbl_ctrl_job resolved y
  | Ev_teardown => Ok (teardown_request y)
  | Ev_rx ifindex eth ts => bbl_access_rx_handler ifindex eth ts y
  | Ev_tx ifindex buf => bbl_tx_sessions ifindex buf y
  | Ev_timer i t => on_session i (fire t) y
  | Ev_monkey i => on_session i bbl_session_monkey_job y
  | Ev_stop c => '(_, y) ← bbl_session_ctrl_stop c y; Ok y
  | Ev_restart c d => '(_, y) ← bbl_session_ctrl_restart c d y; Ok y
  | Ev_start c => '(_, y) ← bbl_session_ctrl_start c y; Ok y
  | Ev_ncp c open ipcp => '(_, y) ← bbl_session_ctrl_ncp_open_close c open ipcp y; Ok y
  | Ev_echo c ignore => '(_, y) ← bbl_session_ctrl_lcp_echo_request c ignore y; Ok y
  end.

Fixpoint run (es : list event) (y : sys) : res sys :=
  match es with [] => Ok y | e :: es => y ← step e y; run es y end.

(** An LCP protocol reject. *)
Definition is_prot_reject (eth : ethernet) : bool :=
  match eth_next eth with
  | h_pppoe_session p => match ps_next p with h_lcp lcp => lcp_code lcp =? PPP_CODE_PROT_REJECT | _ => false end
  | _ => false
  end.

(** The session is in the scope of a command. *)
Definition in_scope (c : scope) (s : sess) : bool :=
  match c with Session id => s_id s =? id | Group None => true | Group (Some k) => s_group_id s =? k end.

Definition not_idle (s : sess) : bool := negb (bool_decide (s_state s = BBL_IDLE)).

(** The events the counters can rely on: no protocol reject is received before LCP is
    open, and no command stops a session that was not started. *)
Definition allowed (e : event) (y : sys) : bool :=
  match e with
  | Ev_rx ifindex eth _ =>
      negb (is_prot_reject eth) ||
      match rx_target ifindex eth y with
      | Some (To_session id) =>
          match y_sessions y !! Z.to_nat (id - 1) with Some s => negb (bool_decide (s_state s = BBL_PPP_LINK)) | None => true end
      | _ => true
      end
  | Ev_stop c | Ev_restart c _ => g_teardown (y_gl y) || forallb (fun s => negb (in_scope c s) || not_idle s) (y_sessions y)
  | _ => true
  end.

Fixpoint allowed_run (es : list event) (y : sys) : bool :=
  match es with
  | [] => true
  | e :: es => allowed e y && match step e y with Ok y => allowed_run es y | _ => true end
  end.

(** * The invariant *)

(** The number of sessions in a state. *)
Definition number (f : session_state -> bool) (l : list sess) : Z := Z.of_nat (length (filter (fun s => f (s_state s) = true) l)).
Definition in_state (a b : session_state) : bool := bool_decide (b = a).

Record numbered (i : Datatypes.nat) (s : sess) : Prop := {
  n_id : s_id s = Z.of_nat i + 1;
  n_type : s_access_type s = ACCESS_TYPE_PPPOE;
  n_max : s_state s <> BBL_MAX;
  n_lcp : negotiating (p_state (s_lcp s)) = true -> s_state s = BBL_PPP_LINK
}.

Record exact (y : sys) : Prop := {
  e_sessions : g_sessions (y_gl y) = Z.of_nat (length (y_sessions y)) /\ g_sessions (y_gl y) < 2 ^ 32;
  e_numbered : forall i s, y_sessions y !! i = Some s -> numbered i s;
  e_outstanding : g_sessions_outstanding (y_gl y) = number pending (y_sessions y);
  e_established : g_sessions_established (y_gl y) = number (in_state BBL_ESTABLISHED) (y_sessions y);
  e_terminated : g_sessions_terminated (y_gl y) = number (in_state BBL_TERMINATED) (y_sessions y);
  e_nodup : NoDup (g_idle (y_gl y));
  e_range : forall id, id ∈ g_idle (y_gl y) -> 1 <= id <= g_sessions (y_gl y);
  e_idle : g_teardown (y_gl y) = false -> forall s, s ∈ y_sessions y -> s_id s ∈ g_idle (y_gl y) <-> s_state s = BBL_IDLE
}.

Lemma number_cons f s l : number f (s :: l) = Z.b2z (f (s_state s)) + number f l.
Proof.
  unfold number. destruct (f (s_state s)) eqn:E; [rewrite filter_cons_True by done|rewrite filter_cons_False by (by rewrite E)]; cbn [length Z.b2z]; lia.
Qed.

Lemma number_insert f l i s s' :
  l !! i = Some s -> number f (<[i := s']> l) = number f l - Z.b2z (f (s_state s)) + Z.b2z (f (s_state s')).
Proof.
  revert i. induction l as [|t l IH]; intros [|i]; [done|done| |].
  - intros [= ->]. cbn [insert list_insert]. rewrite !number_cons. lia.
  - intros H. change (<[S i := s']> (t :: l)) with (t :: <[i := s']> l). rewrite !number_cons, (IH i) by done. lia.
Qed.

Lemma number_range f l i s : l !! i = Some s -> 0 <= number f l - Z.b2z (f (s_state s)) < Z.of_nat (length l).
Proof.
  assert (Hb : forall l, 0 <= number f l <= Z.of_nat (length l)).
  { intros k. unfold number. pose proof (length_filter (fun s => f (s_state s) = true) k). lia. }
  revert i. induction l as [|t l IH]; intros [|i]; cbn [lookup list_lookup length]; [done|done| |].
  - intros [= ->]. rewrite number_cons. specialize (Hb l). lia.
  - intros H. rewrite number_cons. specialize (IH i H). destruct (f (s_state t)); cbn [Z.b2z]; lia.
Qed.

Lemma is_state_number a b : is_state a b = Z.b2z (in_state b a).
Proof. unfold is_state, in_state. by case_decide; [rewrite bool_decide_eq_true_2|rewrite bool_decide_eq_false_2]. Qed.
Lemma is_pending_number a : is_pending a = Z.b2z (pending a).
Proof. unfold is_pending. by destruct (pending a). Qed.

(** What the other sessions account for. *)
Definition others_of (s : sess) (y : sys) : others :=
  let g := y_gl y in
  mk_others (s_id s) (g_sessions g) (g_sessions_outstanding g - is_pending (s_state s)) (g_sessions_established g - is_state (s_state s) BBL_ESTABLISHED)
    (g_sessions_terminated g - is_state (s_state s) BBL_TERMINATED) (filter (.≠ s_id s) (g_idle g)) (g_teardown g).

Lemma exact_good y i s : exact y -> y_sessions y !! i = Some s -> good (others_of s y) (view_of (mk_st (y_gl y) s)).
Proof.
  intros [[Hn Hm] Hnum Ho He Ht Hnd Hrg Hi] Hs. destruct (Hnum i s Hs). split; [|done]. pose proof (fun f => number_range f _ _ _ Hs) as Hr.
  constructor; cbn; try done; try lia.
  - rewrite is_pending_number, !is_state_number, Ho, He, Ht, Hn. split_and!; try apply Hr; lia.
  - intros Htd. apply Hi; [done|]. by eapply list_elem_of_lookup_2.
Qed.

(** An idle list that differs by [id] only. *)
Lemma same_others (l l' : list Z) id z : filter (.≠ id) l' = filter (.≠ id) l -> z <> id -> z ∈ l' <-> z ∈ l.
Proof.
  intros H Hz. assert (Hf : z ∈ filter (.≠ id) l' <-> z ∈ filter (.≠ id) l) by by rewrite H. rewrite !list_elem_of_filter in Hf. tauto.
Qed.

(** A session that keeps the counters right keeps the program's. *)
Lemma good_exact y i s x :
  exact y -> y_sessions y !! i = Some s -> good (others_of s y) (view_of x) -> exact (y {{ y_gl := gl x ; y_sessions := <[i := ss x]> (y_sessions y) }}).
Proof.
  intros [[Hn Hm] Hnum Ho He Ht Hnd Hrg Hi] Hs [[Gid Gty Gn Gtd _ Gmax Go Ge Gt Goi Gnd Gi] Hl]. destruct (Hnum i s Hs) as [Nid _ _ _]. cbn in *.
  assert (Hlen : (i < length (y_sessions y))%nat) by by eapply lookup_lt_Some. rewrite Gid in *.
  change (exact (mk_sys (gl x) (<[i := ss x]> (y_sessions y)) (y_vlan y))). constructor; cbn [y_gl y_sessions].
  - rewrite length_insert. lia.
  - intros j t. destruct (decide (j = i)) as [->|Hne].
    + rewrite list_lookup_insert_eq by done. intros [= <-]. by constructor; [congruence|..].
    + rewrite list_lookup_insert_ne by done. apply Hnum.
  - rewrite (number_insert _ _ _ s) by done. rewrite <- Ho, <- !is_pending_number. lia.
  - rewrite (number_insert _ _ _ s) by done. rewrite <- He, <- !is_state_number. lia.
  - rewrite (number_insert _ _ _ s) by done. rewrite <- Ht, <- !is_state_number. lia.
  - done.
  - intros id Hid. rewrite Gn. destruct (decide (id = s_id s)) as [->|Hne]; [lia|]. apply Hrg. exact (proj1 (same_others _ _ _ _ Goi Hne) Hid).
  - intros Htd t (j & Hj)%list_elem_of_lookup_1. destruct (decide (j = i)) as [->|Hne].
    + rewrite list_lookup_insert_eq in Hj by done. injection Hj as <-. rewrite Gid. by apply Gi.
    + rewrite list_lookup_insert_ne in Hj by done. destruct (Hnum j t Hj) as [Tid _ _ _].
      rewrite (same_others _ _ _ _ Goi) by lia. apply Hi; [congruence|]. by eapply list_elem_of_lookup_2.
Qed.

(** * The program *)

(** A function of one session; the others and the teardown stay. *)
Definition frame (i : Datatypes.nat) (y y' : sys) : Prop :=
  g_teardown (y_gl y') = g_teardown (y_gl y) /\ forall j, j <> i -> y_sessions y' !! j = y_sessions y !! j.

Lemma on_session_exact i f y :
  exact y ->
  (forall s, y_sessions y !! i = Some s -> forall o, good o (view_of (mk_st (y_gl y) s)) -> safe (fun x => good o (view_of x)) (f (mk_st (y_gl y) s))) ->
  safe (fun y' => exact y' /\ frame i y y') (on_session i f y).
Proof.
  intros He Hf. unfold on_session. destruct (y_sessions y !! i) as [s|] eqn:Hs; [|done]. change (opt (Some s)) with (Ok s). cbn [mbind res_bind].
  eapply ok_bind; [apply (Hf s); [done|by apply (exact_good y i)]|]. intros x Hx. cbv beta in Hx. apply safe_ok.
  split; [by eapply good_exact|]. split; [exact (c_teardown _ _ (proj1 Hx))|]. intros j Hj. exact (list_lookup_insert_ne _ _ _ _ (not_eq_sym Hj)).
Qed.

Lemma on_session_keeps i h `{!Keeps h} y : exact y -> safe exact (on_session i h y).
Proof.
  intros He. eapply ok_mono; [apply on_session_exact; [done|]|by intros ? []]. intros s Hs o Hg. by apply keeps_always.
Qed.

(** Several sessions, one after the other. *)
Lemma each_session_exact l f y :
  exact y -> NoDup l ->
  (forall i s g, i ∈ l -> y_sessions y !! i = Some s -> g_teardown g = g_teardown (y_gl y) -> forall o,
    good o (view_of (mk_st g s)) -> safe (fun x => good o (view_of x)) (f (mk_st g s))) ->
  safe exact (each_session l f y).
Proof.
  revert y. induction l as [|i l IH]; intros y He Hnd Hf; [done|]. cbn [each_session]. apply NoDup_cons in Hnd as [Hi Hnd].
  eapply ok_bind; [apply on_session_exact; [done|]|].
  - intros s Hs o Hg. apply (Hf i); [by left|done|done|done].
  - intros y' [He' [Htd Hfr]]. apply IH; [done|done|]. intros j s g Hj Hs Hg. apply (Hf j); [by right| |congruence].
    rewrite <- Hfr; [done|]. by intros ->.
Qed.

Lemma all_sessions_exact f y :
  exact y ->
  (forall i s g, y_sessions y !! i = Some s -> g_teardown g = g_teardown (y_gl y) -> forall o,
    good o (view_of (mk_st g s)) -> safe (fun x => good o (view_of x)) (f (mk_st g s))) ->
  safe exact (all_sessions f y).
Proof. intros He Hf. apply each_session_exact; [done|apply NoDup_seq|]. intros i s g _. apply Hf. Qed.

(** A change of the program's state outside of the counters. *)
Definition same_counters (g g' : glob) : Prop :=
  g_sessions g' = g_sessions g /\ g_sessions_outstanding g' = g_sessions_outstanding g /\ g_sessions_established g' = g_sessions_established g
  /\ g_sessions_terminated g' = g_sessions_terminated g /\ g_idle g' = g_idle g /\ (g_teardown g' = false -> g_teardown g = false).

Lemma upy_exact f y : exact y -> same_counters (y_gl y) (f (y_gl y)) -> exact (upy f y).
Proof.
  intros [] (H1 & H2 & H3 & H4 & H5 & H6). constructor; change (y_gl (upy f y)) with (f (y_gl y)); change (y_sessions (upy f y)) with (y_sessions y);
    rewrite ?H1, ?H2, ?H3, ?H4, ?H5; auto.
Qed.

Lemma upy_keeps f y : exact y -> (forall g, same_counters g (f g)) -> exact (upy f y).
Proof. intros He Hf. by apply upy_exact. Qed.
Ltac same_counters := intros; repeat split; first [reflexivity | exact (fun H => H) | intros H; discriminate H].

(** * The control job *)

Lemma idle_listed y id s :
  exact y -> g_teardown (y_gl y) = false -> id ∈ g_idle (y_gl y) -> y_sessions y !! Z.to_nat (id - 1) = Some s -> s_state s = BBL_IDLE.
Proof.
  intros He Ht Hid Hs. apply (e_idle _ He Ht); [by eapply list_elem_of_lookup_2|]. rewrite (n_id _ _ (e_numbered _ He _ _ Hs)).
  pose proof (e_range _ He _ Hid). by replace (Z.of_nat (Z.to_nat (id - 1)) + 1) with id by lia.
Qed.

Lemma start_sessions_exact rate y : exact y -> g_teardown (y_gl y) = false -> safe exact (start_sessions rate y).
Proof.
  revert y. induction rate as [|rate IH]; intros y He Ht; [done|]. cbn [start_sessions]. destruct (g_idle (y_gl y)) as [|id l] eqn:El; [done|].
  branch; [|done]. eapply ok_bind; [apply on_session_exact; [done|]|].
  - intros s Hs o Hg. apply start_session_keeps; [|done]. split; [|done]. eapply (idle_listed y id); [done|done| |done]. rewrite El. by left.
  - intros y' [He' [Htd _]]. apply IH; [done|congruence].
Qed.

Lemma teardown_sessions_exact ids rate y : exact y -> g_teardown (y_gl y) = true -> safe exact (teardown_sessions ids rate y).
Proof.
  revert rate y. induction ids as [|id ids IH]; intros rate y He Ht; [done|]. cbn [teardown_sessions]. branch; [done|]. apply safe_opt. intros s.
  eapply ok_bind; [apply on_session_exact; [done|]|].
  - intros t Hs o Hg. apply teardown_session_keeps; [by intros _|done].
  - intros y' [He' [Htd _]]. apply IH; [done|congruence].
Qed.

Lemma ctrl_job_exact resolved y : exact y -> safe exact (bbl_ctrl_job resolved y).
Proof.
  intros He. unfold bbl_ctrl_job. cbv zeta. branch; [done|]. set (y1 := if _ : bool then _ else y).
  assert (H1 : exact y1) by (subst y1; case_match; [apply upy_keeps; [done|same_counters]|done]). clearbody y1. branch.
  - set (y2 := if _ : bool then _ else y1).
    assert (H2 : exact y2 /\ g_teardown (y_gl y2) = true) by (subst y2; case_match; [split; [apply upy_keeps; [done|same_counters]|done]|done]).
    clearbody y2. destruct H2 as [H2 H2t]. branch; [|by apply teardown_sessions_exact]. apply upy_keeps; [done|same_counters].
  - branch; [done|]. by apply start_sessions_exact.
Qed.

(** * Packets *)

Lemma session_get y id i : bbl_session_get id y = Some i -> i = Z.to_nat (id - 1) /\ 1 <= id.
Proof. unfold bbl_session_get. case_match eqn:E; [done|]. intros [= <-]. apply orb_false_iff in E as [_ ?%Z.ltb_ge]. done. Qed.

Lemma expected_unless eth v : is_prot_reject eth = false \/ v_state v <> BBL_PPP_LINK -> expected eth v.
Proof.
  unfold is_prot_reject, expected, lcp_expected. destruct (eth_next eth); try done. destruct (ps_next p); try done.
  intros [H%Z.eqb_neq|H]; [done|by intros _].
Qed.

Lemma rx_handler_exact ifindex eth ts y : exact y -> allowed (Ev_rx ifindex eth ts) y = true -> safe exact (bbl_access_rx_handler ifindex eth ts y).
Proof.
  intros He Ha. unfold bbl_access_rx_handler. cbv zeta. set (y1 := upy _ y).
  assert (H1 : exact y1) by (apply upy_keeps; [done|same_counters]).
  assert (Ht : rx_target ifindex eth y1 = rx_target ifindex eth y) by reflexivity. cbn [allowed] in Ha. rewrite <- Ht in Ha.
  change (y_sessions y) with (y_sessions y1) in Ha. clearbody y1. clear He Ht y.
  destruct (rx_target ifindex eth y1) as [[id|m]|]; [| |done]; change (opt (Some ?a)) with (Ok a); cbn [mbind res_bind].
  - unfold rx_for. destruct (bbl_session_get id y1) as [i|] eqn:Ei; [|apply upy_keeps; [done|same_counters]]. apply session_get in Ei as [-> _].
    eapply ok_mono; [apply on_session_exact; [done|]|by intros ? []]. intros s Hs o Hg. apply rx_unicast_keeps; [|done]. apply expected_unless.
    rewrite Hs in Ha. apply orb_true_iff in Ha as [Ha%negb_true_iff|Ha%negb_true_iff%bool_decide_eq_false]; [by left|by right].
  - apply all_sessions_exact; [done|]. intros i s g Hs Hg o Hgood. unfold on_interface. branch; [|done]. by apply rx_broadcast_keeps.
Qed.

Lemma tx_sessions_exact ifindex buf y : exact y -> safe exact (bbl_tx_sessions ifindex buf y).
Proof. intros He. unfold bbl_tx_sessions. branch; [done|]. by apply on_session_keeps; [apply tx_session_keeps|]. Qed.

(** * Commands *)

Lemma command_exact c f y :
  exact y ->
  (forall i s g, y_sessions y !! i = Some s -> in_scope c s = true -> g_teardown g = g_teardown (y_gl y) -> forall o,
    good o (view_of (mk_st g s)) -> safe (fun x => good o (view_of x)) (f (mk_st g s))) ->
  safe (fun r => exact r.2) (command c f y).
Proof.
  intros He Hf. unfold command. destruct c as [id|group].
  - destruct (bbl_session_get id y) as [i|] eqn:Ei; [|done]. apply session_get in Ei as [-> Hid].
    eapply ok_bind; [apply on_session_exact; [done|]|by intros y' []]. intros s Hs. eapply Hf; [done| |done].
    cbn. rewrite (n_id _ _ (e_numbered _ He _ _ Hs)). apply Z.eqb_eq. lia.
  - eapply ok_bind; [apply all_sessions_exact; [done|]|by intros y' Hy]. intros i s g Hs Ht o Hg. cbn -[view_of].
    destruct group as [k|]; [destruct (s_group_id s =? k) eqn:Ek; [|done]|]; by eapply Hf.
Qed.

Lemma command_keeps c h `{!Keeps h} y : exact y -> safe (fun r => exact r.2) (command c h y).
Proof. intros He. apply command_exact; [done|]. intros i s g _ _ _ o Hg. by apply keeps_always. Qed.

(** Commands that clear a session. *)
Lemma command_clears c h y :
  keeps_if clearable h -> exact y -> allowed (Ev_stop c) y = true -> safe (fun r => exact r.2) (command c h y).
Proof.
  intros Hh He Ha. apply command_exact; [done|]. intros i s g Hs Hc Ht o Hg. apply Hh; [|done]. intros Hi. cbn in Hi |- *.
  cbn [allowed] in Ha. apply orb_true_iff in Ha as [Ha|Ha]; [congruence|]. rewrite forallb_forall in Ha. specialize (Ha s).
  rewrite Hc in Ha. unfold not_idle in Ha. rewrite bool_decide_eq_true_2 in Ha by done. cbn in Ha. exfalso. 
  discriminate Ha. apply list_elem_of_In. by eapply list_elem_of_lookup_2.
Qed.

Lemma done_exact (r : res (bool * sys)) : safe (fun r => exact r.2) r -> safe exact ('(_, y) ← r; Ok y).
Proof. destruct r as [[]| |]; done. Qed.

Lemma step_exact e y : exact y -> allowed e y = true -> safe exact (step e y).
Proof.
  intros He Ha. destruct e; cbn [step].
  - apply upy_keeps; [done|same_counters].
  - by apply ctrl_job_exact.
  - apply upy_keeps; [done|same_counters].
  - by apply rx_handler_exact.
  - by apply tx_sessions_exact.
  - by apply on_session_keeps; [apply fire_keeps|].
  - by apply on_session_keeps; [apply monkey_keeps|].
  - apply done_exact, command_clears; [apply stop_session_keeps|done|done].
  - apply done_exact. unfold bbl_session_ctrl_restart. branch; [done|]. apply command_clears; [apply restart_session_keeps|done|done].
  - apply done_exact. unfold bbl_session_ctrl_start. branch; [done|]. by apply command_keeps; [apply start_keeps|].
  - apply done_exact, command_keeps; [|done]. apply only_pppoe_keeps. intros x. case_match; [apply view_ncp_open|apply view_ncp_close].
  - apply done_exact, command_keeps; [|done]. apply only_pppoe_keeps. intros x. apply view_ppp.
Qed.

Lemma run_exact es y : exact y -> allowed_run es y = true -> safe exact (run es y).
Proof.
  revert y. induction es as [|e es IH]; intros y He Ha; [done|]. cbn [run allowed_run] in *. apply andb_true_iff in Ha as [Ha Hes].
  pose proof (step_exact e y He Ha) as Hs. destruct (step e y); [|done|done]. by apply IH.
Qed.

(** * From the start of the program *)

Lemma number_all f b l : (forall s, s ∈ l -> f (s_state s) = b) -> number f l = if b then Z.of_nat (length l) else 0.
Proof.
  induction l as [|s l IH]; intros H; [by destruct b|]. rewrite number_cons, IH by (intros; apply H; by right). rewrite (H s) by left.
  destruct b; cbn [Z.b2z length]; lia.
Qed.

Lemma created_exact su y :
  Forall (fun a => a_type a = ACCESS_TYPE_PPPOE) (su_access su) -> 0 <= su_sessions su < 2 ^ 32 -> created su (su_sessions su + 1) y -> exact y.
Proof.
  intros Hp Hs [Hlen Hn Hses Ho He Ht Hi]. rewrite Z.add_simpl_r in *. rewrite Forall_forall in Hp.
  assert (Hst : forall s, s ∈ y_sessions y -> s_state s = if su_sessions_autostart su then BBL_IDLE else BBL_TERMINATED).
  { intros s (n & Hn')%list_elem_of_lookup_1. apply (so_state _ _ _ _ (Hses n s Hn')). }
  assert (Hnum : forall f, number f (y_sessions y) = if f (if su_sessions_autostart su then BBL_IDLE else BBL_TERMINATED) then su_sessions su else 0).
  { intros f. rewrite <- Hlen. apply number_all. intros s Hin. by rewrite Hst. }
  constructor; rewrite ?Hnum.
  - lia.
  - intros i s Hs'. destruct (Hses i s Hs') as [Hid _ Hstate Hl (a & Ha & Hty) _].
    constructor; [done|by rewrite Hty, Hp|rewrite Hstate; by case_match|]. destruct Hl as [-> | ->]; done.
  - rewrite Ho. by destruct (su_sessions_autostart su).
  - rewrite He. by destruct (su_sessions_autostart su).
  - rewrite Ht. by destruct (su_sessions_autostart su).
  - rewrite Hi. case_match; [|constructor]. apply NoDup_fmap_2; [intros ? ?; lia|apply NoDup_seq].
  - intros id. rewrite Hi. case_match; [|by intros ?%elem_of_nil]. intros (k & -> & Hk)%list_elem_of_fmap. apply elem_of_seq in Hk. lia.
  - intros _ s Hin. rewrite (Hst s Hin), Hi. apply list_elem_of_lookup_1 in Hin as [n Hn']. rewrite (so_id _ _ _ _ (Hses n s Hn')).
    pose proof (lookup_lt_Some _ _ _ Hn'). case_match; [|split; [by intros ?%elem_of_nil|done]]. split; [done|]. intros _.
    apply list_elem_of_fmap. exists (S n). split; [lia|]. apply elem_of_seq. lia.
Qed.

Lemma number_full f l : Z.of_nat (length l) <= number f l <-> Forall (fun s => f (s_state s) = true) l.
Proof.
  assert (Hb : forall l, number f l <= Z.of_nat (length l)).
  { intros k. unfold number. pose proof (length_filter (fun s => f (s_state s) = true) k). lia. }
  induction l as [|s l IH]; [by split; [constructor|]|]. rewrite number_cons, Forall_cons. specialize (Hb l). cbn [length].
  destruct (f (s_state s)); cbn [Z.b2z]; [rewrite <- IH; split; [split; [done|lia]|intros [_ ?]; lia]|]. split; [lia|by intros [? _]].
Qed.

(** * A session of the example *)

(** A packet for the session [id]. *)
Definition frame_for (su : setup) (id type : Z) (h : hdr) : ethernet :=
  eth0 {{ eth_dst := Some (client_mac su id) ; eth_src := Some [2; 0; 0; 0; 0; 9] ; eth_type := type ; eth_next := h }}.
Definition discovery_frame (su : setup) (id code session_id : Z) : ethernet :=
  frame_for su id ETH_TYPE_PPPOE_DISCOVERY (h_pppoe_discovery (pppoe_discovery0 {{ pd_code := code ; pd_session_id := session_id }})).
Definition ppp_frame (su : setup) (id protocol : Z) (h : hdr) : ethernet :=
  frame_for su id ETH_TYPE_PPPOE_SESSION (h_pppoe_session (mk_pppoe_session 1 protocol 0 false h)).
Definition lcp_frame (su : setup) (id code : Z) : ethernet := ppp_frame su id PROTOCOL_LCP (h_lcp (lcp0 {{ lcp_code := code ; lcp_identifier := 1 }})).
Definition ipcp_frame (su : setup) (id code : Z) : ethernet := ppp_frame su id PROTOCOL_IPCP (h_ipcp (ipcp0 {{ ipcp_code := code ; ipcp_identifier := 1 }})).
Definition ip6cp_frame (su : setup) (id code : Z) : ethernet :=
  ppp_frame su id PROTOCOL_IP6CP (h_ip6cp (ip6cp0 {{ ip6cp_code := code ; ip6cp_identifier := 1 }})).

Definition rx_of (eth : ethernet) : event := Ev_rx 7 eth (mk_ts 1 0).
Definition buffer : list Z := replicate 200 0.

(** Discovery, LCP without authentication, IPCP and IP6CP of the session [id]. *)
Definition handshake (su : setup) (id : Z) : list event :=
  [rx_of (discovery_frame su id PPPOE_PADO 0); rx_of (discovery_frame su id PPPOE_PADS 1);
   rx_of (lcp_frame su id PPP_CODE_CONF_REQUEST); rx_of (lcp_frame su id PPP_CODE_CONF_ACK);
   rx_of (ipcp_frame su id PPP_CODE_CONF_REQUEST); rx_of (ipcp_frame su id PPP_CODE_CONF_ACK);
   rx_of (ip6cp_frame su id PPP_CODE_CONF_ACK); rx_of (ip6cp_frame su id PPP_CODE_CONF_REQUEST)].

(** The states of the sessions, with the counters of outstanding, established and
    terminated sessions. *)
Definition outcome (r : res sys) : option (list session_state * (Z * Z * Z)) :=
  match r with
  | Ok y => Some (map s_state (y_sessions y), (g_sessions_outstanding (y_gl y), g_sessions_established (y_gl y), g_sessions_terminated (y_gl y)))
  | _ => None
  end.
Definition from_start (su : setup) (es : list event) : res sys :=
  y ← opt (bbl_sessions_init su (glob_new bbl_config_init_defaults)); run es y.

Example handshake_three :
  outcome (from_start three_sessions (Ev_ctrl_job true :: handshake three_sessions 1)) = Some ([BBL_ESTABLISHED; BBL_PPPOE_INIT; BBL_PPPOE_INIT], (2, 1, 0)).
Proof. vm_compute. reflexivity. Qed.

(** C1. For the sessions [bbl_sessions_init] creates when all access configurations are PPPoE,
    after any sequence of events without a protocol reject for a session in its link phase and,
    before the teardown, without a command that stops or restarts an idle session, no assertion fails, and
    unless an access outside of a buffer has ended the run, the counters are the numbers of
    sessions in the states they stand for, the idle list holds the idle sessions until the
    teardown, and the condition for the end of the program,
    [sessions_terminated >= sessions], holds exactly when every session is terminated. *)
Theorem session_counters_exact (su : setup) (g : glob) (y : sys) (es : list event) :
  before_init g -> 0 <= su_sessions su < 2 ^ 32 -> Forall (fun a => a_type a = ACCESS_TYPE_PPPOE) (su_access su) ->
  bbl_sessions_init su g = Some y -> allowed_run es y = true ->
  safe (fun y' =>
    g_sessions_established (y_gl y') = number (in_state BBL_ESTABLISHED) (y_sessions y')
    /\ g_sessions_terminated (y_gl y') = number (in_state BBL_TERMINATED) (y_sessions y')
    /\ g_sessions_outstanding (y_gl y') = number pending (y_sessions y')
    /\ (g_teardown (y_gl y') = false -> forall s, s ∈ y_sessions y' -> s_id s ∈ g_idle (y_gl y') <-> s_state s = BBL_IDLE)
    /\ (g_sessions (y_gl y') <= g_sessions_terminated (y_gl y') <-> Forall (fun s => s_state s = BBL_TERMINATED) (y_sessions y'))) (run es y).
Proof.
  intros Hf Hs Hp Hy Ha. assert (He : exact y) by (apply (created_exact su); [done|done|by apply (sessions_init_created su g)]).
  eapply ok_mono; [by apply run_exact|]. intros y' [Hn _ Ho Hes Ht _ _ Hi]. split_and!; [done|done|done|done|].
  rewrite Ht, (proj1 Hn), number_full. apply Forall_iff. intros s. unfold in_state. apply bool_decide_eq_true.
Qed.

(** A session is established, another one is stopped, and the program is torn down. *)
Definition day : list event :=
  Ev_ctrl_job true :: handshake three_sessions 1 ++ [Ev_stop (Session 2); Ev_teardown; Ev_ctrl_job true; Ev_ctrl_job true].

Lemma session_counters_exact_witness :
  exists y y', bbl_sessions_init three_sessions (glob_new bbl_config_init_defaults) = Some y /\ run day y = Ok y'
    /\ g_sessions_terminated (y_gl y') = 2 /\ number (in_state BBL_TERMINATED) (y_sessions y') = 2.
Proof.
  assert (H3 : 0 <= su_sessions three_sessions < 2 ^ 32) by (change (su_sessions three_sessions) with 3; lia).
  assert (Hp : Forall (fun a => a_type a = ACCESS_TYPE_PPPOE) (su_access three_sessions)) by (by repeat constructor).
  destruct (bbl_sessions_init three_sessions (glob_new bbl_config_init_defaults)) as [y|] eqn:E; [|by vm_compute in E].
  assert (Hout : outcome (from_start three_sessions day) = Some ([BBL_PPP_TERMINATING; BBL_TERMINATED; BBL_TERMINATED], (0, 0, 2)))
    by (vm_compute; reflexivity).
  assert (Hal : (allowed_run day <$> bbl_sessions_init three_sessions (glob_new bbl_config_init_defaults)) = Some true) by (vm_compute; reflexivity).
  unfold from_start in Hout. rewrite E in Hout, Hal. cbn [fmap option_fmap option_map] in Hal. injection Hal as Hal.
  change (outcome (run day y) = Some ([BBL_PPP_TERMINATING; BBL_TERMINATED; BBL_TERMINATED], (0, 0, 2))) in Hout.
  pose proof (session_counters_exact three_sessions (glob_new bbl_config_init_defaults) y day (glob_new_before _) H3 Hp E Hal) as H.
  exists y. destruct (run day y) as [y'| |]; [|discriminate Hout|discriminate Hout]. exists y'. injection Hout as Hst Ho He Ht.
  destruct H as (_ & H & _). split_and!; [done|done|done|congruence].
Defined.
