(* ===== verification/SessionErrors.v ===== *)
(** What the events that the counters cannot rely on do, and other failures of sessions:
    failed assertions, a corrupted list and reads and writes outside of buffers. *)
From coqutil Require Import Datatypes.RecordSetters.
From S2P Require Import Prelude.
From S2P Require Import Const.
From S2P Require Import ConstApp.
From S2P Require Import ConstStream.
From S2P Require Import ProtoTypes.
From S2P Require Import Timer.
From S2P Require Import Dec.
From S2P Require Import DecodePpp.
From S2P Require Import DecodeEth.
From S2P Require Import Enc.
From S2P Require Import EncodeEth.
From S2P Require Import Stream.
From S2P Require Import Session.
From S2P Require Import SessionDhcp.
From S2P Require Import SessionIgmp.
From S2P Require Import SessionAccess.
From S2P Require Import SessionTx.
From S2P Require Import SessionSys.
From S2P Require Import SessionInit.
From S2P Require Import SessionCount.
From S2P Require Import SessionKeeps.
From S2P Require Import SessionRxKeeps.
From S2P Require Import SessionTxKeeps.
From S2P Require Import SessionExact.
Import RecordSetters.DoubleBraceUpdate.
From stdpp Require Import gmap list strings.
Open Scope Z_scope.

(** * Events that are not expected *)

Definition one_session : setup := setup_new 1 [access_new ACCESS_TYPE_PPPOE VLAN_MODE_11 7 1 1 0].

Definition reject_frame (protocol : Z) : ethernet :=
  ppp_frame one_session 1 PROTOCOL_LCP (h_lcp (lcp0 {{ lcp_code := PPP_CODE_PROT_REJECT ; lcp_identifier := 1 ; lcp_protocol := protocol }})).

(** Both network protocols are rejected before LCP is open: the session is established;
    then LCP is negotiated. *)
Definition early_reject : list event :=
  [Ev_ctrl_job true; rx_of (discovery_frame one_session 1 PPPOE_PADO 0); rx_of (discovery_frame one_session 1 PPPOE_PADS 1);
   rx_of (reject_frame PROTOCOL_IPCP); rx_of (reject_frame PROTOCOL_IP6CP)].

(** The rest of the handshake. *)
Definition late_lcp : list event := early_reject ++ skipn 2 (handshake one_session 1).

(** An idle session is stopped: it stays on the idle list. *)
Definition stop_idle : list event := [Ev_stop (Session 1); Ev_ctrl_job true].

(** A protocol reject before LCP is open establishes a session without LCP, and LCP then
    makes an assertion of the program fail.  A command that stops a session before it was
    started counts it as terminated and leaves it on the idle list: the control job starts
    it all the same, the teardown makes an assertion fail, and starting it again puts it on
    the list twice. *)
Theorem unexpected_events_fail :
  outcome (from_start one_session early_reject) = Some ([BBL_ESTABLISHED], (0, 1, 0))
  /\ from_start one_session late_lcp = Assert
  /\ outcome (from_start one_session stop_idle) = Some ([BBL_PPPOE_INIT], (1, 0, 1))
  /\ from_start one_session (stop_idle ++ [Ev_teardown; Ev_ctrl_job true; Ev_ctrl_job true]) = Assert
  /\ from_start one_session [Ev_stop (Session 1); Ev_start (Session 1)] = Fault.
Proof. split_and!; vm_compute; reflexivity. Qed.

(** * Stopping a session that was not started *)

Lemma enter_terminated_no_fault x : enter_terminated x <> Fault.
Proof.
  unfold enter_terminated. cbv zeta. destruct (_ <? _); [done|]. match goal with |- (if g_teardown (gl ?z) then _ else _) <> _ => set (x1 := z) end. clearbody x1.
  destruct (g_teardown (gl x1)); [done|]. by destruct (reconnects _ _).
Qed.

(** An idle session is stopped. *)
Lemma stop_idle_view x : s_state (ss x) = BBL_IDLE -> s_access_type (ss x) = ACCESS_TYPE_PPPOE ->
  0 <= g_sessions_terminated (gl x) < g_sessions (gl x) -> g_sessions (gl x) < 2 ^ 32 ->
  exists x', stop_session x = Ok x' /\ s_state (ss x') = BBL_TERMINATED /\ s_id (ss x') = s_id (ss x) /\ s_access_type (ss x') = ACCESS_TYPE_PPPOE
  /\ g_sessions_terminated (gl x') = g_sessions_terminated (gl x) + 1 /\ g_idle (gl x') = g_idle (gl x) /\ g_teardown (gl x') = g_teardown (gl x) /\ g_sessions (gl x') = g_sessions (gl x).
Proof.
  intros Hs Ha Hn Hm. unfold stop_session, bbl_session_clear. set (x0 := up _ x). assert (V0 : view_of x0 = view_of x) by reflexivity. clearbody x0.
  change (s_access_type (ss x0)) with (v_type (view_of x0)). change (s_state (ss x0)) with (v_state (view_of x0)). rewrite V0. cbn [view_of v_type v_state]. rewrite Ha, Hs.
  unfold bbl_session_update_state. cbv zeta. change (s_state (ss x0)) with (v_state (view_of x0)). rewrite V0. cbn [view_of v_type v_state]. rewrite Hs. rewrite decide_False by done.
  change (negb _) with false. cbv iota. rewrite decide_False by done. change (Session.pending BBL_IDLE && _) with false. cbv iota. cbn [mbind res_bind].
  set (x1 := up _ x0). assert (V1 : view_of x1 = reset_view (view_of x0) BBL_TERMINATED (v_lcp (view_of x0)) (v_outstanding (view_of x0)) (v_established (view_of x0)) (v_terminated (view_of x0))) by reflexivity.
  clearbody x1. rewrite V0 in V1. pose proof (enter_terminated_view x1) as He. rewrite V1 in He. cbn in He. specialize (He Ha Hn Hm).
  pose proof (enter_terminated_no_fault x1) as Hf. destruct (enter_terminated x1) as [x'| |]; [|done|done]. cbn -[view_of] in He. exists x'. split; [done|].
  unfold view_of in He. inversion He. split_and!; congruence.
Qed.

(** The control job starts what is on the idle list, whatever its state is. *)
Lemma start_pppoe g s : s_access_type s = ACCESS_TYPE_PPPOE ->
  exists x, start_session (mk_st g s) = Ok x /\ s_state (ss x) = BBL_PPPOE_INIT /\ g_sessions_terminated (gl x) = g_sessions_terminated g.
Proof.
  intros Ha. unfold start_session. cbv zeta. set (x1 := match s_cfm _ with Some _ => _ | None => _ end).
  assert (V : v_type (view_of x1) = ACCESS_TYPE_PPPOE /\ v_terminated (view_of x1) = g_sessions_terminated g) by (subst x1; destruct (s_cfm _); exact (conj Ha eq_refl)).
  clearbody x1. destruct V as [V1 V2]. change (s_access_type (ss x1)) with (v_type (view_of x1)). rewrite V1. cbn [mbind res_bind]. eexists. split; [reflexivity|].
  set (x2 := up _ x1). assert (H2 : s_state (ss x2) = BBL_PPPOE_INIT /\ g_sessions_terminated (gl x2) = g_sessions_terminated g) by (split; [reflexivity|exact V2]).
  clearbody x2. destruct H2. unfold bbl_session_tx_qnode_insert. destruct (decide _); split; done.
Qed.

(** A session that is on the idle list is put there again. *)
Lemma start_twice x : s_state (ss x) = BBL_TERMINATED -> g_teardown (gl x) = false -> s_id (ss x) ∈ g_idle (gl x) -> bbl_session_reconnect x = Fault.
Proof.
  intros Hs Ht Hin. unfold bbl_session_reconnect, bbl_session_start. rewrite Ht, bool_decide_eq_true_2 by done. cbn [negb orb]. set (x1 := bbl_session_reset _).
  assert (H1 : view_of x1 = reset_view (view_of x) BBL_IDLE (v_lcp (view_of x)) (v_outstanding (view_of x)) (v_established (view_of x))
    (v_terminated (view_of x))) by (subst x1; rewrite reset_view_of; reflexivity).
  clearbody x1. set (x2 := upg _ x1).
  assert (H2 : exists n, view_of x2 = reset_view (view_of x1) (v_state (view_of x1)) (v_lcp (view_of x1)) (v_outstanding (view_of x1)) (v_established (view_of x1)) n)
    by (eexists; subst x2; rewrite view_terminated; reflexivity).
  clearbody x2. cbv zeta. destruct H2 as [n H2]. rewrite H1 in H2. rewrite decide_True; [reflexivity|].
  change (v_id (view_of x2) ∈ v_idle (view_of x2)). rewrite H2. exact Hin.
Qed.

(** C35. A command that stops a PPPoE session that was not started counts it as terminated and
    leaves it on the idle list.  The control job starts it all the same, and it stays counted
    as terminated; when it is started by a command, it is put on the list a second time, which
    corrupts the list. *)
Theorem stop_idle_session (y : sys) (id : Z) (s : sess) :
  bbl_session_get id y = Some (Z.to_nat (id - 1)) -> y_sessions y !! Z.to_nat (id - 1) = Some s ->
  s_id s = id -> s_state s = BBL_IDLE -> s_access_type s = ACCESS_TYPE_PPPOE -> id ∈ g_idle (y_gl y) -> g_teardown (y_gl y) = false ->
  0 <= g_sessions_terminated (y_gl y) < g_sessions (y_gl y) -> g_sessions (y_gl y) < 2 ^ 32 ->
  exists y' s', bbl_session_ctrl_stop (Session id) y = Ok (true, y')
  /\ y_sessions y' !! Z.to_nat (id - 1) = Some s' /\ s_state s' = BBL_TERMINATED /\ g_sessions_terminated (y_gl y') = g_sessions_terminated (y_gl y) + 1 /\ g_idle (y_gl y') = g_idle (y_gl y)
  /\ (exists y'' s'', on_session (Z.to_nat (id - 1)) start_session y' = Ok y''
       /\ y_sessions y'' !! Z.to_nat (id - 1) = Some s'' /\ s_state s'' = BBL_PPPOE_INIT /\ g_sessions_terminated (y_gl y'') = g_sessions_terminated (y_gl y) + 1)
  /\ bbl_session_ctrl_start (Session id) y' = Fault.
Proof.
  intros Hget Hs Hid Hst Ha Hin Ht Hn Hm. set (i := Z.to_nat (id - 1)) in *. assert (Hi : (i < length (y_sessions y))%nat) by (by apply lookup_lt_Some in Hs).
  destruct (stop_idle_view (mk_st (y_gl y) s) Hst Ha Hn Hm) as (x' & Hx & S1 & S2 & S3 & G1 & G2 & G3 & G4). cbn [ss gl] in *.
  exists (y {{ y_gl := gl x' ; y_sessions := <[i := ss x']> (y_sessions y) }}), (ss x'). unfold bbl_session_ctrl_stop, command. rewrite Hget. unfold on_session at 1. rewrite Hs. cbn [opt mbind res_bind].
  rewrite Hx. cbn [mbind res_bind]. split; [done|]. set (y' := y {{ y_gl := gl x' ; y_sessions := <[i := ss x']> (y_sessions y) }}).
  assert (Hy : y_sessions y' !! i = Some (ss x')) by (by apply list_lookup_insert_eq). assert (Hgl : y_gl y' = gl x') by reflexivity. clearbody y'.
  split; [done|]. split; [done|]. rewrite Hgl. split; [done|]. split; [done|]. split.
  - destruct (start_pppoe (gl x') (ss x') S3) as (z & Hz & Z1 & Z2). exists (y' {{ y_gl := gl z ; y_sessions := <[i := ss z]> (y_sessions y') }}), (ss z).
    unfold on_session. rewrite Hy. cbn [opt mbind res_bind]. rewrite Hgl, Hz. cbn [mbind res_bind]. split; [done|].
    split; [apply list_lookup_insert_eq; by apply lookup_lt_Some in Hy|]. split; [done|]. change (g_sessions_terminated (gl z) = g_sessions_terminated (y_gl y) + 1). congruence.
  - unfold bbl_session_ctrl_start. rewrite Hgl, G3, Ht. unfold command. assert (Hget' : bbl_session_get id y' = Some i) by (unfold bbl_session_get in *; by rewrite Hgl, G4).
    rewrite Hget'. unfold on_session. rewrite Hy. cbn [opt mbind res_bind]. rewrite Hgl. rewrite start_twice; [done|done|cbn [gl]; congruence|cbn [ss gl]; congruence].
Qed.

Lemma stop_idle_session_witness :
  exists y y', from_start one_session [] = Ok y /\ bbl_session_ctrl_stop (Session 1) y = Ok (true, y') /\ g_sessions_terminated (y_gl y') = 1 /\ g_idle (y_gl y') = [1]
  /\ bbl_session_ctrl_start (Session 1) y' = Fault.
Proof.
  assert (H : match from_start one_session [] with
              | Ok y => match y_sessions y !! 0%nat with
                        | Some s => (bbl_session_get 1 y, s_id s, s_state s, s_access_type s, g_idle (y_gl y), g_teardown (y_gl y), g_sessions_terminated (y_gl y), g_sessions (y_gl y))
                                    = (Some 0%nat, 1, BBL_IDLE, ACCESS_TYPE_PPPOE, [1], false, 0, 1)
                        | None => False end
              | _ => False end) by (vm_compute; reflexivity).
  destruct (from_start one_session []) as [y| |]; [|done|done]. destruct (y_sessions y !! 0%nat) as [s|] eqn:Es; [|done]. injection H as Hget Hi Hs Ha Hidle Ht Hn Hm.
  destruct (stop_idle_session y 1 s) as (y' & s' & Hstop & _ & _ & Hterm & Hq & _ & Hfault); try done.
  - rewrite Hidle. by left.
  - rewrite Hn, Hm. lia.
  - rewrite Hm. lia.
  - exists y, y'. rewrite Hq, Hterm, Hidle, Hn. split_and!; done.
Defined.

(** * The end of a lease *)

(** What the assertion of [sessions_outstanding] looks at. *)
Definition at_setup (x : st) : Prop := s_state (ss x) = BBL_IPOE_SETUP /\ g_sessions_outstanding (gl x) = 0.

Lemma leave_established_outstanding x :
  g_sessions_outstanding (gl (leave_established x)) = g_sessions_outstanding (gl x) /\ s_state (ss (leave_established x)) = s_state (ss x).
Proof.
  unfold leave_established. split.
  - change (gl (up ?f ?z)) with (gl z). change (gl (upg ?f x)) with (f (gl x)). cbv beta. by case_match.
  - change (ss (up ?f ?z)) with (f (ss z)). cbv beta zeta. change (ss (upg _ x)) with (ss x). repeat case_match; reflexivity.
Qed.

Lemma setup_uncounted x :
  s_state (ss x) = BBL_ESTABLISHED -> g_sessions_outstanding (gl x) = 0 ->
  exists x', bbl_session_update_state BBL_IPOE_SETUP x = Ok x' /\ at_setup x'.
Proof.
  intros Hs Ho. unfold bbl_session_update_state. cbv zeta. rewrite Hs. rewrite decide_False by done. change (negb _) with false. cbv iota.
  rewrite decide_True by done. change (pending BBL_ESTABLISHED && _) with false. cbv iota. set (x1 := up _ x).
  exists (leave_established x1). split; [done|]. destruct (leave_established_outstanding x1) as [H1 H2]. split; [by rewrite H2|by rewrite H1].
Qed.

Lemma established_asserts x : at_setup x -> bbl_session_update_state BBL_ESTABLISHED x = Assert.
Proof.
  intros [Hs Ho]. unfold bbl_session_update_state. cbv zeta. rewrite Hs. rewrite decide_False by done. change (negb _) with false. cbv iota.
  rewrite decide_False by done. change (pending BBL_IPOE_SETUP && _) with true. cbv iota. unfold leave_pending.
  change (gl (up _ x)) with (gl x). by rewrite Ho.
Qed.

Lemma setup_insert x : at_setup x -> at_setup (bbl_session_tx_qnode_insert x).
Proof. unfold bbl_session_tx_qnode_insert. by case_match. Qed.

(** C36. An established IPoE session whose lease is not renewed, or whose renewal is refused,
    goes back to the setup without being counted as outstanding: when no other session is
    outstanding, the assertion fails as soon as it is established again. *)
Theorem dhcp_restart_uncounted (x : st) :
  s_access_type (ss x) = ACCESS_TYPE_IPOE -> s_state (ss x) = BBL_ESTABLISHED -> g_sessions_outstanding (gl x) = 0 ->
  exists x', bbl_dhcp_restart x = Ok x' /\ at_setup x' /\ forall x'', at_setup x'' -> bbl_session_update_state BBL_ESTABLISHED x'' = Assert.
Proof.
  intros Hty Hs Ho. unfold bbl_dhcp_restart, bbl_dhcp_start. change (d_requested (s_dhcp (ss (bbl_dhcp_stop x)))) with false. cbv iota zeta.
  set (z := dhcp_new_request _ _). assert (Hv : view_of z = view_of x) by reflexivity. clearbody z. unfold view_of in Hv.
  injection Hv as _ Ht Hst _ _ Hout _ _ _ _. unfold setup_ipoe. rewrite Ht, Hty. destruct (setup_uncounted z) as (x' & -> & Hx'); [congruence|congruence|].
  exists (bbl_session_tx_qnode_insert x'). split_and!; [done|by apply setup_insert|apply established_asserts].
Qed.

(** An IPoE session with IPv4 and DHCP. *)
Definition ipoe_session : setup :=
  setup_new 1 [(access_new ACCESS_TYPE_IPOE VLAN_MODE_11 7 1 1 0) {{ a_config := mk_access_config false true false true true 0 1492 }}].

Definition dhcp_frame (xid type : Z) : ethernet :=
  let header := [2; 1; 6; 0] ++ le_split 4 xid ++ replicate 8 0 ++ [10; 0; 0; 5; 10; 0; 0; 1] ++ replicate 212 0 in
  let m := dhcp0 {{ dhcp_header := Some header ; dhcp_type := type ; dhcp_option_server_identifier := true ; dhcp_server_identifier := 0x0100000A ;
                    dhcp_option_lease_time := true ; dhcp_lease_time := 300 ; dhcp_option_router := true ; dhcp_router := 0x0100000A }} in
  frame_for ipoe_session 1 ETH_TYPE_IPV4
    (h_ipv4 (ipv4_new 0x0100000A 0x0500000A 64 PROTOCOL_IPV4_UDP (h_udp (mk_udp DHCP_UDP_SERVER DHCP_UDP_CLIENT 0 (Some UDP_PROTOCOL_DHCP) (h_dhcp m))))).
Definition arp_frame : ethernet :=
  frame_for ipoe_session 1 ETH_TYPE_ARP (h_arp (mk_arp ARP_REPLY (Some [2; 0; 0; 0; 0; 9]) 0x0100000A (Some (client_mac ipoe_session 1)) 0x0500000A)).

Definition dhcp_bound (xid : Z) : list event :=
  [rx_of (dhcp_frame xid DHCP_MESSAGE_OFFER); rx_of (dhcp_frame xid DHCP_MESSAGE_ACK); rx_of arp_frame].

(** The same with the packets of a program: the lease of an established session ends, and
    the next one is an assertion failure. *)
Example lease_end_asserts :
  outcome (from_start ipoe_session (Ev_ctrl_job true :: dhcp_bound 0)) = Some ([BBL_ESTABLISHED], (0, 1, 0))
  /\ from_start ipoe_session (Ev_ctrl_job true :: dhcp_bound 0 ++ [Ev_timer 0 timer_dhcp_t2] ++ dhcp_bound 1) = Assert.
Proof. split; vm_compute; reflexivity. Qed.

(** The first session of a run. *)
Definition first_session (r : res sys) : option st := match r with Ok y => s ← y_sessions y !! 0%nat; Some (mk_st (y_gl y) s) | _ => None end.

Lemma dhcp_restart_uncounted_witness :
  exists x x', first_session (from_start ipoe_session (Ev_ctrl_job true :: dhcp_bound 0)) = Some x /\ bbl_dhcp_restart x = Ok x'
    /\ bbl_session_update_state BBL_ESTABLISHED x' = Assert.
Proof.
  destruct (first_session (from_start ipoe_session (Ev_ctrl_job true :: dhcp_bound 0))) as [x|] eqn:E; [|by vm_compute in E].
  assert (H : (fun x => (s_access_type (ss x), s_state (ss x), g_sessions_outstanding (gl x)))
    <$> first_session (from_start ipoe_session (Ev_ctrl_job true :: dhcp_bound 0)) = Some (ACCESS_TYPE_IPOE, BBL_ESTABLISHED, 0))
    by (vm_compute; reflexivity).
  rewrite E in H. cbn [fmap option_fmap option_map] in H. injection H as H1 H2 H3.
  destruct (dhcp_restart_uncounted x H1 H2 H3) as (x' & Hx & Hs & Ha). exists x, x'. split_and!; [done|done|by apply Ha].
Defined.

(** * Buffers *)

(** A reply message of a peer that begins like that of the L2TP server of the program and
    is longer than 37 bytes is copied over the end of a buffer of 16 bytes. *)
Theorem l2tp_reply_overflow (msg : list Z) (len : Z) (x : st) :
  take 20 msg = L2TP_REPLY_MESSAGE -> 37 < len <= Z.of_nat (length msg) -> bbl_access_l2tp (Some msg) len x = Fault.
Proof.
  intros Hm Hl. unfold bbl_access_l2tp. unfold bytes_at at 1. rewrite (proj2 (Z.eqb_neq len 0)) by lia. cbn [mbind option_bind].
  rewrite (proj2 (Nat.ltb_ge _ _)) by lia. cbn [opt mbind res_bind]. rewrite take_take, Nat.min_l by lia. rewrite Hm.
  rewrite bool_decide_eq_true_2 by done. rewrite (proj2 (Z.ltb_lt 23 len)) by lia. cbn [andb negb].
  unfold copy_into, copy_at. rewrite (proj2 (Z.eqb_neq (len - 21) 0)) by lia. cbn [mbind option_bind].
  change (length (replicate 16 0)) with 16%nat. rewrite (proj2 (Nat.ltb_lt 16 _)) by lia. by rewrite orb_true_r.
Qed.

Lemma l2tp_reply_overflow_witness : exists x, bbl_access_l2tp (Some (L2TP_REPLY_MESSAGE ++ replicate 20 58)) 38 x = Fault.
Proof.
  destruct (first_session (from_start one_session [Ev_ctrl_job true])) as [x|] eqn:E; [|by vm_compute in E].
  exists x. apply l2tp_reply_overflow; [reflexivity|]. change (Z.of_nat _) with 40. lia.
Defined.

(** ** Options of more than 255 bytes *)

(** A PPPoE frame with an IPCP request. *)
Definition ipcp_request (options : list Z) : list Z :=
  let len := Z.of_nat (length options) in
  client_mac one_session 1 ++ [2; 0; 0; 0; 0; 9] ++ [0x88; 0x64; 0x11; 0] ++ be_split 2 1 ++ be_split 2 (len + 6) ++ [0x80; 0x21]
  ++ [PPP_CODE_CONF_REQUEST; 1] ++ be_split 2 (len + 4) ++ options.

(** 43 requests for a DNS server: 258 bytes of options. *)
Definition long_request : list Z := ipcp_request (concat (replicate 43 [129; 6; 0; 0; 0; 0])).
Definition short_request : list Z := ipcp_request [129; 6; 0; 0; 0; 0].

Definition receive (frame : list Z) : list event :=
  match decode_ethernet frame (Z.of_nat (length frame)) 65535 with
  | Dec.Ok (PROTOCOL_SUCCESS, eth) _ => [rx_of eth]
  | _ => []
  end.
Definition lcp_open : list event := Ev_ctrl_job true :: firstn 4 (handshake one_session 1).

(** An IPCP request with 258 bytes of options is accepted by the decoder, which keeps their
    length in 8 bits: the loop that rejects them takes an option of 6 bytes from a length of
    2, counts on from the wrapped length and reads behind the packet.  A short request is
    answered. *)
Theorem ipcp_reject_overrun :
  length (receive long_request) = 1%nat
  /\ from_start one_session (lcp_open ++ receive long_request) = Fault
  /\ outcome (from_start one_session (lcp_open ++ receive short_request)) = Some ([BBL_PPP_NETWORK], (1, 0, 0)).
Proof. split_and!; vm_compute; reflexivity. Qed.

(** * Sessions that do not come back *)

(** What the start of an IPoE session depends on. *)
Definition ipoe_of (x : st) : access_type * access_config * dhcp_part * Z :=
  let s := ss x in (s_access_type s, s_config s, s_dhcp s, ip_address (s_ip s)).

Lemma ipoe_up f x : (forall s, s_access_type (f s) = s_access_type s /\ s_config (f s) = s_config s /\ s_dhcp (f s) = s_dhcp s /\ s_ip (f s) = s_ip s) ->
  ipoe_of (up f x) = ipoe_of x.
Proof. intros H. unfold ipoe_of. change (ss (up f x)) with (f (ss x)). cbv zeta. by destruct (H (ss x)) as (-> & -> & -> & ->). Qed.
Lemma ipoe_upg f x : ipoe_of (upg f x) = ipoe_of x.
Proof. reflexivity. Qed.

Lemma ipoe_l2tp_release x : ipoe_of (l2tp_release x) = ipoe_of x.
Proof. unfold l2tp_release. rewrite ipoe_up by done. repeat case_match; done. Qed.
Lemma ipoe_reset_traffic x : ipoe_of (reset_traffic x) = ipoe_of x.
Proof. unfold reset_traffic. rewrite ipoe_upg, ipoe_up by done. by rewrite ipoe_upg. Qed.

Lemma ipoe_reset x : ipoe_of (bbl_session_reset x) = (s_access_type (ss x), s_config (ss x), s_dhcp (ss x), 0).
Proof. unfold bbl_session_reset. rewrite ipoe_up by done. by rewrite ipoe_reset_traffic, ipoe_l2tp_release. Qed.

Lemma ipoe_start_nothing z :
  ac_ipv6_enable (s_config (ss z)) = false -> d_state (s_dhcp (ss z)) = BBL_DHCP_DISABLED -> ip_address (s_ip (ss z)) = 0 ->
  start_ipoe_ipv4 z = Ok z /\ start_ipoe_ipv6 z = Ok z.
Proof.
  intros H6 Hd Hip. unfold start_ipoe_ipv4, start_ipoe_ipv6. cbv zeta. rewrite H6, Hd, Hip. rewrite bool_decide_eq_true_2 by done.
  cbn [negb Z.eqb orb]. split; [by case_match|done].
Qed.

Lemma ipoe_begin (z : st) c :
  ipoe_of z = (ACCESS_TYPE_IPOE, c, s_dhcp (ss z), 0) -> ac_ipv6_enable c = false -> d_state (s_dhcp (ss z)) = BBL_DHCP_DISABLED ->
  exists x', start_session z = Ok x' /\ s_state (ss x') = BBL_IPOE_SETUP /\ s_send_requests (ss x') = 0.
Proof.
  intros Hz H6 Hd. unfold start_session. cbv zeta. set (z2 := match s_cfm _ with Some _ => _ | None => _ end).
  assert (H2 : ipoe_of z2 = ipoe_of z) by (subst z2; case_match; [by rewrite ipoe_up|done]). clearbody z2. rewrite Hz in H2. unfold ipoe_of in H2.
  injection H2 as Ht Hc Hdh Hip. rewrite Ht. set (z3 := up _ z2). destruct (ipoe_start_nothing z3) as [-> H3].
  - change (s_config (ss z3)) with (s_config (ss z2)). by rewrite Hc.
  - change (s_dhcp (ss z3)) with (s_dhcp (ss z2)). by rewrite Hdh.
  - exact Hip.
  - cbn [mbind res_bind]. rewrite H3. eexists. split; [done|]. unfold bbl_session_tx_qnode_insert. case_match; split; reflexivity.
Qed.

(** A static IPoE session loses its address and its gateway when it is reset for a reconnect,
    and its start then asks for nothing: it stays in the setup and sends no packet. *)
Theorem static_session_lost (x : st) :
  s_access_type (ss x) = ACCESS_TYPE_IPOE -> ac_ipv6_enable (s_config (ss x)) = false -> d_state (s_dhcp (ss x)) = BBL_DHCP_DISABLED ->
  exists x', start_session (bbl_session_reset x) = Ok x' /\ s_state (ss x') = BBL_IPOE_SETUP /\ s_send_requests (ss x') = 0.
Proof.
  intros Hty H6 Hd. pose proof (ipoe_reset x) as Hr. set (z := bbl_session_reset x) in *. clearbody z. rewrite Hty in Hr.
  assert (Hdh : s_dhcp (ss z) = s_dhcp (ss x)) by (unfold ipoe_of in Hr; by injection Hr). apply (ipoe_begin z (s_config (ss x))); congruence.
Qed.

(** The session with a static address that the program creates. *)
Definition static_session : setup :=
  setup_new 1 [(access_new ACCESS_TYPE_IPOE VLAN_MODE_11 7 1 1 0)
    {{ a_config := mk_access_config false true false true true 0 1492 ; a_static_ip := 0x0500000A ; a_static_gateway := 0x0100000A }}].

Lemma static_session_lost_witness :
  exists x x', first_session (from_start static_session []) = Some x /\ ip_address (s_ip (ss x)) = 0x0500000A
    /\ start_session (bbl_session_reset x) = Ok x' /\ s_send_requests (ss x') = 0.
Proof.
  destruct (first_session (from_start static_session [])) as [x|] eqn:E; [|by vm_compute in E].
  assert (H : (fun x => (s_access_type (ss x), ac_ipv6_enable (s_config (ss x)), d_state (s_dhcp (ss x)), ip_address (s_ip (ss x))))
    <$> first_session (from_start static_session []) = Some (ACCESS_TYPE_IPOE, false, BBL_DHCP_DISABLED, 0x0500000A)) by (vm_compute; reflexivity).
  rewrite E in H. cbn [fmap option_fmap option_map] in H. injection H as H1 H2 H3 H4.
  destruct (static_session_lost x H1 H2 H3) as (x' & Hx & _ & Hs). exists x, x'. split_and!; done.
Defined.

(** The zapping counter has 8 bits and the configured count 16: with a count above 255 the
    viewing pause never begins. *)
Theorem zapping_pause_never_begins (x : st) :
  255 < cf_igmp_zap_count (g_config (gl x)) ->
  m_view_start_time (s_igmp (ss (zapping_counted x))) = m_view_start_time (s_igmp (ss x)).
Proof.
  intros H. unfold zapping_counted. cbv zeta. set (y := up_igmp _ x). assert (Hm : m_count (s_igmp (ss y)) < 256).
  { change (u8 (m_count (s_igmp (ss x)) + 1) < 256). apply Z.mod_pos_bound. lia. }
  rewrite (proj2 (Z.leb_gt _ _)) by lia. by rewrite andb_false_r.
Qed.

Lemma zapping_pause_never_begins_witness :
  exists x, cf_igmp_zap_count (g_config (gl x)) = 300 /\ m_view_start_time (s_igmp (ss (zapping_counted x))) = mk_ts 0 0.
Proof.
  destruct (first_session (from_start one_session [])) as [x|] eqn:E; [|by vm_compute in E].
  assert (H : (fun x => m_view_start_time (s_igmp (ss x))) <$> first_session (from_start one_session []) = Some (mk_ts 0 0)) by (vm_compute; reflexivity).
  rewrite E in H. cbn [fmap option_fmap option_map] in H. injection H as H.
  set (y := mk_st (glob_new (bbl_config_init_defaults {{ cf_igmp_zap_count := 300 ; cf_igmp_zap_view_duration := 60 }})) (ss x)).
  exists y. split; [reflexivity|]. rewrite (zapping_pause_never_begins y); [exact H|]. change (255 < 300). lia.
Defined.
