(* ===== verification/Fragment.v ===== *)
(** Fragmented IPv4 packets of streams (bbl_fragment.c).

    [ipv4_fragments], a doubly linked list, is the list of its entries from the head; the
    memory of an entry is zeroed when it is created.  Only stream packets are reassembled:
    the header of a complete packet is read from its last bytes, and the stream receives
    it (Stream.v).  [None] is an access outside of a buffer. *)
From coqutil Require Import Datatypes.RecordSetters.
From S2P Require Import Prelude.
From S2P Require Import Const.
From S2P Require Import ConstApp.
From S2P Require Import ConstStream.
From S2P Require Import ConstNet.
From S2P Require Import ProtoTypes.
From S2P Require Import DecodeEth.
From S2P Require Import StreamPacket.
From S2P Require Import Timer.
From S2P Require Import Session.
From S2P Require Import Stream.
From S2P Require Import StreamRx.
Import RecordSetters.DoubleBraceUpdate.
From stdpp Require Import gmap list.
Open Scope Z_scope.

(** * The buffers *)

(** [bbl_fragment_s]; [f_buf] has [FRAGMENT_BUF] bytes. *)
Definition FRAGMENT_BUF : Z := 4050.
Record fragment := mk_fragment {
  f_timestamp : Z;
  f_src : Z;
  f_dst : Z;
  f_id : Z;
  f_fragments : Z;
  f_max_offset : Z;
  f_max_length : Z;
  f_recived : Z;
  f_expected : Z;
  f_buf : list Z
}.

Definition fragment_new (ipv4 : ipv4_t) : fragment :=
  mk_fragment 0 (ipv4_src ipv4) (ipv4_dst ipv4) (ipv4_id ipv4) 0 0 0 0 0 (replicate (Z.to_nat FRAGMENT_BUF) 0).

Definition same_packet (ipv4 : ipv4_t) (f : fragment) : Prop :=
  f_id f = ipv4_id ipv4 /\ f_src f = ipv4_src ipv4 /\ f_dst f = ipv4_dst ipv4.
#[export] Instance same_packet_dec ipv4 f : Decision (same_packet ipv4 f).
Proof. unfold same_packet. apply _. Defined.

(** The entry of the packet, a new one at the head when there is none. *)
Definition fragment_get (ipv4 : ipv4_t) (fs : list fragment) : Datatypes.nat * fragment * list fragment :=
  match list_find (same_packet ipv4) fs with
  | Some (i, f) => (i, f, fs)
  | None => (O, fragment_new ipv4, fragment_new ipv4 :: fs)
  end.

Definition fragment_offset (ipv4 : ipv4_t) : Z := u16 (Z.land (ipv4_offset ipv4) 0x1FFF * 8).
Definition more_fragments (ipv4 : ipv4_t) : bool := negb (Z.land (ipv4_offset ipv4) IPV4_MF =? 0).

(** The fragment is copied into the buffer. *)
Definition fragment_store (eth : ethernet) (timestamp : timespec) (ipv4 : ipv4_t) (f : fragment) : option fragment :=
  let offset := fragment_offset ipv4 in
  buf ← copy_at (f_buf f) offset (ipv4_payload ipv4) (ipv4_payload_len ipv4);
  let f := f {{ f_max_length ::= Z.max (eth_length eth) ; f_max_offset ::= Z.max offset ;
                f_fragments ::= (fun n => u16 (n + 1)) ; f_timestamp := u32 (tv_sec timestamp) ;
                f_buf := buf ; f_recived ::= (fun n => u16 (n + ipv4_payload_len ipv4)) }} in
  Some (if more_fragments ipv4 then f else f {{ f_expected := u16 (offset + ipv4_payload_len ipv4) }}).

(** What a fragment does to the buffers; the entry of the packet when it is complete. *)
Definition reassemble (eth : ethernet) (timestamp : timespec) (ipv4 : ipv4_t) (fs : list fragment) : option (list fragment * option fragment) :=
  let '(i, f, fs) := fragment_get ipv4 fs in
  if FRAGMENT_BUF <? fragment_offset ipv4 + ipv4_payload_len ipv4 then Some (delete i fs, None)
  else
    f ← fragment_store eth timestamp ipv4 f;
    Some (if f_recived f =? f_expected f then (delete i fs, Some f) else (<[i := f]> fs, None)).

(** * The packet *)

Definition le_at (b : list Z) (off n : Datatypes.nat) : Z := le_combine (take n (drop off b)).

(** The header of the packet in the last [BBL_HEADER_LEN] bytes; [mc_group] is not set. *)
Definition fragment_bbl (f : fragment) : bbl_bbl :=
  let b := drop (Z.to_nat (f_recived f - BBL_HEADER_LEN)) (f_buf f) in
  let type := le_at b 8 1 in
  let unicast := type =? BBL_TYPE_UNICAST in
  mk_bbl None type (le_at b 9 1) (le_at b 10 1) (le_at b 11 1) (le_at b 12 4)
    (Some (if unicast then le_at b 16 4 else 0)) (Some (if unicast then le_at b 20 2 else 0)) (Some (if unicast then le_at b 22 2 else 0))
    (Some (if unicast then 0 else le_at b 20 4)) None
    (le_at b 24 8) (le_at b 32 8) (le_at b 40 4) (le_at b 44 4).

Definition note_fragments (f : fragment) (r : stream_rx) : stream_rx :=
  r {{ rx_fragments ::= (fun n => if n <? f_fragments f then u8 (f_fragments f) else n) ; rx_fragment_offset ::= Z.max (f_max_offset f) }}.

(** The stream receives the packet. *)
Definition fragment_deliver (access network : option Z) (eth : ethernet) (timestamp : timespec) (f : fragment) (c : ctx) : option ctx :=
  is_bbl ← packet_is_bbl (f_buf f) (f_recived f);
  if negb is_bbl then Some c
  else
    let eth := eth {{ eth_bbl := p_to (fragment_bbl f) ; eth_length := f_max_length f }} in
    '(stream, learn, c) ← (match access, network with
                           | Some i, _ => '(s, c) ← bbl_stream_rx eth timestamp None c; Some (s, learn_access i, c)
                           | None, Some i =>
                               net ← c_network c !! i;
                               '(s, c) ← bbl_stream_rx eth timestamp (Some (net_mac net)) c; Some (s, learn_network i timestamp, c)
                           | None, None => Some (None, id, c)
                           end);
    Some (match stream with Some a => with_rx a (note_fragments f) (with_rx a learn c) | None => c end).

Definition bbl_fragment_rx (reassemble_fragments : bool) (access network : option Z) (eth : ethernet) (timestamp : timespec) (ipv4 : ipv4_t)
    (fs : list fragment) (c : ctx) : option (list fragment * ctx) :=
  if negb reassemble_fragments then Some (fs, c)
  else
    '(fs, complete) ← reassemble eth timestamp ipv4 fs;
    c ← (match complete with Some f => fragment_deliver access network eth timestamp f c | None => Some c end);
    Some (fs, c).

(** Entries older than 10 seconds are freed; [now] is the time of the timer. *)
Definition bbl_fragment_cleanup_job (now : timespec) (fs : list fragment) : list fragment :=
  let timestamp := u32 (tv_sec now - 10) in filter (fun f => timestamp <= f_timestamp f) fs.
