(* ===== verification/FragmentOrder.v ===== *)
(** Fragments in any order: a packet whose fragments arrive once each, in any order and
    between those of other packets, is put together and received once.

    [table] abstracts the list of the buffers to a map from the packets to their buffers;
    a fragment works on one entry of it ([reassemble_table]). *)
From coqutil Require Import Datatypes.RecordSetters.
From S2P Require Import Prelude.
From S2P Require Import Const.
From S2P Require Import ConstApp.
From S2P Require Import ConstStream.
From S2P Require Import ConstNet.
From S2P Require Import ProtoTypes.
From S2P Require Import DecodeEth.
From S2P Require Import StreamPacket.
From S2P Require Import Timer.
From S2P Require Import Session.
From S2P Require Import Stream.
From S2P Require Import StreamRx.
From S2P Require Import Fragment.
Import RecordSetters.DoubleBraceUpdate.
From stdpp Require Import gmap list.
Open Scope Z_scope.

(** * The table of buffers *)

Definition fragment_key (f : fragment) : Z * Z * Z := (f_id f, f_src f, f_dst f).
Definition packet_key (ipv4 : ipv4_t) : Z * Z * Z := (ipv4_id ipv4, ipv4_src ipv4, ipv4_dst ipv4).
Definition table (fs : list fragment) : gmap (Z * Z * Z) fragment := list_to_map ((fun f => (fragment_key f, f)) <$> fs).
Definition distinct (fs : list fragment) : Prop := NoDup (fragment_key <$> fs).

Lemma same_packet_key ipv4 f : same_packet ipv4 f <-> fragment_key f = packet_key ipv4.
Proof. unfold same_packet, fragment_key, packet_key. split; [by intros (-> & -> & ->)|intros H; by injection H]. Qed.

Lemma table_perm fs1 fs2 : distinct fs1 -> fs1 ≡ₚ fs2 -> table fs1 = table fs2 /\ distinct fs2.
Proof.
  intros Hd Hp. split; [|unfold distinct; by rewrite <- Hp]. apply list_to_map_proper; [|by rewrite Hp].
  rewrite <- list_fmap_compose. exact Hd.
Qed.

Lemma table_cons f fs : table (f :: fs) = <[fragment_key f := f]> (table fs).
Proof. reflexivity. Qed.

Lemma table_none f fs : distinct (f :: fs) -> table fs !! fragment_key f = None.
Proof.
  intros Hd. apply NoDup_cons in Hd as [Hn _]. apply not_elem_of_list_to_map_1. rewrite <- list_fmap_compose. exact Hn.
Qed.

Lemma list_split {A} (l : list A) i x : l !! i = Some x -> exists l1 l2, l = l1 ++ x :: l2 /\ i = length l1.
Proof. intros H. exists (take i l), (drop (S i) l). split; [symmetry; by apply take_drop_middle|]. apply lookup_lt_Some in H. rewrite length_take. lia. Qed.

Lemma table_at fs i f : distinct fs -> fs !! i = Some f ->
  distinct (delete i fs) /\ table (delete i fs) = delete (fragment_key f) (table fs) /\ table fs !! fragment_key f = Some f
  /\ forall f', fragment_key f' = fragment_key f -> distinct (<[i := f']> fs) /\ table (<[i := f']> fs) = <[fragment_key f := f']> (table fs).
Proof.
  intros Hd Hi. destruct (list_split fs i f Hi) as (l1 & l2 & -> & ->). rewrite delete_middle.
  assert (Hp : forall g : fragment, l1 ++ g :: l2 ≡ₚ g :: (l1 ++ l2)) by (intros; by rewrite Permutation_middle).
  destruct (table_perm _ _ Hd (Hp f)) as [Ht Hd']. pose proof (table_none _ _ Hd') as Hn. rewrite Ht, table_cons.
  split_and!; [by apply NoDup_cons in Hd' as [_ ?]|by rewrite delete_insert_id|by rewrite lookup_insert_eq|].
  intros f' Hk. replace (<[length l1 := f']> (l1 ++ f :: l2)) with (l1 ++ f' :: l2) by (rewrite insert_app_r_alt by done; by rewrite Nat.sub_diag).
  assert (Hd2 : distinct (l1 ++ f' :: l2)) by (unfold distinct in *; rewrite fmap_app, fmap_cons in *; by rewrite Hk).
  split; [done|]. destruct (table_perm _ _ Hd2 (Hp f')) as [-> _]. by rewrite table_cons, Hk, insert_insert_eq.
Qed.

Lemma find_packet ipv4 fs : distinct fs ->
  match list_find (same_packet ipv4) fs with
  | Some (i, f) => fs !! i = Some f /\ fragment_key f = packet_key ipv4
  | None => table fs !! packet_key ipv4 = None
  end.
Proof.
  intros Hd. destruct (list_find _ fs) as [[i f]|] eqn:E.
  - apply list_find_Some in E as (Hi & Hs & _). split; [done|by apply same_packet_key].
  - apply list_find_None in E. apply not_elem_of_list_to_map_1. rewrite <- list_fmap_compose. intros Hin.
    apply list_elem_of_fmap in Hin as (f & Hk & Hf). rewrite Forall_forall in E. apply (E f Hf). by apply same_packet_key.
Qed.

(** The same on the table. *)
Definition receive (eth : ethernet) (timestamp : timespec) (ipv4 : ipv4_t) (m : gmap (Z * Z * Z) fragment) :
    option (gmap (Z * Z * Z) fragment * option fragment) :=
  let k := packet_key ipv4 in
  if FRAGMENT_BUF <? fragment_offset ipv4 + ipv4_payload_len ipv4 then Some (delete k m, None)
  else
    f ← fragment_store eth timestamp ipv4 (default (fragment_new ipv4) (m !! k));
    Some (if f_recived f =? f_expected f then (delete k m, Some f) else (<[k := f]> m, None)).

Lemma store_key eth ts ipv4 f f' : fragment_store eth ts ipv4 f = Some f' -> fragment_key f' = fragment_key f.
Proof. unfold fragment_store. destruct (copy_at _ _ _ _); [|done]. cbn [mbind option_bind]. intros H. injection H as <-. by case_match. Qed.

Lemma get_table ipv4 fs : distinct fs ->
  let '(i, f, fs1) := fragment_get ipv4 fs in
  distinct fs1 /\ fs1 !! i = Some f /\ fragment_key f = packet_key ipv4 /\ f = default (fragment_new ipv4) (table fs !! packet_key ipv4)
  /\ delete (packet_key ipv4) (table fs1) = delete (packet_key ipv4) (table fs).
Proof.
  intros Hd. pose proof (find_packet ipv4 fs Hd) as H. unfold fragment_get. destruct (list_find _ fs) as [[i f]|].
  - destruct H as [Hi Hk]. destruct (table_at fs i f Hd Hi) as (_ & _ & Ht & _). rewrite Hk in Ht. by rewrite Ht.
  - rewrite H. assert (Hd' : distinct (fragment_new ipv4 :: fs)).
    { apply NoDup_cons. split; [|done]. intros Hin. apply list_elem_of_fmap in Hin as (f & Hk & Hf).
      apply not_elem_of_list_to_map_2 in H. apply H. rewrite <- list_fmap_compose. apply list_elem_of_fmap. by exists f. }
    split_and!; [done|done|done|done|]. rewrite table_cons. change (fragment_key _) with (packet_key ipv4). by rewrite delete_insert_eq.
Qed.

Lemma reassemble_table eth ts ipv4 fs : distinct fs ->
  match reassemble eth ts ipv4 fs with
  | Some (fs', o) => distinct fs' /\ receive eth ts ipv4 (table fs) = Some (table fs', o)
  | None => receive eth ts ipv4 (table fs) = None
  end.
Proof.
  intros Hd. unfold reassemble, receive. pose proof (get_table ipv4 fs Hd) as Hg. destruct (fragment_get ipv4 fs) as [[i f] fs1].
  destruct Hg as (Hd1 & Hi & Hk & <- & Ht). destruct (table_at fs1 i f Hd1 Hi) as (Hdd & Htd & _ & Hins). rewrite Hk in Htd, Hins.
  destruct (FRAGMENT_BUF <? _); [by rewrite Htd, Ht|]. destruct (fragment_store eth ts ipv4 f) as [f'|] eqn:Es; cbn [mbind option_bind]; [|done].
  destruct (f_recived f' =? _); [by rewrite Htd, Ht|]. apply store_key in Es. destruct (Hins f') as [Hd' Ht']; [congruence|]. split; [done|].
  rewrite Ht'. do 2 f_equal. rewrite <- (insert_delete_eq (table fs)), <- (insert_delete_eq (table fs1)). by rewrite Ht.
Qed.

(** * Arrivals *)

Record arrival := mk_arrival { ar_access : option Z; ar_network : option Z; ar_eth : ethernet; ar_time : timespec; ar_ipv4 : ipv4_t }.
Definition ar_key (e : arrival) : Z * Z * Z := packet_key (ar_ipv4 e).
Definition ar_off (e : arrival) : Z := fragment_offset (ar_ipv4 e).
Definition ar_len (e : arrival) : Z := ipv4_payload_len (ar_ipv4 e).

(** The decoder gives the payload as the bytes behind the header. *)
Definition valid (e : arrival) : Prop := exists bs, ipv4_payload (ar_ipv4 e) = Some bs /\ 0 <= ar_len e <= Z.of_nat (length bs).

(** The arrivals one after the other, with reassembly switched on. *)
Fixpoint fragment_run (es : list arrival) (fs : list fragment) (c : ctx) : option (list fragment * ctx) :=
  match es with
  | [] => Some (fs, c)
  | e :: es => '(fs, c) ← bbl_fragment_rx true (ar_access e) (ar_network e) (ar_eth e) (ar_time e) (ar_ipv4 e) fs c; fragment_run es fs c
  end.

(** The packets that are completed, each with the arrival that did it. *)
Fixpoint completed (es : list arrival) (fs : list fragment) : option (list fragment * list (arrival * fragment)) :=
  match es with
  | [] => Some (fs, [])
  | e :: es =>
      '(fs, o) ← reassemble (ar_eth e) (ar_time e) (ar_ipv4 e) fs;
      '(fs, l) ← completed es fs;
      Some (fs, match o with Some f => (e, f) :: l | None => l end)
  end.
Fixpoint deliver_all (l : list (arrival * fragment)) (c : ctx) : option ctx :=
  match l with
  | [] => Some c
  | (e, f) :: l => c ← fragment_deliver (ar_access e) (ar_network e) (ar_eth e) (ar_time e) f c; deliver_all l c
  end.

Lemma run_delivers es fs c fs' l : completed es fs = Some (fs', l) -> fragment_run es fs c = (c ← deliver_all l c; Some (fs', c)).
Proof.
  revert fs c l. induction es as [|e es IH]; intros fs c l H; cbn [completed fragment_run] in *; [by simplify_eq|].
  unfold bbl_fragment_rx. cbn [negb]. destruct (reassemble _ _ _ fs) as [[fs1 o]|]; cbn [mbind option_bind] in *; [|done].
  destruct (completed es fs1) as [[fs2 l']|] eqn:E; cbn [mbind option_bind] in *; [|done]. destruct o as [f|]; simplify_eq.
  - cbn [deliver_all]. destruct (fragment_deliver _ _ _ _ f c) as [c1|]; cbn [mbind option_bind]; [by apply IH|done].
  - by apply IH.
Qed.

(** * Any arrival *)

Definition buffers (fs : list fragment) : Prop := map_Forall (fun _ f => length (f_buf f) = Z.to_nat FRAGMENT_BUF) (table fs).

Lemma fragment_store_ok (e : arrival) f : valid e -> length (f_buf f) = Z.to_nat FRAGMENT_BUF -> ar_off e + ar_len e <= FRAGMENT_BUF ->
  exists bs f', ipv4_payload (ar_ipv4 e) = Some bs /\ fragment_store (ar_eth e) (ar_time e) (ar_ipv4 e) f = Some f' /\
    f_buf f' = take (Z.to_nat (ar_off e)) (f_buf f) ++ take (Z.to_nat (ar_len e)) bs ++ drop (Z.to_nat (ar_off e) + Z.to_nat (ar_len e)) (f_buf f) /\
    f_recived f' = u16 (f_recived f + ar_len e) /\ f_fragments f' = u16 (f_fragments f + 1) /\
    f_max_offset f' = Z.max (ar_off e) (f_max_offset f) /\ f_max_length f' = Z.max (eth_length (ar_eth e)) (f_max_length f) /\
    f_expected f' = (if more_fragments (ar_ipv4 e) then f_expected f else u16 (ar_off e + ar_len e)) /\ length (f_buf f') = Z.to_nat FRAGMENT_BUF.
Proof.
  intros (bs & Hp & Hl) Hb Ho. exists bs. unfold ar_off, ar_len in *. set (ip := ar_ipv4 e) in *. set (off := fragment_offset ip) in *.
  assert (0 <= off) by apply u16_range.
  assert (Hc : copy_at (f_buf f) off (ipv4_payload ip) (ipv4_payload_len ip)
    = Some (take (Z.to_nat off) (f_buf f) ++ take (Z.to_nat (ipv4_payload_len ip)) bs ++ drop (Z.to_nat off + Z.to_nat (ipv4_payload_len ip)) (f_buf f))).
  { unfold copy_at. rewrite Hp. destruct (Z.eqb_spec (ipv4_payload_len ip) 0) as [->|Hn].
    - cbn [Z.to_nat]. rewrite take_0, Nat.add_0_r. by rewrite (app_nil_l (drop _ _)), take_drop.
    - cbn [mbind option_bind]. rewrite (proj2 (Nat.ltb_ge _ _)) by lia. rewrite (proj2 (Nat.ltb_ge _ _)) by lia. done. }
  unfold fragment_store. fold ip off. rewrite Hc. cbn [mbind option_bind]. eexists. split; [done|]. split; [reflexivity|].
  assert (Hlen : length (take (Z.to_nat off) (f_buf f) ++ take (Z.to_nat (ipv4_payload_len ip)) bs ++ drop (Z.to_nat off + Z.to_nat (ipv4_payload_len ip)) (f_buf f))
    = Z.to_nat FRAGMENT_BUF) by (rewrite !length_app, !length_take, length_drop; lia).
  destruct (more_fragments ip); split_and!; try reflexivity; exact Hlen.
Qed.

Lemma completed_step e fs : distinct fs -> buffers fs -> valid e ->
  exists fs' o, reassemble (ar_eth e) (ar_time e) (ar_ipv4 e) fs = Some (fs', o) /\ distinct fs' /\ buffers fs'
    /\ receive (ar_eth e) (ar_time e) (ar_ipv4 e) (table fs) = Some (table fs', o).
Proof.
  intros Hd Hb Hv. pose proof (reassemble_table (ar_eth e) (ar_time e) (ar_ipv4 e) fs Hd) as H.
  set (f := default (fragment_new (ar_ipv4 e)) (table fs !! ar_key e)).
  assert (Hf : length (f_buf f) = Z.to_nat FRAGMENT_BUF).
  { subst f. destruct (table fs !! ar_key e) eqn:E; [exact (Hb _ _ E)|]. apply length_replicate. }
  unfold receive in H. fold (ar_key e) (ar_off e) (ar_len e) f in H. destruct (FRAGMENT_BUF <? ar_off e + ar_len e) eqn:El.
  - destruct (reassemble _ _ _ fs) as [[fs' o]|]; [|done]. destruct H as [Hd' H]. exists fs', o. split_and!; [done|done| |].
    + unfold buffers. injection H as <- _. by apply map_Forall_delete.
    + unfold receive. fold (ar_off e) (ar_len e). by rewrite El.
  - destruct (fragment_store_ok e f Hv Hf) as (bs & f' & _ & Hs & _ & _ & _ & _ & _ & _ & Hl); [apply Z.ltb_ge in El; lia|].
    rewrite Hs in H. cbn [mbind option_bind] in H. destruct (reassemble _ _ _ fs) as [[fs' o]|]; [|done]. destruct H as [Hd' H].
    exists fs', o. split_and!; [done|done| |].
    + unfold buffers. destruct (f_recived f' =? f_expected f'); injection H as <- _; [by apply map_Forall_delete|by apply map_Forall_insert_2].
    + unfold receive. fold (ar_off e) (ar_len e) (ar_key e) f. rewrite El, Hs. exact H.
Qed.

Lemma receive_other eth ts ipv4 m m' o k : receive eth ts ipv4 m = Some (m', o) -> packet_key ipv4 <> k -> m' !! k = m !! k.
Proof.
  unfold receive. intros H Hk. destruct (FRAGMENT_BUF <? _); [simplify_eq; by rewrite lookup_delete_ne|].
  destruct (fragment_store _ _ _ _) as [f|]; cbn [mbind option_bind] in H; [|done]. destruct (f_recived f =? f_expected f); simplify_eq;
    [by rewrite lookup_delete_ne|by rewrite lookup_insert_ne].
Qed.

(** * The fragments of one packet *)

(** A fragment of the payload [P]. *)
Definition piece (P : list Z) (e : arrival) : Prop :=
  0 < ar_len e /\ ar_off e + ar_len e <= Z.of_nat (length P)
  /\ more_fragments (ar_ipv4 e) = (ar_off e + ar_len e <? Z.of_nat (length P))
  /\ exists bs, ipv4_payload (ar_ipv4 e) = Some bs
       /\ take (Z.to_nat (ar_len e)) bs = take (Z.to_nat (ar_len e)) (drop (Z.to_nat (ar_off e)) P).

(** The payload from [off] on, cut into fragments. *)
Fixpoint cut (P : list Z) (off : Z) (es : list arrival) : Prop :=
  match es with
  | [] => off = Z.of_nat (length P)
  | e :: es => ar_off e = off /\ piece P e /\ cut P (off + ar_len e) es
  end.

Definition total (es : list arrival) : Z := foldr (fun e n => ar_len e + n) 0 es.
Definition highest (g : arrival -> Z) (es : list arrival) : Z := foldr (fun e n => Z.max (g e) n) 0 es.

Lemma total_app es1 es2 : total (es1 ++ es2) = total es1 + total es2.
Proof. induction es1 as [|e es1 IH]; [done|]. cbn [app total foldr]. fold (total (es1 ++ es2)) (total es1). lia. Qed.
Lemma total_perm es1 es2 : es1 ≡ₚ es2 -> total es1 = total es2.
Proof. intros H. unfold total. apply (foldr_permutation_proper (=)); [solve_proper|intros; lia|done]. Qed.
Lemma highest_perm g es1 es2 : es1 ≡ₚ es2 -> highest g es1 = highest g es2.
Proof. intros H. unfold highest. apply (foldr_permutation_proper (=)); [solve_proper|intros; lia|done]. Qed.
Lemma highest_app g es e : highest g (es ++ [e]) = Z.max (g e) (highest g es).
Proof. rewrite (highest_perm g (es ++ [e]) (e :: es)); [done|]. by rewrite Permutation_app_comm. Qed.

Lemma total_pos P es : Forall (piece P) es -> 0 <= total es /\ (es <> [] -> 0 < total es).
Proof.
  induction 1 as [|e es [Hl _] _ [IH _]]; [by split|]. change (total (e :: es)) with (ar_len e + total es). split; [lia|]. intros _. lia.
Qed.

Lemma cut_pieces P off es : cut P off es -> Forall (piece P) es /\ off + total es = Z.of_nat (length P).
Proof.
  revert off. induction es as [|e es IH]; intros off H; cbn [cut] in H; [split; [constructor|cbn; lia]|].
  destruct H as (Ho & Hp & Hc). apply IH in Hc as [Hc Ht]. split; [by constructor|]. change (total (e :: es)) with (ar_len e + total es). lia.
Qed.

Lemma cut_covers P off es i : cut P off es -> off <= i < Z.of_nat (length P) -> exists e, e ∈ es /\ ar_off e <= i < ar_off e + ar_len e.
Proof.
  revert off. induction es as [|e es IH]; intros off H Hi; cbn [cut] in H; [lia|]. destruct H as (Ho & Hp & Hc).
  destruct (decide (i < off + ar_len e)) as [Hl|Hl]; [exists e; split; [by left|lia]|].
  destruct (IH _ Hc) as (e' & He' & Hr); [lia|]. exists e'. split; [by right|done].
Qed.

Lemma cut_ends P off es : cut P off es -> es <> [] -> exists e, e ∈ es /\ more_fragments (ar_ipv4 e) = false.
Proof.
  revert off. induction es as [|e es IH]; intros off H Hn; [done|]. destruct H as (Ho & (Hl & Hle & Hm & _) & Hc). destruct es as [|e' es].
  - exists e. split; [by left|]. cbn [cut] in Hc. rewrite Hm. apply Z.ltb_ge. lia.
  - destruct (IH _ Hc) as (e2 & He2 & Hm2); [done|]. exists e2. split; [by right|done].
Qed.

(** The buffer that has received the fragments [es]. *)
Record holds (P : list Z) (es : list arrival) (f : fragment) : Prop := {
  holds_recived : f_recived f = total es;
  holds_fragments : f_fragments f = Z.of_nat (length es);
  holds_offset : f_max_offset f = highest ar_off es;
  holds_length : f_max_length f = highest (fun e => eth_length (ar_eth e)) es;
  holds_expected : f_expected f = Z.of_nat (length P) /\ (exists e, e ∈ es /\ more_fragments (ar_ipv4 e) = false)
    \/ f_expected f = 0 /\ Forall (fun e => more_fragments (ar_ipv4 e) = true) es;
  holds_buf : length (f_buf f) = Z.to_nat FRAGMENT_BUF;
  holds_bytes : forall e i, e ∈ es -> ar_off e <= Z.of_nat i < ar_off e + ar_len e -> f_buf f !! i = P !! i
}.

Definition entry_new (k : Z * Z * Z) : fragment := mk_fragment 0 k.1.2 k.2 k.1.1 0 0 0 0 0 (replicate (Z.to_nat FRAGMENT_BUF) 0).

Lemma holds_new P k : holds P [] (entry_new k).
Proof. split; try done; [right; split; [done|constructor]|intros e i He; by apply not_elem_of_nil in He]. Qed.

Lemma holds_store P es e f : Z.of_nat (length P) <= FRAGMENT_BUF -> valid e -> piece P e -> Forall (piece P) es ->
  total es + ar_len e <= Z.of_nat (length P) -> holds P es f ->
  exists f', fragment_store (ar_eth e) (ar_time e) (ar_ipv4 e) f = Some f' /\ holds P (es ++ [e]) f'.
Proof.
  intros HP Hv (Hl & Hle & Hm & bs & Hbs & Htk) Hps Ht [Hr Hf Ho Hlen He Hb Hby]. change FRAGMENT_BUF with 4050 in HP.
  destruct (fragment_store_ok e f Hv Hb) as (bs' & f' & Hbs' & Hs & Hbuf & Hr' & Hf' & Ho' & Hlen' & He' & Hb'); [change FRAGMENT_BUF with 4050; lia|].
  rewrite Hbs in Hbs'. injection Hbs' as <-. exists f'. split; [done|]. destruct (total_pos P es Hps) as [Ht0 _].
  assert (Hn : Z.of_nat (length es) <= total es).
  { clear -Hps. induction Hps as [|x xs [Hx _] _ IH]; [done|]. change (total (x :: xs)) with (ar_len x + total xs). cbn [length]. lia. }
  assert (0 <= ar_off e) by apply u16_range.
  split.
  - rewrite Hr', Hr, total_app. cbn [total foldr]. rewrite u16_small by lia. lia.
  - rewrite Hf', Hf, length_app. cbn [length]. rewrite u16_small by lia. lia.
  - by rewrite Ho', Ho, highest_app.
  - by rewrite Hlen', Hlen, highest_app.
  - rewrite He', Hm. destruct (Z.ltb_spec (ar_off e + ar_len e) (Z.of_nat (length P))) as [Hlt|Hge].
    + destruct He as [[Hx (e' & He1 & He2)]|[Hx Hall]]; [left|right]; (split; [done|]).
      * exists e'. split; [apply elem_of_app; by left|done].
      * apply Forall_app. split; [done|]. by repeat constructor.
    + left. split; [rewrite u16_small; lia|]. exists e. split; [apply elem_of_app; right; by left|done].
  - done.
  - intros e' i Hin Hi. change FRAGMENT_BUF with 4050 in Hb. rewrite Hbuf. set (o := Z.to_nat (ar_off e)) in *. set (n := Z.to_nat (ar_len e)) in *.
    assert (Hto : length (take o (f_buf f)) = o) by (rewrite length_take; lia).
    assert (Htn : length (take n bs) = n) by (rewrite Htk, length_take, length_drop; lia).
    destruct (decide (i < o)%nat) as [H1|H1].
    { rewrite lookup_app_l by lia. rewrite lookup_take_lt by lia. apply elem_of_app in Hin as [Hin|Hin]; [by apply (Hby e' i)|].
      apply list_elem_of_singleton in Hin as ->. lia. }
    rewrite lookup_app_r by lia. rewrite Hto. destruct (decide (i < o + n)%nat) as [H2|H2].
    { rewrite lookup_app_l by lia. rewrite Htk, lookup_take_lt, lookup_drop by lia. f_equal. lia. }
    rewrite lookup_app_r by lia. rewrite Htn, lookup_drop. replace (o + n + (i - o - n))%nat with i by lia.
    apply elem_of_app in Hin as [Hin|Hin]; [by apply (Hby e' i)|]. apply list_elem_of_singleton in Hin as ->. lia.
Qed.

Lemma holds_all P parts es f : cut P 0 parts -> es ≡ₚ parts -> parts <> [] -> Z.of_nat (length P) <= FRAGMENT_BUF -> holds P es f ->
  f_recived f = f_expected f /\ f_recived f = Z.of_nat (length P) /\ take (length P) (f_buf f) = P.
Proof.
  intros Hc Hp Hn HP [Hr _ _ _ He Hb Hby]. destruct (cut_pieces _ _ _ Hc) as [_ Ht]. rewrite (total_perm _ _ Hp) in Hr.
  destruct (cut_ends _ _ _ Hc Hn) as (e & Hin & Hm).
  assert (Hx : f_expected f = Z.of_nat (length P)).
  { destruct He as [[He _]|[_ Hall]]; [done|]. rewrite Forall_forall in Hall. rewrite <- Hp in Hin. specialize (Hall e Hin). congruence. }
  split_and!; [lia|lia|]. change FRAGMENT_BUF with 4050 in *. apply list_eq_same_length with (length P); [done|rewrite length_take; lia|].
  intros i x y Hi. rewrite lookup_take_lt by lia. destruct (cut_covers _ _ _ (Z.of_nat i) Hc) as (e' & He' & Hi'); [lia|].
  rewrite <- Hp in He'. rewrite (Hby e' i He' Hi'). congruence.
Qed.

Abbreviation of_key k := (fun e => ar_key e = k).
Abbreviation out_key k := (fun o : arrival * fragment => ar_key o.1 = k).

Lemma completed_others k es fs : distinct fs -> buffers fs -> Forall valid es -> filter (of_key k) es = [] ->
  exists fs' l, completed es fs = Some (fs', l) /\ distinct fs' /\ table fs' !! k = table fs !! k /\ filter (out_key k) l = [].
Proof.
  revert fs. induction es as [|e es IH]; intros fs Hd Hb Hv Hk; [by exists fs, []|]. apply Forall_cons in Hv as [He Hv].
  rewrite filter_cons in Hk. destruct (decide (ar_key e = k)) as [|Hne]; [done|].
  destruct (completed_step e fs Hd Hb He) as (fs1 & o & Hr & Hd1 & Hb1 & Ht). destruct (IH fs1 Hd1 Hb1 Hv Hk) as (fs' & l & Hc & Hd' & Ht' & Hl).
  exists fs'. eexists. cbn [completed]. rewrite Hr. cbn [mbind option_bind]. rewrite Hc. cbn [mbind option_bind]. split_and!; [reflexivity|done| |].
  - rewrite Ht'. by eapply receive_other.
  - destruct o; [|done]. by rewrite filter_cons, decide_False.
Qed.

Section packet.
Context (P : list Z) (k : Z * Z * Z) (parts : list arrival).
Hypothesis Hcut : cut P 0 parts.
Hypothesis Hsize : Z.of_nat (length P) <= FRAGMENT_BUF.

Lemma receive_part e seen rest m : ar_key e = k -> valid e -> seen ++ e :: rest ≡ₚ parts ->
  holds P seen (default (entry_new k) (m !! k)) ->
  exists f, receive (ar_eth e) (ar_time e) (ar_ipv4 e) m
      = Some (match rest with [] => (delete k m, Some f) | _ => (<[k := f]> m, None) end) /\ holds P (seen ++ [e]) f.
Proof using Hcut Hsize.
  intros Hk Hv Hp Hh. destruct (cut_pieces _ _ _ Hcut) as [Hpieces Ht]. rewrite <- Hp in Hpieces. apply Forall_app in Hpieces as [Hps Hrest].
  apply Forall_cons in Hrest as [Hpe Hrest]. rewrite <- (total_perm _ _ Hp), total_app in Ht. change (total (e :: rest)) with (ar_len e + total rest) in Ht.
  destruct (total_pos P rest Hrest) as [Hr0 Hr1]. destruct (total_pos P seen Hps) as [Hs0 _]. pose proof Hpe as (Hl & Hle & _).
  destruct (holds_store P seen e _ Hsize Hv Hpe Hps ltac:(lia) Hh) as (f & Hs & Hf). exists f. split; [|done].
  assert (Hnew : default (fragment_new (ar_ipv4 e)) (m !! k) = default (entry_new k) (m !! k)) by (destruct (m !! k); [done|subst k; reflexivity]).
  unfold receive. fold (ar_key e) (ar_off e) (ar_len e). rewrite Hk, Hnew, Hs, (proj2 (Z.ltb_ge _ _)) by lia. cbn [mbind option_bind].
  destruct rest as [|e' rest].
  - destruct (holds_all P parts (seen ++ [e]) f Hcut Hp) as [He _]; [|done|done|by rewrite He, Z.eqb_refl]. intros ->.
    by apply Permutation_nil_r, app_eq_nil in Hp as [_ ?].
  - rewrite (proj2 (Z.eqb_neq _ _)); [done|]. rewrite (holds_recived _ _ _ Hf), total_app. cbn [total foldr].
    specialize (Hr1 ltac:(done)). destruct (holds_expected _ _ _ Hf) as [[-> _]|[-> _]]; lia.
Qed.

Lemma completed_packet es seen fs : distinct fs -> buffers fs -> Forall valid es -> filter (of_key k) es <> [] ->
  seen ++ filter (of_key k) es ≡ₚ parts -> holds P seen (default (entry_new k) (table fs !! k)) ->
  exists fs' l e f, completed es fs = Some (fs', l) /\ distinct fs' /\ table fs' !! k = None /\ filter (out_key k) l = [(e, f)]
    /\ last (filter (of_key k) es) = Some e /\ holds P (seen ++ filter (of_key k) es) f.
Proof using Hcut Hsize.
  revert seen fs. induction es as [|e es IH]; intros seen fs Hd Hb Hv Hn Hp Hh; [done|]. apply Forall_cons in Hv as [He Hv].
  destruct (completed_step e fs Hd Hb He) as (fs1 & o & Hr & Hd1 & Hb1 & Ht). cbn [completed]. rewrite Hr. cbn [mbind option_bind].
  rewrite filter_cons in *. destruct (decide (ar_key e = k)) as [Hk|Hne].
  - destruct (receive_part e seen _ (table fs) Hk He Hp Hh) as (f & Hrec & Hf). rewrite Ht in Hrec.
    destruct (filter (of_key k) es) as [|e' rest] eqn:Erest.
    + injection Hrec as Ht1 ->. destruct (completed_others k es fs1 Hd1 Hb1 Hv Erest) as (fs' & l & Hc & Hd' & Hn' & Hl).
      exists fs'. eexists. exists e, f. rewrite Hc. cbn [mbind option_bind]. split_and!; [reflexivity|done| |by rewrite filter_cons, decide_True, Hl|done|done].
      by rewrite Hn', Ht1, lookup_delete_eq.
    + injection Hrec as Ht1 ->. destruct (IH (seen ++ [e]) fs1) as (fs' & l & e2 & f2 & Hc & Hd' & Hn' & Hl & Hla & Hf2); try done.
      * by rewrite <- app_assoc.
      * by rewrite Ht1, lookup_insert_eq.
      * exists fs', l, e2, f2. rewrite Hc. cbn [mbind option_bind]. rewrite <- app_assoc in Hf2. by split_and!.
  - destruct (IH seen fs1) as (fs' & l & e2 & f2 & Hc & Hd' & Hn' & Hl & Hla & Hf2); try done.
    + by rewrite (receive_other _ _ _ _ _ _ k Ht Hne).
    + exists fs'. eexists. exists e2, f2. rewrite Hc. cbn [mbind option_bind]. split_and!; [reflexivity|done|done| |done|done].
      destruct o; [|done]. by rewrite filter_cons, decide_False.
Qed.
End packet.

(** * The header *)

Lemma le_at_prefix b P n off w : take n b = P -> (off + w <= n)%nat -> le_at b off w = le_at P off w.
Proof. intros <- H. unfold le_at. rewrite !take_drop_commute, take_take, Nat.min_l by lia. done. Qed.

Lemma le_at_skip a r off w : (length a <= off)%nat -> le_at (a ++ r) off w = le_at r (off - length a) w.
Proof. intros H. unfold le_at. by rewrite drop_app_ge. Qed.

Lemma le_at_hit w v r : 0 <= v < 256 ^ Z.of_nat w -> le_at (le_split w v ++ r) 0 w = v.
Proof. intros H. unfold le_at. rewrite drop_0, take_app_length' by (symmetry; apply le_split_length). rewrite le_combine_split. by apply Z.mod_small. Qed.

Lemma le_at_byte v r : le_at ([v] ++ r) 0 1 = v.
Proof. change (le_at ([v] ++ r) 0 1) with (v + 256 * 0). lia. Qed.

(** The last bytes of a packet are the header. *)
Lemma buffer_tail P f : take (length P) (f_buf f) = P -> f_recived f = Z.of_nat (length P) -> BBL_HEADER_LEN <= Z.of_nat (length P) ->
  take 48 (drop (Z.to_nat (f_recived f - BBL_HEADER_LEN)) (f_buf f)) = drop (length P - 48) P.
Proof.
  intros Ht Hr Hl. change BBL_HEADER_LEN with 48 in *. rewrite Hr. replace (Z.to_nat _) with (length P - 48)%nat by lia.
  rewrite take_drop_commute. replace (length P - 48 + 48)%nat with (length P) by lia. by rewrite Ht.
Qed.

(** A field of the header, behind the fields before it. *)
Ltac le_field :=
  repeat (rewrite le_at_skip by (rewrite ?le_split_length; cbn; lia); rewrite ?le_split_length; cbn [length Nat.sub]);
  first [apply le_at_byte | apply le_at_hit; cbn; lia].

Lemma buffer_header front b f : bbl_ok b -> bbl_type b = BBL_TYPE_UNICAST ->
  let P := front ++ bbl_bytes b in
  take (length P) (f_buf f) = P -> f_recived f = Z.of_nat (length P) -> BBL_MIN_LEN <= Z.of_nat (length P) ->
  packet_is_bbl (f_buf f) (f_recived f) = Some true /\ fragment_bbl f = (bbl_received b) {{ bbl_mc_source := Some 0 }}.
Proof.
  intros Hb Hu P Ht Hr Hl. assert (HL : BBL_HEADER_LEN <= Z.of_nat (length P)) by (change BBL_HEADER_LEN with 48; change BBL_MIN_LEN with 90 in Hl; lia).
  pose proof (buffer_tail P f Ht Hr HL) as Htail. set (t := drop (Z.to_nat (f_recived f - BBL_HEADER_LEN)) (f_buf f)) in *.
  assert (Hh : exists pre h, P = pre ++ h /\ length h = 48%nat /\ h = drop (length (replicate (Z.to_nat (or0 (bbl_padding b))) 0)) (bbl_bytes b)).
  { exists (front ++ replicate (Z.to_nat (or0 (bbl_padding b))) 0). eexists. split; [|split; [|reflexivity]]; unfold P, bbl_bytes; rewrite drop_app_length.
    - by rewrite app_assoc.
    - rewrite Hu. cbn [Z.eqb BBL_TYPE_UNICAST]. rewrite !length_app, !le_split_length. reflexivity. }
  destruct Hh as (pre & h & HP & Hlh & Hh). rewrite HP, drop_app_length' in Htail by (rewrite length_app; lia).
  unfold bbl_bytes in Hh. rewrite drop_app_length, Hu in Hh. change (BBL_TYPE_UNICAST =? BBL_TYPE_UNICAST) with true in Hh. cbv iota in Hh.
  assert (Hat : forall off w, (off + w <= 48)%nat -> le_at t off w = le_at h off w) by (intros; by apply (le_at_prefix t h 48)).
  split.
  - unfold packet_is_bbl. rewrite Hr, (proj2 (Z.ltb_ge _ _)) by done. rewrite <- Hr. fold t.
    assert (48 <= length t)%nat by (apply (f_equal length) in Htail; rewrite length_take in Htail; lia).
    rewrite (proj2 (Nat.ltb_ge _ _)) by lia. change (le_combine (take 8 t)) with (le_at t 0 8). rewrite Hat by lia. rewrite Hh.
    rewrite le_at_hit by (split; vm_compute; congruence). by rewrite Z.eqb_refl.
  - unfold fragment_bbl. fold t. rewrite !Hat by lia. rewrite Hh. unfold bbl_received. rewrite Hu. cbn [Z.eqb].
    destruct Hb as [pad sub dir tos sid ifindex outer inner mcs mcg flow seq sec nsec|]; [|discriminate Hu]. cbn [or0 bbl_ifindex bbl_outer_vlan_id bbl_inner_vlan_id bbl_sub_type bbl_direction bbl_tos bbl_session_id bbl_flow_id bbl_flow_seq bbl_tv_sec bbl_tv_nsec].
    rewrite <- !app_assoc. rewrite <- (app_nil_r (le_split 4 nsec)).
    repeat match goal with |- context [le_at ?l ?o ?w] => let H := fresh in eassert (H : le_at l o w = _) by le_field; rewrite H; clear H end.
    reflexivity.
Qed.

(** * Reassembly *)

(** C24. The fragments of a unicast stream packet that fits into the reassembly buffer arrive once each, in any order, with fragments of
    other packets between them: no buffer is left, the packet is complete with the last of
    its fragments and only then, its buffer holds the payload, the header of the stream is
    read from it, and what the arrivals do to the streams is the reception of the completed
    packets. *)
Theorem fragments_any_order (front : list Z) (b : bbl_bbl) (k : Z * Z * Z) (parts es : list arrival) (fs : list fragment) :
  let P := front ++ bbl_bytes b in
  bbl_ok b -> bbl_type b = BBL_TYPE_UNICAST -> BBL_MIN_LEN <= Z.of_nat (length P) <= FRAGMENT_BUF -> cut P 0 parts ->
  distinct fs -> buffers fs -> table fs !! k = None -> Forall valid es -> filter (of_key k) es ≡ₚ parts ->
  exists fs' l e f,
    completed es fs = Some (fs', l) /\ (forall c, fragment_run es fs c = (c ← deliver_all l c; Some (fs', c)))
    /\ table fs' !! k = None /\ filter (out_key k) l = [(e, f)] /\ last (filter (of_key k) es) = Some e
    /\ take (length P) (f_buf f) = P /\ f_fragments f = Z.of_nat (length parts)
    /\ f_max_offset f = highest ar_off parts /\ f_max_length f = highest (fun e => eth_length (ar_eth e)) parts
    /\ packet_is_bbl (f_buf f) (f_recived f) = Some true /\ fragment_bbl f = (bbl_received b) {{ bbl_mc_source := Some 0 }}.
Proof.
  intros P Hb Hu [Hmin Hmax] Hcut Hd Hbuf Hk Hv Hp.
  assert (Hn : parts <> []) by (intros ->; cbn [cut] in Hcut; change BBL_MIN_LEN with 90 in Hmin; lia).
  destruct (completed_packet P k parts Hcut Hmax es [] fs) as (fs' & l & e & f & Hc & _ & Hk' & Hl & Hla & Hf); try done.
  - intros Hnil. rewrite Hnil in Hp. by apply Permutation_nil_l in Hp.
  - rewrite Hk. apply holds_new.
  - destruct (holds_all P parts _ f Hcut Hp Hn Hmax Hf) as (_ & Hr & Ht). destruct (buffer_header front b f Hb Hu Ht Hr Hmin) as [His Hhead].
    exists fs', l, e, f. split_and!; try done.
    + intros c. by apply run_delivers.
    + rewrite (holds_fragments _ _ _ Hf). cbn [app]. by rewrite Hp.
    + rewrite (holds_offset _ _ _ Hf). by apply highest_perm.
    + rewrite (holds_length _ _ _ Hf). by apply highest_perm.
Qed.

(** A packet of 158 bytes in three fragments. *)
Definition sample_bbl : bbl_bbl := mk_bbl (Some 14) BBL_TYPE_UNICAST 1 2 0 1 (Some 3) (Some 4) (Some 5) None None 6 7 8 9.
Definition sample : list Z := replicate 96 170 ++ bbl_bytes sample_bbl.
Definition sample_eth (n : Z) : ethernet := eth0 {{ eth_length := n + 34 }}.
Definition fragment_at (id : Z) (P : list Z) (off n : Z) : arrival :=
  mk_arrival (Some 1) None (sample_eth n) (mk_ts 100 0)
    (mk_ipv4 1 2 0 64 PROTOCOL_IPV4_UDP false id (off / 8 + (if off + n <? Z.of_nat (length P) then IPV4_MF else 0)) (20 + n) []
       h_null (Some (drop (Z.to_nat off) P)) n).

Lemma fragments_any_order_witness :
  exists fs' l e f,
    completed [fragment_at 7 sample 96 62; fragment_at 8 sample 0 48; fragment_at 7 sample 0 48; fragment_at 7 sample 48 48] [] = Some (fs', l)
    /\ filter (out_key (7, 1, 2)) l = [(e, f)] /\ take (length sample) (f_buf f) = sample /\ bbl_flow_seq (fragment_bbl f) = 7.
Proof.
  destruct (fragments_any_order (replicate 96 170) sample_bbl (7, 1, 2)
    [fragment_at 7 sample 0 48; fragment_at 7 sample 48 48; fragment_at 7 sample 96 62]
    [fragment_at 7 sample 96 62; fragment_at 8 sample 0 48; fragment_at 7 sample 0 48; fragment_at 7 sample 48 48] [])
    as (fs' & l & e & f & Hc & _ & _ & Hl & _ & Ht & _ & _ & _ & _ & Hh).
  - by constructor.
  - reflexivity.
  - split; vm_compute; congruence.
  - cbn [cut]. unfold piece. split_and!; first [by vm_compute|eexists; split; by vm_compute].
  - constructor.
  - by apply map_Forall_empty.
  - reflexivity.
  - repeat constructor; eexists; (split; [reflexivity|split; vm_compute; congruence]).
  - change (filter _ _) with [fragment_at 7 sample 96 62; fragment_at 7 sample 0 48; fragment_at 7 sample 48 48]. apply (Permutation_app_comm [_] [_; _]).
  - exists fs', l, e, f. split_and!; [done|done|done|by rewrite Hh].
Defined.

(** A fragment that arrives twice is counted twice: in place of a fragment of the same
    length that is still missing it completes the packet, and the stream receives it. *)
Theorem fragment_duplicate_completes :
  match completed [fragment_at 7 sample 0 48; fragment_at 7 sample 0 48; fragment_at 7 sample 96 62] [] with
  | Some ([], [(_, f)]) =>
      f_recived f = Z.of_nat (length sample) /\ take 48 (drop 48 (f_buf f)) = replicate 48 0 /\ packet_is_bbl (f_buf f) (f_recived f) = Some true
  | _ => False
  end.
Proof. vm_compute. split_and!; reflexivity. Qed.
