(* ===== verification/SessionIgmpJoin.v ===== *)
(** Joining groups: the reports a session sends for the join command, and what the command
    that joins a range of groups leaves out. *)
From coqutil Require Import Datatypes.RecordSetters.
From S2P Require Import Prelude.
From S2P Require Import Const.
From S2P Require Import ConstApp.
From S2P Require Import ConstStream.
From S2P Require Import Utils.
From S2P Require Import ProtoTypes.
From S2P Require Import Timer.
From S2P Require Import Enc.
From S2P Require Import EncodeEth.
From S2P Require Import Stream.
From S2P Require Import Session.
From S2P Require Import SessionDhcp.
From S2P Require Import SessionIgmp.
From S2P Require Import SessionAccess.
From S2P Require Import SessionTx.
From S2P Require Import SessionSys.
From S2P Require Import SessionInit.
From S2P Require Import SessionCount.
From S2P Require Import SessionExact.
From S2P Require Import SessionIgmpCtrl.
Import RecordSetters.DoubleBraceUpdate.
From stdpp Require Import gmap list strings.
Open Scope Z_scope.

(** * What is sent *)

(** [n] reports, with the timeout after each of them. *)
Fixpoint reports (n : Datatypes.nat) (x : st) : list tx * st :=
  match n with
  | O => ([], x)
  | S n => let (t, x) := bbl_tx_encode_packet_igmp x in let (ts, x) := reports n (bbl_tx_igmp_timeout x) in (t :: ts, x)
  end.

Definition igmp_of (t : tx) : option bbl_igmp :=
  match t with
  | tx_packet eth =>
      match eth_next eth with
      | h_pppoe_session p => match ps_next p with h_ipv4 ip => match ipv4_next ip with h_igmp g => Some g | _ => None end | _ => None end
      | h_ipv4 ip => match ipv4_next ip with h_igmp g => Some g | _ => None end
      | _ => None
      end
  | tx_error _ => None
  end.

(** The part of a session that IGMP reports depend on. *)
Definition igmp_view (x : st) : access_type * session_state * ppp_state * Z * list igmp_entry * bool :=
  let s := ss x in
  (s_access_type s, s_state s, p_state (s_ipcp s), m_version (s_igmp s), m_groups (s_igmp s), cf_igmp_combined_leave_join (g_config (gl x))).

(** An entry that is not in use, or of a group that is joined and has been reported. *)
Definition quiet (g : igmp_entry) : Prop := ig_state g = IGMP_GROUP_IDLE \/ ig_state g = IGMP_GROUP_ACTIVE /\ ig_send g = false.

Lemma quiet_round now i r x g : group_at x i = Some g -> quiet g -> report_round now i r x = (Go, r, x).
Proof.
  intros Hg [Hq|[_ Hq]]; unfold report_round; rewrite Hg, Hq; [|done]. change (IGMP_GROUP_IDLE =? 0) with true. by rewrite orb_true_r.
Qed.

Lemma quiet_rounds now l r x : Forall (fun i => exists g, group_at x i = Some g /\ quiet g) l -> report_rounds now l r x = (Go, r, x).
Proof. induction 1 as [|i l (g & Hg & Hq) _ IH]; [done|]. cbn [report_rounds]. by rewrite (quiet_round now i r x g). Qed.

(** Only the group [g] between quiet ones is to be reported. *)
Record waiting (x : st) (l1 l2 : list igmp_entry) (g : igmp_entry) : Prop := {
  w_usable : igmp_usable (ss x) = true;
  w_version : m_version (s_igmp (ss x)) = IGMP_VERSION_3;
  w_groups : groups x = l1 ++ g :: l2;
  w_left : Forall quiet l1;
  w_right : Forall quiet l2
}.

Definition joined_record (g : igmp_entry) : bbl_igmp :=
  igmp0 {{ igmp_version := IGMP_VERSION_3 ; igmp_type := IGMP_TYPE_REPORT_V3 ; igmp_group_records := 1 ; igmp_group_record := [group_record g] }}.

Lemma groups_up_group i f x : groups (up_group i f x) = alter f i (groups x).
Proof. reflexivity. Qed.
Definition reported (now : timespec) (g : igmp_entry) : igmp_entry :=
  igmp_sent (stamp_group now (g {{ ig_send := false ; ig_robustness_count ::= (fun n => if n =? 0 then n else n - 1) }})).

Lemma seq_middle (l1 l2 : list igmp_entry) g : seq 0 (length (l1 ++ g :: l2)) = seq 0 (length l1) ++ length l1 :: seq (S (length l1)) (length l2).
Proof. rewrite length_app, seq_app. cbn [length seq]. done. Qed.

Lemma rounds_app now la lb r x r' x' : report_rounds now la r x = (Go, r', x') -> report_rounds now (la ++ lb) r x = report_rounds now lb r' x'.
Proof.
  revert r x. induction la as [|i la IH]; intros r x H; cbn [report_rounds app] in *; [by injection H as -> ->|].
  destruct (report_round now i r x) as [[[| |] r1] x1]; [by apply IH|done|done].
Qed.

Lemma round_joins now r x l1 l2 g : waiting x l1 l2 g -> ig_state g = IGMP_GROUP_JOINING -> ig_send g = true ->
  r_leave r = false -> r_igmp r = igmp0 ->
  exists r' x', report_round now (length l1) r x = (Go, r', x') /\ r_any r' = true /\ r_igmp r' = joined_record g
    /\ waiting x' l1 l2 (reported now g) /\ gl x' = gl x.
Proof.
  intros [Hu Hv Hg Hl Hr] Hs Hsend Hleave Hi. unfold report_round, group_at. rewrite Hg, list_lookup_middle by done. rewrite Hsend, Hs.
  change (IGMP_GROUP_JOINING =? IGMP_GROUP_LEAVING) with false. change (negb true || (IGMP_GROUP_JOINING =? 0)) with false. cbv iota zeta.
  change (r_leave (r {{ r_any := true }})) with (r_leave r). rewrite Hleave. cbn [andb].
  set (x1 := up_group _ _ x). change (m_version (s_igmp (ss x1))) with (m_version (s_igmp (ss x))). rewrite Hv.
  change (IGMP_VERSION_3 =? IGMP_VERSION_3) with true. cbv iota. unfold report_v3. eexists _, _. split; [reflexivity|]. split; [reflexivity|]. split.
  - cbn [r_igmp]. change (r_igmp (r {{ r_any := true }} {{ r_join := true }})) with (r_igmp r). rewrite Hi. reflexivity.
  - split; [|reflexivity]. split; [exact Hu|exact Hv| |done|done]. rewrite groups_up_group. unfold x1. rewrite groups_up_group, Hg, !alter_middle. reflexivity.
Qed.

Lemma quiet_left x l1 l2 g : waiting x l1 l2 g -> Forall (fun i => exists g, group_at x i = Some g /\ quiet g) (seq 0 (length l1)).
Proof.
  intros [_ _ Hg Hl _]. apply Forall_forall. intros i Hi. apply elem_of_seq in Hi. destruct (lookup_lt_is_Some_2 l1 i) as [g' Hg']; [lia|].
  exists g'. unfold group_at. rewrite Hg, lookup_app_l by lia. split; [done|]. by apply (Forall_lookup_1 _ _ _ _ Hl Hg').
Qed.
Lemma quiet_right x l1 l2 g : waiting x l1 l2 g -> Forall (fun i => exists g, group_at x i = Some g /\ quiet g) (seq (S (length l1)) (length l2)).
Proof.
  intros [_ _ Hg _ Hr]. apply Forall_forall. intros i Hi. apply elem_of_seq in Hi. destruct (lookup_lt_is_Some_2 l2 (i - S (length l1))) as [g' Hg']; [lia|].
  exists g'. unfold group_at. rewrite Hg, lookup_app_r by lia. rewrite lookup_cons_ne_0 by lia.
  replace (Nat.pred (i - length l1)) with (i - S (length l1))%nat by lia. split; [done|]. by apply (Forall_lookup_1 _ _ _ _ Hr Hg').
Qed.

Lemma encode_joins x l1 l2 g : waiting x l1 l2 g -> ig_state g = IGMP_GROUP_JOINING -> ig_send g = true ->
  exists t x', bbl_tx_encode_packet_igmp x = (t, x') /\ igmp_of t = Some (joined_record g) /\ waiting x' l1 l2 (reported (g_now (gl x)) g)
    /\ g_now (gl x') = g_now (gl x).
Proof.
  intros Hw Hs Hsend. unfold bbl_tx_encode_packet_igmp. rewrite (w_usable _ _ _ _ Hw). cbn [negb]. cbv zeta. set (mac := match s_access_type _ with ACCESS_TYPE_PPPOE => _ | ACCESS_TYPE_IPOE => _ end).
  set (r0 := mk_report _ _ _ _ _ _). destruct (round_joins (g_now (gl x)) r0 x l1 l2 g Hw Hs Hsend) as (r' & x' & Hr & Hany & Hi & Hw' & Hgl); [done|done|].
  assert (Hrounds : report_rounds (g_now (gl x)) (seq 0 (length (groups x))) r0 x = (Go, r', x')).
  { rewrite (w_groups _ _ _ _ Hw), seq_middle, (rounds_app _ _ _ _ _ r0 x) by (apply quiet_rounds, (quiet_left x l1 l2 g Hw)).
    cbn [report_rounds]. rewrite Hr. apply quiet_rounds, (quiet_right x' l1 l2 _ Hw'). }
  rewrite Hrounds, Hany. cbn [negb]. eexists _, _. split; [reflexivity|]. split; [|split].
  - set (x2 := count_if _ _). change (s_access_type (ss x2)) with (s_access_type (ss x')). unfold session_ppp. destruct (s_access_type (ss x')); cbn [igmp_of];
      rewrite Hi; reflexivity.
  - destruct Hw' as [Hu' Hv' Hg' Hl' Hr']. split; [exact Hu'|exact Hv'|exact Hg'|done|done].
  - change (g_now (gl x') = g_now (gl x)). by rewrite Hgl.
Qed.

Lemma quiet_repeat l : Forall quiet l -> map igmp_repeat l = l.
Proof.
  induction 1 as [|g l Hg _ IH]; [done|]. cbn [map]. rewrite IH. f_equal. unfold igmp_repeat, SessionIgmp.is_pending. by destruct Hg as [->|[-> _]].
Qed.

Lemma waiting_send b x l1 l2 g : waiting x l1 l2 g -> waiting (send b x) l1 l2 g.
Proof. intros [Hu Hv Hg Hl Hr]. unfold send, bbl_session_tx_qnode_insert. case_match; split; done. Qed.

Lemma timeout_waiting x l1 l2 g : waiting x l1 l2 g -> waiting (bbl_tx_igmp_timeout x) l1 l2 (igmp_repeat g) /\ g_now (gl (bbl_tx_igmp_timeout x)) = g_now (gl x).
Proof.
  intros [Hu Hv Hg Hl Hr]. unfold bbl_tx_igmp_timeout. rewrite Hu. cbn [negb]. cbv zeta. set (x1 := up_igmp _ x).
  assert (Hw : waiting x1 l1 l2 (igmp_repeat g)).
  { split; [exact Hu|exact Hv| |done|done]. change (groups x1) with (map igmp_repeat (groups x)). rewrite Hg, map_app. cbn [map]. by rewrite !quiet_repeat. }
  destruct (existsb _ (groups x)); [|split; [done|reflexivity]]. split; [by apply waiting_send|]. unfold send, bbl_session_tx_qnode_insert. by case_match.
Qed.

(** A report of a group that is to be repeated, or not. *)
Lemma reported_again now g n : ig_state g = IGMP_GROUP_JOINING -> ig_robustness_count g = Z.of_nat (S (S n)) ->
  let g' := igmp_repeat (reported now g) in
  ig_state g' = IGMP_GROUP_JOINING /\ ig_send g' = true /\ ig_robustness_count g' = Z.of_nat (S n) /\ joined_record g' = joined_record g /\ ig_group g' = ig_group g.
Proof.
  intros Hs Hc. unfold reported, stamp_group. set (g1 := g {{ ig_send := false ; ig_robustness_count ::= _ }}). change (ig_state g1) with (ig_state g). rewrite Hs.
  change (IGMP_GROUP_JOINING =? IGMP_GROUP_LEAVING) with false. cbv iota. set (g2 := g1 {{ ig_join_tx_time ::= _ }}).
  assert (H2 : ig_robustness_count g2 = Z.of_nat (S n)).
  { change ((if ig_robustness_count g =? 0 then ig_robustness_count g else ig_robustness_count g - 1) = Z.of_nat (S n)). rewrite Hc, (proj2 (Z.eqb_neq _ _)) by lia. lia. }
  unfold igmp_sent. rewrite H2, (proj2 (Z.eqb_neq _ _)) by lia. cbn [negb]. unfold igmp_repeat, SessionIgmp.is_pending. change (ig_state g2) with (ig_state g). rewrite Hs, H2.
  change ((IGMP_GROUP_JOINING =? IGMP_GROUP_JOINING) || (IGMP_GROUP_JOINING =? IGMP_GROUP_LEAVING)) with true. cbn [negb]. rewrite (proj2 (Z.eqb_neq _ _)) by lia.
  cbn [negb]. split_and!; [exact Hs|reflexivity|exact H2|reflexivity|reflexivity].
Qed.

Lemma reported_last now g : ig_state g = IGMP_GROUP_JOINING -> ig_robustness_count g = 1 ->
  let g' := igmp_repeat (reported now g) in ig_state g' = IGMP_GROUP_ACTIVE /\ ig_send g' = false /\ ig_group g' = ig_group g.
Proof.
  intros Hs Hc. unfold reported, stamp_group. set (g1 := g {{ ig_send := false ; ig_robustness_count ::= _ }}). change (ig_state g1) with (ig_state g). rewrite Hs.
  change (IGMP_GROUP_JOINING =? IGMP_GROUP_LEAVING) with false. cbv iota. set (g2 := g1 {{ ig_join_tx_time ::= _ }}).
  assert (H2 : ig_robustness_count g2 = 0).
  { change ((if ig_robustness_count g =? 0 then ig_robustness_count g else ig_robustness_count g - 1) = 0). by rewrite Hc. }
  unfold igmp_sent. rewrite H2. cbn [Z.eqb negb]. change (ig_state g2) with (ig_state g). rewrite Hs.
  change (IGMP_GROUP_JOINING =? IGMP_GROUP_JOINING) with true. cbv iota. unfold igmp_repeat, SessionIgmp.is_pending. split_and!; reflexivity.
Qed.

Lemma reports_join n x l1 l2 g : waiting x l1 l2 g -> ig_state g = IGMP_GROUP_JOINING -> ig_send g = true -> ig_robustness_count g = Z.of_nat (S n) ->
  exists ts x' g', reports (S n) x = (ts, x') /\ map igmp_of ts = replicate (S n) (Some (joined_record g)) /\ groups x' = l1 ++ g' :: l2
    /\ ig_state g' = IGMP_GROUP_ACTIVE /\ ig_send g' = false /\ ig_group g' = ig_group g.
Proof.
  revert x g. induction n as [|n IH]; intros x g Hw Hs Hsend Hc.
  - destruct (encode_joins x l1 l2 g Hw Hs Hsend) as (t & x1 & He & Ht & Hw1 & _). destruct (timeout_waiting x1 _ _ _ Hw1) as [[_ _ Hg _ _] _].
    destruct (reported_last (g_now (gl x)) g Hs Hc) as (Ha & Hn & Hgr). cbn [reports]. rewrite He. eexists _, _, _. split; [reflexivity|]. cbn [map].
    rewrite Ht. split_and!; [done|exact Hg|exact Ha|exact Hn|exact Hgr].
  - destruct (encode_joins x l1 l2 g Hw Hs Hsend) as (t & x1 & He & Ht & Hw1 & _). destruct (timeout_waiting x1 _ _ _ Hw1) as [Hw2 _].
    destruct (reported_again (g_now (gl x)) g n Hs Hc) as (Hs' & Hsend' & Hc' & Hrec & Hgr).
    destruct (IH _ _ Hw2 Hs' Hsend' Hc') as (ts & x' & g' & Hrs & Hmap & Hg' & Ha & Hn & Hgr'). remember (S n) as m eqn:Em. cbn [reports]. rewrite He, Hrs.
    exists (t :: ts), x', g'. cbn [map replicate]. rewrite Ht, Hmap, Hrec. split_and!; [done|done|done|done|done|congruence].
Qed.

(** The group can be joined: it is in no entry that is in use, and there is one that is free. *)
Definition free_entry (g : igmp_entry) : Prop := ig_state g = IGMP_GROUP_IDLE /\ ig_zapping g = false.
Definition joinable (group : Z) (l : list igmp_entry) : Prop :=
  Exists free_entry l /\ Forall (fun g => ig_zapping g = false -> ig_group g = group -> ig_state g = IGMP_GROUP_IDLE) l.

Lemma join_slot_found group l i found : Forall (fun g => ig_zapping g = false -> ig_group g = group -> ig_state g = IGMP_GROUP_IDLE) l ->
  (Exists free_entry l \/ exists j, found = Some j) -> (forall j, found = Some j -> (j < i)%nat) -> exists j, join_slot group l i found = Some (Some j) /\ (j < i + length l)%nat.
Proof.
  intros Hl. revert i found. induction Hl as [|g l Hg _ IH]; intros i found Hn Hf; cbn [join_slot length].
  - destruct Hn as [Hn|[j ->]]; [by apply Exists_nil in Hn|]. exists j. split; [done|]. specialize (Hf j eq_refl). lia.
  - assert (Hrest : forall found', (forall j, found' = Some j -> (j < S i)%nat) -> (Exists free_entry l \/ exists j, found' = Some j) ->
      exists j, join_slot group l (S i) found' = Some (Some j) /\ (j < i + S (length l))%nat).
    { intros found' Hf' Hn'. destruct (IH (S i) found' Hn' Hf') as (j & Hj & Hlt). exists j. split; [done|lia]. }
    rewrite Exists_cons in Hn. destruct (ig_zapping g) eqn:Hz.
    + apply Hrest; [intros j Hj; specialize (Hf j Hj); lia|]. destruct Hn as [[[_ Hn]|Hn]|Hn]; [congruence|by left|by right].
    + destruct (Z.eqb_spec (ig_group g) group) as [E|E]; [rewrite Hg by done; change (IGMP_GROUP_IDLE =? IGMP_GROUP_IDLE) with true; exists i; split; [done|lia]|].
      destruct (Z.eqb_spec (ig_state g) IGMP_GROUP_IDLE) as [Hi|Hi]; [apply Hrest; [intros j [= ->]; lia|right; by exists i]|].
      apply Hrest; [intros j Hj; specialize (Hf j Hj); lia|]. destruct Hn as [[[Hn _]|Hn]|Hn]; [congruence|by left|by right].
Qed.

Lemma queued_send b x : s_id (ss (send b x)) ∈ default [] (g_tx (gl (send b x)) !! s_access_interface (ss (send b x))).
Proof.
  unfold send, bbl_session_tx_qnode_insert. set (z := up (want b) x). destruct (decide _) as [H|H]; [exact H|].
  match goal with |- context [upg ?f z] => set (z2 := upg f z) end.
  change (g_tx (gl z2)) with (<[s_access_interface (ss z) := default [] (g_tx (gl z) !! s_access_interface (ss z)) ++ [s_id (ss z)]]> (g_tx (gl z))).
  change (ss z2) with (ss z). rewrite lookup_insert_eq. apply elem_of_app. right. by left.
Qed.
Lemma wanted_send b x : Z.land (s_send_requests (ss (send b x))) b = b.
Proof.
  assert (H : s_send_requests (ss (send b x)) = Z.lor (s_send_requests (ss x)) b) by (unfold send, bbl_session_tx_qnode_insert; by case_match).
  rewrite H. apply Z.bits_inj'. intros k _. rewrite Z.land_spec, Z.lor_spec. by destruct (Z.testbit b k), (Z.testbit _ k).
Qed.

(** C25. Joining a group with an established session of IGMP version 3 that has a free entry, does
    not use the group, and whose other groups are joined and reported or not in use: the command
    succeeds and queues the session, and the session then sends as many reports as its
    robustness says, all of them with the record of the group and its sources, before the group
    is active; the other groups stay as they are. *)
Theorem igmp_join_reported (y : sys) (id group s1 s2 s3 : Z) (i n : Datatypes.nat) (s : sess) :
  id <> 0 -> bbl_session_get id y = Some i -> y_sessions y !! i = Some s -> igmp_usable s = true ->
  m_version (s_igmp s) = IGMP_VERSION_3 -> m_robustness (s_igmp s) = Z.of_nat (S n) ->
  joinable group (m_groups (s_igmp s)) -> Forall quiet (m_groups (s_igmp s)) ->
  exists y' x j ts x' g',
    bbl_igmp_ctrl_join id group s1 s2 s3 y = Ok (200, y') /\ y_sessions y' !! i = Some (ss x) /\ y_gl y' = gl x
    /\ s_id (ss x) ∈ default [] (g_tx (gl x) !! s_access_interface (ss x)) /\ Z.land (s_send_requests (ss x)) BBL_SEND_IGMP <> 0
    /\ reports (S n) x = (ts, x') /\ map igmp_of ts = replicate (S n) (Some (joined_record (joining group [s1; s2; s3] (Z.of_nat (S n)))))
    /\ groups x' = <[j := g']> (m_groups (s_igmp s)) /\ groups x' !! j = Some g' /\ ig_state g' = IGMP_GROUP_ACTIVE /\ ig_group g' = group /\ ig_send g' = false.
Proof.
  intros Hid Hget Hs Hu Hv Hr [Hfree Huse] Hq. unfold bbl_igmp_ctrl_join. rewrite (proj2 (Z.eqb_neq _ _)), Hget, Hs by done. cbn [opt mbind res_bind].
  destruct (join_slot_found group (m_groups (s_igmp s)) 0 None Huse) as (j & -> & Hj); [by left|done|]. unfold on_session. rewrite Hs. cbn [opt mbind res_bind].
  set (x0 := mk_st (y_gl y) s). set (g := joining group _ _). assert (Hg : g = joining group [s1; s2; s3] (Z.of_nat (S n))) by (subst g; by rewrite <- Hr).
  destruct (lookup_lt_is_Some_2 (m_groups (s_igmp s)) j) as [g0 Hg0]; [lia|]. pose proof (take_drop_middle _ _ _ Hg0) as Hsplit.
  set (l1 := take j (m_groups (s_igmp s))) in *. set (l2 := drop (S j) (m_groups (s_igmp s))) in *.
  assert (Hl1 : length l1 = j) by (unfold l1; rewrite length_take; lia).
  set (x1 := up_group j (fun _ => g) x0). assert (Hw : waiting (send BBL_SEND_IGMP x1) l1 l2 g).
  { apply waiting_send. split; [exact Hu|exact Hv| | |].
    - unfold x1. rewrite groups_up_group. change (groups x0) with (m_groups (s_igmp s)). rewrite <- Hsplit, <- Hl1. apply alter_middle.
    - by apply Forall_take.
    - by apply Forall_drop. }
  destruct (reports_join n _ l1 l2 g Hw) as (ts & x' & g' & Hrep & Hmap & Hgs & Ha & Hsend & Hgr); [by rewrite Hg|by rewrite Hg|by rewrite Hg|].
  exists (y {{ y_gl := gl (send BBL_SEND_IGMP x1) ; y_sessions := <[i := ss (send BBL_SEND_IGMP x1)]> (y_sessions y) }}), (send BBL_SEND_IGMP x1), j, ts, x', g'.
  split_and!; try done.
  - change (<[i := ss (send BBL_SEND_IGMP x1)]> (y_sessions y) !! i = Some (ss (send BBL_SEND_IGMP x1))). rewrite list_lookup_insert_eq; [done|]. by eapply lookup_lt_Some.
  - apply queued_send.
  - by rewrite wanted_send.
  - rewrite Hgs. rewrite <- Hsplit, <- Hl1. by rewrite insert_app_r_alt, Nat.sub_diag by lia.
  - by rewrite Hgs, <- Hl1, list_lookup_middle.
Qed.

(** The first of three sessions, established. *)
Definition established_run : res sys := from_start three_sessions (Ev_ctrl_job true :: handshake three_sessions 1).

Lemma igmp_join_reported_witness :
  exists y y' x, established_run = Ok y /\ bbl_igmp_ctrl_join 1 0x010000EF 0 0 0 y = Ok (200, y') /\ y_gl y' = gl x
    /\ map igmp_of (reports 2 x).1 = replicate 2 (Some (joined_record (joining 0x010000EF [0; 0; 0] 2))).
Proof.
  assert (H : match established_run with
              | Ok y => match y_sessions y !! 0%nat with
                        | Some s => (bbl_session_get 1 y, igmp_usable s, m_version (s_igmp s), m_robustness (s_igmp s), m_groups (s_igmp s))
                                    = (Some 0%nat, true, IGMP_VERSION_3, 2, replicate (Z.to_nat IGMP_MAX_GROUPS) igmp_entry0)
                        | None => False end
              | _ => False end) by (vm_compute; reflexivity).
  destruct established_run as [y| |]; [|done|done]. destruct (y_sessions y !! 0%nat) as [s|] eqn:Es; [|done]. injection H as Hget Hu Hv Hr Hg.
  destruct (igmp_join_reported y 1 0x010000EF 0 0 0 0 1 s) as (y' & x & j & ts & x' & g' & Hj & _ & Hgl & _ & _ & Hrep & Hmap & _); try done.
  - rewrite Hg. split; [by left|by repeat constructor].
  - rewrite Hg. repeat constructor.
  - exists y, y', x. rewrite Hrep. split_and!; [done|done|done|exact Hmap].
Defined.

(** * A range of groups *)


















