(* ===== verification/L2tpAvp.v ===== *)
(** The attributes of L2TP control messages (bbl_l2tp_avp.c), with the tunnels and sessions
    they are stored in (bbl_l2tp.h).

    [None] is an access outside of a buffer or through NULL.  The value of a hidden
    attribute is decrypted into one static buffer, [sp]; a pointer to a value is into the
    packet or to that buffer.  MD5 is a parameter.  A string or a copied value is the list of
    its bytes; a decoder that fails leaves what it has stored so far. *)
From coqutil Require Import Datatypes.RecordSetters.
From S2P Require Import Prelude.
From S2P Require Import Const.
From S2P Require Import ConstApp.
From S2P Require Import ConstStream.
From S2P Require Import ConstNet.
From S2P Require Import ProtoTypes.
From S2P Require Import Enc.
From S2P Require Import Timer.
From S2P Require Import Session.
Import RecordSetters.DoubleBraceUpdate.
From stdpp Require Import gmap list.
Open Scope Z_scope.

(** * Data *)

Inductive l2tp_tunnel_state :=
| BBL_L2TP_TUNNEL_IDLE | BBL_L2TP_TUNNEL_WAIT_CTR_CONN | BBL_L2TP_TUNNEL_ESTABLISHED | BBL_L2TP_TUNNEL_SEND_STOPCCN
| BBL_L2TP_TUNNEL_RCVD_STOPCCN | BBL_L2TP_TUNNEL_TERMINATED.
#[export] Instance l2tp_tunnel_state_dec : EqDecision l2tp_tunnel_state.
Proof. solve_decision. Defined.
Definition tunnel_rank (s : l2tp_tunnel_state) : Z :=
  match s with
  | BBL_L2TP_TUNNEL_IDLE => 0 | BBL_L2TP_TUNNEL_WAIT_CTR_CONN => 1 | BBL_L2TP_TUNNEL_ESTABLISHED => 2
  | BBL_L2TP_TUNNEL_SEND_STOPCCN => 3 | BBL_L2TP_TUNNEL_RCVD_STOPCCN => 4 | BBL_L2TP_TUNNEL_TERMINATED => 5
  end.

Inductive l2tp_session_state :=
| BBL_L2TP_SESSION_IDLE | BBL_L2TP_SESSION_WAIT_CONN | BBL_L2TP_SESSION_ESTABLISHED | BBL_L2TP_SESSION_TERMINATED | BBL_L2TP_SESSION_MAX.
#[export] Instance l2tp_session_state_dec : EqDecision l2tp_session_state.
Proof. solve_decision. Defined.

Inductive l2tp_congestion_mode := BBL_L2TP_CONGESTION_DEFAULT | BBL_L2TP_CONGESTION_SLOW | BBL_L2TP_CONGESTION_AGGRESSIVE.

Record l2tp_server := mk_l2tp_server {
  sv_ip : Z;
  sv_hello_interval : Z;
  sv_receive_window : Z;
  sv_max_retry : Z;
  sv_lcp_padding : Z;
  sv_data_control_priority : bool;
  sv_data_length : bool;
  sv_data_offset : bool;
  sv_control_tos : Z;
  sv_data_control_tos : Z;
  sv_congestion_mode : l2tp_congestion_mode;
  sv_secret : option (list Z);
  sv_host_name : list Z;
  sv_client_auth_id : option (list Z)
}.

(** [bbl_l2tp_tunnel_s]; queues and sessions are their addresses (L2tp.v).  Members that the
    code never uses are left out; the length of a byte string is the one of the list. *)
Record tunnel := mk_tunnel {
  tn_sessions : list Z;              (* session_qhead *)
  tn_tx : list Z;                    (* tx_qhead *)
  tn_interface : Z;
  tn_server : option Z;              (* index of the server *)
  tn_csurq_requests : list Z;        (* with csurq_requests_len *)
  tn_state : l2tp_tunnel_state;
  tn_state_seconds : Z;
  tn_tunnel_id : Z;
  tn_peer_tunnel_id : Z;
  tn_next_session_id : Z;
  tn_ns : Z;
  tn_nr : Z;
  tn_peer_ns : Z;
  tn_peer_nr : Z;
  tn_peer_receive_window : Z;
  tn_peer_firmware : Z;
  tn_peer_ip : Z;
  tn_peer_framing : Z;
  tn_peer_bearer : Z;
  tn_timer_tx_active : bool;
  tn_timer_tx : bool;                (* armed *)
  tn_timer_ctrl : bool;              (* armed *)
  tn_cwnd : Z;
  tn_ssthresh : Z;
  tn_cwcount : Z;
  tn_result_code : Z;
  tn_error_code : Z;
  tn_error_message : option (list Z);
  tn_zlb : bool;
  tn_zlb_qnode : option Z;
  tn_control_rx : Z;
  tn_control_rx_dup : Z;
  tn_control_rx_ooo : Z;
  tn_control_tx : Z;
  tn_control_retry : Z;
  tn_data_rx : Z;
  tn_data_tx : Z;
  tn_challenge : option (list Z);
  tn_peer_challenge : option (list Z);
  tn_challenge_response : option (list Z);
  tn_peer_challenge_response : option (list Z);
  tn_peer_name : option (list Z);
  tn_peer_vendor : option (list Z)
}.

Record lsession := mk_lsession {
  se_tunnel : Z;
  se_state : l2tp_session_state;
  se_pppoe_session : option Z;
  se_key : Z * Z;                    (* tunnel and session identifier *)
  se_data_rx : Z;
  se_data_tx : Z;
  se_data_ipv4_rx : Z;
  se_data_ipv4_tx : Z;
  se_peer_session_id : Z;
  se_data_sequencing : bool;
  se_connect_speed_update_enabled : bool;
  se_peer_tx_bps : Z;
  se_peer_rx_bps : Z;
  se_peer_framing : Z;
  se_peer_bearer : Z;
  se_peer_physical_channel_id : Z;
  se_peer_private_group_id : Z;
  se_peer_call_serial_number : Z;
  se_proxy_auth_type : Z;
  se_proxy_auth_id : Z;
  se_ipcp_state : ppp_state;
  se_ip6cp_state : ppp_state;
  se_result_code : Z;
  se_error_code : Z;
  se_error_message : option (list Z);
  se_disconnect_code : Z;
  se_disconnect_protocol : Z;
  se_disconnect_direction : Z;
  se_disconnect_message : option (list Z);
  se_proxy_auth_name : option (list Z);
  se_proxy_auth_challenge : option (list Z);
  se_proxy_auth_response : option (list Z);
  se_peer_called_number : option (list Z);
  se_peer_calling_number : option (list Z);
  se_peer_sub_address : option (list Z);
  se_peer_ari : option (list Z);
  se_peer_aci : option (list Z)
}.

(** * Decoding *)

(** A pointer to a value. *)
Inductive vptr := v_null | v_packet (bs : list Z) | v_sp.
Record avp := mk_avp { avp_m : bool; avp_h : bool; avp_len : Z; avp_vendor : Z; avp_type : Z; avp_value : vptr }.

Definition value_at (sp : list Z) (p : vptr) : option (list Z) :=
  match p with v_null => None | v_packet bs => Some bs | v_sp => Some sp end.

(** A big-endian number of [n] bytes. *)
Definition rd_be (bs : list Z) (off n : Datatypes.nat) : option Z :=
  let b := take n (drop off bs) in if (length b <? n)%nat then None else Some (be_combine b).

(** [Some None] is a failure; otherwise the attribute and what is behind it. *)
Definition bbl_l2tp_avp_decode (buf : list Z) (len : Z) : option (option (avp * list Z * Z)) :=
  if len <? L2TP_AVP_HDR_LEN then Some None
  else
    field ← rd_be buf 0 2;
    let n := Z.land field L2TP_AVP_LEN_MASK in
    if (n <? L2TP_AVP_HDR_LEN) || (len <? n) then Some None
    else
      vendor ← rd_be buf 2 2;
      type ← rd_be buf 4 2;
      let n := n - L2TP_AVP_HDR_LEN in
      let buf := drop 6 buf in
      Some (Some (mk_avp (negb (Z.land field L2TP_AVP_M_BIT_MASK =? 0)) (negb (Z.land field L2TP_AVP_H_BIT_MASK =? 0)) n vendor type
                    (if n =? 0 then v_null else v_packet buf),
                  drop (Z.to_nat n) buf, len - L2TP_AVP_HDR_LEN - n)).

Section md5.
Context (md5 : list Z -> list Z).

(** The bytes from [pos] on, with the digest at [idx]. *)
Fixpoint unhide_loop (len : Datatypes.nat) (secret value : list Z) (pos idx : Datatypes.nat) (digest : list Z) : option (list Z) :=
  match len with
  | O => Some []
  | S len =>
      d ← digest !! idx;
      v ← value !! pos;
      let next := (Z.to_nat L2TP_MD5_DIGEST_LEN <=? S idx)%nat && negb (len =? 0)%nat in
      out ← (if next then unhide_loop len secret value (S pos) 0 (md5 (secret ++ take 16 (drop (S pos - 16) value)))
             else unhide_loop len secret value (S pos) (S idx) digest);
      Some (Z.lxor d v :: out)
  end.

(** [server] is the one of the tunnel; [rv] the random vector with its length.  The attribute
    and the static buffer, or a failure. *)
Definition bbl_l2tp_avp_unhide (server : option l2tp_server) (a : avp) (rv : vptr * Z) (sp : list Z) : option (option (avp * list Z)) :=
  match value_at sp (avp_value a) with
  | None => Some None
  | Some value =>
      match value_at sp rv.1 with
      | None => Some None
      | Some vector =>
          sv ← server;
          match sv_secret sv with
          | None => Some None
          | Some secret =>
              if (length vector <? Z.to_nat rv.2)%nat then None
              else
                let digest := md5 (be_split 2 (avp_type a) ++ secret ++ take (Z.to_nat rv.2) vector) in
                d0 ← digest !! 0%nat; v0 ← value !! 0%nat; d1 ← digest !! 1%nat; v1 ← value !! 1%nat;
                let len := Z.lor (Z.shiftl (Z.lxor d0 v0) 8) (Z.lxor d1 v1) in
                if avp_len a <? len + 2 then Some None
                else
                  out ← unhide_loop (Z.to_nat len) secret value 2 2 digest;
                  if L2TP_AVP_MAX_LEN <? len + 1 then None
                  else Some (Some (a {{ avp_len := len ; avp_value := v_sp }}, out ++ [0] ++ drop (Z.to_nat len + 1) sp))
          end
      end
  end.

(** What a decoder does with an attribute; [None] inside is the end of the decoder with a
    failure, after it has stored what it knows. *)
Abbreviation av A := (option (bool * A)).
Definition done {A} (a : A) : av A := Some (true, a).
Definition failed {A} (a : A) : av A := Some (false, a).

(** The loop over the attributes of a message.  [handle] gets the static buffer. *)
Fixpoint avp_loop {A} (fuel : Datatypes.nat) (server : option l2tp_server) (handle : avp -> list Z -> A -> av A)
    (buf : list Z) (len : Z) (rv : vptr * Z) (sp : list Z) (a : A) : av A :=
  if len =? 0 then done a
  else match fuel with
  | O => None
  | S fuel =>
      r ← bbl_l2tp_avp_decode buf len;
      match r with
      | None => failed a
      | Some (x, buf, len) =>
          u ← (if avp_h x then bbl_l2tp_avp_unhide server x rv sp else Some (Some (x, sp)));
          match u with
          | None => failed a
          | Some (x, sp) =>
              if (avp_vendor x =? 0) && (avp_type x =? L2TP_AVP_RANDOM_VECTOR) then
                avp_loop fuel server handle buf len (avp_value x, avp_len x) sp a
              else
                '(ok, a) ← handle x sp a;
                if (ok : bool) then avp_loop fuel server handle buf len rv sp a else failed a
          end
      end
  end.

Definition decode_with {A} (server : option l2tp_server) (handle : avp -> list Z -> A -> av A) (l2tp : l2tp_t) (sp : list Z) (a : A) : av A :=
  let buf := default [] (l2tp_payload l2tp) in
  avp_loop (S (length buf)) server handle buf (l2tp_payload_len l2tp) (v_null, 0) sp a.

(** A number that must have [n] bytes. *)
Definition number {A} (x : avp) (sp : list Z) (n : Datatypes.nat) (f : Z -> A -> A) (a : A) : av A :=
  if negb (avp_len x =? Z.of_nat n) then failed a
  else bs ← value_at sp (avp_value x); v ← rd_be bs 0 n; done (f v a).

(** [memcpy] of the value into new memory, when there is none yet. *)
Definition copied {A} (x : avp) (sp : list Z) (have : A -> option (list Z)) (f : list Z -> A -> A) (a : A) : av A :=
  match have a with
  | Some _ => done a
  | None =>
      if avp_len x =? 0 then done a
      else bs ← value_at sp (avp_value x);
           if (length bs <? Z.to_nat (avp_len x))%nat then None else done (f (take (Z.to_nat (avp_len x)) bs) a)
  end.

Definition unknown {A} (x : avp) (a : A) : av A := if avp_m x then failed a else done a.

Definition session_attribute (x : avp) (sp : list Z) (s : lsession) : av lsession :=
  let t := avp_type x in
  if avp_vendor x =? 0 then
    if t =? L2TP_AVP_RESULT_CODE then done s
    else if t =? L2TP_AVP_ASSIGNED_SESSION_ID then number x sp 2 (fun v s => s {{ se_peer_session_id := v }}) s
    else if t =? L2TP_AVP_CALL_SERIAL_NUMBER then number x sp 4 (fun v s => s {{ se_peer_call_serial_number := v }}) s
    else if t =? L2TP_AVP_FRAMING_TYPE then number x sp 4 (fun v s => s {{ se_peer_framing := v }}) s
    else if t =? L2TP_AVP_BEARER_TYPE then number x sp 4 (fun v s => s {{ se_peer_bearer := v }}) s
    else if t =? L2TP_AVP_CALLED_NUMBER then copied x sp se_peer_called_number (fun v s => s {{ se_peer_called_number := Some v }}) s
    else if t =? L2TP_AVP_CALLING_NUMBER then copied x sp se_peer_calling_number (fun v s => s {{ se_peer_calling_number := Some v }}) s
    else if t =? L2TP_AVP_SUB_ADDRESS then copied x sp se_peer_sub_address (fun v s => s {{ se_peer_sub_address := Some v }}) s
    else if t =? L2TP_AVP_TX_CONNECT_SPEED then number x sp 4 (fun v s => s {{ se_peer_tx_bps := v }}) s
    else if t =? L2TP_AVP_RX_CONNECT_SPEED then number x sp 4 (fun v s => s {{ se_peer_rx_bps := v }}) s
    else if t =? L2TP_AVP_PHYSICAL_CHANNEL_ID then number x sp 4 (fun v s => s {{ se_peer_physical_channel_id := v }}) s
    else if t =? L2TP_AVP_PRIVATE_GROUP_ID then number x sp 4 (fun v s => s {{ se_peer_private_group_id := v }}) s
    else if t =? L2TP_AVP_SEQUENCING_REQUIRED then done (s {{ se_data_sequencing := true }})
    else if (t =? L2TP_AVP_INITIAL_RECEIVED_CONFREQ) || (t =? L2TP_AVP_LAST_SENT_CONFREQ) || (t =? L2TP_AVP_LAST_RECEIVED_CONFREQ) then done s
    else if t =? L2TP_AVP_PROXY_AUTHEN_TYPE then number x sp 2 (fun v s => s {{ se_proxy_auth_type := v }}) s
    else if t =? L2TP_AVP_PROXY_AUTHEN_NAME then copied x sp se_proxy_auth_name (fun v s => s {{ se_proxy_auth_name := Some v }}) s
    else if t =? L2TP_AVP_PROXY_AUTHEN_CHALLENGE then copied x sp se_proxy_auth_challenge (fun v s => s {{ se_proxy_auth_challenge := Some v }}) s
    else if t =? L2TP_AVP_PROXY_AUTHEN_ID then number x sp 2 (fun v s => s {{ se_proxy_auth_id := v }}) s
    else if t =? L2TP_AVP_PROXY_AUTHEN_RESPONSE then copied x sp se_proxy_auth_response (fun v s => s {{ se_proxy_auth_response := Some v }}) s
    else if t =? L2TP_AVP_PPP_DISCONNECT_CODE then
      if (5 <=? avp_len x) && (se_disconnect_code s =? 0) then
        bs ← value_at sp (avp_value x); code ← rd_be bs 0 2; protocol ← rd_be bs 2 2; direction ← rd_be bs 4 1;
        (* be16toh of a byte *)
        done (s {{ se_disconnect_code := code ; se_disconnect_protocol := protocol ; se_disconnect_direction := direction * 256 }})
      else done s
    else if t =? L2TP_AVP_CONNECT_SPEED_UPDATE_ENABLE then done (s {{ se_connect_speed_update_enabled := true }})
    else unknown x s
  else if avp_vendor x =? BROADBAND_FORUM_VENDOR_ID then
    if t =? ACCESS_LINE_ACI then copied x sp se_peer_aci (fun v s => s {{ se_peer_aci := Some v }}) s
    else if t =? ACCESS_LINE_ARI then copied x sp se_peer_ari (fun v s => s {{ se_peer_ari := Some v }}) s
    else unknown x s
  else unknown x s.

Definition bbl_l2tp_avp_decode_session (server : option l2tp_server) (l2tp : l2tp_t) (sp : list Z) (s : lsession) : av lsession :=
  decode_with server session_attribute l2tp sp s.

Definition tunnel_attribute (x : avp) (sp : list Z) (n : tunnel) : av tunnel :=
  let t := avp_type x in
  if avp_vendor x =? 0 then
    if t =? L2TP_AVP_RESULT_CODE then done n
    else if t =? L2TP_AVP_PROTOCOL_VERSION then
      if negb (avp_len x =? 2) then failed n
      else bs ← value_at sp (avp_value x); v ← rd_be bs 0 2; if v =? 256 then done n else failed n
    else if t =? L2TP_AVP_FRAMING_CAPABILITIES then number x sp 4 (fun v n => n {{ tn_peer_framing := v }}) n
    else if t =? L2TP_AVP_BEARER_CAPABILITIES then number x sp 4 (fun v n => n {{ tn_peer_bearer := v }}) n
    else if t =? L2TP_AVP_FIRMWARE_REVISION then number x sp 2 (fun v n => n {{ tn_peer_firmware := v }}) n
    else if t =? L2TP_AVP_HOST_NAME then copied x sp tn_peer_name (fun v n => n {{ tn_peer_name := Some v }}) n
    else if t =? L2TP_AVP_VENDOR_NAME then copied x sp tn_peer_vendor (fun v n => n {{ tn_peer_vendor := Some v }}) n
    else if t =? L2TP_AVP_ASSIGNED_TUNNEL_ID then number x sp 2 (fun v n => n {{ tn_peer_tunnel_id := v }}) n
    else if t =? L2TP_AVP_RECEIVE_WINDOW_SIZE then number x sp 2 (fun v n => n {{ tn_peer_receive_window := v ; tn_ssthresh := v }}) n
    else if t =? L2TP_AVP_CHALLENGE then copied x sp tn_peer_challenge (fun v n => n {{ tn_peer_challenge := Some v }}) n
    else if t =? L2TP_AVP_CHALLENGE_RESPONSE then
      if negb (avp_len x =? L2TP_MD5_DIGEST_LEN) then failed n
      else copied x sp tn_peer_challenge_response (fun v n => n {{ tn_peer_challenge_response := Some v }}) n
    else unknown x n
  else unknown x n.

Definition bbl_l2tp_avp_decode_tunnel (server : option l2tp_server) (l2tp : l2tp_t) (sp : list Z) (n : tunnel) : av tunnel :=
  decode_with server tunnel_attribute l2tp sp n.

End md5.

(** * Encoding *)

Inductive avp_new := a_bytes (p : list Z) | a_uint16 (v : Z) | a_uint32 (v : Z).
Definition avp_new_len (v : avp_new) : Z := match v with a_bytes p => Z.of_nat (length p) | a_uint16 _ => 2 | a_uint32 _ => 4 end.

Definition bbl_l2tp_avp_encode (m : bool) (type : Z) (v : avp_new) : wm unit :=
  let field := u16 (avp_new_len v + L2TP_AVP_HDR_LEN) in
  put_be 2 (if m then Z.lor field L2TP_AVP_M_BIT_MASK else field);;
  put_be 2 0;;
  put_be 2 type;;
  match v with
  | a_uint32 v => put_be 4 v
  | a_uint16 v => put_be 2 v
  | a_bytes p => put p
  end.

Definition message_len (m : option (list Z)) : Z := match m with Some m => Z.of_nat (length m) | None => 0 end.

Definition bbl_l2tp_avp_encode_result_code (result_code error_code : Z) (error_message : option (list Z)) : wm unit :=
  field ← wpos;
  wbump 2;;
  put_be 2 0;;
  put_be 2 L2TP_AVP_RESULT_CODE;;
  put_be 2 result_code;;
  when (negb (error_code =? 0)) (
    put_be 2 error_code;;
    match error_message with Some m => put m | None => mret tt end);;
  let n := u16 (L2TP_AVP_HDR_LEN + 2 + (if error_code =? 0 then 0 else 2 + message_len error_message)) in
  store_at field (be_split 2 (Z.lor n L2TP_AVP_M_BIT_MASK)).

Definition bbl_l2tp_avp_encode_disconnect_code (s : lsession) : wm unit :=
  when (negb (se_disconnect_code s =? 0)) (
    field ← wpos;
    wbump 2;;
    put_be 2 0;;
    put_be 2 L2TP_AVP_PPP_DISCONNECT_CODE;;
    put_be 2 (se_disconnect_code s);;
    put_be 2 (se_disconnect_protocol s);;
    put8 (se_disconnect_direction s);;
    match se_disconnect_message s with Some m => put m | None => mret tt end;;
    store_at field (be_split 2 (u16 (L2TP_AVP_HDR_LEN + 5 + message_len (se_disconnect_message s))))).

(** The string of a vendor name: bngblaster. *)
Definition vendor_name : list Z := [98; 110; 103; 98; 108; 97; 115; 116; 101; 114].

(** A connect speed update for each session. *)
Fixpoint csurq_updates (l : list Z) : wm unit :=
  match l with
  | [] => mret tt
  | id :: l => bbl_l2tp_avp_encode false L2TP_AVP_CONNECT_SPEED_UPDATE (a_bytes ([0; 0] ++ be_split 2 id ++ replicate 8 0));; csurq_updates l
  end.

Definition optional (type : Z) (v : option (list Z)) : wm unit :=
  match v with Some v => bbl_l2tp_avp_encode true type (a_bytes v) | None => mret tt end.

(** [server] is the server of the tunnel.  [csurq_requests] is freed by the caller. *)
Definition bbl_l2tp_avp_encode_attributes (server : option l2tp_server) (n : tunnel) (s : option lsession) (type : Z) : wm unit :=
  if type =? L2TP_MESSAGE_ZLB then mret tt
  else
    bbl_l2tp_avp_encode (negb (type =? L2TP_MESSAGE_CSURQ)) L2TP_AVP_MESSAGE_TYPE (a_uint16 type);;
    if type =? L2TP_MESSAGE_SCCRP then
      bbl_l2tp_avp_encode true L2TP_AVP_PROTOCOL_VERSION (a_uint16 256);;
      bbl_l2tp_avp_encode true L2TP_AVP_FRAMING_CAPABILITIES (a_uint32 3);;
      bbl_l2tp_avp_encode true L2TP_AVP_BEARER_CAPABILITIES (a_uint32 1);;
      bbl_l2tp_avp_encode false L2TP_AVP_FIRMWARE_REVISION (a_uint16 1);;
      sv ← use server;
      bbl_l2tp_avp_encode true L2TP_AVP_HOST_NAME (a_bytes (sv_host_name sv));;
      bbl_l2tp_avp_encode false L2TP_AVP_VENDOR_NAME (a_bytes vendor_name);;
      bbl_l2tp_avp_encode true L2TP_AVP_ASSIGNED_TUNNEL_ID (a_uint16 (tn_tunnel_id n));;
      bbl_l2tp_avp_encode true L2TP_AVP_RECEIVE_WINDOW_SIZE (a_uint16 (if sv_receive_window sv =? 0 then 4 else sv_receive_window sv));;
      optional L2TP_AVP_CHALLENGE (tn_challenge n);;
      optional L2TP_AVP_CHALLENGE_RESPONSE (tn_challenge_response n)
    else if type =? L2TP_MESSAGE_STOPCCN then
      bbl_l2tp_avp_encode true L2TP_AVP_ASSIGNED_TUNNEL_ID (a_uint16 (tn_tunnel_id n));;
      bbl_l2tp_avp_encode_result_code (tn_result_code n) (tn_error_code n) (tn_error_message n)
    else if type =? L2TP_MESSAGE_ICRP then
      match s with
      | Some s => bbl_l2tp_avp_encode true L2TP_AVP_ASSIGNED_SESSION_ID (a_uint16 (se_key s).2)
      | None => mret tt
      end
    else if type =? L2TP_MESSAGE_CDN then
      match s with
      | Some s =>
          bbl_l2tp_avp_encode true L2TP_AVP_ASSIGNED_SESSION_ID (a_uint16 (se_key s).2);;
          bbl_l2tp_avp_encode_result_code (se_result_code s) (se_error_code s) (se_error_message s);;
          bbl_l2tp_avp_encode_disconnect_code s
      | None => mret tt
      end
    else if type =? L2TP_MESSAGE_CSURQ then csurq_updates (tn_csurq_requests n)
    else mret tt.
