(* ===== verification/L2tp.v ===== *)
(** The L2TP network server (bbl_l2tp.c): tunnels and their control channel, sessions,
    the handlers of received messages and the commands of the control socket.

    Tunnels, sessions and queued packets are in stores by address, and [calloc] takes the
    next one; [None] is an access outside of a buffer, through NULL or to freed memory.
    A link of a queue that is not NULL is membership in the queue.  A timer is armed or
    not; its job is an operation of its own.  What the static buffer of
    [bbl_l2tp_avp_unhide] holds before a message is never read.  [md5] and the random numbers of [RAND_bytes]
    are parameters. *)
From coqutil Require Import Datatypes.RecordSetters.
From S2P Require Import Prelude.
From S2P Require Import Const.
From S2P Require Import ConstApp.
From S2P Require Import ConstStream.
From S2P Require Import ConstNet.
From S2P Require Import ProtoTypes.
From S2P Require Import Enc.
From S2P Require Import EncodeEth.
From S2P Require Import Timer.
From S2P Require Import Session.
From S2P Require Import SessionInit.
From S2P Require Import L2tpAvp.
Import RecordSetters.DoubleBraceUpdate.
From stdpp Require Import gmap list strings.
Open Scope Z_scope.

(** * State *)

(** [bbl_l2tp_queue_s]; [q_packet] has [L2TP_MAX_PACKET_SIZE] bytes. *)
Record queue := mk_queue {
  q_ns : Z;
  q_refcount : Z;
  q_ns_offset : Z;
  q_nr_offset : Z;
  q_retries : Z;
  q_packet : list Z;
  q_packet_len : Z;
  q_last_tx_time : timespec;
  q_tunnel : option Z
}.

(** What L2TP uses of a network interface. *)
Record netif := mk_netif {
  ni_mac : list Z;
  ni_gateway_mac : list Z;
  ni_vlan : Z;
  ni_tx : list Z;                    (* l2tp_tx_qhead *)
  ni_control_tx : Z;
  ni_control_retry : Z;
  ni_control_rx : Z;
  ni_control_rx_dup : Z;
  ni_control_rx_ooo : Z;
  ni_control_rx_nf : Z;
  ni_data_tx : Z;
  ni_data_rx : Z;
  ni_packets_tx : Z;
  ni_bytes_tx : Z
}.

(** A server with its [tunnel_qhead]; the dictionary of sessions has the tunnel itself under
    session 0. *)
Record lns := mk_lns {
  l_servers : list (l2tp_server * list Z);
  l_tunnel : gmap Z tunnel;
  l_session : gmap Z lsession;
  l_queue : gmap Z queue;
  l_dict : gmap (Z * Z) Z;           (* l2tp_session_dict *)
  l_interface : gmap Z netif;
  l_pppoe : gmap Z (option Z);       (* session->l2tp_session of the PPPoE sessions *)
  l_fresh : Z;
  l_next_tunnel_id : Z;
  l_tunnels : Z;
  l_tunnels_max : Z;
  l_tunnels_established : Z;
  l_tunnels_established_max : Z;
  l_sessions : Z;
  l_sessions_max : Z
}.

Definition lm (A : Type) : Type := lns -> option (A * lns).
#[export] Instance lm_ret : MRet lm := fun _ a s => Some (a, s).
#[export] Instance lm_bind : MBind lm := fun _ _ k m s => match m s with Some (a, s) => k a s | None => None end.

Definition bad {A} : lm A := fun _ => None.
Definition get {A} (f : lns -> A) : lm A := fun s => Some (f s, s).
Definition modify (f : lns -> lns) : lm unit := fun s => Some (tt, f s).
Definition need {A} (o : option A) : lm A := fun s => match o with Some a => Some (a, s) | None => None end.
Definition found {K A} `{Countable K} (f : lns -> gmap K A) (k : K) : lm A := fun s => match f s !! k with Some a => Some (a, s) | None => None end.

Definition inc8 (n : Z) : Z := u8 (n + 1).
Definition inc16 (n : Z) : Z := u16 (n + 1).
Definition inc32 (n : Z) : Z := u32 (n + 1).
Definition inc64 (n : Z) : Z := u64 (n + 1).
(** [if(n) n--] *)
Definition count_down (n : Z) : Z := if n =? 0 then 0 else n - 1.

Definition tun (n : Z) : lm tunnel := found l_tunnel n.
Definition ses (n : Z) : lm lsession := found l_session n.
Definition que (n : Z) : lm queue := found l_queue n.
Definition ifc (n : Z) : lm netif := found l_interface n.
Definition up_tun (n : Z) (f : tunnel -> tunnel) : lm unit := t ← tun n; modify (fun s => s {{ l_tunnel ::= insert n (f t) }}).
Definition up_ses (n : Z) (f : lsession -> lsession) : lm unit := t ← ses n; modify (fun s => s {{ l_session ::= insert n (f t) }}).
Definition up_que (n : Z) (f : queue -> queue) : lm unit := q ← que n; modify (fun s => s {{ l_queue ::= insert n (f q) }}).
Definition up_ifc (n : Z) (f : netif -> netif) : lm unit := i ← ifc n; modify (fun s => s {{ l_interface ::= insert n (f i) }}).
Definition calloc : lm Z := n ← get l_fresh; modify (fun s => s {{ l_fresh ::= Z.succ }});; mret n.

(** The server of a tunnel, which is not NULL. *)
Definition server_at (s : lns) (t : tunnel) : option l2tp_server := i ← tn_server t; fst <$> l_servers s !! Z.to_nat i.
Definition server_of (t : tunnel) : lm l2tp_server := o ← get (fun s => server_at s t); need o.

Fixpoint each {A} (f : A -> lm unit) (l : list A) : lm unit :=
  match l with [] => mret tt | x :: l => f x;; each f l end.

Definition L2TP_SEQ_LT (a b : Z) : bool := ((a <? b) && (b - a <? 32768)) || ((b <? a) && (32768 <? a - b)).
Definition L2TP_SEQ_GT (a b : Z) : bool := ((b <? a) && (a - b <? 32768)) || ((a <? b) && (32768 <? b - a)).

(** * Queues *)

Definition bbl_l2tp_interface_txq_append (i q : Z) : lm bool :=
  n ← ifc i;
  if bool_decide (q ∈ ni_tx n) then mret false
  else
    up_ifc i (fun n => n {{ ni_tx := ni_tx n ++ [q] }});;
    up_que q (fun x => x {{ q_refcount ::= inc8 }});;
    mret true.

(** The end of both removals. *)
Definition free_unused (q : Z) (still : lm bool) : lm bool :=
  x ← que q;
  if negb (q_refcount x =? 0) then still else modify (fun s => s {{ l_queue ::= delete q }});; mret true.

Definition bbl_l2tp_interface_txq_remove (i q : Z) : lm bool :=
  x ← que q;
  n ← ifc i;
  (if negb (q_refcount x =? 0) && bool_decide (q ∈ ni_tx n) then
     up_ifc i (fun n => n {{ ni_tx := filter (fun p => p <> q) (ni_tx n) }});;
     up_que q (fun x => x {{ q_refcount ::= Z.pred }})
   else mret tt);;
  free_unused q (mret false).

Definition bbl_l2tp_tunnel_txq_remove (n q : Z) : lm bool :=
  x ← que q;
  t ← tun n;
  (if negb (q_refcount x =? 0) && bool_decide (q ∈ tn_tx t) then
     up_tun n (fun t => t {{ tn_tx := filter (fun p => p <> q) (tn_tx t) }});;
     up_que q (fun x => x {{ q_refcount ::= Z.pred }})
   else mret tt);;
  free_unused q (bbl_l2tp_interface_txq_remove (tn_interface t) q).

(** * Sending *)

Definition start_tx_timer (n : Z) : lm unit :=
  t ← tun n;
  if tn_timer_tx_active t then mret tt else up_tun n (fun t => t {{ tn_timer_tx := true ; tn_timer_tx_active := true }}).

Definition queue0 : queue := mk_queue 0 0 0 0 0 (replicate (Z.to_nat L2TP_MAX_PACKET_SIZE) 0) 0 (mk_ts 0 0) None.

Definition l2tp_frame (i : netif) (sv : l2tp_server) (t : tunnel) (tos : Z) (l2tp : l2tp_t) : ethernet :=
  let ipv4 := mk_ipv4 (sv_ip sv) (tn_peer_ip t) tos 64 PROTOCOL_IPV4_UDP false 0 0 0 []
                (h_udp (mk_udp L2TP_UDP_PORT L2TP_UDP_PORT 0 (Some UDP_PROTOCOL_L2TP) (h_l2tp l2tp))) None 0 in
  eth0 {{ eth_dst := Some (ni_gateway_mac i) ; eth_src := Some (ni_mac i) ; eth_vlan_outer := ni_vlan i ;
          eth_type := ETH_TYPE_IPV4 ; eth_next := h_ipv4 ipv4 }}.

(** The attributes in the scratchpad of [L2TP_MAX_AVP_SIZE] bytes. *)
Definition attributes (sv : option l2tp_server) (t : tunnel) (s : option lsession) (type : Z) : option (list Z) :=
  match bbl_l2tp_avp_encode_attributes sv t s type (mk_wr (replicate (Z.to_nat L2TP_MAX_AVP_SIZE) 0) 0 0) with
  | WOk _ w => Some (take (Z.to_nat (w_len w)) (w_mem w))
  | WFault => None
  end.

(** The packet that is written into a new entry, [None] when it is not encoded. *)
Definition encoded (eth : ethernet) : option (option (list Z * Z)) :=
  match encode_ethernet eth (q_packet queue0) 0 with
  | WOk (PROTOCOL_SUCCESS, _) w => Some (Some (w_mem w, w_len w))
  | WOk _ _ => Some None
  | WFault => None
  end.

Definition bbl_l2tp_send (n : Z) (session : option Z) (type : Z) : lm unit :=
  t ← tun n;
  i ← ifc (tn_interface t);
  q ← calloc;
  sv ← server_of t;
  s ← (match session with Some a => x ← ses a; mret (Some x) | None => mret None end);
  let l2tp := l2tp0 {{ l2tp_type := type ; l2tp_tunnel_id := tn_peer_tunnel_id t ;
                       l2tp_session_id := match s with Some s => se_peer_session_id s | None => 0 end }} in
  l2tp ← (if type =? L2TP_MESSAGE_ZLB then mret l2tp
          else
            up_tun n (fun t => t {{ tn_ns ::= inc16 }});;
            sp ← need (attributes (Some sv) t s type);
            (if type =? L2TP_MESSAGE_CSURQ then up_tun n (fun t => t {{ tn_csurq_requests := [] }}) else mret tt);;
            mret (l2tp {{ l2tp_ns := tn_ns t ; l2tp_payload := Some sp ; l2tp_payload_len := Z.of_nat (length sp) }}));
  packet ← need (encoded (l2tp_frame i sv t (sv_control_tos sv) l2tp));
  match packet with
  | Some (buf, len) =>
      let ns_offset := if ni_vlan i =? 0 then 50 else 54 in
      let entry := queue0 {{ q_ns := l2tp_ns l2tp ; q_ns_offset := ns_offset ; q_nr_offset := ns_offset + 2 ; q_packet := buf ;
                             q_packet_len := len ; q_tunnel := Some n ; q_refcount := 1 }} in
      if type =? L2TP_MESSAGE_ZLB then
        if bool_decide (is_Some (tn_zlb_qnode t)) then mret tt
        else
          modify (fun s => s {{ l_queue ::= insert q entry }});;
          up_tun n (fun t => t {{ tn_zlb_qnode := Some q }})
      else
        modify (fun s => s {{ l_queue ::= insert q entry }});;
        up_tun n (fun t => t {{ tn_tx := tn_tx t ++ [q] }});;
        start_tx_timer n
  | None => mret tt
  end.

Definition bbl_l2tp_send_data (session : Z) (protocol : Z) (next : hdr) : lm unit :=
  s ← ses session;
  t ← tun (se_tunnel s);
  sv ← server_of t;
  i ← ifc (tn_interface t);
  q ← calloc;
  let control := negb (protocol =? PROTOCOL_IPV4) && negb (protocol =? PROTOCOL_IPV6) in
  let l2tp := l2tp0 {{ l2tp_type := L2TP_MESSAGE_DATA ; l2tp_tunnel_id := tn_peer_tunnel_id t ; l2tp_session_id := se_peer_session_id s ;
                       l2tp_protocol := protocol ; l2tp_with_length := sv_data_length sv ; l2tp_with_offset := sv_data_offset sv ;
                       l2tp_with_priority := control && sv_data_control_priority sv ; l2tp_next := next }} in
  packet ← need (encoded (l2tp_frame i sv t (if control then sv_data_control_tos sv else 0) l2tp));
  match packet with
  | Some (buf, len) =>
      modify (fun s => s {{ l_queue ::= insert q (queue0 {{ q_packet := buf ; q_packet_len := len }}) }});;
      bbl_l2tp_interface_txq_append (tn_interface t) q;;
      up_tun (se_tunnel s) (fun t => t {{ tn_data_tx ::= inc64 }});;
      up_ses session (fun s => s {{ se_data_tx ::= inc64 }});;
      up_ifc (tn_interface t) (fun i => i {{ ni_data_tx ::= inc64 }});;
      (if protocol =? PROTOCOL_IPV4 then up_ses session (fun s => s {{ se_data_ipv4_tx ::= inc64 }}) else mret tt)
  | None => mret tt
  end.

(** * Tunnels and sessions *)

(** [q] that was never sent: it is removed, and [ns] goes back to its number. *)
Fixpoint drop_unsent (n : Z) (l : list Z) (ns : Z) : lm Z :=
  match l with
  | [] => mret ns
  | q :: l =>
      x ← que q;
      if q_retries x =? 0 then
        bbl_l2tp_tunnel_txq_remove n q;;
        drop_unsent n l (if q_ns x <? ns then q_ns x else ns)
      else drop_unsent n l ns
  end.

Definition bbl_l2tp_force_stop (n : Z) : lm unit :=
  t ← tun n;
  ns ← drop_unsent n (tn_tx t) (tn_ns t);
  up_tun n (fun t => t {{ tn_ns := ns ; tn_cwnd ::= inc16 }});;
  bbl_l2tp_send n None L2TP_MESSAGE_STOPCCN.

Definition bbl_l2tp_session_delete (a : Z) : lm unit :=
  s ← ses a;
  (if (se_key s).2 =? 0 then mret tt else modify (fun l => l {{ l_sessions ::= count_down }}));;
  t ← tun (se_tunnel s);
  (if bool_decide (a ∈ tn_sessions t) then up_tun (se_tunnel s) (fun t => t {{ tn_sessions := filter (fun b => b <> a) (tn_sessions t) }}) else mret tt);;
  modify (fun l => l {{ l_dict ::= delete (se_key s) }});;
  (match se_pppoe_session s with Some p => modify (fun l => l {{ l_pppoe ::= insert p None }}) | None => mret tt end);;
  modify (fun l => l {{ l_session ::= delete a }}).

(** The server's queue of tunnels. *)
Definition up_tunnels (i : Datatypes.nat) (f : list Z -> list Z) : lm unit :=
  modify (fun l => l {{ l_servers ::= alter (fun p => (p.1, f p.2)) i }}).

Definition bbl_l2tp_tunnel_delete (n : Z) : lm unit :=
  modify (fun l => l {{ l_tunnels ::= count_down }});;
  up_tun n (fun t => t {{ tn_timer_tx := false }});;
  t ← tun n;
  each bbl_l2tp_session_delete (tn_sessions t);;
  (match tn_server t with Some i => up_tunnels (Z.to_nat i) (filter (fun m => m <> n)) | None => mret tt end);;
  each (fun q => bbl_l2tp_tunnel_txq_remove n q;; mret tt) (tn_tx t);;
  (match tn_zlb_qnode t with
   | Some q =>
       x ← que q;
       if q_refcount x =? 0 then mret tt
       else up_que q (fun x => x {{ q_refcount ::= Z.pred }});; bbl_l2tp_tunnel_txq_remove n q;; mret tt
   | None => mret tt
   end);;
  modify (fun l => l {{ l_tunnel ::= delete n }}).

Definition bbl_l2tp_tunnel_update_state (n : Z) (state : l2tp_tunnel_state) : lm unit :=
  t ← tun n;
  if decide (tn_state t = state) then mret tt
  else
    (if decide (state = BBL_L2TP_TUNNEL_ESTABLISHED) then
       modify (fun l => l {{ l_tunnels_established ::= inc32 }});;
       modify (fun l => l {{ l_tunnels_established_max ::= Z.max (l_tunnels_established l) }})
     else if decide (tn_state t = BBL_L2TP_TUNNEL_ESTABLISHED) then modify (fun l => l {{ l_tunnels_established ::= count_down }})
     else mret tt);;
    up_tun n (fun t => t {{ tn_state := state ; tn_state_seconds := 0 }}).

(** Result 2, error 6 and a message. *)
Definition tunnel_error (n : Z) (message : string) : lm unit :=
  up_tun n (fun t => t {{ tn_result_code := 2 ; tn_error_code := 6 ; tn_error_message := Some (chars message) }}).

(** * Jobs *)

Definition store16 (buf : list Z) (off v : Z) : option (list Z) :=
  if Z.of_nat (length buf) <? off + 2 then None
  else Some (take (Z.to_nat off) buf ++ be_split 2 v ++ drop (Z.to_nat off + 2) buf).

(** [CIRCLEQ_NEXT] in the queue [l]. *)
Fixpoint next_of (q : Z) (l : list Z) : option Z :=
  match l with [] => None | p :: l => if p =? q then head l else next_of q l end.

(** [1 << (retries - 1)], which is undefined beyond 31 bits. *)
Definition backoff (retries : Z) : option Z :=
  if (1 <=? retries) && (retries <=? 31) then Some (2 ^ (retries - 1)) else None.

(** A message in the window that is not waiting for its answer is sent. *)
Definition tx_message (n q : Z) (now : timespec) : lm unit :=
  t ← tun n;
  added ← bbl_l2tp_interface_txq_append (tn_interface t) q;
  (if (added : bool) then
     up_tun n (fun t => t {{ tn_control_tx ::= inc32 }});; up_ifc (tn_interface t) (fun i => i {{ ni_control_tx ::= inc32 }})
   else mret tt);;
  up_tun n (fun t => t {{ tn_zlb := false }});;
  x ← que q;
  buf ← need (store16 (q_packet x) (q_nr_offset x) (tn_nr t));
  up_que q (fun x => x {{ q_last_tx_time := now ; q_packet := buf }});;
  (if q_retries x =? 0 then mret tt
   else
     up_tun n (fun t => t {{ tn_control_retry ::= inc32 }});;
     up_ifc (tn_interface t) (fun i => i {{ ni_control_retry ::= inc32 }});;
     sv ← server_of t;
     (if sv_max_retry sv <? q_retries x then
        tunnel_error n "max retry";;
        bbl_l2tp_tunnel_update_state n BBL_L2TP_TUNNEL_SEND_STOPCCN;;
        bbl_l2tp_force_stop n
      else mret tt);;
     up_tun n (fun t => let half := tn_cwnd t / 2 in t {{ tn_ssthresh := (if half =? 0 then 1 else half) ; tn_cwnd := 1 ; tn_cwcount := 0 }}));;
  up_que q (fun x => x {{ q_retries ::= inc8 }}).

(** [now] has not reached the next transmission of [x]. *)
Definition waiting (now : timespec) (x : queue) : option bool :=
  if tv_sec (q_last_tx_time x) =? 0 then Some false
  else b ← backoff (q_retries x); Some (tv_sec (timespec_sub now (q_last_tx_time x)) <? b).

Fixpoint tx_loop (fuel : Datatypes.nat) (n : Z) (now : timespec) (max_ns : Z) (at_ : option Z) : lm unit :=
  match at_ with
  | None => mret tt
  | Some q =>
      match fuel with
      | O => bad
      | S fuel =>
          t ← tun n;
          x ← que q;
          if L2TP_SEQ_LT (q_ns x) (tn_peer_nr t) then
            bbl_l2tp_tunnel_txq_remove n q;;
            tx_loop fuel n now max_ns (next_of q (tn_tx t))
          else if L2TP_SEQ_LT (q_ns x) max_ns then
            w ← need (waiting now x);
            if (w : bool) then tx_loop fuel n now max_ns (next_of q (tn_tx t))
            else
              tx_message n q now;;
              t ← tun n;
              tx_loop fuel n now max_ns (next_of q (tn_tx t))
          else mret tt
      end
  end.

Definition bbl_l2tp_tunnel_tx_job (now : timespec) (n : Z) : lm unit :=
  t ← tun n;
  let max_ns := u16 (tn_peer_nr t + tn_cwnd t) in
  up_tun n (fun t => t {{ tn_timer_tx_active := false }});;
  (if decide (tn_state t = BBL_L2TP_TUNNEL_SEND_STOPCCN /\ tn_tx t = []) then bbl_l2tp_tunnel_update_state n BBL_L2TP_TUNNEL_TERMINATED
   else mret tt);;
  tx_loop (S (2 * length (tn_tx t))) n now max_ns (head (tn_tx t));;
  t ← tun n;
  match tn_zlb_qnode t with
  | Some q =>
      if tn_zlb t then
        up_tun n (fun t => t {{ tn_zlb := false }});;
        x ← que q;
        buf ← need (store16 (q_packet x) (q_ns_offset x) (tn_ns t));
        buf ← need (store16 buf (q_nr_offset x) (tn_nr t));
        up_que q (fun x => x {{ q_packet := buf }});;
        added ← bbl_l2tp_interface_txq_append (tn_interface t) q;
        if (added : bool) then
          up_tun n (fun t => t {{ tn_control_tx ::= inc32 }});; up_ifc (tn_interface t) (fun i => i {{ ni_control_tx ::= inc32 }})
        else mret tt
      else mret tt
  | None => mret tt
  end.

Definition bbl_l2tp_tunnel_control_job (n : Z) : lm unit :=
  up_tun n (fun t => t {{ tn_state_seconds ::= inc32 }});;
  t ← tun n;
  let seconds := tn_state_seconds t in
  match tn_state t with
  | BBL_L2TP_TUNNEL_TERMINATED =>
      up_tun n (fun t => t {{ tn_timer_ctrl := false }});;
      bbl_l2tp_tunnel_delete n
  | state =>
      (match state with
       | BBL_L2TP_TUNNEL_WAIT_CTR_CONN =>
           if 30 <? seconds then
             tunnel_error n "timeout";;
             bbl_l2tp_tunnel_update_state n BBL_L2TP_TUNNEL_SEND_STOPCCN;;
             bbl_l2tp_force_stop n
           else mret tt
       | BBL_L2TP_TUNNEL_ESTABLISHED =>
           sv ← server_of t;
           if negb (sv_hello_interval sv =? 0) && (seconds mod sv_hello_interval sv =? 0) && bool_decide (tn_tx t = [])
           then bbl_l2tp_send n None L2TP_MESSAGE_HELLO else mret tt
       | BBL_L2TP_TUNNEL_RCVD_STOPCCN => if 5 <? seconds then bbl_l2tp_tunnel_update_state n BBL_L2TP_TUNNEL_TERMINATED else mret tt
       | BBL_L2TP_TUNNEL_SEND_STOPCCN => if 30 <? seconds then bbl_l2tp_tunnel_update_state n BBL_L2TP_TUNNEL_TERMINATED else mret tt
       | _ => mret tt
       end);;
      start_tx_timer n
  end.

(** A network interface sends the first packet of its queue (bbl_tx.c). *)
Definition tx_l2tp (i : Z) : lm (list Z) :=
  n ← ifc i;
  match ni_tx n with
  | [] => mret []
  | q :: _ =>
      x ← que q;
      bbl_l2tp_interface_txq_remove i q;;
      up_ifc i (fun n => n {{ ni_packets_tx ::= inc64 ; ni_bytes_tx := u64 (ni_bytes_tx n + q_packet_len x) }});;
      mret (take (Z.to_nat (q_packet_len x)) (q_packet x))
  end.

(** * Received messages *)

Definition tunnel0 : tunnel := {|
  tn_sessions := []; tn_tx := []; tn_interface := 0; tn_server := None; tn_csurq_requests := []; tn_state := BBL_L2TP_TUNNEL_IDLE;
  tn_state_seconds := 0; tn_tunnel_id := 0; tn_peer_tunnel_id := 0; tn_next_session_id := 0; tn_ns := 0; tn_nr := 0; tn_peer_ns := 0;
  tn_peer_nr := 0; tn_peer_receive_window := 0; tn_peer_firmware := 0; tn_peer_ip := 0; tn_peer_framing := 0; tn_peer_bearer := 0;
  tn_timer_tx_active := false; tn_timer_tx := false; tn_timer_ctrl := false; tn_cwnd := 0; tn_ssthresh := 0; tn_cwcount := 0;
  tn_result_code := 0; tn_error_code := 0; tn_error_message := None; tn_zlb := false; tn_zlb_qnode := None; tn_control_rx := 0;
  tn_control_rx_dup := 0; tn_control_rx_ooo := 0; tn_control_tx := 0; tn_control_retry := 0; tn_data_rx := 0; tn_data_tx := 0;
  tn_challenge := None; tn_peer_challenge := None; tn_challenge_response := None; tn_peer_challenge_response := None;
  tn_peer_name := None; tn_peer_vendor := None |}.

Definition lsession0 : lsession := {|
  se_tunnel := 0; se_state := BBL_L2TP_SESSION_IDLE; se_pppoe_session := None; se_key := (0, 0); se_data_rx := 0; se_data_tx := 0;
  se_data_ipv4_rx := 0; se_data_ipv4_tx := 0; se_peer_session_id := 0; se_data_sequencing := false; se_connect_speed_update_enabled := false;
  se_peer_tx_bps := 0; se_peer_rx_bps := 0; se_peer_framing := 0; se_peer_bearer := 0; se_peer_physical_channel_id := 0;
  se_peer_private_group_id := 0; se_peer_call_serial_number := 0; se_proxy_auth_type := 0; se_proxy_auth_id := 0;
  se_ipcp_state := BBL_PPP_DISABLED; se_ip6cp_state := BBL_PPP_DISABLED; se_result_code := 0; se_error_code := 0; se_error_message := None;
  se_disconnect_code := 0; se_disconnect_protocol := 0; se_disconnect_direction := 0; se_disconnect_message := None;
  se_proxy_auth_name := None; se_proxy_auth_challenge := None; se_proxy_auth_response := None; se_peer_called_number := None;
  se_peer_calling_number := None; se_peer_sub_address := None; se_peer_ari := None; se_peer_aci := None |}.

(** A string up to its terminator. *)
Fixpoint c_string (s : list Z) : list Z := match s with [] => [] | c :: s => if c =? 0 then [] else c :: c_string s end.

(** The first identifier from [id] on that is neither 0 nor in use, and the one behind it. *)
Fixpoint free_id (fuel : Datatypes.nat) (used : Z -> bool) (id : Z) : option (Z * Z) :=
  match fuel with
  | O => None
  | S fuel => if (id =? 0) || used id then free_id fuel used (inc16 id) else Some (id, inc16 id)
  end.
Definition all_ids : Datatypes.nat := Z.to_nat 65536.

Definition scratch : list Z := replicate (Z.to_nat L2TP_AVP_MAX_LEN) 0.

Section rx.
Context (md5 : list Z -> list Z) (rand : Z -> list Z).

Definition decode_tunnel (n : Z) (l2tp : l2tp_t) : lm bool :=
  t ← tun n;
  sv ← get (fun s => server_at s t);
  '(ok, t) ← need (bbl_l2tp_avp_decode_tunnel md5 sv l2tp scratch t);
  up_tun n (fun _ => t);;
  mret ok.

Definition decode_session (n a : Z) (l2tp : l2tp_t) : lm bool :=
  t ← tun n;
  sv ← get (fun s => server_at s t);
  s ← ses a;
  '(ok, s) ← need (bbl_l2tp_avp_decode_session md5 sv l2tp scratch s);
  up_ses a (fun _ => s);;
  mret ok.

(** The tunnel of an SCCRQ. *)
Definition tunnel_new (i : Z) (ipv4 : ipv4_t) (l2tp : l2tp_t) : tunnel :=
  tunnel0 {{ tn_interface := i ; tn_peer_receive_window := 4 ; tn_ssthresh := 4 ; tn_cwnd := 1 ; tn_peer_ip := ipv4_src ipv4 ;
             tn_peer_ns := l2tp_ns l2tp ; tn_nr := inc16 (l2tp_ns l2tp) ; tn_state := BBL_L2TP_TUNNEL_WAIT_CTR_CONN ; tn_control_rx := 1 }}.

(** The tunnel of a repeated SCCRQ; only those of the first server are searched. *)
Fixpoint same_peer (s : lns) (t : tunnel) (l : list Z) : option (option Z) :=
  match l with
  | [] => Some None
  | m :: l =>
      t2 ← l_tunnel s !! m;
      if (tn_peer_ip t2 =? tn_peer_ip t) && (tn_peer_tunnel_id t2 =? tn_peer_tunnel_id t) then Some (Some m) else same_peer s t l
  end.

Fixpoint find_server (l : list (l2tp_server * list Z)) (dst : Z) (name : list Z) (k : Datatypes.nat) : option (Datatypes.nat * l2tp_server) :=
  match l with
  | [] => None
  | (sv, _) :: l =>
      if (sv_ip sv =? dst) && match sv_client_auth_id sv with None => true | Some id => bool_decide (c_string id = c_string name) end
      then Some (k, sv) else find_server l dst name (S k)
  end.

(** The challenge of a server with a secret and the response to the one received. *)
Definition challenge (n : Z) (sv : l2tp_server) (t : tunnel) : tunnel :=
  let failed m t := t {{ tn_result_code := 2 ; tn_error_code := 6 ; tn_error_message := Some (chars m) ; tn_state := BBL_L2TP_TUNNEL_SEND_STOPCCN }} in
  match sv_secret sv with
  | Some secret =>
      let t := t {{ tn_challenge := Some (rand n) }} in
      match tn_peer_challenge t with
      | Some c => t {{ tn_challenge_response := Some (md5 ([L2TP_MESSAGE_SCCRP] ++ secret ++ c)) }}
      | None => failed "missing challenge"%string t
      end
  | None => if bool_decide (is_Some (tn_peer_challenge t)) then failed "no challenge expected"%string t else t
  end.

(** A server accepts the tunnel. *)
Definition accept_tunnel (n : Z) (k : Datatypes.nat) (sv : l2tp_server) : lm unit :=
  a ← calloc;
  s ← get id;
  '(id, next) ← need (free_id all_ids (fun id => bool_decide (is_Some (l_dict s !! (id, 0)))) (l_next_tunnel_id s));
  modify (fun l => l {{ l_next_tunnel_id := next ;
                        l_session ::= insert a (lsession0 {{ se_state := BBL_L2TP_SESSION_MAX ; se_tunnel := n ; se_key := (id, 0) }}) ;
                        l_dict ::= insert (id, 0) a ; l_tunnels_max ::= Z.max (l_tunnels l) }});;
  up_tun n (fun t => challenge n sv (t {{ tn_server := Some (Z.of_nat k) ; tn_tunnel_id := id ; tn_sessions := [a] }}));;
  up_tunnels k (fun l => l ++ [n]);;
  up_tun n (fun t => t {{ tn_timer_ctrl := true }});;
  bbl_l2tp_send n None L2TP_MESSAGE_ZLB;;
  t ← tun n;
  bbl_l2tp_send n None (if decide (tn_state t = BBL_L2TP_TUNNEL_SEND_STOPCCN) then L2TP_MESSAGE_STOPCCN else L2TP_MESSAGE_SCCRP).

Definition bbl_l2tp_sccrq_rx (i : Z) (ipv4 : ipv4_t) (l2tp : l2tp_t) : lm unit :=
  n ← calloc;
  modify (fun l => l {{ l_tunnels ::= inc32 ; l_tunnel ::= insert n (tunnel_new i ipv4 l2tp) }});;
  up_ifc i (fun i => i {{ ni_control_rx ::= inc32 }});;
  ok ← decode_tunnel n l2tp;
  t ← tun n;
  match (ok : bool), tn_peer_name t with
  | true, Some name =>
      if tn_peer_tunnel_id t =? 0 then bbl_l2tp_tunnel_delete n
      else
        servers ← get l_servers;
        first ← need (head servers);
        s ← get id;
        known ← need (same_peer s t first.2);
        match known with
        | Some m =>
            t2 ← tun m;
            (if tunnel_rank BBL_L2TP_TUNNEL_WAIT_CTR_CONN <? tunnel_rank (tn_state t2)
             then bbl_l2tp_tunnel_update_state m BBL_L2TP_TUNNEL_TERMINATED else mret tt);;
            bbl_l2tp_tunnel_delete n
        | None =>
            match find_server servers (ipv4_dst ipv4) name 0 with
            | Some (k, sv) => accept_tunnel n k sv
            | None => bbl_l2tp_tunnel_delete n
            end
        end
  | _, _ => bbl_l2tp_tunnel_delete n
  end.

(** The tunnel is stopped with an error. *)
Definition stop_with (n : Z) (message : string) : lm unit :=
  tunnel_error n message;;
  bbl_l2tp_tunnel_update_state n BBL_L2TP_TUNNEL_SEND_STOPCCN;;
  bbl_l2tp_send n None L2TP_MESSAGE_STOPCCN.

Definition bbl_l2tp_scccn_rx (n : Z) (l2tp : l2tp_t) : lm unit :=
  t ← tun n;
  if decide (tn_state t = BBL_L2TP_TUNNEL_WAIT_CTR_CONN) then
    ok ← decode_tunnel n l2tp;
    if negb ok then stop_with n "decode error"
    else
      t ← tun n;
      sv ← server_of t;
      match sv_secret sv, tn_peer_challenge_response t with
      | Some secret, Some response =>
          if decide (md5 ([L2TP_MESSAGE_SCCCN] ++ secret ++ default [] (tn_challenge t)) = response)
          then bbl_l2tp_tunnel_update_state n BBL_L2TP_TUNNEL_ESTABLISHED
          else stop_with n "challenge authentication failed"
      | Some _, None => stop_with n "missing challenge response"
      | None, _ => bbl_l2tp_tunnel_update_state n BBL_L2TP_TUNNEL_ESTABLISHED
      end
  else mret tt.

Definition bbl_l2tp_stopccn_rx (n : Z) : lm unit := bbl_l2tp_tunnel_update_state n BBL_L2TP_TUNNEL_RCVD_STOPCCN.

(** A connect speed update: [key.session_id] and both speeds of the value. *)
Definition speed_update (tunnel_id : Z) (value : list Z) : lm unit :=
  id ← need (rd_be value 2 2);
  dict ← get l_dict;
  match dict !! (tunnel_id, id) with
  | None => mret tt
  | Some a =>
      s ← ses a;
      if se_connect_speed_update_enabled s && bool_decide (se_state s = BBL_L2TP_SESSION_ESTABLISHED) then
        tx ← need (rd_be value 4 4);
        rx ← need (rd_be value 8 4);
        up_ses a (fun s => s {{ se_peer_tx_bps := tx ; se_peer_rx_bps := rx }})
      else mret tt
  end.

Fixpoint csun_loop (fuel : Datatypes.nat) (tunnel_id : Z) (buf : list Z) (len : Z) : lm bool :=
  if len =? 0 then mret true
  else match fuel with
  | O => bad
  | S fuel =>
      r ← need (bbl_l2tp_avp_decode buf len);
      match r with
      | None => mret false
      | Some (x, buf, len) =>
          if avp_h x then mret false
          else if (avp_vendor x =? 0) && (avp_type x =? L2TP_AVP_CONNECT_SPEED_UPDATE) then
            if negb (avp_len x =? 12) then mret false
            else
              value ← need (value_at scratch (avp_value x));
              speed_update tunnel_id value;;
              csun_loop fuel tunnel_id buf len
          else if avp_m x then mret false
          else csun_loop fuel tunnel_id buf len
      end
  end.

Definition bbl_l2tp_avp_decode_csun (n : Z) (l2tp : l2tp_t) : lm bool :=
  t ← tun n;
  let buf := default [] (l2tp_payload l2tp) in
  csun_loop (S (length buf)) (tn_tunnel_id t) buf (l2tp_payload_len l2tp).

Definition bbl_l2tp_csun_rx (n : Z) (l2tp : l2tp_t) : lm unit := bbl_l2tp_avp_decode_csun n l2tp;; mret tt.

Definition bbl_l2tp_icrq_rx (n : Z) (l2tp : l2tp_t) : lm unit :=
  t ← tun n;
  if decide (tn_state t = BBL_L2TP_TUNNEL_ESTABLISHED) then
    a ← calloc;
    modify (fun l => l {{ l_sessions ::= inc32 ; l_session ::= insert a (lsession0 {{ se_tunnel := n ; se_state := BBL_L2TP_SESSION_WAIT_CONN }}) }});;
    ok ← decode_session n a l2tp;
    if negb ok then bbl_l2tp_session_delete a
    else
      dict ← get l_dict;
      '(id, next) ← need (free_id all_ids (fun id => bool_decide (is_Some (dict !! (tn_tunnel_id t, id)))) (tn_next_session_id t));
      up_ses a (fun s => s {{ se_key := (tn_tunnel_id t, id) }});;
      modify (fun l => l {{ l_dict ::= insert (tn_tunnel_id t, id) a ; l_sessions_max ::= Z.max (l_sessions l) }});;
      up_tun n (fun t => t {{ tn_next_session_id := next ; tn_sessions := tn_sessions t ++ [a] }});;
      bbl_l2tp_send n (Some a) L2TP_MESSAGE_ICRP
  else mret tt.

Definition bbl_l2tp_iccn_rx (a : Z) (l2tp : l2tp_t) : lm unit :=
  s ← ses a;
  ok ← decode_session (se_tunnel s) a l2tp;
  if negb ok then
    up_ses a (fun s => s {{ se_result_code := 2 ; se_error_code := 6 ; se_error_message := Some (chars "decode error") }});;
    bbl_l2tp_send (se_tunnel s) (Some a) L2TP_MESSAGE_CDN;;
    bbl_l2tp_session_delete a
  else up_ses a (fun s => if decide (se_state s = BBL_L2TP_SESSION_WAIT_CONN) then s {{ se_state := BBL_L2TP_SESSION_ESTABLISHED }} else s).

Definition bbl_l2tp_cdn_rx (a : Z) (l2tp : l2tp_t) : lm unit :=
  s ← ses a;
  decode_session (se_tunnel s) a l2tp;;
  up_ses a (fun s => s {{ se_state := BBL_L2TP_SESSION_TERMINATED }});;
  bbl_l2tp_session_delete a.

(** ** Data *)

(** [L2TP_REPLY_MESSAGE] with the identifiers of the session. *)
Definition reply_message (s : lsession) : list Z := chars "BNG Blaster L2TP LNS " ++ print_d (se_key s).1 ++ [58] ++ print_d (se_key s).2.

Definition ipcp_request : bbl_ipcp :=
  ipcp0 {{ ipcp_code := PPP_CODE_CONF_REQUEST ; ipcp_identifier := 1 ; ipcp_address := MOCK_IP_LOCAL ; ipcp_option_address := true }}.
Definition ip6cp_request : bbl_ip6cp := ip6cp0 {{ ip6cp_code := PPP_CODE_CONF_REQUEST ; ip6cp_identifier := 1 ; ip6cp_ipv6_identifier := 1 }}.

(** The state of a network protocol after [other] of the two acknowledgements, and whether
    the own request is sent. *)
Definition acknowledged (own other state : ppp_state) : ppp_state * bool :=
  if decide (state = other) then (BBL_PPP_OPENED, false) else (own, true).

Definition data_lcp (a : Z) (lcp : bbl_lcp) : lm unit :=
  s ← ses a;
  t ← tun (se_tunnel s);
  sv ← server_of t;
  let lcp := lcp {{ lcp_padding := sv_lcp_padding sv }} in
  if lcp_code lcp =? PPP_CODE_ECHO_REQUEST then bbl_l2tp_send_data a PROTOCOL_LCP (h_lcp (lcp {{ lcp_code := PPP_CODE_ECHO_REPLY }}))
  else if lcp_code lcp =? PPP_CODE_TERM_REQUEST then
    up_ses a (fun s => s {{ se_disconnect_code := 3 ; se_disconnect_protocol := 0 ; se_disconnect_direction := 1 }});;
    bbl_l2tp_send (se_tunnel s) (Some a) L2TP_MESSAGE_CDN;;
    bbl_l2tp_session_delete a
  else mret tt.

Definition data_ipcp (a : Z) (rx : bbl_ipcp) : lm unit :=
  s ← ses a;
  if ipcp_code rx =? PPP_CODE_CONF_REQUEST then
    if ipcp_address rx =? MOCK_IP_REMOTE then
      let '(state, request) := acknowledged BBL_PPP_PEER_ACK BBL_PPP_LOCAL_ACK (se_ipcp_state s) in
      up_ses a (fun s => s {{ se_ipcp_state := state }});;
      (if (request : bool) then bbl_l2tp_send_data a PROTOCOL_IPCP (h_ipcp ipcp_request) else mret tt);;
      bbl_l2tp_send_data a PROTOCOL_IPCP (h_ipcp (rx {{ ipcp_code := PPP_CODE_CONF_ACK }}))
    else
      bbl_l2tp_send_data a PROTOCOL_IPCP (h_ipcp
        (rx {{ ipcp_options := None ; ipcp_options_len := 0 ; ipcp_code := PPP_CODE_CONF_NAK ; ipcp_address := MOCK_IP_REMOTE ;
               ipcp_option_address := true ; ipcp_dns1 := (if ipcp_option_dns1 rx then MOCK_DNS1 else ipcp_dns1 rx) ;
               ipcp_dns2 := (if ipcp_option_dns2 rx then MOCK_DNS2 else ipcp_dns2 rx) }}))
  else if ipcp_code rx =? PPP_CODE_CONF_ACK then
    let '(state, request) := acknowledged BBL_PPP_LOCAL_ACK BBL_PPP_PEER_ACK (se_ipcp_state s) in
    up_ses a (fun s => s {{ se_ipcp_state := state }});;
    (if (request : bool) then bbl_l2tp_send_data a PROTOCOL_IPCP (h_ipcp ipcp_request) else mret tt)
  else mret tt.

Definition data_ip6cp (a : Z) (rx : bbl_ip6cp) : lm unit :=
  s ← ses a;
  if ip6cp_code rx =? PPP_CODE_CONF_REQUEST then
    let '(state, request) := acknowledged BBL_PPP_PEER_ACK BBL_PPP_LOCAL_ACK (se_ip6cp_state s) in
    up_ses a (fun s => s {{ se_ip6cp_state := state }});;
    (if (request : bool) then bbl_l2tp_send_data a PROTOCOL_IP6CP (h_ip6cp ip6cp_request) else mret tt);;
    bbl_l2tp_send_data a PROTOCOL_IP6CP (h_ip6cp (rx {{ ip6cp_code := PPP_CODE_CONF_ACK }}))
  else if ip6cp_code rx =? PPP_CODE_CONF_ACK then
    let '(state, request) := acknowledged BBL_PPP_LOCAL_ACK BBL_PPP_PEER_ACK (se_ip6cp_state s) in
    up_ses a (fun s => s {{ se_ip6cp_state := state }});;
    (if (request : bool) then bbl_l2tp_send_data a PROTOCOL_IP6CP (h_ip6cp ip6cp_request) else mret tt)
  else mret tt.

Definition bbl_l2tp_data_rx (a : Z) (l2tp : l2tp_t) : lm unit :=
  s ← ses a;
  if decide (se_state s = BBL_L2TP_SESSION_ESTABLISHED) then
    up_ses a (fun s => s {{ se_data_rx ::= inc64 }});;
    let protocol := l2tp_protocol l2tp in
    let reply := reply_message s in
    let reply_len := Z.of_nat (length reply) in
    if protocol =? PROTOCOL_LCP then match l2tp_next l2tp with h_lcp rx => data_lcp a rx | _ => bad end
    else if protocol =? PROTOCOL_PAP then
      match l2tp_next l2tp with
      | h_pap rx => bbl_l2tp_send_data a PROTOCOL_PAP (h_pap (pap0 {{ pap_code := PAP_CODE_ACK ; pap_identifier := pap_identifier rx ;
                                                                     pap_reply_message := Some reply ; pap_reply_message_len := reply_len }}))
      | _ => bad
      end
    else if protocol =? PROTOCOL_CHAP then
      match l2tp_next l2tp with
      | h_chap rx => bbl_l2tp_send_data a PROTOCOL_CHAP (h_chap (chap0 {{ chap_code := CHAP_CODE_SUCCESS ; chap_identifier := chap_identifier rx ;
                                                                       chap_reply_message := Some reply ; chap_reply_message_len := reply_len }}))
      | _ => bad
      end
    else if protocol =? PROTOCOL_IPCP then match l2tp_next l2tp with h_ipcp rx => data_ipcp a rx | _ => bad end
    else if protocol =? PROTOCOL_IP6CP then match l2tp_next l2tp with h_ip6cp rx => data_ip6cp a rx | _ => bad end
    else if protocol =? PROTOCOL_IPV4 then up_ses a (fun s => s {{ se_data_ipv4_rx ::= inc64 }})
    else mret tt
  else mret tt.

(** ** Dispatch *)

(** The congestion window of RFC 2661, appendix A. *)
Definition congestion (mode : l2tp_congestion_mode) (t : tunnel) : tunnel :=
  match mode with
  | BBL_L2TP_CONGESTION_AGGRESSIVE => t {{ tn_cwnd := tn_peer_receive_window t }}
  | BBL_L2TP_CONGESTION_SLOW => t {{ tn_cwnd := 1 }}
  | BBL_L2TP_CONGESTION_DEFAULT =>
      if tn_cwnd t <? tn_peer_receive_window t then
        if tn_cwnd t <? tn_ssthresh t then t {{ tn_cwcount := 0 ; tn_cwnd ::= inc16 }}
        else
          let n := inc16 (tn_cwcount t) in
          if tn_cwnd t <=? n then t {{ tn_cwcount := 0 ; tn_cwnd ::= inc16 }} else t {{ tn_cwcount := n }}
      else t {{ tn_ssthresh := tn_peer_receive_window t }}
  end.

(** A message that is next in order. *)
Definition control_message (n a : Z) (l2tp : l2tp_t) : lm unit :=
  t ← tun n;
  s ← ses a;
  let type := l2tp_type l2tp in
  if decide (tn_state t = BBL_L2TP_TUNNEL_TERMINATED) then mret tt
  else if type =? L2TP_MESSAGE_SCCCN then bbl_l2tp_scccn_rx n l2tp
  else if type =? L2TP_MESSAGE_STOPCCN then bbl_l2tp_stopccn_rx n
  else if type =? L2TP_MESSAGE_ICRQ then bbl_l2tp_icrq_rx n l2tp
  else if (type =? L2TP_MESSAGE_ICCN) && negb ((se_key s).2 =? 0) then bbl_l2tp_iccn_rx a l2tp
  else if type =? L2TP_MESSAGE_CSUN then bbl_l2tp_csun_rx n l2tp
  else if (type =? L2TP_MESSAGE_CDN) && negb ((se_key s).2 =? 0) then bbl_l2tp_cdn_rx a l2tp
  else mret tt.

Definition in_order (n a : Z) (l2tp : l2tp_t) : lm unit :=
  up_tun n (fun t => t {{ tn_peer_ns := l2tp_ns l2tp }});;
  (if l2tp_type l2tp =? L2TP_MESSAGE_ZLB then mret tt
   else
     up_tun n (fun t => t {{ tn_nr := inc16 (l2tp_ns l2tp) ; tn_zlb := true }});;
     start_tx_timer n);;
  t ← tun n;
  sv ← server_of t;
  up_tun n (congestion (sv_congestion_mode sv));;
  control_message n a l2tp.

Definition not_in_order (i n : Z) (l2tp : l2tp_t) : lm unit :=
  t ← tun n;
  if L2TP_SEQ_LT (l2tp_ns l2tp) (tn_nr t) then
    up_tun n (fun t => t {{ tn_zlb := true ; tn_control_rx_dup ::= inc32 }});;
    up_ifc i (fun i => i {{ ni_control_rx_dup ::= inc32 }});;
    start_tx_timer n
  else
    up_tun n (fun t => t {{ tn_control_rx_ooo ::= inc32 }});;
    up_ifc i (fun i => i {{ ni_control_rx_ooo ::= inc32 }}).

Definition control_rx (i n a : Z) (l2tp : l2tp_t) : lm unit :=
  up_tun n (fun t => t {{ tn_control_rx ::= inc32 }});;
  up_ifc i (fun i => i {{ ni_control_rx ::= inc32 }});;
  up_tun n (fun t => if L2TP_SEQ_GT (l2tp_nr l2tp) (tn_peer_nr t) then t {{ tn_peer_nr := l2tp_nr l2tp }} else t);;
  t ← tun n;
  if tn_nr t =? l2tp_ns l2tp then in_order n a l2tp else not_in_order i n l2tp.

(** The session a packet is for: a control message goes to the tunnel when its session is
    not known any more. *)
Definition lookup_session (dict : gmap (Z * Z) Z) (l2tp : l2tp_t) : option Z :=
  match dict !! (l2tp_tunnel_id l2tp, l2tp_session_id l2tp) with
  | Some a => Some a
  | None => if negb (l2tp_type l2tp =? 0) && negb (l2tp_session_id l2tp =? 0) then dict !! (l2tp_tunnel_id l2tp, 0) else None
  end.

Definition bbl_l2tp_handler_rx (i : Z) (ipv4 : ipv4_t) (l2tp : l2tp_t) : lm unit :=
  servers ← get l_servers;
  if bool_decide (servers = []) then mret tt
  else if l2tp_type l2tp =? L2TP_MESSAGE_SCCRQ then bbl_l2tp_sccrq_rx i ipv4 l2tp
  else
    dict ← get l_dict;
    match lookup_session dict l2tp with
    | Some a =>
        s ← ses a;
        let n := se_tunnel s in
        if l2tp_type l2tp =? L2TP_MESSAGE_DATA then
          up_tun n (fun t => t {{ tn_data_rx ::= inc64 }});;
          up_ifc i (fun i => i {{ ni_data_rx ::= inc64 }});;
          bbl_l2tp_data_rx a l2tp
        else control_rx i n a l2tp
    | None => up_ifc i (fun i => i {{ ni_control_rx_nf ::= inc32 }})
    end.

End rx.

(** * Commands *)

Definition stop_tunnel (n : Z) : lm unit :=
  t ← tun n;
  if tunnel_rank (tn_state t) <? tunnel_rank BBL_L2TP_TUNNEL_SEND_STOPCCN then
    up_tun n (fun t => t {{ tn_result_code := 6 }});;
    bbl_l2tp_tunnel_update_state n BBL_L2TP_TUNNEL_SEND_STOPCCN;;
    bbl_l2tp_force_stop n
  else mret tt.

Definition bbl_l2tp_stop_all_tunnel : lm unit :=
  servers ← get l_servers;
  each (fun p : l2tp_server * list Z => each stop_tunnel p.2) servers.

(** The tunnel of a command; 404 and 400 are the codes of the answers. *)
Definition with_tunnel (tunnel_id : option Z) (f : Z -> lm Z) : lm Z :=
  match tunnel_id with
  | None => mret 400
  | Some id =>
      dict ← get l_dict;
      match dict !! (u16 id, 0) with
      | None => mret 404
      | Some a =>
          s ← ses a;
          t ← tun (se_tunnel s);
          if decide (tn_state t = BBL_L2TP_TUNNEL_ESTABLISHED) then f (se_tunnel s) else mret 400
      end
  end.

(** [sessions] is the array of numbers of the command. *)
Definition bbl_l2tp_ctrl_csurq (tunnel_id : option Z) (sessions : option (list Z)) : lm Z :=
  with_tunnel tunnel_id (fun n =>
    match sessions with
    | None => mret 400
    | Some l =>
        up_tun n (fun t => t {{ tn_csurq_requests := take (Z.to_nat (u16 (Z.of_nat (length l)))) (map u16 l) }});;
        bbl_l2tp_send n None L2TP_MESSAGE_CSURQ;;
        mret 200
    end).

Definition bbl_l2tp_ctrl_tunnel_terminate (tunnel_id result_code error_code : option Z) (error_message : option (list Z)) : lm Z :=
  with_tunnel tunnel_id (fun n =>
    bbl_l2tp_tunnel_update_state n BBL_L2TP_TUNNEL_SEND_STOPCCN;;
    up_tun n (fun t => t {{ tn_result_code := u16 (default 1 result_code) ; tn_error_code := u16 (default 0 error_code) ; tn_error_message := error_message }});;
    bbl_l2tp_send n None L2TP_MESSAGE_STOPCCN;;
    mret 200).

(** The session is given by its PPPoE session, 0 when it is missing. *)
Definition bbl_l2tp_ctrl_session_terminate (session_id : Z) (result_code error_code : option Z) (error_message : option (list Z))
    (disconnect_code disconnect_protocol disconnect_direction : option Z) (disconnect_message : option (list Z)) : lm Z :=
  if session_id =? 0 then mret 400
  else
    pppoe ← get l_pppoe;
    match pppoe !! session_id with
    | None => mret 404
    | Some None => mret 400
    | Some (Some a) =>
        s ← ses a;
        t ← tun (se_tunnel s);
        if decide (tn_state t = BBL_L2TP_TUNNEL_ESTABLISHED /\ se_state s = BBL_L2TP_SESSION_ESTABLISHED) then
          up_ses a (fun s => s {{ se_result_code := u16 (default 2 result_code) ; se_error_code := u16 (default 0 error_code) ;
                                  se_error_message := error_message ; se_disconnect_code := u16 (default 0 disconnect_code) ;
                                  se_disconnect_protocol := u16 (default 0 disconnect_protocol) ;
                                  se_disconnect_direction := u16 (default 0 disconnect_direction) ; se_disconnect_message := disconnect_message }});;
          bbl_l2tp_send (se_tunnel s) (Some a) L2TP_MESSAGE_CDN;;
          bbl_l2tp_session_delete a;;
          mret 200
        else mret 400
    end.
