(* ===== verification/L2tpOrder.v ===== *)
(** The control channel of L2TP tunnels delivers every message once and in order.

    A control message that is not the next one of its tunnel changes only what the channel
    itself keeps: the acknowledged number, the pending acknowledgement with its timer and
    counters, which [quiet] removes.  No handler looks at that, so a run of received packets
    ends, up to [quiet], like the run of the packets that were in order; and those of a
    tunnel have consecutive numbers. *)
From coqutil Require Import Datatypes.RecordSetters.
From S2P Require Import Prelude.
From S2P Require Import Const.
From S2P Require Import ConstApp.
From S2P Require Import ConstStream.
From S2P Require Import ConstNet.
From S2P Require Import ProtoTypes.
From S2P Require Import Session.
From S2P Require Import SessionInit.
From S2P Require Import L2tpAvp.
From S2P Require Import L2tp.
Import RecordSetters.DoubleBraceUpdate.
From stdpp Require Import gmap list strings.
Open Scope Z_scope.

(** * States up to the channel *)

Definition quiet (t : tunnel) : tunnel :=
  t {{ tn_peer_nr := 0 ; tn_zlb := false ; tn_timer_tx_active := false ; tn_timer_tx := false ;
       tn_control_rx := 0 ; tn_control_rx_dup := 0 ; tn_control_rx_ooo := 0 }}.
Definition quiet_if (i : netif) : netif := i {{ ni_control_rx := 0 ; ni_control_rx_dup := 0 ; ni_control_rx_ooo := 0 }}.
Definition quiet_lns (s : lns) : lns := s {{ l_tunnel := quiet <$> l_tunnel s ; l_interface := quiet_if <$> l_interface s }}.
Definition same (s1 s2 : lns) : Prop := quiet_lns s1 = quiet_lns s2.

#[export] Instance same_equiv : Equivalence same.
Proof. unfold same. split; red; congruence. Qed.

Lemma quiet_idem t : quiet (quiet t) = quiet t.
Proof. reflexivity. Qed.

(** Operations that do not look at the channel. *)
Definition respects {A} (m : lm A) : Prop :=
  forall s1 s2 a s1', same s1 s2 -> m s1 = Some (a, s1') -> exists s2', m s2 = Some (a, s2') /\ same s1' s2'.

Create HintDb resp discriminated.

Lemma resp_ret {A} (a : A) : respects (mret a).
Proof. intros s1 s2 b s1' H. injection 1 as <- <-. by exists s2. Qed.
Lemma resp_bad {A} : respects (@bad A).
Proof. by intros s1 s2 b s1' H. Qed.
Lemma resp_need {A} (o : option A) : respects (need o).
Proof. intros s1 s2 b s1' H. unfold need. destruct o; [|done]. injection 1 as <- <-. by exists s2. Qed.
Lemma resp_bind {A B} (m : lm A) (k : A -> lm B) : respects m -> (forall a, respects (k a)) -> respects (m ≫= k).
Proof.
  intros Hm Hk s1 s2 b s1' H. unfold mbind, lm_bind. destruct (m s1) as [[a s]|] eqn:E; [|done].
  intros Hb. destruct (Hm _ _ _ _ H E) as (s' & -> & Hs). by eapply Hk.
Qed.
Lemma resp_get {A} (f : lns -> A) : (forall s, f s = f (quiet_lns s)) -> respects (get f).
Proof. intros Hf s1 s2 b s1' H. injection 1 as <- <-. exists s2. split; [|done]. unfold get. red in H. by rewrite (Hf s1), (Hf s2), H. Qed.
Lemma resp_modify (f : lns -> lns) : (forall s, quiet_lns (f s) = f (quiet_lns s)) -> respects (modify f).
Proof. intros Hf s1 s2 b s1' H. injection 1 as <- <-. exists (f s2). split; [done|]. red in H |- *. by rewrite (Hf s1), (Hf s2), H. Qed.

Lemma same_tun s1 s2 n t : same s1 s2 -> l_tunnel s1 !! n = Some t -> exists t', l_tunnel s2 !! n = Some t' /\ quiet t = quiet t'.
Proof.
  intros H Hn. apply (f_equal l_tunnel) in H. change (quiet <$> l_tunnel s1 = quiet <$> l_tunnel s2) in H.
  apply (f_equal (lookup n)) in H. rewrite !lookup_fmap, Hn in H. destruct (l_tunnel s2 !! n) as [t'|]; [|done]. exists t'. split; [done|]. by apply (inj Some) in H.
Qed.
Lemma same_ifc s1 s2 n t : same s1 s2 -> l_interface s1 !! n = Some t -> exists t', l_interface s2 !! n = Some t' /\ quiet_if t = quiet_if t'.
Proof.
  intros H Hn. apply (f_equal l_interface) in H. change (quiet_if <$> l_interface s1 = quiet_if <$> l_interface s2) in H.
  apply (f_equal (lookup n)) in H. rewrite !lookup_fmap, Hn in H. destruct (l_interface s2 !! n) as [t'|]; [|done]. exists t'. split; [done|]. by apply (inj Some) in H.
Qed.

Lemma resp_tun {A} n (k : tunnel -> lm A) : (forall t, k t = k (quiet t)) -> (forall t, respects (k t)) -> respects (t ← tun n; k t).
Proof.
  intros Hq Hk s1 s2 b s1' H. unfold mbind, lm_bind, tun, found. destruct (l_tunnel s1 !! n) as [t|] eqn:E; [|done].
  destruct (same_tun _ _ _ _ H E) as (t' & -> & Ht). rewrite (Hq t), (Hq t'), Ht. by apply Hk.
Qed.
Lemma resp_ifc {A} n (k : netif -> lm A) : (forall t, k t = k (quiet_if t)) -> (forall t, respects (k t)) -> respects (t ← ifc n; k t).
Proof.
  intros Hq Hk s1 s2 b s1' H. unfold mbind, lm_bind, ifc, found. destruct (l_interface s1 !! n) as [t|] eqn:E; [|done].
  destruct (same_ifc _ _ _ _ H E) as (t' & -> & Ht). rewrite (Hq t), (Hq t'), Ht. by apply Hk.
Qed.
Lemma resp_ses n : respects (ses n).
Proof.
  intros s1 s2 b s1' H. assert (Hs : l_session s1 = l_session s2) by (by apply (f_equal l_session) in H).
  unfold ses, found. rewrite Hs. destruct (l_session s2 !! n); [|done]. injection 1 as <- <-. by exists s2.
Qed.
Lemma resp_que n : respects (que n).
Proof.
  intros s1 s2 b s1' H. assert (Hs : l_queue s1 = l_queue s2) by (by apply (f_equal l_queue) in H).
  unfold que, found. rewrite Hs. destruct (l_queue s2 !! n); [|done]. injection 1 as <- <-. by exists s2.
Qed.

Lemma same_set_tun s1 s2 n t t' : same s1 s2 -> quiet t = quiet t' -> same (s1 {{ l_tunnel ::= insert n t }}) (s2 {{ l_tunnel ::= insert n t' }}).
Proof.
  intros H Ht. pose proof (f_equal l_tunnel H) as Hm. change (quiet <$> l_tunnel s1 = quiet <$> l_tunnel s2) in Hm.
  red. change ((quiet_lns s1) {{ l_tunnel := quiet <$> <[n := t]> (l_tunnel s1) }} = (quiet_lns s2) {{ l_tunnel := quiet <$> <[n := t']> (l_tunnel s2) }}).
  red in H. by rewrite !fmap_insert, Hm, Ht, H.
Qed.
Lemma same_set_ifc s1 s2 n t t' : same s1 s2 -> quiet_if t = quiet_if t' -> same (s1 {{ l_interface ::= insert n t }}) (s2 {{ l_interface ::= insert n t' }}).
Proof.
  intros H Ht. pose proof (f_equal l_interface H) as Hm. change (quiet_if <$> l_interface s1 = quiet_if <$> l_interface s2) in Hm.
  red. change ((quiet_lns s1) {{ l_interface := quiet_if <$> <[n := t]> (l_interface s1) }} = (quiet_lns s2) {{ l_interface := quiet_if <$> <[n := t']> (l_interface s2) }}).
  red in H. by rewrite !fmap_insert, Hm, Ht, H.
Qed.

Lemma resp_up_tun n f : (forall t, quiet (f t) = quiet (f (quiet t))) -> respects (up_tun n f).
Proof.
  intros Hf s1 s2 b s1' H. unfold up_tun, mbind, lm_bind, tun, found. destruct (l_tunnel s1 !! n) as [t|] eqn:E; [|done].
  destruct (same_tun _ _ _ _ H E) as (t' & -> & Ht). injection 1 as <- <-. eexists. split; [reflexivity|]. apply same_set_tun; [done|]. by rewrite (Hf t), (Hf t'), Ht.
Qed.
Lemma resp_up_ifc n f : (forall t, quiet_if (f t) = quiet_if (f (quiet_if t))) -> respects (up_ifc n f).
Proof.
  intros Hf s1 s2 b s1' H. unfold up_ifc, mbind, lm_bind, ifc, found. destruct (l_interface s1 !! n) as [t|] eqn:E; [|done].
  destruct (same_ifc _ _ _ _ H E) as (t' & -> & Ht). injection 1 as <- <-. eexists. split; [reflexivity|]. apply same_set_ifc; [done|]. by rewrite (Hf t), (Hf t'), Ht.
Qed.

(** * The operations of the handlers *)

(** Operations that change the channel only. *)
Lemma same_up_tun n f s s' : (forall t, quiet (f t) = quiet t) -> up_tun n f s = Some (tt, s') -> same s s'.
Proof.
  intros Hf. unfold up_tun, mbind, lm_bind, tun, found. destruct (l_tunnel s !! n) as [t|] eqn:E; [|done]. injection 1 as <-.
  transitivity (s {{ l_tunnel ::= insert n t }}); [|by apply same_set_tun].
  red. change (quiet_lns s = (quiet_lns s) {{ l_tunnel := quiet <$> <[n := t]> (l_tunnel s) }}). by rewrite insert_id.
Qed.
Lemma same_up_ifc n f s s' : (forall t, quiet_if (f t) = quiet_if t) -> up_ifc n f s = Some (tt, s') -> same s s'.
Proof.
  intros Hf. unfold up_ifc, mbind, lm_bind, ifc, found. destruct (l_interface s !! n) as [t|] eqn:E; [|done]. injection 1 as <-.
  transitivity (s {{ l_interface ::= insert n t }}); [|by apply same_set_ifc].
  red. change (quiet_lns s = (quiet_lns s) {{ l_interface := quiet_if <$> <[n := t]> (l_interface s) }}). by rewrite insert_id.
Qed.
Lemma same_start n s s' : start_tx_timer n s = Some (tt, s') -> same s s'.
Proof.
  unfold start_tx_timer, mbind at 1, lm_bind at 1, tun, found. destruct (l_tunnel s !! n) as [t|]; [|done]. destruct (tn_timer_tx_active t).
  - by injection 1 as <-.
  - by apply same_up_tun.
Qed.
Lemma resp_start n : respects (start_tx_timer n).
Proof.
  intros s1 s2 [] s1' H Hs. apply same_start in Hs as H1.
  assert (exists s2', start_tx_timer n s2 = Some (tt, s2')) as [s2' H2].
  { unfold start_tx_timer in Hs |- *. unfold mbind at 1, lm_bind at 1, tun, found in Hs. unfold mbind at 1, lm_bind at 1, tun, found. destruct (l_tunnel s1 !! n) as [t|] eqn:E; [|done].
    destruct (same_tun _ _ _ _ H E) as (t' & E' & _). rewrite E'. destruct (tn_timer_tx_active t'); [by eexists|].
    unfold up_tun, mbind, lm_bind, tun, found. rewrite E'. by eexists. }
  exists s2'. split; [done|]. apply same_start in H2. by rewrite <- H1, <- H2.
Qed.
#[export] Hint Resolve resp_start : resp.

Ltac resp_step :=
  first
    [ apply resp_ret | apply resp_bad | apply resp_need | apply resp_ses | apply resp_que
    | solve [auto with resp nocore]
    | apply resp_get; intros; reflexivity
    | apply resp_modify; intros; reflexivity
    | apply resp_up_tun; intros; reflexivity
    | apply resp_up_ifc; intros; reflexivity
    | apply resp_tun; [intros; reflexivity|intros ?]
    | apply resp_ifc; [intros; reflexivity|intros ?]
    | apply resp_bind; [|intros ?]
    | case_match ].
Ltac resp := repeat resp_step.

Lemma resp_up_ses n f : respects (up_ses n f).
Proof. unfold up_ses. resp. Qed.
Lemma resp_up_que n f : respects (up_que n f).
Proof. unfold up_que. resp. Qed.
Lemma resp_calloc : respects calloc.
Proof. unfold calloc. resp. Qed.
Lemma resp_server t : respects (server_of t).
Proof. unfold server_of. resp. Qed.
#[export] Hint Resolve resp_up_ses resp_up_que resp_calloc resp_server : resp.

Lemma resp_append i q : respects (bbl_l2tp_interface_txq_append i q).
Proof. unfold bbl_l2tp_interface_txq_append. resp. Qed.
#[export] Hint Resolve resp_append : resp.
Lemma resp_send n a type : respects (bbl_l2tp_send n a type).
Proof. unfold bbl_l2tp_send. resp. Qed.
Lemma resp_send_data a p h : respects (bbl_l2tp_send_data a p h).
Proof. unfold bbl_l2tp_send_data. resp. Qed.
Lemma resp_session_delete a : respects (bbl_l2tp_session_delete a).
Proof. unfold bbl_l2tp_session_delete. resp. Qed.
Lemma resp_update_state n st : respects (bbl_l2tp_tunnel_update_state n st).
Proof. unfold bbl_l2tp_tunnel_update_state. resp. Qed.
Lemma resp_tunnel_error n m : respects (tunnel_error n m).
Proof. unfold tunnel_error. resp. Qed.
#[export] Hint Resolve resp_send resp_send_data resp_session_delete resp_update_state resp_tunnel_error : resp.

(** Decoding attributes. *)
Definition quiet_av (r : option (bool * tunnel)) : option (bool * tunnel) := '(ok, t) ← r; Some (ok, quiet t).

Lemma quiet_attribute x sp t : quiet_av (tunnel_attribute x sp t) = quiet_av (tunnel_attribute x sp (quiet t)).
Proof.
  unfold tunnel_attribute, number, copied, unknown, failed, done.
  change (tn_peer_name (quiet t)) with (tn_peer_name t). change (tn_peer_vendor (quiet t)) with (tn_peer_vendor t).
  change (tn_peer_challenge (quiet t)) with (tn_peer_challenge t). change (tn_peer_challenge_response (quiet t)) with (tn_peer_challenge_response t).
  repeat (case_match || reflexivity || (destruct (value_at sp (avp_value x)) as [bs|]; [cbn [mbind option_bind]|reflexivity])
          || (destruct (rd_be bs 0 _); [cbn [mbind option_bind]|reflexivity])).
Qed.

Lemma quiet_loop md5 sv fuel : forall buf len rv sp t1 t2, quiet t1 = quiet t2 ->
  quiet_av (avp_loop md5 fuel sv tunnel_attribute buf len rv sp t1) = quiet_av (avp_loop md5 fuel sv tunnel_attribute buf len rv sp t2).
Proof.
  induction fuel as [|fuel IH]; intros buf len rv sp t1 t2 Ht; cbn [avp_loop]; destruct (len =? 0); try (unfold done, quiet_av; cbn [mbind option_bind]; by rewrite Ht); [done|].
  destruct (bbl_l2tp_avp_decode buf len) as [[[[x buf'] len']|]|]; cbn [mbind option_bind]; [|unfold failed, quiet_av; cbn [mbind option_bind]; by rewrite Ht|done].
  destruct (if avp_h x then _ else _) as [[[x' sp']|]|]; cbn [mbind option_bind]; [|unfold failed, quiet_av; cbn [mbind option_bind]; by rewrite Ht|done].
  destruct (_ && _); [by apply IH|].
  pose proof (quiet_attribute x' sp' t1) as H1. rewrite Ht, <- quiet_attribute in H1.
  destruct (tunnel_attribute x' sp' t1) as [[ok a]|], (tunnel_attribute x' sp' t2) as [[ok' b]|]; cbn [quiet_av mbind option_bind] in H1 |- *; try done.
  assert (ok = ok') as <- by congruence. assert (quiet a = quiet b) as Hq by congruence.
  destruct ok; [by apply IH|]. unfold failed, quiet_av. cbn [mbind option_bind]. by rewrite Hq.
Qed.

(** A received packet: the interface, the IPv4 header and the message. *)
Abbreviation packet := (Z * ipv4_t * l2tp_t)%type.

Section order.
Context (md5 : list Z -> list Z) (rand : Z -> list Z).

Lemma decode_tunnel_eq n l2tp s :
  decode_tunnel md5 n l2tp s =
  match l_tunnel s !! n with
  | None => None
  | Some t =>
      match bbl_l2tp_avp_decode_tunnel md5 (server_at s t) l2tp scratch t with
      | None => None
      | Some (ok, u) => Some (ok, s {{ l_tunnel ::= insert n u }})
      end
  end.
Proof.
  cbv [decode_tunnel mbind lm_bind tun found get need up_tun modify mret lm_ret]. destruct (l_tunnel s !! n) as [t|] eqn:E; [|done].
  destruct (bbl_l2tp_avp_decode_tunnel _ _ _ _ _) as [[ok u]|]; [|done]. by rewrite E.
Qed.
Lemma resp_decode_tunnel n l2tp : respects (decode_tunnel md5 n l2tp).
Proof.
  intros s1 s2 ok s1' H. rewrite !decode_tunnel_eq. destruct (l_tunnel s1 !! n) as [t1|] eqn:E1; [|done].
  destruct (same_tun _ _ _ _ H E1) as (t2 & -> & Ht).
  assert (server_at s1 t1 = server_at s2 t2) as ->.
  { pose proof (f_equal l_servers H) as Hs. pose proof (f_equal tn_server Ht) as Hv. change (l_servers s1 = l_servers s2) in Hs. change (tn_server t1 = tn_server t2) in Hv.
    unfold server_at. by rewrite Hs, Hv. }
  unfold bbl_l2tp_avp_decode_tunnel, decode_with.
  pose proof (quiet_loop md5 (server_at s2 t2) (S (length (default [] (l2tp_payload l2tp)))) (default [] (l2tp_payload l2tp)) (l2tp_payload_len l2tp) (v_null, 0) scratch t1 t2 Ht) as Hd.
  set (d1 := avp_loop _ _ _ _ _ _ _ _ t1) in *. set (d2 := avp_loop _ _ _ _ _ _ _ _ t2) in *. clearbody d1 d2.
  destruct d1 as [[ok1 u1]|], d2 as [[ok2 u2]|]; cbn [quiet_av mbind option_bind] in Hd; try done.
  intros Hr. assert (ok1 = ok2) as <- by congruence. assert (quiet u1 = quiet u2) as Hq by congruence. assert (ok = ok1) as -> by congruence.
  eexists. split; [reflexivity|]. assert (s1' = s1 {{ l_tunnel ::= insert n u1 }}) as -> by congruence. by apply same_set_tun.
Qed.
Lemma resp_decode_session n a l2tp : respects (decode_session md5 n a l2tp).
Proof. unfold decode_session. resp. Qed.
Hint Resolve resp_decode_tunnel resp_decode_session : resp.

Lemma resp_csun_loop fuel : forall id buf len, respects (csun_loop fuel id buf len).
Proof. induction fuel as [|fuel IH]; intros id buf len; cbn [csun_loop]; unfold speed_update; resp; apply IH. Qed.
Hint Resolve resp_csun_loop : resp.

Lemma resp_message n a l2tp : respects (control_message md5 n a l2tp).
Proof.
  unfold control_message, bbl_l2tp_scccn_rx, bbl_l2tp_stopccn_rx, bbl_l2tp_icrq_rx, bbl_l2tp_iccn_rx, bbl_l2tp_csun_rx, bbl_l2tp_avp_decode_csun,
    bbl_l2tp_cdn_rx, stop_with. resp.
Qed.
Lemma resp_data a l2tp : respects (bbl_l2tp_data_rx a l2tp).
Proof. unfold bbl_l2tp_data_rx, data_lcp, data_ipcp, data_ip6cp. resp. Qed.
Hint Resolve resp_message resp_data : resp.

Lemma resp_congestion mode n : respects (up_tun n (congestion mode)).
Proof. apply resp_up_tun. intros t. unfold congestion. change (tn_cwnd (quiet t)) with (tn_cwnd t). change (tn_ssthresh (quiet t)) with (tn_ssthresh t).
  change (tn_peer_receive_window (quiet t)) with (tn_peer_receive_window t). change (tn_cwcount (quiet t)) with (tn_cwcount t). repeat (reflexivity || case_match). Qed.
Hint Resolve resp_congestion : resp.
Lemma resp_in_order n a l2tp : respects (in_order md5 n a l2tp).
Proof. unfold in_order. resp. Qed.

Lemma quiet_peer_nr (l2tp : l2tp_t) t : quiet (if L2TP_SEQ_GT (l2tp_nr l2tp) (tn_peer_nr t) then t {{ tn_peer_nr := l2tp_nr l2tp }} else t) = quiet t.
Proof. by case_match. Qed.
Lemma resp_peer_nr n (l2tp : l2tp_t) : respects (up_tun n (fun t => if L2TP_SEQ_GT (l2tp_nr l2tp) (tn_peer_nr t) then t {{ tn_peer_nr := l2tp_nr l2tp }} else t)).
Proof. apply resp_up_tun. intros t. by rewrite !quiet_peer_nr. Qed.
Hint Resolve resp_in_order resp_peer_nr : resp.

Lemma resp_handler i ipv4 l2tp : l2tp_type l2tp <> L2TP_MESSAGE_SCCRQ -> respects (bbl_l2tp_handler_rx md5 rand i ipv4 l2tp).
Proof. intros Hn%Z.eqb_neq. unfold bbl_l2tp_handler_rx, control_rx, not_in_order. rewrite Hn. resp. Qed.

(** * Runs *)

Definition handle (p : packet) : lm unit := bbl_l2tp_handler_rx md5 rand p.1.1 p.1.2 p.2.
Definition receive (l : list packet) : lm unit := each handle l.

Definition control (l2tp : l2tp_t) : bool := negb (l2tp_type l2tp =? L2TP_MESSAGE_SCCRQ) && negb (l2tp_type l2tp =? L2TP_MESSAGE_DATA).

(** The tunnel that a packet goes to. *)
Definition target (s : lns) (l2tp : l2tp_t) : option Z :=
  if bool_decide (l_servers s = []) then None else a ← lookup_session (l_dict s) l2tp; x ← l_session s !! a; Some (se_tunnel x).

(** A control message that is not the next one of its tunnel. *)
Definition repeated (s : lns) (l2tp : l2tp_t) : bool :=
  control l2tp && match n ← target s l2tp; l_tunnel s !! n with Some t => negb (tn_nr t =? l2tp_ns l2tp) | None => false end.

(** The packets of a run without those. *)
Fixpoint accepted (l : list packet) (s : lns) : list packet :=
  match l with
  | [] => []
  | p :: l =>
      let rest := match handle p s with Some (_, s) => accepted l s | None => [] end in
      if repeated s p.2 then rest else p :: rest
  end.

(** The messages a tunnel is given in a run. *)
Definition given (n : Z) (s : lns) (l2tp : l2tp_t) : bool :=
  control l2tp && negb (repeated s l2tp) && negb (l2tp_type l2tp =? L2TP_MESSAGE_ZLB) && bool_decide (target s l2tp = Some n).
Fixpoint delivered (n : Z) (l : list packet) (s : lns) : list l2tp_t :=
  match l with
  | [] => []
  | p :: l =>
      let rest := match handle p s with Some (_, s) => delivered n l s | None => [] end in
      if given n s p.2 then p.2 :: rest else rest
  end.

Lemma same_control_rx i n a l2tp s s' t :
  l_tunnel s !! n = Some t -> tn_nr t <> l2tp_ns l2tp -> control_rx md5 i n a l2tp s = Some (tt, s') -> same s s'.
Proof.
  intros Ht Hn. unfold control_rx. unfold mbind at 1, lm_bind at 1. destruct (up_tun n _ s) as [[[] s1]|] eqn:E1; [|done].
  unfold mbind at 1, lm_bind at 1. destruct (up_ifc i _ s1) as [[[] s2]|] eqn:E2; [|done].
  unfold mbind at 1, lm_bind at 1. destruct (up_tun n _ s2) as [[[] s3]|] eqn:E3; [|done].
  apply same_up_tun in E1; [|done]. apply same_up_ifc in E2; [|done]. apply same_up_tun in E3; [|apply quiet_peer_nr].
  assert (same s s3) as H3 by (by rewrite E1, E2, E3). clear E1 E2 E3 s1 s2. destruct (same_tun _ _ _ _ H3 Ht) as (t3 & Ht3 & Hq).
  unfold mbind at 1, lm_bind at 1, tun, found. rewrite Ht3. apply (f_equal tn_nr) in Hq. change (tn_nr t = tn_nr t3) in Hq.
  rewrite (proj2 (Z.eqb_neq (tn_nr t3) (l2tp_ns l2tp))) by congruence. rewrite H3. clear H3 Ht s.
  unfold not_in_order. unfold mbind at 1, lm_bind at 1, tun, found. rewrite Ht3. case_match.
  - unfold mbind at 1, lm_bind at 1. destruct (up_tun n _ s3) as [[[] s4]|] eqn:E4; [|done].
    unfold mbind at 1, lm_bind at 1. destruct (up_ifc i _ s4) as [[[] s5]|] eqn:E5; [|done]. intros E6.
    apply same_up_tun in E4; [|done]. apply same_up_ifc in E5; [|done]. apply same_start in E6. by rewrite E4, E5, E6.
  - unfold mbind at 1, lm_bind at 1. destruct (up_tun n _ s3) as [[[] s4]|] eqn:E4; [|done]. intros E5.
    apply same_up_tun in E4; [|done]. apply same_up_ifc in E5; [|done]. by rewrite E4, E5.
Qed.

Lemma same_repeated p s s' : repeated s p.2 = true -> handle p s = Some (tt, s') -> same s s'.
Proof.
  destruct p as [[i ipv4] l2tp]. unfold repeated, control, target, handle, bbl_l2tp_handler_rx. cbn [fst snd]. intros [[Ht Hd]%andb_true_iff Hr]%andb_true_iff.
  apply negb_true_iff in Ht, Hd. rewrite Ht, Hd. unfold mbind at 1, lm_bind at 1, get at 1. case_bool_decide; [done|].
  unfold mbind at 1, lm_bind at 1, get at 1. destruct (lookup_session (l_dict s) l2tp) as [a|]; cbn [mbind option_bind] in Hr; [|done].
  unfold mbind at 1, lm_bind at 1, ses, found. destruct (l_session s !! a) as [x|]; cbn [mbind option_bind] in Hr; [|done].
  destruct (l_tunnel s !! se_tunnel x) as [t|] eqn:Et; [|done]. apply negb_true_iff, Z.eqb_neq in Hr. by eapply same_control_rx.
Qed.

Lemma receive_accepted l : forall s1 s2 s1', Forall (fun p : packet => l2tp_type p.2 <> L2TP_MESSAGE_SCCRQ) l -> same s1 s2 ->
  receive l s1 = Some (tt, s1') -> exists s2', receive (accepted l s1) s2 = Some (tt, s2') /\ same s1' s2'.
Proof.
  induction l as [|p l IH]; intros s1 s2 s1' Hl H; [injection 1 as <-; by exists s2|]. apply Forall_cons in Hl as [Hp Hl].
  unfold receive. cbn [each accepted]. unfold mbind at 1, lm_bind at 1. destruct (handle p s1) as [[[] s1x]|] eqn:E; [|done]. intros Hr.
  destruct (repeated s1 p.2) eqn:Er.
  - apply (IH s1x s2 s1'); [done| |done]. by rewrite <- (same_repeated p s1 s1x Er E).
  - destruct (resp_handler p.1.1 p.1.2 p.2 Hp s1 s2 tt s1x H E) as (s2x & E2 & Hx). cbn [each]. unfold mbind, lm_bind. unfold handle at 1. rewrite E2. by apply (IH s1x).
Qed.

(** * Numbers *)

Definition nrs (s : lns) : gmap Z Z := tn_nr <$> l_tunnel s.

(** Operations that leave the expected numbers of the tunnels. *)
Definition keeps {A} (m : lm A) : Prop := forall s a s', m s = Some (a, s') -> nrs s' = nrs s.

Lemma keeps_ret {A} (a : A) : keeps (mret a).
Proof. intros s b s'. by injection 1 as <- <-. Qed.
Lemma keeps_bad {A} : keeps (@bad A).
Proof. done. Qed.
Lemma keeps_need {A} (o : option A) : keeps (need o).
Proof. intros s b s'. unfold need. destruct o; [|done]. by injection 1 as <- <-. Qed.
Lemma keeps_get {A} (f : lns -> A) : keeps (get f).
Proof. intros s b s'. by injection 1 as <- <-. Qed.
Lemma keeps_found {K A} `{Countable K} (f : lns -> gmap K A) k : keeps (found f k).
Proof. intros s b s'. unfold found. destruct (f s !! k); [|done]. by injection 1 as <- <-. Qed.
Lemma keeps_bind {A B} (m : lm A) (k : A -> lm B) : keeps m -> (forall a, keeps (k a)) -> keeps (m ≫= k).
Proof. intros Hm Hk s b s'. unfold mbind, lm_bind. destruct (m s) as [[a s1]|] eqn:E; [|done]. intros H. rewrite (Hk _ _ _ _ H). by eapply Hm. Qed.
Lemma keeps_modify f : (forall s, l_tunnel (f s) = l_tunnel s) -> keeps (modify f).
Proof. intros Hf s b s'. injection 1 as <- <-. unfold nrs. by rewrite Hf. Qed.
Lemma keeps_up_tun n f : (forall t, tn_nr (f t) = tn_nr t) -> keeps (up_tun n f).
Proof.
  intros Hf s b s'. unfold up_tun, mbind, lm_bind, tun, found. destruct (l_tunnel s !! n) as [t|] eqn:E; [|done]. injection 1 as <- <-.
  unfold nrs. change (tn_nr <$> <[n := f t]> (l_tunnel s) = tn_nr <$> l_tunnel s). rewrite fmap_insert, Hf, <- fmap_insert. by rewrite insert_id.
Qed.

Create HintDb keeps discriminated.
Ltac keeps_step :=
  first
    [ apply keeps_ret | apply keeps_bad | apply keeps_need | apply keeps_found | apply keeps_get
    | solve [auto with keeps nocore]
    | apply keeps_modify; intros; reflexivity
    | apply keeps_up_tun; intros; first [reflexivity | repeat case_match; reflexivity]
    | apply keeps_bind; [|intros ?]
    | case_match ].
Ltac keeps := repeat keeps_step.

Lemma keeps_start n : keeps (start_tx_timer n).
Proof. unfold start_tx_timer. keeps. Qed.
Lemma keeps_append i q : keeps (bbl_l2tp_interface_txq_append i q).
Proof. unfold bbl_l2tp_interface_txq_append, up_ifc, up_que. keeps. Qed.
Hint Resolve keeps_start keeps_append : keeps.
Lemma keeps_send n a type : keeps (bbl_l2tp_send n a type).
Proof. unfold bbl_l2tp_send, calloc, server_of, ses. keeps. Qed.
Lemma keeps_send_data a p h : keeps (bbl_l2tp_send_data a p h).
Proof. unfold bbl_l2tp_send_data, calloc, server_of, up_ses, up_ifc. keeps. Qed.
Lemma keeps_session_delete a : keeps (bbl_l2tp_session_delete a).
Proof. unfold bbl_l2tp_session_delete. keeps. Qed.
Lemma keeps_update_state n st : keeps (bbl_l2tp_tunnel_update_state n st).
Proof. unfold bbl_l2tp_tunnel_update_state. keeps. Qed.
Hint Resolve keeps_send keeps_send_data keeps_session_delete keeps_update_state : keeps.

Lemma loop_invariant {A} (P : A -> Prop) (h : avp -> list Z -> A -> option (bool * A)) sv :
  (forall x sp a ok b, P a -> h x sp a = Some (ok, b) -> P b) ->
  forall fuel buf len rv sp a ok b, P a -> avp_loop md5 fuel sv h buf len rv sp a = Some (ok, b) -> P b.
Proof.
  intros Hh fuel. induction fuel as [|fuel IH]; intros buf len rv sp a ok b Ha; cbn [avp_loop]; destruct (len =? 0); unfold done, failed; try (by injection 1 as <- <-); [done|].
  destruct (bbl_l2tp_avp_decode buf len) as [[[[x buf'] len']|]|]; cbn [mbind option_bind]; [|by injection 1 as <- <-|done].
  destruct (if avp_h x then _ else _) as [[[x' sp']|]|]; cbn [mbind option_bind]; [|by injection 1 as <- <-|done].
  destruct (_ && _); [by apply IH|]. destruct (h x' sp' a) as [[ok' a']|] eqn:Ex; cbn [mbind option_bind]; [|done].
  apply Hh in Ex; [|done]. destruct ok'; [by apply IH|by injection 1 as <- <-].
Qed.
Lemma attribute_nr c x sp t ok t' : tn_nr t = c -> tunnel_attribute x sp t = Some (ok, t') -> tn_nr t' = c.
Proof.
  intros Hc. unfold tunnel_attribute, number, copied, unknown, failed, done.
  repeat first [case_match | progress cbn [mbind option_bind] | intros [= <- <-]; exact Hc | discriminate
    | destruct (value_at sp (avp_value x)) as [bs|] | destruct (rd_be bs 0 _) ].
Qed.
Lemma keeps_decode_tunnel n l2tp : keeps (decode_tunnel md5 n l2tp).
Proof.
  intros s ok s'. rewrite decode_tunnel_eq. destruct (l_tunnel s !! n) as [t|] eqn:E; [|done]. unfold bbl_l2tp_avp_decode_tunnel, decode_with.
  destruct (avp_loop _ _ _ _ _ _ _ _ t) as [[ok' u]|] eqn:Ed; [|done]. intros Hr. assert (s' = s {{ l_tunnel ::= insert n u }}) as -> by congruence.
  apply (loop_invariant (fun u => tn_nr u = tn_nr t)) in Ed; [|intros x sp a o b; apply attribute_nr|done].
  unfold nrs. change (tn_nr <$> <[n := u]> (l_tunnel s) = tn_nr <$> l_tunnel s). rewrite fmap_insert, Ed, <- fmap_insert. by rewrite insert_id.
Qed.
Lemma keeps_decode_session n a l2tp : keeps (decode_session md5 n a l2tp).
Proof. unfold decode_session, up_ses. keeps. Qed.
Lemma keeps_csun_loop fuel : forall id buf len, keeps (csun_loop fuel id buf len).
Proof. induction fuel as [|fuel IH]; intros id buf len; cbn [csun_loop]; unfold speed_update, up_ses; keeps; apply IH. Qed.
Hint Resolve keeps_decode_tunnel keeps_decode_session keeps_csun_loop : keeps.
Lemma keeps_message n a l2tp : keeps (control_message md5 n a l2tp).
Proof.
  unfold control_message, bbl_l2tp_scccn_rx, bbl_l2tp_stopccn_rx, bbl_l2tp_icrq_rx, bbl_l2tp_iccn_rx, bbl_l2tp_csun_rx, bbl_l2tp_avp_decode_csun,
    bbl_l2tp_cdn_rx, stop_with, tunnel_error, calloc, server_of, up_ses. keeps.
Qed.
Lemma keeps_data a l2tp : keeps (bbl_l2tp_data_rx a l2tp).
Proof. unfold bbl_l2tp_data_rx, data_lcp, data_ipcp, data_ip6cp, server_of, up_ses. keeps. Qed.
Lemma keeps_congestion mode n : keeps (up_tun n (congestion mode)).
Proof. apply keeps_up_tun. intros t. unfold congestion. by repeat case_match. Qed.
Hint Resolve keeps_message keeps_data keeps_congestion : keeps.

Lemma nrs_up_tun n f s s' v : (forall t, tn_nr (f t) = v) -> up_tun n f s = Some (tt, s') -> nrs s' = <[n := v]> (nrs s).
Proof.
  intros Hf. unfold up_tun, mbind, lm_bind, tun, found. destruct (l_tunnel s !! n) as [t|] eqn:E; [|done]. injection 1 as <-.
  unfold nrs. change (tn_nr <$> <[n := f t]> (l_tunnel s) = <[n := v]> (tn_nr <$> l_tunnel s)). by rewrite fmap_insert, Hf.
Qed.

Lemma in_order_nrs n a l2tp s s' : in_order md5 n a l2tp s = Some (tt, s') ->
  nrs s' = if l2tp_type l2tp =? L2TP_MESSAGE_ZLB then nrs s else <[n := inc16 (l2tp_ns l2tp)]> (nrs s).
Proof.
  unfold in_order. unfold mbind at 1, lm_bind at 1. destruct (up_tun n _ s) as [[[] s1]|] eqn:E1; [|done]. apply keeps_up_tun in E1; [|done]. rewrite <- E1. clear E1 s.
  unfold mbind at 1, lm_bind at 1. intros H.
  assert (forall s2, (t ← tun n; sv ← server_of t; up_tun n (congestion (sv_congestion_mode sv));; control_message md5 n a l2tp) s2 = Some (tt, s') -> nrs s' = nrs s2) as Hrest.
  { intros s2. apply (keeps_bind (tun n) _); [apply keeps_found|intros t]. unfold server_of. keeps. }
  destruct (l2tp_type l2tp =? L2TP_MESSAGE_ZLB); [by apply Hrest in H|]. unfold mbind at 1, lm_bind at 1 in H.
  destruct (up_tun n _ s1) as [[[] s2]|] eqn:E2; [|done]. apply (nrs_up_tun _ _ _ _ (inc16 (l2tp_ns l2tp))) in E2; [|intros; reflexivity]. rewrite <- E2.
  destruct (start_tx_timer n s2) as [[[] s3]|] eqn:E3; [|done]. apply keeps_start in E3. rewrite <- E3. by apply Hrest.
Qed.

Lemma same_nrs s s' : same s s' -> nrs s = nrs s'.
Proof.
  assert (forall s, nrs s = tn_nr <$> l_tunnel (quiet_lns s)) as Hq.
  { intros x. change (tn_nr <$> l_tunnel x = tn_nr <$> (quiet <$> l_tunnel x)). by rewrite <- map_fmap_compose. }
  intros H. by rewrite !Hq, H.
Qed.

Lemma control_rx_nrs i n a l2tp s s' t : l_tunnel s !! n = Some t -> tn_nr t = l2tp_ns l2tp -> control_rx md5 i n a l2tp s = Some (tt, s') ->
  nrs s' = if l2tp_type l2tp =? L2TP_MESSAGE_ZLB then nrs s else <[n := inc16 (l2tp_ns l2tp)]> (nrs s).
Proof.
  intros Ht Hn. unfold control_rx. unfold mbind at 1, lm_bind at 1. destruct (up_tun n _ s) as [[[] s1]|] eqn:E1; [|done].
  unfold mbind at 1, lm_bind at 1. destruct (up_ifc i _ s1) as [[[] s2]|] eqn:E2; [|done].
  unfold mbind at 1, lm_bind at 1. destruct (up_tun n _ s2) as [[[] s3]|] eqn:E3; [|done].
  apply same_up_tun in E1; [|done]. apply same_up_ifc in E2; [|done]. apply same_up_tun in E3; [|apply quiet_peer_nr].
  assert (same s s3) as H3 by (by rewrite E1, E2, E3). clear E1 E2 E3 s1 s2. destruct (same_tun _ _ _ _ H3 Ht) as (t3 & Ht3 & Hq).
  unfold mbind at 1, lm_bind at 1, tun, found. rewrite Ht3. apply (f_equal tn_nr) in Hq. change (tn_nr t = tn_nr t3) in Hq.
  rewrite (proj2 (Z.eqb_eq (tn_nr t3) (l2tp_ns l2tp))) by congruence. rewrite (same_nrs _ _ H3). apply in_order_nrs.
Qed.

(** A message is given to its tunnel when it has the expected number, which then grows. *)
Lemma handle_nrs p s s' n : l2tp_type p.2 <> L2TP_MESSAGE_SCCRQ -> handle p s = Some (tt, s') ->
  if given n s p.2 then nrs s !! n = Some (l2tp_ns p.2) /\ nrs s' !! n = Some (inc16 (l2tp_ns p.2)) else nrs s' !! n = nrs s !! n.
Proof.
  destruct p as [[i ipv4] l2tp]. cbn [fst snd]. intros Hs%Z.eqb_neq H. destruct (repeated s l2tp) eqn:Er.
  { unfold given. rewrite Er, andb_false_r. apply same_repeated in H; [|done]. by rewrite (same_nrs _ _ H). }
  unfold given. rewrite Er. unfold repeated, control, target, handle, bbl_l2tp_handler_rx in *. cbn [fst snd] in *. rewrite Hs in *. cbn [negb andb] in *.
  unfold mbind at 1, lm_bind at 1, get at 1 in H. case_bool_decide.
  { rewrite andb_false_r. by injection H as <-. }
  unfold mbind at 1, lm_bind at 1, get at 1 in H. destruct (lookup_session (l_dict s) l2tp) as [a|]; cbn [mbind option_bind] in *.
  2: { rewrite andb_false_r. f_equal. revert H. match goal with |- ?m s = _ -> _ => assert (Hk : keeps m) by (unfold up_ifc; keeps) end. apply Hk. }
  unfold mbind at 1, lm_bind at 1, ses, found in H. destruct (l_session s !! a) as [x|]; cbn [mbind option_bind] in *; [|done].
  destruct (l2tp_type l2tp =? L2TP_MESSAGE_DATA); cbn [negb andb] in *.
  { f_equal. revert H. match goal with |- ?m s = _ -> _ => assert (Hk : keeps m) by (unfold up_ifc; keeps) end. apply Hk. }
  destruct (l_tunnel s !! se_tunnel x) as [t|] eqn:Et.
  2: { exfalso. revert H. unfold control_rx, up_tun, mbind, lm_bind, tun, found. by rewrite Et. }
  apply negb_false_iff, Z.eqb_eq in Er. rewrite (control_rx_nrs _ _ _ _ _ _ _ Et Er H).
  destruct (l2tp_type l2tp =? L2TP_MESSAGE_ZLB); cbn [negb andb]; [done|]. case_bool_decide as Hb.
  - injection Hb as <-. rewrite lookup_insert_eq. unfold nrs. rewrite lookup_fmap, Et. split; [|done]. cbn [fmap option_fmap option_map]. by rewrite Er.
  - by rewrite lookup_insert_ne by congruence.
Qed.

(** The numbers from [nr] on. *)
Definition from (nr : Z) (k : Datatypes.nat) : Z := u16 (nr + Z.of_nat k).

Lemma delivered_numbers n l : forall s s' nr, Forall (fun p : packet => l2tp_type p.2 <> L2TP_MESSAGE_SCCRQ) l -> receive l s = Some (tt, s') ->
  nrs s !! n = Some nr -> 0 <= nr < 65536 -> map l2tp_ns (delivered n l s) = map (from nr) (seq 0 (length (delivered n l s))).
Proof.
  induction l as [|p l IH]; intros s s' nr Hl; [done|]. apply Forall_cons in Hl as [Hp Hl].
  unfold receive. cbn [each delivered]. unfold mbind at 1, lm_bind at 1. destruct (handle p s) as [[[] s1]|] eqn:E; [|done]. intros Hr Hn Hb.
  pose proof (handle_nrs p s s1 n Hp E) as Hg. destruct (given n s p.2).
  - destruct Hg as [Hns Hns']. assert (l2tp_ns p.2 = nr) as Hnr by congruence. cbn [map length seq]. rewrite <- seq_shift, map_map.
    f_equal; [unfold from; rewrite Hnr; symmetry; replace (nr + Z.of_nat 0) with nr by lia; by apply u16_small|].
    rewrite (IH s1 s' (inc16 nr)); [|done|done|by rewrite <- Hnr|apply u16_range]. apply map_ext. intros k. unfold from, inc16, u16.
    rewrite Zplus_mod_idemp_l. f_equal. lia.
  - apply (IH s1 s' nr); try done. by rewrite Hg.
Qed.

(** C21. Control messages are delivered once and in order: whatever packets of established
    tunnels are received, repeated, early or late ones between them, the state afterwards is,
    up to the bookkeeping of the channel, the one of receiving only those that are next in
    order; and the messages a tunnel is given have consecutive numbers from the one it
    expects. *)
Theorem l2tp_exactly_once (l : list packet) (s s' : lns) :
  Forall (fun p : packet => l2tp_type p.2 <> L2TP_MESSAGE_SCCRQ) l -> receive l s = Some (tt, s') ->
  (exists s'', receive (accepted l s) s = Some (tt, s'') /\ same s' s'')
  /\ forall n t, l_tunnel s !! n = Some t -> 0 <= tn_nr t < 65536 ->
     map l2tp_ns (delivered n l s) = map (from (tn_nr t)) (seq 0 (length (delivered n l s))).
Proof.
  intros Hl Hr. split; [by apply (receive_accepted l s s)|]. intros n t Ht Hb. apply (delivered_numbers n l s s'); try done.
  unfold nrs. by rewrite lookup_fmap, Ht.
Qed.

End order.

(** * An example *)

Definition sample_server : l2tp_server :=
  mk_l2tp_server 2 30 16 5 0 false false false 0 0 BBL_L2TP_CONGESTION_DEFAULT None (chars "lns") None.
Definition sample_if : netif := mk_netif (replicate 6 1) (replicate 6 2) 0 [] 0 0 0 0 0 0 0 0 0 0.
Definition lns0 : lns := {|
  l_servers := [(sample_server, [])]; l_tunnel := ∅; l_session := ∅; l_queue := ∅; l_dict := ∅; l_interface := {[0 := sample_if]};
  l_pppoe := ∅; l_fresh := 1; l_next_tunnel_id := 1; l_tunnels := 0; l_tunnels_max := 0; l_tunnels_established := 0;
  l_tunnels_established_max := 0; l_sessions := 0; l_sessions_max := 0 |}.
Definition sample_md5 (l : list Z) : list Z := replicate 16 (Z.land (foldl Z.add 0 l) 255).
Definition sample_rand (n : Z) : list Z := replicate 16 (Z.land n 255).

Definition avp_bytes (flags type : Z) (v : list Z) : list Z := be_split 2 (6 + Z.of_nat (length v) + flags) ++ [0; 0] ++ be_split 2 type ++ v.
Definition message (type tunnel_id session_id ns nr : Z) (p : list Z) : l2tp_t :=
  l2tp0 {{ l2tp_type := type ; l2tp_tunnel_id := tunnel_id ; l2tp_session_id := session_id ; l2tp_ns := ns ; l2tp_nr := nr ;
           l2tp_payload := Some p ; l2tp_payload_len := Z.of_nat (length p) }}.
Definition from_peer (m : l2tp_t) : packet := (0, mk_ipv4 1 2 0 64 PROTOCOL_IPV4_UDP false 0 0 0 [] h_null None 0, m).
Definition sccrq : l2tp_t :=
  message L2TP_MESSAGE_SCCRQ 0 0 0 0 (avp_bytes 32768 L2TP_AVP_HOST_NAME (chars "lac") ++ avp_bytes 32768 L2TP_AVP_ASSIGNED_TUNNEL_ID [0; 7]).
Definition scccn : l2tp_t := message L2TP_MESSAGE_SCCCN 1 0 1 1 [].
Definition icrq (ns : Z) : l2tp_t := message L2TP_MESSAGE_ICRQ 1 0 ns 1 (avp_bytes 32768 L2TP_AVP_ASSIGNED_SESSION_ID [0; 9]).
Definition iccn (ns : Z) : l2tp_t := message L2TP_MESSAGE_ICCN 1 1 ns 1 [].
Definition sample_receive (l : list l2tp_t) : lm unit := receive sample_md5 sample_rand (map from_peer l).

(** The tunnel of the example waits for the SCCCN. *)
Definition opened : option (unit * lns) := sample_receive [sccrq] lns0.
Definition sample_run : list packet := map from_peer [icrq 2; scccn; scccn; icrq 2; iccn 3; icrq 2; scccn].

Lemma l2tp_exactly_once_witness : exists s s' s'',
  opened = Some (tt, s) /\ receive sample_md5 sample_rand sample_run s = Some (tt, s')
  /\ accepted sample_md5 sample_rand sample_run s = map from_peer [scccn; icrq 2; iccn 3]
  /\ receive sample_md5 sample_rand (map from_peer [scccn; icrq 2; iccn 3]) s = Some (tt, s'') /\ same s' s''
  /\ map l2tp_ns (delivered sample_md5 sample_rand 1 sample_run s) = [1; 2; 3].
Proof.
  assert (H : match opened with Some (_, s) =>
    bool_decide (is_Some (receive sample_md5 sample_rand sample_run s))
    && match l_tunnel s !! 1 with Some t => tn_nr t =? 1 | None => false end
    && (length (delivered sample_md5 sample_rand 1 sample_run s) =? 3)%nat
    | None => false end = true) by (vm_compute; reflexivity).
  assert (Ha : match opened with Some (_, s) => accepted sample_md5 sample_rand sample_run s | None => [] end = map from_peer [scccn; icrq 2; iccn 3]) by (vm_compute; reflexivity).
  destruct opened as [[[] s]|]; [|done]. apply andb_true_iff in H as [[H1 H2]%andb_true_iff H3].
  apply bool_decide_eq_true_1 in H1 as [[[] s'] Hr]. destruct (l_tunnel s !! 1) as [t|] eqn:Et; [|done]. apply Z.eqb_eq in H2. apply Nat.eqb_eq in H3.
  destruct (l2tp_exactly_once sample_md5 sample_rand sample_run s s') as [(s'' & Hs & Hq) Hd]; [|done|].
  - repeat (constructor; [by vm_compute|]). constructor.
  - exists s, s', s''. rewrite Ha in Hs. split_and!; try done. rewrite (Hd 1 t Et), H2, H3; [reflexivity|lia].
Defined.
