(* ===== verification/L2tpRound.v ===== *)
(** What the L2TP server writes into control messages (bbl_l2tp_avp.c): the attributes of an
    SCCRP are those the decoder reads back, and the scratchpad of a message holds at most 56
    connect speed updates. *)
From coqutil Require Import Datatypes.RecordSetters.
From S2P Require Import Prelude.
From S2P Require Import Const.
From S2P Require Import ConstApp.
From S2P Require Import ConstStream.
From S2P Require Import ConstNet.
From S2P Require Import ProtoTypes.
From S2P Require Import Enc.
From S2P Require Import Session.
From S2P Require Import SessionInit.
From S2P Require Import L2tpAvp.
From S2P Require Import L2tp.
From S2P Require Import L2tpOrder.
Import RecordSetters.DoubleBraceUpdate.
From stdpp Require Import gmap list strings.
Open Scope Z_scope.

(** * Writing into the scratchpad *)

Definition size : Datatypes.nat := 1024%nat.

(** The scratchpad after [out] was written. *)
Definition pad (out : list Z) : wr := mk_wr (out ++ replicate (size - length out) 0) (length out) (Z.of_nat (length out)).

Lemma put_pad bs out : (length out + length bs <= size)%nat -> put bs (pad out) = WOk tt (pad (out ++ bs)).
Proof.
  intros H. unfold put, mbind, wm_bind, store, store_at, pad, wbump. cbn [w_mem w_pos w_len]. rewrite length_app, length_replicate, Nat.add_0_r.
  rewrite (proj2 (Nat.leb_le _ _)) by lia. cbn [w_mem w_pos w_len]. do 2 f_equal.
  - rewrite take_app_length, <- app_assoc. do 2 f_equal. rewrite drop_app_ge by lia. rewrite drop_replicate, length_app. f_equal. lia.
  - rewrite length_app. lia.
  - rewrite length_app. unfold size in H. rewrite u16_small; lia.
Qed.
Lemma put_full bs out : (length out <= size)%nat -> (size < length out + length bs)%nat -> put bs (pad out) = WFault.
Proof.
  intros Ho H. unfold put, mbind, wm_bind, store, store_at, pad. cbn [w_mem w_pos w_len]. rewrite length_app, length_replicate, Nat.add_0_r.
  by rewrite (proj2 (Nat.leb_gt _ _)) by lia.
Qed.

(** The bytes of an attribute. *)
Definition value_bytes (v : avp_new) : list Z := match v with a_bytes p => p | a_uint16 v => be_split 2 v | a_uint32 v => be_split 4 v end.
Definition attribute (m : bool) (type : Z) (v : avp_new) : list Z :=
  be_split 2 (let n := u16 (avp_new_len v + L2TP_AVP_HDR_LEN) in if m then Z.lor n L2TP_AVP_M_BIT_MASK else n) ++ [0; 0] ++ be_split 2 type ++ value_bytes v.

Lemma length_value v : Z.of_nat (length (value_bytes v)) = avp_new_len v.
Proof. destruct v; cbn [value_bytes avp_new_len]; [done|by rewrite be_split_length..]. Qed.
Lemma length_attribute m type v : length (attribute m type v) = (6 + length (value_bytes v))%nat.
Proof. unfold attribute. rewrite !length_app, !be_split_length. cbn [length]. lia. Qed.

Lemma encode_attribute m type v out : (length out + length (attribute m type v) <= size)%nat ->
  bbl_l2tp_avp_encode m type v (pad out) = WOk tt (pad (out ++ attribute m type v)).
Proof.
  intros H. rewrite length_attribute in H. unfold bbl_l2tp_avp_encode, put_be.
  assert (Hb : forall n x, length (be_split n x) = n) by (intros; apply be_split_length).
  assert (Hv : put (value_bytes v) = match v with a_uint32 v => put (be_split 4 v) | a_uint16 v => put (be_split 2 v) | a_bytes p => put p end) by (by destruct v).
  rewrite <- Hv. do 3 (eapply wst_bind; [rewrite put_pad; [reflexivity|rewrite ?length_app, ?Hb; lia]|]).
  rewrite put_pad by (rewrite ?length_app, ?Hb; lia). do 2 f_equal. unfold attribute. rewrite <- !app_assoc. reflexivity.
Qed.
Lemma encode_attribute_full m type v out : (length out <= size)%nat -> (size < length out + length (attribute m type v))%nat ->
  bbl_l2tp_avp_encode m type v (pad out) = WFault.
Proof.
  intros Ho H. rewrite length_attribute in H. unfold bbl_l2tp_avp_encode, put_be.
  assert (Hb : forall n x, length (be_split n x) = n) by (intros; apply be_split_length).
  assert (Hv : put (value_bytes v) = match v with a_uint32 v => put (be_split 4 v) | a_uint16 v => put (be_split 2 v) | a_bytes p => put p end) by (by destruct v).
  rewrite <- Hv. unfold mbind, wm_bind.
  do 3 (match goal with |- context [put ?b (pad ?o)] =>
    destruct (decide (length o + length b <= size)%nat);
    [rewrite (put_pad b o) by done|by rewrite put_full by (rewrite ?length_app, ?Hb in *; lia)] end).
  apply put_full; rewrite ?length_app, ?Hb in *; lia.
Qed.

(** * Connect speed updates *)

Lemma csurq_run l : forall out, (length out <= size)%nat ->
  csurq_updates l (pad out) =
  if (length out + 18 * length l <=? size)%nat
  then WOk tt (pad (out ++ concat (map (fun id => attribute false L2TP_AVP_CONNECT_SPEED_UPDATE (a_bytes ([0; 0] ++ be_split 2 id ++ replicate 8 0))) l)))
  else WFault.
Proof.
  induction l as [|id l IH]; intros out Ho; cbn [csurq_updates length map concat].
  - rewrite (proj2 (Nat.leb_le _ _)) by lia. by rewrite app_nil_r.
  - set (a := attribute _ _ _). assert (Ha : length a = 18%nat) by reflexivity. unfold mbind, wm_bind. destruct (decide (length out + 18 <= size)%nat).
    + rewrite encode_attribute by (change (length (attribute _ _ _)) with 18%nat; lia). fold a. rewrite IH by (rewrite length_app; lia). rewrite length_app, Ha.
      replace (length out + 18 + 18 * length l)%nat with (length out + 18 * S (length l))%nat by lia. by rewrite <- app_assoc.
    + rewrite encode_attribute_full by (change (length (attribute _ _ _)) with 18%nat; lia). by rewrite (proj2 (Nat.leb_gt _ _)) by lia.
Qed.

(** C23. The request for connect speeds of more than 56 sessions is written beyond the end of
    the scratchpad of [bbl_l2tp_send], and only that of more. *)
Theorem l2tp_csurq_overflow (sv : option l2tp_server) (t : tunnel) (s : option lsession) :
  attributes sv t s L2TP_MESSAGE_CSURQ = None <-> (56 < length (tn_csurq_requests t))%nat.
Proof.
  unfold attributes. change (mk_wr _ 0 0) with (pad []). unfold bbl_l2tp_avp_encode_attributes.
  change (L2TP_MESSAGE_CSURQ =? L2TP_MESSAGE_ZLB) with false. change (negb (L2TP_MESSAGE_CSURQ =? L2TP_MESSAGE_CSURQ)) with false. cbv iota.
  unfold mbind, wm_bind. rewrite encode_attribute by (vm_compute; lia). set (out := [] ++ attribute _ _ _).
  change (L2TP_MESSAGE_CSURQ =? L2TP_MESSAGE_SCCRP) with false. change (L2TP_MESSAGE_CSURQ =? L2TP_MESSAGE_STOPCCN) with false.
  change (L2TP_MESSAGE_CSURQ =? L2TP_MESSAGE_ICRP) with false. change (L2TP_MESSAGE_CSURQ =? L2TP_MESSAGE_CDN) with false.
  change (L2TP_MESSAGE_CSURQ =? L2TP_MESSAGE_CSURQ) with true. cbv iota. assert (Ho : length out = 8%nat) by reflexivity. clearbody out.
  rewrite csurq_run by (unfold size; lia). rewrite Ho. unfold size. destruct (_ <=? _)%nat eqn:E.
  - apply Nat.leb_le in E. split; [done|lia].
  - apply Nat.leb_gt in E. split; [lia|done].
Qed.

(** * Reading attributes *)

Lemma rd_be_attribute front k v rest : 0 <= v < 256 ^ Z.of_nat k -> rd_be (front ++ be_split k v ++ rest) (length front) k = Some v.
Proof.
  intros Hv. unfold rd_be. rewrite drop_app_length, take_app_le by (rewrite be_split_length; lia).
  rewrite take_ge by (rewrite be_split_length; lia). rewrite be_split_length, Nat.ltb_irrefl, be_combine_split. by rewrite Z.mod_small.
Qed.

(** The flags and the length share 16 bits. *)
Lemma avp_field n : 0 <= n < 1024 ->
  Z.land n L2TP_AVP_LEN_MASK = n /\ Z.land n L2TP_AVP_M_BIT_MASK = 0 /\ Z.land n L2TP_AVP_H_BIT_MASK = 0
  /\ Z.land (Z.lor n L2TP_AVP_M_BIT_MASK) L2TP_AVP_LEN_MASK = n /\ Z.land (Z.lor n L2TP_AVP_M_BIT_MASK) L2TP_AVP_M_BIT_MASK = L2TP_AVP_M_BIT_MASK
  /\ Z.land (Z.lor n L2TP_AVP_M_BIT_MASK) L2TP_AVP_H_BIT_MASK = 0 /\ 0 <= Z.lor n L2TP_AVP_M_BIT_MASK < 65536.
Proof.
  intros Hn.
  assert (H : Forall (fun n =>
    Z.land n L2TP_AVP_LEN_MASK = n /\ Z.land n L2TP_AVP_M_BIT_MASK = 0 /\ Z.land n L2TP_AVP_H_BIT_MASK = 0
    /\ Z.land (Z.lor n L2TP_AVP_M_BIT_MASK) L2TP_AVP_LEN_MASK = n /\ Z.land (Z.lor n L2TP_AVP_M_BIT_MASK) L2TP_AVP_M_BIT_MASK = L2TP_AVP_M_BIT_MASK
    /\ Z.land (Z.lor n L2TP_AVP_M_BIT_MASK) L2TP_AVP_H_BIT_MASK = 0 /\ 0 <= Z.lor n L2TP_AVP_M_BIT_MASK < 65536) (map Z.of_nat (seq 0 1024))).
  { apply (bool_decide_unpack _). vm_compute. exact I. }
  rewrite Forall_forall in H. apply H. apply list_elem_of_In, in_map_iff. exists (Z.to_nat n). split; [lia|]. apply in_seq. lia.
Qed.

(** An attribute that fits into the length field. *)
Definition plain (a : bool * Z * avp_new) : Prop :=
  avp_new_len a.2 + L2TP_AVP_HDR_LEN < 1024 /\ 0 <= a.1.2 < 65536 /\ a.1.2 <> L2TP_AVP_RANDOM_VECTOR.
Definition bytes_of (a : bool * Z * avp_new) : list Z := attribute a.1.1 a.1.2 a.2.
Definition read_as (a : bool * Z * avp_new) (rest : list Z) : avp :=
  mk_avp a.1.1 false (avp_new_len a.2) 0 a.1.2 (if avp_new_len a.2 =? 0 then v_null else v_packet (value_bytes a.2 ++ rest)).

Lemma decode_attribute a rest : plain a ->
  bbl_l2tp_avp_decode (bytes_of a ++ rest) (Z.of_nat (length (bytes_of a ++ rest))) = Some (Some (read_as a rest, rest, Z.of_nat (length rest))).
Proof.
  destruct a as [[m type] v]. unfold plain, bytes_of, read_as. cbn [fst snd]. intros (Hlen & Ht & _).
  pose proof (length_value v) as Hv. change L2TP_AVP_HDR_LEN with 6 in *. unfold bbl_l2tp_avp_decode. change L2TP_AVP_HDR_LEN with 6.
  rewrite length_app, length_attribute. rewrite (proj2 (Z.ltb_ge _ _)) by lia.
  set (n := avp_new_len v + 6). assert (Hn : 0 <= n < 1024) by lia. destruct (avp_field n Hn) as (F1 & F2 & F3 & F4 & F5 & F6 & F7).
  set (field := if m then Z.lor n L2TP_AVP_M_BIT_MASK else n).
  assert (Hf : 0 <= field < 65536) by (subst field; destruct m; lia).
  assert (Hb : attribute m type v ++ rest = be_split 2 field ++ [0; 0] ++ be_split 2 type ++ value_bytes v ++ rest).
  { unfold attribute. change L2TP_AVP_HDR_LEN with 6. fold n. rewrite (u16_small n) by lia. fold field. by rewrite <- !app_assoc. }
  rewrite Hb. set (tail := [0; 0] ++ _). assert (rd_be (be_split 2 field ++ tail) 0 2 = Some field) as -> by (apply (rd_be_attribute [] 2 field); change (256 ^ Z.of_nat 2) with 65536; lia).
  cbn [mbind option_bind]. subst tail.
  assert (Hl : Z.land field L2TP_AVP_LEN_MASK = n) by (subst field; destruct m; done). rewrite Hl.
  rewrite (proj2 (Z.ltb_ge n 6)), (proj2 (Z.ltb_ge _ n)) by lia. cbn [orb].
  change (rd_be _ 2 2) with (rd_be (be_split 2 field ++ be_split 2 0 ++ be_split 2 type ++ value_bytes v ++ rest) (length (be_split 2 field)) 2).
  rewrite rd_be_attribute by (by vm_compute). cbn [mbind option_bind].
  replace (rd_be _ 4 2) with (rd_be ((be_split 2 field ++ [0; 0]) ++ be_split 2 type ++ value_bytes v ++ rest) (length (be_split 2 field ++ [0; 0])) 2) by (by rewrite <- app_assoc).
  rewrite rd_be_attribute by (change (256 ^ Z.of_nat 2) with 65536; lia). cbn [mbind option_bind].
  assert (Hd : drop 6 (be_split 2 field ++ [0; 0] ++ be_split 2 type ++ value_bytes v ++ rest) = value_bytes v ++ rest) by reflexivity.
  rewrite Hd. replace (n - 6) with (avp_new_len v) by lia. do 2 f_equal. rewrite <- Hv, Nat2Z.id, drop_app_length.
  assert (Hm : negb (Z.land field L2TP_AVP_M_BIT_MASK =? 0) = m) by (subst field; destruct m; rewrite ?F2, ?F5; done).
  assert (Hh : negb (Z.land field L2TP_AVP_H_BIT_MASK =? 0) = false) by (subst field; destruct m; rewrite ?F3, ?F6; done).
  rewrite Hm, Hh. f_equal. lia.
Qed.

(** The attributes are handled one after the other. *)
Fixpoint handle_all {A} (h : avp -> list Z -> A -> option (bool * A)) (sp : list Z) (l : list (bool * Z * avp_new)) (a : A) : option (bool * A) :=
  match l with
  | [] => Some (true, a)
  | x :: l => '(ok, a) ← h (read_as x (concat (map bytes_of l))) sp a; if (ok : bool) then handle_all h sp l a else Some (false, a)
  end.

Lemma loop_attributes {A} md5 sv (h : avp -> list Z -> A -> option (bool * A)) sp l : forall fuel rv a, Forall plain l -> (length l <= fuel)%nat ->
  avp_loop md5 fuel sv h (concat (map bytes_of l)) (Z.of_nat (length (concat (map bytes_of l)))) rv sp a = handle_all h sp l a.
Proof.
  induction l as [|x l IH]; intros fuel rv a Hl Hf; cbn [map concat handle_all]; [by destruct fuel|].
  apply Forall_cons in Hl as [Hx Hl]. destruct fuel as [|fuel]; [cbn in Hf; lia|]. cbn [avp_loop].
  rewrite (proj2 (Z.eqb_neq _ 0)) by (rewrite length_app; unfold bytes_of at 1; rewrite length_attribute; lia).
  rewrite decode_attribute by done. cbn [mbind option_bind]. change (avp_h (read_as x _)) with false. cbv iota. cbn [mbind option_bind].
  change (avp_vendor (read_as x _)) with 0. change (avp_type (read_as x _)) with x.1.2. destruct Hx as (_ & _ & Hr). rewrite (proj2 (Z.eqb_neq x.1.2 _)) by done. cbn [Z.eqb andb].
  destruct (h _ sp a) as [[ok b]|]; cbn [mbind option_bind]; [|done]. destruct ok; [|done]. apply IH; [done|]. cbn in Hf. lia.
Qed.

(** * SCCRP *)

Definition opt (type : Z) (v : option (list Z)) : list (bool * Z * avp_new) := match v with Some v => [(true, type, a_bytes v)] | None => [] end.
Definition window (sv : l2tp_server) : Z := if sv_receive_window sv =? 0 then 4 else sv_receive_window sv.

(** The attributes behind the message type. *)
Definition sccrp_attributes (sv : l2tp_server) (t : tunnel) : list (bool * Z * avp_new) :=
  [(true, L2TP_AVP_PROTOCOL_VERSION, a_uint16 256); (true, L2TP_AVP_FRAMING_CAPABILITIES, a_uint32 3);
   (true, L2TP_AVP_BEARER_CAPABILITIES, a_uint32 1); (false, L2TP_AVP_FIRMWARE_REVISION, a_uint16 1);
   (true, L2TP_AVP_HOST_NAME, a_bytes (sv_host_name sv)); (false, L2TP_AVP_VENDOR_NAME, a_bytes vendor_name);
   (true, L2TP_AVP_ASSIGNED_TUNNEL_ID, a_uint16 (tn_tunnel_id t)); (true, L2TP_AVP_RECEIVE_WINDOW_SIZE, a_uint16 (window sv))]
  ++ opt L2TP_AVP_CHALLENGE (tn_challenge t) ++ opt L2TP_AVP_CHALLENGE_RESPONSE (tn_challenge_response t).

(** A server and a tunnel that the program can have: a host name, values of their width, and
    digests of 16 bytes. *)
Record sendable (sv : l2tp_server) (t : tunnel) : Prop := {
  so_name : sv_host_name sv <> [];
  so_window : 0 <= sv_receive_window sv < 65536;
  so_id : 0 <= tn_tunnel_id t < 65536;
  so_challenge : forall c, tn_challenge t = Some c -> length c = 16%nat;
  so_response : forall c, tn_challenge_response t = Some c -> length c = 16%nat
}.

(** The bytes of all attributes. *)
Definition sccrp_length (sv : l2tp_server) (t : tunnel) : Datatypes.nat :=
  (82 + length (sv_host_name sv) + match tn_challenge t with Some _ => 22 | None => 0 end + match tn_challenge_response t with Some _ => 22 | None => 0 end)%nat.

(** Attributes one after the other. *)
Fixpoint encode_all (l : list (bool * Z * avp_new)) : wm unit :=
  match l with [] => mret tt | a :: l => bbl_l2tp_avp_encode a.1.1 a.1.2 a.2;; encode_all l end.

Lemma encode_all_run l : forall out, (length out <= size)%nat ->
  encode_all l (pad out) = if (length out + length (concat (map bytes_of l)) <=? size)%nat then WOk tt (pad (out ++ concat (map bytes_of l))) else WFault.
Proof.
  induction l as [|[[m type] v] l IH]; intros out Ho; cbn [encode_all map concat].
  - cbn [length]. rewrite (proj2 (Nat.leb_le _ _)) by lia. by rewrite app_nil_r.
  - cbn [fst snd]. rewrite length_app. unfold mbind, wm_bind, bytes_of at 1 3. cbn [fst snd]. destruct (decide (length out + length (attribute m type v) <= size)%nat).
    + rewrite encode_attribute by done. rewrite IH by (rewrite length_app; lia). rewrite length_app, Nat.add_assoc. by rewrite <- app_assoc.
    + rewrite encode_attribute_full by lia. by rewrite (proj2 (Nat.leb_gt _ _)) by lia.
Qed.

Lemma encode_all_app l k w : encode_all (l ++ k) w = (encode_all l;; encode_all k) w.
Proof.
  revert w. induction l as [|a l IH]; intros w; [done|]. cbn [app encode_all]. unfold mbind, wm_bind in *. destruct (bbl_l2tp_avp_encode _ _ _ w); [apply IH|done].
Qed.
Lemma encode_all_opt type v w : encode_all (opt type v) w = optional type v w.
Proof. destruct v as [v|]; [|done]. cbn [opt encode_all optional fst snd]. unfold mbind, wm_bind. by destruct (bbl_l2tp_avp_encode _ _ _ w) as [[] |]. Qed.

(** The attributes of an SCCRP are these. *)
Lemma sccrp_encode sv t s w : bbl_l2tp_avp_encode_attributes (Some sv) t s L2TP_MESSAGE_SCCRP w
  = encode_all ((true, L2TP_AVP_MESSAGE_TYPE, a_uint16 L2TP_MESSAGE_SCCRP) :: sccrp_attributes sv t) w.
Proof.
  unfold bbl_l2tp_avp_encode_attributes. change (L2TP_MESSAGE_SCCRP =? L2TP_MESSAGE_ZLB) with false. change (negb (L2TP_MESSAGE_SCCRP =? L2TP_MESSAGE_CSURQ)) with true.
  change (L2TP_MESSAGE_SCCRP =? L2TP_MESSAGE_SCCRP) with true. cbv iota. unfold sccrp_attributes, window. cbn [app encode_all fst snd use]. unfold mbind, wm_bind.
  do 5 (match goal with |- match ?x with _ => _ end = _ => destruct x as [[] ?|]; [|done] end). cbn [mret wm_ret].
  do 4 (match goal with |- match ?x with _ => _ end = _ => destruct x as [[] ?|]; [|done] end).
  rewrite encode_all_app. unfold mbind, wm_bind. rewrite encode_all_opt. match goal with |- match ?x with _ => _ end = _ => destruct x as [[] ?|]; [|done] end. by rewrite encode_all_opt.
Qed.

Lemma sccrp_bytes sv t : sendable sv t -> (8 + length (concat (map bytes_of (sccrp_attributes sv t))) = sccrp_length sv t)%nat.
Proof.
  intros [Hn Hw Hi Hc Hr]. assert (Ho : forall type v, (forall c, v = Some c -> length c = 16%nat) -> length (concat (map bytes_of (opt type v))) = match v with Some _ => 22%nat | None => 0%nat end).
  { intros type [v|] Hv; [|done]. cbn [opt map concat]. rewrite app_nil_r. unfold bytes_of. cbn [fst snd]. rewrite length_attribute. cbn [value_bytes]. by rewrite (Hv v). }
  unfold sccrp_attributes, sccrp_length. rewrite map_app, map_app, !concat_app, !length_app, !Ho by done. cbn [map concat]. rewrite !length_app. unfold bytes_of. cbn [fst snd].
  rewrite !length_attribute. cbn [value_bytes length]. rewrite !be_split_length. change (length vendor_name) with 10%nat. lia.
Qed.

Lemma sccrp_run sv t s : sendable sv t ->
  attributes (Some sv) t s L2TP_MESSAGE_SCCRP =
  if (sccrp_length sv t <=? size)%nat then Some (attribute true L2TP_AVP_MESSAGE_TYPE (a_uint16 L2TP_MESSAGE_SCCRP) ++ concat (map bytes_of (sccrp_attributes sv t))) else None.
Proof.
  intros Hs. unfold attributes. change (mk_wr _ 0 0) with (pad []). rewrite sccrp_encode, encode_all_run by (cbn; lia). cbn [map concat]. rewrite length_app.
  unfold bytes_of at 1 3. cbn [fst snd length]. rewrite length_attribute. change (6 + length (value_bytes (a_uint16 L2TP_MESSAGE_SCCRP)))%nat with 8%nat. rewrite Nat.add_0_l, sccrp_bytes by done.
  destruct (_ <=? _)%nat; [|done]. unfold pad. cbn [w_len w_mem]. by rewrite Nat2Z.id, take_app_length.
Qed.

Lemma number_read {A} m type x rest sp (f : Z -> A -> A) a : 0 <= x < 65536 ->
  number (read_as (m, type, a_uint16 x) rest) sp 2 f a = done (f x a).
Proof.
  intros Hx. unfold number, read_as. cbn [fst snd avp_len avp_value avp_new_len value_bytes value_at mbind option_bind Z.eqb].
  change (rd_be _ 0 2) with (rd_be ([] ++ be_split 2 x ++ rest) (length (@nil Z)) 2). by rewrite rd_be_attribute.
Qed.
Lemma copied_read {A} m type v rest sp (have : A -> option (list Z)) f a : v <> [] -> have a = None ->
  copied (read_as (m, type, a_bytes v) rest) sp have f a = done (f v a).
Proof.
  intros Hv Ha. unfold copied, read_as. cbn [fst snd avp_len avp_value avp_new_len value_bytes]. rewrite Ha.
  assert (Z.of_nat (length v) <> 0) by (destruct v; [done|cbn [length]; lia]). rewrite (proj2 (Z.eqb_neq _ 0)) by done. cbn [value_at mbind option_bind].
  rewrite Nat2Z.id, length_app, (proj2 (Nat.ltb_ge _ _)) by lia. by rewrite take_app_length.
Qed.

Lemma plain_opt type v : 0 <= type < 65536 -> type <> L2TP_AVP_RANDOM_VECTOR -> (forall c, v = Some c -> length c = 16%nat) -> Forall plain (opt type v).
Proof.
  intros Ht Hr Hv. destruct v as [v|]; cbn [opt]; [|constructor]. constructor; [|constructor]. unfold plain. cbn [fst snd avp_new_len]. rewrite (Hv v) by done.
  change L2TP_AVP_HDR_LEN with 6. split; [lia|done].
Qed.
Lemma sccrp_plain sv t : sendable sv t -> (sccrp_length sv t <= size)%nat -> Forall plain (sccrp_attributes sv t).
Proof.
  intros [Hn Hw Hi Hc Hr] Hh. unfold sccrp_length, size in Hh. unfold sccrp_attributes. rewrite !Forall_app. split_and!.
  - repeat (constructor; [unfold plain; cbn [fst snd avp_new_len]; change L2TP_AVP_HDR_LEN with 6; split_and!; try (by vm_compute); try lia; change (length vendor_name) with 10%nat; lia|]). constructor.
  - by apply plain_opt.
  - by apply plain_opt.
Qed.

(** What the receiver of an SCCRP knows of its sender. *)
Definition introduced (sv : l2tp_server) (t n : tunnel) : tunnel :=
  n {{ tn_peer_framing := 3 ; tn_peer_bearer := 1 ; tn_peer_firmware := 1 ; tn_peer_name := Some (sv_host_name sv) ; tn_peer_vendor := Some vendor_name ;
       tn_peer_tunnel_id := tn_tunnel_id t ; tn_peer_receive_window := window sv ; tn_ssthresh := window sv ;
       tn_peer_challenge := tn_challenge t ; tn_peer_challenge_response := tn_challenge_response t }}.

Lemma digest_read sp c rest n have f : length c = 16%nat -> have n = None ->
  (if negb (avp_len (read_as (true, L2TP_AVP_CHALLENGE_RESPONSE, a_bytes c) rest) =? L2TP_MD5_DIGEST_LEN) then failed n
   else copied (A := tunnel) (read_as (true, L2TP_AVP_CHALLENGE_RESPONSE, a_bytes c) rest) sp have f n) = done (f c n).
Proof.
  intros Hc Hn. unfold read_as at 1. cbn [fst snd avp_len avp_new_len]. rewrite Hc. change (negb _) with false. cbv iota. apply copied_read; [by intros ->|done].
Qed.

Lemma host_read v r sp n : v <> [] -> tn_peer_name n = None ->
  tunnel_attribute (read_as (true, L2TP_AVP_HOST_NAME, a_bytes v) r) sp n = Some (true, n {{ tn_peer_name := Some v }}).
Proof. intros Hv Hn. exact (copied_read true L2TP_AVP_HOST_NAME v r sp tn_peer_name (fun v n => n {{ tn_peer_name := Some v }}) n Hv Hn). Qed.
Lemma vendor_read r sp n : tn_peer_vendor n = None ->
  tunnel_attribute (read_as (false, L2TP_AVP_VENDOR_NAME, a_bytes vendor_name) r) sp n = Some (true, n {{ tn_peer_vendor := Some vendor_name }}).
Proof. intros Hn. by apply (copied_read false L2TP_AVP_VENDOR_NAME vendor_name r sp tn_peer_vendor (fun v n => n {{ tn_peer_vendor := Some v }}) n). Qed.
Lemma id_read v r sp n : 0 <= v < 65536 ->
  tunnel_attribute (read_as (true, L2TP_AVP_ASSIGNED_TUNNEL_ID, a_uint16 v) r) sp n = Some (true, n {{ tn_peer_tunnel_id := v }}).
Proof. exact (number_read true L2TP_AVP_ASSIGNED_TUNNEL_ID v r sp (fun v n => n {{ tn_peer_tunnel_id := v }}) n). Qed.
Lemma window_read v r sp n : 0 <= v < 65536 ->
  tunnel_attribute (read_as (true, L2TP_AVP_RECEIVE_WINDOW_SIZE, a_uint16 v) r) sp n = Some (true, n {{ tn_peer_receive_window := v ; tn_ssthresh := v }}).
Proof. exact (number_read true L2TP_AVP_RECEIVE_WINDOW_SIZE v r sp (fun v n => n {{ tn_peer_receive_window := v ; tn_ssthresh := v }}) n). Qed.
Lemma challenge_read v r sp n : v <> [] -> tn_peer_challenge n = None ->
  tunnel_attribute (read_as (true, L2TP_AVP_CHALLENGE, a_bytes v) r) sp n = Some (true, n {{ tn_peer_challenge := Some v }}).
Proof. intros Hv Hn. exact (copied_read true L2TP_AVP_CHALLENGE v r sp tn_peer_challenge (fun v n => n {{ tn_peer_challenge := Some v }}) n Hv Hn). Qed.
Lemma response_read v r sp n : length v = 16%nat -> tn_peer_challenge_response n = None ->
  tunnel_attribute (read_as (true, L2TP_AVP_CHALLENGE_RESPONSE, a_bytes v) r) sp n = Some (true, n {{ tn_peer_challenge_response := Some v }}).
Proof. intros Hv Hn. exact (digest_read sp v r n tn_peer_challenge_response (fun v n => n {{ tn_peer_challenge_response := Some v }}) Hv Hn). Qed.

Lemma sccrp_handled sv t n sp : sendable sv t -> tn_peer_name n = None -> tn_peer_vendor n = None -> tn_peer_challenge n = None -> tn_peer_challenge_response n = None ->
  handle_all tunnel_attribute sp (sccrp_attributes sv t) n = Some (true, introduced sv t n).
Proof.
  intros [Hn Hw Hi Hc Hr] N1 N2 N3 N4. unfold sccrp_attributes. cbn [handle_all app].
  assert (Hwin : 0 <= window sv < 65536) by (unfold window; case_match; lia).
  change (tunnel_attribute (read_as (true, L2TP_AVP_PROTOCOL_VERSION, _) _) sp n) with (Some (true, n)). cbn [mbind option_bind].
  change (tunnel_attribute (read_as (true, L2TP_AVP_FRAMING_CAPABILITIES, _) _) sp n) with (Some (true, n {{ tn_peer_framing := 3 }})). cbn [mbind option_bind].
  change (tunnel_attribute (read_as (true, L2TP_AVP_BEARER_CAPABILITIES, _) _) sp ?n) with (Some (true, n {{ tn_peer_bearer := 1 }})). cbn [mbind option_bind].
  change (tunnel_attribute (read_as (false, L2TP_AVP_FIRMWARE_REVISION, _) _) sp ?n) with (Some (true, n {{ tn_peer_firmware := 1 }})). cbn [mbind option_bind].
  set (n1 := n {{ tn_peer_framing := 3 ; tn_peer_bearer := 1 ; tn_peer_firmware := 1 }}).
  rewrite (host_read _ _ _ n1 Hn N1). cbn [mbind option_bind].
  rewrite vendor_read by exact N2. cbn [mbind option_bind].
  rewrite id_read by done. cbn [mbind option_bind]. rewrite window_read by done. cbn [mbind option_bind].
  set (n2 := n1 {{ tn_peer_name := Some (sv_host_name sv) ; tn_peer_vendor := Some vendor_name ; tn_peer_tunnel_id := tn_tunnel_id t ;
                   tn_peer_receive_window := window sv ; tn_ssthresh := window sv }}).
  assert (Hi2 : introduced sv t n = n2 {{ tn_peer_challenge := tn_challenge t ; tn_peer_challenge_response := tn_challenge_response t }}) by reflexivity.
  rewrite Hi2. change (tn_peer_challenge n) with (tn_peer_challenge n2) in N3. change (tn_peer_challenge_response n) with (tn_peer_challenge_response n2) in N4.
  clearbody n2. clear n1 n N1 N2 Hi2. rename n2 into n.
  assert (Hchal : forall l, handle_all tunnel_attribute sp (opt L2TP_AVP_CHALLENGE (tn_challenge t) ++ l) n
                            = handle_all tunnel_attribute sp l (n {{ tn_peer_challenge := tn_challenge t }})).
  { intros l. destruct (tn_challenge t) as [c|]; cbn [opt app handle_all].
    - rewrite challenge_read; [done|intros ->; by specialize (Hc [] eq_refl)|done].
    - f_equal. destruct n. cbn in N3. by subst. }
  rewrite Hchal. destruct (tn_challenge_response t) as [c|]; cbn [opt handle_all].
  - by rewrite response_read by eauto.
  - do 2 f_equal. destruct n. cbn in N4. by subst.
Qed.

(** C22. The attributes of an SCCRP are written beyond the end of the scratchpad exactly when the
    host name is too long for it (more than 942 bytes, or 920 or 898 when there is a challenge
    or a response or both); otherwise what is written, without the message type that the packet
    decoder takes off, is read as the name, identifier, window, capabilities, challenge and
    response of the sender. *)
Theorem l2tp_sccrp_roundtrip (md5 : list Z -> list Z) (sv : l2tp_server) (peer : option l2tp_server) (t n : tunnel) (s : option lsession) (sp : list Z) (l2tp : l2tp_t) :
  sendable sv t -> tn_peer_name n = None -> tn_peer_vendor n = None -> tn_peer_challenge n = None -> tn_peer_challenge_response n = None ->
  (attributes (Some sv) t s L2TP_MESSAGE_SCCRP = None <-> L2TP_MAX_AVP_SIZE < Z.of_nat (sccrp_length sv t))
  /\ forall bs, attributes (Some sv) t s L2TP_MESSAGE_SCCRP = Some bs ->
     bbl_l2tp_avp_decode_tunnel md5 peer (l2tp {{ l2tp_payload := Some (drop 8 bs) ; l2tp_payload_len := Z.of_nat (length bs) - 8 }}) sp n
     = Some (true, introduced sv t n).
Proof.
  intros Hs N1 N2 N3 N4. rewrite sccrp_run by done. change L2TP_MAX_AVP_SIZE with (Z.of_nat size). destruct (Nat.leb_spec (sccrp_length sv t) size) as [Hl|Hl]; [|split; [split; [lia|done]|done]].
  split; [split; [done|lia]|]. intros bs [= <-]. unfold bbl_l2tp_avp_decode_tunnel, decode_with.
  set (a := concat (map bytes_of (sccrp_attributes sv t))).
  change (default [] (l2tp_payload _)) with a. change (l2tp_payload_len _) with (Z.of_nat (length (attribute true L2TP_AVP_MESSAGE_TYPE (a_uint16 L2TP_MESSAGE_SCCRP) ++ a)) - 8).
  rewrite length_app, length_attribute. cbn [value_bytes]. rewrite be_split_length.
  replace (Z.of_nat (6 + 2 + length a) - 8) with (Z.of_nat (length a)) by lia. subst a. rewrite loop_attributes.
  - by apply sccrp_handled.
  - by apply sccrp_plain.
  - induction (sccrp_attributes sv t) as [|x l IH]; cbn [map concat length]; [lia|]. rewrite length_app. unfold bytes_of at 1. rewrite length_attribute. lia.
Qed.

Lemma l2tp_sccrp_roundtrip_witness :
  let t := tunnel0 {{ tn_tunnel_id := 7 ; tn_challenge := Some (replicate 16 5) }} in
  exists bs n, attributes (Some sample_server) t None L2TP_MESSAGE_SCCRP = Some bs
  /\ bbl_l2tp_avp_decode_tunnel sample_md5 None (l2tp0 {{ l2tp_payload := Some (drop 8 bs) ; l2tp_payload_len := Z.of_nat (length bs) - 8 }}) [] tunnel0 = Some (true, n)
  /\ tn_peer_tunnel_id n = 7 /\ tn_peer_name n = Some (chars "lns") /\ tn_peer_challenge n = Some (replicate 16 5).
Proof.
  intros t. destruct (l2tp_sccrp_roundtrip sample_md5 sample_server None t tunnel0 None [] l2tp0) as [Ha Hd]; try reflexivity.
  - split; [by vm_compute|by vm_compute|by vm_compute| |done]. intros c [= <-]. reflexivity.
  - assert (Hf : attributes (Some sample_server) t None L2TP_MESSAGE_SCCRP <> None) by (intros E; apply Ha in E; revert E; by vm_compute).
    clear Ha. destruct (attributes (Some sample_server) t None L2TP_MESSAGE_SCCRP) as [bs|]; [|by destruct Hf].
    exists bs, (introduced sample_server t tunnel0). split_and!; [reflexivity|exact (Hd bs eq_refl)|reflexivity|reflexivity|reflexivity].
Defined.
