(* ===== verification/L2tpHidden.v ===== *)
(** Hidden attributes in the first message of a tunnel (bbl_l2tp.c, bbl_l2tp_avp.c).

    The attributes of an SCCRQ are decoded before the tunnel is bound to a server, whose secret
    the decoder needs for a hidden attribute. *)
From coqutil Require Import Datatypes.RecordSetters.
From S2P Require Import Prelude.
From S2P Require Import Const.
From S2P Require Import ConstApp.
From S2P Require Import ConstStream.
From S2P Require Import ConstNet.
From S2P Require Import ProtoTypes.
From S2P Require Import Enc.
From S2P Require Import Session.
From S2P Require Import SessionInit.
From S2P Require Import L2tpAvp.
From S2P Require Import L2tp.
From S2P Require Import L2tpOrder.
From S2P Require Import L2tpRound.
Import RecordSetters.DoubleBraceUpdate.
From stdpp Require Import gmap list strings.
Open Scope Z_scope.

(** * Reading *)






(** * Decoding *)








