(* ===== verification/L2tpErrors.v ===== *)
(** Messages and silences that the L2TP server does not handle as it means to, on the server
    of L2tpOrder.v. *)
From coqutil Require Import Datatypes.RecordSetters.
From S2P Require Import Prelude.
From S2P Require Import Const.
From S2P Require Import ConstApp.
From S2P Require Import ConstStream.
From S2P Require Import ConstNet.
From S2P Require Import ProtoTypes.
From S2P Require Import Timer.
From S2P Require Import Session.
From S2P Require Import SessionInit.
From S2P Require Import L2tpAvp.
From S2P Require Import L2tp.
From S2P Require Import L2tpOrder.
Import RecordSetters.DoubleBraceUpdate.
From stdpp Require Import gmap list strings.
Open Scope Z_scope.

(** ** A silent peer *)

Definition when_alive (m : lm (list (list Z))) : lm (list (list Z)) :=
  tunnels ← get l_tunnel; if bool_decide (is_Some (tunnels !! 1)) then m else mret [].

(** Every second the control job runs, then the transmit job, and the interface sends what is
    queued. *)
Definition second (k : Z) : lm (list (list Z)) :=
  when_alive (
    bbl_l2tp_tunnel_control_job 1;;
    when_alive (bbl_l2tp_tunnel_tx_job (mk_ts k 0) 1;; p ← tx_l2tp 0; q ← tx_l2tp 0; mret [p; q])).
Fixpoint seconds (n : Datatypes.nat) (k : Z) : lm (list (list Z)) :=
  match n with O => mret [] | S n => l ← second k; l' ← seconds n (k + 1); mret (l ++ l') end.

(** The types of the messages among packets, [L2TP_MESSAGE_ZLB] for those without attributes. *)
Definition message_type (p : list Z) : option Z :=
  match p with [] => None | _ => Some (match drop 60 p with a :: b :: _ => be_combine [a; b] | _ => L2TP_MESSAGE_ZLB end) end.

Definition impatient : lns := lns0 {{ l_servers := [(sample_server {{ sv_max_retry := 1 ; sv_hello_interval := 1 }}, [])] }}.

(** [bbl_l2tp_force_stop] opens the window by one so that the StopCCN is sent, but the
    transmit job sets the window to one again: when a peer stops to answer, the message it
    has not acknowledged is repeated until the tunnel is deleted, and no StopCCN is sent. *)
Theorem l2tp_stopccn_unsent :
  match (sample_receive [sccrq; scccn];; seconds 10 10) impatient, (sample_receive [sccrq; scccn];; seconds 45 10) impatient with
  | Some (_, s), Some (packets, s') =>
      tn_state <$> l_tunnel s !! 1 = Some BBL_L2TP_TUNNEL_SEND_STOPCCN
      /\ omap message_type packets = [L2TP_MESSAGE_ZLB] ++ replicate 6 L2TP_MESSAGE_HELLO /\ l_tunnel s' = ∅
  | _, _ => False
  end.
Proof. vm_compute. split_and!; reflexivity. Qed.

(** ** Counters and servers *)

Definition bad_icrq (ns : Z) : l2tp_t := message L2TP_MESSAGE_ICRQ 1 0 ns 1 (avp_bytes 32768 L2TP_AVP_ASSIGNED_SESSION_ID [9]).

(** A disconnect cause of direction 1. *)
Definition cause : l2tp_t := message L2TP_MESSAGE_CDN 1 1 4 1 (avp_bytes 0 L2TP_AVP_PPP_DISCONNECT_CODE [0; 3; 0; 0; 1]).

(** A session whose ICRQ is not decoded is deleted before it has an identifier, so it
    stays in the number of sessions; a repeated SCCRQ for any but the first server opens a
    second tunnel; and the direction of a disconnect cause is read as 256 times its value. *)
Theorem l2tp_bookkeeping :
  match sample_receive [sccrq; scccn; bad_icrq 2; bad_icrq 3] lns0 with
  | Some (_, s) => l_sessions s = 2 /\ size (l_session s) = 1%nat
  | None => False
  end
  /\ match sample_receive [sccrq; sccrq] lns0, sample_receive [sccrq; sccrq] (lns0 {{ l_servers := [(sample_server {{ sv_ip := 9 }}, []); (sample_server, [])] }}) with
     | Some (_, s1), Some (_, s2) => l_tunnels s1 = 1 /\ l_tunnels s2 = 2
     | _, _ => False
     end
  /\ match bbl_l2tp_avp_decode_session sample_md5 None cause scratch lsession0 with
     | Some (_, x) => se_disconnect_direction x = 256
     | None => False
     end.
Proof. vm_compute. split_and!; reflexivity. Qed.
